(* ===== verification/_CoqProject ===== *)
-Q . S2P
Prelude.v
Text.v
Float.v
Status.v
Effect.v
Source.v
Ranges.v
Piece.v
Files.v
Checksum.v
Manifest.v
Planner.v
Payload.v
Torrent.v
Config.v
Task.v
Speed.v
Mapping.v
Session.v
Repository.v
Memory.v
JsonStore.v
Backends.v
Store.v
Recovery.v
Probe.v
WorkerRun.v
WorkerFacts.v
WorkerLive.v
Job.v
JobFacts.v
JobStart.v
JobResume.v
Transfer.v
Coordinator.v
CoordinatorSteps.v
CoordinatorFacts.v
System.v
SystemFacts.v
Queue.v
Resume.v
Magnet.v
RateLimiter.v
Handles.v
Discovery.v
Swarm.v
Providers.v
TorrentJob.v
TorrentJobFacts.v
Program.v
Engine.v
EngineFacts.v
Sqlite.v
Storage.v
Startup.v
Commands.v
Options.v
Cli.v
Render.v
CliFacts.v
CliSystem.v
NativeCli.v
NativeFacts.v
