(* ===== verification/Prelude.v ===== *)
(** * paradown: a verification development

    paradown downloads files over HTTP(S), FTP and BitTorrent.  A manager runs a
    limited number of tasks at a time; a task finds out what it downloads, cuts it
    into pieces and blocks, deals these out to workers, and stores its progress, so
    that it can go on after a restart; a worker requests its range of bytes from a
    source and writes it into the payload.  This library models the program's core
    (the crate in src/src) and proves what it promises.

    ** Layout

    Every file models the part of the program that its title names; the comment
    before a definition names the lines it translates.

    - [Prelude], [Text], [Float], [Effect], [Files], [Ranges]: results and [?],
      record update, machine integers, lists, maps; strings and paths; 64-bit
      floating point numbers; functions from a state to a result and a state; the
      file system; consecutive byte ranges.
    - [Status], [Source], [Piece], [Checksum], [Manifest], [Torrent], [Config]: the
      data (error.rs, status.rs, domain/, chunk.rs, checksum.rs, p2p/engine.rs,
      p2p/manifest.rs, config.rs), as inductive types and records with the source's
      constructors and fields.
    - [Planner] (scheduler/planner.rs) cuts a payload into lanes; [Payload]
      (payload/) writes bytes at offsets of a payload laid out over files.
    - [Task] (job/mod.rs, worker/mod.rs): a task and its workers, and the
      operations that change nothing else; [Speed] (stats.rs) its speeds;
      [Session] (download.rs, request/) its snapshots and the builders of requests;
      [Handles] (download.rs, coordinator/) the sessions through which a client of
      the library acts on the manager's tasks.
      [Mapping] (storage/mapping.rs, request/): what is stored of a task.
    - [Repository] (repository/contract.rs): the class of the storage backends and
      [RepositoryLaws], what they promise, in terms of sets of rows; [Memory] and
      [JsonStore] implement it; [Backends] compares them; [Sqlite] has the tables
      and statements of the third; [Store] (storage/) is their client, proved
      against the class, and [Storage] opens the backend of a configuration.
      [Recovery] (recovery.rs) decides what is trusted of what
      was stored.
    - [Probe] (runtime.rs, protocol_probe.rs, discovery/origin.rs): requests and
      what is read of responses.  [WorkerRun] (worker/, transfer/): the
      download loop of a worker against an arbitrary server; [WorkerFacts] what
      cannot go wrong in it, [WorkerLive] how it gets to its end.  [RateLimiter]
      (rate_limiter.rs).
    - [Job], [JobFacts], [JobStart] (job/): starting, preparing, verifying, pausing,
      cancelling, deleting, finishing and storing a task, and its workers' events.
      [JobResume]: a task that is started or resumed and finds its file.
      [Transfer]: the workers of a task together, from its start to its end.
      [Resume]: downloads that are stopped and resumed.
      [Magnet], [Swarm], [Providers], [TorrentJob], [TorrentJobFacts]
      (p2p/magnet.rs, p2p/provider.rs, job/p2p.rs): the same for torrents, and
      where their peers come from.  [Discovery] (discovery/swarm.rs): the torrents
      and trackers that a text, a page or a feed names.
    - [Coordinator] (coordinator/): permits, queue, transitions, events, over the
      class [TaskSystem] of tasks with [TaskSystemLaws]; [CoordinatorSteps] is the
      relation of all interleavings of its operations' parts; [CoordinatorFacts] its
      invariant and behaviour.  [System], [SystemFacts] (coordinator/registry.rs)
      implement the class with the tasks of [Job], for which [Queue] shows that
      the queue is served; [Program] puts it all together.
    - [Startup] (config.rs, runtime.rs): configuration files, the builder and the
      HTTP client that a configuration asks for.  [Commands], [Options], [Cli]
      (cli_app/, main.rs): commands as typed, the options of the command line, and
      the run of the program, over the class [SessionSystem]; [CliFacts] and
      [CliSystem] show what it keeps to, the latter for the tasks of [System].
      [Render] (cli_app/render.rs): the dashboard and the reporters that run beside it.
    - [Engine], [EngineFacts] (integrations/libtorrent-engine): the torrent engine
      around the native library, over the class [NativeLib]; [NativeCli],
      [NativeFacts] its program that runs torrents, over [TorrentRunner].

    A [struct] is a record, an [enum] an inductive type.  Code that can fail and
    changes state is a function of type [eff S A] (file [Effect]): it gives a result
    or an error, and the state that is left in either case, so the changes before
    an early return are kept as they are in the code.  Code that awaits others is
    a function with a parameter for what they do ([meanwhile]; the signals of
    [WorkerRun]) or, in the manager, a step relation.  Integers are integers of
    [Z] with the wrapping or saturation of the code written out; in a release build
    they wrap.

    ** What is shown

    - The bytes: a download delivers the resource, however its workers' writes are
      interleaved and however often it is stopped and resumed, where a session
      begins afresh unless the file that is found is accepted
      ([Resume.interrupted_delivers]), which without checksums it is whatever it
      holds ([Resume.resume_completes_unverified]); a worker only ever writes the resource's bytes into
      its range, whatever fails, and counts what it writes
      ([WorkerFacts.worker_writes_its_range]); the payload store is
      one flat array ([Payload.write_at_refines]), in which the ranges may be
      written in any order; the lanes of a plan tile the payload
      ([Planner.plan_execution_lanes_tile]), and so do pieces, blocks and chunks
      ([Piece]); a task's workers partition it ([JobStart.ensure_workers_spec]).
    - What is stored: both repositories keep the contract and agree
      ([Backends.backends_agree]); a file that is opened again gives the state that
      was saved ([JsonStore.json_repository_durable]); saving and deleting a task
      change its bundle and no other, and deleting leaves none of its rows but, in
      SQLite, those of its workers and checksums ([Store],
      [Sqlite.sqlite_keeps_workers]); what a task is restored to can be
      relied on ([Recovery]); stored tasks read back as what they were
      ([Mapping.task_stored]).
    - The life of a task: deletion, and what is left when a step of it fails,
      completion, pausing and cancelling in every case
      ([JobFacts]), among them that every completion which waits behind the last
      one ends the download again ([JobFacts.completions_repeat]); starting
      ([JobStart]); the events of a torrent
      ([TorrentJobFacts.torrent_events_spec]).
    - The manager: permits are conserved under every interleaving
      ([CoordinatorFacts.permits_conserved]), its calls are such interleavings
      ([CoordinatorSteps]), the tasks that wait are started in the order of the
      queue as others end ([Queue.queue_drains]); what adding, starting and
      restoring tasks does ([SystemFacts]); a session that is resumed goes past the permits
      ([Handles.session_resume_spec]).
    - The program: what can be typed ([Commands.commands_typed]) and what each line
      does ([CliFacts.typed_commands_spec]); the configuration that a run has
      ([Options.build_config_spec]); its exit code, and two ways in which it does
      not do what it should after a restart ([CliSystem]); what its dashboard shows ([Render.dashboard_spec]).
    - The torrent engine: who polls it and where its alerts go
      ([EngineFacts.engine_polls]), what starting a session leaves behind
      ([EngineFacts.start_spec]); what the exit code of its program says of the
      torrents it was given, and where the files it fetches are kept
      ([NativeFacts.native_runner_spec]).
    - Bounds and ends: a worker whose server fails no more often than it retries
      completes ([WorkerLive.worker_completes]), and it always ends
      ([WorkerFacts.worker_start_ends]); the bytes that pass in a time under a rate
      limit ([RateLimiter.rate_limit_spec]), the limits of a swarm's resolution
      ([Swarm.resolve_spec]), transitions
      ([CoordinatorFacts.transition_recursion]).

    Some theorems state what goes wrong: they prove, on the code as it is, the
    defects that modelling it showed (a retried stream counts its bytes twice; a
    failed start leaves a task Preparing; a task that is gone stalls the queue; and
    others, named where they are proved).

    ** Fuel

    Loops that are not structural take fuel, and a theorem or lemma says that it is
    enough.  The download loop of [WorkerRun] gets the retries that are left and
    one more, since every round uses one ([WorkerFacts.worker_start_ends]).
    [Coordinator.run_task_transition] gets the length of the queue, from which each
    nested transition takes an entry ([CoordinatorFacts.transition_recursion] is
    the equation of the code).  [System.first_free] looks at one id more than there
    are tasks ([SystemFacts.next_task_id_free]).  The loops that cut a payload get
    the number of cuts ([Ranges.chop_fuel_enough]), the reading loop of a digest
    the number of bytes and one more ([Checksum.hash_loop_whole]), the printing of
    a number twenty digits and the decoding of a text its length.

    ** Parameters

    Code outside of the repository is a parameter of the definitions that use it:
    the URL parser, the HTTP client and its errors, digests, serde_json, the
    torrent engine, the wrapper in C++ around the native library (class
    [NativeLib]), the network and the clock.  Where a theorem relies on it, what
    it relies on is a class of laws or a hypothesis (that a text written as JSON
    reads back; that a query written into a link reads back; that a digest depends
    on the content alone), and the examples instantiate it.

    ** Not modelled

    Logging, and the wrapper of the native torrent library, which is written in
    C++.  Reading and writing the terminal, parsing arguments and running the
    hook's process are input and output.  Files have no permissions and a disk is
    never full. *)

From stdpp Require Export base gmap strings list fin_maps sorting.
From Stdlib Require Export ZArith Lia.
From Stdlib Require Export Ascii.

#[export] Set Default Goal Selector "!".

(** ** Results

    Rust's [Result<A, E>], and a notation for [?]. *)
Inductive result (A E : Type) : Type :=
  | Ok (a : A)
  | Err (e : E).
Arguments Ok {A E} a.
Arguments Err {A E} e.

Definition result_bind {A B E} (r : result A E) (k : A → result B E) : result B E :=
  match r with Ok a => k a | Err e => Err e end.

Lemma result_bind_Ok {A B E} (r : result A E) (k : A → result B E) b :
  result_bind r k = Ok b → ∃ a, r = Ok a ∧ k a = Ok b.
Proof. destruct r as [a|e]; cbn; [eauto|done]. Qed.

Definition result_map_err {A E F} (f : E → F) (r : result A E) : result A F :=
  match r with Ok a => Ok a | Err e => Err (f e) end.

Definition result_ok {A E} (r : result A E) : option A :=
  match r with Ok a => Some a | Err _ => None end.

Definition ok_or {A E} (o : option A) (e : E) : result A E :=
  match o with Some a => Ok a | None => Err e end.

(** [Option<Result<A, E>>::transpose]. *)
Definition transpose {A E} (o : option (result A E)) : result (option A) E :=
  match o with
  | None => Ok None
  | Some (Ok a) => Ok (Some a)
  | Some (Err e) => Err e
  end.

Definition is_ok {A E} (r : result A E) : bool :=
  match r with Ok _ => true | Err _ => false end.

Declare Scope rust_scope.
Delimit Scope rust_scope with rust.
Notation "'let?' x ':=' m 'in' k" := (result_bind m (λ x, k))
  (at level 10, x pattern, m at level 100, k at level 200) : rust_scope.
Open Scope rust_scope.

(** [Option::unwrap_or], [Option::is_some], [Option::is_none]. *)
Definition unwrap_or {A} (d : A) (o : option A) : A :=
  match o with Some a => a | None => d end.
Definition is_some {A} (o : option A) : bool :=
  match o with Some _ => true | None => false end.
Definition is_none {A} (o : option A) : bool := negb (is_some o).
(** [Option::or]. *)
Definition opt_or {A} (a b : option A) : option A :=
  match a with Some _ => a | None => b end.
(** [Option::is_some_and]. *)
Definition is_some_and {A} (f : A → bool) (o : option A) : bool :=
  match o with Some a => f a | None => false end.
(** [Option::filter]. *)
Definition opt_filter {A} (f : A → bool) (o : option A) : option A :=
  match o with Some a => if f a then Some a else None | None => None end.

(** ** Record update

    [r <| f := v |>] is the record [r] with its field [f] set to [v], and
    [r <| f ::= g |>] applies [g] to the field.  A record type supports it once
    its eta expansion is declared as an instance of [Settable]; the update
    function of a field is that expansion with the field abstracted. *)
Class Settable (R : Type) := eta : R → R.
Class Setter {R T : Type} (proj : R → T) := update : (T → T) → R → R.
Global Arguments update {R T} proj {_} _ _.

Ltac solve_setter :=
  match goal with
  | |- @Setter ?R ?T ?proj =>
      let e := constr:(_ : Settable R) in
      let e := eval cbv beta delta [eta] in e in
      let e := (let h := head_of e in eval cbv beta delta [h] in e) in
      match eval pattern proj in e with
      | ?abs _ => exact (λ (f : T → T), abs (λ r, f (proj r)))
      end
  end
with head_of e := match e with ?f _ => head_of f | _ => e end.
#[export] Hint Extern 1 (Setter _) => solve_setter : typeclass_instances.

Notation "r <| f ::= g |>" := (update f g r)
  (at level 12, f at next level, left associativity, format "r  <| f  ::=  g |>") : rust_scope.
Notation "r <| f := v |>" := (update f (λ _, v) r)
  (at level 12, f at next level, left associativity, format "r  <| f  :=  v |>") : rust_scope.

(** ** Machine integers

    A [u32], [u64] or [usize] is an integer of [Z] in the range of its width
    ([usize] is 64 bits wide).  The operations of the code that saturate or
    wrap are written out. *)
Open Scope Z_scope.

Definition u16_max : Z := 65535.
Definition u32_max : Z := 4294967295.
Definition u64_max : Z := 18446744073709551615.

Definition is_u16 (z : Z) : Prop := 0 ≤ z ≤ u16_max.
Definition is_u32 (z : Z) : Prop := 0 ≤ z ≤ u32_max.
Definition is_u64 (z : Z) : Prop := 0 ≤ z ≤ u64_max.

(** [x as u32], and [+=] on a [u32] in a release build. *)
Definition wrap32 (z : Z) : Z := z mod 4294967296.
Definition wrap64 (z : Z) : Z := z mod 18446744073709551616.

(** [u64::saturating_add], [u64::saturating_sub], [u64::saturating_mul]. *)
Definition sat_add (a b : Z) : Z := Z.min (a + b) u64_max.
Definition sat_sub (a b : Z) : Z := Z.max (a - b) 0.
Definition sat_mul (a b : Z) : Z := Z.min (a * b) u64_max.
(** [u32::saturating_add], [u32::saturating_mul]. *)
Definition sat_add32 (a b : Z) : Z := Z.min (a + b) u32_max.
Definition sat_mul32 (a b : Z) : Z := Z.min (a * b) u32_max.
(** [u64::div_ceil]. *)
Definition div_ceil (a b : Z) : Z := (a + b - 1) / b.
(** [Ord::clamp]. *)
Definition clamp (x lo hi : Z) : Z := Z.max lo (Z.min x hi).

(** [Vec::len]. *)
Definition zlen {A} (l : list A) : Z := Z.of_nat (length l).

Ltac unfold_int :=
  unfold is_u16, is_u32, is_u64, sat_add, sat_sub, sat_mul, sat_add32, sat_mul32, clamp,
    u16_max, u32_max, u64_max in *.
(** Linear arithmetic over the machine-integer operations. *)
Ltac ilia := unfold_int; lia.

Lemma wrap32_small z : is_u32 z → wrap32 z = z.
Proof. intros H. unfold wrap32. apply Z.mod_small. ilia. Qed.
Lemma wrap64_small z : is_u64 z → wrap64 z = z.
Proof. intros H. unfold wrap64. apply Z.mod_small. ilia. Qed.
Lemma wrap32_range z : is_u32 (wrap32 z).
Proof. unfold wrap32, is_u32, u32_max. pose proof (Z.mod_pos_bound z 4294967296). lia. Qed.
Lemma sat_add_exact a b : 0 ≤ a → 0 ≤ b → a + b ≤ u64_max → sat_add a b = a + b.
Proof. ilia. Qed.
Lemma sat_sub_exact a b : b ≤ a → sat_sub a b = a - b.
Proof. ilia. Qed.

Create HintDb rust.
Create Rewrite HintDb rust.
#[export] Hint Resolve wrap32_range sat_add_exact sat_sub_exact : rust.
#[export] Hint Rewrite wrap32_small wrap64_small using (ilia) : rust.

(** ** Booleans and comparisons *)
Lemma bool_iff (a b : bool) : (a = true ↔ b = true) → a = b.
Proof. destruct a, b; intuition. Qed.

(** Decide every boolean comparison of the context and the goal. *)
Ltac bool_hyps :=
  repeat match goal with
  | H : (_ && _)%bool = true |- _ => apply andb_true_iff in H; destruct H
  | H : (_ || _)%bool = false |- _ => apply orb_false_iff in H; destruct H
  | H : negb _ = true |- _ => apply negb_true_iff in H
  | H : negb _ = false |- _ => apply negb_false_iff in H
  | H : (_ =? _)%Z = true |- _ => apply Z.eqb_eq in H
  | H : (_ =? _)%Z = false |- _ => apply Z.eqb_neq in H
  | H : (_ <? _)%Z = true |- _ => apply Z.ltb_lt in H
  | H : (_ <? _)%Z = false |- _ => apply Z.ltb_ge in H
  | H : (_ <=? _)%Z = true |- _ => apply Z.leb_le in H
  | H : (_ <=? _)%Z = false |- _ => apply Z.leb_gt in H
  | H : String.eqb _ _ = true |- _ => apply String.eqb_eq in H
  | H : String.eqb _ _ = false |- _ => apply String.eqb_neq in H
  | H : bool_decide _ = true |- _ => apply bool_decide_eq_true_1 in H
  | H : bool_decide _ = false |- _ => apply bool_decide_eq_false_1 in H
  end.

(** ** Lists *)

(** [iter().find(p)] and [iter().position(p)]. *)
Fixpoint find_first {A} (p : A → bool) (l : list A) : option A :=
  match l with
  | [] => None
  | x :: l => if p x then Some x else find_first p l
  end.

Fixpoint position {A} (p : A → bool) (l : list A) : option Z :=
  match l with
  | [] => None
  | x :: l => if p x then Some 0 else (Z.succ <$> position p l)
  end.

(** [iter().filter(p).collect()] and [Vec::retain]. *)
Definition filterb {A} (p : A → bool) (l : list A) : list A := List.filter p l.

(** [iter().filter(p).count()]. *)
Definition countb {A} (p : A → bool) (l : list A) : Z := zlen (filterb p l).

(** [zip(a, b)] over a mutable slice: the elements of [a] beyond the length of
    [b] are kept. *)
Fixpoint zip_update {A B} (f : A → B → A) (l : list A) (k : list B) : list A :=
  match l, k with
  | x :: l, y :: k => f x y :: zip_update f l k
  | _, _ => l
  end.

(** Update of the first element that satisfies [p]. *)
Fixpoint update_first {A} (p : A → bool) (f : A → A) (l : list A) : list A :=
  match l with
  | [] => []
  | x :: l => if p x then f x :: l else x :: update_first p f l
  end.

(** [&v[a..b]]. *)
Definition slice {A} (l : list A) (a b : Z) : list A :=
  take (Z.to_nat (b - a)) (drop (Z.to_nat a) l).

Definition zsum (l : list Z) : Z := foldr Z.add 0 l.
(** [iter().sum::<u64>()] in a release build. *)
Definition wrapping_sum (l : list Z) : Z := foldl (λ acc x, wrap64 (acc + x)) 0 l.

Lemma zsum_app l k : zsum (l ++ k) = zsum l + zsum k.
Proof. induction l as [|x l IH]; simpl; [done|]. lia. Qed.

Lemma wrapping_sum_exact l :
  Forall (λ x, 0 ≤ x) l → zsum l ≤ u64_max → wrapping_sum l = zsum l.
Proof.
  unfold wrapping_sum. intros Hl. assert (∀ acc, 0 ≤ acc → acc + zsum l ≤ u64_max →
    foldl (λ acc x, wrap64 (acc + x)) acc l = acc + zsum l) as Hacc; [|intros Hs; by rewrite Hacc].
  induction Hl as [|x l Hx Hl IH]; intros acc Ha Hs; simpl in *; [lia|].
  assert (0 ≤ zsum l) by (clear -Hl; induction Hl; simpl; lia).
  rewrite wrap64_small by ilia. rewrite IH; lia.
Qed.

Lemma zlen_nonneg {A} (l : list A) : 0 ≤ zlen l.
Proof. unfold zlen. lia. Qed.
Lemma zlen_app {A} (l k : list A) : zlen (l ++ k) = zlen l + zlen k.
Proof. unfold zlen. rewrite length_app. lia. Qed.
Lemma zlen_cons {A} (x : A) l : zlen (x :: l) = zlen l + 1.
Proof. unfold zlen. simpl. lia. Qed.
Lemma zlen_nil {A} : zlen ([] : list A) = 0.
Proof. done. Qed.
Lemma zlen_fmap {A B} (f : A → B) l : zlen (f <$> l) = zlen l.
Proof. unfold zlen. by rewrite length_fmap. Qed.
#[export] Hint Rewrite @zlen_app @zlen_cons @zlen_nil @zlen_fmap : rust.
#[export] Hint Resolve zlen_nonneg : rust.

Lemma slice_fmap {A B} (f : A → B) l i j : f <$> slice l i j = slice (f <$> l) i j.
Proof. unfold slice. by rewrite fmap_take, fmap_drop. Qed.

Lemma slice_length {A} (l : list A) i j : 0 ≤ i ≤ j → j ≤ zlen l → zlen (slice l i j) = j - i.
Proof. unfold slice, zlen. rewrite length_take, length_drop. lia. Qed.

Lemma slice_split {A} (l : list A) a b c :
  0 ≤ a ≤ b → b ≤ c → slice l a b ++ slice l b c = slice l a c.
Proof.
  intros Ha Hb. unfold slice.
  replace (drop (Z.to_nat b) l) with (drop (Z.to_nat (b - a)) (drop (Z.to_nat a) l))
    by (rewrite drop_drop; f_equal; lia).
  replace (Z.to_nat (c - a)) with (Z.to_nat (b - a) + Z.to_nat (c - b))%nat by lia.
  by rewrite take_take_drop.
Qed.

Lemma slice_all {A} (l : list A) : slice l 0 (zlen l) = l.
Proof. unfold slice, zlen. rewrite drop_0. apply firstn_all2. lia. Qed.

Lemma find_first_Some {A} (p : A → bool) l x :
  find_first p l = Some x → x ∈ l ∧ p x = true.
Proof.
  induction l as [|y l IH]; simpl; [done|]. destruct (p y) eqn:E.
  - intros [= ->]. split; [left|done].
  - intros H%IH. destruct H. split; [by right|done].
Qed.

Lemma find_first_None {A} (p : A → bool) l :
  find_first p l = None ↔ ∀ x, x ∈ l → p x = false.
Proof.
  induction l as [|y l IH]; simpl.
  - split; [intros _ x Hx; by apply elem_of_nil in Hx|done].
  - destruct (p y) eqn:E; split.
    + done.
    + intros H. rewrite (H y) in E by left. done.
    + intros H x [->|Hx]%elem_of_cons; [done|]. by apply IH.
    + intros H. apply IH. intros x Hx. apply H. by right.
Qed.

Lemma find_first_ext {A} (p q : A → bool) l :
  (∀ x, x ∈ l → p x = q x) → find_first p l = find_first q l.
Proof.
  induction l as [|y l IH]; simpl; intros H; [done|].
  rewrite <- (H y) by left. destruct (p y); [done|].
  apply IH. intros x Hx. apply H. by right.
Qed.

Lemma position_Some {A} (p : A → bool) l i :
  position p l = Some i →
  ∃ x, l !! Z.to_nat i = Some x ∧ p x = true ∧ 0 ≤ i < zlen l ∧
    ∀ j y, (j < Z.to_nat i)%nat → l !! j = Some y → p y = false.
Proof.
  revert i. induction l as [|x l IH]; intros i; simpl; [done|].
  destruct (p x) eqn:E.
  - intros [= <-]. exists x. rewrite zlen_cons. pose proof (zlen_nonneg l).
    split_and!; [done|done|lia|lia|]. intros j y Hj. simpl in Hj. lia.
  - destruct (position p l) as [k|] eqn:Ek; simpl; [|done].
    intros [= <-]. destruct (IH k eq_refl) as (y & Hy & Hp & Hr & Hlt).
    exists y. rewrite zlen_cons. rewrite Z2Nat.inj_succ by lia.
    split_and!; [done|done|lia|lia|].
    intros [|j] z Hj; simpl; [by intros [= ->]|]. apply Hlt. lia.
Qed.

Lemma position_None {A} (p : A → bool) l :
  position p l = None → ∀ x, x ∈ l → p x = false.
Proof.
  induction l as [|y l IH]; simpl; intros H x Hx.
  - by apply elem_of_nil in Hx.
  - destruct (p y) eqn:E; [done|]. destruct (position p l); [done|].
    apply elem_of_cons in Hx as [->|Hx]; [done|]. by apply IH.
Qed.

Lemma elem_of_filterb {A} (p : A → bool) l x : x ∈ filterb p l ↔ x ∈ l ∧ p x = true.
Proof. unfold filterb. rewrite !list_elem_of_In. apply filter_In. Qed.

Lemma nodup_filterb {A K} (key : A → K) p (l : list A) : NoDup (key <$> l) → NoDup (key <$> filterb p l).
Proof.
  induction l as [|a l IH]; simpl; [done|]. intros [Ha Hnd]%NoDup_cons.
  destruct (p a); [|by apply IH]. rewrite fmap_cons. constructor; [|by apply IH].
  intros (b & Hb & Hin)%list_elem_of_fmap. apply Ha. rewrite Hb. apply list_elem_of_fmap_2.
  by apply elem_of_filterb in Hin as [? _].
Qed.

Lemma filterb_app {A} (p : A → bool) l k : filterb p (l ++ k) = filterb p l ++ filterb p k.
Proof. apply List.filter_app. Qed.

Lemma filterb_cons {A} (p : A → bool) x l :
  filterb p (x :: l) = if p x then x :: filterb p l else filterb p l.
Proof. done. Qed.

Lemma filterb_all {A} (p : A → bool) l : (∀ x, x ∈ l → p x = true) → filterb p l = l.
Proof.
  induction l as [|x l IH]; intros H; [done|].
  rewrite filterb_cons, (H x) by left. rewrite IH; [done|].
  intros y Hy. apply H. by right.
Qed.

Lemma filterb_none {A} (p : A → bool) l : (∀ x, x ∈ l → p x = false) → filterb p l = [].
Proof.
  induction l as [|x l IH]; intros H; [done|].
  rewrite filterb_cons, (H x) by left. apply IH. intros y Hy. apply H. by right.
Qed.

Lemma forallb_fmap {A B} (p : B → bool) (f : A → B) l :
  forallb p (f <$> l) = forallb (λ x, p (f x)) l.
Proof. induction l as [|x l IH]; csimpl; [done|]. by rewrite IH. Qed.

Lemma forallb_ext_in {A} (p q : A → bool) l :
  (∀ x, x ∈ l → p x = q x) → forallb p l = forallb q l.
Proof.
  induction l as [|x l IH]; intros H; simpl; [done|].
  rewrite (H x) by left. rewrite IH; [done|]. intros y Hy. apply H. by right.
Qed.

Lemma bind_ext_in {A B} (f g : A → list B) l :
  (∀ x, x ∈ l → f x = g x) → (l ≫= f) = (l ≫= g).
Proof.
  induction l as [|x l IH]; intros H; csimpl; [done|].
  rewrite (H x) by left. rewrite IH; [done|]. intros y Hy. apply H. by right.
Qed.

Lemma list_fmap_bind_singleton {A B} (f : A → B) l : f <$> l = (l ≫= λ x, [f x]).
Proof. induction l as [|x l IH]; csimpl; [done|]. by rewrite IH. Qed.

Lemma length_zip_update {A B} (f : A → B → A) l k : length (zip_update f l k) = length l.
Proof. revert k. induction l as [|x l IH]; intros [|y k]; simpl; auto. Qed.

Lemma lookup_zip_update {A B} (f : A → B → A) (l : list A) (k : list B) i :
  zip_update f l k !! i =
  match l !! i, k !! i with
  | Some x, Some y => Some (f x y)
  | o, _ => o
  end.
Proof.
  revert k i. induction l as [|x l IH]; intros [|y k] [|i]; simpl; try done.
  by destruct (l !! i).
Qed.

(** ** Sorting

    [slice::sort_by] and [slice::sort_by_key] are stable sorts; [le a b] says
    that the comparison of the code does not answer [Greater] on [a] and [b]. *)
Fixpoint insert_by {A} (le : A → A → bool) (x : A) (l : list A) : list A :=
  match l with
  | [] => [x]
  | y :: l' => if le x y then x :: y :: l' else y :: insert_by le x l'
  end.

Definition sort_by {A} (le : A → A → bool) (l : list A) : list A :=
  foldr (insert_by le) [] l.

Lemma insert_by_perm {A} (le : A → A → bool) x l : insert_by le x l ≡ₚ x :: l.
Proof.
  induction l as [|y l IH]; simpl; [done|].
  destruct (le x y); [done|]. rewrite IH. apply Permutation_swap.
Qed.

Lemma sort_by_perm {A} (le : A → A → bool) l : sort_by le l ≡ₚ l.
Proof.
  induction l as [|x l IH]; simpl; [done|]. by rewrite insert_by_perm, IH.
Qed.

Lemma sort_by_length {A} (le : A → A → bool) l : length (sort_by le l) = length l.
Proof. by rewrite sort_by_perm. Qed.

Lemma elem_of_sort_by {A} (le : A → A → bool) l x : x ∈ sort_by le l ↔ x ∈ l.
Proof. by rewrite sort_by_perm. Qed.

Lemma StronglySorted_weaken {A} (R S : A → A → Prop) l :
  (∀ a b, R a b → S a b) → StronglySorted R l → StronglySorted S l.
Proof. intros HRS. induction 1; constructor; eauto using Forall_impl. Qed.

Lemma StronglySorted_fmap_2 {A B} (f : A → B) (R : B → B → Prop) l :
  StronglySorted (λ a b, R (f a) (f b)) l → StronglySorted R (f <$> l).
Proof. induction 1; csimpl; constructor; [done|]. by apply Forall_fmap. Qed.
Lemma StronglySorted_fmap_1 {A B} (f : A → B) (R : B → B → Prop) l :
  StronglySorted R (f <$> l) → StronglySorted (λ a b, R (f a) (f b)) l.
Proof.
  induction l as [|a l IH]; csimpl; [constructor|]. intros [Hl Ha]%StronglySorted_inv.
  constructor; [by apply IH|]. by rewrite Forall_fmap in Ha.
Qed.

(** Two elements of a sorted list are comparable. *)
Lemma StronglySorted_elems {A} (R : A → A → Prop) l a b :
  StronglySorted R l → a ∈ l → b ∈ l → a = b ∨ R a b ∨ R b a.
Proof.
  induction 1 as [|x l Hl IH Hx]; [by intros ?%elem_of_nil|]. rewrite Forall_forall in Hx.
  intros [->|Ha]%elem_of_cons [->|Hb]%elem_of_cons; auto.
Qed.

Section sorting.
Context {A : Type} (le : A → A → bool).
Hypothesis le_total : ∀ x y, le x y = false → le y x = true.
Hypothesis le_trans : ∀ x y z, le x y = true → le y z = true → le x z = true.

Lemma insert_by_sorted x l :
  StronglySorted (λ a b, le a b = true) l →
  StronglySorted (λ a b, le a b = true) (insert_by le x l).
Proof.
  induction l as [|y l IH]; intros Hl; simpl; [repeat constructor|].
  apply StronglySorted_inv in Hl as [Hl Hy].
  destruct (le x y) eqn:E.
  - constructor; [by constructor|]. constructor; [done|].
    eapply Forall_impl; [exact Hy|]. intros z Hz. by eapply le_trans.
  - constructor; [auto|]. rewrite insert_by_perm.
    constructor; [by apply le_total|done].
Qed.

Lemma sort_by_sorted l : StronglySorted (λ a b, le a b = true) (sort_by le l).
Proof. induction l; simpl; [constructor|]. by apply insert_by_sorted. Qed.

Lemma sort_by_id l : StronglySorted (λ a b, le a b = true) l → sort_by le l = l.
Proof.
  induction 1 as [|x l Hl IH Hx]; simpl; [done|]. rewrite IH.
  destruct l as [|y l]; simpl; [done|]. by apply Forall_cons in Hx as [-> _].
Qed.

(** Sorting a permutation of a strictly sorted list gives that list. *)
Lemma sort_by_permutation l l' :
  StronglySorted (λ a b, le a b = true ∧ le b a = false) l → l' ≡ₚ l → sort_by le l' = l.
Proof.
  intros Hs Hp. apply (StronglySorted_unique_strong (λ a b, le a b = true)).
  - intros a b Ha Hb H1 H2. rewrite sort_by_perm, Hp in Ha.
    destruct (StronglySorted_elems _ _ _ _ Hs Ha Hb) as [?|[[]|[]]]; congruence.
  - apply sort_by_sorted.
  - eapply StronglySorted_weaken; [|exact Hs]. naive_solver.
  - by rewrite sort_by_perm.
Qed.

(** Elements the comparison does not distinguish keep their order. *)
Lemma insert_by_stable k x l :
  filterb (λ y, le k y && le y k)%bool (insert_by le x l) =
  filterb (λ y, le k y && le y k)%bool (x :: l).
Proof.
  induction l as [|y l IH]; simpl; [done|].
  destruct (le x y) eqn:E; [done|]. simpl in *. rewrite IH.
  destruct (le k x && le x k)%bool eqn:Ex; [|done].
  destruct (le k y && le y k)%bool eqn:Ey; [|done].
  bool_hyps. rewrite (le_trans x k y) in E; done.
Qed.

Lemma sort_by_stable k l :
  filterb (λ y, le k y && le y k)%bool (sort_by le l) =
  filterb (λ y, le k y && le y k)%bool l.
Proof.
  induction l as [|x l IH]; simpl; [done|].
  rewrite insert_by_stable. simpl. by rewrite IH.
Qed.
End sorting.

(** [sort_by_key] with an integer key. *)
Definition sort_by_key {A} (key : A → Z) (l : list A) : list A :=
  sort_by (λ a b, key a <=? key b) l.

Lemma sort_by_key_sorted {A} (key : A → Z) l :
  StronglySorted (λ a b, key a ≤ key b) (sort_by_key key l).
Proof.
  eapply StronglySorted_weaken; [|apply sort_by_sorted].
  - intros a b H. by apply Z.leb_le.
  - intros x y H. bool_hyps. apply Z.leb_le. lia.
  - intros x y z H1 H2. bool_hyps. apply Z.leb_le. lia.
Qed.

Lemma sort_by_key_id {A} (key : A → Z) l :
  StronglySorted (λ a b, key a ≤ key b) l → sort_by_key key l = l.
Proof.
  intros H. apply sort_by_id. eapply StronglySorted_weaken; [|exact H].
  intros a b Hab. by apply Z.leb_le.
Qed.

Lemma sort_by_key_perm {A} (key : A → Z) l : sort_by_key key l ≡ₚ l.
Proof. apply sort_by_perm. Qed.
#[export] Hint Resolve sort_by_key_sorted sort_by_key_perm sort_by_perm : rust.

(** ** Keys of a map

    The keys whose values have a property. *)
Definition marked {A} (p : A → bool) (m : gmap Z A) : gset Z := dom (filter (λ e, p e.2 = true) m).

Lemma elem_of_marked {A} (p : A → bool) (m : gmap Z A) i :
  i ∈ marked p m ↔ ∃ x, m !! i = Some x ∧ p x = true.
Proof.
  unfold marked. rewrite elem_of_dom. unfold is_Some. setoid_rewrite map_lookup_filter_Some. done.
Qed.
Lemma marked_dom {A} (p : A → bool) m : marked p m ⊆ dom m.
Proof. intros i (x & Hx & _)%elem_of_marked. apply elem_of_dom. by exists x. Qed.
Lemma marked_alter_true {A} (p : A → bool) (f : A → A) i m :
  (∀ x, p (f x) = true) → i ∈ dom m → marked p (alter f i m) = {[i]} ∪ marked p m.
Proof.
  intros Hf [y Hy]%elem_of_dom. apply leibniz_equiv. intros j.
  rewrite elem_of_union, elem_of_singleton, !elem_of_marked.
  destruct (decide (j = i)) as [->|Hj].
  - rewrite lookup_alter_eq, Hy. cbn. naive_solver.
  - rewrite lookup_alter_ne by done. naive_solver.
Qed.
Lemma marked_alter_false {A} (p : A → bool) (f : A → A) i m :
  (∀ x, p (f x) = false) → marked p (alter f i m) = marked p m ∖ {[i]}.
Proof.
  intros Hf. apply leibniz_equiv. intros j.
  rewrite elem_of_difference, elem_of_singleton, !elem_of_marked.
  destruct (decide (j = i)) as [->|Hj].
  - split; [|by intros [_ []]]. rewrite lookup_alter_eq. intros (x & Hx & Hp).
    destruct (m !! i); [|done]. injection Hx as <-. by rewrite Hf in Hp.
  - rewrite lookup_alter_ne by done. naive_solver.
Qed.
Lemma marked_delete {A} (p : A → bool) i m : marked p (delete i m) = marked p m ∖ {[i]}.
Proof.
  apply leibniz_equiv. intros j. rewrite elem_of_difference, elem_of_singleton, !elem_of_marked.
  destruct (decide (j = i)) as [->|Hj].
  - rewrite lookup_delete_eq. naive_solver.
  - rewrite lookup_delete_ne by done. naive_solver.
Qed.
(** An update that does not change the property. *)
Lemma marked_alter_same {A} (p : A → bool) (f : A → A) i m :
  (∀ x, p (f x) = p x) → marked p (alter f i m) = marked p m.
Proof.
  intros Hf. apply leibniz_equiv. intros j. rewrite !elem_of_marked.
  destruct (decide (j = i)) as [->|Hj].
  - rewrite lookup_alter_eq. destruct (m !! i) as [y|]; [|done]. cbn. split.
    + intros (x & [= <-] & Hx). exists y. by rewrite Hf in Hx.
    + intros (x & [= <-] & Hx). exists (f y). by rewrite Hf.
  - rewrite lookup_alter_ne by done. done.
Qed.
