(* ===== verification/Text.v ===== *)
(** * Text: the operations of Rust's [str] and [Path] that paradown uses

    A [String] is its sequence of bytes.  Trimming removes the characters of
    the Unicode class [White_Space] in their UTF-8 encoding; letter case is the
    ASCII one, as in [to_ascii_lowercase].  Paths are Unix paths. *)

From S2P Require Import Prelude.

Module Chr.
Definition code (c : ascii) : Z := Z.of_N (N_of_ascii c).
Definition of_code (z : Z) : ascii := ascii_of_N (Z.to_N z).

Definition is_digit (c : ascii) : bool := ((48 <=? code c) && (code c <=? 57))%bool.
Definition to_lower (c : ascii) : ascii :=
  if ((65 <=? code c) && (code c <=? 90))%bool then of_code (code c + 32) else c.

Lemma of_code_code c : of_code (code c) = c.
Proof. unfold of_code, code. by rewrite N2Z.id, ascii_N_embedding. Qed.
Lemma code_of_code z : 0 ≤ z < 256 → code (of_code z) = z.
Proof.
  intros H. unfold of_code, code. rewrite N_ascii_embedding by lia. lia.
Qed.
Lemma code_range c : 0 ≤ code c < 256.
Proof. unfold code. pose proof (N_ascii_bounded c). lia. Qed.
End Chr.

(** Concatenation, length and prefixes. *)
Fixpoint sdrop (n : nat) (s : string) : string :=
  match n, s with
  | O, _ => s
  | S n, String _ s => sdrop n s
  | S _, EmptyString => EmptyString
  end.

(** [str::len] counts bytes. *)
Definition slen (s : string) : Z := Z.of_nat (String.length s).
Definition is_empty (s : string) : bool := String.eqb s "".
Definition starts_with (pat s : string) : bool := String.prefix pat s.
Definition strip_prefix (pat s : string) : option string :=
  if starts_with pat s then Some (sdrop (String.length pat) s) else None.

Fixpoint srev_app (s acc : string) : string :=
  match s with EmptyString => acc | String c s => srev_app s (String c acc) end.
Definition srev (s : string) : string := srev_app s "".

Definition ends_with (pat s : string) : bool := starts_with (srev pat) (srev s).

(** [str::split_once] and [str::contains] with a string pattern. *)
Fixpoint split_once (pat s : string) : option (string * string) :=
  if starts_with pat s then Some (EmptyString, sdrop (String.length pat) s) else
  match s with
  | EmptyString => None
  | String c s =>
      match split_once pat s with
      | Some (a, b) => Some (String c a, b)
      | None => None
      end
  end.
Definition contains (pat s : string) : bool := is_some (split_once pat s).

(** [str::replace], of a pattern that is not empty; every round drops at least one character. *)
Fixpoint replace_loop (fuel : nat) (pat rep s : string) : string :=
  match fuel with
  | O => s
  | S fuel =>
      match split_once pat s with
      | Some (a, b) => a +:+ rep +:+ replace_loop fuel pat rep b
      | None => s
      end
  end.
Definition replace (pat rep s : string) : string := replace_loop (String.length s) pat rep s.

(** [str::rsplit_once] with a character pattern. *)
Fixpoint rsplit_once (c : ascii) (s : string) : option (string * string) :=
  match s with
  | EmptyString => None
  | String d s =>
      match rsplit_once c s with
      | Some (a, b) => Some (String d a, b)
      | None => if Ascii.eqb c d then Some (EmptyString, s) else None
      end
  end.

(** [str::split] with a character pattern; it never yields an empty list. *)
Fixpoint split (c : ascii) (s : string) : list string :=
  match s with
  | EmptyString => [EmptyString]
  | String d s =>
      if Ascii.eqb c d then EmptyString :: split c s else
      match split c s with
      | w :: ws => String d w :: ws
      | [] => [String d EmptyString]
      end
  end.

(** [str::to_ascii_lowercase], [str::eq_ignore_ascii_case]. *)
Fixpoint to_ascii_lowercase (s : string) : string :=
  match s with
  | EmptyString => EmptyString
  | String c s => String (Chr.to_lower c) (to_ascii_lowercase s)
  end.
Definition eq_ignore_ascii_case (a b : string) : bool :=
  String.eqb (to_ascii_lowercase a) (to_ascii_lowercase b).

(** The characters of [White_Space], by the length of their encoding. *)
Definition ws1 (c : ascii) : bool :=
  let c := Chr.code c in (((9 <=? c) && (c <=? 13)) || (c =? 32))%bool.
Definition ws2 (c d : ascii) : bool :=
  let c := Chr.code c in let d := Chr.code d in
  ((c =? 194) && ((d =? 133) || (d =? 160)))%bool.
Definition ws3 (c d e : ascii) : bool :=
  let c := Chr.code c in let d := Chr.code d in let e := Chr.code e in
  (((c =? 225) && (d =? 154) && (e =? 128)) ||
   ((c =? 226) && (d =? 128) &&
      (((128 <=? e) && (e <=? 138)) || (e =? 168) || (e =? 169) || (e =? 175))) ||
   ((c =? 226) && (d =? 129) && (e =? 159)) ||
   ((c =? 227) && (d =? 128) && (e =? 128)))%bool.

(** Drop leading white space; [rev] reads the encodings backwards. *)
Fixpoint skip_ws (rev : bool) (s : string) : string :=
  match s with
  | EmptyString => EmptyString
  | String c s1 =>
      if ws1 c then skip_ws rev s1 else
      match s1 with
      | EmptyString => s
      | String d s2 =>
          if (if rev then ws2 d c else ws2 c d) then skip_ws rev s2 else
          match s2 with
          | EmptyString => s
          | String e s3 =>
              if (if rev then ws3 e d c else ws3 c d e) then skip_ws rev s3 else s
          end
      end
  end.

(** [str::trim]. *)
Definition trim_start (s : string) : string := skip_ws false s.
Definition trim_end (s : string) : string := srev (skip_ws true (srev s)).
Definition trim (s : string) : string := trim_end (trim_start s).

(** [str::trim_matches(c)]. *)
Fixpoint skip_char (c : ascii) (s : string) : string :=
  match s with
  | String d s' => if Ascii.eqb c d then skip_char c s' else s
  | EmptyString => EmptyString
  end.
Definition trim_matches (c : ascii) (s : string) : string :=
  srev (skip_char c (srev (skip_char c s))).

(** [str::split_whitespace]: the parts between white space that are not empty. *)
Definition push_head (c : ascii) (ws : list string) : list string :=
  match ws with w :: ws => String c w :: ws | [] => [String c EmptyString] end.
Fixpoint ws_fields (s : string) : list string :=
  match s with
  | EmptyString => [EmptyString]
  | String c s1 =>
      if ws1 c then EmptyString :: ws_fields s1 else
      match s1 with
      | EmptyString => push_head c (ws_fields s1)
      | String d s2 =>
          if ws2 c d then EmptyString :: ws_fields s2 else
          match s2 with
          | EmptyString => push_head c (ws_fields s1)
          | String e s3 =>
              if ws3 c d e then EmptyString :: ws_fields s3 else push_head c (ws_fields s1)
          end
      end
  end.
Definition split_whitespace (s : string) : list string :=
  filterb (λ w, negb (is_empty w)) (ws_fields s).

(** [str::trim_end_matches], [str::trim_start_matches] with a set of characters. *)
Fixpoint skip_chars (p : ascii → bool) (s : string) : string :=
  match s with
  | String c s' => if p c then skip_chars p s' else s
  | EmptyString => EmptyString
  end.
Definition trim_end_chars (p : ascii → bool) (s : string) : string := srev (skip_chars p (srev s)).

(** [str::lines]. *)
Definition chomp (s : string) : string :=
  match srev s with
  | String c r => if Chr.code c =? 13 then srev r else s
  | EmptyString => s
  end.
Definition lines (s : string) : list string :=
  let ls := split (Chr.of_code 10) s in
  chomp <$> (match rev ls with EmptyString :: r => rev r | _ => ls end).

(** ** Numbers *)
Inductive ParseIntError := PIEmpty | PIInvalidDigit | PIPosOverflow.
#[export] Instance ParseIntError_eq_dec : EqDecision ParseIntError.
Proof. solve_decision. Defined.

Definition ParseIntError_to_string (e : ParseIntError) : string :=
  match e with
  | PIEmpty => "cannot parse integer from empty string"
  | PIInvalidDigit => "invalid digit found in string"
  | PIPosOverflow => "number too large to fit in target type"
  end.

Fixpoint parse_digits (max : Z) (s : string) (acc : Z) : result Z ParseIntError :=
  match s with
  | EmptyString => Ok acc
  | String c s =>
      if Chr.is_digit c then
        let acc := acc * 10 + (Chr.code c - 48) in
        if acc <=? max then parse_digits max s acc else Err PIPosOverflow
      else Err PIInvalidDigit
  end.

(** [str::parse::<u64>] and its siblings, for the largest value [max]. *)
Definition parse_uint (max : Z) (s : string) : result Z ParseIntError :=
  match s with
  | EmptyString => Err PIEmpty
  | String "+" EmptyString => Err PIInvalidDigit
  | String "+" s' => parse_digits max s' 0
  | _ => parse_digits max s 0
  end.
Definition parse_u64 : string → result Z ParseIntError := parse_uint u64_max.
Definition parse_u16 : string → result Z ParseIntError := parse_uint u16_max.

(** [to_string] of an unsigned integer; 20 digits are enough for a [u64]. *)
Definition digit (d : Z) : ascii := Chr.of_code (48 + d).
Fixpoint digits (fuel : nat) (n : Z) (acc : string) : string :=
  match fuel with
  | O => acc
  | S fuel =>
      let acc := String (digit (n mod 10)) acc in
      if n <? 10 then acc else digits fuel (n / 10) acc
  end.
Definition show_u64 (n : Z) : string := digits 20 n "".

Lemma digit_code d : 0 ≤ d < 10 → Chr.code (digit d) = 48 + d.
Proof. intros H. unfold digit. apply Chr.code_of_code. lia. Qed.

Lemma is_digit_digit d : 0 ≤ d < 10 → Chr.is_digit (digit d) = true.
Proof.
  intros H. unfold Chr.is_digit. rewrite digit_code by lia.
  apply andb_true_iff. split; apply Z.leb_le; lia.
Qed.

Lemma parse_digits_digit max d s acc :
  0 ≤ d < 10 → acc * 10 + d ≤ max →
  parse_digits max (String (digit d) s) acc = parse_digits max s (acc * 10 + d).
Proof.
  intros Hd Hm. simpl. rewrite is_digit_digit, digit_code by lia.
  replace (acc * 10 + (48 + d - 48)) with (acc * 10 + d) by lia.
  by rewrite (proj2 (Z.leb_le _ _) Hm).
Qed.

Lemma parse_digits_digits max fuel n s :
  0 ≤ n < 10 ^ Z.of_nat fuel → n ≤ max →
  parse_digits max (digits fuel n s) 0 = parse_digits max s n.
Proof.
  revert n s. induction fuel as [|fuel IH]; intros n s Hn Hm.
  - simpl in *. assert (n = 0) as -> by lia. done.
  - cbn [digits]. pose proof (Z.mod_pos_bound n 10 ltac:(lia)).
    pose proof (Z.div_mod n 10 ltac:(lia)) as Hdm.
    destruct (n <? 10) eqn:E; bool_hyps.
    + rewrite Z.mod_small by lia. rewrite parse_digits_digit by lia. done.
    + rewrite IH.
      * rewrite parse_digits_digit by lia. f_equal. lia.
      * rewrite Nat2Z.inj_succ, Z.pow_succ_r in Hn by lia.
        split; [apply Z.div_pos; lia|apply Z.div_lt_upper_bound; lia].
      * apply Z.div_le_upper_bound; lia.
Qed.

Lemma digits_cons fuel n acc :
  ∃ d s, 0 ≤ d < 10 ∧ digits (S fuel) n acc = String (digit d) s.
Proof.
  revert n acc. induction fuel as [|fuel IH]; intros n acc;
    pose proof (Z.mod_pos_bound n 10 ltac:(lia)) as Hm.
  - exists (n mod 10), acc. cbn [digits]. split; [lia|]. by destruct (n <? 10).
  - cbn [digits]. destruct (n <? 10).
    + by exists (n mod 10), acc.
    + cbn [digits] in IH. apply IH.
Qed.

Lemma digit_neq_plus d s : 0 ≤ d < 10 → ∀ max,
  parse_uint max (String (digit d) s) = parse_digits max (String (digit d) s) 0.
Proof.
  intros Hd max. assert (digit d ≠ "+"%char) as Hne.
  { intros H. apply (f_equal Chr.code) in H. rewrite digit_code in H by lia.
    change (Chr.code "+") with 43 in H. lia. }
  unfold parse_uint. destruct (digit d) as [b0 b1 b2 b3 b4 b5 b6 b7].
  destruct b0, b1, b2, b3, b4, b5, b6, b7; try done.
Qed.

(** Printing and parsing back an unsigned integer. *)
Lemma parse_show max n :
  0 ≤ n ≤ max → max ≤ u64_max → parse_uint max (show_u64 n) = Ok n.
Proof.
  intros Hn Hmax. unfold show_u64.
  destruct (digits_cons 19 n "") as (d & s & Hd & E).
  rewrite E, digit_neq_plus by done. rewrite <- E.
  rewrite parse_digits_digits; [done| |lia].
  unfold u64_max in Hmax. change (Z.of_nat 20) with 20. lia.
Qed.

Fixpoint all_chars (p : ascii → bool) (s : string) : bool :=
  match s with EmptyString => true | String c s => (p c && all_chars p s)%bool end.

Lemma digits_all_digits fuel n acc :
  all_chars Chr.is_digit acc = true → all_chars Chr.is_digit (digits fuel n acc) = true.
Proof.
  revert n acc. induction fuel as [|fuel IH]; intros n acc Ha; [done|].
  pose proof (Z.mod_pos_bound n 10 ltac:(lia)) as Hm. cbn [digits].
  assert (all_chars Chr.is_digit (String (digit (n mod 10)) acc) = true) as Hc.
  { cbn [all_chars]. by rewrite is_digit_digit, Ha by lia. }
  destruct (n <? 10); [done|]. by apply IH.
Qed.

Lemma starts_with_char c d s : starts_with (String c "") (String d s) = Ascii.eqb c d.
Proof.
  unfold starts_with. simpl. destruct (ascii_dec c d) as [->|Hne].
  - rewrite Ascii.eqb_refl. by destruct s.
  - by rewrite (proj2 (Ascii.eqb_neq _ _) Hne).
Qed.

(** A text without the character [c] splits at the first [c] after it. *)
Lemma split_once_app c a b :
  all_chars (λ d, negb (Ascii.eqb c d)) a = true →
  split_once (String c "") (a +:+ String c b) = Some (a, b).
Proof.
  induction a as [|d a IH]; intros H.
  - change ("" +:+ String c b) with (String c b). cbn [split_once].
    by rewrite starts_with_char, Ascii.eqb_refl.
  - change (String d a +:+ String c b) with (String d (a +:+ String c b)).
    cbn [split_once all_chars] in *. bool_hyps. by rewrite starts_with_char, H, IH.
Qed.

Lemma all_chars_impl (p q : ascii → bool) s :
  (∀ c, p c = true → q c = true) → all_chars p s = true → all_chars q s = true.
Proof.
  intros Hpq. induction s as [|c s IH]; [done|]. cbn [all_chars]. intros H. bool_hyps.
  rewrite Hpq, IH; done.
Qed.

Lemma show_u64_digits n : all_chars Chr.is_digit (show_u64 n) = true.
Proof. by apply digits_all_digits. Qed.

(** ** Paths *)

(** [Path::join] on Unix. *)
Definition path_join (dir name : string) : string :=
  if starts_with "/" name then name
  else if is_empty dir then name
  else if ends_with "/" dir then dir +:+ name
  else dir +:+ "/" +:+ name.

(** The normal components of a path: empty components and [.] are skipped. *)
Definition path_components (p : string) : list string :=
  filterb (λ w, negb (is_empty w || String.eqb w ".")) (split "/" p).

(** [Path::file_name]. *)
Definition path_file_name (p : string) : option string :=
  match last (path_components p) with
  | Some w => if String.eqb w ".." then None else Some w
  | None => None
  end.

(** [Path::extension]. *)
Definition path_extension (p : string) : option string :=
  match path_file_name p with
  | Some w =>
      match rsplit_once "." w with
      | Some (EmptyString, _) => None
      | Some (_, e) => Some e
      | None => None
      end
  | None => None
  end.

(** [Path::parent], for paths without a final [.] component. *)
Definition path_parent (p : string) : option string :=
  let p' := srev (skip_char "/" (srev p)) in
  if is_empty p' then None else
  match rsplit_once "/" p' with
  | None => Some EmptyString
  | Some (dir, _) =>
      let dir' := srev (skip_char "/" (srev dir)) in
      Some (if is_empty dir' then "/" else dir')
  end.

Example parent_ex :
  path_parent <$> ["/a/b.c"; "/a"; "a"; "./d//f/"; "/"] =
  [Some "/a"; Some "/"; Some EmptyString; Some "./d"; None].
Proof. reflexivity. Qed.
(** ** Laws of paths *)

Lemma append_nil_r s : s +:+ EmptyString = s.
Proof. induction s as [|c s IH]; [done|]. change (String c (s +:+ "") = String c s). by rewrite IH. Qed.

Lemma append_assoc a b c : (a +:+ b) +:+ c = a +:+ (b +:+ c).
Proof. induction a as [|d a IH]; [done|]. change (String d ((a +:+ b) +:+ c) = String d (a +:+ (b +:+ c))).
  by rewrite IH. Qed.

Lemma srev_app_spec s acc : srev_app s acc = srev s +:+ acc.
Proof.
  unfold srev. revert acc. induction s as [|c s IH]; intros acc; [done|].
  cbn [srev_app]. rewrite IH, (IH (String c "")), append_assoc. done.
Qed.

Lemma srev_append a b : srev (a +:+ b) = srev b +:+ srev a.
Proof.
  induction a as [|c a IH]; [by rewrite append_nil_r|].
  change (srev_app (a +:+ b) (String c "") = srev b +:+ srev_app a (String c "")).
  by rewrite !srev_app_spec, IH, append_assoc.
Qed.

Lemma srev_srev s : srev (srev s) = s.
Proof.
  induction s as [|c s IH]; [done|].
  change (srev (String c s)) with (srev_app s (String c "")).
  by rewrite srev_app_spec, srev_append, IH.
Qed.

Lemma starts_with_char_inv c s : starts_with (String c "") s = true → ∃ t, s = String c t.
Proof.
  destruct s as [|d s]; [done|]. rewrite starts_with_char. intros H%Ascii.eqb_eq. subst. eauto.
Qed.

Lemma ends_with_char_inv c s : ends_with (String c "") s = true → ∃ t, s = t +:+ String c "".
Proof.
  unfold ends_with. intros [t Ht]%starts_with_char_inv. exists (srev t).
  rewrite <- (srev_srev s), Ht. unfold srev at 1. cbn [srev_app]. by rewrite srev_app_spec.
Qed.

Lemma split_not_nil c s : split c s ≠ [].
Proof.
  destruct s as [|d s]; [done|]. cbn [split]. destruct (Ascii.eqb c d); [done|].
  by destruct (split c s).
Qed.

Lemma split_app c a b : split c (a +:+ String c b) = split c a ++ split c b.
Proof.
  induction a as [|d a IH].
  - change (split c (String c b) = [EmptyString] ++ split c b). cbn [split].
    by rewrite Ascii.eqb_refl.
  - change (split c (String d (a +:+ String c b)) = split c (String d a) ++ split c b).
    cbn [split]. rewrite IH. destruct (Ascii.eqb c d); [done|].
    pose proof (split_not_nil c a). by destruct (split c a).
Qed.

Lemma split_once_none c s :
  split_once (String c "") s = None → split c s = [s].
Proof.
  induction s as [|d s IH]; [done|]. cbn [split_once split]. rewrite starts_with_char.
  destruct (Ascii.eqb c d); [done|]. destruct (split_once _ s) as [[]|]; [done|].
  intros _. by rewrite IH.
Qed.

Lemma path_components_slash a b :
  path_components (a +:+ String "/" b) = path_components a ++ path_components b.
Proof. unfold path_components. by rewrite split_app, filterb_app. Qed.

(** Joining a relative path appends its components. *)
Lemma path_components_join d r :
  starts_with "/" r = false → path_components (path_join d r) = path_components d ++ path_components r.
Proof.
  intros Hr. unfold path_join. rewrite Hr.
  destruct (is_empty d) eqn:Hd; [apply String.eqb_eq in Hd as ->; done|].
  destruct (ends_with "/" d) eqn:He.
  - apply ends_with_char_inv in He as [t ->]. rewrite append_assoc.
    change (String "/" "" +:+ r) with (String "/" r). rewrite !path_components_slash.
    change (path_components EmptyString) with (@nil string). by rewrite app_nil_r.
  - change (d +:+ "/" +:+ r) with (d +:+ String "/" r). apply path_components_slash.
Qed.

(** ... and keeps the path it is joined to as a prefix. *)
Lemma path_join_prefix d r : starts_with "/" r = false → ∃ t, path_join d r = d +:+ t.
Proof.
  intros Hr. unfold path_join. rewrite Hr.
  destruct (is_empty d) eqn:Hd; [apply String.eqb_eq in Hd as ->; by exists r|].
  destruct (ends_with "/" d); eauto.
Qed.

Example trim_ex : trim "  a b
 " = "a b".
Proof. reflexivity. Qed.
Example split_ex : split ";" "a;b;" = ["a"; "b"; ""].
Proof. reflexivity. Qed.
Example parse_ex : parse_u64 "18446744073709551616" = Err PIPosOverflow.
Proof. reflexivity. Qed.
Example show_ex : show_u64 18446744073709551615 = "18446744073709551615".
Proof. reflexivity. Qed.
Example join_ex : path_join "/tmp" "a.bin" = "/tmp/a.bin".
Proof. reflexivity. Qed.

(** ** Laws of trimming *)

(** An ASCII character that is not white space. *)
Definition solid (c : ascii) : bool := ((Chr.code c <? 128) && negb (ws1 c))%bool.

Lemma skip_ws_solid rev c s : solid c = true → skip_ws rev (String c s) = String c s.
Proof.
  unfold solid. rewrite andb_true_iff, negb_true_iff, Z.ltb_lt. intros [Hc Hw].
  cbn [skip_ws]. rewrite Hw. destruct s as [|d [|e s]]; [done|..].
  - assert ((if rev then ws2 d c else ws2 c d) = false) as ->; [|done].
    unfold ws2. destruct rev; rewrite ?andb_false_iff, ?orb_false_iff, ?Z.eqb_neq; lia.
  - assert ((if rev then ws2 d c else ws2 c d) = false) as ->.
    { unfold ws2. destruct rev; rewrite ?andb_false_iff, ?orb_false_iff, ?Z.eqb_neq; lia. }
    assert ((if rev then ws3 e d c else ws3 c d e) = false) as ->; [|done].
    unfold ws3. apply not_true_is_false. destruct rev;
      rewrite ?orb_true_iff, ?andb_true_iff, ?orb_true_iff, ?andb_true_iff, ?Z.leb_le, ?Z.eqb_eq; lia.
Qed.

(** A text between two such characters is not changed. *)
Lemma trim_solid c s t d :
  String c s = t +:+ String d "" → solid c = true → solid d = true → trim (String c s) = String c s.
Proof.
  intros E Hc Hd. unfold trim, trim_end, trim_start. rewrite skip_ws_solid by done.
  rewrite E, srev_append. change (srev (String d "") +:+ srev t) with (String d (srev t)).
  rewrite skip_ws_solid by done. change (String d (srev t)) with (String d "" +:+ srev t).
  by rewrite srev_append, srev_srev.
Qed.

Lemma skip_char_ne q c s : Ascii.eqb q c = false → skip_char q (String c s) = String c s.
Proof. intros H. cbn [skip_char]. by rewrite H. Qed.

Lemma trim_matches_ne q c s t d :
  String c s = t +:+ String d "" → Ascii.eqb q c = false → Ascii.eqb q d = false →
  trim_matches q (String c s) = String c s.
Proof.
  intros E Hc Hd. unfold trim_matches. rewrite skip_char_ne by done.
  rewrite E, srev_append. change (srev (String d "") +:+ srev t) with (String d (srev t)).
  rewrite skip_char_ne by done. change (String d (srev t)) with (String d "" +:+ srev t).
  by rewrite srev_append, srev_srev.
Qed.

(** A nonempty text has a last character. *)
Lemma string_last c s : ∃ t d, String c s = t +:+ String d "".
Proof.
  revert c. induction s as [|e s IH]; intros c; [by exists EmptyString, c|].
  destruct (IH e) as (t & d & ->). by exists (String c t), d.
Qed.

Lemma all_chars_append p a b : all_chars p (a +:+ b) = (all_chars p a && all_chars p b)%bool.
Proof.
  induction a as [|c a IH]; [done|]. change (String c a +:+ b) with (String c (a +:+ b)).
  cbn [all_chars]. by rewrite IH, andb_assoc.
Qed.

(** A text whose characters are all such, but for what stands before the last, is not changed. *)
Lemma trim_ends c s :
  solid c = true → all_chars solid s = true → trim (String c s) = String c s.
Proof.
  intros Hc Hs. destruct (string_last c s) as (t & d & E). eapply trim_solid; [exact E|done|].
  assert (all_chars solid (String c s) = true) as Ha by (cbn [all_chars]; by rewrite Hc, Hs).
  rewrite E, all_chars_append in Ha. apply andb_true_iff in Ha as [_ Ha].
  cbn [all_chars] in Ha. by rewrite andb_true_r in Ha.
Qed.

Lemma digit_solid c : Chr.is_digit c = true → solid c = true.
Proof.
  unfold Chr.is_digit, solid, ws1. rewrite !andb_true_iff, negb_true_iff, orb_false_iff, andb_false_iff,
    !Z.leb_le, !Z.leb_gt, Z.ltb_lt, Z.eqb_neq. lia.
Qed.

Lemma strip_prefix_append p s : strip_prefix p (p +:+ s) = Some s.
Proof.
  unfold strip_prefix, starts_with. assert (String.prefix p (p +:+ s) = true) as ->.
  { induction p as [|c p IH]; [by destruct s|]. change (String c p +:+ s) with (String c (p +:+ s)).
    simpl. destruct (ascii_dec c c); done. }
  f_equal. induction p as [|c p IH]; [done|]. change (String c p +:+ s) with (String c (p +:+ s)).
  exact IH.
Qed.

(** ** Characters

    A text holds the bytes of its characters in UTF-8: those after the first of a
    character lie between 0x80 and 0xBF. *)

Definition continues (c : ascii) : bool := ((128 <=? Chr.code c) && (Chr.code c <? 192))%bool.
(** [s.chars()], each as the text of its bytes. *)
Fixpoint chars (s : string) : list string :=
  match s with
  | EmptyString => []
  | String c s =>
      match s with
      | String d _ =>
          if continues d then match chars s with x :: l => String c x :: l | [] => [String c ""] end
          else String c "" :: chars s
      | EmptyString => [String c ""]
      end
  end.
Definition char_count (s : string) : Z := zlen (chars s).
Definition spaces (n : Z) : string := String.concat "" (repeat " " (Z.to_nat n)).
(** [{:<n}] *)
Definition pad_left_aligned (n : Z) (s : string) : string := s +:+ spaces (n - char_count s).
(** [{:>n}] *)
Definition pad_right_aligned (n : Z) (s : string) : string := spaces (n - char_count s) +:+ s.

Lemma chars_concat s : String.concat "" (chars s) = s.
Proof.
  assert (∀ c x l, String.concat "" (String c x :: l) = String c (String.concat "" (x :: l))) as Hc.
  { intros c x l. destruct l; reflexivity. }
  assert (∀ l, String.concat "" (EmptyString :: l) = String.concat "" l) as Hn by (by intros []).
  induction s as [|c s IH]; [done|]. cbn [chars]. destruct s as [|d s]; [done|].
  destruct (continues d).
  - destruct (chars (String d s)) as [|x l] eqn:Hx; [|by rewrite Hc, IH].
    exfalso. cbn [chars] in Hx. destruct s as [|e s]; [done|]. destruct (continues e); [|done].
    by destruct (chars (String e s)).
  - by rewrite Hc, Hn, IH.
Qed.
