(* ===== verification/Float.v ===== *)
(** * Floating-point numbers

    Rust's [f64]: IEEE 754 binary64 with rounding to the nearest, ties to even,
    by the specification of the standard library's floats ([SpecFloat]), and its
    conversions and texts.  Durations are counts of nanoseconds. *)

From S2P Require Import Prelude Text.
From Stdlib Require Export Floats.SpecFloat.

Abbreviation f64 := spec_float.

(** [z as f64] *)
Definition f64_of (z : Z) : f64 := binary_normalize 53 1024 z 0 false.
Definition f64_add : f64 → f64 → f64 := SFadd 53 1024.
Definition f64_mul : f64 → f64 → f64 := SFmul 53 1024.
Definition f64_div : f64 → f64 → f64 := SFdiv 53 1024.
(** The number nearest to [n/d], as the literals are. *)
Definition f64_lit (n d : Z) : f64 := f64_div (f64_of n) (f64_of d).
Definition f64_lt (a b : f64) : bool := SFltb a b.
Definition f64_le (a b : f64) : bool := SFleb a b.
(** [a.max(b)] *)
Definition f64_max (a b : f64) : f64 :=
  match a, b with
  | S754_nan, _ => b
  | _, S754_nan => a
  | _, _ => if f64_lt a b then b else a
  end.

(** [m * 2^e], rounded down. *)
Definition scale (m e : Z) : Z := if 0 <=? e then m * 2 ^ e else m / 2 ^ (- e).
(** [x as u64]: towards zero and within the bounds. *)
Definition f64_to_u64 (x : f64) : Z :=
  match x with
  | S754_nan | S754_zero _ | S754_infinity true | S754_finite true _ _ => 0
  | S754_infinity false => u64_max
  | S754_finite false m e => Z.min u64_max (scale (Zpos m) e)
  end.
(** [x.floor()] *)
Definition f64_floor (x : f64) : f64 :=
  match x with
  | S754_finite s m e => if 0 <=? e then x else f64_of (scale (if s then Zneg m else Zpos m) e)
  | _ => x
  end.
(** [x % y] for numbers that are not negative: both are multiples of the smaller power of two. *)
Definition f64_rem (x y : f64) : f64 :=
  match x, y with
  | S754_finite false mx ex, S754_finite false my ey =>
      let e := Z.min ex ey in
      binary_normalize 53 1024 (scale (Zpos mx) (ex - e) mod scale (Zpos my) (ey - e)) e false
  | S754_zero _, S754_finite _ _ _ => x
  | S754_finite _ _ _, S754_infinity _ => x
  | _, _ => S754_nan
  end.

(** [n / d] to the nearest, ties to even. *)
Definition round_half_even (n d : Z) : Z :=
  let q := n / d in
  let r := n mod d in
  if 2 * r <? d then q else if d <? 2 * r then q + 1 else if Z.even q then q else q + 1.
(** [m * 2^e * 10^k] to the nearest, ties to even. *)
Definition decimals (k m e : Z) : Z :=
  if 0 <=? e then m * 2 ^ e * 10 ^ k else round_half_even (m * 10 ^ k) (2 ^ (- e)).

Fixpoint zeros (n : nat) : string := match n with O => "" | S n => "0" +:+ zeros n end.
(** [{:0n}] *)
Definition pad_zeros (n : nat) (s : string) : string := zeros (n - String.length s) +:+ s.
(** [{:.k}] *)
Definition show_f64 (k : nat) (x : f64) : string :=
  let show z :=
    let p := 10 ^ Z.of_nat k in
    match k with
    | O => show_u64 z
    | _ => show_u64 (z / p) +:+ "." +:+ pad_zeros k (show_u64 (z mod p))
    end in
  let sign (s : bool) := if s then "-" else "" in
  match x with
  | S754_nan => "NaN"
  | S754_infinity s => sign s +:+ "inf"
  | S754_zero s => sign s +:+ show 0
  | S754_finite s m e => sign s +:+ show (decimals (Z.of_nat k) (Zpos m) e)
  end.

(** [Duration::as_secs_f64] *)
Definition as_secs_f64 (nanos : Z) : f64 :=
  f64_add (f64_of (nanos / 1000000000)) (f64_div (f64_of (nanos mod 1000000000)) (f64_of 1000000000)).

Example f64_texts :
  show_f64 1 (f64_lit 1 4) = "0.2" ∧ show_f64 2 (f64_lit 1999 1000) = "2.00" ∧
  show_f64 0 (f64_lit 7 2) = "4" ∧ show_f64 2 (f64_of 7) = "7.00" ∧ show_f64 1 (f64_of 0) = "0.0".
Proof. by vm_compute. Qed.
Example f64_rounds : f64_to_u64 (f64_of 9007199254740993) = 9007199254740992 ∧
  f64_to_u64 (f64_of u64_max) = u64_max ∧ f64_to_u64 (f64_lit 29 10) = 2.
Proof. by vm_compute. Qed.
Example f64_seconds : show_f64 2 (as_secs_f64 1500000000) = "1.50" ∧
  show_f64 1 (f64_rem (as_secs_f64 90500000000) (f64_of 60)) = "30.5" ∧
  show_f64 0 (f64_floor (f64_div (f64_of 125) (f64_of 60))) = "2".
Proof. by vm_compute. Qed.

(** ** Integers below 2^53 are exact *)

Lemma digits_bound p : 2 ^ (Zpos (digits2_pos p) - 1) ≤ Zpos p.
Proof.
  induction p as [p IH|p IH|]; cbn [digits2_pos]; [| |done].
  all: rewrite Pos2Z.inj_succ; replace (Z.succ (Zpos (digits2_pos p)) - 1)
    with (Z.succ (Zpos (digits2_pos p) - 1)) by lia;
    rewrite Z.pow_succ_r by lia; lia.
Qed.
Lemma digits_le p n : 0 ≤ n → Zpos p < 2 ^ n → Zpos (digits2_pos p) ≤ n.
Proof.
  intros Hn Hp. destruct (Z.le_gt_cases (Zpos (digits2_pos p)) n) as [|Hlt]; [done|].
  pose proof (digits_bound p). assert (2 ^ n ≤ 2 ^ (Zpos (digits2_pos p) - 1)) by (apply Z.pow_le_mono_r; lia).
  lia.
Qed.
Lemma shifted_digits p n : digits2_pos (Pos.iter xO p n) = (digits2_pos p + n)%positive.
Proof.
  induction n as [|n IH] using Pos.peano_ind; [simpl; lia|]. rewrite Pos.iter_succ. cbn [digits2_pos].
  rewrite IH. lia.
Qed.
Lemma shifted_value p n : Zpos (Pos.iter xO p n) = Zpos p * 2 ^ Zpos n.
Proof.
  induction n as [|n IH] using Pos.peano_ind; [simpl; lia|]. rewrite Pos.iter_succ, Pos2Z.inj_succ, Z.pow_succ_r by lia.
  lia.
Qed.

(** A mantissa of 53 bits is not rounded. *)
Lemma round_full m e : Zpos (digits2_pos m) = 53 → -1074 ≤ e ≤ 971 →
  binary_round_aux 53 1024 false (Zpos m) e loc_Exact = S754_finite false m e.
Proof.
  intros Hm He. unfold binary_round_aux, shr_fexp, shr_record_of_loc. cbn [Zdigits2]. rewrite Hm.
  replace (fexp 53 1024 (53 + e) - e) with 0 by (unfold fexp, emin; lia). cbn -[fexp].
  rewrite Hm. replace (fexp 53 1024 (53 + e) - e) with 0 by (unfold fexp, emin; lia). cbn -[Z.leb].
  by rewrite (proj2 (Z.leb_le _ _)) by lia.
Qed.

Lemma f64_of_exact p : Zpos p < 2 ^ 53 → ∃ m e, f64_of (Zpos p) = S754_finite false m e ∧
  -52 ≤ e ≤ 0 ∧ Zpos m = Zpos p * 2 ^ (- e) ∧ Zpos (digits2_pos m) = 53.
Proof.
  intros Hp. unfold f64_of, binary_normalize, binary_round, shl_align.
  pose proof (digits_le p 53 ltac:(lia) Hp) as Hd.
  replace (fexp 53 1024 (Zpos (digits2_pos p) + 0) - 0) with (Zpos (digits2_pos p) - 53)
    by (unfold fexp, emin; lia).
  destruct (Zpos (digits2_pos p) - 53) as [|q|q] eqn:Eq; [|lia|].
  - rewrite round_full by lia. exists p, 0. split_and!; [done|lia|lia|by rewrite Z.mul_1_r|lia].
  - replace (fexp 53 1024 (Zpos (digits2_pos p) + 0)) with (Zneg q) by (unfold fexp, emin; lia).
    rewrite round_full by (rewrite ?shifted_digits; lia).
    exists (Pos.iter xO p q), (Zneg q). split_and!; [done|lia|lia|by rewrite shifted_value|].
    rewrite shifted_digits. lia.
Qed.

Lemma f64_roundtrip z : 0 ≤ z < 2 ^ 53 → f64_to_u64 (f64_of z) = z.
Proof.
  intros [Hz Hlt]. destruct z as [|p|p]; [done| |lia].
  destruct (f64_of_exact p Hlt) as (m & e & -> & He & Hm & _). unfold f64_to_u64, scale. rewrite Hm.
  destruct (0 <=? e) eqn:E; [|rewrite Z.div_mul by lia]; [|unfold u64_max; lia].
  assert (e = 0) as -> by lia. unfold u64_max. lia.
Qed.

(** ** What a quotient loses *)

Lemma digits_upper p : Zpos p < 2 ^ Zpos (digits2_pos p).
Proof.
  induction p as [p IH|p IH|]; cbn [digits2_pos]; [| |done].
  all: rewrite Pos2Z.inj_succ, Z.pow_succ_r by lia; lia.
Qed.
Lemma digits_eq p n : 1 ≤ n → 2 ^ (n - 1) ≤ Zpos p < 2 ^ n → Zpos (digits2_pos p) = n.
Proof.
  intros Hn [Hlo Hhi]. pose proof (digits_le p n ltac:(lia) Hhi). pose proof (digits_upper p) as Hu.
  destruct (Z.eq_dec (Zpos (digits2_pos p)) n) as [|Hne]; [done|].
  assert (2 ^ Zpos (digits2_pos p) ≤ 2 ^ (n - 1)) by (apply Z.pow_le_mono_r; lia). lia.
Qed.

(** One place less: half of it, rounded to the nearest. *)
Lemma shr_half m l :
  let r := shr_1 (shr_record_of_loc (Zpos m) l) in
  Zpos m - 1 ≤ 2 * round_nearest_even (shr_m r) (loc_of_shr_record r) ≤ Zpos m + 2.
Proof.
  destruct l as [|[]], m; cbn -[Z.mul Z.even]; repeat case_match; lia.
Qed.
Lemma round_same m l :
  let r := shr_record_of_loc (Zpos m) l in
  Zpos m ≤ round_nearest_even (shr_m r) (loc_of_shr_record r) ≤ Zpos m + 1.
Proof. destruct l as [|[]]; cbn -[Z.even]; repeat case_match; lia. Qed.

(** A mantissa that has become one bit too long ends in a zero, and loses it. *)
Lemma round_again m e : 2 ^ 52 ≤ m ≤ 2 ^ 53 → -1074 ≤ e ≤ 960 →
  let '(r, e') := shr_fexp 53 1024 m e loc_Exact in
  ∃ m', shr_m r = Zpos m' ∧ (e' = e ∧ Zpos m' = m ∨ e' = e + 1 ∧ 2 * Zpos m' = m).
Proof.
  intros Hm He. destruct m as [|p|p]; [lia| |lia]. destruct (Z.eq_dec (Zpos p) (2 ^ 53)) as [Hp|Hp].
  - assert (p = 9007199254740992%positive) as -> by (injection Hp; done).
    unfold shr_fexp. cbn [Zdigits2]. assert (Zpos (digits2_pos 9007199254740992) = 54) as -> by done.
    replace (fexp 53 1024 (54 + e) - e) with 1 by (unfold fexp, emin; lia).
    exists 4503599627370496%positive. split; [done|]. right. done.
  - unfold shr_fexp. cbn [Zdigits2]. rewrite (digits_eq p 53) by lia.
    replace (fexp 53 1024 (53 + e) - e) with 0 by (unfold fexp, emin; lia).
    exists p. split; [done|]. by left.
Qed.

(** Rounding 53 or 54 bits to 53. *)
Lemma round_near q e l : 2 ^ 52 ≤ Zpos q < 2 ^ 54 → -1000 ≤ e ≤ 900 →
  ∃ m' d, binary_round_aux 53 1024 false (Zpos q) e l = S754_finite false m' (e + d) ∧
    0 ≤ d ≤ 2 ∧ Zpos q - 1 ≤ Zpos m' * 2 ^ d ≤ Zpos q + 2.
Proof.
  intros Hq He. unfold binary_round_aux.
  assert (let '(r, e') := shr_fexp 53 1024 (Zpos q) e l in
          ∃ d, e' = e + d ∧ 0 ≤ d ≤ 1 ∧
            let m := round_nearest_even (shr_m r) (loc_of_shr_record r) in
            2 ^ 52 ≤ m ≤ 2 ^ 53 ∧ Zpos q - 1 ≤ m * 2 ^ d ≤ Zpos q + 2) as Hfirst.
  { unfold shr_fexp. cbn [Zdigits2]. destruct (Z.lt_ge_cases (Zpos q) (2 ^ 53)) as [Hlt|Hge].
    - rewrite (digits_eq q 53) by lia. replace (fexp 53 1024 (53 + e) - e) with 0 by (unfold fexp, emin; lia).
      exists 0. pose proof (round_same q l) as Hr. cbn -[Z.pow] in Hr |- *. change (2 ^ 0) with 1. lia.
    - rewrite (digits_eq q 54) by lia. replace (fexp 53 1024 (54 + e) - e) with 1 by (unfold fexp, emin; lia).
      exists 1. pose proof (shr_half q l) as Hr. cbn zeta in Hr. cbn [shr iter_pos].
      change (2 ^ 1) with 2. lia. }
  destruct (shr_fexp 53 1024 (Zpos q) e l) as [r e1]. destruct Hfirst as (d & -> & Hd & Hm & Hb).
  set (m := round_nearest_even _ _) in *.
  pose proof (round_again m (e + d) Hm ltac:(lia)) as Hsecond.
  destruct (shr_fexp 53 1024 m (e + d) loc_Exact) as [r2 e2]. destruct Hsecond as (m' & -> & Hm').
  rewrite (proj2 (Z.leb_le _ _)) by lia.
  destruct Hm' as [[-> Hm']|[-> Hm']].
  - exists m', d. split_and!; [done|lia..].
  - exists m', (d + 1). split_and!; [by rewrite Z.add_assoc|lia..| |]; rewrite Z.pow_add_r by lia; nia.
Qed.

(** The quotient of two numbers that are exact, counted in parts of [2^(-k)]: it is
    off by at most two of them, and there are more than [2^31] in a whole. *)
Lemma f64_div_near a b : Zpos a ≤ 2 ^ 20 → Zpos b < 2 ^ 53 →
  ∃ m' k d, f64_div (f64_of (Zpos a)) (f64_of (Zpos b)) = S754_finite false m' (d - k) ∧
    32 ≤ k ∧ 0 ≤ d ≤ 2 ∧
    Zpos a * 2 ^ k - 2 * Zpos b ≤ Zpos m' * 2 ^ d * Zpos b ≤ Zpos a * 2 ^ k + 2 * Zpos b.
Proof.
  intros Ha Hb. destruct (f64_of_exact a ltac:(lia)) as (m1 & e1 & -> & He1 & Hm1 & Hd1).
  destruct (f64_of_exact b Hb) as (m2 & e2 & -> & He2 & Hm2 & Hd2).
  pose proof (digits_bound m1) as Hl1. pose proof (digits_upper m1) as Hu1. rewrite Hd1 in Hl1, Hu1.
  pose proof (digits_bound m2) as Hl2. pose proof (digits_upper m2) as Hu2. rewrite Hd2 in Hl2, Hu2.
  assert (32 ≤ - e1) as Hk1.
  { destruct (Z.lt_ge_cases (- e1) 32) as [Hlt|]; [|done].
    assert (2 ^ (- e1) ≤ 2 ^ 31) by (apply Z.pow_le_mono_r; lia).
    change (53 - 1) with 52 in Hl1. nia. }
  unfold f64_div, SFdiv, SFdiv_core_binary. cbn [Zdigits2 xorb]. rewrite Hd1, Hd2.
  replace (Z.min (fexp 53 1024 (53 + e1 - (53 + e2))) (e1 - e2)) with (e1 - e2 - 53)
    by (unfold fexp, emin; lia).
  replace (e1 - e2 - (e1 - e2 - 53)) with 53 by lia. rewrite Z.shiftl_mul_pow2 by lia.
  pose proof (Z_div_mod (Zpos m1 * 2 ^ 53) (Zpos m2) ltac:(lia)) as Hq.
  destruct (Z.div_eucl (Zpos m1 * 2 ^ 53) (Zpos m2)) as [q r]. destruct Hq as [Hq Hr].
  assert (2 ^ 52 ≤ q < 2 ^ 54) as Hqb by (change (53 - 1) with 52 in *; nia).
  destruct q as [|q|q]; [lia| |lia].
  destruct (round_near q (e1 - e2 - 53) (new_location (Zpos m2) r) Hqb ltac:(lia)) as (m' & d & -> & Hd & Hm').
  exists m', (53 - (e1 - e2)), d. split; [f_equal; lia|]. split; [lia|]. split; [done|].
  assert (Zpos m1 * 2 ^ 53 - 2 * Zpos m2 ≤ Zpos m' * 2 ^ d * Zpos m2 ≤ Zpos m1 * 2 ^ 53 + 2 * Zpos m2) by nia.
  replace (53 - (e1 - e2)) with (53 + - e1 + e2) by lia.
  assert (2 ^ (53 + - e1 + e2) * 2 ^ (- e2) = 2 ^ 53 * 2 ^ (- e1)) as Hpow.
  { rewrite <- !Z.pow_add_r by lia. f_equal. lia. }
  rewrite Hm1, Hm2 in *. pose proof (Z.pow_pos_nonneg 2 (- e2) ltac:(lia) ltac:(lia)). nia.
Qed.

(** Rounding to the nearest is off by at most a half. *)
Lemma round_half_even_near n d : 0 < d → 2 * n - d ≤ 2 * (round_half_even n d * d) ≤ 2 * n + d.
Proof.
  intros Hd. unfold round_half_even. pose proof (Z.div_mod n d ltac:(lia)). pose proof (Z.mod_pos_bound n d Hd).
  repeat case_match; nia.
Qed.

(** [x.round()]: to the nearest, halves away from zero. *)
Definition f64_round (x : f64) : f64 :=
  match x with
  | S754_finite s m e =>
      if 0 <=? e then x
      else
        let n := (2 * Zpos m + 2 ^ (- e)) / 2 ^ (1 - e) in
        if n =? 0 then S754_zero s else f64_of (if s then - n else n)
  | _ => x
  end.
(** [x.clamp(low, high)] *)
Definition f64_clamp (low high x : f64) : f64 :=
  if f64_lt x low then low else if f64_lt high x then high else x.
(** [f64::EPSILON] *)
Definition f64_epsilon : f64 := f64_lit 1 (2 ^ 52).

Example f64_rounded : f64_to_u64 (f64_round (f64_lit 5 2)) = 3 ∧ f64_to_u64 (f64_round (f64_lit 249 100)) = 2 ∧
  f64_round (f64_lit (-3) 2) = f64_of (-2) ∧ f64_clamp (f64_of 0) (f64_of 1) (f64_lit 3 2) = f64_of 1.
Proof. by vm_compute. Qed.
