(* ===== verification/Status.v ===== *)
(** * Errors and statuses ([src/src/error.rs], [src/src/status.rs])

    The error type every fallible operation of paradown returns, and the status
    of a task or of a worker with its textual form, which is what the stores
    keep. *)

From S2P Require Import Prelude Text.

(** [src/src/error.rs:12-63], [Error]. *)
Inductive Error : Type :=
  | EIo (m : string)
  | EReqwest (m : string)
  | EHttpError (file : Z) (status : Z) (m : string)
  | ENetworkError (file : Z) (m : string)
  | EResumeInvalidated (file : Z) (m : string)
  | EChecksumMismatch (file : Z) (expected got : string)
  | EInvalidUrl (m : string)
  | EUnsupportedProtocol (m : string)
  | EUrlParseError (m : string)
  | EConfigError (m : string)
  | EOther (m : string)
  | EJoinError (m : string)
  | EAcquireError (m : string)
  | ETaskNotFound (task : Z)
  | ECanceled (task : Z)
  | EParse (m : string)
  | EHeader (m : string).

#[export] Instance Error_eq_dec : EqDecision Error.
Proof. solve_decision. Defined.

Abbreviation res A := (result A Error).

(** [src/src/error.rs:12-63], [Error (Display, derived by thiserror)]. *)
Definition Error_to_string (e : Error) : string :=
  match e with
  | EIo m => "IO error: " +:+ m
  | EReqwest m => "HTTP error: " +:+ m
  | EHttpError f s m =>
      "HTTP error for file " +:+ show_u64 f +:+ ": " +:+ show_u64 s +:+ " " +:+ m
  | ENetworkError f m => "Network error for file " +:+ show_u64 f +:+ ": " +:+ m
  | EResumeInvalidated f m => "Resume invalidated for file " +:+ show_u64 f +:+ ": " +:+ m
  | EChecksumMismatch f x g =>
      "Checksum mismatch for file " +:+ show_u64 f +:+ ": expected " +:+ x +:+ ", got " +:+ g
  | EInvalidUrl m => "Invalid URL: " +:+ m
  | EUnsupportedProtocol m => "Unsupported protocol: " +:+ m
  | EUrlParseError m => "URL parse error: " +:+ m
  | EConfigError m => "Configuration error: " +:+ m
  | EOther m => "Other error: " +:+ m
  | EJoinError m => "Task join error: " +:+ m
  | EAcquireError m => "Semaphore acquire error: " +:+ m
  | ETaskNotFound t => "Task " +:+ show_u64 t +:+ " not found"
  | ECanceled t => "Task " +:+ show_u64 t +:+ " is cancelled"
  | EParse m => "Parse error: " +:+ m
  | EHeader m => "Header ToStrError: " +:+ m
  end.

(** The [Debug] form of a string: quotes, backslashes and control characters
    are escaped, every other byte is printed. *)
Definition hex_digit (d : Z) : ascii := Chr.of_code (if d <? 10 then 48 + d else 87 + d).
Definition escape_char (c : ascii) : string :=
  let z := Chr.code c in
  if z =? 34 then "\" +:+ String c ""
  else if z =? 92 then "\\"
  else if z =? 10 then "\n"
  else if z =? 13 then "\r"
  else if z =? 9 then "\t"
  else if z =? 0 then "\0"
  else if ((z <? 16) : bool) then "\u{" +:+ String (hex_digit z) "}"
  else if ((z <? 32) || (z =? 127))%bool then
    "\u{" +:+ String (hex_digit (z / 16)) (String (hex_digit (z mod 16)) "}")
  else String c "".
Fixpoint escape (s : string) : string :=
  match s with EmptyString => EmptyString | String c s => escape_char c +:+ escape s end.
Definition quote : string := String (Chr.of_code 34) "".
Definition str_debug (s : string) : string := quote +:+ escape s +:+ quote.

(** [src/src/error.rs:12-63], [Error (derived Debug)]. *)
Definition Error_debug (e : Error) : string :=
  let one n m := n +:+ "(" +:+ str_debug m +:+ ")" in
  let num n f m := n +:+ "(" +:+ show_u64 f +:+ ", " +:+ str_debug m +:+ ")" in
  match e with
  | EIo m => one "Io" m
  | EReqwest m => one "Reqwest" m
  | EHttpError f s m =>
      "HttpError(" +:+ show_u64 f +:+ ", " +:+ show_u64 s +:+ ", " +:+ str_debug m +:+ ")"
  | ENetworkError f m => num "NetworkError" f m
  | EResumeInvalidated f m => num "ResumeInvalidated" f m
  | EChecksumMismatch f x g =>
      "ChecksumMismatch(" +:+ show_u64 f +:+ ", " +:+ str_debug x +:+ ", " +:+ str_debug g +:+ ")"
  | EInvalidUrl m => one "InvalidUrl" m
  | EUnsupportedProtocol m => one "UnsupportedProtocol" m
  | EUrlParseError m => one "UrlParseError" m
  | EConfigError m => one "ConfigError" m
  | EOther m => one "Other" m
  | EJoinError m => one "JoinError" m
  | EAcquireError m => one "AcquireError" m
  | ETaskNotFound t => "TaskNotFound(" +:+ show_u64 t +:+ ")"
  | ECanceled t => "Canceled(" +:+ show_u64 t +:+ ")"
  | EParse m => one "Parse" m
  | EHeader m => one "Header" m
  end.

(** [src/src/error.rs:132-136], [Error::from(ParseIntError)]. *)
Definition Error_from_ParseIntError (e : ParseIntError) : Error :=
  EParse (ParseIntError_to_string e).

(** [src/src/status.rs:6-16], [Status]. *)
Inductive Status : Type :=
  | Pending
  | Preparing
  | Running
  | Paused
  | Completed
  | Canceled
  | Failed (e : Error)
  | Deleted.

#[export] Instance Status_eq_dec : EqDecision Status.
Proof. solve_decision. Defined.

(** [src/src/status.rs:18-32], [Status::fmt]. *)
Definition Status_to_string (s : Status) : string :=
  match s with
  | Pending => "Pending"
  | Preparing => "Preparing"
  | Running => "Running"
  | Paused => "Paused"
  | Completed => "Completed"
  | Failed _ => "Failed"
  | Canceled => "Canceled"
  | Deleted => "Deleted"
  end.

(** [src/src/status.rs:6-16], [Status (derived Debug)]. *)
Definition Status_debug (s : Status) : string :=
  match s with
  | Failed e => "Failed(" +:+ Error_debug e +:+ ")"
  | s => Status_to_string s
  end.

(** [src/src/status.rs:34-41], [Status::is_terminal]. *)
Definition is_terminal (s : Status) : bool :=
  match s with
  | Completed | Canceled | Failed _ | Deleted => true
  | _ => false
  end.

(** [src/src/status.rs:46-58], [Status::from_str]. *)
Definition Status_from_str (s : string) : option Status :=
  if String.eqb s "Pending" then Some Pending
  else if String.eqb s "Running" then Some Running
  else if String.eqb s "Preparing" then Some Preparing
  else if String.eqb s "Paused" then Some Paused
  else if String.eqb s "Completed" then Some Completed
  else if String.eqb s "Failed" then Some (Failed (EOther ""))
  else if String.eqb s "Canceled" then Some Canceled
  else if String.eqb s "Deleted" then Some Deleted
  else None.

(** What the textual form keeps of a status: the error of a failure is lost. *)
Definition forget_error (s : Status) : Status :=
  match s with Failed _ => Failed (EOther "") | s => s end.

Lemma Status_from_to_string s : Status_from_str (Status_to_string s) = Some (forget_error s).
Proof. by destruct s. Qed.

Lemma Status_from_str_inv s st :
  Status_from_str s = Some st → Status_to_string st = s ∧ forget_error st = st.
Proof.
  unfold Status_from_str.
  repeat match goal with |- context [String.eqb ?a ?b] => destruct (String.eqb_spec a b) end;
    intros H; simplify_eq; done.
Qed.

Lemma is_terminal_forget s : is_terminal (forget_error s) = is_terminal s.
Proof. by destruct s. Qed.
#[export] Hint Rewrite Status_from_to_string is_terminal_forget : rust.
