(* ===== verification/Effect.v ===== *)
(** * Effects

    The code that changes state and can fail is modelled as a function from
    the state to a result and the new state: an early return with an error
    keeps the changes made before it, as in the code. *)

From S2P Require Import Prelude Status.

Definition effx (E S A : Type) : Type := S → result A E * S.
Abbreviation eff := (effx Error).

Definition ret {E S A} (a : A) : effx E S A := λ s, (Ok a, s).
Definition throw {E S A} (e : E) : effx E S A := λ s, (Err e, s).
Definition lift {E S A} (r : result A E) : effx E S A := λ s, (r, s).
Definition eff_bind {E S A B} (m : effx E S A) (k : A → effx E S B) : effx E S B :=
  λ s, match m s with
       | (Ok a, s') => k a s'
       | (Err e, s') => (Err e, s')
       end.
(** The result of an operation whose error the code looks at or drops. *)
Definition attempt {E F S A} (m : effx E S A) : effx F S (result A E) :=
  λ s, let '(r, s') := m s in (Ok r, s').
Definition gets {E S A} (f : S → A) : effx E S A := λ s, (Ok (f s), s).
Definition modify {E S} (f : S → S) : effx E S unit := λ s, (Ok tt, f s).

Notation "'let!' x ':=' m 'in' k" := (eff_bind m (λ x, k))
  (at level 10, x pattern, m at level 100, k at level 200) : rust_scope.
Notation "m ';;;' k" := (eff_bind m (λ _, k)) (at level 60, right associativity) : rust_scope.
Open Scope rust_scope.

(** [for x in l { f(x)?; }] *)
Fixpoint for_each {E S A} (f : A → effx E S unit) (l : list A) : effx E S unit :=
  match l with
  | [] => ret tt
  | x :: l => f x ;;; for_each f l
  end.

(** [for x in l { r.push(f(x)?); }] *)
Fixpoint map_each {E S A B} (f : A → effx E S B) (l : list A) : effx E S (list B) :=
  match l with
  | [] => ret []
  | x :: l => let! y := f x in let! ys := map_each f l in ret (y :: ys)
  end.

Definition when {E S} (b : bool) (m : effx E S unit) : effx E S unit := if b then m else ret tt.

(** ** Laws *)
Section laws.
Context {E S : Type}.

Lemma eff_bind_ok {A B} (m : effx E S A) (k : A → effx E S B) s a s' :
  m s = (Ok a, s') → eff_bind m k s = k a s'.
Proof. intros H. unfold eff_bind. by rewrite H. Qed.

Lemma eff_bind_err {A B} (m : effx E S A) (k : A → effx E S B) s e s' :
  m s = (Err e, s') → eff_bind m k s = (Err e, s').
Proof. intros H. unfold eff_bind. by rewrite H. Qed.

Lemma eff_bind_assoc {A B C} (m : effx E S A) (f : A → effx E S B) (k : B → effx E S C) s :
  eff_bind m (λ a, eff_bind (f a) k) s = eff_bind (eff_bind m f) k s.
Proof. unfold eff_bind. by destruct (m s) as [[a|e] s1]. Qed.

(** A successful bind is two successes. *)
Lemma eff_bind_inv {A B} (m : effx E S A) (k : A → effx E S B) s b s' :
  eff_bind m k s = (Ok b, s') → ∃ a s1, m s = (Ok a, s1) ∧ k a s1 = (Ok b, s').
Proof. unfold eff_bind. destruct (m s) as [[a|e] s1]; [eauto|done]. Qed.

(** [m] keeps the relation [R] between the states around it. *)
Definition keeps (R : S → S → Prop) {F A} (m : effx F S A) : Prop := ∀ s, R s (snd (m s)).

Section keeps.
Context (R : S → S → Prop) `{!Reflexive R} `{!Transitive R}.

Lemma keeps_ret {A} (a : A) : keeps R (ret (E:=E) a).
Proof. intros s. simpl. reflexivity. Qed.
Lemma keeps_throw {A} e : keeps R (throw (E:=E) (A:=A) e).
Proof. intros s. simpl. reflexivity. Qed.
Lemma keeps_lift {A} (r : result A E) : keeps R (lift r).
Proof. intros s. simpl. reflexivity. Qed.
Lemma keeps_gets {A} (f : S → A) : keeps R (gets (E:=E) f).
Proof. intros s. simpl. reflexivity. Qed.
Lemma keeps_bind {A B} (m : effx E S A) (k : A → effx E S B) :
  keeps R m → (∀ a, keeps R (k a)) → keeps R (eff_bind m k).
Proof.
  intros Hm Hk s. specialize (Hm s). unfold eff_bind. destruct (m s) as [[a|e] s1]; [|done].
  simpl in Hm. transitivity s1; [done|apply Hk].
Qed.
Lemma keeps_attempt {F A} (m : effx E S A) : keeps R m → keeps R (attempt (F:=F) m).
Proof. intros Hm s. specialize (Hm s). unfold attempt. by destruct (m s). Qed.
Lemma keeps_when b (m : effx E S unit) : keeps R m → keeps R (when b m).
Proof. intros Hm. destruct b; [done|apply keeps_ret]. Qed.
Lemma keeps_for_each {A} (f : A → effx E S unit) l : (∀ x, keeps R (f x)) → keeps R (for_each f l).
Proof.
  intros Hf. induction l as [|x l IH]; simpl; [apply keeps_ret|]. by apply keeps_bind.
Qed.
Lemma keeps_map_each {A B} (f : A → effx E S B) l :
  (∀ x, keeps R (f x)) → keeps R (map_each f l).
Proof.
  intros Hf. induction l as [|x l IH]; simpl; [apply keeps_ret|].
  apply keeps_bind; [done|]. intros y. apply keeps_bind; [done|]. intros ys. apply keeps_ret.
Qed.
End keeps.
End laws.

(** ** Triples *)

(** From a state with [P], [m] gives a result and a state with [Q], or an error
    and a state with [X]. *)
Definition triple {E S A} (P : S → Prop) (m : effx E S A) (Q : A → S → Prop) (X : E → S → Prop)
    : Prop :=
  ∀ s, P s → match m s with (Ok a, s') => Q a s' | (Err e, s') => X e s' end.

Section triples.
Context {E S : Type}.
Implicit Types P : S → Prop.

Lemma triple_ret {A} P (a : A) Q (X : E → S → Prop) : (∀ s, P s → Q a s) → triple P (ret a) Q X.
Proof. intros H s Hs. by apply H. Qed.
Lemma triple_throw {A} P (e : E) (Q : A → S → Prop) X : (∀ s, P s → X e s) → triple P (throw e) Q X.
Proof. intros H s Hs. by apply H. Qed.
Lemma triple_lift {A} P (r : result A E) (Q : A → S → Prop) X :
  (∀ s, P s → match r with Ok a => Q a s | Err e => X e s end) → triple P (lift r) Q X.
Proof. intros H s Hs. specialize (H s Hs). unfold lift. case_eq r; intros ? ->; exact H. Qed.
Lemma triple_gets {A} P (f : S → A) (Q : A → S → Prop) (X : E → S → Prop) :
  (∀ s, P s → Q (f s) s) → triple P (gets f) Q X.
Proof. intros H s Hs. by apply H. Qed.
Lemma triple_modify P (f : S → S) (Q : unit → S → Prop) (X : E → S → Prop) :
  (∀ s, P s → Q tt (f s)) → triple P (modify f) Q X.
Proof. intros H s Hs. by apply H. Qed.
Lemma triple_bind {A B} P (m : effx E S A) (k : A → effx E S B) R Q X :
  triple P m R X → (∀ a, triple (R a) (k a) Q X) → triple P (eff_bind m k) Q X.
Proof.
  intros Hm Hk s Hs. specialize (Hm s Hs). unfold eff_bind. destruct (m s) as [[a|e] s1]; [|done].
  by apply Hk.
Qed.
Lemma triple_conseq {A} P P' (m : effx E S A) Q Q' X X' :
  triple P' m Q' X' → (∀ s, P s → P' s) → (∀ a s, Q' a s → Q a s) → (∀ e s, X' e s → X e s) →
  triple P m Q X.
Proof.
  intros Hm HP HQ HX s Hs. specialize (Hm s (HP s Hs)). destruct (m s) as [[a|e] s1]; auto.
Qed.
Lemma triple_when P b (m : effx E S unit) X :
  triple P m (λ _, P) X → triple P (when b m) (λ _, P) X.
Proof. intros Hm. destruct b; [done|]. by apply triple_ret. Qed.
Lemma triple_for_each {A} P (f : A → effx E S unit) l X :
  (∀ a, triple P (f a) (λ _, P) X) → triple P (for_each f l) (λ _, P) X.
Proof.
  intros Hf. induction l as [|a l IH]; cbn [for_each]; [by apply triple_ret|].
  eapply triple_bind; [apply Hf|]. intros []. exact IH.
Qed.
(** What is kept is an invariant. *)
Lemma triple_keeps {A} (R : S → S → Prop) P (m : effx E S A) :
  keeps R m → (∀ s s', P s → R s s' → P s') → triple P m (λ _, P) (λ _, P).
Proof.
  intros Hm HP s Hs. specialize (Hm s). destruct (m s) as [[a|e] s1]; by eapply HP.
Qed.
Lemma triple_always {A} P (m : effx E S A) Q X : triple (λ _, True) m Q X → triple P m Q X.
Proof. intros Hm s _. by apply Hm. Qed.
(** What does not depend on the state. *)
Lemma triple_pure {A} P (F : Prop) (m : effx E S A) Q X :
  (F → triple P m Q X) → triple (λ s, P s ∧ F) m Q X.
Proof. intros Hm s [Hs Hf]. by apply Hm. Qed.
Lemma triple_and {A} P (m : effx E S A) Q1 Q2 X1 X2 :
  triple P m Q1 X1 → triple P m Q2 X2 →
  triple P m (λ a s, Q1 a s ∧ Q2 a s) (λ e s, X1 e s ∧ X2 e s).
Proof.
  intros H1 H2 s Hs. specialize (H1 s Hs). specialize (H2 s Hs).
  destruct (m s) as [[a|e] s1]; by split.
Qed.
End triples.

#[export] Hint Resolve keeps_ret keeps_throw keeps_lift keeps_gets keeps_attempt keeps_when
  keeps_for_each keeps_map_each : rust.
