(* ===== verification/Source.v ===== *)
(** * Sources: what is downloaded, and from where
    ([src/src/domain/http.rs], [spec.rs], [source.rs], [session.rs])

    The identity of an HTTP resource and its change detection, the request
    options, the download specification parsed from a locator, and the set of
    sources of a task with its primary source.  URL parsing is the [url] crate:
    it is the class [UrlLib], a parameter of the definitions that use it. *)

From S2P Require Import Prelude Text Status.

(** ** HTTP resources and request options *)

(** [src/src/domain/http.rs:5-9], [HttpResourceIdentity]. *)
Record HttpResourceIdentity := mk_identity {
  resolved_url : option string;
  entity_tag : option string;
  last_modified : option string
}.
#[export] Instance HttpResourceIdentity_eq_dec : EqDecision HttpResourceIdentity.
Proof. solve_decision. Defined.

Definition HttpResourceIdentity_default : HttpResourceIdentity := mk_identity None None None.

(** [src/src/domain/http.rs:12-14], [HttpResourceIdentity::resume_validator]. *)
Definition resume_validator (i : HttpResourceIdentity) : option string :=
  opt_or (entity_tag i) (last_modified i).

(** [src/src/domain/http.rs:16-18], [HttpResourceIdentity::has_resume_validator]. *)
Definition has_resume_validator (i : HttpResourceIdentity) : bool :=
  is_some (resume_validator i).

(** [src/src/domain/http.rs:20-33], [HttpResourceIdentity::validator_changed]. *)
Definition validator_changed (self fresh : HttpResourceIdentity) : bool :=
  match entity_tag self, entity_tag fresh with
  | Some current, Some next => negb (String.eqb current next)
  | Some _, None => true
  | None, _ =>
      match last_modified self, last_modified fresh with
      | Some current, Some next => negb (String.eqb current next)
      | Some _, None => true
      | None, _ => false
      end
  end.

(** [src/src/domain/http.rs:37-40], [HttpHeader]. *)
Record HttpHeader := mk_header { header_name : string; header_value : string }.
#[export] Instance HttpHeader_eq_dec : EqDecision HttpHeader.
Proof. solve_decision. Defined.

(** [src/src/domain/http.rs:43-51], [HttpAuth]. *)
Inductive HttpAuth :=
  | AuthBasic (username : string) (password : option string)
  | AuthBearer (token : string).
#[export] Instance HttpAuth_eq_dec : EqDecision HttpAuth.
Proof. solve_decision. Defined.

(** [src/src/domain/http.rs:54-60], [HttpRequestOptions]. *)
Record HttpRequestOptions := mk_request_options {
  headers : list HttpHeader;
  cookie : option string;
  auth : option HttpAuth;
  user_agent : option string
}.
#[export] Instance HttpRequestOptions_eq_dec : EqDecision HttpRequestOptions.
Proof. solve_decision. Defined.

Definition HttpRequestOptions_default : HttpRequestOptions :=
  mk_request_options [] None None None.

(** [src/src/domain/http.rs:63-76], [HttpRequestOptions::merged]. *)
Definition merged (self overrides : HttpRequestOptions) : HttpRequestOptions := {|
  headers := headers self ++ headers overrides;
  cookie := opt_or (cookie overrides) (cookie self);
  auth := opt_or (auth overrides) (auth self);
  user_agent := opt_or (user_agent overrides) (user_agent self)
|}.

(** [src/src/domain/http.rs:78-83], [HttpRequestOptions::is_empty]. *)
Definition options_is_empty (o : HttpRequestOptions) : bool :=
  (bool_decide (headers o = []) && is_none (cookie o) && is_none (auth o) &&
   is_none (user_agent o))%bool.

(** ** Download specifications *)

(** The part of the [url] crate the code relies on. *)
Inductive UrlParseError :=
  | RelativeUrlWithoutBase
  | UrlParseFailure (m : string).

Definition UrlParseError_to_string (e : UrlParseError) : string :=
  match e with
  | RelativeUrlWithoutBase => "relative URL without a base"
  | UrlParseFailure m => m
  end.

(** [src/src/error.rs:66-70], [Error::from(url::ParseError)]. *)
Definition Error_from_url (e : UrlParseError) : Error :=
  EUrlParseError (UrlParseError_to_string e).

Class UrlLib := {
  Url : Type;
  url_parse : string → result Url UrlParseError;
  url_scheme : Url → string;
  url_path_segments : Url → option (list string);
  url_query_pairs : Url → list (string * string)
}.

(** [src/src/domain/spec.rs:6-26], [DownloadSpec]. *)
Inductive DownloadSpec :=
  | SpecHttp (url : string)
  | SpecHttps (url : string)
  | SpecFtp (url : string)
  | SpecTorrentFile (path : string)
  | SpecMagnet (uri : string)
  | SpecMetadata (display_name info_hash : option string).
#[export] Instance DownloadSpec_eq_dec : EqDecision DownloadSpec.
Proof. solve_decision. Defined.

Section spec.
Context `{UrlLib}.

(** [src/src/domain/spec.rs:29-44], [DownloadSpec::parse]. *)
Definition spec_parse (locator : string) : res DownloadSpec :=
  match url_parse locator with
  | Ok parsed =>
      let s := url_scheme parsed in
      if String.eqb s "http" then Ok (SpecHttp locator)
      else if String.eqb s "https" then Ok (SpecHttps locator)
      else if String.eqb s "ftp" then Ok (SpecFtp locator)
      else if String.eqb s "magnet" then Ok (SpecMagnet locator)
      else Err (EUnsupportedProtocol s)
  | Err RelativeUrlWithoutBase =>
      if ends_with ".torrent" locator then Ok (SpecTorrentFile locator)
      else Err (Error_from_url RelativeUrlWithoutBase)
  | Err err => Err (Error_from_url err)
  end.

(** [src/src/domain/spec.rs:112-119], [file_name_hint_from_locator]. *)
Definition file_name_hint_from_locator (locator : string) : option string :=
  url ← result_ok (url_parse locator);
  opt_filter (λ s, negb (is_empty s)) (segments ← url_path_segments url; last segments).

(** [src/src/domain/spec.rs:46-59], [DownloadSpec::locator]. *)
Definition spec_locator (s : DownloadSpec) : string :=
  match s with
  | SpecHttp url | SpecHttps url | SpecFtp url => url
  | SpecTorrentFile path => path
  | SpecMagnet uri => uri
  | SpecMetadata display_name info_hash =>
      unwrap_or "metadata" (opt_or info_hash display_name)
  end.

(** [src/src/domain/spec.rs:61-70], [DownloadSpec::scheme]. *)
Definition spec_scheme (s : DownloadSpec) : string :=
  match s with
  | SpecHttp _ => "http"
  | SpecHttps _ => "https"
  | SpecFtp _ => "ftp"
  | SpecTorrentFile _ => "torrent"
  | SpecMagnet _ => "magnet"
  | SpecMetadata _ _ => "metadata"
  end.

(** [src/src/domain/spec.rs:72-82], [DownloadSpec::file_name_hint]. *)
Definition file_name_hint (s : DownloadSpec) : option string :=
  match s with
  | SpecHttp _ | SpecHttps _ | SpecFtp _ | SpecMagnet _ =>
      file_name_hint_from_locator (spec_locator s)
  | SpecTorrentFile path => path_file_name path
  | SpecMetadata display_name _ => display_name
  end.

(** [src/src/domain/spec.rs:84-86], [DownloadSpec::supports_origin_discovery]. *)
Definition supports_origin_discovery (s : DownloadSpec) : bool :=
  match s with SpecHttp _ | SpecHttps _ => true | _ => false end.

(** [src/src/domain/spec.rs:88-93], [DownloadSpec::supports_swarm_discovery]. *)
Definition supports_swarm_discovery (s : DownloadSpec) : bool :=
  match s with
  | SpecTorrentFile _ | SpecMagnet _ | SpecMetadata _ _ => true
  | _ => false
  end.

(** [src/src/domain/spec.rs:95-109], [DownloadSpec::identity_key]. *)
Definition identity_key (s : DownloadSpec) : string :=
  match s with
  | SpecHttp url | SpecHttps url | SpecFtp url => url
  | SpecTorrentFile path => "torrent-file:" +:+ path
  | SpecMagnet uri => uri
  | SpecMetadata display_name info_hash =>
      "metadata:" +:+ unwrap_or EmptyString info_hash +:+ ":" +:+
      unwrap_or EmptyString display_name
  end.
End spec.

(** ** Sources *)

(** [src/src/domain/source.rs:5-18], [SourceKind]. *)
Inductive SourceKind :=
  | KHttp | KHttps | KFtp | KTorrentFile | KMagnet | KMetadata | KTracker | KDht | KPeer
  | KWebSeed | KMirror | KOfflineCache.
#[export] Instance SourceKind_eq_dec : EqDecision SourceKind.
Proof. solve_decision. Defined.

(** [src/src/domain/source.rs:21-27], [SourceCapabilities]. *)
Record SourceCapabilities := mk_caps {
  metadata_discovery : bool;
  random_access : bool;
  range_requests : bool;
  uploads : bool;
  dynamic_availability : bool
}.
#[export] Instance SourceCapabilities_eq_dec : EqDecision SourceCapabilities.
Proof. solve_decision. Defined.

(** [src/src/domain/source.rs:30-38], [SourceCapabilities::http_origin]. *)
Definition caps_http_origin : SourceCapabilities := mk_caps false true true false false.
(** [src/src/domain/source.rs:40-48], [SourceCapabilities::ftp_origin]. *)
Definition caps_ftp_origin : SourceCapabilities := mk_caps false true false false false.
(** [src/src/domain/source.rs:50-58], [SourceCapabilities::metadata_only]. *)
Definition caps_metadata_only : SourceCapabilities := mk_caps true false false false true.

(** [src/src/domain/source.rs:62-70], [SourceDescriptor]. *)
Record SourceDescriptor := mk_source {
  src_id : string;
  src_kind : SourceKind;
  src_locator : string;
  src_metadata_only : bool;
  src_request : option HttpRequestOptions;
  src_identity : option HttpResourceIdentity;
  src_capabilities : SourceCapabilities
}.
#[export] Instance SourceDescriptor_eq_dec : EqDecision SourceDescriptor.
Proof. solve_decision. Defined.

(** [src/src/domain/source.rs:73-139], [SourceDescriptor::from_spec]. *)
Definition source_from_spec (spec : DownloadSpec) (request : option HttpRequestOptions)
    : SourceDescriptor :=
  match spec with
  | SpecHttp url =>
      mk_source ("http::" +:+ url) KHttp url false request None caps_http_origin
  | SpecHttps url =>
      mk_source ("https::" +:+ url) KHttps url false request None caps_http_origin
  | SpecFtp url =>
      mk_source ("ftp::" +:+ url) KFtp url false request None caps_ftp_origin
  | SpecTorrentFile path =>
      mk_source ("torrent::" +:+ path) KTorrentFile path true None None caps_metadata_only
  | SpecMagnet uri =>
      mk_source ("magnet::" +:+ uri) KMagnet uri true None None caps_metadata_only
  | SpecMetadata display_name info_hash =>
      let stable_key := unwrap_or "metadata" (opt_or info_hash display_name) in
      mk_source ("metadata::" +:+ stable_key) KMetadata stable_key true None None
        caps_metadata_only
  end.

(** [src/src/domain/source.rs:141-152], [SourceDescriptor::tracker]. *)
Definition source_tracker (url : string) : SourceDescriptor :=
  mk_source ("tracker::" +:+ url) KTracker url true None None caps_metadata_only.
(** [src/src/domain/source.rs:154-165], [SourceDescriptor::peer]. *)
Definition source_peer (endpoint : string) : SourceDescriptor :=
  mk_source ("peer::" +:+ endpoint) KPeer endpoint true None None caps_metadata_only.
(** [src/src/domain/source.rs:167-184], [SourceDescriptor::web_seed]. *)
Definition source_web_seed (url : string) : SourceDescriptor :=
  mk_source ("web-seed::" +:+ url) KWebSeed url false None None
    (mk_caps false true true false true).

(** [src/src/domain/source.rs:186-189], [SourceDescriptor::with_identity]. *)
Definition with_identity (identity : HttpResourceIdentity) (s : SourceDescriptor)
    : SourceDescriptor :=
  mk_source (src_id s) (src_kind s) (src_locator s) (src_metadata_only s) (src_request s)
    (Some identity) (src_capabilities s).

(** [primary.request = request]. *)
Definition with_request (request : option HttpRequestOptions) (s : SourceDescriptor)
    : SourceDescriptor :=
  mk_source (src_id s) (src_kind s) (src_locator s) (src_metadata_only s) request
    (src_identity s) (src_capabilities s).

(** [src/src/domain/source.rs:191-193], [SourceDescriptor::supports_range_requests]. *)
Definition source_supports_range_requests (s : SourceDescriptor) : bool :=
  range_requests (src_capabilities s).
(** [src/src/domain/source.rs:195-197], [SourceDescriptor::can_transfer_payload]. *)
Definition can_transfer_payload (s : SourceDescriptor) : bool := negb (src_metadata_only s).

(** [src/src/domain/source.rs:201-204], [SourceSet]. *)
Record SourceSet := mk_sources {
  primary_id : option string;
  sources : list SourceDescriptor
}.
#[export] Instance SourceSet_eq_dec : EqDecision SourceSet.
Proof. solve_decision. Defined.
Definition SourceSet_default : SourceSet := mk_sources None [].

(** [src/src/domain/source.rs:207-212], [SourceSet::single_primary]. *)
Definition single_primary (source : SourceDescriptor) : SourceSet :=
  mk_sources (Some (src_id source)) [source].

(** [src/src/domain/source.rs:214-216], [SourceSet::for_spec]. *)
Definition sources_for_spec (spec : DownloadSpec) (request : option HttpRequestOptions)
    : SourceSet :=
  single_primary (source_from_spec spec request).

Definition has_id (id : string) (s : SourceDescriptor) : bool := String.eqb (src_id s) id.

(** [src/src/domain/source.rs:218-222], [SourceSet::push_unique]. *)
Definition source_push_unique (set : SourceSet) (source : SourceDescriptor) : SourceSet :=
  if existsb (has_id (src_id source)) (sources set) then set
  else mk_sources (primary_id set) (sources set ++ [source]).

(** [src/src/domain/source.rs:224-226], [SourceSet::is_empty]. *)
Definition sources_is_empty (set : SourceSet) : bool := bool_decide (sources set = []).
(** [src/src/domain/source.rs:228-230], [SourceSet::len]. *)
Definition sources_len (set : SourceSet) : Z := zlen (sources set).

(** [src/src/domain/source.rs:232-237], [SourceSet::primary]. *)
Definition primary (set : SourceSet) : option SourceDescriptor :=
  opt_or (id ← primary_id set; find_first (has_id id) (sources set)) (head (sources set)).

(** [src/src/domain/source.rs:239-248], [SourceSet::primary_mut]: the update [f] applied
    through the reference [primary_mut] returns. *)
Definition primary_mut (f : SourceDescriptor → SourceDescriptor) (set : SourceSet)
    : SourceSet :=
  match primary_id set with
  | Some id => mk_sources (Some id) (update_first (has_id id) f (sources set))
  | None =>
      match sources set with
      | [] => set
      | s :: l => mk_sources None (f s :: l)
      end
  end.

(** [src/src/domain/source.rs:250-252], [SourceSet::get]. *)
Definition get_source (set : SourceSet) (id : string) : option SourceDescriptor :=
  find_first (has_id id) (sources set).

(** [src/src/domain/source.rs:254-259], [SourceSet::active_transfer_sources]. *)
Definition active_transfer_sources (set : SourceSet) : list SourceDescriptor :=
  filterb can_transfer_payload (sources set).

(** [src/src/domain/source.rs:261-273], [SourceSet::replace_primary]. *)
Definition replace_primary (set : SourceSet) (source : SourceDescriptor) : SourceSet :=
  if existsb (has_id (src_id source)) (sources set) then
    mk_sources (Some (src_id source))
      (update_first (has_id (src_id source)) (λ _, source) (sources set))
  else mk_sources (Some (src_id source)) (source :: sources set).

(** ** Sessions *)

(** [src/src/domain/session.rs:5-9], [SessionMode]. *)
Inductive SessionMode := SingleSource | MultiSource | Swarm.

(** [src/src/domain/session.rs:12-16], [SessionDescriptor]. *)
Record SessionDescriptor := mk_session {
  session_spec : DownloadSpec;
  session_sources : SourceSet;
  session_mode : SessionMode
}.

(** [src/src/domain/session.rs:19-33], [SessionDescriptor::new]. *)
Definition SessionDescriptor_new (spec : DownloadSpec) (set : SourceSet) : SessionDescriptor :=
  mk_session spec set
    (if supports_swarm_discovery spec then Swarm
     else if 1 <? zlen (active_transfer_sources set) then MultiSource
     else SingleSource).

(** ** Properties *)

(** The ids of the sources of a set. *)
Definition ids (set : SourceSet) : list string := src_id <$> sources set.

(** A set is well formed when no two of its sources share an id and its
    primary id, if it has one, is the id of one of its sources. *)
Definition sources_wf (set : SourceSet) : Prop :=
  NoDup (ids set) ∧ ∀ id, primary_id set = Some id → id ∈ ids set.

Lemma has_id_true id s : has_id id s = true ↔ src_id s = id.
Proof. apply String.eqb_eq. Qed.

Lemma existsb_has_id id l : existsb (has_id id) l = true ↔ id ∈ src_id <$> l.
Proof.
  rewrite existsb_exists, list_elem_of_fmap. split.
  - intros (s & Hin & Hs). exists s. apply has_id_true in Hs. by rewrite list_elem_of_In.
  - intros (s & -> & Hin). exists s. by rewrite <- list_elem_of_In, has_id_true.
Qed.

Lemma find_first_has_id_Some id l s :
  find_first (has_id id) l = Some s → s ∈ l ∧ src_id s = id.
Proof. intros H%find_first_Some. by rewrite has_id_true in H. Qed.

Lemma find_first_has_id_elem l s :
  NoDup (src_id <$> l) → s ∈ l → find_first (has_id (src_id s)) l = Some s.
Proof.
  induction l as [|t l IH]; simpl; intros Hnd Hin; [by apply elem_of_nil in Hin|].
  apply NoDup_cons in Hnd as [Ht Hnd]. apply elem_of_cons in Hin as [->|Hin].
  - by rewrite (proj2 (has_id_true _ _)).
  - destruct (has_id (src_id s) t) eqn:E; [|by apply IH].
    apply has_id_true in E. destruct Ht. rewrite E. by apply list_elem_of_fmap_2.
Qed.

Lemma update_first_ids id f l :
  (∀ s, src_id (f s) = src_id s) → src_id <$> update_first (has_id id) f l = src_id <$> l.
Proof.
  intros Hf. induction l as [|s l IH]; simpl; [done|].
  destruct (has_id id s); csimpl; [by rewrite Hf|by rewrite IH].
Qed.

Lemma update_first_const_ids s l :
  src_id <$> update_first (has_id (src_id s)) (λ _, s) l = src_id <$> l.
Proof.
  induction l as [|t l IH]; simpl; [done|].
  destruct (has_id (src_id s) t) eqn:E; csimpl; [|by rewrite IH].
  apply has_id_true in E. by rewrite E.
Qed.

Lemma find_first_update_first_ne id id' f l :
  id ≠ id' → (∀ s, src_id s = id → src_id (f s) = id) →
  find_first (has_id id') (update_first (has_id id) f l) = find_first (has_id id') l.
Proof.
  intros Hne Hf. induction l as [|t l IH]; simpl; [done|].
  destruct (has_id id t) eqn:E; simpl.
  - apply has_id_true in E.
    assert (has_id id' (f t) = false) as ->.
    { apply not_true_is_false. rewrite has_id_true, Hf by done. done. }
    assert (has_id id' t = false) as ->; [|done].
    apply not_true_is_false. rewrite has_id_true. congruence.
  - by rewrite IH.
Qed.

Lemma find_first_update_first_eq id f l s :
  (∀ s, src_id (f s) = src_id s) →
  find_first (has_id id) l = Some s →
  find_first (has_id id) (update_first (has_id id) f l) = Some (f s).
Proof.
  intros Hf. induction l as [|t l IH]; simpl; [done|].
  destruct (has_id id t) eqn:E; simpl.
  - intros [= ->]. apply has_id_true in E. by rewrite (proj2 (has_id_true _ _)) by congruence.
  - rewrite E. apply IH.
Qed.

Lemma single_primary_wf s : sources_wf (single_primary s).
Proof.
  split; simpl.
  - apply NoDup_singleton.
  - intros id [= <-]. by apply list_elem_of_singleton.
Qed.

Lemma source_push_unique_wf set s : sources_wf set → sources_wf (source_push_unique set s).
Proof.
  intros [Hnd Hp]. unfold source_push_unique. destruct (existsb _ _) eqn:E; [done|].
  apply not_true_iff_false in E. rewrite existsb_has_id in E.
  unfold sources_wf, ids. cbn [sources primary_id]. rewrite fmap_app. split.
  - apply NoDup_app. split_and!; [done| |apply NoDup_singleton].
    intros id Hid ->%list_elem_of_singleton. done.
  - intros id Hid. apply elem_of_app. left. by apply Hp.
Qed.

Lemma primary_mut_wf f set :
  (∀ s, src_id (f s) = src_id s) → sources_wf set → sources_wf (primary_mut f set).
Proof.
  intros Hf [Hnd Hp]. unfold primary_mut, sources_wf, ids in *.
  destruct (primary_id set) as [id|] eqn:E; cbn [sources primary_id].
  - rewrite update_first_ids by done. split; [done|]. intros id' [= <-]. by apply Hp.
  - destruct set as [p [|s l]]; cbn [sources primary_id] in *; subst; [done|].
    rewrite fmap_cons, Hf. done.
Qed.

(** The primary of a well-formed, non-empty set is the source its primary id
    names; a set without primary id has its first source as primary. *)
Lemma primary_in set s : primary set = Some s → s ∈ sources set.
Proof.
  unfold primary. destruct (primary_id set) as [id|]; simpl.
  - destruct (find_first (has_id id) (sources set)) as [t|] eqn:E; simpl.
    + intros [= <-]. by apply find_first_has_id_Some in E as [? _].
    + intros ?%head_Some_elem_of. done.
  - intros ?%head_Some_elem_of. done.
Qed.

(** [replace_primary] keeps a source set well formed, makes the given
    source the primary one, and leaves the sources of every other id as they
    were. *)
Theorem replace_primary_spec set s :
  sources_wf set →
  sources_wf (replace_primary set s) ∧
  primary (replace_primary set s) = Some s ∧
  ∀ id, id ≠ src_id s → get_source (replace_primary set s) id = get_source set id.
Proof.
  intros [Hnd Hp]. unfold replace_primary, get_source.
  destruct (existsb _ _) eqn:E; unfold sources_wf, ids, primary; cbn [sources primary_id].
  - rewrite update_first_const_ids. apply existsb_has_id in E. split_and!.
    + done.
    + intros id [= <-]. done.
    + simpl. rewrite (find_first_has_id_elem _ s); [done| |].
      * by rewrite update_first_const_ids.
      * clear -E. induction (sources set) as [|t l IH]; simpl in *; [by apply elem_of_nil in E|].
        destruct (has_id (src_id s) t) eqn:Et; [left|right].
        apply IH. apply elem_of_cons in E as [E|E]; [|done].
        apply not_true_iff_false in Et. rewrite has_id_true in Et. congruence.
    + intros id Hne. apply find_first_update_first_ne; [done|done].
  - apply not_true_iff_false in E. rewrite existsb_has_id in E. split_and!.
    + csimpl. apply NoDup_cons. done.
    + intros id [= <-]. csimpl. left.
    + simpl. by rewrite (proj2 (has_id_true _ _)).
    + intros id Hne. simpl.
      assert (has_id id s = false) as ->; [|done].
      apply not_true_is_false. rewrite has_id_true. congruence.
Qed.

Definition example_source (id locator : string) : SourceDescriptor :=
  mk_source id KHttps locator false None None caps_http_origin.

Lemma replace_primary_spec_witness :
  sources_wf (single_primary (example_source "a" "x")) ∧
  primary (replace_primary (single_primary (example_source "a" "x")) (example_source "b" "y"))
    = Some (example_source "b" "y").
Proof.
  split; [apply single_primary_wf|].
  apply (replace_primary_spec (single_primary (example_source "a" "x"))
           (example_source "b" "y") (single_primary_wf _)).
Defined.

(** A stored identity that has a validator counts as unchanged exactly
    when the fresh identity carries the same entity tag, or, when no entity
    tag was stored, the same modification date. *)
Theorem validator_changed_spec self fresh :
  has_resume_validator self = true →
  validator_changed self fresh = false ↔
  (∃ e, entity_tag self = Some e ∧ entity_tag fresh = Some e) ∨
  (entity_tag self = None ∧
   ∃ d, last_modified self = Some d ∧ last_modified fresh = Some d).
Proof.
  unfold has_resume_validator, resume_validator, validator_changed.
  destruct (entity_tag self) as [e|], (entity_tag fresh) as [e'|],
    (last_modified self) as [d|], (last_modified fresh) as [d'|];
    simpl; intros Hv; try done; rewrite ?negb_false_iff, ?String.eqb_eq;
    (split; [intros; subst; eauto 6; discriminate|
             intros [(x & ? & ?)|(? & x & ? & ?)]; congruence]).
Qed.

Lemma validator_changed_spec_witness :
  let i := mk_identity None (Some "e1") (Some "yesterday") in
  let j := mk_identity None (Some "e1") (Some "today") in
  has_resume_validator i = true ∧ validator_changed i j = false.
Proof.
  split; [reflexivity|].
  apply (validator_changed_spec (mk_identity None (Some "e1") (Some "yesterday"))
           (mk_identity None (Some "e1") (Some "today")) eq_refl).
  left. exists "e1". split; reflexivity.
Defined.
