(* ===== verification/Ranges.v ===== *)
(** * Byte ranges

    Pieces, blocks, chunks, lanes, restored workers and file segments all cut a
    payload into consecutive byte ranges.  [tiles a l b] says that the spans
    [l], pairs of an offset and a length, follow each other without gap or
    overlap from [a] to [b], none of them empty. *)

From S2P Require Import Prelude.

Abbreviation span := (Z * Z)%type.

Fixpoint tiles (a : Z) (l : list span) (b : Z) : Prop :=
  match l with
  | [] => a = b
  | (o, n) :: l => o = a ∧ 0 < n ∧ tiles (a + n) l b
  end.

Lemma tiles_app a l k b : tiles a (l ++ k) b ↔ ∃ m, tiles a l m ∧ tiles m k b.
Proof.
  revert a. induction l as [|[o n] l IH]; intros a; simpl.
  - split; [eauto|]. by intros (? & -> & ?).
  - rewrite IH. naive_solver.
Qed.

Lemma tiles_snoc a l o n b : tiles a (l ++ [(o, n)]) b ↔ tiles a l o ∧ 0 < n ∧ b = o + n.
Proof.
  rewrite tiles_app. simpl. split.
  - intros (m & ? & -> & ? & ?). auto with lia.
  - intros (? & ? & ?). exists o. auto with lia.
Qed.

Lemma tiles_le a l b : tiles a l b → a ≤ b.
Proof.
  revert a. induction l as [|[o n] l IH]; intros a; simpl; [lia|].
  intros (-> & ? & H%IH). lia.
Qed.

Lemma tiles_nil_iff a l b : tiles a l b → l = [] ↔ a = b.
Proof.
  destruct l as [|[o n] l]; simpl; [done|]. intros (-> & ? & H%tiles_le).
  split; [done|lia].
Qed.

(** Every span lies within the bounds. *)
Lemma tiles_elem a l b o n : tiles a l b → (o, n) ∈ l → a ≤ o ∧ 0 < n ∧ o + n ≤ b.
Proof.
  revert a. induction l as [|[o' n'] l IH]; intros a; simpl; intros H Hin.
  - by apply elem_of_nil in Hin.
  - destruct H as (-> & ? & H). pose proof (tiles_le _ _ _ H).
    apply elem_of_cons in Hin as [[= -> ->]|Hin]; [lia|].
    destruct (IH _ H Hin). lia.
Qed.

Lemma tiles_sum a l b : tiles a l b → zsum (snd <$> l) = b - a.
Proof.
  revert a. induction l as [|[o n] l IH]; intros a; csimpl; [simpl; lia|].
  intros (-> & ? & H%IH). simpl. lia.
Qed.

(** Every byte of the range belongs to exactly one span. *)
Lemma tiles_cover a l b x :
  tiles a l b → a ≤ x < b → ∃ i o n, l !! i = Some (o, n) ∧ o ≤ x < o + n ∧
    ∀ j o' n', l !! j = Some (o', n') → o' ≤ x < o' + n' → j = i.
Proof.
  revert a. induction l as [|[o n] l IH]; intros a; simpl; [lia|].
  intros (-> & Hn & H) Hx. destruct (decide (x < a + n)).
  - exists 0%nat, a, n. split_and!; [done|lia|lia|].
    intros [|j] o' n' Hj Ho; [done|]. simpl in Hj.
    destruct (tiles_elem _ _ _ o' n' H) as (? & ? & ?); [|lia].
    by eapply list_elem_of_lookup_2.
  - destruct (IH _ H) as (i & o & m & Hi & Ho & Hu); [lia|].
    exists (S i), o, m. split_and!; [done|lia|lia|].
    intros [|j] o' n' Hj Ho'; simpl in Hj; [simplify_eq; lia|].
    f_equal. by eapply Hu.
Qed.

Lemma tiles_lookup a l b i o n :
  tiles a l b → l !! i = Some (o, n) → tiles a (take i l) o ∧ tiles (o + n) (drop (S i) l) b.
Proof.
  intros H Hi. rewrite <- (take_drop_middle _ _ _ Hi) in H at 1.
  apply tiles_app in H as (m & Hl & -> & Hn & Hr). done.
Qed.

Lemma tiles_offsets_lt a l b i j o n o' n' :
  tiles a l b → l !! i = Some (o, n) → l !! j = Some (o', n') → (i < j)%nat → o + n ≤ o'.
Proof.
  intros H Hi Hj Hij. destruct (tiles_lookup _ _ _ _ _ _ H Hi) as [_ Hr].
  eapply (tiles_elem _ _ _ o' n'); [exact Hr|].
  apply list_elem_of_lookup_2 with (j - S i)%nat. rewrite lookup_drop.
  by replace (S i + (j - S i))%nat with j by lia.
Qed.

(** ** Cutting a range into spans of a given size

    The reference definition of the loops of the program: spans of [size]
    bytes, the last one possibly shorter. *)
Fixpoint chop (fuel : nat) (size stop off : Z) : list span :=
  match fuel with
  | O => []
  | S fuel =>
      if off <? stop then
        let n := Z.min (stop - off) size in (off, n) :: chop fuel size stop (off + n)
      else []
  end.

Lemma chop_tiles fuel size stop off :
  0 < size → off ≤ stop → stop - off ≤ Z.of_nat fuel * size →
  tiles off (chop fuel size stop off) stop.
Proof.
  intros Hs. revert off. induction fuel as [|fuel IH]; intros off Ho Hf; simpl; [lia|].
  destruct (off <? stop) eqn:E; bool_hyps; simpl; [|lia].
  split_and!; [done|lia|]. apply IH; [lia|]. nia.
Qed.

Lemma div_ceil_spec a b : 0 ≤ a → 0 < b → a ≤ div_ceil a b * b < a + b.
Proof.
  intros Ha Hb. unfold div_ceil.
  pose proof (Z.div_mod (a + b - 1) b ltac:(lia)).
  pose proof (Z.mod_pos_bound (a + b - 1) b Hb). nia.
Qed.

Lemma div_ceil_nonneg a b : 0 ≤ a → 0 < b → 0 ≤ div_ceil a b.
Proof. intros Ha Hb. pose proof (div_ceil_spec a b Ha Hb). nia. Qed.

(** The fuel every caller gives: one step per span. *)
Definition chop_fuel (size stop off : Z) : nat := Z.to_nat (div_ceil (stop - off) size).

Lemma chop_fuel_enough size stop off :
  0 < size → off ≤ stop → stop - off ≤ Z.of_nat (chop_fuel size stop off) * size.
Proof.
  intros Hs Ho. unfold chop_fuel.
  pose proof (div_ceil_nonneg (stop - off) size ltac:(lia) Hs).
  rewrite Z2Nat.id by done. apply div_ceil_spec; lia.
Qed.

(** The [k]-th span starts [k] sizes after the beginning. *)
Lemma chop_lookup fuel size stop off k o n :
  0 < size → chop fuel size stop off !! k = Some (o, n) →
  o = off + Z.of_nat k * size ∧ o < stop ∧ n = Z.min (stop - o) size.
Proof.
  intros Hs. revert off k. induction fuel as [|fuel IH]; intros off k; simpl; [done|].
  destruct (off <? stop) eqn:E; bool_hyps; [|done].
  destruct k as [|k]; simpl.
  - intros [= <- <-]. split_and!; lia.
  - intros H. pose proof H as (Ho & Hlt & ->)%IH.
    destruct (decide (stop - off < size)).
    + rewrite Z.min_l in Ho by lia. nia.
    + rewrite Z.min_r in Ho by lia. split_and!; lia.
Qed.

Lemma chop_length fuel size stop off :
  0 < size → off ≤ stop → stop - off ≤ Z.of_nat fuel * size →
  zlen (chop fuel size stop off) = div_ceil (stop - off) size.
Proof.
  intros Hs. revert off. induction fuel as [|fuel IH]; intros off Ho Hf; simpl.
  - replace (stop - off) with 0 by lia. unfold div_ceil. by rewrite Z.div_small by lia.
  - destruct (off <? stop) eqn:E; bool_hyps.
    + rewrite zlen_cons, IH by nia.
      destruct (decide (stop - off < size)).
      * rewrite Z.min_l by lia. replace (stop - (off + (stop - off))) with 0 by lia.
        unfold div_ceil. rewrite (Z.div_small (0 + size - 1)) by lia.
        replace (stop - off + size - 1) with (1 * size + (stop - off - 1)) by lia.
        rewrite Z.div_add_l, Z.div_small by lia. lia.
      * rewrite Z.min_r by lia. unfold div_ceil.
        replace (stop - off + size - 1) with (1 * size + (stop - (off + size) + size - 1)) by lia.
        rewrite Z.div_add_l by lia. lia.
    + replace (stop - off) with 0 by lia. unfold div_ceil. by rewrite Z.div_small by lia.
Qed.
#[export] Hint Resolve tiles_le chop_tiles chop_fuel_enough div_ceil_nonneg : rust.

(** ** Cutting at the values of an increasing function *)
Lemma tiles_steps (f : Z → Z) a n :
  0 ≤ n → (∀ i, a ≤ i < a + n → f i < f (i + 1)) →
  tiles (f a) ((λ i, (f i, f (i + 1) - f i)) <$> seqZ a n) (f (a + n)).
Proof.
  intros Hn. revert a. pattern n. apply natlike_ind; [| |done].
  - intros a _. by rewrite Z.add_0_r.
  - intros m Hm IH a Hf. rewrite seqZ_cons by lia. csimpl.
    split_and!; [done|specialize (Hf a); lia|].
    replace (f a + (f (a + 1) - f a)) with (f (a + 1)) by lia.
    replace (a + Z.succ m) with (a + 1 + m) by lia.
    rewrite Z.pred_succ. replace (Z.succ a) with (a + 1) by lia.
    apply IH. intros i Hi. apply Hf. lia.
Qed.

(** The [i]-th of [w] cuts of [n]: [floor(i * n / w)]. *)
Definition cut (n w i : Z) : Z := i * n / w.

Lemma cut_lt n w i : 0 < w ≤ n → cut n w i < cut n w (i + 1).
Proof.
  intros H. unfold cut.
  replace ((i + 1) * n) with (i * n + n) by lia.
  apply Z.lt_le_trans with (i * n / w + 1); [lia|].
  rewrite <- Z.div_add by lia. apply Z.div_le_mono; lia.
Qed.

Lemma cut_0 n w : cut n w 0 = 0.
Proof. unfold cut. by rewrite Z.mul_0_l, Zdiv_0_l. Qed.
Lemma cut_all n w : 0 < w → cut n w w = n.
Proof. intros H. unfold cut. rewrite Z.mul_comm. by apply Z.div_mul; lia. Qed.
Lemma cut_bounds n w i : 0 < w → 0 ≤ i ≤ w → 0 ≤ n → 0 ≤ cut n w i ≤ n.
Proof.
  intros Hw Hi Hn. unfold cut. split; [apply Z.div_pos; nia|].
  apply Z.div_le_upper_bound; nia.
Qed.
(** Two consecutive cuts are [floor(n / w)] or one more apart. *)
Lemma cut_step n w i :
  0 < w → n / w ≤ cut n w (i + 1) - cut n w i ≤ n / w + 1.
Proof.
  intros Hw. unfold cut. replace ((i + 1) * n) with (i * n + n) by lia.
  pose proof (Z.div_mod (i * n + n) w ltac:(lia)).
  pose proof (Z.mod_pos_bound (i * n + n) w Hw).
  pose proof (Z.div_mod (i * n) w ltac:(lia)). pose proof (Z.mod_pos_bound (i * n) w Hw).
  pose proof (Z.div_mod n w ltac:(lia)). pose proof (Z.mod_pos_bound n w Hw). nia.
Qed.

(** ** Layouts

    As [tiles], for spans that may be empty (files of length 0). *)
Fixpoint layout (a : Z) (l : list span) (b : Z) : Prop :=
  match l with
  | [] => a = b
  | (o, n) :: l => o = a ∧ 0 ≤ n ∧ layout (a + n) l b
  end.

Lemma layout_le a l b : layout a l b → a ≤ b.
Proof.
  revert a. induction l as [|[o n] l IH]; intros a; simpl; [lia|].
  intros (-> & ? & H%IH). lia.
Qed.

Lemma tiles_layout a l b : tiles a l b → layout a l b.
Proof.
  revert a. induction l as [|[o n] l IH]; intros a; simpl; [done|].
  intros (-> & ? & H%IH). split_and!; [done|lia|done].
Qed.

Lemma layout_elem a l b o n : layout a l b → (o, n) ∈ l → a ≤ o ∧ 0 ≤ n ∧ o + n ≤ b.
Proof.
  revert a. induction l as [|[o' n'] l IH]; intros a; simpl; intros H Hin.
  - by apply elem_of_nil in Hin.
  - destruct H as (-> & ? & H). pose proof (layout_le _ _ _ H).
    apply elem_of_cons in Hin as [[= -> ->]|Hin]; [lia|].
    destruct (IH _ H Hin). lia.
Qed.

Lemma layout_sum a l b : layout a l b → zsum (snd <$> l) = b - a.
Proof.
  revert a. induction l as [|[o n] l IH]; intros a; csimpl; [simpl; lia|].
  intros (-> & ? & H%IH). simpl. lia.
Qed.

(** The offset of a span is the total length of those before it. *)
Lemma layout_offset a l b k o n :
  layout a l b → l !! k = Some (o, n) → o = a + zsum (snd <$> take k l).
Proof.
  revert a k. induction l as [|[o' n'] l IH]; intros a [|k]; csimpl; try done.
  - intros (-> & _ & _) [= -> ->]. simpl. lia.
  - intros (-> & _ & H) Hk. rewrite (IH _ _ H Hk). simpl. lia.
Qed.
#[export] Hint Resolve layout_le tiles_layout : rust.
