(* ===== verification/Piece.v ===== *)
(** * Pieces, blocks and chunks ([src/src/domain/piece.rs], [src/src/chunk.rs])

    A payload of known size is cut into pieces, each piece into blocks; the
    completion of a download is recorded per block and derived per piece.  The
    older chunk planner cuts a payload into one chunk per worker. *)

From S2P Require Import Prelude Ranges.

(** ** Data *)

(** [src/src/domain/piece.rs:4-8], [PieceLayout]. *)
Record PieceLayout := mk_piece {
  pl_index : Z;
  pl_offset : Z;
  pl_length : Z
}.
(** [src/src/domain/piece.rs:11-16], [PieceBlock]. *)
Record PieceBlock := mk_block {
  pb_piece : Z;
  pb_index : Z;
  pb_offset : Z;
  pb_length : Z
}.
(** [src/src/domain/piece.rs:19-22], [PieceState]. *)
Record PieceState := mk_piece_state { ps_index : Z; ps_completed : bool }.
(** [src/src/domain/piece.rs:25-29], [BlockState]. *)
Record BlockState := mk_block_state {
  bs_piece : Z;
  bs_index : Z;
  bs_completed : bool
}.
#[export] Instance PieceLayout_eq_dec : EqDecision PieceLayout.
Proof. solve_decision. Defined.
#[export] Instance PieceBlock_eq_dec : EqDecision PieceBlock.
Proof. solve_decision. Defined.
#[export] Instance PieceState_eq_dec : EqDecision PieceState.
Proof. solve_decision. Defined.
#[export] Instance BlockState_eq_dec : EqDecision BlockState.
Proof. solve_decision. Defined.

Definition span_of_piece (p : PieceLayout) : span := (pl_offset p, pl_length p).
Definition span_of_block (b : PieceBlock) : span := (pb_offset b, pb_length b).

(** ** Planning *)

(** [src/src/domain/piece.rs:41-51], [plan_piece_layouts (while loop)]. *)
Fixpoint piece_loop (fuel : nat) (total_size piece_size piece_index offset : Z)
    : list PieceLayout :=
  match fuel with
  | O => []
  | S fuel =>
      if offset <? total_size then
        let remaining := total_size - offset in
        let length := wrap32 (Z.min remaining piece_size) in
        mk_piece piece_index offset length ::
        piece_loop fuel total_size piece_size (wrap32 (piece_index + 1))
          (wrap64 (offset + length))
      else []
  end.

(** [src/src/domain/piece.rs:31-54], [plan_piece_layouts]. *)
Definition plan_piece_layouts (total_size piece_size : Z) : list PieceLayout :=
  if total_size =? 0 then [] else
  let piece_size := Z.max piece_size 1 in
  piece_loop (chop_fuel piece_size total_size 0) total_size piece_size 0 0.

(** [src/src/domain/piece.rs:56-64], [initialize_piece_states]. *)
Definition initialize_piece_states (pieces : list PieceLayout) : list PieceState :=
  (λ p, mk_piece_state (pl_index p) false) <$> pieces.

(** [src/src/domain/piece.rs:78-89], [plan_piece_blocks (while loop)]. *)
Fixpoint block_loop (fuel : nat) (piece_index block_size piece_end block_index offset : Z)
    : list PieceBlock :=
  match fuel with
  | O => []
  | S fuel =>
      if offset <? piece_end then
        let remaining := sat_sub piece_end offset in
        let length := wrap32 (Z.min remaining block_size) in
        mk_block piece_index block_index offset length ::
        block_loop fuel piece_index block_size piece_end (sat_add32 block_index 1)
          (sat_add offset length)
      else []
  end.

(** [src/src/domain/piece.rs:74-90], [plan_piece_blocks (for body)]. *)
Definition piece_blocks (block_size : Z) (piece : PieceLayout) : list PieceBlock :=
  let piece_end := sat_add (pl_offset piece) (pl_length piece) in
  block_loop (chop_fuel block_size piece_end (pl_offset piece)) (pl_index piece) block_size
    piece_end 0 (pl_offset piece).

(** [src/src/domain/piece.rs:66-93], [plan_piece_blocks]. *)
Definition plan_piece_blocks (pieces : list PieceLayout) (block_size : Z) : list PieceBlock :=
  let block_size := Z.max block_size 1 in
  pieces ≫= piece_blocks block_size.

(** [src/src/domain/piece.rs:95-104], [initialize_block_states]. *)
Definition initialize_block_states (blocks : list PieceBlock) : list BlockState :=
  (λ b, mk_block_state (pb_piece b) (pb_index b) false) <$> blocks.

(** ** Completion *)

(** The test of both marking loops: the span lies within the covered bytes. *)
Definition covered (s : span) (covered_start covered_end : Z) : bool :=
  let last := sat_sub (sat_add (fst s) (snd s)) 1 in
  ((covered_start <=? fst s) && (last <=? covered_end))%bool.

(** [src/src/domain/piece.rs:107-122], [mark_completed_pieces]. *)
Definition mark_completed_pieces (states : list PieceState) (pieces : list PieceLayout)
    (covered_start covered_end : Z) : list PieceState :=
  zip_update (λ st p,
    if covered (span_of_piece p) covered_start covered_end
    then mk_piece_state (ps_index st) true else st) states pieces.

(** [src/src/domain/piece.rs:124-139], [mark_completed_blocks]. *)
Definition mark_completed_blocks (states : list BlockState) (blocks : list PieceBlock)
    (covered_start covered_end : Z) : list BlockState :=
  zip_update (λ st b,
    if covered (span_of_block b) covered_start covered_end
    then mk_block_state (bs_piece st) (bs_index st) true else st) states blocks.

(** [src/src/domain/piece.rs:141-143], [completed_piece_count]. *)
Definition completed_piece_count (states : list PieceState) : Z :=
  wrap32 (countb ps_completed states).
(** [src/src/domain/piece.rs:145-147], [completed_block_count]. *)
Definition completed_block_count (states : list BlockState) : Z :=
  wrap32 (countb bs_completed states).

(** The state recorded for a block, [false] when there is none. *)
Definition block_completed (states : list BlockState) (b : PieceBlock) : bool :=
  unwrap_or false (bs_completed <$>
    find_first (λ st, (bs_piece st =? pb_piece b) && (bs_index st =? pb_index b))%bool states).

(** [src/src/domain/piece.rs:149-176], [derive_piece_states_from_blocks]. *)
Definition derive_piece_states_from_blocks (pieces : list PieceLayout)
    (blocks : list PieceBlock) (block_states : list BlockState) : list PieceState :=
  (λ p, mk_piece_state (pl_index p)
     (forallb (block_completed block_states)
        (filterb (λ b, pb_piece b =? pl_index p) blocks))) <$> pieces.

(** ** Chunks *)

(** [src/src/chunk.rs:2-6], [DownloadChunk]. *)
Record DownloadChunk := mk_chunk {
  chunk_index : Z;
  chunk_start : Z;
  chunk_end : Z
}.

(** [src/src/chunk.rs:8-35], [plan_download_chunks]. The product of an index and the total
    size wraps at 64 bits. *)
Definition plan_download_chunks (total_size requested_workers : Z) : list DownloadChunk :=
  if total_size =? 0 then [] else
  let worker_count := Z.min (Z.max requested_workers 1) total_size in
  seqZ 0 worker_count ≫= λ index,
    let start := wrap64 (index * total_size) / worker_count in
    let end_ := sat_sub (wrap64 ((index + 1) * total_size) / worker_count) 1 in
    if end_ <? start then [] else [mk_chunk (wrap32 index) start end_].

(** ** The loops cut their range as [chop] does *)

Lemma piece_loop_chop fuel total ps idx off :
  0 < ps ≤ u32_max → 0 ≤ off → total ≤ u64_max →
  span_of_piece <$> piece_loop fuel total ps idx off = chop fuel ps total off.
Proof.
  intros Hps. revert idx off. induction fuel as [|fuel IH]; intros idx off Ho Ht; [done|].
  cbn [piece_loop chop]. destruct (off <? total) eqn:E; bool_hyps; [|done].
  rewrite (wrap32_small (Z.min _ _)) by ilia. rewrite wrap64_small by ilia.
  csimpl. unfold span_of_piece at 1. cbn [pl_offset pl_length]. f_equal.
  apply IH; [lia|done].
Qed.

Lemma block_loop_chop fuel pi bs stop idx off :
  0 < bs ≤ u32_max → 0 ≤ off → stop ≤ u64_max →
  span_of_block <$> block_loop fuel pi bs stop idx off = chop fuel bs stop off.
Proof.
  intros Hbs. revert idx off. induction fuel as [|fuel IH]; intros idx off Ho Ht; [done|].
  cbn [block_loop chop]. destruct (off <? stop) eqn:E; bool_hyps; [|done].
  rewrite sat_sub_exact by lia. rewrite wrap32_small by ilia. rewrite sat_add_exact by ilia.
  csimpl. unfold span_of_block at 1. cbn [pb_offset pb_length]. f_equal.
  apply IH; [lia|done].
Qed.

Lemma piece_loop_lookup fuel total ps idx off k p :
  piece_loop fuel total ps idx off !! k = Some p → is_u32 idx →
  pl_index p = wrap32 (idx + Z.of_nat k).
Proof.
  revert idx off k. induction fuel as [|fuel IH]; intros idx off k; simpl; [done|].
  destruct (off <? total); [|done]. intros H Hi. destruct k as [|k]; simpl in H.
  - simplify_eq. simpl. rewrite Z.add_0_r. by rewrite wrap32_small.
  - apply IH in H; [|apply wrap32_range]. rewrite H. unfold wrap32.
    rewrite Zplus_mod_idemp_l. f_equal. lia.
Qed.

Lemma block_loop_lookup fuel pi bs stop idx off k b :
  block_loop fuel pi bs stop idx off !! k = Some b → idx + Z.of_nat k ≤ u32_max → 0 ≤ idx →
  pb_piece b = pi ∧ pb_index b = idx + Z.of_nat k.
Proof.
  revert idx off k. induction fuel as [|fuel IH]; intros idx off k; simpl; [done|].
  destruct (off <? stop); [|done]. intros H Hi Hn. destruct k as [|k]; simpl in H.
  - simplify_eq. simpl. split; [done|lia].
  - apply IH in H as [-> ->]; [|ilia|ilia].
    split; [done|]. unfold sat_add32. ilia.
Qed.

Lemma plan_piece_layouts_chop total ps :
  is_u64 total → is_u32 ps →
  span_of_piece <$> plan_piece_layouts total ps =
  chop (chop_fuel (Z.max ps 1) total 0) (Z.max ps 1) total 0.
Proof.
  intros Ht Hps. unfold plan_piece_layouts. destruct (total =? 0) eqn:E; bool_hyps.
  - subst. csimpl. destruct (chop_fuel _ _ _); [done|]. simpl. done.
  - apply piece_loop_chop; ilia.
Qed.

(** What a caller of [plan_piece_blocks] guarantees of a piece. *)
Definition piece_ok (p : PieceLayout) : Prop :=
  0 ≤ pl_offset p ∧ 0 < pl_length p ≤ u32_max ∧ pl_offset p + pl_length p ≤ u64_max.

Lemma piece_blocks_chop bs p :
  piece_ok p → 0 < bs ≤ u32_max →
  span_of_block <$> piece_blocks bs p =
  chop (chop_fuel bs (pl_offset p + pl_length p) (pl_offset p)) bs
    (pl_offset p + pl_length p) (pl_offset p).
Proof.
  intros (Ho & Hl & Hu) Hbs. unfold piece_blocks. rewrite sat_add_exact by lia.
  apply block_loop_chop; lia.
Qed.

Lemma piece_blocks_tiles bs p :
  piece_ok p → 0 < bs ≤ u32_max →
  tiles (pl_offset p) (span_of_block <$> piece_blocks bs p) (pl_offset p + pl_length p).
Proof.
  intros Hp Hbs. rewrite piece_blocks_chop by done. destruct Hp as (? & ? & ?).
  apply chop_tiles; [lia|lia|]. apply chop_fuel_enough; lia.
Qed.

Lemma piece_blocks_length bs p :
  piece_ok p → 0 < bs ≤ u32_max → zlen (piece_blocks bs p) = div_ceil (pl_length p) bs.
Proof.
  intros Hp Hbs.
  assert (zlen (span_of_block <$> piece_blocks bs p) = div_ceil (pl_length p) bs) as <-
    by (rewrite piece_blocks_chop by done; destruct Hp as (? & ? & ?);
        rewrite chop_length by (try apply chop_fuel_enough; lia); f_equal; lia).
  by rewrite zlen_fmap.
Qed.

Lemma piece_blocks_lookup bs p k b :
  piece_ok p → 0 < bs ≤ u32_max → piece_blocks bs p !! k = Some b →
  pb_piece b = pl_index p ∧ pb_index b = Z.of_nat k.
Proof.
  intros Hp Hbs Hb. pose proof (piece_blocks_length bs p Hp Hbs) as Hlen.
  pose proof (lookup_lt_Some _ _ _ Hb).
  assert (div_ceil (pl_length p) bs ≤ pl_length p) as Hle.
  { destruct Hp as (_ & ? & _). unfold div_ceil. apply Z.div_le_upper_bound; nia. }
  destruct Hp as (_ & ? & _). unfold piece_blocks in *.
  eapply block_loop_lookup in Hb; [|unfold zlen in *; lia|lia]. by rewrite Z.add_0_l in Hb.
Qed.

(** ** Pieces *)

Lemma plan_piece_layouts_length total ps :
  is_u64 total → is_u32 ps →
  zlen (plan_piece_layouts total ps) = div_ceil total (Z.max ps 1).
Proof.
  intros Ht Hps. assert (0 < Z.max ps 1) as Hs by ilia.
  rewrite <- (zlen_fmap span_of_piece), plan_piece_layouts_chop by done.
  rewrite chop_length by (try apply chop_fuel_enough; ilia). f_equal. lia.
Qed.

Lemma plan_piece_layouts_tiles total ps :
  is_u64 total → is_u32 ps → tiles 0 (span_of_piece <$> plan_piece_layouts total ps) total.
Proof.
  intros Ht Hps. rewrite plan_piece_layouts_chop by done.
  apply chop_tiles; try apply chop_fuel_enough; ilia.
Qed.

Lemma plan_piece_layouts_lookup total ps k p :
  is_u64 total → is_u32 ps → plan_piece_layouts total ps !! k = Some p →
  pl_index p = wrap32 (Z.of_nat k) ∧ pl_offset p = Z.of_nat k * Z.max ps 1 ∧
  pl_length p = Z.min (Z.max ps 1) (total - Z.of_nat k * Z.max ps 1).
Proof.
  intros Ht Hps Hk. assert (span_of_piece <$> plan_piece_layouts total ps !! k =
    Some (span_of_piece p)) as Hsp by (by rewrite Hk).
  rewrite <- list_lookup_fmap, plan_piece_layouts_chop in Hsp by done.
  apply chop_lookup in Hsp as (Ho & Hlt & Hn); [|ilia]. split_and!; [|lia|lia].
  unfold plan_piece_layouts in Hk. destruct (total =? 0); [done|].
  by eapply piece_loop_lookup in Hk; [|ilia].
Qed.

(** [plan_piece_layouts] returns exactly [ceil(total / size)] pieces, where
    [size] is the piece size (1 if it is 0).  They tile the payload, and the
    [k]-th one has index [k] modulo 2^32, starts at [k * size] and has [size]
    bytes, the last one what is left. *)
Theorem plan_piece_layouts_spec total ps :
  is_u64 total → is_u32 ps →
  let size := Z.max ps 1 in
  let pieces := plan_piece_layouts total ps in
  zlen pieces = div_ceil total size ∧
  tiles 0 (span_of_piece <$> pieces) total ∧
  ∀ k p, pieces !! k = Some p →
    pl_index p = wrap32 (Z.of_nat k) ∧ pl_offset p = Z.of_nat k * size ∧
    pl_length p = Z.min size (total - Z.of_nat k * size).
Proof.
  intros Ht Hps size pieces. split_and!.
  - by apply plan_piece_layouts_length.
  - by apply plan_piece_layouts_tiles.
  - intros k p. by apply plan_piece_layouts_lookup.
Qed.

Lemma plan_piece_layouts_spec_witness :
  is_u64 10 ∧ is_u32 4 ∧ zlen (plan_piece_layouts 10 4) = 3.
Proof.
  split; [ilia|]. split; [ilia|].
  destruct (plan_piece_layouts_spec 10 4 ltac:(ilia) ltac:(ilia)) as [H _].
  rewrite H. reflexivity.
Defined.

Lemma plan_piece_layouts_ok total ps p :
  is_u64 total → is_u32 ps → p ∈ plan_piece_layouts total ps → piece_ok p.
Proof.
  intros Ht Hps [k Hk]%list_elem_of_lookup.
  pose proof (plan_piece_layouts_tiles total ps Ht Hps) as Htl.
  destruct (plan_piece_layouts_lookup total ps k p Ht Hps Hk) as (_ & Ho & Hl).
  destruct (tiles_elem _ _ _ (pl_offset p) (pl_length p) Htl) as (? & ? & ?).
  { apply list_elem_of_lookup. exists k. by rewrite list_lookup_fmap, Hk. }
  unfold piece_ok. split_and!; ilia.
Qed.

(** Piece indices are pairwise distinct as long as they do not wrap around. *)
Lemma plan_piece_layouts_NoDup total ps :
  is_u64 total → is_u32 ps → total ≤ Z.max ps 1 * (u32_max + 1) →
  NoDup (pl_index <$> plan_piece_layouts total ps).
Proof.
  intros Ht Hps Hw. pose proof (plan_piece_layouts_length total ps Ht Hps) as Hlen.
  assert (zlen (plan_piece_layouts total ps) ≤ u32_max + 1) as Hl.
  { rewrite Hlen. unfold div_ceil. apply Z.lt_succ_r, Z.div_lt_upper_bound; ilia. }
  apply NoDup_alt. intros i j x Hi Hj. rewrite list_lookup_fmap in Hi, Hj.
  apply fmap_Some in Hi as (p & Hi & ->). apply fmap_Some in Hj as (q & Hj & Heq).
  pose proof (lookup_lt_Some _ _ _ Hi). pose proof (lookup_lt_Some _ _ _ Hj).
  apply plan_piece_layouts_lookup in Hi as [Hi _]; [|done|done].
  apply plan_piece_layouts_lookup in Hj as [Hj _]; [|done|done].
  rewrite Hi, Hj, !wrap32_small in Heq by (unfold zlen in *; ilia). lia.
Qed.

(** ** Blocks *)

Lemma plan_piece_blocks_tiles_gen bs a pieces b :
  0 < bs ≤ u32_max → (∀ p, p ∈ pieces → piece_ok p) →
  tiles a (span_of_piece <$> pieces) b →
  tiles a (span_of_block <$> (pieces ≫= piece_blocks bs)) b.
Proof.
  intros Hbs. revert a. induction pieces as [|p pieces IH]; intros a Hok Ht; [done|].
  csimpl in *. destruct Ht as (<- & Hn & Ht). rewrite fmap_app. apply tiles_app.
  exists (pl_offset p + pl_length p). split.
  - apply piece_blocks_tiles; [apply Hok; left|done].
  - apply IH; [|done]. intros q Hq. apply Hok. by right.
Qed.

(** Selecting the blocks of one piece gives that piece's blocks. *)
Lemma filterb_bind_blocks bs pieces p :
  NoDup (pl_index <$> pieces) → p ∈ pieces →
  (∀ q b, q ∈ pieces → b ∈ piece_blocks bs q → pb_piece b = pl_index q) →
  filterb (λ b, pb_piece b =? pl_index p) (pieces ≫= piece_blocks bs) = piece_blocks bs p.
Proof.
  induction pieces as [|q pieces IH]; intros Hnd Hin Hidx; [by apply elem_of_nil in Hin|].
  csimpl in *. apply NoDup_cons in Hnd as [Hq Hnd]. rewrite filterb_app.
  assert (∀ l, (∀ b, b ∈ l → pb_piece b ≠ pl_index p) →
    filterb (λ b, pb_piece b =? pl_index p) l = []) as Hnil.
  { intros l Hl. apply filterb_none. intros b Hb. by apply Z.eqb_neq, Hl. }
  apply elem_of_cons in Hin as [->|Hin].
  - rewrite (Hnil (pieces ≫= piece_blocks bs)), app_nil_r.
    + apply filterb_all. intros b Hb. apply Z.eqb_eq. apply Hidx; [left|done].
    + intros b Hb. apply list_elem_of_bind in Hb as (q' & Hb & Hq').
      rewrite (Hidx q' b); [|by right|done]. intros Heq.
      apply Hq. rewrite <- Heq. by apply list_elem_of_fmap_2.
  - rewrite (Hnil (piece_blocks bs q)).
    + apply IH; [done|done|]. intros q' b Hq' Hb. apply Hidx; [by right|done].
    + intros b Hb. rewrite (Hidx q b); [|left|done]. intros Heq.
      apply Hq. rewrite Heq. by apply list_elem_of_fmap_2.
Qed.

Lemma piece_blocks_elem bs p b :
  piece_ok p → 0 < bs ≤ u32_max → b ∈ piece_blocks bs p → pb_piece b = pl_index p.
Proof. intros Hp Hbs [k Hk]%list_elem_of_lookup. by eapply piece_blocks_lookup. Qed.

(** Blocks are told apart by their piece and their index in it. *)
Lemma block_ids_distinct bs pieces :
  0 < bs ≤ u32_max → Forall piece_ok pieces → NoDup (pl_index <$> pieces) →
  NoDup ((λ b, (pb_piece b, pb_index b)) <$> (pieces ≫= piece_blocks bs)).
Proof.
  intros Hbs Hok Hnd. induction Hok as [|p pieces Hp Hok IH]; [constructor|].
  apply NoDup_cons in Hnd as [Hn Hnd]. cbn [mbind list_bind]. rewrite fmap_app.
  apply NoDup_app. split_and!; [| |by apply IH].
  - apply NoDup_alt. intros i j x Hi Hj.
    apply list_lookup_fmap_Some in Hi as (b & -> & Hb). apply list_lookup_fmap_Some in Hj as (c & E & Hc).
    destruct (piece_blocks_lookup bs p i b Hp Hbs Hb) as [_ H1].
    destruct (piece_blocks_lookup bs p j c Hp Hbs Hc) as [_ H2]. injection E as _ E. lia.
  - intros x (b & -> & Hb)%list_elem_of_fmap (c & E & Hc)%list_elem_of_fmap. apply Hn.
    apply list_elem_of_bind in Hc as (q & Hc & Hq). injection E as E _.
    rewrite (piece_blocks_elem bs p b Hp Hbs Hb) in E.
    rewrite (piece_blocks_elem bs q c) in E by (done || by eapply Forall_forall).
    rewrite E. by apply list_elem_of_fmap_2.
Qed.

Lemma plan_piece_blocks_tiles total ps bs :
  is_u64 total → is_u32 ps → is_u32 bs →
  tiles 0 (span_of_block <$> plan_piece_blocks (plan_piece_layouts total ps) bs) total.
Proof.
  intros Ht Hps Hbs. apply plan_piece_blocks_tiles_gen; [ilia| |].
  - intros p. by apply plan_piece_layouts_ok.
  - by apply plan_piece_layouts_tiles.
Qed.

(** The blocks planned over the planned pieces tile the payload, and each
    piece is tiled by the blocks that carry its index, numbered from 0. *)
Theorem plan_piece_blocks_spec total ps bs :
  is_u64 total → is_u32 ps → is_u32 bs →
  let pieces := plan_piece_layouts total ps in
  tiles 0 (span_of_block <$> plan_piece_blocks pieces bs) total ∧
  (total ≤ Z.max ps 1 * (u32_max + 1) → ∀ p, p ∈ pieces →
   let blocks := filterb (λ b, pb_piece b =? pl_index p) (plan_piece_blocks pieces bs) in
   tiles (pl_offset p) (span_of_block <$> blocks) (pl_offset p + pl_length p) ∧
   ∀ k b, blocks !! k = Some b → pb_index b = Z.of_nat k).
Proof.
  intros Ht Hps Hbs pieces.
  assert (0 < Z.max bs 1 ≤ u32_max) as Hbs' by ilia. split.
  - by apply plan_piece_blocks_tiles.
  - unfold plan_piece_blocks. intros Hw p Hp. pose proof (plan_piece_layouts_ok _ _ _ Ht Hps Hp) as Hok.
    rewrite filterb_bind_blocks; [|by apply plan_piece_layouts_NoDup|done|].
    + split; [by apply piece_blocks_tiles|]. intros k b Hb.
      by apply (piece_blocks_lookup (Z.max bs 1) p).
    + intros q b Hq. apply piece_blocks_elem; [|done].
      by apply (plan_piece_layouts_ok total ps).
Qed.

Lemma plan_piece_blocks_spec_witness :
  is_u64 10 ∧ is_u32 4 ∧ is_u32 2 ∧
  tiles 0 (span_of_block <$> plan_piece_blocks (plan_piece_layouts 10 4) 2) 10.
Proof.
  split; [ilia|]. split; [ilia|]. split; [ilia|].
  exact (proj1 (plan_piece_blocks_spec 10 4 2 ltac:(ilia) ltac:(ilia) ltac:(ilia))).
Defined.

(** ** Completion *)

Lemma covered_spec o n cs ce :
  0 ≤ o → 0 < n → o + n ≤ u64_max →
  covered (o, n) cs ce = true ↔ cs ≤ o ∧ o + n - 1 ≤ ce.
Proof.
  intros Ho Hn Hu. unfold covered. cbn [fst snd].
  rewrite sat_add_exact, sat_sub_exact by lia. rewrite andb_true_iff, !Z.leb_le. lia.
Qed.

(** A tiled range is covered exactly when each of its spans is. *)
Lemma tiles_covered l a b cs ce :
  tiles a l b → 0 ≤ a → a < b → b ≤ u64_max →
  forallb (λ s, covered s cs ce) l = covered (a, b - a) cs ce.
Proof.
  revert a. induction l as [|[o n] l IH]; intros a; simpl; [lia|].
  intros (-> & Hn & Ht) Ha Hab Hb. pose proof (tiles_le _ _ _ Ht) as Hle.
  destruct (decide (a + n = b)) as [<-|Hne].
  - assert (l = []) as -> by (by apply (tiles_nil_iff _ _ _ Ht)).
    simpl. rewrite andb_true_r. do 2 f_equal. lia.
  - rewrite (IH (a + n)) by (done || lia). apply bool_iff.
    rewrite andb_true_iff, !covered_spec by lia. lia.
Qed.

Lemma find_first_fmap {A B} (p : B → bool) (f : A → B) l :
  find_first p (f <$> l) = f <$> find_first (λ x, p (f x)) l.
Proof.
  induction l as [|x l IH]; csimpl; [done|].
  destruct (p (f x)); [done|]. apply IH.
Qed.

Definition mark_block (cs ce : Z) (b : PieceBlock) : BlockState :=
  mk_block_state (pb_piece b) (pb_index b) (covered (span_of_block b) cs ce).

Lemma mark_initial_blocks blocks cs ce :
  mark_completed_blocks (initialize_block_states blocks) blocks cs ce =
  mark_block cs ce <$> blocks.
Proof.
  unfold mark_completed_blocks, initialize_block_states.
  induction blocks as [|b l IH]; csimpl; [done|]. rewrite IH. f_equal.
  unfold mark_block. by destruct (covered _ _ _).
Qed.

Lemma mark_initial_pieces pieces cs ce :
  mark_completed_pieces (initialize_piece_states pieces) pieces cs ce =
  (λ p, mk_piece_state (pl_index p) (covered (span_of_piece p) cs ce)) <$> pieces.
Proof.
  unfold mark_completed_pieces, initialize_piece_states.
  induction pieces as [|b l IH]; csimpl; [done|]. rewrite IH. f_equal.
  by destruct (covered _ _ _).
Qed.

(** The state of a block is found by its indices when they identify it. *)
Lemma block_completed_marked blocks cs ce b :
  (∀ b', b' ∈ blocks → pb_piece b' = pb_piece b → pb_index b' = pb_index b → b' = b) →
  b ∈ blocks →
  block_completed (mark_block cs ce <$> blocks) b = covered (span_of_block b) cs ce.
Proof.
  intros Hu Hb. unfold block_completed. rewrite find_first_fmap.
  destruct (find_first _ blocks) as [b'|] eqn:E; csimpl.
  - apply find_first_Some in E as [Hb' Hk]. simpl in Hk. bool_hyps.
    by rewrite (Hu b') by done.
  - exfalso. rewrite find_first_None in E. specialize (E b Hb). simpl in E.
    by rewrite !Z.eqb_refl in E.
Qed.

Lemma planned_blocks_unique total ps bs b b' :
  is_u64 total → is_u32 ps → 0 < bs ≤ u32_max → total ≤ Z.max ps 1 * (u32_max + 1) →
  let blocks := plan_piece_layouts total ps ≫= piece_blocks bs in
  b ∈ blocks → b' ∈ blocks → pb_piece b' = pb_piece b → pb_index b' = pb_index b → b' = b.
Proof.
  intros Ht Hps Hbs Hw blocks Hb Hb' Hp Hi.
  apply list_elem_of_bind in Hb as (p & Hb & Hp1).
  apply list_elem_of_bind in Hb' as (p' & Hb' & Hp2).
  pose proof (plan_piece_layouts_ok _ _ _ Ht Hps Hp1) as Hok.
  pose proof (plan_piece_layouts_ok _ _ _ Ht Hps Hp2) as Hok'.
  rewrite (piece_blocks_elem bs p' b'), (piece_blocks_elem bs p b) in Hp by done.
  assert (p' = p) as ->.
  { pose proof (plan_piece_layouts_NoDup _ _ Ht Hps Hw) as Hnd.
    apply list_elem_of_lookup in Hp1 as [i Hp1]. apply list_elem_of_lookup in Hp2 as [j Hp2].
    assert (i = j) as ->; [|congruence].
    eapply (NoDup_lookup _ i j (pl_index p) Hnd); rewrite list_lookup_fmap.
    - by rewrite Hp1.
    - rewrite Hp2. csimpl. congruence. }
  apply list_elem_of_lookup in Hb as [i Hb]. apply list_elem_of_lookup in Hb' as [j Hb'].
  pose proof Hb as [_ Hbi]%(piece_blocks_lookup bs p); [|done|done].
  pose proof Hb' as [_ Hbj]%(piece_blocks_lookup bs p); [|done|done].
  assert (i = j) as -> by lia. congruence.
Qed.

(** Deriving piece completion from blocks is sound and complete: marking
    the blocks that lie in a covered range and deriving the pieces gives what
    marking the pieces directly gives. *)
Theorem derive_after_mark_blocks total ps bs covered_start covered_end :
  is_u64 total → is_u32 ps → is_u32 bs → total ≤ Z.max ps 1 * (u32_max + 1) →
  let pieces := plan_piece_layouts total ps in
  let blocks := plan_piece_blocks pieces bs in
  derive_piece_states_from_blocks pieces blocks
    (mark_completed_blocks (initialize_block_states blocks) blocks covered_start covered_end) =
  mark_completed_pieces (initialize_piece_states pieces) pieces covered_start covered_end.
Proof.
  intros Ht Hps Hbs Hw pieces blocks. rewrite mark_initial_blocks, mark_initial_pieces.
  assert (0 < Z.max bs 1 ≤ u32_max) as Hbs' by ilia.
  unfold derive_piece_states_from_blocks. apply list_fmap_ext. intros k p Hk. f_equal.
  apply list_elem_of_lookup_2 in Hk as Hp.
  pose proof (plan_piece_layouts_ok _ _ _ Ht Hps Hp) as Hok.
  subst blocks. unfold plan_piece_blocks.
  rewrite (filterb_bind_blocks _ _ p).
  - transitivity (forallb (λ s, covered s covered_start covered_end)
      (span_of_block <$> piece_blocks (Z.max bs 1) p)).
    + rewrite forallb_fmap. apply forallb_ext_in. intros b Hb.
      apply block_completed_marked.
      * intros b' Hb'. by apply (planned_blocks_unique total ps (Z.max bs 1)); try done;
          apply list_elem_of_bind; eauto.
      * apply list_elem_of_bind. eauto.
    + destruct Hok as (Ho & Hl & Hu).
      rewrite (tiles_covered _ (pl_offset p) (pl_offset p + pl_length p)) by
        (try apply piece_blocks_tiles; unfold piece_ok; lia).
      unfold span_of_piece. do 2 f_equal. lia.
  - by apply plan_piece_layouts_NoDup.
  - done.
  - intros q b Hq. apply piece_blocks_elem; [|done]. by apply (plan_piece_layouts_ok total ps).
Qed.

Lemma derive_after_mark_blocks_witness :
  is_u64 10 ∧ is_u32 4 ∧ is_u32 2 ∧ 10 ≤ Z.max 4 1 * (u32_max + 1) ∧
  let pieces := plan_piece_layouts 10 4 in
  let blocks := plan_piece_blocks pieces 2 in
  derive_piece_states_from_blocks pieces blocks
    (mark_completed_blocks (initialize_block_states blocks) blocks 0 7) =
  mark_completed_pieces (initialize_piece_states pieces) pieces 0 7.
Proof.
  split; [ilia|]. split; [ilia|]. split; [ilia|]. split; [ilia|].
  exact (derive_after_mark_blocks 10 4 2 0 7 ltac:(ilia) ltac:(ilia) ltac:(ilia) ltac:(ilia)).
Defined.

Example derive_ex :
  derive_piece_states_from_blocks (plan_piece_layouts 10 4)
    (plan_piece_blocks (plan_piece_layouts 10 4) 2)
    (mark_completed_blocks
      (initialize_block_states (plan_piece_blocks (plan_piece_layouts 10 4) 2))
      (plan_piece_blocks (plan_piece_layouts 10 4) 2) 0 7) =
  [mk_piece_state 0 true; mk_piece_state 1 true; mk_piece_state 2 false].
Proof. reflexivity. Qed.

(** Marking never takes completion back. *)
Lemma mark_completed_blocks_mono states blocks cs ce k st :
  states !! k = Some st →
  ∃ st', mark_completed_blocks states blocks cs ce !! k = Some st' ∧
    bs_piece st' = bs_piece st ∧ bs_index st' = bs_index st ∧
    (bs_completed st = true → bs_completed st' = true).
Proof.
  intros Hk. unfold mark_completed_blocks. rewrite lookup_zip_update, Hk.
  destruct (blocks !! k) as [b|]; [|by exists st].
  destruct (covered _ _ _); eexists; split; try done.
Qed.

Lemma mark_completed_blocks_length states blocks cs ce :
  length (mark_completed_blocks states blocks cs ce) = length states.
Proof. apply length_zip_update. Qed.

(** ** Chunks *)

Definition span_of_chunk (c : DownloadChunk) : span :=
  (chunk_start c, chunk_end c - chunk_start c + 1).

(** As long as the products of the loop fit in 64 bits, the chunk planner
    returns one chunk per worker (never more workers than bytes), the chunks
    tile the payload, and their sizes differ by at most one byte. *)
Theorem plan_download_chunks_spec total workers :
  is_u64 total → 0 ≤ workers →
  let count := Z.min (Z.max workers 1) total in
  count * total ≤ u64_max →
  let chunks := plan_download_chunks total workers in
  zlen chunks = count ∧
  tiles 0 (span_of_chunk <$> chunks) total ∧
  ∀ c, c ∈ chunks →
    total / count ≤ chunk_end c - chunk_start c + 1 ≤ total / count + 1.
Proof.
  intros Ht Hw count Hov chunks. subst chunks. unfold plan_download_chunks. fold count.
  destruct (total =? 0) eqn:E; bool_hyps.
  { subst. split_and!; [subst count; rewrite zlen_nil; lia|done|].
    intros c Hc. by apply elem_of_nil in Hc. }
  assert (0 < count ≤ total) as Hc by (subst count; ilia).
  set (at_ i := mk_chunk (wrap32 i) (cut total count i) (cut total count (i + 1) - 1)).
  cbv zeta. fold count.
  match goal with |- context [seqZ 0 count ≫= ?f] =>
    assert ((seqZ 0 count ≫= f) = at_ <$> seqZ 0 count) as -> end.
  { rewrite list_fmap_bind_singleton. apply bind_ext_in. intros i Hi.
    apply elem_of_seqZ in Hi. rewrite !wrap64_small by (unfold is_u64; nia).
    pose proof (cut_lt total count i Hc) as Hlt.
    pose proof (cut_bounds total count i ltac:(lia) ltac:(lia) ltac:(lia)).
    unfold cut in *. rewrite sat_sub_exact by lia.
    destruct (_ <? _) eqn:E2; bool_hyps; [lia|done]. }
  split_and!.
  - rewrite zlen_fmap. unfold zlen. rewrite length_seqZ. lia.
  - rewrite <- list_fmap_compose.
    assert (((λ i, (cut total count i, cut total count (i + 1) - cut total count i)) <$>
      seqZ 0 count) = (span_of_chunk ∘ at_ <$> seqZ 0 count)) as <-.
    { apply list_fmap_ext. intros k i _. unfold span_of_chunk, at_. simpl. f_equal. lia. }
    pose proof (tiles_steps (cut total count) 0 count ltac:(lia)
      (λ i _, cut_lt total count i Hc)) as Hts.
    by rewrite Z.add_0_l, cut_0, cut_all in Hts by lia.
  - intros c (i & -> & Hi)%list_elem_of_fmap. subst at_. cbn [chunk_start chunk_end].
    pose proof (cut_step total count i ltac:(lia)). lia.
Qed.

Lemma plan_download_chunks_spec_witness :
  is_u64 10 ∧ 0 ≤ 3 ∧ Z.min (Z.max 3 1) 10 * 10 ≤ u64_max ∧
  zlen (plan_download_chunks 10 3) = Z.min (Z.max 3 1) 10.
Proof.
  split; [ilia|]. split; [ilia|]. split; [ilia|].
  exact (proj1 (plan_download_chunks_spec 10 3 ltac:(ilia) ltac:(ilia) ltac:(ilia))).
Defined.

(** Beyond 2^64 the product wraps around and the plan is wrong. *)
Lemma plan_download_chunks_overflow :
  chunk_start <$> plan_download_chunks (2 ^ 63) 3 !! 2%nat ≠ Some (cut (2 ^ 63) 3 2).
Proof. vm_compute. discriminate. Qed.
