(* ===== verification/Files.v ===== *)
(** * Files

    The operating system's files as the program uses them.  A name refers to a
    directory or to a file object (an inode) and an open handle keeps its
    object after the name is gone, as on Unix: writing through the handle of a
    removed file does not bring the name back.  The parent directories of a
    path are not tracked and the device never fills up. *)

From S2P Require Import Prelude Text Status.
From Stdlib Require Export Init.Byte.

Abbreviation bytes := (list byte).

Inductive node := NFile (inode : positive) | NDir.

Record fs := mk_fs {
  fs_names : gmap string node;
  fs_inodes : gmap positive bytes
}.

Inductive io_error := IoNotFound | IoIsADirectory | IoAlreadyExists | IoInvalidData.
#[export] Instance io_error_eq_dec : EqDecision io_error.
Proof. solve_decision. Defined.

Definition io_error_to_string (e : io_error) : string :=
  match e with
  | IoNotFound => "No such file or directory (os error 2)"
  | IoIsADirectory => "Is a directory (os error 21)"
  | IoAlreadyExists => "File exists (os error 17)"
  | IoInvalidData => "stream did not contain valid UTF-8"
  end.

(** An error of the system as an error of the program. *)
Definition io_err {A} (r : result A io_error) : res A :=
  result_map_err (λ e, EIo (io_error_to_string e)) r.

Definition fs_empty : fs := mk_fs ∅ ∅.

(** [Path::exists]. *)
Definition fs_exists (f : fs) (path : string) : bool := is_some (fs_names f !! path).

(** The contents of the regular file of a name. *)
Definition fs_content (f : fs) (path : string) : option bytes :=
  match fs_names f !! path with
  | Some (NFile i) => fs_inodes f !! i
  | _ => None
  end.

(** [fs::metadata(path).len()]; the size of a directory is not meaningful. *)
Definition fs_len (f : fs) (path : string) : result Z io_error :=
  match fs_names f !! path with
  | Some (NFile i) => Ok (zlen (unwrap_or [] (fs_inodes f !! i)))
  | Some NDir => Ok 4096
  | None => Err IoNotFound
  end.

(** [File::open] followed by reads up to the end of the file. *)
Definition fs_read (f : fs) (path : string) : result bytes io_error :=
  match fs_names f !! path with
  | Some (NFile i) => Ok (unwrap_or [] (fs_inodes f !! i))
  | Some NDir => Err IoIsADirectory
  | None => Err IoNotFound
  end.

(** [fs::remove_file]. *)
Definition fs_remove_file (f : fs) (path : string) : result fs io_error :=
  match fs_names f !! path with
  | Some (NFile _) => Ok (mk_fs (delete path (fs_names f)) (fs_inodes f))
  | Some NDir => Err IoIsADirectory
  | None => Err IoNotFound
  end.

(** [fs::create_dir_all]. *)
Definition fs_create_dir_all (f : fs) (path : string) : result fs io_error :=
  if is_empty path then Ok f else
  match fs_names f !! path with
  | Some (NFile _) => Err IoAlreadyExists
  | Some NDir => Ok f
  | None => Ok (mk_fs (<[path := NDir]> (fs_names f)) (fs_inodes f))
  end.

(** [OpenOptions] with [create], without [truncate]: the handle is the inode. *)
Definition fs_open (f : fs) (path : string) : result (fs * positive) io_error :=
  match fs_names f !! path with
  | Some (NFile i) => Ok (f, i)
  | Some NDir => Err IoIsADirectory
  | None =>
      let i := fresh (dom (fs_inodes f)) in
      Ok (mk_fs (<[path := NFile i]> (fs_names f)) (<[i := []]> (fs_inodes f)), i)
  end.

(** [File::set_len]: cut, or fill with zeros. *)
Definition resize_bytes (n : Z) (b : bytes) : bytes := resize (Z.to_nat n) x00 b.
Definition fs_set_len (f : fs) (i : positive) (n : Z) : fs :=
  mk_fs (fs_names f) (alter (resize_bytes n) i (fs_inodes f)).

(** A write of [data] at [off]; a gap before it is filled with zeros. *)
Definition splice (off : Z) (data b : bytes) : bytes :=
  let n := Z.to_nat off in
  resize n x00 b ++ data ++ drop (n + length data) b.
(** [seek(SeekFrom::Start(off))] and [write_all(data)]: writing nothing leaves
    the file as it is. *)
Definition fs_write (f : fs) (i : positive) (off : Z) (data : bytes) : fs :=
  if bool_decide (data = []) then f
  else mk_fs (fs_names f) (alter (splice off data) i (fs_inodes f)).

(** [fs::write]: create or cut the file, then write all of [data]. *)
Definition fs_write_file (f : fs) (path : string) (data : bytes) : result fs io_error :=
  match fs_names f !! path with
  | Some (NFile i) => Ok (mk_fs (fs_names f) (<[i := data]> (fs_inodes f)))
  | Some NDir => Err IoIsADirectory
  | None =>
      let i := fresh (dom (fs_inodes f)) in
      Ok (mk_fs (<[path := NFile i]> (fs_names f)) (<[i := data]> (fs_inodes f)))
  end.

(** The bytes of a text, and back. *)
Definition bytes_of_string (s : string) : bytes := String.list_byte_of_string s.
Definition string_of_bytes (b : bytes) : string := String.string_of_list_byte b.

(** Whether a text is well-formed UTF-8. *)
Definition continuation (lo hi : Z) (s : string) : option string :=
  match s with
  | String c s => if ((lo <=? Chr.code c) && (Chr.code c <=? hi))%bool then Some s else None
  | EmptyString => None
  end.
Definition utf8_char (s : string) : option string :=
  match s with
  | EmptyString => None
  | String c s =>
      let c := Chr.code c in
      if c <=? 127 then Some s
      else if ((194 <=? c) && (c <=? 223))%bool then continuation 128 191 s
      else if ((224 <=? c) && (c <=? 239))%bool then
        s ← continuation (if c =? 224 then 160 else 128) (if c =? 237 then 159 else 191) s;
        continuation 128 191 s
      else if ((240 <=? c) && (c <=? 244))%bool then
        s ← continuation (if c =? 240 then 144 else 128) (if c =? 244 then 143 else 191) s;
        s ← continuation 128 191 s;
        continuation 128 191 s
      else None
  end.
Fixpoint utf8_chars (fuel : nat) (s : string) : bool :=
  match fuel, s with
  | _, EmptyString => true
  | O, _ => false
  | S fuel, _ => match utf8_char s with Some s => utf8_chars fuel s | None => false end
  end.
Definition utf8_valid (s : string) : bool := utf8_chars (String.length s) s.

(** [fs::read_to_string]. *)
Definition fs_read_to_string (f : fs) (path : string) : result string io_error :=
  let? b := fs_read f path in
  let s := string_of_bytes b in
  if utf8_valid s then Ok s else Err IoInvalidData.

(** ** Laws *)

Lemma fs_write_file_read f path data f' :
  fs_write_file f path data = Ok f' → fs_read f' path = Ok data.
Proof.
  unfold fs_write_file, fs_read. destruct (fs_names f !! path) as [[i|]|] eqn:E; intros H;
    simplify_eq; simpl; rewrite ?E, ?lookup_insert_eq; by rewrite ?lookup_insert_eq.
Qed.

Lemma fs_write_file_ok f path data :
  fs_names f !! path ≠ Some NDir → ∃ f', fs_write_file f path data = Ok f' ∧
    fs_names f' !! path ≠ Some NDir.
Proof.
  intros Hp. unfold fs_write_file. destruct (fs_names f !! path) as [[i|]|] eqn:E; [|done|].
  - eexists. split; [done|]. simpl. by rewrite E.
  - eexists. split; [done|]. simpl. by rewrite lookup_insert_eq.
Qed.

Lemma string_of_bytes_of_string s : string_of_bytes (bytes_of_string s) = s.
Proof. apply String.string_of_list_byte_of_string. Qed.

Lemma length_splice off data b :
  length (splice off data b) = (Z.to_nat off + length data + (length b - (Z.to_nat off + length data)))%nat.
Proof. unfold splice. rewrite !length_app, length_resize, length_drop. lia. Qed.

(** A write within the file keeps its length. *)
Lemma zlen_splice off data b :
  0 ≤ off → off + zlen data ≤ zlen b → zlen (splice off data b) = zlen b.
Proof. unfold zlen. intros ? ?. rewrite length_splice. lia. Qed.

Lemma lookup_splice off data b k :
  0 ≤ off → off + zlen data ≤ zlen b →
  splice off data b !! k =
  if decide (Z.to_nat off ≤ k < Z.to_nat off + length data)%nat
  then data !! (k - Z.to_nat off)%nat else b !! k.
Proof.
  intros Ho Hb. unfold splice, zlen in *. rewrite resize_le by lia. case_decide as Hk.
  - rewrite lookup_app_r by (rewrite length_take; lia). rewrite length_take.
    rewrite Nat.min_l by lia. rewrite lookup_app_l by lia. done.
  - destruct (decide (k < Z.to_nat off)%nat).
    + rewrite lookup_app_l by (rewrite length_take; lia). by rewrite lookup_take_lt by lia.
    + rewrite lookup_app_r by (rewrite length_take; lia). rewrite length_take.
      rewrite Nat.min_l by lia. rewrite lookup_app_r by lia. rewrite lookup_drop.
      f_equal. lia.
Qed.

Lemma splice_nil off b : 0 ≤ off ≤ zlen b → splice off [] b = b.
Proof.
  intros Ho. apply list_eq. intros k.
  rewrite lookup_splice by (unfold zlen in *; simpl; lia).
  case_decide as H; [simpl in H; lia|done].
Qed.

Lemma fs_open_content f path f' i :
  fs_open f path = Ok (f', i) → fs_names f' !! path = Some (NFile i).
Proof.
  unfold fs_open. destruct (fs_names f !! path) as [[j|]|] eqn:E; intros H; simplify_eq; [done|].
  simpl. apply lookup_insert_eq.
Qed.

Lemma fs_write_names f i off data : fs_names (fs_write f i off data) = fs_names f.
Proof. unfold fs_write. by case_bool_decide. Qed.

Lemma fs_write_inode f i off data b :
  fs_inodes f !! i = Some b → 0 ≤ off ≤ zlen b →
  fs_inodes (fs_write f i off data) !! i = Some (splice off data b).
Proof.
  intros Hi Ho. unfold fs_write. case_bool_decide as Hd; simpl.
  - subst. by rewrite splice_nil.
  - by rewrite lookup_alter_eq, Hi.
Qed.

Lemma fs_write_inode_ne f i j off data :
  i ≠ j → fs_inodes (fs_write f i off data) !! j = fs_inodes f !! j.
Proof. intros Hij. unfold fs_write. case_bool_decide; simpl; [done|]. by rewrite lookup_alter_ne. Qed.

Lemma fs_remove_file_exists f path f' :
  fs_remove_file f path = Ok f' → fs_exists f' path = false.
Proof.
  unfold fs_remove_file, fs_exists. destruct (fs_names f !! path) as [[|]|]; intros H; simplify_eq.
  simpl. by rewrite lookup_delete_eq.
Qed.
