(* ===== verification/Checksum.v ===== *)
(** * Checksums ([src/src/checksum.rs], [src/src/payload/verifier.rs])

    The expected digests of a payload and their verification against a local
    file.  The digest algorithms are the [md5], [sha1] and [sha2] crates: a
    digest is a parameter with its streaming interface. *)

From S2P Require Import Prelude Text Status Files.

(** An instant; the clock is an argument of the operations that read it. *)
Abbreviation DateTime := Z.

(** [src/src/checksum.rs:15-20], [ChecksumAlgorithm]. *)
Inductive ChecksumAlgorithm := MD5 | SHA1 | SHA256 | NONE.
#[export] Instance ChecksumAlgorithm_eq_dec : EqDecision ChecksumAlgorithm.
Proof. solve_decision. Defined.

(** [src/src/checksum.rs:25-33], [ChecksumAlgorithm::from_str]. It never fails. *)
Definition ChecksumAlgorithm_from_str (s : string) : ChecksumAlgorithm :=
  if String.eqb s "MD5" then MD5
  else if String.eqb s "SHA1" then SHA1
  else if String.eqb s "SHA256" then SHA256
  else if String.eqb s "NONE" then NONE
  else NONE.

(** [src/src/checksum.rs:38-43], [Checksum]. *)
Record Checksum := mk_checksum {
  ck_algorithm : ChecksumAlgorithm;
  ck_value : option string;
  ck_verified : option bool;
  ck_verified_at : option DateTime
}.
#[export] Instance Checksum_eq_dec : EqDecision Checksum.
Proof. solve_decision. Defined.

(** The [Digest] trait of the digest crates. *)
Record Digest := mk_digest {
  hasher : Type;
  hasher_new : hasher;
  hasher_update : hasher → bytes → hasher;
  hasher_finalize : hasher → bytes
}.

(** What the code relies on: updates accumulate, and an update with nothing
    changes nothing. *)
Record DigestLaws (d : Digest) : Prop := {
  hasher_update_app h a b :
    hasher_update d (hasher_update d h a) b = hasher_update d h (a ++ b);
  hasher_update_nil h : hasher_update d h [] = h
}.

Class DigestLib := {
  lib_md5 : Digest;
  lib_sha1 : Digest;
  lib_sha256 : Digest
}.
Class DigestLibLaws `{DigestLib} : Prop := {
  md5_laws : DigestLaws lib_md5;
  sha1_laws : DigestLaws lib_sha1;
  sha256_laws : DigestLaws lib_sha256
}.

(** [format!("{:x}", digest)]. *)
Definition byte_code (b : byte) : Z := Z.of_N (Byte.to_N b).
Fixpoint hex_of_bytes (bs : bytes) : string :=
  match bs with
  | [] => EmptyString
  | b :: bs =>
      String (hex_digit (byte_code b / 16)) (String (hex_digit (byte_code b mod 16))
        (hex_of_bytes bs))
  end.

(** The reading loop of the [calculate] functions: blocks of 8192 bytes until a
    read returns nothing. *)
Fixpoint hash_loop (fuel : nat) (d : Digest) (h : hasher d) (rest : bytes) : hasher d :=
  match fuel with
  | O => h
  | S fuel =>
      match take 8192 rest with
      | [] => h
      | buffer => hash_loop fuel d (hasher_update d h buffer) (drop 8192 rest)
      end
  end.

(** The common body of the three [calculate] functions, which differ in the
    digest only. *)
Definition calculate (d : Digest) (f : fs) (path : string) : res string :=
  let? content := result_map_err (λ e, EOther (io_error_to_string e)) (fs_read f path) in
  Ok (hex_of_bytes (hasher_finalize d
        (hash_loop (S (length content)) d (hasher_new d) content))).

Section verify.
Context `{DigestLib}.

(** [src/src/checksum.rs:86-106], [calculate_md5]. *)
Definition calculate_md5 : fs → string → res string := calculate lib_md5.
(** [src/src/checksum.rs:108-128], [calculate_sha1]. *)
Definition calculate_sha1 : fs → string → res string := calculate lib_sha1.
(** [src/src/checksum.rs:130-153], [calculate_sha256]. *)
Definition calculate_sha256 : fs → string → res string := calculate lib_sha256.

(** [src/src/checksum.rs:46-83], [Checksum::verify]. *)
Definition checksum_verify (c : Checksum) (f : fs) (path : string) : res bool :=
  match ck_value c with
  | None => Ok true
  | Some expected =>
      match ck_algorithm c with
      | MD5 => let? actual := calculate_md5 f path in Ok (String.eqb actual expected)
      | SHA1 => let? actual := calculate_sha1 f path in Ok (String.eqb actual expected)
      | SHA256 => let? actual := calculate_sha256 f path in Ok (String.eqb actual expected)
      | NONE => Ok true
      end
  end.

Definition set_verified (v : bool) (now : DateTime) (c : Checksum) : Checksum :=
  mk_checksum (ck_algorithm c) (ck_value c) (Some v) (Some now).

(** [src/src/payload/verifier.rs:6-30], [verify_file_checksums]. The checksums are updated
    in place up to and including the first one that does not verify. *)
Fixpoint verify_file_checksums (now : DateTime) (f : fs) (path : string)
    (checksums : list Checksum) : list Checksum * res bool :=
  match checksums with
  | [] => ([], Ok true)
  | c :: cs =>
      match checksum_verify c f path with
      | Ok true =>
          let '(cs', r) := verify_file_checksums now f path cs in
          (set_verified true now c :: cs', r)
      | Ok false => (set_verified false now c :: cs, Ok false)
      | Err err => (set_verified false now c :: cs, Err err)
      end
  end.
End verify.

(** ** Properties *)

(** Reading in blocks digests the whole contents. *)
Lemma hash_loop_whole d fuel h content :
  DigestLaws d → (length content < fuel)%nat →
  hash_loop fuel d h content = hasher_update d h content.
Proof.
  intros L. revert h content. induction fuel as [|fuel IH]; intros h content Hf; [lia|].
  cbn [hash_loop]. destruct (take 8192 content) as [|b bs] eqn:E.
  - destruct content; [|done]. by rewrite (hasher_update_nil d L).
  - rewrite <- E, IH.
    + by rewrite (hasher_update_app d L), take_drop.
    + rewrite length_drop. destruct content; [done|simpl in *; lia].
Qed.

(** The digest of a file. *)
Definition digest_of (d : Digest) (content : bytes) : string :=
  hex_of_bytes (hasher_finalize d (hasher_update d (hasher_new d) content)).

Lemma calculate_spec d f path content :
  DigestLaws d → fs_read f path = Ok content → calculate d f path = Ok (digest_of d content).
Proof.
  intros L Hr. unfold calculate, digest_of. rewrite Hr. cbn [result_map_err result_bind].
  by rewrite (hash_loop_whole d (S (length content))) by (done || lia).
Qed.

(** When a checksum asks for nothing, or its digest of [content] matches. *)
Definition checksum_matches `{DigestLib} (content : bytes) (c : Checksum) : Prop :=
  match ck_value c, ck_algorithm c with
  | None, _ | _, NONE => True
  | Some v, MD5 => digest_of lib_md5 content = v
  | Some v, SHA1 => digest_of lib_sha1 content = v
  | Some v, SHA256 => digest_of lib_sha256 content = v
  end.

Lemma checksum_verify_spec `{DigestLibLaws} f path content c :
  fs_read f path = Ok content →
  ∃ b, checksum_verify c f path = Ok b ∧ (b = true ↔ checksum_matches content c).
Proof.
  intros Hr. unfold checksum_verify, checksum_matches.
  destruct (ck_value c) as [v|]; [|by exists true].
  pose proof md5_laws; pose proof sha1_laws; pose proof sha256_laws.
  destruct (ck_algorithm c); [| | |by exists true];
    unfold calculate_md5, calculate_sha1, calculate_sha256;
    (erewrite calculate_spec by done; eexists; split; [done|apply String.eqb_eq]).
Qed.

Lemma verify_file_checksums_readable `{DigestLibLaws} now f path content cs :
  fs_read f path = Ok content →
  ∃ cs' b, verify_file_checksums now f path cs = (cs', Ok b) ∧
    (b = true ↔ Forall (checksum_matches content) cs) ∧
    (λ c, (ck_algorithm c, ck_value c)) <$> cs' = (λ c, (ck_algorithm c, ck_value c)) <$> cs ∧
    (b = true → cs' = set_verified true now <$> cs).
Proof.
  intros Hr. induction cs as [|c cs IH]; cbn [verify_file_checksums].
  - exists [], true. split_and!; [done| |done|done]. split; [constructor|done].
  - destruct (checksum_verify_spec f path content c Hr) as (b & -> & Hb). destruct b.
    + destruct IH as (cs' & b & -> & Hb' & Hk & Ht).
      exists (set_verified true now c :: cs'), b. split_and!; [done| |by csimpl; rewrite Hk|].
      * rewrite Forall_cons, Hb'. naive_solver.
      * intros Hbt. csimpl. by rewrite Ht.
    + exists (set_verified false now c :: cs), false. split_and!; [done| |done|done].
      rewrite Forall_cons. split; [done|]. intros [Hm _]. by apply Hb in Hm.
Qed.

(** On a readable file, verification answers [true] exactly when every
    checksum matches the contents; whatever the answer, the checksums keep
    their algorithm and value, and after a [true] each is recorded as
    verified at that time. *)
Theorem verify_file_checksums_spec `{DigestLibLaws} now f path content cs :
  fs_read f path = Ok content →
  ∃ cs' b, verify_file_checksums now f path cs = (cs', Ok b) ∧
    (b = true ↔ Forall (checksum_matches content) cs) ∧
    (λ c, (ck_algorithm c, ck_value c)) <$> cs' = (λ c, (ck_algorithm c, ck_value c)) <$> cs ∧
    (b = true → cs' = set_verified true now <$> cs).
Proof. apply verify_file_checksums_readable. Qed.

(** A digest for examples: it keeps its input. *)
Definition identity_digest : Digest := mk_digest bytes [] (λ h b, h ++ b) (λ h, h).
Definition example_digests : DigestLib :=
  Build_DigestLib identity_digest identity_digest identity_digest.
Lemma identity_digest_laws : DigestLaws identity_digest.
Proof. split; simpl; intros; [by rewrite app_assoc|apply app_nil_r]. Defined.
Definition example_digests_laws : @DigestLibLaws example_digests :=
  @Build_DigestLibLaws example_digests identity_digest_laws identity_digest_laws
    identity_digest_laws.

Definition example_fs : fs := mk_fs {["f" := NFile 1%positive]} {[1%positive := [x61; x62]]}.

Lemma verify_file_checksums_spec_witness :
  fs_read example_fs "f" = Ok [x61; x62] ∧
  ∃ cs' b,
    @verify_file_checksums example_digests 7 example_fs "f"
      [mk_checksum MD5 (Some "6162") None None] = (cs', Ok b) ∧
    (b = true ↔ Forall (@checksum_matches example_digests [x61; x62])
                  [mk_checksum MD5 (Some "6162") None None]).
Proof.
  split; [reflexivity|].
  destruct (@verify_file_checksums_spec example_digests example_digests_laws 7 example_fs "f"
    [x61; x62] [mk_checksum MD5 (Some "6162") None None] eq_refl) as (cs' & b & H1 & H2 & _).
  exists cs', b. exact (conj H1 H2).
Defined.

Example verify_ex :
  snd (@verify_file_checksums example_digests 7 example_fs "f"
    [mk_checksum MD5 (Some "6162") None None; mk_checksum SHA1 (Some "00") None None]) =
  Ok false.
Proof. vm_compute. reflexivity. Qed.
