(* ===== verification/Manifest.v ===== *)
(** * Session manifests ([src/src/domain/manifest.rs])

    What a download consists of: its specification and sources, its files, and
    its pieces and blocks. *)

From S2P Require Import Prelude Ranges Status Source Piece Files Checksum.

Definition DEFAULT_PIECE_SIZE : Z := 1024 * 1024.
Definition DEFAULT_BLOCK_SIZE : Z := 256 * 1024.

(** [src/src/domain/manifest.rs:12-17], [FileManifest]. *)
Record FileManifest := mk_file_manifest {
  fm_path : string;
  fm_file_name : string;
  fm_length : Z;
  fm_offset : Z
}.

(** [src/src/domain/manifest.rs:20-34], [SessionManifest]. *)
Record SessionManifest := mk_manifest {
  m_id : string;
  m_spec : DownloadSpec;
  m_sources : SourceSet;
  m_total_size : Z;
  m_total_size_known : bool;
  m_piece_size : Z;
  m_piece_count : Z;
  m_block_size : Z;
  m_block_count : Z;
  m_files : list FileManifest;
  m_pieces : list PieceLayout;
  m_blocks : list PieceBlock;
  m_checksums : list Checksum
}.

(** [src/src/domain/manifest.rs:127-158], [SessionManifest::for_files_with_piece_size]. *)
Definition for_files_with_piece_size (spec : DownloadSpec) (sources : SourceSet) (id : string)
    (total_size piece_size block_size : Z) (files : list FileManifest)
    (checksums : list Checksum) : SessionManifest :=
  let max_piece_size := wrap32 (Z.min (Z.max total_size 1) u32_max) in
  let piece_size := Z.min (Z.max piece_size 1) max_piece_size in
  let pieces := plan_piece_layouts total_size piece_size in
  let block_size := Z.min (Z.max block_size 1) piece_size in
  let blocks := plan_piece_blocks pieces block_size in
  {| m_id := id;
     m_spec := spec;
     m_sources := sources;
     m_total_size := total_size;
     m_total_size_known := true;
     m_piece_size := piece_size;
     m_piece_count := wrap32 (zlen pieces);
     m_block_size := block_size;
     m_block_count := wrap32 (zlen blocks);
     m_files := files;
     m_pieces := pieces;
     m_blocks := blocks;
     m_checksums := checksums |}.

(** [src/src/domain/manifest.rs:58-95], [SessionManifest::for_single_file_with_piece_size]. *)
Definition for_single_file_with_piece_size (spec : DownloadSpec) (sources : SourceSet)
    (file_name file_path : string) (total_size piece_size block_size : Z)
    (checksums : list Checksum) : SessionManifest :=
  let max_piece_size := wrap32 (Z.min (Z.max total_size 1) u32_max) in
  let piece_size := Z.min (Z.max piece_size 1) max_piece_size in
  let pieces := plan_piece_layouts total_size piece_size in
  let block_size := Z.min (Z.max block_size 1) piece_size in
  let blocks := plan_piece_blocks pieces block_size in
  let files := [mk_file_manifest file_path file_name total_size 0] in
  {| m_id := identity_key spec;
     m_spec := spec;
     m_sources := sources;
     m_total_size := total_size;
     m_total_size_known := true;
     m_piece_size := piece_size;
     m_piece_count := wrap32 (zlen pieces);
     m_block_size := block_size;
     m_block_count := wrap32 (zlen blocks);
     m_files := files;
     m_pieces := pieces;
     m_blocks := blocks;
     m_checksums := checksums |}.

(** [src/src/domain/manifest.rs:37-55], [SessionManifest::for_single_file]. *)
Definition for_single_file (spec : DownloadSpec) (sources : SourceSet)
    (file_name file_path : string) (total_size : Z) (checksums : list Checksum)
    : SessionManifest :=
  for_single_file_with_piece_size spec sources file_name file_path total_size
    DEFAULT_PIECE_SIZE DEFAULT_BLOCK_SIZE checksums.

(** [src/src/domain/manifest.rs:97-124], [SessionManifest::for_streaming_file]. *)
Definition for_streaming_file (spec : DownloadSpec) (sources : SourceSet)
    (file_name file_path : string) (checksums : list Checksum) : SessionManifest :=
  {| m_id := identity_key spec;
     m_spec := spec;
     m_sources := sources;
     m_total_size := 0;
     m_total_size_known := false;
     m_piece_size := DEFAULT_PIECE_SIZE;
     m_piece_count := 0;
     m_block_size := DEFAULT_BLOCK_SIZE;
     m_block_count := 0;
     m_files := [mk_file_manifest file_path file_name 0 0];
     m_pieces := [];
     m_blocks := [];
     m_checksums := checksums |}.

(** ** Well-formed manifests *)

Definition span_of_file (f : FileManifest) : span := (fm_offset f, fm_length f).

(** The pieces and the blocks tile the payload, piece indices identify pieces,
    and the counts are those of the lists. *)
Record manifest_wf (m : SessionManifest) : Prop := {
  wf_total : is_u64 (m_total_size m);
  wf_piece_size : 0 < m_piece_size m ≤ u32_max;
  wf_block_size : 0 < m_block_size m ≤ m_piece_size m;
  wf_pieces : tiles 0 (span_of_piece <$> m_pieces m) (m_total_size m);
  wf_blocks : tiles 0 (span_of_block <$> m_blocks m) (m_total_size m);
  wf_piece_ids : NoDup (pl_index <$> m_pieces m);
  wf_piece_len : zlen (m_pieces m) ≤ u32_max;
  wf_piece_count : m_piece_count m = zlen (m_pieces m);
  wf_block_count : m_block_count m = wrap32 (zlen (m_blocks m));
  wf_unknown : m_total_size_known m = false → m_pieces m = []
}.

Lemma for_files_wf spec sources id total ps bs files cs :
  is_u64 total → is_u32 ps → is_u32 bs →
  total ≤ Z.max ps 1 * u32_max →
  manifest_wf (for_files_with_piece_size spec sources id total ps bs files cs).
Proof.
  intros Ht Hps Hbs Hw. unfold for_files_with_piece_size.
  rewrite (wrap32_small (Z.min _ _)) by ilia.
  set (p := Z.min (Z.max ps 1) (Z.min (Z.max total 1) u32_max)).
  set (b := Z.min (Z.max bs 1) p).
  assert (0 < p ≤ u32_max) as Hp by (subst p; ilia).
  assert (0 < b ≤ p) as Hb by (subst b; lia).
  assert (is_u32 p) as Hpu by ilia. assert (is_u32 b) as Hbu by ilia.
  assert (total ≤ p * u32_max) as Hpw by (subst p; ilia).
  assert (zlen (plan_piece_layouts total p) ≤ u32_max) as Hlen.
  { rewrite plan_piece_layouts_length, Z.max_l by (done || lia). unfold div_ceil.
    apply Z.lt_succ_r, Z.div_lt_upper_bound; ilia. }
  split; cbn [m_total_size m_piece_size m_block_size m_pieces m_blocks m_piece_count
    m_block_count m_total_size_known]; try done.
  - by apply plan_piece_layouts_tiles.
  - by apply plan_piece_blocks_tiles.
  - apply plan_piece_layouts_NoDup; [done|done|]. rewrite Z.max_l by lia. ilia.
  - apply wrap32_small. pose proof (zlen_nonneg (plan_piece_layouts total p)). ilia.
Qed.

Lemma for_single_file_eq spec sources name path total ps bs cs :
  for_single_file_with_piece_size spec sources name path total ps bs cs =
  for_files_with_piece_size spec sources (identity_key spec) total ps bs
    [mk_file_manifest path name total 0] cs.
Proof. done. Qed.

Lemma for_streaming_wf spec sources name path cs :
  manifest_wf (for_streaming_file spec sources name path cs).
Proof.
  unfold for_streaming_file, DEFAULT_PIECE_SIZE, DEFAULT_BLOCK_SIZE.
  split; cbn; try done; try ilia. constructor.
Qed.

(** Every constructor builds a well-formed manifest: pieces and blocks tile
    the payload, piece indices are distinct, the counts are exact, and the
    block size is at most the piece size.  The single-file constructors lay
    their one file over the whole payload. *)
Theorem manifest_constructors_wf spec sources name path id total ps bs files cs :
  is_u64 total → is_u32 ps → is_u32 bs →
  total ≤ Z.max ps 1 * u32_max →
  manifest_wf (for_files_with_piece_size spec sources id total ps bs files cs) ∧
  manifest_wf (for_single_file_with_piece_size spec sources name path total ps bs cs) ∧
  manifest_wf (for_streaming_file spec sources name path cs) ∧
  (total ≤ DEFAULT_PIECE_SIZE * u32_max → 0 < total →
   let m := for_single_file spec sources name path total cs in
   manifest_wf m ∧ tiles 0 (span_of_file <$> m_files m) (m_total_size m)).
Proof.
  intros Ht Hps Hbs Hw. split_and!.
  - by apply for_files_wf.
  - rewrite for_single_file_eq. by apply for_files_wf.
  - apply for_streaming_wf.
  - intros Hd Hpos m. split; [|simpl; lia]. subst m. unfold for_single_file.
    rewrite for_single_file_eq. unfold DEFAULT_PIECE_SIZE, DEFAULT_BLOCK_SIZE in *.
    apply for_files_wf; ilia.
Qed.

Lemma manifest_constructors_wf_witness :
  is_u64 10 ∧ is_u32 4 ∧ is_u32 2 ∧ 10 ≤ Z.max 4 1 * u32_max ∧
  manifest_wf (for_files_with_piece_size (SpecHttp "http://a/b") SourceSet_default
    "id" 10 4 2 [] []).
Proof.
  split; [ilia|]. split; [ilia|]. split; [ilia|]. split; [ilia|].
  exact (proj1 (manifest_constructors_wf (SpecHttp "http://a/b") SourceSet_default
    "" "" "id" 10 4 2 [] [] ltac:(ilia) ltac:(ilia) ltac:(ilia) ltac:(ilia))).
Defined.
