(* ===== verification/Planner.v ===== *)
(** * Execution planning ([src/src/scheduler/planner.rs])

    The pieces of a manifest are dealt out to execution lanes, one worker each:
    every lane gets a run of consecutive pieces and one transfer source. *)

From S2P Require Import Prelude Text Ranges Status Source Piece Manifest.

Definition MAX_HTTP_PIECE_SIZE : Z := 1024 * 1024.

(** [src/src/scheduler/planner.rs:7-12], [SourceSelectionPolicy]. *)
Inductive SourceSelectionPolicy :=
  | PrimaryOnly
  | AvailabilityAware
  | RarestFirst
  | Endgame.

(** [src/src/scheduler/planner.rs:15-25], [ExecutionLaneAssignment]. *)
Record ExecutionLaneAssignment := mk_lane {
  lane_id : Z;
  lane_source_id : string;
  lane_length_known : bool;
  lane_piece_start : Z;
  lane_piece_end : Z;
  lane_block_start : Z;
  lane_block_end : Z;
  lane_start : Z;
  lane_end : Z
}.
#[export] Instance lane_eq_dec : EqDecision ExecutionLaneAssignment.
Proof. solve_decision. Defined.

(** [src/src/scheduler/planner.rs:27-35], [suggested_http_piece_size]. *)
Definition suggested_http_piece_size (total_size requested_workers : Z) : Z :=
  if total_size =? 0 then 1 else
  let target_workers := Z.min (Z.max requested_workers 1) total_size in
  let ideal_piece_size := div_ceil total_size target_workers in
  wrap32 (Z.max (Z.min ideal_piece_size MAX_HTTP_PIECE_SIZE) 1).

(** [src/src/scheduler/planner.rs:133-144], [source_rank]. [usize::MAX] is the largest
    64-bit value. *)
Definition source_rank (source_id : string) (preferred_source_ids : list string)
    (primary_id : option string) : Z * Z :=
  let preferred_index := unwrap_or u64_max (position (String.eqb source_id) preferred_source_ids) in
  let primary_rank := if bool_decide (primary_id = Some source_id) then 0 else 1 in
  (preferred_index, primary_rank).

(** The comparison the transfer sources are sorted by: rank first, then id. *)
Definition source_le (preferred : list string) (primary_id : option string)
    (l r : SourceDescriptor) : bool :=
  let '(pl, ml) := source_rank (src_id l) preferred primary_id in
  let '(pr, mr) := source_rank (src_id r) preferred primary_id in
  if pl <? pr then true else if pr <? pl then false
  else if ml <? mr then true else if mr <? ml then false
  else String.leb (src_id l) (src_id r).

(** [src/src/scheduler/planner.rs:146-180], [assignment_from_piece_slice]. *)
Definition assignment_from_piece_slice (id : Z) (source_id : string)
    (pieces : list PieceLayout) (blocks : list PieceBlock) : option ExecutionLaneAssignment :=
  match head pieces, last pieces with
  | Some first, Some last =>
      let block_start := unwrap_or 0 (pb_index <$>
        find_first (λ b, pb_piece b =? pl_index first) blocks) in
      let block_end := unwrap_or 0 (pb_index <$>
        find_first (λ b, pb_piece b =? pl_index last) (rev blocks)) in
      Some {| lane_id := id;
              lane_source_id := source_id;
              lane_length_known := true;
              lane_piece_start := pl_index first;
              lane_piece_end := pl_index last;
              lane_block_start := block_start;
              lane_block_end := block_end;
              lane_start := pl_offset first;
              lane_end := sat_sub (sat_add (pl_offset last) (pl_length last)) 1 |}
  | _, _ => None
  end.

(** [src/src/scheduler/planner.rs:114-128], [plan_execution_lanes_with_source_order (for loop)].
    The products wrap at the width of [usize]. *)
Definition deal_lanes (pieces : list PieceLayout) (blocks : list PieceBlock)
    (transfer_sources : list SourceDescriptor) (worker_count : Z)
    : list ExecutionLaneAssignment :=
  seqZ 0 worker_count ≫= λ index,
    let piece_start := wrap64 (index * zlen pieces) / worker_count in
    let piece_end := wrap64 ((index + 1) * zlen pieces) / worker_count in
    if piece_start =? piece_end then [] else
    match transfer_sources !! Z.to_nat (index mod zlen transfer_sources) with
    | Some source =>
        option_list (assignment_from_piece_slice (wrap32 index) (src_id source)
          (slice pieces piece_start piece_end) blocks)
    | None => []
    end.

(** [src/src/scheduler/planner.rs:46-131], [plan_execution_lanes_with_source_order]. *)
Definition plan_execution_lanes_with_source_order (manifest : SessionManifest)
    (requested_workers : Z) (allow_parallel : bool) (preferred_source_ids : list string)
    : list ExecutionLaneAssignment :=
  match m_pieces manifest with
  | [] =>
      let transfer_sources := active_transfer_sources (m_sources manifest) in
      if (negb (m_total_size_known manifest) || bool_decide (transfer_sources = []))%bool then
        (λ source, mk_lane 0 (src_id source) false 0 0 0 0 0 0) <$>
          option_list (head transfer_sources)
      else []
  | _ :: _ =>
      let transfer_sources := active_transfer_sources (m_sources manifest) in
      let primary_id := src_id <$> primary (m_sources manifest) in
      match sort_by (source_le preferred_source_ids primary_id) transfer_sources with
      | [] => []
      | (first :: _) as transfer_sources =>
          let policy := if allow_parallel then AvailabilityAware else PrimaryOnly in
          match policy with
          | PrimaryOnly =>
              option_list (assignment_from_piece_slice 0 (src_id first)
                (m_pieces manifest) (m_blocks manifest))
          | _ =>
              let worker_count := Z.min (Z.max requested_workers 1) (zlen (m_pieces manifest)) in
              deal_lanes (m_pieces manifest) (m_blocks manifest) transfer_sources worker_count
          end
      end
  end.

(** [src/src/scheduler/planner.rs:38-44], [plan_execution_lanes]. *)
Definition plan_execution_lanes (manifest : SessionManifest) (requested_workers : Z)
    (allow_parallel : bool) : list ExecutionLaneAssignment :=
  plan_execution_lanes_with_source_order manifest requested_workers allow_parallel [].

(** ** Slices of a tiling *)

Definition span_of_lane (l : ExecutionLaneAssignment) : span :=
  (lane_start l, lane_end l - lane_start l + 1).

(** The offset at which the [k]-th span of a tiling from 0 starts. *)
Definition tile_at (l : list span) (k : Z) : Z := zsum (snd <$> take (Z.to_nat k) l).

Lemma tiles_take_drop a l b k :
  tiles a l b →
  tiles a (take k l) (a + zsum (snd <$> take k l)) ∧
  tiles (a + zsum (snd <$> take k l)) (drop k l) b.
Proof.
  intros H. rewrite <- (take_drop k l) in H. apply tiles_app in H as (m & H1 & H2).
  pose proof (tiles_sum _ _ _ H1) as ->. replace (a + (m - a)) with m by lia. done.
Qed.

Lemma tiles_slice l b i j :
  tiles 0 l b → 0 ≤ i ≤ j → tiles (tile_at l i) (slice l i j) (tile_at l j).
Proof.
  intros H Hij. destruct (tiles_take_drop _ _ _ (Z.to_nat i) H) as [_ H1].
  destruct (tiles_take_drop _ _ _ (Z.to_nat (j - i)) H1) as [H2 _].
  rewrite Z.add_0_l in H2. unfold slice, tile_at at 1.
  assert (tile_at l j = zsum (snd <$> take (Z.to_nat i) l) +
    zsum (snd <$> take (Z.to_nat (j - i)) (drop (Z.to_nat i) l))) as ->; [|done].
  unfold tile_at. rewrite <- zsum_app, <- fmap_app, <- (take_drop (Z.to_nat i) (take _ l)) at 1.
  rewrite take_take, skipn_firstn_comm. do 3 f_equal; [f_equal; lia|]. f_equal. lia.
Qed.

Lemma tile_at_all l b : tiles 0 l b → tile_at l (zlen l) = b.
Proof.
  intros H. unfold tile_at, zlen. rewrite Nat2Z.id, firstn_all. apply tiles_sum in H. lia.
Qed.

(** ** One lane *)

Lemma assignment_span id src ps blocks a b :
  tiles a (span_of_piece <$> ps) b → ps ≠ [] → 0 ≤ a → b ≤ u64_max →
  ∃ l, assignment_from_piece_slice id src ps blocks = Some l ∧
    lane_id l = id ∧ lane_source_id l = src ∧ lane_length_known l = true ∧
    span_of_lane l = (a, b - a).
Proof.
  intros Ht Hne Ha Hb. unfold assignment_from_piece_slice.
  destruct (head ps) as [p|] eqn:Hp; [|by destruct ps].
  destruct (last ps) as [q|] eqn:Hq; [|by apply last_None in Hq].
  eexists; split; [done|]. do 3 (split; [done|]).
  apply last_Some in Hq as [ps' ->]. rewrite fmap_app in Ht. csimpl in Ht.
  apply tiles_snoc in Ht as (Ht & Hn & ->).
  assert (pl_offset p = a) as Hpa.
  { destruct ps' as [|p' ps']; csimpl in *; simplify_eq; [done|]. by destruct Ht as [? _]. }
  pose proof (tiles_le _ _ _ Ht).
  unfold span_of_lane. cbn [lane_start lane_end]. rewrite Hpa.
  rewrite sat_add_exact, sat_sub_exact by lia. f_equal. lia.
Qed.

Lemma bind_Forall2 {A B} (R : A → B → Prop) (g : A → list B) xs :
  (∀ x, x ∈ xs → ∃ y, g x = [y] ∧ R x y) → Forall2 R xs (xs ≫= g).
Proof.
  induction xs as [|x xs IH]; intros H; csimpl; [done|].
  destruct (H x) as (y & -> & Hy); [left|]. constructor; [done|].
  apply IH. intros z Hz. apply H. by right.
Qed.

(** What [deal_lanes] gives the [i]-th worker. *)
Definition lane_for (pieces : list PieceLayout) (srcs : list SourceDescriptor) (n i : Z)
    (l : ExecutionLaneAssignment) : Prop :=
  lane_id l = i ∧
  (∃ s, srcs !! Z.to_nat (i mod zlen srcs) = Some s ∧ lane_source_id l = src_id s) ∧
  let off k := tile_at (span_of_piece <$> pieces) (cut (zlen pieces) n k) in
  span_of_lane l = (off i, off (i + 1) - off i).

Lemma deal_lanes_Forall2 pieces blocks srcs total n :
  tiles 0 (span_of_piece <$> pieces) total → total ≤ u64_max →
  0 < n ≤ zlen pieces → zlen pieces ≤ u32_max → srcs ≠ [] →
  Forall2 (lane_for pieces srcs n) (seqZ 0 n) (deal_lanes pieces blocks srcs n).
Proof.
  intros Ht Hu Hn Hl Hs. apply bind_Forall2. intros i [Hi Hi2]%elem_of_seqZ.
  assert (0 < zlen srcs) as Hz by (destruct srcs; [done|]; rewrite zlen_cons;
    pose proof (zlen_nonneg srcs); lia).
  cbv zeta. rewrite !wrap64_small by (unfold is_u64, u64_max, u32_max in *; nia).
  fold (cut (zlen pieces) n i). fold (cut (zlen pieces) n (i + 1)).
  pose proof (cut_lt (zlen pieces) n i Hn) as Hlt.
  pose proof (cut_bounds (zlen pieces) n i ltac:(lia) ltac:(lia) ltac:(lia)) as Hb1.
  pose proof (cut_bounds (zlen pieces) n (i + 1) ltac:(lia) ltac:(lia) ltac:(lia)) as Hb2.
  destruct (_ =? _) eqn:E; bool_hyps; [lia|].
  pose proof (Z.mod_pos_bound i (zlen srcs) Hz).
  destruct (lookup_lt_is_Some_2 srcs (Z.to_nat (i mod zlen srcs))) as [s Hsrc];
    [unfold zlen in *; lia|]. rewrite Hsrc.
  set (a := cut (zlen pieces) n i) in *. set (b := cut (zlen pieces) n (i + 1)) in *.
  pose proof (tiles_slice _ _ a b Ht ltac:(lia)) as Hsl. rewrite <- slice_fmap in Hsl.
  destruct (assignment_span (wrap32 i) (src_id s) (slice pieces a b) blocks _ _ Hsl)
    as (l & -> & Hid & Hsid & _ & Hsp).
  - intros Hnil. pose proof (slice_length pieces a b ltac:(lia) ltac:(lia)) as Hsz.
    rewrite Hnil, zlen_nil in Hsz. lia.
  - rewrite <- (Z.add_0_l (tile_at _ _)).
    destruct (tiles_take_drop _ _ _ (Z.to_nat a) Ht) as [Hle _]. by apply tiles_le in Hle.
  - destruct (tiles_take_drop _ _ _ (Z.to_nat b) Ht) as [_ Hle]. apply tiles_le in Hle.
    unfold tile_at. lia.
  - exists l. split; [done|]. unfold lane_for. rewrite Hid, wrap32_small by (unfold is_u32, u32_max in *; lia).
    eauto.
Qed.

Lemma lanes_tile pieces srcs total n ls :
  tiles 0 (span_of_piece <$> pieces) total → 0 < n ≤ zlen pieces →
  Forall2 (lane_for pieces srcs n) (seqZ 0 n) ls → tiles 0 (span_of_lane <$> ls) total.
Proof.
  intros Ht Hn H.
  set (off k := tile_at (span_of_piece <$> pieces) (cut (zlen pieces) n k)).
  assert (span_of_lane <$> ls = (λ i, (off i, off (i + 1) - off i)) <$> seqZ 0 n) as ->.
  { clear -H. subst off. induction H as [|i l xs ls Hl _ IH]; csimpl; [done|].
    rewrite IH. f_equal. apply Hl. }
  assert (off 0 = 0) as H0 by (subst off; simpl; rewrite cut_0; done).
  assert (off n = total) as Hnt.
  { subst off. simpl. rewrite cut_all by lia. rewrite <- (zlen_fmap span_of_piece).
    by apply tile_at_all. }
  rewrite <- H0 at 1. rewrite <- Hnt, <- (Z.add_0_l n) at 1. apply tiles_steps; [lia|].
  intros i Hi. subst off. simpl.
  pose proof (cut_lt (zlen pieces) n i Hn) as Hlt.
  pose proof (cut_bounds (zlen pieces) n i ltac:(lia) ltac:(lia) ltac:(lia)) as Hb1.
  pose proof (cut_bounds (zlen pieces) n (i + 1) ltac:(lia) ltac:(lia) ltac:(lia)) as Hb2.
  pose proof (tiles_slice _ _ _ (cut (zlen pieces) n (i + 1)) Ht (conj (proj1 Hb1) (Z.lt_le_incl _ _ Hlt))) as Hsl.
  pose proof (tiles_le _ _ _ Hsl). apply tiles_nil_iff in Hsl.
  assert (slice (span_of_piece <$> pieces) (cut (zlen pieces) n i) (cut (zlen pieces) n (i + 1)) ≠ []) as Hne.
  { intros Hnil. pose proof (slice_length (span_of_piece <$> pieces) _ _ (conj (proj1 Hb1) (Z.lt_le_incl _ _ Hlt)))
      as Hlen. rewrite Hnil, zlen_fmap, zlen_nil in Hlen. lia. }
  enough (tile_at (span_of_piece <$> pieces) (cut (zlen pieces) n i) ≠
    tile_at (span_of_piece <$> pieces) (cut (zlen pieces) n (i + 1))) by lia. tauto.
Qed.

(** ** The order of the sources *)

Lemma leb_string_trans a b c :
  String.leb a b = true → String.leb b c = true → String.leb a c = true.
Proof.
  intros H1 H2. apply Is_true_true. transitivity b; by apply Is_true_true.
Qed.

Lemma source_le_total pref prim l r : source_le pref prim l r = false → source_le pref prim r l = true.
Proof.
  unfold source_le. destruct (source_rank (src_id l) pref prim) as [pl ml],
    (source_rank (src_id r) pref prim) as [pr mr].
  repeat case_match; bool_hyps; try done; try lia.
  intros Hf. destruct (String.leb_total (src_id l) (src_id r)); congruence.
Qed.

Lemma source_le_trans pref prim a b c :
  source_le pref prim a b = true → source_le pref prim b c = true → source_le pref prim a c = true.
Proof.
  unfold source_le. destruct (source_rank (src_id a) pref prim) as [pa ma],
    (source_rank (src_id b) pref prim) as [pb mb], (source_rank (src_id c) pref prim) as [pc mc].
  repeat case_match; bool_hyps; try done; try lia. apply leb_string_trans.
Qed.

Lemma sorted_sources_head pref prim l s srcs :
  sort_by (source_le pref prim) l = s :: srcs →
  s ∈ l ∧ ∀ t, t ∈ l → t = s ∨ source_le pref prim s t = true.
Proof.
  intros Hsort. pose proof (sort_by_sorted (source_le pref prim)
    (source_le_total pref prim) (source_le_trans pref prim) l) as Hs.
  rewrite Hsort in Hs. apply StronglySorted_inv in Hs as [_ Hs].
  split; [apply (elem_of_sort_by (source_le pref prim)); rewrite Hsort; left|].
  intros t Ht. apply (elem_of_sort_by (source_le pref prim)) in Ht. rewrite Hsort in Ht.
  apply elem_of_cons in Ht as [->|Ht]; [by left|]. right. rewrite Forall_forall in Hs. by apply Hs.
Qed.

(** ** The plan *)

Lemma planned_lanes manifest requested parallel preferred :
  manifest_wf manifest → m_pieces manifest ≠ [] →
  active_transfer_sources (m_sources manifest) ≠ [] →
  let lanes := plan_execution_lanes_with_source_order manifest requested parallel preferred in
  let active := active_transfer_sources (m_sources manifest) in
  zlen lanes =
    (if parallel then Z.min (Z.max requested 1) (zlen (m_pieces manifest)) else 1) ∧
  tiles 0 (span_of_lane <$> lanes) (m_total_size manifest) ∧
  (∀ k l, lanes !! k = Some l →
     lane_id l = Z.of_nat k ∧ lane_source_id l ∈ src_id <$> active) ∧
  (∀ l, head lanes = Some l → ∃ s, s ∈ active ∧ lane_source_id l = src_id s ∧
     ∀ t, t ∈ active → t = s ∨
       source_le preferred (src_id <$> primary (m_sources manifest)) s t = true).
Proof.
  intros Hwf Hp Hs lanes active. subst lanes. unfold plan_execution_lanes_with_source_order.
  destruct (m_pieces manifest) as [|p ps] eqn:Hps; [done|]. rewrite <- Hps in *.
  set (prim := src_id <$> primary (m_sources manifest)).
  destruct (sort_by (source_le preferred prim) _) as [|s srcs] eqn:Hsort.
  { exfalso. apply Hs. apply (f_equal length) in Hsort. rewrite sort_by_length in Hsort.
    by apply nil_length_inv. }
  pose proof (sorted_sources_head _ _ _ _ _ Hsort) as [Hin Hmin].
  pose proof (wf_pieces _ Hwf) as Ht. pose proof (wf_total _ Hwf) as [_ Hu].
  pose proof (wf_piece_len _ Hwf) as Hlen.
  assert (0 < zlen (m_pieces manifest)) as Hpos
    by (rewrite Hps, zlen_cons; pose proof (zlen_nonneg ps); lia).
  destruct parallel.
  - set (n := Z.min (Z.max requested 1) (zlen (m_pieces manifest))).
    assert (0 < n ≤ zlen (m_pieces manifest)) as Hn by (subst n; lia).
    pose proof (deal_lanes_Forall2 (m_pieces manifest) (m_blocks manifest) (s :: srcs) _ n
      Ht Hu Hn Hlen ltac:(done)) as HF.
    set (lanes := deal_lanes _ _ _ n) in *. split_and!.
    + apply Forall2_length in HF. rewrite length_seqZ in HF. unfold zlen in *. lia.
    + by eapply lanes_tile.
    + intros k l Hk. destruct (Forall2_lookup_r _ _ _ _ _ HF Hk) as (i & Hi & Hl).
      apply lookup_seqZ in Hi as [-> Hi]. destruct Hl as (-> & (s' & Hs' & ->) & _).
      split; [lia|]. apply list_elem_of_fmap_2. apply list_elem_of_lookup_2 in Hs'.
      rewrite <- Hsort in Hs'. by apply elem_of_sort_by in Hs'.
    + intros l Hl. destruct lanes as [|l' lanes]; [done|]. injection Hl as ->.
      apply Forall2_cons_inv_r in HF as (i & xs & Hl & _ & Hi).
      assert (i = 0) as ->.
      { rewrite seqZ_cons in Hi by lia. by injection Hi. }
      destruct Hl as (_ & (s' & Hs' & Hsid) & _). rewrite Zmod_0_l in Hs'.
      simpl in Hs'. simplify_eq. eauto.
  - destruct (assignment_span 0 (src_id s) _ (m_blocks manifest) _ _ Ht Hp ltac:(lia) Hu)
      as (l & -> & Hid & Hsid & _ & Hsp). cbn [option_list]. split_and!.
    + done.
    + change (tiles 0 [span_of_lane l] (m_total_size manifest)). rewrite Hsp. simpl. apply (tiles_nil_iff _ _ _) in Ht as Hnil. rewrite Hps in Hnil.
      apply tiles_le in Ht. split; [done|]. split; [|lia].
      enough (0 ≠ m_total_size manifest) by lia. intros Heq. by apply Hnil in Heq.
    + intros [|k] l' Hk; simplify_eq/=. split; [done|]. rewrite Hsid. by apply list_elem_of_fmap_2.
    + intros l' [= <-]. eauto.
Qed.

(** C4. With a well-formed manifest that has pieces and a transfer source, the
    plan has one lane per requested worker (at least one, at most one per
    piece, and exactly one when parallel transfer is not allowed).  The lanes
    are numbered from 0, they tile the payload, and each one's source is an
    active transfer source; the first lane's source is the least one in the
    order of the preferred sources, the primary source and the ids. *)
Theorem plan_execution_lanes_tile manifest requested parallel preferred :
  manifest_wf manifest → m_pieces manifest ≠ [] →
  active_transfer_sources (m_sources manifest) ≠ [] →
  let lanes := plan_execution_lanes_with_source_order manifest requested parallel preferred in
  let active := active_transfer_sources (m_sources manifest) in
  zlen lanes =
    (if parallel then Z.min (Z.max requested 1) (zlen (m_pieces manifest)) else 1) ∧
  tiles 0 (span_of_lane <$> lanes) (m_total_size manifest) ∧
  (∀ k l, lanes !! k = Some l →
     lane_id l = Z.of_nat k ∧ lane_source_id l ∈ src_id <$> active) ∧
  (∀ l, head lanes = Some l → ∃ s, s ∈ active ∧ lane_source_id l = src_id s ∧
     ∀ t, t ∈ active → t = s ∨
       source_le preferred (src_id <$> primary (m_sources manifest)) s t = true).
Proof. apply planned_lanes. Qed.

(** A planned lane begins and ends where a piece does. *)
Lemma planned_lane_bounds manifest requested parallel preferred l :
  manifest_wf manifest → m_pieces manifest ≠ [] →
  l ∈ plan_execution_lanes_with_source_order manifest requested parallel preferred →
  let off := tile_at (span_of_piece <$> m_pieces manifest) in
  ∃ i j, 0 ≤ i ≤ j ∧ j ≤ zlen (m_pieces manifest) ∧
    span_of_lane l = (off i, off j - off i).
Proof.
  intros Hwf Hp Hl off. unfold plan_execution_lanes_with_source_order in Hl.
  destruct (m_pieces manifest) as [|p ps] eqn:Hps; [done|]. subst off. rewrite <- Hps in *.
  pose proof (wf_pieces _ Hwf) as Ht. pose proof (wf_total _ Hwf) as [_ Hu].
  pose proof (wf_piece_len _ Hwf) as Hlen.
  assert (0 < zlen (m_pieces manifest)) as Hpos
    by (rewrite Hps, zlen_cons; pose proof (zlen_nonneg ps); lia).
  destruct (sort_by _ _) as [|s srcs] eqn:Hsort; [by apply elem_of_nil in Hl|]. destruct parallel.
  - set (n := Z.min (Z.max requested 1) (zlen (m_pieces manifest))) in *.
    assert (0 < n ≤ zlen (m_pieces manifest)) as Hn by (subst n; lia).
    pose proof (deal_lanes_Forall2 (m_pieces manifest) (m_blocks manifest) (s :: srcs) _ n
      Ht Hu Hn Hlen ltac:(done)) as HF.
    apply list_elem_of_lookup in Hl as (k & Hk).
    destruct (Forall2_lookup_r _ _ _ _ _ HF Hk) as (i & Hi & Hl).
    apply lookup_seqZ in Hi as [-> Hi]. destruct Hl as (_ & _ & Hsp).
    set (c := cut (zlen (m_pieces manifest)) n) in *.
    pose proof (cut_bounds (zlen (m_pieces manifest)) n (0 + Z.of_nat k)) as B1.
    pose proof (cut_bounds (zlen (m_pieces manifest)) n (0 + Z.of_nat k + 1)) as B2.
    pose proof (cut_lt (zlen (m_pieces manifest)) n (0 + Z.of_nat k) Hn) as B3.
    exists (c (0 + Z.of_nat k)), (c (0 + Z.of_nat k + 1)).
    fold c in B1, B2, B3. split; [lia|]. split; [lia|]. exact Hsp.
  - destruct (assignment_span 0 (src_id s) _ (m_blocks manifest) _ _ Ht Hp ltac:(lia) Hu)
      as (l' & E & _ & _ & _ & Hsp). rewrite E in Hl. apply list_elem_of_singleton in Hl as ->.
    exists 0, (zlen (m_pieces manifest)). split_and!; [lia|lia|lia|]. rewrite Hsp.
    by rewrite <- (zlen_fmap span_of_piece), (tile_at_all _ _ Ht).
Qed.

Definition example_manifest : SessionManifest :=
  for_single_file_with_piece_size (SpecHttp "http://h/f") (single_primary (example_source "a" "http://h/f"))
    "f" "/f" 10 4 2 [].

Lemma example_manifest_wf : manifest_wf example_manifest.
Proof. unfold example_manifest. rewrite for_single_file_eq. apply for_files_wf; ilia. Qed.

Lemma plan_execution_lanes_tile_witness :
  manifest_wf example_manifest ∧ m_pieces example_manifest ≠ [] ∧
  active_transfer_sources (m_sources example_manifest) ≠ [] ∧
  tiles 0 (span_of_lane <$>
    plan_execution_lanes_with_source_order example_manifest 2 true ["a"]) 10.
Proof.
  split; [exact example_manifest_wf|]. split; [discriminate|]. split; [discriminate|].
  exact (proj1 (proj2 (plan_execution_lanes_tile example_manifest 2 true ["a"]
    example_manifest_wf ltac:(discriminate) ltac:(discriminate)))).
Defined.

Example plan_execution_lanes_ex :
  plan_execution_lanes example_manifest 2 true =
  [mk_lane 0 "a" true 0 0 0 1 0 3; mk_lane 1 "a" true 1 2 0 0 4 9].
Proof. reflexivity. Qed.

(** Piece sizes proposed for HTTP give every requested worker at most one
    piece as long as no piece would exceed the maximum. *)
Lemma suggested_http_piece_size_spec total workers :
  is_u64 total → 0 < total → 0 ≤ workers →
  let size := suggested_http_piece_size total workers in
  1 ≤ size ≤ MAX_HTTP_PIECE_SIZE ∧
  (size < MAX_HTTP_PIECE_SIZE →
   total ≤ size * Z.min (Z.max workers 1) total < total + Z.min (Z.max workers 1) total).
Proof.
  intros Ht Hpos Hw size. subst size. unfold suggested_http_piece_size.
  destruct (total =? 0) eqn:E; bool_hyps; [lia|]. cbv zeta.
  set (w := Z.min (Z.max workers 1) total). assert (0 < w ≤ total) as Hww by (subst w; lia).
  pose proof (div_ceil_spec total w ltac:(lia) ltac:(lia)) as Hd.
  unfold MAX_HTTP_PIECE_SIZE in *. rewrite wrap32_small by ilia. split; [lia|].
  intros Hs. assert (1 ≤ div_ceil total w) by nia. rewrite Z.max_l, Z.min_l in * by lia. lia.
Qed.
