(* ===== verification/Payload.v ===== *)
(** * The payload store ([src/src/payload/file_map.rs], [src/src/payload/store.rs])

    A write at an offset of the payload is resolved to writes into the files
    the payload is laid out over. *)

From S2P Require Import Prelude Text Ranges Status Effect Source Piece Files Checksum Manifest.

(** ** Resolving writes *)

(** [src/src/payload/file_map.rs:7-11], [FileSegment]. *)
Record FileSegment := mk_segment { seg_path : string; seg_offset : Z; seg_length : Z }.
(** [src/src/payload/file_map.rs:14-18], [WriteSlice]. The buffer range is half open. *)
Record WriteSlice := mk_slice {
  ws_path : string;
  ws_file_offset : Z;
  ws_start : Z;
  ws_end : Z
}.
(** [src/src/payload/file_map.rs:21-25], [FileMap]. *)
Record FileMap := mk_file_map {
  segments : list FileSegment;
  total_size : Z;
  bounded : bool
}.

(** [src/src/payload/file_map.rs:28-44], [FileMap::from_manifest]. *)
Definition from_manifest (m : SessionManifest) : FileMap := {|
  segments := (λ f, mk_segment (fm_path f) (fm_offset f) (fm_length f)) <$> m_files m;
  total_size := m_total_size m;
  bounded := ((0 <? m_piece_count m) || (0 <? m_total_size m))%bool
|}.

(** [src/src/payload/file_map.rs:80-109], [FileMap::resolve_writes (for loop)]. The slices of
    the remaining segments, and the length that is left. *)
Fixpoint resolve_loop (offset : Z) (segs : list FileSegment)
    (remaining_start buffer_offset remaining_len : Z) : list WriteSlice * Z :=
  match segs with
  | [] => ([], remaining_len)
  | segment :: segs =>
      if remaining_len =? 0 then ([], remaining_len) else
      let segment_end := sat_add (seg_offset segment) (seg_length segment) in
      if ((segment_end <=? remaining_start) ||
          (remaining_start <? seg_offset segment) && (segment_end <=? offset))%bool
      then resolve_loop offset segs remaining_start buffer_offset remaining_len else
      let write_start := Z.max remaining_start (seg_offset segment) in
      if segment_end <=? write_start
      then resolve_loop offset segs remaining_start buffer_offset remaining_len else
      let writable := Z.min (segment_end - write_start) remaining_len in
      let file_offset := write_start - seg_offset segment in
      let next_buffer_offset := buffer_offset + writable in
      let '(slices, rest) := resolve_loop offset segs (write_start + writable)
        next_buffer_offset (remaining_len - writable) in
      (mk_slice (seg_path segment) file_offset buffer_offset next_buffer_offset :: slices, rest)
  end.

(** [src/src/payload/file_map.rs:54-116], [FileMap::resolve_writes]. *)
Definition resolve_writes (fm : FileMap) (offset len : Z) : res (list WriteSlice) :=
  if negb (bounded fm) then
    match head (segments fm) with
    | None => Err (EOther "payload store has no file segments")
    | Some segment => Ok [mk_slice (seg_path segment) offset 0 len]
    end
  else
    let end_ := sat_add offset len in
    if total_size fm <? end_ then
      Err (EOther ("payload write out of bounds: " +:+ show_u64 offset +:+ ".." +:+
             show_u64 end_ +:+ " exceeds " +:+ show_u64 (total_size fm)))
    else
      let '(slices, remaining_len) := resolve_loop offset (segments fm) offset 0 len in
      if remaining_len =? 0 then Ok slices
      else Err (EOther "payload write could not be resolved").

(** ** The store *)

(** [src/src/payload/store.rs:12-15], [PayloadStore]. The files, and the handles that the store
    has opened. *)
Record payload_world := mk_world { pw_fs : fs; pw_handles : gmap string positive }.

Definition io {A} (f : fs → result A io_error) : eff payload_world A := λ w,
  (result_map_err (λ e, EIo (io_error_to_string e)) (f (pw_fs w)), w).
Definition set_fs (f : fs → fs) : eff payload_world unit :=
  modify (λ w, mk_world (f (pw_fs w)) (pw_handles w)).

(** [OpenOptions::new().create(true).truncate(false).read(true).write(true).open(path)]. *)
Definition open_file (path : string) : eff payload_world positive :=
  let! (f, i) := io (λ f, fs_open f path) in
  set_fs (λ _, f) ;;; ret i.

Definition create_dir (path : string) : eff payload_world unit :=
  let! f := io (λ f, fs_create_dir_all f path) in set_fs (λ _, f).

Definition insert_handle (path : string) (i : positive) : eff payload_world unit :=
  modify (λ w, mk_world (pw_fs w) (<[path := i]> (pw_handles w))).

(** [src/src/payload/store.rs:26-45], [PayloadStore::prepare (for body)]. *)
Definition prepare_segment (is_bounded : bool) (segment : FileSegment)
    : eff payload_world unit :=
  match path_parent (seg_path segment) with
  | Some parent => create_dir parent
  | None => ret tt
  end ;;;
  let! i := open_file (seg_path segment) in
  when is_bounded (set_fs (λ f, fs_set_len f i (seg_length segment))) ;;;
  insert_handle (seg_path segment) i.

(** [src/src/payload/store.rs:25-48], [PayloadStore::prepare]. *)
Definition store_prepare (fm : FileMap) : eff payload_world unit :=
  for_each (prepare_segment (bounded fm)) (segments fm).

(** [src/src/payload/store.rs:80-98], [PayloadStore::file_handle]. *)
Definition file_handle (path : string) : eff payload_world positive :=
  let! cached := gets (λ w, pw_handles w !! path) in
  match cached with
  | Some handle => ret handle
  | None =>
      let! handle := open_file path in
      let! other := gets (λ w, pw_handles w !! path) in
      match other with
      | Some handle => ret handle
      | None => insert_handle path handle ;;; ret handle
      end
  end.

(** [src/src/payload/store.rs:52-58], [PayloadStore::write_at (for body)]. *)
Definition write_slice (data : bytes) (write : WriteSlice) : eff payload_world unit :=
  let! handle := file_handle (ws_path write) in
  set_fs (λ f, fs_write f handle (ws_file_offset write)
                 (slice data (ws_start write) (ws_end write))).

(** [src/src/payload/store.rs:50-61], [PayloadStore::write_at]. *)
Definition write_at (fm : FileMap) (offset : Z) (data : bytes) : eff payload_world unit :=
  let! writes := lift (resolve_writes fm offset (zlen data)) in
  for_each (write_slice data) writes.

(** ** Resolution *)

Definition span_of_segment (s : FileSegment) : span := (seg_offset s, seg_length s).
Definition span_of_slice (w : WriteSlice) : span := (ws_start w, ws_end w - ws_start w).

(** A slice writes to one segment, inside it, at the place of the payload its
    bytes belong to. *)
Definition slice_ok (segs : list FileSegment) (offset : Z) (w : WriteSlice) : Prop :=
  ∃ s, s ∈ segs ∧ ws_path w = seg_path s ∧
    seg_offset s + ws_file_offset w = offset + ws_start w ∧
    0 ≤ ws_file_offset w ∧ ws_file_offset w + (ws_end w - ws_start w) ≤ seg_length s.

Lemma slice_ok_cons s segs offset w : slice_ok segs offset w → slice_ok (s :: segs) offset w.
Proof. intros (t & Ht & H). exists t. split; [by right|done]. Qed.

Lemma resolve_loop_spec offset segs a total rs bo rem :
  layout a (span_of_segment <$> segs) total → 0 ≤ a → total ≤ u64_max →
  rs = offset + bo → 0 ≤ rem → rs + rem ≤ total → (rem = 0 ∨ a ≤ rs) →
  ∃ slices, resolve_loop offset segs rs bo rem = (slices, 0) ∧
    tiles bo (span_of_slice <$> slices) (bo + rem) ∧ Forall (slice_ok segs offset) slices.
Proof.
  revert a rs bo rem. induction segs as [|s segs IH]; intros a rs bo rem Hl Ha Hu Hrs Hrem Htot Hinv.
  - simpl in Hl. subst a. exists []. cbn [resolve_loop]. assert (rem = 0) as -> by lia.
    split_and!; [done|simpl; lia|constructor].
  - cbn [resolve_loop]. destruct (rem =? 0) eqn:E0; bool_hyps.
    { subst rem. exists []. split_and!; [done|simpl; lia|constructor]. }
    csimpl in Hl. destruct Hl as (Hso & Hsl & Hl). pose proof (layout_le _ _ _ Hl) as Hle.
    cbn [fst snd] in *. rewrite sat_add_exact by lia. cbv zeta.
    destruct (decide (seg_offset s + seg_length s ≤ rs)) as [Hend|Hend].
    { rewrite (proj2 (Z.leb_le _ _) Hend). cbn [orb].
      destruct (IH (a + seg_length s) rs bo rem) as (sl & -> & Ht & Hok); try done; try lia.
      exists sl. split_and!; [done|done|]. eapply Forall_impl; [exact Hok|].
      intros w. apply slice_ok_cons. }
    rewrite (proj2 (Z.leb_gt _ _)) by lia. rewrite (proj2 (Z.ltb_ge _ _)) by lia.
    cbn [orb andb]. rewrite Z.max_l by lia. rewrite (proj2 (Z.leb_gt _ _)) by lia.
    set (n := Z.min (seg_offset s + seg_length s - rs) rem).
    assert (0 < n ≤ rem) as Hn by lia.
    destruct (IH (a + seg_length s) (rs + n) (bo + n) (rem - n)) as (sl & -> & Ht & Hok);
      try done; try lia.
    eexists. split; [done|]. csimpl. unfold span_of_slice at 1. cbn [ws_start ws_end].
    split.
    + split_and!; [done|lia|]. replace (bo + (bo + n - bo)) with (bo + n) by lia.
      by replace (bo + rem) with (bo + n + (rem - n)) by lia.
    + constructor.
      * exists s. split; [left|]. cbn [ws_path ws_file_offset ws_start ws_end].
        split_and!; [done|lia..].
      * eapply Forall_impl; [exact Hok|]. intros w. apply slice_ok_cons.
Qed.

(** The files of a map are laid out over the payload. *)
Record file_map_wf (fm : FileMap) : Prop := {
  fw_bounded : bounded fm = true;
  fw_total : is_u64 (total_size fm);
  fw_layout : layout 0 (span_of_segment <$> segments fm) (total_size fm);
  fw_paths : NoDup (seg_path <$> segments fm)
}.

Lemma resolve_writes_ok fm offset len :
  file_map_wf fm → 0 ≤ offset → 0 ≤ len → offset + len ≤ total_size fm →
  ∃ slices, resolve_writes fm offset len = Ok slices ∧
    tiles 0 (span_of_slice <$> slices) len ∧ Forall (slice_ok (segments fm) offset) slices.
Proof.
  intros [Hb Ht Hl _] Ho Hn Hle. unfold resolve_writes. rewrite Hb. cbn [negb].
  rewrite sat_add_exact by ilia. rewrite (proj2 (Z.ltb_ge _ _)) by lia.
  destruct (resolve_loop_spec offset (segments fm) 0 (total_size fm) offset 0 len)
    as (slices & -> & Htl & Hok); try done; try ilia.
  exists slices. split; [done|]. split; [done|done].
Qed.

Lemma resolve_writes_out fm offset len :
  file_map_wf fm → 0 ≤ offset → total_size fm < u64_max → total_size fm < offset + len →
  ∃ m, resolve_writes fm offset len = Err (EOther m).
Proof.
  intros [Hb Ht Hl _] Ho Hm Hout. unfold resolve_writes. rewrite Hb. cbn [negb].
  rewrite (proj2 (Z.ltb_lt _ _)) by ilia. eauto.
Qed.

(** A write that fits in the payload resolves to slices that tile the
    buffer, in order and without overlap, each of them inside one file at the
    position its bytes have in the payload; a write beyond the end of the
    payload is refused. *)
Theorem resolve_writes_spec fm offset len :
  file_map_wf fm → 0 ≤ offset → 0 ≤ len → total_size fm < u64_max →
  if decide (offset + len ≤ total_size fm) then
    ∃ slices, resolve_writes fm offset len = Ok slices ∧
      tiles 0 (span_of_slice <$> slices) len ∧ Forall (slice_ok (segments fm) offset) slices
  else ∃ m, resolve_writes fm offset len = Err (EOther m).
Proof.
  intros Hwf Ho Hl Hm. case_decide.
  - by apply resolve_writes_ok.
  - apply resolve_writes_out; [done..|lia].
Qed.

Definition example_file_map : FileMap :=
  mk_file_map [mk_segment "/d/a" 0 4; mk_segment "/d/b" 4 0; mk_segment "/d/c" 4 6] 10 true.
Lemma example_file_map_wf : file_map_wf example_file_map.
Proof.
  split; [done|cbn; ilia|simpl; lia|]. apply (bool_decide_eq_true_1 (NoDup _)). reflexivity.
Qed.

Lemma resolve_writes_spec_witness :
  file_map_wf example_file_map ∧
  ∃ slices, resolve_writes example_file_map 2 5 = Ok slices ∧
    tiles 0 (span_of_slice <$> slices) 5.
Proof.
  split; [exact example_file_map_wf|].
  destruct (resolve_writes_spec example_file_map 2 5 example_file_map_wf
    ltac:(lia) ltac:(lia) ltac:(reflexivity)) as (sl & H & Ht & _).
  exists sl. exact (conj H Ht).
Defined.

Example resolve_ex :
  resolve_writes example_file_map 2 5 = Ok [mk_slice "/d/a" 2 0 2; mk_slice "/d/c" 0 2 5].
Proof. reflexivity. Qed.

(** ** The store as one array of bytes *)

(** The open files of the segments hold [contents]: each segment has a handle,
    no two share a file object, and each file has its segment's length. *)
Record store_holds (w : payload_world) (segs : list FileSegment) (inos : list positive)
    (contents : list bytes) : Prop := {
  sh_handles : Forall2 (λ s i, pw_handles w !! seg_path s = Some i) segs inos;
  sh_distinct : NoDup inos;
  sh_contents : Forall2 (λ i b, fs_inodes (pw_fs w) !! i = Some b) inos contents;
  sh_lengths : Forall2 (λ s b, zlen b = seg_length s) segs contents
}.

Lemma zlen_concat {A} (ls : list (list A)) : zlen (concat ls) = zsum (zlen <$> ls).
Proof. induction ls as [|l ls IH]; csimpl; [done|]. rewrite zlen_app, IH. done. Qed.

Lemma splice_app_l off data (b c : bytes) :
  0 ≤ off → off + zlen data ≤ zlen b → splice off data b ++ c = splice off data (b ++ c).
Proof.
  intros Ho Hb. apply list_eq. intros k. rewrite lookup_splice by (rewrite ?zlen_app;
    pose proof (zlen_nonneg c); lia).
  rewrite !lookup_app, lookup_splice by done.
  assert (length (splice off data b) = length b) as Hlen.
  { pose proof (zlen_splice off data b Ho Hb). unfold zlen in *. lia. }
  rewrite Hlen. case_decide as Hk; [|done].
  destruct (data !! (k - Z.to_nat off)%nat) eqn:E; [done|].
  apply lookup_ge_None in E. lia.
Qed.

Lemma splice_app_r off data (b c : bytes) :
  0 ≤ off → off + zlen data ≤ zlen c → b ++ splice off data c = splice (zlen b + off) data (b ++ c).
Proof.
  intros Ho Hb. apply list_eq. intros k. pose proof (zlen_nonneg b).
  rewrite lookup_splice by (rewrite ?zlen_app; lia).
  unfold zlen in *.
  destruct (decide (k < length b)%nat) as [Hk|Hk].
  - rewrite !lookup_app_l by done. case_decide; [lia|done].
  - rewrite !lookup_app_r by lia. rewrite lookup_splice by (unfold zlen; lia).
    repeat case_decide; try lia; f_equal; lia.
Qed.

(** Overwriting inside one part of a concatenation. *)
Lemma concat_splice k b off data (contents : list bytes) :
  contents !! k = Some b → 0 ≤ off → off + zlen data ≤ zlen b →
  concat (<[k := splice off data b]> contents) =
  splice (zsum (zlen <$> take k contents) + off) data (concat contents).
Proof.
  revert k. induction contents as [|c contents IH]; intros [|k]; intros Hk Ho Hb; simplify_eq/=.
  - by apply splice_app_l.
  - rewrite (IH k Hk Ho Hb). pose proof (zlen_nonneg (concat contents)).
    rewrite splice_app_r.
    + f_equal. lia.
    + assert (0 ≤ zsum (zlen <$> take k contents)); [|lia].
      rewrite <- zlen_concat. apply zlen_nonneg.
    + rewrite <- zlen_concat. rewrite <- (take_drop k contents) at 2. rewrite concat_app, zlen_app.
      assert (zlen b ≤ zlen (concat (drop k contents))); [|lia].
      rewrite (drop_S _ _ _ Hk). simpl. rewrite zlen_app.
      pose proof (zlen_nonneg (concat (drop (S k) contents))). lia.
Qed.

(** Two adjacent overwrites are one. *)
Lemma splice_splice off d1 d2 (b : bytes) :
  0 ≤ off → off + zlen d1 + zlen d2 ≤ zlen b →
  splice (off + zlen d1) d2 (splice off d1 b) = splice off (d1 ++ d2) b.
Proof.
  intros Ho Hb. pose proof (zlen_nonneg d1); pose proof (zlen_nonneg d2).
  apply list_eq. intros k.
  rewrite (lookup_splice (off + zlen d1)) by (rewrite ?zlen_splice; lia).
  rewrite !lookup_splice by (rewrite ?zlen_app; lia).
  unfold zlen in *. rewrite length_app.
  repeat case_decide; try lia.
  - rewrite lookup_app_r by lia. f_equal. lia.
  - by rewrite lookup_app_l by lia.
  - done.
Qed.

(** Nothing but the contents of the files [inos] changed. *)
Definition only_contents (inos : list positive) (w w' : payload_world) : Prop :=
  pw_handles w' = pw_handles w ∧ fs_names (pw_fs w') = fs_names (pw_fs w) ∧
  ∀ i, i ∉ inos → fs_inodes (pw_fs w') !! i = fs_inodes (pw_fs w) !! i.

Lemma only_contents_refl inos w : only_contents inos w w.
Proof. done. Qed.
Lemma only_contents_trans inos w1 w2 w3 :
  only_contents inos w1 w2 → only_contents inos w2 w3 → only_contents inos w1 w3.
Proof.
  intros (H1 & H2 & H3) (K1 & K2 & K3). split_and!; [congruence|congruence|].
  intros i Hi. by rewrite K3, H3.
Qed.

Lemma file_handle_cached path i w :
  pw_handles w !! path = Some i → file_handle path w = (Ok i, w).
Proof. intros H. unfold file_handle, eff_bind, gets. by rewrite H. Qed.

(** Writing into the file of one segment. *)
Lemma store_holds_write w segs inos cs k i b off data :
  store_holds w segs inos cs → inos !! k = Some i → cs !! k = Some b →
  0 ≤ off → off + zlen data ≤ zlen b →
  let w' := mk_world (fs_write (pw_fs w) i off data) (pw_handles w) in
  store_holds w' segs inos (<[k := splice off data b]> cs) ∧ only_contents inos w w'.
Proof.
  intros [Hh Hd Hc Hl] Hi Hb Ho Hle w'. pose proof (zlen_nonneg data).
  assert (fs_inodes (pw_fs w) !! i = Some b) as Hib by (by eapply Forall2_lookup_lr in Hc).
  split.
  - split; [done|done| |].
    + apply Forall2_same_length_lookup. split.
      { rewrite length_insert. by eapply Forall2_length. }
      intros j i' b' Hj Hjb. simpl. destruct (decide (j = k)) as [->|Hne].
      * rewrite list_lookup_insert_eq in Hjb by (by eapply lookup_lt_Some). simplify_eq.
        apply fs_write_inode; [done|lia].
      * rewrite list_lookup_insert_ne in Hjb by done.
        rewrite fs_write_inode_ne; [by eapply Forall2_lookup_lr in Hc|].
        intros ->. apply Hne. by eapply NoDup_lookup.
    + apply Forall2_same_length_lookup. split.
      { rewrite length_insert. by eapply Forall2_length. }
      intros j s b' Hj Hjb. destruct (decide (j = k)) as [->|Hne].
      * rewrite list_lookup_insert_eq in Hjb by (by eapply lookup_lt_Some). simplify_eq.
        rewrite zlen_splice by lia. by eapply (Forall2_lookup_lr _ _ _ _ _ _ Hl).
      * rewrite list_lookup_insert_ne in Hjb by done.
        by eapply (Forall2_lookup_lr _ _ _ _ _ _ Hl).
  - split_and!; [done|apply fs_write_names|]. intros j Hj. simpl. apply fs_write_inode_ne.
    intros ->. apply Hj. by eapply list_elem_of_lookup_2.
Qed.

Lemma zlen_slice {A} (l : list A) a b : 0 ≤ a ≤ b → b ≤ zlen l → zlen (slice l a b) = b - a.
Proof. apply slice_length. Qed.

(** The total length before a segment is its offset. *)
Lemma lengths_before segs (cs : list bytes) k :
  Forall2 (λ s b, zlen b = seg_length s) segs cs →
  zsum (zlen <$> take k cs) = zsum (snd <$> take k (span_of_segment <$> segs)).
Proof.
  intros H. revert k. induction H as [|s b segs cs Hs _ IH]; intros [|k]; csimpl; try done.
  rewrite IH. by rewrite Hs.
Qed.

Lemma write_slice_spec w segs inos cs total offset data ws :
  store_holds w segs inos cs → layout 0 (span_of_segment <$> segs) total →
  slice_ok segs offset ws → 0 ≤ ws_start ws ≤ ws_end ws → ws_end ws ≤ zlen data →
  ∃ w' cs', write_slice data ws w = (Ok tt, w') ∧ store_holds w' segs inos cs' ∧
    concat cs' = splice (offset + ws_start ws) (slice data (ws_start ws) (ws_end ws)) (concat cs) ∧
    only_contents inos w w'.
Proof.
  intros Hs Hl (s & Hin & Hp & Hpos & Hfo & Hfit) Hse Hend.
  apply list_elem_of_lookup in Hin as [k Hk].
  destruct (Forall2_lookup_l _ _ _ _ _ (sh_handles _ _ _ _ Hs) Hk) as (i & Hi & Hh).
  destruct (Forall2_lookup_l _ _ _ _ _ (sh_lengths _ _ _ _ Hs) Hk) as (b & Hb & Hlen).
  pose proof (zlen_slice data (ws_start ws) (ws_end ws) ltac:(lia) Hend) as Hsl.
  destruct (store_holds_write w segs inos cs k i b (ws_file_offset ws)
    (slice data (ws_start ws) (ws_end ws)) Hs Hi Hb Hfo ltac:(lia)) as [Hs' Hf].
  eexists _, _. split; [|split; [exact Hs'|split; [|exact Hf]]].
  - unfold write_slice, eff_bind. by rewrite Hp, (file_handle_cached _ i).
  - rewrite concat_splice by (done || lia). f_equal.
    rewrite (lengths_before segs) by apply (sh_lengths _ _ _ _ Hs).
    assert ((span_of_segment <$> segs) !! k = Some (seg_offset s, seg_length s)) as Hk'
      by (by rewrite list_lookup_fmap, Hk).
    pose proof (layout_offset _ _ _ _ _ _ Hl Hk'). lia.
Qed.

Lemma store_total w segs inos cs total :
  store_holds w segs inos cs → layout 0 (span_of_segment <$> segs) total →
  zlen (concat cs) = total.
Proof.
  intros Hs Hl. rewrite zlen_concat. apply layout_sum in Hl.
  rewrite <- list_fmap_compose in Hl.
  replace (zlen <$> cs) with (snd ∘ span_of_segment <$> segs); [lia|].
  destruct Hs as [_ _ _ Hlen]. clear Hl. induction Hlen as [|s b segs cs H _ IH]; csimpl; [done|].
  f_equal; [symmetry; exact H|exact IH].
Qed.

(** The slices of one write, done in order, overwrite one range. *)
Lemma write_slices_spec w segs inos cs total offset data slices a :
  store_holds w segs inos cs → layout 0 (span_of_segment <$> segs) total →
  Forall (slice_ok segs offset) slices → 0 ≤ a → 0 ≤ offset →
  tiles a (span_of_slice <$> slices) (zlen data) → offset + zlen data ≤ total →
  ∃ w' cs', for_each (write_slice data) slices w = (Ok tt, w') ∧ store_holds w' segs inos cs' ∧
    concat cs' = splice (offset + a) (slice data a (zlen data)) (concat cs) ∧
    only_contents inos w w'.
Proof.
  intros Hs Hl Hok. revert w cs a Hs. induction Hok as [|ws slices Hws Hok IH];
    intros w cs a Hs Ha Ho Ht Hfit.
  - simpl in Ht. subst a. exists w, cs. split_and!; [done|done| |done].
    pose proof (store_total _ _ _ _ _ Hs Hl). pose proof (zlen_nonneg data).
    unfold slice. rewrite Z.sub_diag, take_0. symmetry. apply splice_nil. lia.
  - csimpl in Ht. destruct Ht as (Hst & Hn & Ht). cbn [fst snd] in *.
    pose proof (tiles_le _ _ _ Ht) as Hle.
    destruct (write_slice_spec w segs inos cs total offset data ws) as (w1 & cs1 & Hw & Hs1 & Hc1 & Hf1);
      try done; try lia.
    replace (a + (ws_end ws - ws_start ws)) with (ws_end ws) in * by lia.
    destruct (IH w1 cs1 (ws_end ws)) as (w2 & cs2 & Hw2 & Hs2 & Hc2 & Hf2); try done; try lia.
    exists w2, cs2. split_and!; [|done| |by eapply only_contents_trans].
    + cbn [for_each]. by rewrite (eff_bind_ok _ _ _ _ _ Hw).
    + pose proof (store_total _ _ _ _ _ Hs Hl). pose proof (store_total _ _ _ _ _ Hs1 Hl).
      rewrite Hc2, Hc1, Hst.
      rewrite <- (slice_split data a (ws_end ws) (zlen data)) by lia.
      rewrite <- splice_splice by (rewrite ?zlen_slice; lia).
      f_equal. rewrite zlen_slice by lia. lia.
Qed.

Lemma write_at_ok fm w inos cs offset data :
  file_map_wf fm → store_holds w (segments fm) inos cs →
  0 ≤ offset → offset + zlen data ≤ total_size fm →
  ∃ w' cs', write_at fm offset data w = (Ok tt, w') ∧ store_holds w' (segments fm) inos cs' ∧
    concat cs' = splice offset data (concat cs) ∧ only_contents inos w w'.
Proof.
  intros Hwf Hs Ho Hfit. pose proof (zlen_nonneg data).
  destruct (resolve_writes_ok fm offset (zlen data) Hwf) as (slices & Hr & Ht & Hok); [lia..|].
  destruct (write_slices_spec w (segments fm) inos cs (total_size fm) offset data slices 0)
    as (w' & cs' & Hw & Hs' & Hc & Hf); try done; try (apply Hwf).
  exists w', cs'. split_and!; [|done| |done].
  - unfold write_at. by erewrite eff_bind_ok by (unfold lift; by rewrite Hr).
  - by rewrite Hc, slice_all, Z.add_0_r.
Qed.

(** C3. The store refines one flat array of bytes: a write that fits overwrites
    the range of the concatenated files it names, with all the files keeping
    their length and nothing else changing; a write beyond the end is refused
    and changes nothing. *)
Theorem write_at_refines fm w inos cs offset data :
  file_map_wf fm → store_holds w (segments fm) inos cs →
  0 ≤ offset → total_size fm < u64_max →
  if decide (offset + zlen data ≤ total_size fm) then
    ∃ w' cs', write_at fm offset data w = (Ok tt, w') ∧ store_holds w' (segments fm) inos cs' ∧
      concat cs' = splice offset data (concat cs) ∧ only_contents inos w w'
  else ∃ m, write_at fm offset data w = (Err (EOther m), w).
Proof.
  intros Hwf Hs Ho Hm. case_decide; [by apply write_at_ok|].
  destruct (resolve_writes_out fm offset (zlen data)) as [m Hr]; [done|done|done|lia|].
  exists m. unfold write_at. by erewrite eff_bind_err by (unfold lift; by rewrite Hr).
Qed.

Definition example_world : payload_world :=
  mk_world
    (mk_fs {["/d/a" := NFile 1%positive; "/d/b" := NFile 2%positive; "/d/c" := NFile 3%positive]}
       {[1%positive := [x00; x00; x00; x00]; 2%positive := [];
         3%positive := [x00; x00; x00; x00; x00; x00]]})
    {["/d/a" := 1%positive; "/d/b" := 2%positive; "/d/c" := 3%positive]}.
Definition example_contents : list bytes :=
  [[x00; x00; x00; x00]; []; [x00; x00; x00; x00; x00; x00]].

Lemma example_holds :
  store_holds example_world (segments example_file_map) [1; 2; 3]%positive example_contents.
Proof.
  split; simpl; repeat constructor; try reflexivity;
    apply (bool_decide_eq_true_1 (_ ∉ _)); reflexivity.
Qed.

Lemma write_at_refines_witness :
  file_map_wf example_file_map ∧
  store_holds example_world (segments example_file_map) [1; 2; 3]%positive example_contents ∧
  ∃ w' cs', write_at example_file_map 2 [x61; x62; x63] example_world = (Ok tt, w') ∧
    concat cs' = splice 2 [x61; x62; x63] (concat example_contents).
Proof.
  split; [exact example_file_map_wf|]. split; [exact example_holds|].
  destruct (write_at_refines example_file_map example_world _ example_contents 2 [x61; x62; x63]
    example_file_map_wf example_holds ltac:(lia) ltac:(reflexivity)) as (w' & cs' & H & _ & Hc & _).
  exists w', cs'. exact (conj H Hc).
Defined.

(** ** Writes of the same payload commute *)

(** What a worker writes: a range of the payload [p]. *)
Definition write_range (fm : FileMap) (p : bytes) (r : span) : eff payload_world unit :=
  write_at fm (fst r) (slice p (fst r) (fst r + snd r)).

Definition in_span (k : Z) (r : span) : Prop := fst r ≤ k < fst r + snd r.
#[export] Instance in_span_dec k r : Decision (in_span k r) := _.

Lemma write_ranges_spec fm w inos cs p ranges :
  file_map_wf fm → store_holds w (segments fm) inos cs → zlen p = total_size fm →
  Forall (λ r, 0 ≤ fst r ∧ 0 ≤ snd r ∧ fst r + snd r ≤ total_size fm) ranges →
  ∃ w' cs', for_each (write_range fm p) ranges w = (Ok tt, w') ∧
    store_holds w' (segments fm) inos cs' ∧ only_contents inos w w' ∧
    ∀ k : nat, concat cs' !! k =
      if decide (Exists (in_span (Z.of_nat k)) ranges) then p !! k else concat cs !! k.
Proof.
  intros Hwf Hs Hp Hr. revert w cs Hs. induction Hr as [|[o n] ranges (Ho & Hn & Hfit) _ IH];
    intros w cs Hs.
  - exists w, cs. split_and!; [done|done|done|]. intros k. case_decide as He; [|done].
    by apply Exists_nil in He.
  - cbn [fst snd] in *. cbn [for_each].
    assert (zlen (slice p o (o + n)) = n) as Hsl by (rewrite zlen_slice; lia).
    destruct (write_at_ok fm w inos cs o (slice p o (o + n)) Hwf Hs Ho ltac:(lia))
      as (w1 & cs1 & Hw & Hs1 & Hc1 & Hf1).
    destruct (IH w1 cs1 Hs1) as (w2 & cs2 & Hw2 & Hs2 & Hf2 & Hk).
    exists w2, cs2. split_and!; [|done|by eapply only_contents_trans|].
    + unfold write_range at 1. cbn [fst snd]. by rewrite (eff_bind_ok _ _ _ _ _ Hw).
    + intros k. rewrite Hk, Hc1.
      pose proof (store_total _ _ _ _ _ Hs (fw_layout _ Hwf)) as Htot.
      rewrite lookup_splice by lia.
      destruct (decide (Exists (in_span (Z.of_nat k)) ranges)) as [He|He].
      { rewrite decide_True by (by right). done. }
      case_decide as Hin.
      * rewrite decide_True by (left; unfold in_span, zlen in *; simpl; lia).
        unfold slice. rewrite lookup_take_lt by (unfold zlen in *; lia). rewrite lookup_drop.
        f_equal. unfold zlen in *. lia.
      * rewrite decide_False; [done|]. intros [Hi|Hi]%Exists_cons; [|done].
        unfold in_span, zlen in *. simpl in Hi. lia.
Qed.

(** Workers write their ranges of the payload in any order: whatever the
    order, and even if ranges overlap or are written twice, once ranges that
    tile the payload have been written the files hold exactly the payload. *)
Theorem write_ranges_any_order fm w inos cs p lanes ranges :
  file_map_wf fm → store_holds w (segments fm) inos cs → zlen p = total_size fm →
  tiles 0 lanes (total_size fm) → (∀ r, r ∈ lanes → r ∈ ranges) →
  Forall (λ r, 0 ≤ fst r ∧ 0 ≤ snd r ∧ fst r + snd r ≤ total_size fm) ranges →
  ∃ w' cs', for_each (write_range fm p) ranges w = (Ok tt, w') ∧
    store_holds w' (segments fm) inos cs' ∧ concat cs' = p.
Proof.
  intros Hwf Hs Hp Ht Hsub Hr.
  destruct (write_ranges_spec fm w inos cs p ranges Hwf Hs Hp Hr) as (w' & cs' & Hw & Hs' & _ & Hk).
  exists w', cs'. split_and!; [done|done|]. apply list_eq. intros k. rewrite Hk.
  case_decide as He; [done|].
  pose proof (store_total _ _ _ _ _ Hs (fw_layout _ Hwf)) as Htot.
  assert (total_size fm ≤ Z.of_nat k) as Hge.
  { apply Z.nlt_ge. intros Hlt. apply He.
    destruct (tiles_cover _ _ _ (Z.of_nat k) Ht ltac:(lia)) as (i & o & n & Hi & Hon & _).
    apply list_elem_of_lookup_2 in Hi.
    apply Exists_exists. exists (o, n). split; [by apply Hsub|]. unfold in_span. simpl. lia. }
  rewrite !lookup_ge_None_2; [done|unfold zlen in *; lia..].
Qed.

Lemma write_ranges_any_order_witness :
  let p := [x61; x62; x63; x64; x65; x66; x67; x68; x69; x6a] in
  file_map_wf example_file_map ∧
  store_holds example_world (segments example_file_map) [1; 2; 3]%positive example_contents ∧
  tiles 0 [(0, 5); (5, 5)] 10 ∧
  ∃ w' cs', for_each (write_range example_file_map p) [(5, 5); (0, 3); (0, 5)] example_world =
      (Ok tt, w') ∧ concat cs' = p.
Proof.
  intros p. split; [exact example_file_map_wf|]. split; [exact example_holds|].
  assert (tiles 0 [(0, 5); (5, 5)] 10) as Ht by (simpl; lia). split; [exact Ht|].
  destruct (write_ranges_any_order example_file_map example_world _ example_contents p
    [(0, 5); (5, 5)] [(5, 5); (0, 3); (0, 5)] example_file_map_wf example_holds eq_refl Ht)
    as (w' & cs' & H & _ & Hc).
  - intros r Hr. repeat (apply elem_of_cons in Hr as [->|Hr]); [| |by apply elem_of_nil in Hr];
      repeat (first [left; reflexivity | right]).
  - repeat constructor; simpl; lia.
  - exists w', cs'. exact (conj H Hc).
Defined.

(** ** Preparing the files *)

(** No two names share a file object, and every name's object exists. *)
Record fs_wf (f : fs) : Prop := {
  fw_inj : ∀ p q i, fs_names f !! p = Some (NFile i) → fs_names f !! q = Some (NFile i) → p = q;
  fw_dom : ∀ p i, fs_names f !! p = Some (NFile i) → is_Some (fs_inodes f !! i)
}.

(** The files of [f] other than [path]'s are in [f'] as they are. *)
Definition keeps_files (path : string) (f f' : fs) : Prop :=
  ∀ q, q ≠ path → fs_content f' q = fs_content f q ∧
    ∀ j, fs_names f !! q = Some (NFile j) → fs_names f' !! q = Some (NFile j).

Lemma create_dir_spec path dir f f' :
  fs_create_dir_all f dir = Ok f' → fs_wf f →
  fs_wf f' ∧ keeps_files path f f' ∧ fs_content f' path = fs_content f path.
Proof.
  unfold fs_create_dir_all. destruct (is_empty dir).
  { intros [= <-] Hf. done. }
  destruct (fs_names f !! dir) as [[i|]|] eqn:E; [done|intros [= <-]; done|].
  intros [= <-] [Hi Hd].
  assert (∀ q, fs_content (mk_fs (<[dir:=NDir]> (fs_names f)) (fs_inodes f)) q = fs_content f q) as Hc.
  { intros q. unfold fs_content. simpl. destruct (decide (q = dir)) as [->|].
    - by rewrite lookup_insert_eq, E.
    - by rewrite lookup_insert_ne. }
  split; [|split; [|apply Hc]].
  - split; simpl.
    + intros p q i. rewrite !lookup_insert_Some. naive_solver.
    + intros p i. rewrite lookup_insert_Some. naive_solver.
  - intros q _. split; [apply Hc|]. intros j Hj. simpl.
    rewrite lookup_insert_ne; [done|]. congruence.
Qed.

Lemma open_spec path f f' i :
  fs_open f path = Ok (f', i) → fs_wf f →
  fs_wf f' ∧ keeps_files path f f' ∧ fs_names f' !! path = Some (NFile i) ∧
  fs_inodes f' !! i = Some (unwrap_or [] (fs_content f path)).
Proof.
  unfold fs_open. destruct (fs_names f !! path) as [[j|]|] eqn:E; [|done|]; intros [= <- <-] Hf.
  - split; [done|]. split; [done|]. split; [done|].
    unfold fs_content. rewrite E. by destruct (fw_dom _ Hf _ _ E) as [b ->].
  - set (i := fresh (dom (fs_inodes f))).
    assert (fs_inodes f !! i = None) as Hi by (apply not_elem_of_dom, is_fresh).
    destruct Hf as [Hinj Hd].
    assert (∀ q, fs_names f !! q ≠ Some (NFile i)) as Hno
      by (intros q Hq; destruct (Hd _ _ Hq); congruence).
    split_and!.
    + split; simpl.
      * intros p q j. rewrite !lookup_insert_Some. naive_solver.
      * intros p j. rewrite !lookup_insert_Some. intros [[_ [= <-]]|[Hp Hq]].
        -- rewrite lookup_insert_eq. eauto.
        -- rewrite lookup_insert_ne by congruence. eauto.
    + intros q Hq. unfold fs_content. simpl. rewrite lookup_insert_ne by done. split; [|done].
      destruct (fs_names f !! q) as [[k|]|] eqn:Eq; try done.
      rewrite lookup_insert_ne by congruence. done.
    + simpl. by rewrite lookup_insert_eq.
    + unfold fs_content. rewrite E. simpl. by rewrite lookup_insert_eq.
Qed.

Lemma set_len_spec path f i n :
  fs_wf f → fs_names f !! path = Some (NFile i) →
  fs_wf (fs_set_len f i n) ∧ keeps_files path f (fs_set_len f i n).
Proof.
  intros [Hinj Hd] Hp. split; [split|].
  - done.
  - intros q j Hq. simpl. destruct (Hd _ _ Hq) as [b Hb]. destruct (decide (i = j)) as [->|].
    + rewrite lookup_alter_eq, Hb. eauto.
    + rewrite lookup_alter_ne by done. eauto.
  - intros q Hq. split; [|done]. unfold fs_content. simpl.
    destruct (fs_names f !! q) as [[j|]|] eqn:Eq; try done.
    apply lookup_alter_ne. intros ->. apply Hq. by apply (Hinj _ _ j).
Qed.

Lemma keeps_files_trans path f1 f2 f3 :
  keeps_files path f1 f2 → keeps_files path f2 f3 → keeps_files path f1 f3.
Proof.
  intros H1 H2 q Hq. destruct (H1 q Hq) as [Hc Hn], (H2 q Hq) as [Hc' Hn'].
  split; [congruence|auto].
Qed.

Lemma open_file_inv path w i w' :
  open_file path w = (Ok i, w') →
  fs_open (pw_fs w) path = Ok (pw_fs w', i) ∧ pw_handles w' = pw_handles w.
Proof.
  unfold open_file, eff_bind, io. destruct (fs_open (pw_fs w) path) as [[f j]|]; [|done].
  simpl. intros [= <- <-]. done.
Qed.

Lemma create_parent_inv path w w' :
  match path_parent path with Some parent => create_dir parent | None => ret tt end w = (Ok tt, w') →
  fs_wf (pw_fs w) →
  fs_wf (pw_fs w') ∧ keeps_files path (pw_fs w) (pw_fs w') ∧
  fs_content (pw_fs w') path = fs_content (pw_fs w) path ∧ pw_handles w' = pw_handles w.
Proof.
  destruct (path_parent path) as [dir|]; [|by intros [= <-]].
  unfold create_dir, eff_bind, io.
  destruct (fs_create_dir_all (pw_fs w) dir) as [f|] eqn:E; [|done].
  simpl. intros [= <-] Hwf. simpl.
  destruct (create_dir_spec path _ _ _ E Hwf) as (? & ? & ?). done.
Qed.

(** Preparing a segment opens its file, cut or padded to the segment's length,
    and leaves the other files alone. *)
Lemma prepare_segment_spec s w w' :
  prepare_segment true s w = (Ok tt, w') → fs_wf (pw_fs w) →
  fs_wf (pw_fs w') ∧ keeps_files (seg_path s) (pw_fs w) (pw_fs w') ∧
  ∃ i, fs_names (pw_fs w') !! seg_path s = Some (NFile i) ∧
    pw_handles w' = <[seg_path s := i]> (pw_handles w) ∧
    fs_inodes (pw_fs w') !! i =
      Some (resize_bytes (seg_length s) (unwrap_or [] (fs_content (pw_fs w) (seg_path s)))).
Proof.
  intros H Hwf. unfold prepare_segment in H.
  apply eff_bind_inv in H as ([] & w1 & H1 & H).
  destruct (create_parent_inv _ _ _ H1 Hwf) as (Hwf1 & Hk1 & Hc1 & Hh1).
  apply eff_bind_inv in H as (i & w2 & H2 & H).
  apply open_file_inv in H2 as [H2 Hh2].
  destruct (open_spec _ _ _ _ H2 Hwf1) as (Hwf2 & Hk2 & Hn2 & Hi2).
  cbn in H. injection H as <-. cbn [pw_fs pw_handles fs_names].
  destruct (set_len_spec (seg_path s) _ i (seg_length s) Hwf2 Hn2) as [Hwf3 Hk3].
  split; [done|]. split; [by eauto using keeps_files_trans|].
  exists i. split; [done|]. split; [congruence|].
  simpl. by rewrite lookup_alter_eq, Hi2, Hc1.
Qed.

(** The file of a segment is open, named, and prepared from its contents in [f]. *)
Definition segment_ready (f : fs) (w : payload_world) (s : FileSegment) : Prop :=
  ∃ i, fs_names (pw_fs w) !! seg_path s = Some (NFile i) ∧
    pw_handles w !! seg_path s = Some i ∧
    fs_inodes (pw_fs w) !! i =
      Some (resize_bytes (seg_length s) (unwrap_or [] (fs_content f (seg_path s)))).

Lemma segment_ready_keeps f w w' s path i :
  segment_ready f w s → seg_path s ≠ path → keeps_files path (pw_fs w) (pw_fs w') →
  pw_handles w' = <[path := i]> (pw_handles w) → segment_ready f w' s.
Proof.
  intros (j & Hn & Hh & Hi) Hne Hk Hw. destruct (Hk _ Hne) as [Hc Hn'].
  exists j. specialize (Hn' _ Hn). split; [done|]. split.
  - by rewrite Hw, lookup_insert_ne.
  - unfold fs_content in Hc. rewrite Hn, Hn' in Hc. congruence.
Qed.

Lemma prepare_loop_spec f done todo w w' :
  for_each (prepare_segment true) todo w = (Ok tt, w') → fs_wf (pw_fs w) →
  NoDup (seg_path <$> done ++ todo) →
  (∀ s, s ∈ done → segment_ready f w s) →
  (∀ s, s ∈ todo → fs_content (pw_fs w) (seg_path s) = fs_content f (seg_path s)) →
  fs_wf (pw_fs w') ∧ ∀ s, s ∈ done ++ todo → segment_ready f w' s.
Proof.
  revert done w. induction todo as [|s todo IH]; intros done w H Hwf Hnd Hdone Htodo.
  - injection H as <-. rewrite app_nil_r. done.
  - cbn [for_each] in H. apply eff_bind_inv in H as ([] & w1 & H1 & H).
    destruct (prepare_segment_spec _ _ _ H1 Hwf) as (Hwf1 & Hk & i & Hn & Hh & Hi).
    assert (∀ t, t ∈ done ++ todo → seg_path t ≠ seg_path s) as Hne.
    { intros t Ht Heq. rewrite fmap_app, fmap_cons in Hnd.
      apply (proj1 (NoDup_Permutation_proper _ _ (Permutation_sym (Permutation_middle _ _ _)))) in Hnd.
      apply NoDup_cons in Hnd as [Hs _]. apply Hs. rewrite <- Heq, <- fmap_app.
      by apply list_elem_of_fmap_2. }
    assert (done ++ s :: todo = (done ++ [s]) ++ todo) as Happ by (by rewrite <- app_assoc).
    rewrite Happ in *. apply (IH (done ++ [s]) w1); try done.
    + intros t [Ht|Ht]%elem_of_app.
      * eapply segment_ready_keeps; [by apply Hdone|apply Hne|exact Hk|exact Hh].
        apply elem_of_app. by left.
      * apply list_elem_of_singleton in Ht as ->. exists i. split; [done|].
        rewrite Hh, lookup_insert_eq. split; [done|]. rewrite Hi. by rewrite Htodo by left.
    + intros t Ht. rewrite (proj1 (Hk _ (Hne t ltac:(apply elem_of_app; by right)))).
      apply Htodo. by right.
Qed.

(** The contents [prepare] leaves in the file of a segment. *)
Definition prepared (f : fs) (s : FileSegment) : bytes :=
  resize_bytes (seg_length s) (unwrap_or [] (fs_content f (seg_path s))).

Lemma segments_ready_holds f w segs :
  NoDup (seg_path <$> segs) → fs_wf (pw_fs w) → (∀ s, s ∈ segs → 0 ≤ seg_length s) →
  (∀ s, s ∈ segs → segment_ready f w s) →
  ∃ inos, store_holds w segs inos (prepared f <$> segs) ∧
    Forall2 (λ s i, fs_names (pw_fs w) !! seg_path s = Some (NFile i)) segs inos.
Proof.
  intros Hnd Hwf Hlen Hr.
  assert (∃ inos, Forall2 (λ s i, pw_handles w !! seg_path s = Some i ∧
    fs_names (pw_fs w) !! seg_path s = Some (NFile i) ∧
    fs_inodes (pw_fs w) !! i = Some (prepared f s)) segs inos) as [inos H].
  { clear Hnd Hlen. induction segs as [|s segs IH]; [by exists []|].
    destruct IH as [inos IH]; [intros t Ht; apply Hr; by right|].
    destruct (Hr s) as (i & Hn & Hh & Hi); [left|]. exists (i :: inos). by constructor. }
  exists inos. split; [split|].
  - eapply Forall2_impl; [exact H|]. by intros s i (? & _).
  - clear Hlen Hr. induction H as [|s i segs inos (_ & Hn & _) H IH]; [constructor|].
    rewrite fmap_cons in Hnd. apply NoDup_cons in Hnd as [Hs Hnd].
    constructor; [|by apply IH]. intros [k Hk]%list_elem_of_lookup. apply Hs.
    destruct (Forall2_lookup_r _ _ _ _ _ H Hk) as (t & Ht & _ & Hnt & _).
    rewrite (fw_inj _ Hwf _ _ _ Hn Hnt). apply list_elem_of_fmap_2. by eapply list_elem_of_lookup_2.
  - clear -H. induction H as [|s i segs inos (_ & _ & Hi) H IH]; csimpl; by constructor.
  - clear -Hlen. induction segs as [|s segs IH]; csimpl; constructor.
    + unfold prepared, resize_bytes, zlen. rewrite length_resize.
      specialize (Hlen s ltac:(left)). lia.
    + apply IH. intros t Ht. apply Hlen. by right.
  - eapply Forall2_impl; [exact H|]. by intros s i (_ & ? & _).
Qed.

(** Preparing the store makes it ready: when it succeeds every file of the
    manifest is open under its own name and no other, has exactly its length,
    and keeps the bytes it had before up to that length, padded with zeros; so
    a restored payload is not lost. *)
Theorem store_prepare_spec fm w w' :
  file_map_wf fm → fs_wf (pw_fs w) → store_prepare fm w = (Ok tt, w') →
  fs_wf (pw_fs w') ∧
  ∃ inos, store_holds w' (segments fm) inos (prepared (pw_fs w) <$> segments fm) ∧
    Forall2 (λ s i, fs_names (pw_fs w') !! seg_path s = Some (NFile i)) (segments fm) inos.
Proof.
  intros Hwf Hf H. unfold store_prepare in H. rewrite (fw_bounded _ Hwf) in H.
  destruct (prepare_loop_spec (pw_fs w) [] (segments fm) w w' H Hf) as [Hf' Hr].
  - apply (fw_paths _ Hwf).
  - intros s Hs. by apply elem_of_nil in Hs.
  - done.
  - split; [done|]. apply segments_ready_holds; [apply Hwf|done| |done].
    intros s Hs. apply (layout_elem _ _ _ (seg_offset s) (seg_length s) (fw_layout _ Hwf)).
    apply (list_elem_of_fmap_2 span_of_segment _ _ Hs).
Qed.

Definition empty_world : payload_world := mk_world fs_empty ∅.
Lemma fs_empty_wf : fs_wf fs_empty.
Proof. split; intros *; simpl; by rewrite lookup_empty. Qed.

Lemma store_prepare_spec_witness :
  file_map_wf example_file_map ∧ fs_wf (pw_fs empty_world) ∧
  ∃ w', store_prepare example_file_map empty_world = (Ok tt, w') ∧ fs_wf (pw_fs w') ∧
    zlen <$> (snd <$> map_to_list (fs_inodes (pw_fs w'))) ≡ₚ [4; 0; 6].
Proof.
  split; [exact example_file_map_wf|]. split; [exact fs_empty_wf|].
  eexists. split; [vm_compute; reflexivity|]. split.
  - eapply (store_prepare_spec example_file_map empty_world _ example_file_map_wf fs_empty_wf).
    vm_compute. reflexivity.
  - vm_compute. apply (bool_decide_eq_true_1 (_ ≡ₚ _)). reflexivity.
Defined.
