(* ===== verification/Torrent.v ===== *)
(** * Torrents ([src/src/p2p/engine.rs], [src/src/p2p/manifest.rs])

    What the engine of torrent sessions reports, and the session manifest of a
    torrent's metadata.  The engine itself is code outside the repository. *)

From S2P Require Import Prelude Text Ranges Status Source Piece Files Checksum Manifest Payload.

(** ** Data *)

(** [src/src/p2p/engine.rs:10-12], [TorrentEngineBackend]. *)
Inductive TorrentEngineBackend := Libtorrent.

(** [src/src/p2p/engine.rs:57-61], [TorrentPieceHash]. *)
Record TorrentPieceHash := mk_piece_hash {
  ph_piece_index : Z;
  ph_sha1 : option string;
  ph_sha256 : option string
}.

(** [src/src/p2p/engine.rs:64-68], [TorrentFileEntry]. *)
Record TorrentFileEntry := mk_torrent_file {
  tf_path_components : list string;
  tf_length : Z;
  tf_offset : Z
}.

(** [src/src/p2p/engine.rs:84-87], [TorrentTracker]. *)
Record TorrentTracker := mk_tracker { tt_url : string; tt_tier : Z }.

(** [src/src/p2p/engine.rs:90-102], [TorrentMetadata]. *)
Record TorrentMetadata := mk_metadata {
  tm_name : string;
  tm_info_hash_v1 : option string;
  tm_info_hash_v2 : option string;
  tm_piece_size : Z;
  tm_piece_count : Z;
  tm_total_size : Z;
  tm_private : bool;
  tm_files : list TorrentFileEntry;
  tm_piece_hashes : list TorrentPieceHash;
  tm_trackers : list TorrentTracker;
  tm_web_seeds : list string
}.

(** [src/src/p2p/engine.rs:119-122], [TorrentEngineHandle]. *)
Record TorrentEngineHandle := mk_handle {
  th_backend : TorrentEngineBackend;
  th_external_id : string
}.

(** [src/src/p2p/engine.rs:125-133], [TorrentEngineState]. *)
Inductive TorrentEngineState :=
  | TSResolvingMetadata
  | TSCheckingFiles
  | TSDownloading
  | TSSeeding
  | TSPaused
  | TSCompleted
  | TSError (m : string).

(** [src/src/p2p/engine.rs:136-143], [TorrentTransferStats]. *)
Record TorrentTransferStats := mk_transfer {
  tx_downloaded : Z;
  tx_total : Z;
  tx_download_rate_bps : Z;
  tx_upload_rate_bps : Z;
  tx_connected_peers : Z;
  tx_seeds : Z
}.
Definition TorrentTransferStats_default : TorrentTransferStats := mk_transfer 0 0 0 0 0 0.

(** [src/src/p2p/engine.rs:146-153], [TorrentDiagnosticScope]. *)
Inductive TorrentDiagnosticScope := DTracker | DDht | DPeer | DListen | DPortMapping | DSession.
(** [src/src/p2p/engine.rs:156-160], [TorrentDiagnosticSeverity]. *)
Inductive TorrentDiagnosticSeverity := SevInfo | SevWarning | SevError.
(** [src/src/p2p/engine.rs:163-170], [TorrentDiagnosticEvent]. *)
Record TorrentDiagnosticEvent := mk_diagnostic {
  td_scope : TorrentDiagnosticScope;
  td_severity : TorrentDiagnosticSeverity;
  td_message : string;
  td_url : option string;
  td_endpoint : option string;
  td_peers : option Z
}.

(** [src/src/p2p/engine.rs:230-250], [TorrentEngineEvent]. *)
Inductive TorrentEngineEvent :=
  | TEMetadataDiscovered (metadata : TorrentMetadata)
  | TEStateChanged (state : TorrentEngineState)
  | TEProgress (stats : TorrentTransferStats)
  | TEPieceFinished (piece_index : Z)
  | TEResumeData (data : bytes)
  | TEDiagnostic (diagnostic : TorrentDiagnosticEvent)
  | TEFinished
  | TEError (m : string).

(** [src/src/p2p/engine.rs:266-272], [TorrentEngineSession]. *)
Record TorrentEngineSession := mk_engine_session {
  ts_handle : TorrentEngineHandle;
  ts_state : TorrentEngineState;
  ts_metadata : option TorrentMetadata;
  ts_manifest : option SessionManifest;
  ts_resume_data : option bytes
}.

(** [src/src/p2p/engine.rs:275-280], [TorrentResumeSnapshot]. *)
Record TorrentResumeSnapshot := mk_resume {
  tr_handle : TorrentEngineHandle;
  tr_state : TorrentEngineState;
  tr_metadata : option TorrentMetadata;
  tr_resume_data : option bytes
}.

#[export] Instance TorrentEngineBackend_eq_dec : EqDecision TorrentEngineBackend.
Proof. solve_decision. Defined.
#[export] Instance TorrentPieceHash_eq_dec : EqDecision TorrentPieceHash.
Proof. solve_decision. Defined.
#[export] Instance TorrentFileEntry_eq_dec : EqDecision TorrentFileEntry.
Proof. solve_decision. Defined.
#[export] Instance TorrentTracker_eq_dec : EqDecision TorrentTracker.
Proof. solve_decision. Defined.
#[export] Instance TorrentMetadata_eq_dec : EqDecision TorrentMetadata.
Proof. solve_decision. Defined.
#[export] Instance TorrentEngineHandle_eq_dec : EqDecision TorrentEngineHandle.
Proof. solve_decision. Defined.
#[export] Instance TorrentEngineState_eq_dec : EqDecision TorrentEngineState.
Proof. solve_decision. Defined.
#[export] Instance TorrentDiagnosticScope_eq_dec : EqDecision TorrentDiagnosticScope.
Proof. solve_decision. Defined.
#[export] Instance TorrentDiagnosticSeverity_eq_dec : EqDecision TorrentDiagnosticSeverity.
Proof. solve_decision. Defined.
#[export] Instance byte_eq_dec : EqDecision byte := Byte.byte_eq_dec.
#[export] Instance TorrentResumeSnapshot_eq_dec : EqDecision TorrentResumeSnapshot.
Proof. solve_decision. Defined.

(** [src/src/p2p/engine.rs:283-290], [TorrentResumeSnapshot::from_session]. *)
Definition resume_from_session (session : TorrentEngineSession) : TorrentResumeSnapshot :=
  mk_resume (ts_handle session) (ts_state session) (ts_metadata session) (ts_resume_data session).

(** [src/src/p2p/engine.rs:71-73], [TorrentFileEntry::display_path]. *)
Definition display_path (f : TorrentFileEntry) : string :=
  foldl path_join EmptyString (tf_path_components f).

(** [src/src/p2p/engine.rs:75-80], [TorrentFileEntry::file_name]. *)
Definition torrent_file_name (f : TorrentFileEntry) : string :=
  unwrap_or "payload.bin" (last (tf_path_components f)).

(** [src/src/p2p/engine.rs:105-111], [TorrentMetadata::stable_id]. *)
Definition stable_id (m : TorrentMetadata) : string :=
  unwrap_or (tm_name m) (opt_or (tm_info_hash_v2 m) (tm_info_hash_v1 m)).

(** [src/src/p2p/engine.rs:113-115], [TorrentMetadata::is_multi_file]. *)
Definition is_multi_file (m : TorrentMetadata) : bool := 1 <? zlen (tm_files m).

(** ** Manifests *)

Definition TORRENT_BLOCK_SIZE : Z := 16 * 1024.

(** The test of [sanitized_relative_path] on one component. *)
Definition unsafe_component (c : string) : bool :=
  (is_empty c || String.eqb c "." || String.eqb c ".." || contains "/" c || contains "\" c)%bool.

(** [src/src/p2p/manifest.rs:68-81], [sanitized_relative_path (for loop)]. *)
Fixpoint push_components (path : string) (components : list string) : res string :=
  match components with
  | [] => Ok path
  | component :: components =>
      if unsafe_component component
      then Err (EOther ("unsafe torrent path component: " +:+ component))
      else push_components (path_join path component) components
  end.

(** [src/src/p2p/manifest.rs:63-84], [sanitized_relative_path]. *)
Definition sanitized_relative_path (components : list string) : res string :=
  if bool_decide (components = []) then Err (EOther "torrent file path is empty")
  else push_components EmptyString components.

(** [src/src/p2p/manifest.rs:42-58], [build_file_manifests (for loop)]. *)
Fixpoint file_manifests (metadata : TorrentMetadata) (download_dir : string)
    (requested_file_path : option string) (files : list TorrentFileEntry)
    : res (list FileManifest) :=
  match files with
  | [] => Ok []
  | file :: files =>
      let? relative_path := sanitized_relative_path (tf_path_components file) in
      let path :=
        if is_multi_file metadata
        then path_join (path_join download_dir (tm_name metadata)) relative_path
        else match requested_file_path with
             | Some requested_file_path => requested_file_path
             | None => path_join download_dir relative_path
             end in
      let? rest := file_manifests metadata download_dir requested_file_path files in
      Ok (mk_file_manifest path (torrent_file_name file) (tf_length file) (tf_offset file) :: rest)
  end.

(** [src/src/p2p/manifest.rs:30-61], [build_file_manifests]. *)
Definition build_file_manifests (metadata : TorrentMetadata) (download_dir : string)
    (requested_file_path : option string) : res (list FileManifest) :=
  if bool_decide (tm_files metadata = []) then
    Err (EOther "torrent metadata does not contain files")
  else file_manifests metadata download_dir requested_file_path (tm_files metadata).

(** [src/src/p2p/manifest.rs:8-28], [manifest_from_torrent_metadata]. *)
Definition manifest_from_torrent_metadata (spec : DownloadSpec) (sources : SourceSet)
    (metadata : TorrentMetadata) (download_dir : string) (requested_file_path : option string)
    : res SessionManifest :=
  let? files := build_file_manifests metadata download_dir requested_file_path in
  let block_size := clamp (tm_piece_size metadata) 1 TORRENT_BLOCK_SIZE in
  Ok (for_files_with_piece_size spec sources (stable_id metadata) (tm_total_size metadata)
        (tm_piece_size metadata) block_size files []).

(** ** Sanitised paths *)

Lemma safe_component c :
  unsafe_component c = false →
  path_components c = [c] ∧ starts_with "/" c = false ∧ is_empty c = false ∧ c ≠ "..".
Proof.
  unfold unsafe_component. intros H. bool_hyps.
  assert (split_once "/" c = None) as Hn.
  { match goal with H : contains "/" c = false |- _ => unfold contains in H end.
    by destruct (split_once "/" c). }
  split_and!; try done.
  - unfold path_components. rewrite (split_once_none _ _ Hn), filterb_cons.
    match goal with H : is_empty c = false |- _ => rewrite H end.
    by rewrite (proj2 (String.eqb_neq _ _)).
  - destruct c as [|d c]; [done|]. cbn [split_once] in Hn.
    by destruct (starts_with "/" (String d c)).
Qed.

(** A path that is empty or relative. *)
Definition relative (p : string) : Prop := starts_with "/" p = false.

Lemma relative_join p c :
  relative p → unsafe_component c = false → relative (path_join p c).
Proof.
  unfold relative. intros Hp Hc. destruct (safe_component c Hc) as (_ & Hr & _ & _).
  destruct p as [|d p]; [unfold path_join; by rewrite Hr|].
  destruct (path_join_prefix (String d p) c Hr) as [t ->].
  change (String d p +:+ t) with (String d (p +:+ t)).
  by rewrite starts_with_char in *.
Qed.

Lemma push_components_spec comps path p :
  push_components path comps = Ok p → relative path →
  path_components p = path_components path ++ comps ∧ relative p ∧
  Forall (λ c, unsafe_component c = false) comps.
Proof.
  revert path. induction comps as [|c comps IH]; intros path; cbn [push_components].
  - intros [= ->] Hr. by rewrite app_nil_r.
  - destruct (unsafe_component c) eqn:Hc; [done|]. intros H Hr.
    destruct (IH _ H (relative_join _ _ Hr Hc)) as (H1 & H2 & H3).
    destruct (safe_component c Hc) as (Hcc & Hcr & _).
    rewrite path_components_join, Hcc, <- app_assoc in H1 by done. auto.
Qed.

Lemma sanitized_relative_path_spec comps p :
  sanitized_relative_path comps = Ok p →
  path_components p = comps ∧ relative p ∧ comps ≠ [] ∧
  Forall (λ c, unsafe_component c = false) comps.
Proof.
  unfold sanitized_relative_path. case_bool_decide as He; [done|].
  intros H. by destruct (push_components_spec _ _ _ H eq_refl) as (? & ? & ?).
Qed.

(** A path lies under [dir] when it extends it by components none of which
    leaves the directory. *)
Definition under (dir path : string) (components : list string) : Prop :=
  (∃ t, path = dir +:+ t) ∧ path_components path = path_components dir ++ components ∧
  Forall (λ c, unsafe_component c = false) components.

Lemma under_join dir p comps :
  path_components p = comps → relative p → Forall (λ c, unsafe_component c = false) comps →
  under dir (path_join dir p) comps.
Proof.
  intros Hp Hr Hf. split_and!; [by apply path_join_prefix| |done].
  by rewrite path_components_join, Hp.
Qed.

Lemma under_join_under dir dir' p comps comps' :
  under dir dir' comps → under dir' p comps' → under dir p (comps ++ comps').
Proof.
  intros ([t ->] & H1 & F1) ([t' ->] & H2 & F2). split_and!.
  - exists (t +:+ t'). by rewrite append_assoc.
  - by rewrite H2, H1, app_assoc.
  - by apply Forall_app.
Qed.

(** What [build_file_manifests] makes of one entry. *)
Definition file_of_entry (metadata : TorrentMetadata) (dir : string) (requested : option string)
    (e : TorrentFileEntry) (f : FileManifest) : Prop :=
  span_of_file f = (tf_offset e, tf_length e) ∧ fm_file_name f = torrent_file_name e ∧
  if is_multi_file metadata then
    unsafe_component (tm_name metadata) = false →
    under dir (fm_path f) (tm_name metadata :: tf_path_components e)
  else match requested with
       | Some p => fm_path f = p
       | None => under dir (fm_path f) (tf_path_components e)
       end.

Lemma file_manifests_spec metadata dir requested entries files :
  file_manifests metadata dir requested entries = Ok files →
  Forall2 (file_of_entry metadata dir requested) entries files.
Proof.
  revert files. induction entries as [|e entries IH]; intros files; cbn [file_manifests].
  - intros [= <-]. constructor.
  - destruct (sanitized_relative_path (tf_path_components e)) as [rel|] eqn:Er; [|done].
    apply sanitized_relative_path_spec in Er as (Hc & Hr & _ & Hf). cbn [result_bind].
    destruct (file_manifests _ _ _ entries) as [rest|]; [|done]. cbn [result_bind].
    intros [= <-]. constructor; [|by apply IH].
    split; [done|]. split; [done|]. cbn [fm_path].
    destruct (is_multi_file metadata).
    + intros Hn. apply (under_join_under dir (path_join dir (tm_name metadata)) _ [tm_name metadata]).
      * destruct (safe_component _ Hn) as (Hnc & Hnr & _). apply under_join; [done|done|auto].
      * by apply under_join.
    + destruct requested; [done|]. by apply under_join.
Qed.

(** The manifest of a torrent's metadata is well formed and has one file per
    entry, at the entry's place in the payload.  Every file lies under the
    download directory: entries whose path has an unsafe component are refused,
    so, as long as the torrent's name is itself a safe component, no component
    below the directory is empty, [.], [..] or holds a separator. *)
Theorem torrent_manifest_confined spec sources metadata dir m :
  manifest_from_torrent_metadata spec sources metadata dir None = Ok m →
  unsafe_component (tm_name metadata) = false →
  is_u64 (tm_total_size metadata) → is_u32 (tm_piece_size metadata) →
  tm_total_size metadata ≤ Z.max (tm_piece_size metadata) 1 * u32_max →
  manifest_wf m ∧ m_id m = stable_id metadata ∧ m_total_size m = tm_total_size metadata ∧
  Forall2 (λ e f,
    span_of_file f = (tf_offset e, tf_length e) ∧ fm_file_name f = torrent_file_name e ∧
    under dir (fm_path f)
      ((if is_multi_file metadata then [tm_name metadata] else []) ++ tf_path_components e))
    (tm_files metadata) (m_files m).
Proof.
  unfold manifest_from_torrent_metadata. intros H Hn Ht Hp Hw.
  destruct (build_file_manifests metadata dir None) as [files|] eqn:Ef; [|done].
  injection H as <-. split.
  - apply for_files_wf; [done|done| |done]. unfold TORRENT_BLOCK_SIZE. ilia.
  - split; [done|]. split; [done|]. unfold build_file_manifests in Ef.
    case_bool_decide; [done|]. apply file_manifests_spec in Ef.
    eapply Forall2_impl; [exact Ef|]. intros e f (Hs & Hf & Hu). split; [done|]. split; [done|].
    destruct (is_multi_file metadata); [by apply Hu|done].
Qed.

Definition example_metadata (name : string) : TorrentMetadata :=
  mk_metadata name None (Some "ab") 4 3 10 false
    [mk_torrent_file ["a"] 4 0; mk_torrent_file ["n"; "b"] 6 4] [] [] [].

Lemma torrent_manifest_confined_witness :
  let spec := SpecTorrentFile "x" in
  ∃ m, manifest_from_torrent_metadata spec SourceSet_default (example_metadata "t") "/d" None = Ok m ∧
    manifest_wf m ∧ fm_path <$> m_files m = ["/d/t/a"; "/d/t/n/b"].
Proof.
  intros spec. eexists. split; [reflexivity|]. split; [|reflexivity].
  apply (torrent_manifest_confined spec SourceSet_default (example_metadata "t") "/d" _ eq_refl eq_refl);
    cbn; ilia.
Defined.

(** The name of a torrent is not sanitised as its paths are: an absolute
    name of a torrent with several files replaces the download directory. *)
Theorem torrent_name_escapes metadata dir requested files :
  build_file_manifests metadata dir requested = Ok files → is_multi_file metadata = true →
  starts_with "/" (tm_name metadata) = true →
  Forall (λ f, ∃ t, fm_path f = tm_name metadata +:+ t) files.
Proof.
  unfold build_file_manifests. case_bool_decide; [done|]. intros Hf Hm Hn. clear H.
  revert files Hf. generalize (tm_files metadata) as entries.
  induction entries as [|e entries IH]; intros files; cbn [file_manifests].
  - intros [= <-]. constructor.
  - destruct (sanitized_relative_path (tf_path_components e)) as [rel|] eqn:Er; [|done].
    apply sanitized_relative_path_spec in Er as (_ & Hr & _). cbn [result_bind].
    destruct (file_manifests _ _ _ entries) as [rest|]; [|done]. cbn [result_bind].
    intros [= <-]. constructor; [|by apply IH]. cbn [fm_path]. rewrite Hm.
    unfold path_join at 2. rewrite Hn. by apply path_join_prefix.
Qed.

Lemma torrent_name_escapes_witness :
  ∃ files, build_file_manifests (example_metadata "/etc") "/home/me/downloads" None = Ok files ∧
    fm_path <$> files = ["/etc/a"; "/etc/n/b"] ∧
    Forall (λ f, ∃ t, fm_path f = "/etc" +:+ t) files.
Proof.
  eexists. split; [reflexivity|]. split; [reflexivity|].
  exact (torrent_name_escapes (example_metadata "/etc") "/home/me/downloads" None _
    eq_refl eq_refl eq_refl).
Defined.
