(* ===== verification/Config.v ===== *)
(** * Configuration ([src/src/config.rs])

    The configuration record, its validation and the overrides read from the
    environment.  The environment is a function from variable names to texts;
    TOML parsing is code outside the repository.  A backoff factor is a
    binary64 number ([SpecFloat], precision 53, maximal exponent 1024). *)

From S2P Require Import Prelude Text Float Status Effect Source.

(** ** Data *)

(** [src/src/config.rs:16-23], [FileConflictStrategy]. *)
Inductive FileConflictStrategy := Overwrite | SkipIfValid | Resume.
(** [src/src/config.rs:45-51], [LogLevel]. *)
Inductive LogLevel := LogError | LogWarn | LogInfo | LogDebug.
(** [src/src/storage/mod.rs:20-25], [Backend]. *)
Inductive Backend :=
  | BMemory
  | BJsonFile (path : string)
  | BSqlite (path : string).

(** [src/src/config.rs:66-71], [ProgressThrottleConfig]. *)
Record ProgressThrottleConfig := mk_throttle { interval_ms : Z; threshold_bytes : Z }.
(** [src/src/config.rs:84-89], [RetryConfig]. *)
Record RetryConfig := mk_retry {
  max_retries : Z;
  initial_delay : Z;
  max_delay : Z;
  backoff_factor : spec_float
}.

(** [src/src/p2p/libtorrent.rs:11-24], [LibtorrentEngineConfig]. *)
Record LibtorrentEngineConfig := mk_libtorrent {
  alert_queue_size : Z;
  enable_dht : bool;
  enable_lsd : bool;
  enable_upnp : bool;
  enable_natpmp : bool;
  listen_interfaces : option string
}.
(** [src/src/discovery/swarm.rs:11-17], [TorrentDiscoveryInputKind]. *)
Inductive TorrentDiscoveryInputKind := InputAuto | InputHtml | InputFeed | InputText.
(** [src/src/p2p/provider.rs:87-96], [SwarmIndexProviderConfig]. *)
Record SwarmIndexProviderConfig := mk_index_provider {
  ip_name : string;
  ip_url_template : string;
  ip_input_kind : TorrentDiscoveryInputKind;
  ip_cache_ttl_secs : Z;
  ip_timeout_secs : Z
}.
(** [src/src/p2p/provider.rs:99-110], [SwarmProviderLimits]. *)
Record SwarmProviderLimits := mk_limits {
  max_trackers : Z;
  max_peers : Z;
  max_web_seeds : Z;
  max_locators : Z;
  max_diagnostics : Z
}.
(** [src/src/p2p/provider.rs:20-53], [SwarmProviderConfig]. *)
Record SwarmProviderConfig := mk_swarm {
  sw_enabled : bool;
  sw_cache_dir : option string;
  sw_include_magnet_hints : bool;
  sw_static_trackers : list string;
  sw_static_tracker_files : list string;
  sw_static_peers : list string;
  sw_static_web_seeds : list string;
  sw_tracker_list_urls : list string;
  sw_tracker_list_cache_ttl_secs : Z;
  sw_tracker_list_timeout_secs : Z;
  sw_index_providers : list SwarmIndexProviderConfig;
  sw_discovery_files : list string;
  sw_discovery_urls : list string;
  sw_discovery_input_kind : TorrentDiscoveryInputKind;
  sw_discovery_timeout_secs : Z;
  sw_limits : SwarmProviderLimits
}.
(** [src/src/config.rs:103-110], [P2pConfig]. *)
Record P2pConfig := mk_p2p {
  p2p_enabled : bool;
  libtorrent : LibtorrentEngineConfig;
  swarm : SwarmProviderConfig
}.

(** [src/src/domain/http.rs:87-93], [ProxyOptions]. *)
Record ProxyOptions := mk_proxy {
  use_env_proxy : bool;
  http_proxy : option string;
  https_proxy : option string;
  no_proxy : option string
}.
(** [src/src/domain/http.rs:107-112], [TlsOptions]. *)
Record TlsOptions := mk_tls {
  insecure_skip_verify : bool;
  ca_certificate_pem : option string;
  client_identity_pem : option string
}.
(** [src/src/domain/http.rs:115-123], [HttpClientOptions]. *)
Record HttpClientOptions := mk_client {
  proxy : ProxyOptions;
  cookie_store : bool;
  cookie_jar_path : option string;
  tls : TlsOptions
}.
(** [src/src/domain/http.rs:126-131], [HttpConfig]. *)
Record HttpConfig := mk_http { http_client : HttpClientOptions; http_request : HttpRequestOptions }.

(** [src/src/config.rs:124-156], [Config]. A rate limit is not zero. *)
Record Config := mk_config {
  download_dir : string;
  shuffle_tasks : bool;
  concurrent_tasks : Z;
  segments_per_task : Z;
  retry : RetryConfig;
  rate_limit_kib_per_sec : option Z;
  connect_timeout_secs : Z;
  storage_backend : Backend;
  progress_throttle : ProgressThrottleConfig;
  file_conflict_strategy : FileConflictStrategy;
  log_level : LogLevel;
  completion_hook : option string;
  http : HttpConfig;
  p2p : P2pConfig
}.

#[export] Instance LibtorrentEngineConfig_eta : Settable LibtorrentEngineConfig := λ c,
  mk_libtorrent (alert_queue_size c) (enable_dht c) (enable_lsd c) (enable_upnp c)
    (enable_natpmp c) (listen_interfaces c).
#[export] Instance SwarmProviderConfig_eta : Settable SwarmProviderConfig := λ c,
  mk_swarm (sw_enabled c) (sw_cache_dir c) (sw_include_magnet_hints c) (sw_static_trackers c)
    (sw_static_tracker_files c) (sw_static_peers c) (sw_static_web_seeds c)
    (sw_tracker_list_urls c) (sw_tracker_list_cache_ttl_secs c) (sw_tracker_list_timeout_secs c)
    (sw_index_providers c) (sw_discovery_files c) (sw_discovery_urls c)
    (sw_discovery_input_kind c) (sw_discovery_timeout_secs c) (sw_limits c).
#[export] Instance P2pConfig_eta : Settable P2pConfig := λ c,
  mk_p2p (p2p_enabled c) (libtorrent c) (swarm c).
#[export] Instance ProxyOptions_eta : Settable ProxyOptions := λ c,
  mk_proxy (use_env_proxy c) (http_proxy c) (https_proxy c) (no_proxy c).
#[export] Instance TlsOptions_eta : Settable TlsOptions := λ c,
  mk_tls (insecure_skip_verify c) (ca_certificate_pem c) (client_identity_pem c).
#[export] Instance HttpClientOptions_eta : Settable HttpClientOptions := λ c,
  mk_client (proxy c) (cookie_store c) (cookie_jar_path c) (tls c).
#[export] Instance HttpConfig_eta : Settable HttpConfig := λ c,
  mk_http (http_client c) (http_request c).
#[export] Instance HttpRequestOptions_eta : Settable HttpRequestOptions := λ c,
  mk_request_options (headers c) (cookie c) (auth c) (user_agent c).
#[export] Instance Config_eta : Settable Config := λ c,
  mk_config (download_dir c) (shuffle_tasks c) (concurrent_tasks c) (segments_per_task c)
    (retry c) (rate_limit_kib_per_sec c) (connect_timeout_secs c) (storage_backend c)
    (progress_throttle c) (file_conflict_strategy c) (log_level c) (completion_hook c) (http c)
    (p2p c).

(** ** Defaults *)

(** [src/src/config.rs:92-99], [RetryConfig::default]. *)
Definition RetryConfig_default : RetryConfig := mk_retry 3 1 30 (f64_of 2).
(** [src/src/config.rs:74-79], [ProgressThrottleConfig::default]. *)
Definition ProgressThrottleConfig_default : ProgressThrottleConfig := mk_throttle 200 (1024 * 1024).
(** [src/src/p2p/libtorrent.rs:27-36], [LibtorrentEngineConfig::default]. *)
Definition LibtorrentEngineConfig_default : LibtorrentEngineConfig :=
  mk_libtorrent 1024 true true true true None.
(** [src/src/p2p/provider.rs:113-121], [SwarmProviderLimits::default]. *)
Definition SwarmProviderLimits_default : SwarmProviderLimits := mk_limits 128 64 64 64 64.
(** [src/src/p2p/provider.rs:56-75], [SwarmProviderConfig::default]. *)
Definition SwarmProviderConfig_default : SwarmProviderConfig :=
  mk_swarm true None true [] [] [] [] [] (24 * 60 * 60) 15 [] [] [] InputAuto 15
    SwarmProviderLimits_default.
(** [src/src/config.rs:113-119], [P2pConfig::default]. *)
Definition P2pConfig_default : P2pConfig :=
  mk_p2p true LibtorrentEngineConfig_default SwarmProviderConfig_default.
(** [src/src/domain/http.rs:96-103], [ProxyOptions::default]. *)
Definition ProxyOptions_default : ProxyOptions := mk_proxy true None None None.
Definition TlsOptions_default : TlsOptions := mk_tls false None None.
Definition HttpConfig_default : HttpConfig :=
  mk_http (mk_client ProxyOptions_default false None TlsOptions_default)
    HttpRequestOptions_default.

(** [src/src/config.rs:173-190], [Config::default]. *)
Definition Config_default : Config := {|
  download_dir := "./downloads";
  shuffle_tasks := false;
  concurrent_tasks := 4;
  segments_per_task := 4;
  retry := RetryConfig_default;
  rate_limit_kib_per_sec := None;
  connect_timeout_secs := 30;
  storage_backend := BSqlite "./downloads.db";
  progress_throttle := ProgressThrottleConfig_default;
  file_conflict_strategy := Resume;
  log_level := LogInfo;
  completion_hook := None;
  http := HttpConfig_default;
  p2p := P2pConfig_default
|}.

(** ** Validation *)

(** [src/src/config.rs:285-308], [ConfigError]. *)
Inductive ConfigError :=
  | InvalidDownloadDir (m : string)
  | InvalidConcurrentTasks (n : Z)
  | InvalidSegmentsPerTask (n : Z)
  | InvalidProgressThrottleInterval (n : Z)
  | InvalidRetryConfig (m : string)
  | InvalidP2pConfig (m : string)
  | InvalidCompletionHook
  | UnsupportedSchemaVersion (found supported : Z)
  | InvalidEnvValue (key value message : string).

Definition blank (s : string) : bool := is_empty (trim s).

(** [src/src/config.rs:284-308], [ConfigError]. Its text. *)
Definition ConfigError_display (e : ConfigError) : string :=
  match e with
  | InvalidDownloadDir m => "Invalid download directory: " +:+ m
  | InvalidConcurrentTasks n => "Invalid concurrent tasks: " +:+ show_u64 n
  | InvalidSegmentsPerTask n => "Invalid segments per task: " +:+ show_u64 n
  | InvalidProgressThrottleInterval n => "Invalid progress throttle interval: " +:+ show_u64 n
  | InvalidRetryConfig m => "Invalid retry config: " +:+ m
  | InvalidP2pConfig m => "Invalid p2p config: " +:+ m
  | InvalidCompletionHook => "Completion hook cannot be blank"
  | UnsupportedSchemaVersion found supported =>
      "Unsupported config schema version " +:+ show_u64 found +:+
      ", current supported version is " +:+ show_u64 supported
  | InvalidEnvValue key value message =>
      "Invalid env value for " +:+ key +:+ ": '" +:+ value +:+ "' (" +:+ message +:+ ")"
  end.

(** [src/src/error.rs:102-106], [From::from]. *)
Definition error_of_config (err : ConfigError) : Error := EConfigError (ConfigError_display err).

(** [src/src/config.rs:565-585], [validate_retry_config]. *)
Definition validate_retry_config (retry : RetryConfig) : result unit ConfigError :=
  if ((0 <? max_retries retry) && (initial_delay retry =? 0))%bool then
    Err (InvalidRetryConfig "initial_delay must be greater than 0 when retries are enabled")
  else if max_delay retry <? initial_delay retry then
    Err (InvalidRetryConfig "max_delay must be greater than or equal to initial_delay")
  else if f64_lt (backoff_factor retry) (f64_of 1) then
    Err (InvalidRetryConfig "backoff_factor must be greater than or equal to 1.0")
  else Ok tt.

(** [src/src/config.rs:614-631], [validate_p2p_config (for loop)]. *)
Fixpoint validate_index_providers (providers : list SwarmIndexProviderConfig)
    : result unit ConfigError :=
  match providers with
  | [] => Ok tt
  | provider :: providers =>
      if blank (ip_name provider) then
        Err (InvalidP2pConfig "swarm index provider name cannot be blank")
      else if blank (ip_url_template provider) then
        Err (InvalidP2pConfig "swarm index provider url_template cannot be blank")
      else if ((ip_cache_ttl_secs provider =? 0) || (ip_timeout_secs provider =? 0))%bool then
        Err (InvalidP2pConfig
          "swarm index provider cache_ttl_secs and timeout_secs must be greater than 0")
      else validate_index_providers providers
  end.

(** [src/src/config.rs:587-644], [validate_p2p_config]. *)
Definition validate_p2p_config (p2p : P2pConfig) : result unit ConfigError :=
  if alert_queue_size (libtorrent p2p) =? 0 then
    Err (InvalidP2pConfig "libtorrent alert_queue_size must be greater than 0")
  else if is_some_and blank (listen_interfaces (libtorrent p2p)) then
    Err (InvalidP2pConfig "libtorrent listen_interfaces cannot be blank")
  else if sw_tracker_list_cache_ttl_secs (swarm p2p) =? 0 then
    Err (InvalidP2pConfig "swarm tracker_list_cache_ttl_secs must be greater than 0")
  else if ((sw_tracker_list_timeout_secs (swarm p2p) =? 0) ||
           (sw_discovery_timeout_secs (swarm p2p) =? 0))%bool then
    Err (InvalidP2pConfig "swarm provider timeouts must be greater than 0")
  else
    let? _ := validate_index_providers (sw_index_providers (swarm p2p)) in
    let limits := sw_limits (swarm p2p) in
    if ((max_trackers limits =? 0) || (max_peers limits =? 0) || (max_web_seeds limits =? 0) ||
        (max_locators limits =? 0) || (max_diagnostics limits =? 0))%bool then
      Err (InvalidP2pConfig "swarm provider limits must be greater than 0")
    else Ok tt.

(** [src/src/config.rs:331-364], [Config::validate]. *)
Definition validate (c : Config) : result unit ConfigError :=
  if is_empty (download_dir c) then Err (InvalidDownloadDir "path cannot be empty")
  else if concurrent_tasks c =? 0 then Err (InvalidConcurrentTasks (concurrent_tasks c))
  else if ((segments_per_task c =? 0) || (100 <? segments_per_task c))%bool then
    Err (InvalidSegmentsPerTask (segments_per_task c))
  else if interval_ms (progress_throttle c) =? 0 then
    Err (InvalidProgressThrottleInterval (interval_ms (progress_throttle c)))
  else
    let? _ := validate_retry_config (retry c) in
    let? _ := validate_p2p_config (p2p c) in
    if is_some_and blank (completion_hook c) then Err InvalidCompletionHook else Ok tt.

(** [src/src/config.rs:272-275], [ConfigBuilder::build]. *)
Definition build (c : Config) : result Config ConfigError := let? _ := validate c in Ok c.

Definition CURRENT_CONFIG_SCHEMA : Z := 1.

(** [src/src/config.rs:554-563], [validate_schema_version]. *)
Definition validate_schema_version (schema_version : Z) : result unit ConfigError :=
  if CURRENT_CONFIG_SCHEMA <? schema_version
  then Err (UnsupportedSchemaVersion schema_version CURRENT_CONFIG_SCHEMA) else Ok tt.

(** [src/src/config.rs:159-164], [ConfigFile]. *)
Record ConfigFile := mk_config_file { schema_version : Z; file_config : Config }.

(** [src/src/config.rs:547-551], [ConfigFile::into_config]. *)
Definition into_config (f : ConfigFile) : result Config ConfigError :=
  let? _ := validate_schema_version (schema_version f) in
  let? _ := validate (file_config f) in
  Ok (file_config f).

(** ** The environment *)

(** [src/src/config.rs:28-39], [FileConflictStrategy::from_str]. *)
Definition FileConflictStrategy_from_str (value : string)
    : result FileConflictStrategy ConfigError :=
  let other := to_ascii_lowercase (trim value) in
  if bool_decide (other = "overwrite") then Ok Overwrite
  else if bool_decide (other ∈ ["skipifvalid"; "skip_if_valid"; "skip-if-valid"]) then
    Ok SkipIfValid
  else if bool_decide (other = "resume") then Ok Resume
  else Err (InvalidEnvValue "PARADOWN_FILE_CONFLICT_STRATEGY" other
              "expected overwrite, skip_if_valid, or resume").

(** [src/src/config.rs:731-748], [parse_storage_backend_env]. *)
Definition parse_storage_backend_env (value : string) : result Backend ConfigError :=
  let lowered := to_ascii_lowercase (trim value) in
  if String.eqb lowered "memory" then Ok BMemory else
  match strip_prefix "sqlite:" value with
  | Some path => Ok (BSqlite path)
  | None =>
      match strip_prefix "json:" value with
      | Some path => Ok (BJsonFile path)
      | None => Err (InvalidEnvValue "PARADOWN_STORAGE_BACKEND" value
                       "expected memory, sqlite:/path/to/db, or json:/path/to/file")
      end
  end.

(** [src/src/config.rs:750-762], [parse_log_level]. *)
Definition parse_log_level (key value : string) : result LogLevel ConfigError :=
  let v := to_ascii_lowercase (trim value) in
  if bool_decide (v = "error") then Ok LogError
  else if bool_decide (v ∈ ["warn"; "warning"]) then Ok LogWarn
  else if bool_decide (v = "info") then Ok LogInfo
  else if bool_decide (v = "debug") then Ok LogDebug
  else Err (InvalidEnvValue key value "expected error, warn, info, or debug").

(** [src/src/config.rs:767-785], [parse_headers_env (for loop)]. *)
Fixpoint parse_header_lines (key : string) (ls : list string)
    : result (list HttpHeader) ConfigError :=
  match ls with
  | [] => Ok []
  | raw_line :: ls =>
      let line := trim raw_line in
      if is_empty line then parse_header_lines key ls else
      match split_once ":" line with
      | None => Err (InvalidEnvValue key line
                       "expected one header per line in the form 'Name: Value'")
      | Some (name, header_value) =>
          let? rest := parse_header_lines key ls in
          Ok (mk_header (trim name) (trim header_value) :: rest)
      end
  end.

(** [src/src/config.rs:764-788], [parse_headers_env]. *)
Definition parse_headers_env (key value : string) : result (list HttpHeader) ConfigError :=
  parse_header_lines key (lines value).

(** [src/src/config.rs:790-797], [parse_csv_env]. *)
Definition parse_csv_env (value : string) : list string :=
  filterb (λ item, negb (is_empty item)) (trim <$> split "," value).

(** [src/src/config.rs:799-817], [parse_basic_auth_env]. *)
Definition parse_basic_auth_env (value : string) : result HttpAuth ConfigError :=
  let '(username, password) :=
    match split_once ":" value with
    | Some (username, password) =>
        (trim username, opt_filter (λ v, negb (is_empty v)) (Some (trim password)))
    | None => (trim value, None)
    end in
  if is_empty username then
    Err (InvalidEnvValue "PARADOWN_BASIC_AUTH" value "expected username[:password]")
  else Ok (AuthBasic username password).

Section env.
Context (env : string → option string).

(** [src/src/config.rs:678-683], [read_env]. *)
Definition read_env (key : string) : option string :=
  opt_filter (λ value, negb (is_empty value)) (trim <$> env key).

(** [src/src/config.rs:685-699], [parse_env_bool]. *)
Definition parse_env_bool (key : string) : result (option bool) ConfigError :=
  match read_env key with
  | None => Ok None
  | Some value =>
      let v := to_ascii_lowercase value in
      if bool_decide (v ∈ ["1"; "true"; "yes"; "on"]) then Ok (Some true)
      else if bool_decide (v ∈ ["0"; "false"; "no"; "off"]) then Ok (Some false)
      else Err (InvalidEnvValue key value "expected boolean")
  end.

(** [src/src/config.rs:716-729], [parse_env_u64]. [usize] is as wide, so
    [parse_env_usize] (lines 701-714) is the same function. *)
Definition parse_env_u64 (key : string) : result (option Z) ConfigError :=
  match read_env key with
  | None => Ok None
  | Some value =>
      match parse_u64 value with
      | Ok n => Ok (Some n)
      | Err _ => Err (InvalidEnvValue key value "expected unsigned integer")
      end
  end.
(** [src/src/config.rs:701-714], [parse_env_usize]. *)
Definition parse_env_usize : string → result (option Z) ConfigError := parse_env_u64.

(** [if let Some(value) = parsed? { change(value)?; }] on the configuration. *)
Definition set_if {A} (parsed : result (option A) ConfigError) (change : A → Config → Config)
    : effx ConfigError Config unit :=
  let! o := lift parsed in
  match o with Some value => modify (change value) | None => ret tt end.
Definition read (key : string) : result (option string) ConfigError := Ok (read_env key).
Definition read_as {A} (parse : string → result A ConfigError) (key : string)
    : result (option A) ConfigError := transpose (parse <$> read_env key).

(** [NonZeroU64::new]. *)
Definition non_zero (n : Z) : option Z := if n =? 0 then None else Some n.

Definition on_proxy (f : ProxyOptions → ProxyOptions) (c : Config) : Config :=
  c <| http ::= (λ h, h <| http_client ::= (λ k, k <| proxy ::= f |>) |>) |>.
Definition on_tls (f : TlsOptions → TlsOptions) (c : Config) : Config :=
  c <| http ::= (λ h, h <| http_client ::= (λ k, k <| tls ::= f |>) |>) |>.
Definition on_client (f : HttpClientOptions → HttpClientOptions) (c : Config) : Config :=
  c <| http ::= (λ h, h <| http_client ::= f |>) |>.
Definition on_request (f : HttpRequestOptions → HttpRequestOptions) (c : Config) : Config :=
  c <| http ::= (λ h, h <| http_request ::= f |>) |>.
Definition on_libtorrent (f : LibtorrentEngineConfig → LibtorrentEngineConfig) (c : Config) : Config :=
  c <| p2p ::= (λ p, p <| libtorrent ::= f |>) |>.
Definition on_swarm (f : SwarmProviderConfig → SwarmProviderConfig) (c : Config) : Config :=
  c <| p2p ::= (λ p, p <| swarm ::= f |>) |>.

(** The index providers of [PARADOWN_INDEX_URL_TEMPLATES]. *)
Definition env_index_providers (value : string) (s : SwarmProviderConfig)
    : list SwarmIndexProviderConfig :=
  imap (λ index url_template,
    mk_index_provider ("env-index-" +:+ show_u64 (Z.of_nat index + 1)) url_template InputAuto
      (sw_tracker_list_cache_ttl_secs s) (sw_tracker_list_timeout_secs s))
    (parse_csv_env value).

(** [src/src/config.rs:386-531], [Config::apply_env_overrides]. *)
Definition apply_env_overrides : effx ConfigError Config unit :=
  set_if (read "PARADOWN_DOWNLOAD_DIR") (λ v c, c <| download_dir := v |>) ;;;
  set_if (parse_env_bool "PARADOWN_SHUFFLE_TASKS") (λ v c, c <| shuffle_tasks := v |>) ;;;
  set_if (parse_env_bool "PARADOWN_SHUFFLE") (λ v c, c <| shuffle_tasks := v |>) ;;;
  set_if (parse_env_usize "PARADOWN_CONCURRENT_TASKS") (λ v c, c <| concurrent_tasks := v |>) ;;;
  set_if (parse_env_usize "PARADOWN_MAX_CONCURRENT") (λ v c, c <| concurrent_tasks := v |>) ;;;
  set_if (parse_env_usize "PARADOWN_SEGMENTS_PER_TASK") (λ v c, c <| segments_per_task := v |>) ;;;
  set_if (parse_env_usize "PARADOWN_WORKERS") (λ v c, c <| segments_per_task := v |>) ;;;
  set_if (parse_env_u64 "PARADOWN_RATE_LIMIT_KIB_PER_SEC")
    (λ v c, c <| rate_limit_kib_per_sec := non_zero v |>) ;;;
  set_if (parse_env_u64 "PARADOWN_RATE_LIMIT_KBPS")
    (λ v c, c <| rate_limit_kib_per_sec := non_zero v |>) ;;;
  set_if (parse_env_u64 "PARADOWN_CONNECT_TIMEOUT_SECS")
    (λ v c, c <| connect_timeout_secs := v |>) ;;;
  set_if (parse_env_u64 "PARADOWN_CONNECTION_TIMEOUT_SECS")
    (λ v c, c <| connect_timeout_secs := v |>) ;;;
  set_if (read_as parse_storage_backend_env "PARADOWN_STORAGE_BACKEND")
    (λ v c, c <| storage_backend := v |>) ;;;
  set_if (read_as FileConflictStrategy_from_str "PARADOWN_FILE_CONFLICT_STRATEGY")
    (λ v c, c <| file_conflict_strategy := v |>) ;;;
  set_if (read_as (parse_log_level "PARADOWN_LOG_LEVEL") "PARADOWN_LOG_LEVEL")
    (λ v c, c <| log_level := v |>) ;;;
  set_if (read "PARADOWN_COMPLETION_HOOK") (λ v c, c <| completion_hook := Some v |>) ;;;
  set_if (read "PARADOWN_ON_COMPLETE") (λ v c, c <| completion_hook := Some v |>) ;;;
  set_if (parse_env_bool "PARADOWN_USE_ENV_PROXY")
    (λ v, on_proxy (λ p, p <| use_env_proxy := v |>)) ;;;
  set_if (parse_env_bool "PARADOWN_COOKIE_STORE") (λ v, on_client (λ k, k <| cookie_store := v |>)) ;;;
  set_if (read "PARADOWN_COOKIE_JAR")
    (λ v, on_client (λ k, k <| cookie_store := true |> <| cookie_jar_path := Some v |>)) ;;;
  set_if (read "PARADOWN_HTTP_PROXY") (λ v, on_proxy (λ p, p <| http_proxy := Some v |>)) ;;;
  set_if (read "PARADOWN_HTTPS_PROXY") (λ v, on_proxy (λ p, p <| https_proxy := Some v |>)) ;;;
  set_if (read "PARADOWN_NO_PROXY") (λ v, on_proxy (λ p, p <| no_proxy := Some v |>)) ;;;
  set_if (parse_env_bool "PARADOWN_TLS_INSECURE_SKIP_VERIFY")
    (λ v, on_tls (λ t, t <| insecure_skip_verify := v |>)) ;;;
  set_if (read "PARADOWN_TLS_CA_CERT_PEM")
    (λ v, on_tls (λ t, t <| ca_certificate_pem := Some v |>)) ;;;
  set_if (read "PARADOWN_TLS_CLIENT_IDENTITY_PEM")
    (λ v, on_tls (λ t, t <| client_identity_pem := Some v |>)) ;;;
  set_if (read_as (parse_headers_env "PARADOWN_HEADERS") "PARADOWN_HEADERS")
    (λ v, on_request (λ r, r <| headers := v |>)) ;;;
  set_if (read "PARADOWN_COOKIE") (λ v, on_request (λ r, r <| cookie := Some v |>)) ;;;
  set_if (read "PARADOWN_USER_AGENT") (λ v, on_request (λ r, r <| user_agent := Some v |>)) ;;;
  set_if (read_as parse_basic_auth_env "PARADOWN_BASIC_AUTH")
    (λ v, on_request (λ r, r <| auth := Some v |>)) ;;;
  set_if (read "PARADOWN_BEARER_TOKEN")
    (λ v, on_request (λ r, r <| auth := Some (AuthBearer v) |>)) ;;;
  set_if (parse_env_bool "PARADOWN_P2P_ENABLED")
    (λ v c, c <| p2p ::= (λ p, p <| p2p_enabled := v |>) |>) ;;;
  set_if (parse_env_usize "PARADOWN_LIBTORRENT_ALERT_QUEUE_SIZE")
    (λ v, on_libtorrent (λ l, l <| alert_queue_size := v |>)) ;;;
  set_if (parse_env_bool "PARADOWN_LIBTORRENT_DHT")
    (λ v, on_libtorrent (λ l, l <| enable_dht := v |>)) ;;;
  set_if (parse_env_bool "PARADOWN_LIBTORRENT_LSD")
    (λ v, on_libtorrent (λ l, l <| enable_lsd := v |>)) ;;;
  set_if (parse_env_bool "PARADOWN_LIBTORRENT_UPNP")
    (λ v, on_libtorrent (λ l, l <| enable_upnp := v |>)) ;;;
  set_if (parse_env_bool "PARADOWN_LIBTORRENT_NATPMP")
    (λ v, on_libtorrent (λ l, l <| enable_natpmp := v |>)) ;;;
  set_if (read "PARADOWN_LIBTORRENT_LISTEN_INTERFACES")
    (λ v, on_libtorrent (λ l, l <| listen_interfaces := Some v |>)) ;;;
  set_if (parse_env_bool "PARADOWN_SWARM_PROVIDERS_ENABLED")
    (λ v, on_swarm (λ s, s <| sw_enabled := v |>)) ;;;
  set_if (read "PARADOWN_SWARM_PROVIDER_CACHE_DIR")
    (λ v, on_swarm (λ s, s <| sw_cache_dir := Some v |>)) ;;;
  set_if (read "PARADOWN_TRACKER_LIST_URLS")
    (λ v, on_swarm (λ s, s <| sw_tracker_list_urls := parse_csv_env v |>)) ;;;
  set_if (parse_env_u64 "PARADOWN_TRACKER_LIST_CACHE_TTL_SECS")
    (λ v, on_swarm (λ s, s <| sw_tracker_list_cache_ttl_secs := v |>)) ;;;
  set_if (parse_env_u64 "PARADOWN_TRACKER_LIST_TIMEOUT_SECS")
    (λ v, on_swarm (λ s, s <| sw_tracker_list_timeout_secs := v |>)) ;;;
  set_if (read "PARADOWN_INDEX_URL_TEMPLATES")
    (λ v, on_swarm (λ s, s <| sw_index_providers := env_index_providers v s |>)).
End env.

(** ** Valid configurations *)

Definition text_ok (o : option string) : Prop := ∀ s, o = Some s → blank s = false.

Record provider_valid (p : SwarmIndexProviderConfig) : Prop := {
  pv_name : blank (ip_name p) = false;
  pv_template : blank (ip_url_template p) = false;
  pv_ttl : ip_cache_ttl_secs p ≠ 0;
  pv_timeout : ip_timeout_secs p ≠ 0
}.

Record retry_valid (r : RetryConfig) : Prop := {
  rv_initial : 0 < max_retries r → initial_delay r ≠ 0;
  rv_max : initial_delay r ≤ max_delay r;
  rv_backoff : f64_lt (backoff_factor r) (f64_of 1) = false
}.

Record p2p_valid (p : P2pConfig) : Prop := {
  qv_queue : alert_queue_size (libtorrent p) ≠ 0;
  qv_listen : text_ok (listen_interfaces (libtorrent p));
  qv_ttl : sw_tracker_list_cache_ttl_secs (swarm p) ≠ 0;
  qv_tracker_timeout : sw_tracker_list_timeout_secs (swarm p) ≠ 0;
  qv_discovery_timeout : sw_discovery_timeout_secs (swarm p) ≠ 0;
  qv_providers : Forall provider_valid (sw_index_providers (swarm p));
  qv_limits : let l := sw_limits (swarm p) in
    Forall (λ n, n ≠ 0) [max_trackers l; max_peers l; max_web_seeds l; max_locators l;
      max_diagnostics l]
}.

(** What the rest of the program relies on in a configuration. *)
Record config_valid (c : Config) : Prop := {
  cv_dir : download_dir c ≠ EmptyString;
  cv_tasks : concurrent_tasks c ≠ 0;
  cv_segments : segments_per_task c ≠ 0 ∧ segments_per_task c ≤ 100;
  cv_interval : interval_ms (progress_throttle c) ≠ 0;
  cv_retry : retry_valid (retry c);
  cv_p2p : p2p_valid (p2p c);
  cv_hook : text_ok (completion_hook c)
}.

Lemma text_ok_spec o : text_ok o ↔ is_some_and blank o = false.
Proof.
  unfold text_ok. destruct o as [s|]; simpl; [|done]. split; [auto|]. by intros H t [= <-].
Qed.

Lemma if_err {E} (b : bool) (e : E) (r : result unit E) :
  (if b then Err e else r) = Ok tt ↔ b = false ∧ r = Ok tt.
Proof. destruct b; naive_solver. Qed.

Lemma bind_ok_unit {E} (m r : result unit E) :
  result_bind m (λ _, r) = Ok tt ↔ m = Ok tt ∧ r = Ok tt.
Proof. destruct m as [[]|]; simpl; naive_solver. Qed.

Lemma validate_retry_config_ok r : validate_retry_config r = Ok tt ↔ retry_valid r.
Proof.
  unfold validate_retry_config. rewrite !if_err, andb_false_iff.
  split.
  - intros (H1 & H2 & H3 & _). bool_hyps. split; [|lia|done].
    intros Hm. destruct H1; bool_hyps; [lia|done].
  - intros [H1 H2 H3]. split_and!; [|apply Z.ltb_ge; lia|done|done].
    destruct (0 <? max_retries r) eqn:E; [|by left]. bool_hyps. right. by apply Z.eqb_neq, H1.
Qed.

Lemma validate_index_providers_ok l : validate_index_providers l = Ok tt ↔ Forall provider_valid l.
Proof.
  induction l as [|p l IH]; cbn [validate_index_providers].
  - by split.
  - rewrite !if_err, IH, Forall_cons, orb_false_iff, !Z.eqb_neq.
    split; [|by intros [[] ?]]. intros (? & ? & [? ?] & ?). by split; [split|].
Qed.

Lemma validate_p2p_config_ok p : validate_p2p_config p = Ok tt ↔ p2p_valid p.
Proof.
  unfold validate_p2p_config.
  rewrite !if_err, bind_ok_unit, if_err, validate_index_providers_ok, !orb_false_iff,
    !Z.eqb_neq, <- text_ok_spec. split.
  - intros (? & ? & ? & [? ?] & ? & ((((? & ?) & ?) & ?) & ?) & _). split; try done.
    by repeat constructor.
  - intros [? ? ? ? ? ? Hl]. cbv zeta in Hl. rewrite !Forall_cons in Hl. tauto.
Qed.

(** Validation accepts exactly the valid configurations: every bound the
    rest of the program relies on is checked, and nothing else is. *)
Theorem validate_spec c : validate c = Ok tt ↔ config_valid c.
Proof.
  unfold validate.
  rewrite !if_err, !bind_ok_unit, if_err, validate_retry_config_ok, validate_p2p_config_ok,
    orb_false_iff, <- text_ok_spec. unfold is_empty.
  rewrite String.eqb_neq, !Z.eqb_neq, Z.ltb_ge. split.
  - intros (? & ? & ? & ? & ? & ? & ? & _). by split.
  - by intros [].
Qed.

Example Config_default_valid : validate Config_default = Ok tt.
Proof. reflexivity. Qed.

Example env_ex :
  let env k := if String.eqb k "PARADOWN_WORKERS" then Some " 8 " else
               if String.eqb k "PARADOWN_HEADERS" then Some "A: b" else None in
  let '(r, c) := apply_env_overrides env Config_default in
  r = Ok tt ∧ segments_per_task c = 8 ∧ headers (http_request (http c)) = [mk_header "A" "b"].
Proof. split_and!; reflexivity. Qed.
