(* ===== verification/Task.v ===== *)
(** * Tasks and their workers ([src/src/job/mod.rs], [src/src/worker/mod.rs])

    The state of a download task: what is known of its file and sources, the
    manifest and the progress it is restored to, and its workers.  The
    operations here are the ones that only touch the task; those that also
    persist it or talk to the manager are in [Job]. *)

From S2P Require Import Prelude Text Ranges Status Effect Source Piece Files Checksum Manifest Planner Payload Torrent Config.

(** ** Data *)

(** [src/src/events.rs:5-23], [Event]. *)
Inductive Event :=
  | EvPending (id : Z)
  | EvPreparing (id : Z)
  | EvStart (id : Z)
  | EvPause (id : Z)
  | EvProgress (id downloaded total : Z)
  | EvComplete (id : Z)
  | EvError (id : Z) (e : Error)
  | EvTorrentDiagnostic (id : Z) (diagnostic : TorrentDiagnosticEvent)
  | EvCancel (id : Z)
  | EvDelete (id : Z).

(** The counters of [src/src/stats.rs:29-39], [Stats]. The speeds are in Speed.v. *)
Record Stats := mk_stats {
  successful_downloads : Z;
  failed_downloads : Z;
  retry_count : Z;
  resume_attempts : Z;
  resume_hits : Z
}.
#[export] Instance Stats_eta : Settable Stats := λ s,
  mk_stats (successful_downloads s) (failed_downloads s) (retry_count s) (resume_attempts s)
    (resume_hits s).
Definition Stats_new : Stats := mk_stats 0 0 0 0 0.

(** [src/src/stats.rs:63-65], [Stats::record_success]. *)
Definition record_success (s : Stats) : Stats := s <| successful_downloads ::= (λ n, wrap64 (n + 1)) |>.
(** [src/src/stats.rs:67-69], [Stats::record_failure]. *)
Definition record_failure (s : Stats) : Stats := s <| failed_downloads ::= (λ n, wrap64 (n + 1)) |>.
(** [src/src/stats.rs:71-73], [Stats::record_retry]. *)
Definition record_retry (s : Stats) : Stats := s <| retry_count ::= (λ n, wrap64 (n + 1)) |>.
(** [src/src/stats.rs:75-77], [Stats::record_resume_attempt]. *)
Definition record_resume_attempt (s : Stats) : Stats :=
  s <| resume_attempts ::= (λ n, wrap64 (n + 1)) |>.
(** [src/src/stats.rs:79-81], [Stats::record_resume_hit]. *)
Definition record_resume_hit (s : Stats) : Stats := s <| resume_hits ::= (λ n, wrap64 (n + 1)) |>.

(** [src/src/worker/mod.rs:25-46], [Worker]. The worker's back pointer to its task, its
    configuration, client and statistics are the task's. *)
Record Worker := mk_worker {
  w_id : Z;
  w_spec : DownloadSpec;
  w_source : SourceDescriptor;
  w_lane : ExecutionLaneAssignment;
  w_length_known : bool;
  w_start : Z;
  w_end : Z;
  w_downloaded_size : Z;
  w_total_size : Z;
  w_file_path : string;
  w_paused : bool;
  w_canceled : bool;
  w_deleted : bool;
  w_updated_at : option DateTime;
  w_status : Status;
  w_is_running : bool
}.
#[export] Instance Worker_eta : Settable Worker := λ w,
  mk_worker (w_id w) (w_spec w) (w_source w) (w_lane w) (w_length_known w) (w_start w) (w_end w)
    (w_downloaded_size w) (w_total_size w) (w_file_path w) (w_paused w) (w_canceled w)
    (w_deleted w) (w_updated_at w) (w_status w) (w_is_running w).
#[export] Instance lane_eta : Settable ExecutionLaneAssignment := λ l,
  mk_lane (lane_id l) (lane_source_id l) (lane_length_known l) (lane_piece_start l)
    (lane_piece_end l) (lane_block_start l) (lane_block_end l) (lane_start l) (lane_end l).

(** [src/src/job/mod.rs:114-117], [SourceRuntimeState]. *)
Record SourceRuntimeState := mk_runtime {
  consecutive_failures : Z;
  successful_transfers : Z
}.
Definition SourceRuntimeState_default : SourceRuntimeState := mk_runtime 0 0.

(** [src/src/job/mod.rs:43-81], [Task]. A permit is held or not; the channels, the client and
    the locks have no counterpart. *)
Record Task := mk_task {
  t_id : Z;
  t_spec : DownloadSpec;
  t_status : Status;
  t_file_name : option string;
  t_file_path : option string;
  t_identity : HttpResourceIdentity;
  t_http_request : HttpRequestOptions;
  t_sources : SourceSet;
  t_source_runtime : gmap string SourceRuntimeState;
  t_checksums : list Checksum;
  t_manifest : option SessionManifest;
  t_piece_states : list PieceState;
  t_block_states : list BlockState;
  t_payload_store : option FileMap;
  t_torrent_session : option TorrentEngineSession;
  t_torrent_resume : option TorrentResumeSnapshot;
  t_torrent_transfer : option TorrentTransferStats;
  t_torrent_diagnostics : list TorrentDiagnosticEvent;
  t_created_at : option DateTime;
  t_updated_at : option DateTime;
  t_workers : list Worker;
  t_total_size : Z;
  t_downloaded_size : Z;
  t_range_requests_supported : bool;
  t_protocol_probe_completed : bool;
  t_total_size_known : bool;
  t_stats : Stats;
  t_permit : bool
}.
#[export] Instance Task_eta : Settable Task := λ t,
  mk_task (t_id t) (t_spec t) (t_status t) (t_file_name t) (t_file_path t) (t_identity t)
    (t_http_request t) (t_sources t) (t_source_runtime t) (t_checksums t) (t_manifest t)
    (t_piece_states t) (t_block_states t) (t_payload_store t) (t_torrent_session t)
    (t_torrent_resume t) (t_torrent_transfer t) (t_torrent_diagnostics t) (t_created_at t)
    (t_updated_at t) (t_workers t) (t_total_size t) (t_downloaded_size t)
    (t_range_requests_supported t) (t_protocol_probe_completed t) (t_total_size_known t)
    (t_stats t) (t_permit t).

(** ** Workers *)

(** [src/src/worker/mod.rs:50-99], [Worker::new]. *)
Definition Worker_new (id : Z) (spec : DownloadSpec) (source : SourceDescriptor)
    (lane : ExecutionLaneAssignment) (downloaded_size : option Z) (file_path : string)
    (status : option Status) (updated_at : option DateTime) (now : DateTime) : Worker :=
  let '(paused, canceled, deleted) :=
    match status with
    | Some Paused => (true, false, false)
    | Some Canceled => (false, true, false)
    | Some Deleted => (false, false, true)
    | _ => (false, false, false)
    end in
  {| w_id := id;
     w_spec := spec;
     w_source := source;
     w_lane := lane;
     w_length_known := lane_length_known lane;
     w_start := lane_start lane;
     w_end := lane_end lane;
     w_downloaded_size := unwrap_or 0 downloaded_size;
     w_total_size := sat_add (sat_sub (lane_end lane) (lane_start lane)) 1;
     w_file_path := file_path;
     w_paused := paused;
     w_canceled := canceled;
     w_deleted := deleted;
     w_updated_at := Some (unwrap_or now updated_at);
     w_status := unwrap_or Pending status;
     w_is_running := false |}.

(** [src/src/worker/mod.rs:120-127], [Worker::switch_source]. *)
Definition switch_source (source : SourceDescriptor) (w : Worker) : Worker :=
  w <| w_source := source |> <| w_lane ::= (λ l, l <| lane_source_id := src_id source |>) |>.

(** [src/src/worker/mod.rs:135-147], [Worker::should_stop_gracefully]. *)
Definition should_stop_gracefully (w : Worker) : bool := (w_deleted w || w_canceled w)%bool.

(** A status a worker does not leave again. *)
Definition is_final (s : Status) : bool :=
  match s with Canceled | Failed _ | Completed | Deleted => true | _ => false end.

(** [src/src/worker/mod.rs:162-189], [Worker::pause]. The new state and the events sent to the
    task. *)
Definition worker_pause (w : Worker) : Worker * list Event :=
  let w := w <| w_paused := true |> in
  if is_final (w_status w) then (w, []) else
  match w_status w with
  | Paused => (w, [])
  | _ => (w <| w_status := Paused |>, [EvPause (w_id w)])
  end.

(** [src/src/worker/mod.rs:191-222], [Worker::resume]. Whether the download loop has to be
    started again. *)
Definition worker_resume (w : Worker) : Worker * bool :=
  if is_final (w_status w) then (w, false) else
  let w := w <| w_paused := false |> in
  if w_is_running w then (w <| w_status := Running |>, false)
  else (w <| w_status := Running |>, true).

(** [src/src/worker/mod.rs:224-230], [Worker::cancel]. *)
Definition worker_cancel (w : Worker) : Worker * list Event :=
  (w <| w_canceled := true |> <| w_status := Canceled |>, [EvCancel (w_id w)]).

(** [src/src/worker/mod.rs:232-238], [Worker::delete]. *)
Definition worker_delete (w : Worker) : Worker * list Event :=
  (w <| w_deleted := true |> <| w_status := Deleted |>, [EvDelete (w_id w)]).

(** [src/src/worker/transfer.rs:44-49], [Worker::expected_length]. *)
Definition expected_length (w : Worker) : Z :=
  if negb (w_length_known w) then 0 else sat_add (sat_sub (w_end w) (w_start w)) 1.

(** [src/src/worker/transfer.rs:77-94], [Worker::validate_downloaded_length]. *)
Definition validate_downloaded_length (w : Worker) (actual_length expected : Z) : res unit :=
  if negb (w_length_known w) then Ok tt
  else if negb (actual_length =? expected) then
    Err (EOther ("Worker " +:+ show_u64 (w_id w) +:+ " downloaded length mismatch: expected " +:+
           show_u64 expected +:+ ", got " +:+ show_u64 actual_length))
  else Ok tt.

(** ** Construction and naming *)

(** [src/src/job/mod.rs:121-197], [Task::new]. *)
Definition Task_new (id : Z) (spec : DownloadSpec) (file_name file_path : option string)
    (resource_identity : option HttpResourceIdentity) (http_request : HttpRequestOptions)
    (sources : option SourceSet) (piece_states : option (list PieceState))
    (block_states : option (list BlockState)) (status : option Status)
    (downloaded_size total_size : option Z) (torrent_resume : option TorrentResumeSnapshot)
    (checksums : list Checksum) (created_at updated_at : option DateTime) (now : DateTime)
    : Task := {|
  t_id := id;
  t_spec := spec;
  t_status := unwrap_or Pending status;
  t_file_name := file_name;
  t_file_path := file_path;
  t_identity := unwrap_or HttpResourceIdentity_default resource_identity;
  t_http_request := http_request;
  t_sources := match sources with
               | Some sources => sources
               | None => sources_for_spec spec (Some http_request)
               end;
  t_source_runtime := ∅;
  t_checksums := checksums;
  t_manifest := None;
  t_piece_states := unwrap_or [] piece_states;
  t_block_states := unwrap_or [] block_states;
  t_payload_store := None;
  t_torrent_session := None;
  t_torrent_resume := torrent_resume;
  t_torrent_transfer := None;
  t_torrent_diagnostics := [];
  t_created_at := Some (unwrap_or now created_at);
  t_updated_at := Some (unwrap_or now updated_at);
  t_workers := [];
  t_total_size := unwrap_or 0 total_size;
  t_downloaded_size := unwrap_or 0 downloaded_size;
  t_range_requests_supported := false;
  t_protocol_probe_completed := false;
  t_total_size_known := is_some total_size;
  t_stats := Stats_new;
  t_permit := false
|}.

(** [src/src/job/mod.rs:317-329], [Task::update_protocol_probe]. *)
Definition update_protocol_probe (total_size : option Z) (supports_range_requests : bool)
    (t : Task) : Task :=
  t <| t_total_size := unwrap_or 0 total_size |>
    <| t_total_size_known := is_some total_size |>
    <| t_range_requests_supported := supports_range_requests |>
    <| t_protocol_probe_completed := true |>.

(** [src/src/job/mod.rs:335-339], [Task::total_size_option]. *)
Definition total_size_option (t : Task) : option Z :=
  if t_total_size_known t then Some (t_total_size t) else None.

(** [src/src/job/mod.rs:341-344], [Task::finalize_stream_total_size]. *)
Definition finalize_stream_total_size (total_size : Z) (t : Task) : Task :=
  t <| t_total_size := total_size |> <| t_total_size_known := true |>.

(** [OnceCell::set], whose error the code drops. *)
Definition once_set {A} (v : A) (cell : option A) : option A := opt_or cell (Some v).

(** [u32::to_string]. *)
Definition default_file_name (id : Z) : string := "download_" +:+ show_u64 id +:+ ".tmp".

Section naming.
Context `{UrlLib}.

(** [src/src/job/mod.rs:364-381], [Task::initialize_file_name]. *)
Definition initialize_file_name (suggested_file_name : option string) (t : Task)
    : string * Task :=
  match t_file_name t with
  | Some file_name => (file_name, t)
  | None =>
      let file_name :=
        unwrap_or (default_file_name (t_id t))
          (opt_or suggested_file_name
             (opt_or (url ← resolved_url (t_identity t); file_name_hint_from_locator url)
                (file_name_hint (t_spec t)))) in
      (file_name, t <| t_file_name ::= once_set file_name |>)
  end.

(** [src/src/job/mod.rs:346-362], [Task::resolve_or_init_file_name]. *)
Definition resolve_or_init_file_name (t : Task) : string * Task :=
  match t_file_name t with
  | Some name => (name, t)
  | None =>
      let file_name :=
        unwrap_or (default_file_name (t_id t))
          (opt_or (url ← resolved_url (t_identity t); file_name_hint_from_locator url)
             (file_name_hint (t_spec t))) in
      (file_name, t <| t_file_name ::= once_set file_name |>)
  end.

(** [src/src/job/mod.rs:383-406], [Task::get_or_init_file_path]. *)
Definition get_or_init_file_path (dir : string) (t : Task) : res string * Task :=
  match t_file_path t with
  | Some existing_path => (Ok existing_path, t)
  | None =>
      let '(file_name, t) := resolve_or_init_file_name t in
      let t := t <| t_file_path ::= once_set (path_join dir file_name) |> in
      (ok_or (t_file_path t) (EOther "file_path not set"), t)
  end.
End naming.

(** ** Manifests and restored progress *)

(** [src/src/job/mod.rs:773-779], [piece_state_layout_matches]. *)
Definition piece_state_layout_matches (expected restored : list PieceState) : bool :=
  (bool_decide (length expected = length restored) &&
   forallb (λ '(e, r), ps_index e =? ps_index r) (zip expected restored))%bool.

(** [src/src/job/mod.rs:781-790], [block_state_layout_matches]. *)
Definition block_state_layout_matches (expected restored : list BlockState) : bool :=
  (bool_decide (length expected = length restored) &&
   forallb (λ '(e, r), (bs_piece e =? bs_piece r) && (bs_index e =? bs_index r))
     (zip expected restored))%bool.

(** [for (next, restored) in ... { next.completed = restored.completed; }] *)
Definition restore_pieces : list PieceState → list PieceState → list PieceState :=
  zip_update (λ next restored, mk_piece_state (ps_index next) (ps_completed restored)).
Definition restore_blocks : list BlockState → list BlockState → list BlockState :=
  zip_update (λ next restored,
    mk_block_state (bs_piece next) (bs_index next) (bs_completed restored)).

(** [src/src/job/mod.rs:408-436], [Task::install_manifest]. *)
Definition install_manifest (manifest : SessionManifest) (t : Task) : Task :=
  let existing_piece_states := t_piece_states t in
  let existing_block_states := t_block_states t in
  let piece_states := initialize_piece_states (m_pieces manifest) in
  let block_states := initialize_block_states (m_blocks manifest) in
  let piece_states :=
    if piece_state_layout_matches piece_states existing_piece_states
    then restore_pieces piece_states existing_piece_states else piece_states in
  let '(piece_states, block_states) :=
    if block_state_layout_matches block_states existing_block_states
    then
      let block_states := restore_blocks block_states existing_block_states in
      (derive_piece_states_from_blocks (m_pieces manifest) (m_blocks manifest) block_states,
       block_states)
    else (piece_states, block_states) in
  t <| t_manifest := Some manifest |>
    <| t_sources := m_sources manifest |>
    <| t_piece_states := piece_states |>
    <| t_block_states := block_states |>
    <| t_payload_store := Some (from_manifest manifest) |>.

(** [src/src/job/mod.rs:646-651], [Task::reset_piece_progress]. *)
Definition reset_piece_progress (t : Task) : Task :=
  t <| t_piece_states ::= fmap (λ p, mk_piece_state (ps_index p) false) |>.
(** [src/src/job/mod.rs:653-658], [Task::reset_block_progress]. *)
Definition reset_block_progress (t : Task) : Task :=
  t <| t_block_states ::= fmap (λ b, mk_block_state (bs_piece b) (bs_index b) false) |>.

(** [src/src/job/mod.rs:686-709], [Task::sync_piece_progress_from_workers (for loop)]. *)
Fixpoint sync_workers (blocks : list PieceBlock) (workers : list Worker)
    (block_states : list BlockState) (downloaded : Z) : list BlockState * Z :=
  match workers with
  | [] => (block_states, downloaded)
  | worker :: workers =>
      let worker_downloaded := Z.min (w_downloaded_size worker) (expected_length worker) in
      let downloaded := sat_add downloaded worker_downloaded in
      if worker_downloaded =? 0 then sync_workers blocks workers block_states downloaded else
      let covered_end := sat_sub (sat_add (w_start worker) worker_downloaded) 1 in
      sync_workers blocks workers
        (mark_completed_blocks block_states blocks (w_start worker) covered_end) downloaded
  end.

(** [src/src/job/mod.rs:668-724], [Task::sync_piece_progress_from_workers]. *)
Definition sync_piece_progress_from_workers : eff Task Z := λ t,
  match t_manifest t with
  | None => (Err (EOther ("Task " +:+ show_u64 (t_id t) +:+ " manifest not initialized")), t)
  | Some manifest =>
      let fresh_states := initialize_block_states (m_blocks manifest) in
      let block_states :=
        if block_state_layout_matches fresh_states (t_block_states t)
        then t_block_states t else fresh_states in
      let '(block_states, downloaded) :=
        sync_workers (m_blocks manifest) (t_workers t) block_states 0 in
      let piece_states :=
        derive_piece_states_from_blocks (m_pieces manifest) (m_blocks manifest) block_states in
      if negb (m_total_size_known manifest) then
        (Ok downloaded, t <| t_downloaded_size := downloaded |>)
      else
        let downloaded := Z.min downloaded (m_total_size manifest) in
        (Ok downloaded,
         t <| t_block_states := block_states |> <| t_piece_states := piece_states |>
           <| t_downloaded_size := downloaded |>)
  end.

(** [src/src/job/mod.rs:726-748], [Task::mark_all_pieces_completed]. *)
Definition mark_all_pieces_completed (t : Task) : Task :=
  match t_manifest t with
  | None => t
  | Some manifest =>
      let piece_states :=
        if negb (bool_decide (length (t_piece_states t) = length (m_pieces manifest)))
        then initialize_piece_states (m_pieces manifest) else t_piece_states t in
      let block_states :=
        if negb (bool_decide (length (t_block_states t) = length (m_blocks manifest)))
        then initialize_block_states (m_blocks manifest) else t_block_states t in
      let t :=
        t <| t_piece_states := (λ p, mk_piece_state (ps_index p) true) <$> piece_states |>
          <| t_block_states :=
               (λ b, mk_block_state (bs_piece b) (bs_index b) true) <$> block_states |> in
      if m_total_size_known manifest then t <| t_downloaded_size := m_total_size manifest |> else t
  end.

(** ** Torrent sessions *)

Definition MAX_TORRENT_DIAGNOSTICS : nat := 32.

#[export] Instance engine_session_eta : Settable TorrentEngineSession := λ s,
  mk_engine_session (ts_handle s) (ts_state s) (ts_metadata s) (ts_manifest s) (ts_resume_data s).
#[export] Instance resume_eta : Settable TorrentResumeSnapshot := λ s,
  mk_resume (tr_handle s) (tr_state s) (tr_metadata s) (tr_resume_data s).

(** [src/src/job/mod.rs:438-443], [Task::set_torrent_session]. *)
Definition set_torrent_session (session : TorrentEngineSession) (t : Task) : Task :=
  t <| t_torrent_session := Some session |>
    <| t_torrent_resume := Some (resume_from_session session) |>.

(** [src/src/job/mod.rs:470-478], [Task::record_torrent_metadata]. *)
Definition record_torrent_metadata (metadata : TorrentMetadata) (t : Task) : Task :=
  t <| t_torrent_session ::= fmap (λ s, s <| ts_metadata := Some metadata |>) |>
    <| t_torrent_resume ::= fmap (λ s, s <| tr_metadata := Some metadata |>) |>.

(** [src/src/job/mod.rs:480-488], [Task::record_torrent_state]. *)
Definition record_torrent_state (state : TorrentEngineState) (t : Task) : Task :=
  t <| t_torrent_session ::= fmap (λ s, s <| ts_state := state |>) |>
    <| t_torrent_resume ::= fmap (λ s, s <| tr_state := state |>) |>.

(** [src/src/job/mod.rs:490-498], [Task::record_torrent_resume_data]. *)
Definition record_torrent_resume_data (data : bytes) (t : Task) : Task :=
  t <| t_torrent_session ::= fmap (λ s, s <| ts_resume_data := Some data |>) |>
    <| t_torrent_resume ::= fmap (λ s, s <| tr_resume_data := Some data |>) |>.

(** [src/src/job/mod.rs:500-502], [Task::record_torrent_transfer]. *)
Definition record_torrent_transfer (transfer : TorrentTransferStats) (t : Task) : Task :=
  t <| t_torrent_transfer := Some transfer |>.

(** [src/src/job/mod.rs:751-758], [should_replace_torrent_diagnostic]. *)
Definition should_replace_torrent_diagnostic (d : TorrentDiagnosticEvent) : bool :=
  (bool_decide (td_severity d = SevInfo) && is_some (td_peers d) &&
   match td_scope d with DDht | DTracker => true | _ => false end)%bool.

(** [src/src/job/mod.rs:760-771], [same_torrent_diagnostic_bucket]. *)
Definition same_torrent_diagnostic_bucket (existing d : TorrentDiagnosticEvent) : bool :=
  (bool_decide (td_scope existing = td_scope d) &&
   bool_decide (td_severity existing = td_severity d) &&
   match td_scope d with
   | DTracker => bool_decide (td_url existing = td_url d)
   | DDht => true
   | _ => false
   end)%bool.

(** [src/src/job/mod.rs:504-513], [Task::record_torrent_diagnostic]. *)
Definition record_torrent_diagnostic (d : TorrentDiagnosticEvent) (t : Task) : Task :=
  t <| t_torrent_diagnostics ::= λ diagnostics,
    let diagnostics :=
      if should_replace_torrent_diagnostic d
      then filterb (λ existing, negb (same_torrent_diagnostic_bucket existing d)) diagnostics
      else diagnostics in
    let diagnostics :=
      if bool_decide (length diagnostics = MAX_TORRENT_DIAGNOSTICS)
      then tail diagnostics else diagnostics in
    diagnostics ++ [d] |>.

(** [src/src/job/mod.rs:515-521], [Task::clear_torrent_session]. *)
Definition clear_torrent_session (t : Task) : Task :=
  t <| t_torrent_session := None |> <| t_torrent_resume := None |>
    <| t_torrent_transfer := None |> <| t_torrent_diagnostics := [] |>.

(** [src/src/job/mod.rs:531-537], [Task::clear_manifest_state]. *)
Definition clear_manifest_state (t : Task) : Task :=
  clear_torrent_session
    (t <| t_manifest := None |> <| t_piece_states := [] |> <| t_block_states := [] |>
       <| t_payload_store := None |>).

(** ** Ranking the sources *)

Definition runtime_of (t : Task) (id : string) : SourceRuntimeState :=
  unwrap_or SourceRuntimeState_default (t_source_runtime t !! id).

(** [src/src/job/mod.rs:571-576], [Task::record_source_success]. *)
Definition record_source_success (source_id : string) (t : Task) : Task :=
  let state := runtime_of t source_id in
  t <| t_source_runtime ::= <[source_id :=
         mk_runtime 0 (sat_add32 (successful_transfers state) 1)]> |>.

(** [src/src/job/mod.rs:578-582], [Task::record_source_failure]. *)
Definition record_source_failure (source_id : string) (t : Task) : Task :=
  let state := runtime_of t source_id in
  t <| t_source_runtime ::= <[source_id :=
         mk_runtime (sat_add32 (consecutive_failures state) 1) (successful_transfers state)]> |>.

(** [src/src/job/mod.rs:594-612], [Task::ranked_transfer_sources (comparison)]. [false] when the
    comparison of the code answers [Greater]. *)
Definition ranked_le (t : Task) (primary_id : option string) (l r : SourceDescriptor) : bool :=
  let left_state := runtime_of t (src_id l) in
  let right_state := runtime_of t (src_id r) in
  let left_is_primary := bool_decide (primary_id = Some (src_id l)) in
  let right_is_primary := bool_decide (primary_id = Some (src_id r)) in
  match consecutive_failures left_state ?= consecutive_failures right_state with
  | Lt => true
  | Gt => false
  | Eq =>
      match successful_transfers right_state ?= successful_transfers left_state with
      | Lt => true
      | Gt => false
      | Eq =>
          match Z.b2z right_is_primary ?= Z.b2z left_is_primary with
          | Lt => true
          | Gt => false
          | Eq => String.leb (src_id l) (src_id r)
          end
      end
  end.

(** [src/src/job/mod.rs:584-615], [Task::ranked_transfer_sources]. *)
Definition ranked_transfer_sources (t : Task) : list SourceDescriptor :=
  let primary_id := src_id <$> primary (t_sources t) in
  sort_by (ranked_le t primary_id) (active_transfer_sources (t_sources t)).

(** [src/src/job/mod.rs:617-623], [Task::preferred_transfer_source_ids]. *)
Definition preferred_transfer_source_ids (t : Task) : list string :=
  src_id <$> ranked_transfer_sources t.

(** [src/src/job/mod.rs:625-644], [Task::select_retry_source]. *)
Definition select_retry_source (current_source_id : string) (t : Task) : option SourceDescriptor :=
  let ranked := ranked_transfer_sources t in
  if consecutive_failures (runtime_of t current_source_id) =? 0 then None
  else find_first (λ s, negb (String.eqb (src_id s) current_source_id)) ranked.

(** ** Properties of the ranking *)

Lemma ranked_le_total t p l r : ranked_le t p l r = false → ranked_le t p r l = true.
Proof.
  unfold ranked_le. set (a := runtime_of t (src_id l)). set (b := runtime_of t (src_id r)).
  generalize (bool_decide (p = Some (src_id l))) (bool_decide (p = Some (src_id r))). intros x y.
  rewrite (Z.compare_antisym (consecutive_failures a) (consecutive_failures b)),
    (Z.compare_antisym (successful_transfers b) (successful_transfers a)),
    (Z.compare_antisym (Z.b2z y) (Z.b2z x)).
  destruct (consecutive_failures a ?= consecutive_failures b); simpl; try done.
  destruct (successful_transfers b ?= successful_transfers a); simpl; try done.
  destruct (Z.b2z y ?= Z.b2z x); simpl; try done.
  destruct (String.leb_total (src_id l) (src_id r)); congruence.
Qed.

(** The order the comparison stands for. *)
Lemma ranked_le_lex t p l r :
  let a := runtime_of t (src_id l) in let b := runtime_of t (src_id r) in
  let x := Z.b2z (bool_decide (p = Some (src_id l))) in
  let y := Z.b2z (bool_decide (p = Some (src_id r))) in
  ranked_le t p l r = true ↔
  consecutive_failures a < consecutive_failures b ∨
  (consecutive_failures a = consecutive_failures b ∧
   (successful_transfers b < successful_transfers a ∨
    (successful_transfers b = successful_transfers a ∧
     (y < x ∨ (y = x ∧ String.leb (src_id l) (src_id r) = true))))).
Proof.
  intros a b x y. unfold ranked_le. fold a b x y.
  destruct (Z.compare_spec (consecutive_failures a) (consecutive_failures b)); [|intuition lia..].
  destruct (Z.compare_spec (successful_transfers b) (successful_transfers a)); [|intuition lia..].
  destruct (Z.compare_spec y x); [|intuition lia..]. intuition lia.
Qed.

Lemma ranked_le_trans t p a b c :
  ranked_le t p a b = true → ranked_le t p b c = true → ranked_le t p a c = true.
Proof.
  rewrite !ranked_le_lex. intros H1 H2.
  pose proof (leb_string_trans (src_id a) (src_id b) (src_id c)). intuition lia.
Qed.

Lemma ranked_sorted t :
  StronglySorted (λ a b, ranked_le t (src_id <$> primary (t_sources t)) a b = true)
    (ranked_transfer_sources t).
Proof. apply sort_by_sorted; [apply ranked_le_total|apply ranked_le_trans]. Qed.

Lemma ranked_elem t s :
  s ∈ ranked_transfer_sources t ↔ s ∈ active_transfer_sources (t_sources t).
Proof. apply elem_of_sort_by. Qed.

Lemma find_first_sorted {A} (R : A → A → Prop) (p : A → bool) l x :
  StronglySorted R l → find_first p l = Some x →
  ∀ y, y ∈ l → p y = true → y = x ∨ R x y.
Proof.
  induction 1 as [|z l Hl IH Hz]; simpl; [done|]. destruct (p z) eqn:E.
  - intros [= ->] y [->|Hy]%elem_of_cons _; [by left|]. right. rewrite Forall_forall in Hz. by apply Hz.
  - intros Hf y [->|Hy]%elem_of_cons Hp; [congruence|]. by apply IH.
Qed.

(** A retry moves to another source exactly when the current one has failed
    since its last success and there is another transfer source; the source it
    moves to is then the best ranked of the others: fewest consecutive
    failures, then most transfers, then the primary source, then the least id. *)
Theorem select_retry_source_spec t current :
  match select_retry_source current t with
  | Some s =>
      consecutive_failures (runtime_of t current) ≠ 0 ∧ src_id s ≠ current ∧
      s ∈ active_transfer_sources (t_sources t) ∧
      ∀ s', s' ∈ active_transfer_sources (t_sources t) → src_id s' ≠ current →
        s' = s ∨ ranked_le t (src_id <$> primary (t_sources t)) s s' = true
  | None =>
      consecutive_failures (runtime_of t current) = 0 ∨
      ∀ s', s' ∈ active_transfer_sources (t_sources t) → src_id s' = current
  end.
Proof.
  unfold select_retry_source. destruct (_ =? 0) eqn:E; bool_hyps; [by left|].
  destruct (find_first _ _) as [s|] eqn:Ef.
  - destruct (find_first_Some _ _ _ Ef) as [Hin Hp]. bool_hyps. rewrite ranked_elem in Hin.
    split_and!; [done|done|done|]. intros s' Hs' Hne.
    apply (find_first_sorted _ _ _ _ (ranked_sorted t) Ef); [by apply ranked_elem|].
    by apply negb_true_iff, String.eqb_neq.
  - right. intros s' Hs'. rewrite find_first_None in Ef. apply ranked_elem in Hs'.
    specialize (Ef _ Hs'). by bool_hyps.
Qed.

(** A success puts a source before those that failed; a failure moves it back. *)
Lemma record_failure_demotes t id :
  0 ≤ consecutive_failures (runtime_of t id) →
  0 < consecutive_failures (runtime_of (record_source_failure id t) id) ∧
  consecutive_failures (runtime_of (record_source_success id t) id) = 0.
Proof.
  intros H. unfold record_source_failure, record_source_success, runtime_of in *. simpl.
  rewrite !lookup_insert_eq. simpl. split; [ilia|done].
Qed.

(** ** Properties of the progress *)

(** What a worker has of its range. *)
Definition worker_progress (w : Worker) : Z := Z.min (w_downloaded_size w) (expected_length w).
Definition covers (w : Worker) (b : PieceBlock) : bool :=
  (negb (worker_progress w =? 0) &&
   covered (span_of_block b) (w_start w) (sat_sub (sat_add (w_start w) (worker_progress w)) 1))%bool.

Lemma mark_completed_blocks_lookup states blocks cs ce k st b :
  states !! k = Some st → blocks !! k = Some b →
  mark_completed_blocks states blocks cs ce !! k =
    Some (mk_block_state (bs_piece st) (bs_index st)
            (bs_completed st || covered (span_of_block b) cs ce)).
Proof.
  intros Hs Hb. unfold mark_completed_blocks. rewrite lookup_zip_update, Hs, Hb. f_equal.
  destruct st as [p i c], (covered _ _ _); simpl; by destruct c.
Qed.

Lemma sync_workers_spec blocks workers states acc :
  length states = length blocks → 0 ≤ acc ≤ u64_max → Forall (λ w, 0 ≤ worker_progress w) workers →
  let '(states', total) := sync_workers blocks workers states acc in
  total = Z.min (acc + zsum (worker_progress <$> workers)) u64_max ∧
  length states' = length blocks ∧
  ∀ k st b, states !! k = Some st → blocks !! k = Some b →
    states' !! k = Some (mk_block_state (bs_piece st) (bs_index st)
      (bs_completed st || existsb (λ w, covers w b) workers)).
Proof.
  intros Hlen Hacc Hw. revert states acc Hlen Hacc.
  induction Hw as [|w workers Hw Hws IH]; intros states acc Hlen Hacc.
  - simpl. split_and!; [lia|done|]. intros k [p i c] b Hk _. by rewrite orb_false_r.
  - cbn [sync_workers]. fold (worker_progress w). rewrite fmap_cons.
    change (zsum (worker_progress w :: ?l)) with (worker_progress w + zsum l).
    assert (0 ≤ zsum (worker_progress <$> workers)) as Hsum.
    { clear -Hws. induction Hws; csimpl; [done|]. simpl. lia. }
    assert (0 ≤ sat_add acc (worker_progress w) ≤ u64_max) as Hacc' by ilia.
    assert (Z.min (sat_add acc (worker_progress w) + zsum (worker_progress <$> workers)) u64_max =
      Z.min (acc + (worker_progress w + zsum (worker_progress <$> workers))) u64_max) as Hsat by ilia.
    destruct (worker_progress w =? 0) eqn:E0.
    + specialize (IH states _ Hlen Hacc'). destruct (sync_workers _ _ _ _) as [states' total].
      destruct IH as (-> & Hl & Hk). split_and!; [done|done|].
      intros k st b Hs Hb. rewrite (Hk k st b Hs Hb). simpl. unfold covers at 2. by rewrite E0.
    + cbv zeta. set (states1 := mark_completed_blocks _ _ _ _).
      assert (length states1 = length blocks) as Hlen1
        by (unfold states1; by rewrite mark_completed_blocks_length).
      specialize (IH states1 _ Hlen1 Hacc'). destruct (sync_workers _ _ _ _) as [states' total].
      destruct IH as (-> & Hl & Hk). split_and!; [done|done|].
      intros k st b Hs Hb.
      rewrite (Hk k _ b (mark_completed_blocks_lookup _ _ _ _ _ _ _ Hs Hb) Hb).
      simpl. unfold covers at 2. rewrite E0. by rewrite orb_assoc.
Qed.

Lemma block_state_layout_matches_refl l : block_state_layout_matches l l = true.
Proof.
  unfold block_state_layout_matches. rewrite bool_decide_true by done. simpl.
  induction l as [|b l IH]; simpl; [done|]. by rewrite !Z.eqb_refl, IH.
Qed.

Lemma block_state_layout_matches_length a b :
  block_state_layout_matches a b = true → length a = length b.
Proof. unfold block_state_layout_matches. intros H. by bool_hyps. Qed.

(** Whether the [k]-th block is recorded as completed in a layout that matches. *)
Definition was_completed (m : SessionManifest) (t : Task) (k : nat) : bool :=
  (block_state_layout_matches (initialize_block_states (m_blocks m)) (t_block_states t) &&
   from_option bs_completed false (t_block_states t !! k))%bool.

(** Synchronising progress with the workers completes exactly the blocks
    that were completed before or lie in what some worker has downloaded of its
    range, counts the bytes of all workers (at most the payload's), and derives
    the pieces from the blocks: a piece is complete when its blocks are. *)
Theorem sync_progress_spec t m :
  t_manifest t = Some m → m_total_size_known m = true → is_u64 (m_total_size m) →
  Forall (λ w, 0 ≤ worker_progress w) (t_workers t) →
  ∃ t', sync_piece_progress_from_workers t = (Ok (t_downloaded_size t'), t') ∧
    t_downloaded_size t' = Z.min (zsum (worker_progress <$> t_workers t)) (m_total_size m) ∧
    t_piece_states t' =
      derive_piece_states_from_blocks (m_pieces m) (m_blocks m) (t_block_states t') ∧
    length (t_block_states t') = length (m_blocks m) ∧
    ∀ k b, m_blocks m !! k = Some b →
      bs_completed <$> t_block_states t' !! k =
        Some (was_completed m t k || existsb (λ w, covers w b) (t_workers t))%bool.
Proof.
  intros Hm Hk Htot Hw. unfold sync_piece_progress_from_workers. rewrite Hm, Hk. cbn [negb].
  set (fresh := initialize_block_states (m_blocks m)).
  assert (length fresh = length (m_blocks m)) as Hfl by (unfold fresh, initialize_block_states;
    by rewrite length_fmap).
  set (states := if block_state_layout_matches fresh (t_block_states t) then _ else _).
  assert (length states = length (m_blocks m)) as Hsl.
  { unfold states. destruct (block_state_layout_matches _ _) eqn:E; [|done].
    apply block_state_layout_matches_length in E. congruence. }
  pose proof (sync_workers_spec (m_blocks m) (t_workers t) states 0 Hsl ltac:(ilia) Hw) as Hsync.
  destruct (sync_workers _ _ _ _) as [states' total]. destruct Hsync as (-> & Hl & Hlook).
  match goal with |- ∃ t', (_, ?x) = _ ∧ _ => exists x end.
  split; [reflexivity|]. simpl. split_and!; [ilia|done|done|].
  intros k b Hb. destruct (lookup_lt_is_Some_2 states k) as [st Hst].
  { rewrite Hsl. by eapply lookup_lt_Some. }
  rewrite (Hlook k st b Hst Hb). simpl. f_equal. f_equal.
  unfold was_completed. fold fresh. unfold states in Hst.
  destruct (block_state_layout_matches fresh (t_block_states t)).
  - by rewrite Hst.
  - unfold fresh, initialize_block_states in Hst. rewrite list_lookup_fmap, Hb in Hst.
    by simplify_eq/=.
Qed.

Definition example_worker (id start end_ downloaded : Z) : Worker :=
  Worker_new id (SpecHttp "http://h/f") (example_source "a" "http://h/f")
    (mk_lane id "a" true 0 0 0 0 start end_) (Some downloaded) "/f" None None 0.
Definition example_task : Task :=
  (Task_new 1 (SpecHttp "http://h/f") (Some "f") (Some "/f") None HttpRequestOptions_default
     (Some (single_primary (example_source "a" "http://h/f"))) None None None None (Some 10) None []
     None None 0)
    <| t_manifest := Some example_manifest |>
    <| t_workers := [example_worker 0 0 3 4; example_worker 1 4 9 3] |>.

Lemma sync_progress_spec_witness :
  t_manifest example_task = Some example_manifest ∧
  ∃ t', sync_piece_progress_from_workers example_task = (Ok (t_downloaded_size t'), t') ∧
    t_downloaded_size t' = 7.
Proof.
  split; [reflexivity|].
  destruct (sync_progress_spec example_task example_manifest eq_refl eq_refl
    ltac:(cbn; ilia) ltac:(repeat constructor; discriminate)) as (t' & H & Hd & _).
  exists t'. split; [exact H|]. rewrite Hd. reflexivity.
Defined.

Example sync_ex :
  let '(_, t) := sync_piece_progress_from_workers example_task in
  bs_completed <$> t_block_states t = [true; true; true; false; false] ∧
  ps_completed <$> t_piece_states t = [true; false; false].
Proof. split; reflexivity. Qed.

(** Saved block states in the layout of the manifest are restored as they are. *)
Lemma restore_blocks_matches fresh existing :
  block_state_layout_matches fresh existing = true → restore_blocks fresh existing = existing.
Proof.
  unfold block_state_layout_matches, restore_blocks. intros H. bool_hyps.
  revert existing H H0. induction fresh as [|[p i c] fresh IH]; intros [|[p' i' c'] existing];
    simpl; intros Hl Hf; try done. bool_hyps. subst. f_equal. apply IH; [by injection Hl|done].
Qed.

Lemma restore_pieces_matches fresh existing :
  piece_state_layout_matches fresh existing = true → restore_pieces fresh existing = existing.
Proof.
  unfold piece_state_layout_matches, restore_pieces. intros H. bool_hyps.
  revert existing H H0. induction fresh as [|[i c] fresh IH]; intros [|[i' c'] existing];
    simpl; intros Hl Hf; try done. bool_hyps. subst. f_equal. apply IH; [by injection Hl|done].
Qed.

(** Installing a manifest restores the saved progress that fits it: block
    states in the manifest's layout are kept exactly and the pieces derived
    from them; otherwise no block counts as completed, and piece states are
    kept only in the manifest's own layout.  Sources, files and nothing else
    of the task are replaced. *)
Theorem install_manifest_spec m t :
  let t' := install_manifest m t in
  let fresh := initialize_block_states (m_blocks m) in
  t_manifest t' = Some m ∧ t_sources t' = m_sources m ∧
  t_payload_store t' = Some (from_manifest m) ∧
  t_status t' = t_status t ∧ t_downloaded_size t' = t_downloaded_size t ∧
  t_workers t' = t_workers t ∧
  if block_state_layout_matches fresh (t_block_states t) then
    t_block_states t' = t_block_states t ∧
    t_piece_states t' =
      derive_piece_states_from_blocks (m_pieces m) (m_blocks m) (t_block_states t)
  else
    t_block_states t' = fresh ∧ Forall (λ b, bs_completed b = false) (t_block_states t') ∧
    t_piece_states t' =
      (if piece_state_layout_matches (initialize_piece_states (m_pieces m)) (t_piece_states t)
       then t_piece_states t else initialize_piece_states (m_pieces m)).
Proof.
  cbv zeta. unfold install_manifest. cbv zeta.
  destruct (block_state_layout_matches _ _) eqn:E; simpl; split_and!; try done.
  - by apply restore_blocks_matches.
  - by rewrite restore_blocks_matches.
  - unfold initialize_block_states. apply Forall_fmap, Forall_true. done.
  - destruct (piece_state_layout_matches _ _) eqn:Ep; [|done]. by apply restore_pieces_matches.
Qed.

(** The list of diagnostics stays within its bound. *)
Lemma record_torrent_diagnostic_bound d t :
  (length (t_torrent_diagnostics t) ≤ MAX_TORRENT_DIAGNOSTICS)%nat →
  (length (t_torrent_diagnostics (record_torrent_diagnostic d t)) ≤ MAX_TORRENT_DIAGNOSTICS)%nat.
Proof.
  intros H. unfold record_torrent_diagnostic. simpl. set (ds := t_torrent_diagnostics t) in *.
  set (l := if should_replace_torrent_diagnostic d then _ else ds).
  assert (length l ≤ length ds)%nat as Hl.
  { unfold l. destruct (should_replace_torrent_diagnostic d); [|done]. apply List.filter_length_le. }
  clearbody l. unfold MAX_TORRENT_DIAGNOSTICS in *.
  case_bool_decide as Hb; rewrite length_app; simpl; [|lia]. destruct l; simpl in *; lia.
Qed.
