(* ===== verification/Speed.v ===== *)
(** * Download speeds ([src/src/stats.rs])

    The part of a task's statistics that measures speeds: the bytes of each
    worker, and what a snapshot says of them together with the counters of
    [Task.Stats].  The time is given, in nanoseconds. *)

From S2P Require Import Prelude Text Float Status Effect Source Piece Files Checksum Manifest Planner Torrent Config Task.
From Stdlib Require Import Floats.SpecFloat.

(** [src/src/stats.rs:9-13], [WorkerStats]. *)
Record WorkerStats := mk_worker_stats {
  ws_downloaded_bytes : Z;
  ws_last_update : Z;
  ws_current_speed_bps : Z
}.
(** [src/src/stats.rs:16-27], [StatsSnapshot]. *)
Record StatsSnapshot := mk_stats_snapshot {
  ss_total_bytes : Z;
  ss_total_speed_bps : Z;
  ss_average_speed_bps : Z;
  ss_elapsed : f64;
  ss_worker_count : Z;
  ss_successful_downloads : Z;
  ss_failed_downloads : Z;
  ss_retry_count : Z;
  ss_resume_attempts : Z;
  ss_resume_hits : Z
}.
(** [src/src/stats.rs:29-39], [Stats (speeds)]. *)
Record Speeds := mk_speeds {
  sp_started_at : option Z;
  sp_total_bytes : Z;
  sp_workers : gmap Z WorkerStats
}.
(** [src/src/stats.rs:42-54], [Stats::new]. *)
Definition Speeds_new : Speeds := mk_speeds None 0 ∅.

(** [src/src/stats.rs:56-61], [Stats::mark_started]. *)
Definition mark_started (now : Z) (s : Speeds) : Speeds :=
  match sp_started_at s with
  | Some _ => s
  | None => mk_speeds (Some now) (sp_total_bytes s) (sp_workers s)
  end.

(** [Instant::duration_since] and [as_secs_f64().max(0.001)]. *)
Definition seconds_since (then_ now : Z) : f64 := f64_max (as_secs_f64 (Z.max 0 (now - then_))) (f64_lit 1 1000).

(** [src/src/stats.rs:99-106], [Stats::update_worker (closure)]. *)
Definition add_bytes (bytes now : Z) (w : WorkerStats) : WorkerStats :=
  let elapsed := seconds_since (ws_last_update w) now in
  let instant_speed := f64_to_u64 (f64_div (f64_of bytes) elapsed) in
  mk_worker_stats (wrap64 (ws_downloaded_bytes w + bytes)) now
    (f64_to_u64 (f64_add (f64_mul (f64_of (ws_current_speed_bps w)) (f64_lit 8 10))
                         (f64_mul (f64_of instant_speed) (f64_lit 2 10)))).

(** [src/src/stats.rs:83-112], [Stats::update_worker]. *)
Definition update_worker (worker_id bytes now : Z) (s : Speeds) : Speeds :=
  let s := mark_started now s in
  let w := match sp_workers s !! worker_id with
           | Some w => add_bytes bytes now w
           | None => mk_worker_stats bytes now 0
           end in
  mk_speeds (sp_started_at s) (wrap64 (sp_total_bytes s + bytes)) (<[worker_id := w]> (sp_workers s)).

(** [src/src/stats.rs:114-172], [Stats::snapshot]. The log is left out. *)
Definition stats_snapshot (now : Z) (s : Speeds) (counters : Stats) : StatsSnapshot :=
  let total_speed := map_fold (λ _ w sum, wrap64 (sum + ws_current_speed_bps w)) 0 (sp_workers s) in
  let total_bytes := sp_total_bytes s in
  let elapsed :=
    match sp_started_at s with
    | Some t => seconds_since t now
    | None => f64_of 0
    end in
  let average_speed :=
    if f64_lt (f64_of 0) elapsed then f64_to_u64 (f64_div (f64_of total_bytes) elapsed) else 0 in
  {| ss_total_bytes := total_bytes;
     ss_total_speed_bps := total_speed;
     ss_average_speed_bps := average_speed;
     ss_elapsed := elapsed;
     ss_worker_count := Z.of_nat (size (sp_workers s));
     ss_successful_downloads := successful_downloads counters;
     ss_failed_downloads := failed_downloads counters;
     ss_retry_count := retry_count counters;
     ss_resume_attempts := resume_attempts counters;
     ss_resume_hits := resume_hits counters |}.

(** [src/src/stats.rs:174-182], [Stats::debug_summary]. *)
Definition debug_summary (s : Speeds) (counters : Stats) : string :=
  "Stats: total=" +:+ show_u64 (sp_total_bytes s) +:+ "B | success=" +:+
  show_u64 (successful_downloads counters) +:+ " | failed=" +:+ show_u64 (failed_downloads counters) +:+
  " | retries=" +:+ show_u64 (retry_count counters).

(** [src/src/stats.rs:192-206], [format_bytes]. *)
Definition stats_format_bytes (bytes : Z) : string :=
  let KB := f64_of 1024 in
  let MB := f64_mul KB (f64_of 1024) in
  let GB := f64_mul MB (f64_of 1024) in
  let b := f64_of bytes in
  if f64_le GB b then show_f64 2 (f64_div b GB) +:+ " GB"
  else if f64_le MB b then show_f64 2 (f64_div b MB) +:+ " MB"
  else if f64_le KB b then show_f64 2 (f64_div b KB) +:+ " KB"
  else show_u64 bytes +:+ " B".

(** [src/src/stats.rs:209-217], [format_duration]. *)
Definition format_duration (secs : f64) : string :=
  if f64_lt secs (f64_of 60) then show_f64 2 secs +:+ "s"
  else
    let m := f64_floor (f64_div secs (f64_of 60)) in
    let s := f64_rem secs (f64_of 60) in
    show_f64 0 m +:+ "m " +:+ show_f64 1 s +:+ "s".

Example stats_texts : stats_format_bytes 1536 = "1.50 KB" ∧ stats_format_bytes 1023 = "1023 B" ∧
  stats_format_bytes 5368709120 = "5.00 GB" ∧ format_duration (as_secs_f64 90500000000) = "1m 30.5s" ∧
  format_duration (as_secs_f64 2340000000) = "2.34s".
Proof. by vm_compute. Qed.

(** ** What a snapshot counts *)

Record progress_update := mk_update { up_worker : Z; up_bytes : Z; up_now : Z }.
Definition run_updates : list progress_update → Speeds :=
  foldl (λ s u, update_worker (up_worker u) (up_bytes u) (up_now u) s) Speeds_new.
Definition updates_of (worker_id : Z) (l : list progress_update) : list progress_update :=
  filterb (λ u, up_worker u =? worker_id) l.
Definition byte_sum (l : list progress_update) : Z := foldr (λ u n, up_bytes u + n) 0 l.

Lemma byte_sum_app l k : byte_sum (l ++ k) = byte_sum l + byte_sum k.
Proof. induction l as [|u l IH]; [done|]. unfold byte_sum in *. cbn [app foldr]. rewrite IH. lia. Qed.
Lemma byte_sum_snoc l u : byte_sum (l ++ [u]) = byte_sum l + up_bytes u.
Proof. rewrite byte_sum_app. cbn. lia. Qed.
Lemma updates_of_snoc i l u :
  updates_of i (l ++ [u]) = updates_of i l ++ (if up_worker u =? i then [u] else []).
Proof. unfold updates_of, filterb. rewrite List.filter_app. cbn. by destruct (up_worker u =? i). Qed.
Lemma sp_workers_started now s : sp_workers (mark_started now s) = sp_workers s.
Proof. unfold mark_started. by destruct (sp_started_at s). Qed.
Lemma sp_total_started now s : sp_total_bytes (mark_started now s) = sp_total_bytes s.
Proof. unfold mark_started. by destruct (sp_started_at s). Qed.

(** The bytes of the whole and of each worker are the sums of what was reported, modulo 2^64; the
    workers are those that reported, at the time of their last report; and the clock starts with the
    first. *)
Record speeds_count (l : list progress_update) (s : Speeds) : Prop := {
  count_total : sp_total_bytes s = wrap64 (byte_sum l);
  count_started : sp_started_at s = head (up_now <$> l);
  count_worker i : match sp_workers s !! i with
    | Some w => ws_downloaded_bytes w = wrap64 (byte_sum (updates_of i l)) ∧
                Some (ws_last_update w) = last (up_now <$> updates_of i l)
    | None => updates_of i l = []
    end
}.

Lemma run_updates_count l : Forall (λ u, is_u64 (up_bytes u)) l → speeds_count l (run_updates l).
Proof.
  induction l as [|u l IH] using rev_ind; [by intros; split|]. intros [Hl Hu]%Forall_app.
  apply Forall_inv in Hu. destruct (IH Hl) as [Ht Hs Hw]. clear IH.
  unfold run_updates in *. rewrite foldl_app. cbn [foldl]. set (s := foldl _ _ l) in *.
  split; unfold update_worker; cbn [sp_total_bytes sp_started_at sp_workers].
  - rewrite sp_total_started, Ht, byte_sum_snoc. unfold wrap64. by rewrite Zplus_mod_idemp_l.
  - unfold mark_started. rewrite Hs, fmap_app. by destruct l as [|v l].
  - intros i. specialize (Hw i). rewrite sp_workers_started, updates_of_snoc.
    destruct (up_worker u =? i) eqn:Ei.
    + apply Z.eqb_eq in Ei as <-. rewrite lookup_insert_eq, byte_sum_snoc, fmap_app.
      change (up_now <$> [u]) with [up_now u]. rewrite last_snoc.
      destruct (sp_workers s !! up_worker u) as [w|].
      * destruct Hw as [Hw _]. unfold add_bytes. cbn [ws_downloaded_bytes ws_last_update]. rewrite Hw.
        split; [|done]. unfold wrap64. by rewrite Zplus_mod_idemp_l.
      * rewrite Hw. split; [|done]. cbn [ws_downloaded_bytes].
        change (byte_sum [] + up_bytes u) with (0 + up_bytes u). by rewrite Z.add_0_l, wrap64_small.
    + rewrite lookup_insert_ne, app_nil_r by (intros <-; by rewrite Z.eqb_refl in Ei). exact Hw.
Qed.
