(* ===== verification/Mapping.v ===== *)
(** * Requests, stored models and the mapping between them
    ([src/src/request], [src/src/repository/models.rs], [src/src/storage/mapping.rs])

    What is stored of a task, and how a stored task becomes the request it is
    restored from.  The JSON texts are those of [serde_json], a parameter. *)

From S2P Require Import Prelude Text Status Effect Source Piece Files Checksum Manifest Planner Torrent Config Task.

(** ** Requests *)

(** [src/src/request/task.rs:12-29], [TaskRequest]. *)
Record TaskRequest := mk_request {
  rq_id : option Z;
  rq_spec : DownloadSpec;
  rq_file_name : option string;
  rq_file_path : option string;
  rq_resource_identity : option HttpResourceIdentity;
  rq_http_request : option HttpRequestOptions;
  rq_sources : option SourceSet;
  rq_piece_states : option (list PieceState);
  rq_block_states : option (list BlockState);
  rq_checksums : option (list Checksum);
  rq_status : option Status;
  rq_downloaded_size : option Z;
  rq_total_size : option Z;
  rq_torrent_resume : option TorrentResumeSnapshot;
  rq_created_at : option DateTime;
  rq_updated_at : option DateTime
}.
#[export] Instance TaskRequest_eta : Settable TaskRequest := λ r,
  mk_request (rq_id r) (rq_spec r) (rq_file_name r) (rq_file_path r) (rq_resource_identity r)
    (rq_http_request r) (rq_sources r) (rq_piece_states r) (rq_block_states r) (rq_checksums r)
    (rq_status r) (rq_downloaded_size r) (rq_total_size r) (rq_torrent_resume r)
    (rq_created_at r) (rq_updated_at r).

(** [src/src/request/task.rs:32-51], [TaskRequest::builder]. The builder has the fields of the
    request it builds; its setters are record updates. *)
Definition request_builder (spec : DownloadSpec) : TaskRequest :=
  mk_request None spec None None None None None None None (Some []) None None None None None None.

(** [src/src/request/task.rs:53-55], [TaskRequest::from_locator]. *)
Definition request_from_locator `{UrlLib} (locator : string) : res TaskRequest :=
  let? spec := spec_parse locator in Ok (request_builder spec).

(** [src/src/request/segment.rs:4-18], [SegmentRequest]. *)
Record SegmentRequest := mk_segment_request {
  sg_id : option Z;
  sg_task_id : Z;
  sg_index : Z;
  sg_source_id : option string;
  sg_piece_start : option Z;
  sg_piece_end : option Z;
  sg_block_start : option Z;
  sg_block_end : option Z;
  sg_start : Z;
  sg_end : Z;
  sg_downloaded : option Z;
  sg_status : option string;
  sg_updated_at : option DateTime
}.
#[export] Instance SegmentRequest_eq_dec : EqDecision SegmentRequest.
Proof. solve_decision. Defined.

(** ** Stored models *)

(** [src/src/repository/models.rs:5-30], [DBDownloadTask]. *)
Record DBDownloadTask := mk_db_task {
  dt_id : Z;
  dt_url : string;
  dt_spec_json : string;
  dt_source_set_json : string;
  dt_resolved_url : string;
  dt_entity_tag : string;
  dt_last_modified : string;
  dt_file_name : string;
  dt_file_path : string;
  dt_status : string;
  dt_downloaded_size : Z;
  dt_total_size : option Z;
  dt_torrent_backend : option string;
  dt_torrent_external_id : option string;
  dt_torrent_state_json : option string;
  dt_torrent_metadata_json : option string;
  dt_torrent_resume_data : option bytes;
  dt_created_at : option DateTime;
  dt_updated_at : option DateTime
}.

(** [src/src/repository/models.rs:33-47], [DBDownloadWorker]. *)
Record DBDownloadWorker := mk_db_worker {
  dw_id : Z;
  dw_task_id : Z;
  dw_index : Z;
  dw_source_id : option string;
  dw_piece_start : option Z;
  dw_piece_end : option Z;
  dw_block_start : option Z;
  dw_block_end : option Z;
  dw_start : Z;
  dw_end : Z;
  dw_downloaded : Z;
  dw_status : string;
  dw_updated_at : option DateTime
}.
#[export] Instance DBDownloadWorker_eta : Settable DBDownloadWorker := λ w,
  mk_db_worker (dw_id w) (dw_task_id w) (dw_index w) (dw_source_id w) (dw_piece_start w)
    (dw_piece_end w) (dw_block_start w) (dw_block_end w) (dw_start w) (dw_end w)
    (dw_downloaded w) (dw_status w) (dw_updated_at w).

(** [src/src/repository/models.rs:50-55], [DBDownloadPiece]. *)
Record DBDownloadPiece := mk_db_piece {
  dp_task_id : Z;
  dp_piece_index : Z;
  dp_completed : bool;
  dp_updated_at : option DateTime
}.

(** [src/src/repository/models.rs:58-64], [DBDownloadBlock]. *)
Record DBDownloadBlock := mk_db_block {
  db_task_id : Z;
  db_piece_index : Z;
  db_block_index : Z;
  db_completed : bool;
  db_updated_at : option DateTime
}.

(** [src/src/repository/models.rs:67-74], [DBDownloadChecksum]. *)
Record DBDownloadChecksum := mk_db_checksum {
  dc_id : Z;
  dc_task_id : Z;
  dc_algorithm : string;
  dc_value : string;
  dc_verified : bool;
  dc_verified_at : option DateTime
}.
#[export] Instance DBDownloadChecksum_eta : Settable DBDownloadChecksum := λ c,
  mk_db_checksum (dc_id c) (dc_task_id c) (dc_algorithm c) (dc_value c) (dc_verified c)
    (dc_verified_at c).

#[export] Instance DBDownloadTask_eq_dec : EqDecision DBDownloadTask.
Proof. solve_decision. Defined.
#[export] Instance DBDownloadWorker_eq_dec : EqDecision DBDownloadWorker.
Proof. solve_decision. Defined.
#[export] Instance DBDownloadPiece_eq_dec : EqDecision DBDownloadPiece.
Proof. solve_decision. Defined.
#[export] Instance DBDownloadBlock_eq_dec : EqDecision DBDownloadBlock.
Proof. solve_decision. Defined.
#[export] Instance DBDownloadChecksum_eq_dec : EqDecision DBDownloadChecksum.
Proof. solve_decision. Defined.

(** ** Texts *)

(** [serde_json::to_string(a).ok()] and [serde_json::from_str(s).ok()] at a type. *)
Class Json (A : Type) := {
  to_json : A → option string;
  from_json : string → option A
}.
(** Serialising the value succeeds and parsing the text gives it back. *)
Definition json_ok `{Json A} (a : A) : Prop :=
  ∃ s, to_json a = Some s ∧ from_json s = Some a.

(** [src/src/storage/mapping.rs:291-298], [normalized_text_field]. *)
Definition normalized_text_field (value : string) : option string :=
  let trimmed := trim value in
  if is_empty trimmed then None else Some trimmed.

(** ** Checksums, pieces and blocks *)

(** [src/src/storage/mapping.rs:89-103], [checksum_to_db]. *)
Definition checksum_to_db (checksum : Checksum) (task_id : Z) : DBDownloadChecksum := {|
  dc_id := 0;
  dc_task_id := task_id;
  dc_algorithm :=
    match ck_algorithm checksum with
    | MD5 => "MD5"
    | SHA1 => "SHA1"
    | SHA256 => "SHA256"
    | NONE => "NONE"
    end;
  dc_value := unwrap_or EmptyString (ck_value checksum);
  dc_verified := unwrap_or false (ck_verified checksum);
  dc_verified_at := ck_verified_at checksum
|}.

(** [src/src/storage/mapping.rs:105-117], [db_to_checksum]. *)
Definition db_to_checksum (model : DBDownloadChecksum) : Checksum := {|
  ck_algorithm :=
    if bool_decide (dc_algorithm model = "MD5") then MD5
    else if bool_decide (dc_algorithm model = "SHA1") then SHA1
    else if bool_decide (dc_algorithm model = "SHA256") then SHA256
    else NONE;
  ck_value := Some (dc_value model);
  ck_verified := Some (dc_verified model);
  ck_verified_at := dc_verified_at model
|}.

(** [src/src/storage/mapping.rs:214-227], [piece_states_to_db]. *)
Definition piece_states_to_db (task_id : Z) (piece_states : list PieceState)
    : list DBDownloadPiece :=
  (λ piece, mk_db_piece task_id (ps_index piece) (ps_completed piece) None) <$> piece_states.

(** [src/src/storage/mapping.rs:229-239], [db_pieces_to_piece_states]. *)
Definition db_pieces_to_piece_states (pieces : list DBDownloadPiece) : list PieceState :=
  (λ piece, mk_piece_state (dp_piece_index piece) (dp_completed piece)) <$>
    sort_by_key dp_piece_index pieces.

(** [src/src/storage/mapping.rs:241-255], [block_states_to_db]. *)
Definition block_states_to_db (task_id : Z) (block_states : list BlockState)
    : list DBDownloadBlock :=
  (λ block, mk_db_block task_id (bs_piece block) (bs_index block) (bs_completed block) None)
    <$> block_states.

(** The order of pairs. *)
Definition pair_leb (a b : Z * Z) : bool :=
  ((fst a <? fst b) || (fst a =? fst b) && (snd a <=? snd b))%bool.

(** [src/src/storage/mapping.rs:257-268], [db_blocks_to_block_states]. *)
Definition db_blocks_to_block_states (blocks : list DBDownloadBlock) : list BlockState :=
  (λ block, mk_block_state (db_piece_index block) (db_block_index block) (db_completed block)) <$>
    sort_by (λ a b, pair_leb (db_piece_index a, db_block_index a)
                             (db_piece_index b, db_block_index b)) blocks.

(** ** Torrent sessions *)

(** [src/src/storage/mapping.rs:201-205], [torrent_backend_to_db]. *)
Definition torrent_backend_to_db (backend : TorrentEngineBackend) : string :=
  match backend with Libtorrent => "libtorrent" end.

(** [src/src/storage/mapping.rs:207-212], [torrent_backend_from_db]. *)
Definition torrent_backend_from_db (value : string) : option TorrentEngineBackend :=
  if String.eqb (to_ascii_lowercase (trim value)) "libtorrent" then Some Libtorrent else None.

(** [src/src/storage/mapping.rs:153-159], [TorrentDbFields]. *)
Definition TorrentDbFields : Type :=
  option string * option string * option string * option string * option bytes.

Section json.
Context `{UrlLib} `{Json DownloadSpec} `{Json SourceSet} `{Json TorrentEngineState}
  `{Json TorrentMetadata}.

(** [src/src/storage/mapping.rs:161-172], [torrent_resume_to_db_fields]. *)
Definition torrent_resume_to_db_fields (snapshot : TorrentResumeSnapshot) : TorrentDbFields :=
  (Some (torrent_backend_to_db (th_backend (tr_handle snapshot))),
   Some (th_external_id (tr_handle snapshot)),
   to_json (tr_state snapshot),
   (metadata ← tr_metadata snapshot; to_json metadata),
   tr_resume_data snapshot).

(** [src/src/storage/mapping.rs:174-199], [db_task_to_torrent_resume]. *)
Definition db_task_to_torrent_resume (task : DBDownloadTask) : option TorrentResumeSnapshot :=
  backend ← (value ← dt_torrent_backend task; torrent_backend_from_db value);
  external_id ← normalized_text_field (unwrap_or EmptyString (dt_torrent_external_id task));
  let state := unwrap_or TSPaused (value ← dt_torrent_state_json task; from_json value) in
  let metadata := value ← dt_torrent_metadata_json task; from_json value in
  Some (mk_resume (mk_handle backend external_id) state metadata (dt_torrent_resume_data task)).

(** ** Tasks and workers *)

(** [src/src/storage/mapping.rs:18-61], [task_to_db]. *)
Definition task_to_db (task : Task) : DBDownloadTask :=
  let '(torrent_backend, torrent_external_id, torrent_state_json, torrent_metadata_json,
        torrent_resume_data) :=
    unwrap_or (None, None, None, None, None)
      (torrent_resume_to_db_fields <$> t_torrent_resume task) in
  {| dt_id := t_id task;
     dt_url := identity_key (t_spec task);
     dt_spec_json := unwrap_or EmptyString (to_json (t_spec task));
     dt_source_set_json := unwrap_or EmptyString (to_json (t_sources task));
     dt_resolved_url := unwrap_or EmptyString (resolved_url (t_identity task));
     dt_entity_tag := unwrap_or EmptyString (entity_tag (t_identity task));
     dt_last_modified := unwrap_or EmptyString (last_modified (t_identity task));
     dt_file_name := unwrap_or EmptyString (t_file_name task);
     dt_file_path := unwrap_or EmptyString (t_file_path task);
     dt_status := Status_to_string (t_status task);
     dt_downloaded_size := t_downloaded_size task;
     dt_total_size := total_size_option task;
     dt_torrent_backend := torrent_backend;
     dt_torrent_external_id := torrent_external_id;
     dt_torrent_state_json := torrent_state_json;
     dt_torrent_metadata_json := torrent_metadata_json;
     dt_torrent_resume_data := torrent_resume_data;
     dt_created_at := t_created_at task;
     dt_updated_at := t_updated_at task |}.

(** [src/src/storage/mapping.rs:63-87], [worker_to_db]. *)
Definition worker_to_db (task : Task) (worker : Worker) : DBDownloadWorker :=
  let source := w_source worker in
  let lane := w_lane worker in
  {| dw_id := w_id worker;
     dw_task_id := t_id task;
     dw_index := w_id worker;
     dw_source_id := Some (src_id source);
     dw_piece_start := Some (lane_piece_start lane);
     dw_piece_end := Some (lane_piece_end lane);
     dw_block_start := Some (lane_block_start lane);
     dw_block_end := Some (lane_block_end lane);
     dw_start := w_start worker;
     dw_end := w_end worker;
     dw_downloaded := w_downloaded_size worker;
     dw_status := Status_to_string (w_status worker);
     dw_updated_at := w_updated_at worker |}.

(** [src/src/storage/mapping.rs:119-151], [db_task_to_request]. *)
Definition db_task_to_request (task : DBDownloadTask) (pieces : list DBDownloadPiece)
    (blocks : list DBDownloadBlock) (checksums : list DBDownloadChecksum) : TaskRequest := {|
  rq_id := Some (dt_id task);
  rq_spec :=
    match from_json (dt_spec_json task) with
    | Some spec => spec
    | None =>
        match spec_parse (dt_url task) with
        | Ok spec => spec
        | Err _ => SpecHttps (dt_url task)
        end
    end;
  rq_file_name := normalized_text_field (dt_file_name task);
  rq_file_path := normalized_text_field (dt_file_path task);
  rq_resource_identity := Some (mk_identity (normalized_text_field (dt_resolved_url task))
    (normalized_text_field (dt_entity_tag task)) (normalized_text_field (dt_last_modified task)));
  rq_http_request := None;
  rq_sources := from_json (dt_source_set_json task);
  rq_piece_states := Some (db_pieces_to_piece_states pieces);
  rq_block_states := Some (db_blocks_to_block_states blocks);
  rq_checksums := Some (db_to_checksum <$> checksums);
  rq_status := Some (unwrap_or Pending (Status_from_str (dt_status task)));
  rq_downloaded_size := Some (dt_downloaded_size task);
  rq_total_size := dt_total_size task;
  rq_torrent_resume := db_task_to_torrent_resume task;
  rq_created_at := dt_created_at task;
  rq_updated_at := dt_updated_at task
|}.
End json.

(** [src/src/storage/mapping.rs:270-289], [db_workers_to_requests]. *)
Definition db_workers_to_requests (workers : list DBDownloadWorker) : list SegmentRequest :=
  (λ worker,
    {| sg_id := Some (dw_id worker);
       sg_task_id := dw_task_id worker;
       sg_index := dw_index worker;
       sg_source_id := dw_source_id worker;
       sg_piece_start := dw_piece_start worker;
       sg_piece_end := dw_piece_end worker;
       sg_block_start := dw_block_start worker;
       sg_block_end := dw_block_end worker;
       sg_start := dw_start worker;
       sg_end := dw_end worker;
       sg_downloaded := Some (dw_downloaded worker);
       sg_status := Some (dw_status worker);
       sg_updated_at := dw_updated_at worker |}) <$> workers.

(** ** Round trips *)

(** Piece and block states in the order the planner gives them. *)
Definition pieces_sorted : list PieceState → Prop :=
  StronglySorted (λ a b, ps_index a < ps_index b).
Definition block_before (a b : BlockState) : Prop :=
  bs_piece a < bs_piece b ∨ (bs_piece a = bs_piece b ∧ bs_index a < bs_index b).
Definition blocks_sorted : list BlockState → Prop := StronglySorted block_before.

Lemma pair_leb_total a b : pair_leb a b = false → pair_leb b a = true.
Proof.
  unfold pair_leb. rewrite orb_false_iff, orb_true_iff, !andb_true_iff, andb_false_iff,
    !Z.ltb_lt, !Z.ltb_ge, !Z.eqb_eq, !Z.eqb_neq, !Z.leb_le, !Z.leb_gt. lia.
Qed.
Lemma pair_leb_trans a b c : pair_leb a b = true → pair_leb b c = true → pair_leb a c = true.
Proof.
  unfold pair_leb. rewrite !orb_true_iff, !andb_true_iff, !Z.ltb_lt, !Z.eqb_eq, !Z.leb_le. lia.
Qed.


Lemma piece_states_restored id states rows :
  pieces_sorted states → rows ≡ₚ piece_states_to_db id states →
  db_pieces_to_piece_states rows = states.
Proof.
  intros Hs Hp. unfold db_pieces_to_piece_states, sort_by_key.
  rewrite (sort_by_permutation _) with (l := piece_states_to_db id states); [| | | |done].
  - unfold piece_states_to_db. rewrite <- list_fmap_compose.
    rewrite <- (list_fmap_id states) at 2. apply list_fmap_ext. by intros ? [].
  - intros x y Hx. bool_hyps. apply Z.leb_le. lia.
  - intros x y z Hx Hy. bool_hyps. apply Z.leb_le. lia.
  - apply StronglySorted_fmap_2. eapply StronglySorted_weaken; [|exact Hs]. simpl.
    intros a b Hab. split; [apply Z.leb_le|apply Z.leb_gt]; lia.
Qed.

Lemma block_states_restored id states rows :
  blocks_sorted states → rows ≡ₚ block_states_to_db id states →
  db_blocks_to_block_states rows = states.
Proof.
  intros Hs Hp. unfold db_blocks_to_block_states.
  rewrite (sort_by_permutation _) with (l := block_states_to_db id states); [| | | |done].
  - unfold block_states_to_db. rewrite <- list_fmap_compose.
    rewrite <- (list_fmap_id states) at 2. apply list_fmap_ext. by intros ? [].
  - intros x y. apply pair_leb_total.
  - intros x y z. apply pair_leb_trans.
  - apply StronglySorted_fmap_2. eapply StronglySorted_weaken; [|exact Hs].
    intros [p i ?] [q j ?]. unfold block_before, pair_leb. simpl. intros Hab.
    rewrite orb_true_iff, orb_false_iff, andb_true_iff, andb_false_iff,
      !Z.ltb_lt, !Z.ltb_ge, !Z.eqb_eq, !Z.eqb_neq, !Z.leb_le, !Z.leb_gt. lia.
Qed.

(** A text that trimming does not change. *)
Definition text_stable (o : option string) : Prop :=
  ∀ s, o = Some s → trim s = s ∧ is_empty s = false.

Lemma normalized_unwrap o :
  text_stable o → normalized_text_field (unwrap_or EmptyString o) = o.
Proof.
  unfold normalized_text_field. destruct o as [s|]; [|done]. intros Hs.
  destruct (Hs s eq_refl) as [Ht He]. simpl. by rewrite Ht, He.
Qed.

Lemma from_to_json `{Json A} (a : A) :
  json_ok a → from_json (unwrap_or EmptyString (to_json a)) = Some a.
Proof. by intros (s & -> & ?). Qed.

(** A stored checksum comes back with its algorithm and date; it is the
    checksum that was stored exactly when that had a value and a verdict.  One
    without a value comes back asking for the empty digest. *)
Theorem checksum_stored c id :
  let c' := db_to_checksum (checksum_to_db c id) in
  ck_algorithm c' = ck_algorithm c ∧ ck_verified_at c' = ck_verified_at c ∧
  (c' = c ↔ is_some (ck_value c) = true ∧ is_some (ck_verified c) = true) ∧
  (ck_value c = None → ck_value c' = Some EmptyString).
Proof.
  destruct c as [alg v ver at_]. unfold db_to_checksum, checksum_to_db. simpl.
  split; [by destruct alg|]. split; [done|]. split; [|by intros ->].
  destruct v, ver, alg; simpl; split; try done; by intros [].
Qed.

Section roundtrip.
Context `{UrlLib} `{Json DownloadSpec} `{Json SourceSet} `{Json TorrentEngineState}
  `{Json TorrentMetadata}.

(** The snapshot of a torrent session can be stored. *)
Definition resume_ok (r : TorrentResumeSnapshot) : Prop :=
  text_stable (Some (th_external_id (tr_handle r))) ∧ json_ok (tr_state r) ∧
  ∀ m, tr_metadata r = Some m → json_ok m.

Lemma torrent_resume_stored t :
  (∀ r, t_torrent_resume t = Some r → resume_ok r) →
  db_task_to_torrent_resume (task_to_db t) = t_torrent_resume t.
Proof.
  intros Hr. unfold task_to_db. destruct (t_torrent_resume t) as [r|]; [|done].
  destruct (Hr r eq_refl) as (He & Hs & Hm). destruct r as [[[] ext] st md rd]. simpl in *.
  unfold db_task_to_torrent_resume. cbn. unfold mbind, option_bind. cbn.
  pose proof (normalized_unwrap (Some ext) He) as Hn. simpl in Hn. rewrite Hn. simpl. destruct Hs as (js & -> & Hjs). simpl. rewrite Hjs.
  destruct md as [m|]; [|done]. destruct (Hm m eq_refl) as (jm & -> & Hjm). simpl. by rewrite Hjm.
Qed.

(** C40. Storing a task and reading it back, in whatever order the rows of its
    pieces and blocks are returned, gives the request that describes it: the
    same specification, sources, names, validators, progress, sizes, torrent
    session and dates, and the status without the error of a failure. *)
Theorem task_stored t pieces blocks checksums :
  json_ok (t_spec t) → json_ok (t_sources t) →
  text_stable (t_file_name t) → text_stable (t_file_path t) →
  text_stable (resolved_url (t_identity t)) → text_stable (entity_tag (t_identity t)) →
  text_stable (last_modified (t_identity t)) →
  (∀ r, t_torrent_resume t = Some r → resume_ok r) →
  pieces_sorted (t_piece_states t) → blocks_sorted (t_block_states t) →
  pieces ≡ₚ piece_states_to_db (t_id t) (t_piece_states t) →
  blocks ≡ₚ block_states_to_db (t_id t) (t_block_states t) →
  db_task_to_request (task_to_db t) pieces blocks checksums = {|
    rq_id := Some (t_id t);
    rq_spec := t_spec t;
    rq_file_name := t_file_name t;
    rq_file_path := t_file_path t;
    rq_resource_identity := Some (t_identity t);
    rq_http_request := None;
    rq_sources := Some (t_sources t);
    rq_piece_states := Some (t_piece_states t);
    rq_block_states := Some (t_block_states t);
    rq_checksums := Some (db_to_checksum <$> checksums);
    rq_status := Some (forget_error (t_status t));
    rq_downloaded_size := Some (t_downloaded_size t);
    rq_total_size := total_size_option t;
    rq_torrent_resume := t_torrent_resume t;
    rq_created_at := t_created_at t;
    rq_updated_at := t_updated_at t |}.
Proof.
  intros Hspec Hsrc Hname Hpath Hurl Htag Hmod Hres Hps Hbs Hp Hb.
  unfold db_task_to_request. rewrite (torrent_resume_stored t Hres).
  unfold task_to_db.
  destruct (unwrap_or (None, None, None, None, None) (torrent_resume_to_db_fields <$> t_torrent_resume t))
    as [[[[tb te] ts] tm] td].
  cbn [dt_id dt_url dt_spec_json dt_source_set_json dt_resolved_url dt_entity_tag
    dt_last_modified dt_file_name dt_file_path dt_status dt_downloaded_size dt_total_size
    dt_created_at dt_updated_at].
  rewrite (piece_states_restored (t_id t) (t_piece_states t) pieces) by done.
  rewrite (block_states_restored (t_id t) (t_block_states t) blocks) by done.
  rewrite !normalized_unwrap, !from_to_json, Status_from_to_string by done.
  by destruct (t_identity t).
Qed.
End roundtrip.

(** A URL library for examples: a scheme before the first colon. *)
Definition example_urls : UrlLib := {|
  Url := string;
  url_parse s := match split_once ":" s with
                 | Some _ => Ok s
                 | None => Err RelativeUrlWithoutBase
                 end;
  url_scheme s := from_option fst EmptyString (split_once ":" s);
  url_path_segments s := Some (drop 3 (split "/" s));
  url_query_pairs s := []
|}.
(** JSON codecs for examples: each knows one value. *)
Definition one_value {A} (text : string) (a : A) : Json A := {|
  to_json _ := Some text;
  from_json s := if String.eqb s text then Some a else None
|}.
(** A codec of every value of a countable type: the digits of its number. *)
Fixpoint digits_of (p : positive) : string :=
  match p with
  | xH => "."
  | xO p => String "0" (digits_of p)
  | xI p => String "1" (digits_of p)
  end.
Fixpoint of_digits (s : string) : option positive :=
  match s with
  | String "0" s => xO <$> of_digits s
  | String "1" s => xI <$> of_digits s
  | String _ _ => Some xH
  | EmptyString => None
  end.
Definition countable_codec `{Countable A} : Json A := {|
  to_json a := Some (digits_of (encode a));
  from_json s := p ← of_digits s; decode p
|}.

Lemma of_digits_of p : of_digits (digits_of p) = Some p.
Proof. by induction p as [p IH|p IH|]; simpl; rewrite ?IH. Qed.

Lemma countable_codec_ok `{Countable A} (a : A) : @json_ok _ countable_codec a.
Proof.
  eexists. split; [reflexivity|]. simpl. rewrite of_digits_of. simpl. apply decode_encode.
Qed.

Lemma digits_of_utf8 p : utf8_valid (digits_of p) = true.
Proof. unfold utf8_valid. by induction p as [p IH|p IH|]; simpl. Qed.

Lemma digits_of_ends p : ∃ t, digits_of p = t +:+ ".".
Proof.
  induction p as [p [t IH]|p [t IH]|]; simpl.
  - exists (String "1" t). by rewrite IH.
  - exists (String "0" t). by rewrite IH.
  - by exists EmptyString.
Qed.

Lemma digits_of_trim p : is_empty (trim (digits_of p)) = false.
Proof.
  assert (trim_start (digits_of p) = digits_of p) as Ht.
  { unfold trim_start. destruct p as [p|p|]; simpl; [..|done];
      (destruct (digits_of p) as [|d [|e s]] eqn:E; [by destruct p|done..]). }
  unfold trim, trim_end. rewrite Ht. destruct (digits_of_ends p) as [t ->].
  rewrite srev_append. change (srev "." +:+ srev t) with (String "." (srev t)).
  assert (skip_ws true (String "." (srev t)) = String "." (srev t)) as ->.
  { generalize (srev t) as r. intros r. simpl. destruct r as [|d [|e r]]; [done|..];
      (replace (ws2 d ".") with false by (unfold ws2; by rewrite andb_false_r)); [done|].
    replace (ws3 e d ".") with false; [done|]. unfold ws3. cbn. by rewrite !andb_false_r. }
  change (String "." (srev t)) with ("." +:+ srev t). rewrite srev_append.
  by destruct (srev (srev t)).
Qed.

Definition spec_codec : Json DownloadSpec := one_value "spec" (t_spec example_task).
Definition sources_codec : Json SourceSet := one_value "sources" (t_sources example_task).
Definition state_codec : Json TorrentEngineState := one_value "state" TSPaused.
Definition metadata_codec : Json TorrentMetadata := one_value "metadata" (example_metadata "t").

(** A task with restored progress. *)
Definition example_stored : Task :=
  example_task <| t_piece_states := [mk_piece_state 0 true; mk_piece_state 1 false] |>
    <| t_block_states := [mk_block_state 0 0 true; mk_block_state 0 1 true; mk_block_state 1 0 true] |>
    <| t_status := Failed (EOther "gone") |>.

Lemma task_stored_witness :
  let blocks := block_states_to_db 1 (t_block_states example_stored) in
  let r := @db_task_to_request example_urls spec_codec sources_codec state_codec metadata_codec
    (@task_to_db spec_codec sources_codec state_codec metadata_codec example_stored)
    (piece_states_to_db 1 (t_piece_states example_stored)) blocks [] in
  rq_status r = Some (Failed (EOther "")) ∧
  rq_block_states r = Some (t_block_states example_stored).
Proof.
  cbv zeta.
  pose proof (@task_stored example_urls spec_codec sources_codec state_codec metadata_codec
    example_stored (piece_states_to_db 1 (t_piece_states example_stored))
    (block_states_to_db 1 (t_block_states example_stored)) []) as H.
  rewrite H; clear H.
  - split; reflexivity.
  - exists "spec". split; reflexivity.
  - exists "sources". split; reflexivity.
  - intros s [= <-]. split; reflexivity.
  - intros s [= <-]. split; reflexivity.
  - intros s [=].
  - intros s [=].
  - intros s [=].
  - intros r [=].
  - repeat constructor; simpl; lia.
  - repeat constructor; unfold block_before; simpl; lia.
  - reflexivity.
  - reflexivity.
Defined.
