(* ===== verification/Session.v ===== *)
(** * Sessions ([src/src/download.rs], [src/src/job/mod.rs], [src/src/request])

    What a client of the library sees: the builders of requests, the snapshots of
    tasks and of torrents, and the diagnostics of a failure. *)

From S2P Require Import Prelude Text Float Status Effect Source Piece Files Checksum Manifest Planner Torrent Config Task Speed Mapping.

(** ** Building a request *)

(** [src/src/request/task.rs:82-85], [TaskRequestBuilder::id]. *)
Definition request_id (id : Z) (b : TaskRequest) : TaskRequest := b <| rq_id := Some id |>.
(** [src/src/request/task.rs:87-90], [TaskRequestBuilder::file_name]. *)
Definition request_file_name (name : string) (b : TaskRequest) : TaskRequest := b <| rq_file_name := Some name |>.
(** [src/src/request/task.rs:92-95], [TaskRequestBuilder::file_path]. *)
Definition request_file_path (path : string) (b : TaskRequest) : TaskRequest := b <| rq_file_path := Some path |>.
(** [src/src/request/task.rs:97-100], [TaskRequestBuilder::checksums]. *)
Definition request_checksums (checksums : list Checksum) (b : TaskRequest) : TaskRequest := b <| rq_checksums := Some checksums |>.
(** [src/src/request/task.rs:102-105], [TaskRequestBuilder::sources]. *)
Definition request_sources (sources : SourceSet) (b : TaskRequest) : TaskRequest := b <| rq_sources := Some sources |>.
(** [src/src/request/task.rs:107-110], [TaskRequestBuilder::piece_states]. *)
Definition request_piece_states (piece_states : list PieceState) (b : TaskRequest) : TaskRequest := b <| rq_piece_states := Some piece_states |>.
(** [src/src/request/task.rs:112-115], [TaskRequestBuilder::block_states]. *)
Definition request_block_states (block_states : list BlockState) (b : TaskRequest) : TaskRequest := b <| rq_block_states := Some block_states |>.
(** [src/src/request/task.rs:117-120], [TaskRequestBuilder::http_request]. *)
Definition request_http_request (http_request : HttpRequestOptions) (b : TaskRequest) : TaskRequest := b <| rq_http_request := Some http_request |>.
(** [src/src/request/task.rs:122-125], [TaskRequestBuilder::resource_identity]. *)
Definition request_resource_identity (identity : HttpResourceIdentity) (b : TaskRequest) : TaskRequest := b <| rq_resource_identity := Some identity |>.
(** [src/src/request/task.rs:127-130], [TaskRequestBuilder::status]. *)
Definition request_status (status : Status) (b : TaskRequest) : TaskRequest := b <| rq_status := Some status |>.
(** [src/src/request/task.rs:132-135], [TaskRequestBuilder::downloaded_size]. *)
Definition request_downloaded_size (size : Z) (b : TaskRequest) : TaskRequest := b <| rq_downloaded_size := Some size |>.
(** [src/src/request/task.rs:137-140], [TaskRequestBuilder::total_size]. *)
Definition request_total_size (size : Z) (b : TaskRequest) : TaskRequest := b <| rq_total_size := Some size |>.
(** [src/src/request/task.rs:142-145], [TaskRequestBuilder::torrent_resume]. *)
Definition request_torrent_resume (resume : TorrentResumeSnapshot) (b : TaskRequest) : TaskRequest := b <| rq_torrent_resume := Some resume |>.
(** [src/src/request/task.rs:147-150], [TaskRequestBuilder::created_at]. *)
Definition request_created_at (created_at : DateTime) (b : TaskRequest) : TaskRequest := b <| rq_created_at := Some created_at |>.
(** [src/src/request/task.rs:152-155], [TaskRequestBuilder::updated_at]. *)
Definition request_updated_at (updated_at : DateTime) (b : TaskRequest) : TaskRequest := b <| rq_updated_at := Some updated_at |>.
(** [src/src/request/task.rs:157-176], [TaskRequestBuilder::build]. *)
Definition request_build (b : TaskRequest) : TaskRequest := b.
(** [src/src/request/task.rs:57-59], [TaskRequest::locator]. *)
Definition request_locator (r : TaskRequest) : string := spec_locator (rq_spec r).

(** [src/src/download.rs:146-148], [SessionRequest]. *)
Record SessionRequest := mk_session_request { sr_inner : TaskRequest }.
(** [src/src/download.rs:172-174], [SessionRequestBuilder]. *)
Record SessionRequestBuilder := mk_session_builder { sb_inner : TaskRequest }.
(** [src/src/download.rs:151-155], [SessionRequest::builder]. *)
Definition session_builder (spec : DownloadSpec) : SessionRequestBuilder := mk_session_builder (request_builder spec).
(** [src/src/download.rs:157-161], [SessionRequest::from_locator]. *)
Definition session_from_locator `{UrlLib} (locator : string) : res SessionRequestBuilder :=
  let? b := request_from_locator locator in Ok (mk_session_builder b).
(** [src/src/download.rs:163-165], [SessionRequest::locator]. *)
Definition session_request_locator (r : SessionRequest) : string := request_locator (sr_inner r).
(** [src/src/download.rs:167-169], [SessionRequest::into_inner]. *)
Definition into_inner (r : SessionRequest) : TaskRequest := sr_inner r.
(** [src/src/download.rs:177-180], [SessionRequestBuilder::id]. *)
Definition session_id (id : Z) (b : SessionRequestBuilder) : SessionRequestBuilder :=
  mk_session_builder (request_id id (sb_inner b)).
(** [src/src/download.rs:182-185], [SessionRequestBuilder::file_name]. *)
Definition session_file_name (name : string) (b : SessionRequestBuilder) : SessionRequestBuilder :=
  mk_session_builder (request_file_name name (sb_inner b)).
(** [src/src/download.rs:187-190], [SessionRequestBuilder::file_path]. *)
Definition session_file_path (path : string) (b : SessionRequestBuilder) : SessionRequestBuilder :=
  mk_session_builder (request_file_path path (sb_inner b)).
(** [src/src/download.rs:192-195], [SessionRequestBuilder::checksums]. *)
Definition session_checksums (checksums : list Checksum) (b : SessionRequestBuilder) : SessionRequestBuilder :=
  mk_session_builder (request_checksums checksums (sb_inner b)).
(** [src/src/download.rs:197-200], [SessionRequestBuilder::sources]. *)
Definition session_sources (sources : SourceSet) (b : SessionRequestBuilder) : SessionRequestBuilder :=
  mk_session_builder (request_sources sources (sb_inner b)).
(** [src/src/download.rs:202-205], [SessionRequestBuilder::piece_states]. *)
Definition session_piece_states (piece_states : list PieceState) (b : SessionRequestBuilder) : SessionRequestBuilder :=
  mk_session_builder (request_piece_states piece_states (sb_inner b)).
(** [src/src/download.rs:207-210], [SessionRequestBuilder::block_states]. *)
Definition session_block_states (block_states : list BlockState) (b : SessionRequestBuilder) : SessionRequestBuilder :=
  mk_session_builder (request_block_states block_states (sb_inner b)).
(** [src/src/download.rs:212-215], [SessionRequestBuilder::http_request]. *)
Definition session_http_request (http_request : HttpRequestOptions) (b : SessionRequestBuilder) : SessionRequestBuilder :=
  mk_session_builder (request_http_request http_request (sb_inner b)).
(** [src/src/download.rs:217-220], [SessionRequestBuilder::resource_identity]. *)
Definition session_resource_identity (identity : HttpResourceIdentity) (b : SessionRequestBuilder) : SessionRequestBuilder :=
  mk_session_builder (request_resource_identity identity (sb_inner b)).
(** [src/src/download.rs:222-225], [SessionRequestBuilder::status]. *)
Definition session_status (status : Status) (b : SessionRequestBuilder) : SessionRequestBuilder :=
  mk_session_builder (request_status status (sb_inner b)).
(** [src/src/download.rs:227-230], [SessionRequestBuilder::downloaded_size]. *)
Definition session_downloaded_size (size : Z) (b : SessionRequestBuilder) : SessionRequestBuilder :=
  mk_session_builder (request_downloaded_size size (sb_inner b)).
(** [src/src/download.rs:232-235], [SessionRequestBuilder::total_size]. *)
Definition session_total_size (size : Z) (b : SessionRequestBuilder) : SessionRequestBuilder :=
  mk_session_builder (request_total_size size (sb_inner b)).
(** [src/src/download.rs:237-240], [SessionRequestBuilder::torrent_resume]. *)
Definition session_torrent_resume (resume : TorrentResumeSnapshot) (b : SessionRequestBuilder) : SessionRequestBuilder :=
  mk_session_builder (request_torrent_resume resume (sb_inner b)).
(** [src/src/download.rs:242-245], [SessionRequestBuilder::created_at]. *)
Definition session_created_at (created_at : DateTime) (b : SessionRequestBuilder) : SessionRequestBuilder :=
  mk_session_builder (request_created_at created_at (sb_inner b)).
(** [src/src/download.rs:247-250], [SessionRequestBuilder::updated_at]. *)
Definition session_updated_at (updated_at : DateTime) (b : SessionRequestBuilder) : SessionRequestBuilder :=
  mk_session_builder (request_updated_at updated_at (sb_inner b)).
(** [src/src/download.rs:252-256], [SessionRequestBuilder::build]. *)
Definition session_build (b : SessionRequestBuilder) : SessionRequest := mk_session_request (request_build (sb_inner b)).

#[export] Instance SegmentRequest_eta : Settable SegmentRequest := λ s,
  mk_segment_request (sg_id s) (sg_task_id s) (sg_index s) (sg_source_id s) (sg_piece_start s) (sg_piece_end s)
    (sg_block_start s) (sg_block_end s) (sg_start s) (sg_end s) (sg_downloaded s) (sg_status s) (sg_updated_at s).
(** [src/src/request/segment.rs:37-53], [SegmentRequestBuilder::new]. The builder has the fields of the
    request. *)
Definition segment_new (task_id index start end_ : Z) : SegmentRequest :=
  mk_segment_request None task_id index None None None None None start end_ None None None.
(** [src/src/request/segment.rs:55-58], [SegmentRequestBuilder::id]. *)
Definition segment_id (id : Z) (b : SegmentRequest) : SegmentRequest := b <| sg_id := Some id |>.
(** [src/src/request/segment.rs:60-63], [SegmentRequestBuilder::source_id]. *)
Definition segment_source_id (source_id : string) (b : SegmentRequest) : SegmentRequest := b <| sg_source_id := Some source_id |>.
(** [src/src/request/segment.rs:65-69], [SegmentRequestBuilder::piece_range]. *)
Definition segment_piece_range (piece_start piece_end : Z) (b : SegmentRequest) : SegmentRequest := b <| sg_piece_start := Some piece_start |> <| sg_piece_end := Some piece_end |>.
(** [src/src/request/segment.rs:71-75], [SegmentRequestBuilder::block_range]. *)
Definition segment_block_range (block_start block_end : Z) (b : SegmentRequest) : SegmentRequest := b <| sg_block_start := Some block_start |> <| sg_block_end := Some block_end |>.
(** [src/src/request/segment.rs:77-80], [SegmentRequestBuilder::downloaded]. *)
Definition segment_downloaded (downloaded : Z) (b : SegmentRequest) : SegmentRequest := b <| sg_downloaded := Some downloaded |>.
(** [src/src/request/segment.rs:82-85], [SegmentRequestBuilder::status]. *)
Definition segment_status (status : string) (b : SegmentRequest) : SegmentRequest := b <| sg_status := Some status |>.
(** [src/src/request/segment.rs:87-90], [SegmentRequestBuilder::updated_at]. *)
Definition segment_updated_at (dt : DateTime) (b : SegmentRequest) : SegmentRequest := b <| sg_updated_at := Some dt |>.
(** [src/src/request/segment.rs:92-108], [SegmentRequestBuilder::build]. *)
Definition segment_build (b : SegmentRequest) : SegmentRequest := b.

(** ** Torrents *)

(** [src/src/p2p/engine.rs:15-28], [TorrentEngineCapabilities]. *)
Record TorrentEngineCapabilities := mk_capabilities {
  tc_backend : TorrentEngineBackend;
  tc_available : bool;
  tc_torrent_files : bool;
  tc_magnets : bool;
  tc_metadata_exchange : bool;
  tc_trackers : bool;
  tc_dht : bool;
  tc_peer_exchange : bool;
  tc_utp : bool;
  tc_web_seeds : bool;
  tc_fast_resume : bool;
  tc_file_priorities : bool
}.
(** [src/src/p2p/engine.rs:31-46], [TorrentEngineCapabilities::libtorrent_full]. *)
Definition libtorrent_full : TorrentEngineCapabilities :=
  mk_capabilities Libtorrent true true true true true true true true true true true.
(** [src/src/p2p/engine.rs:48-53], [TorrentEngineCapabilities::libtorrent_unavailable]. *)
Definition libtorrent_unavailable : TorrentEngineCapabilities :=
  mk_capabilities Libtorrent false true true true true true true true true true true.

(** [src/src/p2p/engine.rs:173-194], [TorrentSnapshot]. *)
Record TorrentSnapshot := mk_torrent_snapshot {
  tn_backend : TorrentEngineBackend;
  tn_external_id : string;
  tn_state : TorrentEngineState;
  tn_metadata_ready : bool;
  tn_name : option string;
  tn_info_hash_v1 : option string;
  tn_info_hash_v2 : option string;
  tn_private : option bool;
  tn_file_count : option Z;
  tn_piece_count : option Z;
  tn_tracker_count : option Z;
  tn_web_seed_count : option Z;
  tn_resume_data_bytes : option Z;
  tn_downloaded : Z;
  tn_total : Z;
  tn_download_rate_bps : Z;
  tn_upload_rate_bps : Z;
  tn_connected_peers : Z;
  tn_seeds : Z;
  tn_diagnostics : list TorrentDiagnosticEvent
}.
(** [src/src/p2p/engine.rs:197-226], [TorrentSnapshot::from_session]. *)
Definition torrent_snapshot_from_session (session : TorrentEngineSession)
    (transfer : option TorrentTransferStats) (diagnostics : list TorrentDiagnosticEvent) : TorrentSnapshot :=
  let metadata := ts_metadata session in
  let transfer := unwrap_or TorrentTransferStats_default transfer in
  {| tn_backend := th_backend (ts_handle session);
     tn_external_id := th_external_id (ts_handle session);
     tn_state := ts_state session;
     tn_metadata_ready := is_some metadata;
     tn_name := tm_name <$> metadata;
     tn_info_hash_v1 := metadata ≫= tm_info_hash_v1;
     tn_info_hash_v2 := metadata ≫= tm_info_hash_v2;
     tn_private := tm_private <$> metadata;
     tn_file_count := (λ m, zlen (tm_files m)) <$> metadata;
     tn_piece_count := tm_piece_count <$> metadata;
     tn_tracker_count := (λ m, zlen (tm_trackers m)) <$> metadata;
     tn_web_seed_count := (λ m, zlen (tm_web_seeds m)) <$> metadata;
     tn_resume_data_bytes := zlen <$> ts_resume_data session;
     tn_downloaded := tx_downloaded transfer;
     tn_total := tx_total transfer;
     tn_download_rate_bps := tx_download_rate_bps transfer;
     tn_upload_rate_bps := tx_upload_rate_bps transfer;
     tn_connected_peers := tx_connected_peers transfer;
     tn_seeds := tx_seeds transfer;
     tn_diagnostics := diagnostics |}.

(** [src/src/job/mod.rs:453-468], [Task::torrent_snapshot]. *)
Definition torrent_snapshot (t : Task) : option TorrentSnapshot :=
  match t_torrent_session t with
  | Some session =>
      Some (torrent_snapshot_from_session session (t_torrent_transfer t) (t_torrent_diagnostics t))
  | None => None
  end.

(** ** Tasks *)

(** [src/src/job/mod.rs:166-166], [trace_id]. The id of a task never changes. *)
Definition trace_id (t : Task) : string := "task-" +:+ pad_zeros 6 (show_u64 (t_id t)).

(** [src/src/job/mod.rs:84-106], [TaskSnapshot]. *)
Record TaskSnapshot := mk_task_snapshot {
  ks_id : Z;
  ks_trace_id : string;
  ks_url : string;
  ks_file_name : option string;
  ks_file_path : option string;
  ks_status : string;
  ks_downloaded_size : Z;
  ks_total_size : Z;
  ks_total_size_known : bool;
  ks_source_count : Z;
  ks_primary_source_locator : option string;
  ks_source_locators : list string;
  ks_completed_pieces : Z;
  ks_piece_count : Z;
  ks_completed_blocks : Z;
  ks_block_count : Z;
  ks_created_at : option DateTime;
  ks_updated_at : option DateTime;
  ks_checksums : list Checksum;
  ks_stats : StatsSnapshot;
  ks_torrent : option TorrentSnapshot
}.

(** [src/src/job/mod.rs:200-206], [Task::snapshot (status_str)]. *)
Definition status_text (s : Status) : string :=
  match s with
  | Failed err => "Failed: " +:+ Error_to_string err
  | _ => Status_to_string s
  end.

(** [src/src/job/mod.rs:199-253], [Task::snapshot]. The task's speeds, and the time. *)
Definition task_snapshot (speeds : Speeds) (now : Z) (t : Task) : TaskSnapshot :=
  let sources_ := t_sources t in
  {| ks_id := t_id t;
     ks_trace_id := trace_id t;
     ks_url := spec_locator (t_spec t);
     ks_file_name := t_file_name t;
     ks_file_path := t_file_path t;
     ks_status := status_text (t_status t);
     ks_downloaded_size := t_downloaded_size t;
     ks_total_size := t_total_size t;
     ks_total_size_known := t_total_size_known t;
     ks_source_count := sources_len sources_;
     ks_primary_source_locator := src_locator <$> primary sources_;
     ks_source_locators := src_locator <$> sources sources_;
     ks_completed_pieces := completed_piece_count (t_piece_states t);
     ks_piece_count := wrap32 (zlen (t_piece_states t));
     ks_completed_blocks := completed_block_count (t_block_states t);
     ks_block_count := wrap32 (zlen (t_block_states t));
     ks_created_at := t_created_at t;
     ks_updated_at := t_updated_at t;
     ks_checksums := t_checksums t;
     ks_stats := stats_snapshot now speeds (t_stats t);
     ks_torrent := torrent_snapshot t |}.

(** ** The diagnostics of a failure *)

(** [src/src/diagnostics.rs:8-15], [FailureDiagnostic]. *)
Record FailureDiagnostic := mk_failure_diagnostic {
  fd_generated_at : DateTime;
  fd_trace_id : string;
  fd_error : string;
  fd_task : TaskSnapshot;
  fd_resource_identity : HttpResourceIdentity
}.

(** [src/src/diagnostics.rs:24-37], [write_failure_diagnostic (diagnostic)]. What is written into
    the file, from the task's speeds, the instant of the snapshot and the writing of JSON. *)
Definition diagnostic_body (to_vec_pretty : FailureDiagnostic → result bytes string) (speeds : Speeds)
    (instant : Z) (t : Task) (err : Error) (generated_at : DateTime) : res bytes :=
  result_map_err (λ e, EOther ("Failed to serialize diagnostic: " +:+ e))
    (to_vec_pretty
       {| fd_generated_at := generated_at;
          fd_trace_id := trace_id t;
          fd_error := Error_to_string err;
          fd_task := task_snapshot speeds instant t;
          fd_resource_identity := t_identity t |}).

(** [src/src/download.rs:92-114], [SessionSnapshot]. *)
Record SessionSnapshot := mk_session_snapshot {
  sn_id : Z;
  sn_trace_id : string;
  sn_locator : string;
  sn_file_name : option string;
  sn_file_path : option string;
  sn_status : string;
  sn_downloaded_size : Z;
  sn_total_size : Z;
  sn_total_size_known : bool;
  sn_source_count : Z;
  sn_primary_source_locator : option string;
  sn_source_locators : list string;
  sn_completed_pieces : Z;
  sn_piece_count : Z;
  sn_completed_blocks : Z;
  sn_block_count : Z;
  sn_created_at : option DateTime;
  sn_updated_at : option DateTime;
  sn_checksums : list Checksum;
  sn_stats : StatsSnapshot;
  sn_torrent : option TorrentSnapshot
}.
(** [src/src/download.rs:117-141], [SessionSnapshot::from]. *)
Definition session_snapshot_from (k : TaskSnapshot) : SessionSnapshot :=
  {| sn_id := ks_id k;
     sn_trace_id := ks_trace_id k;
     sn_locator := ks_url k;
     sn_file_name := ks_file_name k;
     sn_file_path := ks_file_path k;
     sn_status := ks_status k;
     sn_downloaded_size := ks_downloaded_size k;
     sn_total_size := ks_total_size k;
     sn_total_size_known := ks_total_size_known k;
     sn_source_count := ks_source_count k;
     sn_primary_source_locator := ks_primary_source_locator k;
     sn_source_locators := ks_source_locators k;
     sn_completed_pieces := ks_completed_pieces k;
     sn_piece_count := ks_piece_count k;
     sn_completed_blocks := ks_completed_blocks k;
     sn_block_count := ks_block_count k;
     sn_created_at := ks_created_at k;
     sn_updated_at := ks_updated_at k;
     sn_checksums := ks_checksums k;
     sn_stats := ks_stats k;
     sn_torrent := ks_torrent k |}.
(** [src/src/download.rs:49-51], [Session::snapshot]. *)
Definition session_snapshot (speeds : Speeds) (now : Z) (t : Task) : SessionSnapshot :=
  session_snapshot_from (task_snapshot speeds now t).
(** [src/src/download.rs:41-43], [Session::id]. *)
Definition session_task_id (t : Task) : Z := t_id t.
(** [src/src/download.rs:45-47], [Session::locator]. *)
Definition session_locator (t : Task) : string := spec_locator (t_spec t).
(** [src/src/download.rs:53-58], [Session::torrent_handle]. *)
Definition session_torrent_handle (t : Task) : option TorrentEngineHandle := ts_handle <$> t_torrent_session t.
(** [src/src/download.rs:83-88], [Session::fmt]. *)
Definition session_debug (t : Task) : string :=
  "Session { id: " +:+ show_u64 (t_id t) +:+ ", locator: " +:+ str_debug (spec_locator (t_spec t)) +:+ " }".

(** ** What a snapshot says *)

Lemma countb_le {A} (p : A → bool) l : 0 ≤ countb p l ≤ zlen l.
Proof.
  unfold countb, zlen, filterb. induction l as [|a l IH]; cbn; [lia|]. destruct (p a); cbn; lia.
Qed.

(** As long as there are fewer than 2^32 of them, no more pieces and blocks are completed than there
    are. *)
Lemma snapshot_counts speeds now t : is_u32 (zlen (t_piece_states t)) → is_u32 (zlen (t_block_states t)) →
  let s := session_snapshot speeds now t in
  0 ≤ sn_completed_pieces s ≤ sn_piece_count s ∧ 0 ≤ sn_completed_blocks s ≤ sn_block_count s.
Proof.
  intros Hp Hb. cbn. unfold completed_piece_count, completed_block_count.
  pose proof (countb_le ps_completed (t_piece_states t)). pose proof (countb_le bs_completed (t_block_states t)).
  unfold is_u32 in *. rewrite !wrap32_small by (unfold is_u32; lia). lia.
Qed.
