(* ===== verification/Repository.v ===== *)
(** * The repository contract ([src/src/repository/contract.rs])

    The operations a repository provides, and the contract they keep: a
    repository holds sets of rows, [repo_view], identified within their task by
    an index, and every operation is the corresponding operation on the sets.
    The clients are verified against the contract; [Memory] and [JsonStore]
    implement it. *)

From S2P Require Import Prelude Text Status Effect Source Piece Files Checksum Manifest Planner Torrent Config Task Mapping.

(** [src/src/repository/contract.rs:8-56], [Repository]. *)
Class Repository (S : Type) := {
  load_tasks : eff S (list DBDownloadTask);
  load_task : Z → eff S (option DBDownloadTask);
  save_task : DBDownloadTask → eff S unit;
  delete_task : Z → eff S unit;
  save_bundle : DBDownloadTask → list DBDownloadWorker → list DBDownloadPiece →
    list DBDownloadBlock → list DBDownloadChecksum → eff S unit;
  load_workers : Z → eff S (list DBDownloadWorker);
  load_worker : Z → eff S (option DBDownloadWorker);
  save_worker : DBDownloadWorker → eff S unit;
  delete_workers : Z → eff S unit;
  load_pieces : Z → eff S (list DBDownloadPiece);
  save_pieces : Z → list DBDownloadPiece → eff S unit;
  delete_pieces : Z → eff S unit;
  load_blocks : Z → eff S (list DBDownloadBlock);
  save_blocks : Z → list DBDownloadBlock → eff S unit;
  delete_blocks : Z → eff S unit;
  load_checksums : Z → eff S (list DBDownloadChecksum);
  load_checksum : Z → eff S (option DBDownloadChecksum);
  save_checksum : DBDownloadChecksum → eff S unit;
  delete_checksums : Z → eff S unit
}.

(** The provided method, over the operations it is defined by. *)
Section default.
Context {S : Type} (save_task : DBDownloadTask → eff S unit) (delete_workers : Z → eff S unit)
  (save_worker : DBDownloadWorker → eff S unit)
  (save_pieces : Z → list DBDownloadPiece → eff S unit)
  (save_blocks : Z → list DBDownloadBlock → eff S unit) (delete_checksums : Z → eff S unit)
  (save_checksum : DBDownloadChecksum → eff S unit).

(** [src/src/repository/contract.rs:14-34], [Repository::save_bundle]. *)
Definition default_save_bundle (task : DBDownloadTask) (workers : list DBDownloadWorker)
    (pieces : list DBDownloadPiece) (blocks : list DBDownloadBlock)
    (checksums : list DBDownloadChecksum) : eff S unit :=
  save_task task ;;;
  delete_workers (dt_id task) ;;;
  for_each save_worker workers ;;;
  save_pieces (dt_id task) pieces ;;;
  save_blocks (dt_id task) blocks ;;;
  delete_checksums (dt_id task) ;;;
  for_each save_checksum checksums.
End default.

(** ** Sets of rows *)

(** The rows a repository holds. *)
Record repo_view := mk_view {
  v_task : DBDownloadTask → Prop;
  v_worker : DBDownloadWorker → Prop;
  v_piece : DBDownloadPiece → Prop;
  v_block : DBDownloadBlock → Prop;
  v_checksum : DBDownloadChecksum → Prop
}.

#[export] Instance repo_view_equiv : Equiv repo_view := λ v w,
  (∀ x, v_task v x ↔ v_task w x) ∧ (∀ x, v_worker v x ↔ v_worker w x) ∧
  (∀ x, v_piece v x ↔ v_piece w x) ∧ (∀ x, v_block v x ↔ v_block w x) ∧
  (∀ x, v_checksum v x ↔ v_checksum w x).
#[export] Instance repo_view_equivalence : Equivalence (≡@{repo_view}).
Proof.
  split.
  - intros v. by split_and!.
  - intros v w (? & ? & ? & ? & ?). split_and!; intros x; symmetry; auto.
  - intros u v w (H1 & H2 & H3 & H4 & H5) (K1 & K2 & K3 & K4 & K5).
    split_and!; intros x; [rewrite H1|rewrite H2|rewrite H3|rewrite H4|rewrite H5]; auto.
Qed.

Definition view_empty : repo_view :=
  mk_view (λ _, False) (λ _, False) (λ _, False) (λ _, False) (λ _, False).

(** Adding a row in the place of the one with the same key; removing the rows
    of a task; replacing them. *)
Definition upsert {A K} (key : A → K) (a : A) (P : A → Prop) : A → Prop :=
  λ x, x = a ∨ (P x ∧ key x ≠ key a).
Definition without {A} (task : A → Z) (id : Z) (P : A → Prop) : A → Prop :=
  λ x, P x ∧ task x ≠ id.
Definition replaced {A} (task : A → Z) (id : Z) (l : list A) (P : A → Prop) : A → Prop :=
  λ x, x ∈ l ∨ without task id P x.

Definition worker_key (w : DBDownloadWorker) : Z * Z := (dw_task_id w, dw_index w).
Definition piece_key (p : DBDownloadPiece) : Z * Z := (dp_task_id p, dp_piece_index p).
Definition block_key (b : DBDownloadBlock) : Z * Z * Z :=
  (db_task_id b, db_piece_index b, db_block_index b).
Definition checksum_key (c : DBDownloadChecksum) : Z * string := (dc_task_id c, dc_algorithm c).

Definition put_task (t : DBDownloadTask) (v : repo_view) : repo_view :=
  mk_view (upsert dt_id t (v_task v)) (v_worker v) (v_piece v) (v_block v) (v_checksum v).
Definition drop_task (id : Z) (v : repo_view) : repo_view :=
  mk_view (without dt_id id (v_task v)) (without dw_task_id id (v_worker v))
    (without dp_task_id id (v_piece v)) (without db_task_id id (v_block v))
    (without dc_task_id id (v_checksum v)).
Definition put_worker (w : DBDownloadWorker) (v : repo_view) : repo_view :=
  mk_view (v_task v) (upsert worker_key w (v_worker v)) (v_piece v) (v_block v) (v_checksum v).
Definition set_workers (id : Z) (l : list DBDownloadWorker) (v : repo_view) : repo_view :=
  mk_view (v_task v) (replaced dw_task_id id l (v_worker v)) (v_piece v) (v_block v) (v_checksum v).
Definition set_pieces (id : Z) (l : list DBDownloadPiece) (v : repo_view) : repo_view :=
  mk_view (v_task v) (v_worker v) (replaced dp_task_id id l (v_piece v)) (v_block v) (v_checksum v).
Definition set_blocks (id : Z) (l : list DBDownloadBlock) (v : repo_view) : repo_view :=
  mk_view (v_task v) (v_worker v) (v_piece v) (replaced db_task_id id l (v_block v)) (v_checksum v).
Definition put_checksum (c : DBDownloadChecksum) (v : repo_view) : repo_view :=
  mk_view (v_task v) (v_worker v) (v_piece v) (v_block v) (upsert checksum_key c (v_checksum v)).
Definition set_checksums (id : Z) (l : list DBDownloadChecksum) (v : repo_view) : repo_view :=
  mk_view (v_task v) (v_worker v) (v_piece v) (v_block v) (replaced dc_task_id id l (v_checksum v)).

(** Nothing of the other tasks goes, and nothing new comes. *)
Definition keeps_others {A} (task : A → Z) (id : Z) (P Q : A → Prop) : Prop :=
  ∀ x, (Q x → P x) ∧ (P x → task x ≠ id → Q x).
(** The task's own row is gone; of the other tables only its rows may be. *)
Definition dropped (id : Z) (v v' : repo_view) : Prop :=
  (∀ t, v_task v' t ↔ without dt_id id (v_task v) t) ∧
  keeps_others dw_task_id id (v_worker v) (v_worker v') ∧
  keeps_others dp_task_id id (v_piece v) (v_piece v') ∧
  keeps_others db_task_id id (v_block v) (v_block v') ∧
  keeps_others dc_task_id id (v_checksum v) (v_checksum v').

(** The rows given to [save_bundle] and its kin belong to one task and have
    distinct indices. *)
Definition rows_of {A K} (task : A → Z) (key : A → K) (id : Z) (l : list A) : Prop :=
  Forall (λ a, task a = id) l ∧ NoDup (key <$> l).

(** ** Loading *)

Definition task_le (a b : DBDownloadTask) : bool := dt_id a <=? dt_id b.
Definition worker_le (a b : DBDownloadWorker) : bool := dw_index a <=? dw_index b.
Definition piece_le (a b : DBDownloadPiece) : bool := dp_piece_index a <=? dp_piece_index b.
Definition block_le (a b : DBDownloadBlock) : bool :=
  pair_leb (db_piece_index a, db_block_index a) (db_piece_index b, db_block_index b).
Definition checksum_le (a b : DBDownloadChecksum) : bool :=
  String.leb (dc_algorithm a) (dc_algorithm b).

(** A list of the rows of a set, in strictly increasing order. *)
Definition is_rows {A} (le : A → A → bool) (P : A → Prop) (l : list A) : Prop :=
  StronglySorted (λ a b, le a b = true ∧ le b a = false) l ∧ ∀ x, x ∈ l ↔ P x.

(** A comparison by an index. *)
Class IndexOrder {A J : Type} (le : A → A → bool) (index : A → J) := {
  io_total a b : le a b = false → le b a = true;
  io_trans a b c : le a b = true → le b c = true → le a c = true;
  io_antisym a b : le a b = true → le b a = true → index a = index b
}.
#[export] Instance z_index_order {A} (index : A → Z) :
  IndexOrder (λ a b, index a <=? index b) index.
Proof. split; intros *; rewrite ?Z.leb_le, ?Z.leb_gt; lia. Qed.
#[export] Instance task_order : IndexOrder task_le dt_id := z_index_order dt_id.
#[export] Instance worker_order : IndexOrder worker_le dw_index := z_index_order dw_index.
#[export] Instance piece_order : IndexOrder piece_le dp_piece_index := z_index_order dp_piece_index.
#[export] Instance block_order : IndexOrder block_le (λ b, (db_piece_index b, db_block_index b)).
Proof.
  split; unfold block_le.
  - intros a b. apply pair_leb_total.
  - intros a b c. apply pair_leb_trans.
  - intros a b. unfold pair_leb. simpl.
    rewrite !orb_true_iff, !andb_true_iff, !Z.ltb_lt, !Z.eqb_eq, !Z.leb_le.
    intros. f_equal; lia.
Qed.
#[export] Instance checksum_order : IndexOrder checksum_le dc_algorithm.
Proof.
  split; unfold checksum_le.
  - intros a b H. destruct (String.leb_total (dc_algorithm a) (dc_algorithm b)); congruence.
  - intros a b c. apply leb_string_trans.
  - intros a b. apply String.leb_antisym.
Qed.

(** Sorting the selected rows of a table whose indices are distinct. *)
Lemma sort_rows {A J} (le : A → A → bool) (index : A → J) `{!IndexOrder le index} l :
  NoDup (index <$> l) → is_rows le (λ x, x ∈ l) (sort_by le l).
Proof.
  intros Hnd. split; [|intros x; apply elem_of_sort_by].
  assert (NoDup (index <$> sort_by le l)) as Hnd' by (by rewrite sort_by_perm).
  pose proof (sort_by_sorted le (io_total (index:=index)) (io_trans (index:=index)) l) as Hs. revert Hnd' Hs.
  generalize (sort_by le l) as k. clear Hnd l.
  induction k as [|a k IH]; intros Hnd Hs; [constructor|].
  rewrite fmap_cons in Hnd. apply NoDup_cons in Hnd as [Ha Hnd].
  apply StronglySorted_inv in Hs as [Hs Hle]. constructor; [by apply IH|].
  rewrite Forall_forall in Hle |- *. intros b Hb. split; [by apply Hle|].
  apply not_true_is_false. intros Hba. apply Ha.
  rewrite (io_antisym (index:=index) a b (Hle b Hb) Hba). by apply list_elem_of_fmap_2.
Qed.

Lemma is_rows_ext {A} le (P Q : A → Prop) l :
  (∀ x, P x ↔ Q x) → is_rows le P l → is_rows le Q l.
Proof. intros HPQ [Hs Hin]. split; [done|]. intros x. by rewrite Hin. Qed.

(** There is only one such list. *)
Lemma is_rows_unique {A J} (le : A → A → bool) (index : A → J) `{!IndexOrder le index} P l k :
  is_rows le P l → is_rows le P k → l = k.
Proof.
  intros [Hs Hl] [Ks Kl].
  assert (∀ k', StronglySorted (λ a b, le a b = true ∧ le b a = false) k' → NoDup k') as Hnd.
  { induction 1 as [|a k' Hk IH Ha]; constructor; [|done]. intros Hin.
    rewrite Forall_forall in Ha. destruct (Ha a Hin). congruence. }
  rewrite <- (sort_by_permutation le (io_total (index:=index)) (io_trans (index:=index)) k l Ks).
  - symmetry. apply sort_by_permutation; [apply (io_total (index:=index))|apply (io_trans (index:=index))|done|done].
  - apply NoDup_Permutation; [by apply Hnd|by apply Hnd|]. intros x. by rewrite Hl, Kl.
Qed.

(** ** The contract *)

(** [op] succeeds and its effect on the view is [f]. *)
Definition updates {S} (ok : S → Prop) (view : S → repo_view) (op : eff S unit)
    (f : repo_view → repo_view) : Prop :=
  ∀ s, ok s → ∃ s', op s = (Ok tt, s') ∧ ok s' ∧ view s' ≡ f (view s).

(** [op] succeeds, changes nothing, and answers something that satisfies [P]. *)
Definition reads {S A} (ok : S → Prop) (view : S → repo_view) (op : eff S A)
    (P : repo_view → A → Prop) : Prop :=
  ∀ s, ok s → ∃ a, op s = (Ok a, s) ∧ P (view s) a.

(** The row with some id, if there is one. *)
Definition is_row {A} (P : A → Prop) (id : A → Z) (i : Z) (o : option A) : Prop :=
  match o with
  | Some a => P a ∧ id a = i
  | None => ∀ a, P a → id a ≠ i
  end.

Class RepositoryLaws (S : Type) `{Repository S} := {
  repo_ok : S → Prop;
  view : S → repo_view;
  (** The rows as they are stored: only the id of a row may change. *)
  stored_worker : DBDownloadWorker → DBDownloadWorker;
  stored_checksum : DBDownloadChecksum → DBDownloadChecksum;
  stored_worker_id w : stored_worker w <| dw_id := dw_id w |> = w;
  stored_checksum_id c : stored_checksum c <| dc_id := dc_id c |> = c;
  law_load_tasks : reads repo_ok view load_tasks (λ v l, is_rows task_le (v_task v) l);
  law_load_task id : reads repo_ok view (load_task id) (λ v o, is_row (v_task v) dt_id id o);
  law_save_task t : updates repo_ok view (save_task t) (put_task t);
  (** SQLite keeps the task's rows in the other tables, but for its blocks; the
      other repositories keep none. *)
  law_delete_task id s : repo_ok s →
    ∃ s', delete_task id s = (Ok tt, s') ∧ repo_ok s' ∧ dropped id (view s) (view s');
  law_save_bundle t ws ps bs cs :
    rows_of dw_task_id worker_key (dt_id t) ws → rows_of dp_task_id piece_key (dt_id t) ps →
    rows_of db_task_id block_key (dt_id t) bs → rows_of dc_task_id checksum_key (dt_id t) cs →
    updates repo_ok view (save_bundle t ws ps bs cs) (λ v,
      set_checksums (dt_id t) (stored_checksum <$> cs)
        (set_blocks (dt_id t) bs (set_pieces (dt_id t) ps
          (set_workers (dt_id t) (stored_worker <$> ws) (put_task t v)))));
  law_load_workers id : reads repo_ok view (load_workers id)
    (λ v l, is_rows worker_le (λ x, v_worker v x ∧ dw_task_id x = id) l);
  law_load_worker i : reads repo_ok view (load_worker i) (λ v o, is_row (v_worker v) dw_id i o);
  law_save_worker w : updates repo_ok view (save_worker w) (put_worker (stored_worker w));
  law_delete_workers id : updates repo_ok view (delete_workers id) (set_workers id []);
  law_load_pieces id : reads repo_ok view (load_pieces id)
    (λ v l, is_rows piece_le (λ x, v_piece v x ∧ dp_task_id x = id) l);
  law_save_pieces id ps : rows_of dp_task_id piece_key id ps →
    updates repo_ok view (save_pieces id ps) (set_pieces id ps);
  law_delete_pieces id : updates repo_ok view (delete_pieces id) (set_pieces id []);
  law_load_blocks id : reads repo_ok view (load_blocks id)
    (λ v l, is_rows block_le (λ x, v_block v x ∧ db_task_id x = id) l);
  law_save_blocks id bs : rows_of db_task_id block_key id bs →
    updates repo_ok view (save_blocks id bs) (set_blocks id bs);
  law_delete_blocks id : updates repo_ok view (delete_blocks id) (set_blocks id []);
  law_load_checksums id : reads repo_ok view (load_checksums id)
    (λ v l, is_rows checksum_le (λ x, v_checksum v x ∧ dc_task_id x = id) l);
  law_load_checksum i : reads repo_ok view (load_checksum i) (λ v o, is_row (v_checksum v) dc_id i o);
  law_save_checksum c : updates repo_ok view (save_checksum c) (put_checksum (stored_checksum c));
  law_delete_checksums id : updates repo_ok view (delete_checksums id) (set_checksums id [])
}.

(** A repository that deletes all rows of a task with it. *)
Class DeletesAll (S : Type) `{RepositoryLaws S} : Prop :=
  law_delete_all id : updates repo_ok view (delete_task id) (drop_task id).

(** ** Composing updates *)

(** Two views that agree still agree after the same operation. *)
Ltac solve_view_proper :=
  intros ?? (H1 & H2 & H3 & H4 & H5); split_and!; intros ?; simpl;
  unfold upsert, without, replaced, without; rewrite ?H1, ?H2, ?H3, ?H4, ?H5; reflexivity.

#[export] Instance put_task_proper t : Proper ((≡) ==> (≡)) (put_task t).
Proof. solve_view_proper. Qed.
#[export] Instance drop_task_proper id : Proper ((≡) ==> (≡)) (drop_task id).
Proof. solve_view_proper. Qed.
#[export] Instance put_worker_proper w : Proper ((≡) ==> (≡)) (put_worker w).
Proof. solve_view_proper. Qed.
#[export] Instance put_checksum_proper c : Proper ((≡) ==> (≡)) (put_checksum c).
Proof. solve_view_proper. Qed.
#[export] Instance set_workers_proper id l : Proper ((≡) ==> (≡)) (set_workers id l).
Proof. solve_view_proper. Qed.
#[export] Instance set_pieces_proper id l : Proper ((≡) ==> (≡)) (set_pieces id l).
Proof. solve_view_proper. Qed.
#[export] Instance set_blocks_proper id l : Proper ((≡) ==> (≡)) (set_blocks id l).
Proof. solve_view_proper. Qed.
#[export] Instance set_checksums_proper id l : Proper ((≡) ==> (≡)) (set_checksums id l).
Proof. solve_view_proper. Qed.

Section compose.
Context {S : Type} (ok : S → Prop) (view : S → repo_view).

Lemma updates_ret : updates ok view (ret tt) id.
Proof. intros s Hs. by exists s. Qed.

Lemma updates_bind op1 op2 f g :
  updates ok view op1 f → updates ok view op2 g → Proper ((≡) ==> (≡)) g →
  updates ok view (op1 ;;; op2) (λ v, g (f v)).
Proof.
  intros H1 H2 Hg s Hs. destruct (H1 s Hs) as (s1 & E1 & Hs1 & V1).
  destruct (H2 s1 Hs1) as (s2 & E2 & Hs2 & V2). exists s2.
  rewrite (eff_bind_ok _ _ _ _ _ E1). split_and!; [done|done|]. by rewrite V2, V1.
Qed.

Lemma updates_dropped op id : updates ok view op (drop_task id) →
  ∀ s, ok s → ∃ s', op s = (Ok tt, s') ∧ ok s' ∧ dropped id (view s) (view s').
Proof.
  intros Hop s Hs. destruct (Hop s Hs) as (s' & E & Hs' & (V1 & V2 & V3 & V4 & V5)). exists s'.
  split_and!; [done|done|]. split_and!; [exact V1|..]; intros x.
  - rewrite V2. cbn. unfold without. tauto.
  - rewrite V3. cbn. unfold without. tauto.
  - rewrite V4. cbn. unfold without. tauto.
  - rewrite V5. cbn. unfold without. tauto.
Qed.

Lemma updates_ext op f g :
  (∀ v, f v ≡ g v) → updates ok view op f → updates ok view op g.
Proof.
  intros Hfg H s Hs. destruct (H s Hs) as (s' & E & Hs' & V). exists s'.
  split_and!; [done|done|]. by rewrite V.
Qed.

Lemma updates_for_each {A} (op : A → eff S unit) (f : A → repo_view → repo_view) l :
  (∀ a, updates ok view (op a) (f a)) → (∀ a, Proper ((≡) ==> (≡)) (f a)) →
  updates ok view (for_each op l) (λ v, foldl (λ v a, f a v) v l).
Proof.
  intros Hop Hf. induction l as [|a l IH]; cbn [for_each foldl]; [apply updates_ret|].
  apply (updates_bind _ _ _ (λ v, foldl (λ v a, f a v) v l)); [apply Hop|exact IH|].
  clear IH. induction l as [|b l IH]; intros v w Hvw; simpl; [done|]. apply IH. by apply Hf.
Qed.
End compose.

(** Adding rows one by one to a task that has none is replacing its rows. *)
Lemma foldl_upsert {A K} (key : A → K) l P x :
  NoDup (key <$> l) →
  foldl (λ P a, upsert key a P) P l x ↔ x ∈ l ∨ (P x ∧ key x ∉ key <$> l).
Proof.
  revert P. induction l as [|a l IH]; intros P Hnd; cbn [foldl]; [set_solver|].
  rewrite fmap_cons in Hnd. apply NoDup_cons in Hnd as [Ha Hnd]. rewrite IH by done.
  unfold upsert. csimpl. rewrite !elem_of_cons. split.
  - intros [Hx|[[->|[Hx Hk]] Hnk]]; tauto.
  - intros [[->|Hx]|[Hx Hk]]; tauto.
Qed.

Lemma foldl_upsert_replaced {A K} (task : A → Z) (key : A → K) id l P x :
  (∀ a b, key a = key b → task a = task b) → rows_of task key id l →
  foldl (λ P a, upsert key a P) (replaced task id [] P) l x ↔ replaced task id l P x.
Proof.
  intros Hkey [Ht Hnd]. rewrite foldl_upsert by done. unfold replaced, without.
  rewrite Forall_forall in Ht. split.
  - intros [Hx|[[Hx|Hx] _]]; [by left|by apply elem_of_nil in Hx|by right].
  - intros [Hx|[Hx Hid]]; [by left|]. right. split; [by right|].
    intros (y & Hy & Hin)%list_elem_of_fmap. apply Hid. rewrite (Hkey _ _ Hy). by apply Ht.
Qed.

Lemma foldl_put_workers id l v :
  rows_of dw_task_id worker_key id l →
  foldl (λ v w, put_worker w v) (set_workers id [] v) l ≡ set_workers id l v.
Proof.
  intros Hl.
  assert (∀ l v, foldl (λ v w, put_worker w v) v l =
    mk_view (v_task v) (foldl (λ P a, upsert worker_key a P) (v_worker v) l) (v_piece v)
      (v_block v) (v_checksum v)) as ->.
  { clear. induction l as [|a l IH]; intros []; simpl; [done|]. by rewrite IH. }
  split_and!; intros x; try done. simpl. apply foldl_upsert_replaced; [|done].
  by intros ?? [= ? _].
Qed.

Lemma foldl_put_checksums id l v :
  rows_of dc_task_id checksum_key id l →
  foldl (λ v w, put_checksum w v) (set_checksums id [] v) l ≡ set_checksums id l v.
Proof.
  intros Hl.
  assert (∀ l v, foldl (λ v w, put_checksum w v) v l =
    mk_view (v_task v) (v_worker v) (v_piece v) (v_block v)
      (foldl (λ P a, upsert checksum_key a P) (v_checksum v) l)) as ->.
  { clear. induction l as [|a l IH]; intros []; simpl; [done|]. by rewrite IH. }
  split_and!; intros x; try done. simpl. apply foldl_upsert_replaced; [|done].
  by intros ?? [= ? _].
Qed.

Lemma foldl_view_proper {A} (f : A → repo_view → repo_view) l v w :
  (∀ a, Proper ((≡) ==> (≡)) (f a)) → v ≡ w →
  foldl (λ v a, f a v) v l ≡ foldl (λ v a, f a v) w l.
Proof. intros Hf. revert v w. induction l as [|a l IH]; intros v w H; simpl; [done|]. by apply IH, Hf. Qed.

Lemma foldl_fmap {A B C} (f : A → C → C) (g : B → A) l v :
  foldl (λ v b, f (g b) v) v l = foldl (λ v a, f a v) v (g <$> l).
Proof. revert v. induction l as [|b l IH]; intros v; csimpl; [done|]. apply IH. Qed.

Section default_law.
Context {S : Type} (ok : S → Prop) (view : S → repo_view)
  (stored_worker : DBDownloadWorker → DBDownloadWorker)
  (stored_checksum : DBDownloadChecksum → DBDownloadChecksum)
  (save_task : DBDownloadTask → eff S unit) (delete_workers : Z → eff S unit)
  (save_worker : DBDownloadWorker → eff S unit)
  (save_pieces : Z → list DBDownloadPiece → eff S unit)
  (save_blocks : Z → list DBDownloadBlock → eff S unit) (delete_checksums : Z → eff S unit)
  (save_checksum : DBDownloadChecksum → eff S unit).
Hypothesis Hsw : ∀ w, worker_key (stored_worker w) = worker_key w.
Hypothesis Hsc : ∀ c, checksum_key (stored_checksum c) = checksum_key c.
Hypothesis Htask : ∀ t, updates ok view (save_task t) (put_task t).
Hypothesis Hdw : ∀ id, updates ok view (delete_workers id) (set_workers id []).
Hypothesis Hw : ∀ w, updates ok view (save_worker w) (put_worker (stored_worker w)).
Hypothesis Hp : ∀ id ps, rows_of dp_task_id piece_key id ps →
  updates ok view (save_pieces id ps) (set_pieces id ps).
Hypothesis Hb : ∀ id bs, rows_of db_task_id block_key id bs →
  updates ok view (save_blocks id bs) (set_blocks id bs).
Hypothesis Hdc : ∀ id, updates ok view (delete_checksums id) (set_checksums id []).
Hypothesis Hc : ∀ c, updates ok view (save_checksum c) (put_checksum (stored_checksum c)).

Lemma rows_of_stored {A K} (task : A → Z) (key : A → K) (f : A → A) id l :
  (∀ a, key (f a) = key a) → (∀ a, task (f a) = task a) →
  rows_of task key id l → rows_of task key id (f <$> l).
Proof.
  intros Hk Ht [H Hnd]. split.
  - apply Forall_fmap. eapply Forall_impl; [exact H|]. intros a <-. apply Ht.
  - rewrite <- list_fmap_compose. erewrite list_fmap_ext; [exact Hnd|]. intros ???. apply Hk.
Qed.

(** Rewriting the workers of a task, and its checksums. *)
Lemma workers_rewritten id ws s :
  rows_of dw_task_id worker_key id ws → ok s →
  ∃ s1 s2, delete_workers id s = (Ok tt, s1) ∧ for_each save_worker ws s1 = (Ok tt, s2) ∧ ok s2 ∧
    view s2 ≡ set_workers id (stored_worker <$> ws) (view s).
Proof.
  intros Hr Hs. destruct (Hdw id s Hs) as (s1 & E1 & O1 & V1).
  destruct (updates_for_each ok view save_worker (λ w, put_worker (stored_worker w)) ws Hw _ s1 O1)
    as (s2 & E2 & O2 & V2).
  exists s1, s2. split_and!; [done..|]. rewrite V2, (foldl_fmap put_worker stored_worker).
  rewrite (foldl_view_proper put_worker _ _ _ _ V1). apply foldl_put_workers.
  apply rows_of_stored; [done| |done]. intros w. pose proof (Hsw w) as Hk. by injection Hk.
Qed.

Lemma checksums_rewritten id cs s :
  rows_of dc_task_id checksum_key id cs → ok s →
  ∃ s1 s2, delete_checksums id s = (Ok tt, s1) ∧ for_each save_checksum cs s1 = (Ok tt, s2) ∧
    ok s2 ∧ view s2 ≡ set_checksums id (stored_checksum <$> cs) (view s).
Proof.
  intros Hr Hs. destruct (Hdc id s Hs) as (s1 & E1 & O1 & V1).
  destruct (updates_for_each ok view save_checksum (λ w, put_checksum (stored_checksum w)) cs Hc _
    s1 O1) as (s2 & E2 & O2 & V2).
  exists s1, s2. split_and!; [done..|]. rewrite V2, (foldl_fmap put_checksum stored_checksum).
  rewrite (foldl_view_proper put_checksum _ _ _ _ V1). apply foldl_put_checksums.
  apply rows_of_stored; [done| |done]. intros c. pose proof (Hsc c) as Hk. by injection Hk.
Qed.

(** The provided [save_bundle] replaces everything that is stored of the task. *)
Lemma default_save_bundle_updates t ws ps bs cs :
  rows_of dw_task_id worker_key (dt_id t) ws → rows_of dp_task_id piece_key (dt_id t) ps →
  rows_of db_task_id block_key (dt_id t) bs → rows_of dc_task_id checksum_key (dt_id t) cs →
  updates ok view
    (default_save_bundle save_task delete_workers save_worker save_pieces save_blocks
       delete_checksums save_checksum t ws ps bs cs)
    (λ v, set_checksums (dt_id t) (stored_checksum <$> cs)
      (set_blocks (dt_id t) bs (set_pieces (dt_id t) ps
        (set_workers (dt_id t) (stored_worker <$> ws) (put_task t v))))).
Proof.
  intros Hrw Hrp Hrb Hrc s Hs. unfold default_save_bundle.
  destruct (Htask t s Hs) as (s1 & E1 & O1 & V1).
  destruct (workers_rewritten _ ws s1 Hrw O1) as (s2 & s3 & E2 & E3 & O3 & V3).
  destruct (Hp _ ps Hrp s3 O3) as (s4 & E4 & O4 & V4).
  destruct (Hb _ bs Hrb s4 O4) as (s5 & E5 & O5 & V5).
  destruct (checksums_rewritten _ cs s5 Hrc O5) as (s6 & s7 & E6 & E7 & O7 & V7).
  exists s7. rewrite (eff_bind_ok _ _ _ _ _ E1), (eff_bind_ok _ _ _ _ _ E2),
    (eff_bind_ok _ _ _ _ _ E3), (eff_bind_ok _ _ _ _ _ E4), (eff_bind_ok _ _ _ _ _ E5),
    (eff_bind_ok _ _ _ _ _ E6).
  split_and!; [done|done|]. by rewrite V7, V5, V4, V3, V1.
Qed.
End default_law.

(** ** Sequences of changes *)

(** A change of a repository. *)
Inductive repo_write :=
  | WSaveTask (t : DBDownloadTask)
  | WDeleteTask (id : Z)
  | WSaveBundle (t : DBDownloadTask) (ws : list DBDownloadWorker) (ps : list DBDownloadPiece)
      (bs : list DBDownloadBlock) (cs : list DBDownloadChecksum)
  | WSaveWorker (w : DBDownloadWorker)
  | WDeleteWorkers (id : Z)
  | WSavePieces (id : Z) (ps : list DBDownloadPiece)
  | WDeletePieces (id : Z)
  | WSaveBlocks (id : Z) (bs : list DBDownloadBlock)
  | WDeleteBlocks (id : Z)
  | WSaveChecksum (c : DBDownloadChecksum)
  | WDeleteChecksums (id : Z).

Definition run_write {St} `{Repository St} (op : repo_write) : eff St unit :=
  match op with
  | WSaveTask t => save_task t
  | WDeleteTask id => delete_task id
  | WSaveBundle t ws ps bs cs => save_bundle t ws ps bs cs
  | WSaveWorker w => save_worker w
  | WDeleteWorkers id => delete_workers id
  | WSavePieces id ps => save_pieces id ps
  | WDeletePieces id => delete_pieces id
  | WSaveBlocks id bs => save_blocks id bs
  | WDeleteBlocks id => delete_blocks id
  | WSaveChecksum c => save_checksum c
  | WDeleteChecksums id => delete_checksums id
  end.

(** The rows of a change belong to its task, each once. *)
Definition write_ok (op : repo_write) : Prop :=
  match op with
  | WSaveBundle t ws ps bs cs =>
      rows_of dw_task_id worker_key (dt_id t) ws ∧ rows_of dp_task_id piece_key (dt_id t) ps ∧
      rows_of db_task_id block_key (dt_id t) bs ∧ rows_of dc_task_id checksum_key (dt_id t) cs
  | WSavePieces id ps => rows_of dp_task_id piece_key id ps
  | WSaveBlocks id bs => rows_of db_task_id block_key id bs
  | _ => True
  end.

(** What it does to the rows. *)
Definition view_write (fw : DBDownloadWorker → DBDownloadWorker)
    (fc : DBDownloadChecksum → DBDownloadChecksum) (op : repo_write) : repo_view → repo_view :=
  match op with
  | WSaveTask t => put_task t
  | WDeleteTask id => drop_task id
  | WSaveBundle t ws ps bs cs => λ v,
      set_checksums (dt_id t) (fc <$> cs) (set_blocks (dt_id t) bs (set_pieces (dt_id t) ps
        (set_workers (dt_id t) (fw <$> ws) (put_task t v))))
  | WSaveWorker w => put_worker (fw w)
  | WDeleteWorkers id => set_workers id []
  | WSavePieces id ps => set_pieces id ps
  | WDeletePieces id => set_pieces id []
  | WSaveBlocks id bs => set_blocks id bs
  | WDeleteBlocks id => set_blocks id []
  | WSaveChecksum c => put_checksum (fc c)
  | WDeleteChecksums id => set_checksums id []
  end.

#[export] Instance view_write_proper fw fc op : Proper ((≡) ==> (≡)) (view_write fw fc op).
Proof. destruct op; simpl; try apply _. intros v w Hvw. by rewrite Hvw. Qed.

Section writes.
Context {St : Type} `{RepositoryLaws St} `{!DeletesAll St}.

Lemma run_write_updates op :
  write_ok op → updates repo_ok view (run_write op) (view_write stored_worker stored_checksum op).
Proof.
  destruct op; simpl; intros Hop.
  - apply law_save_task.
  - apply law_delete_all.
  - destruct Hop as (? & ? & ? & ?). by apply law_save_bundle.
  - apply law_save_worker.
  - apply law_delete_workers.
  - by apply law_save_pieces.
  - apply law_delete_pieces.
  - by apply law_save_blocks.
  - apply law_delete_blocks.
  - apply law_save_checksum.
  - apply law_delete_checksums.
Qed.

Lemma run_writes_updates ops :
  Forall write_ok ops →
  updates repo_ok view (for_each run_write ops)
    (λ v, foldl (λ v op, view_write stored_worker stored_checksum op v) v ops).
Proof.
  induction 1 as [|op ops Hop _ IH]; cbn [for_each foldl]; [apply updates_ret|].
  eapply (updates_bind _ _ _ _ _ (λ v, foldl (λ v op, view_write stored_worker stored_checksum op v) v ops));
    [by apply run_write_updates|exact IH|].
  intros v w Hvw. apply foldl_view_proper; [apply _|done].
Qed.
End writes.

(** ** Rows up to their ids *)

Definition erase_worker (w : DBDownloadWorker) : DBDownloadWorker := w <| dw_id := 0 |>.
Definition erase_checksum (c : DBDownloadChecksum) : DBDownloadChecksum := c <| dc_id := 0 |>.

(** The rows of [P] under [erase]. *)
Definition erased {A} (erase : A → A) (P : A → Prop) : A → Prop := λ x, ∃ y, P y ∧ erase y = x.

Definition view_erased (v : repo_view) : repo_view :=
  mk_view (v_task v) (erased erase_worker (v_worker v)) (v_piece v) (v_block v)
    (erased erase_checksum (v_checksum v)).

Section erased.
Context {A K : Type} (erase f : A → A) (key : A → K) (task : A → Z).
Hypothesis erase_key : ∀ a, key (erase a) = key a.
Hypothesis erase_task : ∀ a, task (erase a) = task a.
Hypothesis erase_f : ∀ a, erase (f a) = erase a.

Lemma erased_upsert a P x :
  erased erase (upsert key (f a) P) x ↔ upsert key (erase a) (erased erase P) x.
Proof.
  assert (key (f a) = key a) as Hk by (rewrite <- (erase_key (f a)), erase_f; apply erase_key).
  unfold erased, upsert. split.
  - intros (y & [->|[HP Hy]] & <-); [by left|]. right. split; [by exists y|].
    rewrite !erase_key. congruence.
  - intros [->|[(y & HP & <-) Hy]]; [exists (f a); split; [by left|done]|].
    rewrite !erase_key in Hy. exists y. split; [|done]. right. split; [done|congruence].
Qed.

Lemma erased_without id P x :
  erased erase (without task id P) x ↔ without task id (erased erase P) x.
Proof.
  unfold erased, without. split.
  - intros (y & [HP Ht] & <-). split; [by exists y|]. by rewrite erase_task.
  - intros [(y & HP & <-) Ht]. exists y. rewrite erase_task in Ht. by split_and!.
Qed.

Lemma erased_replaced id l P x :
  erased erase (replaced task id (f <$> l) P) x ↔ replaced task id (erase <$> l) (erased erase P) x.
Proof.
  unfold replaced. rewrite <- erased_without. unfold erased. split.
  - intros (y & [(z & -> & Hz)%list_elem_of_fmap|HP] & <-); [left|right; by exists y].
    rewrite erase_f. by apply list_elem_of_fmap_2.
  - intros [(z & -> & Hz)%list_elem_of_fmap|(y & HP & <-)].
    + exists (f z). rewrite erase_f. split; [left|done]. by apply list_elem_of_fmap_2.
    + exists y. split; [by right|done].
Qed.

Lemma erased_rows (le : A → A → bool) P l :
  (∀ a b, le (erase a) (erase b) = le a b) → is_rows le P l →
  is_rows le (erased erase P) (erase <$> l).
Proof.
  intros Hle [Hs Hl]. split.
  - apply StronglySorted_fmap_2. eapply StronglySorted_weaken; [|exact Hs].
    intros a b. by rewrite !Hle.
  - intros x. unfold erased. rewrite list_elem_of_fmap. setoid_rewrite Hl. naive_solver.
Qed.
End erased.

Lemma view_erased_write fw fc op v :
  (∀ w, erase_worker (fw w) = erase_worker w) →
  (∀ c, erase_checksum (fc c) = erase_checksum c) →
  view_erased (view_write fw fc op v) ≡ view_write erase_worker erase_checksum op (view_erased v).
Proof.
  intros Hw Hc. destruct op; split_and!; intros x; simpl; try done;
    try (by apply erased_upsert); try (by apply erased_without); try (by apply erased_replaced).
  - exact (erased_replaced erase_worker fw dw_task_id (λ _, eq_refl) Hw id [] _ x).
  - exact (erased_replaced erase_checksum fc dc_task_id (λ _, eq_refl) Hc id [] _ x).
Qed.

(** ** Two repositories *)

(** The answers about a task, up to the ids of its rows. *)
Definition observe {St} `{Repository St} (task_id : Z) :
    eff St (list DBDownloadTask * option DBDownloadTask * list DBDownloadWorker *
            list DBDownloadPiece * list DBDownloadBlock * list DBDownloadChecksum) :=
  let! tasks := load_tasks in
  let! task := load_task task_id in
  let! workers := load_workers task_id in
  let! pieces := load_pieces task_id in
  let! blocks := load_blocks task_id in
  let! checksums := load_checksums task_id in
  ret (tasks, task, erase_worker <$> workers, pieces, blocks, erase_checksum <$> checksums).

(** The answers as the contents determine them. *)
Definition observation (v : repo_view) (task_id : Z)
    (o : list DBDownloadTask * option DBDownloadTask * list DBDownloadWorker *
         list DBDownloadPiece * list DBDownloadBlock * list DBDownloadChecksum) : Prop :=
  let '(tasks, task, workers, pieces, blocks, checksums) := o in
  is_rows task_le (v_task v) tasks ∧
  is_row (v_task v) dt_id task_id task ∧
  is_rows worker_le (λ x, v_worker v x ∧ dw_task_id x = task_id) workers ∧
  is_rows piece_le (λ x, v_piece v x ∧ dp_task_id x = task_id) pieces ∧
  is_rows block_le (λ x, v_block v x ∧ db_task_id x = task_id) blocks ∧
  is_rows checksum_le (λ x, v_checksum v x ∧ dc_task_id x = task_id) checksums.

Lemma is_row_unique P l i o1 o2 :
  is_rows task_le P l → is_row P dt_id i o1 → is_row P dt_id i o2 → o1 = o2.
Proof.
  intros [Hs Hl]. assert (∀ a b, P a → P b → dt_id a = dt_id b → a = b) as Hinj.
  { intros a b Ha%Hl Hb%Hl Hab. unfold task_le in Hs.
    destruct (StronglySorted_elems _ _ _ _ Hs Ha Hb) as [?|[[_ E]|[_ E]]]; [done| |]; bool_hyps; lia. }
  destruct o1 as [a|], o2 as [b|]; simpl.
  - intros [Ha Ia] [Hb Ib]. f_equal. apply Hinj; congruence.
  - intros [Ha Ia] Hn. by destruct (Hn a).
  - intros Hn [Hb Ib]. by destruct (Hn b).
  - done.
Qed.

Lemma observation_unique v w id o1 o2 :
  v ≡ w → observation v id o1 → observation w id o2 → o1 = o2.
Proof.
  intros (H1 & H2 & H3 & H4 & H5).
  destruct o1 as [[[[[ts t] ws] ps] bs] cs], o2 as [[[[[ts' t'] ws'] ps'] bs'] cs'].
  intros (A1 & A2 & A3 & A4 & A5 & A6) (B1 & B2 & B3 & B4 & B5 & B6).
  assert (is_row (v_task v) dt_id id t') as B2'.
  { destruct t'; simpl in *; [by rewrite H1|]. intros a Ha. by apply B2, H1. }
  rewrite (is_row_unique _ _ _ _ _ A1 A2 B2').
  rewrite (is_rows_unique task_le dt_id (v_task v) ts ts'); [|done|].
  2: { eapply is_rows_ext; [|exact B1]. intros x. by rewrite H1. }
  rewrite (is_rows_unique worker_le dw_index _ ws ws' A3).
  2: { eapply is_rows_ext; [|exact B3]. intros x. simpl. by rewrite H2. }
  rewrite (is_rows_unique piece_le dp_piece_index _ ps ps' A4).
  2: { eapply is_rows_ext; [|exact B4]. intros x. simpl. by rewrite H3. }
  rewrite (is_rows_unique block_le _ _ bs bs' A5).
  2: { eapply is_rows_ext; [|exact B5]. intros x. simpl. by rewrite H4. }
  rewrite (is_rows_unique checksum_le dc_algorithm _ cs cs' A6).
  2: { eapply is_rows_ext; [|exact B6]. intros x. simpl. by rewrite H5. }
  done.
Qed.

Section observe.
Context {St : Type} `{RepositoryLaws St}.

Lemma erase_stored_worker w : erase_worker (stored_worker w) = erase_worker w.
Proof. unfold erase_worker. rewrite <- (stored_worker_id w) at 2. by destruct (stored_worker w). Qed.
Lemma erase_stored_checksum c : erase_checksum (stored_checksum c) = erase_checksum c.
Proof. unfold erase_checksum. rewrite <- (stored_checksum_id c) at 2. by destruct (stored_checksum c). Qed.

Lemma observe_ok s id :
  repo_ok s → ∃ o, observe id s = (Ok o, s) ∧ observation (view_erased (view s)) id o.
Proof.
  intros Hs. destruct (law_load_tasks s Hs) as (ts & E1 & P1).
  destruct (law_load_task id s Hs) as (t & E2 & P2).
  destruct (law_load_workers id s Hs) as (ws & E3 & P3).
  destruct (law_load_pieces id s Hs) as (ps & E4 & P4).
  destruct (law_load_blocks id s Hs) as (bs & E5 & P5).
  destruct (law_load_checksums id s Hs) as (cs & E6 & P6).
  eexists. split.
  { unfold observe. rewrite (eff_bind_ok _ _ _ _ _ E1), (eff_bind_ok _ _ _ _ _ E2),
      (eff_bind_ok _ _ _ _ _ E3), (eff_bind_ok _ _ _ _ _ E4), (eff_bind_ok _ _ _ _ _ E5),
      (eff_bind_ok _ _ _ _ _ E6). done. }
  split_and!; [exact P1|exact P2| |exact P4|exact P5|].
  - eapply is_rows_ext; [|apply (erased_rows erase_worker worker_le); [done|exact P3]].
    intros x. simpl. unfold erased. naive_solver.
  - eapply is_rows_ext; [|apply (erased_rows erase_checksum checksum_le); [done|exact P6]].
    intros x. simpl. unfold erased. naive_solver.
Qed.

(** The contents after changes, up to ids, are those of the rows alone. *)
Lemma run_writes_erased `{!DeletesAll St} ops s :
  repo_ok s → Forall write_ok ops → ∃ s', for_each run_write ops s = (Ok tt, s') ∧ repo_ok s' ∧
    view_erased (view s') ≡
      foldl (λ v op, view_write erase_worker erase_checksum op v) (view_erased (view s)) ops.
Proof.
  intros Hs Hops. destruct (run_writes_updates ops Hops s Hs) as (s' & E & Hs' & V).
  exists s'. split_and!; [done|done|].
  assert (∀ v w : repo_view, v ≡ w → view_erased v ≡ view_erased w) as Hp.
  { intros v w (H1 & H2 & H3 & H4 & H5).
    split_and!; intros x; simpl; unfold erased; try done; [by setoid_rewrite H2|by setoid_rewrite H5]. }
  rewrite (Hp _ _ V). generalize (view s). clear -H0. induction ops as [|op ops IH]; intros v; simpl; [done|].
  rewrite IH. apply foldl_view_proper; [apply _|].
  apply view_erased_write; [apply erase_stored_worker|apply erase_stored_checksum].
Qed.
End observe.

(** Two repositories with the same contents answer alike after the same changes. *)
Lemma repositories_agree {S1 S2} `{RepositoryLaws S1} `{RepositoryLaws S2} `{!DeletesAll S1} `{!DeletesAll S2} (s1 : S1) (s2 : S2) ops id :
  repo_ok s1 → repo_ok s2 → view_erased (view s1) ≡ view_erased (view s2) →
  Forall write_ok ops →
  ∃ s1' s2' o, for_each run_write ops s1 = (Ok tt, s1') ∧ for_each run_write ops s2 = (Ok tt, s2') ∧
    observe id s1' = (Ok o, s1') ∧ observe id s2' = (Ok o, s2').
Proof.
  intros Hs1 Hs2 Hv Hops.
  destruct (run_writes_erased ops s1 Hs1 Hops) as (s1' & E1 & Ok1 & V1).
  destruct (run_writes_erased ops s2 Hs2 Hops) as (s2' & E2 & Ok2 & V2).
  destruct (observe_ok s1' id Ok1) as (o1 & O1 & P1).
  destruct (observe_ok s2' id Ok2) as (o2 & O2 & P2).
  exists s1', s2', o1. split_and!; [done|done|done|].
  rewrite O2. f_equal. f_equal. eapply observation_unique; [|exact P2|exact P1].
  rewrite V1, V2. apply foldl_view_proper; [apply _|done].
Qed.
