(* ===== verification/Memory.v ===== *)
(** * The in-memory repository ([src/src/repository/memory.rs])

    Five hash maps, whose iteration order is the one of [gmap]: what is loaded
    does not depend on it. *)

From S2P Require Import Prelude Text Status Effect Source Piece Files Checksum Manifest Planner Torrent Config Task Mapping Repository.

(** [src/src/repository/memory.rs:14-20], [MemoryRepository]. *)
Record MemoryRepository := mk_memory {
  mr_tasks : gmap Z DBDownloadTask;
  mr_workers : gmap (Z * Z) DBDownloadWorker;
  mr_pieces : gmap (Z * Z) DBDownloadPiece;
  mr_blocks : gmap (Z * Z * Z) DBDownloadBlock;
  mr_checksums : gmap (Z * string) DBDownloadChecksum
}.
#[export] Instance MemoryRepository_eta : Settable MemoryRepository := λ r,
  mk_memory (mr_tasks r) (mr_workers r) (mr_pieces r) (mr_blocks r) (mr_checksums r).

(** [src/src/repository/memory.rs:23-31], [MemoryRepository::new]. *)
Definition memory_new : MemoryRepository := mk_memory ∅ ∅ ∅ ∅ ∅.

(** [src/src/repository/memory.rs:212-214], [worker_storage_id]. *)
Definition worker_storage_id (task_id index : Z) : Z :=
  Z.lor (Z.shiftl (Z.land task_id 65535) 16) (Z.land index 65535).

(** [src/src/repository/memory.rs:216-225], [checksum_storage_id]. *)
Definition checksum_storage_id (task_id : Z) (algorithm : string) : Z :=
  let algorithm_code :=
    if bool_decide (algorithm = "MD5") then 1
    else if bool_decide (algorithm = "SHA1") then 2
    else if bool_decide (algorithm = "SHA256") then 3
    else if bool_decide (algorithm = "NONE") then 4
    else 15 in
  sat_add32 (sat_mul32 task_id 16) algorithm_code.

(** [HashMap::values]. *)
Definition values `{Countable K} {A} (m : gmap K A) : list A := snd <$> map_to_list m.
(** [HashMap::retain] by the value. *)
Definition retain `{Countable K} {A} (p : A → bool) (m : gmap K A) : gmap K A :=
  filter (λ kv, p kv.2 = true) m.

Definition stored_memory_worker (worker : DBDownloadWorker) : DBDownloadWorker :=
  worker <| dw_id := worker_storage_id (dw_task_id worker) (dw_index worker) |>.
Definition stored_memory_checksum (checksum : DBDownloadChecksum) : DBDownloadChecksum :=
  checksum <| dc_id := checksum_storage_id (dc_task_id checksum) (dc_algorithm checksum) |>.

Abbreviation mem := (eff MemoryRepository).

(** [src/src/repository/memory.rs:37-41], [MemoryRepository::load_tasks]. *)
Definition mem_load_tasks : mem (list DBDownloadTask) :=
  gets (λ r, sort_by_key dt_id (values (mr_tasks r))).
(** [src/src/repository/memory.rs:43-45], [MemoryRepository::load_task]. *)
Definition mem_load_task (task_id : Z) : mem (option DBDownloadTask) :=
  gets (λ r, mr_tasks r !! task_id).
(** [src/src/repository/memory.rs:47-50], [MemoryRepository::save_task]. *)
Definition mem_save_task (task : DBDownloadTask) : mem unit :=
  modify (λ r, r <| mr_tasks ::= <[dt_id task := task]> |>).
(** [src/src/repository/memory.rs:52-70], [MemoryRepository::delete_task]. *)
Definition mem_delete_task (task_id : Z) : mem unit :=
  modify (λ r,
    r <| mr_tasks ::= delete task_id |>
      <| mr_workers ::= retain (λ w, negb (dw_task_id w =? task_id)) |>
      <| mr_pieces ::= retain (λ p, negb (dp_task_id p =? task_id)) |>
      <| mr_blocks ::= retain (λ b, negb (db_task_id b =? task_id)) |>
      <| mr_checksums ::= retain (λ c, negb (dc_task_id c =? task_id)) |>).

(** [src/src/repository/memory.rs:73-84], [MemoryRepository::load_workers]. *)
Definition mem_load_workers (task_id : Z) : mem (list DBDownloadWorker) :=
  gets (λ r, sort_by_key dw_index (filterb (λ w, dw_task_id w =? task_id) (values (mr_workers r)))).
(** [src/src/repository/memory.rs:86-94], [MemoryRepository::load_worker]. *)
Definition mem_load_worker (worker_id : Z) : mem (option DBDownloadWorker) :=
  gets (λ r, find_first (λ w, dw_id w =? worker_id) (values (mr_workers r))).
(** [src/src/repository/memory.rs:96-104], [MemoryRepository::save_worker]. *)
Definition mem_save_worker (worker : DBDownloadWorker) : mem unit :=
  modify (λ r, r <| mr_workers ::=
    <[(dw_task_id worker, dw_index worker) := stored_memory_worker worker]> |>).
(** [src/src/repository/memory.rs:106-110], [MemoryRepository::delete_workers]. *)
Definition mem_delete_workers (task_id : Z) : mem unit :=
  modify (λ r, r <| mr_workers ::= retain (λ w, negb (dw_task_id w =? task_id)) |>).

(** [src/src/repository/memory.rs:112-123], [MemoryRepository::load_pieces]. *)
Definition mem_load_pieces (task_id : Z) : mem (list DBDownloadPiece) :=
  gets (λ r, sort_by_key dp_piece_index
               (filterb (λ p, dp_task_id p =? task_id) (values (mr_pieces r)))).
(** [src/src/repository/memory.rs:125-132], [MemoryRepository::save_pieces]. *)
Definition mem_save_pieces (task_id : Z) (pieces : list DBDownloadPiece) : mem unit :=
  modify (λ r, r <| mr_pieces ::= λ m,
    foldl (λ m p, <[(task_id, dp_piece_index p) := p]> m)
      (filter (λ kv, kv.1.1 ≠ task_id) m) pieces |>).
(** [src/src/repository/memory.rs:134-138], [MemoryRepository::delete_pieces]. *)
Definition mem_delete_pieces (task_id : Z) : mem unit :=
  modify (λ r, r <| mr_pieces ::= retain (λ p, negb (dp_task_id p =? task_id)) |>).

(** [src/src/repository/memory.rs:140-151], [MemoryRepository::load_blocks]. *)
Definition mem_load_blocks (task_id : Z) : mem (list DBDownloadBlock) :=
  gets (λ r, sort_by block_le (filterb (λ b, db_task_id b =? task_id) (values (mr_blocks r)))).
(** [src/src/repository/memory.rs:153-163], [MemoryRepository::save_blocks]. *)
Definition mem_save_blocks (task_id : Z) (blocks : list DBDownloadBlock) : mem unit :=
  modify (λ r, r <| mr_blocks ::= λ m,
    foldl (λ m b, <[(task_id, db_piece_index b, db_block_index b) := b]> m)
      (filter (λ kv, kv.1.1.1 ≠ task_id) m) blocks |>).
(** [src/src/repository/memory.rs:165-169], [MemoryRepository::delete_blocks]. *)
Definition mem_delete_blocks (task_id : Z) : mem unit :=
  modify (λ r, r <| mr_blocks ::= retain (λ b, negb (db_task_id b =? task_id)) |>).

(** [src/src/repository/memory.rs:172-183], [MemoryRepository::load_checksums]. *)
Definition mem_load_checksums (task_id : Z) : mem (list DBDownloadChecksum) :=
  gets (λ r, sort_by checksum_le
               (filterb (λ c, dc_task_id c =? task_id) (values (mr_checksums r)))).
(** [src/src/repository/memory.rs:185-193], [MemoryRepository::load_checksum]. *)
Definition mem_load_checksum (checksum_id : Z) : mem (option DBDownloadChecksum) :=
  gets (λ r, find_first (λ c, dc_id c =? checksum_id) (values (mr_checksums r))).
(** [src/src/repository/memory.rs:195-203], [MemoryRepository::save_checksum]. *)
Definition mem_save_checksum (checksum : DBDownloadChecksum) : mem unit :=
  modify (λ r, r <| mr_checksums ::=
    <[(dc_task_id checksum, dc_algorithm checksum) := stored_memory_checksum checksum]> |>).
(** [src/src/repository/memory.rs:205-209], [MemoryRepository::delete_checksums]. *)
Definition mem_delete_checksums (task_id : Z) : mem unit :=
  modify (λ r, r <| mr_checksums ::= retain (λ c, negb (dc_task_id c =? task_id)) |>).

(** [src/src/repository/memory.rs:35-210], [impl Repository for MemoryRepository]. *)
#[export] Instance memory_repository : Repository MemoryRepository := {|
  load_tasks := mem_load_tasks;
  load_task := mem_load_task;
  save_task := mem_save_task;
  delete_task := mem_delete_task;
  save_bundle := default_save_bundle mem_save_task mem_delete_workers mem_save_worker
    mem_save_pieces mem_save_blocks mem_delete_checksums mem_save_checksum;
  load_workers := mem_load_workers;
  load_worker := mem_load_worker;
  save_worker := mem_save_worker;
  delete_workers := mem_delete_workers;
  load_pieces := mem_load_pieces;
  save_pieces := mem_save_pieces;
  delete_pieces := mem_delete_pieces;
  load_blocks := mem_load_blocks;
  save_blocks := mem_save_blocks;
  delete_blocks := mem_delete_blocks;
  load_checksums := mem_load_checksums;
  load_checksum := mem_load_checksum;
  save_checksum := mem_save_checksum;
  delete_checksums := mem_delete_checksums
|}.

(** ** Tables

    A map whose keys are those of its rows is a set of rows with distinct keys. *)
Section table.
Context `{Countable K} {A : Type} (key : A → K).

Definition in_map (m : gmap K A) (a : A) : Prop := ∃ k, m !! k = Some a.
Definition table_wf (m : gmap K A) : Prop := ∀ k a, m !! k = Some a → key a = k.

Lemma in_map_values m a : a ∈ values m ↔ in_map m a.
Proof.
  unfold values, in_map. rewrite list_elem_of_fmap. split.
  - intros ([k b] & -> & Hin). exists k. by apply elem_of_map_to_list.
  - intros [k Hk]. exists (k, a). split; [done|]. by apply elem_of_map_to_list.
Qed.

Lemma values_keys m : table_wf m → NoDup (key <$> values m).
Proof.
  intros Hwf. unfold values. rewrite <- list_fmap_compose.
  erewrite list_fmap_ext; [apply (NoDup_fst_map_to_list m)|].
  intros i [k a] Hi. simpl. apply list_elem_of_lookup_2, elem_of_map_to_list in Hi. by apply Hwf.
Qed.

Lemma in_map_empty a : in_map ∅ a ↔ False.
Proof. split; [|done]. intros [k Hk]. by rewrite lookup_empty in Hk. Qed.

Lemma table_wf_insert m a : table_wf m → table_wf (<[key a := a]> m).
Proof. intros Hwf k b. rewrite lookup_insert_Some. intros [[<- <-]|[_ Hb]]; [done|by apply Hwf]. Qed.

Lemma in_map_insert m a x :
  table_wf m → in_map (<[key a := a]> m) x ↔ upsert key a (in_map m) x.
Proof.
  intros Hwf. unfold in_map, upsert. split.
  - intros [k Hk]. apply lookup_insert_Some in Hk as [[<- <-]|[Hne Hk]]; [by left|].
    right. split; [eauto|]. intros Heq. apply Hne. rewrite <- Heq. by apply Hwf.
  - intros [->|[[k Hk] Hne]]; [exists (key a); apply lookup_insert_eq|].
    exists k. rewrite lookup_insert_ne; [done|]. intros <-. by apply Hne, Hwf.
Qed.

Lemma lookup_retain p (m : gmap K A) k a : retain p m !! k = Some a ↔ m !! k = Some a ∧ p a = true.
Proof. unfold retain. by rewrite map_lookup_filter_Some. Qed.

Lemma table_wf_retain p m : table_wf m → table_wf (retain p m).
Proof. intros Hwf k a Hk. apply lookup_retain in Hk as [Hk _]. by apply Hwf. Qed.

Lemma in_map_retain (task : A → Z) id m x :
  in_map (retain (λ a, negb (task a =? id)) m) x ↔ without task id (in_map m) x.
Proof.
  unfold in_map, without. split.
  - intros [k [Hk Hp]%lookup_retain]. bool_hyps. eauto.
  - intros [[k Hk] Hne]. exists k. apply lookup_retain. split; [done|].
    by apply negb_true_iff, Z.eqb_neq.
Qed.

(** Clearing a task by the key and inserting rows of it. *)
Lemma table_wf_filter (P : K * A → Prop) `{!∀ kv, Decision (P kv)} m :
  table_wf m → table_wf (filter P m).
Proof. intros Hwf k a [Hk _]%map_lookup_filter_Some. by apply Hwf. Qed.

Lemma table_wf_inserts m l : table_wf m → table_wf (foldl (λ m a, <[key a := a]> m) m l).
Proof.
  revert m. induction l as [|a l IH]; intros m Hm; simpl; [done|]. by apply IH, table_wf_insert.
Qed.

Lemma in_map_refill (task : A → Z) (task_of : K → Z) id m l x :
  (∀ a, task a = task_of (key a)) → table_wf m → rows_of task key id l →
  in_map (foldl (λ m a, <[key a := a]> m) (filter (λ kv, task_of kv.1 ≠ id) m) l) x ↔
  replaced task id l (in_map m) x.
Proof.
  intros Htask Hwf [Ht Hnd].
  pose proof (table_wf_filter (λ kv, task_of kv.1 ≠ id) m Hwf) as Hf.
  assert (∀ y, in_map (filter (λ kv : K * A, task_of kv.1 ≠ id) m) y ↔
    without task id (in_map m) y) as Hfy.
  { intros y. unfold in_map, without. split.
    - intros [k [Hk Hne]%map_lookup_filter_Some]. split; [eauto|].
      rewrite Htask. by rewrite (Hwf _ _ Hk).
    - intros [[k Hk] Hne]. exists k. apply map_lookup_filter_Some. split; [done|].
      simpl. rewrite <- (Hwf _ _ Hk). by rewrite <- Htask. }
  assert (∀ m' y, table_wf m' → in_map (foldl (λ m a, <[key a := a]> m) m' l) y ↔
    foldl (λ P a, upsert key a P) (in_map m') l y) as Hfold.
  { clear -H. induction l as [|a l IH]; intros m' y Hm'; simpl; [done|].
    rewrite IH by (by apply table_wf_insert).
    assert (∀ l P Q y, (∀ x, P x ↔ Q x) →
      foldl (λ P a, upsert key a P) P l y ↔ foldl (λ P a, upsert key a P) Q l y) as Hext.
    { clear. induction l as [|b l IH]; intros P Q y HPQ; simpl; [done|]. apply IH.
      intros z. unfold upsert. by rewrite HPQ. }
    apply Hext. intros z. by apply in_map_insert. }
  rewrite Hfold by done. rewrite foldl_upsert by done. unfold replaced. rewrite Hfy.
  rewrite Forall_forall in Ht. unfold without. split; [tauto|].
  intros [Hx|[Hx Hne]]; [by left|]. right. split; [done|].
  intros (y & Hy & Hin)%list_elem_of_fmap. apply Hne. rewrite Htask, Hy, <- Htask. by apply Ht.
Qed.

(** Loading the rows of a task. *)
Lemma load_task_rows {J} (le : A → A → bool) (index : A → J) `{!IndexOrder le index}
    (task : A → Z) (id : Z) m :
  table_wf m → (∀ a b, task a = task b → index a = index b → key a = key b) →
  is_rows le (λ x, in_map m x ∧ task x = id)
    (sort_by le (filterb (λ a, task a =? id) (values m))).
Proof.
  intros Hwf Hkey. eapply is_rows_ext; [|apply (sort_rows le index)].
  - intros x. rewrite elem_of_filterb, in_map_values, Z.eqb_eq. done.
  - pose proof (values_keys m Hwf) as Hnd. revert Hnd. generalize (values m) as l.
    induction l as [|a l IH]; intros Hnd; simpl; [constructor|].
    rewrite fmap_cons in Hnd. apply NoDup_cons in Hnd as [Ha Hnd].
    destruct (task a =? id) eqn:E; [|by apply IH]. bool_hyps. rewrite fmap_cons.
    constructor; [|by apply IH]. intros (b & Hb & Hin)%list_elem_of_fmap. apply Ha.
    apply elem_of_filterb in Hin as [Hin Hbt]. bool_hyps.
    rewrite (Hkey a b); [by apply list_elem_of_fmap_2|congruence|done].
Qed.
End table.

(** ** The contract *)

Record memory_ok (r : MemoryRepository) : Prop := {
  mo_tasks : table_wf dt_id (mr_tasks r);
  mo_workers : table_wf worker_key (mr_workers r);
  mo_pieces : table_wf piece_key (mr_pieces r);
  mo_blocks : table_wf block_key (mr_blocks r);
  mo_checksums : table_wf checksum_key (mr_checksums r)
}.

Definition memory_view (r : MemoryRepository) : repo_view :=
  mk_view (in_map (mr_tasks r)) (in_map (mr_workers r)) (in_map (mr_pieces r))
    (in_map (mr_blocks r)) (in_map (mr_checksums r)).

Lemma memory_new_ok : memory_ok memory_new.
Proof. split; intros k a Hk; simpl in Hk; by rewrite lookup_empty in Hk. Qed.
Lemma memory_new_view : memory_view memory_new ≡ view_empty.
Proof. split_and!; intros x; simpl; apply in_map_empty. Qed.

(** An update that only touches the tables. *)
Lemma memory_updates (g : MemoryRepository → MemoryRepository) f :
  (∀ r, memory_ok r → memory_ok (g r) ∧ memory_view (g r) ≡ f (memory_view r)) →
  updates memory_ok memory_view (modify g) f.
Proof. intros Hg r Hr. exists (g r). destruct (Hg r Hr). by split_and!. Qed.

Lemma memory_reads {A} (g : MemoryRepository → A) (P : repo_view → A → Prop) :
  (∀ r, memory_ok r → P (memory_view r) (g r)) → reads memory_ok memory_view (gets g) P.
Proof. intros Hg r Hr. exists (g r). split; [done|by apply Hg]. Qed.

(** One table changes; the others stay. *)
Ltac one_table Hr :=
  destruct Hr as [? ? ? ? ?]; split; [split; simpl; try done | split_and!; intros ?; simpl; try done].

Lemma mem_save_task_updates t : updates memory_ok memory_view (mem_save_task t) (put_task t).
Proof.
  apply memory_updates. intros r Hr. one_table Hr.
  - by apply table_wf_insert.
  - by apply in_map_insert.
Qed.

Lemma mem_delete_task_updates id : updates memory_ok memory_view (mem_delete_task id) (drop_task id).
Proof.
  apply memory_updates. intros r [Ht Hw Hp Hb Hc]. split.
  - split; simpl; try by apply table_wf_retain.
    intros k a Hk. apply lookup_delete_Some in Hk as [_ Hk]. by apply Ht.
  - split_and!; intros x; simpl; try apply in_map_retain.
    unfold in_map, without. split.
    + intros [k [Hne Hk]%lookup_delete_Some]. split; [eauto|]. by rewrite (Ht _ _ Hk).
    + intros [[k Hk] Hne]. exists k. apply lookup_delete_Some. split; [|done].
      by rewrite <- (Ht _ _ Hk).
Qed.

Lemma mem_save_worker_updates w :
  updates memory_ok memory_view (mem_save_worker w) (put_worker (stored_memory_worker w)).
Proof.
  apply memory_updates. intros r Hr. one_table Hr.
  - by apply (table_wf_insert worker_key _ (stored_memory_worker w)).
  - by apply (in_map_insert worker_key _ (stored_memory_worker w)).
Qed.

Lemma in_map_drop `{Countable K} {A} (task : A → Z) id (m : gmap K A) x :
  in_map (retain (λ a, negb (task a =? id)) m) x ↔ replaced task id [] (in_map m) x.
Proof. rewrite in_map_retain. unfold replaced. set_solver. Qed.

Lemma mem_delete_workers_updates id :
  updates memory_ok memory_view (mem_delete_workers id) (set_workers id []).
Proof.
  apply memory_updates. intros r Hr. one_table Hr; [by apply table_wf_retain|apply in_map_drop].
Qed.
Lemma mem_delete_pieces_updates id :
  updates memory_ok memory_view (mem_delete_pieces id) (set_pieces id []).
Proof.
  apply memory_updates. intros r Hr. one_table Hr; [by apply table_wf_retain|apply in_map_drop].
Qed.
Lemma mem_delete_blocks_updates id :
  updates memory_ok memory_view (mem_delete_blocks id) (set_blocks id []).
Proof.
  apply memory_updates. intros r Hr. one_table Hr; [by apply table_wf_retain|apply in_map_drop].
Qed.
Lemma mem_delete_checksums_updates id :
  updates memory_ok memory_view (mem_delete_checksums id) (set_checksums id []).
Proof.
  apply memory_updates. intros r Hr. one_table Hr; [by apply table_wf_retain|apply in_map_drop].
Qed.

(** The rows of one task are inserted under their own keys. *)
Lemma foldl_insert_ext `{Countable K} {A} (f g : A → K) l (m : gmap K A) :
  Forall (λ a, f a = g a) l → foldl (λ m a, <[f a := a]> m) m l = foldl (λ m a, <[g a := a]> m) m l.
Proof.
  intros Hl. revert m. induction Hl as [|a l Ha _ IH]; intros m; simpl; [done|]. by rewrite Ha, IH.
Qed.

Lemma mem_save_pieces_updates id ps :
  rows_of dp_task_id piece_key id ps →
  updates memory_ok memory_view (mem_save_pieces id ps) (set_pieces id ps).
Proof.
  intros Hps. apply memory_updates. intros r Hr.
  assert (Forall (λ p, (id, dp_piece_index p) = piece_key p) ps) as Hk.
  { destruct Hps as [Ht _]. eapply Forall_impl; [exact Ht|]. by intros p <-. }
  one_table Hr.
  - rewrite (foldl_insert_ext _ piece_key) by done. by apply table_wf_inserts, table_wf_filter.
  - rewrite (foldl_insert_ext _ piece_key) by done. by apply (in_map_refill _ dp_task_id fst).
Qed.

Lemma mem_save_blocks_updates id bs :
  rows_of db_task_id block_key id bs →
  updates memory_ok memory_view (mem_save_blocks id bs) (set_blocks id bs).
Proof.
  intros Hbs. apply memory_updates. intros r Hr.
  assert (Forall (λ b, (id, db_piece_index b, db_block_index b) = block_key b) bs) as Hk.
  { destruct Hbs as [Ht _]. eapply Forall_impl; [exact Ht|]. by intros p <-. }
  one_table Hr.
  - rewrite (foldl_insert_ext _ block_key) by done. by apply table_wf_inserts, table_wf_filter.
  - rewrite (foldl_insert_ext _ block_key) by done.
    by apply (in_map_refill _ db_task_id (λ k, k.1.1)).
Qed.

Lemma mem_save_checksum_updates c :
  updates memory_ok memory_view (mem_save_checksum c) (put_checksum (stored_memory_checksum c)).
Proof.
  apply memory_updates. intros r Hr. one_table Hr.
  - by apply (table_wf_insert checksum_key _ (stored_memory_checksum c)).
  - by apply (in_map_insert checksum_key _ (stored_memory_checksum c)).
Qed.

Lemma find_row `{Countable K} {A} (id : A → Z) i (m : gmap K A) :
  is_row (in_map m) id i (find_first (λ a, id a =? i) (values m)).
Proof.
  unfold is_row. destruct (find_first _ _) as [a|] eqn:E.
  - apply find_first_Some in E as [Hin Hi]. bool_hyps. by rewrite <- in_map_values.
  - intros a Ha. rewrite <- in_map_values in Ha. rewrite find_first_None in E.
    specialize (E a Ha). by bool_hyps.
Qed.

(** The in-memory repository keeps the contract. *)
#[export] Instance memory_repository_laws : RepositoryLaws MemoryRepository.
Proof.
  refine {| repo_ok := memory_ok; view := memory_view;
    stored_worker := stored_memory_worker; stored_checksum := stored_memory_checksum |}.
  - by intros [].
  - by intros [].
  - apply memory_reads. intros r Hr. eapply is_rows_ext; [intros x; apply in_map_values|].
    apply (sort_rows task_le dt_id), (values_keys dt_id), Hr.
  - intros id. apply memory_reads. intros r Hr. simpl.
    destruct (mr_tasks r !! id) as [t|] eqn:E; simpl.
    + split; [by exists id|]. by apply (mo_tasks _ Hr).
    + intros a [k Ha] <-. pose proof (mo_tasks _ Hr _ _ Ha). congruence.
  - apply mem_save_task_updates.
  - intros id. apply updates_dropped, mem_delete_task_updates.
  - intros t ws ps bs cs. apply default_save_bundle_updates; auto using mem_save_task_updates,
      mem_delete_workers_updates, mem_save_worker_updates, mem_save_pieces_updates,
      mem_save_blocks_updates, mem_delete_checksums_updates, mem_save_checksum_updates.
  - intros id. apply memory_reads. intros r Hr.
    apply (load_task_rows worker_key worker_le dw_index); [apply Hr|]. unfold worker_key. congruence.
  - intros i. apply memory_reads. intros r _. apply find_row.
  - apply mem_save_worker_updates.
  - apply mem_delete_workers_updates.
  - intros id. apply memory_reads. intros r Hr.
    apply (load_task_rows piece_key piece_le dp_piece_index); [apply Hr|]. unfold piece_key. congruence.
  - apply mem_save_pieces_updates.
  - apply mem_delete_pieces_updates.
  - intros id. apply memory_reads. intros r Hr.
    apply (load_task_rows block_key block_le (λ b, (db_piece_index b, db_block_index b)));
      [apply Hr|]. unfold block_key. intros a b ? [= ??]. congruence.
  - apply mem_save_blocks_updates.
  - apply mem_delete_blocks_updates.
  - intros id. apply memory_reads. intros r Hr.
    apply (load_task_rows checksum_key checksum_le dc_algorithm); [apply Hr|].
    unfold checksum_key. congruence.
  - intros i. apply memory_reads. intros r _. apply find_row.
  - apply mem_save_checksum_updates.
  - apply mem_delete_checksums_updates.
Defined.
#[export] Instance memory_deletes_all : DeletesAll MemoryRepository := mem_delete_task_updates.
