(* ===== verification/JsonStore.v ===== *)
(** * The JSON file repository ([src/src/repository/json_file.rs])

    Five lists of rows, written to one file as a whole after every change. *)

From S2P Require Import Prelude Text Status Effect Source Piece Files Checksum Manifest Planner Torrent Config Task Mapping Repository.

(** [src/src/repository/json_file.rs:13-19], [JsonRepositoryState]. *)
Record JsonRepositoryState := mk_json_state {
  js_tasks : list DBDownloadTask;
  js_workers : list DBDownloadWorker;
  js_pieces : list DBDownloadPiece;
  js_blocks : list DBDownloadBlock;
  js_checksums : list DBDownloadChecksum
}.
#[export] Instance JsonRepositoryState_eta : Settable JsonRepositoryState := λ s,
  mk_json_state (js_tasks s) (js_workers s) (js_pieces s) (js_blocks s) (js_checksums s).
Definition JsonRepositoryState_default : JsonRepositoryState := mk_json_state [] [] [] [] [].

(** [src/src/repository/json_file.rs:21-24], [JsonFileRepository]. With the files it writes to. *)
Record json_world := mk_json_world {
  jw_path : string;
  jw_state : JsonRepositoryState;
  jw_fs : fs
}.
#[export] Instance json_world_eta : Settable json_world := λ w,
  mk_json_world (jw_path w) (jw_state w) (jw_fs w).

Section json.
(** The codec of the state, and the texts of its errors. *)
Context `{Json JsonRepositoryState} (parse_error : string → string) (serialize_error : string).

(** [src/src/repository/json_file.rs:27-49], [JsonFileRepository::new]. The files after it, and
    the repository. *)
Definition json_new (path : string) : eff fs JsonRepositoryState :=
  match path_parent path with
  | Some parent => λ f,
      match io_err (fs_create_dir_all f parent) with
      | Ok f => (Ok tt, f)
      | Err e => (Err e, f)
      end
  | None => ret tt
  end ;;;
  let! read := gets (λ f, fs_read_to_string f path) in
  match read with
  | Ok contents =>
      if negb (is_empty (trim contents)) then
        match from_json contents with
        | Some state => ret state
        | None =>
            throw (EOther ("failed to parse " +:+ path +:+ ": " +:+ parse_error contents))
        end
      else ret JsonRepositoryState_default
  | Err IoNotFound => ret JsonRepositoryState_default
  | Err err => throw (EIo (io_error_to_string err))
  end.

(** [src/src/repository/json_file.rs:51-57], [JsonFileRepository::persist_state]. *)
Definition persist_state : eff json_world unit := λ w,
  match to_json (jw_state w) with
  | None =>
      (Err (EOther ("failed to serialize repository state: " +:+ serialize_error)), w)
  | Some payload =>
      match io_err (fs_write_file (jw_fs w) (jw_path w) (bytes_of_string payload)) with
      | Ok f => (Ok tt, w <| jw_fs := f |>)
      | Err e => (Err e, w)
      end
  end.

Definition on_state (f : JsonRepositoryState → JsonRepositoryState) : eff json_world unit :=
  modify (λ w, w <| jw_state ::= f |>).

(** [src/src/repository/json_file.rs:62-66], [JsonFileRepository::load_tasks]. *)
Definition json_load_tasks : eff json_world (list DBDownloadTask) :=
  gets (λ w, sort_by_key dt_id (js_tasks (jw_state w))).
(** [src/src/repository/json_file.rs:68-77], [JsonFileRepository::load_task]. *)
Definition json_load_task (task_id : Z) : eff json_world (option DBDownloadTask) :=
  gets (λ w, find_first (λ t, dt_id t =? task_id) (js_tasks (jw_state w))).
(** [src/src/repository/json_file.rs:79-86], [JsonFileRepository::save_task]. *)
Definition json_save_task (task : DBDownloadTask) : eff json_world unit :=
  on_state (λ s, s <| js_tasks ::= λ l, filterb (λ t, negb (dt_id t =? dt_id task)) l ++ [task] |>)
    ;;;
  persist_state.
(** [src/src/repository/json_file.rs:88-100], [JsonFileRepository::delete_task]. *)
Definition json_delete_task (task_id : Z) : eff json_world unit :=
  on_state (λ s,
    s <| js_tasks ::= filterb (λ t, negb (dt_id t =? task_id)) |>
      <| js_workers ::= filterb (λ w, negb (dw_task_id w =? task_id)) |>
      <| js_pieces ::= filterb (λ p, negb (dp_task_id p =? task_id)) |>
      <| js_blocks ::= filterb (λ b, negb (db_task_id b =? task_id)) |>
      <| js_checksums ::= filterb (λ c, negb (dc_task_id c =? task_id)) |>) ;;;
  persist_state.

(** [src/src/repository/json_file.rs:102-126], [JsonFileRepository::save_bundle]. *)
Definition json_save_bundle (task : DBDownloadTask) (workers : list DBDownloadWorker)
    (pieces : list DBDownloadPiece) (blocks : list DBDownloadBlock)
    (checksums : list DBDownloadChecksum) : eff json_world unit :=
  on_state (λ s,
    s <| js_tasks ::= λ l, filterb (λ t, negb (dt_id t =? dt_id task)) l ++ [task] |>
      <| js_workers ::= λ l, filterb (λ w, negb (dw_task_id w =? dt_id task)) l ++ workers |>
      <| js_pieces ::= λ l, filterb (λ p, negb (dp_task_id p =? dt_id task)) l ++ pieces |>
      <| js_blocks ::= λ l, filterb (λ b, negb (db_task_id b =? dt_id task)) l ++ blocks |>
      <| js_checksums ::= λ l, filterb (λ c, negb (dc_task_id c =? dt_id task)) l ++ checksums |>)
    ;;;
  persist_state.

(** [src/src/repository/json_file.rs:128-140], [JsonFileRepository::load_workers]. *)
Definition json_load_workers (task_id : Z) : eff json_world (list DBDownloadWorker) :=
  gets (λ w, sort_by_key dw_index
               (filterb (λ w, dw_task_id w =? task_id) (js_workers (jw_state w)))).
(** [src/src/repository/json_file.rs:142-151], [JsonFileRepository::load_worker]. *)
Definition json_load_worker (worker_id : Z) : eff json_world (option DBDownloadWorker) :=
  gets (λ w, find_first (λ w, dw_id w =? worker_id) (js_workers (jw_state w))).
(** [src/src/repository/json_file.rs:153-162], [JsonFileRepository::save_worker]. *)
Definition json_save_worker (worker : DBDownloadWorker) : eff json_world unit :=
  on_state (λ s, s <| js_workers ::= λ l,
    filterb (λ w, negb ((dw_task_id w =? dw_task_id worker) && (dw_index w =? dw_index worker))) l
      ++ [worker] |>) ;;;
  persist_state.
(** [src/src/repository/json_file.rs:164-170], [JsonFileRepository::delete_workers]. *)
Definition json_delete_workers (task_id : Z) : eff json_world unit :=
  on_state (λ s, s <| js_workers ::= filterb (λ w, negb (dw_task_id w =? task_id)) |>) ;;;
  persist_state.

(** [src/src/repository/json_file.rs:172-184], [JsonFileRepository::load_pieces]. *)
Definition json_load_pieces (task_id : Z) : eff json_world (list DBDownloadPiece) :=
  gets (λ w, sort_by_key dp_piece_index
               (filterb (λ p, dp_task_id p =? task_id) (js_pieces (jw_state w)))).
(** [src/src/repository/json_file.rs:186-193], [JsonFileRepository::save_pieces]. *)
Definition json_save_pieces (task_id : Z) (pieces : list DBDownloadPiece) : eff json_world unit :=
  on_state (λ s, s <| js_pieces ::= λ l,
    filterb (λ p, negb (dp_task_id p =? task_id)) l ++ pieces |>) ;;;
  persist_state.
(** [src/src/repository/json_file.rs:195-201], [JsonFileRepository::delete_pieces]. *)
Definition json_delete_pieces (task_id : Z) : eff json_world unit :=
  on_state (λ s, s <| js_pieces ::= filterb (λ p, negb (dp_task_id p =? task_id)) |>) ;;;
  persist_state.

(** [src/src/repository/json_file.rs:203-215], [JsonFileRepository::load_blocks]. *)
Definition json_load_blocks (task_id : Z) : eff json_world (list DBDownloadBlock) :=
  gets (λ w, sort_by block_le (filterb (λ b, db_task_id b =? task_id) (js_blocks (jw_state w)))).
(** [src/src/repository/json_file.rs:217-224], [JsonFileRepository::save_blocks]. *)
Definition json_save_blocks (task_id : Z) (blocks : list DBDownloadBlock) : eff json_world unit :=
  on_state (λ s, s <| js_blocks ::= λ l,
    filterb (λ b, negb (db_task_id b =? task_id)) l ++ blocks |>) ;;;
  persist_state.
(** [src/src/repository/json_file.rs:226-232], [JsonFileRepository::delete_blocks]. *)
Definition json_delete_blocks (task_id : Z) : eff json_world unit :=
  on_state (λ s, s <| js_blocks ::= filterb (λ b, negb (db_task_id b =? task_id)) |>) ;;;
  persist_state.

(** [src/src/repository/json_file.rs:234-246], [JsonFileRepository::load_checksums]. *)
Definition json_load_checksums (task_id : Z) : eff json_world (list DBDownloadChecksum) :=
  gets (λ w, sort_by checksum_le
               (filterb (λ c, dc_task_id c =? task_id) (js_checksums (jw_state w)))).
(** [src/src/repository/json_file.rs:248-257], [JsonFileRepository::load_checksum]. *)
Definition json_load_checksum (checksum_id : Z) : eff json_world (option DBDownloadChecksum) :=
  gets (λ w, find_first (λ c, dc_id c =? checksum_id) (js_checksums (jw_state w))).
(** [src/src/repository/json_file.rs:259-268], [JsonFileRepository::save_checksum]. *)
Definition json_save_checksum (checksum : DBDownloadChecksum) : eff json_world unit :=
  on_state (λ s, s <| js_checksums ::= λ l,
    filterb (λ c, negb ((dc_task_id c =? dc_task_id checksum) &&
                        String.eqb (dc_algorithm c) (dc_algorithm checksum))) l
      ++ [checksum] |>) ;;;
  persist_state.
(** [src/src/repository/json_file.rs:270-278], [JsonFileRepository::delete_checksums]. *)
Definition json_delete_checksums (task_id : Z) : eff json_world unit :=
  on_state (λ s, s <| js_checksums ::= filterb (λ c, negb (dc_task_id c =? task_id)) |>) ;;;
  persist_state.

(** [src/src/repository/json_file.rs:61-279], [impl Repository for JsonFileRepository]. *)
#[local] Instance json_repository : Repository json_world := {|
  load_tasks := json_load_tasks;
  load_task := json_load_task;
  save_task := json_save_task;
  delete_task := json_delete_task;
  save_bundle := json_save_bundle;
  load_workers := json_load_workers;
  load_worker := json_load_worker;
  save_worker := json_save_worker;
  delete_workers := json_delete_workers;
  load_pieces := json_load_pieces;
  save_pieces := json_save_pieces;
  delete_pieces := json_delete_pieces;
  load_blocks := json_load_blocks;
  save_blocks := json_save_blocks;
  delete_blocks := json_delete_blocks;
  load_checksums := json_load_checksums;
  load_checksum := json_load_checksum;
  save_checksum := json_save_checksum;
  delete_checksums := json_delete_checksums
|}.
End json.

(** ** Lists of rows with distinct keys *)
Section lists.
Context {A K : Type} (key : A → K).

(** [retain] of the other keys and [push]. *)
Lemma nodup_push (same : A → bool) (a : A) l :
  (∀ b, same b = true ↔ key b = key a) → NoDup (key <$> l) →
  NoDup (key <$> filterb (λ b, negb (same b)) l ++ [a]).
Proof.
  intros Hs Hnd. rewrite fmap_app. apply NoDup_app. split_and!.
  - by apply nodup_filterb.
  - intros k (b & -> & Hb)%list_elem_of_fmap Hk. apply elem_of_filterb in Hb as [_ Hb]. bool_hyps.
    apply list_elem_of_singleton in Hk. apply Hs in Hk. congruence.
  - constructor; [by apply not_elem_of_nil|constructor].
Qed.

Lemma elem_push (same : A → bool) (a : A) l x :
  (∀ b, same b = true ↔ key b = key a) →
  x ∈ filterb (λ b, negb (same b)) l ++ [a] ↔ upsert key a (λ b, b ∈ l) x.
Proof.
  intros Hs. unfold upsert. rewrite elem_of_app, list_elem_of_singleton, elem_of_filterb,
    negb_true_iff, <- not_true_iff_false, Hs. tauto.
Qed.

(** [retain] of the other tasks and [extend]. *)
Lemma nodup_extend (task : A → Z) id (new l : list A) :
  (∀ a b, key a = key b → task a = task b) → rows_of task key id new → NoDup (key <$> l) →
  NoDup (key <$> filterb (λ a, negb (task a =? id)) l ++ new).
Proof.
  intros Hkey [Ht Hn] Hnd. rewrite fmap_app. apply NoDup_app. split_and!.
  - by apply nodup_filterb.
  - intros k (b & -> & Hb)%list_elem_of_fmap (c & Hc & Hin)%list_elem_of_fmap.
    apply elem_of_filterb in Hb as [_ Hb]. bool_hyps. rewrite Forall_forall in Ht.
    pose proof (Ht _ Hin). pose proof (Hkey _ _ Hc). congruence.
  - done.
Qed.

Lemma load_list_rows {J} (le : A → A → bool) (index : A → J) `{!IndexOrder le index}
    (task : A → Z) (id : Z) l :
  NoDup (key <$> l) → (∀ a b, task a = task b → index a = index b → key a = key b) →
  is_rows le (λ x, x ∈ l ∧ task x = id) (sort_by le (filterb (λ a, task a =? id) l)).
Proof.
  intros Hnd Hkey. eapply is_rows_ext; [|apply (sort_rows le index)].
  - intros x. by rewrite elem_of_filterb, Z.eqb_eq.
  - induction l as [|a l IH]; simpl; [constructor|].
    rewrite fmap_cons in Hnd. apply NoDup_cons in Hnd as [Ha Hnd].
    destruct (task a =? id) eqn:E; [|by apply IH]. bool_hyps. rewrite fmap_cons.
    constructor; [|by apply IH]. intros (b & Hb & Hin)%list_elem_of_fmap. apply Ha.
    apply elem_of_filterb in Hin as [Hin Hbt]. bool_hyps.
    rewrite (Hkey a b); [by apply list_elem_of_fmap_2|congruence|done].
Qed.

End lists.

Lemma elem_extend {A} (task : A → Z) id (new l : list A) x :
  x ∈ filterb (λ a, negb (task a =? id)) l ++ new ↔ replaced task id new (λ a, a ∈ l) x.
Proof.
  unfold replaced, without. rewrite elem_of_app, elem_of_filterb, negb_true_iff, Z.eqb_neq. tauto.
Qed.

Lemma elem_without {A} (task : A → Z) id (l : list A) x :
  x ∈ filterb (λ a, negb (task a =? id)) l ↔ without task id (λ a, a ∈ l) x.
Proof. unfold without. by rewrite elem_of_filterb, negb_true_iff, Z.eqb_neq. Qed.

Lemma elem_drop {A} (task : A → Z) id (l : list A) x :
  x ∈ filterb (λ a, negb (task a =? id)) l ↔ replaced task id [] (λ a, a ∈ l) x.
Proof. rewrite elem_without. unfold replaced. set_solver. Qed.

Lemma find_list_row {A} (id : A → Z) i (l : list A) :
  is_row (λ a, a ∈ l) id i (find_first (λ a, id a =? i) l).
Proof.
  unfold is_row. destruct (find_first _ _) as [a|] eqn:E.
  - apply find_first_Some in E as [Hin Hi]. by bool_hyps.
  - intros a Ha. rewrite find_first_None in E. specialize (E a Ha). by bool_hyps.
Qed.

(** ** The contract *)
Section laws.
Context `{Json JsonRepositoryState} (serialize_error : string).
Hypothesis serializes : ∀ st : JsonRepositoryState, is_Some (to_json st).

Record json_state_ok (s : JsonRepositoryState) : Prop := {
  jo_tasks : NoDup (dt_id <$> js_tasks s);
  jo_workers : NoDup (worker_key <$> js_workers s);
  jo_pieces : NoDup (piece_key <$> js_pieces s);
  jo_blocks : NoDup (block_key <$> js_blocks s);
  jo_checksums : NoDup (checksum_key <$> js_checksums s)
}.
Definition json_ok_world (w : json_world) : Prop :=
  json_state_ok (jw_state w) ∧ fs_names (jw_fs w) !! jw_path w ≠ Some NDir.
Definition json_state_view (s : JsonRepositoryState) : repo_view :=
  mk_view (λ x, x ∈ js_tasks s) (λ x, x ∈ js_workers s) (λ x, x ∈ js_pieces s)
    (λ x, x ∈ js_blocks s) (λ x, x ∈ js_checksums s).
Definition json_view (w : json_world) : repo_view := json_state_view (jw_state w).

Lemma persist_state_ok w :
  json_ok_world w → ∃ f, persist_state serialize_error w = (Ok tt, w <| jw_fs := f |>) ∧
    fs_names f !! jw_path w ≠ Some NDir.
Proof.
  intros [_ Hp]. unfold persist_state. destruct (serializes (jw_state w)) as [text ->].
  destruct (fs_write_file_ok (jw_fs w) (jw_path w) (bytes_of_string text) Hp) as (f & -> & Hf).
  by exists f.
Qed.

Lemma commit_updates g f :
  (∀ s, json_state_ok s → json_state_ok (g s) ∧ json_state_view (g s) ≡ f (json_state_view s)) →
  updates json_ok_world json_view (on_state g ;;; persist_state serialize_error) f.
Proof.
  intros Hg w [Hs Hp]. destruct (Hg _ Hs) as [Hs' Hv].
  destruct (persist_state_ok (w <| jw_state ::= g |>)) as (fs' & Hw & Hp'); [by split|].
  exists (w <| jw_state ::= g |> <| jw_fs := fs' |>). split; [exact Hw|]. split; [by split|done].
Qed.

Ltac one_list Hs :=
  destruct Hs as [? ? ? ? ?]; split; [split; simpl; try done | split_and!; intros ?; simpl; try done].

Lemma json_save_task_updates t :
  updates json_ok_world json_view (json_save_task serialize_error t) (put_task t).
Proof.
  apply commit_updates. intros s Hs. one_list Hs.
  - apply nodup_push; [|done]. intros b. apply Z.eqb_eq.
  - apply elem_push. intros b. apply Z.eqb_eq.
Qed.

Lemma json_delete_task_updates id :
  updates json_ok_world json_view (json_delete_task serialize_error id) (drop_task id).
Proof.
  apply commit_updates. intros s [? ? ? ? ?]. split.
  - split; by apply nodup_filterb.
  - split_and!; intros x; apply elem_without.
Qed.

Lemma worker_same (w b : DBDownloadWorker) :
  ((dw_task_id b =? dw_task_id w) && (dw_index b =? dw_index w))%bool = true ↔
  worker_key b = worker_key w.
Proof. unfold worker_key. rewrite andb_true_iff, !Z.eqb_eq. split; [by intros [-> ->]|by intros [= -> ->]]. Qed.

Lemma checksum_same (w b : DBDownloadChecksum) :
  ((dc_task_id b =? dc_task_id w) && String.eqb (dc_algorithm b) (dc_algorithm w))%bool = true ↔
  checksum_key b = checksum_key w.
Proof.
  unfold checksum_key. rewrite andb_true_iff, Z.eqb_eq, String.eqb_eq.
  split; [by intros [-> ->]|by intros [= -> ->]].
Qed.

Lemma json_save_worker_updates w :
  updates json_ok_world json_view (json_save_worker serialize_error w) (put_worker w).
Proof.
  apply commit_updates. intros s Hs. one_list Hs.
  - apply nodup_push; [apply worker_same|done].
  - apply (elem_push worker_key), worker_same.
Qed.

Lemma json_save_checksum_updates c :
  updates json_ok_world json_view (json_save_checksum serialize_error c) (put_checksum c).
Proof.
  apply commit_updates. intros s Hs. one_list Hs.
  - apply nodup_push; [apply checksum_same|done].
  - apply (elem_push checksum_key), checksum_same.
Qed.

Lemma json_delete_workers_updates id :
  updates json_ok_world json_view (json_delete_workers serialize_error id) (set_workers id []).
Proof. apply commit_updates. intros s Hs. one_list Hs; [by apply nodup_filterb|apply elem_drop]. Qed.
Lemma json_delete_pieces_updates id :
  updates json_ok_world json_view (json_delete_pieces serialize_error id) (set_pieces id []).
Proof. apply commit_updates. intros s Hs. one_list Hs; [by apply nodup_filterb|apply elem_drop]. Qed.
Lemma json_delete_blocks_updates id :
  updates json_ok_world json_view (json_delete_blocks serialize_error id) (set_blocks id []).
Proof. apply commit_updates. intros s Hs. one_list Hs; [by apply nodup_filterb|apply elem_drop]. Qed.
Lemma json_delete_checksums_updates id :
  updates json_ok_world json_view (json_delete_checksums serialize_error id) (set_checksums id []).
Proof. apply commit_updates. intros s Hs. one_list Hs; [by apply nodup_filterb|apply elem_drop]. Qed.

Lemma worker_key_task a b : worker_key a = worker_key b → dw_task_id a = dw_task_id b.
Proof. by intros [= ? _]. Qed.
Lemma piece_key_task a b : piece_key a = piece_key b → dp_task_id a = dp_task_id b.
Proof. by intros [= ? _]. Qed.
Lemma block_key_task a b : block_key a = block_key b → db_task_id a = db_task_id b.
Proof. by intros [= ? _ _]. Qed.
Lemma checksum_key_task a b : checksum_key a = checksum_key b → dc_task_id a = dc_task_id b.
Proof. by intros [= ? _]. Qed.

Lemma json_save_pieces_updates id ps :
  rows_of dp_task_id piece_key id ps →
  updates json_ok_world json_view (json_save_pieces serialize_error id ps) (set_pieces id ps).
Proof.
  intros Hr. apply commit_updates. intros s Hs. one_list Hs; [|apply elem_extend].
  by apply nodup_extend; [apply piece_key_task|..].
Qed.
Lemma json_save_blocks_updates id bs :
  rows_of db_task_id block_key id bs →
  updates json_ok_world json_view (json_save_blocks serialize_error id bs) (set_blocks id bs).
Proof.
  intros Hr. apply commit_updates. intros s Hs. one_list Hs; [|apply elem_extend].
  by apply nodup_extend; [apply block_key_task|..].
Qed.

Lemma json_save_bundle_updates t ws ps bs cs :
  rows_of dw_task_id worker_key (dt_id t) ws → rows_of dp_task_id piece_key (dt_id t) ps →
  rows_of db_task_id block_key (dt_id t) bs → rows_of dc_task_id checksum_key (dt_id t) cs →
  updates json_ok_world json_view (json_save_bundle serialize_error t ws ps bs cs) (λ v,
    set_checksums (dt_id t) (id <$> cs) (set_blocks (dt_id t) bs (set_pieces (dt_id t) ps
      (set_workers (dt_id t) (id <$> ws) (put_task t v))))).
Proof.
  intros Hw Hp Hb Hc. rewrite !list_fmap_id. apply commit_updates. intros s [? ? ? ? ?]. split.
  - split.
    + apply nodup_push; [|done]. intros b. apply Z.eqb_eq.
    + by apply nodup_extend; [apply worker_key_task|..].
    + by apply nodup_extend; [apply piece_key_task|..].
    + by apply nodup_extend; [apply block_key_task|..].
    + by apply nodup_extend; [apply checksum_key_task|..].
  - split_and!; intros x; try apply elem_extend. apply elem_push. intros b. apply Z.eqb_eq.
Qed.

Lemma json_reads {A} (g : json_world → A) (P : repo_view → A → Prop) :
  (∀ w, json_state_ok (jw_state w) → P (json_view w) (g w)) →
  reads json_ok_world json_view (gets g) P.
Proof. intros Hg w [Hw _]. exists (g w). split; [done|by apply Hg]. Qed.

(** The JSON file repository keeps the contract. *)
Definition json_repository_laws :
  @RepositoryLaws json_world (json_repository serialize_error).
Proof.
  refine (@Build_RepositoryLaws _ (json_repository serialize_error) json_ok_world json_view
    id id _ _ _ _ _ _ _ _ _ _ _ _ _ _ _ _ _ _ _ _ _).
  - by intros [].
  - by intros [].
  - apply json_reads. intros w Hw. apply (sort_rows task_le dt_id), Hw.
  - intros i. apply json_reads. intros w Hw. apply find_list_row.
  - apply json_save_task_updates.
  - intros id. apply updates_dropped, json_delete_task_updates.
  - apply json_save_bundle_updates.
  - intros i. apply json_reads. intros w Hw.
    apply (load_list_rows worker_key worker_le dw_index); [apply Hw|]. unfold worker_key. congruence.
  - intros i. apply json_reads. intros w _. apply find_list_row.
  - apply json_save_worker_updates.
  - apply json_delete_workers_updates.
  - intros i. apply json_reads. intros w Hw.
    apply (load_list_rows piece_key piece_le dp_piece_index); [apply Hw|]. unfold piece_key. congruence.
  - apply json_save_pieces_updates.
  - apply json_delete_pieces_updates.
  - intros i. apply json_reads. intros w Hw.
    apply (load_list_rows block_key block_le (λ b, (db_piece_index b, db_block_index b)));
      [apply Hw|]. unfold block_key. intros a b ? [= ??]. congruence.
  - apply json_save_blocks_updates.
  - apply json_delete_blocks_updates.
  - intros i. apply json_reads. intros w Hw.
    apply (load_list_rows checksum_key checksum_le dc_algorithm); [apply Hw|].
    unfold checksum_key. congruence.
  - intros i. apply json_reads. intros w _. apply find_list_row.
  - apply json_save_checksum_updates.
  - apply json_delete_checksums_updates.
Defined.
Lemma json_deletes_all : @DeletesAll json_world (json_repository serialize_error) json_repository_laws.
Proof. exact json_delete_task_updates. Qed.
End laws.

(** ** Reopening *)
Section reopen.
Context `{Json JsonRepositoryState} (parse_error : string → string) (serialize_error : string).
(** What is known of the codec: every state has a text, which is not blank and is parsed back. *)
Definition state_codec_ok : Prop := ∀ st : JsonRepositoryState, ∃ text, to_json st = Some text ∧
  from_json text = Some st ∧ utf8_valid text = true ∧ is_empty (trim text) = false.

(** Nothing hinders writing and opening the file. *)
Definition file_ready (path : string) (f : fs) : Prop :=
  fs_names f !! path ≠ Some NDir ∧
  ∀ parent, path_parent path = Some parent → fs_create_dir_all f parent = Ok f.
(** Opening the file gives the state in memory and changes nothing. *)
Definition reopens (w : json_world) : Prop :=
  file_ready (jw_path w) (jw_fs w) ∧
  json_new parse_error (jw_path w) (jw_fs w) = (Ok (jw_state w), jw_fs w).

Lemma create_dir_all_twice f path f' :
  fs_create_dir_all f path = Ok f' → fs_create_dir_all f' path = Ok f'.
Proof.
  unfold fs_create_dir_all. destruct (is_empty path); [done|].
  destruct (fs_names f !! path) as [[|]|] eqn:E; intros [= <-]; [by rewrite E|].
  simpl. by rewrite lookup_insert_eq.
Qed.

Lemma json_new_reopens path f st f1 :
  json_new parse_error path f = (Ok st, f1) → reopens (mk_json_world path st f1).
Proof.
  unfold json_new. intros (u & f2 & Hd & Hr)%eff_bind_inv.
  assert (f1 = f2) as ->.
  { revert Hr. unfold gets, eff_bind, ret, throw. destruct (fs_read_to_string f2 path) as [c|[]];
      [destruct (negb _); [destruct (from_json c)|]|..]; congruence. }
  assert (∀ parent, path_parent path = Some parent → fs_create_dir_all f2 parent = Ok f2) as Hp.
  { intros parent Hpar. rewrite Hpar in Hd. destruct (fs_create_dir_all f parent) as [f3|] eqn:E;
      simpl in Hd; [|done]. injection Hd as _ ->. by apply create_dir_all_twice with f. }
  split; [split; [|done]|]; simpl.
  - intros Hdir. revert Hr. unfold gets, eff_bind, fs_read_to_string, fs_read. by rewrite Hdir.
  - unfold json_new. destruct (path_parent path) as [parent|]; [|exact Hr].
    unfold eff_bind at 1. by rewrite (Hp parent eq_refl).
Qed.

Lemma write_file_ready path f data f' :
  file_ready path f → fs_write_file f path data = Ok f' → file_ready path f'.
Proof.
  intros [Hdir Hpar] Hw. split.
  - destruct (fs_write_file_ok f path data Hdir) as (f2 & Hw2 & Hdir'). congruence.
  - intros parent Hp. specialize (Hpar parent Hp). revert Hpar Hw.
    unfold fs_create_dir_all, fs_write_file. destruct (is_empty parent); [done|].
    destruct (fs_names f !! parent) as [[|]|] eqn:E; [done| |].
    + intros _. destruct (fs_names f !! path) as [[|]|] eqn:E2; [|done|].
      * intros [= <-]. simpl. by rewrite E.
      * intros [= <-]. simpl. rewrite lookup_insert_ne; [by rewrite E|congruence].
    + intros [= Hins]. exfalso. assert (fs_names f !! parent = Some NDir) as Hc; [|congruence].
      rewrite <- Hins. simpl. apply lookup_insert_eq.
Qed.

Lemma json_new_text path f text st :
  file_ready path f → fs_read_to_string f path = Ok text → is_empty (trim text) = false →
  from_json text = Some st → json_new parse_error path f = (Ok st, f).
Proof.
  intros [_ Hpar] Hr Hn Hf. unfold json_new. destruct (path_parent path) as [parent|].
  - unfold eff_bind, gets, io_err. rewrite (Hpar parent eq_refl). simpl. by rewrite Hr, Hn, Hf.
  - unfold eff_bind, gets. simpl. by rewrite Hr, Hn, Hf.
Qed.

Hypothesis codec : state_codec_ok.

Lemma commit_reopens g w :
  reopens w → ∃ w', (on_state g ;;; persist_state serialize_error) w = (Ok tt, w') ∧ reopens w' ∧
    jw_path w' = jw_path w.
Proof.
  destruct w as [path st f]. intros [Hready _]. simpl in Hready.
  destruct (codec (g st)) as (text & Ht & Hf & Hu & Hn).
  destruct (fs_write_file_ok f path (bytes_of_string text) (proj1 Hready)) as (f' & Hw & _).
  exists (mk_json_world path (g st) f'). split_and!; [|split|done]; simpl.
  - unfold on_state, modify, eff_bind, persist_state, io_err. simpl. rewrite Ht. simpl. by rewrite Hw.
  - by eapply write_file_ready.
  - apply json_new_text with text; [by eapply write_file_ready| |done|done].
    unfold fs_read_to_string. rewrite (fs_write_file_read _ _ _ _ Hw). simpl.
    by rewrite string_of_bytes_of_string, Hu.
Qed.

Lemma run_write_reopens op w :
  reopens w → ∃ w', @run_write _ (json_repository serialize_error) op w = (Ok tt, w') ∧
    reopens w' ∧ jw_path w' = jw_path w.
Proof. intros Hw. destruct op; simpl; by apply commit_reopens. Qed.

Lemma run_writes_reopen ops w :
  reopens w →
  ∃ w', for_each (@run_write _ (json_repository serialize_error)) ops w = (Ok tt, w') ∧
    reopens w' ∧ jw_path w' = jw_path w.
Proof.
  revert w. induction ops as [|op ops IH]; intros w Hw; [by exists w|]. cbn [for_each].
  destruct (run_write_reopens op w Hw) as (w1 & E & Hw1 & P1).
  destruct (IH w1 Hw1) as (w2 & E2 & Hw2 & P2). exists w2.
  rewrite (eff_bind_ok _ _ _ _ _ E). split_and!; [done|done|congruence].
Qed.

(** C7. Nothing is lost: once the repository's file has been opened, every
    sequence of changes succeeds, and opening the file again, now or after any
    of the changes, gives exactly the state in memory and leaves the files
    alone. *)
Theorem json_repository_durable path f st f1 ops :
  json_new parse_error path f = (Ok st, f1) →
  json_new parse_error path f1 = (Ok st, f1) ∧
  ∃ w, for_each (@run_write _ (json_repository serialize_error)) ops (mk_json_world path st f1)
         = (Ok tt, w) ∧
    json_new parse_error path (jw_fs w) = (Ok (jw_state w), jw_fs w).
Proof.
  intros Hnew%json_new_reopens. split; [apply Hnew|].
  destruct (run_writes_reopen ops _ Hnew) as (w & E & [_ Hw] & P). exists w.
  split; [done|]. by rewrite P in Hw.
Qed.
End reopen.
