(* ===== verification/Backends.v ===== *)
(** * The repositories together

    The in-memory repository and the JSON file repository answer alike; and
    examples of both with a codec. *)

From S2P Require Import Prelude Text Status Effect Source Piece Files Checksum Manifest Planner Torrent Config Task Mapping Repository Memory JsonStore.

Section agree.
Context `{Json JsonRepositoryState} (parse_error : string → string) (serialize_error : string).
Hypothesis codec : state_codec_ok.

Lemma codec_serializes (st : JsonRepositoryState) : is_Some (to_json st).
Proof. destruct (codec st) as (text & -> & _). by eexists. Qed.

(** C9. A memory repository and a JSON file repository that start empty and
    see the same changes answer every question about every task alike, up to
    the ids that the memory repository gives to the rows of workers and
    checksums: the same tasks, workers, pieces, blocks and checksums, in the
    same order. *)
Theorem backends_agree path f f1 ops id :
  json_new parse_error path f = (Ok JsonRepositoryState_default, f1) → Forall write_ok ops →
  ∃ r w o,
    for_each run_write ops memory_new = (Ok tt, r) ∧
    for_each (@run_write _ (json_repository serialize_error)) ops
      (mk_json_world path JsonRepositoryState_default f1) = (Ok tt, w) ∧
    observe id r = (Ok o, r) ∧ @observe _ (json_repository serialize_error) id w = (Ok o, w).
Proof.
  intros [[Hdir _] _]%json_new_reopens Hops.
  refine (@repositories_agree _ _ _ _ (json_repository serialize_error)
    (json_repository_laws serialize_error codec_serializes) _
    (json_deletes_all serialize_error codec_serializes) memory_new _ ops id _ _ _ Hops).
  - apply memory_new_ok.
  - split; [split; constructor|exact Hdir].
  - split_and!; intros x; simpl; unfold erased; setoid_rewrite in_map_empty || rewrite in_map_empty;
      set_solver.
Qed.
End agree.

(** ** An example codec *)

#[export] Instance byte_countable : Countable byte :=
  inj_countable' Byte.to_N (λ n, unwrap_or x00 (Byte.of_N n)) (λ b, ltac:(by destruct b)).

Definition task_fields (t : DBDownloadTask) :=
  (dt_id t, dt_url t, dt_spec_json t, dt_source_set_json t, dt_resolved_url t,
   (dt_entity_tag t, dt_last_modified t, dt_file_name t, dt_file_path t, dt_status t),
   (dt_downloaded_size t, dt_total_size t, dt_torrent_backend t, dt_torrent_external_id t),
   (dt_torrent_state_json t, dt_torrent_metadata_json t, dt_torrent_resume_data t,
    dt_created_at t, dt_updated_at t)).
#[export] Instance DBDownloadTask_countable : Countable DBDownloadTask :=
  inj_countable' task_fields
    (λ '(a, b, c, d, e, (f, g, h, i, j), (k, l, m, n), (o, p, q, r, s)),
       mk_db_task a b c d e f g h i j k l m n o p q r s) (λ t, ltac:(by destruct t)).
#[export] Instance DBDownloadWorker_countable : Countable DBDownloadWorker :=
  inj_countable'
    (λ w, (dw_id w, dw_task_id w, dw_index w, dw_source_id w, (dw_piece_start w, dw_piece_end w),
           (dw_block_start w, dw_block_end w, dw_start w, dw_end w, dw_downloaded w),
           (dw_status w, dw_updated_at w)))
    (λ '(a, b, c, d, (e, f), (g, h, i, j, k), (l, m)), mk_db_worker a b c d e f g h i j k l m)
    (λ w, ltac:(by destruct w)).
#[export] Instance DBDownloadPiece_countable : Countable DBDownloadPiece :=
  inj_countable' (λ p, (dp_task_id p, dp_piece_index p, dp_completed p, dp_updated_at p))
    (λ '(a, b, c, d), mk_db_piece a b c d) (λ p, ltac:(by destruct p)).
#[export] Instance DBDownloadBlock_countable : Countable DBDownloadBlock :=
  inj_countable'
    (λ b, (db_task_id b, db_piece_index b, db_block_index b, db_completed b, db_updated_at b))
    (λ '(a, b, c, d, e), mk_db_block a b c d e) (λ b, ltac:(by destruct b)).
#[export] Instance DBDownloadChecksum_countable : Countable DBDownloadChecksum :=
  inj_countable'
    (λ c, (dc_id c, dc_task_id c, dc_algorithm c, dc_value c, dc_verified c, dc_verified_at c))
    (λ '(a, b, c, d, e, f), mk_db_checksum a b c d e f) (λ c, ltac:(by destruct c)).
#[export] Instance JsonRepositoryState_eq_dec : EqDecision JsonRepositoryState.
Proof. solve_decision. Defined.
#[export] Instance JsonRepositoryState_countable : Countable JsonRepositoryState :=
  inj_countable' (λ s, (js_tasks s, js_workers s, js_pieces s, js_blocks s, js_checksums s))
    (λ '(a, b, c, d, e), mk_json_state a b c d e) (λ s, ltac:(by destruct s)).

Lemma countable_state_codec_ok : @state_codec_ok countable_codec.
Proof.
  intros st. destruct (countable_codec_ok st) as (text & Ht & Hf). exists text.
  split_and!; [done|done|..]; injection Ht as <-; [apply digits_of_utf8|apply digits_of_trim].
Qed.

(** A task with one worker, then with another one in its place. *)
Definition example_row (name : string) : DBDownloadTask :=
  mk_db_task 1 "https://host/f" "" "" "" "" "" name "/d/f" "Pending" 0 (Some 10) None None None None
    None None None.
Definition example_worker_row (id : Z) : DBDownloadWorker :=
  mk_db_worker id 1 0 None None None None None 0 10 0 "Pending" None.
Definition example_writes : list repo_write :=
  [WSaveBundle (example_row "f") [example_worker_row 7] [mk_db_piece 1 0 false None] [] [];
   WSaveTask (example_row "g"); WSaveWorker (example_worker_row 8); WDeletePieces 1].

Lemma example_writes_ok : Forall write_ok example_writes.
Proof.
  repeat constructor; simpl; try (by apply not_elem_of_nil); intros H; by apply elem_of_nil in H.
Qed.

Lemma backends_agree_witness :
  ∃ r w o, for_each run_write example_writes memory_new = (Ok tt, r) ∧
    for_each (@run_write _ (@json_repository countable_codec "")) example_writes
      (mk_json_world "/d/tasks.json" JsonRepositoryState_default
         (mk_fs {["/d" := NDir]} ∅)) = (Ok tt, w) ∧
    observe 1 r = (Ok o, r) ∧ @observe _ (@json_repository countable_codec "") 1 w = (Ok o, w).
Proof.
  apply (@backends_agree countable_codec (λ _, "") "" countable_state_codec_ok "/d/tasks.json"
    fs_empty).
  - vm_compute. reflexivity.
  - apply example_writes_ok.
Defined.

Lemma json_repository_durable_witness :
  ∃ w, for_each (@run_write _ (@json_repository countable_codec "")) example_writes
      (mk_json_world "/d/tasks.json" JsonRepositoryState_default
         (mk_fs {["/d" := NDir]} ∅)) = (Ok tt, w) ∧
    @json_new countable_codec (λ _, "") "/d/tasks.json" (jw_fs w) = (Ok (jw_state w), jw_fs w).
Proof.
  apply (@json_repository_durable countable_codec (λ _, "") "" countable_state_codec_ok
    "/d/tasks.json" fs_empty).
  vm_compute. reflexivity.
Defined.
