(* ===== verification/Store.v ===== *)
(** * The store ([src/src/storage/mod.rs])

    What the program saves of a task and reads back at the start, over any
    repository that keeps the contract of [Repository]. *)

From S2P Require Import Prelude Text Status Effect Source Piece Files Checksum Manifest Planner Torrent Config Task Mapping Repository Memory.

(** [src/src/storage/mod.rs:33-39], [StoredBundle]. *)
Record StoredBundle := mk_bundle {
  sb_task : DBDownloadTask;
  sb_workers : list DBDownloadWorker;
  sb_pieces : list DBDownloadPiece;
  sb_blocks : list DBDownloadBlock;
  sb_checksums : list DBDownloadChecksum
}.

Section store.
Context {St : Type} `{Repository St}.
Context `{UrlLib} `{Json DownloadSpec} `{Json SourceSet} `{Json TorrentEngineState}
  `{Json TorrentMetadata}.

(** [src/src/storage/mod.rs:56-80], [Store::save_task]. *)
Definition store_save_task (task : Task) : eff St unit :=
  let db_task := task_to_db task in
  let db_workers := worker_to_db task <$> t_workers task in
  let db_pieces := piece_states_to_db (t_id task) (t_piece_states task) in
  let db_blocks := block_states_to_db (t_id task) (t_block_states task) in
  let db_checksums := (λ checksum, checksum_to_db checksum (t_id task)) <$> t_checksums task in
  save_bundle db_task db_workers db_pieces db_blocks db_checksums.

(** [src/src/storage/mod.rs:82-87], [Store::save_tasks]. *)
Definition store_save_tasks (tasks : list Task) : eff St unit := for_each store_save_task tasks.

(** [src/src/storage/mod.rs:89-91], [Store::load_task]. *)
Definition store_load_task (task_id : Z) : eff St (option DBDownloadTask) := load_task task_id.
(** [src/src/storage/mod.rs:93-95], [Store::load_tasks]. *)
Definition store_load_tasks : eff St (list DBDownloadTask) := load_tasks.

(** [src/src/storage/mod.rs:101-114], [Store::load_task_bundles (for loop)]. *)
Definition load_bundle (task : DBDownloadTask) : eff St StoredBundle :=
  let! workers := load_workers (dt_id task) in
  let! pieces := load_pieces (dt_id task) in
  let! blocks := load_blocks (dt_id task) in
  let! checksums := load_checksums (dt_id task) in
  ret (mk_bundle task workers pieces blocks checksums).

(** [src/src/storage/mod.rs:97-117], [Store::load_task_bundles]. *)
Definition load_task_bundles : eff St (list StoredBundle) :=
  let! tasks := store_load_tasks in
  map_each load_bundle tasks.

(** [src/src/storage/mod.rs:119-123], [Store::delete_task]. *)
Definition store_delete_task (task_id : Z) : eff St unit :=
  delete_task task_id ;;;
  delete_pieces task_id ;;;
  delete_blocks task_id.

(** [src/src/storage/mod.rs:125-128], [Store::save_worker]. *)
Definition store_save_worker (task : Task) (worker : Worker) : eff St unit :=
  save_worker (worker_to_db task worker).
(** [src/src/storage/mod.rs:130-135], [Store::save_workers]. *)
Definition store_save_workers (task : Task) (workers : list Worker) : eff St unit :=
  for_each (store_save_worker task) workers.
(** [src/src/storage/mod.rs:153-160], [Store::save_piece_states]. *)
Definition store_save_piece_states (task_id : Z) (piece_states : list PieceState) : eff St unit :=
  save_pieces task_id (piece_states_to_db task_id piece_states).
(** [src/src/storage/mod.rs:170-177], [Store::save_block_states]. *)
Definition store_save_block_states (task_id : Z) (block_states : list BlockState) : eff St unit :=
  save_blocks task_id (block_states_to_db task_id block_states).
(** [src/src/storage/mod.rs:194-200], [Store::save_checksums]. *)
Definition store_save_checksums (checksums : list Checksum) (task_id : Z) : eff St unit :=
  for_each (λ checksum, save_checksum (checksum_to_db checksum task_id)) checksums.
(** [src/src/storage/mod.rs:145-147], [Store::delete_workers]. *)
Definition store_delete_workers (task_id : Z) : eff St unit := delete_workers task_id.
(** [src/src/storage/mod.rs:202-204], [Store::delete_checksums]. *)
Definition store_delete_checksums (task_id : Z) : eff St unit := delete_checksums task_id.
End store.

(** ** Bundles *)

#[export] Instance StoredBundle_eq_dec : EqDecision StoredBundle.
Proof. solve_decision. Defined.

Definition bundle_id (b : StoredBundle) : Z := dt_id (sb_task b).
Definition bundle_le (a b : StoredBundle) : bool := bundle_id a <=? bundle_id b.
#[export] Instance bundle_order : IndexOrder bundle_le bundle_id := z_index_order bundle_id.

(** A bundle up to the ids of its rows. *)
Definition erase_bundle (b : StoredBundle) : StoredBundle :=
  mk_bundle (sb_task b) (erase_worker <$> sb_workers b) (sb_pieces b) (sb_blocks b)
    (erase_checksum <$> sb_checksums b).

Definition bundle_rows (v : repo_view) (b : StoredBundle) : Prop :=
  is_rows worker_le (λ x, v_worker v x ∧ dw_task_id x = bundle_id b) (sb_workers b) ∧
  is_rows piece_le (λ x, v_piece v x ∧ dp_task_id x = bundle_id b) (sb_pieces b) ∧
  is_rows block_le (λ x, v_block v x ∧ db_task_id x = bundle_id b) (sb_blocks b) ∧
  is_rows checksum_le (λ x, v_checksum v x ∧ dc_task_id x = bundle_id b) (sb_checksums b).

(** The bundles of a repository's rows. *)
Definition loaded (v : repo_view) (l : list StoredBundle) : Prop :=
  is_rows task_le (v_task v) (sb_task <$> l) ∧ Forall (bundle_rows v) l.

Lemma bundle_rows_unique v a b :
  bundle_rows v a → bundle_rows v b → sb_task a = sb_task b → a = b.
Proof.
  destruct a as [t ws ps bs cs], b as [t' ws' ps' bs' cs']. unfold bundle_rows, bundle_id. simpl.
  intros (W & P & B & C) (W' & P' & B' & C') <-.
  rewrite (is_rows_unique worker_le dw_index _ _ _ W W'),
    (is_rows_unique piece_le dp_piece_index _ _ _ P P'),
    (is_rows_unique block_le (λ b, (db_piece_index b, db_block_index b)) _ _ _ B B'),
    (is_rows_unique checksum_le dc_algorithm _ _ _ C C'). done.
Qed.

Lemma loaded_unique v l k : loaded v l → loaded v k → l = k.
Proof.
  intros [Hl Fl] [Hk Fk]. pose proof (is_rows_unique task_le dt_id _ _ _ Hl Hk) as E.
  clear Hl Hk. revert k E Fk. induction Fl as [|a l Ha _ IH]; intros [|b k] [=] Fk; [done|].
  apply Forall_cons in Fk as [Hb Fk]. f_equal; [by eapply bundle_rows_unique|by apply IH].
Qed.

Lemma bundle_rows_ext v w b : v ≡ w → bundle_rows v b → bundle_rows w b.
Proof.
  intros (_ & H2 & H3 & H4 & H5) (W & P & B & C). split_and!;
    [eapply is_rows_ext; [|exact W]|eapply is_rows_ext; [|exact P]|
     eapply is_rows_ext; [|exact B]|eapply is_rows_ext; [|exact C]]; intros x; simpl.
  - by rewrite H2.
  - by rewrite H3.
  - by rewrite H4.
  - by rewrite H5.
Qed.

Lemma loaded_ext v w l : v ≡ w → loaded v l → loaded w l.
Proof.
  intros Hvw [Hl Fl]. split.
  - eapply is_rows_ext; [|exact Hl]. apply Hvw.
  - eapply Forall_impl; [exact Fl|]. intros b. by apply bundle_rows_ext.
Qed.

(** A sorted list of bundles with distinct tasks. *)
Lemma loaded_tasks v l :
  is_rows bundle_le (λ b, b ∈ l) l → (∀ t, v_task v t ↔ ∃ b, b ∈ l ∧ sb_task b = t) →
  is_rows task_le (v_task v) (sb_task <$> l).
Proof.
  intros [Hs _] Ht. split; [by apply StronglySorted_fmap_2|].
  intros t. rewrite Ht, list_elem_of_fmap. naive_solver.
Qed.

Lemma loaded_sorted v l : loaded v l → is_rows bundle_le (λ b, b ∈ l) l.
Proof. intros [[Hs _] _]. split; [|done]. by apply StronglySorted_fmap_1 in Hs. Qed.

Lemma loaded_in v l t : loaded v l → v_task v t ↔ ∃ b, b ∈ l ∧ sb_task b = t.
Proof. intros [[_ Hin] _]. rewrite <- Hin, list_elem_of_fmap. naive_solver. Qed.

Lemma loaded_ids v l : loaded v l → NoDup (bundle_id <$> l).
Proof.
  intros [Hs _]%loaded_sorted. induction Hs as [|b l _ IH Hb]; [constructor|]. rewrite fmap_cons.
  constructor; [|done]. intros (c & Hc & Hin)%list_elem_of_fmap. rewrite Forall_forall in Hb.
  destruct (Hb c Hin) as [_ E]. unfold bundle_le in E. bool_hyps. lia.
Qed.

Lemma filterb_rows {A} (le : A → A → bool) p l :
  is_rows le (λ a, a ∈ l) l → is_rows le (λ a, a ∈ filterb p l) (filterb p l).
Proof.
  intros [Hs _]. split; [|done]. induction Hs as [|a l Hs IH Ha]; simpl; [constructor|].
  destruct (p a); [|done]. constructor; [done|]. rewrite Forall_forall in Ha |- *.
  intros b [Hb _]%elem_of_filterb. by apply Ha.
Qed.

(** ** Loading and saving *)
Section laws.
Context {St : Type} `{RepositoryLaws St}.

Lemma load_bundle_ok s t :
  repo_ok s → ∃ b, load_bundle t s = (Ok b, s) ∧ sb_task b = t ∧
    bundle_rows (view_erased (view s)) (erase_bundle b).
Proof.
  intros Hs. destruct (law_load_workers (dt_id t) s Hs) as (ws & E1 & P1).
  destruct (law_load_pieces (dt_id t) s Hs) as (ps & E2 & P2).
  destruct (law_load_blocks (dt_id t) s Hs) as (bs & E3 & P3).
  destruct (law_load_checksums (dt_id t) s Hs) as (cs & E4 & P4).
  exists (mk_bundle t ws ps bs cs). split.
  { unfold load_bundle. by rewrite (eff_bind_ok _ _ _ _ _ E1), (eff_bind_ok _ _ _ _ _ E2),
      (eff_bind_ok _ _ _ _ _ E3), (eff_bind_ok _ _ _ _ _ E4). }
  split; [done|]. split_and!; [|exact P2|exact P3|].
  - eapply is_rows_ext; [|apply (erased_rows erase_worker worker_le); [done|exact P1]].
    intros x. simpl. unfold erased, bundle_id. naive_solver.
  - eapply is_rows_ext; [|apply (erased_rows erase_checksum checksum_le); [done|exact P4]].
    intros x. simpl. unfold erased, bundle_id. naive_solver.
Qed.

Lemma load_task_bundles_ok s :
  repo_ok s → ∃ l, load_task_bundles s = (Ok l, s) ∧
    loaded (view_erased (view s)) (erase_bundle <$> l).
Proof.
  intros Hs. destruct (law_load_tasks s Hs) as (ts & E & P).
  assert (∃ l, map_each load_bundle ts s = (Ok l, s) ∧ sb_task <$> l = ts ∧
    Forall (bundle_rows (view_erased (view s))) (erase_bundle <$> l)) as (l & El & Ht & F).
  { clear E P. induction ts as [|t ts (l & El & Ht & F)]; [by exists []|].
    destruct (load_bundle_ok s t Hs) as (b & Eb & Hb & Fb). exists (b :: l). cbn [map_each].
    rewrite (eff_bind_ok _ _ _ _ _ Eb), (eff_bind_ok _ _ _ _ _ El). split; [done|].
    csimpl. split; [by rewrite Hb, Ht|by constructor]. }
  exists l. unfold load_task_bundles, store_load_tasks. rewrite (eff_bind_ok _ _ _ _ _ E).
  split; [done|]. split; [|done]. rewrite <- list_fmap_compose.
  by change (sb_task ∘ erase_bundle) with sb_task; rewrite Ht.
Qed.

(** What changes in the rows of a repository changes in its bundles. *)
Lemma bundles_after op f s :
  repo_ok s → updates repo_ok view op f →
  ∃ l s' l', load_task_bundles s = (Ok l, s) ∧ op s = (Ok tt, s') ∧ repo_ok s' ∧
    load_task_bundles s' = (Ok l', s') ∧
    loaded (view_erased (view s)) (erase_bundle <$> l) ∧
    loaded (view_erased (f (view s))) (erase_bundle <$> l').
Proof.
  intros Hs Hop. destruct (load_task_bundles_ok s Hs) as (l & El & Ll).
  destruct (Hop s Hs) as (s' & E & Hs' & V). destruct (load_task_bundles_ok s' Hs') as (l' & El' & Ll').
  exists l, s', l'. split_and!; try done. eapply loaded_ext; [|exact Ll'].
  destruct V as (V1 & V2 & V3 & V4 & V5).
  split_and!; intros x; simpl; unfold erased; try done; [by setoid_rewrite V2|by setoid_rewrite V5].
Qed.
End laws.

Lemma elem_of_others id l b :
  b ∈ filterb (λ b, negb (bundle_id b =? id)) l ↔ b ∈ l ∧ bundle_id b ≠ id.
Proof. by rewrite elem_of_filterb, negb_true_iff, Z.eqb_neq. Qed.

Lemma rows_of_index {A J K} (task : A → Z) (key : A → K) (index : A → J) id l :
  (∀ a b, task a = task b → index a = index b → key a = key b) →
  rows_of task key id l → NoDup (index <$> l).
Proof.
  intros Hkey [Ht Hn]. induction l as [|a l IH]; csimpl in *; [constructor|].
  apply NoDup_cons in Hn as [Ha Hn]. apply Forall_cons in Ht as [Hta Ht]. constructor; [|by apply IH].
  intros (b & Hb & Hin)%list_elem_of_fmap. apply Ha. rewrite Forall_forall in Ht.
  rewrite (Hkey a b); [by apply list_elem_of_fmap_2| |done]. by rewrite (Ht b Hin).
Qed.

Lemma rows_of_task {A J K} (le : A → A → bool) (index : A → J) `{!IndexOrder le index}
    (task : A → Z) (key : A → K) id l P :
  (∀ a b, task a = task b → index a = index b → key a = key b) → rows_of task key id l →
  is_rows le (λ x, replaced task id l P x ∧ task x = id) (sort_by le l).
Proof.
  intros Hkey Hr. eapply is_rows_ext; [|apply (sort_rows le index); by eapply rows_of_index].
  destruct Hr as [Ht _]. rewrite Forall_forall in Ht.
  intros x. unfold replaced, without. split; [|tauto]. intros Hx. specialize (Ht x Hx). tauto.
Qed.

Lemma rows_of_others {A} (le : A → A → bool) (task : A → Z) id id' l P k :
  Forall (λ a, task a = id) l → id' ≠ id → is_rows le (λ x, P x ∧ task x = id') k →
  is_rows le (λ x, replaced task id l P x ∧ task x = id') k.
Proof.
  intros Ht Hne. apply is_rows_ext. rewrite Forall_forall in Ht. intros x. unfold replaced, without.
  split.
  - intros [Hx <-]. auto.
  - intros [[Hx|[Hx _]] <-]; [|done]. by destruct Hne; apply Ht.
Qed.

Section saving.
Context `{Json DownloadSpec} `{Json SourceSet} `{Json TorrentEngineState} `{Json TorrentMetadata}.

(** A task's workers, pieces, blocks and checksums are told apart by their
    ids, indices and algorithms. *)
Definition task_rows_ok (t : Task) : Prop :=
  NoDup (w_id <$> t_workers t) ∧ NoDup (ps_index <$> t_piece_states t) ∧
  NoDup ((λ b, (bs_piece b, bs_index b)) <$> t_block_states t) ∧
  NoDup (ck_algorithm <$> t_checksums t).

(** The bundle of a saved task. *)
Definition stored_bundle (t : Task) : StoredBundle := {|
  sb_task := task_to_db t;
  sb_workers := sort_by worker_le (erase_worker <$> (worker_to_db t <$> t_workers t));
  sb_pieces := sort_by piece_le (piece_states_to_db (t_id t) (t_piece_states t));
  sb_blocks := sort_by block_le (block_states_to_db (t_id t) (t_block_states t));
  sb_checksums := sort_by checksum_le
    (erase_checksum <$> ((λ c, checksum_to_db c (t_id t)) <$> t_checksums t))
|}.

Lemma task_to_db_id t : dt_id (task_to_db t) = t_id t.
Proof. unfold task_to_db. by destruct (unwrap_or _ _) as [[[[]]]]. Qed.

Lemma NoDup_fmap_inj {A B C} (f : A → B) (g : A → C) (l : list A) :
  (∀ a b, g a = g b → f a = f b) → NoDup (f <$> l) → NoDup (g <$> l).
Proof.
  intros Hfg. induction l as [|a l IH]; csimpl; [constructor|]. intros [Ha Hn]%NoDup_cons.
  constructor; [|by apply IH]. intros (b & Hb & Hin)%list_elem_of_fmap. apply Ha.
  rewrite (Hfg a b Hb). by apply list_elem_of_fmap_2.
Qed.

Lemma saved_rows t : task_rows_ok t →
  rows_of dw_task_id worker_key (t_id t) (worker_to_db t <$> t_workers t) ∧
  rows_of dp_task_id piece_key (t_id t) (piece_states_to_db (t_id t) (t_piece_states t)) ∧
  rows_of db_task_id block_key (t_id t) (block_states_to_db (t_id t) (t_block_states t)) ∧
  rows_of dc_task_id checksum_key (t_id t) ((λ c, checksum_to_db c (t_id t)) <$> t_checksums t).
Proof.
  intros (Hw & Hp & Hb & Hc). split_and!; (split; [apply Forall_fmap, Forall_true; done|]);
    unfold piece_states_to_db, block_states_to_db; rewrite <- list_fmap_compose.
  - eapply NoDup_fmap_inj; [|exact Hw]. by intros a b [=].
  - eapply NoDup_fmap_inj; [|exact Hp]. by intros a b [=].
  - eapply NoDup_fmap_inj; [|exact Hb]. intros a b [= ? ?]. simpl. congruence.
  - eapply NoDup_fmap_inj; [|exact Hc]. intros a b Hab%(f_equal snd). revert Hab. simpl.
    by destruct (ck_algorithm a), (ck_algorithm b).
Qed.

(** The other bundles stay, the task's is replaced. *)
Lemma saved_loaded t v l :
  task_rows_ok t → loaded v l →
  loaded (view_write erase_worker erase_checksum
      (WSaveBundle (task_to_db t) (worker_to_db t <$> t_workers t)
         (piece_states_to_db (t_id t) (t_piece_states t))
         (block_states_to_db (t_id t) (t_block_states t))
         ((λ c, checksum_to_db c (t_id t)) <$> t_checksums t)) v)
    (sort_by bundle_le (stored_bundle t :: filterb (λ b, negb (bundle_id b =? t_id t)) l)).
Proof.
  intros Hok Hl. destruct (saved_rows t Hok) as (Rw & Rp & Rb & Rc).
  simpl view_write. rewrite task_to_db_id.
  assert (bundle_id (stored_bundle t) = t_id t) as Hid by apply task_to_db_id. split.
  - apply loaded_tasks.
    + eapply is_rows_ext; [|apply (sort_rows bundle_le bundle_id)].
      { intros x. by rewrite elem_of_sort_by. }
      rewrite fmap_cons. constructor.
      * rewrite Hid. intros (b & Hb & [_ Hne]%elem_of_filterb)%list_elem_of_fmap. bool_hyps. congruence.
      * by eapply nodup_filterb, loaded_ids.
    + intros x. cbn [v_task set_checksums set_blocks set_pieces set_workers put_task]. unfold upsert.
      rewrite (loaded_in v l x Hl), task_to_db_id.
      setoid_rewrite elem_of_sort_by. setoid_rewrite elem_of_cons. setoid_rewrite elem_of_others.
      unfold bundle_id. split.
      * intros [->|[(b & Hb & <-) Hne]]; [by eexists; split; [left|]|]. eauto.
      * intros (b & [->|[Hb Hne]] & <-); [by left|]. right. eauto.
  - apply Forall_forall. intros b. rewrite elem_of_sort_by, elem_of_cons, elem_of_others.
    apply (rows_of_stored _ _ erase_worker) in Rw; [|done..].
    apply (rows_of_stored _ _ erase_checksum) in Rc; [|done..].
    intros [->|[Hb Hne]].
    + unfold bundle_rows. rewrite Hid. split_and!; simpl.
      * apply (rows_of_task worker_le dw_index _ worker_key); [|done]. unfold worker_key. congruence.
      * apply (rows_of_task piece_le dp_piece_index _ piece_key); [|done]. unfold piece_key. congruence.
      * apply (rows_of_task block_le (λ b, (db_piece_index b, db_block_index b)) _ block_key); [|done].
        unfold block_key. intros c d ? [= ??]. congruence.
      * apply (rows_of_task checksum_le dc_algorithm _ checksum_key); [|done].
        unfold checksum_key. congruence.
    + destruct Hl as [_ Fl]. rewrite Forall_forall in Fl. destruct (Fl b Hb) as (W & P & B & C).
      split_and!; apply rows_of_others; try done; [apply Rw|apply Rp|apply Rb|apply Rc].
Qed.

Context {St : Type} `{RepositoryLaws St}.

Lemma store_save_task_updates t :
  task_rows_ok t →
  updates repo_ok view (store_save_task t) (view_write stored_worker stored_checksum
    (WSaveBundle (task_to_db t) (worker_to_db t <$> t_workers t)
       (piece_states_to_db (t_id t) (t_piece_states t))
       (block_states_to_db (t_id t) (t_block_states t))
       ((λ c, checksum_to_db c (t_id t)) <$> t_checksums t))).
Proof.
  intros (Rw & Rp & Rb & Rc)%saved_rows. apply law_save_bundle; by rewrite task_to_db_id.
Qed.

(** C10. Saving a task succeeds and afterwards the store gives the bundles it
    gave before with the task's own in the place of what it held of the task:
    its row, workers, pieces, blocks and checksums, each in the order of their
    indices; up to the ids that the repository gives to rows. *)
Theorem save_task_bundles t s :
  repo_ok s → task_rows_ok t →
  ∃ l s' l', load_task_bundles s = (Ok l, s) ∧ store_save_task t s = (Ok tt, s') ∧ repo_ok s' ∧
    load_task_bundles s' = (Ok l', s') ∧
    erase_bundle <$> l' = sort_by bundle_le
      (stored_bundle t :: filterb (λ b, negb (bundle_id b =? t_id t)) (erase_bundle <$> l)).
Proof.
  intros Hs Hok. destruct (bundles_after _ _ s Hs (store_save_task_updates t Hok))
    as (l & s' & l' & E & Es & Hs' & E' & Hl & Hl').
  exists l, s', l'. split_and!; try done. eapply loaded_unique; [exact Hl'|].
  eapply loaded_ext; [symmetry; apply view_erased_write|by apply saved_loaded].
  - apply erase_stored_worker.
  - apply erase_stored_checksum.
Qed.

(** What [Store::delete_task] leaves. *)
Definition deleted (id : Z) (v v' : repo_view) : Prop :=
  (∀ t, v_task v' t ↔ without dt_id id (v_task v) t) ∧
  keeps_others dw_task_id id (v_worker v) (v_worker v') ∧
  (∀ p, v_piece v' p ↔ without dp_task_id id (v_piece v) p) ∧
  (∀ b, v_block v' b ↔ without db_task_id id (v_block v) b) ∧
  keeps_others dc_task_id id (v_checksum v) (v_checksum v').

Lemma store_delete_task_ok id s :
  repo_ok s → ∃ s', store_delete_task id s = (Ok tt, s') ∧ repo_ok s' ∧ deleted id (view s) (view s').
Proof.
  intros Hs. unfold store_delete_task. destruct (law_delete_task id s Hs) as (s1 & E1 & Hs1 & V1).
  destruct (law_delete_pieces id s1 Hs1) as (s2 & E2 & Hs2 & V2).
  destruct (law_delete_blocks id s2 Hs2) as (s3 & E3 & Hs3 & V3). exists s3.
  rewrite (eff_bind_ok _ _ _ _ _ E1), (eff_bind_ok _ _ _ _ _ E2). split_and!; [exact E3|done|].
  assert (view s3 ≡ set_blocks id [] (set_pieces id [] (view s1))) as (T & W & P & B & C) by (by rewrite V3, V2).
  destruct V1 as (T1 & W1 & P1 & B1 & C1). cbn in T, W, P, B, C.
  split_and!.
  - intros t. by rewrite T, T1.
  - intros x. rewrite W. apply W1.
  - intros x. rewrite P. specialize (P1 x). unfold replaced, without. rewrite elem_of_nil. tauto.
  - intros x. rewrite B. specialize (B1 x). unfold replaced, without. rewrite elem_of_nil. tauto.
  - intros x. rewrite C. apply C1.
Qed.

Lemma erased_others {A} (erase : A → A) (task : A → Z) id i P Q x :
  (∀ a, task (erase a) = task a) → i ≠ id → keeps_others task id P Q → task x = i →
  erased erase Q x ↔ erased erase P x.
Proof.
  intros Ht Hi HPQ Hx. unfold erased. split; intros (y & Hy & <-); exists y; (split; [|done]);
    rewrite Ht in Hx; apply HPQ; congruence.
Qed.

Lemma deleted_loaded id v v' l :
  deleted id v v' → loaded (view_erased v) l →
  loaded (view_erased v') (filterb (λ b, negb (bundle_id b =? id)) l).
Proof.
  intros (T & W & P & B & C) Hl. split.
  - apply loaded_tasks; [by eapply filterb_rows, loaded_sorted|].
    intros t. cbn [v_task view_erased]. rewrite T. unfold without. change (v_task v) with (v_task (view_erased v)).
    rewrite (loaded_in _ l t Hl). setoid_rewrite elem_of_others. unfold bundle_id. naive_solver.
  - destruct Hl as [_ Fl]. rewrite Forall_forall in Fl |- *. intros b [Hb Hne]%elem_of_others.
    destruct (Fl b Hb) as (RW & RP & RB & RC).
    split_and!; (eapply is_rows_ext; [|eassumption]); intros x; cbn.
    + split; intros [Hx Hid]; (split; [|done]); by apply (erased_others erase_worker dw_task_id id _ _ _ x (λ _, eq_refl) Hne W).
    + rewrite P. unfold without. split; [intros [? Hx]; by rewrite Hx|tauto].
    + rewrite B. unfold without. split; [intros [? Hx]; by rewrite Hx|tauto].
    + split; intros [Hx Hid]; (split; [|done]); by apply (erased_others erase_checksum dc_task_id id _ _ _ x (λ _, eq_refl) Hne C).
Qed.

(** C11. Deleting a task succeeds, and afterwards the store gives the bundles it
    gave before, without that task's.  The task's row, pieces and blocks are
    gone, whatever the repository itself deletes with a task; a row of another
    task is neither removed nor changed, in any table, and none is new.  (Rows of
    the task's own workers and checksums may stay, as SQLite's do, until they are
    deleted by themselves or a task with its id is saved: see
    [Sqlite.sqlite_keeps_workers].) *)
Theorem delete_task_bundles id s :
  repo_ok s →
  ∃ l s' l', load_task_bundles s = (Ok l, s) ∧ store_delete_task id s = (Ok tt, s') ∧ repo_ok s' ∧
    load_task_bundles s' = (Ok l', s') ∧
    erase_bundle <$> l' = filterb (λ b, negb (bundle_id b =? id)) (erase_bundle <$> l) ∧
    (∀ t, v_task (view s') t ↔ v_task (view s) t ∧ dt_id t ≠ id) ∧
    (∀ p, v_piece (view s') p ↔ v_piece (view s) p ∧ dp_task_id p ≠ id) ∧
    (∀ b, v_block (view s') b ↔ v_block (view s) b ∧ db_task_id b ≠ id) ∧
    (∀ w, dw_task_id w ≠ id → v_worker (view s') w ↔ v_worker (view s) w) ∧
    (∀ c, dc_task_id c ≠ id → v_checksum (view s') c ↔ v_checksum (view s) c) ∧
    (∀ w, v_worker (view s') w → v_worker (view s) w) ∧
    (∀ c, v_checksum (view s') c → v_checksum (view s) c).
Proof.
  intros Hs. destruct (load_task_bundles_ok s Hs) as (l & El & Ll).
  destruct (store_delete_task_ok id s Hs) as (s' & E & Hs' & V).
  destruct (load_task_bundles_ok s' Hs') as (l' & El' & Ll').
  exists l, s', l'. split_and!; try done.
  - eapply loaded_unique; [exact Ll'|]. by eapply deleted_loaded.
  - apply V.
  - apply V.
  - apply V.
  - intros w Hw. destruct V as (_ & HW & _). split; intros Hx; by apply HW.
  - intros c Hc. destruct V as (_ & _ & _ & _ & HC). split; intros Hx; by apply HC.
  - intros w. apply V.
  - intros c. apply V.
Qed.
End saving.

(** ** Examples, over the in-memory repository *)

Definition example_saved : Task :=
  example_stored <| t_workers := [example_worker 0 0 3 4; example_worker 1 4 9 3] |>
    <| t_checksums := [mk_checksum MD5 None None None] |>.

#[local] Existing Instances spec_codec sources_codec state_codec metadata_codec.

Lemma example_saved_rows : task_rows_ok example_saved.
Proof.
  split_and!; (eapply bool_decide_eq_true_1; vm_compute; reflexivity).
Qed.

Lemma memory_new_repo_ok : repo_ok memory_new.
Proof. exact memory_new_ok. Qed.

Lemma save_task_bundles_witness :
  ∃ l s' l', load_task_bundles memory_new = (Ok l, memory_new) ∧
    store_save_task example_saved memory_new = (Ok tt, s') ∧ memory_ok s' ∧
    load_task_bundles s' = (Ok l', s') ∧
    erase_bundle <$> l' = sort_by bundle_le
      (stored_bundle example_saved ::
         filterb (λ b, negb (bundle_id b =? 1)) (erase_bundle <$> l)).
Proof.
  apply (save_task_bundles example_saved memory_new memory_new_repo_ok
    example_saved_rows).
Defined.

Lemma delete_task_bundles_witness :
  ∃ s l l' s', store_save_task example_saved memory_new = (Ok tt, s) ∧
    load_task_bundles s = (Ok l, s) ∧ store_delete_task 1 s = (Ok tt, s') ∧
    load_task_bundles s' = (Ok l', s') ∧
    erase_bundle <$> l' = filterb (λ b, negb (bundle_id b =? 1)) (erase_bundle <$> l).
Proof.
  destruct (store_save_task_updates example_saved example_saved_rows
    memory_new memory_new_repo_ok)
    as (s & E & Hs & _).
  destruct (delete_task_bundles 1 s Hs) as (l & s' & l' & El & Es & _ & El' & Hb & _).
  exists s, l, l', s'. split_and!; assumption.
Defined.
