(* ===== verification/Recovery.v ===== *)
(** * Recovery ([src/src/recovery.rs])

    How the stored rows of a task become the request it is restored from: what
    is trusted of its progress, given the file that is on the disk. *)

From S2P Require Import Prelude Text Ranges Status Effect Source Piece Files Checksum Manifest Planner Torrent Config Task Mapping Repository Store.

(** [src/src/recovery.rs:116-121], [normalize_restored_status]. *)
Definition normalize_restored_status (status : Status) : Status :=
  match status with
  | Running | Preparing => Paused
  | other => other
  end.

(** [src/src/recovery.rs:272-279], [normalize_worker_status]. *)
Definition normalize_worker_status (status : option string) : option string :=
  match status with
  | Some other =>
      if (String.eqb other "Running" || String.eqb other "Preparing")%bool then Some "Paused"
      else if String.eqb other "Deleted" then Some "Pending"
      else Some other
  | None => Some "Pending"
  end.

(** [src/src/recovery.rs:105-114], [has_restorable_piece_state]. *)
Definition has_restorable_piece_state (task_request : TaskRequest) : bool :=
  (is_some_and (existsb ps_completed) (rq_piece_states task_request) ||
   is_some_and (existsb bs_completed) (rq_block_states task_request))%bool.

(** ** Workers *)

#[export] Instance SegmentRequest_eta : Settable SegmentRequest := λ s,
  mk_segment_request (sg_id s) (sg_task_id s) (sg_index s) (sg_source_id s) (sg_piece_start s)
    (sg_piece_end s) (sg_block_start s) (sg_block_end s) (sg_start s) (sg_end s)
    (sg_downloaded s) (sg_status s) (sg_updated_at s).

Section sanitize.
Context (task_id : Z) (total_size : option Z) (known_sources : gset string)
  (single_source : option string).

(** [src/src/recovery.rs:203-221], [sanitize_worker_requests (source)]. *)
Definition worker_source_id (worker : SegmentRequest) : option string :=
  match opt_or (sg_source_id worker) single_source with
  | Some source_id =>
      if (negb (bool_decide (known_sources = ∅)) && negb (bool_decide (source_id ∈ known_sources)))%bool
      then None else Some source_id
  | None => None
  end.

(** [src/src/recovery.rs:223-251], [sanitize_worker_requests (lane metadata)]. *)
Definition lane_metadata_ok (worker : SegmentRequest) : bool :=
  let present :=
    [is_some (sg_piece_start worker); is_some (sg_piece_end worker);
     is_some (sg_block_start worker); is_some (sg_block_end worker)] in
  let lane_metadata_count := length (filterb (λ p, p) present) in
  if (negb (bool_decide (lane_metadata_count = 0%nat)) &&
      negb (bool_decide (lane_metadata_count = 4%nat)))%bool then false
  else
    match sg_piece_start worker, sg_piece_end worker, sg_block_start worker,
          sg_block_end worker with
    | Some piece_start, Some piece_end, Some block_start, Some block_end =>
        negb ((piece_end <? piece_start) || (block_end <? block_start))
    | _, _, _, _ => true
    end.

(** [src/src/recovery.rs:149-256], [sanitize_worker_requests (for loop)]. The accepted workers
    and the end of their ranges; [None] is a rejection. *)
Fixpoint sanitize_loop (seen_indexes : list Z) (expected_start : Z)
    (workers : list SegmentRequest) : option (list SegmentRequest * Z) :=
  match workers with
  | [] => Some ([], expected_start)
  | worker :: workers =>
      if negb (sg_task_id worker =? task_id) then None
      else if bool_decide (sg_index worker ∈ seen_indexes) then None
      else if sg_end worker <? sg_start worker then None
      else
        let expected_length := sat_add (sat_sub (sg_end worker) (sg_start worker)) 1 in
        let downloaded := unwrap_or 0 (sg_downloaded worker) in
        if expected_length <? downloaded then None
        else if is_some_and (λ total_size, (0 <? total_size) && (total_size <=? sg_end worker))%bool
                  total_size then None
        else if negb (sg_start worker =? expected_start) then None
        else match worker_source_id worker with
        | None => None
        | Some source_id =>
            let worker := worker <| sg_source_id := Some source_id |> in
            if negb (lane_metadata_ok worker) then None
            else
              let worker := worker <| sg_status ::= normalize_worker_status |> in
              '(sanitized, end_) ← sanitize_loop (sg_index worker :: seen_indexes)
                                     (sat_add (sg_end worker) 1) workers;
              Some (worker :: sanitized, end_)
        end
  end.
End sanitize.

(** The only element of a set. *)
Definition only_element (s : gset string) : option string :=
  match elements s with [x] => Some x | _ => None end.

(** [src/src/recovery.rs:123-270], [sanitize_worker_requests]. *)
Definition sanitize_worker_requests (task_id : Z) (total_size : option Z)
    (source_set : option SourceSet) (workers : list SegmentRequest) : list SegmentRequest :=
  let workers := sort_by_key sg_index workers in
  let known_sources : gset string :=
    match source_set with
    | Some source_set => list_to_set (src_id <$> sources source_set)
    | None => ∅
    end in
  let single_source := only_element known_sources in
  match sanitize_loop task_id total_size known_sources single_source [] 0 workers with
  | None => []
  | Some (sanitized, expected_start) =>
      match total_size with
      | Some total_size =>
          if ((0 <? total_size) && negb (expected_start =? total_size))%bool then [] else sanitized
      | None => sanitized
      end
  end.

(** ** The file *)

(** [src/src/recovery.rs:282-285], [RestoreFileState]. *)
Record RestoreFileState := mk_file_state { rf_exists : bool; rf_size : option Z }.

(** [src/src/recovery.rs:288-299], [RestoreFileState::is_usable_for_completed]. *)
Definition is_usable_for_completed (s : RestoreFileState) (total_size : option Z) : bool :=
  if negb (rf_exists s) then false
  else match rf_size s, total_size with
       | Some size, Some total => if 0 <? total then size =? total else false
       | _, _ => false
       end.

(** [src/src/recovery.rs:302-320], [inspect_restore_file_state]. *)
Definition inspect_restore_file_state (f : fs) (file_path : option string) : RestoreFileState :=
  match opt_filter (λ path, negb (is_empty (trim path))) file_path with
  | None => mk_file_state false None
  | Some path =>
      if negb (fs_exists f path) then mk_file_state false None
      else mk_file_state true (result_ok (fs_len f path))
  end.

(** ** The plan *)

(** [src/src/recovery.rs:10-13], [RestorePlan]. *)
Record RestorePlan := mk_plan {
  rp_task_request : TaskRequest;
  rp_workers : option (list SegmentRequest)
}.

(** The largest element, if there is one. *)
Fixpoint zmax (l : list Z) : option Z :=
  match l with
  | [] => None
  | x :: l => Some (match zmax l with Some m => Z.max x m | None => x end)
  end.

Section plan.
Context `{UrlLib} `{Json DownloadSpec} `{Json SourceSet} `{Json TorrentEngineState}
  `{Json TorrentMetadata}.

(** [src/src/recovery.rs:21-103], [build_restore_plan]. *)
Definition build_restore_plan (f : fs) (bundle : StoredBundle) : RestorePlan :=
  let '(mk_bundle task workers pieces blocks checksums) := bundle in
  let task_request := db_task_to_request task pieces blocks checksums in
  let worker_requests := db_workers_to_requests workers in
  let restored_status :=
    normalize_restored_status (unwrap_or Pending (rq_status task_request)) in
  let file_state := inspect_restore_file_state f (rq_file_path task_request) in
  let '(restored_status, task_request) :=
    if (bool_decide (restored_status = Completed) &&
        negb (is_usable_for_completed file_state (rq_total_size task_request)))%bool
    then (Pending, task_request <| rq_piece_states := Some [] |>)
    else (restored_status, task_request) in
  let sanitized_workers :=
    if (bool_decide (restored_status = Paused) && rf_exists file_state)%bool
    then sanitize_worker_requests (dt_id task) (rq_total_size task_request)
           (rq_sources task_request) worker_requests
    else [] in
  let restored_status :=
    if (bool_decide (restored_status = Paused) && bool_decide (sanitized_workers = []) &&
        negb (has_restorable_piece_state task_request))%bool
    then Pending else restored_status in
  let task_request := task_request <| rq_status := Some restored_status |> in
  let task_request :=
    if negb (bool_decide (sanitized_workers = [])) then
      let downloaded_size := wrapping_sum ((λ w, unwrap_or 0 (sg_downloaded w)) <$> sanitized_workers) in
      let task_request := task_request <| rq_downloaded_size := Some downloaded_size |> in
      if (bool_decide (rq_total_size task_request = None) ||
          bool_decide (rq_total_size task_request = Some 0))%bool
      then task_request <| rq_total_size :=
             zmax ((λ w, sat_add (sg_end w) 1) <$> sanitized_workers) |>
      else task_request
    else if (negb (rf_exists file_state) ||
             (negb (bool_decide (rq_status task_request = Some Completed)) &&
              negb (has_restorable_piece_state task_request)))%bool
    then task_request <| rq_downloaded_size := Some 0 |>
    else task_request in
  let task_request :=
    if negb (rf_exists file_state) then task_request <| rq_piece_states := Some [] |>
    else task_request in
  mk_plan task_request
    (if bool_decide (sanitized_workers = []) then None else Some sanitized_workers).
End plan.

(** ** What is accepted *)

(** The bytes of a worker. *)
Definition segment_span (w : SegmentRequest) : span := (sg_start w, sg_end w - sg_start w + 1).

(** A worker that can be trusted on its own. *)
Definition worker_accepted (task_id : Z) (known : gset string) (single : option string)
    (w : SegmentRequest) : bool :=
  ((sg_task_id w =? task_id) &&
   (unwrap_or 0 (sg_downloaded w) <=? sg_end w - sg_start w + 1) &&
   is_some (worker_source_id known single w) && lane_metadata_ok w)%bool.

(** Workers, by index, that can be trusted together: they cut the payload, from
    its first byte to its end if that is known, into consecutive ranges. *)
Definition workers_trusted (task_id : Z) (total_size : option Z) (known : gset string)
    (single : option string) (ws : list SegmentRequest) : Prop :=
  Forall (λ w, worker_accepted task_id known single w = true) ws ∧
  NoDup (sg_index <$> ws) ∧
  ∃ stop, tiles 0 (segment_span <$> ws) stop ∧
    ∀ total, total_size = Some total → 0 < total → stop = total.

(** The request an accepted worker is restored from. *)
Definition restored_worker (known : gset string) (single : option string) (w : SegmentRequest)
    : SegmentRequest :=
  w <| sg_source_id := worker_source_id known single w |> <| sg_status ::= normalize_worker_status |>.

(** The ranges and counters are those of 64-bit unsigned integers, and no range
    ends at the largest of them. *)
Definition segment_ok (w : SegmentRequest) : Prop :=
  is_u64 (sg_start w) ∧ is_u64 (sg_end w) ∧ sg_end w < u64_max ∧
  is_u64 (unwrap_or 0 (sg_downloaded w)).

Lemma is_some_and_total total_size (e : Z) :
  is_some_and (λ t, (0 <? t) && (t <=? e))%bool total_size = true ↔
  ∃ t, total_size = Some t ∧ 0 < t ∧ t ≤ e.
Proof.
  destruct total_size as [t|]; simpl.
  - rewrite andb_true_iff, Z.ltb_lt, Z.leb_le. naive_solver.
  - naive_solver.
Qed.

Section sanitize_spec.
Context (task_id : Z) (total_size : option Z) (known : gset string) (single : option string).

(** What the loop has checked when it accepts. *)
Definition loop_accepts (seen : list Z) (start : Z) (ws : list SegmentRequest) (stop : Z) : Prop :=
  Forall (λ w, worker_accepted task_id known single w = true) ws ∧
  NoDup (sg_index <$> ws) ∧ Forall (λ w, sg_index w ∉ seen) ws ∧
  tiles start (segment_span <$> ws) stop ∧
  Forall (λ w, is_some_and (λ t, (0 <? t) && (t <=? sg_end w))%bool total_size = false) ws.

Lemma segment_length w :
  segment_ok w → sg_start w ≤ sg_end w →
  sat_add (sat_sub (sg_end w) (sg_start w)) 1 = sg_end w - sg_start w + 1 ∧
  sat_add (sg_end w) 1 = sg_end w + 1.
Proof. intros (? & ? & ? & ?) ?. ilia. Qed.

Lemma loop_accepts_cons seen start w ws stop :
  segment_ok w →
  loop_accepts seen start (w :: ws) stop ↔
  sg_task_id w = task_id ∧ sg_index w ∉ seen ∧ sg_start w ≤ sg_end w ∧
  unwrap_or 0 (sg_downloaded w) ≤ sg_end w - sg_start w + 1 ∧
  is_some_and (λ t, (0 <? t) && (t <=? sg_end w))%bool total_size = false ∧
  sg_start w = start ∧ is_some (worker_source_id known single w) = true ∧
  lane_metadata_ok w = true ∧ loop_accepts (sg_index w :: seen) (sg_end w + 1) ws stop.
Proof.
  intros Hw. unfold loop_accepts, worker_accepted. rewrite fmap_cons, (fmap_cons segment_span).
  cbn [tiles segment_span]. rewrite !Forall_cons, NoDup_cons, !andb_true_iff, Z.eqb_eq, Z.leb_le.
  replace (start + (sg_end w - sg_start w + 1)) with (sg_end w + 1 + (start - sg_start w)) by lia.
  assert (Forall (λ w', sg_index w' ∉ sg_index w :: seen) ws ↔
    sg_index w ∉ sg_index <$> ws ∧ Forall (λ w', sg_index w' ∉ seen) ws) as ->.
  { rewrite list_elem_of_fmap, !Forall_forall. setoid_rewrite not_elem_of_cons. split.
    - intros H. split; [intros (w' & Heq & Hin); by destruct (H w' Hin)|]. intros w' Hin. apply (H w' Hin).
    - intros [Hn H] w' Hin. split; [|by apply H]. intros Heq. apply Hn. by exists w'. }
  split.
  - intros ((((? & ?) & ?) & ?) & ?). destruct_and!. subst start.
    replace (sg_end w + 1 + (sg_start w - sg_start w)) with (sg_end w + 1) in * by lia.
    split_and!; try done; lia.
  - intros (? & ? & ? & ? & ? & <- & ? & ? & ?). destruct_and!.
    replace (sg_end w + 1 + (sg_start w - sg_start w)) with (sg_end w + 1) by lia.
    split_and!; try done; lia.
Qed.

(** The loop accepts exactly the workers that continue what it has seen. *)
Lemma sanitize_loop_spec ws seen start :
  Forall segment_ok ws → 0 ≤ start →
  match sanitize_loop task_id total_size known single seen start ws with
  | Some (out, stop) => loop_accepts seen start ws stop ∧ out = restored_worker known single <$> ws
  | None => ∀ stop, ¬ loop_accepts seen start ws stop
  end.
Proof.
  intros Hws. revert seen start. induction Hws as [|w ws Hw _ IH]; intros seen start Hs.
  { cbn [sanitize_loop]. split; [|done]. unfold loop_accepts. simpl. split_and!; by try constructor. }
  cbn [sanitize_loop].
  destruct (sg_task_id w =? task_id) eqn:E1; cbn [negb]; bool_hyps.
  2: { intros stop. rewrite loop_accepts_cons by done. tauto. }
  case_bool_decide as E2.
  { intros stop. rewrite loop_accepts_cons by done. tauto. }
  destruct (sg_end w <? sg_start w) eqn:E3; bool_hyps.
  { intros stop. rewrite loop_accepts_cons by done. intros H; destruct_and!; lia. }
  destruct (segment_length w Hw E3) as [-> Hend]. cbv zeta.
  destruct (sg_end w - sg_start w + 1 <? _) eqn:E4; bool_hyps.
  { intros stop. rewrite loop_accepts_cons by done. intros H; destruct_and!; lia. }
  destruct (is_some_and _ total_size) eqn:E5.
  { intros stop. rewrite loop_accepts_cons by done. intros H; destruct_and!; congruence. }
  destruct (sg_start w =? start) eqn:E6; cbn [negb]; bool_hyps.
  2: { intros stop. rewrite loop_accepts_cons by done. tauto. }
  destruct (worker_source_id known single w) as [src|] eqn:E7.
  2: { intros stop. rewrite loop_accepts_cons by done. rewrite E7. intros H; destruct_and!. done. }
  assert (lane_metadata_ok (w <| sg_source_id := Some src |>) = lane_metadata_ok w) as -> by done.
  destruct (lane_metadata_ok w) eqn:E8; cbn [negb].
  2: { intros stop. rewrite loop_accepts_cons by done. rewrite E8. intros H; destruct_and!. done. }
  change (sg_index (w <| sg_source_id := Some src |> <| sg_status ::= normalize_worker_status |>))
    with (sg_index w).
  change (sg_end (w <| sg_source_id := Some src |> <| sg_status ::= normalize_worker_status |>))
    with (sg_end w). rewrite Hend.
  assert (0 ≤ sg_end w + 1) as Hs' by (unfold segment_ok, is_u64 in Hw; lia).
  specialize (IH (sg_index w :: seen) (sg_end w + 1) Hs').
  destruct (sanitize_loop _ _ _ _ _ _ ws) as [[out stop]|].
  - simpl. destruct IH as [Ha ->]. split.
    + rewrite loop_accepts_cons by done. rewrite E7, E8. by split_and!.
    + csimpl. f_equal. unfold restored_worker. by rewrite E7.
  - simpl. intros stop. rewrite loop_accepts_cons by done. intros H. destruct_and!. by apply (IH stop).
Qed.
End sanitize_spec.

Lemma trusted_accepts task_id total_size known single ws stop :
  loop_accepts task_id total_size known single [] 0 ws stop →
  (∀ total, total_size = Some total → 0 < total → stop = total) →
  workers_trusted task_id total_size known single ws.
Proof. intros (? & ? & _ & ? & _) ?. split_and!; eauto. Qed.

Lemma accepts_trusted task_id total_size known single ws :
  workers_trusted task_id total_size known single ws →
  ∃ stop, loop_accepts task_id total_size known single [] 0 ws stop ∧
    ∀ total, total_size = Some total → 0 < total → stop = total.
Proof.
  intros (Ha & Hn & stop & Ht & Hstop). exists stop. split; [|done]. split_and!; try done.
  - apply Forall_true. set_solver.
  - apply Forall_forall. intros w Hw. apply not_true_is_false. rewrite is_some_and_total.
    intros (t & E & Hpos & Hle). specialize (Hstop t E Hpos).
    destruct (tiles_elem _ _ _ (sg_start w) (sg_end w - sg_start w + 1) Ht) as (? & ? & ?); [|lia].
    by apply (list_elem_of_fmap_2 segment_span).
Qed.

(** The sources a worker may name, and the one it may leave out. *)
Definition known_sources_of (source_set : option SourceSet) : gset string :=
  match source_set with Some s => list_to_set (src_id <$> sources s) | None => ∅ end.

Lemma sanitize_trusted task_id total_size source_set workers :
  Forall segment_ok workers →
  let known := known_sources_of source_set in
  let ws := sort_by_key sg_index workers in
  let trusted := workers_trusted task_id total_size known (only_element known) ws in
  let out := sanitize_worker_requests task_id total_size source_set workers in
  (trusted ∧ out = restored_worker known (only_element known) <$> ws) ∨ (¬ trusted ∧ out = []).
Proof.
  intros Hok known ws trusted out.
  assert (Forall segment_ok ws) as Hws.
  { unfold ws. rewrite Forall_forall in Hok |- *. intros w. rewrite sort_by_key_perm. apply Hok. }
  unfold out, sanitize_worker_requests. fold ws. fold (known_sources_of source_set). fold known.
  pose proof (sanitize_loop_spec task_id total_size known (only_element known) ws [] 0 Hws
    ltac:(lia)) as Hl.
  destruct (sanitize_loop _ _ _ _ _ _ ws) as [[l stop]|].
  2: { right. split; [|done]. intros (stop & Ha & _)%accepts_trusted. by apply (Hl stop). }
  destruct Hl as [Ha ->].
  assert (trusted → ∀ t, total_size = Some t → 0 < t → stop = t) as Hstop.
  { intros (stop' & (_ & _ & _ & Ht' & _) & Hs')%accepts_trusted.
    destruct Ha as (_ & _ & _ & Ht & _). intros t E Hpos. rewrite <- (Hs' t E Hpos).
    pose proof (tiles_sum _ _ _ Ht). pose proof (tiles_sum _ _ _ Ht'). lia. }
  destruct total_size as [t|].
  - destruct (0 <? t) eqn:E1; simpl; bool_hyps.
    + destruct (stop =? t) eqn:E2; simpl; bool_hyps.
      * left. split; [|done]. eapply trusted_accepts; [exact Ha|]. by intros ? [= <-].
      * right. split; [|done]. intros Ht. by apply E2, (Hstop Ht).
    + left. split; [|done]. eapply trusted_accepts; [exact Ha|]. intros ? [= <-]; lia.
  - left. split; [|done]. by eapply trusted_accepts.
Qed.

(** C13. Restored workers are all or nothing.  They are kept, in the order of
    their indices, each with its source filled in and an active status paused,
    exactly when all of them belong to the task, have distinct indices, name
    known sources, claim no more bytes than their range has, and their ranges
    cut the payload into consecutive pieces from its first byte up to its
    size, if that is known; otherwise none is kept. *)
Theorem sanitize_worker_requests_spec task_id total_size source_set workers :
  Forall segment_ok workers →
  let known := known_sources_of source_set in
  let ws := sort_by_key sg_index workers in
  let trusted := workers_trusted task_id total_size known (only_element known) ws in
  let out := sanitize_worker_requests task_id total_size source_set workers in
  (trusted ∧ out = restored_worker known (only_element known) <$> ws) ∨ (¬ trusted ∧ out = []).
Proof. apply sanitize_trusted. Qed.

Section plan_spec.
Context `{UrlLib} `{Json DownloadSpec} `{Json SourceSet} `{Json TorrentEngineState}
  `{Json TorrentMetadata}.

(** The rows of a bundle's workers hold 64-bit unsigned integers. *)
Definition worker_row_ok (w : DBDownloadWorker) : Prop :=
  is_u64 (dw_start w) ∧ is_u64 (dw_end w) ∧ dw_end w < u64_max ∧ is_u64 (dw_downloaded w).

Lemma worker_rows_segments ws :
  Forall worker_row_ok ws → Forall segment_ok (db_workers_to_requests ws).
Proof. intros H4. by apply Forall_fmap. Qed.

(** The workers that are restored: those of an interrupted or paused task whose
    file is there. *)
Lemma restored_workers f b ws :
  rp_workers (build_restore_plan f b) = Some ws →
  let r := db_task_to_request (sb_task b) (sb_pieces b) (sb_blocks b) (sb_checksums b) in
  normalize_restored_status (unwrap_or Pending (rq_status r)) = Paused ∧
  rf_exists (inspect_restore_file_state f (rq_file_path r)) = true ∧ ws ≠ [] ∧
  ws = sanitize_worker_requests (dt_id (sb_task b)) (rq_total_size r) (rq_sources r)
         (db_workers_to_requests (sb_workers b)) ∧
  rq_status (rp_task_request (build_restore_plan f b)) = Some Paused ∧
  rq_downloaded_size (rp_task_request (build_restore_plan f b)) =
    Some (wrapping_sum ((λ w, unwrap_or 0 (sg_downloaded w)) <$> ws)).
Proof.
  destruct b as [task workers pieces blocks checksums].
  unfold build_restore_plan. cbn [sb_task sb_workers sb_pieces sb_blocks sb_checksums].
  set (r := db_task_to_request task pieces blocks checksums).
  set (st := normalize_restored_status (unwrap_or Pending (rq_status r))).
  set (fsn := inspect_restore_file_state f (rq_file_path r)).
  destruct (bool_decide (st = Completed) && _)%bool eqn:E1; [done|].
  destruct (bool_decide (st = Paused) && rf_exists fsn)%bool eqn:E2; [|done].
  apply andb_true_iff in E2 as [Hst%bool_decide_eq_true Hex].
  rewrite Hst, Hex. cbv zeta. cbn [negb].
  destruct (sanitize_worker_requests _ _ _ _) as [|w l] eqn:Es; [done|].
  rewrite !(bool_decide_eq_false_2 (w :: l = [])) by done. rewrite andb_false_r.
  cbn [andb negb rp_workers rp_task_request]. intros [= <-].
  split_and!; try done; by destruct (_ || _)%bool.
Qed.

(** The workers of a trusted list never count more bytes than the payload has. *)
Lemma trusted_progress task_id total_size known ws :
  Forall segment_ok ws →
  workers_trusted task_id total_size known (only_element known) ws →
  let out := restored_worker known (only_element known) <$> ws in
  ∃ stop, tiles 0 (segment_span <$> out) stop ∧ stop ≤ u64_max ∧
    (∀ total, total_size = Some total → 0 < total → stop = total) ∧
    0 ≤ zsum ((λ w, unwrap_or 0 (sg_downloaded w)) <$> out) ≤ stop ∧
    wrapping_sum ((λ w, unwrap_or 0 (sg_downloaded w)) <$> out) =
      zsum ((λ w, unwrap_or 0 (sg_downloaded w)) <$> out).
Proof.
  intros Hok (Ha & _ & stop & Ht & Hs) out. exists stop.
  assert (segment_span <$> out = segment_span <$> ws) as -> by (unfold out; by rewrite <- list_fmap_compose).
  assert ((λ w, unwrap_or 0 (sg_downloaded w)) <$> out = (λ w, unwrap_or 0 (sg_downloaded w)) <$> ws)
    as -> by (unfold out; by rewrite <- list_fmap_compose).
  assert (stop ≤ u64_max) as Hstop.
  { destruct (decide (stop = 0)) as [->|Hne]; [ilia|].
    destruct (tiles_cover _ _ _ (stop - 1) Ht) as (i & o & n & Hi & Hin & _).
    { pose proof (tiles_le _ _ _ Ht). lia. }
    apply list_lookup_fmap_Some in Hi as (w & [= -> ->] & Hw).
    assert (segment_ok w) as (? & ? & ? & ?) by (eapply Forall_lookup_1; eauto). lia. }
  assert (Forall (λ x, 0 ≤ x) ((λ w, unwrap_or 0 (sg_downloaded w)) <$> ws)) as Hpos.
  { apply Forall_fmap. eapply Forall_impl; [exact Hok|]. intros w (? & ? & ? & []). simpl. lia. }
  assert (zsum ((λ w, unwrap_or 0 (sg_downloaded w)) <$> ws) ≤ stop) as Hle.
  { pose proof (tiles_sum _ _ _ Ht) as Hsum. rewrite <- list_fmap_compose in Hsum.
    replace stop with (stop - 0) by lia. rewrite <- Hsum. clear -Ha.
    induction Ha as [|w ws Hw _ IH]; csimpl; [done|]. unfold worker_accepted in Hw.
    rewrite !andb_true_iff, Z.leb_le in Hw. simpl. lia. }
  assert (0 ≤ zsum ((λ w, unwrap_or 0 (sg_downloaded w)) <$> ws))
    by (clear -Hpos; induction Hpos; simpl; lia).
  split_and!; try done. apply wrapping_sum_exact; [done|]. lia.
Qed.

(** The file of a bundle's task, as recovery finds it. *)
Definition bundle_file (f : fs) (b : StoredBundle) : RestoreFileState :=
  inspect_restore_file_state f (normalized_text_field (dt_file_path (sb_task b))).

(** The parts of the plan that its cases are about. *)
Ltac open_plan f :=
  unfold build_restore_plan, bundle_file; cbn [sb_task sb_workers sb_pieces sb_blocks sb_checksums];
  match goal with |- context [db_task_to_request ?t ?p ?bl ?c] =>
    change (normalized_text_field (dt_file_path t)) with (rq_file_path (db_task_to_request t p bl c));
    change (dt_total_size t) with (rq_total_size (db_task_to_request t p bl c));
    change (Some (db_blocks_to_block_states bl)) with (rq_block_states (db_task_to_request t p bl c));
    generalize (db_task_to_request t p bl c)
  end;
  let r := fresh "r" in intros r;
  generalize (inspect_restore_file_state f (rq_file_path r)).

Lemma normalize_not_active st :
  normalize_restored_status st ≠ Running ∧ normalize_restored_status st ≠ Preparing.
Proof. by destruct st. Qed.

Lemma plan_status f b :
  ∃ st, rq_status (rp_task_request (build_restore_plan f b)) = Some st ∧
    st ≠ Running ∧ st ≠ Preparing ∧
    (st = Completed →
       is_usable_for_completed (bundle_file f b) (dt_total_size (sb_task b)) = true) ∧
    (st = Paused → rp_workers (build_restore_plan f b) ≠ None ∨
       has_restorable_piece_state
         (db_task_to_request (sb_task b) (sb_pieces b) (sb_blocks b) (sb_checksums b)) = true).
Proof.
  destruct b as [task workers pieces blocks checksums]. open_plan f. intros fsn.
  destruct (normalize_not_active (unwrap_or Pending (rq_status r))) as [Hr Hp].
  generalize dependent (normalize_restored_status (unwrap_or Pending (rq_status r))). intros st Hr Hp.
  destruct (bool_decide (st = Completed)) eqn:E1.
  - apply bool_decide_eq_true in E1 as ->. cbn [andb].
    destruct (is_usable_for_completed fsn (rq_total_size r)) eqn:E2; cbn [negb andb];
      [exists Completed|exists Pending]; cbv zeta; cbn -[is_usable_for_completed has_restorable_piece_state];
      repeat case_match; cbn; naive_solver.
  - apply bool_decide_eq_false in E1. cbn [andb]. cbv zeta.
    destruct (bool_decide (st = Paused)) eqn:E2; cbn [andb].
    2: { apply bool_decide_eq_false in E2. exists st.
         rewrite (bool_decide_eq_true_2 ([] = [])) by done. cbn [negb].
         repeat case_match; cbn; naive_solver. }
    apply bool_decide_eq_true in E2 as ->.
    generalize (if rf_exists fsn then sanitize_worker_requests (dt_id task) (rq_total_size r)
      (rq_sources r) (db_workers_to_requests workers) else []). intros ws.
    destruct (bool_decide (ws = [])) eqn:E3; cbn [andb negb].
    + destruct (has_restorable_piece_state r) eqn:E4; cbn [negb];
        [exists Paused|exists Pending]; repeat case_match; cbn; naive_solver.
    + exists Paused. repeat case_match; cbn; naive_solver.
Qed.

Lemma plan_missing f b :
  rf_exists (bundle_file f b) = false →
  rp_workers (build_restore_plan f b) = None ∧
  rq_downloaded_size (rp_task_request (build_restore_plan f b)) = Some 0 ∧
  rq_piece_states (rp_task_request (build_restore_plan f b)) = Some [].
Proof.
  destruct b as [task workers pieces blocks checksums]. open_plan f. intros fsn Hf.
  destruct (bool_decide (_ = Completed) && _)%bool; cbv zeta; rewrite Hf, andb_false_r;
    cbn [negb orb]; rewrite (bool_decide_eq_true_2 ([] = [])) by done; by repeat case_match.
Qed.

Lemma plan_blocks f b :
  rq_block_states (rp_task_request (build_restore_plan f b)) =
    Some (db_blocks_to_block_states (sb_blocks b)).
Proof.
  destruct b as [task workers pieces blocks checksums]. open_plan f. intros fsn.
  cbv zeta. repeat case_match; simplify_eq; reflexivity.
Qed.

(** C12. What a task is restored to can be relied on.  It is never active.  It
    is complete only if its file is there with the known, positive size, and
    paused only if there are workers or completed pieces or blocks to go on
    from.  Workers are restored only to a paused task whose file is there; their
    ranges follow each other from the first byte to the end, and the task's
    progress is the sum of theirs, which is within the payload.  With no file
    there are no workers, no completed pieces and no progress. *)
Theorem restore_plan_sound f b :
  Forall worker_row_ok (sb_workers b) →
  let p := build_restore_plan f b in
  let r := rp_task_request p in
  let file := bundle_file f b in
  ∃ st, rq_status r = Some st ∧ st ≠ Running ∧ st ≠ Preparing ∧
    (st = Completed → is_usable_for_completed file (dt_total_size (sb_task b)) = true) ∧
    (st = Paused → rp_workers p ≠ None ∨
       has_restorable_piece_state
         (db_task_to_request (sb_task b) (sb_pieces b) (sb_blocks b) (sb_checksums b)) = true) ∧
    (∀ ws, rp_workers p = Some ws →
       st = Paused ∧ rf_exists file = true ∧ ws ≠ [] ∧
       ∃ stop downloaded, tiles 0 (segment_span <$> ws) stop ∧
         (∀ total, dt_total_size (sb_task b) = Some total → 0 < total → stop = total) ∧
         downloaded = zsum ((λ w, unwrap_or 0 (sg_downloaded w)) <$> ws) ∧ downloaded ≤ stop ∧
         rq_downloaded_size r = Some downloaded) ∧
    (rf_exists file = false →
       rp_workers p = None ∧ rq_downloaded_size r = Some 0 ∧ rq_piece_states r = Some []).
Proof.
  intros Hw p r file. destruct (plan_status f b) as (st & Hst & Hr & Hpr & Hc & Hpa).
  exists st. split_and!; try done; [|apply plan_missing].
  intros ws Hws. destruct (restored_workers f b ws Hws) as (_ & Hex & Hne & Hs & Hp & Hd).
  fold p in Hp. fold r in Hp. split; [unfold r, p in *; congruence|]. split_and!; [done..|].
  set (q := db_task_to_request (sb_task b) (sb_pieces b) (sb_blocks b) (sb_checksums b)) in *.
  destruct (sanitize_trusted (dt_id (sb_task b)) (rq_total_size q) (rq_sources q)
    (db_workers_to_requests (sb_workers b)) (worker_rows_segments _ Hw)) as [[Ht E]|[_ E]];
    [|by rewrite E in Hs].
  destruct (trusted_progress (dt_id (sb_task b)) (rq_total_size q)
    (known_sources_of (rq_sources q)) (sort_by_key sg_index (db_workers_to_requests (sb_workers b))))
    as (stop & Htl & _ & Htot & [_ Hle] & Hsum); [|exact Ht|].
  { pose proof (worker_rows_segments _ Hw) as Hok. rewrite Forall_forall in Hok |- *.
    intros w. rewrite sort_by_key_perm. apply Hok. }
  rewrite E in Hs. rewrite <- Hs in *. eexists stop, _. split_and!; [done|exact Htot|reflexivity|done|].
  unfold r, p. by rewrite Hd, Hsum.
Qed.

(** The completed blocks of a stored task are restored even when its file
    is gone, although its pieces, its workers and its progress are not. *)
Theorem restore_missing_file_keeps_blocks f b :
  rf_exists (bundle_file f b) = false →
  let r := rp_task_request (build_restore_plan f b) in
  rq_piece_states r = Some [] ∧ rq_downloaded_size r = Some 0 ∧
  rq_block_states r = Some (db_blocks_to_block_states (sb_blocks b)).
Proof.
  intros Hf r. destruct (plan_missing f b Hf) as (_ & Hd & Hp). split_and!; [done..|].
  apply plan_blocks.
Qed.
End plan_spec.

(** ** Examples *)

#[local] Existing Instances example_urls spec_codec sources_codec state_codec metadata_codec.

(** A paused task of ten bytes with two workers that have four and three. *)
Definition example_segment (index start end_ downloaded : Z) : DBDownloadWorker :=
  mk_db_worker index 1 index (Some "s") None None None None start end_ downloaded "Running" None.
Definition example_bundle : StoredBundle := {|
  sb_task := mk_db_task 1 "https://host/f" "" "" "" "" "" "f" "/d/f" "Running" 7 (Some 10) None None
    None None None None None;
  sb_workers := [example_segment 1 4 9 3; example_segment 0 0 3 4];
  sb_pieces := [mk_db_piece 1 0 true None];
  sb_blocks := [mk_db_block 1 0 0 true None];
  sb_checksums := []
|}.
(** Its file. *)
Definition example_payload : fs :=
  mk_fs {["/d/f" := NFile 1]} {[1%positive := resize 10%nat x00 []]}.

Example example_plan :
  let p := build_restore_plan example_payload example_bundle in
  rq_status (rp_task_request p) = Some Paused ∧ rq_downloaded_size (rp_task_request p) = Some 7 ∧
  option_map (map (λ w, (sg_start w, sg_status w))) (rp_workers p) =
    Some [(0, Some "Paused"); (4, Some "Paused")].
Proof. vm_compute. done. Qed.

Lemma example_bundle_ok : Forall worker_row_ok (sb_workers example_bundle).
Proof. repeat constructor; unfold_int; simpl; lia. Qed.

Lemma restore_plan_sound_witness :
  let p := build_restore_plan example_payload example_bundle in
  ∃ st, rq_status (rp_task_request p) = Some st ∧ st ≠ Running ∧
    ∀ ws, rp_workers p = Some ws → st = Paused ∧ ws ≠ [].
Proof.
  destruct (restore_plan_sound example_payload example_bundle example_bundle_ok)
    as (st & Hst & H1 & _ & _ & _ & H2 & _).
  exists st. split_and!; [exact Hst|exact H1|]. intros ws Hws.
  destruct (H2 ws Hws) as (H3 & _ & H4 & _). split; [exact H3|exact H4].
Defined.

Lemma restore_missing_file_keeps_blocks_witness :
  let r := rp_task_request (build_restore_plan fs_empty example_bundle) in
  rq_piece_states r = Some [] ∧ rq_block_states r = Some [mk_block_state 0 0 true].
Proof.
  destruct (restore_missing_file_keeps_blocks fs_empty example_bundle eq_refl) as (H1 & _ & H2).
  split; [exact H1|exact H2].
Defined.

Lemma sanitize_worker_requests_spec_witness :
  let ws := db_workers_to_requests (sb_workers example_bundle) in
  sg_start <$> sanitize_worker_requests 1 (Some 10) None ws = [0; 4].
Proof.
  destruct (sanitize_worker_requests_spec 1 (Some 10) None
    (db_workers_to_requests (sb_workers example_bundle)) (worker_rows_segments _ example_bundle_ok))
    as [[_ E]|[_ E]]; [|exfalso; revert E; vm_compute; discriminate].
  cbv zeta. rewrite E. vm_compute. reflexivity.
Defined.
