(* ===== verification/Probe.v ===== *)
(** * HTTP requests and probing
    ([src/src/runtime.rs], [src/src/protocol_probe.rs], [src/src/discovery/origin.rs])

    The requests the program sends, what it reads of a response, and how it
    learns the size of a resource, whether ranges of it can be requested, its
    validators and a name for its file.  The HTTP client is a parameter. *)

From S2P Require Import Prelude Text Status Effect Source Files.

(** ** Requests and responses *)

(** What the code relies on in the [http] and [reqwest] crates: which header
    names and values are refused, with what text, and how a status prints. *)
Class HttpLib := {
  header_name_error : string → option string;
  header_value_error : string → option string;
  status_text : Z → string;
  to_str_error : string
}.

Inductive Method := GET | HEAD.

(** A request under construction: its headers are appended to. *)
Record Request := mk_http_request {
  rqm_method : Method;
  rqm_url : string;
  rqm_headers : list (string * string);
  rqm_auth : option HttpAuth
}.
#[export] Instance Request_eta : Settable Request := λ r,
  mk_http_request (rqm_method r) (rqm_url r) (rqm_headers r) (rqm_auth r).
Definition with_header (name value : string) (r : Request) : Request :=
  r <| rqm_headers ::= λ l, l ++ [(name, value)] |>.

(** A header value that is a text, or one whose [to_str] fails. *)
Inductive HeaderValue := HText (s : string) | HOpaque.
Definition value_text (v : HeaderValue) : option string :=
  match v with HText s => Some s | HOpaque => None end.
Definition value_to_str `{HttpLib} (v : HeaderValue) : res string :=
  match v with HText s => Ok s | HOpaque => Err (EHeader to_str_error) end.

(** A response: the body arrives in chunks, the last of which may be an error. *)
Record Response := mk_response {
  rs_status : Z;
  rs_url : string;
  rs_headers : list (string * HeaderValue);
  rs_content_length : option Z;
  rs_body : list (result bytes string)
}.
(** [HeaderMap::get]. *)
Definition header (name : string) (r : Response) : option HeaderValue :=
  snd <$> find_first (λ h, String.eqb (fst h) name) (rs_headers r).

(** [Option::transpose] of a fallible map. *)
Definition transpose {A B} (f : A → res B) (o : option A) : res (option B) :=
  match o with Some a => let? b := f a in Ok (Some b) | None => Ok None end.

Section http.
Context `{HttpLib}.

(** [src/src/runtime.rs:102-109], [apply_http_request_options (for loop)]. *)
Fixpoint apply_headers (hs : list HttpHeader) (builder : Request) : res Request :=
  match hs with
  | [] => Ok builder
  | h :: hs =>
      match header_name_error (header_name h) with
      | Some err =>
          Err (EOther ("Invalid header name '" +:+ header_name h +:+ "': " +:+ err))
      | None =>
          match header_value_error (header_value h) with
          | Some err =>
              Err (EOther ("Invalid value for header '" +:+ header_name h +:+ "': " +:+ err))
          | None => apply_headers hs (with_header (header_name h) (header_value h) builder)
          end
      end
  end.

(** [src/src/runtime.rs:98-127], [apply_http_request_options]. *)
Definition apply_http_request_options (builder : Request) (options : HttpRequestOptions)
    : res Request :=
  let? builder := apply_headers (headers options) builder in
  let builder := match cookie options with
                 | Some cookie => with_header "cookie" cookie builder
                 | None => builder
                 end in
  let builder := match user_agent options with
                 | Some user_agent => with_header "user-agent" user_agent builder
                 | None => builder
                 end in
  Ok (match auth options with
      | Some auth => builder <| rqm_auth := Some auth |>
      | None => builder
      end).

(** ** Headers of a response *)

(** [src/src/protocol_probe.rs:20-24], [ContentRange]. *)
Record ContentRange := mk_content_range {
  cr_start : Z;
  cr_end : Z;
  cr_total_size : option Z
}.

(** [src/src/protocol_probe.rs:59-78], [parse_content_range]. *)
Definition parse_content_range (value : string) : option ContentRange :=
  let value := trim value in
  value ← strip_prefix "bytes " value;
  '(range_part, total_part) ← split_once "/" value;
  '(start_part, end_part) ← split_once "-" range_part;
  start ← result_ok (parse_u64 start_part);
  end_ ← result_ok (parse_u64 end_part);
  total_size ← (if String.eqb total_part "*" then Some None
                else total ← result_ok (parse_u64 total_part); Some (Some total));
  Some (mk_content_range start end_ total_size).

(** [src/src/protocol_probe.rs:187-191], [parse_unsatisfied_content_range]. *)
Definition parse_unsatisfied_content_range (value : string) : option Z :=
  let value := trim value in
  value ← strip_prefix "bytes */" value;
  result_ok (parse_u64 value).

(** [src/src/protocol_probe.rs:341-346], [header_accepts_ranges]. *)
Definition header_accepts_ranges (value : option HeaderValue) : bool :=
  match (value ← value; value_text value) with
  | Some value => contains "bytes" (to_ascii_lowercase value)
  | None => false
  end.

(** [src/src/protocol_probe.rs:348-354], [parse_content_length]. *)
Definition parse_content_length (value : option HeaderValue) : res (option Z) :=
  transpose (λ value,
    let? value := value_to_str value in
    result_map_err Error_from_ParseIntError (parse_u64 value)) value.

(** [src/src/protocol_probe.rs:193-207], [extract_resource_identity]. *)
Definition extract_resource_identity (response : Response) : res HttpResourceIdentity :=
  let? entity_tag := transpose value_to_str (header "etag" response) in
  let? last_modified := transpose value_to_str (header "last-modified" response) in
  Ok (mk_identity (Some (rs_url response)) entity_tag last_modified).

(** [src/src/protocol_probe.rs:209-227], [merge_resource_identity]. *)
Definition merge_resource_identity (head : option HttpResourceIdentity)
    (response : HttpResourceIdentity) : HttpResourceIdentity :=
  mk_identity (opt_or (resolved_url response) (probe ← head; resolved_url probe))
    (opt_or (entity_tag response) (probe ← head; entity_tag probe))
    (opt_or (last_modified response) (probe ← head; last_modified probe)).

(** ** File names *)

(** [src/src/protocol_probe.rs:279-286], [normalize_content_disposition_filename]. *)
Definition normalize_content_disposition_filename (value : string) : option string :=
  let value := trim_matches (Chr.of_code 34) (trim value) in
  if is_empty value then None else Some value.

(** [src/src/protocol_probe.rs:332-339], [decode_hex_nibble]. *)
Definition decode_hex_nibble (c : ascii) : option Z :=
  let value := Chr.code c in
  if ((48 <=? value) && (value <=? 57))%bool then Some (value - 48)
  else if ((97 <=? value) && (value <=? 102))%bool then Some (value - 97 + 10)
  else if ((65 <=? value) && (value <=? 70))%bool then Some (value - 65 + 10)
  else None.

(** [src/src/protocol_probe.rs:308-330], [percent_decode_bytes]. Over the bytes that are left. *)
Fixpoint percent_decode_bytes (value : string) : option string :=
  match value with
  | EmptyString => Some EmptyString
  | String "%" (String h (String l rest)) =>
      high ← decode_hex_nibble h;
      low ← decode_hex_nibble l;
      decoded ← percent_decode_bytes rest;
      Some (String (Chr.of_code (Z.lor (Z.shiftl high 4) low)) decoded)
  | String "%" _ => None
  | String other rest => decoded ← percent_decode_bytes rest; Some (String other decoded)
  end.

(** [char::from] of every byte, in UTF-8. *)
Fixpoint latin1_to_utf8 (s : string) : string :=
  match s with
  | EmptyString => EmptyString
  | String c s =>
      let code := Chr.code c in
      if code <? 128 then String c (latin1_to_utf8 s)
      else String (Chr.of_code (192 + code / 64))
             (String (Chr.of_code (128 + code mod 64)) (latin1_to_utf8 s))
  end.

(** [String::from_utf8(bytes).ok()]. *)
Definition string_from_utf8 (s : string) : option string :=
  if utf8_valid s then Some s else None.

Definition apostrophe : ascii := Chr.of_code 39.

(** [src/src/protocol_probe.rs:288-306], [decode_content_disposition_extended_filename]. *)
Definition decode_content_disposition_extended_filename (value : string) : option string :=
  let value := trim_matches (Chr.of_code 34) (trim value) in
  '(charset, remainder) ← split_once (String apostrophe (String apostrophe EmptyString)) value;
  let encoded := unwrap_or remainder (head (split apostrophe remainder)) in
  bytes ← percent_decode_bytes encoded;
  if eq_ignore_ascii_case charset "utf-8" then string_from_utf8 bytes
  else if (eq_ignore_ascii_case charset "iso-8859-1" || eq_ignore_ascii_case charset "latin1" ||
           eq_ignore_ascii_case charset "latin-1")%bool
  then Some (latin1_to_utf8 bytes)
  else string_from_utf8 bytes.

(** [src/src/protocol_probe.rs:262-274], [parse_content_disposition_header (for loop)]. *)
Fixpoint disposition_segments (segments : list string) (fallback : option string)
    : option string :=
  match segments with
  | [] => fallback
  | segment :: segments =>
      let segment := trim segment in
      match strip_prefix "filename*=" segment with
      | Some filename =>
          match decode_content_disposition_extended_filename filename with
          | Some decoded => Some decoded
          | None => disposition_segments segments fallback
          end
      | None =>
          match strip_prefix "filename=" segment with
          | Some filename =>
              disposition_segments segments (normalize_content_disposition_filename filename)
          | None => disposition_segments segments fallback
          end
      end
  end.

(** [src/src/protocol_probe.rs:258-277], [parse_content_disposition_header]. *)
Definition parse_content_disposition_header (value : HeaderValue) : res (option string) :=
  let? value := value_to_str value in
  Ok (disposition_segments (drop 1 (split ";" value)) None).

(** [src/src/protocol_probe.rs:229-235], [extract_content_disposition_file_name]. *)
Definition extract_content_disposition_file_name (response : Response) : res (option string) :=
  match header "content-disposition" response with
  | None => Ok None
  | Some value => parse_content_disposition_header value
  end.

(** [src/src/protocol_probe.rs:356-386], [suggest_extension_from_content_type]. *)
Definition suggest_extension_from_content_type (value : HeaderValue) : option string :=
  value ← value_text value;
  first ← head (split ";" value);
  let content_type := to_ascii_lowercase (trim first) in
  let is_type t := String.eqb content_type t in
  if is_type "application/json" then Some "json"
  else if is_type "application/pdf" then Some "pdf"
  else if is_type "application/zip" then Some "zip"
  else if (is_type "application/gzip" || is_type "application/x-gzip")%bool then Some "gz"
  else if is_type "application/x-tar" then Some "tar"
  else if (is_type "application/xml" || is_type "text/xml")%bool then Some "xml"
  else if is_type "text/plain" then Some "txt"
  else if is_type "text/html" then Some "html"
  else if is_type "text/css" then Some "css"
  else if is_type "text/csv" then Some "csv"
  else if is_type "image/png" then Some "png"
  else if is_type "image/jpeg" then Some "jpg"
  else if is_type "image/gif" then Some "gif"
  else if is_type "image/webp" then Some "webp"
  else if is_type "audio/mpeg" then Some "mp3"
  else if is_type "video/mp4" then Some "mp4"
  else None.

Context `{UrlLib}.

(** [src/src/protocol_probe.rs:237-256], [extract_suggested_file_name]. *)
Definition extract_suggested_file_name (response : Response) : res (option string) :=
  let? named := extract_content_disposition_file_name response in
  match named with
  | Some file_name => Ok (Some file_name)
  | None =>
      let locator_hint := file_name_hint_from_locator (rs_url response) in
      let extension :=
        value ← header "content-type" response; suggest_extension_from_content_type value in
      Ok (match locator_hint, extension with
          | Some file_name, Some extension =>
              if is_none (path_extension file_name) then Some (file_name +:+ "." +:+ extension)
              else Some file_name
          | Some file_name, None => Some file_name
          | None, Some extension => Some ("download." +:+ extension)
          | None, None => None
          end)
  end.

(** ** Probing *)

(** [src/src/protocol_probe.rs:12-17], [DownloadProtocolProbe]. Also [OriginMetadata], which has
    the same fields. *)
Record DownloadProtocolProbe := mk_probe {
  pr_total_size : option Z;
  pr_supports_range_requests : bool;
  pr_resource_identity : HttpResourceIdentity;
  pr_suggested_file_name : option string
}.

(** [src/src/protocol_probe.rs:27-32], [HeadProbe]. *)
Record HeadProbe := mk_head_probe {
  hp_total_size : option Z;
  hp_accepts_ranges : bool;
  hp_resource_identity : HttpResourceIdentity;
  hp_suggested_file_name : option string
}.

(** [StatusCode::is_success]. *)
Definition is_success (status : Z) : bool := ((200 <=? status) && (status <? 300))%bool.

(** The client: a response, or the text of a failure. *)
Context (send : Request → result Response string).

(** [src/src/protocol_probe.rs:80-103], [probe_with_head]. *)
Definition probe_with_head (url : string) (request_options : HttpRequestOptions)
    : res (option HeadProbe) :=
  let? request := apply_http_request_options (mk_http_request HEAD url [] None) request_options in
  match send request with
  | Err _ => Ok None
  | Ok response =>
      if negb (is_success (rs_status response)) then Ok None
      else
        let? total_size := parse_content_length (header "content-length" response) in
        let accepts_ranges := header_accepts_ranges (header "accept-ranges" response) in
        let? resource_identity := extract_resource_identity response in
        let? suggested_file_name := extract_suggested_file_name response in
        Ok (Some (mk_head_probe total_size accepts_ranges resource_identity suggested_file_name))
  end.

(** [src/src/protocol_probe.rs:119-136], [probe_with_range_response (identity and name)]. The part
    that the three cases share. *)
Definition probe_details (response : Response) (head_probe : option HeadProbe)
    (total_size : option Z) (supports_range_requests : bool) : res DownloadProtocolProbe :=
  let? identity := extract_resource_identity response in
  let resource_identity :=
    merge_resource_identity (hp_resource_identity <$> head_probe) identity in
  let? suggested := extract_suggested_file_name response in
  let suggested_file_name :=
    opt_or suggested (probe ← head_probe; hp_suggested_file_name probe) in
  Ok (mk_probe total_size supports_range_requests resource_identity suggested_file_name).

(** [src/src/protocol_probe.rs:105-185], [probe_with_range_response]. *)
Definition probe_with_range_response (response : Response) (head_probe : option HeadProbe)
    : res DownloadProtocolProbe :=
  let head_total := probe ← head_probe; hp_total_size probe in
  if rs_status response =? 206 then
    let? value := ok_or (header "content-range" response) (EOther "Missing Content-Range") in
    let? content_range := value_to_str value in
    let? content_range :=
      ok_or (parse_content_range content_range) (EOther "Invalid Content-Range") in
    probe_details response head_probe (cr_total_size content_range) true
  else if rs_status response =? 200 then
    let? total_size := parse_content_length (header "content-length" response) in
    probe_details response head_probe (opt_or total_size head_total) false
  else if rs_status response =? 416 then
    let total_size :=
      opt_or (value ← header "content-range" response;
              value ← value_text value;
              parse_unsatisfied_content_range value) head_total in
    probe_details response head_probe total_size (is_some_and (λ total_size, 0 <? total_size) total_size)
  else
    Err (EOther ("Failed to probe download target: " +:+ status_text (rs_status response))).

(** [src/src/protocol_probe.rs:34-57], [probe_download_target]. *)
Definition probe_download_target (url : string) (request_options : HttpRequestOptions)
    : res DownloadProtocolProbe :=
  let? head_probe := probe_with_head url request_options in
  match opt_filter (λ head, bool_decide (hp_total_size head = Some 0)) head_probe with
  | Some head =>
      Ok (mk_probe (Some 0) (hp_accepts_ranges head) (hp_resource_identity head)
            (hp_suggested_file_name head))
  | None =>
      let? request :=
        apply_http_request_options (mk_http_request GET url [("range", "bytes=0-0")] None)
          request_options in
      let? response := result_map_err EReqwest (send request) in
      probe_with_range_response response head_probe
  end.

(** [src/src/discovery/origin.rs:30-49], [discover_origin]. With the two drivers inlined. *)
Definition discover_origin (spec : DownloadSpec) (request : HttpRequestOptions)
    : res DownloadProtocolProbe :=
  match spec with
  | SpecHttp _ | SpecHttps _ => probe_download_target (spec_locator spec) request
  | SpecFtp _ => Err (EUnsupportedProtocol "ftp discovery is not implemented yet")
  | SpecTorrentFile _ | SpecMagnet _ | SpecMetadata _ _ =>
      Err (EUnsupportedProtocol (spec_scheme spec +:+ " discovery belongs to metadata/swarm pipeline"))
  end.
End http.

(** ** Content ranges *)

(** The header of a range, as a server writes it. *)
Definition content_range_text (r : ContentRange) : string :=
  "bytes " +:+ show_u64 (cr_start r) +:+ "-" +:+ show_u64 (cr_end r) +:+ "/" +:+
  match cr_total_size r with Some total => show_u64 total | None => "*" end.

Definition content_range_ok (r : ContentRange) : Prop :=
  is_u64 (cr_start r) ∧ is_u64 (cr_end r) ∧ ∀ total, cr_total_size r = Some total → is_u64 total.

Lemma digits_solid s : all_chars Chr.is_digit s = true → all_chars solid s = true.
Proof. apply all_chars_impl, digit_solid. Qed.

Lemma show_ends n : is_u64 n → ∃ t d, show_u64 n = t +:+ String d "" ∧ solid d = true.
Proof.
  intros _. pose proof (show_u64_digits n) as Hd.
  unfold show_u64 in *. destruct (digits_cons 19 n "") as (d & s & _ & E). rewrite E in *.
  destruct (string_last (digit d) s) as (t & e & E2). exists t, e. split; [done|].
  rewrite E2, all_chars_append in Hd. apply andb_true_iff in Hd as [_ Hd]. cbn [all_chars] in Hd.
  rewrite andb_true_r in Hd. by apply digit_solid.
Qed.

Lemma parse_show_u64 n : is_u64 n → parse_u64 (show_u64 n) = Ok n.
Proof. intros Hn. apply parse_show; unfold_int; lia. Qed.

Lemma digits_no_char c n :
  Chr.is_digit c = false → all_chars (λ d, negb (Ascii.eqb c d)) (show_u64 n) = true.
Proof.
  intros Hc. eapply all_chars_impl; [|apply show_u64_digits]. intros d Hd.
  apply negb_true_iff, Ascii.eqb_neq. intros ->. congruence.
Qed.

Lemma content_range_trim r :
  content_range_ok r → trim (content_range_text r) = content_range_text r.
Proof.
  destruct r as [s e total]. intros (Hs & He & Ht). simpl in *.
  assert (∃ t d, content_range_text (mk_content_range s e total) = t +:+ String d "" ∧ solid d = true)
    as (t & d & E & Hd).
  { unfold content_range_text. simpl. destruct total as [n|].
    - destruct (show_ends n (Ht n eq_refl)) as (t & d & -> & Hd).
      eexists ("bytes " +:+ show_u64 s +:+ "-" +:+ show_u64 e +:+ "/" +:+ t), d. split; [|done].
      by rewrite !append_assoc.
    - eexists ("bytes " +:+ show_u64 s +:+ "-" +:+ show_u64 e +:+ "/"), "*"%char. split; [|done].
      by rewrite !append_assoc. }
  revert E. unfold content_range_text. intros E. by eapply (trim_solid "b" _ t d).
Qed.

#[local] Arguments show_u64 : simpl never.
#[local] Arguments parse_u64 : simpl never.

(** Every content range of 64-bit unsigned integers is read back from the
    header that states it. *)
Theorem parse_content_range_text r :
  content_range_ok r → parse_content_range (content_range_text r) = Some r.
Proof.
  intros Hr. unfold parse_content_range. rewrite content_range_trim by done.
  destruct r as [s e total]. destruct Hr as (Hs & He & Ht). simpl in *.
  unfold content_range_text. cbn [cr_start cr_end cr_total_size]. rewrite strip_prefix_append. cbn.
  remember (match total with Some n => show_u64 n | None => "*" end) as rest eqn:Hrest.
  replace (show_u64 s +:+ "-" +:+ show_u64 e +:+ "/" +:+ rest)
    with ((show_u64 s +:+ String "-" (show_u64 e)) +:+ String "/" rest)
    by (rewrite !append_assoc; reflexivity).
  rewrite (split_once_app "/").
  2: { rewrite all_chars_append. cbn [all_chars]. by rewrite !digits_no_char. }
  cbn. rewrite (split_once_app "-") by (by apply digits_no_char). cbn.
  rewrite !parse_show_u64 by done. cbn. subst rest. destruct total as [n|]; [|done].
  specialize (Ht n eq_refl). rewrite parse_show_u64 by done. cbn.
  assert (String.eqb (show_u64 n) "*" = false) as ->; [|done].
  apply String.eqb_neq. intros Hn. pose proof (show_u64_digits n) as Hd. by rewrite Hn in Hd.
Qed.

Lemma parse_content_range_text_witness :
  parse_content_range "bytes 5-9/10" = Some (mk_content_range 5 9 (Some 10)).
Proof.
  apply (parse_content_range_text (mk_content_range 5 9 (Some 10))).
  split_and!; [unfold_int; simpl; lia..|]. intros ? [= <-]. unfold_int. lia.
Defined.

(** ** File names *)

(** The value of [filename*] for a name: every byte is encoded. *)
Definition hex_digit (d : Z) : ascii := Chr.of_code (if d <? 10 then 48 + d else 55 + d).
Fixpoint percent_encode (s : string) : string :=
  match s with
  | EmptyString => EmptyString
  | String c s =>
      String "%" (String (hex_digit (Chr.code c / 16)) (String (hex_digit (Chr.code c mod 16))
        (percent_encode s)))
  end.

Lemma hex_digit_code d : 0 ≤ d < 16 → Chr.code (hex_digit d) = if d <? 10 then 48 + d else 55 + d.
Proof. intros Hd. unfold hex_digit. apply Chr.code_of_code. destruct (d <? 10) eqn:E; bool_hyps; lia. Qed.

Lemma decode_hex_digit d : 0 ≤ d < 16 → decode_hex_nibble (hex_digit d) = Some d.
Proof.
  intros Hd. unfold decode_hex_nibble. rewrite hex_digit_code by done.
  destruct (d <? 10) eqn:E; bool_hyps.
  - rewrite (proj2 (Z.leb_le 48 _)), (proj2 (Z.leb_le _ 57)) by lia. cbn. f_equal. lia.
  - rewrite (proj2 (Z.leb_gt _ 57)) by lia. rewrite andb_false_r.
    rewrite (proj2 (Z.leb_gt 97 _)) by lia. cbn [andb].
    rewrite (proj2 (Z.leb_le 65 _)), (proj2 (Z.leb_le _ 70)) by lia. cbn. f_equal. lia.
Qed.

Lemma nibbles_join a b : 0 ≤ b < 16 → Z.lor (Z.shiftl a 4) b = a * 16 + b.
Proof.
  intros Hb. rewrite <- Z.add_nocarry_lor; [by rewrite Z.shiftl_mul_pow2 by lia|].
  apply Z.bits_inj'. intros n Hn. rewrite Z.land_spec, Z.bits_0. destruct (decide (n < 4)).
  - by rewrite Z.shiftl_spec_low by lia.
  - rewrite <- (Z.mod_small b (2 ^ 4)) by lia. rewrite Z.mod_pow2_bits_high by lia.
    by rewrite andb_false_r.
Qed.

(** Decoding undoes encoding. *)
Lemma percent_decode_encode s : percent_decode_bytes (percent_encode s) = Some s.
Proof.
  induction s as [|c s IH]; [done|]. pose proof (Chr.code_range c) as Hc.
  pose proof (Z.div_mod (Chr.code c) 16 ltac:(lia)).
  pose proof (Z.mod_pos_bound (Chr.code c) 16 ltac:(lia)).
  assert (0 ≤ Chr.code c / 16 < 16).
  { split; [apply Z.div_pos; lia|apply Z.div_lt_upper_bound; lia]. }
  cbn [percent_encode percent_decode_bytes]. rewrite !decode_hex_digit by done. cbn.
  rewrite IH. cbn. rewrite nibbles_join by done. f_equal. f_equal.
  replace (Chr.code c / 16 * 16 + Chr.code c mod 16) with (Chr.code c) by lia.
  apply Chr.of_code_code.
Qed.

(** A character that occurs in encoded names: no separator, quote or space. *)
Definition encoded_char (c : ascii) : bool :=
  (solid c && negb (Ascii.eqb apostrophe c) && negb (Ascii.eqb ";" c) &&
   negb (Ascii.eqb (Chr.of_code 34) c))%bool.

Lemma hex_digit_encoded d : 0 ≤ d < 16 → encoded_char (hex_digit d) = true.
Proof.
  intros Hd. assert (d ∈ seqZ 0 16) as Hin by (apply elem_of_seqZ; lia).
  clear Hd. revert d Hin. apply Forall_forall. repeat constructor.
Qed.

Lemma percent_encode_chars s : all_chars encoded_char (percent_encode s) = true.
Proof.
  induction s as [|c s IH]; [done|]. pose proof (Chr.code_range c).
  cbn [percent_encode all_chars]. rewrite IH, !hex_digit_encoded; [done|apply Z.mod_pos_bound; lia|].
  split; [apply Z.div_pos; lia|apply Z.div_lt_upper_bound; lia].
Qed.

Lemma encoded_chars (p : ascii → bool) s :
  (∀ c, encoded_char c = true → p c = true) → all_chars p (percent_encode s) = true.
Proof. intros Hp. eapply all_chars_impl; [exact Hp|]. apply percent_encode_chars. Qed.

Lemma split_no_char c s : all_chars (λ d, negb (Ascii.eqb c d)) s = true → split c s = [s].
Proof.
  induction s as [|d s IH]; [done|]. cbn [all_chars split]. intros [Hd Hs]%andb_true_iff.
  apply negb_true_iff in Hd. by rewrite Hd, IH.
Qed.

(** The value of [filename*] for a UTF-8 name. *)
Definition utf8_name (s : string) : string :=
  "UTF-8" +:+ String apostrophe (String apostrophe (percent_encode s)).

Lemma encoded_char_inv c :
  encoded_char c = true → solid c = true ∧ Ascii.eqb apostrophe c = false ∧
    Ascii.eqb ";" c = false ∧ Ascii.eqb (Chr.of_code 34) c = false.
Proof. unfold encoded_char. rewrite !andb_true_iff, !negb_true_iff. tauto. Qed.

Lemma utf8_name_ends s :
  ∃ t d, utf8_name s = t +:+ String d "" ∧ solid d = true ∧ Ascii.eqb (Chr.of_code 34) d = false.
Proof.
  unfold utf8_name. pose proof (percent_encode_chars s) as Hp.
  destruct (percent_encode s) as [|c e].
  - exists ("UTF-8" +:+ String apostrophe ""), apostrophe. done.
  - destruct (string_last c e) as (t & d & E). rewrite E in *.
    exists ("UTF-8" +:+ String apostrophe (String apostrophe t)), d. split; [done|].
    rewrite all_chars_append in Hp. cbn [all_chars] in Hp. rewrite andb_true_r in Hp.
    apply andb_true_iff in Hp as [_ Hp]. by apply encoded_char_inv in Hp as (? & ? & ? & ?).
Qed.

Lemma decode_utf8_name s :
  utf8_valid s = true → decode_content_disposition_extended_filename (utf8_name s) = Some s.
Proof.
  intros Hs. destruct (utf8_name_ends s) as (t & d & E & Hd & Hq).
  unfold decode_content_disposition_extended_filename.
  assert (trim (utf8_name s) = utf8_name s) as -> by (by eapply (trim_solid "U" _ t d)).
  assert (trim_matches (Chr.of_code 34) (utf8_name s) = utf8_name s) as ->
    by (by eapply (trim_matches_ne _ "U" _ t d)).
  assert (split_once (String apostrophe (String apostrophe EmptyString)) (utf8_name s) =
    Some ("UTF-8", percent_encode s)) as ->.
  { unfold utf8_name. by destruct (percent_encode s). }
  cbn [mbind option_bind].
  rewrite (split_no_char apostrophe).
  2: { apply encoded_chars. intros c Hc%encoded_char_inv. destruct Hc as (_ & -> & _). done. }
  cbn [head unwrap_or]. rewrite percent_decode_encode. cbn [mbind option_bind].
  change (eq_ignore_ascii_case "UTF-8" "utf-8") with true. unfold string_from_utf8. by rewrite Hs.
Qed.

(** Every UTF-8 file name that a server announces in the extended notation
    of [Content-Disposition], whatever its characters, is recovered exactly. *)
Theorem content_disposition_utf8 `{HttpLib} s :
  utf8_valid s = true →
  parse_content_disposition_header (HText ("attachment; filename*=" +:+ utf8_name s)) = Ok (Some s).
Proof.
  intros Hs. unfold parse_content_disposition_header. cbn [value_to_str result_bind].
  change ("attachment; filename*=" +:+ utf8_name s)
    with ("attachment" +:+ String ";" (" filename*=" +:+ utf8_name s)).
  rewrite split_app. change (split ";" "attachment") with ["attachment"].
  rewrite (split_no_char ";" (" filename*=" +:+ utf8_name s)).
  2: { unfold utf8_name. rewrite !all_chars_append. cbn [all_chars].
    rewrite encoded_chars; [done|]. intros c Hc%encoded_char_inv. destruct Hc as (_ & _ & -> & _). done. }
  cbn [app drop]. f_equal. cbn [disposition_segments].
  assert (trim (" filename*=" +:+ utf8_name s) = "filename*=" +:+ utf8_name s) as ->.
  { destruct (utf8_name_ends s) as (t & d & E & Hd & _).
    assert ("filename*=" +:+ utf8_name s = ("filename*=" +:+ t) +:+ String d "") as E2
      by (by rewrite E, append_assoc).
    transitivity (trim ("filename*=" +:+ utf8_name s)); [done|].
    exact (trim_solid "f" ("ilename*=" +:+ utf8_name s) ("filename*=" +:+ t) d E2 eq_refl Hd). }
  rewrite strip_prefix_append. by rewrite decode_utf8_name.
Qed.

Lemma content_disposition_utf8_witness :
  @parse_content_disposition_header (Build_HttpLib (λ _, None) (λ _, None) (λ _, "") "")
    (HText ("attachment; filename*=" +:+ utf8_name "a ; b.bin")) = Ok (Some "a ; b.bin").
Proof. apply content_disposition_utf8. vm_compute. reflexivity. Defined.

(** ** What a probe reports *)
Section probing.
Context `{HttpLib} `{UrlLib} (send : Request → result Response string).

Lemma transpose_inv {A B} (f : A → res B) o r : transpose f o = Ok r → is_some r = is_some o.
Proof. destruct o as [a|]; simpl; [|by intros [= <-]]. destruct (f a); simpl; [by intros [= <-]|done]. Qed.

Lemma probe_details_ok response head total ranges p :
  probe_details response head total ranges = Ok p →
  pr_total_size p = total ∧ pr_supports_range_requests p = ranges ∧
  ∃ identity, extract_resource_identity response = Ok identity ∧
    pr_resource_identity p = merge_resource_identity (hp_resource_identity <$> head) identity.
Proof.
  unfold probe_details. destruct (extract_resource_identity response) as [i|]; [|done]. simpl.
  destruct (extract_suggested_file_name response); [|done]. simpl. intros [= <-]. eauto.
Qed.

(** A response that shows that ranges are served, and the size it states. *)
Definition shows_ranges (response : Response) (total : option Z) : Prop :=
  (rs_status response = 206 ∧ ∃ text range, header "content-range" response = Some (HText text) ∧
     parse_content_range text = Some range ∧ total = cr_total_size range) ∨
  (rs_status response = 416 ∧ ∃ size, total = Some size ∧ 0 < size).

Lemma range_response_shows response head p :
  probe_with_range_response response head = Ok p →
  (pr_supports_range_requests p = true ↔ shows_ranges response (pr_total_size p)).
Proof.
  unfold probe_with_range_response, shows_ranges.
  destruct (rs_status response =? 206) eqn:E1; bool_hyps.
  { destruct (header "content-range" response) as [[text|]|]; try done. simpl.
    destruct (parse_content_range text) as [range|] eqn:Er; [|done]. simpl.
    intros (-> & -> & _)%probe_details_ok. split; [|done]. intros _. left. eauto 8. }
  destruct (rs_status response =? 200) eqn:E2; bool_hyps.
  { destruct (parse_content_length _) as [t|]; [|done]. simpl.
    intros (_ & -> & _)%probe_details_ok. split; [done|]. intros [[? _]|[? _]]; lia. }
  destruct (rs_status response =? 416) eqn:E3; bool_hyps; [|done].
  intros (-> & -> & _)%probe_details_ok. set (t := opt_or _ _). destruct t as [n|]; simpl.
  - rewrite Z.ltb_lt. split; [eauto 10|]. intros [[? _]|(_ & m & [= <-] & Hm)]; [lia|done].
  - split; [done|]. intros [[? _]|(_ & m & ? & _)]; [lia|done].
Qed.

(** A probe reports support for ranges only on evidence: the resource is
    empty, or a request for its first byte was answered by a partial response
    with a readable [Content-Range] or refused for a resource that has bytes.  The size reported with a partial
    answer is the one of its [Content-Range].  Conversely such an answer is
    always reported as support. *)
Theorem probe_reports_ranges url options p :
  probe_download_target send url options = Ok p →
  (pr_total_size p = Some 0 ∧ ∃ head, probe_with_head send url options = Ok (Some head) ∧
     hp_total_size head = Some 0 ∧ pr_supports_range_requests p = hp_accepts_ranges head) ∨
  ∃ request response,
    apply_http_request_options (mk_http_request GET url [("range", "bytes=0-0")] None) options =
      Ok request ∧ send request = Ok response ∧
    (pr_supports_range_requests p = true ↔ shows_ranges response (pr_total_size p)).
Proof.
  unfold probe_download_target. destruct (probe_with_head send url options) as [head|]; [|done].
  cbn [result_bind]. destruct (opt_filter _ head) as [h|] eqn:Eh.
  - intros [= <-]. left. split; [done|]. destruct head as [h'|]; [|done]. simpl in Eh.
    case_bool_decide; [|done]. injection Eh as ->. eauto.
  - destruct (apply_http_request_options _ options) as [request|] eqn:Er; [|done]. cbn [result_bind].
    destruct (send request) as [response|] eqn:Es; [|done]. cbn. intros Hp. right.
    exists request, response. split_and!; [done|done|by eapply range_response_shows].
Qed.
End probing.

(** A client whose server serves ranges of ten bytes. *)
Definition example_http : HttpLib := Build_HttpLib (λ _, None) (λ _, None) (λ _, "") "".
Definition example_send (request : Request) : result Response string :=
  match rqm_method request with
  | HEAD => Ok (mk_response 405 (rqm_url request) [] None [])
  | GET => Ok (mk_response 206 (rqm_url request)
             [("content-range", HText "bytes 0-0/10"); ("etag", HText "v1")] (Some 1) [])
  end.
Definition no_urls : UrlLib := {|
  Url := unit;
  url_parse _ := Err RelativeUrlWithoutBase;
  url_scheme _ := EmptyString;
  url_path_segments _ := None;
  url_query_pairs _ := []
|}.

Lemma probe_reports_ranges_witness :
  ∃ p, @probe_download_target example_http no_urls example_send "u" HttpRequestOptions_default = Ok p ∧
    pr_total_size p = Some 10 ∧ pr_supports_range_requests p = true.
Proof.
  eexists. split; [vm_compute; reflexivity|]. split; [reflexivity|].
  destruct (@probe_reports_ranges example_http no_urls example_send "u" HttpRequestOptions_default
    (mk_probe (Some 10) true (mk_identity (Some "u") (Some "v1") None) None) eq_refl)
    as [[H _]|(request & response & H1 & H2 & H3)]; [discriminate|].
  apply H3. left. vm_compute in H1. injection H1 as <-. vm_compute in H2. injection H2 as <-.
  split; [reflexivity|]. exists "bytes 0-0/10", (mk_content_range 0 0 (Some 10)).
  split_and!; vm_compute; reflexivity.
Defined.
