(* ===== verification/WorkerRun.v ===== *)
(** * The download loop of a worker
    ([src/src/worker/runtime.rs], [retry.rs], [transfer.rs], [src/src/transfer])

    One run of a worker: it requests its range from its source, writes what it
    receives into the payload, and retries, with another source if there is
    one, until its range is complete or its retries are used up.

    The server is a function from the number of the request and the request to
    a response.  Others act on the worker and on its task while it runs: what they
    do is a list of signals, consumed a batch at a time where the loop looks at the
    worker's flags.  The task a worker belongs to outlives the run.  Waiting for
    the rate limiter changes nothing that is modelled. *)

From S2P Require Import Prelude Text Float Ranges Status Effect Source Piece Files Checksum Manifest Planner Payload Torrent Config Task Probe.

(** ** Retry delays *)

(** [f64::powi] by repeated squaring, and [x.ceil() as u64]. *)
Fixpoint powi_loop (p : positive) (a r : spec_float) : spec_float :=
  match p with
  | xH => f64_mul r a
  | xO p => powi_loop p (f64_mul a a) r
  | xI p => powi_loop p (f64_mul a a) (f64_mul r a)
  end.
Definition f64_powi (a : spec_float) (n : Z) : spec_float :=
  match n with Zpos p => powi_loop p a (f64_of 1) | _ => f64_of 1 end.
Definition f64_ceil_u64 (x : spec_float) : Z :=
  match x with
  | S754_finite false m e =>
      Z.min u64_max (if 0 <=? e then Z.pos m * 2 ^ e else div_ceil (Z.pos m) (2 ^ (- e)))
  | S754_infinity false => u64_max
  | _ => 0
  end.

(** [src/src/worker/retry.rs:12-21], [compute_retry_delay]. In seconds. *)
Definition compute_retry_delay (config : RetryConfig) (attempt : Z) : Z :=
  let initial := Z.max (initial_delay config) 1 in
  let max := Z.max (max_delay config) initial in
  let factor := f64_max (backoff_factor config) (f64_of 1) in
  let exponent := Z.min (sat_sub attempt 1) 32 in
  let calculated := f64_mul (f64_of initial) (f64_powi factor exponent) in
  let seconds := f64_ceil_u64 calculated in
  clamp seconds initial max.

(** [src/src/worker/retry.rs:4-10], [next_retry_delay]. *)
Definition next_retry_delay (config : RetryConfig) (retry_count : Z) : option Z :=
  if max_retries config <=? retry_count then None
  else Some (compute_retry_delay config (sat_add32 retry_count 1)).

(** ** The state of a run *)

(** What others do to the worker, and, to the task they share, the other workers
    of it: they record how their sources served them. *)
Inductive signal := SigPause | SigResume | SigCancel | SigDelete | SigSource (success : bool) (id : string).

(** The worker's task, the payload, the events sent to the task, the requests
    sent, the delays slept, the signals to come, the bytes last reported. *)
Record run_world := mk_run {
  rw_worker : Worker;
  rw_task : Task;
  rw_payload : payload_world;
  rw_events : list Event;
  rw_requests : list Request;
  rw_delays : list Z;
  rw_signals : list (list signal);
  rw_last_reported : Z
}.
#[export] Instance run_world_eta : Settable run_world := λ w,
  mk_run (rw_worker w) (rw_task w) (rw_payload w) (rw_events w) (rw_requests w) (rw_delays w)
    (rw_signals w) (rw_last_reported w).

(** How a run is left other than by reaching its end: with an error, by an early
    return, waiting for ever to be resumed, or for want of fuel. *)
Inductive run_stop := Fails (e : Error) | Returns | Suspended | NoFuel.
Abbreviation run := (effx run_stop run_world).

Definition fails {A} (e : Error) : run A := throw (Fails e).
Definition ask {A} (r : res A) : run A := lift (result_map_err Fails r).
(** The error of an operation, for the loop to look at. *)
Definition catch {A} (m : run A) : run (res A) := λ s,
  match m s with
  | (Ok a, s) => (Ok (Ok a), s)
  | (Err (Fails e), s) => (Ok (Err e), s)
  | (Err stop, s) => (Err stop, s)
  end.

Definition on_worker (f : Worker → Worker) : run unit := modify (λ w, w <| rw_worker ::= f |>).
Definition on_task (f : Task → Task) : run unit := modify (λ w, w <| rw_task ::= f |>).
Definition on_stats (f : Stats → Stats) : run unit := on_task (λ t, t <| t_stats ::= f |>).
Definition the_worker {A} (f : Worker → A) : run A := gets (λ w, f (rw_worker w)).
Definition the_task {A} (f : Task → A) : run A := gets (λ w, f (rw_task w)).

(** [src/src/worker/mod.rs:129-133], [Worker::emit_worker_event]. *)
Definition emit_worker_event (event : Event) : run unit :=
  modify (λ w, w <| rw_events ::= λ l, l ++ [event] |>).
(** [src/src/worker/mod.rs:101-103], [Worker::set_status]. *)
Definition worker_set_status (status : Status) : run unit :=
  on_worker (λ w, w <| w_status := status |>).

(** One signal: the operation of the worker or of its task that it stands for. *)
Definition apply_signal (s : signal) : run unit := λ w,
  let '(worker, events) :=
    match s with
    | SigPause => worker_pause (rw_worker w)
    | SigResume => (fst (worker_resume (rw_worker w)), [])
    | SigCancel => worker_cancel (rw_worker w)
    | SigDelete => worker_delete (rw_worker w)
    | SigSource _ _ => (rw_worker w, [])
    end in
  let task :=
    match s with
    | SigSource true id => record_source_success id (rw_task w)
    | SigSource false id => record_source_failure id (rw_task w)
    | _ => rw_task w
    end in
  (Ok tt, w <| rw_worker := worker |> <| rw_task := task |> <| rw_events ::= λ l, l ++ events |>).

(** What the others did since the flags were last looked at. *)
Definition poll : run unit := λ w,
  match rw_signals w with
  | [] => (Ok tt, w)
  | batch :: rest => for_each apply_signal batch (w <| rw_signals := rest |>)
  end.

Definition stopping : run bool := poll ;;; the_worker should_stop_gracefully.

(** [src/src/worker/mod.rs:149-160], [Worker::wait_until_resumed]. Over the batches to come. *)
Fixpoint wait_loop (batches : nat) : run bool :=
  let! paused := the_worker w_paused in
  if negb paused then ret true else
  let! stop := the_worker should_stop_gracefully in
  if (stop : bool) then ret false else
  match batches with
  | O => throw Suspended
  | S batches => poll ;;; wait_loop batches
  end.
Definition wait_until_resumed : run bool := λ w, wait_loop (length (rw_signals w)) w.

(** ** Progress *)

(** [src/src/worker/transfer.rs:69-75], [Worker::emit_progress]. *)
Definition emit_progress : run unit :=
  let! worker := the_worker id in
  emit_worker_event (EvProgress (w_id worker) (w_downloaded_size worker) (w_total_size worker)).

(** [src/src/worker/transfer.rs:36-40], [ProgressReporter::flush]. *)
Definition progress_flush : run unit :=
  emit_progress ;;;
  modify (λ w, w <| rw_last_reported := w_downloaded_size (rw_worker w) |>).

Section run.
Context `{HttpLib}.
(** The configuration; the server; whether the report interval has elapsed when
    so many bytes are there; the seconds until an RFC 2822 date. *)
Context (config : Config) (server : nat → Request → result Response string)
  (elapsed : Z → bool) (rfc2822_delay : string → option Z).

(** [src/src/worker/transfer.rs:25-34], [ProgressReporter::maybe_emit]. *)
Definition maybe_emit : run unit :=
  let! downloaded_size := the_worker w_downloaded_size in
  let! last := gets rw_last_reported in
  let delta := sat_sub downloaded_size last in
  if ((delta <? threshold_bytes (progress_throttle config)) && negb (elapsed downloaded_size))%bool
  then ret tt else progress_flush.

(** ** Drivers *)

(** [src/src/transfer/driver.rs:48-56], [driver_for_source]. *)
Inductive driver := HttpTransferDriver | FtpTransferDriver.
Definition driver_for_source (source : SourceDescriptor) : driver :=
  match src_kind source with
  | KHttp | KHttps | KWebSeed | KMirror => HttpTransferDriver
  | KFtp => FtpTransferDriver
  | _ => FtpTransferDriver
  end.

(** [src/src/transfer/http.rs:18-47], [HttpTransferDriver::build_request]. *)
Definition http_build_request (worker : Worker) (task : Task) (range_start : Z)
    (use_range_requests : bool) : res Request :=
  let source := w_source worker in
  let request_options := unwrap_or (t_http_request task) (src_request source) in
  let? request :=
    apply_http_request_options (mk_http_request GET (src_locator source) [] None) request_options in
  if (use_range_requests && (range_start <=? w_end worker))%bool then
    let request :=
      with_header "range" ("bytes=" +:+ show_u64 range_start +:+ "-" +:+ show_u64 (w_end worker))
        request in
    Ok (if w_start worker <? range_start then
          match resume_validator (t_identity task) with
          | Some validator => with_header "if-range" validator request
          | None => request
          end
        else request)
  else Ok request.

(** [src/src/transfer/ftp.rs:11-21], [FtpTransferDriver::build_request]. And the HTTP one. *)
Definition build_request (d : driver) (worker : Worker) (task : Task) (range_start : Z)
    (use_range_requests : bool) : res Request :=
  match d with
  | HttpTransferDriver => http_build_request worker task range_start use_range_requests
  | FtpTransferDriver =>
      Err (EUnsupportedProtocol
             (src_locator (w_source worker) +:+ " transfer is not implemented yet"))
  end.

(** [src/src/transfer/http.rs:49-66], [HttpTransferDriver::resolve_content_length]. *)
Definition resolve_content_length (d : driver) (worker : Worker) (response : Response)
    (use_range_requests : bool) (range_start : Z) : Z :=
  match d with
  | HttpTransferDriver =>
      match rs_content_length response with
      | Some n => n
      | None =>
          if negb (w_length_known worker) then 0
          else if use_range_requests then sat_add (sat_sub (w_end worker) range_start) 1
          else expected_length worker
      end
  | FtpTransferDriver => 0
  end.

(** [src/src/transfer/http.rs:68-116], [HttpTransferDriver::validate_response]. *)
Definition http_validate_response (worker : Worker) (response : Response)
    (use_range_requests : bool) (expected_start : Z) : res unit :=
  if use_range_requests then
    if ((w_start worker <? expected_start) && (rs_status response =? 200))%bool then
      Err (EResumeInvalidated (w_id worker) "remote resource no longer matches stored validator")
    else if negb (rs_status response =? 206) then
      Err (EOther ("Expected 206 Partial Content, got " +:+ status_text (rs_status response)))
    else
      let? value := ok_or (header "content-range" response) (EOther "Missing Content-Range") in
      let? content_range := value_to_str value in
      let? content_range :=
        ok_or (parse_content_range content_range) (EOther "Invalid Content-Range") in
      if (negb (cr_start content_range =? expected_start) ||
          negb (cr_end content_range =? w_end worker))%bool then
        Err (EOther ("Unexpected Content-Range " +:+ show_u64 (cr_start content_range) +:+ "-" +:+
               show_u64 (cr_end content_range) +:+ " for expected " +:+ show_u64 expected_start +:+
               "-" +:+ show_u64 (w_end worker)))
      else Ok tt
  else if negb (rs_status response =? 200) then
    Err (EOther ("Expected 200 OK, got " +:+ status_text (rs_status response)))
  else Ok tt.

(** [src/src/transfer/ftp.rs:33-43], [FtpTransferDriver::validate_response]. And the HTTP one. *)
Definition validate_response (d : driver) (worker : Worker) (response : Response)
    (use_range_requests : bool) (expected_start : Z) : res unit :=
  match d with
  | HttpTransferDriver => http_validate_response worker response use_range_requests expected_start
  | FtpTransferDriver => Err (EUnsupportedProtocol "ftp transfer is not implemented yet")
  end.

(** ** Streaming *)

(** [src/src/transfer/http.rs:14-14], [RATE_LIMIT_SLICE_BYTES]. *)
Definition RATE_LIMIT_SLICE_BYTES : nat := Z.to_nat 16384.

(** [slice::chunks]. *)
Fixpoint chunks_loop (fuel : nat) (n : nat) (data : bytes) : list bytes :=
  match fuel, data with
  | O, _ | _, [] => []
  | S fuel, _ => take n data :: chunks_loop fuel n (drop n data)
  end.
Definition chunks (n : nat) (data : bytes) : list bytes := chunks_loop (length data) n data.

Definition write_payload (fm : FileMap) (offset : Z) (data : bytes) : run unit := λ w,
  let '(r, p) := write_at fm offset data (rw_payload w) in
  (result_map_err Fails r, w <| rw_payload := p |>).

(** [src/src/transfer/http.rs:155-177], [HttpTransferDriver::stream_response (slices)]. The next
    offset, or [None] when the worker is to stop. *)
Fixpoint stream_slices (fm : FileMap) (slices : list bytes) (write_offset : Z) : run (option Z) :=
  match slices with
  | [] => ret (Some write_offset)
  | slice :: slices =>
      let! stop := stopping in
      if (stop : bool) then ret None else
      let! resumed := wait_until_resumed in
      if negb resumed then ret None else
      let slice_len := zlen slice in
      write_payload fm write_offset slice ;;;
      on_worker (λ w, w <| w_downloaded_size ::= λ n, wrap64 (n + slice_len) |>) ;;;
      maybe_emit ;;;
      stream_slices fm slices (sat_add write_offset slice_len)
  end.

(** [src/src/transfer/http.rs:145-178], [HttpTransferDriver::stream_response (chunks)]. *)
Fixpoint stream_chunks (fm : FileMap) (body : list (result bytes string)) (write_offset : Z)
    : run unit :=
  match body with
  | [] => ret tt
  | chunk :: body =>
      let! stop := stopping in
      if (stop : bool) then ret tt else
      let! resumed := wait_until_resumed in
      if negb resumed then ret tt else
      let! id := the_worker w_id in
      let! chunk := ask (result_map_err (ENetworkError id) chunk) in
      let! offset := stream_slices fm (chunks RATE_LIMIT_SLICE_BYTES chunk) write_offset in
      match offset with
      | None => ret tt
      | Some write_offset => stream_chunks fm body write_offset
      end
  end.

(** [src/src/transfer/http.rs:118-181], [HttpTransferDriver::stream_response]. *)
Definition http_stream_response (response : Response) (use_range_requests : bool)
    (range_start : Z) : run unit :=
  let! store := the_task t_payload_store in
  let! id := the_task t_id in
  let! fm := ask (ok_or store (EOther ("Task " +:+ show_u64 id +:+ " payload store not initialized"))) in
  let! start := the_worker w_start in
  stream_chunks fm (rs_body response) (if use_range_requests then range_start else start).

(** [src/src/transfer/ftp.rs:45-57], [FtpTransferDriver::stream_response]. And the HTTP one. *)
Definition stream_response (d : driver) (response : Response) (use_range_requests : bool)
    (range_start : Z) : run unit :=
  match d with
  | HttpTransferDriver => http_stream_response response use_range_requests range_start
  | FtpTransferDriver => fails (EUnsupportedProtocol "ftp transfer is not implemented yet")
  end.

(** ** Retrying *)

(** [src/src/worker/runtime.rs:235-281], [Worker::retry_or_fail_with_delay]. The new retry
    count. *)
Definition retry_or_fail_with_delay (retry_count : Z) (err : Error) (explicit_delay : option Z)
    : run Z :=
  on_stats record_failure ;;;
  let! current_source_id := the_worker (λ w, src_id (w_source w)) in
  on_task (record_source_failure current_source_id) ;;;
  let! fallback := the_task (select_retry_source current_source_id) in
  match fallback with
  | Some fallback =>
      when (negb (String.eqb (src_id fallback) current_source_id)) (on_worker (switch_source fallback))
  | None => ret tt
  end ;;;
  match err with
  | EResumeInvalidated _ _ => fails err
  | _ =>
      match next_retry_delay (retry config) retry_count with
      | None => fails err
      | Some delay =>
          let delay :=
            match explicit_delay with
            | Some explicit_delay => Z.max delay explicit_delay
            | None => delay
            end in
          on_stats record_retry ;;;
          modify (λ w, w <| rw_delays ::= λ l, l ++ [delay] |>) ;;;
          ret (wrap32 (retry_count + 1))
      end
  end.

(** [src/src/worker/runtime.rs:231-233], [Worker::retry_or_fail]. *)
Definition retry_or_fail (retry_count : Z) (err : Error) : run Z :=
  retry_or_fail_with_delay retry_count err None.

(** [src/src/worker/runtime.rs:283-293], [Worker::should_retry_http_status]. *)
Definition should_retry_http_status (status : Z) : bool :=
  bool_decide (status ∈ [408; 429; 500; 502; 503; 504]).

(** [src/src/worker/runtime.rs:295-309], [Worker::classify_terminal_http_error]. *)
Definition classify_terminal_http_error (id : Z) (response : Response) : option Error :=
  if bool_decide (rs_status response ∈ [401; 403; 404]) then
    Some (EHttpError id (rs_status response)
            ("non-retryable HTTP status " +:+ status_text (rs_status response)))
  else None.

(** [src/src/worker/runtime.rs:312-326], [parse_retry_after_delay]. *)
Definition parse_retry_after_delay (value : HeaderValue) : option Z :=
  value ← value_text value;
  let value := trim value in
  match parse_u64 value with
  | Ok seconds => Some seconds
  | Err _ =>
      delay ← rfc2822_delay value;
      if delay <=? 0 then None else Some delay
  end.

(** ** One run *)

(** [src/src/worker/runtime.rs:215-223], [Worker::finish_success]. *)
Definition finish_success : run unit :=
  let! worker := the_worker (λ w, w) in
  on_task (record_source_success (src_id (w_source worker))) ;;;
  on_stats record_success ;;;
  worker_set_status Completed ;;;
  emit_worker_event (EvComplete (w_id worker)).

(** [src/src/worker/runtime.rs:225-229], [Worker::mark_failed]. *)
Definition mark_failed (err : Error) : run unit :=
  worker_set_status (Failed err) ;;;
  let! id := the_worker w_id in
  emit_worker_event (EvError id err).

(** [src/src/worker/runtime.rs:180-213], [Worker::prepare_run_state]. *)
Definition prepare_run_state : run bool :=
  let! current_status := the_worker w_status in
  let go :=
    worker_set_status Running ;;;
    let! id := the_worker w_id in
    emit_worker_event (EvStart id) ;;;
    ret true in
  match current_status with
  | Paused => on_worker (λ w, w <| w_paused := false |>) ;;; go
  | Canceled | Deleted =>
      fails (EOther ("Task cannot start, status: " +:+ Status_debug current_status))
  | Completed => ret false
  | _ => go
  end.

(** [request.send()]: the request is the next one the server sees. *)
Definition send_request (request : Request) : run (result Response string) := λ w,
  (Ok (server (length (rw_requests w)) request), w <| rw_requests ::= λ l, l ++ [request] |>).

(** What an attempt comes to: the range is complete, or the error to retry after, with the delay
    the server asked for. *)
Inductive attempt_end := Finished | Retry (err : Error) (delay : option Z).

(** [src/src/worker/runtime.rs:83-115], [Worker::run_download_loop (response)]. *)
Definition check_response (d : driver) (worker : Worker) (response : Response)
    (use_range_requests : bool) (range_start : Z) : run (option attempt_end) :=
  match classify_terminal_http_error (w_id worker) response with
  | Some err => fails err
  | None =>
      if should_retry_http_status (rs_status response) then
        let retry_after :=
          value ← header "retry-after" response; parse_retry_after_delay value in
        ret (Some (Retry (EHttpError (w_id worker) (rs_status response)
          ("retryable HTTP status " +:+ status_text (rs_status response))) retry_after))
      else
        match validate_response d worker response use_range_requests range_start with
        | Err protocol_err =>
            ret (Some (Retry (EHttpError (w_id worker) (rs_status response)
              (Error_to_string protocol_err)) None))
        | Ok _ => ret None
        end
  end.

(** [src/src/worker/runtime.rs:127-173], [Worker::run_download_loop (transfer)]. *)
Definition transfer_response (d : driver) (worker : Worker) (response : Response)
    (use_range_requests : bool) (range_start expected : Z) : run attempt_end :=
  let response_length := resolve_content_length d worker response use_range_requests range_start in
  let! downloaded_size := the_worker w_downloaded_size in
  let total_size :=
    if use_range_requests then sat_add downloaded_size response_length
    else if w_length_known worker then response_length
    else 0 in
  on_worker (λ w, w <| w_total_size := total_size |>) ;;;
  let! streamed := catch (stream_response d response use_range_requests range_start) in
  match streamed with
  | Err err => ret (Retry err None)
  | Ok _ =>
      let! stop := stopping in
      if (stop : bool) then throw Returns else
      progress_flush ;;;
      let! downloaded_size := the_worker w_downloaded_size in
      ask (validate_downloaded_length worker downloaded_size expected) ;;;
      when (negb (w_length_known worker))
        (on_worker (λ w, w <| w_total_size := downloaded_size |>) ;;;
         on_task (finalize_stream_total_size downloaded_size)) ;;;
      ret Finished
  end.

(** [src/src/worker/runtime.rs:53-126], [Worker::run_download_loop (loop body)]. *)
Definition attempt_download (expected : Z) : run attempt_end :=
  let! source := the_worker w_source in
  let d := driver_for_source source in
  let! stop := stopping in
  if (stop : bool) then throw Returns else
  let! resumed := wait_until_resumed in
  if negb resumed then throw Returns else
  let! worker := the_worker (λ w, w) in
  let! supports_range_requests := the_task t_range_requests_supported in
  let use_range_requests := (w_length_known worker && supports_range_requests)%bool in
  let range_start := sat_add (w_start worker) (w_downloaded_size worker) in
  let is_resume_attempt := (use_range_requests && (w_start worker <? range_start))%bool in
  when is_resume_attempt (on_stats record_resume_attempt) ;;;
  let! task := the_task (λ t, t) in
  match build_request d worker task range_start use_range_requests with
  | Err err => ret (Retry err None)
  | Ok request =>
      let! sent := send_request request in
      match sent with
      | Err err => ret (Retry (ENetworkError (w_id worker) err) None)
      | Ok response =>
          let! checked := check_response d worker response use_range_requests range_start in
          match checked with
          | Some end_ => ret end_
          | None =>
              when is_resume_attempt (on_stats record_resume_hit) ;;;
              transfer_response d worker response use_range_requests range_start expected
          end
      end
  end.

(** [src/src/worker/runtime.rs:49-174], [Worker::run_download_loop (loop)]. *)
Fixpoint download_loop (fuel : nat) (retry_count expected : Z) : run unit :=
  match fuel with
  | O => throw NoFuel
  | S fuel =>
      let! end_ := attempt_download expected in
      match end_ with
      | Finished => ret tt
      | Retry err delay =>
          let! retry_count := retry_or_fail_with_delay retry_count err delay in
          download_loop fuel retry_count expected
      end
  end.

(** One step of the loop for every retry, and one more. *)
Definition loop_fuel : nat := S (Z.to_nat (max_retries (retry config))).

(** [src/src/worker/runtime.rs:36-178], [Worker::run_download_loop]. *)
Definition run_download_loop : run unit :=
  let! ready := prepare_run_state in
  if negb ready then throw Returns else
  let! worker := the_worker (λ w, w) in
  let expected := expected_length worker in
  if (w_length_known worker && (expected <=? w_downloaded_size worker))%bool then finish_success
  else
    modify (λ w, w <| rw_last_reported := w_downloaded_size worker |>) ;;;
    download_loop loop_fuel 0 expected ;;;
    finish_success.

(** [src/src/worker/runtime.rs:15-34], [Worker::start]. *)
Definition worker_start : run unit := λ s,
  if w_is_running (rw_worker s) then (Ok tt, s) else
  let s := s <| rw_worker ::= λ w, w <| w_is_running := true |> |> in
  let '(r, s) := run_download_loop s in
  match r with
  | Err Suspended => (Err Suspended, s)
  | Err NoFuel => (Err NoFuel, s)
  | Ok _ | Err Returns => (Ok tt, s <| rw_worker ::= λ w, w <| w_is_running := false |> |>)
  | Err (Fails e) =>
      let '(_, s) := mark_failed e s in
      (Err (Fails e), s <| rw_worker ::= λ w, w <| w_is_running := false |> |>)
  end.
End run.
