(* ===== verification/WorkerFacts.v ===== *)
(** * What the download loop does

    Retry delays are bounded; a run ends within its retries and never for want
    of fuel; a run against a server that serves the resource writes the
    resource; and what goes wrong when a stream without ranges is retried. *)

From S2P Require Import Prelude Text Float Ranges Status Effect Source Piece Files Checksum Manifest Planner Payload Torrent Config Task Probe WorkerRun.

(** ** Delays *)

(** There is a delay exactly while retries are left, whatever the doubles of
    the configuration are, and it lies between the initial delay, of at least a
    second, and the larger of the initial and the maximal delay. *)
Theorem next_retry_delay_spec config retry_count :
  let initial := Z.max (initial_delay config) 1 in
  match next_retry_delay config retry_count with
  | None => max_retries config ≤ retry_count
  | Some delay => retry_count < max_retries config ∧
      initial ≤ delay ≤ Z.max (max_delay config) initial
  end.
Proof.
  intros initial. unfold next_retry_delay, compute_retry_delay.
  destruct (max_retries config <=? retry_count) eqn:E; bool_hyps; [done|].
  fold initial. split; [done|]. unfold clamp. lia.
Qed.

Example retry_delays :
  next_retry_delay (mk_retry 5 2 30 (f64_of 2)) <$> [0; 1; 2; 3; 4; 5] =
  [Some 2; Some 4; Some 8; Some 16; Some 30; None].
Proof. vm_compute. reflexivity. Qed.

(** ** How a run stops *)

(** Neither for want of fuel nor with an invalidated resumption. *)
Definition stop_ok (e : run_stop) : Prop :=
  e ≠ NoFuel ∧ ∀ f m, e ≠ Fails (EResumeInvalidated f m).
Definition error_ok (e : Error) : Prop := ∀ f m, e ≠ EResumeInvalidated f m.

(** [m] sends no request and stops, if it does, in such a way. *)
Definition safe {A} (m : run A) : Prop := ∀ s,
  rw_requests (snd (m s)) = rw_requests s ∧
  match fst (m s) with Err e => stop_ok e | Ok _ => True end.

Lemma safe_ret {A} (a : A) : safe (ret a).
Proof. intros s. by split. Qed.
Lemma safe_gets {A} (f : run_world → A) : safe (gets f).
Proof. intros s. by split. Qed.
Lemma safe_modify f : (∀ s, rw_requests (f s) = rw_requests s) → safe (modify f).
Proof. intros Hf s. by split; [apply Hf|]. Qed.
Lemma safe_throw {A} e : stop_ok e → safe (throw (A:=A) e).
Proof. intros He s. by split. Qed.
Lemma safe_bind {A B} (m : run A) (k : A → run B) : safe m → (∀ a, safe (k a)) → safe (eff_bind m k).
Proof.
  intros Hm Hk s. destruct (Hm s) as [Hq He]. unfold eff_bind. destruct (m s) as [[a|e] s1]; [|done].
  destruct (Hk a s1) as [Hq1 He1]. simpl in Hq. split; [congruence|done].
Qed.
Lemma safe_when b m : safe m → safe (when b m).
Proof. by destruct b. Qed.
Lemma safe_for_each {A} (f : A → run unit) l : (∀ a, safe (f a)) → safe (for_each f l).
Proof. intros Hf. induction l; cbn [for_each]; [apply safe_ret|by apply safe_bind]. Qed.
Lemma safe_ask {A} (r : res A) : (∀ e, r = Err e → error_ok e) → safe (ask r).
Proof. intros Hr s. split; [done|]. destruct r as [a|e]; simpl; [done|]. split; [done|]. intros f m [=]. by eapply Hr. Qed.
Lemma safe_fails {A} e : error_ok e → safe (fails (A:=A) e).
Proof. intros He s. split; [done|]. split; [done|]. intros f m [=]. by eapply He. Qed.

Create HintDb run_safe.
#[local] Hint Resolve safe_ret safe_gets safe_modify safe_throw safe_bind safe_when safe_for_each
  safe_ask safe_fails : run_safe.
#[local] Hint Extern 1 (rw_requests _ = rw_requests _) => reflexivity : run_safe.
(** Go through the binds and the branches of an operation. *)
Ltac safe_step :=
  match goal with
  | |- safe (eff_bind _ _) => apply safe_bind; [|intros ?]
  | |- safe (match ?x with _ => _ end) => destruct x
  | |- safe (fun s => _) => fail 1
  | |- safe _ => solve [eauto with run_safe]
  end.
Ltac solve_safe := repeat (cbv beta zeta; safe_step).

Lemma safe_poll : safe poll.
Proof.
  intros s. unfold poll. destruct (rw_signals s) as [|batch rest]; [done|].
  assert (safe (for_each apply_signal batch)) as Hs; [|exact (Hs (s <| rw_signals := rest |>))].
  apply safe_for_each. intros a t. unfold apply_signal. by repeat case_match.
Qed.
Lemma safe_stopping : safe stopping.
Proof. unfold stopping. solve_safe. apply safe_poll. Qed.
Lemma suspended_ok : stop_ok Suspended.
Proof. split; [done|]. done. Qed.
Lemma returns_ok : stop_ok Returns.
Proof. split; [done|]. done. Qed.
Lemma safe_wait_loop n : safe (wait_loop n).
Proof.
  induction n as [|n IH]; cbn [wait_loop]; unfold the_worker; solve_safe.
  - apply safe_throw, suspended_ok.
  - apply safe_poll.
Qed.
Lemma safe_wait : safe wait_until_resumed.
Proof. intros s. apply safe_wait_loop. Qed.
#[local] Hint Resolve safe_poll safe_stopping safe_wait suspended_ok returns_ok : run_safe.

Lemma safe_flush : safe progress_flush.
Proof. unfold progress_flush, emit_progress, emit_worker_event, the_worker. solve_safe. Qed.
#[local] Hint Resolve safe_flush : run_safe.

(** ** Errors of the payload *)

(** An operation on the payload fails with an I/O error or a refusal. *)
Definition payload_errors {A} (m : eff payload_world A) : Prop :=
  ∀ p e, fst (m p) = Err e → error_ok e.

Lemma payload_errors_bind {A B} (m : eff payload_world A) (k : A → eff payload_world B) :
  payload_errors m → (∀ a, payload_errors (k a)) → payload_errors (eff_bind m k).
Proof.
  intros Hm Hk p e. unfold eff_bind. specialize (Hm p). destruct (m p) as [[a|e'] p1]; [apply Hk|].
  simpl. by intros [= <-]; apply Hm.
Qed.

Lemma open_file_errors path : payload_errors (open_file path).
Proof.
  intros p e. unfold open_file, io, eff_bind, set_fs, modify, ret.
  destruct (fs_open (pw_fs p) path) as [[f i]|e']; simpl; [done|]. by intros [= <-].
Qed.

Lemma write_slice_errors data w : payload_errors (write_slice data w).
Proof.
  unfold write_slice. apply payload_errors_bind; [|by intros i p e].
  unfold file_handle. apply payload_errors_bind; [done|]. intros [i|]; [done|].
  apply payload_errors_bind; [apply open_file_errors|]. intros i.
  apply payload_errors_bind; [done|]. intros [j|]; [done|]. by apply payload_errors_bind.
Qed.

Lemma write_at_errors fm offset data : payload_errors (write_at fm offset data).
Proof.
  unfold write_at. apply payload_errors_bind.
  - intros p e. unfold lift, resolve_writes. simpl. destruct (negb (Payload.bounded fm)).
    + destruct (head (segments fm)); by intros [= <-].
    + destruct (_ <? sat_add offset _); [by intros [= <-]|].
      destruct (resolve_loop _ _ _ _ _) as [l rest]. destruct (rest =? 0); by intros [= <-].
  - intros l. induction l as [|w l IH]; cbn [for_each]; [done|].
    apply payload_errors_bind; [apply write_slice_errors|done].
Qed.

Lemma safe_write_payload fm offset data : safe (write_payload fm offset data).
Proof.
  intros s. unfold write_payload. pose proof (write_at_errors fm offset data (rw_payload s)) as He.
  destruct (write_at fm offset data (rw_payload s)) as [[[]|e] p]; simpl; [done|].
  split; [done|]. split; [done|]. intros f m [=]. by eapply He.
Qed.
#[local] Hint Resolve safe_write_payload : run_safe.

Section run.
Context `{HttpLib} (config : Config) (server : nat → Request → result Response string)
  (elapsed : Z → bool) (rfc2822_delay : string → option Z).

Lemma safe_maybe_emit : safe (maybe_emit config elapsed).
Proof. unfold maybe_emit, the_worker. solve_safe. Qed.
#[local] Hint Resolve safe_maybe_emit : run_safe.

Lemma safe_slices fm slices offset : safe (stream_slices config elapsed fm slices offset).
Proof.
  revert offset. induction slices as [|s l IH]; intros offset; cbn [stream_slices]; solve_safe.
Qed.
#[local] Hint Resolve safe_slices : run_safe.

Lemma safe_chunks fm body offset : safe (stream_chunks config elapsed fm body offset).
Proof.
  revert offset. induction body as [|chunk l IH]; intros offset; cbn [stream_chunks];
    unfold the_worker; solve_safe.
  apply safe_ask. destruct chunk; simpl; [done|]. by intros ? [= <-].
Qed.

Lemma safe_stream d response use_range start :
  safe (stream_response config elapsed d response use_range start).
Proof.
  destruct d; simpl; [|by apply safe_fails].
  unfold http_stream_response, the_task, the_worker. solve_safe; [|apply safe_chunks].
  apply safe_ask. intros e' E. by destruct a; simpl in E; simplify_eq.
Qed.

(** What an attempt can come to. *)
Definition end_ok (e : attempt_end) : Prop :=
  match e with Finished => True | Retry err _ => error_ok err end.

(** [m] sends at most [n] requests, stops in an orderly way or gives a [P]. *)
Definition yields {A} (n : nat) (P : A → Prop) (m : run A) : Prop := ∀ s,
  (length (rw_requests (snd (m s))) ≤ length (rw_requests s) + n)%nat ∧
  match fst (m s) with Err e => stop_ok e | Ok a => P a end.

Lemma yields_ret {A} n (P : A → Prop) a : P a → yields n P (ret a).
Proof. intros Ha s. simpl. split; [lia|done]. Qed.
Lemma yields_safe {A} n (m : run A) : safe m → yields n (λ _, True) m.
Proof. intros Hm s. destruct (Hm s) as [-> He]. split; [lia|]. by destruct (fst (m s)). Qed.
Lemma yields_stop {A} n (P : A → Prop) e : stop_ok e → yields n P (throw e).
Proof. intros He s. simpl. split; [lia|done]. Qed.
Lemma yields_bind {A B} n1 n2 (P : A → Prop) (Q : B → Prop) m k :
  yields n1 P m → (∀ a, P a → yields n2 Q (k a)) → yields (n1 + n2) Q (eff_bind m k).
Proof.
  intros Hm Hk s. destruct (Hm s) as [Hn He]. unfold eff_bind. destruct (m s) as [[a|e] s1].
  - simpl in *. destruct (Hk a He s1) as [Hn1 He1]. split; [lia|done].
  - simpl in *. split; [lia|done].
Qed.
Lemma yields_after {A B} n (Q : B → Prop) (m : run A) k :
  safe m → (∀ a, yields n Q (k a)) → yields n Q (eff_bind m k).
Proof. intros Hm Hk. apply (yields_bind 0 n (λ _, True)); [by apply yields_safe|done]. Qed.

Lemma http_error_ok i c m : error_ok (EHttpError i c m).
Proof. done. Qed.

Lemma check_response_yields d worker response use_range start :
  yields 0 (λ o, ∀ e, o = Some e → end_ok e) (check_response rfc2822_delay d worker response use_range start).
Proof.
  unfold check_response, classify_terminal_http_error. case_bool_decide.
  - apply yields_stop. by split.
  - destruct (should_retry_http_status _).
    + apply yields_ret. by intros e [= <-].
    + destruct (validate_response _ _ _ _ _); apply yields_ret; by intros ? [= <-].
Qed.

Lemma build_request_error d worker task start use_range e :
  build_request d worker task start use_range = Err e → error_ok e.
Proof.
  destruct d; simpl; [|by intros [= <-]]. unfold http_build_request.
  destruct (apply_http_request_options _ _) as [r|e'] eqn:E; cbn [result_bind].
  - destruct (_ && _)%bool; [|done]. destruct (_ <? _); [|done]. by destruct (resume_validator _).
  - intros [= <-]. revert E. unfold apply_http_request_options. generalize (mk_http_request GET (src_locator (w_source worker)) [] None).
    generalize (headers (unwrap_or (t_http_request task) (src_request (w_source worker)))). intros hs.
    assert (∀ b, match apply_headers hs b with Err x => error_ok x | Ok _ => True end) as Hh.
    { induction hs as [|h hs IH]; intros b; simpl; [done|]. destruct (header_name_error _); [done|].
      destruct (header_value_error _); [done|]. apply IH. }
    intros b E. specialize (Hh b). destruct (apply_headers hs b); simpl in E; [done|]. congruence.
Qed.

Lemma transfer_yields d worker response use_range start expected :
  yields 0 end_ok (transfer_response config elapsed d worker response use_range start expected).
Proof.
  unfold transfer_response. apply yields_after; [apply safe_gets|]. intros n.
  apply yields_after; [by apply safe_modify|]. intros [].
  apply (yields_bind 0 0 (λ r, match r with Err e => error_ok e | Ok _ => True end)).
  { intros s. unfold catch. destruct (safe_stream d response use_range start s) as [Hq He].
    destruct (stream_response _ _ _ _ _ _ s) as [[a|[e| | |]] s1]; simpl in *; rewrite Hq; (split; [lia|]); try done.
    destruct He as [_ He]. intros f m ->. by destruct (He f m). }
  intros [[]|e] Hr; [|by apply yields_ret].
  apply yields_after; [apply safe_stopping|]. intros stop. destruct stop.
  { apply yields_stop, returns_ok. }
  apply yields_after; [apply safe_flush|]. intros []. apply yields_after; [apply safe_gets|]. intros k.
  apply yields_after.
  { apply safe_ask. intros e. unfold validate_downloaded_length. destruct (negb _); [done|].
    destruct (negb _); [|done]. by intros [= <-]. }
  intros []. apply yields_after; [|intros []; by apply yields_ret].
  apply safe_when. unfold on_worker, on_task. apply safe_bind; [by apply safe_modify|]. intros ?. by apply safe_modify.
Qed.

Lemma attempt_yields expected :
  yields 1 end_ok (attempt_download config server elapsed rfc2822_delay expected).
Proof.
  unfold attempt_download. apply yields_after; [apply safe_gets|]. intros source.
  apply yields_after; [apply safe_stopping|]. intros stop. destruct stop.
  { apply yields_stop, returns_ok. }
  apply yields_after; [apply safe_wait|]. intros resumed. destruct resumed; cbn [negb].
  2: { apply yields_stop, returns_ok. }
  apply yields_after; [apply safe_gets|]. intros worker.
  apply yields_after; [apply safe_gets|]. intros ranges.
  apply yields_after; [by apply safe_when, safe_modify|]. intros [].
  apply yields_after; [apply safe_gets|]. intros task.
  destruct (build_request _ _ _ _ _) as [request|e] eqn:E.
  2: { apply yields_ret. by eapply build_request_error. }
  apply (yields_bind 1 0 (λ _, True)).
  { intros s. simpl. rewrite length_app. simpl. split; [lia|done]. }
  intros [response|e] _; [|by apply yields_ret].
  eapply (yields_bind 0 0); [apply check_response_yields|]. intros [e|] He.
  { apply yields_ret. by apply He. }
  apply yields_after; [by apply safe_when, safe_modify|]. intros []. apply transfer_yields.
Qed.

Lemma retry_yields retry_count err delay :
  error_ok err →
  yields 0 (λ n, retry_count < max_retries (retry config) ∧ n = wrap32 (retry_count + 1))
    (retry_or_fail_with_delay config retry_count err delay).
Proof.
  intros He. unfold retry_or_fail_with_delay.
  apply yields_after; [by apply safe_modify|]. intros [].
  apply yields_after; [apply safe_gets|]. intros src.
  apply yields_after; [by apply safe_modify|]. intros [].
  apply yields_after; [apply safe_gets|]. intros fallback.
  apply yields_after. { destruct fallback; [by apply safe_when, safe_modify|apply safe_ret]. }
  intros [].
  assert (∀ m, (m = match next_retry_delay (retry config) retry_count with
    | None => fails err
    | Some d => on_stats record_retry ;;;
        modify (λ w, w <| rw_delays ::= λ l, l ++ [match delay with Some x => Z.max d x | None => d end] |>) ;;;
        ret (wrap32 (retry_count + 1))
    end) →
    yields 0 (λ n, retry_count < max_retries (retry config) ∧ n = wrap32 (retry_count + 1)) m) as Hm.
  { intros m ->. unfold next_retry_delay. destruct (max_retries (retry config) <=? retry_count) eqn:E; bool_hyps.
    - apply yields_stop. split; [done|]. intros f x [=]. by eapply He.
    - apply yields_after; [by apply safe_modify|]. intros [].
      apply yields_after; [by apply safe_modify|]. intros []. by apply yields_ret. }
  destruct err; try (exfalso; by eapply He); by apply Hm.
Qed.

(** The loop ends within the retries that are left. *)
Lemma download_loop_yields fuel retry_count expected :
  0 ≤ retry_count → is_u32 (max_retries (retry config)) →
  (Z.to_nat (max_retries (retry config) - retry_count) < fuel)%nat →
  yields (S (Z.to_nat (max_retries (retry config) - retry_count))) (λ _, True)
    (download_loop config server elapsed rfc2822_delay fuel retry_count expected).
Proof.
  revert retry_count. induction fuel as [|fuel IH]; intros retry_count Hr Hm Hf; [lia|].
  cbn [download_loop]. set (n := Z.to_nat (max_retries (retry config) - retry_count)) in *.
  change (S n) with (1 + n)%nat. apply (yields_bind 1 n end_ok); [apply attempt_yields|].
  intros [|err delay] He; [by apply yields_ret|].
  apply (yields_bind 0 n _ _ _ _ (retry_yields retry_count err delay He)).
  intros k [Hlt ->]. rewrite wrap32_small by (unfold_int; lia).
  assert (n = S (Z.to_nat (max_retries (retry config) - (retry_count + 1)))) as -> by lia.
  apply IH; [lia|done|lia].
Qed.

Lemma run_loop_yields s :
  is_u32 (max_retries (retry config)) →
  let '(r, s') := run_download_loop config server elapsed rfc2822_delay s in
  (length (rw_requests s') ≤ length (rw_requests s) + S (Z.to_nat (max_retries (retry config))))%nat ∧
  match r with Err e => stop_ok e | Ok _ => True end.
Proof.
  intros Hm. set (n := S (Z.to_nat (max_retries (retry config)))).
  assert (yields n (λ _ : unit, True) (run_download_loop config server elapsed rfc2822_delay)) as Hy.
  2: { specialize (Hy s). by destruct (run_download_loop _ _ _ _ s) as [[]]. }
  assert (safe finish_success) as Hfin.
  { unfold finish_success, the_worker, on_task, on_stats, worker_set_status, on_worker, emit_worker_event.
    solve_safe. }
  unfold run_download_loop. apply yields_after.
  { unfold prepare_run_state. apply safe_bind; [apply safe_gets|]. intros st.
    assert (safe (worker_set_status Running ;;; (let! id := the_worker w_id in
      emit_worker_event (EvStart id) ;;; ret true))) as Hgo.
    { unfold worker_set_status, on_worker, the_worker, emit_worker_event. solve_safe. }
    destruct st; try exact Hgo; try (by apply safe_fails).
    all: solve_safe. }
  intros ready. destruct ready; cbn [negb]; [|by apply yields_stop, returns_ok].
  apply yields_after; [apply safe_gets|]. intros worker. cbv zeta. destruct (_ && _)%bool.
  { by apply yields_safe. }
  apply yields_after; [by apply safe_modify|]. intros [].
  rewrite <- (Nat.add_0_r n). apply (yields_bind n 0 (λ _, True)).
  - pose proof (download_loop_yields (loop_fuel config) 0 (expected_length worker)) as Hl.
    rewrite Z.sub_0_r in Hl. apply Hl; [lia|done|]. unfold loop_fuel. lia.
  - intros [] _. by apply yields_safe.
Qed.

(** C5. A run of a worker always comes to an end, unless it waits to be resumed:
    it sends at most one request more than the configured retries, whatever the
    server answers and whatever is done to the worker meanwhile.  And although
    the code singles out resumptions that the server has invalidated, to give up
    on them at once, a run never fails with that error: it is wrapped as an HTTP
    error on its way and is retried like any other. *)
Theorem worker_start_ends s :
  is_u32 (max_retries (retry config)) →
  let '(r, s') := worker_start config server elapsed rfc2822_delay s in
  r ≠ Err NoFuel ∧ (∀ f m, r ≠ Err (Fails (EResumeInvalidated f m))) ∧
  (length (rw_requests s') ≤ length (rw_requests s) + S (Z.to_nat (max_retries (retry config))))%nat.
Proof.
  intros Hm. unfold worker_start. destruct (w_is_running (rw_worker s)).
  { split_and!; [done|done|lia]. }
  pose proof (run_loop_yields (s <| rw_worker ::= λ w, w <| w_is_running := true |> |>) Hm) as Hr.
  destruct (run_download_loop _ _ _ _ _) as [r s1]. destruct Hr as [Hn He].
  change (rw_requests (s <| rw_worker ::= λ w, w <| w_is_running := true |> |>)) with (rw_requests s) in Hn.
  destruct r as [[]|[e| | |]].
  - split_and!; [done|done|exact Hn].
  - split_and!; [done| |exact Hn]. intros f m [=]. subst e. by destruct He as [_ He]; destruct (He f m).
  - split_and!; [done|done|exact Hn].
  - split_and!; [done|done|exact Hn].
  - by destruct He as [He _].
Qed.
End run.

(** ** What is written *)

(** The parts of the state that a transfer depends on. *)
Definition core (s : run_world) :=
  (rw_payload s, w_start (rw_worker s), w_end (rw_worker s), w_length_known (rw_worker s),
   w_downloaded_size (rw_worker s), t_payload_store (rw_task s), t_range_requests_supported (rw_task s)).
(** They stay, and the worker does not become complete. *)
Definition same_core (s s' : run_world) : Prop :=
  core s' = core s ∧
  (w_status (rw_worker s) ≠ Completed → w_status (rw_worker s') ≠ Completed).
#[local] Instance same_core_refl : Reflexive same_core.
Proof. done. Qed.
#[local] Instance same_core_trans : Transitive same_core.
Proof. intros s1 s2 s3 [H1 K1] [H2 K2]. split; [congruence|auto]. Qed.
Abbreviation calm := (keeps same_core).

Lemma calm_modify f : (∀ s, same_core s (f s)) → calm (modify (E:=run_stop) f).
Proof. intros Hf s. apply Hf. Qed.
Lemma calm_bind {A B} (m : run A) (k : A → run B) :
  calm m → (∀ a, calm (k a)) → calm (eff_bind m k).
Proof. intros Hm Hk. exact (keeps_bind same_core m k Hm Hk). Qed.
Lemma calm_ret {A} (a : A) : calm (ret (E:=run_stop) a).
Proof. done. Qed.
Lemma calm_throw {A} e : calm (throw (E:=run_stop) (A:=A) e).
Proof. done. Qed.
Lemma calm_lift {A} (r : result A run_stop) : calm (lift r).
Proof. done. Qed.
Lemma calm_gets {A} (f : run_world → A) : calm (gets (E:=run_stop) f).
Proof. done. Qed.
Lemma calm_when b (m : run unit) : calm m → calm (when b m).
Proof. by destruct b. Qed.

Create HintDb run_calm.
#[export] Hint Resolve calm_modify calm_ret calm_throw calm_lift calm_gets calm_when : run_calm.
#[export] Hint Extern 1 (same_core _ _) => (split; [reflexivity|simpl; done]) : run_calm.
Ltac calm_step :=
  match goal with
  | |- calm (eff_bind _ _) => apply calm_bind; [|intros ?]
  | |- calm (match ?x with _ => _ end) => destruct x
  | |- calm _ => solve [eauto with run_calm]
  end.
Ltac solve_calm :=
  unfold the_worker, the_task, on_worker, on_task, on_stats, worker_set_status, emit_worker_event,
    ask, fails in *;
  repeat (cbv beta zeta; calm_step).

Lemma calm_poll : calm poll.
Proof.
  intros s. unfold poll. destruct (rw_signals s) as [|batch rest]; [done|].
  assert (calm (for_each apply_signal batch)) as Hs.
  2: { destruct (Hs (s <| rw_signals := rest |>)) as [E K]. split; [|exact K].
    etransitivity; [exact E|reflexivity]. }
  apply keeps_for_each; [apply _..|]. intros a t. unfold apply_signal.
  unfold worker_pause, worker_resume, worker_cancel, worker_delete.
  destruct a; simpl; repeat case_match; simplify_eq/=; split; simpl; try done; congruence.
Qed.
#[export] Hint Resolve calm_poll : run_calm.
Lemma calm_stopping : calm stopping.
Proof. unfold stopping. solve_calm. Qed.
Lemma calm_wait_loop n : calm (wait_loop n).
Proof. induction n as [|n IH]; cbn [wait_loop]; solve_calm. Qed.
Lemma calm_wait : calm wait_until_resumed.
Proof. intros s. apply calm_wait_loop. Qed.
#[export] Hint Resolve calm_stopping calm_wait : run_calm.
Lemma calm_flush : calm progress_flush.
Proof. unfold progress_flush, emit_progress. solve_calm. Qed.
#[export] Hint Resolve calm_flush : run_calm.

(** The bytes of a body up to its first error. *)
Fixpoint received (body : list (result bytes string)) : bytes :=
  match body with
  | Ok chunk :: body => chunk ++ received body
  | _ => []
  end.

Lemma chunks_concat n data : (0 < n)%nat → concat (chunks n data) = data.
Proof.
  intros Hn. unfold chunks. assert (∀ fuel l, (length l ≤ fuel)%nat →
    concat (chunks_loop fuel n l) = l) as Hl; [|by apply Hl].
  clear data. induction fuel as [|fuel IH]; intros l Hf.
  - destruct l; [done|simpl in Hf; lia].
  - destruct l as [|a l]; [done|]. change (chunks_loop (S fuel) n (a :: l)) with
      (take n (a :: l) :: chunks_loop fuel n (drop n (a :: l))). cbn [concat].
    rewrite IH; [apply take_drop|]. rewrite length_drop. simpl in *. lia.
Qed.

(** A response is let through that has the range asked for. *)
Lemma let_through `{HttpLib} rfc2822_delay d worker response off s s' :
  check_response rfc2822_delay d worker response true off s = (Ok None, s') →
  s' = s ∧ d = HttpTransferDriver ∧ rs_status response = 206 ∧
  ∃ text range, header "content-range" response = Some (HText text) ∧ parse_content_range text = Some range ∧
    cr_start range = off ∧ cr_end range = w_end worker.
Proof.
  unfold check_response.
  destruct (classify_terminal_http_error _ _); [done|]. destruct (should_retry_http_status _); [done|].
  destruct d; [|done]. cbn [validate_response]. unfold http_validate_response.
  destruct (_ && _)%bool; [done|]. destruct (rs_status response =? 206) eqn:E; [|done]. bool_hyps.
  destruct (header "content-range" response) as [[text|]|] eqn:Eh; try done. cbn.
  destruct (parse_content_range text) as [range|] eqn:Er; [|done]. cbn.
  destruct (negb (cr_start range =? off) || negb (cr_end range =? w_end worker))%bool eqn:En; [done|].
  cbn. intros [= <-]. apply orb_false_iff in En as [E1%negb_false_iff E2%negb_false_iff].
  apply Z.eqb_eq in E1, E2. split_and!; [done..|]. by exists text, range.
Qed.

(** A range that starts with [data]. *)
Lemma slice_advance (l data rest : bytes) a c :
  0 ≤ a ≤ c → c ≤ zlen l → slice l a c = data ++ rest →
  slice l a (a + zlen data) = data ∧ slice l (a + zlen data) c = rest ∧ a + zlen data ≤ c.
Proof.
  intros Ha Hc E. pose proof (zlen_nonneg data). pose proof (zlen_nonneg rest).
  assert (zlen data + zlen rest = c - a) as Hlen by (rewrite <- zlen_app, <- E; apply zlen_slice; lia).
  assert (slice l a (a + zlen data) ++ slice l (a + zlen data) c = data ++ rest) as Hs
    by (rewrite <- E; apply slice_split; lia).
  apply app_inj_1 in Hs as [-> ->]; [split_and!; [done|done|lia]|].
  pose proof (zlen_slice l a (a + zlen data) ltac:(lia) ltac:(lia)). unfold zlen in *. lia.
Qed.

Section transfer.
Context `{HttpLib} (config : Config) (server : nat → Request → result Response string)
  (elapsed : Z → bool) (rfc2822_delay : string → option Z).
(** A worker of the range from [start] to [stop] of the resource [R]. *)
Context (fm : FileMap) (inos : list positive) (R : bytes) (start stop : Z).
Hypothesis fm_wf : file_map_wf fm.
Hypothesis R_length : zlen R = Payload.total_size fm.
Hypothesis range_ok : 0 ≤ start ≤ stop ∧ stop < zlen R.

(** What the server answers with a range are bytes of the resource. *)
Definition serves (server : nat → Request → result Response string) : Prop :=
  ∀ n request response text range, server n request = Ok response → rs_status response = 206 →
    header "content-range" response = Some (HText text) → parse_content_range text = Some range →
    received (rs_body response) `prefix_of` slice R (cr_start range) (cr_end range + 1).
Hypothesis server_ok : serves server.

Definition have (s : run_world) : Z := w_downloaded_size (rw_worker s).

(** The payload is [orig] with the bytes the worker has counted, from its start
    on, replaced by the resource's. *)
Definition worker_inv (orig : bytes) (s : run_world) : Prop :=
  w_start (rw_worker s) = start ∧ w_end (rw_worker s) = stop ∧
  w_length_known (rw_worker s) = true ∧ 0 ≤ have s ≤ stop - start + 1 ∧
  t_payload_store (rw_task s) = Some fm ∧ t_range_requests_supported (rw_task s) = true ∧
  w_status (rw_worker s) ≠ Completed ∧
  ∃ cs, store_holds (rw_payload s) (segments fm) inos cs ∧
    concat cs = splice start (slice R start (start + have s)) orig.

Context (orig : bytes).
Hypothesis orig_length : zlen orig = zlen R.
Abbreviation inv := (worker_inv orig).

Lemma inv_core s s' : inv s → same_core s s' → inv s'.
Proof.
  intros Hs [E K]. unfold worker_inv, have in *. unfold core in E.
  injection E as E1 E2 E3 E4 E5 E6 E7. rewrite E1, E2, E3, E4, E5, E6, E7. naive_solver.
Qed.

Lemma calm_inv {A} (m : run A) : calm m → triple inv m (λ _, inv) (λ _, inv).
Proof. intros Hm. eapply triple_keeps; [exact Hm|]. apply inv_core. Qed.

(** ... and whatever else is known of the core. *)
Lemma calm_core {A} (m : run A) (P : Z → Prop) :
  calm m → triple (λ s, inv s ∧ P (have s)) m (λ _ s, inv s ∧ P (have s)) (λ _, inv).
Proof.
  intros Hm s [Hs Hp]. specialize (Hm s). destruct (m s) as [[a|e] s']; simpl in Hm.
  - split; [by eapply inv_core|]. unfold have in *. destruct Hm as [Hm _]. unfold core in Hm. congruence.
  - by eapply inv_core.
Qed.

Lemma total_u64 : zlen R ≤ u64_max.
Proof. rewrite R_length. pose proof (fw_total _ fm_wf) as Ht. unfold is_u64 in Ht. lia. Qed.

(** Writing the next bytes of the resource. *)
Lemma write_next data s :
  inv s → data `prefix_of` slice R (start + have s) (stop + 1) →
  ∃ p, write_at fm (start + have s) data (rw_payload s) = (Ok tt, p) ∧
    inv (s <| rw_payload := p |>
           <| rw_worker ::= λ w, w <| w_downloaded_size ::= λ n, wrap64 (n + zlen data) |> |>) ∧
    have s + zlen data ≤ stop - start + 1.
Proof.
  intros (E1 & E2 & E3 & Hd & E5 & E6 & E7 & cs & Hh & Hc) [rest Hp].
  pose proof total_u64. pose proof (zlen_nonneg data).
  destruct (slice_advance R data rest (start + have s) (stop + 1) ltac:(lia) ltac:(lia) Hp) as (Hdata & _ & Hle).
  destruct (write_at_ok fm (rw_payload s) inos cs (start + have s) data fm_wf Hh ltac:(lia))
    as (p & cs' & Hw & Hh' & Hc' & _); [rewrite <- R_length; lia|].
  exists p. split; [exact Hw|]. split; [|lia].
  assert (have (s <| rw_payload := p |>
    <| rw_worker ::= λ w, w <| w_downloaded_size ::= λ n, wrap64 (n + zlen data) |> |>) =
    have s + zlen data) as Hhave.
  { unfold have. simpl. unfold have in *. apply wrap64_small. unfold_int. lia. }
  unfold worker_inv. rewrite Hhave.
  split_and!; [exact E1|exact E2|exact E3|lia|lia|exact E5|exact E6|exact E7|].
  exists cs'. split; [exact Hh'|]. rewrite Hc', Hc.
  rewrite Z.add_assoc. rewrite <- (slice_split R start (start + have s) (start + have s + zlen data)) by lia.
  rewrite Hdata.
  rewrite <- splice_splice by (rewrite ?zlen_slice by lia; lia).
  rewrite zlen_slice by lia. f_equal. lia.
Qed.

Lemma slices_triple slices off :
  triple (λ s, inv s ∧ off = start + have s ∧ concat slices `prefix_of` slice R off (stop + 1))
    (stream_slices config elapsed fm slices off)
    (λ o s, inv s ∧ ∀ off', o = Some off' → off' = off + zlen (concat slices) ∧ off' = start + have s)
    (λ _, inv).
Proof.
  revert off. induction slices as [|data slices IH]; intros off; cbn [stream_slices].
  { apply triple_ret. intros s (Hs & Ho & _). split; [done|]. intros ? [= <-].
    change (zlen (concat [])) with 0. lia. }
  eapply triple_bind.
  { intros s (Hs & Ho & Hp).
    exact (calm_core stopping (λ d, off = start + d ∧ concat (data :: slices) `prefix_of` slice R off (stop + 1))
      calm_stopping s (conj Hs (conj Ho Hp))). }
  intros stopped. destruct stopped.
  { apply triple_ret. intros s [Hs _]. split; [done|]. done. }
  eapply triple_bind.
  { apply (calm_core wait_until_resumed (λ d, off = start + d ∧
      concat (data :: slices) `prefix_of` slice R off (stop + 1)) calm_wait). }
  intros resumed. destruct resumed; cbn [negb].
  2: { apply triple_ret. intros s [Hs _]. split; [done|]. done. }
  cbv zeta. intros s (Hs & -> & Hp).
  assert (data `prefix_of` slice R (start + have s) (stop + 1)) as Hd.
  { etrans; [|exact Hp]. cbn [concat]. by apply prefix_app_r. }
  destruct (write_next data s Hs Hd) as (p & Hw & Hs1 & Hle).
  assert (write_payload fm (start + have s) data s = (Ok tt, s <| rw_payload := p |>)) as Hw1.
  { unfold write_payload. by rewrite Hw. }
  rewrite (eff_bind_ok _ _ _ _ _ Hw1).
  set (s1 := s <| rw_payload := p |>
    <| rw_worker ::= λ w, w <| w_downloaded_size ::= λ n, wrap64 (n + zlen data) |> |>) in Hs1.
  change (match (eff_bind (maybe_emit config elapsed)
      (λ _, stream_slices config elapsed fm slices (sat_add (start + have s) (zlen data)))) s1 with
    | (Ok a, s') => inv s' ∧ ∀ off', a = Some off' →
        off' = start + have s + zlen (concat (data :: slices)) ∧ off' = start + have s'
    | (Err _, s') => inv s' end).
  assert (have s1 = have s + zlen data) as Hhave.
  { destruct Hs1 as (_ & _ & _ & Hb & _). unfold have, s1 in *. simpl in *.
    apply wrap64_small. pose proof total_u64. pose proof (zlen_nonneg data).
    destruct Hs as (_ & _ & _ & Hb' & _). unfold have in Hb'. unfold_int. lia. }
  pose proof total_u64. pose proof (zlen_nonneg data). assert (0 ≤ have s) by apply Hs.
  rewrite sat_add_exact by lia.
  assert (calm (maybe_emit config elapsed)) as Hm.
  { unfold maybe_emit. solve_calm. }
  pose proof (calm_core (maybe_emit config elapsed) (λ d, d = have s + zlen data) Hm s1
    (conj Hs1 Hhave)) as Hme.
  unfold eff_bind. destruct (maybe_emit config elapsed s1) as [[u|e] s2]; [|exact Hme].
  destruct Hme as [Hs2 Hh2]. cbv beta in Hh2.
  assert (start + have s + zlen data = start + have s2) as Hoff by lia.
  specialize (IH (start + have s + zlen data) s2).
  assert (concat slices `prefix_of` slice R (start + have s + zlen data) (stop + 1)) as Hp2.
  { destruct Hp as [rest Hp]. cbn [concat] in Hp. rewrite <- app_assoc in Hp.
    destruct Hs as (_ & _ & _ & Hb & _).
    destruct (slice_advance R data _ (start + have s) (stop + 1) ltac:(lia) ltac:(lia) Hp) as (_ & -> & _).
    by exists rest. }
  specialize (IH (conj Hs2 (conj Hoff Hp2))).
  destruct (stream_slices _ _ _ slices _ s2) as [[o|e] s3]; [|exact IH].
  destruct IH as [Hs3 IH]. split; [done|]. intros off' ->. destruct (IH off' eq_refl) as [-> ?].
  cbn [concat]. rewrite zlen_app. split; lia.
Qed.

Definition expects (off : Z) (data : bytes) (d : Z) : Prop :=
  off = start + d ∧ data `prefix_of` slice R off (stop + 1).

Lemma stream_triple body off :
  triple (λ s, inv s ∧ expects off (received body) (have s))
    (stream_chunks config elapsed fm body off) (λ _, inv) (λ _, inv).
Proof.
  revert off. induction body as [|chunk body IH]; intros off; cbn [stream_chunks].
  { apply triple_ret. by intros s [Hs _]. }
  eapply triple_bind; [apply (calm_core stopping (expects off _) calm_stopping)|].
  intros stopped. destruct stopped. { apply triple_ret. by intros s [Hs _]. }
  eapply triple_bind; [apply (calm_core wait_until_resumed (expects off _) calm_wait)|].
  intros resumed. destruct resumed; cbn [negb]. 2: { apply triple_ret. by intros s [Hs _]. }
  eapply triple_bind; [apply (calm_core (the_worker w_id) (expects off _)); solve_calm|]. intros id.
  destruct chunk as [data|err].
  2: { intros s [Hs _]. exact Hs. }
  cbn [result_map_err received].
  eapply triple_bind with (R := λ a s, a = data ∧ inv s ∧ expects off (data ++ received body) (have s)).
  { intros s Hs. split; [done|exact Hs]. }
  intros a. eapply triple_bind with (R := λ o s, inv s ∧ ∀ off', o = Some off' →
    expects off' (received body) (have s)).
  - intros s (-> & Hs & -> & Hp).
    pose proof (slices_triple (chunks RATE_LIMIT_SLICE_BYTES data) (start + have s) s) as Hsl.
    rewrite chunks_concat in Hsl by (vm_compute; lia).
    destruct (stream_slices _ _ _ _ _ s) as [[o|e] s'].
    + destruct Hsl as [Hs' Ho]. { split; [done|]. split; [done|]. etrans; [|exact Hp]. by apply prefix_app_r. }
      split; [done|]. intros off' E. destruct (Ho off' E) as [Eo Eh]. split; [done|].
      destruct Hp as [rest Hp]. rewrite <- app_assoc in Hp. destruct Hs as (_ & _ & _ & Hb & _).
      destruct (slice_advance R data _ (start + have s) (stop + 1) ltac:(lia) ltac:(lia) Hp)
        as (_ & Hr & _). rewrite Eo, Hr. by exists rest.
    + apply Hsl. split; [done|]. split; [done|]. etrans; [|exact Hp]. by apply prefix_app_r.
  - intros [off'|]; [|apply triple_ret; by intros s [Hs _]].
    intros s [Hs Ho]. apply (IH off' s). split; [done|]. by apply Ho.
Qed.

(** The whole range. *)
Definition complete (s : run_world) : Prop := inv s ∧ have s = stop - start + 1.

Lemma expected_here s : inv s → expected_length (rw_worker s) = stop - start + 1.
Proof.
  intros (E1 & E2 & E3 & _). unfold expected_length. rewrite E3, E1, E2. cbn [negb].
  pose proof total_u64. unfold_int. lia.
Qed.

Lemma transfer_triple worker response off :
  w_length_known worker = true →
  triple (λ s, inv s ∧ expects off (received (rs_body response)) (have s))
    (transfer_response config elapsed HttpTransferDriver worker response true off (stop - start + 1))
    (λ e s, inv s ∧ (e = Finished → complete s)) (λ _, inv).
Proof.
  intros Hk. unfold transfer_response.
  eapply triple_bind; [apply (calm_core (the_worker w_downloaded_size) (expects off _)); solve_calm|].
  intros n. cbv zeta.
  eapply triple_bind; [apply (calm_core (on_worker _) (expects off (received (rs_body response)))); solve_calm|].
  intros u. eapply triple_bind with (R := λ _, inv).
  { intros s [Hs He]. unfold catch. cbn [stream_response].
    assert (triple (λ s, inv s ∧ expects off (received (rs_body response)) (have s))
      (http_stream_response config elapsed response true off) (λ _, inv) (λ _, inv)) as Ht.
    { unfold http_stream_response.
      eapply triple_bind with (R := λ o s, o = Some fm ∧ inv s ∧ expects off (received (rs_body response)) (have s)).
      { apply triple_gets. intros t [Ht He']. split_and!; try done. apply Ht. }
      intros o. eapply triple_bind with (R := λ _ s, o = Some fm ∧ inv s ∧ expects off (received (rs_body response)) (have s)).
      { by apply triple_gets. }
      intros i. eapply triple_bind with (R := λ m s, m = fm ∧ inv s ∧ expects off (received (rs_body response)) (have s)).
      { apply triple_lift. by intros t (-> & Ht & He'). }
      intros m. eapply triple_bind with (R := λ _ s, m = fm ∧ inv s ∧ expects off (received (rs_body response)) (have s)).
      { by apply triple_gets. }
      intros st t (-> & Ht & He'). by apply stream_triple. }
    specialize (Ht s (conj Hs He)).
    destruct (http_stream_response _ _ _ _ _ s) as [[[]|[e| | |]] s']; exact Ht. }
  intros [[]|e]. 2: { apply triple_ret. intros s Hs. by split. }
  eapply triple_bind; [apply calm_inv, calm_stopping|]. intros stopped. destruct stopped.
  { by apply triple_throw. }
  eapply triple_bind; [apply calm_inv, calm_flush|]. intros v.
  eapply triple_bind with (R := λ n s, n = have s ∧ inv s). { apply triple_gets. by intros s Hs. }
  intros m. eapply triple_bind with (R := λ _ s, m = stop - start + 1 ∧ m = have s ∧ inv s).
  { apply triple_lift. intros s [-> Hs]. unfold validate_downloaded_length. rewrite Hk. cbn [negb].
    destruct (have s =? stop - start + 1) eqn:E; cbn; [|exact Hs]. bool_hyps. done. }
  intros x. rewrite Hk. cbn [negb when].
  apply triple_bind with (R := λ _, complete).
  { apply triple_ret. intros s (E1 & E2 & Hs). split; [done|]. congruence. }
  intros y. apply triple_ret. intros s Hs. split; [apply Hs|done].
Qed.

(** A response that is let through is a part of the resource. *)
Lemma check_response_inv d worker response off s s' n request :
  check_response rfc2822_delay d worker response true off s = (Ok None, s') →
  w_end worker = stop → server n request = Ok response →
  s' = s ∧ d = HttpTransferDriver ∧ received (rs_body response) `prefix_of` slice R off (stop + 1).
Proof.
  intros Hc He Hsrv. destruct (let_through _ _ _ _ _ _ _ Hc)
    as (-> & -> & Hst & text & range & Hh & Hr & <- & Hend). split_and!; [done..|].
  rewrite <- He, <- Hend. by eapply server_ok.
Qed.

Lemma attempt_triple :
  triple inv (attempt_download config server elapsed rfc2822_delay (stop - start + 1))
    (λ e s, inv s ∧ (e = Finished → complete s)) (λ _, inv).
Proof.
  unfold attempt_download. eapply triple_bind; [apply calm_inv; solve_calm|]. intros source.
  eapply triple_bind; [apply calm_inv, calm_stopping|]. intros stopped. destruct stopped.
  { by apply triple_throw. }
  eapply triple_bind; [apply calm_inv, calm_wait|]. intros resumed. destruct resumed; cbn [negb].
  2: { by apply triple_throw. }
  eapply triple_bind with (R := λ w s, w = rw_worker s ∧ inv s). { by apply triple_gets. }
  intros worker s [-> Hs]. pose proof Hs as (E1 & E2 & E3 & Hd & E5 & E6 & _).
  unfold the_task at 1. unfold eff_bind at 1, gets at 1. rewrite E6, E3. cbn [andb].
  pose proof total_u64. fold (have s). rewrite E1. rewrite (sat_add_exact start) by lia.
  set (d := driver_for_source source).
  assert (triple (λ t, inv t ∧ have t = have s) (when (start <? start + have s) (on_stats record_resume_attempt))
    (λ _ t, inv t ∧ have t = have s) (λ _, inv)) as Hw.
  { apply (calm_core _ (λ n, n = have s)). apply calm_when. solve_calm. }
  cbn [andb]. specialize (Hw s (conj Hs eq_refl)).
  unfold eff_bind at 1. destruct (when _ _ s) as [[u|e] s1]; [|exact Hw]. destruct Hw as [Hs1 Hh1].
  unfold the_task at 1. unfold eff_bind at 1, gets at 1.
  destruct (build_request _ _ _ _ _) as [request|e]. 2: { by split. }
  unfold eff_bind at 1, send_request. destruct (server _ request) as [response|e] eqn:Esrv. 2: { split; [|done]. by eapply inv_core. }
  set (s2 := s1 <| rw_requests ::= λ l, l ++ [request] |>).
  assert (inv s2) as Hs2 by (by eapply inv_core).
  assert (have s2 = have s) as Hh2 by exact Hh1.
  unfold eff_bind at 1. destruct (check_response _ d (rw_worker s) response true _ s2) as [[o|e] s3] eqn:Ec.
  2: { revert Ec. unfold check_response. destruct (classify_terminal_http_error _ _); [by intros [= _ <-]|].
       destruct (should_retry_http_status _); [done|]. by destruct (validate_response _ _ _ _ _). }
  destruct o as [o|].
  { assert (s3 = s2 ∧ o ≠ Finished) as [-> Ho].
    { revert Ec. unfold check_response. destruct (classify_terminal_http_error _ _); [done|].
      destruct (should_retry_http_status _); [by intros [= <- <-]|].
      destruct (validate_response _ _ _ _ _); [done|]. by intros [= <- <-]. }
    by split. }
  destruct (check_response_inv _ _ _ _ _ _ _ _ Ec E2 Esrv) as (-> & Hdrv & Hpre). rewrite Hdrv.
  assert (triple (λ t, inv t ∧ have t = have s) (when (start <? start + have s) (on_stats record_resume_hit))
    (λ _ t, inv t ∧ have t = have s) (λ _, inv)) as Hw2.
  { apply (calm_core _ (λ n, n = have s)). apply calm_when. solve_calm. }
  specialize (Hw2 s2 (conj Hs2 Hh2)).
  unfold eff_bind at 1. destruct (when _ _ s2) as [[v|e] s4]; [|exact Hw2]. destruct Hw2 as [Hs4 Hh4].
  apply transfer_triple; [done|]. split; [done|]. split; [by rewrite Hh4|done].
Qed.

Lemma calm_retry retry_count err delay : calm (retry_or_fail_with_delay config retry_count err delay).
Proof.
  unfold retry_or_fail_with_delay. solve_calm; by destruct (next_retry_delay _ _); solve_calm.
Qed.

Lemma download_loop_triple fuel retry_count :
  triple inv (download_loop config server elapsed rfc2822_delay fuel retry_count (stop - start + 1))
    (λ _, complete) (λ _, inv).
Proof.
  revert retry_count. induction fuel as [|fuel IH]; intros retry_count; cbn [download_loop].
  { by apply triple_throw. }
  eapply triple_bind; [apply attempt_triple|]. intros [|err delay].
  - apply triple_ret. intros s [_ Hs]. by apply Hs.
  - eapply triple_bind with (R := λ _, inv); [|intros n; apply IH].
    intros s [Hs _]. by apply (calm_inv _ (calm_retry retry_count err delay)).
Qed.

(** The payload once the range is written. *)
Definition written (s : run_world) : Prop :=
  ∃ cs, store_holds (rw_payload s) (segments fm) inos cs ∧
    concat cs = splice start (slice R start (stop + 1)) orig.

(** The payload holds what the worker counts, and nothing else is changed. *)
Definition counted (s : run_world) : Prop :=
  0 ≤ have s ≤ stop - start + 1 ∧
  ∃ cs, store_holds (rw_payload s) (segments fm) inos cs ∧
    concat cs = splice start (slice R start (start + have s)) orig.

Lemma inv_counted s s' : inv s → core s' = core s → counted s'.
Proof.
  intros (_ & _ & _ & Hd & _ & _ & _ & cs & Hh & Hc) E. unfold core in E.
  assert (have s' = have s) as Eh by (unfold have; congruence).
  assert (rw_payload s' = rw_payload s) as Ep by congruence.
  split; [by rewrite Eh|]. exists cs. by rewrite Eh, Ep.
Qed.
Lemma counted_written s : counted s → have s = stop - start + 1 → written s.
Proof.
  intros [_ (cs & Hh & Hc)] Hd. exists cs. split; [done|]. rewrite Hc, Hd. do 2 f_equal. lia.
Qed.

Lemma finish_core s : ∃ s', finish_success s = (Ok tt, s') ∧ core s' = core s ∧
  w_status (rw_worker s') = Completed.
Proof. by eexists. Qed.

Lemma run_loop_triple s :
  inv s →
  match run_download_loop config server elapsed rfc2822_delay s with
  | (Ok _, s') => counted s' ∧ have s' = stop - start + 1 ∧ w_status (rw_worker s') = Completed
  | (Err _, s') => inv s'
  end.
Proof.
  intros Hs. unfold run_download_loop.
  assert (calm prepare_run_state) as Hprep.
  { unfold prepare_run_state. solve_calm. }
  assert (∀ t t', complete t → core t' = core t → counted t' ∧ have t' = stop - start + 1) as Hend.
  { intros t t' [Ht Hd] E. split; [by eapply inv_counted|]. rewrite <- Hd. unfold core in E. unfold have. congruence. }
  unfold eff_bind at 1. pose proof (calm_inv _ Hprep s Hs) as H1.
  destruct (prepare_run_state s) as [[[]|e] s1]; cbn [negb]; [|exact H1..].
  unfold the_worker at 1. unfold eff_bind at 1, gets at 1. cbv zeta. rewrite expected_here by done.
  destruct (w_length_known (rw_worker s1) && (stop - start + 1 <=? w_downloaded_size (rw_worker s1)))%bool
    eqn:E.
  - apply andb_true_iff in E as [_ E]. apply Z.leb_le in E. fold (have s1) in E.
    destruct (finish_core s1) as (s2 & -> & Hc & Hst).
    destruct (Hend s1 s2) as [? ?]; [|exact Hc|done]. split; [done|]. destruct H1 as (_ & _ & _ & Hb & _). lia.
  - unfold eff_bind at 1, modify.
    set (s2 := s1 <| rw_last_reported := w_downloaded_size (rw_worker s1) |>).
    assert (inv s2) as H2 by exact H1.
    pose proof (download_loop_triple (loop_fuel config) 0 s2 H2) as Hl. unfold eff_bind.
    destruct (download_loop _ _ _ _ _ _ _ s2) as [[u|e] s3]; [|exact Hl].
    destruct (finish_core s3) as (s4 & -> & Hc & Hst). by destruct (Hend s3 s4 Hl Hc).
Qed.

Lemma start_written s :
  inv s → w_is_running (rw_worker s) = false →
  let '(r, s') := worker_start config server elapsed rfc2822_delay s in
  (w_status (rw_worker s') = Completed → r = Ok tt ∧ have s' = stop - start + 1 ∧ written s') ∧ counted s'.
Proof.
  intros Hs Hrun. unfold worker_start. rewrite Hrun.
  cbv zeta. match goal with |- context [run_download_loop _ _ _ _ ?t] =>
    pose proof (run_loop_triple t Hs) as Hr; revert Hr; generalize (run_download_loop config server elapsed rfc2822_delay t) end.
  intros [[u|[e| | |]] s1] Hr.
  - destruct Hr as (Hk & Hd & Hst). split; [|exact Hk]. intros _. split; [done|]. split; [done|].
    by apply (counted_written s1).
  - simpl. split; [done|]. by eapply (inv_counted s1).
  - split; [|by eapply (inv_counted s1)]. intros Hc. by destruct Hr as (_ & _ & _ & _ & _ & _ & Hr & _).
  - split; [|by eapply (inv_counted s1)]. intros Hc. by destruct Hr as (_ & _ & _ & _ & _ & _ & Hr & _).
  - split; [|by eapply (inv_counted s1)]. intros Hc. by destruct Hr as (_ & _ & _ & _ & _ & _ & Hr & _).
Qed.

(** C2. What a worker with a known range writes is right.  Against a server
    whose partial answers are bytes of the resource, as far as they get, under
    whatever failures, retries, changes of source, pauses and cancellations,
    the worker only ever turns a prefix of its range into the resource's bytes,
    leaving every byte outside its range as it was; how long that prefix is, is
    what it counts as downloaded; and when it is complete, its whole range is
    the resource's. *)
Theorem worker_writes_its_range s :
  inv s → w_is_running (rw_worker s) = false →
  let '(r, s') := worker_start config server elapsed rfc2822_delay s in
  (w_status (rw_worker s') = Completed → r = Ok tt ∧ have s' = stop - start + 1 ∧ written s') ∧ counted s'.
Proof. apply start_written. Qed.
End transfer.

(** ** Examples *)
#[local] Existing Instance example_http.

(** A resource of ten bytes, and a server that is lost after five of the bytes
    from 2 to 8 and serves what is missing of them next. *)
Definition example_resource : bytes := [x30; x31; x32; x33; x34; x35; x36; x37; x38; x39].
Definition ranged (text : string) (body : list (result bytes string)) : Response :=
  mk_response 206 "http://h/f" [("content-range", HText text)] None body.
Definition example_server (n : nat) (request : Request) : result Response string :=
  match n with
  | O => Ok (ranged "bytes 2-8/10" [Ok [x32; x33]; Ok [x34; x35; x36]; Err "reset"])
  | 1%nat => Err "unreachable"
  | _ => Ok (ranged "bytes 7-8/10" [Ok [x37; x38]])
  end.
Definition never_elapsed (n : Z) : bool := false.
Definition no_dates (s : string) : option Z := None.

Definition example_run_task : Task :=
  example_task <| t_payload_store := Some example_file_map |> <| t_range_requests_supported := true |>.
Definition example_run : run_world :=
  mk_run (example_worker 0 2 8 0) example_run_task example_world [] [] [] [] 0.

Lemma example_serves : serves example_resource example_server.
Proof.
  intros n request response text range Hs _ Hh Hr. destruct n as [|[|n]]; simpl in Hs; [| |];
    try discriminate; injection Hs as <-; simpl in Hh; injection Hh as <-;
    vm_compute in Hr; injection Hr as <-; vm_compute; by eexists.
Qed.

Lemma example_run_inv :
  worker_inv example_file_map [1; 2; 3]%positive example_resource 2 8 (concat example_contents) example_run.
Proof.
  split_and!; try reflexivity; try (vm_compute; discriminate).
  exists example_contents. split; [exact example_holds|]. reflexivity.
Qed.

Lemma worker_writes_its_range_witness :
  let '(r, s') := worker_start Config_default example_server never_elapsed no_dates example_run in
  r = Ok tt ∧ ∃ cs, store_holds (rw_payload s') (segments example_file_map) [1; 2; 3]%positive cs ∧
    concat cs = [x00; x00; x32; x33; x34; x35; x36; x37; x38; x00].
Proof.
  pose proof (worker_writes_its_range Config_default example_server never_elapsed no_dates
    example_file_map [1; 2; 3]%positive example_resource 2 8 example_file_map_wf eq_refl
    ltac:(vm_compute; repeat split; congruence) example_serves (concat example_contents) eq_refl
    example_run example_run_inv eq_refl) as H.
  destruct (worker_start Config_default example_server never_elapsed no_dates example_run) as [r s'] eqn:E.
  destruct H as [H _]. assert (w_status (rw_worker s') = Completed) as Hc.
  { pose proof (f_equal (λ p, w_status (rw_worker (snd p))) E) as Es. cbv beta in Es. simpl snd in Es.
    rewrite <- Es. vm_compute. reflexivity. }
  destruct (H Hc) as (-> & _ & cs & Hh & Hcs). split; [reflexivity|]. exists cs. split; [exact Hh|].
  rewrite Hcs. vm_compute. reflexivity.
Defined.

Lemma worker_start_ends_witness :
  let '(r, s') := worker_start Config_default example_server never_elapsed no_dates example_run in
  r ≠ Err NoFuel ∧ (length (rw_requests s') ≤ 4)%nat.
Proof.
  pose proof (worker_start_ends Config_default example_server never_elapsed no_dates example_run
    ltac:(vm_compute; split; congruence)) as H.
  destruct (worker_start Config_default example_server never_elapsed no_dates example_run) as [r s'].
  destruct H as (H1 & _ & H2). split; [exact H1|exact H2].
Defined.

(** *** Retrying without ranges *)

(** A server without ranges that is lost after the third of the five bytes of
    its resource, and serves them all the second time. *)
Definition example_stream (n : nat) (request : Request) : result Response string :=
  match n with
  | O => Ok (mk_response 200 "http://h/f" [] None [Ok [x30; x31; x32]; Err "reset"])
  | _ => Ok (mk_response 200 "http://h/f" [] None [Ok [x30; x31; x32; x33; x34]])
  end.
(** A worker of that resource whose length is known, or not. *)
Definition stream_run (known : bool) (size : Z) : run_world :=
  let fm := mk_file_map [mk_segment "/d/a" 0 size] size known in
  mk_run
    (Worker_new 0 (SpecHttp "http://h/f") (example_source "a" "http://h/f")
       (mk_lane 0 "a" known 0 0 0 0 0 (sat_sub size 1)) None "/d/a" None None 0)
    (example_task <| t_payload_store := Some fm |> <| t_total_size_known := known |>
       <| t_total_size := size |>)
    (mk_world (mk_fs {["/d/a" := NFile 1%positive]} {[1%positive := replicate (Z.to_nat size) x00]})
       {["/d/a" := 1%positive]})
    [] [] [] [] 0.

(** Without ranges a retry starts the resource over but keeps counting from
    where the lost attempt got to.  So after losing three of five bytes, a
    stream of unknown length is finished with a recorded size of eight bytes
    while its file has five, and a payload of known length fails although the
    second attempt delivered it completely. *)
Theorem stream_retry_counts_twice :
  (let '(r, s) := worker_start Config_default example_stream never_elapsed no_dates (stream_run false 0) in
   r = Ok tt ∧ w_status (rw_worker s) = Completed ∧ total_size_option (rw_task s) = Some 8 ∧
   fs_content (pw_fs (rw_payload s)) "/d/a" = Some [x30; x31; x32; x33; x34]) ∧
  (let '(r, s) := worker_start Config_default example_stream never_elapsed no_dates (stream_run true 5) in
   r = Err (Fails (EOther "Worker 0 downloaded length mismatch: expected 5, got 8")) ∧
   fs_content (pw_fs (rw_payload s)) "/d/a" = Some [x30; x31; x32; x33; x34]).
Proof. vm_compute. repeat split. Qed.
