(* ===== verification/WorkerLive.v ===== *)
(** * A worker gets its range
    ([src/src/worker/runtime.rs], [src/src/worker/transfer.rs])

    [WorkerFacts] shows what cannot go wrong in a run; this file shows that a run gets
    somewhere.  A server may fail in every way that the worker retries after, as
    often as the worker retries, and then serves what is asked of it: the worker
    has then completed its range. *)

From S2P Require Import Prelude Text Float Ranges Status Effect Source Piece Files Checksum Manifest Planner Payload Torrent Config Task Probe WorkerRun WorkerFacts.

(** ** What others do that does not end a run *)

Definition gentle (a : signal) : Prop := a ≠ SigCancel ∧ a ≠ SigDelete.
(** Whether the worker is paused once the signals have come. *)
Definition paused_after (signals : list signal) (paused : bool) : bool :=
  fold_left (λ p a, match a with SigPause => true | SigResume => false | _ => p end) signals paused.

(** A source that can be asked for a range with the options of the task. *)
Definition is_range (h : string * string) : bool := String.eqb (fst h) "range".
Definition range_headers (r : Request) : list string := snd <$> filterb is_range (rqm_headers r).

Section live.
Context `{HttpLib}.

Definition usable (t : Task) (x : SourceDescriptor) : Prop :=
  driver_for_source x = HttpTransferDriver ∧
  ∃ request, apply_http_request_options (mk_http_request GET (src_locator x) [] None)
    (unwrap_or (t_http_request t) (src_request x)) = Ok request ∧ range_headers request = [].

(** A run that goes on. *)
Record going (s : run_world) : Prop := {
  go_flags : should_stop_gracefully (rw_worker s) = false;
  go_status : w_status (rw_worker s) = Running ∨ w_status (rw_worker s) = Paused;
  go_gentle : Forall gentle (concat (rw_signals s));
  go_resumed : paused_after (concat (rw_signals s)) (w_paused (rw_worker s)) = false;
  go_source : usable (rw_task s) (w_source (rw_worker s));
  go_sources : Forall (usable (rw_task s)) (active_transfer_sources (t_sources (rw_task s)))
}.

(** Neither its progress nor its requests change. *)
Definition smooth {A} (P : A → Prop) (m : run A) : Prop := ∀ s, going s →
  match m s with
  | (Ok a, s') => P a ∧ going s' ∧ rw_requests s' = rw_requests s
  | (Err _, _) => False
  end.
Abbreviation anything := (λ _, True).

Lemma smooth_at {A} (P : A → Prop) (m : run A) s s1 :
  smooth P m → going s1 → rw_requests s1 = rw_requests s →
  match m s1 with
  | (Ok a, s') => P a ∧ going s' ∧ rw_requests s' = rw_requests s
  | (Err _, _) => False
  end.
Proof. intros Hm Hs <-. by apply Hm. Qed.
Lemma smooth_ret {A} (P : A → Prop) a : P a → smooth P (ret a).
Proof. intros Ha s Hs. by split_and!. Qed.
Lemma smooth_gets {A} (f : run_world → A) : smooth anything (gets f).
Proof. intros s Hs. by split_and!. Qed.
Lemma smooth_modify f : (∀ s, going s → going (f s)) → (∀ s, rw_requests (f s) = rw_requests s) →
  smooth anything (modify f).
Proof. intros Hf Hr s Hs. split_and!; [done|by apply Hf|by apply Hr]. Qed.
Lemma smooth_bind {A B} (P : A → Prop) (Q : B → Prop) (m : run A) k :
  smooth P m → (∀ a, P a → smooth Q (k a)) → smooth Q (eff_bind m k).
Proof.
  intros Hm Hk s Hs. specialize (Hm s Hs). unfold eff_bind. destruct (m s) as [[a|e] s1]; [|done].
  destruct Hm as (Ha & Hs1 & E1). specialize (Hk a Ha s1 Hs1). destruct (k a s1) as [[b|e] s2]; [|done].
  destruct Hk as (Hb & Hs2 & E2). split_and!; [done|done|congruence].
Qed.
Lemma smooth_then {A B} (P : A → Prop) (Q : B → Prop) (m : run A) k :
  smooth P m → (∀ a, smooth Q (k a)) → smooth Q (eff_bind m k).
Proof. intros Hm Hk. eapply smooth_bind; [exact Hm|]. intros a _. apply Hk. Qed.
Lemma smooth_when b m : smooth anything m → smooth anything (when b m).
Proof. intros Hm. destruct b; [exact Hm|by apply smooth_ret]. Qed.

Create HintDb run_smooth.
#[local] Hint Resolve smooth_ret smooth_gets smooth_modify smooth_when : run_smooth.
#[local] Hint Extern 1 (rw_requests _ = rw_requests _) => reflexivity : run_smooth.
#[local] Hint Extern 1 (going _) => (match goal with Hs : going _ |- _ => by destruct Hs end) : run_smooth.
Ltac smooth_step :=
  match goal with
  | |- smooth _ (eff_bind _ _) => eapply smooth_then; [|intros ?]
  | |- smooth _ (match ?x with _ => _ end) => destruct x
  | |- smooth _ _ => solve [eauto with run_smooth]
  end.
Ltac solve_smooth :=
  unfold the_worker, the_task, on_worker, on_task, on_stats, emit_worker_event in *;
  repeat (cbv beta zeta; smooth_step).

(** *** Signals *)

Lemma batch_going batch s :
  going (s <| rw_signals ::= cons batch |>) →
  match for_each apply_signal batch s with
  | (Ok _, s') => going s' ∧ rw_requests s' = rw_requests s ∧ rw_signals s' = rw_signals s
  | (Err _, _) => False
  end.
Proof.
  revert s. induction batch as [|a batch IH]; intros s [Hf Hst Hg Hp Hsrc Hall].
  { by split_and!. }
  cbn in Hg, Hp. apply Forall_cons in Hg as [Ha Hg].
  cbn [for_each]. unfold eff_bind. destruct (apply_signal a s) as [[[]|e] s1] eqn:E1.
  2: { unfold apply_signal in E1. by repeat case_match. }
  assert (going (s1 <| rw_signals ::= cons batch |>) ∧ rw_requests s1 = rw_requests s ∧
    rw_signals s1 = rw_signals s) as (Hs1 & Er & Es).
  { revert E1. unfold apply_signal, worker_pause, worker_resume. cbn in Hf, Hst, Hsrc, Hall.
    destruct a; [| |by destruct Ha..|];
      destruct Hst as [Hst|Hst]; cbn; rewrite ?Hst; cbn; repeat case_match; intros [= <-];
      (split_and!; [|done..]); split; cbn; auto. }
  specialize (IH s1 Hs1). destruct (for_each apply_signal batch s1) as [[u|e] s2]; [|done].
  destruct IH as (Hs2 & Er2 & Es2). split_and!; [done|congruence..].
Qed.

Lemma poll_going s : going s →
  match poll s with
  | (Ok _, s') => going s' ∧ rw_requests s' = rw_requests s ∧ rw_signals s' = tail (rw_signals s)
  | (Err _, _) => False
  end.
Proof.
  intros Hs. unfold poll. destruct (rw_signals s) as [|batch rest] eqn:E1; [by rewrite E1|].
  assert (going (s <| rw_signals := rest |> <| rw_signals ::= cons batch |>)) as Hb.
  { destruct Hs as [? ? Hg Hp ? ?]. rewrite E1 in Hg, Hp. by split. }
  apply batch_going in Hb. by destruct (for_each apply_signal batch (s <| rw_signals := rest |>)) as [[u|e] s'].
Qed.

Lemma smooth_stopping : smooth (λ b, b = false) stopping.
Proof.
  intros s Hs. unfold stopping, eff_bind, the_worker, gets. pose proof (poll_going s Hs) as Hp.
  destruct (poll s) as [[u|e] s1]; [|done]. destruct Hp as (Hs1 & Er & _). split_and!; [apply Hs1|done..].
Qed.

Lemma wait_going n s : going s → (length (rw_signals s) ≤ n)%nat →
  match wait_loop n s with
  | (Ok b, s') => b = true ∧ going s' ∧ rw_requests s' = rw_requests s
  | (Err _, _) => False
  end.
Proof.
  revert s. induction n as [|n IH]; intros s Hs Hn; cbn [wait_loop];
    unfold the_worker; unfold eff_bind at 1, gets at 1;
    destruct (w_paused (rw_worker s)) eqn:Ep; cbn [negb]; [|by split_and!| |by split_and!];
    unfold eff_bind at 1, gets at 1; rewrite (go_flags s Hs).
  - destruct Hs as [_ _ _ Hp _ _]. destruct (rw_signals s) as [|]; [|cbn in Hn; lia]. cbn in Hp. congruence.
  - unfold eff_bind. pose proof (poll_going s Hs) as Hq. destruct (poll s) as [[u|e] s1]; [|done].
    destruct Hq as (Hs1 & Er & Es). specialize (IH s1 Hs1). rewrite Es in IH.
    destruct (wait_loop n s1) as [[b|e] s2]; [|apply IH; destruct (rw_signals s); cbn in *; lia].
    destruct IH as (Hb & Hs2 & Er2); [destruct (rw_signals s); cbn in *; lia|]. split_and!; [done|done|congruence].
Qed.
Lemma smooth_wait : smooth (λ b, b = true) wait_until_resumed.
Proof. intros s Hs. by apply wait_going. Qed.

(** *** Reports and retries *)

Lemma smooth_flush : smooth anything progress_flush.
Proof. unfold progress_flush, emit_progress. solve_smooth. Qed.
#[local] Hint Resolve smooth_flush : run_smooth.
Lemma smooth_maybe_emit config elapsed : smooth anything (maybe_emit config elapsed).
Proof. unfold maybe_emit. solve_smooth. Qed.

Lemma retry_source_usable id s x :
  going s → select_retry_source id (rw_task s) = Some x → usable (rw_task s) x.
Proof.
  intros Hs. unfold select_retry_source. destruct (_ =? 0); [done|].
  intros [Hx _]%find_first_Some. destruct Hs as [_ _ _ _ _ Hall]. rewrite Forall_forall in Hall. apply Hall.
  unfold ranked_transfer_sources in Hx. by rewrite elem_of_sort_by in Hx.
Qed.

(** A retry that is left is made, with a source that can be asked. *)
Lemma smooth_retry config count err delay :
  error_ok err → count < max_retries (retry config) →
  smooth (λ n, n = wrap32 (count + 1)) (retry_or_fail_with_delay config count err delay).
Proof.
  intros Herr Hc. unfold retry_or_fail_with_delay.
  eapply smooth_then; [unfold on_stats, on_task; solve_smooth|]. intros [].
  eapply smooth_then; [apply smooth_gets|]. intros current.
  eapply smooth_then; [unfold on_task; solve_smooth|]. intros [].
  match goal with |- smooth ?Q (eff_bind _ (λ fallback, eff_bind _ (λ _, ?k))) =>
    assert (smooth Q k) as Hrest end.
  { assert (next_retry_delay (retry config) count =
      Some (compute_retry_delay (retry config) (sat_add32 count 1))) as ->.
    { unfold next_retry_delay. by rewrite (proj2 (Z.leb_gt _ _) Hc). }
    destruct err; try (by destruct (Herr _ _ eq_refl)); solve_smooth. }
  intros s Hs. unfold eff_bind at 1, the_task, gets at 1.
  destruct (select_retry_source current (rw_task s)) as [x|] eqn:Ex.
  2: { by apply Hrest. }
  apply retry_source_usable in Ex; [|done]. destruct (negb _); cbn [when]; [|by apply Hrest].
  unfold eff_bind at 1, on_worker, modify.
  apply smooth_at; [exact Hrest|by destruct Hs|done].
Qed.
End live.

(** ** The transfer *)
Section transfer.
Context `{HttpLib} (config : Config) (server : nat → Request → result Response string)
  (elapsed : Z → bool) (rfc2822_delay : string → option Z).
Context (fm : FileMap) (inos : list positive) (R : bytes) (start stop : Z).
Hypothesis fm_wf : file_map_wf fm.
Hypothesis R_length : zlen R = Payload.total_size fm.
Hypothesis range_ok : 0 ≤ start ≤ stop ∧ stop < zlen R.
Hypothesis server_ok : serves R server.
Context (orig : bytes).
Hypothesis orig_length : zlen orig = zlen R.
Abbreviation inv := (worker_inv fm inos R start stop orig).
Abbreviation anything := (λ _, True).
Abbreviation sure P m Q := (triple P m Q (λ _ _, False)).

(** A run that goes on, with [h] bytes of the range and after [n] requests. *)
Definition on (h : Z) (n : nat) (s : run_world) : Prop :=
  inv s ∧ going s ∧ have s = h ∧ length (rw_requests s) = n.

Lemma smooth_on {A} (P : A → Prop) (m : run A) h n :
  calm m → smooth P m → sure (on h n) m (λ a s, P a ∧ on h n s).
Proof.
  intros Hc Hm s (Hi & Hg & Hh & Hn). specialize (Hc s). specialize (Hm s Hg).
  destruct (m s) as [[a|e] s']; [|done]. destruct Hm as (Ha & Hg' & Er). cbn in Hc.
  split; [done|]. split_and!; [by eapply inv_core|done| |congruence].
  destruct Hc as [Hc _]. unfold core in Hc. unfold have in *. congruence.
Qed.

(** A step that everything goes through, in front of others. *)
Lemma on_then {A B} (P : A → Prop) (m : run A) (k : A → run B) h n Q X :
  calm m → smooth P m → (∀ a, P a → triple (on h n) (k a) Q X) → triple (on h n) (eff_bind m k) Q X.
Proof.
  intros Hc Hm Hk. eapply (triple_bind _ _ _ (λ a s, P a ∧ on h n s)).
  - eapply triple_conseq; [by apply (smooth_on P m h n)|done..].
  - intros a s [Ha Hs]. by apply Hk.
Qed.

Lemma calm_maybe_emit : calm (maybe_emit config elapsed).
Proof. unfold maybe_emit. solve_calm. Qed.

Lemma slices_on slices h n :
  concat slices `prefix_of` slice R (start + h) (stop + 1) →
  sure (on h n) (stream_slices config elapsed fm slices (start + h))
    (λ o s, o = Some (start + (h + zlen (concat slices))) ∧ on (h + zlen (concat slices)) n s).
Proof.
  revert h. induction slices as [|data slices IH]; intros h Hp; cbn [stream_slices].
  { apply triple_ret. intros s Hs. cbn. by rewrite Z.add_0_r. }
  eapply on_then; [apply calm_stopping|apply smooth_stopping|]. intros ? ->.
  eapply on_then; [apply calm_wait|apply smooth_wait|]. intros ? ->. cbn [negb]. cbv zeta.
  intros s (Hi & Hg & Hh & Hn). subst h. cbn [concat] in Hp.
  destruct (write_next fm inos R start stop fm_wf R_length range_ok orig orig_length data s Hi)
    as (p & Hw & Hi1 & Hle).
  { etrans; [|exact Hp]. by apply prefix_app_r. }
  assert (write_payload fm (start + have s) data s = (Ok tt, s <| rw_payload := p |>)) as Hw1.
  { unfold write_payload. by rewrite Hw. }
  rewrite (eff_bind_ok _ _ _ _ _ Hw1).
  set (s1 := s <| rw_payload := p |>
    <| rw_worker ::= λ w, w <| w_downloaded_size ::= λ n, wrap64 (n + zlen data) |> |>) in Hi1.
  pose proof (total_u64 fm R fm_wf R_length). pose proof (zlen_nonneg data).
  assert (0 ≤ have s) as Hh0 by apply Hi.
  assert (on (have s + zlen data) n s1) as Hs1.
  { split_and!; [done|by destruct Hg| |done]. unfold have, s1 in *. simpl in *. apply wrap64_small. unfold_int. lia. }
  rewrite sat_add_exact by lia.
  assert (concat slices `prefix_of` slice R (start + (have s + zlen data)) (stop + 1)) as Hp2.
  { destruct Hp as [rest Hp]. rewrite <- app_assoc in Hp.
    destruct (slice_advance R data _ (start + have s) (stop + 1) ltac:(lia) ltac:(lia) Hp) as (_ & Hr & _).
    rewrite Z.add_assoc, Hr. by exists rest. }
  assert (start + have s + zlen data = start + (have s + zlen data)) as -> by lia.
  assert (sure (on (have s + zlen data) n)
    (maybe_emit config elapsed ;;; stream_slices config elapsed fm slices (start + (have s + zlen data)))
    (λ o t, o = Some (start + (have s + zlen data + zlen (concat slices))) ∧
      on (have s + zlen data + zlen (concat slices)) n t)) as Hrest.
  { eapply on_then; [apply calm_maybe_emit|apply smooth_maybe_emit|]. intros ? _. exact (IH _ Hp2). }
  specialize (Hrest s1 Hs1). cbn [concat]. rewrite zlen_app, (Z.add_assoc (have s)).
  rewrite (eff_bind_ok (on_worker _) _ _ tt s1) by done. exact Hrest.
Qed.

(** Whether a body comes to its end. *)
Definition unbroken (body : list (result bytes string)) : Prop := Forall (λ c, is_ok c = true) body.

Lemma chunks_on body h n :
  0 ≤ h → received body `prefix_of` slice R (start + h) (stop + 1) →
  triple (on h n) (stream_chunks config elapsed fm body (start + h))
    (λ _ s, unbroken body ∧ on (h + zlen (received body)) n s)
    (λ e s, (∃ err, e = Fails err) ∧ ¬ unbroken body ∧ on (h + zlen (received body)) n s).
Proof.
  revert h. induction body as [|chunk body IH]; intros h Hh Hp; cbn [stream_chunks].
  { apply triple_ret. intros s Hs. split; [constructor|]. cbn. by rewrite Z.add_0_r. }
  eapply on_then; [apply calm_stopping|apply smooth_stopping|]. intros ? ->.
  eapply on_then; [apply calm_wait|apply smooth_wait|]. intros ? ->. cbn [negb].
  eapply on_then; [unfold the_worker; solve_calm|apply smooth_gets|]. intros id _.
  destruct chunk as [data|err]; cbn [result_map_err received].
  2: { intros s Hs. split; [by eexists|]. split; [intros Hu; by inversion Hu|].
       change (zlen []) with 0. by rewrite Z.add_0_r. }
  cbn [received] in Hp. assert (concat (chunks RATE_LIMIT_SLICE_BYTES data) = data) as Ec
    by (apply chunks_concat; vm_compute; lia).
  assert (received body `prefix_of` slice R (start + (h + zlen data)) (stop + 1)) as Hp2.
  { destruct Hp as [rest Hp]. rewrite <- app_assoc in Hp.
    assert (stop + 1 ≤ zlen R) by lia.
    assert (start + h ≤ stop + 1 ∨ slice R (start + h) (stop + 1) = []) as [Hle|Hnil].
    { destruct (decide (start + h ≤ stop + 1)); [by left|right]. unfold slice.
      by assert (Z.to_nat (stop + 1 - (start + h)) = O) as -> by lia. }
    - destruct (slice_advance R data _ (start + h) (stop + 1) ltac:(lia) ltac:(lia) Hp) as (_ & Hr & _).
      rewrite Z.add_assoc, Hr. by exists rest.
    - rewrite Hnil in Hp. symmetry in Hp. apply app_nil in Hp as [_ [-> _]%app_nil]. apply prefix_nil. }
  eapply (triple_bind _ _ _ (λ a s, a = data ∧ on h n s)); [by intros s Hs|].
  intros a s [-> Hs].
  pose proof (slices_on (chunks RATE_LIMIT_SLICE_BYTES data) h n) as Hsl. rewrite Ec in Hsl.
  specialize (Hsl ltac:(etrans; [|exact Hp]; by apply prefix_app_r) s Hs).
  unfold eff_bind at 1. destruct (stream_slices _ _ _ _ _ s) as [[o|e] s1]; [|done].
  destruct Hsl as [-> Hs1]. specialize (IH (h + zlen data) ltac:(pose proof (zlen_nonneg data); lia) Hp2 s1 Hs1).
  rewrite zlen_app, (Z.add_assoc h). destruct (stream_chunks _ _ _ body _ s1) as [[u|e] s2].
  - destruct IH as [Hu Hs2]. split; [by constructor|done].
  - destruct IH as (He & Hu & Hs2). split_and!; [done| |done]. by intros [_ Hu']%Forall_cons.
Qed.

(** The bytes of a response: the rest of the range, or a part of it. *)
Lemma transfer_on worker response h n :
  w_length_known worker = true → 0 ≤ h →
  received (rs_body response) `prefix_of` slice R (start + h) (stop + 1) →
  (unbroken (rs_body response) → h + zlen (received (rs_body response)) = stop - start + 1) →
  sure (on h n)
    (transfer_response config elapsed HttpTransferDriver worker response true (start + h) (stop - start + 1))
    (λ e s, on (h + zlen (received (rs_body response))) n s ∧
      match e with Finished => unbroken (rs_body response) | Retry _ _ => ¬ unbroken (rs_body response) end).
Proof.
  intros Hk Hh Hp Hfull. unfold transfer_response. set (body := rs_body response) in *.
  eapply on_then; [unfold the_worker; solve_calm|apply smooth_gets|]. intros k _. cbv zeta.
  eapply on_then; [unfold on_worker; solve_calm|unfold on_worker; apply smooth_modify; [by intros s []|done]|].
  intros [] _.
  eapply (triple_bind _ _ _ (λ r s, on (h + zlen (received body)) n s ∧
    match r with Ok _ => unbroken body | Err _ => ¬ unbroken body end)).
  { intros s Hs. unfold catch. cbn [stream_response]. unfold http_stream_response.
    unfold eff_bind at 1, the_task, gets at 1. assert (t_payload_store (rw_task s) = Some fm) as -> by apply Hs.
    unfold eff_bind at 1, gets at 1. unfold eff_bind at 1, ask, lift. cbn [ok_or result_map_err].
    unfold eff_bind at 1, the_worker, gets at 1.
    pose proof (chunks_on body h n Hh Hp s Hs) as Hc. fold body.
    destruct (stream_chunks _ _ _ body _ s) as [[[]|e] s1].
    - by destruct Hc.
    - by destruct Hc as ([err ->] & Hu & Hs1). }
  intros [[]|e]; [|by apply triple_ret].
  set (h1 := h + zlen (received body)) in *.
  apply triple_pure. intros Hu.
  eapply on_then; [apply calm_stopping|apply smooth_stopping|]. intros ? ->.
  eapply on_then; [apply calm_flush|apply smooth_flush|]. intros [] _.
  intros s Hs. unfold eff_bind at 1, the_worker, gets at 1.
  assert (w_downloaded_size (rw_worker s) = stop - start + 1) as ->.
  { destruct Hs as (_ & _ & Hh1 & _). unfold have in Hh1. rewrite Hh1. by apply Hfull. }
  unfold eff_bind at 1, ask, validate_downloaded_length. rewrite Hk, Z.eqb_refl. by cbn.
Qed.

(** *** One attempt *)

(** The request for the bytes from [off] to the end of the range. *)
Definition asked (off : Z) : string := "bytes=" +:+ show_u64 off +:+ "-" +:+ show_u64 stop.

(** The server serves its [n]th request as it is asked to. *)
Definition answers (n : nat) : Prop := ∀ request off, start ≤ off ≤ stop → range_headers request = [asked off] →
  ∃ response text range, server n request = Ok response ∧ rs_status response = 206 ∧
    header "content-range" response = Some (HText text) ∧ parse_content_range text = Some range ∧
    cr_start range = off ∧ cr_end range = stop ∧
    unbroken (rs_body response) ∧ received (rs_body response) = slice R off (stop + 1).

(** It fails its [n]th request in a way that the worker retries after: it cannot be
    reached, answers with another status than those that are final, or with
    another range than asked for, or breaks off before the end of it. *)
Definition falters (n : nat) : Prop := ∀ request response, server n request = Ok response →
  rs_status response ∉ [401; 403; 404] ∧
  (rs_status response = 206 → ∀ text range, header "content-range" response = Some (HText text) →
   parse_content_range text = Some range →
   ¬ unbroken (rs_body response) ∧ zlen (received (rs_body response)) < cr_end range - cr_start range + 1).

Lemma range_headers_app name value r :
  range_headers (with_header name value r) =
  range_headers r ++ (if String.eqb name "range" then [value] else []).
Proof.
  unfold range_headers, with_header. cbn. rewrite filterb_app, fmap_app. f_equal.
  unfold filterb, is_range. cbn. by destruct (String.eqb name "range").
Qed.

(** What is asked for. *)
Lemma request_built s h n :
  on h n s → h ≤ stop - start →
  ∃ request, build_request HttpTransferDriver (rw_worker s) (rw_task s) (start + h) true = Ok request ∧
    range_headers request = [asked (start + h)].
Proof.
  intros ((E1 & E2 & _) & Hg & _ & _) Hh. destruct Hg as [_ _ _ _ (_ & r & Er & Hr) _].
  cbn [build_request]. unfold http_build_request. rewrite Er. cbn [result_bind]. rewrite E1, E2.
  rewrite (proj2 (Z.leb_le (start + h) stop)) by lia. cbn [andb].
  eexists. split; [done|]. fold (asked (start + h)).
  destruct (start <? start + h); [destruct (resume_validator _)|];
    by rewrite ?range_headers_app, Hr.
Qed.

(** Counting leaves the worker as it is. *)
Lemma count_on b f h n s : on h n s →
  ∃ s', when b (on_stats f) s = (Ok tt, s') ∧ rw_worker s' = rw_worker s ∧ on h n s'.
Proof.
  intros Hs. pose proof (smooth_on anything (when b (on_stats f)) h n) as Hw.
  specialize (Hw ltac:(apply calm_when; solve_calm)).
  specialize (Hw ltac:(apply smooth_when, smooth_modify; [by intros t []|done]) s Hs).
  destruct b; cbn in *; eexists; (split_and!; [done|done|apply Hw]).
Qed.

(** An attempt sends its request. *)
Lemma attempt_sends h n s :
  on h n s → h ≤ stop - start →
  ∃ s1 request, on h (S n) s1 ∧ range_headers request = [asked (start + h)] ∧
    attempt_download config server elapsed rfc2822_delay (stop - start + 1) s =
    match server n request with
    | Err err => ret (Retry (ENetworkError (w_id (rw_worker s1)) err) None)
    | Ok response =>
        let! checked := check_response rfc2822_delay HttpTransferDriver (rw_worker s1) response true (start + h) in
        match checked with
        | Some end_ => ret end_
        | None =>
            when (start <? start + h) (on_stats record_resume_hit) ;;;
            transfer_response config elapsed HttpTransferDriver (rw_worker s1) response true (start + h)
              (stop - start + 1)
        end
    end s1.
Proof.
  intros Hs Hh. unfold attempt_download, the_worker at 1. unfold eff_bind at 1, gets at 1.
  pose proof (smooth_on _ _ h n calm_stopping smooth_stopping s Hs) as H1.
  unfold eff_bind at 1. destruct (stopping s) as [[b|e] s1]; [|done]. destruct H1 as [-> Hs1].
  pose proof (smooth_on _ _ h n calm_wait smooth_wait s1 Hs1) as H2.
  unfold eff_bind at 1. destruct (wait_until_resumed s1) as [[b|e] s2]; [|done]. destruct H2 as [-> Hs2].
  cbn [negb]. unfold the_worker, the_task. unfold eff_bind at 1, gets at 1. unfold eff_bind at 1, gets at 1.
  assert (driver_for_source (w_source (rw_worker s)) = HttpTransferDriver) as ->.
  { destruct Hs as (_ & Hg & _). apply Hg. }
  pose proof Hs2 as ((E1 & E2 & E3 & Hr & _ & E4 & _) & _ & Eh & _). unfold have in Eh, Hr.
  rewrite E3, E4, Eh, E1. cbn [andb]. pose proof (total_u64 fm R fm_wf R_length).
  rewrite (sat_add_exact start h) by lia.
  destruct (count_on (start <? start + h) record_resume_attempt h n s2 Hs2) as (s3 & Ew & Ewk & Hs3).
  rewrite (eff_bind_ok _ _ _ _ _ Ew). unfold eff_bind at 1, gets at 1. rewrite <- Ewk.
  destruct (request_built s3 h n Hs3 Hh) as (request & -> & Hreq).
  exists (s3 <| rw_requests ::= λ l, l ++ [request] |>), request. split.
  { destruct Hs3 as (Hi & Hg & Hh' & Hn'). split_and!; [done|by destruct Hg|done|].
    cbn. rewrite length_app, Hn'. cbn. lia. }
  split; [done|]. unfold eff_bind at 1, send_request.
  assert (length (rw_requests s3) = n) as -> by apply Hs3. by destruct (server n request).
Qed.

Lemma attempt_answered h n :
  answers n → 0 ≤ h ≤ stop - start →
  sure (on h n) (attempt_download config server elapsed rfc2822_delay (stop - start + 1))
    (λ e s, e = Finished ∧ on (stop - start + 1) (S n) s).
Proof.
  intros Ha Hh s Hs. destruct (attempt_sends h n s Hs) as (s1 & request & Hs1 & Hreq & ->); [lia|].
  destruct (Ha request (start + h) ltac:(lia) Hreq)
    as (response & text & range & -> & Hst & Hhd & Hcr & Hc1 & Hc2 & Hu & Hrec).
  pose proof Hs1 as ((E1 & E2 & E3 & _) & _).
  assert (check_response rfc2822_delay HttpTransferDriver (rw_worker s1) response true (start + h) s1 =
    (Ok None, s1)) as Hcheck.
  { unfold check_response, classify_terminal_http_error. rewrite Hst. cbn [validate_response].
    unfold http_validate_response. rewrite Hst, Hhd. cbn. rewrite andb_false_r. cbn. rewrite Hcr. cbn.
    rewrite Hc1, Hc2, E2, !Z.eqb_refl. done. }
  rewrite (eff_bind_ok _ _ _ _ _ Hcheck).
  destruct (count_on (start <? start + h) record_resume_hit h (S n) s1 Hs1) as (s2 & Ew & Ewk & Hs2).
  rewrite (eff_bind_ok _ _ _ _ _ Ew).
  assert (h + zlen (received (rs_body response)) = stop - start + 1) as Hlen.
  { rewrite Hrec, zlen_slice by lia. lia. }
  pose proof (transfer_on (rw_worker s1) response h (S n) E3 ltac:(lia) ltac:(by rewrite Hrec) (λ _, Hlen) s2 Hs2)
    as Ht.
  destruct (transfer_response _ _ _ _ _ _ _ _ s2) as [[[|err d]|e] s3]; [|by destruct Ht|done].
  rewrite Hlen in Ht. by destruct Ht.
Qed.

Lemma attempt_falters h n :
  falters n → 0 ≤ h ≤ stop - start →
  sure (on h n) (attempt_download config server elapsed rfc2822_delay (stop - start + 1))
    (λ e s, (∃ err d, e = Retry err d) ∧ ∃ h', 0 ≤ h' ≤ stop - start ∧ on h' (S n) s).
Proof.
  intros Hf Hh s Hs. destruct (attempt_sends h n s Hs) as (s1 & request & Hs1 & Hreq & ->); [lia|].
  destruct (server n request) as [response|err] eqn:Esrv.
  2: { split; [by do 2 eexists|]. by exists h. }
  destruct (Hf request response Esrv) as [Hterm Hbreak]. pose proof Hs1 as ((E1 & E2 & E3 & _) & _).
  destruct (check_response rfc2822_delay HttpTransferDriver (rw_worker s1) response true (start + h) s1)
    as [[[e|]|e] s2] eqn:Ec; unfold eff_bind at 1; rewrite Ec.
  - assert (s2 = s1 ∧ ∃ err d, e = Retry err d) as [-> He].
    { revert Ec. unfold check_response, classify_terminal_http_error. rewrite bool_decide_false by done.
      destruct (should_retry_http_status _); [intros [= <- <-]; eauto|].
      destruct (validate_response _ _ _ _ _); [done|]. intros [= <- <-]; eauto. }
    split; [done|]. by exists h.
  - destruct (let_through _ _ _ _ _ _ _ Ec) as (-> & _ & Hst & text & range & Hhd & Hcr & Hc1 & Hc2).
    destruct (Hbreak Hst text range Hhd Hcr) as [Hu Hlt].
    pose proof (server_ok n request response text range Esrv Hst Hhd Hcr) as Hp.
    rewrite Hc1, Hc2, E2 in Hp, Hlt.
    destruct (count_on (start <? start + h) record_resume_hit h (S n) s1 Hs1) as (s2 & Ew & Ewk & Hs2).
    rewrite (eff_bind_ok _ _ _ _ _ Ew).
    pose proof (transfer_on (rw_worker s1) response h (S n) E3 ltac:(lia) Hp (λ Hu', False_ind _ (Hu Hu')) s2 Hs2)
      as Ht.
    destruct (transfer_response _ _ _ _ _ _ _ _ s2) as [[[|err d]|e] s3]; [by destruct Ht| |done].
    split; [by do 2 eexists|]. eexists. split; [|by destruct Ht].
    pose proof (zlen_nonneg (received (rs_body response))). lia.
  - revert Ec. unfold check_response, classify_terminal_http_error. rewrite bool_decide_false by done.
    destruct (should_retry_http_status _); [done|]. by destruct (validate_response _ _ _ _ _).
Qed.

(** *** The run *)

Lemma loop_on k fuel count h n :
  0 ≤ count → count + Z.of_nat k ≤ max_retries (retry config) → is_u32 (max_retries (retry config)) →
  (k < fuel)%nat → (∀ i, (i < k)%nat → falters (n + i)) → answers (n + k) → 0 ≤ h ≤ stop - start →
  sure (on h n) (download_loop config server elapsed rfc2822_delay fuel count (stop - start + 1))
    (λ _ s, on (stop - start + 1) (S (n + k)) s).
Proof.
  revert fuel count h n. induction k as [|k IH]; intros [|fuel] count h n Hc Hm Hu Hfuel Hf Ha Hh; try lia;
    cbn [download_loop].
  - rewrite Nat.add_0_r in *. eapply triple_bind; [by apply attempt_answered|].
    intros e s [-> Hs]. exact Hs.
  - intros s Hs.
    pose proof (attempt_falters h n ltac:(specialize (Hf O); rewrite Nat.add_0_r in Hf; apply Hf; lia) Hh s Hs) as H1.
    destruct (attempt_yields config server elapsed rfc2822_delay (stop - start + 1) s) as [_ Herr].
    unfold eff_bind at 1. destruct (attempt_download _ _ _ _ _ s) as [[e|e] s1]; [|done].
    destruct H1 as ((err & d & ->) & h' & Hh' & Hs1). cbn in Herr.
    assert (sure (on h' (S n)) (let! retry_count := retry_or_fail_with_delay config count err d in
      download_loop config server elapsed rfc2822_delay fuel retry_count (stop - start + 1))
      (λ _ t, on (stop - start + 1) (S (S n + k)) t)) as Hrest.
    { eapply on_then; [apply calm_retry|apply smooth_retry; [done|lia]|]. intros ? ->.
      rewrite wrap32_small by (unfold_int; lia). apply IH; try done; try lia.
      - intros i Hi. specialize (Hf (S i)). rewrite Nat.add_succ_r in Hf. apply Hf. lia.
      - by rewrite Nat.add_succ_r in Ha. }
    specialize (Hrest s1 Hs1). by rewrite (Nat.add_succ_r n k).
Qed.

(** A worker that can be started, and that is not left paused or stopped by what the
    others do. *)
Record startable (s : run_world) : Prop := {
  st_flags : should_stop_gracefully (rw_worker s) = false;
  st_status : w_status (rw_worker s) ≠ Canceled ∧ w_status (rw_worker s) ≠ Deleted;
  st_gentle : Forall gentle (concat (rw_signals s));
  st_resumed : paused_after (concat (rw_signals s))
    (negb (bool_decide (w_status (rw_worker s) = Paused)) && w_paused (rw_worker s)) = false;
  st_source : usable (rw_task s) (w_source (rw_worker s));
  st_sources : Forall (usable (rw_task s)) (active_transfer_sources (t_sources (rw_task s)))
}.

Lemma prepare_on s h n :
  inv s → startable s → have s = h → length (rw_requests s) = n →
  ∃ s', prepare_run_state s = (Ok true, s') ∧ on h n s'.
Proof.
  intros Hi [Hf [Hs1 Hs2] Hg Hp Hu Hus] Hh Hn.
  assert (calm prepare_run_state) as Hcalm by (unfold prepare_run_state; solve_calm).
  destruct (Hcalm s) as [Hcore Hst].
  assert (w_status (rw_worker s) ≠ Completed) as Hs3 by apply Hi.
  assert (∃ s', prepare_run_state s = (Ok true, s') ∧ going s' ∧ rw_requests s' = rw_requests s)
    as (s' & E1 & Hgo & Er).
  { unfold prepare_run_state, the_worker. unfold eff_bind at 1, gets at 1.
    destruct (w_status (rw_worker s)) eqn:Est; try done; cbn [bool_decide] in Hp; eexists;
      (split_and!; [reflexivity| |reflexivity]); split; cbn; auto. }
  exists s'. rewrite E1 in Hcore, Hst. cbn [snd] in *.
  split; [done|]. split_and!; [|done| |congruence].
  - by eapply inv_core.
  - unfold core in Hcore. unfold have in *. congruence.
Qed.

Lemma start_completes s k :
  inv s → startable s → w_is_running (rw_worker s) = false → have s ≤ stop - start →
  is_u32 (max_retries (retry config)) → Z.of_nat k ≤ max_retries (retry config) →
  let n := length (rw_requests s) in
  (∀ i, (i < k)%nat → falters (n + i)) → answers (n + k) →
  ∃ s', worker_start config server elapsed rfc2822_delay s = (Ok tt, s') ∧
    w_status (rw_worker s') = Completed ∧ w_is_running (rw_worker s') = false ∧
    have s' = stop - start + 1 ∧ written fm inos R start stop orig s' ∧
    last (rw_events s') = Some (EvComplete (w_id (rw_worker s'))) ∧
    length (rw_requests s') = S (n + k).
Proof.
  intros Hi Hs Hrun Hh Hu Hk n Hf Ha. unfold worker_start. rewrite Hrun. cbv zeta.
  set (s0 := s <| rw_worker ::= λ w, w <| w_is_running := true |> |>).
  destruct (prepare_on s0 (have s) n) as (s1 & E1 & Hs1); [exact Hi|by destruct Hs|done..|].
  unfold run_download_loop. rewrite (eff_bind_ok _ _ _ _ _ E1). cbn [negb].
  unfold eff_bind at 1, the_worker, gets at 1. cbv zeta.
  rewrite (expected_here fm inos R start stop fm_wf R_length range_ok orig s1) by apply Hs1.
  assert (w_downloaded_size (rw_worker s1) = have s) as Ed by apply Hs1.
  rewrite Ed, (proj2 (Z.leb_gt _ _)), andb_false_r by lia.
  unfold eff_bind at 1, modify. set (s2 := s1 <| rw_last_reported := have s |>).
  assert (on (have s) n s2) as Hs2. { destruct Hs1 as (? & Hg & ? & ?). split_and!; [done|by destruct Hg|done..]. }
  pose proof (loop_on k (loop_fuel config) 0 (have s) n ltac:(lia) ltac:(lia) Hu
    ltac:(unfold loop_fuel; lia) Hf Ha ltac:(destruct Hi as (_ & _ & _ & ? & _); lia) s2 Hs2) as Hl.
  unfold eff_bind at 1. destruct (download_loop _ _ _ _ _ _ _ s2) as [[u|e] s3]; [|done].
  destruct (finish_core s3) as (s4 & E4 & Hc & Hst). rewrite E4.
  destruct Hl as (Hi3 & _ & Hh3 & Hn3).
  eexists. split; [reflexivity|]. cbn [rw_worker w_status]. split; [exact Hst|]. split; [done|].
  assert (have s4 = have s3) as Hh4 by (unfold core in Hc; unfold have; congruence).
  split; [by rewrite <- Hh3, <- Hh4|]. split.
  - apply (counted_written fm inos R start stop orig s4); [by eapply (inv_counted fm inos R start stop orig s3)|congruence].
  - unfold finish_success in E4. injection E4 as <-. split; [|by rewrite <- Hn3].
    cbn. by rewrite last_snoc.
Qed.

(** C6. A worker gets its range.  When the server fails its requests, one after the
    other, in ways that the worker retries after, but no more often than the
    configured retries, and then serves what it is asked for, and when nobody
    cancels the worker or leaves it paused, then the worker completes: its range
    of the payload is the resource's, it sends no request more, and its task is
    told. *)
Theorem worker_completes s k :
  inv s → startable s → w_is_running (rw_worker s) = false → have s ≤ stop - start →
  is_u32 (max_retries (retry config)) → Z.of_nat k ≤ max_retries (retry config) →
  let n := length (rw_requests s) in
  (∀ i, (i < k)%nat → falters (n + i)) → answers (n + k) →
  ∃ s', worker_start config server elapsed rfc2822_delay s = (Ok tt, s') ∧
    w_status (rw_worker s') = Completed ∧ w_is_running (rw_worker s') = false ∧
    have s' = stop - start + 1 ∧ written fm inos R start stop orig s' ∧
    last (rw_events s') = Some (EvComplete (w_id (rw_worker s'))) ∧
    length (rw_requests s') = S (n + k).
Proof. apply start_completes. Qed.
End transfer.

(** ** Examples *)
#[local] Existing Instance example_http.

(** A server of the range from [start] to [stop] that does what it is asked to. *)
Definition honest (start stop : Z) (R : bytes) (request : Request) : result Response string :=
  match range_headers request with
  | [] => Ok (mk_response 200 (rqm_url request) [] None [Ok R])
  | v :: _ =>
      match find_first (λ off, String.eqb (asked stop off) v) (seqZ start (stop - start + 1)) with
      | Some off => Ok (ranged (content_range_text (mk_content_range off stop (Some (zlen R))))
          [Ok (slice R off (stop + 1))])
      | None => Ok (mk_response 416 (rqm_url request) [] None [])
      end
  end.

Lemma asked_inj stop off off' : is_u64 off → is_u64 off' → asked stop off = asked stop off' → off = off'.
Proof.
  intros Ho Ho' E. unfold asked in E. apply (inj (String.append "bytes=")) in E.
  apply (f_equal (split_once "-")) in E. change ("-" +:+ show_u64 stop) with (String "-" (show_u64 stop)) in E.
  rewrite !(split_once_app "-") in E by (by apply digits_no_char). injection E as E.
  apply (f_equal parse_u64) in E. rewrite !parse_show_u64 in E by done. congruence.
Qed.

Section honest.
Context (R : bytes) (start stop : Z).
Hypothesis range_ok : 0 ≤ start ≤ stop ∧ stop < zlen R ≤ u64_max.

Lemma honest_range off : start ≤ off ≤ stop → content_range_ok (mk_content_range off stop (Some (zlen R))).
Proof. intros Ho. split_and!; [unfold_int; cbn; lia..|]. intros ? [= <-]. unfold_int. lia. Qed.

Lemma honest_answers n server : server n = honest start stop R → answers server R start stop n.
Proof.
  intros Hserver request off Hoff Hr. rewrite Hserver. unfold honest. rewrite Hr.
  destruct (find_first _ _) as [off'|] eqn:E1.
  - apply find_first_Some in E1 as [Hin%elem_of_seqZ E1]. apply String.eqb_eq, asked_inj in E1 as ->;
      [|unfold_int; lia..].
    do 3 eexists. split_and!; [done..|by apply parse_content_range_text, honest_range|done|done|by repeat constructor|].
    cbn. by rewrite app_nil_r.
  - rewrite find_first_None in E1. specialize (E1 off). rewrite String.eqb_refl in E1.
    discriminate E1. apply elem_of_seqZ. lia.
Qed.

Lemma honest_serves request response text range :
  honest start stop R request = Ok response → rs_status response = 206 →
  header "content-range" response = Some (HText text) → parse_content_range text = Some range →
  received (rs_body response) `prefix_of` slice R (cr_start range) (cr_end range + 1).
Proof.
  unfold honest. destruct (range_headers request) as [|v l]; [by intros [= <-]|].
  destruct (find_first _ _) as [off|] eqn:E1; [|by intros [= <-]].
  apply find_first_Some in E1 as [Hin%elem_of_seqZ _].
  intros [= <-] _ [= <-] Hr. rewrite parse_content_range_text in Hr by (apply honest_range; lia).
  injection Hr as <-. cbn. by rewrite app_nil_r.
Qed.
End honest.

(** It breaks off after three bytes, then cannot be reached, then serves. *)
Definition late_server (n : nat) (request : Request) : result Response string :=
  match n with
  | O => Ok (ranged "bytes 2-8/10" [Ok [x32; x33]; Ok [x34]; Err "reset"])
  | 1%nat => Err "unreachable"
  | _ => honest 2 8 example_resource request
  end.
Lemma late_range : 0 ≤ 2 ≤ 8 ∧ 8 < zlen example_resource ≤ u64_max.
Proof. by vm_compute. Qed.

Lemma late_serves : serves example_resource late_server.
Proof.
  intros n request response text range Hs Hst Hh Hr. destruct n as [|[|n]]; cbn in Hs; [|done|].
  - injection Hs as <-. injection Hh as <-. vm_compute in Hr. injection Hr as <-. vm_compute. by eexists.
  - by eapply (honest_serves example_resource 2 8 late_range).
Qed.

(** Others pause and resume it, and one of them loses its source. *)
Definition late_run : run_world :=
  example_run <| rw_signals := [[]; [SigPause]; []; [SigSource false "a"; SigResume]] |>.

Lemma late_startable : startable late_run.
Proof.
  split; try (vm_compute; reflexivity).
  - split; vm_compute; discriminate.
  - repeat constructor; discriminate.
  - split; [vm_compute; reflexivity|]. eexists. split; vm_compute; reflexivity.
  - apply Forall_forall. intros x Hx. vm_compute in Hx. apply list_elem_of_singleton in Hx as ->.
    split; [vm_compute; reflexivity|]. eexists. split; vm_compute; reflexivity.
Qed.
Lemma late_falters i : (i < 2)%nat → falters late_server i.
Proof.
  intros Hi request response Hs. destruct i as [|[|i]]; [|done|lia]. injection Hs as <-. split.
  - vm_compute. intros Hin. by repeat (apply elem_of_cons in Hin as [Hin|Hin]; [done|]); apply elem_of_nil in Hin.
  - intros _ text range [= <-] Hr. vm_compute in Hr. injection Hr as <-. split; [|vm_compute; done].
    unfold unbroken. cbn. rewrite !Forall_cons. by intros (_ & _ & Hu & _).
Qed.
Lemma late_answers : answers late_server example_resource 2 8 2.
Proof. by apply honest_answers; [apply late_range|]. Qed.

Lemma worker_completes_witness :
  ∃ s', worker_start Config_default late_server never_elapsed no_dates late_run = (Ok tt, s') ∧
    w_status (rw_worker s') = Completed ∧ length (rw_requests s') = 3%nat ∧
    last (rw_events s') = Some (EvComplete 0).
Proof.
  destruct (worker_completes Config_default late_server never_elapsed no_dates
    example_file_map [1; 2; 3]%positive example_resource 2 8 example_file_map_wf eq_refl
    ltac:(vm_compute; repeat split; congruence) late_serves (concat example_contents) eq_refl
    late_run 2 example_run_inv late_startable eq_refl ltac:(vm_compute; congruence)
    ltac:(vm_compute; split; congruence) ltac:(vm_compute; congruence) late_falters late_answers)
    as (s' & E1 & Hst & _ & _ & _ & Hlast & Hn).
  exists s'. split; [exact E1|]. split; [exact Hst|]. split; [exact Hn|].
  rewrite Hlast.
  assert (w_id (rw_worker (snd (worker_start Config_default late_server never_elapsed no_dates late_run))) = 0)
    as Hid by (vm_compute; reflexivity).
  rewrite E1 in Hid. cbn [snd] in Hid. by rewrite Hid.
Defined.

(** *** A connection that is lost after the last byte

    Bytes are not asked for when all are there: a retry then asks for the whole
    resource, whose answer is not one to a range. *)

(** A server that does what it is asked to, but whose first connection is lost when
    all has been sent. *)
Definition lost_at_the_end (n : nat) (request : Request) : result Response string :=
  match n with
  | O => Ok (ranged "bytes 2-8/10" [Ok (slice example_resource 2 9); Err "reset"])
  | _ => honest 2 8 example_resource request
  end.

(** A worker whose connection is lost after the last byte of its range fails, once
    its retries are used up, although its range has been written. *)
Theorem last_byte_lost :
  let '(r, s) := worker_start Config_default lost_at_the_end never_elapsed no_dates example_run in
  (∃ m, r = Err (Fails (EHttpError 0 200 m))) ∧ is_terminal (w_status (rw_worker s)) = true ∧
  w_status (rw_worker s) ≠ Completed ∧ length (rw_requests s) = 4%nat ∧
  w_downloaded_size (rw_worker s) = expected_length (rw_worker s).
Proof. vm_compute. split; [by eexists|]. by repeat split. Qed.
