(* ===== verification/Job.v ===== *)
(** * The life of a task ([src/src/job])

    The operations that start, pause, resume, cancel and delete a task, prepare
    its payload, create its workers, react to what they report and finish the
    download.  They change the task, its files, what is stored of it, and the
    torrent engine, and send events to the manager.

    The code runs some of it in tasks of its own: what is spawned is kept in a
    list and run as a separate step.  The operations of other threads that come
    in while the origin is being probed are a parameter, [meanwhile].  The origin
    is a function from requests to responses.  A parameter also stands for the
    preparation of torrents, and for the text of the diagnostics file. *)

From S2P Require Import Prelude Text Ranges Status Effect Source Piece Files Checksum Manifest Planner Payload Torrent Config Task Mapping Repository Store Probe.

(** [src/src/p2p/engine.rs:294-315], [TorrentEngine]. Without the start of a session. *)
Class TorrentEngine (E : Type) := {
  pause_session : TorrentEngineHandle → eff E unit;
  resume_session : TorrentEngineHandle → eff E unit;
  cancel_session : TorrentEngineHandle → eff E unit;
  remove_session : TorrentEngineHandle → bool → eff E unit
}.

(** What the code spawns and does not wait for. *)
Inductive spawned :=
  | SpWorkerEventListener
  | SpTorrentEventListener
  | SpPersistWorker (worker_id : Z)
  | SpWorkers (worker_ids : list Z).

(** The task; its files, with the handles of its payload store; the stored rows; the engine; the
    events sent to the manager and those sent by the workers to the task; what has been spawned;
    the number of times the clock has been read. *)
Record job_world (St E : Type) := mk_job {
  jw_task : Task;
  jw_payload : payload_world;
  jw_store : St;
  jw_engine : E;
  jw_events : list Event;
  jw_worker_events : list Event;
  jw_spawned : list spawned;
  jw_readings : nat
}.
Arguments mk_job {St E}.
Arguments jw_task {St E}.
Arguments jw_payload {St E}.
Arguments jw_store {St E}.
Arguments jw_engine {St E}.
Arguments jw_events {St E}.
Arguments jw_worker_events {St E}.
Arguments jw_spawned {St E}.
Arguments jw_readings {St E}.
#[export] Instance job_world_eta {St E} : Settable (job_world St E) := λ w,
  mk_job (jw_task w) (jw_payload w) (jw_store w) (jw_engine w) (jw_events w) (jw_worker_events w)
    (jw_spawned w) (jw_readings w).

(** [src/src/job/prepare.rs:22-26], [PreparationOutcome]. *)
Inductive PreparationOutcome :=
  | PoReady (file_path : string)
  | PoStartedByEngine
  | PoFinished.

(** How a spawned worker ended: with its result, or by a panic. *)
Inductive join_result := Joined (r : res unit) | Panicked (m : string).

Section job.
Context {St E : Type} `{Repository St} `{TorrentEngine E} `{UrlLib} `{HttpLib} `{DigestLib}.
Context `{Json DownloadSpec} `{Json SourceSet} `{Json TorrentEngineState} `{Json TorrentMetadata}.

Abbreviation job := (eff (job_world St E)).

(** The configuration; whether the task has a store and a living manager; the clock; the origin;
    the text of a diagnostics file ([Session.diagnostic_body]); the preparation of a torrent; what others do meanwhile. *)
Context (config : Config) (persistence manager : bool) (clock : nat → DateTime)
  (send : Request → result Response string) (diagnostic_body : Task → Error → DateTime → res bytes)
  (prepare_swarm_download : job PreparationOutcome) (meanwhile : job unit).

(** ** Reaching the parts of the world *)

Definition the_job {A} (f : Task → A) : job A := gets (λ w, f (jw_task w)).
Definition on_job (f : Task → Task) : job unit := modify (λ w, w <| jw_task ::= f |>).
Definition on_store {A} (m : eff St A) : job A := λ w,
  let '(r, s) := m (jw_store w) in (r, w <| jw_store := s |>).
Definition on_payload {A} (m : eff payload_world A) : job A := λ w,
  let '(r, p) := m (jw_payload w) in (r, w <| jw_payload := p |>).
Definition on_engine {A} (m : eff E A) : job A := λ w,
  let '(r, e) := m (jw_engine w) in (r, w <| jw_engine := e |>).
(** An operation of the task on itself that returns a value. *)
Definition of_job {A} (f : Task → A * Task) : job A := λ w,
  let '(a, t) := f (jw_task w) in (Ok a, w <| jw_task := t |>).
Definition spawn (s : spawned) : job unit := modify (λ w, w <| jw_spawned ::= λ l, l ++ [s] |>).
Definition now : job DateTime := λ w,
  (Ok (clock (jw_readings w)), w <| jw_readings ::= S |>).
(** A file operation, its error put after some words. *)
Definition file_op {A} (words : string) (f : fs → result A io_error) : job A := λ w,
  (result_map_err (λ e, EIo (words +:+ io_error_to_string e)) (f (pw_fs (jw_payload w))), w).
Definition set_files (f : fs) : job unit := on_payload (set_fs (λ _, f)).
Definition path_exists (path : string) : job bool :=
  gets (λ w, fs_exists (pw_fs (jw_payload w)) path).
Definition create_dir_all (words path : string) : job unit :=
  let! f := file_op words (λ f, fs_create_dir_all f path) in set_files f.
Definition remove_file (words path : string) : job unit :=
  let! f := file_op words (λ f, fs_remove_file f path) in set_files f.

(** [src/src/job/mod.rs:311-315], [Task::emit_manager_event]. *)
Definition emit_manager_event (event : Event) : job unit :=
  when manager (modify (λ w, w <| jw_events ::= λ l, l ++ [event] |>)).

(** [Task::sync_piece_progress_from_workers], on the task of the world. *)
Definition sync_progress : job Z := λ w,
  let '(r, t) := sync_piece_progress_from_workers (jw_task w) in (r, w <| jw_task := t |>).

(** ** Storing the task *)

(** [src/src/job/storage.rs:8-21], [Task::persist_task]. *)
Definition persist_task : job unit :=
  let! t := now in
  on_job (λ task, task <| t_updated_at := Some t |>) ;;;
  let! task := the_job id in
  when persistence (on_store (store_save_task task)).

(** [src/src/job/storage.rs:23-30], [Task::persist_task_checksums]. *)
Definition persist_task_checksums : job unit :=
  let! task := the_job id in
  when persistence (on_store (store_save_checksums (t_checksums task) (t_id task))).

Definition has_worker_id (worker_id : Z) (w : Worker) : bool := w_id w =? worker_id.

(** [src/src/job/storage.rs:32-56], [Task::persist_task_worker]. *)
Definition persist_task_worker (worker_id : Z) : job unit :=
  if persistence then
    let! worker := the_job (λ t, find_first (has_worker_id worker_id) (t_workers t)) in
    match worker with
    | Some worker =>
        let! t := now in
        let worker := worker <| w_updated_at := Some t |> in
        on_job (λ task, task <| t_workers ::= update_first (has_worker_id worker_id) (λ _, worker) |>) ;;;
        let! task := the_job id in
        on_store (store_save_worker task worker)
    | None => ret tt
    end
  else ret tt.

(** [src/src/job/storage.rs:58-69], [Task::persist_task_worker_later]. *)
Definition persist_task_worker_later (worker_id : Z) : job unit := spawn (SpPersistWorker worker_id).

(** [src/src/job/storage.rs:71-78], [Task::purge_task]. *)
Definition purge_task : job unit :=
  let! id := the_job t_id in
  when persistence (on_store (store_delete_task id ;;; store_delete_workers id)).
(** [src/src/job/storage.rs:80-86], [Task::purge_task_workers]. *)
Definition purge_task_workers : job unit :=
  let! id := the_job t_id in
  when persistence (on_store (store_delete_workers id)).
(** [src/src/job/storage.rs:88-94], [Task::purge_task_checksums]. *)
Definition purge_task_checksums : job unit :=
  let! id := the_job t_id in
  when persistence (on_store (store_delete_checksums id)).

(** ** Changes of status *)

(** [src/src/job/state.rs:72-75], [Task::set_status]. *)
Definition set_status (next_status : Status) : job unit :=
  on_job (λ t, t <| t_status := next_status |>).

(** [src/src/diagnostics.rs:17-41], [write_failure_diagnostic]. *)
Definition write_failure_diagnostic (err : Error) : job string :=
  let diagnostics_dir := path_join (path_join (download_dir config) ".paradown") "diagnostics" in
  create_dir_all "" diagnostics_dir ;;;
  let! t := now in
  let! task := the_job id in
  let path := path_join diagnostics_dir ("task-" +:+ show_u64 (t_id task) +:+ ".json") in
  let! body := lift (diagnostic_body task err t) in
  let! f := file_op "" (λ f, fs_write_file f path body) in
  set_files f ;;; ret path.

(** [src/src/job/state.rs:77-87], [Task::fail_with_error]. *)
Definition fail_with_error (err : Error) : job unit :=
  set_status (Failed err) ;;;
  attempt (write_failure_diagnostic err) ;;;
  let! id := the_job t_id in
  emit_manager_event (EvError id err).

(** Every worker of the task, in order, and what they send to the task. *)
Definition each_worker (f : Worker → Worker * list Event) : job unit := modify (λ w,
  let done := f <$> t_workers (jw_task w) in
  w <| jw_task ::= (λ t, t <| t_workers := done.*1 |>) |>
    <| jw_worker_events ::= (λ l, l ++ concat (done.*2)) |>).

(** [src/src/job/state.rs:89-102], [Task::stop_workers_and_fail]. *)
Definition stop_workers_and_fail (err : Error) : job unit :=
  set_status (Failed err) ;;;
  each_worker worker_cancel ;;;
  fail_with_error err.

(** [src/src/job/state.rs:104-109], [Task::release_permit]. *)
Definition release_permit : job unit := on_job (λ t, t <| t_permit := false |>).

(** [if let Some(session) = .. && let Some(manager) = ..] *)
Definition with_session (f : TorrentEngineHandle → eff E unit) : job unit :=
  let! session := the_job t_torrent_session in
  match session with
  | Some session => when manager (on_engine (f (ts_handle session)))
  | None => ret tt
  end.

Definition cannot (verb : string) (status : Status) : Error :=
  EOther ("Cannot " +:+ verb +:+ " task in state: " +:+ Status_debug status).

(** [src/src/job/state.rs:111-152], [Task::pause]. *)
Definition pause : job unit :=
  let! status := the_job t_status in
  match status with
  | Running | Preparing =>
      set_status Paused ;;;
      with_session pause_session ;;;
      each_worker worker_pause ;;;
      persist_task ;;;
      let! id := the_job t_id in
      emit_manager_event (EvPause id)
  | Paused => ret tt
  | Pending | Completed | Canceled | Deleted | Failed _ => throw (cannot "pause" status)
  end.

(** [src/src/job/state.rs:205-238], [Task::cancel]. *)
Definition cancel : job unit :=
  let! status := the_job t_status in
  match status with
  | Pending | Preparing | Running | Paused =>
      set_status Canceled ;;;
      with_session cancel_session ;;;
      each_worker worker_cancel ;;;
      persist_task ;;;
      let! id := the_job t_id in
      emit_manager_event (EvCancel id)
  | Completed | Canceled | Deleted | Failed _ => throw (cannot "cancel" status)
  end.

(** [src/src/job/state.rs:300-313], [Task::delete_task_file]. *)
Definition delete_task_file : job unit :=
  let! file_path := the_job t_file_path in
  match file_path with
  | Some file_path =>
      let! removed := gets (λ w, fs_remove_file (pw_fs (jw_payload w)) file_path) in
      match removed with
      | Ok f => set_files f
      | Err IoNotFound => ret tt
      | Err err => throw (EIo (io_error_to_string err))
      end
  | None => ret tt
  end.

(** [src/src/job/state.rs:315-319], [Task::clear_task_workers]. *)
Definition clear_task_workers : job unit := on_job (λ t, t <| t_workers := [] |>).

(** A step of a deletion: its failure is the task's. *)
Definition or_fail (m : job unit) : job unit :=
  let! r := attempt m in
  match r with
  | Ok _ => ret tt
  | Err err => release_permit ;;; fail_with_error err ;;; throw err
  end.

(** [src/src/job/state.rs:240-281], [Task::delete]. *)
Definition delete : job unit :=
  with_session (λ handle, remove_session handle true) ;;;
  each_worker worker_delete ;;;
  or_fail delete_task_file ;;;
  or_fail purge_task_workers ;;;
  or_fail purge_task_checksums ;;;
  or_fail purge_task ;;;
  release_permit ;;;
  clear_task_workers ;;;
  on_job clear_manifest_state ;;;
  set_status Deleted ;;;
  let! id := the_job t_id in
  emit_manager_event (EvDelete id).

(** [src/src/job/state.rs:283-298], [Task::reset_task]. *)
Definition reset_task : job unit :=
  clear_task_workers ;;;
  purge_task_workers ;;;
  on_job (λ t, clear_manifest_state
    (t <| t_downloaded_size := 0 |> <| t_total_size := 0 |> <| t_total_size_known := false |>
       <| t_range_requests_supported := false |> <| t_protocol_probe_completed := false |>)) ;;;
  delete_task_file.

(** [src/src/job/state.rs:16-70], [Task::prepare_for_start]. *)
Definition prepare_for_start : job unit :=
  let! status := the_job t_status in
  match status with
  | Pending => ret tt
  | Preparing | Running =>
      throw (EOther ("Task is " +:+ Status_debug status +:+ ", cannot start again"))
  | Paused => ret tt
  | Completed => throw (EOther "Task already completed")
  | Canceled => reset_task
  | Failed _ => reset_task
  | Deleted => throw (EOther "Task deleted")
  end.

(** ** Finishing *)

(** [src/src/job/finalize.rs:74-82], [verify_checksums]. *)
Definition verify_checksums (file_path : string) : job bool :=
  let! t := now in
  let! f := gets (λ w, pw_fs (jw_payload w)) in
  let! verified := of_job (λ task,
    let '(checksums, r) := verify_file_checksums t f file_path (t_checksums task) in
    (r, task <| t_checksums := checksums |>)) in
  lift verified.

(** [src/src/job/finalize.rs:26-72], [finish_job]. Flushing the files to the device changes
    nothing that is modelled. *)
Definition finish_job (outcome : res unit) : job unit :=
  let! id := the_job t_id in
  match outcome with
  | Ok _ =>
      on_job mark_all_pieces_completed ;;;
      set_status Completed ;;;
      persist_task_checksums ;;;
      persist_task ;;;
      emit_manager_event (EvComplete id)
  | Err err =>
      set_status (Failed err) ;;;
      persist_task_checksums ;;;
      persist_task ;;;
      emit_manager_event (EvError id err)
  end.

(** What the verification of the payload comes to. *)
Definition checked (verified : res bool) : res unit :=
  match verified with
  | Ok true => Ok tt
  | Ok false => Err (EOther "Checksum failed")
  | Err err => Err err
  end.

(** [src/src/job/finalize.rs:10-24], [finalize_download]. *)
Definition finalize_download : job unit :=
  let! file_path := the_job t_file_path in
  let! outcome :=
    match file_path with
    | Some path => let! verified := attempt (verify_checksums path) in ret (checked verified)
    | None => ret (Err (EOther "No file path set for task, cannot verify checksum"))
    end in
  finish_job outcome.

(** ** Preparing the payload *)

(** [src/src/job/prepare.rs:340-347], [reset_resume_state]. *)
Definition reset_resume_state : job unit :=
  on_job (λ t, reset_block_progress (reset_piece_progress (t <| t_downloaded_size := 0 |>))) ;;;
  clear_task_workers ;;;
  purge_task_workers.

(** [src/src/job/prepare.rs:325-338], [reset_missing_file_state]. *)
Definition reset_missing_file_state : job unit :=
  let! has_partial_progress := the_job (λ t, 0 <? t_downloaded_size t) in
  let! has_workers := the_job (λ t, negb (bool_decide (t_workers t = []))) in
  if (negb has_partial_progress && negb has_workers)%bool then ret tt else reset_resume_state.

(** [src/src/job/prepare.rs:301-323], [can_resume_partial_download]. *)
Definition can_resume_partial_download (probe : DownloadProtocolProbe)
    (previous_identity : HttpResourceIdentity) (t : Task) : bool :=
  if negb (is_some (pr_total_size probe)) then false
  else if negb (pr_supports_range_requests probe) then false
  else if negb (has_resume_validator previous_identity) then false
  else if validator_changed previous_identity (pr_resource_identity probe) then false
  else negb (bool_decide (t_workers t = [])).

(** [src/src/job/prepare.rs:262-299], [verify_existing_file]. *)
Definition verify_existing_file (file_path : string) (probe : DownloadProtocolProbe)
    (previous_identity : HttpResourceIdentity) : job bool :=
  let! checksums := the_job t_checksums in
  if negb (bool_decide (checksums = [])) then verify_checksums file_path else
  let! file_size := file_op "" (λ f, fs_len f file_path) in
  ret match pr_total_size probe with
      | None => false
      | Some total_size =>
          if negb (file_size =? total_size) then false
          else if negb (has_resume_validator previous_identity) then false
          else if validator_changed previous_identity (pr_resource_identity probe) then false
          else true
      end.

(** [src/src/job/prepare.rs:178-180], [handle_existing_file (remove and reset)]. The download starts
    afresh. *)
Definition discard_file (words file_path : string) : job bool :=
  remove_file words file_path ;;; reset_resume_state ;;; ret false.

(** [src/src/job/prepare.rs:215-226], [handle_existing_file (SkipIfValid)]. A file that is complete:
    it is kept when it verifies. *)
Definition keep_or_discard (file_path : string) (probe : DownloadProtocolProbe)
    (previous_identity : HttpResourceIdentity) : job bool :=
  let! checksum_ok := verify_existing_file file_path probe previous_identity in
  if (checksum_ok : bool) then finish_job (Ok tt) ;;; ret true
  else discard_file "" file_path.

(** [src/src/job/prepare.rs:156-260], [handle_existing_file]. *)
Definition handle_existing_file (file_path : string) (probe : DownloadProtocolProbe)
    (previous_identity : HttpResourceIdentity) (origin_changed : bool) : job bool :=
  let! exists_ := path_exists file_path in
  if negb exists_ then reset_missing_file_state ;;; ret false else
  let! current_size := file_op "Failed to read file metadata: " (λ f, fs_len f file_path) in
  if (origin_changed : bool) then discard_file "" file_path else
  match pr_total_size probe with
  | None => discard_file "" file_path
  | Some total_size =>
      if total_size <? current_size then discard_file "" file_path else
      match file_conflict_strategy config with
      | Overwrite => discard_file "Failed to remove existing file: " file_path
      | SkipIfValid => keep_or_discard file_path probe previous_identity
      | Resume =>
          if current_size <? total_size then
            let! can_resume := the_job (can_resume_partial_download probe previous_identity) in
            if (can_resume : bool) then ret false else discard_file "" file_path
          else keep_or_discard file_path probe previous_identity
      end
  end.

(** [src/src/job/prepare.rs:136-154], [build_runtime_source_set]. *)
Definition build_runtime_source_set (resource_identity : HttpResourceIdentity) (t : Task)
    : SourceSet * Task :=
  let request := t_http_request t in
  let source_set :=
    if sources_is_empty (t_sources t) then sources_for_spec (t_spec t) (Some request)
    else t_sources t in
  let source_set :=
    primary_mut (λ primary,
      let primary := with_identity resource_identity primary in
      if (negb (is_some (src_request primary)) && negb (options_is_empty request))%bool
      then with_request (Some request) primary else primary) source_set in
  (source_set, t <| t_sources := source_set |>).

(** [src/src/job/prepare.rs:101-134], [build_single_file_manifest]. *)
Definition build_single_file_manifest (source_set : SourceSet) (file_path : string)
    (probe : DownloadProtocolProbe) (t : Task) : SessionManifest * Task :=
  let requested_workers :=
    if (pr_supports_range_requests probe && is_some (pr_total_size probe))%bool
    then segments_per_task config else 1 in
  let '(file_name, t) := resolve_or_init_file_name t in
  (match pr_total_size probe with
   | Some total_size =>
       let piece_size := suggested_http_piece_size total_size requested_workers in
       for_single_file_with_piece_size (t_spec t) source_set file_name file_path total_size
         piece_size (Z.min piece_size (256 * 1024)) (t_checksums t)
   | None => for_streaming_file (t_spec t) source_set file_name file_path (t_checksums t)
   end, t).

(** [Task::install_manifest] with its new payload store, which has opened nothing. *)
Definition install (manifest : SessionManifest) : job FileMap :=
  on_job (install_manifest manifest) ;;;
  on_payload (modify (λ p, mk_world (pw_fs p) ∅)) ;;;
  ret (from_manifest manifest).

(** [src/src/job/prepare.rs:28-99], [prepare_download]. *)
Definition prepare_download : job PreparationOutcome :=
  let! spec := the_job t_spec in
  if supports_swarm_discovery spec then prepare_swarm_download else
  let dir := download_dir config in
  let! dir_exists := path_exists dir in
  when (negb dir_exists) (create_dir_all "Failed to create download directory: " dir) ;;;
  let! previous_identity := the_job t_identity in
  let! request := the_job t_http_request in
  meanwhile ;;;
  let! probe := lift (discover_origin send spec request) in
  let origin_changed := validator_changed previous_identity (pr_resource_identity probe) in
  on_job (update_protocol_probe (pr_total_size probe) (pr_supports_range_requests probe)) ;;;
  on_job (λ t, t <| t_identity := pr_resource_identity probe |>) ;;;
  of_job (initialize_file_name (pr_suggested_file_name probe)) ;;;
  let! file_path := of_job (get_or_init_file_path dir) in
  let! file_path := lift file_path in
  let! source_set := of_job (build_runtime_source_set (pr_resource_identity probe)) in
  let! manifest := of_job (build_single_file_manifest source_set file_path probe) in
  let! payload_store := install manifest in
  let! finished := handle_existing_file file_path probe previous_identity origin_changed in
  if (finished : bool) then ret PoFinished else
  sync_progress ;;;
  on_payload (store_prepare payload_store) ;;;
  if bool_decide (pr_total_size probe = Some 0) then
    let! verified := attempt (verify_checksums file_path) in
    finish_job (checked verified) ;;;
    ret PoFinished
  else ret (PoReady file_path).

(** ** Workers *)

(** [src/src/job/workers.rs:125-143], [Task::plan_execution_lanes]. *)
Definition job_execution_lanes (t : Task) : res (list ExecutionLaneAssignment) :=
  let? manifest := ok_or (t_manifest t)
    (EOther ("Task " +:+ show_u64 (t_id t) +:+ " manifest not initialized")) in
  let requested_workers :=
    if t_range_requests_supported t then segments_per_task config else 1 in
  Ok (plan_execution_lanes_with_source_order manifest requested_workers
        (t_range_requests_supported t) (preferred_transfer_source_ids t)).

(** The comparison of a worker with the lane planned for it. *)
Definition matches_assignment (worker : Worker) (assignment : ExecutionLaneAssignment) : bool :=
  let expected_length := sat_add (sat_sub (lane_end assignment) (lane_start assignment)) 1 in
  ((w_id worker =? lane_id assignment) &&
   (w_start worker =? lane_start assignment) &&
   (w_end worker =? lane_end assignment) &&
   String.eqb (src_id (w_source worker)) (lane_source_id assignment) &&
   (w_downloaded_size worker <=? expected_length))%bool.

(** [src/src/job/workers.rs:145-186], [Task::can_reuse_existing_workers]. *)
Definition can_reuse_existing_workers (workers : list Worker) (t : Task) : bool :=
  match job_execution_lanes t with
  | Err _ => false
  | Ok assignments =>
      (bool_decide (length workers = length assignments) &&
       forallb (λ '(worker, assignment), matches_assignment worker assignment)
         (zip workers assignments))%bool
  end.

(** The blocks of a lane, and the loop over them. *)
Definition lane_blocks (manifest : SessionManifest) (assignment : ExecutionLaneAssignment)
    : list PieceBlock :=
  filterb (λ block, sat_sub (sat_add (pb_offset block) (pb_length block)) 1 <=? lane_end assignment)
    (filterb (λ block, lane_start assignment <=? pb_offset block) (m_blocks manifest)).
Fixpoint seed_loop (block_states : list BlockState) (blocks : list PieceBlock) (downloaded : Z) : Z :=
  match blocks with
  | [] => downloaded
  | block :: blocks =>
      if negb (block_completed block_states block) then downloaded
      else seed_loop block_states blocks (sat_add downloaded (pb_length block))
  end.

(** [src/src/job/workers.rs:330-368], [seeded_downloaded_from_block_states]. *)
Definition seeded_downloaded_from_block_states (manifest : SessionManifest)
    (block_states : list BlockState) (assignment : ExecutionLaneAssignment) : Z :=
  Z.min (seed_loop block_states (lane_blocks manifest assignment) 0)
    (sat_add (sat_sub (lane_end assignment) (lane_start assignment)) 1).

(** [src/src/job/workers.rs:87-120], [Task::create_workers (for loop)]. *)
Definition create_worker (manifest : SessionManifest) (block_states : list BlockState)
    (source_set : SourceSet) (file_path : string) (created_at : DateTime)
    (assignment : ExecutionLaneAssignment) : job Worker :=
  let! task := the_job id in
  let! source := lift (ok_or (get_source source_set (lane_source_id assignment))
    (EOther ("Task " +:+ show_u64 (t_id task) +:+ " source " +:+ lane_source_id assignment +:+
       " not found while building execution lanes"))) in
  let seeded_downloaded :=
    seeded_downloaded_from_block_states manifest block_states assignment in
  let worker :=
    Worker_new (lane_id assignment) (t_spec task) source assignment (Some seeded_downloaded)
      file_path (Some Pending) (Some created_at) created_at in
  when persistence (on_store (store_save_worker task worker)) ;;;
  ret worker.

(** [src/src/job/workers.rs:73-123], [Task::create_workers]. *)
Definition create_workers (file_path : string) : job (list Worker) :=
  let! created_at := now in
  let! task := the_job id in
  let! manifest := lift (ok_or (t_manifest task)
    (EOther ("Task " +:+ show_u64 (t_id task) +:+ " manifest not initialized"))) in
  let! assignments := lift (job_execution_lanes task) in
  map_each (create_worker manifest (t_block_states task) (t_sources task) file_path created_at)
    assignments.

(** [src/src/job/workers.rs:37-57], [Task::ensure_workers]. *)
Definition ensure_workers (file_path : string) : job (list Worker) :=
  let! task := the_job id in
  let workers := t_workers task in
  if (negb (bool_decide (workers = [])) && can_reuse_existing_workers workers task)%bool
  then ret workers else
  clear_task_workers ;;;
  purge_task_workers ;;;
  let! created_workers := create_workers file_path in
  on_job (λ t, if bool_decide (t_workers t = []) then t <| t_workers := created_workers |> else t) ;;;
  the_job t_workers.

(** [src/src/job/workers.rs:59-71], [Task::spawn_workers]. *)
Definition spawn_workers (workers : list Worker) : job unit := spawn (SpWorkers (w_id <$> workers)).

(** ** Starting *)

(** [src/src/job/mod.rs:255-264], [Task::init]. *)
Definition init : job unit :=
  persist_task ;;;
  persist_task_checksums ;;;
  spawn SpWorkerEventListener ;;;
  let! id := the_job t_id in
  emit_manager_event (EvPending id).

(** [src/src/job/mod.rs:266-309], [Task::start]. *)
Definition start : job unit :=
  prepare_for_start ;;;
  let! id := the_job t_id in
  set_status Preparing ;;;
  emit_manager_event (EvPreparing id) ;;;
  persist_task ;;;
  let! outcome := prepare_download in
  match outcome with
  | PoReady file_path =>
      set_status Running ;;;
      emit_manager_event (EvStart id) ;;;
      persist_task ;;;
      let! workers := ensure_workers file_path in
      spawn_workers workers
  | PoFinished => ret tt
  | PoStartedByEngine =>
      let! status := the_job t_status in
      when (negb (is_terminal status))
        (set_status Running ;;; persist_task ;;; emit_manager_event (EvStart id)) ;;;
      spawn SpTorrentEventListener
  end.

(** [src/src/job/state.rs:154-203], [Task::resume]. *)
Definition resume : job unit :=
  let! status := the_job t_status in
  match status with
  | Pending | Running => start
  | Paused =>
      let! session := the_job t_torrent_session in
      if (is_some session && manager)%bool then
        set_status Running ;;;
        with_session resume_session ;;;
        persist_task ;;;
        let! id := the_job t_id in
        emit_manager_event (EvStart id)
      else
        set_status Pending ;;;
        persist_task ;;;
        start
  | Completed | Preparing | Canceled | Deleted | Failed _ => throw (cannot "resume" status)
  end.

(** ** Reacting to the workers *)

(** [src/src/job/workers.rs:303-316], [Task::all_workers_completed]. *)
Definition all_workers_completed (t : Task) : bool :=
  forallb (λ w, bool_decide (w_status w = Completed)) (t_workers t).

(** [src/src/job/workers.rs:318-327], [Task::all_workers_canceled_or_completed]. *)
Definition all_workers_canceled_or_completed (t : Task) : bool :=
  forallb (λ w, match w_status w with Canceled | Completed => true | _ => false end) (t_workers t).

(** [src/src/job/workers.rs:199-217], [Task::handle_worker_progress]. *)
Definition handle_worker_progress (worker_id : Z) : job unit :=
  persist_task_worker_later worker_id ;;;
  let! progress := attempt sync_progress in
  match progress with
  | Ok downloaded =>
      let! task := the_job id in
      emit_manager_event (EvProgress (t_id task) downloaded (t_total_size task))
  | Err _ => ret tt
  end.

(** [src/src/job/workers.rs:219-247], [Task::handle_worker_complete]. *)
Definition handle_worker_complete (worker_id : Z) : job unit :=
  persist_task_worker_later worker_id ;;;
  attempt sync_progress ;;;
  let! completed := the_job all_workers_completed in
  if negb completed then ret tt else
  let! finalized := attempt finalize_download in
  match finalized with
  | Ok _ => ret tt
  | Err err => let! id := the_job t_id in emit_manager_event (EvError id err)
  end.

(** [src/src/job/workers.rs:249-254], [Task::handle_worker_error]. *)
Definition handle_worker_error (worker_id : Z) (err : Error) : job unit :=
  persist_task_worker_later worker_id ;;;
  stop_workers_and_fail err.

(** [src/src/job/workers.rs:256-265], [Task::handle_worker_pause]. *)
Definition handle_worker_pause (worker_id : Z) : job unit :=
  persist_task_worker_later worker_id ;;;
  attempt sync_progress ;;; ret tt.

(** [src/src/job/workers.rs:267-281], [Task::handle_worker_cancel]. *)
Definition handle_worker_cancel (worker_id : Z) : job unit :=
  persist_task_worker_later worker_id ;;;
  let! status := the_job t_status in
  match status with
  | Failed _ => ret tt
  | _ =>
      let! ended := the_job all_workers_canceled_or_completed in
      if negb ended then ret tt else
      set_status Canceled ;;;
      let! id := the_job t_id in
      emit_manager_event (EvCancel id)
  end.

(** [src/src/job/workers.rs:188-197], [Task::handle_worker_event]. *)
Definition handle_worker_event (event : Event) : job unit :=
  match event with
  | EvProgress id _ _ => handle_worker_progress id
  | EvComplete worker_id => handle_worker_complete worker_id
  | EvError worker_id err => handle_worker_error worker_id err
  | EvPause worker_id => handle_worker_pause worker_id
  | EvCancel worker_id => handle_worker_cancel worker_id
  | _ => ret tt
  end.

(** [src/src/job/workers.rs:17-35], [Task::spawn_worker_event_listener]. A message is an event or the
    news that some were skipped. *)
Definition worker_event_loop (received : list (option Event)) : job unit :=
  for_each (λ m, match m with
    | Some event => let! _ := attempt (handle_worker_event event) in ret tt
    | None => ret tt
    end) received.

(** [src/src/job/workers.rs:283-301], [Task::handle_worker_join_results]. *)
Definition handle_worker_join_results (results : list join_result) : job unit :=
  for_each (λ result,
    match result with
    | Joined (Ok _) => ret tt
    | Joined (Err err) => stop_workers_and_fail err
    | Panicked m => stop_workers_and_fail (EOther m)
    end) results.

(** The body of the spawned [persist_task_worker_later]. *)
Definition run_persist_worker (worker_id : Z) : job unit :=
  let! persisted := attempt (persist_task_worker worker_id) in
  match persisted with
  | Ok _ => ret tt
  | Err err => stop_workers_and_fail err
  end.
End job.
