(* ===== verification/JobFacts.v ===== *)
(** * What the life of a task guarantees

    The properties of [Job], over any repository that keeps its contract and
    for a task that has a store and a living manager. *)

From S2P Require Import Prelude Text Ranges Status Effect Source Piece Files Checksum Manifest Planner Payload Torrent Config Task Mapping Repository Memory Store Probe Job.

(** What a run of an operation comes to. *)
Definition runs {S A} (m : eff S A) (s : S) (a : A) (s' : S) : Prop := m s = (Ok a, s').

Section facts.
Context {St E : Type} `{RepositoryLaws St} `{TorrentEngine E}.
Context `{Json DownloadSpec} `{Json SourceSet} `{Json TorrentEngineState} `{Json TorrentMetadata}.
Context (clock : nat → DateTime).

Abbreviation world := (job_world St E).
Implicit Types (w : world) (t : Task).

(** ** Steps *)

Lemma on_store_ok op f w :
  updates repo_ok view op f → repo_ok (jw_store w) →
  ∃ s, on_store op w = (Ok tt, w <| jw_store := s |>) ∧ repo_ok s ∧ view s ≡ f (view (jw_store w)).
Proof.
  intros Hop Hok. destruct (Hop _ Hok) as (s & E1 & Hs & V). exists s.
  unfold on_store. by rewrite E1.
Qed.

(** What the store holds of a task after it has been saved. *)
Definition saved (t : Task) (v : repo_view) : repo_view :=
  view_write stored_worker stored_checksum
    (WSaveBundle (task_to_db t) (worker_to_db t <$> t_workers t)
       (piece_states_to_db (t_id t) (t_piece_states t))
       (block_states_to_db (t_id t) (t_block_states t))
       ((λ c, checksum_to_db c (t_id t)) <$> t_checksums t)) v.

Lemma persist_task_ok w :
  repo_ok (jw_store w) → task_rows_ok (jw_task w) →
  ∃ s, let t := jw_task w <| t_updated_at := Some (clock (jw_readings w)) |> in
    persist_task true clock w =
      (Ok tt, w <| jw_readings ::= S |> <| jw_task := t |> <| jw_store := s |>) ∧
    repo_ok s ∧ view s ≡ saved t (view (jw_store w)).
Proof.
  destruct w as [task p st e ev wev sp n]. intros Hok Hrows. cbn in Hok, Hrows.
  set (w := mk_job task p st e ev wev sp n).
  set (t := jw_task w <| t_updated_at := Some (clock (jw_readings w)) |>).
  destruct (on_store_ok _ _ (w <| jw_readings ::= S |> <| jw_task := t |>)
    (store_save_task_updates t Hrows)) as (s & E1 & Hs & V).
  { cbn. exact Hok. }
  exists s. split; [exact E1|by split].
Qed.

Lemma workers_map_rows f t :
  (∀ x, w_id (f x) = w_id x) → task_rows_ok t → task_rows_ok (t <| t_workers ::= fmap f |>).
Proof.
  intros Hf (Hw & Hrest). split; [|exact Hrest]. cbn. rewrite <- list_fmap_compose.
  erewrite list_fmap_ext; [exact Hw|]. intros i x _. apply Hf.
Qed.

Lemma each_worker_eq f w :
  each_worker f w = (Ok tt, w <| jw_task ::= λ t, t <| t_workers ::= fmap (fst ∘ f) |> |>
    <| jw_worker_events ::= λ l, l ++ concat ((snd ∘ f) <$> t_workers (jw_task w)) |>).
Proof.
  destruct w as [[]]. unfold each_worker, modify. cbn. by rewrite <- !list_fmap_compose.
Qed.

(** ** Pausing and cancelling *)

(** The end of an interruption: the workers are told, the task is saved, the manager is told. *)
Definition interrupted (status : Status) (f : Worker → Worker * list Event) (event : Event)
    (w w' : world) : Prop :=
  jw_task w' = jw_task w <| t_status := status |> <| t_workers ::= fmap (fst ∘ f) |>
    <| t_updated_at := Some (clock (jw_readings w)) |> ∧
  jw_events w' = jw_events w ++ [event] ∧
  jw_worker_events w' = jw_worker_events w ++ concat ((snd ∘ f) <$> t_workers (jw_task w)) ∧
  jw_payload w' = jw_payload w ∧
  repo_ok (jw_store w') ∧ view (jw_store w') ≡ saved (jw_task w') (view (jw_store w)).

Lemma interrupt_ok status op f event w :
  repo_ok (jw_store w) → task_rows_ok (jw_task w) → t_torrent_session (jw_task w) = None →
  (∀ x, w_id (fst (f x)) = w_id x) →
  ∃ w', (set_status status ;;; with_session true op ;;; each_worker f ;;; persist_task true clock ;;;
    let! id := the_job t_id in emit_manager_event true (event id)) w = (Ok tt, w') ∧
    interrupted status f (event (t_id (jw_task w))) w w'.
Proof.
  intros Hok Hrows Hsession Hf.
  set (w1 := w <| jw_task ::= λ t, t <| t_status := status |> |>).
  erewrite (eff_bind_ok _ _ _ tt w1) by done.
  rewrite (eff_bind_ok _ _ _ tt w1).
  2: { unfold with_session, eff_bind, the_job, gets. cbn. by rewrite Hsession. }
  rewrite (eff_bind_ok _ _ _ _ _ (each_worker_eq f w1)).
  match goal with |- context [eff_bind _ _ ?w2] => destruct (persist_task_ok w2) as (s & E1 & Hs & V) end.
  - exact Hok.
  - apply workers_map_rows; [done|]. destruct Hrows as (? & ? & ? & ?). by split_and!.
  - rewrite (eff_bind_ok _ _ _ _ _ E1). eexists. split; [done|]. by split_and!.
Qed.

(** C31. Pausing and cancelling.  Only a running or preparing task is paused, and
    every task that has not ended is cancelled; then each worker is told, what is
    stored of the task is what it has become, and the manager is told.  A paused
    task stays paused; otherwise the request is refused and nothing changes. *)
Theorem pause_cancel_spec w :
  repo_ok (jw_store w) → task_rows_ok (jw_task w) → t_torrent_session (jw_task w) = None →
  let id := t_id (jw_task w) in
  match t_status (jw_task w) with
  | Running | Preparing => ∃ w', pause true true clock w = (Ok tt, w') ∧
      interrupted Paused worker_pause (EvPause id) w w'
  | Paused => pause true true clock w = (Ok tt, w)
  | s => pause true true clock w = (Err (cannot "pause" s), w)
  end ∧
  match t_status (jw_task w) with
  | Pending | Preparing | Running | Paused => ∃ w', cancel true true clock w = (Ok tt, w') ∧
      interrupted Canceled worker_cancel (EvCancel id) w w' ∧
      Forall (λ x, should_stop_gracefully x = true) (t_workers (jw_task w'))
  | s => cancel true true clock w = (Err (cannot "cancel" s), w)
  end.
Proof.
  intros Hok Hrows Hs id. split.
  - destruct (t_status (jw_task w)) eqn:E1; unfold pause, eff_bind at 1, the_job, gets; rewrite E1;
      try done; by apply interrupt_ok; [..|intros x; unfold worker_pause; repeat case_match].
  - assert (∃ w', (set_status Canceled ;;; with_session true cancel_session ;;;
      each_worker worker_cancel ;;; persist_task true clock ;;;
      let! id := the_job t_id in emit_manager_event true (EvCancel id)) w = (Ok tt, w') ∧
      interrupted Canceled worker_cancel (EvCancel id) w w' ∧
      Forall (λ x, should_stop_gracefully x = true) (t_workers (jw_task w'))) as Hcancel.
    { destruct (interrupt_ok Canceled cancel_session worker_cancel EvCancel w Hok Hrows Hs)
        as (w' & E1 & Hi); [done|]. exists w'. split_and!; [done|done|].
      destruct Hi as (-> & _). cbn. rewrite Forall_fmap. apply Forall_true. intros x.
      unfold should_stop_gracefully. cbn. by rewrite orb_true_r. }
    destruct (t_status (jw_task w)) eqn:E1; unfold cancel, eff_bind at 1, the_job at 1, gets at 1;
      rewrite E1; done.
Qed.

Lemma purge_ok op f w :
  (∀ id, updates repo_ok view (op id) (f id)) → repo_ok (jw_store w) →
  ∃ s, (let! id := the_job t_id in when true (on_store (op id))) w =
    (Ok tt, w <| jw_store := s |>) ∧ repo_ok s ∧ view s ≡ f (t_id (jw_task w)) (view (jw_store w)).
Proof. intros Hop. apply on_store_ok, Hop. Qed.

Lemma purge_task_ok w :
  repo_ok (jw_store w) →
  ∃ s, purge_task true w = (Ok tt, w <| jw_store := s |>) ∧ repo_ok s ∧
    let v := view (jw_store w) in let id := t_id (jw_task w) in
    (∀ r, v_task (view s) r ↔ without dt_id id (v_task v) r) ∧
    (∀ x, v_worker (view s) x ↔ without dw_task_id id (v_worker v) x) ∧
    (∀ p, v_piece (view s) p ↔ without dp_task_id id (v_piece v) p) ∧
    (∀ b, v_block (view s) b ↔ without db_task_id id (v_block v) b) ∧
    keeps_others dc_task_id id (v_checksum v) (v_checksum (view s)).
Proof.
  intros Hok. set (id := t_id (jw_task w)).
  destruct (store_delete_task_ok id (jw_store w) Hok) as (s1 & E1 & Hs1 & (T1 & W1 & P1 & B1 & C1)).
  destruct (law_delete_workers id s1 Hs1) as (s2 & E2 & Hs2 & (T2 & W2 & P2 & B2 & C2)). exists s2.
  split.
  { unfold purge_task, eff_bind at 1, the_job, gets, when, on_store. fold id.
    rewrite (eff_bind_ok _ _ _ _ _ E1). unfold store_delete_workers. by rewrite E2. }
  split; [done|]. cbn in T2, W2, P2, B2, C2. split_and!.
  - intros t. by rewrite T2.
  - intros x. rewrite W2. specialize (W1 x). unfold replaced, without. rewrite elem_of_nil. tauto.
  - intros p. by rewrite P2.
  - intros b. by rewrite B2.
  - intros c. rewrite C2. apply C1.
Qed.

(** ** Deleting *)
Section deleting.
Context (config : Config) (diagnostic_body : Task → Error → DateTime → res bytes).

(** The rest of the world when only files and the clock change. *)
Definition only_files w w' : Prop :=
  jw_task w' = jw_task w ∧ jw_store w' = jw_store w ∧ jw_events w' = jw_events w ∧
  jw_worker_events w' = jw_worker_events w.
#[local] Instance only_files_refl : Reflexive only_files.
Proof. by intros w. Qed.
#[local] Instance only_files_trans : Transitive only_files.
Proof. intros ??? (?&?&?&?) (?&?&?&?). split_and!; by etransitivity. Qed.

Lemma diagnostic_files err :
  keeps only_files (attempt (F:=Error) (S:=world)
    (write_failure_diagnostic config clock diagnostic_body err)).
Proof.
  unfold write_failure_diagnostic, create_dir_all. apply keeps_attempt.
  repeat first [apply keeps_bind; [apply _|..] | intros ? | apply keeps_ret; apply _
    | apply keeps_lift; apply _]; by repeat split.
Qed.

Lemma fail_with_error_eq err w :
  ∃ w', fail_with_error config true clock diagnostic_body err w = (Ok tt, w') ∧
    jw_task w' = jw_task w <| t_status := Failed err |> ∧ jw_store w' = jw_store w ∧
    jw_events w' = jw_events w ++ [EvError (t_id (jw_task w)) err].
Proof.
  unfold fail_with_error. set (w1 := w <| jw_task ::= λ t, t <| t_status := Failed err |> |>).
  erewrite (eff_bind_ok _ _ _ tt w1) by done.
  pose proof (diagnostic_files err w1) as (E1 & E2 & E3 & _). unfold eff_bind at 1.
  unfold attempt in *. destruct (write_failure_diagnostic _ _ _ _ w1) as [r w2]. cbn in *.
  eexists. split; [done|]. cbn. rewrite E1, E2, E3. by split_and!.
Qed.

Lemma or_fail_ok m w w' :
  m w = (Ok tt, w') → or_fail config true clock diagnostic_body m w = (Ok tt, w').
Proof. intros E1. unfold or_fail, eff_bind, attempt. by rewrite E1. Qed.

Lemma or_fail_err m w e w1 :
  m w = (Err e, w1) → ∃ w', or_fail config true clock diagnostic_body m w = (Err e, w') ∧
    jw_task w' = jw_task w1 <| t_permit := false |> <| t_status := Failed e |> ∧
    jw_store w' = jw_store w1 ∧ jw_events w' = jw_events w1 ++ [EvError (t_id (jw_task w1)) e].
Proof.
  intros E1. unfold or_fail, eff_bind at 1, attempt. rewrite E1.
  set (w2 := w1 <| jw_task ::= λ t, t <| t_permit := false |> |>).
  erewrite (eff_bind_ok _ _ _ tt w2) by done.
  destruct (fail_with_error_eq e w2) as (w' & E2 & Ht & Hs & Hv). exists w'.
  rewrite (eff_bind_ok _ _ _ _ _ E2). by split_and!.
Qed.

(** The files once the task's own is gone. *)
Definition without_file (path : option string) (f : fs) : fs :=
  match path with Some path => mk_fs (base.delete path (fs_names f)) (fs_inodes f) | None => f end.

Lemma delete_task_file_eq w :
  (∀ path, t_file_path (jw_task w) = Some path → fs_names (pw_fs (jw_payload w)) !! path ≠ Some NDir) →
  delete_task_file w = (Ok tt, w <| jw_payload ::= λ p,
    mk_world (without_file (t_file_path (jw_task w)) (pw_fs p)) (pw_handles p) |>).
Proof.
  destruct w as [t [[names inodes] handles] st e ev wev sp n]. cbn. intros Hdir.
  unfold delete_task_file, eff_bind, the_job, gets. cbn [jw_task].
  destruct (t_file_path t) as [path|] eqn:Hp; [|done]. specialize (Hdir path eq_refl).
  cbn -[fs_remove_file]. unfold fs_remove_file. cbn.
  destruct (names !! path) as [[i|]|] eqn:Hn; [done|done|]. cbn.
  unfold update. cbn. by rewrite delete_id.
Qed.

(** The session of a torrent is removed from the engine first. *)
Definition removed_session w : res unit * E :=
  match t_torrent_session (jw_task w) with
  | Some session => remove_session (ts_handle session) true (jw_engine w)
  | None => (Ok tt, jw_engine w)
  end.
(** Then what is there of the task is removed, in this order. *)
Definition deletion_steps : list (eff world unit) :=
  [delete_task_file; purge_task_workers true; purge_task_checksums true; purge_task true].
(** The task when its workers have been told. *)
Definition workers_told w : world := snd (each_worker worker_delete w).

Lemma delete_start w :
  delete config true true clock diagnostic_body w =
  match removed_session w with
  | (Err e, engine) => (Err e, w <| jw_engine := engine |>)
  | (Ok _, engine) =>
      (or_fail config true clock diagnostic_body delete_task_file ;;;
       or_fail config true clock diagnostic_body (purge_task_workers true) ;;;
       or_fail config true clock diagnostic_body (purge_task_checksums true) ;;;
       or_fail config true clock diagnostic_body (purge_task true) ;;;
       release_permit ;;; clear_task_workers ;;; on_job clear_manifest_state ;;; set_status Deleted ;;;
       let! id := the_job t_id in emit_manager_event true (EvDelete id))
      (workers_told (w <| jw_engine := engine |>))
  end.
Proof.
  assert (with_session true (λ handle, remove_session handle true) w =
    (fst (removed_session w), w <| jw_engine := snd (removed_session w) |>)) as E1.
  { unfold with_session, removed_session, eff_bind, the_job, gets.
    destruct (t_torrent_session (jw_task w)) as [s|]; [|by destruct w].
    unfold when, on_engine. by destruct (remove_session _ _ _). }
  unfold delete. destruct (removed_session w) as [[[]|e] engine]; cbn [fst snd] in E1.
  - rewrite (eff_bind_ok _ _ _ _ _ E1). unfold workers_told. rewrite each_worker_eq.
    by erewrite eff_bind_ok by apply each_worker_eq.
  - by apply eff_bind_err.
Qed.

Lemma delete_outcome w engine :
  repo_ok (jw_store w) → removed_session w = (Ok tt, engine) →
  let f := pw_fs (jw_payload w) in
  (∀ path, t_file_path (jw_task w) = Some path → fs_names f !! path ≠ Some NDir) →
  ∃ w', delete config true true clock diagnostic_body w = (Ok tt, w') ∧
    jw_task w' = clear_manifest_state (jw_task w <| t_permit := false |> <| t_workers := [] |>)
      <| t_status := Deleted |> ∧
    jw_engine w' = engine ∧
    jw_events w' = jw_events w ++ [EvDelete (t_id (jw_task w))] ∧
    jw_worker_events w' = jw_worker_events w ++ concat ((snd ∘ worker_delete) <$> t_workers (jw_task w)) ∧
    pw_fs (jw_payload w') = without_file (t_file_path (jw_task w)) f ∧
    repo_ok (jw_store w') ∧ view (jw_store w') ≡ drop_task (t_id (jw_task w)) (view (jw_store w)).
Proof.
  intros Hok Hs f Hdir. rewrite delete_start, Hs. unfold workers_told. rewrite each_worker_eq. cbn [snd].
  set (w1 := w <| jw_engine := engine |> <| jw_task ::= _ |> <| jw_worker_events ::= _ |>).
  pose proof (delete_task_file_eq w1 Hdir) as E1.
  rewrite (eff_bind_ok _ _ _ _ _ (or_fail_ok _ _ _ E1)).
  match type of E1 with _ = (_, ?w) => set (w2 := w) in * end.
  destruct (purge_ok store_delete_workers (λ id, set_workers id []) w2) as (s1 & E2 & Hs1 & V1);
    [apply law_delete_workers|exact Hok|].
  rewrite (eff_bind_ok _ _ _ _ _ (or_fail_ok _ _ _ E2)).
  destruct (purge_ok store_delete_checksums (λ id, set_checksums id []) (w2 <| jw_store := s1 |>))
    as (s2 & E3 & Hs2 & V2); [apply law_delete_checksums|exact Hs1|].
  rewrite (eff_bind_ok _ _ _ _ _ (or_fail_ok _ _ _ E3)).
  destruct (purge_task_ok (w2 <| jw_store := s1 |> <| jw_store := s2 |>)) as (s3 & E4 & Hs3 & V3); [exact Hs2|].
  rewrite (eff_bind_ok _ _ _ _ _ (or_fail_ok _ _ _ E4)).
  eexists. split; [reflexivity|]. split_and!; try done.
  change (view s3 ≡ drop_task (t_id (jw_task w)) (view (jw_store w))).
  destruct V3 as (T3 & W3 & P3 & B3 & C3). destruct V2 as (T2 & W2 & P2 & B2 & C2).
  destruct V1 as (T1 & W1 & P1 & B1 & C1).
  cbn in T1, W1, P1, B1, C1, T2, W2, P2, B2, C2, T3, W3, P3, B3, C3.
  split_and!; intros x; cbn.
  - rewrite T3. unfold without. by rewrite T2, T1.
  - specialize (W3 x). specialize (W2 x). specialize (W1 x).
    unfold replaced, without in *. rewrite elem_of_nil in *. tauto.
  - rewrite P3. unfold without. by rewrite P2, P1.
  - rewrite B3. unfold without. by rewrite B2, B1.
  - specialize (C3 x). specialize (C2 x). specialize (C1 x).
    unfold replaced, without in *. rewrite elem_of_nil in *. tauto.
Qed.

(** The steps of a deletion change neither the task nor what the manager was told. *)
Lemma step_keeps step w r w' :
  step ∈ deletion_steps → step w = (r, w') → jw_task w' = jw_task w ∧ jw_events w' = jw_events w.
Proof.
  assert (∀ op, (let! id := the_job t_id in when true (on_store (op id))) w = (r, w') →
    jw_task w' = jw_task w ∧ jw_events w' = jw_events w) as Hpurge.
  { intros op. unfold eff_bind, the_job, gets, when, on_store. destruct (op _ _) as [r1 s]. by intros [= _ <-]. }
  intros Hstep. unfold deletion_steps in Hstep. rewrite !elem_of_cons, elem_of_nil in Hstep.
  destruct Hstep as [->|[->|[->|[->|[]]]]]; [| |apply Hpurge..]; [|apply Hpurge].
  unfold delete_task_file, eff_bind, the_job, gets. destruct (t_file_path (jw_task w)); [|by intros [= _ <-]].
  destruct (fs_remove_file _ _) as [f|[]]; intros E1; by injection E1 as _ <-.
Qed.
Lemma steps_keep before w r w' :
  (∀ step, step ∈ before → step ∈ deletion_steps) → for_each (λ m, m) before w = (r, w') →
  jw_task w' = jw_task w ∧ jw_events w' = jw_events w.
Proof.
  revert w. induction before as [|step before IH]; intros w Hin; cbn [for_each]; [by intros [= _ <-]|].
  unfold eff_bind. destruct (step w) as [[u|e] w1] eqn:E1.
  - intros E2. apply step_keeps in E1; [|apply Hin; by left]. destruct E1 as [<- <-].
    apply IH; [|done]. intros m Hm. apply Hin. by right.
  - intros [= _ <-]. apply step_keeps in E1; [done|]. apply Hin. by left.
Qed.

(** A step that fails is the last one, and its error is the task's. *)
Lemma delete_failing before step after engine w w1 w2 err :
  removed_session w = (Ok tt, engine) → deletion_steps = before ++ step :: after →
  for_each (λ m, m) before (workers_told (w <| jw_engine := engine |>)) = (Ok tt, w1) →
  step w1 = (Err err, w2) →
  ∃ w', delete config true true clock diagnostic_body w = (Err err, w') ∧
    jw_task w' = jw_task w <| t_workers ::= fmap (fst ∘ worker_delete) |> <| t_permit := false |>
      <| t_status := Failed err |> ∧
    jw_store w' = jw_store w2 ∧ jw_events w' = jw_events w ++ [EvError (t_id (jw_task w)) err].
Proof.
  intros Hs Hsplit Ebefore Estep. rewrite delete_start, Hs. set (w0 := workers_told _) in *.
  assert (jw_task w0 = jw_task w <| t_workers ::= fmap (fst ∘ worker_delete) |> ∧ jw_events w0 = jw_events w)
    as [Ht0 Hv0] by (subst w0; unfold workers_told; by rewrite each_worker_eq).
  assert (jw_task w2 = jw_task w0 ∧ jw_events w2 = jw_events w0) as [Ht2 Hv2].
  { apply steps_keep in Ebefore as [<- <-]; [|rewrite Hsplit; set_solver].
    by apply (step_keeps step) in Estep; [|rewrite Hsplit; set_solver]. }
  destruct (or_fail_err _ _ _ _ Estep) as (w' & E' & Ht & Hst & Hv). exists w'.
  rewrite Hst, Hv, Ht, Ht2, Hv2, Hv0, Ht0. split; [|by split_and!]. clearbody w0. clear -Hsplit Ebefore E'.
  unfold deletion_steps in Hsplit.
  destruct before as [|m1 [|m2 [|m3 [|m4 [|? ?]]]]]; try discriminate Hsplit;
    cbn [for_each] in Ebefore.
  - injection Hsplit as <- _. injection Ebefore as <-. by rewrite (eff_bind_err _ _ _ _ _ E').
  - injection Hsplit as <- <- _. apply eff_bind_inv in Ebefore as ([] & wa & Ea & [= <-]).
    rewrite (eff_bind_ok _ _ _ _ _ (or_fail_ok _ _ _ Ea)). by rewrite (eff_bind_err _ _ _ _ _ E').
  - injection Hsplit as <- <- <- _. apply eff_bind_inv in Ebefore as ([] & wa & Ea & Ebefore).
    apply eff_bind_inv in Ebefore as ([] & wb & Eb & [= <-]).
    rewrite (eff_bind_ok _ _ _ _ _ (or_fail_ok _ _ _ Ea)), (eff_bind_ok _ _ _ _ _ (or_fail_ok _ _ _ Eb)).
    by rewrite (eff_bind_err _ _ _ _ _ E').
  - injection Hsplit as <- <- <- <- _. apply eff_bind_inv in Ebefore as ([] & wa & Ea & Ebefore).
    apply eff_bind_inv in Ebefore as ([] & wb & Eb & Ebefore).
    apply eff_bind_inv in Ebefore as ([] & wc & Ec & [= <-]).
    rewrite (eff_bind_ok _ _ _ _ _ (or_fail_ok _ _ _ Ea)), (eff_bind_ok _ _ _ _ _ (or_fail_ok _ _ _ Eb)),
      (eff_bind_ok _ _ _ _ _ (or_fail_ok _ _ _ Ec)).
    by rewrite (eff_bind_err _ _ _ _ _ E').
Qed.

(** C29. Deleting a task.  The session of a torrent is removed first; when the
    engine refuses, its error is returned and the task is left as it was, with its
    permit and its status.  Otherwise the workers are told, and the file and the
    rows of the task go in the order of [deletion_steps]: the first of these steps
    that fails is the last, its error is returned, and the task is Failed and has
    given back its permit, the manager is told of the error, and what that step
    left stored stays.  With a repository that keeps the contract only a directory
    in the place of the file can fail it; else the file is gone, and of what is
    stored all that is of the task, in every table, and nothing else; the task gives
    back its permit, keeps no worker and no manifest, is Deleted, and the manager
    is told. *)
Theorem delete_spec w :
  let id := t_id (jw_task w) in
  let f := pw_fs (jw_payload w) in
  let dir path := t_file_path (jw_task w) = Some path ∧ fs_names f !! path = Some NDir in
  let '(removed, engine) := removed_session w in
  match removed with
  | Err err => delete config true true clock diagnostic_body w = (Err err, w <| jw_engine := engine |>)
  | Ok _ =>
      (repo_ok (jw_store w) → (∀ path, ¬ dir path) →
       ∃ w', delete config true true clock diagnostic_body w = (Ok tt, w') ∧
         jw_task w' = clear_manifest_state (jw_task w <| t_permit := false |> <| t_workers := [] |>)
           <| t_status := Deleted |> ∧
         jw_engine w' = engine ∧ jw_events w' = jw_events w ++ [EvDelete id] ∧
         jw_worker_events w' = jw_worker_events w ++ concat ((snd ∘ worker_delete) <$> t_workers (jw_task w)) ∧
         pw_fs (jw_payload w') = without_file (t_file_path (jw_task w)) f ∧
         repo_ok (jw_store w') ∧ view (jw_store w') ≡ drop_task id (view (jw_store w))) ∧
      (∀ before step after w1 w2 err,
         deletion_steps = before ++ step :: after →
         for_each (λ m, m) before (workers_told (w <| jw_engine := engine |>)) = (Ok tt, w1) →
         step w1 = (Err err, w2) →
         ∃ w', delete config true true clock diagnostic_body w = (Err err, w') ∧
           jw_task w' = jw_task w <| t_workers ::= fmap (fst ∘ worker_delete) |> <| t_permit := false |>
             <| t_status := Failed err |> ∧
           jw_store w' = jw_store w2 ∧ jw_events w' = jw_events w ++ [EvError id err]) ∧
      (∀ path, dir path →
       ∃ w', let err := EIo (io_error_to_string IoIsADirectory) in
         delete config true true clock diagnostic_body w = (Err err, w') ∧
         t_status (jw_task w') = Failed err ∧ t_permit (jw_task w') = false ∧
         jw_events w' = jw_events w ++ [EvError id err] ∧ jw_store w' = jw_store w)
  end.
Proof.
  intros id f dir. destruct (removed_session w) as [[[]|e] engine] eqn:Hs; [|by rewrite delete_start, Hs].
  split; [|split].
  - intros Hok Hdir. apply delete_outcome; [done|done|]. intros path Hp Hn. by apply (Hdir path).
  - intros before step after w1 w2 err. by apply delete_failing.
  - intros path [Hp Hn]. set (w0 := workers_told (w <| jw_engine := engine |>)).
    assert (delete_task_file w0 = (Err (EIo (io_error_to_string IoIsADirectory)), w0)) as E1.
    { subst w0. unfold workers_told. rewrite each_worker_eq. cbn [snd].
      unfold delete_task_file, eff_bind, the_job, gets. cbn -[fs_remove_file]. rewrite Hp.
      unfold fs_remove_file. cbn. unfold f in Hn. by rewrite Hn. }
    destruct (delete_failing [] _ _ _ _ _ _ _ Hs eq_refl eq_refl E1) as (w' & E2 & Ht & Hst & Hv).
    exists w'. split; [exact E2|]. rewrite Ht, Hst, Hv. split_and!; try done.
Qed.

End deleting.

(** ** Finishing *)

Lemma saved_put_checksum t c v :
  dc_task_id c = t_id t → saved t (put_checksum c v) ≡ saved t v.
Proof.
  intros Hc. unfold saved. cbn [view_write]. rewrite task_to_db_id.
  split_and!; intros x; simpl; try done. unfold replaced, without, upsert, checksum_key.
  split; [naive_solver|]. intros [Hx|[Hx Hne]]; [by left|]. right. split; [|done]. right.
  split; [done|]. congruence.
Qed.

Lemma saved_proper t v v' : v ≡ v' → saved t v ≡ saved t v'.
Proof. intros Hv. unfold saved. by rewrite Hv. Qed.

Lemma stored_checksum_task c : dc_task_id (stored_checksum c) = dc_task_id c.
Proof. rewrite <- (stored_checksum_id c) at 2. done. Qed.

Lemma persist_checksums_ok w :
  repo_ok (jw_store w) →
  ∃ s, persist_task_checksums true w = (Ok tt, w <| jw_store := s |>) ∧ repo_ok s ∧
    ∀ t, t_id t = t_id (jw_task w) → saved t (view s) ≡ saved t (view (jw_store w)).
Proof.
  intros Hok. set (id := t_id (jw_task w)).
  assert (updates repo_ok view (store_save_checksums (t_checksums (jw_task w)) id)
    (λ v, foldl (λ v c, put_checksum (stored_checksum (checksum_to_db c id)) v) v
       (t_checksums (jw_task w)))) as Hop.
  { apply (updates_for_each _ _ _ (λ c, put_checksum (stored_checksum (checksum_to_db c id))));
      [|apply _]. intros c. apply law_save_checksum. }
  destruct (on_store_ok _ _ w Hop Hok) as (s & E1 & Hs & V). exists s. split; [exact E1|].
  split; [done|]. intros t Ht. rewrite (saved_proper t _ _ V).
  generalize (view (jw_store w)) as v. generalize (t_checksums (jw_task w)) as cs.
  intros cs. induction cs as [|c cs IH]; intros v; cbn [foldl]; [done|].
  rewrite IH. apply saved_put_checksum. by rewrite stored_checksum_task.
Qed.

Lemma stored_checksum_key c : checksum_key (stored_checksum c) = checksum_key c.
Proof. rewrite <- (stored_checksum_id c) at 2. done. Qed.

(** A checksum that is stored with its task is stored already. *)
Lemma put_saved_checksum t c v :
  task_rows_ok t → c ∈ t_checksums t →
  put_checksum (stored_checksum (checksum_to_db c (t_id t))) (saved t v) ≡ saved t v.
Proof.
  intros Hrows Hc. unfold saved. cbn [view_write]. rewrite task_to_db_id.
  destruct (saved_rows t Hrows) as (_ & _ & _ & Hdb & Hnd).
  set (rows := (λ c, checksum_to_db c (t_id t)) <$> t_checksums t) in *.
  set (a := checksum_to_db c (t_id t)).
  assert (a ∈ rows) as Ha by (apply list_elem_of_fmap; eauto).
  assert (∀ x, x ∈ stored_checksum <$> rows → checksum_key x = checksum_key a → x = stored_checksum a) as Huniq.
  { intros x (b & -> & Hb)%list_elem_of_fmap Hk. rewrite stored_checksum_key in Hk. f_equal.
    apply list_elem_of_lookup in Ha as [i Hi], Hb as [k Hk']. assert (i = k) as <-; [|congruence].
    eapply (NoDup_lookup (checksum_key <$> rows) i k (checksum_key a)); [exact Hnd|..];
      rewrite list_lookup_fmap; [by rewrite Hi|rewrite Hk'; cbn; by rewrite Hk]. }
  assert (stored_checksum a ∈ stored_checksum <$> rows) as Hin by (by apply list_elem_of_fmap_2).
  clearbody rows. split_and!; intros x; simpl; try done. unfold upsert. rewrite stored_checksum_key. split.
  - intros [->|[Hx _]]; [by left|done].
  - intros [Hx|[Hx Hne]].
    + destruct (decide (checksum_key x = checksum_key a)) as [Hk|Hk]; [left; by apply Huniq|]. right. split; [by left|done].
    + right. split; [right; by split|]. intros Hk. apply Hne. apply (f_equal fst) in Hk. exact Hk.
Qed.

(** Storing the checksums of a task that is stored changes nothing. *)
Lemma persist_checksums_saved v w :
  repo_ok (jw_store w) → task_rows_ok (jw_task w) → view (jw_store w) ≡ saved (jw_task w) v →
  ∃ s, persist_task_checksums true w = (Ok tt, w <| jw_store := s |>) ∧ repo_ok s ∧
    view s ≡ saved (jw_task w) v.
Proof.
  intros Hok Hrows Hv. set (t := jw_task w) in *.
  assert (updates repo_ok view (store_save_checksums (t_checksums t) (t_id t))
    (λ v, foldl (λ v c, put_checksum (stored_checksum (checksum_to_db c (t_id t))) v) v (t_checksums t))) as Hop.
  { apply (updates_for_each _ _ _ (λ c, put_checksum (stored_checksum (checksum_to_db c (t_id t)))));
      [|apply _]. intros c. apply law_save_checksum. }
  destruct (on_store_ok _ _ w Hop Hok) as (s & E1 & Hs & V). exists s. split; [exact E1|]. split; [done|].
  rewrite V. assert (∀ cs u, (∀ c, c ∈ cs → c ∈ t_checksums t) → u ≡ saved t v →
    foldl (λ v c, put_checksum (stored_checksum (checksum_to_db c (t_id t))) v) u cs ≡ saved t v) as Hfold.
  { induction cs as [|c cs IH]; intros u Hin Hu; cbn [foldl]; [done|]. apply IH.
    - intros c' Hc'. apply Hin. by right.
    - rewrite Hu. apply put_saved_checksum; [done|]. apply Hin. by left. }
  by apply Hfold.
Qed.

(** The manifest names its pieces and blocks apart. *)
Definition job_ok (t : Task) : Prop :=
  task_rows_ok t ∧ ∀ m, t_manifest t = Some m →
    NoDup (pl_index <$> m_pieces m) ∧ NoDup ((λ b, (pb_piece b, pb_index b)) <$> m_blocks m).

Lemma mark_all_rows t : job_ok t → task_rows_ok (mark_all_pieces_completed t).
Proof.
  intros [(Hw & Hp & Hb & Hc) Hm]. unfold mark_all_pieces_completed.
  destruct (t_manifest t) as [m|]; [|by split_and!]. destruct (Hm m eq_refl) as [Hmp Hmb].
  assert (∀ l : list PieceState, NoDup (ps_index <$> l) →
    NoDup (ps_index <$> ((λ p, mk_piece_state (ps_index p) true) <$> l))) as Hps.
  { intros l. by rewrite <- list_fmap_compose. }
  assert (∀ l : list BlockState, NoDup ((λ b, (bs_piece b, bs_index b)) <$> l) →
    NoDup ((λ b, (bs_piece b, bs_index b)) <$>
      ((λ b, mk_block_state (bs_piece b) (bs_index b) true) <$> l))) as Hbs.
  { intros l. by rewrite <- list_fmap_compose. }
  destruct (m_total_size_known m); split_and!; cbn; try done;
    (apply Hps || apply Hbs); repeat case_match; try done;
    unfold initialize_piece_states, initialize_block_states; by rewrite <- list_fmap_compose.
Qed.

(** The end of a download: what becomes of the task, what is saved of it, what the manager is
    told. *)
Definition ended (outcome : res unit) (w w' : world) : Prop :=
  let t := jw_task w in
  jw_task w' = (match outcome with
                | Ok _ => mark_all_pieces_completed t <| t_status := Completed |>
                | Err err => t <| t_status := Failed err |>
                end) <| t_updated_at := Some (clock (jw_readings w)) |> ∧
  jw_events w' = jw_events w ++
    [match outcome with Ok _ => EvComplete (t_id t) | Err err => EvError (t_id t) err end] ∧
  repo_ok (jw_store w') ∧ view (jw_store w') ≡ saved (jw_task w') (view (jw_store w)).

Lemma mark_all_id t : t_id (mark_all_pieces_completed t) = t_id t.
Proof. unfold mark_all_pieces_completed. by repeat case_match. Qed.

Lemma finish_job_ok outcome w :
  repo_ok (jw_store w) → job_ok (jw_task w) →
  ∃ w', finish_job true true clock outcome w = (Ok tt, w') ∧ ended outcome w w'.
Proof.
  intros Hok Hjob. unfold finish_job, eff_bind at 1, the_job at 1, gets at 1.
  set (t1 := match outcome with
             | Ok _ => mark_all_pieces_completed (jw_task w) <| t_status := Completed |>
             | Err err => jw_task w <| t_status := Failed err |>
             end).
  set (w1 := w <| jw_task := t1 |>).
  assert (task_rows_ok t1) as Hrows.
  { subst t1. destruct outcome; [|by destruct Hjob as [(?&?&?&?) _]; split_and!].
    destruct (mark_all_rows _ Hjob) as (?&?&?&?). by split_and!. }
  assert (t_id t1 = t_id (jw_task w)) as Hid by (subst t1; destruct outcome; [apply mark_all_id|done]).
  destruct (persist_checksums_ok w1) as (s1 & E1 & Hs1 & V1); [exact Hok|].
  destruct (persist_task_ok (w1 <| jw_store := s1 |>)) as (s2 & E2 & Hs2 & V2);
    [exact Hs1|exact Hrows|].
  set (event := match outcome with
                | Ok _ => EvComplete (t_id (jw_task w)) | Err err => EvError (t_id (jw_task w)) err end).
  eexists. split.
  - transitivity ((persist_task_checksums true ;;; persist_task true clock ;;;
      emit_manager_event true event) w1).
    + subst w1 t1 event. destruct w, outcome; reflexivity.
    + by rewrite (eff_bind_ok _ _ _ _ _ E1), (eff_bind_ok _ _ _ _ _ E2).
  - split; [reflexivity|]. split; [reflexivity|]. split; [exact Hs2|].
    transitivity (saved (t1 <| t_updated_at := Some (clock (jw_readings w)) |>) (view s1));
      [exact V2|by apply V1].
Qed.

Section verifying.
Context `{DigestLib}.

Lemma verify_algorithms now f path cs :
  ck_algorithm <$> fst (verify_file_checksums now f path cs) = ck_algorithm <$> cs.
Proof.
  induction cs as [|c cs IH]; [done|]. cbn [verify_file_checksums].
  destruct (checksum_verify c f path) as [[|]|err]; [|done|done].
  destruct (verify_file_checksums now f path cs) as [cs' r]. csimpl in *. by rewrite IH.
Qed.

Lemma job_ok_checksums t cs :
  ck_algorithm <$> cs = ck_algorithm <$> t_checksums t → job_ok t → job_ok (t <| t_checksums := cs |>).
Proof.
  intros Hcs [(Hw & Hp & Hb & Hc) Hm]. split; [|exact Hm]. split_and!; try done. cbn. by rewrite Hcs.
Qed.

(** The verification of the task's file, on the state it finds. *)
Definition verification (path : string) w : list Checksum * res bool :=
  verify_file_checksums (clock (jw_readings w)) (pw_fs (jw_payload w)) path
    (t_checksums (jw_task w)).

Lemma verify_checksums_eq path w :
  verify_checksums clock path w =
    (snd (verification path w), w <| jw_readings ::= S |>
       <| jw_task ::= λ t, t <| t_checksums := fst (verification path w) |> |>).
Proof.
  destruct w as [t p st e ev wev sp n]. unfold verify_checksums, verification, eff_bind, of_job, now, gets, lift.
  cbn. by destruct (verify_file_checksums _ _ _ _).
Qed.

(** A task with a file: the file is verified and the download ends. *)
Lemma finalize_ok path w :
  repo_ok (jw_store w) → job_ok (jw_task w) → t_file_path (jw_task w) = Some path →
  ∃ w', finalize_download true true clock w = (Ok tt, w') ∧
    ended (checked (snd (verification path w))) (w <| jw_readings ::= S |>
      <| jw_task ::= λ t, t <| t_checksums := fst (verification path w) |> |>) w'.
Proof.
  intros Hok Hjob Hp. set (w1 := w <| jw_readings ::= S |> <| jw_task ::= _ |>).
  destruct (finish_job_ok (checked (snd (verification path w))) w1) as (w' & E1 & Hw').
  - exact Hok.
  - apply job_ok_checksums; [apply verify_algorithms|done].
  - exists w'. split; [|done]. unfold finalize_download, eff_bind at 1, the_job, gets. rewrite Hp.
    rewrite (eff_bind_ok _ _ w (checked (snd (verification path w))) w1); [done|].
    unfold eff_bind, attempt. by rewrite verify_checksums_eq.
Qed.

Lemma finalize_outcome `{!DigestLibLaws} path content w :
  repo_ok (jw_store w) → job_ok (jw_task w) → t_file_path (jw_task w) = Some path →
  fs_read (pw_fs (jw_payload w)) path = Ok content →
  ∃ w', finalize_download true true clock w = (Ok tt, w') ∧
    view (jw_store w') ≡ saved (jw_task w') (view (jw_store w)) ∧
    let t' := jw_task w' in
    let failed := EOther "Checksum failed" in
    (Forall (checksum_matches content) (t_checksums (jw_task w)) →
      t_status t' = Completed ∧ jw_events w' = jw_events w ++ [EvComplete (t_id t')] ∧
      (is_some (t_manifest t') = true →
       Forall (λ p, ps_completed p = true) (t_piece_states t') ∧
       Forall (λ b, bs_completed b = true) (t_block_states t'))) ∧
    (¬ Forall (checksum_matches content) (t_checksums (jw_task w)) →
      t_status t' = Failed failed ∧ jw_events w' = jw_events w ++ [EvError (t_id t') failed]).
Proof.
  intros Hok Hjob Hp Hr. destruct (finalize_ok path w Hok Hjob Hp) as (w' & E1 & Ht & Hv & _ & V).
  exists w'. split; [done|]. split; [exact V|].
  destruct (verify_file_checksums_readable (clock (jw_readings w)) _ path content
    (t_checksums (jw_task w)) Hr) as (cs & b & E2 & Hb & _).
  assert (verification path w = (cs, Ok b)) as E3 by exact E2. rewrite E3 in Ht, Hv. cbn [snd fst] in *.
  rewrite Ht. destruct b; cbn [checked] in *.
  - split; [intros _|intros Hn; by destruct Hn; apply Hb]. cbn -[mark_all_pieces_completed].
    split; [done|]. rewrite mark_all_id. split; [exact Hv|].
    unfold mark_all_pieces_completed. cbn.
    destruct (t_manifest (jw_task w)) as [m|] eqn:Hm; [|by cbn; rewrite Hm].
    intros _. destruct (m_total_size_known m); cbn; rewrite !Forall_fmap; split;
      by apply Forall_true.
  - split; [intros Hf; by apply Hb in Hf|]. by split.
Qed.

(** C30. The end of a download whose file can be read: the task is Completed,
    with all its pieces and blocks, exactly when every checksum matches the
    file's contents, and Failed otherwise; the manager is told which, and what is
    stored of the task is what it has become. *)
Theorem finalize_download_spec `{!DigestLibLaws} path content w :
  repo_ok (jw_store w) → job_ok (jw_task w) → t_file_path (jw_task w) = Some path →
  fs_read (pw_fs (jw_payload w)) path = Ok content →
  ∃ w', finalize_download true true clock w = (Ok tt, w') ∧
    view (jw_store w') ≡ saved (jw_task w') (view (jw_store w)) ∧
    let t' := jw_task w' in
    let failed := EOther "Checksum failed" in
    (Forall (checksum_matches content) (t_checksums (jw_task w)) →
      t_status t' = Completed ∧ jw_events w' = jw_events w ++ [EvComplete (t_id t')] ∧
      (is_some (t_manifest t') = true →
       Forall (λ p, ps_completed p = true) (t_piece_states t') ∧
       Forall (λ b, bs_completed b = true) (t_block_states t'))) ∧
    (¬ Forall (checksum_matches content) (t_checksums (jw_task w)) →
      t_status t' = Failed failed ∧ jw_events w' = jw_events w ++ [EvError (t_id t') failed]).
Proof. apply finalize_outcome. Qed.

(** Taking over the workers' progress keeps a task in order. *)
Lemma sync_workers_ids blocks ws states acc :
  (λ b, (bs_piece b, bs_index b)) <$> fst (sync_workers blocks ws states acc) =
  (λ b, (bs_piece b, bs_index b)) <$> states.
Proof.
  revert states acc. induction ws as [|x ws IH]; intros states acc; [done|]. cbn [sync_workers].
  destruct (_ =? 0); [apply IH|]. rewrite IH. unfold mark_completed_blocks. clear.
  revert blocks. induction states as [|st states IH]; intros [|b blocks]; [done..|]. cbn. f_equal; [|apply IH].
  by case_match.
Qed.

Lemma sync_keeps_job t :
  job_ok t → let t' := snd (sync_piece_progress_from_workers t) in
  job_ok t' ∧ t_workers t' = t_workers t ∧ t_checksums t' = t_checksums t ∧
  t_file_path t' = t_file_path t ∧ t_id t' = t_id t ∧ t_manifest t' = t_manifest t.
Proof.
  intros Hjob. unfold sync_piece_progress_from_workers. destruct (t_manifest t) as [m|] eqn:Hm; [|by split_and!].
  cbv zeta. set (states := if block_state_layout_matches _ _ then _ else _).
  pose proof (sync_workers_ids (m_blocks m) (t_workers t) states 0) as Hids.
  destruct (sync_workers (m_blocks m) (t_workers t) states 0) as [bs n]. cbn [fst] in Hids.
  destruct Hjob as [(Hw & Hp & Hb & Hc) Hmf]. destruct (Hmf m Hm) as [Hpi Hbi].
  destruct (negb (m_total_size_known m)); cbn; (split; [|by rewrite ?Hm]).
  - split; [by split_and!|]. cbn. rewrite Hm. intros m' [= <-]. by split.
  - split; [|cbn; rewrite Hm; intros m' [= <-]; by split]. split_and!; cbn; [done| | |done].
    + unfold derive_piece_states_from_blocks. by rewrite <- list_fmap_compose.
    + rewrite Hids. subst states. destruct (block_state_layout_matches _ _); [done|].
      unfold initialize_block_states. by rewrite <- list_fmap_compose.
Qed.

(** The completion of the last worker finishes the download. *)
Lemma complete_last i path w :
  job_ok (jw_task w) → all_workers_completed (jw_task w) = true → t_file_path (jw_task w) = Some path →
  ∃ w1, jw_store w1 = jw_store w ∧ jw_payload w1 = jw_payload w ∧ jw_events w1 = jw_events w ∧
    job_ok (jw_task w1) ∧ t_file_path (jw_task w1) = Some path ∧
    t_checksums (jw_task w1) = t_checksums (jw_task w) ∧ t_id (jw_task w1) = t_id (jw_task w) ∧
    t_workers (jw_task w1) = t_workers (jw_task w) ∧
    ∀ w', finalize_download true true clock w1 = (Ok tt, w') →
      handle_worker_complete true true clock i w = (Ok tt, w').
Proof.
  intros Hjob Hall Hp. destruct (sync_keeps_job (jw_task w) Hjob) as (Hj1 & Hws & Hcs & Hfp & Hid & _).
  set (t1 := snd (sync_piece_progress_from_workers (jw_task w))) in *.
  set (w1 := w <| jw_spawned ::= λ l, l ++ [SpPersistWorker i] |> <| jw_task := t1 |>).
  exists w1. split_and!; [done..|cbn; congruence|done|done|done|]. intros w' Hf.
  unfold handle_worker_complete.
  erewrite (eff_bind_ok _ _ _ tt (w <| jw_spawned ::= λ l, l ++ [SpPersistWorker i] |>)) by done.
  erewrite (eff_bind_ok _ _ _ (fst (sync_piece_progress_from_workers (jw_task w))) w1).
  2: { unfold attempt, sync_progress, w1, t1. cbn. by destruct (sync_piece_progress_from_workers (jw_task w)). }
  unfold eff_bind at 1, the_job at 1, gets at 1.
  assert (all_workers_completed (jw_task w1) = true) as ->.
  { rewrite <- Hall. unfold all_workers_completed. by rewrite <- Hws. }
  cbn [negb]. unfold eff_bind at 1, attempt. by rewrite Hf.
Qed.

(** Finishing a download leaves the payload as it is. *)
Definition same_files w w' : Prop := jw_payload w' = jw_payload w.
#[local] Instance same_files_refl : Reflexive same_files.
Proof. by intros w. Qed.
#[local] Instance same_files_trans : Transitive same_files.
Proof. intros ???. unfold same_files. congruence. Qed.
Lemma same_files_store {A} (m : eff St A) : keeps same_files (on_store (E:=E) m).
Proof. intros w. unfold on_store. by destruct (m (jw_store w)). Qed.
Lemma finalize_keeps_files : keeps same_files (finalize_download true true clock).
Proof.
  unfold finalize_download, finish_job, verify_checksums, persist_task_checksums, persist_task, set_status,
    emit_manager_event, of_job, now.
  repeat first [ apply keeps_bind; [apply _|..] | apply keeps_ret; apply _ | apply keeps_lift; apply _
    | apply keeps_gets; apply _ | apply keeps_attempt | apply keeps_when; [apply _|]
    | apply keeps_for_each; [apply _..|] | apply same_files_store
    | match goal with |- ∀ _, keeps _ _ => intros ? end
    | solve [intros ?; repeat case_match; reflexivity] | case_match ].
Qed.

(** All workers have completed what the file of the task holds. *)
Record all_there (path : string) (content : bytes) w : Prop := {
  at_repo : repo_ok (jw_store w);
  at_job : job_ok (jw_task w);
  at_workers : all_workers_completed (jw_task w) = true;
  at_path : t_file_path (jw_task w) = Some path;
  at_file : fs_read (pw_fs (jw_payload w)) path = Ok content;
  at_checksums : Forall (checksum_matches content) (t_checksums (jw_task w))
}.

Lemma mark_all_job t : job_ok t → job_ok (mark_all_pieces_completed t).
Proof.
  intros Hjob. split; [by apply mark_all_rows|]. destruct Hjob as [_ Hm]. revert Hm.
  unfold mark_all_pieces_completed. destruct (t_manifest t) as [m|] eqn:Hman; intros Hm.
  - destruct (m_total_size_known m); cbn; rewrite Hman; exact Hm.
  - by rewrite Hman.
Qed.
Lemma mark_all_rest t : let t' := mark_all_pieces_completed t in
  t_workers t' = t_workers t ∧ t_checksums t' = t_checksums t ∧ t_file_path t' = t_file_path t.
Proof. unfold mark_all_pieces_completed. by repeat case_match. Qed.

Lemma complete_again `{!DigestLibLaws} i path content w :
  all_there path content w →
  ∃ w', handle_worker_complete true true clock i w = (Ok tt, w') ∧ all_there path content w' ∧
    t_id (jw_task w') = t_id (jw_task w) ∧ t_status (jw_task w') = Completed ∧
    jw_events w' = jw_events w ++ [EvComplete (t_id (jw_task w))].
Proof.
  intros [Hok Hjob Hall Hpath Hfile Hck].
  destruct (complete_last i path w Hjob Hall Hpath)
    as (w1 & Hs1 & Hp1 & Hv1 & Hj1 & Hpath1 & Hck1 & Hid1 & Hws1 & Hgo).
  destruct (finalize_ok path w1) as (w' & E1 & Ht & Hv & Hs' & _); [congruence|done|done|].
  exists w'. split; [by apply Hgo|].
  destruct (verify_file_checksums_readable (clock (jw_readings w1)) (pw_fs (jw_payload w1)) path content
    (t_checksums (jw_task w1))) as (cs & b & E2 & Hb & Hk & Hset); [congruence|].
  assert (b = true) as -> by (apply Hb; congruence).
  assert (verification path w1 = (cs, Ok true)) as E3 by exact E2. rewrite E3 in Ht, Hv. cbn [snd fst checked] in *.
  pose proof (finalize_keeps_files w1) as Hf. unfold same_files in Hf. rewrite E1 in Hf. cbn [snd] in Hf.
  set (t1 := jw_task w1 <| t_checksums := cs |>).
  assert (jw_task w' = mark_all_pieces_completed t1 <| t_status := Completed |>
    <| t_updated_at := Some (clock (S (jw_readings w1))) |>) as Ht' by exact Ht.
  destruct (mark_all_rest t1) as (Hr1 & Hr2 & Hr3).
  assert (job_ok t1) as Hjob1.
  { apply job_ok_checksums; [|done]. apply (f_equal (fmap fst)) in Hk. rewrite <- !list_fmap_compose in Hk. exact Hk. }
  split; [|split_and!].
  - split.
    + exact Hs'.
    + rewrite Ht'. apply mark_all_job in Hjob1. exact Hjob1.
    + rewrite Ht'. rewrite <- Hall. unfold all_workers_completed. cbn -[mark_all_pieces_completed].
      rewrite Hr1. cbn. by rewrite Hws1.
    + rewrite Ht'. cbn -[mark_all_pieces_completed]. rewrite Hr3. exact Hpath1.
    + congruence.
    + rewrite Ht'. cbn -[mark_all_pieces_completed]. rewrite Hr2. cbn. rewrite Hset, Hck1 by done.
      apply Forall_fmap. eapply Forall_impl; [exact Hck|]. by intros c Hc.
  - rewrite Ht'. cbn -[mark_all_pieces_completed]. rewrite mark_all_id. exact Hid1.
  - by rewrite Ht'.
  - rewrite Hv. cbn. by rewrite Hv1, Hid1.
Qed.

(** A completion that comes in when the task has no workers and no manifest. *)
Lemma complete_without_workers i path w :
  repo_ok (jw_store w) → job_ok (jw_task w) → t_workers (jw_task w) = [] →
  t_manifest (jw_task w) = None → t_file_path (jw_task w) = Some path →
  ∃ w', handle_worker_complete true true clock i w = (Ok tt, w') ∧
    ended (checked (snd (verification path w))) (w <| jw_readings ::= S |>
      <| jw_spawned ::= λ l, l ++ [SpPersistWorker i] |>
      <| jw_task ::= λ t, t <| t_checksums := fst (verification path w) |> |>) w'.
Proof.
  intros Hok Hjob Hw Hm Hp. set (w1 := w <| jw_spawned ::= λ l, l ++ [SpPersistWorker i] |>).
  destruct (finalize_ok path w1) as (w' & E1 & Hw'); [exact Hok|exact Hjob|exact Hp|].
  exists w'. split; [|exact Hw']. unfold handle_worker_complete.
  erewrite (eff_bind_ok _ _ _ tt w1) by done.
  rewrite (eff_bind_ok _ _ w1
    (Err (EOther ("Task " +:+ show_u64 (t_id (jw_task w)) +:+ " manifest not initialized"))) w1).
  2: { unfold attempt, sync_progress, sync_piece_progress_from_workers.
       assert (t_manifest (jw_task w1) = None) as -> by exact Hm. by destruct w. }
  unfold eff_bind at 1, the_job at 1, gets at 1, all_workers_completed.
  assert (t_workers (jw_task w1) = []) as -> by exact Hw. cbn [forallb negb].
  unfold eff_bind at 1, attempt. by rewrite E1.
Qed.

Section coming_back.
Context (config : Config) (diagnostic_body : Task → Error → DateTime → res bytes).

(** Every completion of a worker that is handled when all workers have
    completed finishes the download, the first as well as those that were waiting
    behind it: the checksums are verified again, the task is Completed again and
    stored again, and the manager is told each time that the task is complete. *)
Theorem completions_repeat `{!DigestLibLaws} path content workers w :
  all_there path content w → workers ≠ [] →
  ∃ w', worker_event_loop config true true clock diagnostic_body ((λ i, Some (EvComplete i)) <$> workers) w =
      (Ok tt, w') ∧
    t_status (jw_task w') = Completed ∧ all_there path content w' ∧
    jw_events w' = jw_events w ++ replicate (length workers) (EvComplete (t_id (jw_task w))).
Proof.
  intros Hw Hne. destruct workers as [|i workers]; [done|]. clear Hne. revert i w Hw.
  induction workers as [|k workers IH]; intros i w Hw; unfold worker_event_loop in *; cbn [fmap list_fmap for_each];
    destruct (complete_again i path content w Hw) as (w1 & E1 & Hw1 & Hid & Hst & Hv).
  - exists w1. split_and!; [|done..]. unfold eff_bind, attempt. cbn [handle_worker_event]. by rewrite E1.
  - destruct (IH k w1 Hw1) as (w' & E2 & Hst' & Hw' & Hv'). exists w'. split_and!; [|done|done|].
    + unfold eff_bind at 1. unfold eff_bind at 1, attempt. cbn [handle_worker_event]. rewrite E1. exact E2.
    + rewrite Hv', Hv, Hid, <- app_assoc. done.
Qed.

(** A completion that a worker reported before its task was deleted and that
    is handled afterwards brings the task back: all of its no workers have
    completed, so the download is finished, and the task is stored again, as
    Completed when it has no checksums, although its file is gone. *)
Theorem deleted_task_comes_back i path w :
  repo_ok (jw_store w) → t_torrent_session (jw_task w) = None →
  t_file_path (jw_task w) = Some path → fs_names (pw_fs (jw_payload w)) !! path ≠ Some NDir →
  NoDup (ck_algorithm <$> t_checksums (jw_task w)) →
  ∃ w1 w2, delete config true true clock diagnostic_body w = (Ok tt, w1) ∧
    t_status (jw_task w1) = Deleted ∧
    (∀ r, v_task (view (jw_store w1)) r → dt_id r ≠ t_id (jw_task w)) ∧
    handle_worker_complete true true clock i w1 = (Ok tt, w2) ∧
    v_task (view (jw_store w2)) (task_to_db (jw_task w2)) ∧
    t_id (jw_task w2) = t_id (jw_task w) ∧
    (t_checksums (jw_task w) = [] →
     t_status (jw_task w2) = Completed ∧
     jw_events w2 = jw_events w ++ [EvDelete (t_id (jw_task w)); EvComplete (t_id (jw_task w))]).
Proof.
  intros Hok Hs Hp Hdir Hcs.
  destruct (delete_outcome config diagnostic_body w (jw_engine w) Hok) as (w1 & E1 & Ht1 & _ & Hv1 & _ & _ & Hs1 & V1).
  { unfold removed_session. by rewrite Hs. }
  { intros p Hp' Hn. rewrite Hp in Hp'. by simplify_eq. }
  destruct (complete_without_workers i path w1) as (w2 & E2 & Ht2 & Hv2 & Hs2 & V2);
    [done| |by rewrite Ht1..|].
  { rewrite Ht1. split; [|done]. split_and!; [constructor..|exact Hcs]. }
  exists w1, w2. split; [done|]. split; [by rewrite Ht1|]. split.
  { intros r Hr. apply V1 in Hr. by destruct Hr. }
  split; [done|]. split.
  { apply V2. cbn. unfold upsert. by left. }
  split.
  { rewrite Ht2. destruct (checked _); cbn -[mark_all_pieces_completed]; rewrite ?mark_all_id;
      cbn; by rewrite Ht1. }
  intros Hnil. assert (snd (verification path w1) = Ok true) as Hver.
  { unfold verification. rewrite Ht1. cbn. by rewrite Hnil. }
  rewrite Ht2, Hv2, Hver. split; [done|]. cbn. by rewrite Hv1, Ht1, <- app_assoc.
Qed.
End coming_back.
End verifying.
End facts.

(** ** What operations leave as it is

    A part of the task that an operation does not change. *)
Section same.
Context {St E : Type}.
Implicit Types w : job_world St E.

Definition same {X} (f : Task → X) w w' : Prop := f (jw_task w') = f (jw_task w).
#[export] Instance same_refl {X} (f : Task → X) : Reflexive (same f).
Proof. by intros w. Qed.
#[export] Instance same_trans {X} (f : Task → X) : Transitive (same f).
Proof. intros ???. unfold same. congruence. Qed.

Lemma same_store {X A} (f : Task → X) (m : eff St A) : keeps (same f) (on_store (E:=E) m).
Proof. intros w. unfold on_store. by destruct (m (jw_store w)). Qed.
Lemma same_payload {X A} (f : Task → X) (m : eff payload_world A) :
  keeps (same f) (on_payload (St:=St) (E:=E) m).
Proof. intros w. unfold on_payload. by destruct (m (jw_payload w)). Qed.
Lemma same_engine {X A} (f : Task → X) (m : eff E A) : keeps (same f) (on_engine (St:=St) m).
Proof. intros w. unfold on_engine. by destruct (m (jw_engine w)). Qed.
End same.

(** One step of a proof that an operation, given by its parts, keeps a part of the task. *)
Ltac same_step := first
  [ apply keeps_bind; [apply _|..] | apply keeps_ret; apply _ | apply keeps_throw; apply _
  | apply keeps_lift; apply _ | apply keeps_gets; apply _ | apply keeps_attempt
  | apply keeps_when; [apply _|] | apply keeps_map_each; [apply _..|]
  | apply keeps_for_each; [apply _..|]
  | apply same_store | apply same_payload | apply same_engine
  | match goal with |- ∀ _, keeps _ _ => intros ? end | case_match
  | solve [intros ?; reflexivity] ].


(** ** Examples, over the in-memory repository *)

#[local] Existing Instances spec_codec sources_codec state_codec metadata_codec.

(** An engine without sessions, and a task whose file is complete. *)
Definition idle_engine : TorrentEngine unit :=
  Build_TorrentEngine unit (λ _, ret tt) (λ _, ret tt) (λ _, ret tt) (λ _ _, ret tt).
#[local] Existing Instances idle_engine example_digests example_digests_laws.

Definition example_payload_files : fs :=
  mk_fs {["/f" := NFile 1%positive; "/" := NDir; "./downloads" := NDir]}
    {[1%positive := [x30; x31; x32; x33; x34; x35; x36; x37; x38; x39]]}.
Definition example_job (t : Task) : job_world MemoryRepository unit :=
  mk_job t (mk_world example_payload_files ∅) memory_new tt [] [] [] 0.
Definition tick (n : nat) : DateTime := Z.of_nat n.
Definition running_task : Task := example_saved <| t_status := Running |> <| t_permit := true |>.
Definition no_body : Task → Error → DateTime → res bytes := λ _ _ _, Ok [].

Lemma example_job_ok t : repo_ok (jw_store (example_job t)).
Proof. exact memory_new_ok. Qed.

Lemma pause_cancel_spec_witness :
  (∃ w', pause true true tick (example_job running_task) = (Ok tt, w') ∧
    t_status (jw_task w') = Paused ∧ jw_events w' = [EvPause 1]) ∧
  (∃ w', cancel true true tick (example_job running_task) = (Ok tt, w') ∧
    t_status (jw_task w') = Canceled ∧ length (jw_worker_events w') = 2%nat).
Proof.
  destruct (pause_cancel_spec tick (example_job running_task) (example_job_ok _) example_saved_rows eq_refl)
    as [Hp Hc].
  cbn [example_job jw_task running_task update t_status] in Hp, Hc.
  destruct Hp as (w1 & E1 & Ht1 & Hv1 & _). destruct Hc as (w2 & E2 & (Ht2 & _ & Hwv & _) & _).
  split; [exists w1|exists w2]; (split; [assumption|]).
  - by rewrite Ht1, Hv1.
  - by rewrite Ht2, Hwv.
Defined.

Lemma delete_spec_witness :
  ∃ w', delete Config_default true true tick no_body (example_job running_task) = (Ok tt, w') ∧
    t_status (jw_task w') = Deleted ∧ t_permit (jw_task w') = false ∧
    fs_exists (pw_fs (jw_payload w')) "/f" = false.
Proof.
  destruct (proj1 (delete_spec tick Config_default no_body (example_job running_task)) (example_job_ok _))
    as (w' & E1 & Ht & _ & _ & _ & Hf & _).
  - intros path [[= <-] Hn]. vm_compute in Hn. discriminate Hn.
  - exists w'. split; [exact E1|]. rewrite Ht, Hf. split_and!; reflexivity.
Defined.

Definition checked_task (digest : string) : Task :=
  running_task <| t_checksums := [mk_checksum MD5 (Some digest) None None] |>.
Lemma checked_task_ok digest : job_ok (checked_task digest).
Proof.
  split.
  - split_and!; apply (bool_decide_eq_true_1 _); vm_compute; reflexivity.
  - intros m [= <-]. split; apply (bool_decide_eq_true_1 _); vm_compute; reflexivity.
Qed.

Lemma finalize_download_spec_witness :
  ∃ w', finalize_download true true tick (example_job (checked_task "30313233343536373839")) =
      (Ok tt, w') ∧
    t_status (jw_task w') = Completed ∧ Forall (λ b, bs_completed b = true) (t_block_states (jw_task w')).
Proof.
  destruct (finalize_download_spec tick "/f" [x30; x31; x32; x33; x34; x35; x36; x37; x38; x39]
    (example_job (checked_task "30313233343536373839")) (example_job_ok _) (checked_task_ok _) eq_refl eq_refl)
    as (w' & E1 & _ & Hyes & _).
  destruct Hyes as (Hst & _ & Hall).
  - repeat constructor.
  - exists w'. split_and!; [exact E1|exact Hst|]. apply Hall.
    assert (snd (finalize_download true true tick (example_job (checked_task "30313233343536373839"))) = w')
      as <- by (by rewrite E1). vm_compute. reflexivity.
Defined.

Definition plain_task : Task := running_task <| t_checksums := [] |>.
Lemma deleted_task_comes_back_witness :
  let job := example_job plain_task in
  ∃ w1 w2, delete Config_default true true tick no_body job = (Ok tt, w1) ∧
    t_status (jw_task w1) = Deleted ∧ handle_worker_complete true true tick 0 w1 = (Ok tt, w2) ∧
    t_status (jw_task w2) = Completed.
Proof.
  destruct (deleted_task_comes_back tick Config_default no_body 0 "/f"
    (example_job plain_task) (example_job_ok _) eq_refl eq_refl)
    as (w1 & w2 & E1 & H1 & _ & E2 & _ & _ & H2).
  - vm_compute. discriminate.
  - constructor.
  - destruct (H2 eq_refl) as [H2' _]. exists w1, w2. split_and!; assumption.
Defined.

Lemma completions_repeat_witness :
  let job := example_job (checked_task "30313233343536373839" <| t_workers := [] |>) in
  ∃ w', worker_event_loop Config_default true true tick no_body [Some (EvComplete 0); Some (EvComplete 1)] job =
      (Ok tt, w') ∧
    t_status (jw_task w') = Completed ∧ jw_events w' = [EvComplete 1; EvComplete 1].
Proof.
  destruct (completions_repeat tick Config_default no_body "/f" [x30; x31; x32; x33; x34; x35; x36; x37; x38; x39]
    [0; 1] (example_job (checked_task "30313233343536373839" <| t_workers := [] |>)))
    as (w' & E1 & Hst & _ & Hv).
  - split; [exact (example_job_ok _)| |reflexivity..|repeat constructor].
    destruct (checked_task_ok "30313233343536373839") as [(_ & Hp & Hb & Hc) Hm].
    split; [split_and!; [constructor|exact Hp|exact Hb|exact Hc]|exact Hm].
  - discriminate.
  - exists w'. split; [exact E1|]. split; [exact Hst|]. by rewrite Hv.
Defined.
