(* ===== verification/JobStart.v ===== *)
(** * Preparing and starting a task: what it guarantees

    Properties of the creation of workers and of the start of a task, modelled
    in [Job]. *)

From S2P Require Import Prelude Text Ranges Status Effect Source Piece Files Checksum Manifest Planner Payload Torrent Config Task Mapping Repository Memory Store Probe Job JobFacts.

(** ** Seeding a worker's progress *)

(** The blocks of a manifest are those of its pieces, one piece after the other. *)
Definition blocks_of_pieces (m : SessionManifest) : Prop :=
  m_blocks m = plan_piece_blocks (m_pieces m) (m_block_size m) ∧ Forall piece_ok (m_pieces m).

Lemma manifest_block_ids m : manifest_wf m → blocks_of_pieces m →
  NoDup ((λ b, (pb_piece b, pb_index b)) <$> m_blocks m).
Proof.
  intros Hwf [-> Hok]. pose proof (wf_block_size _ Hwf). pose proof (wf_piece_size _ Hwf).
  apply block_ids_distinct; [lia|done|apply (wf_piece_ids _ Hwf)].
Qed.
Lemma fresh_block_ids m : manifest_wf m → blocks_of_pieces m →
  NoDup ((λ b, (bs_piece b, bs_index b)) <$> initialize_block_states (m_blocks m)).
Proof.
  intros Hwf Hb. unfold initialize_block_states. rewrite <- list_fmap_compose. by apply manifest_block_ids.
Qed.

(** A lane that begins where one piece does and ends where another does. *)
Definition lane_on_pieces (m : SessionManifest) (l : ExecutionLaneAssignment) : Prop :=
  let off := tile_at (span_of_piece <$> m_pieces m) in
  ∃ i j, 0 ≤ i ≤ j ∧ j ≤ zlen (m_pieces m) ∧ span_of_lane l = (off i, off j - off i).

Lemma filterb_within (a b : Z) (l : list PieceBlock) (x y : Z) :
  tiles x (span_of_block <$> l) y → 0 ≤ x → y ≤ u64_max → a ≤ b →
  (y ≤ a ∨ b ≤ x → filterb (λ block, sat_sub (sat_add (pb_offset block) (pb_length block)) 1 <=? b - 1)
     (filterb (λ block, a <=? pb_offset block) l) = []) ∧
  (a ≤ x → y ≤ b → filterb (λ block, sat_sub (sat_add (pb_offset block) (pb_length block)) 1 <=? b - 1)
     (filterb (λ block, a <=? pb_offset block) l) = l).
Proof.
  intros Ht Hx Hy Hab.
  assert (∀ blk, blk ∈ l → x ≤ pb_offset blk ∧ 0 < pb_length blk ∧ pb_offset blk + pb_length blk ≤ y) as Hin.
  { intros blk Hblk. apply (tiles_elem _ _ _ (pb_offset blk) (pb_length blk) Ht).
    by apply (list_elem_of_fmap_2 span_of_block l blk). }
  assert (∀ blk, blk ∈ l → sat_sub (sat_add (pb_offset blk) (pb_length blk)) 1 =
    pb_offset blk + pb_length blk - 1) as Hsat.
  { intros blk Hblk. specialize (Hin blk Hblk). rewrite sat_add_exact by ilia.
    by rewrite sat_sub_exact by lia. }
  split.
  - intros Hout. apply filterb_none. intros blk [Hblk Ha]%elem_of_filterb. bool_hyps.
    specialize (Hin blk Hblk). rewrite (Hsat blk Hblk). apply Z.leb_gt. lia.
  - intros Hax Hyb. rewrite (filterb_all (λ block, a <=? pb_offset block)).
    + apply filterb_all. intros blk Hblk. specialize (Hin blk Hblk). rewrite (Hsat blk Hblk).
      apply Z.leb_le. lia.
    + intros blk Hblk. specialize (Hin blk Hblk). apply Z.leb_le. lia.
Qed.

(** The blocks of a lane tile it. *)
Lemma lane_blocks_tile m l :
  manifest_wf m → blocks_of_pieces m → lane_on_pieces m l →
  tiles (lane_start l) (span_of_block <$> lane_blocks m l) (lane_end l + 1) ∧
  (∀ b, b ∈ lane_blocks m l → b ∈ m_blocks m).
Proof.
  intros Hwf [Hbl Hok] (i & j & Hij & Hj & Hsp).
  split; [|by intros b [[Hb _]%elem_of_filterb _]%elem_of_filterb].
  set (off := tile_at (span_of_piece <$> m_pieces m)) in *. unfold span_of_lane in Hsp.
  injection Hsp as Hstart Hend. pose proof (wf_pieces _ Hwf) as Ht.
  pose proof (wf_block_size _ Hwf) as Hbs. pose proof (wf_piece_size _ Hwf) as Hps.
  pose proof (wf_total _ Hwf) as [_ Hu]. rewrite Forall_forall in Hok.
  assert (m_blocks m = m_pieces m ≫= piece_blocks (m_block_size m)) as Hblocks.
  { rewrite Hbl. unfold plan_piece_blocks. by rewrite Z.max_l by lia. }
  destruct (tiles_take_drop _ _ _ (Z.to_nat i) Ht) as [T1 T23]. rewrite Z.add_0_l in T1, T23.
  destruct (tiles_take_drop _ _ _ (Z.to_nat (j - i)) T23) as [T2 T3].
  change (zsum (snd <$> take (Z.to_nat i) (span_of_piece <$> m_pieces m))) with (off i) in *.
  assert (off i + zsum (snd <$> take (Z.to_nat (j - i)) (drop (Z.to_nat i) (span_of_piece <$> m_pieces m)))
    = off j) as Eoff.
  { pose proof (tiles_sum _ _ _ (tiles_slice _ _ i j Ht Hij)) as E1. fold off in E1.
    unfold slice in E1. lia. }
  rewrite Eoff in T2, T3. rewrite <- fmap_take in T1.
  rewrite <- fmap_drop, <- fmap_take in T2. rewrite <- !fmap_drop in T3.
  set (p1 := take (Z.to_nat i) (m_pieces m)) in *.
  set (p2 := take (Z.to_nat (j - i)) (drop (Z.to_nat i) (m_pieces m))) in *.
  set (p3 := drop (Z.to_nat (j - i)) (drop (Z.to_nat i) (m_pieces m))) in *.
  assert (m_pieces m = p1 ++ p2 ++ p3) as Hsplit by (by subst p1 p2 p3; rewrite !take_drop).
  assert (∀ p, p ∈ p1 ++ p2 ++ p3 → piece_ok p) as Hok' by (rewrite <- Hsplit; exact Hok).
  assert (∀ q a b, (∀ p, p ∈ q → p ∈ p1 ++ p2 ++ p3) → tiles a (span_of_piece <$> q) b →
    tiles a (span_of_block <$> (q ≫= piece_blocks (m_block_size m))) b) as Hq.
  { intros q a b Hsub. apply plan_piece_blocks_tiles_gen; [lia|]. intros p Hp. by apply Hok', Hsub. }
  apply Hq in T1; [|set_solver]. apply Hq in T2; [|set_solver]. apply Hq in T3; [|set_solver].
  pose proof (tiles_le _ _ _ T1). pose proof (tiles_le _ _ _ T2). pose proof (tiles_le _ _ _ T3).
  unfold lane_blocks. rewrite Hblocks, Hsplit, !bind_app, !filterb_app, Hstart.
  replace (lane_end l) with (off j - 1) by lia.
  rewrite (proj1 (filterb_within (off i) (off j) _ _ _ T1 ltac:(lia) ltac:(lia) ltac:(lia))) by lia.
  rewrite (proj2 (filterb_within (off i) (off j) _ _ _ T2 ltac:(lia) ltac:(lia) ltac:(lia))) by lia.
  rewrite (proj1 (filterb_within (off i) (off j) _ _ _ T3 ltac:(lia) ltac:(lia) ltac:(lia))) by lia.
  rewrite app_nil_r. by replace (off j - 1 + 1) with (off j) by lia.
Qed.

(** The loop stops at the first block that is not completed. *)
Lemma seed_loop_spec states blocks acc a b :
  tiles a (span_of_block <$> blocks) b → 0 ≤ acc → acc + (b - a) ≤ u64_max →
  ∃ k, tiles a (span_of_block <$> take k blocks) (a + (seed_loop states blocks acc - acc)) ∧
    Forall (λ blk, block_completed states blk = true) (take k blocks) ∧
    (seed_loop states blocks acc - acc < b - a →
     ∃ blk, blk ∈ blocks ∧ pb_offset blk = a + (seed_loop states blocks acc - acc) ∧
       block_completed states blk = false).
Proof.
  revert acc a. induction blocks as [|blk blocks IH]; intros acc a Ht Hacc Hmax.
  - cbn in *. exists 0%nat. subst b. split_and!; [cbn; lia|constructor|lia].
  - csimpl in Ht. destruct Ht as (Ho & Hn & Ht). unfold span_of_block in Ho, Hn, Ht. cbn [fst snd] in *.
    pose proof (tiles_le _ _ _ Ht) as Hle. cbn [seed_loop].
    destruct (block_completed states blk) eqn:Hc; cbn [negb].
    + rewrite sat_add_exact by ilia.
      destruct (IH (acc + pb_length blk) (a + pb_length blk) Ht) as (k & T & F & Hstop); [lia|lia|].
      set (r := seed_loop states blocks (acc + pb_length blk)) in *.
      exists (S k). split_and!.
      * csimpl. split; [done|]. split; [done|].
        by replace (a + (r - acc)) with (a + pb_length blk + (r - (acc + pb_length blk))) by lia.
      * by constructor.
      * intros Hlt. destruct Hstop as (x & Hx & Hxo & Hxc); [lia|]. exists x.
        split_and!; [by right|lia|done].
    + exists 0%nat. cbn. split_and!; [lia|constructor|]. intros _. exists blk.
      split_and!; [by left|lia|done].
Qed.

(** What a worker of a lane starts with. *)
Definition seeded (m : SessionManifest) (states : list BlockState) (start stop downloaded : Z) : Prop :=
  0 ≤ downloaded ≤ stop - start + 1 ∧
  (∀ x, start ≤ x < start + downloaded → ∃ b, b ∈ m_blocks m ∧
     pb_offset b ≤ x < pb_offset b + pb_length b ∧ block_completed states b = true) ∧
  (downloaded < stop - start + 1 → ∃ b, b ∈ m_blocks m ∧ pb_offset b = start + downloaded ∧
     block_completed states b = false).

Lemma seeded_downloaded_seeded m states l :
  manifest_wf m → blocks_of_pieces m → lane_on_pieces m l →
  seeded m states (lane_start l) (lane_end l) (seeded_downloaded_from_block_states m states l).
Proof.
  intros Hwf Hb Hl. destruct (lane_blocks_tile m l Hwf Hb Hl) as [Ht Hin].
  destruct Hl as (i & j & Hij & Hj & Hsp). unfold span_of_lane in Hsp. injection Hsp as Hstart Hend.
  pose proof (wf_pieces _ Hwf) as Hp. pose proof (wf_total _ Hwf) as [_ Hu].
  destruct (tiles_take_drop _ _ _ (Z.to_nat i) Hp) as [T1 _].
  destruct (tiles_take_drop _ _ _ (Z.to_nat j) Hp) as [_ T3].
  apply tiles_le in T1, T3. unfold tile_at in Hstart, Hend.
  pose proof (tiles_le _ _ _ Ht) as Hle.
  destruct (seed_loop_spec states _ 0 _ _ Ht ltac:(lia) ltac:(lia)) as (k & T & F & Hstop).
  unfold seeded_downloaded_from_block_states.
  set (r := seed_loop states (lane_blocks m l) 0) in *. rewrite Z.sub_0_r in T, Hstop.
  pose proof (tiles_le _ _ _ T) as Hr0.
  assert (r ≤ lane_end l - lane_start l + 1) as Hr.
  { rewrite <- (take_drop k (lane_blocks m l)), fmap_app in Ht. apply tiles_app in Ht as (x & Ta & Tb).
    apply tiles_sum in T, Ta. apply tiles_le in Tb. lia. }
  destruct (decide (lane_end l + 1 = lane_start l)) as [He|Hne].
  { assert (r = 0) as -> by lia. rewrite Z.min_l by (unfold sat_add, sat_sub; ilia).
    split; [lia|]. split; intros; lia. }
  rewrite sat_sub_exact by lia. rewrite sat_add_exact by lia. rewrite Z.min_l by lia.
  split_and!; [lia|lia| |].
  - intros x Hx. destruct (tiles_cover _ _ _ x T) as (n & o & len & Hn & Hxo & _); [lia|].
    rewrite list_lookup_fmap in Hn. destruct (take k (lane_blocks m l) !! n) as [b|] eqn:Eb; [|done].
    injection Hn as <- <-. exists b. apply list_elem_of_lookup_2 in Eb.
    rewrite Forall_forall in F. split_and!; [|lia|lia|by apply F].
    apply Hin. rewrite <- (take_drop k (lane_blocks m l)). apply elem_of_app. by left.
  - intros Hlt. destruct Hstop as (b & Hb1 & Hb2 & Hb3); [lia|]. exists b. auto.
Qed.

(** ** The workers of a task *)

Definition span_of_worker (x : Worker) : span := (w_start x, w_end x - w_start x + 1).

(** A worker as it is created for a payload of known length. *)
Definition new_worker (x : Worker) : Prop :=
  w_status x = Pending ∧ w_is_running x = false ∧ w_length_known x = true.

(** The lanes of a payload that has pieces know their length. *)
Lemma planned_known m requested parallel preferred : m_pieces m ≠ [] →
  Forall (λ a, lane_length_known a = true) (plan_execution_lanes_with_source_order m requested parallel preferred).
Proof.
  assert (∀ id src ps bs, Forall (λ a, lane_length_known a = true)
    (option_list (assignment_from_piece_slice id src ps bs))) as Hone.
  { intros id src ps bs. unfold assignment_from_piece_slice.
    destruct (head ps); [|constructor]. destruct (last ps); by repeat constructor. }
  intros Hp. unfold plan_execution_lanes_with_source_order. destruct (m_pieces m); [done|].
  destruct (sort_by _ _) as [|source others]; [constructor|]. destruct parallel; [|apply Hone].
  unfold deal_lanes. apply Forall_bind, Forall_forall. intros i _. cbv beta zeta delta [compose].
  case_match; [constructor|]. case_match; [apply Hone|constructor].
Qed.

(** A worker of a lane. *)
Definition works_on (a : ExecutionLaneAssignment) (x : Worker) : Prop :=
  w_id x = lane_id a ∧ w_start x = lane_start a ∧ w_end x = lane_end a.

Lemma works_on_spans lanes ws :
  Forall2 works_on lanes ws → span_of_worker <$> ws = span_of_lane <$> lanes.
Proof.
  induction 1 as [|a x lanes ws (Hi & Hs & He) _ IH]; csimpl; [done|]. rewrite IH.
  unfold span_of_worker, span_of_lane. by rewrite Hs, He.
Qed.

Lemma works_on_ids lanes ws :
  Forall2 works_on lanes ws → (∀ k l, lanes !! k = Some l → lane_id l = Z.of_nat k) →
  w_id <$> ws = seqZ 0 (zlen ws).
Proof.
  intros HF Hid. apply list_eq. intros k. rewrite list_lookup_fmap.
  destruct (ws !! k) as [x|] eqn:Hk; cbn.
  - destruct (Forall2_lookup_r _ _ _ _ _ HF Hk) as (a & Ha & Hi & _). rewrite Hi, (Hid k a Ha).
    symmetry. apply lookup_seqZ. apply lookup_lt_Some in Hk. unfold zlen. lia.
  - symmetry. apply lookup_seqZ_ge. apply lookup_ge_None in Hk. unfold zlen. lia.
Qed.

Section workers.
Context {St E : Type} `{RepositoryLaws St}.
Context (config : Config) (clock : nat → DateTime).
Implicit Types (w : job_world St E).

Lemma create_workers_loop m states set path created lanes w :
  repo_ok (jw_store w) → Forall (λ a, is_some (get_source set (lane_source_id a)) = true) lanes →
  ∃ ws s, map_each (create_worker true m states set path created) lanes w =
      (Ok ws, w <| jw_store := s |>) ∧ repo_ok s ∧
    Forall2 (λ a x, works_on a x ∧ (w_status x = Pending ∧ w_is_running x = false ∧
      w_length_known x = lane_length_known a) ∧
      w_downloaded_size x = seeded_downloaded_from_block_states m states a) lanes ws.
Proof.
  intros Hok Hsrc. revert w Hok. induction Hsrc as [|a lanes Ha _ IH]; intros w Hok.
  - exists [], (jw_store w). split; [by destruct w|]. by split.
  - cbn [map_each]. destruct (get_source set (lane_source_id a)) as [source|] eqn:Hs; [|done].
    set (x := Worker_new (lane_id a) (t_spec (jw_task w)) source a
      (Some (seeded_downloaded_from_block_states m states a)) path (Some Pending) (Some created) created).
    destruct (on_store_ok (store_save_worker (jw_task w) x) _ w (law_save_worker _) Hok)
      as (s & E1 & Hs1 & _).
    assert (create_worker true m states set path created a w = (Ok x, w <| jw_store := s |>)) as E2.
    { unfold create_worker, eff_bind, the_job, gets, lift, ok_or. rewrite Hs. cbn [id when].
      fold x. by rewrite E1. }
    rewrite (eff_bind_ok _ _ _ _ _ E2).
    destruct (IH (w <| jw_store := s |>)) as (ws & s' & E3 & Hs' & F); [exact Hs1|].
    rewrite (eff_bind_ok _ _ _ _ _ E3). exists (x :: ws), s'. split; [by destruct w|].
    split; [done|]. constructor; [done|exact F].
Qed.

Lemma planned_sources m requested parallel preferred :
  manifest_wf m → m_pieces m ≠ [] → active_transfer_sources (m_sources m) ≠ [] →
  Forall (λ a, is_some (get_source (m_sources m) (lane_source_id a)) = true)
    (plan_execution_lanes_with_source_order m requested parallel preferred).
Proof.
  intros Hwf Hp Hact. destruct (planned_lanes m requested parallel preferred Hwf Hp Hact)
    as (_ & _ & Hl & _). apply Forall_forall. intros a (k & Hk)%list_elem_of_lookup.
  destruct (Hl k a Hk) as (_ & (s & -> & Hin)%list_elem_of_fmap).
  apply elem_of_filterb in Hin as [Hin _]. unfold get_source.
  destruct (find_first (has_id (src_id s)) (sources (m_sources m))) as [s'|] eqn:Hf; [done|].
  apply find_first_None with (x:=s) in Hf; [|done]. unfold has_id in Hf. by rewrite String.eqb_refl in Hf.
Qed.

(** What reusable workers match. *)
Lemma matches_works_on lanes ws :
  length ws = length lanes →
  forallb (λ '(worker, assignment), matches_assignment worker assignment) (zip ws lanes) = true →
  Forall2 works_on lanes ws.
Proof.
  revert lanes. induction ws as [|x ws IH]; intros [|a lanes] [=] Hm; [constructor|].
  cbn in Hm. bool_hyps. constructor; [|by apply IH].
  unfold matches_assignment in *. bool_hyps. by split_and!.
Qed.

Lemma ensure_workers_ok path m w :
  repo_ok (jw_store w) → t_manifest (jw_task w) = Some m → manifest_wf m → blocks_of_pieces m →
  m_pieces m ≠ [] → t_sources (jw_task w) = m_sources m →
  active_transfer_sources (m_sources m) ≠ [] →
  ∃ ws w', ensure_workers config true clock path w = (Ok ws, w') ∧ repo_ok (jw_store w') ∧
    jw_task w' = jw_task w <| t_workers := ws |> ∧
    jw_payload w' = jw_payload w ∧ jw_events w' = jw_events w ∧
    tiles 0 (span_of_worker <$> ws) (m_total_size m) ∧ w_id <$> ws = seqZ 0 (zlen ws) ∧
    (ws = t_workers (jw_task w) ∨
     Forall (λ x, new_worker x ∧
       seeded m (t_block_states (jw_task w)) (w_start x) (w_end x) (w_downloaded_size x)) ws).
Proof.
  intros Hok Hm Hwf Hb Hp Hsrc Hact. unfold ensure_workers, eff_bind at 1, the_job at 1, gets at 1.
  cbn [id]. set (t := jw_task w) in *.
  assert (∃ requested parallel preferred, job_execution_lanes config t =
    Ok (plan_execution_lanes_with_source_order m requested parallel preferred))
    as (requested & parallel & preferred & Hplan).
  { unfold job_execution_lanes. rewrite Hm. cbn. by eexists _, _, _. }
  set (lanes := plan_execution_lanes_with_source_order m requested parallel preferred) in *.
  destruct (planned_lanes m requested parallel preferred Hwf Hp Hact) as (_ & Htile & Hids & _).
  fold lanes in Htile, Hids.
  destruct (negb (bool_decide (t_workers t = [])) && can_reuse_existing_workers config (t_workers t) t)%bool
    eqn:Hreuse.
  - apply andb_true_iff in Hreuse as [_ Hreuse]. unfold can_reuse_existing_workers in Hreuse.
    rewrite Hplan in Hreuse. apply andb_true_iff in Hreuse as [Hlen%bool_decide_eq_true Hall].
    pose proof (matches_works_on _ _ Hlen Hall) as HF.
    exists (t_workers t), w. split_and!; try done.
    + subst t. by destruct w as [[]].
    + by rewrite (works_on_spans _ _ HF).
    + eapply works_on_ids; [exact HF|]. intros k l Hk. by apply (Hids k l).
    + by left.
  - set (w1 := w <| jw_task ::= λ t, t <| t_workers := [] |> |>).
    erewrite (eff_bind_ok _ _ _ tt w1) by done.
    destruct (purge_ok store_delete_workers (λ id, set_workers id []) w1) as (s1 & E1 & Hs1 & V1);
      [apply law_delete_workers|exact Hok|].
    rewrite (eff_bind_ok _ _ _ _ _ E1). set (w2 := w1 <| jw_store := s1 |> <| jw_readings ::= S |>).
    destruct (create_workers_loop m (t_block_states t) (t_sources t) path (clock (jw_readings w)) lanes w2)
      as (ws & s2 & E2 & Hs2 & HF); [exact Hs1|rewrite Hsrc; by apply planned_sources|].
    assert (create_workers config true clock path (w1 <| jw_store := s1 |>) =
      (Ok ws, w2 <| jw_store := s2 |>)) as E3.
    { unfold create_workers, eff_bind at 1, now. unfold eff_bind at 1, the_job at 1, gets at 1.
      cbn [id]. change (t_manifest (jw_task (w1 <| jw_store := s1 |> <| jw_readings ::= S |>))) with (t_manifest t).
      rewrite Hm. cbn [ok_or]. unfold eff_bind at 1, lift at 1. unfold eff_bind at 1, lift at 1.
      change (job_execution_lanes config (jw_task (w1 <| jw_store := s1 |> <| jw_readings ::= S |>)))
        with (job_execution_lanes config t). by rewrite Hplan. }
    rewrite (eff_bind_ok _ _ _ _ _ E3). eexists ws, _. split; [reflexivity|].
    assert (Forall2 works_on lanes ws) as HF1 by (eapply Forall2_impl; [exact HF|naive_solver]).
    split_and!; try done.
    + by rewrite (works_on_spans _ _ HF1).
    + eapply works_on_ids; [exact HF1|]. intros k l Hk. by apply (Hids k l).
    + right. apply Forall_forall. intros x (k & Hk)%list_elem_of_lookup.
      destruct (Forall2_lookup_r _ _ _ _ _ HF Hk) as (a & Ha & (Hi & Hs & He) & (Hst & Hr & Hkn) & Hd).
      split.
      { split_and!; [done..|]. rewrite Hkn.
        by apply (Forall_lookup_1 _ _ _ _ (planned_known m requested parallel preferred Hp) Ha). } rewrite Hs, He, Hd. apply seeded_downloaded_seeded; [done..|].
      apply list_elem_of_lookup_2 in Ha. by apply (planned_lane_bounds m requested parallel preferred).
Qed.

(** C32. With a well-formed manifest installed, a task gets workers that partition
    the payload and are numbered from 0.  They are the ones it had when these
    match the plan.  Otherwise they are new, and each starts with the part of its
    range, from the beginning up to the first block that is not completed, that is
    recorded as completed; only the task's workers and its stored rows change. *)
Theorem ensure_workers_spec path m w :
  repo_ok (jw_store w) → t_manifest (jw_task w) = Some m → manifest_wf m → blocks_of_pieces m →
  m_pieces m ≠ [] → t_sources (jw_task w) = m_sources m →
  active_transfer_sources (m_sources m) ≠ [] →
  ∃ ws w', ensure_workers config true clock path w = (Ok ws, w') ∧ repo_ok (jw_store w') ∧
    jw_task w' = jw_task w <| t_workers := ws |> ∧
    jw_payload w' = jw_payload w ∧ jw_events w' = jw_events w ∧
    tiles 0 (span_of_worker <$> ws) (m_total_size m) ∧ w_id <$> ws = seqZ 0 (zlen ws) ∧
    (ws = t_workers (jw_task w) ∨
     Forall (λ x, new_worker x ∧
       seeded m (t_block_states (jw_task w)) (w_start x) (w_end x) (w_downloaded_size x)) ws).
Proof. apply ensure_workers_ok. Qed.
End workers.

(** ** Starting *)
Section starting.
Context {St E : Type} `{RepositoryLaws St} `{TorrentEngine E} `{UrlLib} `{HttpLib} `{DigestLib}.
Context `{Json DownloadSpec} `{Json SourceSet} `{Json TorrentEngineState} `{Json TorrentMetadata}.
Context (config : Config) (clock : nat → DateTime) (send : Request → result Response string)
  (prepare_swarm : eff (job_world St E) PreparationOutcome).
Implicit Types (w : job_world St E).

(** The task when its preparation begins. *)
Lemma start_begins meanwhile w :
  repo_ok (jw_store w) → task_rows_ok (jw_task w) →
  t_status (jw_task w) = Pending ∨ t_status (jw_task w) = Paused →
  ∃ w1, jw_task w1 = jw_task w <| t_status := Preparing |>
      <| t_updated_at := Some (clock (jw_readings w)) |> ∧
    jw_events w1 = jw_events w ++ [EvPreparing (t_id (jw_task w))] ∧
    jw_payload w1 = jw_payload w ∧ jw_spawned w1 = jw_spawned w ∧ repo_ok (jw_store w1) ∧
    view (jw_store w1) ≡ saved (jw_task w1) (view (jw_store w)) ∧
    ∀ r w2, prepare_download config true true clock send prepare_swarm meanwhile w1 = (r, w2) →
      start config true true clock send prepare_swarm meanwhile w =
      (let! outcome := lift r in
       match outcome with
       | PoReady file_path =>
           set_status Running ;;; emit_manager_event true (EvStart (t_id (jw_task w))) ;;;
           persist_task true clock ;;;
           let! workers := ensure_workers config true clock file_path in
           spawn_workers workers
       | PoFinished => ret tt
       | PoStartedByEngine =>
           let! status := the_job t_status in
           when (negb (is_terminal status))
             (set_status Running ;;; persist_task true clock ;;;
              emit_manager_event true (EvStart (t_id (jw_task w)))) ;;;
           spawn SpTorrentEventListener
       end) w2.
Proof.
  intros Hok Hrows Hst.
  set (wa := w <| jw_task ::= λ t, t <| t_status := Preparing |> |>
    <| jw_events ::= λ l, l ++ [EvPreparing (t_id (jw_task w))] |>).
  destruct (persist_task_ok clock wa) as (s & E1 & Hs & V); [exact Hok| |].
  { destruct Hrows as (?&?&?&?). by split_and!. }
  match type of E1 with _ = (_, ?w) => exists w end.
  do 4 (split; [reflexivity|]). split; [exact Hs|].
  split; [exact V|]. intros r w2 E2. unfold start.
  rewrite (eff_bind_ok _ _ w tt w).
  2: { unfold prepare_for_start, eff_bind, the_job, gets. by destruct Hst as [-> | ->]. }
  unfold eff_bind at 1, the_job at 1, gets at 1.
  erewrite (eff_bind_ok _ _ _ tt (w <| jw_task ::= λ t, t <| t_status := Preparing |> |>)) by done.
  erewrite (eff_bind_ok _ _ _ tt wa) by done.
  rewrite (eff_bind_ok _ _ _ _ _ E1). unfold eff_bind at 1. rewrite E2.
  unfold eff_bind at 5, lift. by destruct r.
Qed.

(** When the origin cannot be probed, the start fails and leaves the task
    Preparing, in memory and in the store, without an event that says so; from
    then on it can be neither started nor resumed. *)
Theorem failed_start_stays_preparing err w :
  repo_ok (jw_store w) → task_rows_ok (jw_task w) →
  t_status (jw_task w) = Pending ∨ t_status (jw_task w) = Paused →
  supports_swarm_discovery (t_spec (jw_task w)) = false →
  fs_exists (pw_fs (jw_payload w)) (download_dir config) = true →
  discover_origin send (t_spec (jw_task w)) (t_http_request (jw_task w)) = Err err →
  ∃ w', let start := start config true true clock send prepare_swarm (ret tt) in
    start w = (Err err, w') ∧ t_status (jw_task w') = Preparing ∧
    jw_events w' = jw_events w ++ [EvPreparing (t_id (jw_task w))] ∧
    v_task (view (jw_store w')) (task_to_db (jw_task w')) ∧
    start w' = (Err (EOther "Task is Preparing, cannot start again"), w') ∧
    resume config true true clock send prepare_swarm (ret tt) w' =
      (Err (cannot "resume" Preparing), w').
Proof.
  intros Hok Hrows Hst Hspec Hdir Hprobe.
  destruct (start_begins (ret tt) w Hok Hrows Hst) as (w1 & Ht & Hv & Hp & _ & Hs & V & Hstart).
  assert (t_status (jw_task w1) = Preparing) as Hst1 by (by rewrite Ht).
  exists w1. split_and!.
  - rewrite (Hstart (Err err) w1); [done|]. unfold prepare_download, eff_bind, the_job, path_exists, gets.
    assert (t_spec (jw_task w1) = t_spec (jw_task w)) as Esp by (by rewrite Ht).
    assert (t_http_request (jw_task w1) = t_http_request (jw_task w)) as Ereq by (by rewrite Ht).
    rewrite Esp, Hspec, Hp, Hdir. cbn. unfold lift. by rewrite Ereq, Hprobe.
  - done.
  - done.
  - apply V. cbn. unfold upsert. by left.
  - unfold start, prepare_for_start, eff_bind, the_job, gets. by rewrite Hst1.
  - unfold resume, eff_bind, the_job, gets. by rewrite Hst1.
Qed.

(** *** What does not touch the status *)

Abbreviation same_status := (same (St:=St) (E:=E) t_status).
Abbreviation quiet m := (keeps (same (St:=St) (E:=E) t_status) m).

Lemma quiet_sync : quiet sync_progress.
Proof.
  intros w. unfold sync_progress, sync_piece_progress_from_workers.
  destruct (t_manifest (jw_task w)) as [m|]; [|done]. destruct (sync_workers _ _ _ _).
  by destruct (m_total_size_known m).
Qed.
Lemma quiet_verify path : quiet (verify_checksums clock path).
Proof. intros w. by rewrite verify_checksums_eq. Qed.

Ltac solve_quiet := repeat first [ apply quiet_sync | apply quiet_verify | same_step ].

Lemma quiet_persist : quiet (persist_task true clock).
Proof. unfold persist_task. solve_quiet. Qed.
Lemma quiet_ensure path : quiet (ensure_workers config true clock path).
Proof.
  unfold ensure_workers, create_workers, create_worker, clear_task_workers, purge_task_workers.
  solve_quiet. intros w. unfold same, on_job, modify, update. cbn.
  destruct (bool_decide (t_workers (jw_task w) = [])); reflexivity.
Qed.
(** What ends the download leaves a final status. *)
Definition has_ended w : Prop := is_terminal (t_status (jw_task w)) = true.

Lemma quiet_triple {A} P (m : eff (job_world St E) A) :
  quiet m → (∀ w w', P w → same_status w w' → P w') → triple P m (λ _, P) (λ _ _, True).
Proof.
  intros Hm HP. eapply triple_conseq; [by apply (triple_keeps same_status P m)|done|done|done].
Qed.

Lemma has_ended_same w w' : has_ended w → same_status w w' → has_ended w'.
Proof. unfold has_ended, same. by intros ? ->. Qed.

Lemma finish_ends outcome :
  triple (λ _, True) (finish_job true true clock outcome) (λ _, has_ended) (λ _ _, True).
Proof.
  unfold finish_job. eapply triple_bind with (R := λ _ _, True); [by apply triple_gets|]. intros id.
  assert (∀ status event, is_terminal status = true →
    triple (λ _, True) (set_status status ;;; persist_task_checksums true ;;;
      persist_task true clock ;;; emit_manager_event true event) (λ _, has_ended)
      (λ (_ : Error) (_ : job_world St E), True)) as Htail.
  { intros status event Hst. eapply triple_bind.
    { apply (triple_modify _ _ (λ _, has_ended)). intros w _. exact Hst. }
    intros []. apply quiet_triple; [|apply has_ended_same].
    unfold persist_task_checksums. solve_quiet. }
  destruct outcome; [|by apply Htail].
  eapply triple_bind; [by apply (triple_modify _ _ (λ _ _, True))|]. intros []. by apply Htail.
Qed.

Lemma handle_existing_ends path probe previous changed :
  triple (λ _, True) (handle_existing_file config true true clock path probe previous changed)
    (λ finished w, finished = true → has_ended w) (λ _ _, True).
Proof.
  assert (∀ words, triple (λ _, True) (discard_file true words path)
    (λ finished w, finished = true → has_ended w) (λ (_ : Error) (_ : job_world St E), True)) as Hdiscard.
  { intros words w _. unfold discard_file, eff_bind at 1. destruct (remove_file words path w) as [[]w1]; [|done].
    unfold eff_bind. by destruct (reset_resume_state true w1) as [[]]. }
  assert (triple (λ _, True) (keep_or_discard true true clock path probe previous)
    (λ finished w, finished = true → has_ended w) (λ (_ : Error) (_ : job_world St E), True)) as Hkeep.
  { unfold keep_or_discard. eapply triple_bind with (R := λ _ _, True).
    { intros w _. by destruct (verify_existing_file _ _ _ _ w) as [[]]. }
    intros [|]; [|apply Hdiscard]. eapply triple_bind; [apply finish_ends|]. intros [].
    by apply triple_ret. }
  unfold handle_existing_file. eapply triple_bind with (R := λ _ _, True); [by apply triple_gets|].
  intros [|]; cbn [negb].
  - eapply triple_bind with (R := λ _ _, True).
    { intros w _. unfold file_op. by destruct (result_map_err _ _). }
    intros size. destruct changed; [apply Hdiscard|]. destruct (pr_total_size probe) as [n|]; [|apply Hdiscard].
    destruct (n <? size); [apply Hdiscard|]. destruct (file_conflict_strategy config); [apply Hdiscard|apply Hkeep|].
    destruct (size <? n); [|apply Hkeep]. eapply triple_bind with (R := λ _ _, True); [by apply triple_gets|].
    intros [|]; [by apply triple_ret|apply Hdiscard].
  - intros w _. unfold eff_bind. by destruct (reset_missing_file_state true w) as [[]].
Qed.

Lemma prepare_ends meanwhile :
  triple (λ w, supports_swarm_discovery (t_spec (jw_task w)) = false)
    (prepare_download config true true clock send prepare_swarm meanwhile)
    (λ outcome w, match outcome with
       | PoReady _ => True | PoFinished => has_ended w | PoStartedByEngine => False end)
    (λ _ _, True).
Proof.
  assert (∀ A (m : eff (job_world St E) A), triple (λ _, True) m (λ _ _, True) (λ _ _, True)) as Hany.
  { intros A m w _. by destruct (m w) as [[]]. }
  unfold prepare_download.
  eapply triple_bind with (R := λ spec _, supports_swarm_discovery spec = false).
  { apply triple_gets. intros w Hs. exact Hs. }
  intros spec. destruct (supports_swarm_discovery spec); [intros w Hw; discriminate Hw|].
  apply triple_always. do 14 (eapply triple_bind; [apply Hany|intros ?]); cbv beta.
  eapply triple_bind; [apply handle_existing_ends|]. intros [|].
  { apply triple_ret. auto. }
  apply triple_always. eapply triple_bind; [apply Hany|]. intros ?.
  eapply triple_bind; [apply Hany|]. intros ?. case_bool_decide; [|by apply triple_ret].
  eapply triple_bind; [apply Hany|]. intros ?.
  eapply triple_bind; [apply finish_ends|]. intros []. by apply triple_ret.
Qed.

Lemma quiet_diag : ∀ f, quiet (emit_manager_event true f).
Proof. intros f w. reflexivity. Qed.

(** The workers that are returned are the task's. *)
Lemma ensure_returns path w ws w' :
  ensure_workers config true clock path w = (Ok ws, w') → ws = t_workers (jw_task w').
Proof.
  unfold ensure_workers, eff_bind at 1, the_job at 1, gets at 1. cbn [id].
  destruct (negb (bool_decide (t_workers (jw_task w) = [])) && _)%bool; [by intros [= <- <-]|].
  intros Hrun. apply eff_bind_inv in Hrun as ([] & w1 & _ & Hrun).
  apply eff_bind_inv in Hrun as ([] & w2 & _ & Hrun).
  apply eff_bind_inv in Hrun as (ws0 & w3 & _ & Hrun).
  apply eff_bind_inv in Hrun as ([] & w4 & _ & Hrun). by injection Hrun as <- <-.
Qed.

(** The steps before the preparation keep the task's source. *)
Lemma prepare_for_start_spec : keeps (same (St:=St) (E:=E) t_spec) (prepare_for_start true).
Proof.
  unfold prepare_for_start, reset_task, clear_task_workers, purge_task_workers, delete_task_file.
  solve_quiet.
Qed.

(** A start that succeeds leaves a task with an origin Running, with its
    workers started last, or ended, whatever others do to the task while the
    origin is probed: a task that is cancelled or paused meanwhile is downloaded
    all the same. *)
Theorem start_ignores_others meanwhile w w' :
  supports_swarm_discovery (t_spec (jw_task w)) = false →
  start config true true clock send prepare_swarm meanwhile w = (Ok tt, w') →
  (t_status (jw_task w') = Running ∧
   last (jw_spawned w') = Some (SpWorkers (w_id <$> t_workers (jw_task w')))) ∨
  is_terminal (t_status (jw_task w')) = true.
Proof.
  intros Hspec Hrun.
  enough (triple (λ w, supports_swarm_discovery (t_spec (jw_task w)) = false)
    (start config true true clock send prepare_swarm meanwhile)
    (λ _ w', (t_status (jw_task w') = Running ∧
      last (jw_spawned w') = Some (SpWorkers (w_id <$> t_workers (jw_task w')))) ∨ has_ended w')
    (λ _ _, True)) as Hm by (specialize (Hm w Hspec); by rewrite Hrun in Hm).
  clear Hrun. unfold start.
  assert (∀ (m : eff (job_world St E) unit), keeps (same (St:=St) (E:=E) t_spec) m →
    triple (λ w, supports_swarm_discovery (t_spec (jw_task w)) = false) m
      (λ _ w, supports_swarm_discovery (t_spec (jw_task w)) = false) (λ _ _, True)) as Hkeep.
  { intros m Hm v Hv. specialize (Hm v). unfold same in Hm. destruct (m v) as [[]v']; [|done].
    cbn in Hm. by rewrite Hm. }
  eapply triple_bind; [apply Hkeep, prepare_for_start_spec|]. intros [].
  eapply triple_bind with (R := λ _ w, supports_swarm_discovery (t_spec (jw_task w)) = false);
    [intros v Hv; exact Hv|]. intros id.
  do 3 (eapply triple_bind; [apply Hkeep; unfold persist_task; solve_quiet|intros []]).
  eapply triple_bind; [apply prepare_ends|]. intros [path| |].
  - apply triple_always. eapply triple_bind with (R := λ _ w, t_status (jw_task w) = Running).
    { by apply triple_modify. }
    intros []. assert (∀ A (m : eff (job_world St E) A), quiet m →
      triple (λ w, t_status (jw_task w) = Running) m (λ _ w, t_status (jw_task w) = Running)
        (λ _ _, True)) as Hquiet.
    { intros A m Hm. apply quiet_triple; [done|]. unfold same. congruence. }
    eapply triple_bind; [apply Hquiet, quiet_diag|]. intros [].
    eapply triple_bind; [apply Hquiet, quiet_persist|]. intros [].
    eapply triple_bind with (R := λ ws w, t_status (jw_task w) = Running ∧ ws = t_workers (jw_task w)).
    { intros v Hv. pose proof (quiet_ensure path v) as Hq. unfold same in Hq.
      pose proof (ensure_returns path v) as Hr.
      destruct (ensure_workers _ _ _ _ v) as [[ws|]v']; [|done]. cbn in Hq. split; [congruence|].
      by eapply Hr. }
    intros ws. apply triple_modify. intros v [Hv ->]. left. split; [exact Hv|]. apply last_snoc.
  - intros v [].
  - apply triple_ret. intros v Hv. by right.
Qed.

(** *** A task whose file is gone *)

Lemma of_job_ok {A} (f : Task → A * Task) w t a t' :
  f t = (a, t') → of_job f (w <| jw_task := t |>) = (Ok a, w <| jw_task := t' |>).
Proof. intros Hf. unfold of_job. cbn. by rewrite Hf. Qed.

Lemma on_payload_ok {A} (m : eff payload_world A) w a p :
  m (jw_payload w) = (Ok a, p) → on_payload m w = (Ok a, w <| jw_payload := p |>).
Proof. intros Hm. unfold on_payload. by rewrite Hm. Qed.

(** The states a task has for the blocks of a manifest that is installed: those it
    had when their layout is the manifest's, and else new ones. *)
Definition kept_blocks (m : SessionManifest) (t : Task) : list BlockState :=
  let fresh := initialize_block_states (m_blocks m) in
  if block_state_layout_matches fresh (t_block_states t) then t_block_states t else fresh.

Lemma kept_matches m t :
  block_state_layout_matches (initialize_block_states (m_blocks m)) (kept_blocks m t) = true.
Proof.
  unfold kept_blocks. cbv zeta. destruct (block_state_layout_matches _ (t_block_states t)) eqn:El; [done|].
  apply block_state_layout_matches_refl.
Qed.

Lemma kept_blocks_none m t : t_block_states t = [] → kept_blocks m t = initialize_block_states (m_blocks m).
Proof.
  intros Hnone. unfold kept_blocks. cbv zeta. rewrite Hnone.
  destruct (initialize_block_states (m_blocks m)) eqn:Eb; [done|]. by case_match.
Qed.

Lemma piece_layout_ids fresh old : piece_state_layout_matches fresh old = true →
  ps_index <$> old = ps_index <$> fresh.
Proof.
  unfold piece_state_layout_matches. intros Hm. apply andb_true_iff in Hm as [Hl%bool_decide_eq_true_1 Hm].
  revert old Hl Hm. induction fresh as [|p l IH]; intros [|q old] [=] Hm; [done|].
  cbn in Hm. bool_hyps. cbn. f_equal; [done|by apply IH].
Qed.
Lemma install_kept m t : ∃ ps, ps_index <$> ps = pl_index <$> m_pieces m ∧
  install_manifest m t = t <| t_manifest := Some m |> <| t_sources := m_sources m |>
    <| t_piece_states := ps |> <| t_block_states := kept_blocks m t |>
    <| t_payload_store := Some (from_manifest m) |>.
Proof.
  unfold install_manifest, kept_blocks. cbv zeta.
  destruct (block_state_layout_matches _ (t_block_states t)) eqn:El.
  - rewrite restore_blocks_matches by done. eexists. split; [|reflexivity].
    unfold derive_piece_states_from_blocks. by rewrite <- list_fmap_compose.
  - eexists. split; [|reflexivity].
    assert (ps_index <$> initialize_piece_states (m_pieces m) = pl_index <$> m_pieces m) as Hi
      by (unfold initialize_piece_states; by rewrite <- list_fmap_compose).
    destruct (piece_state_layout_matches _ _) eqn:Ep; [|exact Hi].
    rewrite restore_pieces_matches by done. rewrite <- Hi. by apply piece_layout_ids.
Qed.

Lemma sync_without_workers m w :
  t_manifest (jw_task w) = Some m → t_workers (jw_task w) = [] → m_total_size_known m = true →
  0 ≤ m_total_size m →
  block_state_layout_matches (initialize_block_states (m_blocks m)) (t_block_states (jw_task w)) = true →
  sync_progress w = (Ok 0, w <| jw_task ::= λ t, t
    <| t_piece_states := derive_piece_states_from_blocks (m_pieces m) (m_blocks m) (t_block_states t) |>
    <| t_downloaded_size := 0 |> |>).
Proof.
  intros Hm Hw Hk Ht Hl. unfold sync_progress, sync_piece_progress_from_workers.
  rewrite Hm, Hw, Hl, Hk. cbn [sync_workers negb]. rewrite Z.min_l by lia.
  destruct w as [[]]. reflexivity.
Qed.

(** The directories of a path are there. *)
Definition has_parent (f : fs) (path : string) : Prop :=
  ∀ dir, path_parent path = Some dir → dir = EmptyString ∨ fs_names f !! dir = Some NDir.

Definition new_file (m : SessionManifest) (path : string) (n : Z) (p : payload_world) : Prop :=
  ∃ i, fs_names (pw_fs p) !! path = Some (NFile i) ∧
    store_holds p (segments (from_manifest m)) [i] [replicate (Z.to_nat n) x00].
Lemma new_file_content m path n p : new_file m path n p →
  fs_content (pw_fs p) path = Some (replicate (Z.to_nat n) x00).
Proof.
  intros (i & Hn & [_ _ Hc _]). unfold fs_content. rewrite Hn. by inversion Hc.
Qed.

(** A new file of the size of the payload, all zeros, which the payload store has open. *)
Lemma prepare_new_file m path name n p :
  m_files m = [mk_file_manifest path name n 0] → m_total_size m = n → 0 < n →
  fs_names (pw_fs p) !! path = None → has_parent (pw_fs p) path →
  ∃ p', store_prepare (from_manifest m) p = (Ok tt, p') ∧ new_file m path n p' ∧
    ∃ i, fs_names (pw_fs p') = <[path := NFile i]> (fs_names (pw_fs p)).
Proof.
  intros Hf Ht Hn Hpath Hdir. unfold store_prepare, from_manifest. cbn [bounded segments].
  rewrite Hf, Ht. rewrite (proj2 (Z.ltb_lt 0 n)), orb_true_r by done. cbn [fmap list_fmap for_each].
  cbn [fm_path fm_offset fm_length].
  unfold new_file, from_manifest. cbn [segments]. rewrite Hf. cbn [fmap list_fmap fm_path fm_offset fm_length].
  assert (∃ p', prepare_segment true (mk_segment path 0 n) p = (Ok tt, p') ∧
    ∃ i, fs_names (pw_fs p') = <[path := NFile i]> (fs_names (pw_fs p)) ∧
      store_holds p' [mk_segment path 0 n] [i] [replicate (Z.to_nat n) x00]) as (p' & E1 & i & Hnames & Hc).
  { unfold prepare_segment. cbn [seg_path seg_length].
    rewrite (eff_bind_ok _ _ p tt p).
    2: { destruct (path_parent path) as [dir|] eqn:Hp; [|done]. unfold create_dir, eff_bind, io, fs_create_dir_all.
         destruct p as [f hs]. destruct (Hdir dir Hp) as [->|Hd]; [done|]. cbn in *. rewrite Hd. by destruct (is_empty dir). }
    unfold open_file, eff_bind, io, fs_open. rewrite Hpath. cbn.
    eexists. split; [reflexivity|]. eexists. split; [reflexivity|]. split.
    - repeat constructor. cbn. apply lookup_insert_eq.
    - apply NoDup_singleton.
    - repeat constructor. cbn. rewrite lookup_alter_eq, lookup_insert_eq. cbn. f_equal.
      unfold resize_bytes. apply resize_nil.
    - repeat constructor. cbn. unfold zlen. rewrite length_replicate. lia. }
  exists p'. rewrite (eff_bind_ok _ _ _ _ _ E1). split; [done|].
  split; exists i; rewrite Hnames; [|done]. by rewrite lookup_insert_eq.
Qed.

(** The manifest that is planned for the one file of a task. *)
Definition planned_manifest (probe : DownloadProtocolProbe) (n : Z) (path name : string) (t : Task)
    : SessionManifest :=
  let workers := if pr_supports_range_requests probe then segments_per_task config else 1 in
  let piece_size := suggested_http_piece_size n workers in
  for_single_file_with_piece_size (t_spec t)
    (fst (build_runtime_source_set (pr_resource_identity probe) t)) name path n piece_size
    (Z.min piece_size (256 * 1024)) (t_checksums t).

(** What is known of a task's origin, and where its file will be. *)
Record origin_ready (probe : DownloadProtocolProbe) (n : Z) (path name : string) w : Prop := {
  or_origin : supports_swarm_discovery (t_spec (jw_task w)) = false;
  or_probe : discover_origin send (t_spec (jw_task w)) (t_http_request (jw_task w)) = Ok probe;
  or_total : pr_total_size probe = Some n;
  or_size : 0 < n ≤ u32_max;
  or_name : t_file_name (jw_task w) = Some name;
  or_path : t_file_path (jw_task w) = Some path;
  or_dir : fs_exists (pw_fs (jw_payload w)) (download_dir config) = true;
  or_parent : has_parent (pw_fs (jw_payload w)) path
}.

(** A task without a file, workers or progress, as it is new or when it was
    restored without its file; it may have blocks. *)
Record without_file_yet (probe : DownloadProtocolProbe) (n : Z) (path name : string) w : Prop := {
  rw_origin : supports_swarm_discovery (t_spec (jw_task w)) = false;
  rw_probe : discover_origin send (t_spec (jw_task w)) (t_http_request (jw_task w)) = Ok probe;
  rw_total : pr_total_size probe = Some n;
  rw_size : 0 < n ≤ u32_max;
  rw_name : t_file_name (jw_task w) = Some name;
  rw_path : t_file_path (jw_task w) = Some path;
  rw_dir : fs_exists (pw_fs (jw_payload w)) (download_dir config) = true;
  rw_parent : has_parent (pw_fs (jw_payload w)) path;
  rw_missing : fs_names (pw_fs (jw_payload w)) !! path = None;
  rw_workers : t_workers (jw_task w) = [];
  rw_downloaded : t_downloaded_size (jw_task w) = 0
}.
Lemma without_file_ready probe n path name w : without_file_yet probe n path name w → origin_ready probe n path name w.
Proof. by intros []. Qed.

(** The task once its origin has answered and its manifest is installed. *)
Definition probed_task (probe : DownloadProtocolProbe) (n : Z) (path name : string) (t : Task) : Task :=
  let m := planned_manifest probe n path name t in
  install_manifest m
    (update_protocol_probe (pr_total_size probe) (pr_supports_range_requests probe) t
       <| t_identity := pr_resource_identity probe |> <| t_sources := m_sources m |>).
Lemma probed_task_eq probe n path name t : let m := planned_manifest probe n path name t in
  ∃ ps, ps_index <$> ps = pl_index <$> m_pieces m ∧ probed_task probe n path name t =
    update_protocol_probe (pr_total_size probe) (pr_supports_range_requests probe) t
      <| t_identity := pr_resource_identity probe |> <| t_sources := m_sources m |>
      <| t_manifest := Some m |> <| t_sources := m_sources m |>
      <| t_piece_states := ps |> <| t_block_states := kept_blocks m t |>
      <| t_payload_store := Some (from_manifest m) |>.
Proof. intros m. unfold probed_task. fold m. destruct (install_kept m
    (update_protocol_probe (pr_total_size probe) (pr_supports_range_requests probe) t
       <| t_identity := pr_resource_identity probe |> <| t_sources := m_sources m |>)) as (ps & Hps & ->).
  exists ps. split; [exact Hps|done].
Qed.

(** What is left to prepare when it is known what becomes of the file that is there. *)
Definition prepare_rest (m : SessionManifest) (path : string) (n : Z) : eff (job_world St E) PreparationOutcome :=
  sync_progress ;;; on_payload (store_prepare (from_manifest m)) ;;;
  if bool_decide (Some n = Some 0) then
    let! verified := attempt (verify_checksums clock path) in
    finish_job true true clock (checked verified) ;;;
    ret PoFinished
  else ret (PoReady path).

Lemma prepare_to_file probe n path name w :
  origin_ready probe n path name w →
  let t := jw_task w in
  prepare_download config true true clock send prepare_swarm (ret tt) w =
    (let! finished := handle_existing_file config true true clock path probe (t_identity t)
                        (validator_changed (t_identity t) (pr_resource_identity probe)) in
     if (finished : bool) then ret PoFinished
     else prepare_rest (planned_manifest probe n path name t) path n)
    (w <| jw_task := probed_task probe n path name t |> <| jw_payload := mk_world (pw_fs (jw_payload w)) ∅ |>).
Proof.
  intros [] t. unfold prepare_download. unfold eff_bind at 1, the_job at 1, gets at 1.
  rewrite or_origin0. unfold eff_bind at 1, path_exists at 1, gets at 1. rewrite or_dir0.
  cbn [negb when]. unfold eff_bind at 1, ret at 1.
  unfold eff_bind at 1, the_job at 1, gets at 1. unfold eff_bind at 1, the_job at 1, gets at 1.
  unfold eff_bind at 1, ret at 1. unfold eff_bind at 1, lift at 1. rewrite or_probe0.
  set (m := planned_manifest probe n path name (jw_task w)).
  set (t1 := update_protocol_probe (pr_total_size probe) (pr_supports_range_requests probe) (jw_task w)).
  set (t2 := t1 <| t_identity := pr_resource_identity probe |>).
  set (t3 := t2 <| t_sources := m_sources m |>).
  erewrite (eff_bind_ok _ _ _ tt (w <| jw_task := t1 |>)) by done.
  erewrite (eff_bind_ok _ _ _ tt (w <| jw_task := t2 |>)) by done.
  rewrite (eff_bind_ok _ _ _ name (w <| jw_task := t2 |>)).
  2: { apply of_job_ok. unfold initialize_file_name.
       assert (t_file_name t2 = Some name) as E1 by exact or_name0. by rewrite E1. }
  rewrite (eff_bind_ok _ _ _ (Ok path) (w <| jw_task := t2 |>)).
  2: { apply of_job_ok. unfold get_or_init_file_path.
       assert (t_file_path t2 = Some path) as E1 by exact or_path0. by rewrite E1. }
  unfold eff_bind at 1, lift at 1.
  rewrite (eff_bind_ok _ _ _ (m_sources m) (w <| jw_task := t3 |>)) by by apply of_job_ok.
  rewrite (eff_bind_ok _ _ _ m (w <| jw_task := t3 |>)).
  2: { apply of_job_ok. unfold build_single_file_manifest, resolve_or_init_file_name.
       assert (t_file_name t3 = Some name) as E1 by exact or_name0.
       rewrite E1, or_total0. cbn [is_some andb]. by rewrite andb_true_r. }
  rewrite (eff_bind_ok _ _ _ (from_manifest m) (w <| jw_task := probed_task probe n path name t |>
    <| jw_payload := mk_world (pw_fs (jw_payload w)) ∅ |>)) by done.
  unfold prepare_rest. by rewrite or_total0.
Qed.

(** Nothing is in the way: the task is ready, with a new file. *)
Lemma prepare_rest_ok m path name n w :
  t_manifest (jw_task w) = Some m → m_files m = [mk_file_manifest path name n 0] → m_total_size m = n →
  m_total_size_known m = true → 0 < n → t_workers (jw_task w) = [] →
  block_state_layout_matches (initialize_block_states (m_blocks m)) (t_block_states (jw_task w)) = true →
  fs_names (pw_fs (jw_payload w)) !! path = None → has_parent (pw_fs (jw_payload w)) path →
  ∃ p, prepare_rest m path n w = (Ok (PoReady path), w
      <| jw_task ::= λ t, t
           <| t_piece_states := derive_piece_states_from_blocks (m_pieces m) (m_blocks m) (t_block_states t) |>
           <| t_downloaded_size := 0 |> |>
      <| jw_payload := p |>) ∧
    new_file m path n p ∧ ∃ i, fs_names (pw_fs p) = <[path := NFile i]> (fs_names (pw_fs (jw_payload w))).
Proof.
  intros Hm Hf Ht Hk Hn Hw Hl Hpath Hdir. unfold prepare_rest.
  rewrite (eff_bind_ok _ _ _ _ _ (sync_without_workers m w Hm Hw Hk ltac:(lia) Hl)).
  destruct (prepare_new_file m path name n (jw_payload w) Hf Ht Hn Hpath Hdir) as (p & E1 & Hc & Hnames).
  exists p. split; [|done]. match goal with |- eff_bind _ _ ?w5 = _ =>
    rewrite (eff_bind_ok _ _ w5 tt (w5 <| jw_payload := p |>)) by (by apply on_payload_ok) end.
  by rewrite bool_decide_eq_false_2 by (intros [= ->]; lia).
Qed.

Lemma planned_manifest_ok probe n path name t :
  0 < n ≤ u32_max → let m := planned_manifest probe n path name t in
  manifest_wf m ∧ blocks_of_pieces m ∧ m_pieces m ≠ [].
Proof.
  intros Hn m.
  assert (∀ workers, is_u32 (suggested_http_piece_size n workers)) as Hps.
  { intros workers. unfold suggested_http_piece_size. destruct (n =? 0); [ilia|apply wrap32_range]. }
  assert (manifest_wf m) as Hwf.
  { subst m. unfold planned_manifest. rewrite for_single_file_eq.
    match goal with |- context [suggested_http_piece_size n ?k] => specialize (Hps k) end.
    apply for_files_wf; ilia. }
  split; [done|]. split; [split|].
  - subst m. unfold planned_manifest, for_single_file_with_piece_size. cbn. done.
  - apply Forall_forall. intros pc Hpc. subst m. unfold planned_manifest in Hpc. cbn in Hpc.
    eapply plan_piece_layouts_ok; [| |exact Hpc]; [ilia|].
    match goal with |- context [suggested_http_piece_size n ?k] => specialize (Hps k) end.
    rewrite wrap32_small by ilia. ilia.
  - intros Hnil. pose proof (wf_pieces _ Hwf) as Ht. rewrite Hnil in Ht. cbn in Ht. lia.
Qed.


(** A task that is ready starts running, with workers for the whole payload. *)
Lemma ready_starts i path m w :
  repo_ok (jw_store w) → task_rows_ok (jw_task w) → t_manifest (jw_task w) = Some m →
  manifest_wf m → blocks_of_pieces m → m_pieces m ≠ [] → t_workers (jw_task w) = [] →
  t_sources (jw_task w) = m_sources m → active_transfer_sources (m_sources m) ≠ [] →
  ∃ w' ws now, (set_status Running ;;; emit_manager_event true (EvStart i) ;;; persist_task true clock ;;;
      let! workers := ensure_workers config true clock path in spawn_workers workers) w = (Ok tt, w') ∧
    repo_ok (jw_store w') ∧ jw_payload w' = jw_payload w ∧ jw_events w' = jw_events w ++ [EvStart i] ∧
    jw_task w' = jw_task w <| t_status := Running |> <| t_updated_at := Some now |> <| t_workers := ws |> ∧
    tiles 0 (span_of_worker <$> ws) (m_total_size m) ∧
    Forall (λ x, new_worker x ∧
      seeded m (t_block_states (jw_task w)) (w_start x) (w_end x) (w_downloaded_size x)) ws.
Proof.
  intros Hok Hrows Hm Hwf Hbl Hpc Hws Hsrc Hact.
  erewrite (eff_bind_ok _ _ _ tt (w <| jw_task ::= λ t, t <| t_status := Running |> |>)) by done.
  set (w3 := w <| jw_task ::= λ t, t <| t_status := Running |> |> <| jw_events ::= λ l, l ++ [EvStart i] |>).
  erewrite (eff_bind_ok _ _ _ tt w3) by done.
  destruct (persist_task_ok clock w3) as (s & E2 & Hs & _); [exact Hok| |].
  { destruct Hrows as (? & ? & ? & ?). by split_and!. }
  rewrite (eff_bind_ok _ _ _ _ _ E2).
  match type of E2 with _ = (_, ?w) => set (w4 := w) end.
  destruct (ensure_workers_ok config clock path m w4) as (ws & w5 & E3 & Hok5 & Ht5 & Hp5 & Hv5 & Htile & _ & Hsd);
    [exact Hs|exact Hm|done|done|done|exact Hsrc|exact Hact|].
  rewrite (eff_bind_ok _ _ _ _ _ E3). eexists _, ws, _. split; [reflexivity|].
  change (jw_task (snd (spawn_workers ws w5))) with (jw_task w5).
  split; [exact Hok5|]. split; [exact Hp5|]. split; [exact Hv5|]. split; [exact Ht5|]. split; [exact Htile|].
  destruct Hsd as [Hnil|Hsd]; [|exact Hsd].
  assert (ws = []) as -> by (rewrite Hnil; exact Hws). constructor.
Qed.

(** The checksums that a task asks for, whether or not they were verified. *)
Definition wanted (t : Task) : list (ChecksumAlgorithm * option string) :=
  (λ c, (ck_algorithm c, ck_value c)) <$> t_checksums t.
Lemma wanted_rows t t' : wanted t' = wanted t → NoDup (ck_algorithm <$> t_checksums t) →
  NoDup (ck_algorithm <$> t_checksums t').
Proof.
  intros Hw. apply (f_equal (fmap fst)) in Hw. unfold wanted in Hw. rewrite <- !list_fmap_compose in Hw.
  change (fst ∘ _) with ck_algorithm in Hw. by rewrite Hw.
Qed.

(** The parts of a task that a start leaves as they are. *)
Definition constants (t : Task) :=
  (t_id t, t_spec t, t_http_request t, t_file_name t, t_file_path t, t_torrent_session t, wanted t).

(** The name of the file is free, and the task without workers, with these blocks. *)
Record cleared (path : string) (blocks : list BlockState) w w' : Prop := {
  cl_workers : t_workers (jw_task w') = [];
  cl_blocks : t_block_states (jw_task w') = blocks;
  cl_manifest : t_manifest (jw_task w') = t_manifest (jw_task w);
  cl_sources : t_sources (jw_task w') = t_sources (jw_task w);
  cl_store : t_payload_store (jw_task w') = t_payload_store (jw_task w);
  cl_ranges : t_range_requests_supported (jw_task w') = t_range_requests_supported (jw_task w);
  cl_constants : constants (jw_task w') = constants (jw_task w);
  cl_names : fs_names (pw_fs (jw_payload w')) = base.delete path (fs_names (pw_fs (jw_payload w)));
  cl_events : jw_events w' = jw_events w;
  cl_repo : repo_ok (jw_store w')
}.

(** A task that was started on a new file, with these blocks. *)
Record started_on (m : SessionManifest) (n : Z) (path : string) (blocks : list BlockState) w w' : Prop := {
  so_status : t_status (jw_task w') = Running;
  so_file : new_file m path n (jw_payload w');
  so_names : ∃ i, fs_names (pw_fs (jw_payload w')) = <[path := NFile i]> (fs_names (pw_fs (jw_payload w)));
  so_tiles : tiles 0 (span_of_worker <$> t_workers (jw_task w')) n;
  so_workers : Forall (λ x, new_worker x ∧ seeded m blocks (w_start x) (w_end x) (w_downloaded_size x))
    (t_workers (jw_task w'));
  so_store : t_payload_store (jw_task w') = Some (from_manifest m);
  so_sources : t_sources (jw_task w') = m_sources m;
  so_constants : constants (jw_task w') = constants (jw_task w);
  so_events : jw_events w' = jw_events w ++ [EvPreparing (t_id (jw_task w)); EvStart (t_id (jw_task w))];
  so_repo : repo_ok (jw_store w')
}.

(** The name is free: what remains of a start. *)
Lemma afresh probe n path name blocks w w1 w5 :
  task_rows_ok (jw_task w) → origin_ready probe n path name w1 →
  fs_names (pw_fs (jw_payload w)) !! path ≠ Some NDir →
  jw_task w1 = jw_task w <| t_status := Preparing |> <| t_updated_at := Some (clock (jw_readings w)) |> →
  jw_events w1 = jw_events w ++ [EvPreparing (t_id (jw_task w))] → jw_payload w1 = jw_payload w →
  let m := planned_manifest probe n path name (jw_task w) in
  active_transfer_sources (m_sources m) ≠ [] →
  block_state_layout_matches (initialize_block_states (m_blocks m)) blocks = true →
  NoDup ((λ b, (bs_piece b, bs_index b)) <$> blocks) →
  let wi := w1 <| jw_task := probed_task probe n path name (jw_task w1) |>
               <| jw_payload := mk_world (pw_fs (jw_payload w1)) ∅ |> in
  handle_existing_file config true true clock path probe (t_identity (jw_task w1))
    (validator_changed (t_identity (jw_task w1)) (pr_resource_identity probe)) wi = (Ok false, w5) →
  cleared path blocks wi w5 →
  ∃ w2, prepare_download config true true clock send prepare_swarm (ret tt) w1 = (Ok (PoReady path), w2) ∧
  ∃ w', (set_status Running ;;; emit_manager_event true (EvStart (t_id (jw_task w))) ;;; persist_task true clock ;;;
      let! workers := ensure_workers config true clock path in spawn_workers workers) w2 = (Ok tt, w') ∧
    t_range_requests_supported (jw_task w') = pr_supports_range_requests probe ∧
    started_on m n path blocks w w'.
Proof.
  intros Hrows Hready Hnodir Ht1 Hv1 Hp1 m Hact Hlayout Hnd wi Hhandle Hcl.
  assert (planned_manifest probe n path name (jw_task w1) = m) as Em by (by rewrite Ht1).
  destruct (planned_manifest_ok probe n path name (jw_task w) (or_size _ _ _ _ _ Hready)) as (Hwf & Hbl & Hpc).
  fold m in Hwf, Hbl, Hpc.
  destruct (probed_task_eq probe n path name (jw_task w1)) as (ps & _ & Hpt). rewrite Em in Hpt.
  assert (jw_task wi = probed_task probe n path name (jw_task w1)) as Hti by done. rewrite Hpt, Ht1 in Hti.
  assert (fs_names (pw_fs (jw_payload wi)) = fs_names (pw_fs (jw_payload w))) as Hni by (cbn; by rewrite Hp1).
  assert (jw_events wi = jw_events w1) as Hvi by done.
  rewrite (prepare_to_file _ _ _ _ _ Hready). fold wi. cbv zeta. rewrite Em.
  rewrite (eff_bind_ok _ _ _ _ _ Hhandle). cbv iota. clear Hhandle. clearbody wi. destruct Hcl.
  rewrite Hti in cl_manifest0, cl_sources0, cl_store0, cl_ranges0, cl_constants0. rewrite Hni in cl_names0.
  destruct (prepare_rest_ok m path name n w5) as (p & E1 & Hfile & i & Hnames).
  - exact cl_manifest0.
  - done.
  - done.
  - done.
  - pose proof (or_size _ _ _ _ _ Hready). lia.
  - exact cl_workers0.
  - rewrite cl_blocks0. exact Hlayout.
  - rewrite cl_names0. apply lookup_delete_eq.
  - intros dir Hd. destruct (or_parent _ _ _ _ _ Hready dir Hd) as [|Hdir]; [by left|right].
    rewrite Hp1 in Hdir. rewrite cl_names0. rewrite lookup_delete_ne; [done|].
    intros ->. by apply Hnodir.
  - eexists. split; [exact E1|].
    match type of E1 with _ = (_, ?w) => set (w2 := w) in * end.
    destruct (ready_starts (t_id (jw_task w)) path m w2) as (w' & ws & now & E2 & Hok' & Hp' & Hv' & Ht' & Htile & Hsd).
    + exact cl_repo0.
    + destruct Hrows as (_ & _ & _ & Hck). split; [|split; [|split]]; cbn [w2]; cbn.
      * rewrite cl_workers0. constructor.
      * unfold derive_piece_states_from_blocks. rewrite <- list_fmap_compose. exact (wf_piece_ids _ Hwf).
      * by rewrite cl_blocks0.
      * apply (f_equal snd) in cl_constants0. cbn in cl_constants0. eapply wanted_rows; [exact cl_constants0|exact Hck].
    + exact cl_manifest0.
    + exact Hwf.
    + exact Hbl.
    + exact Hpc.
    + exact cl_workers0.
    + exact cl_sources0.
    + exact Hact.
    + exists w'. split; [exact E2|]. split; [rewrite Ht'; exact cl_ranges0|].
      split.
      * by rewrite Ht'.
      * rewrite Hp'. exact Hfile.
      * exists i. rewrite Hp'. change (jw_payload w2) with p. rewrite Hnames, cl_names0. by rewrite insert_delete_eq.
      * rewrite Ht'. exact Htile.
      * rewrite Ht'. cbn [w2] in Hsd. change (t_block_states (jw_task w2)) with (t_block_states (jw_task w5)) in Hsd.
        rewrite cl_blocks0 in Hsd. exact Hsd.
      * rewrite Ht'. exact cl_store0.
      * rewrite Ht'. exact cl_sources0.
      * rewrite Ht'. exact cl_constants0.
      * rewrite Hv'. change (jw_events w2) with (jw_events w5). rewrite cl_events0, Hvi, Hv1, <- app_assoc. done.
      * exact Hok'.
Qed.

(** A task of an origin that is started without a file gets a file of zeros, and
    new workers that partition it and skip, from the beginning of their ranges, the
    blocks that are recorded as completed. *)
Lemma start_without_file probe n path name w :
  repo_ok (jw_store w) → task_rows_ok (jw_task w) →
  t_status (jw_task w) = Pending ∨ t_status (jw_task w) = Paused →
  without_file_yet probe n path name w →
  let m := planned_manifest probe n path name (jw_task w) in
  active_transfer_sources (m_sources m) ≠ [] →
  ∃ w', start config true true clock send prepare_swarm (ret tt) w = (Ok tt, w') ∧
    t_range_requests_supported (jw_task w') = pr_supports_range_requests probe ∧
    started_on m n path (kept_blocks m (jw_task w)) w w'.
Proof.
  intros Hok Hrows Hst Hres m Hact.
  destruct (start_begins (ret tt) w Hok Hrows Hst) as (w1 & Ht1 & Hv1 & Hp1 & _ & Hs1 & _ & Hstart).
  assert (origin_ready probe n path name w1) as Hready.
  { destruct Hres. split; rewrite ?Hp1, ?Ht1; done. }
  assert (planned_manifest probe n path name (jw_task w1) = m) as Em by (by rewrite Ht1).
  destruct (planned_manifest_ok probe n path name (jw_task w) (rw_size _ _ _ _ _ Hres)) as (Hwf & Hbl & Hpc).
  destruct (probed_task_eq probe n path name (jw_task w1)) as (ps & _ & Hpt). rewrite Em in Hpt.
  set (wi := w1 <| jw_task := probed_task probe n path name (jw_task w1) |>
               <| jw_payload := mk_world (pw_fs (jw_payload w1)) ∅ |>).
  assert (fs_names (pw_fs (jw_payload wi)) !! path = None) as Hmissing.
  { cbn. rewrite Hp1. apply Hres. }
  destruct (afresh probe n path name (kept_blocks m (jw_task w)) w w1 wi) as (w2 & E2 & w' & E3 & Hrr & Hso); try done.
  - by rewrite (rw_missing _ _ _ _ _ Hres).
  - apply kept_matches.
  - unfold kept_blocks. cbv zeta. destruct (block_state_layout_matches _ _); [apply Hrows|by apply fresh_block_ids].
  - unfold handle_existing_file, eff_bind, path_exists, gets. fold wi.
    assert (fs_exists (pw_fs (jw_payload wi)) path = false) as -> by (unfold fs_exists; by rewrite Hmissing).
    cbn [negb]. unfold reset_missing_file_state, eff_bind, the_job, gets.
    assert (t_downloaded_size (jw_task wi) = 0) as ->.
    { cbn [wi]. change (jw_task wi) with (probed_task probe n path name (jw_task w1)). rewrite Hpt, Ht1. apply Hres. }
    assert (t_workers (jw_task wi) = []) as ->.
    { change (jw_task wi) with (probed_task probe n path name (jw_task w1)). rewrite Hpt, Ht1. apply Hres. }
    done.
  - fold wi. assert (jw_task wi = probed_task probe n path name (jw_task w1)) as Hti by done.
    rewrite Hpt, Ht1 in Hti. split; try done; [rewrite Hti; apply Hres|by rewrite Hti|].
    by rewrite delete_id.
  - exists w'. split; [|done]. rewrite (Hstart _ _ E2). unfold eff_bind at 1, lift at 1. exact E3.
Qed.

(** A task that was restored without its file, but with its blocks, gets a file of
    zeros of which its workers skip the blocks that were recorded as completed. *)
Theorem missing_file_skips_blocks probe n path name w :
  repo_ok (jw_store w) → task_rows_ok (jw_task w) → t_status (jw_task w) = Pending →
  without_file_yet probe n path name w →
  let m := planned_manifest probe n path name (jw_task w) in
  active_transfer_sources (m_sources m) ≠ [] →
  block_state_layout_matches (initialize_block_states (m_blocks m)) (t_block_states (jw_task w)) = true →
  ∃ w', start config true true clock send prepare_swarm (ret tt) w = (Ok tt, w') ∧
    t_status (jw_task w') = Running ∧
    fs_content (pw_fs (jw_payload w')) path = Some (replicate (Z.to_nat n) x00) ∧
    tiles 0 (span_of_worker <$> t_workers (jw_task w')) n ∧
    Forall (λ x, seeded m (t_block_states (jw_task w)) (w_start x) (w_end x) (w_downloaded_size x))
      (t_workers (jw_task w')).
Proof.
  intros Hok Hrows Hst Hw m Hact Hl.
  destruct (start_without_file probe n path name w Hok Hrows (or_introl Hst) Hw Hact)
    as (w' & E1 & _ & [Hrun Hf _ Ht Hs _ _ _ _ _]).
  exists w'. split_and!; [done|done|by eapply new_file_content|done|].
  eapply Forall_impl; [exact Hs|]. intros x [_ Hx]. fold m in Hx. unfold kept_blocks in Hx. cbv zeta in Hx.
  by rewrite Hl in Hx.
Qed.
End starting.

(** ** Examples, over the in-memory repository *)

#[local] Existing Instances spec_codec sources_codec state_codec metadata_codec.
#[local] Existing Instances idle_engine example_digests example_http no_urls.

Definition no_files : fs := mk_fs {["/" := NDir; "./downloads" := NDir]} ∅.
Definition no_swarm : eff (job_world MemoryRepository unit) PreparationOutcome := ret PoFinished.
(** A task as it is restored when its file is gone. *)
Definition restored_task : Task :=
  Task_new 1 (SpecHttp "http://h/f") (Some "f") (Some "/f") None HttpRequestOptions_default
    (Some (single_primary (example_source "a" "http://h/f"))) None
    (Some [mk_block_state 0 0 true; mk_block_state 1 0 true; mk_block_state 2 0 false;
           mk_block_state 3 0 false])
    None (Some 0) (Some 10) None [] None None 0.
Definition restored_job : job_world MemoryRepository unit :=
  mk_job restored_task (mk_world no_files ∅) memory_new tt [] [] [] 0.
Lemma restored_job_ok : repo_ok (jw_store restored_job).
Proof. exact memory_new_ok. Qed.
Lemma restored_rows : task_rows_ok restored_task.
Proof. split_and!; apply (bool_decide_eq_true_1 _); vm_compute; reflexivity. Qed.
Definition example_probe : DownloadProtocolProbe :=
  mk_probe (Some 10) true (mk_identity (Some "http://h/f") (Some "v1") None) None.
Definition failing_send (request : Request) : result Response string := Err "unreachable".

Lemma missing_file_skips_blocks_witness :
  ∃ w', start Config_default true true tick example_send no_swarm (ret tt) restored_job = (Ok tt, w') ∧
    fs_content (pw_fs (jw_payload w')) "/f" = Some (replicate 10 x00) ∧
    w_downloaded_size <$> t_workers (jw_task w') = [3; 3; 0; 0].
Proof.
  destruct (missing_file_skips_blocks Config_default tick example_send no_swarm example_probe 10 "/f" "f"
    restored_job restored_job_ok restored_rows eq_refl) as (w' & E1 & _ & Hc & _).
  - split; try (vm_compute; reflexivity); [unfold u32_max; lia|].
    intros dir Hd. vm_compute in Hd. injection Hd as <-. right. vm_compute. reflexivity.
  - vm_compute. discriminate.
  - vm_compute. reflexivity.
  - exists w'. split; [exact E1|]. split; [exact Hc|].
    assert (snd (start Config_default true true tick example_send no_swarm (ret tt) restored_job) = w')
      as <- by (by rewrite E1). vm_compute. reflexivity.
Defined.

Lemma failed_start_stays_preparing_witness :
  ∃ w', start Config_default true true tick failing_send no_swarm (ret tt) restored_job =
      (Err (EReqwest "unreachable"), w') ∧
    t_status (jw_task w') = Preparing ∧ jw_events w' = [EvPreparing 1].
Proof.
  destruct (failed_start_stays_preparing Config_default tick failing_send no_swarm (EReqwest "unreachable")
    restored_job restored_job_ok restored_rows (or_introl eq_refl) eq_refl)
    as (w' & E1 & Hst & Hv & _); [vm_compute; reflexivity..|].
  exists w'. split_and!; [exact E1|exact Hst|exact Hv].
Defined.

(** Cancelled while the origin is probed, the task is running all the same. *)
Lemma start_ignores_others_witness :
  ∃ w', start Config_default true true tick example_send no_swarm (cancel true true tick) restored_job =
      (Ok tt, w') ∧
    jw_events w' = [EvPreparing 1; EvCancel 1; EvStart 1] ∧
    (t_status (jw_task w') = Running ∨ is_terminal (t_status (jw_task w')) = true).
Proof.
  destruct (start Config_default true true tick example_send no_swarm (cancel true true tick) restored_job)
    as [r w'] eqn:E1.
  assert (fst (start Config_default true true tick example_send no_swarm (cancel true true tick) restored_job)
    = Ok tt) as Hr by (vm_compute; reflexivity).
  assert (jw_events (snd (start Config_default true true tick example_send no_swarm (cancel true true tick)
    restored_job)) = [EvPreparing 1; EvCancel 1; EvStart 1]) as Hv by (vm_compute; reflexivity).
  rewrite E1 in Hr, Hv. cbn [fst snd] in Hr, Hv. subst r.
  exists w'. split_and!; [done|exact Hv|].
  destruct (start_ignores_others Config_default tick example_send no_swarm (cancel true true tick)
    restored_job w' eq_refl E1) as [[Hst _]|Hst]; [by left|by right].
Defined.

Definition planned_job : job_world MemoryRepository unit :=
  mk_job (restored_task <| t_manifest := Some (planned_manifest Config_default example_probe 10 "/f" "f" restored_task) |>
            <| t_sources := m_sources (planned_manifest Config_default example_probe 10 "/f" "f" restored_task) |>)
    (mk_world no_files ∅) memory_new tt [] [] [] 0.

Lemma ensure_workers_spec_witness :
  ∃ ws w', ensure_workers Config_default true tick "/f" planned_job = (Ok ws, w') ∧
    tiles 0 (span_of_worker <$> ws) 10 ∧ w_downloaded_size <$> ws = [6].
Proof.
  destruct (planned_manifest_ok Config_default example_probe 10 "/f" "f" restored_task)
    as (Hwf & Hb & Hp); [unfold u32_max; lia|].
  destruct (ensure_workers_spec Config_default tick "/f" _ planned_job restored_job_ok eq_refl Hwf Hb Hp eq_refl)
    as (ws & w' & E1 & _ & _ & _ & _ & Ht & _).
  - vm_compute. discriminate.
  - exists ws, w'. split; [exact E1|]. split; [exact Ht|].
    assert (fst (ensure_workers Config_default true tick "/f" planned_job) = Ok ws) as Hf by (by rewrite E1).
    assert (w_downloaded_size <$> match fst (ensure_workers Config_default true tick "/f" planned_job) with
      | Ok ws => ws | Err _ => [] end = [6]) as Hd by (vm_compute; reflexivity).
    by rewrite Hf in Hd.
Defined.
