(* ===== verification/JobResume.v ===== *)
(** * A task that goes on with a file that is there
    ([src/src/job/state.rs], [src/src/job/prepare.rs])

    A download has its file at its full size from the beginning.  A task that is
    started or resumed finds such a file: the preparation either takes it for the
    payload, and the task is Completed, or removes it, and the download begins
    afresh. *)

From S2P Require Import Prelude Text Float Ranges Status Effect Source Piece Files Checksum Manifest Planner Payload Torrent Config Task Mapping Repository Memory Store Probe Job JobFacts JobStart.

Section resuming.
Context {St E : Type} `{RepositoryLaws St} `{TorrentEngine E} `{UrlLib} `{HttpLib} `{!DigestLib} `{!DigestLibLaws}.
Context `{Json DownloadSpec} `{Json SourceSet} `{Json TorrentEngineState} `{Json TorrentMetadata}.
Context (config : Config) (clock : nat → DateTime) (send : Request → result Response string)
  (prepare_swarm : eff (job_world St E) PreparationOutcome).
Implicit Types (w : job_world St E).

Lemma content_here f path c : fs_content f path = Some c →
  (∃ i, fs_names f !! path = Some (NFile i)) ∧ fs_len f path = Ok (zlen c) ∧ fs_read f path = Ok c.
Proof.
  unfold fs_content, fs_len, fs_read. destruct (fs_names f !! path) as [[i|]|]; [|done..].
  intros ->. split; [by exists i|done].
Qed.

(** *** The file is not what was asked for *)

Lemma reset_blocks fresh blocks :
  block_state_layout_matches fresh blocks = true → Forall (λ b, bs_completed b = false) fresh →
  (λ b, mk_block_state (bs_piece b) (bs_index b) false) <$> blocks = fresh.
Proof.
  unfold block_state_layout_matches. intros Hm Hf. apply andb_true_iff in Hm as [Hl%bool_decide_eq_true_1 Hm].
  revert blocks Hl Hm. induction Hf as [|[p i c] l Hc _ IH]; intros [|[p' i' c'] k] [=] Hm; [done|].
  cbn in Hm. bool_hyps. cbn in *. subst. f_equal. by apply IH.
Qed.

Lemma discard_ok words path m i w :
  repo_ok (jw_store w) → t_manifest (jw_task w) = Some m →
  block_state_layout_matches (initialize_block_states (m_blocks m)) (t_block_states (jw_task w)) = true →
  fs_names (pw_fs (jw_payload w)) !! path = Some (NFile i) →
  ∃ w', discard_file true words path w = (Ok false, w') ∧
    cleared path (initialize_block_states (m_blocks m)) w w'.
Proof.
  intros Hok Hm Hl Hpath. set (f := mk_fs (base.delete path (fs_names (pw_fs (jw_payload w)))) (fs_inodes (pw_fs (jw_payload w)))).
  set (w1 := w <| jw_payload := mk_world f (pw_handles (jw_payload w)) |>).
  set (w2 := w1 <| jw_task ::= λ t, reset_block_progress (reset_piece_progress (t <| t_downloaded_size := 0 |>))
                     <| t_workers := [] |> |>).
  destruct (purge_ok store_delete_workers (λ id, set_workers id []) w2) as (s & E1 & Hs & _);
    [apply law_delete_workers|exact Hok|].
  exists (w2 <| jw_store := s |>). split.
  - unfold discard_file. rewrite (eff_bind_ok _ _ w tt w1).
    + unfold reset_resume_state. rewrite (eff_bind_ok _ _ w1 tt (w2 <| jw_store := s |>)); [done|].
      unfold purge_task_workers. rewrite <- E1. by destruct w.
    + unfold remove_file, file_op, fs_remove_file. unfold eff_bind. rewrite Hpath. by destruct w as [? []].
  - split; try reflexivity; [|exact Hs].
    change (t_block_states (jw_task (w2 <| jw_store := s |>))) with
      ((λ b, mk_block_state (bs_piece b) (bs_index b) false) <$> t_block_states (jw_task w)).
    apply reset_blocks; [exact Hl|]. unfold initialize_block_states. rewrite Forall_fmap. by apply Forall_true.
Qed.

(** *** The file is verified *)

(** What a verification asks of a file that has the size of the payload. *)
Definition verifies (previous : HttpResourceIdentity) (checksums : list Checksum) (c : bytes) : Prop :=
  if decide (checksums = []) then has_resume_validator previous = true
  else Forall (checksum_matches c) checksums.

Lemma verify_existing_ok path probe previous n c w :
  fs_content (pw_fs (jw_payload w)) path = Some c → zlen c = n → pr_total_size probe = Some n →
  validator_changed previous (pr_resource_identity probe) = false →
  ∃ b readings cs, verify_existing_file clock path probe previous w =
      (Ok b, w <| jw_readings := readings |> <| jw_task ::= λ t, t <| t_checksums := cs |> |>) ∧
    (b = true ↔ verifies previous (t_checksums (jw_task w)) c) ∧
    (λ c, (ck_algorithm c, ck_value c)) <$> cs = wanted (jw_task w).
Proof.
  intros Hc Hn Hp Hv. destruct (content_here _ _ _ Hc) as (_ & Hlen & Hread).
  unfold verifies, verify_existing_file, eff_bind at 1, the_job at 1, gets at 1.
  destruct (decide (t_checksums (jw_task w) = [])) as [Hck|Hck].
  - exists (has_resume_validator previous), (jw_readings w), []. split_and!; [|done|unfold wanted; by rewrite Hck].
    rewrite bool_decide_eq_true_2 by done. cbn [negb]. unfold eff_bind, file_op. rewrite Hlen, Hp. cbn.
    rewrite Hn, Z.eqb_refl, Hv. cbn. destruct w as [[]]; cbn in *. subst. by destruct (has_resume_validator previous).
  - rewrite bool_decide_eq_false_2 by done. cbn [negb]. rewrite verify_checksums_eq.
    destruct (verify_file_checksums_readable (clock (jw_readings w)) _ path c (t_checksums (jw_task w)) Hread)
      as (cs & b & E1 & Hb & Hk & _).
    assert (verification clock path w = (cs, Ok b)) as -> by exact E1. cbn [fst snd].
    exists b, (S (jw_readings w)), cs. by split_and!.
Qed.

(** *** The file is kept *)

Definition outside w w' : Prop := jw_payload w' = jw_payload w ∧ jw_spawned w' = jw_spawned w.
#[local] Instance outside_refl : Reflexive outside.
Proof. by intros w. Qed.
#[local] Instance outside_trans : Transitive outside.
Proof. intros u v w [E1 E2] [E3 E4]. split; congruence. Qed.
Lemma outside_store {A} (m : eff St A) : keeps outside (on_store (E:=E) m).
Proof. intros w. unfold on_store. by destruct (m (jw_store w)). Qed.
Lemma outside_finish outcome : keeps outside (finish_job (St:=St) (E:=E) true true clock outcome).
Proof.
  unfold finish_job, persist_task_checksums, persist_task.
  repeat first [apply outside_store | apply keeps_bind; [apply _|..] | apply keeps_gets; apply _
    | apply keeps_when; [apply _|] | match goal with |- ∀ _, keeps _ _ => intros ? end | case_match
    | solve [intros ?; by split]].
Qed.

(** A task that was Completed with the file as it was; no worker was started for it. *)
Record kept w w' : Prop := {
  ke_status : t_status (jw_task w') = Completed;
  ke_files : pw_fs (jw_payload w') = pw_fs (jw_payload w);
  ke_spawned : jw_spawned w' = jw_spawned w;
  ke_events : jw_events w' = jw_events w ++ [EvPreparing (t_id (jw_task w)); EvComplete (t_id (jw_task w))];
  ke_repo : repo_ok (jw_store w');
  ke_stored : v_task (view (jw_store w')) (task_to_db (jw_task w'))
}.
(** What a preparation takes for the payload, of what has its size. *)
Definition accepted (probe : DownloadProtocolProbe) (previous : HttpResourceIdentity)
    (checksums : list Checksum) (c : bytes) : Prop :=
  file_conflict_strategy config ≠ Overwrite ∧
  validator_changed previous (pr_resource_identity probe) = false ∧ verifies previous checksums c.

Lemma cleared_verified path blocks readings cs w w' :
  (λ c, (ck_algorithm c, ck_value c)) <$> cs = wanted (jw_task w) →
  cleared path blocks (w <| jw_readings := readings |> <| jw_task ::= λ t, t <| t_checksums := cs |> |>) w' →
  cleared path blocks w w'.
Proof.
  intros Hcs []. split; try done. rewrite cl_constants. unfold constants. cbn. do 2 f_equal. exact Hcs.
Qed.

Lemma keep_or_discard_ok probe previous m path n c w :
  repo_ok (jw_store w) → t_manifest (jw_task w) = Some m → job_ok (jw_task w) →
  block_state_layout_matches (initialize_block_states (m_blocks m)) (t_block_states (jw_task w)) = true →
  fs_content (pw_fs (jw_payload w)) path = Some c → zlen c = n → pr_total_size probe = Some n →
  validator_changed previous (pr_resource_identity probe) = false →
  let checks := verifies previous (t_checksums (jw_task w)) c in
  ∃ kept w', keep_or_discard true true clock path probe previous w = (Ok kept, w') ∧
    (checks → kept = true ∧ t_status (jw_task w') = Completed ∧ outside w w' ∧
       jw_events w' = jw_events w ++ [EvComplete (t_id (jw_task w))] ∧ repo_ok (jw_store w') ∧
       v_task (view (jw_store w')) (task_to_db (jw_task w'))) ∧
    (¬ checks → kept = false ∧ cleared path (initialize_block_states (m_blocks m)) w w').
Proof.
  intros Hok Hm Hjob Hl Hc Hn Hp Hv checks.
  destruct (verify_existing_ok path probe previous n c w Hc Hn Hp Hv) as (b & r & cs & E1 & Hb & Hcs). fold checks in Hb.
  unfold keep_or_discard. rewrite (eff_bind_ok _ _ _ _ _ E1).
  set (w1 := w <| jw_readings := r |> <| jw_task ::= λ t, t <| t_checksums := cs |> |>).
  destruct b.
  - destruct (finish_job_ok clock (Ok tt) w1) as (w2 & E2 & Ht & Hev & Hs & V).
    + exact Hok.
    + apply job_ok_checksums; [|done]. apply (f_equal (fmap fst)) in Hcs. unfold wanted in Hcs.
      by rewrite <- !list_fmap_compose in Hcs.
    + pose proof (outside_finish (Ok tt) w1) as Ho. rewrite E2 in Ho. cbn [snd] in Ho.
      exists true, w2. split; [by rewrite (eff_bind_ok _ _ _ _ _ E2)|].
      split; [|intros Hno; destruct Hno; by apply Hb]. intros _. split_and!; [done|by rewrite Ht|exact Ho|exact Hev|exact Hs|].
      apply V. cbn. unfold upsert. by left.
  - destruct (content_here _ _ _ Hc) as ((i & Hi) & _).
    destruct (discard_ok "" path m i w1) as (w2 & E2 & Hcl); [exact Hok|exact Hm|exact Hl|exact Hi|].
    exists false, w2. split; [exact E2|]. split; [intros Hyes; by apply Hb in Hyes|].
    intros _. split; [done|]. by eapply cleared_verified.
Qed.

Lemma handle_existing_ok probe previous m path n c w :
  repo_ok (jw_store w) → t_manifest (jw_task w) = Some m → job_ok (jw_task w) →
  block_state_layout_matches (initialize_block_states (m_blocks m)) (t_block_states (jw_task w)) = true →
  fs_content (pw_fs (jw_payload w)) path = Some c → zlen c = n → pr_total_size probe = Some n →
  let accepts := accepted probe previous (t_checksums (jw_task w)) c in
  ∃ kept w', handle_existing_file config true true clock path probe previous
      (validator_changed previous (pr_resource_identity probe)) w = (Ok kept, w') ∧
    (accepts → kept = true ∧ t_status (jw_task w') = Completed ∧ outside w w' ∧
       jw_events w' = jw_events w ++ [EvComplete (t_id (jw_task w))] ∧ repo_ok (jw_store w') ∧
       v_task (view (jw_store w')) (task_to_db (jw_task w'))) ∧
    (¬ accepts → kept = false ∧ cleared path (initialize_block_states (m_blocks m)) w w').
Proof.
  intros Hok Hm Hjob Hl Hc Hn Hp accepts. destruct (content_here _ _ _ Hc) as ((i & Hi) & Hlen & _).
  unfold handle_existing_file, eff_bind at 1, path_exists, gets.
  assert (fs_exists (pw_fs (jw_payload w)) path = true) as -> by (unfold fs_exists; by rewrite Hi).
  cbn [negb]. unfold eff_bind at 1, file_op at 1. rewrite Hlen, Hp, Hn. cbn [result_map_err]. rewrite Z.ltb_irrefl.
  assert (∀ words, ¬ accepts → ∃ kept w', discard_file true words path w = (Ok kept, w') ∧
    (accepts → kept = true ∧ t_status (jw_task w') = Completed ∧ outside w w' ∧
       jw_events w' = jw_events w ++ [EvComplete (t_id (jw_task w))] ∧ repo_ok (jw_store w') ∧
       v_task (view (jw_store w')) (task_to_db (jw_task w'))) ∧
    (¬ accepts → kept = false ∧ cleared path (initialize_block_states (m_blocks m)) w w')) as Hdiscard.
  { intros words Hno. destruct (discard_ok words path m i w Hok Hm Hl Hi) as (w2 & E2 & Hcl). by exists false, w2. }
  destruct (validator_changed previous (pr_resource_identity probe)) eqn:Ev.
  { apply Hdiscard. by intros (_ & Hv & _); rewrite Ev in Hv. }
  destruct (keep_or_discard_ok probe previous m path n c w Hok Hm Hjob Hl Hc Hn Hp Ev) as (kp & w' & E1 & Hyes & Hno).
  destruct (file_conflict_strategy config) eqn:Es;
    [apply Hdiscard; by intros [Ho _]| |]; exists kp, w'; (split; [exact E1|]);
    (split; [intros (_ & _ & Hchecks); by apply Hyes|]); intros Hnot; apply Hno; intros Hchecks; apply Hnot;
    unfold accepts, accepted; by rewrite Es.
Qed.

(** *** A task with its file is started *)

(** The task with its manifest installed can be stored. *)
Lemma probed_job_ok probe n path name t : 0 < n ≤ u32_max → task_rows_ok t → job_ok (probed_task config probe n path name t).
Proof.
  intros Hn Hrows. destruct (probed_task_eq config probe n path name t) as (ps & Hps & ->).
  destruct (planned_manifest_ok config probe n path name t Hn) as (Hwf & Hbl & Hpc).
  destruct Hrows as (Hws & _ & Hbs & Hck). split.
  - split_and!; cbn; [done|rewrite Hps; exact (wf_piece_ids _ Hwf)| |done].
    unfold kept_blocks. cbv zeta. destruct (block_state_layout_matches _ _); [exact Hbs|by apply fresh_block_ids].
  - intros m [= <-]. split; [exact (wf_piece_ids _ Hwf)|exact (manifest_block_ids _ Hwf Hbl)].
Qed.

(** What becomes of a task whose file is found at its full size. *)
Definition goes_on probe n path name c w w' : Prop :=
  let t := jw_task w in let m := planned_manifest config probe n path name t in
  (accepted probe (t_identity t) (t_checksums t) c → kept w w') ∧
  (¬ accepted probe (t_identity t) (t_checksums t) c →
     t_range_requests_supported (jw_task w') = pr_supports_range_requests probe ∧
     started_on m n path (initialize_block_states (m_blocks m)) w w').

Lemma start_outcome probe n path name c w :
  repo_ok (jw_store w) → task_rows_ok (jw_task w) →
  t_status (jw_task w) = Pending ∨ t_status (jw_task w) = Paused →
  origin_ready config send probe n path name w →
  fs_content (pw_fs (jw_payload w)) path = Some c → zlen c = n →
  active_transfer_sources (m_sources (planned_manifest config probe n path name (jw_task w))) ≠ [] →
  ∃ w', start config true true clock send prepare_swarm (ret tt) w = (Ok tt, w') ∧ goes_on probe n path name c w w'.
Proof.
  intros Hok Hrows Hst Hready Hc Hn Hact. set (m := planned_manifest config probe n path name (jw_task w)) in Hact.
  destruct (start_begins config clock send prepare_swarm (ret tt) w Hok Hrows Hst) as (w1 & Ht1 & Hv1 & Hp1 & Hsp1 & Hs1 & _ & Hstart).
  assert (origin_ready config send probe n path name w1) as Hready1.
  { destruct Hready. split; rewrite ?Hp1, ?Ht1; done. }
  assert (planned_manifest config probe n path name (jw_task w1) = m) as Em by (by rewrite Ht1).
  destruct (planned_manifest_ok config probe n path name (jw_task w) (or_size _ _ _ _ _ _ _ Hready)) as (Hwf & Hbl & Hpc).
  destruct (probed_task_eq config probe n path name (jw_task w1)) as (ps & _ & Hpt). rewrite Em in Hpt.
  set (wi := w1 <| jw_task := probed_task config probe n path name (jw_task w1) |>
               <| jw_payload := mk_world (pw_fs (jw_payload w1)) ∅ |>).
  assert (jw_task wi = probed_task config probe n path name (jw_task w1)) as Hti by done.
  destruct (handle_existing_ok probe (t_identity (jw_task w1)) m path n c wi) as (kp & w5 & E1 & Hyes & Hno).
  - exact Hs1.
  - by rewrite Hti, Hpt.
  - apply probed_job_ok; [exact (or_size _ _ _ _ _ _ _ Hready)|]. rewrite Ht1. destruct Hrows as (?&?&?&?). by split_and!.
  - rewrite Hti, Hpt. apply kept_matches.
  - cbn. by rewrite Hp1.
  - done.
  - exact (or_total _ _ _ _ _ _ _ Hready).
  - rewrite Hti, Hpt, Ht1 in Hyes, Hno.
    destruct kp.
    + assert (¬ ¬ accepted probe (t_identity (jw_task w)) (t_checksums (jw_task w)) c) as Hacc.
      { intros Hn'. by destruct (Hno Hn'). }
      exists w5. split.
      * rewrite (Hstart (Ok PoFinished) w5); [done|].
        rewrite (prepare_to_file config clock send prepare_swarm probe n path name w1 Hready1). fold wi.
        by rewrite (eff_bind_ok _ _ _ _ _ E1).
      * split; [|by intros Hn'; destruct Hacc]. intros Ha. destruct (Hyes Ha) as (_ & Hc5 & [Hp5 Hsp5] & Hv5 & Hs5 & Hst5).
        split; [done|by rewrite Hp5; cbn; rewrite Hp1| | |exact Hs5|exact Hst5].
        -- by rewrite Hsp5.
        -- rewrite Hv5. change (jw_events wi) with (jw_events w1). rewrite Hv1, <- app_assoc. done.
    + assert (¬ accepted probe (t_identity (jw_task w)) (t_checksums (jw_task w)) c) as Hnot
        by (intros Ha; by destruct (Hyes Ha)).
      destruct (Hno Hnot) as [_ Hcl].
      destruct (afresh config clock send prepare_swarm probe n path name (initialize_block_states (m_blocks m)) w w1 w5)
        as (w2 & E2 & w' & E3 & Hrr & Hso); try done.
      * destruct (content_here _ _ _ Hc) as ((i & Hi) & _). by rewrite Hi.
      * apply block_state_layout_matches_refl.
      * by apply fresh_block_ids.
      * exists w'. split; [rewrite (Hstart _ _ E2); exact E3|]. split; [intros Ha; by destruct Hnot|]. by intros _.
Qed.

(** *** A task is resumed *)

(** A task without a session is resumed by starting it. *)
Lemma resume_starts w :
  repo_ok (jw_store w) → task_rows_ok (jw_task w) →
  t_status (jw_task w) = Pending ∨ t_status (jw_task w) = Paused → t_torrent_session (jw_task w) = None →
  ∃ w2 upd, resume config true true clock send prepare_swarm (ret tt) w =
      start config true true clock send prepare_swarm (ret tt) w2 ∧
    jw_task w2 = jw_task w <| t_status := Pending |> <| t_updated_at := upd |> ∧
    jw_payload w2 = jw_payload w ∧ jw_events w2 = jw_events w ∧ jw_spawned w2 = jw_spawned w ∧
    repo_ok (jw_store w2).
Proof.
  intros Hok Hrows [Hst|Hst] Hses.
  { exists w, (t_updated_at (jw_task w)). split; [|split_and!; try done].
    - unfold resume, eff_bind at 1, the_job at 1, gets at 1. by rewrite Hst.
    - destruct w as [[]]; cbn in *. by subst. }
  set (w1 := w <| jw_task ::= λ t, t <| t_status := Pending |> |>).
  destruct (persist_task_ok clock w1) as (s & E1 & Hs & _); [exact Hok| |].
  { destruct Hrows as (?&?&?&?). by split_and!. }
  match type of E1 with _ = (_, ?w) => set (w2 := w) in E1 end.
  exists w2, (Some (clock (jw_readings w1))). split_and!; try done.
  unfold resume, eff_bind at 1, the_job at 1, gets at 1. rewrite Hst.
  unfold eff_bind at 1, the_job at 1, gets at 1. rewrite Hses. cbn [is_some andb].
  erewrite (eff_bind_ok _ _ _ tt w1) by done. by rewrite (eff_bind_ok _ _ _ _ _ E1).
Qed.

Lemma started_from m n path blocks u w w' :
  jw_payload u = jw_payload w → constants (jw_task u) = constants (jw_task w) → jw_events u = jw_events w →
  started_on m n path blocks u w' → started_on m n path blocks w w'.
Proof.
  intros Hp Hc Hv []. assert (t_id (jw_task u) = t_id (jw_task w)) as Hi by by injection Hc.
  rewrite Hp in so_names. rewrite Hv, Hi in so_events. split; try done. by rewrite so_constants.
Qed.

Lemma kept_from u w w' :
  jw_payload u = jw_payload w → t_id (jw_task u) = t_id (jw_task w) → jw_events u = jw_events w →
  jw_spawned u = jw_spawned w → kept u w' → kept w w'.
Proof. intros Hp Hi Hv Hs []. rewrite Hp in ke_files0. rewrite Hs in ke_spawned0. rewrite Hi, Hv in ke_events0. by split. Qed.

Lemma resume_outcome probe n path name c w :
  repo_ok (jw_store w) → task_rows_ok (jw_task w) →
  t_status (jw_task w) = Pending ∨ t_status (jw_task w) = Paused →
  t_torrent_session (jw_task w) = None →
  origin_ready config send probe n path name w →
  fs_content (pw_fs (jw_payload w)) path = Some c → zlen c = n →
  active_transfer_sources (m_sources (planned_manifest config probe n path name (jw_task w))) ≠ [] →
  ∃ w', resume config true true clock send prepare_swarm (ret tt) w = (Ok tt, w') ∧ goes_on probe n path name c w w'.
Proof.
  intros Hok Hrows Hst Hses Hready Hc Hn Hact.
  destruct (resume_starts w Hok Hrows Hst Hses) as (w2 & upd & -> & Ht & Hp & Hv & Hsp & Hs2).
  destruct (start_outcome probe n path name c w2) as (w' & E2 & Hkept & Hafresh); rewrite ?Ht, ?Hp; try done.
  - by left.
  - destruct Hready. by split; rewrite ?Hp, ?Ht.
  - exists w'. split; [exact E2|]. rewrite Ht in Hkept, Hafresh.
    split; [intros Ha; apply (kept_from w2); [exact Hp|by rewrite Ht|exact Hv|exact Hsp|by apply Hkept]|].
    intros Hna. destruct (Hafresh Hna) as [Hrr Hso]. split; [exact Hrr|].
    eapply started_from; [exact Hp|by rewrite Ht|exact Hv|exact Hso].
Qed.

(** A task without a file that is started or resumed. *)
Lemma begin_without_file (again : bool) probe n path name w :
  repo_ok (jw_store w) → task_rows_ok (jw_task w) →
  t_status (jw_task w) = Pending ∨ t_status (jw_task w) = Paused →
  t_torrent_session (jw_task w) = None →
  without_file_yet config send probe n path name w →
  let m := planned_manifest config probe n path name (jw_task w) in
  active_transfer_sources (m_sources m) ≠ [] →
  ∃ w', (if again then resume config true true clock send prepare_swarm (ret tt)
         else start config true true clock send prepare_swarm (ret tt)) w = (Ok tt, w') ∧
    started_on m n path (kept_blocks m (jw_task w)) w w'.
Proof.
  intros Hok Hrows Hst Hses Hw m Hact. destruct again.
  - destruct (resume_starts w Hok Hrows Hst Hses) as (w2 & upd & -> & Ht & Hp & Hv & _ & Hs2).
    destruct (start_without_file config clock send prepare_swarm probe n path name w2) as (w' & E2 & _ & Hso); rewrite ?Ht; try done.
    + by left.
    + destruct Hw. by split; rewrite ?Hp, ?Ht.
    + exists w'. split; [exact E2|]. rewrite Ht in Hso. eapply started_from; [exact Hp|by rewrite Ht|exact Hv|exact Hso].
  - destruct (start_without_file config clock send prepare_swarm probe n path name w Hok Hrows Hst Hw Hact)
      as (w' & E2 & _ & Hso). by exists w'.
Qed.

End resuming.
