(* ===== verification/Transfer.v ===== *)
(** * The workers of a task together
    ([src/src/worker], [src/src/payload/store.rs], [src/src/job/workers.rs])

    A task's workers run at the same time and write into the same payload.  A run
    of [WorkerRun] looks at the payload only by writing into it: whatever the
    payload holds, the run makes the same writes and ends in the same way
    ([start_oblivious]).  So the runs of several workers can be told apart from how
    their writes are interleaved, and what they leave in the payload does not
    depend on it ([workers_together]). *)

From S2P Require Import Prelude Text Float Ranges Status Effect Source Piece Files Checksum Manifest Planner Payload Torrent Config Task Mapping Repository Memory Store Recovery Probe WorkerRun WorkerFacts WorkerLive Job JobFacts JobStart.

(** ** Writes *)

(** An offset and the bytes that are written there. *)
Abbreviation write := (Z * bytes)%type.

Definition overwrite (l : list write) (b : bytes) : bytes :=
  foldl (λ b x, splice (fst x) (snd x) b) b l.

(** The bytes of a write that reach the position [k]. *)
Definition covers (k : nat) (x : write) : Prop := fst x ≤ Z.of_nat k < fst x + zlen (snd x).
#[export] Instance covers_dec k x : Decision (covers k x) := _.

(** [l] takes the lists of [ls] apart and keeps the order of each. *)
Inductive interleaving {A} : list (list A) → list A → Prop :=
  | il_done ls : Forall (λ k, k = []) ls → interleaving ls []
  | il_step ls i x k l : ls !! i = Some (x :: k) → interleaving (<[i := k]> ls) l → interleaving ls (x :: l).

Section writes.
Context (fm : FileMap) (inos : list positive).
Hypothesis fm_wf : file_map_wf fm.

Definition put (x : write) : eff payload_world unit := write_at fm (fst x) (snd x).
Definition fits (x : write) : Prop := 0 ≤ fst x ∧ fst x + zlen (snd x) ≤ total_size fm.
Definition holds (p : payload_world) : Prop := ∃ cs, store_holds p (segments fm) inos cs.
Definition after (l : list write) (p : payload_world) : payload_world := snd (for_each put l p).

Lemma puts_ok l p cs :
  Forall fits l → store_holds p (segments fm) inos cs →
  ∃ cs', for_each put l p = (Ok tt, after l p) ∧ store_holds (after l p) (segments fm) inos cs' ∧
    concat cs' = overwrite l (concat cs) ∧ only_contents inos p (after l p).
Proof.
  intros Hl. revert p cs. induction Hl as [|x l [Ho Hfit] _ IH]; intros p cs Hp; unfold after.
  - exists cs. by split_and!.
  - cbn [for_each]. destruct (write_at_ok fm p inos cs (fst x) (snd x) fm_wf Hp Ho Hfit)
      as (p1 & cs1 & E1 & H1 & C1 & F1).
    rewrite (eff_bind_ok _ _ _ _ _ E1). destruct (IH p1 cs1 H1) as (cs2 & E2 & H2 & C2 & F2).
    exists cs2. split_and!; [exact E2|exact H2| |by eapply only_contents_trans].
    cbn [overwrite foldl]. by rewrite <- C1.
Qed.

Lemma after_app l k p : Forall fits l → holds p → after (l ++ k) p = after k (after l p).
Proof.
  intros Hl. revert p. induction Hl as [|x l [Ho Hfit] Hl IH]; intros p Hp; [done|].
  destruct Hp as [cs Hp]. destruct (write_at_ok fm p inos cs (fst x) (snd x) fm_wf Hp Ho Hfit)
    as (p1 & cs1 & E1 & H1 & _).
  assert (∀ n, after (x :: n) p = after n p1) as Hx.
  { intros n. unfold after. cbn [for_each]. by rewrite (eff_bind_ok _ _ _ _ _ E1). }
  cbn [app]. rewrite !Hx. apply IH. by exists cs1.
Qed.

Lemma after_holds l p : Forall fits l → holds p → holds (after l p).
Proof. intros Hl [cs Hp]. destruct (puts_ok l p cs Hl Hp) as (cs' & _ & H & _). by exists cs'. Qed.

Lemma zlen_overwrite l b : Forall fits l → zlen b = total_size fm → zlen (overwrite l b) = zlen b.
Proof.
  intros Hl. revert b. induction Hl as [|x l [Ho Hfit] Hl IH]; intros b Hb; [done|].
  cbn [overwrite foldl]. fold (overwrite l (splice (fst x) (snd x) b)).
  rewrite IH; rewrite zlen_splice; lia.
Qed.

(** Of the writes only those that reach a position matter there. *)
Lemma overwrite_filter k l b :
  Forall fits l → zlen b = total_size fm → overwrite l b !! k = overwrite (filter (covers k) l) b !! k.
Proof.
  assert (∀ l b b', Forall fits l → zlen b = total_size fm → zlen b' = total_size fm → b !! k = b' !! k →
    overwrite l b !! k = overwrite (filter (covers k) l) b' !! k) as Hg; [|intros; by apply Hg].
  clear l b. intros l. induction l as [|x l IH]; intros b b' Hl Hb Hb' E; [exact E|].
  apply Forall_cons in Hl as [[Ho Hfit] Hl]. cbn [overwrite foldl].
  fold (overwrite l (splice (fst x) (snd x) b)). rewrite filter_cons.
  case_decide as Hc.
  - cbn [overwrite foldl]. fold (overwrite (filter (covers k) l) (splice (fst x) (snd x) b')).
    apply IH; [done|rewrite zlen_splice; lia..|]. unfold covers, zlen in *.
    rewrite !lookup_splice by (unfold zlen; lia). by rewrite !decide_True by lia.
  - apply IH; [done|rewrite zlen_splice; lia|done|]. unfold covers, zlen in *.
    rewrite lookup_splice by (unfold zlen; lia). by rewrite decide_False by lia.
Qed.

(** A position that is reached holds what the writes leave there, another what was there. *)
Lemma overwrite_at k l b c : Forall fits l → zlen b = total_size fm → zlen c = total_size fm →
  b !! k = c !! k → overwrite l b !! k = overwrite l c !! k.
Proof.
  intros Hl. revert b c. induction Hl as [|x l [Ho Hfit] Hl IH]; intros b c Hb Hc E; [done|].
  cbn [overwrite foldl]. fold (overwrite l (splice (fst x) (snd x) b)). fold (overwrite l (splice (fst x) (snd x) c)).
  apply IH; [rewrite zlen_splice; lia..|]. rewrite !lookup_splice by lia. by case_decide.
Qed.
Lemma overwrite_covered k l b c : Forall fits l → Exists (covers k) l →
  zlen b = total_size fm → zlen c = total_size fm → overwrite l b !! k = overwrite l c !! k.
Proof.
  intros Hl He. revert b c. induction He as [x l Hx|x l He IH]; intros b c Hb Hc;
    apply Forall_cons in Hl as [[Ho Hfit] Hl]; cbn [overwrite foldl];
    fold (overwrite l (splice (fst x) (snd x) b)); fold (overwrite l (splice (fst x) (snd x) c)).
  - apply overwrite_at; [done|rewrite zlen_splice; lia..|]. unfold covers, zlen in *.
    rewrite !lookup_splice by (unfold zlen; lia). by rewrite !decide_True by lia.
  - apply IH; [done|rewrite zlen_splice; lia..].
Qed.

(** A position that only one of the lists reaches is left as that list leaves it. *)
Lemma interleaved_filter {A} (P : A → Prop) `{∀ x, Decision (P x)} ls l i :
  interleaving ls l → (∀ j k, j ≠ i → ls !! j = Some k → filter P k = []) →
  filter P l = filter P (default [] (ls !! i)).
Proof.
  induction 1 as [ls Hls|ls j x k l Hj Hi IH]; intros Ho.
  - destruct (ls !! i) as [k|] eqn:E; [|done]. cbn [from_option id]. rewrite Forall_forall in Hls.
    by rewrite (Hls k (list_elem_of_lookup_2 _ _ _ E)).
  - assert ((j < length ls)%nat) as Hlt by by eapply lookup_lt_Some.
    rewrite filter_cons, IH.
    + destruct (decide (j = i)) as [->|Hne].
      * rewrite list_lookup_insert_eq, Hj by done. cbn [from_option id]. by rewrite filter_cons.
      * rewrite list_lookup_insert_ne by done. specialize (Ho j _ Hne Hj). rewrite filter_cons in Ho.
        by destruct (decide (P x)).
    + intros j' k' Hne Hk'. destruct (decide (j' = j)) as [->|Hjj].
      * rewrite list_lookup_insert_eq in Hk' by done. injection Hk' as <-.
        specialize (Ho j _ Hne Hj). rewrite filter_cons in Ho. by destruct (decide (P x)).
      * rewrite list_lookup_insert_ne in Hk' by done. by eapply Ho.
Qed.

Lemma interleaved_forall {A} (P : A → Prop) ls l :
  interleaving ls l → Forall (Forall P) ls → Forall P l.
Proof.
  induction 1 as [ls Hls|ls j x k l Hj Hi IH]; intros Hf; [constructor|].
  assert (Forall P (x :: k)) as [Hx Hk]%Forall_cons by by eapply Forall_lookup_1.
  constructor; [done|]. apply IH. by apply Forall_insert.
Qed.
End writes.

(** ** Runs do not look at the payload *)
Section oblivious.
Context (fm : FileMap) (inos : list positive).
Hypothesis fm_wf : file_map_wf fm.
Hypothesis fm_small : total_size fm < u64_max.
#[local] Abbreviation holds := (holds fm inos).
#[local] Abbreviation after := (after fm).
#[local] Abbreviation fits := (fits fm).

(** The worker writes into the payload at no negative offset. *)
Definition ready (s : run_world) : Prop :=
  t_payload_store (rw_task s) = Some fm ∧ 0 ≤ w_start (rw_worker s) ∧ 0 ≤ w_downloaded_size (rw_worker s).

(** [m] makes the same writes and ends in the same way, with a [P] if it is not
    an error, whatever the payload holds. *)
Definition oblivious {A} (P : A → Prop) (m : run A) : Prop := ∀ s, ready s →
  ∃ r s' l, Forall fits l ∧ ready s' ∧ match r with Ok a => P a | Err _ => True end ∧
    ∀ p, holds p → m (s <| rw_payload := p |>) = (r, s' <| rw_payload := after l p |>).

Abbreviation anything := (λ _, True).

Lemma obl_ret {A} (P : A → Prop) a : P a → oblivious P (ret a).
Proof. intros Ha s Hs. by exists (Ok a), s, []. Qed.
Lemma obl_throw {A} (P : A → Prop) e : oblivious P (throw e).
Proof. intros s Hs. by exists (Err e), s, []. Qed.
Lemma obl_lift {A} (P : A → Prop) r : (∀ a, r = Ok a → P a) → oblivious P (lift r).
Proof. intros Hr s Hs. exists r, s, []. split_and!; [done|done| |done]. destruct r; [by apply Hr|done]. Qed.
Lemma obl_ask {A} (P : A → Prop) r : (∀ a, r = Ok a → P a) → oblivious P (ask r).
Proof. intros Hr. apply obl_lift. intros a Ha. destruct r; simplify_eq/=. by apply Hr. Qed.
Lemma obl_gets {A} (P : A → Prop) f :
  (∀ s p, f (s <| rw_payload := p |>) = f s) → (∀ s, ready s → P (f s)) → oblivious P (gets f).
Proof.
  intros Hf HP s Hs. exists (Ok (f s)), s, []. split_and!; [done|done|by apply HP|].
  intros p Hp. unfold gets. by rewrite Hf.
Qed.
Lemma obl_modify f :
  (∀ s p, f (s <| rw_payload := p |>) = f s <| rw_payload := p |>) → (∀ s, ready s → ready (f s)) →
  oblivious anything (modify f).
Proof.
  intros Hf Hr s Hs. exists (Ok tt), (f s), []. split_and!; [done|by apply Hr|done|].
  intros p Hp. unfold modify. by rewrite Hf.
Qed.
Lemma obl_weaken {A} (P Q : A → Prop) m : oblivious P m → (∀ a, P a → Q a) → oblivious Q m.
Proof.
  intros Hm HQ s Hs. destruct (Hm s Hs) as (r & s' & l & H1 & H2 & H3 & H4). exists r, s', l.
  split_and!; try done. destruct r; auto.
Qed.
Lemma obl_bind {A B} (P : A → Prop) (Q : B → Prop) m k :
  oblivious P m → (∀ a, P a → oblivious Q (k a)) → oblivious Q (eff_bind m k).
Proof.
  intros Hm Hk s Hs. destruct (Hm s Hs) as ([a|e] & s1 & l1 & F1 & R1 & P1 & E1).
  - destruct (Hk a P1 s1 R1) as (r & s2 & l2 & F2 & R2 & P2 & E2). exists r, s2, (l1 ++ l2).
    split_and!; [by apply Forall_app|done|done|]. intros p Hp. unfold eff_bind. rewrite (E1 p Hp).
    rewrite (E2 (after l1 p)) by (by apply after_holds). by erewrite after_app.
  - exists (Err e), s1, l1. split_and!; [done..|]. intros p Hp. unfold eff_bind. by rewrite (E1 p Hp).
Qed.
(** For what gives no value that matters. *)
Lemma obl_seq {A B} (Q : B → Prop) (m : run A) k :
  oblivious anything m → (∀ a, oblivious Q (k a)) → oblivious Q (eff_bind m k).
Proof. intros Hm Hk. by eapply obl_bind. Qed.
Lemma obl_when b m : oblivious anything m → oblivious anything (when b m).
Proof. destruct b; [done|]. intros _. by apply obl_ret. Qed.
Lemma obl_for_each {A} (f : A → run unit) l : (∀ a, oblivious anything (f a)) → oblivious anything (for_each f l).
Proof. intros Hf. induction l; cbn [for_each]; [by apply obl_ret|by apply obl_seq]. Qed.
Lemma obl_catch {A} (P : A → Prop) m : oblivious P m → oblivious anything (catch m).
Proof.
  intros Hm s Hs. destruct (Hm s Hs) as (r & s1 & l & F & R & Q & E1).
  exists (match r with Ok a => Ok (Ok a) | Err (Fails e) => Ok (Err e) | Err stop => Err stop end), s1, l.
  split_and!; [done|done|by destruct r as [a|[]]|]. intros p Hp. unfold catch. rewrite (E1 p Hp).
  by destruct r as [a|[]].
Qed.
(** A function of the state, which need not be built from the others. *)
Lemma obl_fun {A} (P : A → Prop) (m : run A) (f : run_world → run A) :
  (∀ s p, f (s <| rw_payload := p |>) = f s) → (∀ s, m s = f s s) → (∀ s, ready s → oblivious P (f s)) →
  oblivious P m.
Proof.
  intros Hf Hm Ho s Hs. destruct (Ho s Hs s Hs) as (r & s' & l & F & R & Q & E1).
  exists r, s', l. split_and!; [done..|]. intros p Hp. by rewrite Hm, Hf, E1.
Qed.

Create HintDb run_oblivious.
#[local] Hint Resolve obl_ret obl_throw obl_ask obl_lift obl_gets obl_modify obl_when obl_for_each
  : run_oblivious.
#[local] Hint Extern 1 (ready _) => assumption : run_oblivious.
#[local] Hint Extern 5 (ready _) => (unfold ready in *; simpl in *; done) : run_oblivious.
Ltac obl_step :=
  match goal with
  | |- oblivious _ (eff_bind _ _) => apply obl_seq; [|intros ?]
  | |- oblivious _ (when _ _) => apply obl_when
  | |- oblivious _ (match ?x with _ => _ end) => destruct x
  | |- oblivious _ _ => solve [eauto with run_oblivious]
  end.
Ltac solve_oblivious :=
  unfold the_worker, the_task, on_worker, on_task, on_stats, worker_set_status, emit_worker_event, fails in *;
  repeat (cbv beta zeta; obl_step).

Lemma obl_signal a : oblivious anything (apply_signal a).
Proof.
  apply (obl_fun _ _ (λ _, modify (λ s, snd (apply_signal a s)))); [done| |intros _ _; apply obl_modify].
  - intros s. unfold apply_signal, modify. by destruct (match a with SigPause => _ | _ => _ end).
  - intros s p. unfold apply_signal, worker_pause, worker_resume, worker_cancel, worker_delete.
    destruct a; cbn; repeat case_match; simplify_eq/=; reflexivity.
  - intros s (H1 & H2 & H3). unfold ready, apply_signal, worker_pause, worker_resume, worker_cancel, worker_delete.
    destruct a; cbn; repeat case_match; simplify_eq/=; done.
Qed.
#[local] Hint Resolve obl_signal : run_oblivious.

Lemma obl_poll : oblivious anything poll.
Proof.
  apply (obl_fun _ _ (λ s, match rw_signals s with
    | [] => ret tt
    | batch :: rest => modify (λ w, w <| rw_signals := rest |>) ;;; for_each apply_signal batch
    end)); [done|by intros s; unfold poll; destruct (rw_signals s)|].
  intros s Hs. solve_oblivious.
Qed.
#[local] Hint Resolve obl_poll : run_oblivious.
Lemma obl_stopping : oblivious anything stopping.
Proof. unfold stopping. solve_oblivious. Qed.
Lemma obl_wait_loop n : oblivious anything (wait_loop n).
Proof. induction n as [|n IH]; cbn [wait_loop]; solve_oblivious. Qed.
#[local] Hint Resolve obl_stopping obl_wait_loop : run_oblivious.
Lemma obl_wait : oblivious anything wait_until_resumed.
Proof. apply (obl_fun _ _ (λ s, wait_loop (length (rw_signals s)))); [done|done|]. intros s Hs. solve_oblivious. Qed.
Lemma obl_flush : oblivious anything progress_flush.
Proof. unfold progress_flush, emit_progress. solve_oblivious. Qed.
#[local] Hint Resolve obl_wait obl_flush : run_oblivious.

(** A write is made, or refused whatever the payload holds. *)
Lemma obl_write offset data : 0 ≤ offset → oblivious anything (write_payload fm offset data).
Proof.
  intros Ho s Hs. destruct (decide (offset + zlen data ≤ total_size fm)) as [Hfit|Hfit].
  - exists (Ok tt), s, [(offset, data)]. split_and!; [by repeat constructor|done|done|].
    intros p [cs Hp]. unfold write_payload.
    change (rw_payload (s <| rw_payload := p |>)) with p.
    destruct (write_at_ok fm p inos cs offset data fm_wf Hp Ho Hfit) as (p1 & cs1 & E1 & _).
    rewrite E1. unfold Transfer.after. cbn [for_each]. unfold put. cbn [fst snd].
    by rewrite (eff_bind_ok _ _ _ _ _ E1).
  - destruct (resolve_writes_out fm offset (zlen data)) as [m Hr]; [done|done|done|lia|].
    exists (Err (Fails (EOther m))), s, []. split_and!; [done..|]. intros p Hp. unfold write_payload, write_at.
    by erewrite eff_bind_err by (unfold lift; by rewrite Hr).
Qed.

Section run.
Context `{HttpLib} (config : Config) (server : nat → Request → result Response string)
  (elapsed : Z → bool) (rfc2822_delay : string → option Z).

Lemma obl_maybe_emit : oblivious anything (maybe_emit config elapsed).
Proof. unfold maybe_emit. solve_oblivious. Qed.
#[local] Hint Resolve obl_maybe_emit : run_oblivious.

Lemma obl_slices slices offset : 0 ≤ offset →
  oblivious (λ o, ∀ z, o = Some z → 0 ≤ z) (stream_slices config elapsed fm slices offset).
Proof.
  revert offset. induction slices as [|x l IH]; intros offset Ho; cbn [stream_slices].
  { apply obl_ret. by intros z [= <-]. }
  apply obl_seq; [solve_oblivious|]. intros []; [by apply obl_ret|].
  apply obl_seq; [solve_oblivious|]. intros []; cbn [negb]; [|by apply obl_ret].
  apply obl_seq; [by apply obl_write|]. intros _. cbv zeta.
  apply obl_seq.
  { apply obl_modify; [done|]. intros s (H1 & H2 & H3). split_and!; [exact H1|exact H2|].
    cbn. unfold wrap64. apply Z.mod_pos_bound. lia. }
  intros _. apply obl_seq; [solve_oblivious|]. intros _. apply IH.
  pose proof (zlen_nonneg x). unfold sat_add, u64_max. lia.
Qed.

Lemma obl_chunks body offset : 0 ≤ offset → oblivious anything (stream_chunks config elapsed fm body offset).
Proof.
  revert offset. induction body as [|chunk l IH]; intros offset Ho; cbn [stream_chunks]; [by apply obl_ret|].
  apply obl_seq; [solve_oblivious|]. intros []; [by apply obl_ret|].
  apply obl_seq; [solve_oblivious|]. intros []; cbn [negb]; [|by apply obl_ret].
  apply obl_seq; [solve_oblivious|]. intros id. apply obl_seq; [by apply obl_ask|]. intros data.
  eapply obl_bind; [by apply obl_slices|]. intros [z|] Hz; [|by apply obl_ret]. by apply IH, Hz.
Qed.

Lemma obl_stream d response use_range start : 0 ≤ start →
  oblivious anything (stream_response config elapsed d response use_range start).
Proof.
  intros Hs. destruct d; cbn [stream_response]; [|by apply obl_throw]. unfold http_stream_response.
  apply (obl_bind (λ o, o = Some fm)); [apply obl_gets; [done|]; by intros s [E _]|]. intros o ->.
  apply obl_seq; [solve_oblivious|]. intros id.
  apply (obl_bind (λ o, o = fm)); [apply obl_ask; by intros a [= <-]|]. intros m ->.
  apply (obl_bind (λ z, 0 ≤ z)); [apply obl_gets; [done|]; by intros s (_ & E & _)|]. intros z Hz.
  apply obl_chunks. by destruct use_range.
Qed.

Lemma obl_transfer d worker response use_range start expected : 0 ≤ start →
  oblivious anything (transfer_response config elapsed d worker response use_range start expected).
Proof.
  intros Hs. unfold transfer_response. apply obl_seq; [solve_oblivious|]. intros n. cbv zeta.
  apply obl_seq; [solve_oblivious|]. intros _. apply obl_seq; [by apply (obl_catch anything), obl_stream|].
  intros [[]|e]; [|by apply obl_ret]. apply obl_seq; [solve_oblivious|]. intros []; [by apply obl_throw|].
  apply obl_seq; [solve_oblivious|]. intros _. apply obl_seq; [solve_oblivious|]. intros m.
  apply obl_seq; [by apply obl_ask|]. intros _. solve_oblivious.
Qed.

Lemma obl_check d worker response use_range start :
  oblivious anything (check_response rfc2822_delay d worker response use_range start).
Proof. unfold check_response. solve_oblivious. Qed.

Lemma obl_send request : oblivious anything (send_request server request).
Proof.
  apply (obl_fun _ _ (λ s, modify (λ w, w <| rw_requests ::= λ l, l ++ [request] |>) ;;;
    ret (server (length (rw_requests s)) request))); [done|done|].
  intros s Hs. solve_oblivious.
Qed.

Lemma obl_attempt expected : oblivious anything (attempt_download config server elapsed rfc2822_delay expected).
Proof.
  unfold attempt_download. apply obl_seq; [solve_oblivious|]. intros source. cbv zeta.
  apply obl_seq; [solve_oblivious|]. intros []; [by apply obl_throw|].
  apply obl_seq; [solve_oblivious|]. intros []; cbn [negb]; [|by apply obl_throw].
  apply (obl_bind (λ w, 0 ≤ w_start w ∧ 0 ≤ w_downloaded_size w)).
  { apply obl_gets; [done|]. by intros s (_ & H1 & H2). }
  intros worker [H1 H2].
  assert (0 ≤ sat_add (w_start worker) (w_downloaded_size worker)) as H3 by (unfold sat_add, u64_max; lia).
  apply obl_seq; [solve_oblivious|]. intros ranges. apply obl_seq; [solve_oblivious|]. intros _.
  apply obl_seq; [solve_oblivious|]. intros task. destruct (build_request _ _ _ _ _) as [request|e]; [|by apply obl_ret].
  apply obl_seq; [apply obl_send|]. intros [response|e]; [|by apply obl_ret].
  apply obl_seq; [apply obl_check|]. intros [e|]; [by apply obl_ret|].
  apply obl_seq; [solve_oblivious|]. intros _. by apply obl_transfer.
Qed.

Lemma obl_retry retry_count err delay : oblivious anything (retry_or_fail_with_delay config retry_count err delay).
Proof. unfold retry_or_fail_with_delay. solve_oblivious. Qed.

Lemma obl_loop fuel retry_count expected :
  oblivious anything (download_loop config server elapsed rfc2822_delay fuel retry_count expected).
Proof.
  revert retry_count. induction fuel as [|fuel IH]; intros n; cbn [download_loop]; [by apply obl_throw|].
  apply obl_seq; [apply obl_attempt|]. intros [|err delay]; [by apply obl_ret|].
  apply obl_seq; [apply obl_retry|]. intros k. apply IH.
Qed.

Lemma obl_run_loop : oblivious anything (run_download_loop config server elapsed rfc2822_delay).
Proof.
  assert (oblivious anything prepare_run_state) as Hp by (unfold prepare_run_state; solve_oblivious).
  assert (oblivious anything finish_success) as Hf by (unfold finish_success; solve_oblivious).
  unfold run_download_loop. apply obl_seq; [exact Hp|]. intros []; cbn [negb]; [|by apply obl_throw].
  apply obl_seq; [solve_oblivious|]. intros worker. cbv zeta. destruct (_ && _)%bool; [exact Hf|].
  apply obl_seq; [solve_oblivious|]. intros _. apply obl_seq; [apply obl_loop|done].
Qed.

(** A run of a worker makes the same writes whatever the payload holds. *)
Lemma start_oblivious : oblivious anything (worker_start config server elapsed rfc2822_delay).
Proof.
  intros s Hs. destruct (w_is_running (rw_worker s)) eqn:Er.
  { exists (Ok tt), s, []. split_and!; [done..|]. intros p Hp. unfold worker_start.
    change (w_is_running (rw_worker (s <| rw_payload := p |>))) with (w_is_running (rw_worker s)). by rewrite Er. }
  set (s0 := s <| rw_worker ::= λ w, w <| w_is_running := true |> |>).
  destruct (obl_run_loop s0 Hs)
    as (r & s1 & l & F & R & _ & E1).
  assert (∀ p, holds p → run_download_loop config server elapsed rfc2822_delay
    (s <| rw_payload := p |> <| rw_worker ::= λ w, w <| w_is_running := true |> |>) =
    (r, s1 <| rw_payload := after l p |>)) as E2.
  { exact E1. }
  set (idle := λ t : run_world, t <| rw_worker ::= λ w, w <| w_is_running := false |> |>).
  set (ended := match r with
    | Err Suspended | Err NoFuel => (r, s1)
    | Ok _ | Err Returns => (Ok tt, idle s1)
    | Err (Fails e) => (Err (Fails e), idle (snd (mark_failed e s1)))
    end).
  exists (fst ended), (snd ended), l.
  split_and!; [done|by subst ended; destruct r as [|[]]|by destruct (fst ended)|].
  intros p Hp. unfold worker_start.
  change (w_is_running (rw_worker (s <| rw_payload := p |>))) with (w_is_running (rw_worker s)).
  rewrite Er. cbv zeta. rewrite (E2 p Hp). subst ended. by destruct r as [[]|[]].
Qed.
End run.
End oblivious.

(** ** Workers that run together *)
Section together.
Context `{HttpLib} (config : Config) (rfc2822_delay : string → option Z).
(** The payload of the resource [R]. *)
Context (fm : FileMap) (inos : list positive) (R : bytes).
Hypothesis fm_wf : file_map_wf fm.
Hypothesis fm_small : total_size fm < u64_max.
Hypothesis R_length : zlen R = total_size fm.

(** A worker, the server it meets, and when its reports fall due. *)
Record contender := mk_contender {
  ct_server : nat → Request → result Response string;
  ct_elapsed : Z → bool;
  ct_run : run_world
}.
Definition ct_worker (x : contender) : Worker := rw_worker (ct_run x).
Definition run_on (x : contender) (p : payload_world) : result unit run_stop * run_world :=
  worker_start config (ct_server x) (ct_elapsed x) rfc2822_delay (ct_run x <| rw_payload := p |>).

(** A worker of a known range that can be started, or has completed before: its server
    serves the resource. *)
Definition enters (x : contender) : Prop :=
  let w := ct_worker x in
  serves R (ct_server x) ∧ (0 ≤ w_start w ≤ w_end w ∧ w_end w < zlen R) ∧ w_length_known w = true ∧
  0 ≤ w_downloaded_size w ≤ w_end w - w_start w + 1 ∧
  t_payload_store (rw_task (ct_run x)) = Some fm ∧ t_range_requests_supported (rw_task (ct_run x)) = true ∧
  (w_status w = Completed → w_downloaded_size w = w_end w - w_start w + 1) ∧ w_is_running w = false.

(** What it counts as downloaded is in the payload. *)
Definition seeded_with (b : bytes) (x : contender) : Prop :=
  let w := ct_worker x in
  slice b (w_start w) (w_start w + w_downloaded_size w) = slice R (w_start w) (w_start w + w_downloaded_size w).

(** It makes the writes [l] and ends in the same way, whatever the payload holds. *)
Definition writes (x : contender) (l : list write) : Prop :=
  Forall (fits fm) l ∧ ∃ r s, ∀ p, holds fm inos p → run_on x p = (r, s <| rw_payload := after fm l p |>).
Definition completes (x : contender) (p : payload_world) : Prop :=
  w_status (rw_worker (snd (run_on x p))) = Completed.
(** What it counts as downloaded when its run has ended. *)
Definition count (x : contender) (p : payload_world) : Z := w_downloaded_size (rw_worker (snd (run_on x p))).

Lemma enters_writes x : enters x → ∃ l, writes x l.
Proof.
  intros (_ & [Hs _] & _ & [Hd _] & Hp & _).
  destruct (start_oblivious fm inos fm_wf fm_small config (ct_server x) (ct_elapsed x) rfc2822_delay (ct_run x))
    as (r & s & l & F & _ & _ & E1); [split_and!; [exact Hp|apply Hs|exact Hd]|].
  exists l. split; [done|]. by exists r, s.
Qed.

Lemma splice_slice_at a b (data c : bytes) (k : nat) :
  0 ≤ a ≤ b → b ≤ zlen data → b ≤ zlen c →
  splice a (slice data a b) c !! k = if decide (a ≤ Z.of_nat k < b) then data !! k else c !! k.
Proof.
  intros Ha Hb Hc. assert (zlen (slice data a b) = b - a) as Hl by (rewrite slice_length; lia).
  rewrite lookup_splice by (rewrite ?Hl; lia). unfold zlen in *.
  destruct (decide (a ≤ Z.of_nat k < b)); [rewrite decide_True by lia|by rewrite decide_False by lia].
  unfold slice. rewrite lookup_take_lt by lia. rewrite lookup_drop. f_equal. lia.
Qed.
Lemma splice_slice a b (data c : bytes) :
  0 ≤ a ≤ b → b ≤ zlen c → zlen data = zlen c → slice c a b = slice data a b → splice a (slice data a b) c = c.
Proof.
  intros Ha Hb Hd E. rewrite <- E. apply list_eq. intros k. rewrite splice_slice_at by lia. by case_decide.
Qed.

(** On a payload that holds what it counts, it can be started. *)
Lemma entered_holds x p cs :
  enters x → store_holds p (segments fm) inos cs → seeded_with (concat cs) x →
  let w := ct_worker x in
  concat cs = splice (w_start w) (slice R (w_start w) (w_start w + w_downloaded_size w)) (concat cs).
Proof.
  intros (_ & Hrange & _ & Hd & _) Hp Hseed.
  assert (zlen (concat cs) = zlen R) as Hlen by (rewrite R_length; eapply store_total; [done|apply fm_wf]).
  cbv zeta in *. symmetry. apply splice_slice; [lia|lia|done|exact Hseed].
Qed.
Lemma entered x p cs :
  enters x → store_holds p (segments fm) inos cs → seeded_with (concat cs) x → w_status (ct_worker x) ≠ Completed →
  worker_inv fm inos R (w_start (ct_worker x)) (w_end (ct_worker x)) (concat cs) (ct_run x <| rw_payload := p |>).
Proof.
  intros He Hp Hseed Hnc. pose proof He as (_ & Hrange & Hk & Hd & Hst & Hrr & _).
  split_and!; try done; try apply Hd. exists cs. split; [exact Hp|]. by apply (entered_holds x p).
Qed.

(** One that has completed before does nothing. *)
Lemma finished_before x p : w_status (ct_worker x) = Completed → w_is_running (ct_worker x) = false →
  ∃ t, run_on x p = (Ok tt, t) ∧ rw_payload t = p ∧ w_status (rw_worker t) = Completed ∧
    w_downloaded_size (rw_worker t) = w_downloaded_size (ct_worker x).
Proof.
  intros Hst Hrun. unfold run_on, worker_start. cbn [rw_worker]. unfold ct_worker in *.
  change (rw_worker (ct_run x <| rw_payload := p |>)) with (rw_worker (ct_run x)). rewrite Hrun. cbv zeta.
  unfold run_download_loop, prepare_run_state, the_worker.
  unfold eff_bind at 1. unfold eff_bind at 1, gets at 1.
  change (w_status (rw_worker (ct_run x <| rw_payload := p |> <| rw_worker ::= λ w, w <| w_is_running := true |> |>)))
    with (w_status (rw_worker (ct_run x))). rewrite Hst. cbv zeta. eexists. by split_and!.
Qed.

(** When its run has ended, the payload holds what it counts. *)
Lemma run_counts x p cs :
  enters x → store_holds p (segments fm) inos cs → seeded_with (concat cs) x →
  let w := ct_worker x in let t := snd (run_on x p) in
  counted fm inos R (w_start w) (w_end w) (concat cs) t ∧
  (w_status (rw_worker t) = Completed → have t = w_end w - w_start w + 1).
Proof.
  intros He Hp Hseed w. pose proof He as (Hsrv & Hrange & _ & Hd & _ & _ & Hfull & Hrun).
  assert (zlen (concat cs) = zlen R) as Hlen by (rewrite R_length; eapply store_total; [done|apply fm_wf]).
  destruct (decide (w_status w = Completed)) as [Hst|Hst].
  - destruct (finished_before x p Hst Hrun) as (t & E1 & Hpt & _ & Hdt). rewrite E1. cbn [snd].
    split; [|intros _; unfold have; rewrite Hdt; by apply Hfull]. split.
    + unfold have. rewrite Hdt. exact Hd.
    + exists cs. rewrite Hpt. split; [done|]. unfold have. rewrite Hdt. by apply (entered_holds x p).
  - pose proof (start_written config (ct_server x) (ct_elapsed x) rfc2822_delay fm inos R (w_start w) (w_end w)
      fm_wf R_length Hrange Hsrv (concat cs) Hlen _ (entered x p cs He Hp Hseed Hst) Hrun) as Hw.
    unfold run_on. destruct (worker_start _ _ _ _ _) as [r t]. cbn [snd]. destruct Hw as [Hdone Hc].
    split; [done|]. intros Hc'. by apply Hdone.
Qed.

(** It is served in the end, unless it has completed before: nobody stops it or
    leaves it paused, and its server fails no more often than the worker retries. *)
Definition served x : Prop :=
  let w := ct_worker x in let n := length (rw_requests (ct_run x)) in
  w_status w = Completed ∨
  startable (ct_run x) ∧ w_downloaded_size w ≤ w_end w - w_start w ∧ is_u32 (max_retries (retry config)) ∧
  ∃ k, Z.of_nat k ≤ max_retries (retry config) ∧ (∀ i, (i < k)%nat → falters (ct_server x) (n + i)) ∧
    answers (ct_server x) R (w_start w) (w_end w) (n + k).

Lemma served_completes x p cs :
  enters x → served x → store_holds p (segments fm) inos cs → seeded_with (concat cs) x → completes x p.
Proof.
  intros He Hserved Hp Hseed. destruct (decide (w_status (ct_worker x) = Completed)) as [Hst|Hst].
  { destruct He as (_ & _ & _ & _ & _ & _ & _ & Hrun). destruct (finished_before x p Hst Hrun) as (t & E1 & _ & Hc & _).
    unfold completes. by rewrite E1. }
  destruct Hserved as [|(Hstart & Hmore & Hu & k & Hk & Hf & Ha)]; [done|].
  pose proof (entered x p cs He Hp Hseed Hst) as Hinv.
  assert (zlen (concat cs) = zlen R) as Hlen by (rewrite R_length; eapply store_total; [done|apply fm_wf]).
  destruct He as (Hsrv & Hrange & _ & _ & _ & _ & _ & Hrun).
  destruct (start_completes config (ct_server x) (ct_elapsed x) rfc2822_delay fm inos R (w_start (ct_worker x))
    (w_end (ct_worker x)) fm_wf R_length Hrange Hsrv (concat cs) Hlen (ct_run x <| rw_payload := p |>) k Hinv)
    as (s' & E1 & Hc & _); [by destruct Hstart|done..|].
  unfold completes, run_on. by rewrite E1.
Qed.

(** Alone, it turns a prefix of its range into the resource's bytes. *)
Lemma alone x l p cs :
  enters x → writes x l → store_holds p (segments fm) inos cs → seeded_with (concat cs) x →
  let w := ct_worker x in let d := count x p in
  0 ≤ d ≤ w_end w - w_start w + 1 ∧
  overwrite l (concat cs) = splice (w_start w) (slice R (w_start w) (w_start w + d)) (concat cs) ∧
  (completes x p → d = w_end w - w_start w + 1).
Proof.
  intros He [F (r & s & E1)] Hp Hseed w d.
  destruct (run_counts x p cs He Hp Hseed) as [[Hd (cs2 & Hp2 & Hc2)] Hdone].
  assert (holds fm inos p) as Hh by by exists cs.
  split; [exact Hd|]. split; [|exact Hdone].
  change (have (snd (run_on x p))) with d in Hc2. fold w in Hc2. rewrite <- Hc2. rewrite (E1 p Hh) in Hp2.
  destruct (puts_ok fm inos fm_wf l p cs F Hp) as (cs' & _ & Hp' & Hc & _). rewrite <- Hc. f_equal.
  destruct Hp2 as [_ _ HA _], Hp' as [_ _ HB _].
  apply list_eq. intros k. destruct (cs2 !! k) as [a|] eqn:EA.
  - destruct (Forall2_lookup_r _ _ _ _ _ HA EA) as (i & Hi & Ha).
    destruct (Forall2_lookup_l _ _ _ _ _ HB Hi) as (b & -> & Hb). cbn in Ha. congruence.
  - apply lookup_ge_None in EA. apply lookup_ge_None.
    by rewrite <- (Forall2_length _ _ _ HB), (Forall2_length _ _ _ HA).
Qed.

(** Any bytes can be what the payload holds. *)
Lemma any_content p cs b : store_holds p (segments fm) inos cs → zlen b = zlen R →
  ∃ p' cs', store_holds p' (segments fm) inos cs' ∧ concat cs' = b.
Proof.
  intros Hp Hb. assert (zlen (concat cs) = zlen R) as Hl by (rewrite R_length; eapply store_total; [done|apply fm_wf]).
  destruct (puts_ok fm inos fm_wf [(0, b)] p cs) as (cs' & _ & H1 & H2 & _); [|done|].
  - repeat constructor; simpl; lia.
  - exists (after fm [(0, b)] p), cs'. split; [done|]. rewrite H2. cbn [overwrite foldl fst snd].
    apply list_eq. intros k. rewrite lookup_splice by lia. unfold zlen in *. case_decide; [f_equal; lia|].
    rewrite !lookup_ge_None_2; [done|lia..].
Qed.

(** It writes nothing outside of its range. *)
Lemma writes_confined x l p cs k : enters x → writes x l → store_holds p (segments fm) inos cs →
  (k < length R)%nat → ¬ w_start (ct_worker x) ≤ Z.of_nat k ≤ w_end (ct_worker x) → filter (covers k) l = [].
Proof.
  intros He Hl Hp Hk Hout. destruct (decide (Exists (covers k) l)) as [Hex|Hex].
  2: { apply Forall_Exists_neg in Hex. clear -Hex. induction Hex; [done|]. by rewrite filter_cons_False. }
  exfalso. pose proof Hl as [F _]. pose proof He as (_ & Hr & _ & Hd & _). set (w := ct_worker x) in *.
  set (part := slice R (w_start w) (w_start w + w_downloaded_size w)).
  assert (zlen part = w_downloaded_size w) as Hpart by (unfold part; rewrite slice_length; lia).
  set (base := λ v : Byte.byte, splice (w_start w) part (replicate (length R) v)).
  assert (∀ v : Byte.byte, zlen (replicate (length R) v) = zlen R) as Hrep by (intros v; unfold zlen; by rewrite length_replicate).
  assert (∀ v, zlen (base v) = zlen R) as Hlen by (intros v; unfold base; rewrite zlen_splice by (rewrite ?Hrep; lia); apply Hrep).
  assert (∀ v, base v !! k = Some v) as Hat.
  { intros v. unfold base. rewrite lookup_splice by (rewrite ?Hrep; lia). rewrite decide_False.
    - by apply lookup_replicate_2.
    - unfold zlen in *. lia. }
  assert (∀ v, overwrite l (base v) !! k = Some v) as Hkept.
  { intros v. destruct (any_content p cs (base v) Hp (Hlen v)) as (p' & cs' & Hp' & Hc').
    destruct (alone x l p' cs' He Hl Hp') as (Hdd & Ho & _).
    - unfold seeded_with. rewrite Hc'. fold w. unfold base. fold part. apply list_eq. intros j.
      unfold slice. destruct (decide (j < length part)%nat) as [Hj|Hj].
      + rewrite lookup_take_lt by (unfold zlen in *; lia). rewrite lookup_drop.
        rewrite lookup_splice by (rewrite ?Hrep; lia). rewrite decide_True by lia. f_equal. lia.
      + rewrite !lookup_ge_None_2; [done|unfold zlen in *; lia|]. rewrite length_take. unfold zlen in *. lia.
    - cbv zeta in Hdd, Ho. fold w in Hdd, Ho. rewrite Hc' in Ho.
      rewrite Ho, splice_slice_at by (rewrite ?Hlen; lia). by rewrite decide_False by lia. }
  pose proof (overwrite_covered fm k l (base x00) (base x01) F Hex) as Hsame.
  rewrite !Hkept in Hsame. by specialize (Hsame ltac:(by rewrite Hlen) ltac:(by rewrite Hlen)).
Qed.

Definition range_of (x : contender) : span := span_of_worker (ct_worker x).

(** What the writes of all leave at a position is what those of the worker
    responsible for it leave there. *)
Lemma together_at xs ls l p cs k i x m :
  Forall enters xs → Forall2 writes xs ls → store_holds p (segments fm) inos cs →
  tiles 0 (range_of <$> xs) (zlen R) → interleaving ls l → xs !! i = Some x → ls !! i = Some m →
  w_start (ct_worker x) ≤ Z.of_nat k ≤ w_end (ct_worker x) → Forall (fits fm) l →
  overwrite l (concat cs) !! k = overwrite m (concat cs) !! k.
Proof.
  intros He Hw Hp Ht Hil Hx Hm Hk Hf.
  assert (zlen (concat cs) = total_size fm) as Hlen by (eapply store_total; [done|apply fm_wf]).
  assert (enters x) as Hex by by eapply Forall_lookup_1.
  assert (writes x m) as Hwx by by eapply Forall2_lookup_lr.
  pose proof Hex as (_ & Hr & _).
  rewrite (overwrite_filter fm k l) by done. rewrite (overwrite_filter fm k m) by (apply Hwx || done).
  assert (filter (covers k) l = filter (covers k) m) as ->; [|done].
  rewrite (interleaved_filter (covers k) ls l i Hil); [by rewrite Hm|].
  intros j n Hne Hn. destruct (Forall2_lookup_r _ _ _ _ _ Hw Hn) as (y & Hy & Hwy).
  eapply (writes_confined y); [by eapply Forall_lookup_1|done|done|unfold zlen in *; lia|]. intros Hky. apply Hne.
  destruct (tiles_cover _ _ _ (Z.of_nat k) Ht) as (i0 & o & n0 & _ & _ & Hu); [lia|].
  transitivity i0; [|symmetry]; eapply Hu.
  - rewrite list_lookup_fmap, Hy. reflexivity.
  - lia.
  - rewrite list_lookup_fmap, Hx. reflexivity.
  - lia.
Qed.

(** Workers that together have the whole payload, which holds [b]. *)
Record gathered (xs : list contender) (p : payload_world) (b : bytes) : Prop := {
  ga_enters : Forall enters xs;
  ga_tiles : tiles 0 (range_of <$> xs) (zlen R);
  ga_holds : ∃ cs, store_holds p (segments fm) inos cs ∧ concat cs = b;
  ga_seeds : Forall (seeded_with b) xs
}.

Lemma gathered_writes xs p b : gathered xs p b → ∃ ls, Forall2 writes xs ls.
Proof.
  intros [He _ _ _]. induction He as [|x l Hx _ [ls IH]]; [by exists []|].
  destruct (enters_writes x Hx) as [k Hk]. exists (k :: ls). by constructor.
Qed.

Lemma gathered_served xs p b : gathered xs p b → Forall served xs → Forall (λ x, completes x p) xs.
Proof.
  intros [He _ (cs & Hp & <-) Hseed] Hserved. rewrite !Forall_forall in He, Hserved, Hseed |- *.
  intros x Hx. by eapply served_completes; [apply He|apply Hserved|exact Hp|apply Hseed].
Qed.

Lemma gathered_put xs ls l p b :
  gathered xs p b → Forall2 writes xs ls → interleaving ls l →
  ∃ b', for_each (put fm) l p = (Ok tt, after fm l p) ∧
    (∃ cs, store_holds (after fm l p) (segments fm) inos cs ∧ concat cs = b') ∧ zlen b' = zlen R ∧
    only_contents inos p (after fm l p) ∧
    (∀ i x, xs !! i = Some x → let w := ct_worker x in
      let d := count x p in
      0 ≤ d ≤ w_end w - w_start w + 1 ∧ (completes x p → d = w_end w - w_start w + 1) ∧
      ∀ k : nat, w_start w ≤ Z.of_nat k ≤ w_end w →
        b' !! k = if decide (Z.of_nat k < w_start w + d) then R !! k else b !! k) ∧
    (∀ k c, b' !! k = Some c → b !! k = Some c ∨ R !! k = Some c) ∧
    (Forall (λ x, completes x p) xs → b' = R).
Proof.
  intros [He Ht (cs & Hp & <-) Hseed] Hw Hil.
  assert (zlen (concat cs) = total_size fm) as Hlen by (eapply store_total; [done|apply fm_wf]).
  assert (Forall (fits fm) l) as Hf.
  { eapply interleaved_forall; [exact Hil|]. apply Forall_forall. intros m (i & Hi)%list_elem_of_lookup.
    by destruct (Forall2_lookup_r _ _ _ _ _ Hw Hi) as (x & _ & [? _]). }
  destruct (puts_ok fm inos fm_wf l p cs Hf Hp) as (cs' & E1 & Hp' & Hc & Ho).
  assert (zlen (concat cs') = zlen R) as Hlen' by (rewrite R_length; eapply store_total; [done|apply fm_wf]).
  assert (∀ i x, xs !! i = Some x → let w := ct_worker x in let d := count x p in
    0 ≤ d ≤ w_end w - w_start w + 1 ∧ (completes x p → d = w_end w - w_start w + 1) ∧
    ∀ k : nat, w_start w ≤ Z.of_nat k ≤ w_end w →
      concat cs' !! k = if decide (Z.of_nat k < w_start w + d) then R !! k else concat cs !! k) as Hparts.
  { intros i x Hx w d. assert (enters x) as Hex by by eapply Forall_lookup_1.
    destruct (Forall2_lookup_l _ _ _ _ _ Hw Hx) as (m & Hm & Hwx).
    destruct (alone x m p cs Hex Hwx Hp) as (Hd & Hov & Hdone); [by eapply Forall_lookup_1|]. fold w in Hd, Hov, Hdone.
    fold d in Hd, Hov, Hdone. split_and!; [lia|lia|done|]. intros k Hk. rewrite Hc.
    rewrite (together_at xs ls l p cs k i x m) by done. rewrite Hov.
    pose proof Hex as (_ & Hr & _). fold w in Hr. rewrite splice_slice_at by lia.
    by destruct (decide (Z.of_nat k < w_start w + d)); [rewrite decide_True by lia|rewrite decide_False by lia]. }
  exists (concat cs'). split_and!; [done|by exists cs'|done|done|exact Hparts| |].
  { intros k c Hb. apply lookup_lt_Some in Hb as Hk.
    destruct (tiles_cover _ _ _ (Z.of_nat k) Ht) as (i & o & n & Hi & Hon & _); [unfold zlen in *; lia|].
    apply list_lookup_fmap_Some in Hi as (x & [= -> ->] & Hx).
    destruct (Hparts i x Hx) as (_ & _ & Hat). rewrite (Hat k) in Hb by lia. case_decide; [by right|by left]. }
  intros Hall. apply list_eq. intros k. destruct (decide (k < length R)%nat) as [Hk|Hk].
  2: { rewrite !lookup_ge_None_2; [done|unfold zlen in *; lia..]. }
  destruct (tiles_cover _ _ _ (Z.of_nat k) Ht) as (i & o & n & Hi & Hon & _); [unfold zlen; lia|].
  apply list_lookup_fmap_Some in Hi as (x & [= -> ->] & Hx).
  destruct (Hparts i x Hx) as (Hd & Hdone & Hat). rewrite Hat by lia.
  rewrite (Hdone (Forall_lookup_1 _ _ _ _ Hall Hx)). by rewrite decide_True by lia.
Qed.

End together.

(** ** From the start of a download to its end *)
Section download.
Context {St E : Type} `{RepositoryLaws St} `{TorrentEngine E} `{UrlLib} `{HttpLib} `{!DigestLib} `{!DigestLibLaws}.
Context `{Json DownloadSpec} `{Json SourceSet} `{Json TorrentEngineState} `{Json TorrentMetadata}.
Context (config : Config) (clock : nat → DateTime) (send : Request → result Response string)
  (prepare_swarm : eff (job_world St E) PreparationOutcome) (rfc2822_delay : string → option Z).
Implicit Types (w : job_world St E).

(** What a worker of a task meets: its server, when its reports fall due, and what
    is done to it. *)
Record circumstances := mk_circumstances {
  ci_server : nat → Request → result Response string;
  ci_elapsed : Z → bool;
  ci_signals : list (list signal)
}.
(** A worker that is started on the payload of its task. *)
Definition started w (x : Worker) (c : circumstances) : contender :=
  mk_contender (ci_server c) (ci_elapsed c)
    (mk_run x (jw_task w) (jw_payload w) [] [] [] (ci_signals c) 0).

Lemma fresh_not_completed blocks b : block_completed (initialize_block_states blocks) b = false.
Proof.
  unfold block_completed, initialize_block_states. induction blocks as [|c blocks IH]; [done|]. cbn.
  by case_match.
Qed.
Lemma fresh_seed m start stop d : start ≤ stop → seeded m (initialize_block_states (m_blocks m)) start stop d → d = 0.
Proof.
  intros Hs (Hd & Hc & _). destruct (decide (d = 0)) as [|Hne]; [done|].
  destruct (Hc start) as (b & _ & _ & Hb); [lia|]. by rewrite fresh_not_completed in Hb.
Qed.

Lemma started_enters fm R w x c n :
  new_worker x → w_downloaded_size x = 0 → 0 ≤ w_start x ≤ w_end x → w_end x < zlen R →
  t_payload_store (jw_task w) = Some fm → t_range_requests_supported (jw_task w) = true →
  serves R (ci_server c) → n = zlen R → enters fm R (started w x c).
Proof.
  intros (H1' & H2' & H3') Hd Hr He Hfm Hrr Hs ->. split_and!; try done; cbn; rewrite ?Hd; try lia.
  unfold ct_worker. cbn. by rewrite H1'.
Qed.

(** The one file of the payload. *)
Lemma one_file_wf m path name n :
  m_files m = [mk_file_manifest path name n 0] → m_total_size m = n → 0 < n ≤ u32_max →
  file_map_wf (from_manifest m).
Proof.
  intros Hf Ht Hn. unfold from_manifest. split; cbn; rewrite ?Hf, ?Ht.
  - rewrite (proj2 (Z.ltb_lt 0 n)) by lia. apply orb_true_r.
  - ilia.
  - apply tiles_layout. cbn. unfold span_of_segment. cbn. lia.
  - apply NoDup_singleton.
Qed.

Lemma one_file_content fm path n i p cs :
  segments fm = [mk_segment path 0 n] → store_holds p (segments fm) [i] cs →
  fs_names (pw_fs p) !! path = Some (NFile i) → fs_content (pw_fs p) path = Some (concat cs).
Proof.
  intros Hs [_ _ Hc _] Hn. unfold fs_content. rewrite Hn. inversion Hc as [|? b ? l Hb Hl]; subst.
  inversion Hl; subst. cbn. by rewrite app_nil_r.
Qed.

(** A download that was started afresh: its workers together have its file, which
    holds zeros. *)
Lemma fresh_gathered m name n path u w' R :
  m_files m = [mk_file_manifest path name n 0] → m_total_size m = n → 0 < n ≤ u32_max →
  started_on m n path (initialize_block_states (m_blocks m)) u w' →
  t_range_requests_supported (jw_task w') = true → zlen R = n →
  let fm := from_manifest m in ∃ i,
    t_payload_store (jw_task w') = Some fm ∧
    file_map_wf fm ∧ total_size fm = n ∧ total_size fm < u64_max ∧ segments fm = [mk_segment path 0 n] ∧
    fs_names (pw_fs (jw_payload w')) !! path = Some (NFile i) ∧
    ∀ cs, length cs = length (t_workers (jw_task w')) → Forall (λ c, serves R (ci_server c)) cs →
      gathered fm [i] R (zip_with (started w') (t_workers (jw_task w')) cs) (jw_payload w')
        (replicate (Z.to_nat n) x00).
Proof.
  intros Hfiles Htot Hn [_ (i & Hname & Hholds) _ Htiles Hnew Hfm _ _ _ _] Hrr HR fm.
  assert (file_map_wf fm) as Hwf by by eapply (one_file_wf m path name n).
  exists i. split_and!; try done.
  { unfold fm. cbn. rewrite Htot. ilia. }
  { unfold fm. cbn. by rewrite Hfiles. }
  intros cs Hcs Hserve. set (xs := zip_with (started w') (t_workers (jw_task w')) cs).
  assert (Forall (enters fm R) xs ∧ Forall (seeded_with R (replicate (Z.to_nat n) x00)) xs ∧
    range_of <$> xs = span_of_worker <$> t_workers (jw_task w')) as (Hent & Hseed & Hranges).
  { subst xs. assert (∀ x, x ∈ t_workers (jw_task w') → 0 ≤ w_start x ≤ w_end x ∧ w_end x < n) as Hin.
    { intros x Hx. apply (list_elem_of_fmap_2 span_of_worker) in Hx.
      destruct (tiles_elem _ _ _ _ _ Htiles Hx) as (? & ? & ?). lia. }
    clear Hname Hholds. revert cs Hcs Hserve. generalize dependent (t_workers (jw_task w')).
    intros ws _ Hnew Hin. induction Hnew as [|x ws [Hx Hsd] Hnew IH]; intros [|c cs] [=] Hserve; [by split_and!|].
    apply Forall_cons in Hserve as [Hc Hserve]. destruct (Hin x) as [Hxr Hxe]; [left|].
    apply fresh_seed in Hsd; [|lia].
    destruct (IH (λ y Hy, Hin y ltac:(by right)) cs) as (IH1 & IH2 & IH3); [done..|].
    cbn [zip_with fmap list_fmap]. rewrite IH3. split_and!; [|..|done].
    - constructor; [|done]. apply (started_enters fm R w' x c n); try done. lia.
    - constructor; [|done]. unfold seeded_with, ct_worker. cbn. rewrite Hsd, Z.add_0_r.
      unfold slice. by rewrite Z.sub_diag. }
  split; [done|by rewrite Hranges, HR| |done].
  exists [replicate (Z.to_nat n) x00]. split; [exact Hholds|]. cbn. by rewrite app_nil_r.
Qed.

(** The completion of the last worker, when the file is the resource. *)
Lemma completed_delivers R path j (v : job_world St E) :
  fs_content (pw_fs (jw_payload v)) path = Some R →
  repo_ok (jw_store v) → job_ok (jw_task v) → all_workers_completed (jw_task v) = true →
  t_file_path (jw_task v) = Some path →
  ∃ v', handle_worker_complete true true clock j v = (Ok tt, v') ∧
    (Forall (checksum_matches R) (t_checksums (jw_task v)) → t_status (jw_task v') = Completed) ∧
    (¬ Forall (checksum_matches R) (t_checksums (jw_task v)) →
       t_status (jw_task v') = Failed (EOther "Checksum failed")).
Proof.
  intros Hcontent Hokv Hjob Hcompl Hpv.
  destruct (complete_last clock j path v Hjob Hcompl Hpv)
    as (v1 & Hs1 & Hp1 & _ & Hj1 & Hpath1 & Hck & _ & _ & Hgo).
  destruct (finalize_outcome clock path R v1) as (v' & E3 & _ & Hyes & Hno); [congruence|done|done| |].
  { rewrite Hp1. unfold fs_content in Hcontent. unfold fs_read.
    destruct (fs_names (pw_fs (jw_payload v)) !! path) as [[f|]|]; try done. by rewrite Hcontent. }
  exists v'. split; [by apply Hgo|]. rewrite Hck in Hyes, Hno.
  split; intros Hm; [by apply Hyes|by apply Hno].
Qed.

(** The file after workers have written. *)
Lemma gathered_content fm i R xs ls l p b path n :
  file_map_wf fm → zlen R = total_size fm → segments fm = [mk_segment path 0 n] →
  fs_names (pw_fs p) !! path = Some (NFile i) →
  gathered fm [i] R xs p b → Forall2 (writes config rfc2822_delay fm [i]) xs ls → interleaving ls l →
  let q := after fm l p in
  for_each (put fm) l p = (Ok tt, q) ∧ fs_names (pw_fs q) !! path = Some (NFile i) ∧
  (∃ content, fs_content (pw_fs q) path = Some content ∧ zlen content = zlen R ∧
    ∀ k c, content !! k = Some c → b !! k = Some c ∨ R !! k = Some c) ∧
  (Forall (λ x, completes config rfc2822_delay x p) xs → fs_content (pw_fs q) path = Some R).
Proof.
  intros Hwf HR Hsegs Hname Hg Hls Hil q.
  destruct (gathered_put config rfc2822_delay fm [i] R Hwf HR xs ls l p b Hg Hls Hil)
    as (b' & E1 & (cs & Hh & Hc) & Hlen & (_ & Hnames & _) & _ & Honly & Hall). fold q in E1, Hh, Hnames.
  assert (fs_names (pw_fs q) !! path = Some (NFile i)) as Hname' by (by rewrite Hnames).
  assert (fs_content (pw_fs q) path = Some b') as Hcontent by (rewrite <- Hc; by eapply one_file_content).
  split_and!; [done|done| |].
  - by exists b'.
  - intros Hdone. by rewrite Hcontent, Hall.
Qed.

(** What a task whose workers are started makes of its file.  The workers
    run in any order and at the same time.  Each makes writes that do not depend
    on what the others do; however these are interleaved, they all succeed and the
    file holds zeros and bytes of the resource in their places, whatever fails, is
    retried or interrupts the workers.  A worker completes whose server fails no more
    often than it retries and then does what it is asked to.  When every worker has
    completed, the file is the resource, and the completion of the last one finishes
    the download. *)
Definition delivers (path : string) (R : bytes) w : Prop :=
  ∃ fm i, t_payload_store (jw_task w) = Some fm ∧ fs_names (pw_fs (jw_payload w)) !! path = Some (NFile i) ∧
  ∀ cs, length cs = length (t_workers (jw_task w)) → Forall (λ c, serves R (ci_server c)) cs →
  let xs := zip_with (started w) (t_workers (jw_task w)) cs in
  (∃ ls, Forall2 (writes config rfc2822_delay fm [i]) xs ls) ∧
  ∀ ls l, Forall2 (writes config rfc2822_delay fm [i]) xs ls → interleaving ls l →
  let p := after fm l (jw_payload w) in
  for_each (put fm) l (jw_payload w) = (Ok tt, p) ∧
  (∃ content, fs_content (pw_fs p) path = Some content ∧ zlen content = zlen R ∧
    ∀ k b, content !! k = Some b → b = x00 ∨ R !! k = Some b) ∧
  (Forall (served config R) xs → Forall (λ x, completes config rfc2822_delay x (jw_payload w)) xs) ∧
  (Forall (λ x, completes config rfc2822_delay x (jw_payload w)) xs →
   fs_content (pw_fs p) path = Some R ∧
   ∀ j (v : job_world St E), repo_ok (jw_store v) → job_ok (jw_task v) → all_workers_completed (jw_task v) = true →
     t_file_path (jw_task v) = Some path → jw_payload v = p →
     ∃ v', handle_worker_complete true true clock j v = (Ok tt, v') ∧
       (Forall (checksum_matches R) (t_checksums (jw_task v)) → t_status (jw_task v') = Completed) ∧
       (¬ Forall (checksum_matches R) (t_checksums (jw_task v)) →
          t_status (jw_task v') = Failed (EOther "Checksum failed"))).

Lemma fresh_delivers m name n path u w' R :
  m_files m = [mk_file_manifest path name n 0] → m_total_size m = n → 0 < n ≤ u32_max →
  started_on m n path (initialize_block_states (m_blocks m)) u w' →
  t_range_requests_supported (jw_task w') = true → zlen R = n → delivers path R w'.
Proof.
  intros Hfiles Htot Hn Hso Hrr HR.
  destruct (fresh_gathered m name n path u w' R Hfiles Htot Hn Hso Hrr HR)
    as (i & Hfm & Hwf & Ht & Hsmall & Hsegs & Hname & Hgath). set (fm := from_manifest m) in *.
  exists fm, i. split; [done|]. split; [done|]. intros cs Hcs Hserve xs.
  specialize (Hgath cs Hcs Hserve). fold xs in Hgath. assert (zlen R = total_size fm) as HRfm by congruence.
  split; [by eapply gathered_writes|]. intros ls l Hls Hil p.
  destruct (gathered_content fm i R xs ls l (jw_payload w') _ path n Hwf HRfm Hsegs Hname Hgath Hls Hil)
    as (E2 & _ & (content & Hc & Hlen & Hat) & Hall). fold p in E2, Hc, Hall.
  split; [done|]. split_and!.
  - exists content. split_and!; [done|congruence|]. intros k b Hb. destruct (Hat k b Hb) as [Hz|]; [|by right].
    left. by apply lookup_replicate in Hz as [-> _].
  - by eapply gathered_served.
  - intros Hdone. split; [by apply Hall|]. intros j v Hokv Hjob Hcompl Hpv Hp.
    apply (completed_delivers R path j v); try done. rewrite Hp. by apply Hall.
Qed.
End download.

(** ** Examples *)

(** Lists can be taken apart one after the other. *)
Lemma interleaving_concat {A} (ls : list (list A)) : interleaving ls (concat ls).
Proof.
  assert (∀ done todo : list (list A), Forall (λ k, k = []) done → interleaving (done ++ todo) (concat todo)) as Hg;
    [|by apply (Hg [])].
  intros done todo. revert done. induction todo as [|k todo IH]; intros done Hd.
  { constructor. by rewrite app_nil_r. }
  cbn [concat]. revert done Hd. induction k as [|x k IHk]; intros done Hd; cbn [app].
  - rewrite (cons_middle [] done todo), app_assoc. apply IH. apply Forall_app. by repeat constructor.
  - apply (il_step _ (length done) x k); [by rewrite lookup_app_r, Nat.sub_diag by lia|].
    rewrite insert_app_r_alt, Nat.sub_diag by lia. cbn. by apply IHk.
Qed.

#[local] Existing Instances spec_codec sources_codec state_codec metadata_codec.
#[local] Existing Instances idle_engine example_digests example_digests_laws example_http no_urls.

(** A new task for a resource of ten bytes, whose checksum it knows. *)
Definition fresh_task : Task :=
  Task_new 1 (SpecHttp "http://h/f") (Some "f") (Some "/f") None HttpRequestOptions_default
    (Some (single_primary (example_source "a" "http://h/f"))) None None None (Some 0) (Some 10) None
    [mk_checksum MD5 (Some "30313233343536373839") None None] None None 0.
Definition fresh_job : job_world MemoryRepository unit :=
  mk_job fresh_task (mk_world no_files ∅) memory_new tt [] [] [] 0.

(** A server of the bytes from [a] to [b]. *)
Definition lane_server (a b : Z) (n : nat) (request : Request) : result Response string :=
  Ok (ranged ("bytes " +:+ show_u64 a +:+ "-" +:+ show_u64 b +:+ "/10") [Ok (slice example_resource a (b + 1))]).
Definition by_lane (a b : Z) : circumstances := mk_circumstances (lane_server a b) never_elapsed [].
(** The third of the workers is paused for a while. *)
Definition example_circumstances : list circumstances :=
  [by_lane 0 2; by_lane 3 5; mk_circumstances (lane_server 6 8) never_elapsed [[SigPause]; []; [SigResume]]; by_lane 9 9].

Lemma circumstances_serve : Forall (λ c, serves example_resource (ci_server c)) example_circumstances.
Proof.
  repeat constructor; intros n request response text range Hs _ Hh Hr; injection Hs as <-; simpl in Hh;
    injection Hh as <-; vm_compute in Hr; injection Hr as <-; vm_compute; by exists [].
Qed.

Lemma all_completed xs p :
  (λ x, w_status (rw_worker (snd (run_on Config_default no_dates x p)))) <$> xs = replicate (length xs) Completed →
  Forall (λ x, completes Config_default no_dates x p) xs.
Proof. induction xs as [|x xs IH]; cbn; intros E; constructor; [|apply IH]; by simplify_eq. Qed.

