(* ===== verification/Coordinator.v ===== *)
(** * The manager ([src/src/coordinator])

    The manager runs at most [concurrent_tasks] tasks at a time: a task is started
    with a permit of a semaphore, which it keeps until it ends, and what cannot be
    started waits in a queue.  The tasks are behind an interface, [TaskSystem]: the
    manager's theorems hold of every implementation that keeps [TaskSystemLaws],
    and System.v gives the implementation by the tasks of Job.v.

    A permit is given back when the value that stands for it is dropped.  The
    manager's state counts those that can be taken, and those kept by tasks that
    have left the map; those of the tasks in the map are in the tasks.  (A task
    that has left the map is never dropped: the listener that [Task::init] spawns
    owns the task, and the task owns the channel that ends the listener.) *)

From S2P Require Import Prelude Text Status Effect Config Task.

(** What the manager uses of its tasks: [src/src/coordinator/mod.rs:36-36], the map of
    [Manager], with the operations of [Task] and of the store that it calls. *)
Class TaskSystem (W : Type) := {
  sys_ids : W → list Z;                       (* the keys of the map, in its order *)
  sys_permits : W → gset Z;                   (* the tasks of the map that have a permit *)
  sys_set_permit : Z → bool → W → W;          (* assigning the permit of a task of the map *)
  sys_remove : Z → W → W;                     (* removing a task from the map *)
  sys_clear : W → W;
  sys_start : Z → eff W unit;                 (* [Task::start] and so on *)
  sys_resume : Z → eff W unit;
  sys_pause : Z → eff W unit;
  sys_cancel : Z → eff W unit;
  sys_delete : Z → eff W unit;
  sys_terminal : W → Z → bool;                (* whether the task's status is terminal *)
  sys_has_store : W → Z → bool;
  sys_save : Z → eff W unit;                  (* [Store::save_task] of the task *)
  sys_diagnose : Z → Error → eff W unit;      (* [write_failure_diagnostic] *)
  sys_persist_session : eff W unit            (* [HttpSessionState::persist], if there is one *)
}.

(** The same tasks, with the same permits. *)
Definition quiet {W} `{TaskSystem W} (w w' : W) : Prop :=
  sys_ids w' = sys_ids w ∧ sys_permits w' = sys_permits w.
(** The same tasks; only [i] may have given back its permit. *)
Definition releases {W} `{TaskSystem W} (i : Z) (w w' : W) : Prop :=
  sys_ids w' = sys_ids w ∧ sys_permits w ∖ {[i]} ⊆ sys_permits w' ∧
  sys_permits w' ⊆ sys_permits w.

(** What the manager relies on: only deleting a task gives back its permit, and only the manager
    takes tasks out of the map. *)
Class TaskSystemLaws (W : Type) `{TaskSystem W} : Prop := {
  sys_nodup w : NoDup (sys_ids w);
  sys_permits_ids w i : i ∈ sys_permits w → i ∈ sys_ids w;
  sys_set_permit_ids i b w : sys_ids (sys_set_permit i b w) = sys_ids w;
  sys_set_permit_some i w : i ∈ sys_ids w →
    sys_permits (sys_set_permit i true w) = {[i]} ∪ sys_permits w;
  sys_set_permit_none i w : sys_permits (sys_set_permit i false w) = sys_permits w ∖ {[i]};
  sys_remove_ids i w j : j ∈ sys_ids (sys_remove i w) ↔ j ∈ sys_ids w ∧ j ≠ i;
  sys_remove_permits i w : sys_permits (sys_remove i w) = sys_permits w ∖ {[i]};
  sys_clear_ids w : sys_ids (sys_clear w) = [];
  sys_start_quiet i : keeps quiet (sys_start i);
  sys_resume_quiet i : keeps quiet (sys_resume i);
  sys_pause_quiet i : keeps quiet (sys_pause i);
  sys_cancel_quiet i : keeps quiet (sys_cancel i);
  sys_delete_releases i : keeps (releases i) (sys_delete i);
  sys_save_quiet i : keeps quiet (sys_save i);
  sys_diagnose_quiet i e : keeps quiet (sys_diagnose i e);
  sys_session_quiet : keeps quiet sys_persist_session
}.

(** [src/src/coordinator/mod.rs:49-54], [PendingAction]. *)
Inductive PendingAction := PaStart | PaResume | PaRetry.
#[export] Instance PendingAction_eq_dec : EqDecision PendingAction.
Proof. solve_decision. Defined.

(** [src/src/coordinator/mod.rs:56-60], [ProgressPersistState]. Instants in nanoseconds. *)
Record ProgressPersistState := mk_persist_state { last_persisted_at : Z; last_downloaded : Z }.

(** [src/src/coordinator/mod.rs:34-47], [Manager]. The semaphore is the number of permits it can
    give; [mg_orphans] counts the permits of tasks that have left the map, and [mg_readings] how
    often the clock has been read. *)
Record Manager (W : Type) := mk_manager {
  mg_tasks : W;
  mg_pending_queue : list (Z * PendingAction);
  mg_progress_persist_state : gmap Z ProgressPersistState;
  mg_semaphore : Z;
  mg_orphans : Z;
  mg_readings : nat
}.
Arguments mk_manager {W}.
Arguments mg_tasks {W}.
Arguments mg_pending_queue {W}.
Arguments mg_progress_persist_state {W}.
Arguments mg_semaphore {W}.
Arguments mg_orphans {W}.
Arguments mg_readings {W}.
#[export] Instance Manager_eta {W} : Settable (Manager W) := λ g,
  mk_manager (mg_tasks g) (mg_pending_queue g) (mg_progress_persist_state g) (mg_semaphore g)
    (mg_orphans g) (mg_readings g).

Section coordinator.
Context {W : Type} `{TaskSystem W} (config : Config) (clock : nat → Z).

Abbreviation mgr := (eff (Manager W)).

Definition has_task (g : Manager W) (i : Z) : bool := bool_decide (i ∈ sys_ids (mg_tasks g)).
(** The number of tasks of the map that have a permit. *)
Definition held (w : W) : Z := Z.of_nat (size (sys_permits w)).

(** An operation on the tasks; the permits that it drops are given back. *)
Definition on_tasks {A} (m : eff W A) : mgr A := λ g,
  let '(r, w) := m (mg_tasks g) in
  (r, g <| mg_tasks := w |> <| mg_semaphore ::= λ n, n + (held (mg_tasks g) - held w) |>).
(** Taking tasks out of the map; they keep their permits. *)
Definition off_map (f : W → W) : mgr unit := modify (λ g,
  g <| mg_tasks ::= f |>
    <| mg_orphans ::= λ n, n + (held (mg_tasks g) - held (f (mg_tasks g))) |>).
Definition drop_permit : mgr unit := modify (λ g, g <| mg_semaphore ::= Z.succ |>).
(** [*guard = None] *)
Definition clear_guard (task_id : Z) : mgr unit :=
  on_tasks (modify (sys_set_permit task_id false)).
(** [*guard = Some(permit)]: the permit that was there is dropped. A task that is no longer in the
    map keeps its permit for good. *)
Definition store_permit (task_id : Z) : mgr unit := λ g,
  if has_task g task_id then
    if bool_decide (task_id ∈ sys_permits (mg_tasks g)) then drop_permit g
    else (Ok tt, g <| mg_tasks ::= sys_set_permit task_id true |>)
  else (Ok tt, g <| mg_orphans ::= Z.succ |>).

(** ** The queue *)

(** [src/src/coordinator/queue.rs:111-138], [enqueue_task_action]. *)
Definition enqueue_task_action (task_id : Z) (action : PendingAction) : mgr unit := modify (λ g,
  if existsb (λ e, bool_decide (e = (task_id, action))) (mg_pending_queue g) then g
  else g <| mg_pending_queue ::= λ q, q ++ [(task_id, action)] |>).

(** [src/src/coordinator/queue.rs:7-27], [acquire_task_permit_or_queue]. Whether a permit was
    acquired. *)
Definition acquire_task_permit_or_queue (task_id : Z) (action : PendingAction) : mgr bool :=
  let! available := gets mg_semaphore in
  if 0 <? available then modify (λ g, g <| mg_semaphore ::= Z.pred |>) ;;; ret true
  else enqueue_task_action task_id action ;;; ret false.

(** [src/src/coordinator/queue.rs:29-45], [release_task_permit]. *)
Definition release_task_permit (task_id : Z) : mgr unit :=
  let! present := gets (λ g, has_task g task_id) in
  when present (clear_guard task_id).

(** [src/src/coordinator/queue.rs:47-58], [remove_from_queue]. *)
Definition remove_from_queue (task_id : Z) : mgr unit := modify (λ g,
  match position (λ e, bool_decide (e.1 = task_id)) (mg_pending_queue g) with
  | Some pos => g <| mg_pending_queue ::= base.delete (Z.to_nat pos) |>
  | None => g
  end).

(** [src/src/coordinator/queue.rs:60-64], [clear_pending_queue]. *)
Definition clear_pending_queue : mgr unit := modify (λ g, g <| mg_pending_queue := [] |>).

(** [src/src/coordinator/queue.rs:69-74], [spawn_next_task (pop)]. *)
Definition pop_front : mgr (option (Z * PendingAction)) := λ g,
  match mg_pending_queue g with
  | [] => (Ok None, g)
  | e :: q => (Ok (Some e), g <| mg_pending_queue := q |>)
  end.

(** ** Starting tasks

    Starting a task that fails starts the next task of the queue, which may fail
    in turn: the functions that do so call each other.  They are defined with the
    number of queue entries they may still take, and from the length of the queue
    on the number does not matter ([CoordinatorFacts.transition_recursion]). *)

(** [src/src/coordinator/mod.rs:139-167], [Manager::start_task / resume_task]. The operation, from
    the action it is started with. *)
Definition operation (action : PendingAction) : Z → eff W unit :=
  match action with PaStart | PaRetry => sys_start | PaResume => sys_resume end.

(** [src/src/coordinator/queue.rs:66-109], [spawn_next_task]. With [start_task] and [resume_task] as
    the argument [transition]. *)
Definition spawn_next_with (transition : Z → PendingAction → mgr Z) : mgr unit :=
  let! next := pop_front in
  match next with
  | Some (task_id, PaStart) => let! _ := attempt (transition task_id PaStart) in ret tt
  | Some (task_id, PaResume) => let! _ := attempt (transition task_id PaResume) in ret tt
  | Some (task_id, PaRetry) => let! _ := attempt (transition task_id PaStart) in ret tt
  | None => ret tt
  end.

(** [src/src/coordinator/mod.rs:471-529], [Manager::run_task_transition]. With [spawn_next_task] as
    an argument. *)
Definition transition_with (spawn_next : mgr unit) (task_id : Z) (action : PendingAction) : mgr Z :=
  let! permit := acquire_task_permit_or_queue task_id action in
  if negb permit then ret task_id
  else
    let! present := gets (λ g, has_task g task_id) in
    if negb present then drop_permit ;;; throw (ETaskNotFound task_id)
    else
      let! res := attempt (on_tasks (operation action task_id)) in
      match res with
      | Ok _ => store_permit task_id ;;; ret task_id
      | Err e =>
          drop_permit ;;;
          clear_guard task_id ;;;
          let! _ := attempt spawn_next in
          throw e
      end.
(** [src/src/coordinator/mod.rs:471-529], [Manager::run_task_transition]. It may take [fuel] entries
    from the queue. *)
Fixpoint run_task_transition (fuel : nat) : Z → PendingAction → mgr Z :=
  transition_with (spawn_next_with
    match fuel with
    | O => λ i _, throw (EOther "out of fuel")
    | Datatypes.S fuel => run_task_transition fuel
    end).

Definition transition (task_id : Z) (action : PendingAction) : mgr Z := λ g,
  run_task_transition (length (mg_pending_queue g)) task_id action g.
Definition spawn_next_task : mgr unit := spawn_next_with transition.

(** [src/src/coordinator/mod.rs:139-147], [Manager::start_task]. *)
Definition start_task (task_id : Z) : mgr Z := transition task_id PaStart.
(** [src/src/coordinator/mod.rs:159-167], [Manager::resume_task]. *)
Definition resume_task (task_id : Z) : mgr Z := transition task_id PaResume.

(** ** The other operations on one task *)

Definition with_task (task_id : Z) (m : eff W unit) : mgr Z :=
  let! present := gets (λ g, has_task g task_id) in
  if present then on_tasks m ;;; ret task_id else throw (ETaskNotFound task_id).

(** [src/src/coordinator/mod.rs:149-157], [Manager::pause_task]. *)
Definition pause_task (task_id : Z) : mgr Z := with_task task_id (sys_pause task_id).
(** [src/src/coordinator/mod.rs:169-177], [Manager::cancel_task]. *)
Definition cancel_task (task_id : Z) : mgr Z := with_task task_id (sys_cancel task_id).
(** [src/src/coordinator/mod.rs:179-199], [Manager::delete_task]. *)
Definition delete_task (task_id : Z) : mgr Z :=
  with_task task_id (sys_delete task_id) ;;;
  off_map (sys_remove task_id) ;;;
  ret task_id.

(** [src/src/coordinator/mod.rs:201-234], [Manager::persist_task]. *)
Definition persist_task (task_id : Z) : mgr Z :=
  let! present := gets (λ g, has_task g task_id) in
  if negb present then throw (EOther ("Task " +:+ show_u64 task_id +:+ " not found"))
  else
    let! persistence := gets (λ g, sys_has_store (mg_tasks g) task_id) in
    when persistence (on_tasks (sys_save task_id)) ;;; ret task_id.

(** ** The operations on all tasks

    The code runs those on different tasks concurrently, here they follow the
    order of the map; the step relation of CoordinatorSteps.v has every order. *)

Definition all_ids : mgr (list Z) := gets (λ g, sys_ids (mg_tasks g)).
(** [if self.tasks.is_empty() { return Err(Error::Other(..)) }] *)
Definition refuse_empty (words : string) : mgr unit :=
  let! ids := all_ids in
  match ids with [] => throw (EOther words) | _ => ret tt end.
(** [if let Err(e) = m { error!(..) }] *)
Definition logged {A} (m : mgr A) : mgr unit := let! _ := attempt m in ret tt.

(** [src/src/coordinator/mod.rs:236-259], [Manager::start_all]. *)
Definition start_all : mgr unit :=
  refuse_empty "No tasks to start" ;;;
  let! ids := all_ids in
  for_each (λ i, logged (start_task i)) ids.

(** [src/src/coordinator/mod.rs:261-285], [Manager::pause_all]. *)
Definition pause_all : mgr unit :=
  refuse_empty "No tasks to pause" ;;;
  clear_pending_queue ;;;
  let! ids := all_ids in
  for_each (λ i, logged (on_tasks (sys_pause i))) ids.

(** [src/src/coordinator/mod.rs:287-309], [Manager::resume_all]. *)
Definition resume_all : mgr unit :=
  refuse_empty "No tasks to resume" ;;;
  let! ids := all_ids in
  for_each (λ i,
    let! r := attempt (resume_task i) in
    match r with
    | Ok _ => ret tt
    | Err _ => logged spawn_next_task
    end) ids.

(** [src/src/coordinator/mod.rs:311-324], [Manager::cancel_all]. *)
Definition cancel_all : mgr unit :=
  refuse_empty "No tasks to cancel" ;;;
  clear_pending_queue ;;;
  let! ids := all_ids in
  for_each (λ i, logged (on_tasks (sys_cancel i))) ids.

(** [src/src/coordinator/mod.rs:326-340], [Manager::delete_all]. *)
Definition delete_all : mgr unit :=
  refuse_empty "No tasks to delete" ;;;
  clear_pending_queue ;;;
  let! ids := all_ids in
  for_each (λ i, logged (on_tasks (sys_delete i))) ids ;;;
  off_map sys_clear.

(** ** The manager's events *)

(** [src/src/coordinator/mod.rs:388-416], [Manager::should_persist_progress]. *)
Definition should_persist_progress (task_id downloaded : Z) : mgr bool := λ g,
  let now := clock (mg_readings g) in
  let g := g <| mg_readings ::= Datatypes.S |> in
  let put (g : Manager W) :=
    g <| mg_progress_persist_state ::= <[task_id := mk_persist_state now downloaded]> |> in
  match mg_progress_persist_state g !! task_id with
  | Some state =>
      let bytes_due :=
        threshold_bytes (progress_throttle config) <=? sat_sub downloaded (last_downloaded state) in
      let time_due :=
        interval_ms (progress_throttle config) * 1000000
          <=? sat_sub now (last_persisted_at state) in
      if (bytes_due || time_due)%bool then (Ok true, put g) else (Ok false, g)
  | None => (Ok true, put g)
  end.

(** [src/src/coordinator/mod.rs:418-420], [Manager::clear_progress_persist_state]. *)
Definition clear_progress_persist_state (task_id : Z) : mgr unit :=
  modify (λ g, g <| mg_progress_persist_state ::= base.delete task_id |>).

(** [src/src/coordinator/mod.rs:432-437], [Manager::persist_http_session_state]. *)
Definition persist_http_session_state : mgr unit := on_tasks sys_persist_session.

(** [src/src/coordinator/events.rs:64-71], [handle_terminal_task_event], up to the last call. *)
Definition end_task (task_id : Z) : mgr unit :=
  persist_task task_id ;;;
  persist_http_session_state ;;;
  clear_progress_persist_state task_id ;;;
  remove_from_queue task_id ;;;
  release_task_permit task_id.
(** [src/src/coordinator/events.rs:64-71], [handle_terminal_task_event]. *)
Definition handle_terminal_task_event (task_id : Z) : mgr unit :=
  end_task task_id ;;; spawn_next_task.

(** [src/src/coordinator/events.rs:73-78], [handle_deleted_task_event], up to the last call. *)
Definition forget_task (task_id : Z) : mgr unit :=
  persist_http_session_state ;;;
  clear_progress_persist_state task_id ;;;
  remove_from_queue task_id.
(** [src/src/coordinator/events.rs:73-78], [handle_deleted_task_event]. *)
Definition handle_deleted_task_event (task_id : Z) : mgr unit :=
  forget_task task_id ;;; spawn_next_task.

(** The diagnostic of an [Error] event, if the task is there; a failure is logged. *)
Definition diagnose (task_id : Z) (err : Error) : mgr unit :=
  let! present := gets (λ g, has_task g task_id) in
  when present (logged (on_tasks (sys_diagnose task_id err))).

(** [src/src/coordinator/events.rs:33-62], [handle_task_event]. *)
Definition handle_task_event (event : Event) : mgr unit :=
  match event with
  | EvComplete task_id => handle_terminal_task_event task_id
  | EvCancel task_id => handle_terminal_task_event task_id
  | EvDelete task_id => handle_deleted_task_event task_id
  | EvError task_id err => diagnose task_id err ;;; handle_terminal_task_event task_id
  | EvPause task_id => handle_terminal_task_event task_id
  | EvPreparing _ => ret tt
  | EvProgress id downloaded _ =>
      let! due := should_persist_progress id downloaded in
      when due (persist_task id ;;; ret tt)
  | _ => ret tt
  end.

(** [src/src/coordinator/events.rs:10-31], [spawn_task_event_loop]. A message is an event or the
    news that some were skipped. *)
Definition task_event_loop (received : list (option Event)) : mgr unit :=
  for_each (λ m, match m with Some event => logged (handle_task_event event) | None => ret tt end)
    received.

(** [src/src/coordinator/mod.rs:439-468], [Manager::wait_for_all_tasks]. What happens until each
    message arrives, until the channel is closed. *)
Fixpoint wait_for_all_tasks (rounds : list (mgr unit)) : mgr unit :=
  let! ids := all_ids in
  match ids with
  | [] => persist_http_session_state
  | _ =>
      let! all_terminal := gets (λ g, forallb (sys_terminal (mg_tasks g)) ids) in
      if all_terminal then persist_http_session_state
      else
        match rounds with
        | [] => ret tt
        | round :: rounds => logged round ;;; wait_for_all_tasks rounds
        end
  end.

(** [src/src/coordinator/mod.rs:68-94], [Manager::new_with_torrent_engine]. With the result of
    building the HTTP client. *)
Definition new_manager (client : res unit) (w : W) : res (Manager W) :=
  let? _ := result_map_err error_of_config (validate config) in
  let? _ := client in
  Ok (mk_manager w [] ∅ (concurrent_tasks config) 0 0).

End coordinator.
