(* ===== verification/CoordinatorSteps.v ===== *)
(** * The manager's operations, interleaved

    Every call of the manager runs in a task of its own, so the parts of one
    operation, between its awaits, run among those of others.  A state is the
    manager's with the transitions that have a permit in their hands and the
    removals from the map that are due; a step is a part of an operation.  What
    holds of all reachable states holds however the operations are interleaved,
    and the operations of Coordinator.v are sequences of steps. *)

From stdpp Require Import relations.
From S2P Require Import Prelude Text Status Effect Config Task Coordinator.

(** A call of [run_task_transition] that has acquired a permit: it looks up the task next, or its
    operation has ended.  From the lookup on the call holds a guard of the map. *)
Variant stage := Acquired | Ended (r : result unit Error).
Record flight := mk_flight { fl_task : Z; fl_action : PendingAction; fl_stage : stage }.
(** A removal from the map that is due: of a deleted task, or of all. *)
Variant removal := RmTask (task_id : Z) | RmAll.

(** A removal waits for the guards of the map. *)
Definition blocks (r : removal) (f : flight) : Prop :=
  match fl_stage f, r with
  | Acquired, _ => False
  | Ended _, RmTask i => fl_task f = i
  | Ended _, RmAll => True
  end.

Section steps.
Context {W : Type} `{TaskSystem W} (config : Config) (clock : nat → Z).

Record system := mk_system {
  ms_manager : Manager W;
  ms_flights : list flight;
  ms_removals : list removal
}.

(** The operations on the tasks that do not go by [run_task_transition]. *)
Inductive task_operation : eff W unit → Prop :=
  | op_pause i : task_operation (sys_pause i)
  | op_cancel i : task_operation (sys_cancel i)
  | op_delete i : task_operation (sys_delete i)
  | op_save i : task_operation (sys_save i)
  | op_diagnose i e : task_operation (sys_diagnose i e)
  | op_session : task_operation sys_persist_session.

(** The parts of operations that change the manager. *)
Inductive manager_part : ∀ A, eff (Manager W) A → Prop :=
  | part_tasks m : task_operation m → manager_part _ (on_tasks m)
  | part_remove i : manager_part _ (remove_from_queue i)
  | part_clear : manager_part _ clear_pending_queue
  | part_release i : manager_part _ (release_task_permit i)
  | part_progress i n : manager_part _ (should_persist_progress config clock i n)
  | part_clear_progress i : manager_part _ (clear_progress_persist_state i).

(** What tasks do by themselves: they may give back permits. *)
Definition by_themselves (w w' : W) : Prop :=
  sys_ids w' = sys_ids w ∧ sys_permits w' ⊆ sys_permits w.

Definition start_or_resume (a : PendingAction) : PendingAction :=
  match a with PaResume => PaResume | _ => PaStart end.
Definition remove (r : removal) : eff (Manager W) unit :=
  match r with RmTask i => off_map (sys_remove i) | RmAll => off_map sys_clear end.
Definition taking_off (b : bool) (f : flight) (l : list flight) : list flight :=
  if b then f :: l else l.

Inductive step : system → system → Prop :=
  | step_begin g g' l rm i a b :
      acquire_task_permit_or_queue i a g = (Ok b, g') →
      step (mk_system g l rm) (mk_system g' (taking_off b (mk_flight i a Acquired) l) rm)
  | step_next g g' l rm i a q b :
      mg_pending_queue g = (i, a) :: q →
      acquire_task_permit_or_queue i (start_or_resume a) (g <| mg_pending_queue := q |>)
        = (Ok b, g') →
      step (mk_system g l rm)
        (mk_system g' (taking_off b (mk_flight i (start_or_resume a) Acquired) l) rm)
  | step_missing g l k rm i a :
      has_task g i = false →
      step (mk_system g (l ++ mk_flight i a Acquired :: k) rm)
        (mk_system (snd (drop_permit g)) (l ++ k) rm)
  | step_run g g' l k rm i a r :
      has_task g i = true →
      on_tasks (operation a i) g = (r, g') →
      step (mk_system g (l ++ mk_flight i a Acquired :: k) rm)
        (mk_system g' (l ++ mk_flight i a (Ended r) :: k) rm)
  | step_settle g l k rm i a u :
      step (mk_system g (l ++ mk_flight i a (Ended (Ok u)) :: k) rm)
        (mk_system (snd (store_permit i g)) (l ++ k) rm)
  | step_give_up g l k rm i a e :
      step (mk_system g (l ++ mk_flight i a (Ended (Err e)) :: k) rm)
        (mk_system (snd ((drop_permit ;;; clear_guard i) g)) (l ++ k) rm)
  | step_part {A} (m : eff (Manager W) A) g l rm :
      manager_part A m → step (mk_system g l rm) (mk_system (snd (m g)) l rm)
  | step_due r g l rm : step (mk_system g l rm) (mk_system g l (r :: rm))
  | step_remove r g l rm rm' :
      Forall (λ f, ¬ blocks r f) l →
      step (mk_system g l (rm ++ r :: rm')) (mk_system (snd (remove r g)) l (rm ++ rm'))
  | step_tasks f g l rm :
      by_themselves (mg_tasks g) (f (mg_tasks g)) →
      step (mk_system g l rm) (mk_system (snd (on_tasks (modify f) g)) l rm)
  (* a new task, which has no permit, and may take the place of one that has *)
  | step_add f g l rm :
      sys_permits (f (mg_tasks g)) ⊆ sys_permits (mg_tasks g) →
      step (mk_system g l rm) (mk_system (snd (off_map f g)) l rm).

(** The manager's calls, and the events that it handles. *)
Variant command :=
  | CmStart (i : Z) | CmResume (i : Z) | CmPause (i : Z) | CmCancel (i : Z) | CmDelete (i : Z)
  | CmStartAll | CmResumeAll | CmPauseAll | CmCancelAll | CmDeleteAll
  | CmEvent (e : Event).
Definition run_command (c : command) : eff (Manager W) unit :=
  match c with
  | CmStart i => logged (start_task i)
  | CmResume i => logged (resume_task i)
  | CmPause i => logged (pause_task i)
  | CmCancel i => logged (cancel_task i)
  | CmDelete i => logged (delete_task i)
  | CmStartAll => start_all
  | CmResumeAll => resume_all
  | CmPauseAll => pause_all
  | CmCancelAll => cancel_all
  | CmDeleteAll => delete_all
  | CmEvent e => handle_task_event config clock e
  end.

(** ** Operations are sequences of steps *)

Definition alone (g : Manager W) : system := mk_system g [] [].
(** With the transitions in flight [l]. *)
Definition leads (l : list flight) (g g' : Manager W) : Prop :=
  rtc step (mk_system g l []) (mk_system g' l []).

#[export] Instance leads_refl l : Reflexive (leads l).
Proof. intros g. unfold leads. reflexivity. Qed.
#[export] Instance leads_trans l : Transitive (leads l).
Proof. intros ? ? ?. unfold leads. by etransitivity. Qed.

Lemma leads_part {A} (m : eff (Manager W) A) l : manager_part A m → keeps (leads l) m.
Proof. intros Hm g. apply rtc_once. by apply step_part. Qed.
Lemma leads_tasks m l : task_operation m → keeps (leads l) (on_tasks m).
Proof. intros Hm. apply leads_part. by constructor. Qed.

Lemma leads_logged {A} (m : eff (Manager W) A) l : keeps (leads l) m → keeps (leads l) (logged m).
Proof. intros Hm g. specialize (Hm g). unfold logged, eff_bind, attempt. by destruct (m g). Qed.

(** The queue is changed by nothing that a transition does before it starts the next task. *)
Definition same_queue (g g' : Manager W) : Prop := mg_pending_queue g' = mg_pending_queue g.
Lemma same_queue_on_tasks {A} (m : eff W A) : keeps same_queue (on_tasks m).
Proof. intros g. unfold on_tasks. by destruct (m (mg_tasks g)). Qed.
Lemma same_queue_acquired i a (g g' : Manager W) :
  acquire_task_permit_or_queue i a g = (Ok true, g') → same_queue g g'.
Proof.
  unfold acquire_task_permit_or_queue, eff_bind, gets, modify. cbn.
  destruct (0 <? mg_semaphore g); intros Heq; [|discriminate Heq]. injection Heq as <-. reflexivity.
Qed.
Lemma acquire_total i a (g : Manager W) : ∃ b g', acquire_task_permit_or_queue i a g = (Ok b, g').
Proof.
  unfold acquire_task_permit_or_queue, eff_bind, gets, modify. destruct (0 <? mg_semaphore g); eauto.
Qed.
Lemma store_permit_ok i (g : Manager W) : ∃ g', store_permit i g = (Ok tt, g').
Proof. unfold store_permit, drop_permit, modify. repeat case_match; eauto. Qed.

Lemma give_up_ok i (g : Manager W) :
  ∃ g', (drop_permit ;;; clear_guard i) g = (Ok tt, g') ∧ same_queue g g'.
Proof. eexists. split; [reflexivity|]. reflexivity. Qed.

(** Starting the next task of the queue, when [rec] is a sequence of steps. *)
Lemma leads_spawn rec l g :
  (∀ i a q b g', mg_pending_queue g = (i, a) :: q → 
    acquire_task_permit_or_queue i (start_or_resume a) (g <| mg_pending_queue := q |>) = (Ok b, g') →
    rtc step (mk_system g' (taking_off b (mk_flight i (start_or_resume a) Acquired) l) [])
      (mk_system (snd (rec i (start_or_resume a) (g <| mg_pending_queue := q |>))) l [])) →
  leads l g (snd (spawn_next_with rec g)).
Proof.
  intros Hrec. unfold spawn_next_with, eff_bind at 1, pop_front.
  destruct (mg_pending_queue g) as [|[i a] q] eqn:Hq; [unfold leads; reflexivity|].
  destruct (acquire_total i (start_or_resume a) (g <| mg_pending_queue := q |>)) as (b & g' & Ha).
  specialize (Hrec i a q b g' eq_refl Ha). unfold leads.
  eapply rtc_l; [by eapply step_next|].
  destruct a; cbn [start_or_resume] in *; unfold eff_bind, attempt;
    destruct (rec _ _ _); exact Hrec.
Qed.

(** What follows the acquisition of a permit is a sequence of steps, from that acquisition on. *)
Lemma leads_transition fuel l i a g b g1 :
  (length (mg_pending_queue g) ≤ fuel)%nat →
  acquire_task_permit_or_queue i a g = (Ok b, g1) →
  rtc step (mk_system g1 (taking_off b (mk_flight i a Acquired) l) [])
    (mk_system (snd (run_task_transition fuel i a g)) l []).
Proof.
  revert l i a g b g1. induction fuel as [fuel IH] using lt_wf_ind. intros l i a g b g1 Hfuel Ha.
  destruct b; [|destruct fuel; cbn [run_task_transition]; unfold transition_with;
    rewrite (eff_bind_ok _ _ _ _ _ Ha); reflexivity].
  pose proof (same_queue_acquired _ _ _ _ Ha) as Hq1.
  assert (∃ rec, run_task_transition fuel = transition_with (spawn_next_with rec) ∧
    ∀ g, (length (mg_pending_queue g) ≤ fuel)%nat → leads l g (snd (spawn_next_with rec g)))
    as (rec & -> & Hspawn).
  { destruct fuel as [|fuel]; (eexists; split; [reflexivity|]); intros g2 Hg2; apply leads_spawn;
      intros j c q b2 g3 Hq Hc; rewrite Hq in Hg2; cbn in Hg2; [lia|].
    apply IH; [lia|cbn; lia|done]. }
  unfold transition_with. rewrite (eff_bind_ok _ _ _ _ _ Ha). cbn [negb taking_off].
  unfold eff_bind at 1, gets. destruct (has_task g1 i) eqn:Hi; cbn [negb].
  2: { apply rtc_once, (step_missing g1 [] l). exact Hi. }
  unfold eff_bind at 1, attempt at 1. destruct (on_tasks (operation a i) g1) as [r g2] eqn:Hop.
  pose proof (same_queue_on_tasks (operation a i) g1) as Hq2. rewrite Hop in Hq2. cbn in Hq2.
  eapply rtc_l; [eapply (step_run g1 g2 [] l); [exact Hi|exact Hop]|]. cbn [app].
  destruct r as [u|e].
  - eapply rtc_l; [apply (step_settle g2 [] l)|]. cbn [app].
    destruct (store_permit_ok i g2) as (g3 & Hs). rewrite (eff_bind_ok _ _ _ _ _ Hs).
    rewrite Hs. reflexivity.
  - eapply rtc_l; [apply (step_give_up g2 [] l)|]. cbn [app].
    destruct (give_up_ok i g2) as (g3 & E3 & Hq3). rewrite eff_bind_assoc.
    rewrite (eff_bind_ok _ _ _ _ _ E3), E3. unfold eff_bind, attempt.
    specialize (Hspawn g3). unfold leads in Hspawn.
    destruct (spawn_next_with rec g3). apply Hspawn. rewrite Hq3, Hq2, Hq1. done.
Qed.

Lemma leads_transition' l i a : keeps (leads l) (transition i a).
Proof.
  intros g. destruct (acquire_total i a g) as (b & g1 & Ha).
  eapply rtc_l; [by eapply step_begin|]. by apply leads_transition.
Qed.
Lemma leads_spawn_next l : keeps (leads l) spawn_next_task.
Proof.
  intros g. apply leads_spawn. intros i a q b g1 _ Ha. by apply leads_transition.
Qed.
Lemma leads_removal r : keeps (leads []) (remove r).
Proof.
  intros g. eapply rtc_l; [apply (step_due r)|].
  apply rtc_once, (step_remove r g [] [] []). constructor.
Qed.

Ltac solve_leads :=
  repeat first
    [ apply leads_transition' | apply leads_spawn_next
    | apply (leads_removal (RmTask _)) | apply (leads_removal RmAll)
    | apply leads_tasks; by constructor
    | apply leads_part; by constructor
    | apply keeps_bind; [typeclasses eauto| |intros ?]
    | apply keeps_attempt | apply keeps_when; [typeclasses eauto|]
    | apply keeps_for_each; [typeclasses eauto..|intros ?]
    | apply keeps_ret; typeclasses eauto | apply keeps_throw; typeclasses eauto
    | apply keeps_gets; typeclasses eauto | apply leads_logged
    | match goal with
      | |- keeps _ (if ?b then _ else _) => destruct b
      | |- keeps _ (match ?x with _ => _ end) => destruct x
      end
    ].

Lemma command_leads c : keeps (leads []) (run_command c).
Proof.
  destruct c as [i|i|i|i|i| | | | | |[]]; cbn [run_command handle_task_event];
    unfold start_task, resume_task, pause_task, cancel_task, delete_task, with_task, start_all,
      resume_all, pause_all, cancel_all, delete_all, handle_terminal_task_event, end_task, diagnose,
      handle_deleted_task_event, forget_task, persist_task, persist_http_session_state, refuse_empty, all_ids;
    solve_leads.
Qed.

(** However others interleave, a call of the manager, and the handling of an
    event, is a sequence of the steps of the interleaved system: what is shown of
    all its reachable states holds of every run of the manager. *)
Theorem commands_are_steps c g : rtc step (alone g) (alone (snd (run_command c g))).
Proof. apply command_leads. Qed.
End steps.
