(* ===== verification/CoordinatorFacts.v ===== *)
(** * What the manager keeps

    The invariant of the interleaved system of CoordinatorSteps.v, by induction
    on its steps, and the behaviour of the manager's operations when nothing
    else interferes. *)

From stdpp Require Import relations.
From S2P Require Import Prelude Text Status Effect Config Task Coordinator CoordinatorSteps.

Section facts.
Context {W : Type} `{TaskSystemLaws W} (config : Config) (clock : nat → Z).
Implicit Types (g : Manager W) (w : W).

(** ** Permits *)

Lemma held_nonneg w : 0 ≤ held w.
Proof. unfold held. lia. Qed.
Lemma held_mono w w' : sys_permits w' ⊆ sys_permits w → held w' ≤ held w.
Proof. intros Hs. unfold held. apply subseteq_size in Hs. lia. Qed.
Lemma held_quiet w w' : quiet w w' → held w' = held w.
Proof. intros [_ Hp]. unfold held. by rewrite Hp. Qed.
Lemma held_set_none i w : held (sys_set_permit i false w) = held w - (if bool_decide (i ∈ sys_permits w) then 1 else 0).
Proof.
  unfold held. rewrite sys_set_permit_none, size_difference_alt.
  case_bool_decide as Hi.
  - assert (sys_permits w ∩ {[i]} = {[i]}) as -> by set_solver. rewrite size_singleton.
    assert ({[i]} ⊆ sys_permits w) as Hs%subseteq_size by set_solver. rewrite size_singleton in Hs. lia.
  - assert (sys_permits w ∩ {[i]} = ∅) as -> by set_solver. rewrite size_empty. lia.
Qed.
Lemma held_set_some i w : i ∈ sys_ids w → i ∉ sys_permits w → held (sys_set_permit i true w) = held w + 1.
Proof.
  intros Hi Hp. unfold held. rewrite sys_set_permit_some by done.
  rewrite size_union by set_solver. rewrite size_singleton. lia.
Qed.

(** All the permits there are, with [n] in the hands of transitions. *)
Definition total g : Z := mg_semaphore g + held (mg_tasks g) + mg_orphans g.
Definition counts g : Prop := 0 ≤ mg_semaphore g ∧ 0 ≤ mg_orphans g ∧ NoDup (mg_pending_queue g).

(** A part of an operation keeps the permits there are. *)
Definition balanced g g' : Prop := total g' = total g ∧ (counts g → counts g').
#[local] Instance balanced_refl : Reflexive balanced.
Proof. intros g. by split. Qed.
#[local] Instance balanced_trans : Transitive balanced.
Proof. intros g1 g2 g3 [E1 C1] [E2 C2]. split; [congruence|auto]. Qed.

Lemma balanced_on_tasks {A} (m : eff W A) g :
  sys_permits (snd (m (mg_tasks g))) ⊆ sys_permits (mg_tasks g) → balanced g (snd (on_tasks m g)).
Proof.
  intros Hs%held_mono. unfold on_tasks. destruct (m (mg_tasks g)) as [r w]. cbn in *.
  unfold balanced, total, counts, update. cbn. split; [lia|]. intros (? & ? & ?). split_and!; [lia|done..].
Qed.
Lemma quiet_balanced {A} (m : eff W A) g : keeps quiet m → balanced g (snd (on_tasks m g)).
Proof. intros Hq. apply balanced_on_tasks. destruct (Hq (mg_tasks g)) as [_ ->]. done. Qed.
Lemma balanced_off_map f g :
  sys_permits (f (mg_tasks g)) ⊆ sys_permits (mg_tasks g) → balanced g (snd (off_map f g)).
Proof.
  intros Hs%held_mono. unfold off_map, modify, balanced, total, counts, update. cbn.
  split; [lia|]. intros (? & ? & ?). split_and!; [lia..|done].
Qed.
Lemma balanced_clear_guard i g : balanced g (snd (clear_guard i g)).
Proof. apply balanced_on_tasks. cbn. rewrite sys_set_permit_none. set_solver. Qed.
Lemma balanced_queue g q :
  (NoDup (mg_pending_queue g) → NoDup q) → balanced g (g <| mg_pending_queue := q |>).
Proof. intros Hq. split; [done|]. intros (? & ? & ?). split_and!; [done..|]. by apply Hq. Qed.
Lemma nodup_delete {A} (l : list A) i : NoDup l → NoDup (base.delete i l).
Proof. intros Hl. by eapply sublist_NoDup, sublist_delete. Qed.

Lemma balanced_part {A} (m : eff (Manager W) A) g :
  manager_part config clock A m → balanced g (snd (m g)).
Proof.
  intros [m' Hm|i| |i|i n|i].
  - apply balanced_on_tasks. destruct Hm as [i|i|i|i|i e|].
    all: try (lazymatch goal with |- context [snd (?m _)] =>
      assert (keeps quiet m) as Hq by auto using sys_pause_quiet, sys_cancel_quiet, sys_save_quiet,
        sys_diagnose_quiet, sys_session_quiet end; by destruct (Hq (mg_tasks g)) as [_ ->]).
    by destruct (sys_delete_releases i (mg_tasks g)) as (_ & _ & ?).
  - unfold remove_from_queue, modify. cbn. case_match; [|reflexivity].
    apply balanced_queue, nodup_delete.
  - apply (balanced_queue g []). intros _. constructor.
  - unfold release_task_permit, eff_bind, gets, when. case_match; [apply balanced_clear_guard|reflexivity].
  - unfold should_persist_progress. repeat case_match; cbn; (split; [reflexivity|done]).
  - split; [reflexivity|done].
Qed.

Lemma acquire_balanced i a g b g' :
  acquire_task_permit_or_queue i a g = (Ok b, g') →
  total g' = total g - (if b then 1 else 0) ∧ (counts g → counts g').
Proof.
  unfold acquire_task_permit_or_queue, enqueue_task_action, eff_bind, gets, modify.
  destruct (0 <? mg_semaphore g) eqn:Hs; intros Heq; injection Heq as <- <-.
  - unfold total, counts, update. cbn. split; [lia|]. intros (? & ? & ?). split_and!; [lia|done..].
  - destruct (existsb _ _) eqn:He; cbn; (split; [unfold total, update; cbn; lia|]); [done|].
    intros (? & ? & Hn). split_and!; [done..|]. unfold update. cbn.
    apply NoDup_app. split; [done|]. split; [|apply NoDup_singleton].
    intros e Hin ->%list_elem_of_singleton. apply not_true_iff_false in He. apply He.
    apply existsb_exists. exists (i, a). split; [by apply list_elem_of_In|]. by apply bool_decide_eq_true.
Qed.
Lemma store_permit_balanced i g :
  total (snd (store_permit i g)) = total g + 1 ∧ (counts g → counts (snd (store_permit i g))).
Proof.
  unfold store_permit, has_task, drop_permit, modify. case_bool_decide as Hi.
  - case_bool_decide as Hp.
    + unfold total, counts, update. cbn. split; [lia|]. intros (? & ? & ?). split_and!; [lia|done..].
    + pose proof (held_set_some i (mg_tasks g) Hi Hp).
      unfold total, counts, update. cbn. split; [lia|done].
  - unfold total, counts, update. cbn. split; [lia|]. intros (? & ? & ?). split_and!; [done|lia|done].
Qed.
Lemma give_up_balanced i g :
  total (snd ((drop_permit ;;; clear_guard i) g)) = total g + 1 ∧
  (counts g → counts (snd ((drop_permit ;;; clear_guard i) g))).
Proof.
  set (g1 := g <| mg_semaphore ::= Z.succ |>).
  change ((drop_permit ;;; clear_guard i) g) with (clear_guard i g1).
  destruct (balanced_clear_guard i g1) as [-> Hc].
  split; [unfold total; subst g1; unfold update; cbn; lia|]. intros (? & ? & ?). apply Hc.
  subst g1. unfold counts, update. cbn. split_and!; [lia|done..].
Qed.

(** ** The invariant *)

Definition conserved (n : Z) (s : system) : Prop :=
  total (ms_manager s) + zlen (ms_flights s) = n ∧ counts (ms_manager s).

Lemma conserved_balanced n g g' l l' rm rm' :
  conserved n (mk_system g l rm) → balanced g g' → zlen l' = zlen l → conserved n (mk_system g' l' rm').
Proof. intros [E C] [Eb Cb] Hl. unfold conserved in *. cbn in *. split; [lia|auto]. Qed.
Lemma conserved_moved n k g g' l l' rm rm' :
  conserved n (mk_system g l rm) → total g' = total g + k ∧ (counts g → counts g') →
  zlen l' = zlen l - k → conserved n (mk_system g' l' rm').
Proof. intros [E C] [Eb Cb] Hl. unfold conserved in *. cbn in *. split; [lia|auto]. Qed.

Lemma taking_off_length b f l : zlen (taking_off b f l) = zlen l + (if b then 1 else 0).
Proof. destruct b; cbn [taking_off]; autorewrite with rust; lia. Qed.

Lemma step_conserved n s s' : step config clock s s' → conserved n s → conserved n s'.
Proof.
  intros Hstep Hc. destruct Hstep as [g g' l rm i a b Ha|g g' l rm i a q b Hq Ha|g l k rm i a Hi
    |g g' l k rm i a r Hi Hr|g l k rm i a u|g l k rm i a e|A m g l rm Hm|r g l rm|r g l rm rm' Hb
    |f g l rm [_ Hs]|f g l rm Hs].
  - eapply (conserved_moved _ (- if b then 1 else 0)); [done| |rewrite taking_off_length; lia].
    apply acquire_balanced in Ha as [-> ?]. split; [lia|done].
  - apply (conserved_balanced _ _ (g <| mg_pending_queue := q |>) _ l _ rm) in Hc;
      [|apply balanced_queue; rewrite Hq; by intros [_ ?]%NoDup_cons|done].
    eapply (conserved_moved _ (- if b then 1 else 0)); [done| |rewrite taking_off_length; lia].
    apply acquire_balanced in Ha as [-> ?]. split; [lia|done].
  - eapply (conserved_moved _ 1); [done| |autorewrite with rust; lia].
    unfold drop_permit, modify, total, counts, update. cbn. split; [lia|].
    intros (? & ? & ?). split_and!; [lia|done..].
  - eapply conserved_balanced; [done| |by autorewrite with rust].
    replace g' with (snd (on_tasks (operation a i) g)) by (by rewrite Hr). apply quiet_balanced.
    destruct a; [apply sys_start_quiet|apply sys_resume_quiet|apply sys_start_quiet].
  - eapply (conserved_moved _ 1); [done|apply store_permit_balanced|autorewrite with rust; lia].
  - eapply (conserved_moved _ 1); [done|apply give_up_balanced|autorewrite with rust; lia].
  - eapply conserved_balanced; [done|by apply balanced_part|done].
  - exact Hc.
  - eapply conserved_balanced; [done| |done]. destruct r as [i|]; apply balanced_off_map.
    + rewrite sys_remove_permits. set_solver.
    + intros i Hi%sys_permits_ids. rewrite sys_clear_ids in Hi. by apply elem_of_nil in Hi.
  - eapply conserved_balanced; [done| |done]. by apply balanced_on_tasks.
  - eapply conserved_balanced; [done| |done]. by apply balanced_off_map.
Qed.

Lemma reachable_conserved n s s' : rtc (step config clock) s s' → conserved n s → conserved n s'.
Proof. induction 1; eauto using step_conserved. Qed.

Lemma conserved_alone w n : sys_permits w = ∅ → 0 ≤ n → conserved n (alone (mk_manager w [] ∅ n 0 0)).
Proof.
  intros Hw Hn. unfold conserved, alone, total, counts, held. cbn. rewrite Hw, size_empty.
  split; [unfold zlen; cbn; lia|]. split_and!; [done..|constructor].
Qed.
Lemma conserved_held n s : conserved n s → held (mg_tasks (ms_manager s)) ≤ n.
Proof.
  intros [E (? & ? & _)]. unfold total in E. pose proof (zlen_nonneg (ms_flights s)). lia.
Qed.

(** C14. Permits are neither lost nor made.  From a new manager, however its
    operations and what its tasks do by themselves interleave, the permits that
    can be taken, those of the tasks in the map, those of tasks that have left it
    and those of transitions in flight add up to [concurrent_tasks]; so never more
    than these are given at a time.  And no request waits twice in the queue. *)
Theorem permits_conserved w g s :
  new_manager config (Ok tt) w = Ok g → sys_permits w = ∅ → 0 ≤ concurrent_tasks config →
  rtc (step config clock) (alone g) s →
  mg_semaphore (ms_manager s) + held (mg_tasks (ms_manager s)) + mg_orphans (ms_manager s)
    + zlen (ms_flights s) = concurrent_tasks config ∧
  0 ≤ mg_semaphore (ms_manager s) ∧ 0 ≤ mg_orphans (ms_manager s) ∧
  held (mg_tasks (ms_manager s)) ≤ concurrent_tasks config ∧
  NoDup (mg_pending_queue (ms_manager s)).
Proof.
  intros Hg Hw Hn Hs. unfold new_manager in Hg.
  destruct (result_map_err error_of_config (validate config)) as [u|e]; cbn in Hg; [|done].
  injection Hg as <-.
  assert (conserved (concurrent_tasks config) s) as Hc.
  { eapply reachable_conserved; [exact Hs|]. by apply conserved_alone. }
  pose proof (conserved_held _ _ Hc). destruct Hc as [E (? & ? & ?)]. unfold total in E.
  split_and!; [lia|done..].
Qed.

(** ** One operation at a time *)

(** A transition depends on the next one only where the queue is as it was. *)
Lemma transition_with_ext s1 s2 i a g :
  (∀ g', mg_pending_queue g' = mg_pending_queue g → s1 g' = s2 g') →
  transition_with s1 i a g = transition_with s2 i a g.
Proof.
  intros Hs. unfold transition_with. destruct (acquire_total i a g) as (b & g1 & Ha).
  rewrite !(eff_bind_ok _ _ _ _ _ Ha). destruct b; [|done]. cbn [negb].
  pose proof (same_queue_acquired _ _ _ _ Ha) as Hq1.
  rewrite !(eff_bind_ok (gets (λ g, has_task g i)) _ g1 (has_task g1 i) g1) by done.
  destruct (has_task g1 i); [|done]. cbn [negb].
  pose proof (same_queue_on_tasks (operation a i) g1) as Hq2.
  destruct (on_tasks (operation a i) g1) as [r g2] eqn:Hop. cbn in Hq2.
  rewrite !(eff_bind_ok (attempt (on_tasks (operation a i))) _ g1 r g2) by
    (unfold attempt; by rewrite Hop).
  destruct r as [u|e]; [done|].
  destruct (give_up_ok i g2) as (g3 & E3 & Hq3). rewrite !(eff_bind_assoc drop_permit).
  rewrite !(eff_bind_ok _ _ _ _ _ E3). unfold eff_bind, attempt. rewrite Hs; [done|].
  by rewrite Hq3, Hq2, Hq1.
Qed.

Lemma spawn_with_ext t1 t2 g :
  (∀ i a g', (length (mg_pending_queue g') < length (mg_pending_queue g))%nat → t1 i a g' = t2 i a g') →
  spawn_next_with t1 g = spawn_next_with t2 g.
Proof.
  intros Ht. unfold spawn_next_with, eff_bind, pop_front, attempt.
  destruct (mg_pending_queue g) as [|[i a] q]; [done|]. destruct a; rewrite Ht; cbn; auto with lia.
Qed.

Lemma transition_fuel f1 f2 i a g :
  (length (mg_pending_queue g) ≤ f1)%nat → (length (mg_pending_queue g) ≤ f2)%nat →
  run_task_transition f1 i a g = run_task_transition f2 i a g.
Proof.
  revert f2 i a g. induction f1 as [f1 IH] using lt_wf_ind. intros f2 i a g H1 H2.
  destruct f1 as [|f1], f2 as [|f2]; cbn [run_task_transition]; apply transition_with_ext;
    intros g1 Hg; apply spawn_with_ext; intros j b g2 Hg2; rewrite Hg in Hg2; try lia.
  apply IH; lia.
Qed.

(** Starting a task ends: a transition is what the code says, with the next
    transitions in place, which end in turn, since each takes an entry from the
    queue and none adds one. *)
Theorem transition_recursion i a g : transition i a g = transition_with spawn_next_task i a g.
Proof.
  unfold transition at 1. destruct (length (mg_pending_queue g)) as [|n] eqn:Hn; cbn [run_task_transition];
    apply transition_with_ext; intros g1 Hg1; apply spawn_with_ext; intros j b g2 Hg2;
    rewrite Hg1, Hn in Hg2; [lia|]. apply transition_fuel; lia.
Qed.

Lemma acquire_free i a g :
  0 < mg_semaphore g → acquire_task_permit_or_queue i a g = (Ok true, g <| mg_semaphore ::= Z.pred |>).
Proof. intros Hs. unfold acquire_task_permit_or_queue, eff_bind, gets. apply Z.ltb_lt in Hs. by rewrite Hs. Qed.

(** A transition whose operation succeeds. *)
Lemma transition_ok i a g u w :
  0 < mg_semaphore g → i ∈ sys_ids (mg_tasks g) → i ∉ sys_permits (mg_tasks g) →
  operation a i (mg_tasks g) = (Ok u, w) →
  transition i a g =
    (Ok i, g <| mg_tasks := sys_set_permit i true w |> <| mg_semaphore ::= Z.pred |>).
Proof.
  intros Hs Hi Hp Hop. rewrite transition_recursion. unfold transition_with.
  rewrite (eff_bind_ok _ _ _ _ _ (acquire_free i a g Hs)). cbn [negb].
  assert (quiet (mg_tasks g) w) as [Hids Hpm].
  { replace w with (snd (operation a i (mg_tasks g))) by (by rewrite Hop).
    destruct a; [apply sys_start_quiet|apply sys_resume_quiet|apply sys_start_quiet]. }
  unfold eff_bind at 1, gets, has_task. cbn. rewrite bool_decide_eq_true_2 by done. cbn [negb].
  unfold eff_bind, attempt, on_tasks. cbn. rewrite Hop.
  unfold store_permit, has_task, update. cbn. rewrite Hids, Hpm.
  rewrite bool_decide_eq_true_2 by done. rewrite bool_decide_eq_false_2 by done.
  unfold held. rewrite Hpm, Z.sub_diag, Z.add_0_r. reflexivity.
Qed.

(** What is left when the operation of a transition has failed. *)
Definition given_up (i : Z) w g : Manager W :=
  g <| mg_tasks := sys_set_permit i false w |>
    <| mg_semaphore ::= λ n, n + if bool_decide (i ∈ sys_permits w) then 1 else 0 |>.

(** A transition whose operation fails. *)
Lemma transition_err i a g e w :
  0 < mg_semaphore g → i ∈ sys_ids (mg_tasks g) → operation a i (mg_tasks g) = (Err e, w) →
  transition i a g = (Err e, snd (spawn_next_task (given_up i w g))).
Proof.
  intros Hs Hi Hop. rewrite transition_recursion. unfold transition_with.
  rewrite (eff_bind_ok _ _ _ _ _ (acquire_free i a g Hs)). cbn [negb].
  assert (quiet (mg_tasks g) w) as Hw.
  { replace w with (snd (operation a i (mg_tasks g))) by (by rewrite Hop).
    destruct a; [apply sys_start_quiet|apply sys_resume_quiet|apply sys_start_quiet]. }
  unfold eff_bind at 1, gets, has_task. cbn. rewrite bool_decide_eq_true_2 by done. cbn [negb].
  unfold eff_bind, attempt, on_tasks, drop_permit, clear_guard, on_tasks, modify. cbn. rewrite Hop.
  unfold update. cbn. rewrite (held_quiet _ _ Hw), held_set_none, (held_quiet _ _ Hw).
  replace (Z.succ _ + _) with
    (mg_semaphore g + if bool_decide (i ∈ sys_permits w) then 1 else 0) by (case_bool_decide; lia).
  unfold given_up, update. by destruct (spawn_next_task _) as [[|]].
Qed.

(** A transition of a task that is not there. *)
Lemma transition_missing i a g :
  0 < mg_semaphore g → i ∉ sys_ids (mg_tasks g) → transition i a g = (Err (ETaskNotFound i), g).
Proof.
  intros Hp Hi. rewrite transition_recursion. unfold transition_with.
  rewrite (eff_bind_ok _ _ _ _ _ (acquire_free i a g Hp)). cbn [negb].
  unfold eff_bind, gets, has_task. cbn. rewrite bool_decide_eq_false_2 by done. cbn.
  unfold update. cbn. rewrite Z.succ_pred. by destruct g.
Qed.

Lemma transition_waits i a g : mg_semaphore g = 0 →
  transition i a g = (Ok i, snd (enqueue_task_action i a g)) ∧
  (i, a) ∈ mg_pending_queue (snd (enqueue_task_action i a g)).
Proof.
  intros Hz. rewrite transition_recursion. unfold transition_with, acquire_task_permit_or_queue.
  unfold eff_bind, gets, enqueue_task_action, modify. rewrite Hz. cbn. split; [done|].
  destruct (existsb _ _) eqn:He; [|unfold update; cbn; set_solver].
  apply existsb_exists in He as (x & Hx%list_elem_of_In & ->%bool_decide_eq_true). done.
Qed.

(** C16. Starting or resuming a task.  Without a permit to be had the request
    waits in the queue, once.  Otherwise a task that is not there is refused, and
    leaves no trace; a task that starts gets the permit; and one that fails gives
    the permit back, with the one it had before, if any, and the next task of the
    queue is started. *)
Theorem transition_spec i a g :
  counts g →
  (mg_semaphore g = 0 →
     transition i a g = (Ok i, snd (enqueue_task_action i a g)) ∧
     (i, a) ∈ mg_pending_queue (snd (enqueue_task_action i a g))) ∧
  (0 < mg_semaphore g → i ∉ sys_ids (mg_tasks g) → transition i a g = (Err (ETaskNotFound i), g)) ∧
  (0 < mg_semaphore g → i ∈ sys_ids (mg_tasks g) →
     (∀ u w, operation a i (mg_tasks g) = (Ok u, w) → i ∉ sys_permits (mg_tasks g) →
        transition i a g =
          (Ok i, g <| mg_tasks := sys_set_permit i true w |> <| mg_semaphore ::= Z.pred |>)) ∧
     (∀ e w, operation a i (mg_tasks g) = (Err e, w) →
        transition i a g = (Err e, snd (spawn_next_task (given_up i w g))))).
Proof.
  intros (Hs & _ & _). split; [|split].
  - apply transition_waits.
  - apply transition_missing.
  - intros Hp Hi. split; intros; [by eapply transition_ok|by apply transition_err].
Qed.

(** A task that cannot be started again loses the permit it had. *)
Lemma restart_frees_permit i e g :
  0 < mg_semaphore g → i ∈ sys_permits (mg_tasks g) →
  sys_start i (mg_tasks g) = (Err e, mg_tasks g) →
  start_task i g = (Err e, snd (spawn_next_task
    (g <| mg_tasks ::= sys_set_permit i false |> <| mg_semaphore ::= Z.succ |>))).
Proof.
  intros Hs Hp Hop. unfold start_task. erewrite transition_err; [|done|by apply sys_permits_ids|exact Hop].
  unfold given_up. by rewrite bool_decide_eq_true_2.
Qed.

(** A request for a task that is gone, such as the second request of a task
    that was queued to be started and to be resumed and then deleted, ends the
    turn of the queue: the entries behind it are not started, although permits
    are free, until another task ends. *)
Theorem missing_task_stalls i a q g :
  mg_pending_queue g = (i, a) :: q → i ∉ sys_ids (mg_tasks g) → 0 < mg_semaphore g →
  spawn_next_task g = (Ok tt, g <| mg_pending_queue := q |>).
Proof.
  intros Hq Hi Hs. unfold spawn_next_task, spawn_next_with, eff_bind at 1, pop_front. rewrite Hq.
  change (update mg_pending_queue _ g) with (g <| mg_pending_queue := q |>).
  assert (∀ b, transition i b (g <| mg_pending_queue := q |>) =
    (Err (ETaskNotFound i), g <| mg_pending_queue := q |>)) as Ht by (intros b; by apply transition_missing).
  unfold eff_bind, attempt. destruct a; by rewrite Ht.
Qed.

(** ** The queue is served *)

Lemma save_quiet b i w w1 : when b (sys_save i) w = (Ok tt, w1) → quiet w w1.
Proof.
  destruct b; cbn [when]; intros Hs; [|by injection Hs as <-].
  replace w1 with (snd (sys_save i w)) by (by rewrite Hs). apply sys_save_quiet.
Qed.
Lemma session_quiet w w1 : sys_persist_session w = (Ok tt, w1) → quiet w w1.
Proof. intros Hs. replace w1 with (snd (sys_persist_session w)) by (by rewrite Hs). apply sys_session_quiet. Qed.

(** The end of a task that has a permit and no request in the queue, when it can be saved. *)
Lemma end_task_ok h g w1 w2 :
  h ∈ sys_permits (mg_tasks g) → h ∉ (mg_pending_queue g).*1 →
  when (sys_has_store (mg_tasks g) h) (sys_save h) (mg_tasks g) = (Ok tt, w1) →
  sys_persist_session w1 = (Ok tt, w2) →
  ∃ g', end_task h g = (Ok tt, g') ∧ mg_tasks g' = sys_set_permit h false w2 ∧
    mg_pending_queue g' = mg_pending_queue g ∧ mg_semaphore g' = mg_semaphore g + 1.
Proof.
  intros Hh Hqueue Hsave Hsession.
  pose proof (save_quiet _ _ _ _ Hsave) as Q1.
  pose proof (session_quiet _ _ Hsession) as Q2.
  set (g1 := g <| mg_tasks := w1 |>). set (g2 := g <| mg_tasks := w2 |>).
  assert (persist_task h g = (Ok h, g1)) as E1.
  { unfold persist_task, eff_bind at 1, gets at 1, has_task.
    rewrite bool_decide_eq_true_2 by (by apply sys_permits_ids). cbn [negb].
    unfold eff_bind at 1, gets. destruct (sys_has_store (mg_tasks g) h); cbn [when] in *.
    - rewrite (eff_bind_ok _ _ g tt g1); [done|]. unfold on_tasks. rewrite Hsave. unfold g1, update. cbn.
      by rewrite (held_quiet _ _ Q1), Z.sub_diag, Z.add_0_r.
    - injection Hsave as <-. unfold g1. by destruct g. }
  assert (persist_http_session_state g1 = (Ok tt, g2)) as E2.
  { unfold persist_http_session_state, on_tasks. unfold g1 at 1. cbn. rewrite Hsession. unfold g2, g1, update. cbn.
    by rewrite (held_quiet _ _ Q2), Z.sub_diag, Z.add_0_r. }
  destruct Q1 as [Hids1 Hpm1], Q2 as [Hids2 Hpm2].
  unfold end_task. rewrite (eff_bind_ok _ _ _ _ _ E1), (eff_bind_ok _ _ _ _ _ E2).
  set (g3 := g2 <| mg_progress_persist_state ::= base.delete h |>).
  rewrite (eff_bind_ok _ _ g2 tt g3) by done.
  rewrite (eff_bind_ok _ _ g3 tt g3).
  2: { unfold remove_from_queue, modify. destruct (position _ _) as [n|] eqn:Hn; [|done].
       apply position_Some in Hn as ([j a] & Hj & Hjh & _). apply bool_decide_eq_true in Hjh. cbn in Hjh.
       subst j. exfalso. apply Hqueue. apply (list_elem_of_fmap_2 fst (mg_pending_queue g) (h, a)).
       by apply (list_elem_of_lookup_2 _ (Z.to_nat n)). }
  assert (h ∈ sys_permits w2) as Hh2 by (by rewrite Hpm2, Hpm1).
  unfold release_task_permit, eff_bind, gets, has_task, clear_guard, on_tasks, modify. cbn.
  rewrite bool_decide_eq_true_2 by (by apply sys_permits_ids). cbn.
  eexists. split; [done|]. unfold update. cbn. rewrite held_set_none, bool_decide_eq_true_2 by done.
  split_and!; [done|done|lia].
Qed.

(** What ends a task. *)
Definition ends (event : Event) : option Z :=
  match event with EvComplete i | EvCancel i | EvPause i => Some i | _ => None end.

(** It is the turn of the queue's first entry. *)
Lemma turn event h i a q g w1 w2 w3 :
  ends event = Some h → 0 ≤ mg_semaphore g → h ∈ sys_permits (mg_tasks g) →
  mg_pending_queue g = (i, a) :: q → h ∉ (mg_pending_queue g).*1 →
  i ∈ sys_ids (mg_tasks g) → i ∉ sys_permits (mg_tasks g) →
  when (sys_has_store (mg_tasks g) h) (sys_save h) (mg_tasks g) = (Ok tt, w1) →
  sys_persist_session w1 = (Ok tt, w2) →
  operation (start_or_resume a) i (sys_set_permit h false w2) = (Ok tt, w3) →
  ∃ g', handle_task_event config clock event g = (Ok tt, g') ∧ mg_tasks g' = sys_set_permit i true w3 ∧
    mg_pending_queue g' = q ∧ mg_semaphore g' = mg_semaphore g.
Proof.
  intros He Hs Hh Hq Hnq Hi Hp Hsave Hsession Hop.
  destruct (save_quiet _ _ _ _ Hsave) as [Hids1 Hpm1].
  destruct (session_quiet _ _ Hsession) as [Hids2 Hpm2].
  destruct (end_task_ok h g w1 w2 Hh Hnq Hsave Hsession) as (g1 & E1 & Ht1 & Hq1 & Hs1).
  assert (handle_task_event config clock event g = handle_terminal_task_event h g) as ->
    by (destruct event; simplify_eq/=; done).
  unfold handle_terminal_task_event. rewrite (eff_bind_ok _ _ _ _ _ E1).
  unfold spawn_next_task, spawn_next_with, eff_bind at 1, pop_front. rewrite Hq1, Hq.
  set (g2 := update mg_pending_queue (λ _, q) g1).
  assert (mg_tasks g2 = sys_set_permit h false w2) as Ht2 by exact Ht1.
  assert (transition i (start_or_resume a) g2 = (Ok i, g2 <| mg_tasks := sys_set_permit i true w3 |>
    <| mg_semaphore ::= Z.pred |>)) as Ht.
  { eapply transition_ok; [cbn; lia|..|by rewrite Ht2]; rewrite Ht2.
    - by rewrite sys_set_permit_ids, Hids2, Hids1.
    - rewrite sys_set_permit_none, Hpm2, Hpm1. set_solver. }
  exists (g2 <| mg_tasks := sys_set_permit i true w3 |> <| mg_semaphore ::= Z.pred |>).
  split; [unfold eff_bind, attempt; destruct a; cbn [start_or_resume] in Ht; by rewrite Ht|].
  split_and!; [done|done|cbn; lia].
Qed.
End facts.

(** ** Examples

    A system in which a task is only whether it has a permit: one that has it
    cannot be started, and deleting a task gives it back. *)

Abbreviation toy := (gmap Z bool).
Definition toy_start (i : Z) : eff toy unit := λ w,
  match w !! i with Some true => (Err (EOther "running"), w) | _ => (Ok tt, w) end.
#[local] Instance toy_system : TaskSystem toy := {
  sys_ids w := elements (dom w);
  sys_permits := marked (λ b, b);
  sys_set_permit i b w := alter (λ _, b) i w;
  sys_remove i w := base.delete i w;
  sys_clear _ := ∅;
  sys_start := toy_start;
  sys_resume := toy_start;
  sys_pause _ := ret tt;
  sys_cancel _ := ret tt;
  sys_delete i := modify (alter (λ _, false) i);
  sys_terminal _ _ := false;
  sys_has_store _ _ := true;
  sys_save _ := ret tt;
  sys_diagnose _ _ := ret tt;
  sys_persist_session := ret tt
}.

Lemma toy_start_quiet i : keeps quiet (toy_start i).
Proof. intros w. unfold toy_start. by repeat case_match. Qed.
#[local] Instance toy_laws : TaskSystemLaws toy.
Proof.
  split; intros; try apply toy_start_quiet; try (by intros ?); cbn.
  - apply NoDup_elements.
  - apply elem_of_elements. by apply (marked_dom (λ b, b)).
  - by rewrite dom_alter_L.
  - apply marked_alter_true; [done|]. by apply elem_of_elements.
  - by apply marked_alter_false.
  - rewrite !elem_of_elements. set_solver.
  - apply marked_delete.
  - by rewrite dom_empty_L, elements_empty.
  - intros v. split; [cbn; by rewrite dom_alter_L|]. cbn. rewrite marked_alter_false by done. set_solver.
Qed.

(** Task 1 runs, 2 and 3 do not, and there is room for one more; with these requests. *)
Definition toy_tasks : toy := <[1 := true]> (<[2 := false]> {[3 := false]}).
Definition toy_manager (q : list (Z * PendingAction)) : Manager toy := mk_manager toy_tasks q ∅ 1 0 0.

Lemma permits_conserved_witness :
  let g : Manager toy := mk_manager {[1 := false]} [] ∅ 4 0 0 in
  ∃ g', rtc (step Config_default Z.of_nat) (alone g) (mk_system g' [mk_flight 1 PaStart Acquired] []) ∧
    mg_semaphore g' + held (mg_tasks g') + mg_orphans g' + 1 = 4.
Proof.
  cbn zeta. eexists. split.
  - apply rtc_once. eapply (step_begin _ _ _ _ [] [] 1 PaStart true). reflexivity.
  - eapply (permits_conserved Config_default Z.of_nat {[1 := false]} (mk_manager {[1 := false]} [] ∅ 4 0 0)
      (mk_system _ [mk_flight 1 PaStart Acquired] [])).
    + reflexivity.
    + reflexivity.
    + done.
    + apply rtc_once. eapply (step_begin _ _ _ _ [] [] 1 PaStart true). reflexivity.
Defined.

Lemma transition_spec_witness :
  ∃ w, transition 2 PaStart (toy_manager []) =
    (Ok 2, toy_manager [] <| mg_tasks := sys_set_permit 2 true w |> <| mg_semaphore ::= Z.pred |>).
Proof.
  exists toy_tasks. eapply transition_spec; [|done| | |].
  - unfold counts. cbn. split_and!; [done..|constructor].
  - vm_compute. set_solver.
  - by vm_compute.
  - cbn. by vm_compute; set_solver.
Defined.

Lemma missing_task_stalls_witness :
  spawn_next_task (toy_manager [(7, PaResume); (2, PaStart)]) = (Ok tt, toy_manager [(2, PaStart)]).
Proof.
  rewrite (missing_task_stalls 7 PaResume [(2, PaStart)]); [done|done| |done].
  vm_compute. set_solver.
Defined.
