(* ===== verification/System.v ===== *)
(** * The tasks of the manager ([src/src/coordinator/registry.rs])

    The map of the manager's tasks: each has its own state, its payload handles
    and its workers' events, and all share the files, the store, the engine and
    the channel to the manager.  An operation of a task (Job.v) runs on its part
    of this state.  This is the implementation of the interface that the manager
    (Coordinator.v) is proved against; registering new tasks and restoring the
    stored ones are operations on it. *)

From S2P Require Import Prelude Text Ranges Status Effect Source Piece Files Checksum Manifest Planner Payload Torrent Config Task Mapping Repository Store Recovery Probe Job Coordinator.

(** What belongs to one task. *)
Record job_state := mk_job_state {
  js_task : Task;
  js_handles : gmap string positive;
  js_worker_events : list Event;
  js_spawned : list spawned
}.
#[export] Instance job_state_eta : Settable job_state := λ j,
  mk_job_state (js_task j) (js_handles j) (js_worker_events j) (js_spawned j).

(** The map of the tasks, and what they share. *)
Record tasks (St E : Type) := mk_tasks {
  ts_jobs : gmap Z job_state;
  ts_fs : fs;
  ts_store : St;
  ts_engine : E;
  ts_events : list Event;
  ts_readings : nat
}.
Arguments mk_tasks {St E}.
Arguments ts_jobs {St E}.
Arguments ts_fs {St E}.
Arguments ts_store {St E}.
Arguments ts_engine {St E}.
Arguments ts_events {St E}.
Arguments ts_readings {St E}.
#[export] Instance tasks_eta {St E} : Settable (tasks St E) := λ s,
  mk_tasks (ts_jobs s) (ts_fs s) (ts_store s) (ts_engine s) (ts_events s) (ts_readings s).

(** [src/src/runtime.rs:21-25], [HttpSessionState]. The cookie store as the text it is saved as. *)
Record HttpSessionState := mk_session_state { cookie_jar_path : string; cookie_store : res bytes }.

Section system.
Context {St E : Type} `{Repository St} `{TorrentEngine E} `{UrlLib} `{HttpLib} `{DigestLib}.
Context `{Json DownloadSpec} `{Json SourceSet} `{Json TorrentEngineState} `{Json TorrentMetadata}.
Context (config : Config) (session : option HttpSessionState) (clock : nat → DateTime)
  (send : Request → result Response string) (diagnostic_body : Task → Error → DateTime → res bytes)
  (prepare_swarm_download : eff (job_world St E) PreparationOutcome)
  (meanwhile : eff (job_world St E) unit).

Abbreviation job := (eff (job_world St E)).
Abbreviation sys := (eff (tasks St E)).

(** ** Operations of one task *)

(** A task's part of the state, and the state with that part changed. *)
Definition world_of (s : tasks St E) (j : job_state) : job_world St E :=
  mk_job (js_task j) (mk_world (ts_fs s) (js_handles j)) (ts_store s) (ts_engine s) (ts_events s)
    (js_worker_events j) (js_spawned j) (ts_readings s).
Definition state_of (w : job_world St E) : job_state :=
  mk_job_state (jw_task w) (pw_handles (jw_payload w)) (jw_worker_events w) (jw_spawned w).
Definition share (w : job_world St E) (jobs : gmap Z job_state) : tasks St E :=
  mk_tasks jobs (pw_fs (jw_payload w)) (jw_store w) (jw_engine w) (jw_events w) (jw_readings w).

(** An operation of a task of the map. *)
Definition on_task (i : Z) (m : job unit) : sys unit := λ s,
  match ts_jobs s !! i with
  | Some j => let '(r, w) := m (world_of s j) in (r, share w (<[i := state_of w]> (ts_jobs s)))
  | None => (Err (ETaskNotFound i), s)
  end.

(** [src/src/runtime.rs:28-57], [HttpSessionState::persist]. *)
Definition persist_session (state : HttpSessionState) : eff fs unit :=
  let path := cookie_jar_path state in
  let io (words : string) (f : fs → result fs io_error) : eff fs unit := λ s,
    match f s with
    | Ok s' => (Ok tt, s')
    | Err err => (Err (EOther (words +:+ ": " +:+ io_error_to_string err)), s)
    end in
  match path_parent path with
  | Some parent =>
      io ("Failed to create cookie jar directory '" +:+ parent +:+ "'") (λ s, fs_create_dir_all s parent)
  | None => ret tt
  end ;;;
  io ("Failed to create cookie jar '" +:+ path +:+ "'") (λ s, fs_write_file s path []) ;;;
  match cookie_store state with
  | Ok text => modify (λ s, match fs_write_file s path text with Ok s' => s' | Err _ => s end)
  | Err err => throw (EOther ("Failed to persist cookie jar '" +:+ path +:+ "': " +:+ Error_to_string err))
  end.
Definition on_files (m : eff fs unit) : sys unit := λ s,
  let '(r, f) := m (ts_fs s) in (r, s <| ts_fs := f |>).

#[export] Instance system_tasks : TaskSystem (tasks St E) := {
  sys_ids s := elements (dom (ts_jobs s));
  sys_permits s := marked (λ j, t_permit (js_task j)) (ts_jobs s);
  sys_set_permit i b s :=
    s <| ts_jobs ::= alter (λ j, j <| js_task ::= λ t, t <| t_permit := b |> |>) i |>;
  sys_remove i s := s <| ts_jobs ::= base.delete i |>;
  sys_clear s := s <| ts_jobs := ∅ |>;
  sys_start i := on_task i (Job.start config true true clock send prepare_swarm_download meanwhile);
  sys_resume i := on_task i (Job.resume config true true clock send prepare_swarm_download meanwhile);
  sys_pause i := on_task i (Job.pause true true clock);
  sys_cancel i := on_task i (Job.cancel true true clock);
  sys_delete i := on_task i (Job.delete config true true clock diagnostic_body);
  sys_terminal s i := from_option (λ j, is_terminal (t_status (js_task j))) false (ts_jobs s !! i);
  sys_has_store s i := true;
  sys_save i := on_task i (let! task := the_job id in on_store (store_save_task task));
  sys_diagnose i e :=
    on_task i (let! _ := write_failure_diagnostic config clock diagnostic_body e in ret tt);
  sys_persist_session := match session with Some state => on_files (persist_session state) | None => ret tt end
}.

(** ** Registering tasks *)

(** [src/src/coordinator/registry.rs:109-117], [next_task_id]. The loop looks at [fuel] ids at most;
    one more than there are tasks is enough ([SystemFacts.next_task_id_free]). *)
Fixpoint first_free (fuel : nat) (jobs : gmap Z job_state) (new_id : Z) : Z :=
  match fuel with
  | O => new_id
  | Datatypes.S fuel =>
      if bool_decide (is_Some (jobs !! new_id)) then first_free fuel jobs (wrap32 (new_id + 1))
      else new_id
  end.
(** [src/src/coordinator/registry.rs:109-117], [next_task_id]. *)
Definition next_task_id (jobs : gmap Z job_state) (requested_id : option Z) : Z :=
  match requested_id with
  | Some id => id
  | None => first_free (Datatypes.S (size jobs)) jobs (wrap32 (wrap32 (Z.of_nat (size jobs)) + 1))
  end.

(** [src/src/coordinator/registry.rs:131-167], [build_restored_workers (closure)]. *)
Definition build_restored_worker (task : Task) (now : DateTime) (worker_request : SegmentRequest) : Worker :=
  let source_set := t_sources task in
  let fallback_source := unwrap_or (source_from_spec (t_spec task) None) (primary source_set) in
  let source :=
    unwrap_or fallback_source (id ← sg_source_id worker_request; get_source source_set id) in
  Worker_new (sg_index worker_request) (t_spec task) source
    {| lane_id := sg_index worker_request;
       lane_source_id := src_id source;
       lane_length_known := true;
       lane_piece_start := unwrap_or 0 (sg_piece_start worker_request);
       lane_piece_end := unwrap_or 0 (sg_piece_end worker_request);
       lane_block_start := unwrap_or 0 (sg_block_start worker_request);
       lane_block_end := unwrap_or 0 (sg_block_end worker_request);
       lane_start := sg_start worker_request;
       lane_end := sg_end worker_request |}
    (sg_downloaded worker_request)
    (unwrap_or "" (t_file_path task))
    (status ← sg_status worker_request; Status_from_str status)
    (sg_updated_at worker_request) now.
(** [src/src/coordinator/registry.rs:119-168], [build_restored_workers]. *)
Definition build_restored_workers (task : Task) (now : DateTime) (worker_requests : list SegmentRequest)
    : list Worker :=
  build_restored_worker task now <$> worker_requests.

(** [Option<String>::filter(|path| !path.trim().is_empty())]. *)
Definition not_blank : option string → option string := opt_filter (λ path, negb (blank path)).

(** [src/src/coordinator/registry.rs:71-101], [add_task_with_workers (the task)]. The task that a
    request describes, with its workers. *)
Definition requested_task (task_id : Z) (task_request : TaskRequest)
    (workers : option (list SegmentRequest)) (now : DateTime) : Task :=
  let task :=
    Task_new task_id (rq_spec task_request) (not_blank (rq_file_name task_request))
      (not_blank (rq_file_path task_request)) (rq_resource_identity task_request)
      (merged (http_request (http config)) (unwrap_or HttpRequestOptions_default (rq_http_request task_request)))
      (rq_sources task_request) (rq_piece_states task_request) (rq_block_states task_request)
      (rq_status task_request) (rq_downloaded_size task_request) (rq_total_size task_request)
      (rq_torrent_resume task_request) (unwrap_or [] (rq_checksums task_request))
      (rq_created_at task_request) (rq_updated_at task_request) now in
  match workers with
  | Some worker_requests => task <| t_workers := build_restored_workers task now worker_requests |>
  | None => task
  end.

Definition same_spec (spec_identity : string) (j : job_state) : bool :=
  bool_decide (identity_key (t_spec (js_task j)) = spec_identity).

(** [src/src/coordinator/registry.rs:33-107], [add_task_with_workers]. *)
Definition add_task_with_workers (task_request : TaskRequest) (workers : option (list SegmentRequest))
    : sys Z := λ s,
  let spec_identity := identity_key (rq_spec task_request) in
  if existsb (λ e, same_spec spec_identity e.2) (map_to_list (ts_jobs s)) then
    (Err (EOther ("Spec '" +:+ spec_identity +:+ "' already exists!")), s)
  else
    let task_id := next_task_id (ts_jobs s) (rq_id task_request) in
    let task := requested_task task_id task_request workers (clock (ts_readings s)) in
    let s := s <| ts_readings ::= Datatypes.S |> in
    let '(r, w) := Job.init true true clock (world_of s (mk_job_state task ∅ [] [])) in
    match r with
    | Ok _ => (Ok task_id, share w (<[task_id := state_of w]> (ts_jobs s)))
    | Err err => (Err err, share w (ts_jobs s))
    end.

(** [src/src/coordinator/mod.rs:121-126], [Manager::add_task]. *)
Definition add_task (task_request : TaskRequest) : sys Z := add_task_with_workers task_request None.
(** [src/src/coordinator/mod.rs:135-137], [Manager::add_download]. *)
Definition add_download (spec : DownloadSpec) : sys Z := add_task (request_builder spec).

Definition on_stored {A} (m : eff St A) : sys A := λ s,
  let '(r, st) := m (ts_store s) in (r, s <| ts_store := st |>).

(** [src/src/coordinator/registry.rs:21-28], [restore_tasks (for loop)]. A failure is logged. *)
Definition restore_bundle (bundle : StoredBundle) : sys unit :=
  let! f := gets ts_fs in
  let plan := build_restore_plan f bundle in
  let! _ := attempt (add_task_with_workers (rp_task_request plan) (rp_workers plan)) in
  ret tt.
(** [src/src/coordinator/registry.rs:13-31], [restore_tasks]. *)
Definition restore_tasks : sys unit :=
  let! bundles := on_stored load_task_bundles in
  for_each restore_bundle bundles.

(** [src/src/coordinator/mod.rs:96-115], [Manager::init]. With the result of opening the store. *)
Definition init_tasks (store : res St) : sys unit :=
  let! st := lift store in
  modify (λ s, s <| ts_store := st |>) ;;;
  let! f := gets ts_fs in
  when (negb (fs_exists f (download_dir config)))
    (λ s, match fs_create_dir_all (ts_fs s) (download_dir config) with
          | Ok f => (Ok tt, s <| ts_fs := f |>)
          | Err err => (Err (EIo ("创建下载目录失败: " +:+ io_error_to_string err)), s)
          end) ;;;
  restore_tasks.
End system.
