(* ===== verification/SystemFacts.v ===== *)
(** * The tasks of the manager: what they guarantee

    The tasks of System.v keep the laws of the interface that the manager is
    proved against, so its theorems hold of the program.  New tasks get free ids,
    and the tasks that are restored when the program starts can be started. *)

From S2P Require Import Prelude Text Ranges Status Effect Source Piece Files Checksum Manifest Planner Payload Torrent Config Task Mapping Repository Memory Store Recovery Probe Job JobFacts JobStart Coordinator CoordinatorFacts System.

Section permits.
Context {St E : Type} `{Repository St} `{TorrentEngine E} `{UrlLib} `{HttpLib} `{DigestLib}.
Context `{Json DownloadSpec} `{Json SourceSet} `{Json TorrentEngineState} `{Json TorrentMetadata}.
Context (config : Config) (session : option HttpSessionState) (clock : nat → DateTime)
  (send : Request → result Response string) (diagnostic_body : Task → Error → DateTime → res bytes)
  (prepare_swarm_download : eff (job_world St E) PreparationOutcome)
  (meanwhile : eff (job_world St E) unit).

(** ** Permits *)

Definition same_permit : job_world St E → job_world St E → Prop := same t_permit.
#[local] Instance same_permit_refl : Reflexive same_permit.
Proof. apply same_refl. Qed.
#[local] Instance same_permit_trans : Transitive same_permit.
Proof. apply same_trans. Qed.
Abbreviation quietly m := (keeps (same (St:=St) (E:=E) t_permit) m).

Hypothesis swarm_quiet : quietly prepare_swarm_download.
Hypothesis meanwhile_quiet : quietly meanwhile.

Lemma permit_sync : quietly sync_progress.
Proof.
  intros w. unfold sync_progress, sync_piece_progress_from_workers.
  destruct (t_manifest (jw_task w)) as [m|]; [|done]. destruct (sync_workers _ _ _ _).
  destruct (m_total_size_known m); reflexivity.
Qed.
Lemma permit_mark : quietly (on_job mark_all_pieces_completed).
Proof.
  intros w. unfold same, on_job, modify, mark_all_pieces_completed. cbn [snd]. unfold update at 1. cbn [jw_task].
  destruct (t_manifest (jw_task w)) as [m|]; [|reflexivity].
  destruct (m_total_size_known m); reflexivity.
Qed.
Lemma permit_write_diagnostic e : quietly (write_failure_diagnostic config clock diagnostic_body e).
Proof. unfold write_failure_diagnostic, create_dir_all, set_files. repeat same_step. Qed.
Lemma permit_each_worker f : quietly (each_worker f).
Proof. unfold each_worker, of_job. repeat same_step. Qed.

Ltac solve_permit := repeat first
  [ apply permit_sync | apply permit_mark | apply permit_write_diagnostic | apply permit_each_worker
  | apply swarm_quiet | apply meanwhile_quiet | same_step ].

Lemma permit_persist : quietly (Job.persist_task true clock).
Proof. unfold Job.persist_task. solve_permit. Qed.
Lemma permit_init : quietly (Job.init true true clock).
Proof. unfold Job.init, Job.persist_task, persist_task_checksums, emit_manager_event. solve_permit. Qed.
Lemma permit_pause : quietly (Job.pause true true clock).
Proof. unfold Job.pause, with_session, Job.persist_task, set_status, emit_manager_event. solve_permit. Qed.
Lemma permit_cancel : quietly (Job.cancel true true clock).
Proof. unfold Job.cancel, with_session, Job.persist_task, set_status, emit_manager_event. solve_permit. Qed.
Lemma permit_finish o : quietly (finish_job true true clock o).
Proof. unfold finish_job, Job.persist_task, persist_task_checksums, set_status, emit_manager_event. solve_permit. Qed.
Lemma permit_of_job {A} (g : Task → A * Task) :
  (∀ t, t_permit (snd (g t)) = t_permit t) → quietly (of_job g).
Proof.
  intros Hg w. specialize (Hg (jw_task w)). unfold same, of_job. by destruct (g (jw_task w)).
Qed.
Lemma permit_verify path : quietly (verify_checksums clock path).
Proof.
  unfold verify_checksums. repeat same_step. apply permit_of_job. intros t.
  by destruct (verify_file_checksums _ _ _ _).
Qed.
Lemma permit_discard words path : quietly (discard_file true words path).
Proof.
  unfold discard_file, remove_file, set_files, reset_resume_state, clear_task_workers, purge_task_workers.
  solve_permit.
Qed.
Lemma permit_keep_or_discard path probe previous :
  quietly (keep_or_discard true true clock path probe previous).
Proof.
  unfold keep_or_discard, verify_existing_file.
  repeat first [apply permit_verify | apply permit_discard | apply permit_finish | same_step].
Qed.
Lemma permit_handle_existing path probe previous changed :
  quietly (handle_existing_file config true true clock path probe previous changed).
Proof.
  unfold handle_existing_file, reset_missing_file_state, reset_resume_state, clear_task_workers,
    purge_task_workers.
  repeat first [apply permit_keep_or_discard | apply permit_discard | same_step].
Qed.
Lemma permit_file_name t : t_permit (snd (resolve_or_init_file_name t)) = t_permit t.
Proof. unfold resolve_or_init_file_name. repeat case_match; reflexivity. Qed.
Lemma permit_path dir t : t_permit (snd (get_or_init_file_path dir t)) = t_permit t.
Proof.
  unfold get_or_init_file_path. destruct (t_file_path t); [done|].
  pose proof (permit_file_name t). by destruct (resolve_or_init_file_name t).
Qed.
Lemma permit_manifest sources path probe t :
  t_permit (snd (build_single_file_manifest config sources path probe t)) = t_permit t.
Proof.
  unfold build_single_file_manifest. pose proof (permit_file_name t).
  by destruct (resolve_or_init_file_name t).
Qed.
Lemma permit_install m : quietly (install (St:=St) (E:=E) m).
Proof.
  unfold install. repeat same_step. intros w. unfold same, on_job, modify, install_manifest. cbn.
  repeat case_match; reflexivity.
Qed.
Lemma permit_preparing :
  quietly (prepare_download config true true clock send prepare_swarm_download meanwhile).
Proof.
  unfold prepare_download, create_dir_all, set_files.
  repeat first [ apply swarm_quiet | apply meanwhile_quiet | apply permit_handle_existing
    | apply permit_verify | apply permit_finish | apply permit_sync | apply permit_install
    | apply permit_of_job; intros ?; first [apply permit_path | apply permit_manifest | reflexivity]
    | same_step ].
  apply permit_of_job. intros t. unfold initialize_file_name. by repeat case_match.
Qed.
Lemma permit_prepare_for_start : quietly (prepare_for_start true).
Proof.
  unfold prepare_for_start, reset_task, clear_task_workers, purge_task_workers, delete_task_file,
    set_files. repeat same_step.
Qed.
Lemma permit_ensure path : quietly (ensure_workers config true clock path).
Proof.
  unfold ensure_workers, create_workers, create_worker, clear_task_workers, purge_task_workers.
  repeat same_step. intros w. unfold same, on_job, modify, update. cbn.
  destruct (bool_decide (t_workers (jw_task w) = [])); reflexivity.
Qed.
Lemma permit_start : quietly (Job.start config true true clock send prepare_swarm_download meanwhile).
Proof.
  unfold Job.start, set_status, emit_manager_event, spawn_workers.
  repeat first [ apply permit_prepare_for_start | apply permit_preparing | apply permit_persist
    | apply permit_ensure | same_step ].
Qed.
Lemma permit_resume : quietly (Job.resume config true true clock send prepare_swarm_download meanwhile).
Proof.
  unfold Job.resume, set_status, emit_manager_event, with_session.
  repeat first [ apply permit_start | apply permit_persist | same_step ].
Qed.

(** Deleting a task never gives it a permit. *)
Definition no_gain (w w' : job_world St E) : Prop :=
  t_permit (jw_task w') = true → t_permit (jw_task w) = true.
#[local] Instance no_gain_refl : Reflexive no_gain.
Proof. intros w. by unfold no_gain. Qed.
#[local] Instance no_gain_trans : Transitive no_gain.
Proof. intros ???. unfold no_gain. auto. Qed.
Lemma quiet_no_gain {A} (m : eff (job_world St E) A) : quietly m → keeps no_gain m.
Proof. intros Hm w. specialize (Hm w). unfold same in Hm. unfold no_gain. congruence. Qed.
Lemma no_gain_release : keeps no_gain (release_permit (St:=St) (E:=E)).
Proof. intros w. unfold no_gain, release_permit, on_job, modify, update. by cbn. Qed.
Lemma no_gain_fail e : keeps no_gain (fail_with_error config true clock diagnostic_body e).
Proof.
  apply quiet_no_gain. unfold fail_with_error, set_status, emit_manager_event.
  repeat first [apply permit_persist | apply permit_write_diagnostic | same_step].
Qed.
Lemma no_gain_or_fail m :
  quietly m → keeps no_gain (or_fail config true clock diagnostic_body m).
Proof.
  intros Hm. unfold or_fail. apply keeps_bind; [apply _|by apply keeps_attempt, quiet_no_gain|].
  intros []; [apply keeps_ret; apply _|].
  apply keeps_bind; [apply _|apply no_gain_release|intros _].
  apply keeps_bind; [apply _|apply no_gain_fail|intros _]. apply keeps_throw. apply _.
Qed.
Lemma no_gain_delete : keeps no_gain (Job.delete config true true clock diagnostic_body).
Proof.
  unfold Job.delete.
  repeat lazymatch goal with
  | |- keeps _ (eff_bind _ _) => apply keeps_bind; [apply _|..]
  | |- keeps _ release_permit => apply no_gain_release
  | |- keeps _ (or_fail _ _ _ _ _) => apply no_gain_or_fail;
      unfold delete_task_file, purge_task_workers, purge_task_checksums, purge_task, set_files;
      repeat same_step
  | |- keeps _ _ => apply quiet_no_gain;
      unfold with_session, set_status, emit_manager_event, clear_task_workers, clear_manifest_state;
      solve_permit
  | |- _ => intros ?
  end.
Qed.

(** ** The laws *)

Abbreviation the_tasks := (tasks St E).
#[local] Instance the_system : TaskSystem the_tasks :=
  system_tasks config session clock send diagnostic_body prepare_swarm_download meanwhile.

Lemma on_task_quiet i m : quietly m → keeps quiet (on_task (St:=St) (E:=E) i m).
Proof.
  intros Hm s. unfold on_task, quiet. cbn. destruct (ts_jobs s !! i) as [j|] eqn:Hj; [|done].
  specialize (Hm (world_of s j)). unfold same in Hm. destruct (m (world_of s j)) as [r w]. cbn in Hm |- *.
  split.
  - rewrite dom_insert_lookup_L by (by eexists). done.
  - apply leibniz_equiv. intros k. rewrite !elem_of_marked.
    destruct (decide (k = i)) as [->|Hk]; [rewrite lookup_insert_eq, Hj|by rewrite lookup_insert_ne].
    split; intros (x & [= <-] & Hp); eexists; (split; [done|]); cbn in *; congruence.
Qed.
Lemma on_task_releases i m : keeps no_gain m → keeps (releases i) (on_task (St:=St) (E:=E) i m).
Proof.
  intros Hm s. unfold on_task, releases. cbn. destruct (ts_jobs s !! i) as [j|] eqn:Hj; [|set_solver].
  specialize (Hm (world_of s j)). unfold no_gain in Hm. destruct (m (world_of s j)) as [r w].
  cbn in Hm |- *. split; [by rewrite dom_insert_lookup_L by (by eexists)|].
  split; intros k; rewrite ?elem_of_difference, !elem_of_marked.
  - intros [Hk Hne]. rewrite lookup_insert_ne by set_solver. done.
  - intros (x & Hx & Hp). destruct (decide (k = i)) as [->|Hk].
    + rewrite lookup_insert_eq in Hx. injection Hx as <-. eauto.
    + rewrite lookup_insert_ne in Hx by done. eauto.
Qed.
Lemma quiet_files (m : eff fs unit) : keeps quiet (on_files (St:=St) (E:=E) m).
Proof. intros s. unfold on_files. by destruct (m (ts_fs s)). Qed.

(** The tasks of the program keep the laws of the interface of the manager. *)
#[local] Instance the_system_laws : TaskSystemLaws the_tasks.
Proof.
  split; intros.
  - exact (NoDup_elements (C:=gset Z) _).
  - cbn. apply elem_of_elements. by apply (marked_dom (λ j, t_permit (js_task j))).
  - cbn. by rewrite dom_alter_L.
  - cbn. apply marked_alter_true; [done|]. by apply elem_of_elements.
  - cbn. by apply marked_alter_false.
  - cbn. rewrite !elem_of_elements. set_solver.
  - cbn. apply marked_delete.
  - exact (elements_empty (C:=gset Z)).
  - apply on_task_quiet, permit_start.
  - apply on_task_quiet, permit_resume.
  - apply on_task_quiet, permit_pause.
  - apply on_task_quiet, permit_cancel.
  - apply on_task_releases, no_gain_delete.
  - apply on_task_quiet. repeat same_step.
  - apply on_task_quiet. solve_permit.
  - cbn. destruct session; [apply quiet_files|by intros ?].
Qed.

Lemma start_running i j (s : the_tasks) :
  ts_jobs s !! i = Some j → t_status (js_task j) = Running →
  sys_start i s = (Err (EOther ("Task is " +:+ Status_debug Running +:+ ", cannot start again")), s).
Proof.
  intros Hj Hst. cbn. unfold on_task. rewrite Hj. unfold Job.start.
  erewrite (eff_bind_err _ _ (world_of s j)).
  2: { unfold prepare_for_start, eff_bind, the_job, gets. cbn. rewrite Hst. reflexivity. }
  unfold share, state_of, world_of. cbn. rewrite insert_id by (by destruct j). by destruct s.
Qed.

(** Starting a task that is running takes its permit away: the start is
    refused, and with it the permit that the task was given before goes back,
    while the task goes on as it was.  One more task than [concurrent_tasks] can
    run now. *)
Theorem running_task_loses_permit i j (g : Manager the_tasks) :
  0 < mg_semaphore g → mg_pending_queue g = [] → ts_jobs (mg_tasks g) !! i = Some j →
  t_status (js_task j) = Running → t_permit (js_task j) = true →
  ∃ e g', start_task i g = (Err e, g') ∧ mg_semaphore g' = mg_semaphore g + 1 ∧
    ts_jobs (mg_tasks g') =
      <[i := j <| js_task := js_task j <| t_permit := false |> |>]> (ts_jobs (mg_tasks g)).
Proof.
  intros Hs Hq Hj Hst Hp. eexists _, _. split; [|split].
  - apply restart_frees_permit; [done| |by eapply start_running].
    cbn. apply elem_of_marked. eauto.
  - unfold spawn_next_task, spawn_next_with, eff_bind, pop_front, update. cbn. rewrite Hq. cbn. lia.
  - unfold spawn_next_task, spawn_next_with, eff_bind, pop_front, update. cbn. rewrite Hq. cbn.
    apply map_eq. intros k. destruct (decide (k = i)) as [->|Hk].
    + rewrite lookup_alter_eq, lookup_insert_eq, Hj. done.
    + by rewrite lookup_alter_ne, lookup_insert_ne by done.
Qed.
End permits.

(** ** New ids *)

Lemma first_free_spec fuel (jobs : gmap Z job_state) n :
  0 ≤ n → n + Z.of_nat fuel ≤ u32_max →
  (n ≤ first_free fuel jobs n < n + Z.of_nat fuel ∧ jobs !! first_free fuel jobs n = None) ∨
  (∀ k, n ≤ k < n + Z.of_nat fuel → k ∈ dom jobs).
Proof.
  revert n. induction fuel as [|fuel IH]; intros n Hn Hmax; cbn [first_free].
  - right. intros k Hk. lia.
  - case_bool_decide as Hs.
    + rewrite wrap32_small by ilia. destruct (IH (n + 1)) as [[Hr Hf]|Hall]; [lia|lia| |].
      * left. split; [lia|done].
      * right. intros k Hk. destruct (decide (k = n)) as [->|Hne]; [by apply elem_of_dom|].
        apply Hall. lia.
    + left. split; [lia|]. by apply eq_None_not_Some.
Qed.

(** One more id than there are tasks is looked at, so a free one is found. *)
Lemma next_task_id_free (jobs : gmap Z job_state) :
  2 * Z.of_nat (size jobs) + 2 ≤ u32_max →
  let id := next_task_id jobs None in jobs !! id = None ∧ 0 < id ≤ u32_max.
Proof.
  intros Hmax. unfold next_task_id. cbn zeta. rewrite !wrap32_small by (rewrite ?wrap32_small; ilia).
  destruct (first_free_spec (Datatypes.S (size jobs)) jobs (Z.of_nat (size jobs) + 1)) as [[Hr Hf]|Hall];
    [lia|lia|split; [done|lia]|].
  exfalso. set (l := seqZ (Z.of_nat (size jobs) + 1) (Z.of_nat (Datatypes.S (size jobs)))).
  assert (list_to_set l ⊆ dom jobs) as Hsub%subseteq_size.
  { intros k Hk%elem_of_list_to_set%elem_of_seqZ. apply Hall. lia. }
  rewrite size_dom, size_list_to_set in Hsub by apply NoDup_seqZ.
  unfold l in Hsub. rewrite length_seqZ in Hsub. lia.
Qed.

(** ** Adding and restoring tasks *)
Section adding.
Context {St E : Type} `{RepositoryLaws St} `{TorrentEngine E} `{UrlLib} `{HttpLib} `{DigestLib}.
Context `{Json DownloadSpec} `{Json SourceSet} `{Json TorrentEngineState} `{Json TorrentMetadata}.
Context (config : Config) (clock : nat → DateTime).
Abbreviation adds := (add_task_with_workers (St:=St) (E:=E) config clock).
Implicit Types (s : tasks St E).

(** The identity of the downloads of the tasks. *)
Definition spec_identity (j : job_state) : string := identity_key (t_spec (js_task j)).

Lemma taken_spec key s :
  existsb (λ e, same_spec key e.2) (map_to_list (ts_jobs s)) = true ↔
  ∃ i j, ts_jobs s !! i = Some j ∧ spec_identity j = key.
Proof.
  rewrite existsb_exists. split.
  - intros ([i j] & Hin%list_elem_of_In%elem_of_map_to_list & Hk%bool_decide_eq_true). eauto.
  - intros (i & j & Hj & Hk). exists (i, j). split; [by apply list_elem_of_In, elem_of_map_to_list|].
    by apply bool_decide_eq_true_2.
Qed.

(** A task that is initialised has the time of its storing, and is not changed else. *)
Lemma init_task (w : job_world St E) :
  jw_task (snd (Job.init true true clock w)) =
    jw_task w <| t_updated_at := Some (clock (jw_readings w)) |> ∧
  pw_fs (jw_payload (snd (Job.init true true clock w))) = pw_fs (jw_payload w).
Proof.
  unfold Job.init, Job.persist_task, persist_task_checksums, eff_bind, Job.now, the_job, on_job, gets,
    modify, on_store, when, spawn, emit_manager_event, update. cbn -[store_save_task store_save_checksums].
  match goal with |- context [store_save_task ?a ?b] => destruct (store_save_task a b) as [[u|e] st] end;
    [|done]. cbn -[store_save_task store_save_checksums].
  match goal with |- context [store_save_checksums ?a ?b ?c] =>
    by destruct (store_save_checksums a b c) as [[]] end.
Qed.
Lemma init_ok (w : job_world St E) :
  repo_ok (jw_store w) → task_rows_ok (jw_task w) →
  ∃ st, Job.init true true clock w =
    (Ok tt, mk_job (jw_task w <| t_updated_at := Some (clock (jw_readings w)) |>) (jw_payload w) st
       (jw_engine w) (jw_events w ++ [EvPending (t_id (jw_task w))]) (jw_worker_events w)
       (jw_spawned w ++ [SpWorkerEventListener]) (Datatypes.S (jw_readings w))) ∧ repo_ok st ∧
    view st ≡ saved (jw_task w <| t_updated_at := Some (clock (jw_readings w)) |>) (view (jw_store w)).
Proof.
  intros Hok Hrows. destruct (persist_task_ok clock w Hok Hrows) as (st & E1 & Hst & V).
  unfold Job.init. rewrite (eff_bind_ok _ _ _ _ _ E1).
  match goal with |- context [eff_bind _ _ ?w1] =>
    destruct (persist_checksums_saved (view (jw_store w)) w1) as (st' & E2 & Hst' & V'); [exact Hst|exact Hrows|exact V|] end.
  rewrite (eff_bind_ok _ _ _ _ _ E2). exists st'. split; [by destruct w|by split].
Qed.

(** What a request makes of the state: the task is added under [id], and stored. *)
Lemma adds_ok req workers s :
  existsb (λ e, same_spec (identity_key (rq_spec req)) e.2) (map_to_list (ts_jobs s)) = false →
  let id := next_task_id (ts_jobs s) (rq_id req) in
  let task := requested_task config id req workers (clock (ts_readings s)) in
  repo_ok (ts_store s) → task_rows_ok task →
  ∃ st, adds req workers s =
    (Ok id, mk_tasks (<[id := mk_job_state (task <| t_updated_at := Some (clock (Datatypes.S (ts_readings s))) |>)
                               ∅ [] [SpWorkerEventListener]]> (ts_jobs s))
       (ts_fs s) st (ts_engine s) (ts_events s ++ [EvPending id])
       (Datatypes.S (Datatypes.S (ts_readings s)))) ∧ repo_ok st ∧
    view st ≡ saved (task <| t_updated_at := Some (clock (Datatypes.S (ts_readings s))) |>) (view (ts_store s)).
Proof.
  intros Hfree id task Hok Hrows. unfold add_task_with_workers. rewrite Hfree. fold id. fold task.
  destruct (init_ok (world_of (s <| ts_readings ::= Datatypes.S |>) (mk_job_state task ∅ [] [])))
    as (st & E1 & Hst & V); [exact Hok|exact Hrows|].
  exists st. rewrite E1. split; [|by split].
  assert (t_id task = id) as Hid by (subst task; unfold requested_task; by destruct workers).
  unfold share, state_of, world_of, update. cbn. by rewrite Hid.
Qed.

(** C28. Adding a download.  A download that some task has already is refused and
    nothing changes.  Otherwise it becomes a task with the status that was asked
    for, else waiting to be started; what is stored changes by exactly what the
    task is saved as, with its workers, pieces, blocks and checksums in the place
    of what was stored under its id; the manager is told.  The task's id is the one
    that was asked for, whether or not another task has it, whose place in the map
    and in the store it then takes; without an id asked for it is one that no task
    has, so that no task is lost. *)
Theorem add_task_spec req s :
  repo_ok (ts_store s) → NoDup (ck_algorithm <$> unwrap_or [] (rq_checksums req)) →
  NoDup (ps_index <$> unwrap_or [] (rq_piece_states req)) →
  NoDup ((λ b, (bs_piece b, bs_index b)) <$> unwrap_or [] (rq_block_states req)) →
  ((∃ i j, ts_jobs s !! i = Some j ∧ spec_identity j = identity_key (rq_spec req)) →
     ∃ e, add_task config clock req s = (Err e, s)) ∧
  ((∀ i j, ts_jobs s !! i = Some j → spec_identity j ≠ identity_key (rq_spec req)) →
     let id := next_task_id (ts_jobs s) (rq_id req) in
     ∃ j s', add_task config clock req s = (Ok id, s') ∧
       ts_jobs s' = <[id := j]> (ts_jobs s) ∧ ts_fs s' = ts_fs s ∧ repo_ok (ts_store s') ∧
       view (ts_store s') ≡ saved (js_task j) (view (ts_store s)) ∧
       ts_events s' = ts_events s ++ [EvPending id] ∧
       t_id (js_task j) = id ∧ t_spec (js_task j) = rq_spec req ∧
       t_status (js_task j) = unwrap_or Pending (rq_status req) ∧ t_permit (js_task j) = false ∧
       (∀ asked, rq_id req = Some asked → id = asked) ∧
       (rq_id req = None → 2 * Z.of_nat (size (ts_jobs s)) + 2 ≤ u32_max →
          ts_jobs s !! id = None ∧ 0 < id ≤ u32_max)).
Proof.
  intros Hok Hc Hp Hb. split.
  - intros Htaken%taken_spec. eexists. unfold add_task, add_task_with_workers. by rewrite Htaken.
  - intros Hfree id. unfold add_task.
    destruct (adds_ok req None s) as (st & E1 & Hst & V).
    + apply not_true_iff_false. intros (i & j & Hj & Hk)%taken_spec. by apply (Hfree i j).
    + exact Hok.
    + split_and!; [constructor|exact Hp|exact Hb|exact Hc].
    + eexists _, _. split; [exact E1|]. split_and!; try done.
      * intros asked Hid. unfold id. by rewrite Hid.
      * intros Hid Hsize. unfold id. rewrite Hid. by apply next_task_id_free.
Qed.

(** No two tasks have the same download. *)
Definition distinct_specs (jobs : gmap Z job_state) : Prop :=
  ∀ i i' j j', jobs !! i = Some j → jobs !! i' = Some j' → spec_identity j = spec_identity j' → i = i'.

(** Adding a task either leaves the map as it is or puts in the task that was asked for, and keeps
    the files. *)
Lemma adds_cases req workers s :
  let id := next_task_id (ts_jobs s) (rq_id req) in
  let s' := snd (adds req workers s) in
  ts_fs s' = ts_fs s ∧
  (ts_jobs s' = ts_jobs s ∨
   ∃ j n m, ts_jobs s' = <[id := j]> (ts_jobs s) ∧
     js_task j = requested_task config id req workers n <| t_updated_at := Some m |> ∧
     ∀ i j', ts_jobs s !! i = Some j' → spec_identity j' ≠ identity_key (rq_spec req)).
Proof.
  intros id. unfold add_task_with_workers. destruct (existsb _ _) eqn:Hfree; [by split; [|left]|].
  fold id. set (w := world_of _ _). destruct (init_task w) as [Ht Hf].
  destruct (Job.init true true clock w) as [[u|e] w1] eqn:E1; cbn in Ht, Hf |- *; (split; [exact Hf|]);
    [right|by left].
  eexists _, _, _. split; [reflexivity|]. split; [cbn; rewrite Ht; reflexivity|].
  intros i j' Hj' Hk. apply not_true_iff_false in Hfree. apply Hfree, taken_spec. eauto.
Qed.

(** A task that was restored from one of the bundles. *)
Definition restored_from (f : fs) (bundles : list StoredBundle) (i : Z) (j : job_state) : Prop :=
  ∃ b n m, b ∈ bundles ∧ i = dt_id (sb_task b) ∧
    let plan := build_restore_plan f b in
    js_task j = requested_task config i (rp_task_request plan) (rp_workers plan) n
                  <| t_updated_at := Some m |>.

Lemma plan_id f b : rq_id (rp_task_request (build_restore_plan f b)) = Some (dt_id (sb_task b)).
Proof.
  destruct b as [task workers pieces blocks checksums]. unfold build_restore_plan.
  cbn [sb_task]. set (r := db_task_to_request task pieces blocks checksums).
  assert (rq_id r = Some (dt_id task)) as Hid by done. clearbody r. cbv zeta.
  destruct (bool_decide _ && negb _)%bool; unfold update;
    repeat (cbn; match goal with |- context [if ?c then _ else _] => destruct c end); done.
Qed.

Lemma requested_fields id req ws n :
  let t := requested_task config id req ws n in
  t_id t = id ∧ t_spec t = rq_spec req ∧ t_status t = unwrap_or Pending (rq_status req) ∧
  t_permit t = false ∧ t_manifest t = None ∧ t_torrent_session t = None.
Proof. unfold requested_task. by destruct ws. Qed.

Lemma restored_add f bundles b s :
  b ∈ bundles → ts_fs s = f → map_Forall (restored_from f bundles) (ts_jobs s) →
  distinct_specs (ts_jobs s) →
  let plan := build_restore_plan f b in
  let s' := snd (adds (rp_task_request plan) (rp_workers plan) s) in
  ts_fs s' = f ∧ map_Forall (restored_from f bundles) (ts_jobs s') ∧ distinct_specs (ts_jobs s').
Proof.
  intros Hb Hf Hall Hd plan s'.
  destruct (adds_cases (rp_task_request plan) (rp_workers plan) s) as [Hfs [Hj|(j & n & m & Hj & Ht & Hnew)]];
    fold s' in Hfs, Hj; rewrite Hfs, Hj; [done|].
  unfold plan in Hj, Ht |- *. rewrite plan_id in Hj, Ht |- *. cbn [next_task_id] in Hj, Ht |- *.
  assert (spec_identity j = identity_key (rq_spec (rp_task_request plan))) as Hspec.
  { unfold spec_identity. rewrite Ht. cbn. by rewrite (proj1 (proj2 (requested_fields _ _ _ _))). }
  split; [done|]. split.
  - apply map_Forall_insert_2; [|done]. by exists b, n, m.
  - intros i i' x x' Hx Hx' Hxx. rewrite !lookup_insert_Some in Hx, Hx'.
    destruct Hx as [[<- <-]|[Hne Hx]], Hx' as [[<- <-]|[Hne' Hx']]; [done|..].
    + by destruct (Hnew i' x' Hx'); rewrite <- Hxx.
    + by destruct (Hnew i x Hx); rewrite Hxx.
    + by eapply Hd.
Qed.

Lemma restore_tasks_ok s :
  ts_jobs s = ∅ →
  let s' := snd (restore_tasks config clock s) in
  ∃ bundles, (∀ b : StoredBundle, b ∈ bundles → fst (load_task_bundles (ts_store s)) = Ok bundles) ∧
    ts_fs s' = ts_fs s ∧ map_Forall (restored_from (ts_fs s) bundles) (ts_jobs s') ∧
    distinct_specs (ts_jobs s').
Proof.
  intros Hs s'.
  assert (∀ bundles l, l ⊆ bundles → ∀ s1, ts_fs s1 = ts_fs s →
    map_Forall (restored_from (ts_fs s) bundles) (ts_jobs s1) → distinct_specs (ts_jobs s1) →
    let s2 := snd (for_each (restore_bundle config clock) l s1) in
    ts_fs s2 = ts_fs s ∧ map_Forall (restored_from (ts_fs s) bundles) (ts_jobs s2) ∧
    distinct_specs (ts_jobs s2)) as Hloop.
  { intros bundles. induction l as [|b l IH]; intros Hl s1 Hf Hall Hd; [done|]. cbn [for_each].
    destruct (restored_add (ts_fs s) bundles b s1) as (Hf' & Hall' & Hd'); [set_solver|done..|].
    match type of Hf' with ts_fs (snd ?r) = _ =>
      assert (restore_bundle config clock b s1 = (Ok tt, snd r)) as E1 by
        (unfold restore_bundle, eff_bind, attempt, gets; rewrite Hf; by destruct (adds _ _ s1)) end.
    rewrite (eff_bind_ok _ _ _ _ _ E1). apply IH; [set_solver|done..]. }
  assert (s' = match load_task_bundles (ts_store s) with
               | (Ok l, st) => snd (for_each (restore_bundle config clock) l (s <| ts_store := st |>))
               | (Err _, st) => s <| ts_store := st |>
               end) as ->.
  { unfold s', restore_tasks, eff_bind, on_stored. by destruct (load_task_bundles (ts_store s)) as [[]]. }
  destruct (load_task_bundles (ts_store s)) as [[bundles|e] st].
  - exists bundles. split; [done|].
    apply (Hloop bundles bundles); [done|done|..]; change (ts_jobs (update ts_store _ s)) with (ts_jobs s);
      rewrite Hs; [apply map_Forall_empty|]. by intros i i' j j' Hj.
  - exists []. change (ts_jobs (update ts_store _ s)) with (ts_jobs s). rewrite Hs.
    split_and!; [set_solver|done|apply map_Forall_empty|]. by intros i i' j j' Hj.
Qed.

(** C18. A restart.  Whatever is stored and whatever fails while it is read, the
    tasks that are there when the program has started are those of stored
    bundles, under their ids and with different downloads; none of them runs, has
    a permit, an engine session or a manifest yet, and those that are Completed
    have a usable file.  So the manager starts with all its permits. *)
Theorem restart_is_quiet s :
  ts_jobs s = ∅ →
  let s' := snd (restore_tasks config clock s) in
  ts_fs s' = ts_fs s ∧ distinct_specs (ts_jobs s') ∧
  marked (λ j, t_permit (js_task j)) (ts_jobs s') = ∅ ∧
  ∀ i j, ts_jobs s' !! i = Some j →
    let t := js_task j in
    t_id t = i ∧ t_status t ≠ Running ∧ t_status t ≠ Preparing ∧ t_permit t = false ∧
    t_manifest t = None ∧ t_torrent_session t = None ∧
    ∃ b bundles, fst (load_task_bundles (ts_store s)) = Ok bundles ∧ b ∈ bundles ∧
      i = dt_id (sb_task b) ∧
      (t_status t = Completed →
         is_usable_for_completed (bundle_file (ts_fs s) b) (dt_total_size (sb_task b)) = true).
Proof.
  intros Hs s'. destruct (restore_tasks_ok s Hs) as (bundles & Hload & Hf & Hall & Hd).
  fold s' in Hf, Hall, Hd.
  assert (∀ i j, ts_jobs s' !! i = Some j → t_permit (js_task j) = false) as Hp.
  { intros i j Hj. destruct (Hall i j Hj) as (b & n & m & _ & _ & ->). cbn.
    apply requested_fields. }
  split_and!; [done|done| |].
  - apply leibniz_equiv. intros i. rewrite elem_of_marked. split; [|set_solver].
    intros (j & Hj & Hpj). by rewrite (Hp i j Hj) in Hpj.
  - intros i j Hj. destruct (Hall i j Hj) as (b & n & m & Hb & Hi & Ht). rewrite Ht. cbn.
    set (plan := build_restore_plan (ts_fs s) b).
    destruct (requested_fields i (rp_task_request plan) (rp_workers plan) n) as (-> & _ & -> & -> & -> & ->).
    destruct (plan_status (ts_fs s) b) as (st & Hst & Hr & Hpr & Hc & _). fold plan in Hst. rewrite Hst. cbn.
    split_and!; [done..|]. exists b, bundles. split_and!; [by apply (Hload b)|done|done|exact Hc].
Qed.
End adding.

(** ** Examples

    The libraries are those of the examples of the other files. *)

#[local] Existing Instances spec_codec sources_codec state_codec metadata_codec.
#[local] Existing Instances idle_engine example_digests example_http no_urls.
Definition example_tasks (t : Task) : tasks MemoryRepository unit :=
  mk_tasks {[1 := mk_job_state t ∅ [] []]} no_files memory_new tt [] 0.
#[local] Instance example_system : TaskSystem (tasks MemoryRepository unit) :=
  the_system Config_default None tick failing_send no_body no_swarm (ret tt).

Lemma running_task_loses_permit_witness :
  let g := mk_manager (example_tasks running_task) [] ∅ 3 0 0 in
  ∃ e g', start_task 1 g = (Err e, g') ∧ mg_semaphore g' = 4 ∧
    fmap (λ j, (t_status (js_task j), t_permit (js_task j))) (ts_jobs (mg_tasks g') !! 1) = Some (Running, false).
Proof.
  cbn zeta.
  destruct (running_task_loses_permit Config_default None tick failing_send no_body no_swarm (ret tt)
    ltac:(by intros ?) ltac:(by intros ?) 1 (mk_job_state running_task ∅ [] [])
    (mk_manager (example_tasks running_task) [] ∅ 3 0 0)) as (e & g' & E1 & Hs & Hj); [done..|].
  exists e, g'. split_and!; [exact E1|exact Hs|]. rewrite Hj. by vm_compute.
Defined.

Definition new_request : TaskRequest := request_builder (SpecHttp "http://h/g").
Lemma add_task_spec_witness :
  ∃ s', add_task Config_default tick new_request (example_tasks running_task) = (Ok 2, s') ∧
    ts_events s' = [EvPending 2] ∧ elements (dom (ts_jobs s')) ≡ₚ [1; 2].
Proof.
  destruct (add_task_spec Config_default tick new_request (example_tasks running_task)) as [_ Hadd].
  - exact memory_new_ok.
  - constructor.
  - constructor.
  - constructor.
  - destruct Hadd as (j & s' & E1 & Hj & _ & _ & _ & Hv & _).
    + intros i j Hj. cbn [example_tasks ts_jobs] in Hj. apply lookup_singleton_Some in Hj as [_ <-].
      vm_compute. discriminate.
    + exists s'. split_and!; [exact E1|exact Hv|]. rewrite Hj. cbn. vm_compute. 
      apply Permutation_swap.
Defined.

(** The program ends after a download was added. *)
Definition stopped : tasks MemoryRepository unit :=
  snd (add_task Config_default tick new_request (example_tasks running_task)) <| ts_jobs := ∅ |>.
Lemma restart_is_quiet_witness :
  let s := snd (restore_tasks Config_default tick stopped) in
  elements (dom (ts_jobs s)) = [2] ∧ marked (λ j, t_permit (js_task j)) (ts_jobs s) = ∅.
Proof.
  cbn zeta. destruct (restart_is_quiet Config_default tick stopped eq_refl) as (_ & _ & Hp & _).
  split; [by vm_compute|exact Hp].
Defined.
