(* ===== verification/Queue.v ===== *)
(** * The queue of the tasks ([src/src/coordinator/queue.rs], [src/src/coordinator/events.rs])

    What CoordinatorFacts.v proves of one turn of the queue, for the tasks of the
    program: those that wait are started in the order of the queue when others end
    ([queue_drains]). *)

From S2P Require Import Prelude Text Status Effect Source Piece Files Checksum Manifest Planner Payload Torrent Config Task Mapping Repository Memory Store Probe Job JobFacts JobStart JobResume Coordinator CoordinatorSteps CoordinatorFacts System SystemFacts.

Section queue.
Context {St E : Type} `{RepositoryLaws St} `{TorrentEngine E} `{UrlLib} `{HttpLib} `{!DigestLib} `{!DigestLibLaws}.
Context `{Json DownloadSpec} `{Json SourceSet} `{Json TorrentEngineState} `{Json TorrentMetadata}.
Context (config : Config) (session : option HttpSessionState) (clock : nat → DateTime)
  (send : Request → result Response string) (diagnostic_body : Task → Error → DateTime → res bytes)
  (prepare_swarm : eff (job_world St E) PreparationOutcome).
Hypothesis swarm_quiet : keeps (same (St:=St) (E:=E) t_permit) prepare_swarm.

Abbreviation the_tasks := (tasks St E).
#[local] Instance the_program : TaskSystem the_tasks :=
  system_tasks config session clock send diagnostic_body prepare_swarm (ret tt).
#[local] Instance the_program_laws : TaskSystemLaws the_tasks.
Proof. apply the_system_laws; [exact swarm_quiet|apply keeps_ret; apply _]. Qed.
Implicit Types (s : the_tasks).

(** The cookies can be saved: the file for them is there. *)
Definition session_there (f : fs) : Prop :=
  match session with
  | None => True
  | Some state => (∃ text, cookie_store state = Ok text) ∧
      (∃ k, fs_names f !! cookie_jar_path state = Some (NFile k)) ∧ has_parent f (cookie_jar_path state)
  end.

(** A task that runs and can be saved. *)
Definition running s (h : Z) : Prop :=
  ∃ j, ts_jobs s !! h = Some j ∧ t_permit (js_task j) = true ∧ task_rows_ok (js_task j).

(** A task that waits, and can be started on a file that is not there yet. *)
Record waiting s (i : Z) (path : string) (j : job_state) : Prop := {
  wt_job : ts_jobs s !! i = Some j;
  wt_id : t_id (js_task j) = i;
  wt_permit : t_permit (js_task j) = false;
  wt_status : t_status (js_task j) = Pending ∨ t_status (js_task j) = Paused;
  wt_session : t_torrent_session (js_task j) = None;
  wt_rows : task_rows_ok (js_task j);
  wt_file : ∃ probe n name, without_file_yet config send probe n path name (world_of s j) ∧
    active_transfer_sources (m_sources (planned_manifest config probe n path name (js_task j))) ≠ []
}.

(** The tasks [hs] can end, and those that [q] asks for be started, each on its
    file of [paths]. *)
Record ready (hs : list Z) (q : list (Z * PendingAction)) (paths : list string) s : Prop := {
  rd_repo : repo_ok (ts_store s);
  rd_session : session_there (ts_fs s);
  rd_ending : Forall (running s) hs;
  rd_waiting : Forall2 (λ e path, ∃ j, waiting s e.1 path j) q paths;
  rd_once : NoDup hs ∧ NoDup q.*1 ∧ NoDup paths
}.

(** ** What is done in one turn *)

Lemma save_task_ok s h j :
  repo_ok (ts_store s) → ts_jobs s !! h = Some j → task_rows_ok (js_task j) →
  ∃ st, sys_save h s = (Ok tt, s <| ts_store := st |>) ∧ repo_ok st.
Proof.
  intros Hok Hj Hrows.
  destruct (on_store_ok _ _ (world_of s j) (store_save_task_updates (js_task j) Hrows)) as (st & E1 & Hst & _); [exact Hok|].
  exists st. split; [|exact Hst]. cbn. unfold on_task. rewrite Hj.
  assert ((let! task := the_job id in on_store (store_save_task task)) (world_of s j) =
    (Ok tt, world_of s j <| jw_store := st |>)) as -> by exact E1. unfold share, state_of. cbn.
  rewrite insert_id by (by destruct j). by destruct s.
Qed.

Lemma persist_session_ok s :
  session_there (ts_fs s) →
  ∃ f, sys_persist_session s = (Ok tt, s <| ts_fs := f |>) ∧ fs_names f = fs_names (ts_fs s).
Proof.
  unfold session_there. cbn. destruct session as [state|]; [|intros _; exists (ts_fs s); split; [by destruct s|done]].
  intros ((text & Ht) & (k & Hk) & Hdir). unfold on_files.
  assert (∃ f, persist_session state (ts_fs s) = (Ok tt, f) ∧ fs_names f = fs_names (ts_fs s)) as (f & -> & Hf);
    [|by exists f].
  unfold persist_session. rewrite (eff_bind_ok _ _ (ts_fs s) tt (ts_fs s)).
  2: { destruct (path_parent (cookie_jar_path state)) as [dir|] eqn:Hp; [|done]. unfold fs_create_dir_all.
       destruct (Hdir dir Hp) as [->|Hd]; [done|]. rewrite Hd. by destruct (is_empty dir). }
  unfold eff_bind at 1. unfold fs_write_file at 1. rewrite Hk. rewrite Ht. unfold modify, fs_write_file. cbn.
  rewrite Hk. eexists. split; [done|]. done.
Qed.

(** The task whose turn it is. *)
Lemma begin_ok s i j path a :
  repo_ok (ts_store s) → waiting s i path j →
  ∃ s' j' k, operation (start_or_resume a) i s = (Ok tt, s') ∧ repo_ok (ts_store s') ∧
    ts_jobs s' = <[i := j']> (ts_jobs s) ∧ t_status (js_task j') = Running ∧
    fs_names (ts_fs s') = <[path := NFile k]> (fs_names (ts_fs s)) ∧
    ts_events s' = ts_events s ++ [EvPreparing i; EvStart i].
Proof.
  intros Hok [Hj Hi _ Hst Hses Hrows (probe & n & name & Hfree & Hact)].
  destruct (begin_without_file config clock send prepare_swarm (match a with PaResume => true | _ => false end)
    probe n path name (world_of s j) Hok Hrows Hst Hses Hfree Hact) as (w' & E1 & [Hrun _ (k & Hk) _ _ _ _ Hc Hv Hs]).
  exists (share w' (<[i := state_of w']> (ts_jobs s))), (state_of w'), k.
  split_and!; [|exact Hs|done|exact Hrun|exact Hk|rewrite <- Hi; exact Hv].
  destruct a; cbv iota in E1; cbn [start_or_resume operation];
    unfold sys_start, sys_resume, the_program, system_tasks, on_task; by rewrite Hj, E1.
Qed.

(** *** What stays of the state *)

Lemma still_there f f' : fs_names f ⊆ fs_names f' → session_there f → session_there f'.
Proof.
  unfold session_there. destruct session as [state|]; [|done]. intros Hsub (Ht & (k & Hk) & Hdir). split_and!; [done|..].
  - exists k. by eapply lookup_weaken.
  - intros dir Hd. destruct (Hdir dir Hd) as [|Hn]; [by left|right; by eapply lookup_weaken].
Qed.
Lemma still_running s s' h : ts_jobs s' !! h = ts_jobs s !! h → running s h → running s' h.
Proof. unfold running. by intros ->. Qed.
Lemma still_waiting s s' i path j :
  ts_jobs s' !! i = ts_jobs s !! i → fs_names (ts_fs s) ⊆ fs_names (ts_fs s') →
  fs_names (ts_fs s') !! path = fs_names (ts_fs s) !! path → waiting s i path j → waiting s' i path j.
Proof.
  intros Hj Hsub Hpath [? ? ? ? ? ? (probe & n & name & Hfree & Hact)]. split; try done; [by rewrite Hj|].
  exists probe, n, name. split; [|exact Hact]. destruct Hfree. split; try done.
  - revert rw_dir. unfold fs_exists. cbn. destruct (fs_names (ts_fs s) !! download_dir config) as [x|] eqn:Ex; [|done].
    intros _. by rewrite (lookup_weaken _ _ _ _ Ex Hsub).
  - intros dir Hd. destruct (rw_parent dir Hd) as [|Hn]; [by left|right; by eapply lookup_weaken].
  - cbn. by rewrite Hpath.
Qed.
Lemma waiting_free s i path j : waiting s i path j → fs_names (ts_fs s) !! path = None.
Proof. intros [_ _ _ _ _ _ (probe & n & name & Hfree & _)]. exact (rw_missing _ _ _ _ _ _ _ Hfree). Qed.
Lemma running_not_waiting s h i path j : running s h → waiting s i path j → h ≠ i.
Proof. intros (x & Hx & Hp & _) [Hj _ Hn _ _ _ _] ->. congruence. Qed.

(** *** One ends, the next begins *)

Definition without_permit (j : job_state) : job_state := j <| js_task ::= λ t, t <| t_permit := false |> |>.
Definition with_permit (j : job_state) : job_state := j <| js_task ::= λ t, t <| t_permit := true |> |>.

(** The state after the turn of [i], when [h] has ended. *)
Record turned (h i : Z) (path : string) s s' : Prop := {
  tn_jobs : ∃ j, ts_jobs s' = <[i := with_permit j]> (alter without_permit h (ts_jobs s)) ∧
    t_status (js_task j) = Running;
  tn_names : ∃ k, fs_names (ts_fs s') = <[path := NFile k]> (fs_names (ts_fs s));
  tn_repo : repo_ok (ts_store s');
  tn_events : ts_events s' = ts_events s ++ [EvPreparing i; EvStart i]
}.

Lemma tasks_turn h hs i a q path paths s : ready (h :: hs) ((i, a) :: q) (path :: paths) s →
  ∃ w1 w2 w3, when (sys_has_store s h) (sys_save h) s = (Ok tt, w1) ∧ sys_persist_session w1 = (Ok tt, w2) ∧
    operation (start_or_resume a) i (sys_set_permit h false w2) = (Ok tt, w3) ∧
    turned h i path s (sys_set_permit i true w3).
Proof.
  intros [Hok Hsession Hending Hwaiting _].
  apply Forall_cons in Hending as [Hh _]. pose proof Hh as (jh & Hjh & _ & Hrows).
  apply Forall2_cons_1 in Hwaiting as [(j & Hi) _]. cbn in Hi.
  assert (h ≠ i) as Hne by by eapply running_not_waiting.
  destruct (save_task_ok s h jh Hok Hjh Hrows) as (st & E1 & Hst). set (w1 := s <| ts_store := st |>) in *.
  destruct (persist_session_ok w1 Hsession) as (f & E2 & Hf). set (w2 := w1 <| ts_fs := f |>) in *.
  destruct (begin_ok (sys_set_permit h false w2) i j path a) as (w3 & j' & k & E3 & Hok3 & Hj3 & Hrun & Hn3 & Hv3).
  - exact Hst.
  - eapply still_waiting; [| | |exact Hi]; cbn; [by rewrite lookup_alter_ne|by rewrite Hf|by rewrite Hf].
  - exists w1, w2, w3. split_and!; [exact E1|exact E2|exact E3|]. split.
    + exists j'. split; [|done]. cbn. rewrite Hj3. cbn. apply alter_insert_eq.
    + exists k. cbn. rewrite Hn3. cbn. by rewrite Hf.
    + exact Hok3.
    + exact Hv3.
Qed.

Lemma turned_ready h hs i a q path paths s s' :
  ready (h :: hs) ((i, a) :: q) (path :: paths) s → turned h i path s s' → ready hs q paths s'.
Proof.
  intros [_ Hsession Hending Hwaiting (Hhs & Hq & Hpaths)] [(j' & Hjobs & _) (k & Hnames) Hok _].
  apply Forall_cons in Hending as [Hh Hending]. apply NoDup_cons in Hhs as [Hh' Hhs].
  apply Forall2_cons_1 in Hwaiting as [(j & Hi) Hwaiting]. cbn in Hi.
  apply NoDup_cons in Hpaths as [Hp Hpaths]. cbn in Hq. apply NoDup_cons in Hq as [Hi' Hq].
  assert (fs_names (ts_fs s) ⊆ fs_names (ts_fs s')) as Hsub.
  { rewrite Hnames. apply insert_subseteq. by eapply waiting_free. }
  split; [done|by eapply still_there| | |done].
  - apply Forall_forall. intros h' Hin. rewrite Forall_forall in Hending.
    eapply still_running; [|by apply Hending].
    assert (h' ≠ i) by (by eapply running_not_waiting; [apply Hending|]).
    rewrite Hjobs, lookup_insert_ne, lookup_alter_ne by set_solver. done.
  - clear Hpaths Hq. induction Hwaiting as [|e p q' paths' (j1 & He) _ IH]; constructor.
    + cbn in Hi'. apply not_elem_of_cons in Hi' as [Hei _]. apply not_elem_of_cons in Hp as [Hep _].
      exists j1. eapply still_waiting; [| |rewrite Hnames, lookup_insert_ne; [done|congruence]|exact He]; [|exact Hsub].
      rewrite Hjobs, lookup_insert_ne, lookup_alter_ne by (done || by eapply running_not_waiting). done.
    + cbn in Hi'. apply not_elem_of_cons in Hi' as [_ Hi']. apply not_elem_of_cons in Hp as [_ Hp]. by apply IH.
Qed.

(** ** All of them *)

(** The tasks [begun] have been started, one after the other, and the tasks [hs] have
    ended; nothing else has been done to any task. *)
Record served (begun hs : list Z) s s' : Prop := {
  sv_events : ts_events s' = ts_events s ++ concat ((λ i, [EvPreparing i; EvStart i]) <$> begun);
  sv_begun : ∀ i, i ∈ begun → ∃ j, ts_jobs s' !! i = Some j ∧
    t_status (js_task j) = Running ∧ t_permit (js_task j) = true;
  sv_ended : ∀ h, h ∈ hs → ts_jobs s' !! h = without_permit <$> ts_jobs s !! h;
  sv_others : ∀ k, k ∉ begun → k ∉ hs → ts_jobs s' !! k = ts_jobs s !! k
}.

Lemma served_next h i path begun hs s s1 s2 :
  h ≠ i → i ∉ begun → i ∉ hs → h ∉ begun → h ∉ hs → (∀ k, k ∈ hs → k ∉ begun) →
  turned h i path s s1 → served begun hs s1 s2 → served (i :: begun) (h :: hs) s s2.
Proof.
  intros Hne Hib Hih Hhb Hhh Hdis [(j & Hj & Hrun) _ _ Hv] [Hv2 Hb2 He2 Ho2]. split.
  - rewrite Hv2, Hv, <- app_assoc. done.
  - intros k [->|Hk]%elem_of_cons; [|by apply Hb2]. exists (with_permit j).
    rewrite Ho2, Hj, lookup_insert_eq by done. done.
  - intros k [->|Hk]%elem_of_cons.
    + by rewrite Ho2, Hj, lookup_insert_ne, lookup_alter_eq by done.
    + rewrite He2, Hj by done. rewrite lookup_insert_ne, lookup_alter_ne by congruence. done.
  - intros k [Hki Hkb]%not_elem_of_cons [Hkh Hkhs]%not_elem_of_cons.
    by rewrite Ho2, Hj, lookup_insert_ne, lookup_alter_ne by done.
Qed.

Lemma ready_apart hs q paths s h : ready hs q paths s → h ∈ hs → h ∉ q.*1.
Proof.
  intros [_ _ Hending Hwaiting _] Hh. rewrite Forall_forall in Hending. specialize (Hending h Hh). clear Hh.
  induction Hwaiting as [|e p q paths (j & He) _ IH]; [apply not_elem_of_nil|].
  apply not_elem_of_cons. split; [by eapply running_not_waiting|done].
Qed.

End queue.

(** ** Example: two tasks end, and three wait *)
#[local] Existing Instances spec_codec sources_codec state_codec metadata_codec.
#[local] Existing Instances idle_engine example_digests example_digests_laws example_http no_urls.

Definition queued_task (i : Z) (name : string) (status : Status) : job_state :=
  mk_job_state (Task_new i (SpecHttp ("http://h/" +:+ name)) (Some name) (Some ("/" +:+ name)) None
    HttpRequestOptions_default (Some (single_primary (example_source "a" ("http://h/" +:+ name))))
    None None (Some status) (Some 0) (Some 10) None [] None None 0) ∅ [] [].
Definition queue_tasks : tasks MemoryRepository unit :=
  mk_tasks (<[1 := with_permit (queued_task 1 "a" Running)]> (<[2 := queued_task 2 "b" Pending]>
      (<[3 := queued_task 3 "c" Paused]> (<[4 := queued_task 4 "d" Pending]>
      {[5 := with_permit (queued_task 5 "e" Running)]}))))
    (mk_fs (<["/jar" := NFile 1]> (fs_names no_files)) {[1%positive := []]}) memory_new tt [] 0.
Definition jar : HttpSessionState := mk_session_state "/jar" (Ok [x30]).
Definition queue_manager : Manager (tasks MemoryRepository unit) :=
  mk_manager queue_tasks [(2, PaStart); (3, PaResume); (4, PaRetry)] ∅ 0 0 0.

Definition queued_probe (name : string) : DownloadProtocolProbe :=
  mk_probe (Some 10) true (mk_identity (Some ("http://h/" +:+ name)) (Some "v1") None) None.

Lemma queued_waiting i name status :
  ts_jobs queue_tasks !! i = Some (queued_task i name status) → status = Pending ∨ status = Paused →
  name = "b" ∨ name = "c" ∨ name = "d" →
  waiting Config_default example_send queue_tasks i ("/" +:+ name) (queued_task i name status).
Proof.
  intros Hj Hst Hn. split; [done|done|done| |done| |].
  - by destruct Hst as [-> | ->]; [left|right].
  - split_and!; constructor.
  - exists (queued_probe name), 10, name. clear Hj Hst. destruct Hn as [-> | [-> | ->]]; (split; [|vm_compute; discriminate]);
      (split; try (vm_compute; reflexivity); [unfold u32_max; lia|]);
      intros dir Hd; vm_compute in Hd; injection Hd as <-; right; vm_compute; reflexivity.
Qed.

