(* ===== verification/Resume.v ===== *)
(** * Interrupted downloads ([src/src/job/state.rs], [src/src/job/prepare.rs],
    [src/src/job/workers.rs], [src/src/worker], [src/src/job/finalize.rs])

    A download is stopped while its workers write: it is paused, or the program
    ends and the next one restores the task.  What is resumed then is the task, not its
    workers: the preparation looks at the file it finds ([JobResume]), and takes
    it for the payload or removes it and begins afresh.  However often this
    happens, the workers of every session only write the bytes of the resource in
    their places, and a session whose workers all complete delivers the resource
    ([interrupted_delivers]).  But the file has its full size from the beginning, so
    without checksums it is taken for the payload whatever is in it
    ([resume_completes_unverified]). *)

From S2P Require Import Prelude Text Float Ranges Status Effect Source Piece Files Checksum Manifest Planner Payload Torrent Config Task Mapping Repository Memory Store Probe WorkerRun WorkerFacts WorkerLive Job JobFacts JobStart JobResume Transfer.

(** ** The sources of a task that is resumed *)

Lemma update_first_exists {A} (p q : A → bool) f l :
  (∀ x, q (f x) = q x) → existsb q (update_first p f l) = existsb q l.
Proof. intros Hf. induction l as [|x l IH]; [done|]. cbn. destruct (p x); cbn; [by rewrite Hf|by rewrite IH]. Qed.

Lemma active_exists set : active_transfer_sources set ≠ [] ↔ existsb can_transfer_payload (sources set) = true.
Proof.
  unfold active_transfer_sources. induction (sources set) as [|x l IH]; [done|]. cbn.
  by destruct (can_transfer_payload x).
Qed.

Lemma primary_mut_active f set : (∀ s, can_transfer_payload (f s) = can_transfer_payload s) →
  active_transfer_sources set ≠ [] → active_transfer_sources (primary_mut f set) ≠ [].
Proof.
  intros Hf. rewrite !active_exists. unfold primary_mut. destruct (primary_id set).
  - cbn. by rewrite update_first_exists.
  - destruct (sources set) as [|s l] eqn:Es; [by rewrite Es|]. cbn. by rewrite Hf.
Qed.

Lemma runtime_active identity t :
  active_transfer_sources (t_sources t) ≠ [] →
  active_transfer_sources (fst (build_runtime_source_set identity t)) ≠ [].
Proof.
  intros Ha. unfold build_runtime_source_set. cbn [fst].
  assert (sources_is_empty (t_sources t) = false) as ->.
  { unfold sources_is_empty. apply bool_decide_eq_false_2. intros Hnil.
    apply Ha. unfold active_transfer_sources. by rewrite Hnil. }
  apply primary_mut_active; [|done]. intros s. by destruct (_ && _)%bool.
Qed.

(** ** From session to session *)
Section sessions.
Context {St E : Type} `{RepositoryLaws St} `{TorrentEngine E} `{UrlLib} `{HttpLib} `{!DigestLib} `{!DigestLibLaws}.
Context `{Json DownloadSpec} `{Json SourceSet} `{Json TorrentEngineState} `{Json TorrentMetadata}.
Context (config : Config) (clock : nat → DateTime) (send : Request → result Response string)
  (prepare_swarm : eff (job_world St E) PreparationOutcome) (rfc2822_delay : string → option Z).
Implicit Types (u v w z : job_world St E).

#[local] Abbreviation start := (start config true true clock send prepare_swarm (ret tt)).
#[local] Abbreviation resume := (resume config true true clock send prepare_swarm (ret tt)).

(** [u] as it is found after it was stopped: its workers, with servers of the
    resource, had made some of their writes, in any order, and make no more.  It is
    the same download still, but nothing is said of its progress, of its workers or of
    what is known of its origin. *)
Record stopped (path : string) (R : bytes) u w : Prop := {
  sp_files : ∃ fm i cs ls l rest,
    t_payload_store (jw_task u) = Some fm ∧ fs_names (pw_fs (jw_payload u)) !! path = Some (NFile i) ∧
    length cs = length (t_workers (jw_task u)) ∧ Forall (λ c, serves R (ci_server c)) cs ∧
    Forall2 (writes config rfc2822_delay fm [i]) (zip_with (started u) (t_workers (jw_task u)) cs) ls ∧
    interleaving ls (l ++ rest) ∧ pw_fs (jw_payload w) = pw_fs (after fm l (jw_payload u));
  sp_status : t_status (jw_task w) = Pending ∨ t_status (jw_task w) = Paused;
  sp_constants : constants (jw_task w) = constants (jw_task u);
  sp_sources : t_sources (jw_task w) = t_sources (jw_task u);
  sp_rows : task_rows_ok (jw_task w);
  sp_repo : repo_ok (jw_store w)
}.

(** The sessions of a download: the first, and those that are begun when it is
    resumed after it was stopped. *)
Inductive sessions (path : string) (R : bytes) u : job_world St E → Prop :=
  | se_first : sessions path R u u
  | se_again z v z' :
      sessions path R u z → stopped path R z v → resume v = (Ok tt, z') → t_status (jw_task z') = Running →
      sessions path R u z'.

(** What is known of each of them. *)
Definition begun probe n path name w : Prop :=
  ∃ u m, m_files m = [mk_file_manifest path name n 0] ∧ m_total_size m = n ∧
    active_transfer_sources (m_sources m) ≠ [] ∧
    started_on m n path (initialize_block_states (m_blocks m)) u w ∧
    t_range_requests_supported (jw_task w) = true ∧ t_torrent_session (jw_task w) = None ∧
    origin_ready config send probe n path name w.

Lemma origin_kept probe n path name f w w' :
  origin_ready config send probe n path name w → fs_names (pw_fs (jw_payload w)) !! path ≠ Some NDir →
  constants (jw_task w') = constants (jw_task w) →
  fs_names (pw_fs (jw_payload w')) = <[path := NFile f]> (fs_names (pw_fs (jw_payload w))) →
  origin_ready config send probe n path name w'.
Proof.
  intros [] Hpath Hc Hn. injection Hc as Eid Espec Ereq Ename Epath Eses Ewanted.
  split; rewrite ?Espec, ?Ereq, ?Ename, ?Epath; try done.
  - revert or_dir. unfold fs_exists. rewrite Hn. by destruct (decide (download_dir config = path)) as [->|]; [rewrite lookup_insert_eq|rewrite lookup_insert_ne].
  - intros dir Hd. destruct (or_parent dir Hd) as [|Hdir]; [by left|right].
    rewrite Hn, lookup_insert_ne; [done|]. by intros ->.
Qed.

Lemma started_begun probe n path name u w :
  let m := planned_manifest config probe n path name (jw_task u) in
  origin_ready config send probe n path name u → fs_names (pw_fs (jw_payload u)) !! path ≠ Some NDir →
  active_transfer_sources (m_sources m) ≠ [] → t_torrent_session (jw_task u) = None →
  pr_supports_range_requests probe = true →
  t_range_requests_supported (jw_task w) = pr_supports_range_requests probe →
  started_on m n path (initialize_block_states (m_blocks m)) u w → begun probe n path name w.
Proof.
  intros m Hready Hpath Hact Hses Hrr Hrw Hso. exists u, m. split_and!; try done.
  - by rewrite Hrw.
  - destruct Hso. injection so_constants as _ _ _ _ _ E1 _. by rewrite E1.
  - destruct Hso. destruct so_names as [f Hn]. by eapply origin_kept.
Qed.

Lemma begun_delivers probe n path name R w : begun probe n path name w → zlen R = n →
  delivers config clock rfc2822_delay path R w.
Proof.
  intros (u & m & Hf & Ht & _ & Hso & Hrr & _ & Hready) HR.
  by eapply fresh_delivers; [exact Hf|exact Ht|apply (or_size _ _ _ _ _ _ _ Hready)|..].
Qed.

(** A session that was stopped can be resumed. *)
Lemma stopped_ready probe n path name R w v :
  begun probe n path name w → zlen R = n → stopped path R w v →
  origin_ready config send probe n path name v ∧ t_torrent_session (jw_task v) = None ∧
  (∃ f, fs_names (pw_fs (jw_payload v)) !! path = Some (NFile f)) ∧
  (∃ c, fs_content (pw_fs (jw_payload v)) path = Some c ∧ zlen c = n) ∧
  active_transfer_sources (m_sources (planned_manifest config probe n path name (jw_task v))) ≠ [].
Proof.
  intros (u & m & Hf & Ht & Hact & Hso & Hrr & Hses & Hready) HR [Hfiles _ Hc Hsrc _ _].
  destruct (fresh_gathered m name n path u w R Hf Ht (or_size _ _ _ _ _ _ _ Hready) Hso Hrr HR)
    as (i & Hfm & Hwf & Htot & _ & Hsegs & Hname & Hgath). set (fm := from_manifest m) in *.
  destruct Hfiles as (fm' & i' & cs & ls & l & rest & Hfm' & Hi' & Hlen & Hserve & Hls & Hil & Hfs).
  assert (fm' = fm) as -> by congruence. assert (i' = i) as -> by congruence.
  destruct (Hgath cs Hlen Hserve) as [_ _ (bs & Hholds & _) _].
  assert (Forall (fits fm) l) as Hfit.
  { assert (Forall (fits fm) (l ++ rest)) as [? _]%Forall_app; [|done].
    eapply interleaved_forall; [exact Hil|]. apply Forall_forall. intros k (j & Hj)%list_elem_of_lookup.
    by destruct (Forall2_lookup_r _ _ _ _ _ Hls Hj) as (x & _ & [? _]). }
  destruct (puts_ok fm [i] Hwf l _ bs Hfit Hholds) as (bs' & _ & Hholds' & _ & (_ & Hnames & _)).
  assert (fs_names (pw_fs (jw_payload v)) = fs_names (pw_fs (jw_payload w))) as Hnv by (rewrite Hfs; exact Hnames).
  split_and!.
  - eapply (origin_kept probe n path name i w); [done|by rewrite Hname|done|]. by rewrite Hnv, insert_id.
  - injection Hc as _ _ _ _ _ E1 _. by rewrite E1.
  - exists i. by rewrite Hnv.
  - exists (concat bs'). rewrite Hfs. split.
    + eapply one_file_content; [exact Hsegs|exact Hholds'|by rewrite Hnames].
    + rewrite <- Htot. eapply store_total; [exact Hholds'|apply Hwf].
  - cbn. apply runtime_active. rewrite Hsrc. destruct Hso. by rewrite so_sources.
Qed.
(** A session [u], of which [w] is the state when its workers have written, is
    stopped by a pause. *)
Lemma pause_stops path R u w :
  stopped path R u (w <| jw_task ::= λ t, t <| t_status := Paused |> |>) →
  t_status (jw_task w) = Running → t_torrent_session (jw_task w) = None →
  ∃ v, pause true true clock w = (Ok tt, v) ∧ stopped path R u v.
Proof.
  intros [Hfiles _ Hc Hsrc Hrows Hok] Hst Hses.
  assert (task_rows_ok (jw_task w)) as Hr by (destruct Hrows as (?&?&?&?); by split_and!).
  assert (∀ x, w_id (fst (worker_pause x)) = w_id x) as Hid by (intros x; unfold worker_pause; by repeat case_match).
  destruct (interrupt_ok clock Paused pause_session worker_pause EvPause w Hok Hr Hses Hid)
    as (v & E1 & Ht & _ & _ & Hp & Hs & _).
  exists v. split.
  - unfold pause, eff_bind at 1, the_job at 1, gets at 1. rewrite Hst. exact E1.
  - split; rewrite ?Hp, ?Ht; try done; [by right|].
    apply (workers_map_rows (fst ∘ worker_pause)) in Hr; [|exact Hid]. destruct Hr as (?&?&?&?). by split_and!.
Qed.

(** A session may be stopped before its workers write anything. *)
Lemma stops_at_once path R u cs :
  delivers config clock rfc2822_delay path R u → length cs = length (t_workers (jw_task u)) →
  Forall (λ c, serves R (ci_server c)) cs → t_status (jw_task u) = Running →
  t_torrent_session (jw_task u) = None → task_rows_ok (jw_task u) → repo_ok (jw_store u) →
  ∃ v, pause true true clock u = (Ok tt, v) ∧ stopped path R u v.
Proof.
  intros (fm & i & Hfm & Hi & Hall) Hlen Hserve Hst Hses Hrows Hok. apply pause_stops; [|done..].
  destruct (Hall cs Hlen Hserve) as [[ls Hls] _]. split; try done; [|by right].
  exists fm, i, cs, ls, [], (concat ls). split_and!; try done. apply interleaving_concat.
Qed.

(** C1. A download delivers the resource, however often it is stopped and resumed.
    A new task of an origin that serves ranges is started: it gets a file of zeros
    and workers, which run in any order and at the same time.  In this session,
    and in every later one, all writes of the workers succeed, whatever
    fails, is retried or interrupts them, and the file only ever holds zeros and bytes of
    the resource in their places; a worker completes whose server fails no more
    often than it retries and then does what it is asked to; and when all workers have
    completed, the file is the resource, and the completion of the last one makes
    the task Completed if the resource has the checksums it should have, and Failed
    if not.  A session may be stopped after any of its writes.  To resume it
    succeeds: if the file that is found is accepted, because it has the checksums
    of the task or, if there are none, because its origin has not changed, and it is
    not to be overwritten, the task is Completed with this very file and nothing is
    downloaded; if not, the file is replaced by one of zeros, and a new session begins. *)
Theorem interrupted_delivers probe n path name w R :
  repo_ok (jw_store w) → task_rows_ok (jw_task w) → t_status (jw_task w) = Pending →
  t_torrent_session (jw_task w) = None →
  without_file_yet config send probe n path name w → t_block_states (jw_task w) = [] →
  pr_supports_range_requests probe = true →
  active_transfer_sources (m_sources (planned_manifest config probe n path name (jw_task w))) ≠ [] →
  zlen R = n →
  ∃ u, start w = (Ok tt, u) ∧ t_status (jw_task u) = Running ∧
    ∀ z, sessions path R u z →
    delivers config clock rfc2822_delay path R z ∧
    ∀ v, stopped path R z v →
    ∃ c z', fs_content (pw_fs (jw_payload v)) path = Some c ∧ zlen c = n ∧ resume v = (Ok tt, z') ∧
      let known := t_identity (jw_task v) in let checksums := t_checksums (jw_task v) in
      (accepted config probe known checksums c → kept v z') ∧
      (¬ accepted config probe known checksums c → sessions path R u z' ∧
         fs_content (pw_fs (jw_payload z')) path = Some (replicate (Z.to_nat n) x00)).
Proof.
  intros Hok Hrows Hst Hses Hw Hnb Hrr Hact HR.
  set (m := planned_manifest config probe n path name (jw_task w)) in *.
  destruct (start_without_file config clock send prepare_swarm probe n path name w Hok Hrows (or_introl Hst) Hw Hact)
    as (u & E1 & Hru & Hso). fold m in Hso. rewrite (kept_blocks_none m) in Hso by done.
  exists u. split; [done|]. split; [apply Hso|].
  assert (begun probe n path name u) as Hbegun.
  { eapply started_begun; [by apply without_file_ready| |exact Hact|done..]. by rewrite (rw_missing _ _ _ _ _ _ _ Hw). }
  assert (∀ z, begun probe n path name z → ∀ v, stopped path R z v →
    ∃ c z', fs_content (pw_fs (jw_payload v)) path = Some c ∧ zlen c = n ∧ resume v = (Ok tt, z') ∧
      goes_on config probe n path name c v z' ∧ (t_status (jw_task z') = Running → begun probe n path name z')) as Hstep.
  { intros z Hz v Hv. destruct (stopped_ready probe n path name R z v Hz HR Hv)
      as (Hready & Hsv & (f & Hf) & (c & Hc & Hn) & Hav).
    destruct (resume_outcome config clock send prepare_swarm probe n path name c v (sp_repo _ _ _ _ Hv)
      (sp_rows _ _ _ _ Hv) (sp_status _ _ _ _ Hv) Hsv Hready Hc Hn Hav) as (z' & E2 & Hgo).
    exists c, z'. split_and!; [done..|]. intros Hrun. destruct Hgo as [Hkept Hafresh].
    destruct (Hafresh) as [Hrz Hsz].
    { intros Ha. destruct (Hkept Ha). congruence. }
    eapply started_begun; [exact Hready|by rewrite Hf|exact Hav|done..]. }
  assert (∀ z, sessions path R u z → begun probe n path name z) as Hall.
  { intros z Hz. induction Hz as [|z v z' _ IH Hv E2 Hrun]; [done|].
    destruct (Hstep z IH v Hv) as (c & z'' & _ & _ & E3 & _ & Hb). assert (z'' = z') as -> by congruence. by apply Hb. }
  intros z Hz. split; [by eapply begun_delivers; [apply Hall|]|]. intros v Hv.
  destruct (Hstep z (Hall z Hz) v Hv) as (c & z' & Hc & Hn & E2 & [Hkept Hafresh] & Hb).
  exists c, z'. split_and!; [done..|]. intros known checksums. split; [exact Hkept|]. intros Hna.
  destruct (Hafresh Hna) as [_ Hsz]. split; [|apply (new_file_content _ _ _ _ (so_file _ _ _ _ _ _ Hsz))].
  eapply se_again; [exact Hz|exact Hv|exact E2|apply Hsz].
Qed.

(** C19. A task without checksums is not verified when it is resumed.  Its file has
    the size of the payload from the beginning, so if the origin has not
    changed, the task is Completed with whatever is in the file: no worker is
    started, nothing is downloaded, and the manager is told that it has completed. *)
Theorem resume_completes_unverified probe n path name c w :
  repo_ok (jw_store w) → task_rows_ok (jw_task w) → t_status (jw_task w) = Paused →
  t_torrent_session (jw_task w) = None → origin_ready config send probe n path name w →
  fs_content (pw_fs (jw_payload w)) path = Some c → zlen c = n →
  active_transfer_sources (m_sources (planned_manifest config probe n path name (jw_task w))) ≠ [] →
  t_checksums (jw_task w) = [] → file_conflict_strategy config ≠ Overwrite →
  has_resume_validator (t_identity (jw_task w)) = true →
  validator_changed (t_identity (jw_task w)) (pr_resource_identity probe) = false →
  ∃ w', resume w = (Ok tt, w') ∧ kept w w' ∧ fs_content (pw_fs (jw_payload w')) path = Some c.
Proof.
  intros Hok Hrows Hst Hses Hready Hc Hn Hact Hck Hstrategy Hv Hch.
  destruct (resume_outcome config clock send prepare_swarm probe n path name c w Hok Hrows (or_intror Hst) Hses
    Hready Hc Hn Hact) as (w' & E1 & Hkept & _).
  assert (kept w w') as Hk.
  { apply Hkept. split_and!; [done..|]. unfold verifies. by rewrite decide_True. }
  exists w'. split_and!; [done|done|]. by rewrite (ke_files _ _ Hk).
Qed.
End sessions.

(** ** Example: a download that is paused at once, and resumed *)
#[local] Existing Instances spec_codec sources_codec state_codec metadata_codec.
#[local] Existing Instances idle_engine example_digests example_digests_laws example_http no_urls.

#[local] Abbreviation example_start := (start Config_default true true tick example_send no_swarm (ret tt)).
#[local] Abbreviation example_resume := (resume Config_default true true tick example_send no_swarm (ret tt)).

Lemma fresh_without_file (job : job_world MemoryRepository unit) : jw_payload job = mk_world no_files ∅ → jw_task job = fresh_task ∨
  jw_task job = fresh_task <| t_checksums := [] |> → without_file_yet Config_default example_send example_probe 10 "/f" "f" job.
Proof.
  intros Hp [Ht|Ht]; split; rewrite ?Hp, ?Ht; try (vm_compute; reflexivity); try (unfold u32_max; lia);
    intros dir Hd; vm_compute in Hd; injection Hd as <-; right; vm_compute; reflexivity.
Qed.
Definition zeros : bytes := replicate 10 x00.

Lemma fresh_running (job : job_world MemoryRepository unit) : jw_payload job = mk_world no_files ∅ → jw_store job = memory_new →
  jw_task job = fresh_task ∨ jw_task job = fresh_task <| t_checksums := [] |> →
  ∃ u, example_start job = (Ok tt, u) ∧ begun Config_default example_send example_probe 10 "/f" "f" u ∧
    t_status (jw_task u) = Running ∧ repo_ok (jw_store u).
Proof.
  intros Hp Hs Ht. pose proof (fresh_without_file job Hp Ht) as Hw.
  destruct (start_without_file Config_default tick example_send no_swarm example_probe 10 "/f" "f" job)
    as (u & E1 & Hrr & Hso); [rewrite Hs; exact memory_new_ok| | |exact Hw| |].
  - destruct Ht as [-> | ->]; split_and!; apply (bool_decide_eq_true_1 _); vm_compute; reflexivity.
  - left. by destruct Ht as [-> | ->].
  - destruct Ht as [-> | ->]; vm_compute; discriminate.
  - rewrite kept_blocks_none in Hso by (by destruct Ht as [-> | ->]).
    exists u. split_and!; [done| |apply Hso|apply Hso].
    eapply started_begun; [by apply without_file_ready| | | | |exact Hrr|exact Hso].
    + by rewrite (rw_missing _ _ _ _ _ _ _ Hw).
    + destruct Ht as [-> | ->]; vm_compute; discriminate.
    + by destruct Ht as [-> | ->].
    + done.
Qed.

(** It is paused before anything is written. *)
Lemma fresh_paused (job : job_world MemoryRepository unit) : jw_payload job = mk_world no_files ∅ → jw_store job = memory_new →
  jw_task job = fresh_task ∨ jw_task job = fresh_task <| t_checksums := [] |> →
  (let u := snd (example_start job) in length (t_workers (jw_task u)) = 4%nat ∧ task_rows_ok (jw_task u)) →
  ∃ u v, example_start job = (Ok tt, u) ∧ begun Config_default example_send example_probe 10 "/f" "f" u ∧
    pause true true tick u = (Ok tt, v) ∧ stopped Config_default no_dates "/f" example_resource u v.
Proof.
  intros Hp Hs Ht [Hlen Hrows]. destruct (fresh_running job Hp Hs Ht) as (u & E1 & Hu & Hrun & Hok).
  rewrite E1 in Hlen, Hrows. cbn [snd] in Hlen, Hrows.
  destruct (stops_at_once Config_default tick no_dates "/f" example_resource u example_circumstances) as (v & E2 & Hv).
  - by eapply begun_delivers.
  - by rewrite Hlen.
  - exact circumstances_serve.
  - exact Hrun.
  - by destruct Hu as (? & ? & _ & _ & _ & _ & _ & ? & _).
  - exact Hrows.
  - exact Hok.
  - by exists u, v.
Qed.

(** The resource is delivered by the second session: the zeros that the first one
    left do not have the checksum. *)
Lemma interrupted_delivers_witness :
  ∃ u v z, example_start fresh_job = (Ok tt, u) ∧ pause true true tick u = (Ok tt, v) ∧
    fs_content (pw_fs (jw_payload v)) "/f" = Some zeros ∧ example_resume v = (Ok tt, z) ∧
    ∃ fm i ls, Forall2 (writes Config_default no_dates fm [i])
        (zip_with (started z) (t_workers (jw_task z)) example_circumstances) ls ∧
      ∀ l, interleaving ls l → fs_content (pw_fs (after fm l (jw_payload z))) "/f" = Some example_resource.
Proof.
  destruct (interrupted_delivers Config_default tick example_send no_swarm no_dates example_probe 10 "/f" "f" fresh_job
    example_resource restored_job_ok) as (u & E1 & _ & Hall).
  - split_and!; apply (bool_decide_eq_true_1 _); vm_compute; reflexivity.
  - vm_compute. reflexivity.
  - vm_compute. reflexivity.
  - apply fresh_without_file; [done|by left].
  - vm_compute. reflexivity.
  - vm_compute. reflexivity.
  - vm_compute. discriminate.
  - vm_compute. reflexivity.
  - destruct (fresh_paused fresh_job eq_refl eq_refl (or_introl eq_refl)) as (u' & v & E2 & _ & E3 & Hv).
    { split; [vm_compute; reflexivity|].
      split_and!; apply (bool_decide_eq_true_1 _); vm_compute; reflexivity. }
    assert (u' = u) as -> by congruence.
    destruct (Hall u (se_first _ _ _ _ _ _ _ _)) as [_ Hagain].
    destruct (Hagain v Hv) as (c & z & Hc & _ & E4 & _ & Hafresh).
    assert (v = snd (pause true true tick (snd (example_start fresh_job)))) as Ev by (by rewrite E1; cbn [snd]; rewrite E3).
    assert (c = zeros) as ->.
    { assert (Some c = Some zeros) as [= ->]; [|done]. rewrite <- Hc, Ev. vm_compute. reflexivity. }
    destruct Hafresh as [Hz _].
    { rewrite Ev. vm_compute. intros (_ & _ & Hck). inversion Hck as [|? ? Hm _]. discriminate Hm. }
    exists u, v, z. split_and!; [exact E1|exact E3|exact Hc|exact E4|].
    destruct (Hall z Hz) as [(fm & i & _ & _ & Hrun) _].
    assert (z = snd (example_resume v)) as Ez by (by rewrite E4). rewrite Ev in Ez. clear Hc Hz Hagain.
    destruct (Hrun example_circumstances) as [[ls Hls] Hd]; [rewrite Ez; vm_compute; reflexivity|exact circumstances_serve|].
    exists fm, i, ls. split; [exact Hls|]. intros l Hl. destruct (Hd ls l Hls Hl) as (_ & _ & _ & Hdone).
    apply Hdone. rewrite Ez. clear. apply all_completed. vm_compute. reflexivity.
Defined.

(** The same task without a checksum is Completed with ten zeros. *)
Definition unchecked_job : job_world MemoryRepository unit :=
  fresh_job <| jw_task := fresh_task <| t_checksums := [] |> |>.
Lemma resume_completes_unverified_witness :
  ∃ u v w', example_start unchecked_job = (Ok tt, u) ∧ pause true true tick u = (Ok tt, v) ∧
    example_resume v = (Ok tt, w') ∧ t_status (jw_task w') = Completed ∧
    fs_content (pw_fs (jw_payload w')) "/f" = Some zeros ∧ jw_spawned w' = jw_spawned v.
Proof.
  destruct (fresh_paused unchecked_job eq_refl eq_refl (or_intror eq_refl)) as (u & v & E1 & Hu & E2 & Hv).
  { split; [vm_compute; reflexivity|].
    split_and!; apply (bool_decide_eq_true_1 _); vm_compute; reflexivity. }
  destruct (stopped_ready Config_default example_send no_dates example_probe 10 "/f" "f" example_resource u v Hu eq_refl Hv)
    as (Hready & Hses & _ & _ & Hact).
  assert (v = snd (pause true true tick (snd (example_start unchecked_job)))) as Ev by (by rewrite E1; cbn [snd]; rewrite E2).
  destruct (resume_completes_unverified Config_default tick example_send no_swarm example_probe 10 "/f" "f" zeros v)
    as (w' & E3 & Hk & Hc).
  - apply Hv.
  - apply Hv.
  - rewrite Ev. vm_compute. reflexivity.
  - exact Hses.
  - exact Hready.
  - rewrite Ev. vm_compute. reflexivity.
  - reflexivity.
  - exact Hact.
  - rewrite Ev. vm_compute. reflexivity.
  - discriminate.
  - rewrite Ev. vm_compute. reflexivity.
  - rewrite Ev. vm_compute. reflexivity.
  - exists u, v, w'. split_and!; [exact E1|exact E2|exact E3|apply Hk|exact Hc|apply Hk].
Defined.
