(* ===== verification/Magnet.v ===== *)
(** * Magnet links and swarm hints ([src/src/p2p/magnet.rs])

    Reading a magnet link, the peers, trackers and web seeds that are known of a
    swarm, and writing them into a link.  The query of a URL is written by the
    form_urlencoded crate and read by the url crate: both are parameters, and
    that the one reads what the other writes is a hypothesis. *)

From S2P Require Import Prelude Text Status Source.

(** ** Peers *)

(** [src/src/p2p/magnet.rs:8-12], [TorrentPeerEndpoint]. *)
Record TorrentPeerEndpoint := mk_peer { peer_host : string; peer_port : Z }.
#[export] Instance TorrentPeerEndpoint_eq_dec : EqDecision TorrentPeerEndpoint.
Proof. solve_decision. Defined.

(** [src/src/p2p/magnet.rs:15-32], [TorrentPeerEndpoint::parse]. *)
Definition peer_parse (value : string) : res TorrentPeerEndpoint :=
  let value := trim value in
  match rsplit_once ":"%char value with
  | None => Err (EOther ("torrent peer must be HOST:PORT, got '" +:+ value +:+ "'"))
  | Some (host, port) =>
      if is_empty (trim host) then
        Err (EOther ("torrent peer host cannot be blank in '" +:+ value +:+ "'"))
      else
        match parse_u16 port with
        | Ok port => Ok (mk_peer host port)
        | Err err =>
            Err (EOther ("invalid torrent peer port in '" +:+ value +:+ "': " +:+ ParseIntError_to_string err))
        end
  end.

(** [src/src/p2p/magnet.rs:35-39], [TorrentPeerEndpoint::fmt]. *)
Definition peer_to_string (p : TorrentPeerEndpoint) : string :=
  peer_host p +:+ ":" +:+ show_u64 (peer_port p).

(** ** Hints *)

(** [src/src/p2p/magnet.rs:233-238], [push_unique]. *)
Definition push_text (values : list string) (value : string) : list string :=
  let value := trim value in
  if (negb (is_empty value) && negb (bool_decide (value ∈ values)))%bool
  then values ++ [value] else values.

(** [src/src/p2p/magnet.rs:42-46], [TorrentSwarmHints]. *)
Record TorrentSwarmHints := mk_hints {
  th_trackers : list string;
  th_peers : list TorrentPeerEndpoint;
  th_web_seeds : list string
}.
#[export] Instance TorrentSwarmHints_eta : Settable TorrentSwarmHints := λ h,
  mk_hints (th_trackers h) (th_peers h) (th_web_seeds h).
Definition TorrentSwarmHints_default : TorrentSwarmHints := mk_hints [] [] [].

(** [src/src/p2p/magnet.rs:49-51], [TorrentSwarmHints::is_empty]. *)
Definition hints_is_empty (h : TorrentSwarmHints) : bool :=
  (bool_decide (th_trackers h = []) && bool_decide (th_peers h = []) && bool_decide (th_web_seeds h = []))%bool.
(** [src/src/p2p/magnet.rs:65-67], [TorrentSwarmHints::add_tracker]. *)
Definition add_tracker (h : TorrentSwarmHints) (tracker : string) : TorrentSwarmHints :=
  h <| th_trackers ::= λ l, push_text l tracker |>.
(** [src/src/p2p/magnet.rs:69-73], [TorrentSwarmHints::add_peer]. *)
Definition add_peer (h : TorrentSwarmHints) (peer : TorrentPeerEndpoint) : TorrentSwarmHints :=
  if negb (bool_decide (peer ∈ th_peers h)) then h <| th_peers ::= λ l, l ++ [peer] |> else h.
(** [src/src/p2p/magnet.rs:75-77], [TorrentSwarmHints::add_web_seed]. *)
Definition add_web_seed (h : TorrentSwarmHints) (web_seed : string) : TorrentSwarmHints :=
  h <| th_web_seeds ::= λ l, push_text l web_seed |>.
(** [src/src/p2p/magnet.rs:53-63], [TorrentSwarmHints::merge]. *)
Definition merge_hints (h other : TorrentSwarmHints) : TorrentSwarmHints :=
  foldl add_web_seed (foldl add_peer (foldl add_tracker h (th_trackers other)) (th_peers other))
    (th_web_seeds other).

(** ** Links *)

(** [src/src/p2p/magnet.rs:101-105], [MagnetExactTopic]. *)
Inductive MagnetExactTopic := Btih (hash : string) | Btmh (hash : string) | OtherTopic (topic : string).
#[export] Instance MagnetExactTopic_eq_dec : EqDecision MagnetExactTopic.
Proof. solve_decision. Defined.

(** A parameter of a link, [src/src/p2p/magnet.rs:108-111], is its key with its value. *)
Abbreviation MagnetParameter := (prod string string).

(** [src/src/p2p/magnet.rs:114-124], [MagnetLink]. *)
Record MagnetLink := mk_magnet {
  ml_uri : string;
  ml_exact_topics : list MagnetExactTopic;
  ml_display_name : option string;
  ml_trackers : list string;
  ml_peers : list TorrentPeerEndpoint;
  ml_web_seeds : list string;
  ml_exact_sources : list string;
  ml_extensions : list MagnetParameter;
  ml_params : list MagnetParameter
}.
#[export] Instance MagnetLink_eta : Settable MagnetLink := λ l,
  mk_magnet (ml_uri l) (ml_exact_topics l) (ml_display_name l) (ml_trackers l) (ml_peers l)
    (ml_web_seeds l) (ml_exact_sources l) (ml_extensions l) (ml_params l).

(** [src/src/p2p/magnet.rs:215-223], [parse_exact_topic]. *)
Definition parse_exact_topic (value : string) : MagnetExactTopic :=
  match strip_prefix "urn:btih:" value with
  | Some hash => Btih (to_ascii_lowercase hash)
  | None =>
      match strip_prefix "urn:btmh:" value with
      | Some hash => Btmh (to_ascii_lowercase hash)
      | None => OtherTopic value
      end
  end.

(** [src/src/p2p/magnet.rs:145-162], [MagnetLink::parse (for loop)]. *)
Definition magnet_parameter (link : MagnetLink) (parameter : MagnetParameter) : res MagnetLink :=
  let '(key, value) := parameter in
  let? link :=
    if String.eqb key "xt" then Ok (link <| ml_exact_topics ::= λ l, l ++ [parse_exact_topic value] |>)
    else if String.eqb key "dn" then Ok (link <| ml_display_name := Some value |>)
    else if String.eqb key "tr" then Ok (link <| ml_trackers ::= λ l, push_text l value |>)
    else if String.eqb key "x.pe" then
      let? peer := peer_parse value in Ok (link <| ml_peers ::= λ l, l ++ [peer] |>)
    else if String.eqb key "ws" then Ok (link <| ml_web_seeds ::= λ l, push_text l value |>)
    else if String.eqb key "xs" then Ok (link <| ml_exact_sources ::= λ l, push_text l value |>)
    else Ok (link <| ml_extensions ::= λ l, l ++ [parameter] |>) in
  Ok (link <| ml_params ::= λ l, l ++ [parameter] |>).
Fixpoint magnet_parameters (link : MagnetLink) (parameters : list MagnetParameter) : res MagnetLink :=
  match parameters with
  | [] => Ok link
  | p :: ps => let? link := magnet_parameter link p in magnet_parameters link ps
  end.

(** [src/src/p2p/magnet.rs:167-173], [MagnetLink::swarm_hints]. *)
Definition swarm_hints (link : MagnetLink) : TorrentSwarmHints :=
  mk_hints (ml_trackers link) (ml_peers link) (ml_web_seeds link).

(** [src/src/p2p/magnet.rs:225-231], [values_for_key]. The set as a list. *)
Definition values_for_key (params : list MagnetParameter) (key : string) : list string :=
  snd <$> filterb (λ p, String.eqb p.1 key) params.

(** [src/src/p2p/magnet.rs:181-205], [MagnetLink::enhance (for loops)]. One of the three loops: what
    is not yet in the set [seen] is appended. *)
Fixpoint add_missing (key : string) (values seen : list string) (pairs : list MagnetParameter)
    : list MagnetParameter :=
  match values with
  | [] => pairs
  | v :: values =>
      if bool_decide (v ∈ seen) then add_missing key values seen pairs
      else add_missing key values (v :: seen) (pairs ++ [(key, v)])
  end.

(** [form_urlencoded::Serializer] *)
Class FormLib := { form_urlencoded : list (string * string) → string }.

Section magnet.
Context `{UrlLib} `{FormLib}.

(** [src/src/p2p/magnet.rs:127-165], [MagnetLink::parse]. *)
Definition magnet_parse (uri : string) : res MagnetLink :=
  match url_parse uri with
  | Err err => Err (Error_from_url err)
  | Ok parsed =>
      if negb (String.eqb (url_scheme parsed) "magnet") then Err (EUnsupportedProtocol (url_scheme parsed))
      else magnet_parameters (mk_magnet uri [] None [] [] [] [] [] []) (url_query_pairs parsed)
  end.

(** [src/src/p2p/magnet.rs:175-212], [MagnetLink::enhance]. *)
Definition enhance (link : MagnetLink) (hints : TorrentSwarmHints) : string :=
  let pairs := ml_params link in
  let trackers := values_for_key pairs "tr" in
  let peers := values_for_key pairs "x.pe" in
  let web_seeds := values_for_key pairs "ws" in
  let pairs := add_missing "tr" (th_trackers hints) trackers pairs in
  let pairs := add_missing "x.pe" (peer_to_string <$> th_peers hints) peers pairs in
  let pairs := add_missing "ws" (th_web_seeds hints) web_seeds pairs in
  "magnet:?" +:+ form_urlencoded pairs.

(** [src/src/p2p/magnet.rs:84-91], [TorrentSwarmHints::from_spec_and_sources (for loop)]. *)
Definition hint_of_source (h : TorrentSwarmHints) (source : SourceDescriptor) : res TorrentSwarmHints :=
  match src_kind source with
  | KTracker => Ok (add_tracker h (src_locator source))
  | KPeer => let? peer := peer_parse (src_locator source) in Ok (add_peer h peer)
  | KWebSeed => Ok (add_web_seed h (src_locator source))
  | _ => Ok h
  end.
Fixpoint hints_of_sources (h : TorrentSwarmHints) (l : list SourceDescriptor) : res TorrentSwarmHints :=
  match l with
  | [] => Ok h
  | s :: l => let? h := hint_of_source h s in hints_of_sources h l
  end.
(** [src/src/p2p/magnet.rs:79-93], [TorrentSwarmHints::from_spec_and_sources]. *)
Definition from_spec_and_sources (spec : DownloadSpec) (set : SourceSet) : res TorrentSwarmHints :=
  let? hints :=
    match spec with
    | SpecMagnet uri =>
        let? link := magnet_parse uri in Ok (merge_hints TorrentSwarmHints_default (swarm_hints link))
    | _ => Ok TorrentSwarmHints_default
    end in
  hints_of_sources hints (sources set).

(** [src/src/p2p/magnet.rs:95-97], [TorrentSwarmHints::enhance_magnet_uri]. *)
Definition enhance_magnet_uri (h : TorrentSwarmHints) (uri : string) : res string :=
  let? link := magnet_parse uri in Ok (enhance link h).
End magnet.

(** ** Peers are read back *)

(** A peer whose host is made of visible ASCII characters. *)
Definition peer_ok (p : TorrentPeerEndpoint) : Prop :=
  is_u16 (peer_port p) ∧ peer_host p ≠ "" ∧ all_chars solid (peer_host p) = true.

Lemma rsplit_once_app c a b : rsplit_once c b = None → rsplit_once c (a +:+ String c b) = Some (a, b).
Proof.
  intros Hb. induction a as [|d a IH].
  - change ("" +:+ String c b) with (String c b). cbn. rewrite Hb.
    by rewrite (proj2 (Ascii.eqb_eq c c)).
  - change (String d a +:+ String c b) with (String d (a +:+ String c b)). cbn. by rewrite IH.
Qed.
Lemma rsplit_digits b : all_chars Chr.is_digit b = true → rsplit_once ":"%char b = None.
Proof.
  induction b as [|d b IH]; [done|]. cbn [all_chars rsplit_once]. intros [Hd Hb]%andb_true_iff.
  rewrite IH by done. destruct (Ascii.eqb ":" d) eqn:E; [|done].
  apply Ascii.eqb_eq in E. by subst d.
Qed.

Lemma peer_parse_to_string p : peer_ok p → peer_parse (peer_to_string p) = Ok p.
Proof.
  destruct p as [host port]. intros (Hport & Hne & Hsolid). cbn in Hport, Hne, Hsolid.
  unfold peer_parse, peer_to_string. cbn [peer_host peer_port].
  destruct host as [|c h]; [done|]. cbn [all_chars] in Hsolid. apply andb_true_iff in Hsolid as [Hc Hh].
  assert (all_chars solid (show_u64 port) = true) as Hp.
  { eapply all_chars_impl; [|apply show_u64_digits]. apply digit_solid. }
  assert (trim (String c h) = String c h) as Hth by (by apply trim_ends).
  assert (trim (String c h +:+ ":" +:+ show_u64 port) = String c h +:+ ":" +:+ show_u64 port) as ->.
  { change (String c h +:+ ":" +:+ show_u64 port) with (String c (h +:+ ":" +:+ show_u64 port)).
    apply trim_ends; [done|]. rewrite !all_chars_append, Hh, Hp. done. }
  change (String c h +:+ ":" +:+ show_u64 port) with (String c h +:+ String ":" (show_u64 port)).
  rewrite rsplit_once_app by (apply rsplit_digits, show_u64_digits). rewrite Hth. cbn [is_empty String.eqb].
  unfold parse_u16. rewrite parse_show; [done|exact Hport|unfold u16_max, u64_max; lia].
Qed.

(** ** A link is what its parameters say *)

Definition known_key (key : string) : bool :=
  bool_decide (key ∈ ["xt"; "dn"; "tr"; "x.pe"; "ws"; "xs"]).
Fixpoint parse_peers (values : list string) : res (list TorrentPeerEndpoint) :=
  match values with
  | [] => Ok []
  | v :: values => let? p := peer_parse v in let? ps := parse_peers values in Ok (p :: ps)
  end.
(** The link with the parameters [ps] read, whose peers are [peers]. *)
Definition extended (l : MagnetLink) (ps : list MagnetParameter) (peers : list TorrentPeerEndpoint)
    : MagnetLink := {|
  ml_uri := ml_uri l;
  ml_exact_topics := ml_exact_topics l ++ (parse_exact_topic <$> values_for_key ps "xt");
  ml_display_name := foldl (λ _ v, Some v) (ml_display_name l) (values_for_key ps "dn");
  ml_trackers := foldl push_text (ml_trackers l) (values_for_key ps "tr");
  ml_peers := ml_peers l ++ peers;
  ml_web_seeds := foldl push_text (ml_web_seeds l) (values_for_key ps "ws");
  ml_exact_sources := foldl push_text (ml_exact_sources l) (values_for_key ps "xs");
  ml_extensions := ml_extensions l ++ filterb (λ p, negb (known_key p.1)) ps;
  ml_params := ml_params l ++ ps
|}.

Lemma values_cons k k' v ps :
  values_for_key ((k', v) :: ps) k = if String.eqb k' k then v :: values_for_key ps k else values_for_key ps k.
Proof. unfold values_for_key. rewrite filterb_cons. cbn. by destruct (String.eqb k' k). Qed.
Lemma values_app k ps qs : values_for_key (ps ++ qs) k = values_for_key ps k ++ values_for_key qs k.
Proof. unfold values_for_key. by rewrite filterb_app, fmap_app. Qed.
Lemma values_of k k' vs : values_for_key (pair k' <$> vs) k = if String.eqb k' k then vs else [].
Proof.
  induction vs as [|v vs IH]; [by destruct (String.eqb k' k)|]. rewrite fmap_cons, values_cons, IH.
  by destruct (String.eqb k' k).
Qed.

Lemma extended_nil l : extended l [] [] = l.
Proof. unfold extended. cbn. rewrite !app_nil_r. by destruct l. Qed.

Lemma magnet_parameters_eq l ps :
  magnet_parameters l ps =
    let? peers := parse_peers (values_for_key ps "x.pe") in Ok (extended l ps peers).
Proof.
  revert l. induction ps as [|[k v] ps IH]; intros l; cbn [magnet_parameters].
  { cbn. by rewrite extended_nil. }
  rewrite values_cons. unfold magnet_parameter.
  destruct (String.eqb k "x.pe") eqn:Ek.
  { apply String.eqb_eq in Ek as ->. cbn [String.eqb Ascii.eqb Bool.eqb result_bind parse_peers].
    destruct (peer_parse v) as [p|e]; [|done]. cbn [result_bind]. rewrite IH.
    destruct (parse_peers _) as [peers|e]; [|done]. cbn [result_bind]. f_equal.
    unfold extended. rewrite filterb_cons, !values_cons. cbn. by rewrite <- !(assoc_L (++)). }
  destruct (decide (known_key k = true)) as [Hk|Hk].
  - unfold known_key in Hk. apply bool_decide_eq_true in Hk. rewrite !elem_of_cons, elem_of_nil in Hk.
    destruct Hk as [->|[->|[->|[->|[->|[->|[]]]]]]]; try discriminate Ek.
    all: cbn [String.eqb Ascii.eqb Bool.eqb result_bind]; rewrite IH; destruct (parse_peers _); [|done];
      cbn [result_bind]; f_equal; unfold extended, update; rewrite filterb_cons, !values_cons; cbn;
      by rewrite <- ?(assoc_L (++)).
  - apply not_true_iff_false in Hk. pose proof Hk as Hnot. unfold known_key in Hnot.
    apply bool_decide_eq_false in Hnot. rewrite !elem_of_cons, elem_of_nil in Hnot.
    assert (∀ w, w ∈ ["xt"; "dn"; "tr"; "x.pe"; "ws"; "xs"] → String.eqb k w = false) as Hw.
    { intros w Hin. apply String.eqb_neq. intros ->. apply bool_decide_eq_false in Hk. done. }
    rewrite !Hw by set_solver. cbn [result_bind]. rewrite IH. destruct (parse_peers _); [|done].
    cbn [result_bind]. f_equal. unfold extended, update. rewrite filterb_cons, !values_cons.
    rewrite !Hw by set_solver. cbn. rewrite Hk. cbn. by rewrite <- !(assoc_L (++)).
Qed.

(** ** What a link is enhanced with *)

Lemma add_missing_spec key values seen pairs :
  ∃ new, add_missing key values seen pairs = pairs ++ (pair key <$> new) ∧
    (∀ v, v ∈ new → v ∈ values) ∧ (∀ v, v ∈ values → v ∈ seen ∨ v ∈ new).
Proof.
  revert seen pairs. induction values as [|v values IH]; intros seen pairs; cbn [add_missing].
  { exists []. rewrite app_nil_r. set_solver. }
  case_bool_decide as Hv.
  - destruct (IH seen pairs) as (new & E & Hin & Hall). exists new. set_solver.
  - destruct (IH (v :: seen) (pairs ++ [(key, v)])) as (new & E & Hin & Hall).
    exists (v :: new). rewrite E, <- (assoc_L (++)). split; [done|]. set_solver.
Qed.
Lemma add_missing_none key values seen pairs :
  (∀ v, v ∈ values → v ∈ seen) → add_missing key values seen pairs = pairs.
Proof.
  intros Hall. induction values as [|v values IH]; cbn [add_missing]; [done|].
  rewrite bool_decide_eq_true_2 by (apply Hall; set_solver). apply IH. set_solver.
Qed.

Lemma elem_of_push_text l v t : t ∈ push_text l v ↔ t ∈ l ∨ (t = trim v ∧ t ≠ "").
Proof.
  unfold push_text. destruct (negb (is_empty (trim v)) && negb (bool_decide (trim v ∈ l)))%bool eqn:E.
  - apply andb_true_iff in E as [E _]. apply negb_true_iff, String.eqb_neq in E. set_solver.
  - split; [by left|]. intros [?|[-> Ht]]; [done|]. apply andb_false_iff in E as [E|E].
    + apply negb_false_iff, String.eqb_eq in E. done.
    + by apply negb_false_iff, bool_decide_eq_true in E.
Qed.
Lemma elem_of_push_texts l vs t :
  t ∈ foldl push_text l vs ↔ t ∈ l ∨ (t ≠ "" ∧ ∃ v, v ∈ vs ∧ t = trim v).
Proof.
  revert l. induction vs as [|v vs IH]; intros l; cbn; [set_solver|].
  rewrite IH, elem_of_push_text. setoid_rewrite elem_of_cons. naive_solver.
Qed.
Lemma parse_peers_elem values ps v p :
  parse_peers values = Ok ps → v ∈ values → peer_parse v = Ok p → p ∈ ps.
Proof.
  revert ps. induction values as [|w values IH]; intros ps Hps Hv Hp; [set_solver|]. cbn in Hps.
  destruct (peer_parse w) as [q|] eqn:Hw; [|done]. destruct (parse_peers values) as [qs|]; [|done].
  injection Hps as <-. apply elem_of_cons in Hv as [->|Hv]; [|set_solver].
  rewrite Hp in Hw. injection Hw as ->. set_solver.
Qed.
Lemma parse_peers_app vs ws ps qs :
  parse_peers vs = Ok ps → parse_peers ws = Ok qs → parse_peers (vs ++ ws) = Ok (ps ++ qs).
Proof.
  intros Hvs Hws. revert ps Hvs. induction vs as [|v vs IH]; intros ps Hvs; cbn in *.
  - by injection Hvs as <-.
  - destruct (peer_parse v); [|done]. destruct (parse_peers vs); [|done]. injection Hvs as <-.
    cbn. by rewrite (IH _ eq_refl).
Qed.
(** The texts of peers are read back. *)
Lemma parse_peers_ok vs peers :
  Forall peer_ok peers → (∀ v, v ∈ vs → v ∈ peer_to_string <$> peers) →
  ∃ ps, parse_peers vs = Ok ps ∧ (∀ p, p ∈ ps → p ∈ peers) ∧
    ∀ p, p ∈ peers → peer_to_string p ∈ vs → p ∈ ps.
Proof.
  intros Hok. induction vs as [|v vs IH]; intros Hvs; [exists []; set_solver|].
  destruct IH as (ps & E & Hin & Hall); [set_solver|].
  destruct (list_elem_of_fmap_1 peer_to_string peers v) as (p & -> & Hp); [set_solver|].
  rewrite Forall_forall in Hok. pose proof (peer_parse_to_string p (Hok p Hp)) as Hpp.
  exists (p :: ps). cbn. rewrite Hpp, E. split; [done|]. split; [set_solver|].
  intros q Hq. rewrite !elem_of_cons. intros [Hqv|Hqv]; [left|right; by apply Hall].
  pose proof (peer_parse_to_string q (Hok q Hq)) as Hqq. rewrite Hqv, Hpp in Hqq. by injection Hqq.
Qed.

(** The url crate reads the queries that the form_urlencoded crate writes. *)
Class FormLaws `{UrlLib} `{FormLib} : Prop :=
  form_read pairs : ∃ u, url_parse ("magnet:?" +:+ form_urlencoded pairs) = Ok u ∧
    url_scheme u = "magnet" ∧ url_query_pairs u = pairs.

Section enhancing.
Context `{FormLaws}.

Definition empty_link (uri : string) : MagnetLink := mk_magnet uri [] None [] [] [] [] [] [].

Lemma magnet_parse_inv uri link :
  magnet_parse uri = Ok link →
  ∃ ps peers, parse_peers (values_for_key ps "x.pe") = Ok peers ∧ link = extended (empty_link uri) ps peers.
Proof.
  unfold magnet_parse. destruct (url_parse uri) as [u|]; [|done].
  destruct (negb _); [done|]. rewrite magnet_parameters_eq. intros Hl.
  destruct (parse_peers _) as [peers|] eqn:E; [|done]. injection Hl as <-. by exists (url_query_pairs u), peers.
Qed.
Lemma magnet_parse_written ps peers :
  parse_peers (values_for_key ps "x.pe") = Ok peers →
  let uri := "magnet:?" +:+ form_urlencoded ps in
  magnet_parse uri = Ok (extended (empty_link uri) ps peers).
Proof.
  intros E uri. destruct (form_read ps) as (u & Hu & Hs & Hq). unfold magnet_parse. fold uri in Hu.
  rewrite Hu, Hs, Hq. cbn [String.eqb Ascii.eqb Bool.eqb negb]. by rewrite magnet_parameters_eq, E.
Qed.

(** The parameters of a link with trackers, peers and web seeds appended. *)
Definition enhanced (ps : list MagnetParameter) (tr pe ws : list string) : list MagnetParameter :=
  ((ps ++ (pair "tr" <$> tr)) ++ (pair "x.pe" <$> pe)) ++ (pair "ws" <$> ws).
Lemma enhanced_values k ps tr pe ws :
  values_for_key (enhanced ps tr pe ws) k =
    values_for_key ps k ++ (if String.eqb "tr" k then tr else []) ++
    (if String.eqb "x.pe" k then pe else []) ++ (if String.eqb "ws" k then ws else []).
Proof. unfold enhanced. rewrite !values_app, !values_of. by rewrite <- !(assoc_L (++)). Qed.
Lemma enhanced_unknown ps tr pe ws :
  filterb (λ p, negb (known_key p.1)) (enhanced ps tr pe ws) = filterb (λ p, negb (known_key p.1)) ps.
Proof.
  assert (∀ k vs, known_key k = true → filterb (λ p, negb (known_key p.1)) (pair k <$> vs : list MagnetParameter) = []) as Hk.
  { intros k vs Hk. apply filterb_none. intros p (v & -> & _)%list_elem_of_fmap. cbn. by rewrite Hk. }
  unfold enhanced. rewrite !filterb_app, !Hk by done. by rewrite !app_nil_r.
Qed.
Definition missing (values seen new : list string) : Prop :=
  (∀ v, v ∈ new → v ∈ values) ∧ (∀ v, v ∈ values → v ∈ seen ∨ v ∈ new).
Lemma enhanced_params link hints :
  ∃ tr pe ws, enhance link hints = "magnet:?" +:+ form_urlencoded (enhanced (ml_params link) tr pe ws) ∧
    missing (th_trackers hints) (values_for_key (ml_params link) "tr") tr ∧
    missing (peer_to_string <$> th_peers hints) (values_for_key (ml_params link) "x.pe") pe ∧
    missing (th_web_seeds hints) (values_for_key (ml_params link) "ws") ws.
Proof.
  unfold enhance. set (ps := ml_params link).
  destruct (add_missing_spec "tr" (th_trackers hints) (values_for_key ps "tr") ps) as (tr & -> & ? & ?).
  destruct (add_missing_spec "x.pe" (peer_to_string <$> th_peers hints) (values_for_key ps "x.pe")
    (ps ++ (pair "tr" <$> tr))) as (pe & -> & ? & ?).
  destruct (add_missing_spec "ws" (th_web_seeds hints) (values_for_key ps "ws")
    ((ps ++ (pair "tr" <$> tr)) ++ (pair "x.pe" <$> pe))) as (ws & -> & ? & ?).
  exists tr, pe, ws. done.
Qed.

(** C38. Enhancing a magnet link.  The link with the hints written into it is a
    magnet link again, of the same content, with the trackers, peers and web seeds
    that it had and those of the hints, blank ones apart; and enhancing it again
    with the same hints changes nothing. *)
Theorem enhance_spec uri link hints :
  magnet_parse uri = Ok link → Forall peer_ok (th_peers hints) →
  ∃ link', magnet_parse (enhance link hints) = Ok link' ∧
    ml_exact_topics link' = ml_exact_topics link ∧ ml_display_name link' = ml_display_name link ∧
    ml_exact_sources link' = ml_exact_sources link ∧ ml_extensions link' = ml_extensions link ∧
    (∀ t, t ∈ ml_trackers link' ↔
       t ∈ ml_trackers link ∨ (t ≠ "" ∧ ∃ v, v ∈ th_trackers hints ∧ t = trim v)) ∧
    (∀ p, p ∈ ml_peers link' ↔ p ∈ ml_peers link ∨ p ∈ th_peers hints) ∧
    (∀ t, t ∈ ml_web_seeds link' ↔
       t ∈ ml_web_seeds link ∨ (t ≠ "" ∧ ∃ v, v ∈ th_web_seeds hints ∧ t = trim v)) ∧
    enhance link' hints = enhance link hints.
Proof.
  intros (ps & peers & Hpeers & ->)%magnet_parse_inv Hok.
  destruct (enhanced_params (extended (empty_link uri) ps peers) hints) as (tr & pe & ws & -> & Htr & Hpe & Hws).
  cbn [extended ml_params empty_link app] in *.
  destruct (parse_peers_ok pe (th_peers hints) Hok) as (new & Enew & Hnew & Hnew'); [apply Hpe|].
  set (qs := enhanced ps tr pe ws).
  assert (parse_peers (values_for_key qs "x.pe") = Ok (peers ++ new)) as Eqs.
  { unfold qs. rewrite enhanced_values. cbn. rewrite app_nil_r. by apply parse_peers_app. }
  eexists. split; [by apply magnet_parse_written|].
  cbn [extended ml_exact_topics ml_display_name ml_exact_sources ml_extensions ml_trackers ml_peers
    ml_web_seeds empty_link app].
  rewrite <- (enhanced_unknown ps tr pe ws). fold qs.
  assert (∀ k, k ∉ ["tr"; "x.pe"; "ws"] → values_for_key qs k = values_for_key ps k) as Hsame.
  { intros k Hk. unfold qs. rewrite enhanced_values.
    rewrite !(proj2 (String.eqb_neq _ k)) by set_solver. by rewrite !app_nil_r. }
  assert (∀ t vs k seen added, missing vs seen added → seen = values_for_key ps k →
    values_for_key qs k = seen ++ added →
    (t ∈ foldl push_text [] (values_for_key qs k) ↔
     t ∈ foldl push_text [] seen ∨ (t ≠ "" ∧ ∃ v, v ∈ vs ∧ t = trim v))) as Htexts.
  { intros t vs k seen added [Hin Hall] _ ->. rewrite !elem_of_push_texts. setoid_rewrite elem_of_app.
    set_solver. }
  split_and!.
  - rewrite Hsame by set_solver. done.
  - rewrite Hsame by set_solver. done.
  - rewrite Hsame by set_solver. done.
  - done.
  - intros t. eapply Htexts; [exact Htr|done|]. unfold qs. rewrite enhanced_values. cbn. by rewrite app_nil_r.
  - intros p. rewrite elem_of_app. split; [intros [?|?%Hnew]; [by left|by right]|].
    intros [?|Hp]; [by left|]. destruct (proj2 Hpe (peer_to_string p)) as [Hseen|Hp']; [set_solver|left|right].
    + eapply parse_peers_elem; [exact Hpeers|exact Hseen|]. apply peer_parse_to_string.
      rewrite Forall_forall in Hok. by apply Hok.
    + by apply Hnew'.
  - intros t. eapply Htexts; [exact Hws|done|]. unfold qs. by rewrite enhanced_values.
  - unfold enhance. cbn [extended ml_params empty_link app].
    assert (∀ vs k added, missing vs (values_for_key ps k) added → values_for_key qs k = values_for_key ps k ++ added →
      ∀ v, v ∈ vs → v ∈ values_for_key qs k) as Hin.
    { intros vs k added [_ Hall] -> v Hv. rewrite elem_of_app. by apply Hall. }
    rewrite (add_missing_none "tr"); [rewrite (add_missing_none "x.pe"); [rewrite (add_missing_none "ws"); [done|]|]|].
    + eapply Hin; [exact Hws|]. unfold qs. by rewrite enhanced_values.
    + eapply Hin; [exact Hpe|]. unfold qs. rewrite enhanced_values. cbn. by rewrite app_nil_r.
    + eapply Hin; [exact Htr|]. unfold qs. rewrite enhanced_values. cbn. by rewrite app_nil_r.
Qed.
End enhancing.

(** ** Examples

    Queries written as the bits of a number that stands for their pairs. *)

Fixpoint bits (p : positive) : string :=
  match p with xH => "" | xO p => String "0" (bits p) | xI p => String "1" (bits p) end.
Fixpoint of_bits (s : string) : positive :=
  match s with
  | EmptyString => xH
  | String c s => if Ascii.eqb c "1" then xI (of_bits s) else xO (of_bits s)
  end.
Lemma of_bits_bits p : of_bits (bits p) = p.
Proof. induction p as [p IH|p IH|]; cbn; by rewrite ?IH. Qed.

#[local] Instance bit_urls : UrlLib := {
  Url := list (string * string);
  url_parse s :=
    match strip_prefix "magnet:?" s with
    | Some q => Ok (default [] (decode (of_bits q)))
    | None => Err RelativeUrlWithoutBase
    end;
  url_scheme _ := "magnet";
  url_path_segments _ := None;
  url_query_pairs u := u
}.
#[local] Instance bit_forms : FormLib := { form_urlencoded pairs := bits (encode pairs) }.
#[local] Instance bit_laws : FormLaws.
Proof.
  intros pairs. exists pairs. cbn -[strip_prefix encode decode].
  by rewrite strip_prefix_append, of_bits_bits, decode_encode.
Qed.

Definition example_link : MagnetLink :=
  extended (empty_link "magnet:") [("xt", "urn:btih:AB"); ("tr", "udp://t")] [].
Definition example_hints : TorrentSwarmHints :=
  mk_hints ["udp://t"; "udp://u"] [mk_peer "127.0.0.1" 6881] [].

Lemma enhance_spec_witness :
  ∃ link', magnet_parse (enhance (example_link <| ml_uri := "" |>) example_hints) = Ok link' ∧
    ml_exact_topics link' = [Btih "ab"] ∧ mk_peer "127.0.0.1" 6881 ∈ ml_peers link' ∧
    "udp://u" ∈ ml_trackers link'.
Proof.
  set (ps := [("xt", "urn:btih:AB"); ("tr", "udp://t")]).
  destruct (enhance_spec ("magnet:?" +:+ form_urlencoded ps)
    (extended (empty_link ("magnet:?" +:+ form_urlencoded ps)) ps []) example_hints)
    as (link' & E & Ht & _ & _ & _ & Htr & Hp & _).
  - by apply magnet_parse_written.
  - constructor; [|constructor]. split_and!; [unfold is_u16, u16_max; cbn; lia|done|by vm_compute].
  - exists link'. split_and!; [exact E|exact Ht|apply Hp; right; set_solver|].
    apply Htr. right. split; [done|]. exists "udp://u". split; [set_solver|by vm_compute].
Defined.
