(* ===== verification/RateLimiter.v ===== *)
(** * The download rate limit ([src/src/rate_limiter.rs])

    Every piece of data that a worker has received reserves the time that it may
    take at the limit, from the end of the reservation before it or from now on,
    and waits for that time to begin.  Instants and durations are in nanoseconds.
    What happens to the limiter while one waits is an argument. *)

From Stdlib Require Import SpecFloat.
From S2P Require Import Prelude Text Float Config.

(** [src/src/rate_limiter.rs:6-10], [DownloadRateLimiter]. *)
Record DownloadRateLimiter := mk_limiter { bytes_per_second : Z; next_available_at : Z }.
#[export] Instance DownloadRateLimiter_eta : Settable DownloadRateLimiter := λ l,
  mk_limiter (bytes_per_second l) (next_available_at l).

(** [src/src/rate_limiter.rs:71-75], [kib_to_bytes]. The limit is not zero. *)
Definition kib_to_bytes (limit_kib_per_sec : option Z) : Z :=
  unwrap_or 0 ((λ value, sat_mul value 1024) <$> limit_kib_per_sec).

(** [Duration::from_secs_f64], for numbers that are not negative: to the nearest nanosecond, and to
    the even one of two. *)
Definition duration_from_secs_f64 (x : spec_float) : Z :=
  match x with
  | S754_finite false m e =>
      if 0 <=? e then Z.pos m * 2 ^ e * 1000000000
      else round_half_even (Z.pos m * 1000000000) (2 ^ (- e))
  | _ => 0
  end.

(** [src/src/rate_limiter.rs:77-79], [duration_for]. *)
Definition duration_for (bytes bytes_per_second : Z) : Z :=
  duration_from_secs_f64 (SFdiv 53 1024 (f64_of bytes) (f64_of bytes_per_second)).

(** [src/src/rate_limiter.rs:13-20], [DownloadRateLimiter::new]. *)
Definition limiter_new (limit_kib_per_sec : option Z) (now : Z) : DownloadRateLimiter :=
  mk_limiter (kib_to_bytes limit_kib_per_sec) now.

(** [src/src/rate_limiter.rs:22-27], [DownloadRateLimiter::set_limit_kib_per_sec]. *)
Definition set_limit_kib_per_sec (limit_kib_per_sec : option Z) (now : Z) (l : DownloadRateLimiter)
    : DownloadRateLimiter :=
  l <| bytes_per_second := kib_to_bytes limit_kib_per_sec |> <| next_available_at := now |>.

(** [src/src/rate_limiter.rs:29-36], [DownloadRateLimiter::current_limit_kib_per_sec]. *)
Definition current_limit_kib_per_sec (l : DownloadRateLimiter) : option Z :=
  if bytes_per_second l =? 0 then None else Some (bytes_per_second l / 1024).

(** [src/src/rate_limiter.rs:45-58], [DownloadRateLimiter::acquire (loop)]. The slot that is reserved,
    if there is a limit. *)
Definition reserve (bytes now : Z) (l : DownloadRateLimiter) : option Z * DownloadRateLimiter :=
  if bytes_per_second l =? 0 then (None, l)
  else
    let reservation := duration_for bytes (bytes_per_second l) in
    let slot := Z.max (next_available_at l) now in
    (Some slot, l <| next_available_at := slot + reservation |>).

(** [src/src/rate_limiter.rs:38-68], [DownloadRateLimiter::acquire]. When it returns, and the limiter
    then. While it waits the limiter changes, and news of a new limit wakes it at the given times. *)
Fixpoint acquire (bytes now : Z) (updates : list (Z * (DownloadRateLimiter → DownloadRateLimiter)))
    (l : DownloadRateLimiter) : Z * DownloadRateLimiter :=
  if bytes =? 0 then (now, l)
  else
    match reserve bytes now l with
    | (None, l) => (now, l)
    | (Some wait_until, l) =>
        match updates with
        | [] => (Z.max now wait_until, l)
        | (t, change) :: updates => acquire bytes t updates (change l)
        end
    end.

(** Acquisitions, one after another, without a change of the limit: when each may go on. *)
Fixpoint acquire_all (requests : list (Z * Z)) (l : DownloadRateLimiter) : list Z * DownloadRateLimiter :=
  match requests with
  | [] => ([], l)
  | (bytes, now) :: requests =>
      let '(t, l) := acquire bytes now [] l in
      let '(ts, l) := acquire_all requests l in
      (t :: ts, l)
  end.

(** ** The limit is kept *)

Lemma round_half_even_nonneg n d : 0 ≤ n → 0 < d → 0 ≤ round_half_even n d.
Proof.
  intros Hn Hd. unfold round_half_even. pose proof (Z.div_pos n d Hn Hd).
  repeat case_match; lia.
Qed.
Lemma duration_nonneg x : 0 ≤ duration_from_secs_f64 x.
Proof.
  unfold duration_from_secs_f64. destruct x as [| | |[] m e]; try done.
  destruct (0 <=? e) eqn:He; [pose proof (Z.pow_nonneg 2 e); lia|].
  apply round_half_even_nonneg; [lia|]. apply Z.pow_pos_nonneg; lia.
Qed.

(** The time the limit gives to some requests. *)
Definition time_for (bps : Z) (requests : list (Z * Z)) : Z :=
  zsum ((λ r, duration_for r.1 bps) <$> requests).

Lemma acquire_all_length requests l : length (fst (acquire_all requests l)) = length requests.
Proof.
  revert l. induction requests as [|[bytes now] requests IH]; intros l; [done|]. cbn [acquire_all].
  destruct (acquire bytes now [] l) as [t l1]. specialize (IH l1). destruct (acquire_all requests l1).
  cbn in *. by rewrite IH.
Qed.

Lemma acquire_limited bytes now l :
  bytes ≠ 0 → bytes_per_second l ≠ 0 →
  acquire bytes now [] l =
    (Z.max now (next_available_at l),
     l <| next_available_at := Z.max (next_available_at l) now + duration_for bytes (bytes_per_second l) |>).
Proof.
  intros Hb Hl. unfold acquire, reserve. apply Z.eqb_neq in Hb, Hl. rewrite Hb, Hl. f_equal. lia.
Qed.

(** A piece of data is given the time that it takes at the limit, to the nanosecond:
    the quotient of the floats is off by less than half of one, and its rounding
    by at most half of one. *)
Lemma duration_near bytes bps : 0 < bytes ≤ 2 ^ 20 → 0 < bps < 2 ^ 53 →
  bytes * 1000000000 - bps ≤ duration_for bytes bps * bps ≤ bytes * 1000000000 + bps.
Proof.
  intros Hb Hs. unfold duration_for. destruct bytes as [|a|]; [lia| |lia]. destruct bps as [|b|]; [lia| |lia].
  destruct (f64_div_near a b ltac:(lia) ltac:(lia)) as (m & k & d & Hq & Hk & Hd & Hm).
  unfold f64_div in Hq. rewrite Hq. unfold duration_from_secs_f64.
  rewrite (proj2 (Z.leb_gt _ _)) by lia. replace (- (d - k)) with (k - d) by lia.
  pose proof (Z.pow_pos_nonneg 2 (k - d) ltac:(lia) ltac:(lia)) as Hp.
  pose proof (round_half_even_near (Zpos m * 1000000000) (2 ^ (k - d)) Hp) as Hr.
  set (D := round_half_even _ _) in *.
  assert (2 ^ k = 2 ^ (k - d) * 2 ^ d) as Hk2 by (rewrite <- Z.pow_add_r by lia; f_equal; lia).
  pose proof (Z.pow_pos_nonneg 2 d ltac:(lia) ltac:(lia)) as Hpd.
  assert (2 ^ 32 ≤ 2 ^ k) as Hbig by (apply Z.pow_le_mono_r; lia).
  assert (2 * (Zpos m * 2 ^ d) * 1000000000 - 2 ^ k ≤ 2 * (D * 2 ^ k) ≤ 2 * (Zpos m * 2 ^ d) * 1000000000 + 2 ^ k)
    as Hr2 by (rewrite Hk2; nia).
  set (M := Zpos m * 2 ^ d) in *. clearbody M D. clear Hk2 Hr. generalize dependent (2 ^ k). intros K Hm HK Hr2.
  assert ((2 * (M * 1000000000) - K) * Zpos b ≤ 2 * (D * K) * Zpos b
    ≤ (2 * (M * 1000000000) + K) * Zpos b) as [Hlo Hhi] by (split; apply Z.mul_le_mono_nonneg_r; lia).
  assert (4294967296 * Zpos b ≤ K * Zpos b) by (apply Z.mul_le_mono_nonneg_r; lia).
  split; apply (Z.mul_le_mono_pos_r _ _ (2 * K)); [lia| |lia|]; lia.
Qed.

(** The data of some requests. *)
Definition bytes_of (requests : list (Z * Z)) : Z := zsum (fst <$> requests).

Lemma time_for_near bps requests : 0 < bps < 2 ^ 53 → Forall (λ r, 0 < r.1 ≤ 2 ^ 20) requests →
  bytes_of requests * 1000000000 - Z.of_nat (length requests) * bps ≤ time_for bps requests * bps
    ≤ bytes_of requests * 1000000000 + Z.of_nat (length requests) * bps.
Proof.
  intros Hb. unfold bytes_of, time_for. induction 1 as [|[bytes t] requests Hr _ IH]; [cbn; lia|].
  rewrite !fmap_cons. unfold zsum in *. cbn [foldr length fst] in *.
  pose proof (duration_near bytes bps Hr Hb). rewrite Nat2Z.inj_succ. lia.
Qed.

(** The [k]th request goes on after the time given to those before it, and the
    others as if it had been the first. *)
Lemma acquire_all_drop requests l k t r :
  bytes_per_second l ≠ 0 → Forall (λ r, 0 < r.1 ≤ 2 ^ 20) requests →
  fst (acquire_all requests l) !! k = Some t → requests !! k = Some r →
  r.2 ≤ t ∧ next_available_at l + time_for (bytes_per_second l) (take k requests) ≤ t ∧
  ∃ l', fst (acquire_all (drop (S k) requests) l') = drop (S k) (fst (acquire_all requests l)) ∧
    bytes_per_second l' = bytes_per_second l ∧
    next_available_at l' = t + duration_for r.1 (bytes_per_second l) ∧
    (Forall (λ r, r.2 ≤ next_available_at l) requests →
       t = next_available_at l + time_for (bytes_per_second l) (take k requests)).
Proof.
  intros Hl Hpos. revert l k Hl. induction Hpos as [|[bytes t0] requests Hb _ IH]; intros l k Hl; [done|].
  cbn [fst] in Hb. cbn [acquire_all]. rewrite acquire_limited by (cbn; lia).
  set (l1 := l <| next_available_at := _ |>). specialize (IH l1).
  assert (next_available_at l1
    = Z.max (next_available_at l) t0 + duration_for bytes (bytes_per_second l)) as Hn by done.
  assert (bytes_per_second l1 = bytes_per_second l) as Hs by done. clearbody l1.
  destruct (acquire_all requests l1) as [ts l2] eqn:Eall. cbn [fst] in *.
  pose proof (duration_nonneg (SFdiv 53 1024 (f64_of bytes) (f64_of (bytes_per_second l)))) as Hd.
  change (duration_from_secs_f64 _) with (duration_for bytes (bytes_per_second l)) in Hd.
  destruct k as [|k]; cbn [lookup list_lookup take drop].
  - intros [= <-] [= <-]. split_and!; [cbn; lia|unfold time_for; cbn; lia|]. exists l1. split_and!; [by rewrite !drop_0, Eall|done|by rewrite Hn; cbn; lia|].
    intros Hall. apply Forall_cons_1 in Hall as [Ht0 _]. cbn in Ht0 |- *. unfold time_for. cbn. lia.
  - intros Ht Hr. destruct (IH k ltac:(congruence) Ht Hr) as (Hnow & Hge & l' & Hts & Hs' & Hn' & Hbacklog).
    change (time_for (bytes_per_second l) ((bytes, t0) :: take k requests))
      with (duration_for bytes (bytes_per_second l) + time_for (bytes_per_second l) (take k requests)).
    rewrite Hs in *. split_and!; [done|lia|]. exists l'. split_and!; [done..|].
    intros Hall. apply Forall_cons_1 in Hall as [Ht0 Hall]. cbn in Ht0. rewrite Hbacklog.
    2: { eapply Forall_impl; [exact Hall|]. intros x Hx. cbn in Hx. lia. }
    lia.
Qed.

(** Between two requests passes the time given to the first and those between them. *)
Lemma acquire_all_between requests l i j ti tj :
  bytes_per_second l ≠ 0 → Forall (λ r, 0 < r.1 ≤ 2 ^ 20) requests → (i ≤ j)%nat →
  fst (acquire_all requests l) !! i = Some ti → fst (acquire_all requests l) !! j = Some tj →
  ti + time_for (bytes_per_second l) (take (j - i) (drop i requests)) ≤ tj.
Proof.
  intros Hl Hpos Hij Hi Hj. assert (∀ k t, fst (acquire_all requests l) !! k = Some t → is_Some (requests !! k)) as Hlook.
  { intros k t Hk. apply lookup_lt_is_Some. rewrite <- (acquire_all_length requests l). by eapply lookup_lt_Some. }
  destruct (Hlook i ti Hi) as [r Hr].
  destruct (acquire_all_drop requests l i ti r Hl Hpos Hi Hr) as (_ & _ & l' & Hts & Hs & Hnext & _).
  rewrite (drop_S requests r i Hr). destruct (j - i)%nat as [|n] eqn:En; cbn [take].
  { assert (i = j) as <- by lia. rewrite Hi in Hj. injection Hj as <-. unfold time_for. cbn. lia. }
  change (time_for (bytes_per_second l) (r :: take n (drop (S i) requests)))
    with (duration_for r.1 (bytes_per_second l) + time_for (bytes_per_second l) (take n (drop (S i) requests))).
  assert (fst (acquire_all (drop (S i) requests) l') !! n = Some tj) as Hd
    by (rewrite Hts, lookup_drop, <- Hj; f_equal; lia).
  destruct (Hlook j tj Hj) as [rj Hrj].
  assert (drop (S i) requests !! n = Some rj) as Hrn by (rewrite lookup_drop, <- Hrj; f_equal; lia).
  destruct (acquire_all_drop _ l' n tj rj ltac:(congruence) (Forall_drop _ _ _ Hpos) Hd Hrn) as (_ & Hge & _).
  rewrite Hs in Hge. lia.
Qed.

(** C39. The rate limit.  While the limit of [bps] bytes a second stays the same, no
    request for data goes on before it was made, and between any two of them, however
    many tasks and workers make them, pass no more bytes than the limit allows in the
    time between them, except for a nanosecond's worth for each request; a request
    that finds others waiting does not wait longer than that either; and a limit that
    is set is the one that is reported, as long as it fits in 64 bits when counted in
    bytes.  (A request is a slice of what has been received, of at most 16 KiB.) *)
Theorem rate_limit_spec requests l limit now :
  let bps := bytes_per_second l in
  let ts := fst (acquire_all requests l) in
  0 < bps < 2 ^ 53 → Forall (λ r, 0 < r.1 ≤ 2 ^ 20) requests →
  length ts = length requests ∧
  (∀ k t r, ts !! k = Some t → requests !! k = Some r → r.2 ≤ t ∧ next_available_at l ≤ t) ∧
  (∀ i j ti tj, (i ≤ j)%nat → ts !! i = Some ti → ts !! j = Some tj →
     bytes_of (take (j - i) (drop i requests)) * 1000000000 ≤ bps * (tj - ti + Z.of_nat (j - i))) ∧
  (Forall (λ r, r.2 ≤ next_available_at l) requests → ∀ k t, ts !! k = Some t →
     bps * (t - next_available_at l - Z.of_nat k) ≤ bytes_of (take k requests) * 1000000000) ∧
  (0 < limit → limit * 1024 ≤ u64_max →
     current_limit_kib_per_sec (set_limit_kib_per_sec (Some limit) now l) = Some limit).
Proof.
  cbn zeta. intros Hb Hpos. assert (bytes_per_second l ≠ 0) as Hl by lia.
  split; [apply acquire_all_length|]. split_and!.
  - intros k t r Ht Hr. destruct (acquire_all_drop requests l k t r Hl Hpos Ht Hr) as (? & Hge & _).
    split; [done|]. assert (0 ≤ time_for (bytes_per_second l) (take k requests)); [|lia].
    unfold time_for. generalize (take k requests). clear. intros rs.
    induction rs as [|x rs IH]; [done|]. rewrite fmap_cons. unfold zsum in *. cbn [foldr].
    pose proof (duration_nonneg (SFdiv 53 1024 (f64_of x.1) (f64_of (bytes_per_second l)))) as Hd.
    change (duration_from_secs_f64 _) with (duration_for x.1 (bytes_per_second l)) in Hd. lia.
  - intros i j ti tj Hij Hi Hj.
    pose proof (acquire_all_between requests l i j ti tj Hl Hpos Hij Hi Hj) as Hge.
    pose proof (time_for_near _ _ Hb (Forall_take _ (j - i) _ (Forall_drop _ i _ Hpos))) as Htime.
    rewrite length_take in Htime. nia.
  - intros Hall k t Ht. assert (is_Some (requests !! k)) as [r Hr].
    { apply lookup_lt_is_Some. rewrite <- (acquire_all_length requests l). by eapply lookup_lt_Some. }
    destruct (acquire_all_drop requests l k t r Hl Hpos Ht Hr) as (_ & _ & l' & _ & _ & _ & Heq).
    specialize (Heq Hall).
    pose proof (time_for_near _ _ Hb (Forall_take _ k _ Hpos)) as Htime. rewrite length_take in Htime. nia.
  - intros Hpos' Hmax. unfold current_limit_kib_per_sec, set_limit_kib_per_sec, kib_to_bytes, sat_mul, update.
    cbn. rewrite Z.min_l by done. destruct (limit * 1024 =? 0) eqn:E; [lia|]. by rewrite Z.div_mul.
Qed.

(** At a KiB a second, three KiB pass in the three seconds before the third request. *)
Definition example_requests : list (Z * Z) := [(1024, 5); (2048, 6); (1024, 7)].
Lemma rate_limit_spec_witness :
  fst (acquire_all example_requests (limiter_new (Some 1) 0)) = [5; 1000000005; 3000000005] ∧
  3072 * 1000000000 ≤ 1024 * (3000000005 - 5 + 2).
Proof.
  split; [by vm_compute|].
  destruct (rate_limit_spec example_requests (limiter_new (Some 1) 0) 1 0) as (_ & _ & Hrate & _).
  - by vm_compute.
  - repeat constructor; cbn; lia.
  - exact (Hrate 0%nat 2%nat 5 3000000005 ltac:(lia) eq_refl eq_refl).
Defined.
