(* ===== verification/Handles.v ===== *)
(** * Sessions, the tasks in the hands of a client
    ([src/src/download.rs], [src/src/coordinator/mod.rs])

    A client of the library asks the manager for the session of a task and acts on
    the task through it.  A session's operations are those of the task, which the
    manager does not see before the task's events reach it; deleting is the
    manager's, as long as there is one.  So a session that is resumed does not
    wait for a permit, as a task does that the manager resumes. *)

From S2P Require Import Prelude Text Ranges Status Effect Source Piece Files Checksum Manifest Planner Payload Torrent Config Task Speed Mapping Session Repository Memory Store Recovery Probe Job JobFacts JobStart Coordinator CoordinatorFacts System SystemFacts RateLimiter.

Section handles.
Context {St E : Type} `{Repository St} `{TorrentEngine E} `{UrlLib} `{HttpLib} `{DigestLib}.
Context `{Json DownloadSpec} `{Json SourceSet} `{Json TorrentEngineState} `{Json TorrentMetadata}.
Abbreviation the_tasks := (tasks St E).
Context `{TaskSystem the_tasks}.

(** [src/src/download.rs:31-34], [Session]. The task by its id. *)
Record Session := mk_session { se_id : Z }.
(** [src/src/download.rs:37-39], [Session::from_task]. *)
Definition from_task (t : Task) : Session := mk_session (t_id t).

(** ** Looking up tasks *)

(** [src/src/coordinator/mod.rs:350-352], [Manager::get_task_by_id]. *)
Definition get_task_by_id (id : Z) (g : Manager the_tasks) : option Task := js_task <$> ts_jobs (mg_tasks g) !! id.
(** [src/src/coordinator/mod.rs:342-344], [Manager::get_task]. *)
Definition get_task (id : Z) (g : Manager the_tasks) : option Task := get_task_by_id id g.
(** [src/src/coordinator/mod.rs:346-348], [Manager::get_session]. *)
Definition get_session (id : Z) (g : Manager the_tasks) : option Session := from_task <$> get_task id g.
(** [src/src/coordinator/mod.rs:354-356], [Manager::get_session_by_id]. *)
Definition get_session_by_id (id : Z) (g : Manager the_tasks) : option Session := from_task <$> get_task_by_id id g.
(** [src/src/coordinator/mod.rs:369-374], [Manager::get_all_tasks]. In the order of the map. *)
Definition get_all_tasks (g : Manager the_tasks) : list Task := omap (λ id, get_task_by_id id g) (sys_ids (mg_tasks g)).
(** [src/src/coordinator/mod.rs:376-381], [Manager::get_all_sessions]. *)
Definition get_all_sessions (g : Manager the_tasks) : list Session := from_task <$> get_all_tasks g.
(** [src/src/coordinator/mod.rs:358-363], [Manager::get_task_by_locator]. *)
Definition get_task_by_locator (locator : string) (g : Manager the_tasks) : option Task :=
  find_first (λ t, String.eqb (spec_locator (t_spec t)) locator) (get_all_tasks g).
(** [src/src/coordinator/mod.rs:365-367], [Manager::get_session_by_locator]. *)
Definition get_session_by_locator (locator : string) (g : Manager the_tasks) : option Session :=
  from_task <$> get_task_by_locator locator g.

(** ** Acting on tasks *)

(** [src/src/download.rs:60-62], [Session::pause]. *)
Definition session_pause (s : Session) : eff (Manager the_tasks) unit := on_tasks (sys_pause (se_id s)).
(** [src/src/download.rs:64-66], [Session::resume]. *)
Definition session_resume (s : Session) : eff (Manager the_tasks) unit := on_tasks (sys_resume (se_id s)).
(** [src/src/download.rs:68-70], [Session::cancel]. *)
Definition session_cancel (s : Session) : eff (Manager the_tasks) unit := on_tasks (sys_cancel (se_id s)).
(** [src/src/download.rs:72-79], [Session::delete]. With whether there still is a manager. *)
Definition session_delete (manager : bool) (s : Session) : eff (Manager the_tasks) unit :=
  if manager then let! _ := delete_task (se_id s) in ret tt
  else on_tasks (sys_delete (se_id s)).
End handles.

(** ** The rate limit *)

(** [src/src/coordinator/mod.rs:422-426], [Manager::set_rate_limit_kib_per_sec]. *)
Definition set_rate_limit_kib_per_sec (limit_kib_per_sec : option Z) (now : Z) (l : DownloadRateLimiter)
    : DownloadRateLimiter := set_limit_kib_per_sec limit_kib_per_sec now l.
(** [src/src/coordinator/mod.rs:428-430], [Manager::current_rate_limit_kib_per_sec]. *)
Definition current_rate_limit_kib_per_sec (l : DownloadRateLimiter) : option Z := current_limit_kib_per_sec l.

(** ** What sessions do *)
Section facts.
Context {St E : Type} `{RepositoryLaws St} `{TorrentEngine E} `{UrlLib} `{HttpLib} `{DigestLib}.
Context `{Json DownloadSpec} `{Json SourceSet} `{Json TorrentEngineState} `{Json TorrentMetadata}.
Context (config : Config) (session : option HttpSessionState) (clock : nat → DateTime)
  (send : Request → result Response string) (diagnostic_body : Task → Error → DateTime → res bytes)
  (prepare_swarm_download : eff (job_world St E) PreparationOutcome)
  (meanwhile : eff (job_world St E) unit).
#[local] Instance handles_system : TaskSystem (tasks St E) :=
  system_tasks config session clock send diagnostic_body prepare_swarm_download meanwhile.
Implicit Types (g : Manager (tasks St E)).

(** The session that is found for a locator is that of a task with this locator, and there is one
    if there is such a task. *)
Lemma session_by_locator locator g :
  (∀ t, get_task_by_locator locator g = Some t →
     spec_locator (t_spec t) = locator ∧ ∃ i j, ts_jobs (mg_tasks g) !! i = Some j ∧ js_task j = t) ∧
  (get_session_by_locator locator g = None ↔
     ∀ i j, ts_jobs (mg_tasks g) !! i = Some j → spec_locator (t_spec (js_task j)) ≠ locator).
Proof.
  assert (∀ t, t ∈ get_all_tasks g ↔ ∃ i j, ts_jobs (mg_tasks g) !! i = Some j ∧ js_task j = t) as Hall.
  { intros t. unfold get_all_tasks. rewrite list_elem_of_omap. unfold get_task_by_id. split.
    - intros (i & _ & (j & Hj & ->)%fmap_Some). eauto.
    - intros (i & j & Hj & <-). exists i. split; [|by rewrite Hj]. cbn. apply elem_of_elements, elem_of_dom. eauto. }
  unfold get_session_by_locator, get_task_by_locator. split.
  - intros t [Hin Ht]%find_first_Some. apply String.eqb_eq in Ht. split; [done|by apply Hall].
  - rewrite fmap_None, find_first_None. split.
    + intros Hn i j Hj Heq. specialize (Hn (js_task j)). rewrite Hall in Hn.
      apply String.eqb_neq in Hn; [done|eauto].
    + intros Hn t (i & j & Hj & <-)%Hall. apply String.eqb_neq. by eapply Hn.
Qed.

Hypothesis swarm_quiet : keeps (same t_permit) prepare_swarm_download.
Hypothesis meanwhile_quiet : keeps (same t_permit) meanwhile.

(** A paused task that resumes is started. *)
Lemma resume_paused (w w' : job_world St E) :
  t_status (jw_task w) = Paused → t_torrent_session (jw_task w) = None →
  supports_swarm_discovery (t_spec (jw_task w)) = false →
  Job.resume config true true clock send prepare_swarm_download meanwhile w = (Ok tt, w') →
  t_status (jw_task w') = Running ∨ is_terminal (t_status (jw_task w')) = true.
Proof.
  intros Hst Hs Hspec Hrun. unfold Job.resume, eff_bind at 1, the_job at 1, gets at 1 in Hrun. rewrite Hst in Hrun.
  unfold eff_bind at 1, the_job at 1, gets at 1 in Hrun. rewrite Hs in Hrun. cbn [is_some andb] in Hrun.
  apply eff_bind_inv in Hrun as ([] & w1 & E1 & Hrun). apply eff_bind_inv in Hrun as ([] & w2 & E2 & Hrun).
  assert (same t_spec w w1) as Hs1 by by injection E1 as <-.
  assert (same t_spec w1 w2) as Hs2.
  { assert (keeps (same t_spec) (Job.persist_task (St:=St) (E:=E) true clock)) as Hk
      by (unfold Job.persist_task; repeat same_step).
    specialize (Hk w1). by rewrite E2 in Hk. }
  destruct (start_ignores_others config clock send prepare_swarm_download meanwhile w2 w') as [[? _]|?]; [|done|auto..].
  unfold same in *. congruence.
Qed.

Lemma resumed_session i j g :
  ts_jobs (mg_tasks g) !! i = Some j → t_permit (js_task j) = false →
  t_status (js_task j) = Paused → t_torrent_session (js_task j) = None →
  supports_swarm_discovery (t_spec (js_task j)) = false → mg_semaphore g = 0 →
  (∃ g', resume_task i g = (Ok i, g') ∧ mg_tasks g' = mg_tasks g ∧ (i, PaResume) ∈ mg_pending_queue g') ∧
  (∀ g', session_resume (mk_session i) g = (Ok tt, g') →
     mg_semaphore g' = 0 ∧ sys_permits (mg_tasks g') = sys_permits (mg_tasks g) ∧
     mg_pending_queue g' = mg_pending_queue g ∧
     ∃ j', ts_jobs (mg_tasks g') !! i = Some j' ∧ t_permit (js_task j') = false ∧
       (t_status (js_task j') = Running ∨ is_terminal (t_status (js_task j')) = true)).
Proof.
  intros Hj Hp Hst Hs Hspec Hz.
  pose proof (the_system_laws config session clock send diagnostic_body prepare_swarm_download meanwhile
    swarm_quiet meanwhile_quiet) as Hlaws. fold handles_system in Hlaws. split.
  - destruct (transition_waits i PaResume g Hz) as [E1 Hq]. eexists. split; [exact E1|]. split; [|exact Hq].
    unfold enqueue_task_action, modify. cbn. by case_match.
  - intros g' Hrun. unfold session_resume, on_tasks in Hrun. cbn [se_id] in Hrun.
    pose proof (sys_resume_quiet i (mg_tasks g)) as [_ Hq].
    destruct (sys_resume i (mg_tasks g)) as [r w] eqn:Er. cbn [snd] in Hq. injection Hrun as -> <-.
    unfold update. cbn. unfold held. rewrite Hq. split_and!; [lia|done|done|].
    cbn in Er. unfold on_task in Er. rewrite Hj in Er.
    destruct (Job.resume _ _ _ _ _ _ _ (world_of (mg_tasks g) j)) as [r w1] eqn:E1. injection Er as -> <-.
    exists (state_of w1). split; [cbn; apply lookup_insert_eq|]. split.
    + pose proof (permit_resume config clock send prepare_swarm_download meanwhile swarm_quiet meanwhile_quiet
        (world_of (mg_tasks g) j)) as Hk. unfold same in Hk. rewrite E1 in Hk. cbn in Hk |- *. congruence.
    + eapply resume_paused; [| | |exact E1]; done.
Qed.

(** C17. A session does not wait for its turn.  When no permit is left, a paused
    task that the manager is asked to resume waits in its queue and stays as it is.
    Resumed through its session, the same task is started at once, and runs without
    a permit: neither the permits nor the queue change.  So more tasks can run than
    the configured number. *)
Theorem session_resume_spec i j g :
  ts_jobs (mg_tasks g) !! i = Some j → t_permit (js_task j) = false →
  t_status (js_task j) = Paused → t_torrent_session (js_task j) = None →
  supports_swarm_discovery (t_spec (js_task j)) = false → mg_semaphore g = 0 →
  (∃ g', resume_task i g = (Ok i, g') ∧ mg_tasks g' = mg_tasks g ∧ (i, PaResume) ∈ mg_pending_queue g') ∧
  (∀ g', session_resume (mk_session i) g = (Ok tt, g') →
     mg_semaphore g' = 0 ∧ sys_permits (mg_tasks g') = sys_permits (mg_tasks g) ∧
     mg_pending_queue g' = mg_pending_queue g ∧
     ∃ j', ts_jobs (mg_tasks g') !! i = Some j' ∧ t_permit (js_task j') = false ∧
       (t_status (js_task j') = Running ∨ is_terminal (t_status (js_task j')) = true)).
Proof. apply resumed_session. Qed.
End facts.

(** ** Examples *)

#[local] Existing Instances spec_codec sources_codec state_codec metadata_codec.
#[local] Existing Instances idle_engine example_digests example_http no_urls.

(** A paused task besides one that runs with the only permit. *)
Definition paused_task : Task :=
  Task_new 1 (SpecHttp "http://h/f") (Some "f") (Some "/f") None HttpRequestOptions_default
    (Some (single_primary (example_source "a" "http://h/f"))) None None (Some Paused) (Some 0) (Some 10) None
    [] None None 0.
Definition two_tasks : Manager (tasks MemoryRepository unit) :=
  mk_manager (mk_tasks {[1 := mk_job_state paused_task ∅ [] []; 2 := mk_job_state (running_task <| t_id := 2 |>) ∅ [] []]}
    no_files memory_new tt [] 0) [] ∅ 0 0 0.

#[local] Instance example_handles : TaskSystem (tasks MemoryRepository unit) :=
  handles_system Config_default None tick example_send no_body no_swarm (ret tt).

Lemma session_resume_spec_witness :
  ∃ g', session_resume (mk_session 1) two_tasks = (Ok tt, g') ∧ sys_permits (mg_tasks g') = {[2]} ∧
    map_to_list ((λ j, t_status (js_task j)) <$> ts_jobs (mg_tasks g')) = [(2, Running); (1, Running)].
Proof.
  destruct (session_resume_spec Config_default None tick example_send no_body no_swarm (ret tt)
    ltac:(by intros ?) ltac:(by intros ?) 1 (mk_job_state paused_task ∅ [] []) two_tasks) as [_ Hs];
    [vm_compute; reflexivity..|].
  assert (fst (session_resume (mk_session 1) two_tasks) = Ok tt) as Hok by (vm_compute; reflexivity).
  assert (map_to_list ((λ j, t_status (js_task j)) <$> ts_jobs (mg_tasks (snd (session_resume (mk_session 1) two_tasks))))
    = [(2, Running); (1, Running)]) as Hl by (vm_compute; reflexivity).
  destruct (session_resume (mk_session 1) two_tasks) as [r g']. cbn [fst snd] in Hok, Hl. subst r.
  exists g'. destruct (Hs g' eq_refl) as (_ & Hp & _). split; [done|]. split; [|exact Hl].
  etransitivity; [exact Hp|]. vm_compute. reflexivity.
Defined.
