(* ===== verification/Discovery.v ===== *)
(** * Discovering torrents in texts ([src/src/discovery/swarm.rs])

    The magnet links, torrent files and trackers that a page, a feed or a text
    names.  A feed's entries have bodies that are looked through in the same way,
    so the functions call each other; that the bodies of a feed are shorter than
    the feed is what their recursion relies on to end.

    Parsing HTML and feeds, and matching the two regular expressions, are the
    scraper, feed-rs and regex crates: parameters, as is the URL parser. *)

From S2P Require Import Prelude Text Status Source Config Magnet.

(** [src/src/discovery/swarm.rs:20-24], [TorrentDiscoveryOptions]. *)
Record DiscoveryOptions := mk_options {
  do_input_kind : TorrentDiscoveryInputKind;
  do_base_url : option string;
  do_base_path : option string
}.
#[export] Instance DiscoveryOptions_eta : Settable DiscoveryOptions := λ o,
  mk_options (do_input_kind o) (do_base_url o) (do_base_path o).
(** [src/src/discovery/swarm.rs:27-33], [TorrentDiscoveryOptions::default]. *)
Definition DiscoveryOptions_default : DiscoveryOptions := mk_options InputAuto None None.

(** [src/src/discovery/swarm.rs:37-42], [TorrentDiscoveryKind]. *)
Inductive DiscoveryKind := DkMagnet | DkTorrentFile | DkTracker | DkWebSeed.
#[export] Instance DiscoveryKind_eq_dec : EqDecision DiscoveryKind.
Proof. solve_decision. Defined.
(** [src/src/discovery/swarm.rs:45-50], [TorrentDiscoveryCandidate]. *)
Record DiscoveryCandidate := mk_discovered {
  dk_kind : DiscoveryKind;
  dk_locator : string;
  dk_display_name : option string;
  dk_source : string
}.

(** What is used of an entry of a feed: its title, the targets of its links, its summary, and the
    body of its content. *)
Record FeedEntry := mk_entry {
  fe_title : option string;
  fe_links : list string;
  fe_summary : option string;
  fe_body : option string
}.

(** The crates. [html_links] gives the elements that the selector [a[href], area[href], link[href]]
    finds, with their targets and texts; the matches of a regular expression are in order. *)
Class DiscoveryLib `{UrlLib} := {
  html_links : string → list (string * list string);
  feed_parse : string → result (list FeedEntry) string;
  magnet_regex_matches : string → list string;
  url_regex_matches : string → list string;
  url_to_string : Url → string;
  url_join : Url → string → option Url;
  url_to_file_path : Url → option string;
  url_path : Url → string
}.

(** [src/src/discovery/swarm.rs:304-306], [strip_trailing_punctuation]. *)
Definition strip_trailing_punctuation (value : string) : string :=
  trim_end_chars (λ c, bool_decide (c ∈ ["."; ","; ";"; ")"; "]"]%char)) value.
(** [src/src/discovery/swarm.rs:300-302], [non_empty]. *)
Definition non_empty (value : string) : option string := if negb (is_empty value) then Some value else None.

Definition discovery_key (c : DiscoveryCandidate) : DiscoveryKind * string := (dk_kind c, dk_locator c).
(** [src/src/discovery/swarm.rs:289-298], [deduplicate]. The set as a list. *)
Fixpoint deduplicate_loop (seen : list (DiscoveryKind * string)) (candidates : list DiscoveryCandidate)
    : list DiscoveryCandidate :=
  match candidates with
  | [] => []
  | c :: candidates =>
      if bool_decide (discovery_key c ∈ seen) then deduplicate_loop seen candidates
      else c :: deduplicate_loop (discovery_key c :: seen) candidates
  end.
Definition deduplicate : list DiscoveryCandidate → list DiscoveryCandidate := deduplicate_loop [].

Section discovery.
Context `{UrlLib} `{!DiscoveryLib}.

(** [.path_segments().and_then(|mut segments| segments.next_back()).map(lower case)] *)
Definition last_segment_lower (url : Url) : option string :=
  to_ascii_lowercase <$> (url_path_segments url ≫= last).

(** [src/src/discovery/swarm.rs:267-279], [is_torrent_locator]. *)
Definition is_torrent_locator (locator : string) : bool :=
  if ends_with ".torrent" (to_ascii_lowercase locator) then true
  else is_some_and (ends_with ".torrent") (result_ok (url_parse locator) ≫= last_segment_lower).

(** [src/src/discovery/swarm.rs:281-287], [is_tracker_locator]. *)
Definition is_tracker_locator (locator : string) : bool :=
  match url_parse locator with
  | Err _ => false
  | Ok url =>
      (bool_decide (url_scheme url ∈ ["udp"; "http"; "https"]) &&
       contains "announce" (to_ascii_lowercase (url_path url)))%bool
  end.

(** [src/src/discovery/swarm.rs:230-265], [normalize_locator]. *)
Definition normalize_locator (raw : string) (base_url base_path : option string) : option string :=
  let raw := trim raw in
  if (is_empty raw || starts_with "#" raw)%bool then None
  else if starts_with "magnet:?" raw then Some raw
  else
    match url_parse raw with
    | Ok url =>
        if String.eqb (url_scheme url) "file" then url_to_file_path url else Some (url_to_string url)
    | Err _ =>
        match (base ← base_url; base ← result_ok (url_parse base); url_join base raw) with
        | Some url => Some (url_to_string url)
        | None =>
            let is_torrent := ends_with ".torrent" (to_ascii_lowercase raw) in
            match base_path with
            | Some base_path =>
                if is_torrent then Some (path_join base_path raw)
                else if is_torrent then Some raw else None
            | None => if is_torrent then Some raw else None
            end
        end
    end.

(** [src/src/discovery/swarm.rs:177-228], [push_candidate_from_locator]. The candidates it pushes. *)
Definition candidates_from_locator (raw : string) (display_name : option string) (source : string)
    (options : DiscoveryOptions) : list DiscoveryCandidate :=
  match normalize_locator raw (do_base_url options) (do_base_path options) with
  | None => []
  | Some locator =>
      if starts_with "magnet:?" locator then
        mk_discovered DkMagnet locator display_name source ::
        match magnet_parse locator with
        | Ok magnet =>
            ((λ tracker, mk_discovered DkTracker tracker display_name "magnet:tr") <$> ml_trackers magnet) ++
            ((λ web_seed, mk_discovered DkWebSeed web_seed display_name "magnet:ws") <$> ml_web_seeds magnet)
        | Err _ => []
        end
      else if is_torrent_locator locator then [mk_discovered DkTorrentFile locator display_name source]
      else if is_tracker_locator locator then [mk_discovered DkTracker locator display_name source]
      else []
  end.

(** [src/src/discovery/swarm.rs:149-175], [discover_text]. It never fails. *)
Definition discover_text (input : string) (options : DiscoveryOptions) : list DiscoveryCandidate :=
  concat ((λ found, candidates_from_locator (strip_trailing_punctuation found) None "text:magnet" options)
            <$> magnet_regex_matches input) ++
  concat ((λ found, candidates_from_locator (strip_trailing_punctuation found) None "text:url" options)
            <$> url_regex_matches input).

(** [src/src/discovery/swarm.rs:72-102], [discover_html]. The selector is a constant and compiles. *)
Definition discover_html (input : string) (options : DiscoveryOptions) : list DiscoveryCandidate :=
  concat ((λ '(raw, texts),
      let label := String.concat " " (split_whitespace (String.concat " " texts)) in
      candidates_from_locator raw (non_empty label) "html:href" options) <$> html_links input) ++
  discover_text input options.

(** Where the functions call each other, [discover] is what discovers in a body. *)
Section recursive.
Context (discover : string → DiscoveryOptions → res (list DiscoveryCandidate)).

(** [src/src/discovery/swarm.rs:111-145], [discover_feed (for loop)]. *)
Definition discover_entry (options : DiscoveryOptions) (entry : FeedEntry) : res (list DiscoveryCandidate) :=
  let links := concat ((λ href, candidates_from_locator href (fe_title entry) "feed:link" options)
                         <$> fe_links entry) in
  let summary := match fe_summary entry with
                 | Some summary => discover_text summary (options <| do_input_kind := InputText |>)
                 | None => []
                 end in
  let? body := match fe_body entry with
               | Some body => discover body (options <| do_input_kind := InputAuto |>)
               | None => Ok []
               end in
  Ok (links ++ summary ++ body).
Fixpoint discover_entries (options : DiscoveryOptions) (entries : list FeedEntry)
    : res (list DiscoveryCandidate) :=
  match entries with
  | [] => Ok []
  | entry :: entries =>
      let? found := discover_entry options entry in
      let? rest := discover_entries options entries in
      Ok (found ++ rest)
  end.

(** [src/src/discovery/swarm.rs:104-147], [discover_feed]. *)
Definition discover_feed (input : string) (options : DiscoveryOptions) : res (list DiscoveryCandidate) :=
  match feed_parse input with
  | Err err => Err (EOther ("failed to parse feed: " +:+ err))
  | Ok entries => discover_entries options entries
  end.

(** [src/src/discovery/swarm.rs:52-70], [discover_torrent_candidates]. *)
Definition discover_with (input : string) (options : DiscoveryOptions) : res (list DiscoveryCandidate) :=
  let? candidates :=
    match do_input_kind options with
    | InputAuto =>
        let feed := match discover_feed input options with Ok candidates => candidates | Err _ => [] end in
        Ok (feed ++ discover_html input options ++ discover_text input options)
    | InputHtml => Ok (discover_html input options)
    | InputFeed => discover_feed input options
    | InputText => Ok (discover_text input options)
    end in
  Ok (deduplicate candidates).
End recursive.

(** The functions closed: with [fuel], feeds within feeds are followed so deep. *)
Fixpoint discover_fuel (fuel : nat) : string → DiscoveryOptions → res (list DiscoveryCandidate) :=
  discover_with
    match fuel with
    | O => λ _ _, Err (EOther "out of fuel")
    | S fuel => discover_fuel fuel
    end.
Definition discover_torrent_candidates (input : string) : DiscoveryOptions → res (list DiscoveryCandidate) :=
  discover_fuel (String.length input) input.

(** What the recursion relies on: an entry's body is a part of the feed, and shorter than it. *)
Class FeedLaws : Prop := {
  feed_body_shorter input entries entry body :
    feed_parse input = Ok entries → entry ∈ entries → fe_body entry = Some body →
    (String.length body < String.length input)%nat
}.
End discovery.
Arguments FeedLaws {_} _.

(** ** Duplicates *)

Lemma deduplicate_loop_spec seen cs :
  let ds := deduplicate_loop seen cs in
  NoDup (discovery_key <$> ds) ∧ ds ⊆+ cs ∧ (∀ d, d ∈ ds → discovery_key d ∉ seen) ∧
  (∀ c, c ∈ cs → discovery_key c ∈ seen ∨ discovery_key c ∈ discovery_key <$> ds).
Proof.
  cbv zeta. revert seen. induction cs as [|c cs IH]; intros seen; cbn [deduplicate_loop].
  { split_and!; [apply NoDup_nil_2|done|set_solver|set_solver]. }
  case_bool_decide as Hin.
  - destruct (IH seen) as (Hnd & Hsub & Hout & Hall). split_and!; [done|by apply submseteq_cons|done|].
    intros d [->|Hd]%elem_of_cons; auto.
  - destruct (IH (discovery_key c :: seen)) as (Hnd & Hsub & Hout & Hall). split_and!.
    + rewrite fmap_cons. apply NoDup_cons. split; [|done]. intros (d & Hk & Hd)%list_elem_of_fmap.
      apply (Hout d Hd). rewrite <- Hk. left.
    + by apply submseteq_skip.
    + intros d [->|Hd]%elem_of_cons; [done|]. specialize (Hout d Hd). set_solver.
    + intros d Hd. rewrite fmap_cons, elem_of_cons. apply elem_of_cons in Hd as [->|Hd]; [auto|].
      destruct (Hall d Hd) as [[->|?]%elem_of_cons|?]; auto.
Qed.
Lemma deduplicate_spec cs :
  NoDup (discovery_key <$> deduplicate cs) ∧ deduplicate cs ⊆+ cs ∧
  ∀ c, c ∈ cs → discovery_key c ∈ discovery_key <$> deduplicate cs.
Proof.
  destruct (deduplicate_loop_spec [] cs) as (Hnd & Hsub & _ & Hall). split_and!; [done..|].
  intros c Hc. destruct (Hall c Hc) as [Hn|]; [by apply elem_of_nil in Hn|done].
Qed.

Section discovery_facts.
Context `{UrlLib} `{!DiscoveryLib}.

(** ** The recursion ends *)

Lemma discover_entries_ext d1 d2 options entries :
  (∀ entry body o, entry ∈ entries → fe_body entry = Some body → d1 body o = d2 body o) →
  discover_entries d1 options entries = discover_entries d2 options entries.
Proof.
  induction entries as [|entry entries IH]; intros Hd; cbn; [done|]. rewrite IH by set_solver.
  unfold discover_entry. destruct (fe_body entry) as [body|] eqn:Eb; [|done].
  by rewrite (Hd entry body) by (done || left).
Qed.
Lemma discover_with_ext `{!FeedLaws _} d1 d2 input options :
  (∀ body o, (String.length body < String.length input)%nat → d1 body o = d2 body o) →
  discover_with d1 input options = discover_with d2 input options.
Proof.
  intros Hd. assert (discover_feed d1 input options = discover_feed d2 input options) as E.
  { unfold discover_feed. destruct (feed_parse input) as [entries|] eqn:Ef; [|done].
    apply discover_entries_ext. intros entry body o Hin Hb. eapply Hd, feed_body_shorter; done. }
  unfold discover_with. by rewrite E.
Qed.
Lemma discover_fuel_enough `{!FeedLaws _} n m input options :
  (String.length input ≤ n)%nat → (String.length input ≤ m)%nat →
  discover_fuel n input options = discover_fuel m input options.
Proof.
  revert m input options. induction n as [|n IH]; intros m input options Hn Hm.
  - destruct m; [done|]. cbn [discover_fuel]. apply discover_with_ext. lia.
  - destruct m as [|m]; cbn [discover_fuel]; apply discover_with_ext; [lia|].
    intros body o Hb. apply IH; lia.
Qed.

(** Discovering ends: the function is the recursion of the code, whatever the feeds hold, and
    however deep they are nested. *)
Theorem discover_recursion `{!FeedLaws _} input options :
  discover_torrent_candidates input options = discover_with discover_torrent_candidates input options.
Proof.
  unfold discover_torrent_candidates at 1. destruct (String.length input) as [|n] eqn:El; cbn [discover_fuel];
    apply discover_with_ext; intros body o Hb; [lia|]. apply discover_fuel_enough; lia.
Qed.

(** ** What is discovered *)

(** A candidate is what its kind says, and what comes from a magnet link comes with the link. *)
Definition well_discovered (cs : list DiscoveryCandidate) (c : DiscoveryCandidate) : Prop :=
  let from_link (values : MagnetLink → list string) := ∃ m link,
    m ∈ cs ∧ dk_kind m = DkMagnet ∧ magnet_parse (dk_locator m) = Ok link ∧ dk_locator c ∈ values link in
  match dk_kind c with
  | DkMagnet => starts_with "magnet:?" (dk_locator c) = true
  | DkTorrentFile => is_torrent_locator (dk_locator c) = true
  | DkTracker => is_tracker_locator (dk_locator c) = true ∨ from_link ml_trackers
  | DkWebSeed => from_link ml_web_seeds
  end.
Abbreviation all_well cs := (Forall (well_discovered cs) cs).

Lemma well_discovered_sub cs ds c :
  (∀ m, m ∈ cs → ∃ m', m' ∈ ds ∧ discovery_key m' = discovery_key m) →
  well_discovered cs c → well_discovered ds c.
Proof.
  intros Hsub. unfold well_discovered.
  assert (∀ values : MagnetLink → list string, (∃ m link, m ∈ cs ∧ dk_kind m = DkMagnet ∧ magnet_parse (dk_locator m) = Ok link ∧
      dk_locator c ∈ values link) → ∃ m link, m ∈ ds ∧ dk_kind m = DkMagnet ∧
      magnet_parse (dk_locator m) = Ok link ∧ dk_locator c ∈ values link) as Hl.
  { intros values (m & link & Hm & Hk & Hp & Hv). destruct (Hsub m Hm) as (m' & Hm' & Hkey).
    injection Hkey as Hk' Hl'.
    exists m', link. rewrite Hk', Hl'. done. }
  destruct (dk_kind c); [done..| |apply Hl]. intros [?|?]; [by left|right; by apply Hl].
Qed.
Lemma all_well_app cs ds : all_well cs → all_well ds → all_well (cs ++ ds).
Proof.
  intros Hc Hd. apply Forall_app. split; (eapply Forall_impl; [eassumption|]); intros c Hw;
    eapply well_discovered_sub; try exact Hw; intros m Hm; exists m; set_solver.
Qed.
Lemma all_well_concat {A} (f : A → list DiscoveryCandidate) l :
  (∀ x, all_well (f x)) → all_well (concat (f <$> l)).
Proof. intros Hf. induction l as [|x l IH]; cbn; [constructor|]. by apply all_well_app. Qed.
Lemma all_well_deduplicate cs : all_well cs → all_well (deduplicate cs).
Proof.
  intros Hc. destruct (deduplicate_spec cs) as (_ & Hsub & Hall).
  apply Forall_forall. intros c Hin. rewrite Forall_forall in Hc.
  eapply well_discovered_sub; [|apply Hc; by eapply elem_of_submseteq].
  intros m Hm. destruct (proj1 (list_elem_of_fmap _ _ _) (Hall m Hm)) as (m' & ? & ?). eauto.
Qed.

Lemma all_well_locator raw name source options : all_well (candidates_from_locator raw name source options).
Proof.
  unfold candidates_from_locator. destruct (normalize_locator _ _ _) as [locator|]; [|constructor].
  destruct (starts_with "magnet:?" locator) eqn:Em.
  - constructor; [exact Em|]. destruct (magnet_parse locator) as [magnet|] eqn:Ep; [|constructor].
    apply Forall_app. split; apply Forall_forall; intros c (v & -> & Hv)%list_elem_of_fmap;
      [right|]; exists (mk_discovered DkMagnet locator name source), magnet; (split; [left|done]).
  - destruct (is_torrent_locator locator) eqn:Et; [by constructor|].
    destruct (is_tracker_locator locator) eqn:Ek; [|constructor]. constructor; [by left|constructor].
Qed.
Lemma all_well_text input options : all_well (discover_text input options).
Proof. apply all_well_app; apply all_well_concat; intros x; apply all_well_locator. Qed.
Lemma all_well_html input options : all_well (discover_html input options).
Proof.
  apply all_well_app; [|apply all_well_text]. apply all_well_concat. intros [raw texts]. apply all_well_locator.
Qed.
Lemma all_well_entries discover options entries cs :
  (∀ body o cs, discover body o = Ok cs → all_well cs) →
  discover_entries discover options entries = Ok cs → all_well cs.
Proof.
  intros Hd. revert cs. induction entries as [|entry entries IH]; cbn; intros cs.
  { intros [= <-]. constructor. }
  destruct (discover_entry discover options entry) as [found|] eqn:Ef; [|done]. cbn.
  destruct (discover_entries discover options entries) as [rest|] eqn:Er; [|done]. intros [= <-].
  apply all_well_app; [|by apply IH]. unfold discover_entry in Ef.
  assert (∀ body, all_well body → all_well (concat ((λ href,
      candidates_from_locator href (fe_title entry) "feed:link" options) <$> fe_links entry) ++
      match fe_summary entry with
      | Some summary => discover_text summary (options <| do_input_kind := InputText |>)
      | None => []
      end ++ body)) as Hall.
  { intros body Hb. apply all_well_app; [apply all_well_concat; intros x; apply all_well_locator|].
    apply all_well_app; [|done]. destruct (fe_summary entry); [apply all_well_text|constructor]. }
  destruct (fe_body entry) as [body|].
  - destruct (discover body _) as [bs|] eqn:Eb; [|done]. injection Ef as <-. eapply Hall, Hd, Eb.
  - injection Ef as <-. apply Hall. constructor.
Qed.
Lemma all_well_with discover input options cs :
  (∀ body o cs, discover body o = Ok cs → all_well cs) →
  discover_with discover input options = Ok cs → all_well cs.
Proof.
  intros Hd. unfold discover_with, discover_feed.
  assert (∀ entries found, discover_entries discover options entries = Ok found → all_well found) as Hf.
  { intros entries found. by apply all_well_entries. }
  destruct (do_input_kind options); cbn.
  - intros [= <-]. apply all_well_deduplicate, all_well_app; [|apply all_well_app; [apply all_well_html|apply all_well_text]].
    destruct (feed_parse input) as [entries|]; [|constructor].
    destruct (discover_entries discover options entries) eqn:E; [by eapply Hf|constructor].
  - intros [= <-]. apply all_well_deduplicate, all_well_html.
  - destruct (feed_parse input) as [entries|]; [|done].
    destruct (discover_entries discover options entries) eqn:E; [|done]. intros [= <-].
    by eapply all_well_deduplicate, Hf.
  - intros [= <-]. apply all_well_deduplicate, all_well_text.
Qed.
Lemma all_well_fuel n input options cs : discover_fuel n input options = Ok cs → all_well cs.
Proof.
  revert input options cs. induction n as [|n IH]; intros input options cs; cbn [discover_fuel];
    apply all_well_with; [done|exact IH].
Qed.

(** Whatever the two expressions match in a text is discovered, unless the text is taken for a feed. *)
Definition text_candidates (input : string) (options : DiscoveryOptions) (c : DiscoveryCandidate) : Prop :=
  ∃ found source, found ∈ magnet_regex_matches input ++ url_regex_matches input ∧
    c ∈ candidates_from_locator (strip_trailing_punctuation found) None source options.

Lemma elem_of_concat {A B} (f : A → list B) l x y : x ∈ l → y ∈ f x → y ∈ concat (f <$> l).
Proof. rewrite !list_elem_of_In, in_concat. intros Hx Hy. exists (f x). split; [by apply in_map|done]. Qed.
Lemma key_of_text input options c :
  text_candidates input options c → discovery_key c ∈ discovery_key <$> discover_text input options.
Proof.
  intros (found & source & Hf & Hc).
  assert (∀ s, ∃ c', c' ∈ candidates_from_locator (strip_trailing_punctuation found) None s options ∧
    discovery_key c = discovery_key c') as Hany.
  { intros s. unfold candidates_from_locator in *. destruct (normalize_locator _ _ _) as [l|]; [|set_solver].
    destruct (starts_with "magnet:?" l).
    - apply elem_of_cons in Hc as [->|Hc]; [exists (mk_discovered DkMagnet l None s)|exists c];
        (split; [|done]); [left|by right].
    - destruct (is_torrent_locator l); [|destruct (is_tracker_locator l); [|set_solver]];
        apply list_elem_of_singleton in Hc as ->; eexists; (split; [apply list_elem_of_singleton; reflexivity|done]). }
  unfold discover_text. rewrite fmap_app, elem_of_app.
  apply elem_of_app in Hf as [Hf|Hf]; [left; destruct (Hany "text:magnet") as (c' & Hc' & ->)
    |right; destruct (Hany "text:url") as (c' & Hc' & ->)]; apply list_elem_of_fmap_2;
    by eapply elem_of_concat.
Qed.

Lemma discover_covers_text discover input options :
  do_input_kind options ≠ InputFeed →
  ∃ cs, discover_with discover input options = Ok cs ∧
    ∀ c, text_candidates input options c → discovery_key c ∈ discovery_key <$> cs.
Proof.
  intros Hk. unfold discover_with.
  assert (∀ ds, (∀ d, d ∈ discover_text input options → d ∈ ds) → ∀ c, text_candidates input options c →
    discovery_key c ∈ discovery_key <$> deduplicate ds) as Hsub.
  { intros ds Hds c (c' & -> & Hc')%key_of_text%list_elem_of_fmap. by apply deduplicate_spec, Hds. }
  unfold discover_html. destruct (do_input_kind options); try done; cbn; eexists; (split; [reflexivity|]);
    apply Hsub; intros d; rewrite ?elem_of_app; auto.
Qed.

(** C36. What is discovered: no two candidates of the same kind and locator; magnet links, torrent
    files and trackers that are what they are said to be, trackers and web seeds of a magnet link
    only together with the link. Unless the input is to be a feed, discovering does not fail, and it
    finds whatever the text itself names. *)
Theorem discover_spec input options :
  (∀ cs, discover_torrent_candidates input options = Ok cs →
     NoDup (discovery_key <$> cs) ∧ Forall (well_discovered cs) cs) ∧
  (do_input_kind options ≠ InputFeed →
   ∃ cs, discover_torrent_candidates input options = Ok cs ∧
     ∀ c, text_candidates input options c → discovery_key c ∈ discovery_key <$> cs).
Proof.
  split.
  - intros cs Hcs. split; [|by eapply all_well_fuel].
    assert (∃ ds, cs = deduplicate ds) as (ds & ->); [|apply deduplicate_spec].
    unfold discover_torrent_candidates in Hcs.
    assert (∃ d, discover_with d input options = Ok cs) as (d & Hd)
      by (destruct (String.length input); cbn [discover_fuel] in Hcs; eauto).
    unfold discover_with in Hd. destruct (match do_input_kind options with InputAuto => _ | _ => _ end) as [ds|];
      [|done]. injection Hd as <-. eauto.
  - intros Hk. unfold discover_torrent_candidates.
    destruct (String.length input); cbn [discover_fuel]; by apply discover_covers_text.
Qed.
End discovery_facts.

(** ** Examples: feeds that are nested in one another *)

#[local] Instance plain_urls : UrlLib := {
  Url := string;
  url_parse s := if contains "://" s then Ok s else Err RelativeUrlWithoutBase;
  url_scheme _ := "http";
  url_path_segments s := Some (split "/" s);
  url_query_pairs _ := []
}.
(** A feed is written as an F and its only body; a word is a link. *)
#[local] Instance plain_discovery : DiscoveryLib := {
  html_links _ := [];
  feed_parse s := match s with
    | String "F" body => Ok [mk_entry (Some "entry") [] None (Some body)]
    | _ => Err "no feed"
    end;
  magnet_regex_matches _ := [];
  url_regex_matches s := filterb (contains "://") (split_whitespace s);
  url_to_string s := s;
  url_join _ _ := None;
  url_to_file_path _ := None;
  url_path s := s
}.
#[local] Instance plain_feeds : FeedLaws plain_discovery.
Proof.
  split. intros input entries entry body Hp Hin Hb. destruct input as [|c s]; [done|].
  assert (∀ b, Ok (A:=list FeedEntry) (E:=string) [mk_entry (Some "entry") [] None (Some b)] = Ok entries → body = b) as Hone.
  { intros b [= <-]. apply list_elem_of_singleton in Hin as ->. by injection Hb as <-. }
  change (feed_parse (String c s)) with
    (match String c s with
     | String "F" body => Ok [mk_entry (Some "entry") [] None (Some body)] | _ => Err "no feed" end) in Hp.
  assert (body = s) as ->; [|cbn; lia].
  destruct c as [[] [] [] [] [] [] [] []]; try done; by apply Hone.
Qed.

Definition nested_feed : string := "FF http://a/b.torrent http://t/announce, http://c/d.torrent".
Lemma discover_recursion_witness :
  discover_torrent_candidates nested_feed (DiscoveryOptions_default <| do_input_kind := InputFeed |>)
    = discover_with discover_torrent_candidates nested_feed
        (DiscoveryOptions_default <| do_input_kind := InputFeed |>) ∧
  ((λ cs : list DiscoveryCandidate, discovery_key <$> cs) <$> result_ok (discover_torrent_candidates nested_feed
     (DiscoveryOptions_default <| do_input_kind := InputFeed |>)))
    = Some [(DkTorrentFile, "http://a/b.torrent"); (DkTracker, "http://t/announce");
            (DkTorrentFile, "http://c/d.torrent")].
Proof. split; [apply (discover_recursion nested_feed)|by vm_compute]. Defined.
