(* ===== verification/Swarm.v ===== *)
(** * Providers of swarm candidates ([src/src/p2p/provider.rs])

    Where the trackers, peers and web seeds of a torrent are looked for.  Each
    provider reports candidates; the resolver takes from them what is new, up to
    the configured limits, whatever the providers are.  Those of the program are
    in Providers.v. *)

From S2P Require Import Prelude Text Status Effect Source Files Config Magnet.

(** [src/src/p2p/provider.rs:79-83], [SwarmProviderConfig::resolved_cache_dir]. *)
Definition resolved_cache_dir (config : SwarmProviderConfig) (download_dir : string) : string :=
  unwrap_or (path_join (path_join download_dir ".paradown") "swarm-cache") (sw_cache_dir config).

(** [src/src/p2p/provider.rs:125-131], [TorrentSwarmProviderCandidateKind]. *)
Inductive CandidateKind := CkTracker | CkPeer | CkWebSeed | CkMagnet | CkTorrentFile.
#[export] Instance CandidateKind_eq_dec : EqDecision CandidateKind.
Proof. solve_decision. Defined.

(** [src/src/p2p/provider.rs:134-140], [TorrentSwarmProviderCandidate]. *)
Record Candidate := mk_candidate {
  cd_kind : CandidateKind;
  cd_locator : string;
  cd_display_name : option string;
  cd_provider : string;
  cd_source : string
}.

(** [src/src/p2p/provider.rs:143-151], [TorrentSwarmProviderCandidate::tracker]. *)
Definition candidate_tracker (provider locator source : string) : Candidate :=
  mk_candidate CkTracker locator None provider source.
(** [src/src/p2p/provider.rs:153-161], [TorrentSwarmProviderCandidate::peer]. *)
Definition candidate_peer (provider locator source : string) : Candidate :=
  mk_candidate CkPeer locator None provider source.
(** [src/src/p2p/provider.rs:163-171], [TorrentSwarmProviderCandidate::web_seed]. *)
Definition candidate_web_seed (provider locator source : string) : Candidate :=
  mk_candidate CkWebSeed locator None provider source.

(** [src/src/p2p/provider.rs:173-181], [TorrentSwarmProviderCandidate::locator]. *)
Definition candidate_locator (kind : CandidateKind) (locator : string) (display_name : option string)
    (provider source : string) : Candidate :=
  mk_candidate kind locator display_name provider source.

(** [src/src/p2p/provider.rs:199-215], [TorrentSwarmProviderCandidate::source_descriptor]. *)
Definition candidate_source `{UrlLib} (c : Candidate) : option SourceDescriptor :=
  match cd_kind c with
  | CkTracker => Some (source_tracker (cd_locator c))
  | CkPeer => Some (source_peer (cd_locator c))
  | CkWebSeed => Some (source_web_seed (cd_locator c))
  | CkMagnet | CkTorrentFile =>
      (λ spec, source_from_spec spec None) <$> result_ok (spec_parse (cd_locator c))
  end.

(** [src/src/p2p/provider.rs:219-223], [TorrentSwarmProviderSeverity]. *)
Inductive ProviderSeverity := PsInfo | PsWarning | PsError.
(** [src/src/p2p/provider.rs:226-231], [TorrentSwarmProviderDiagnostic]. *)
Record ProviderDiagnostic := mk_provider_diagnostic {
  pd_provider : string;
  pd_severity : ProviderSeverity;
  pd_message : string;
  pd_source : option string
}.

(** [src/src/p2p/provider.rs:250-254], [TorrentSwarmProviderReport]. *)
Record Report := mk_report {
  rep_provider : string;
  rep_candidates : list Candidate;
  rep_diagnostics : list ProviderDiagnostic
}.
#[export] Instance Report_eta : Settable Report := λ r,
  mk_report (rep_provider r) (rep_candidates r) (rep_diagnostics r).

(** [src/src/p2p/provider.rs:257-263], [TorrentSwarmProviderReport::new]. *)
Definition report_new (provider : string) : Report := mk_report provider [] [].
(** [src/src/p2p/provider.rs:265-269], [TorrentSwarmProviderReport::push]. *)
Definition report_push (r : Report) (candidate : Candidate) : Report :=
  if negb (is_empty (trim (cd_locator candidate)))
  then r <| rep_candidates ::= λ l, l ++ [candidate] |> else r.
(** [src/src/p2p/provider.rs:271-283], [TorrentSwarmProviderReport::diagnostic]. *)
Definition report_diagnostic (r : Report) (severity : ProviderSeverity) (message : string)
    (source : option string) : Report :=
  r <| rep_diagnostics ::= λ l, l ++ [mk_provider_diagnostic (rep_provider r) severity message source] |>.

(** [src/src/p2p/provider.rs:287-291], [TorrentSwarmProviderContext]. *)
Record ProviderContext := mk_context {
  cx_spec : DownloadSpec;
  cx_existing_hints : TorrentSwarmHints;
  cx_cache_dir : string
}.
(** [src/src/p2p/provider.rs:294-301], [TorrentSwarmProvider]. What it does may change the world [W]
    that providers work in. *)
Record Provider (W : Type) := mk_provider { pv_name : string; pv_discover : ProviderContext → eff W Report }.
Arguments mk_provider {W}.
Arguments pv_name {W}.
Arguments pv_discover {W}.

(** [src/src/p2p/provider.rs:304-309], [TorrentSwarmProviderResolution]. *)
Record Resolution := mk_resolution {
  rs_hints : TorrentSwarmHints;
  rs_candidates : list Candidate;
  rs_diagnostics : list ProviderDiagnostic;
  rs_reports : list Report
}.
#[export] Instance Resolution_eta : Settable Resolution := λ r,
  mk_resolution (rs_hints r) (rs_candidates r) (rs_diagnostics r) (rs_reports r).
(** [src/src/p2p/provider.rs:312-319], [TorrentSwarmProviderResolution::empty]. *)
Definition resolution_empty (hints : TorrentSwarmHints) : Resolution := mk_resolution hints [] [] [].

(** ** The resolver *)

(** [src/src/p2p/provider.rs:1221-1229], [push_limited_diagnostic]. *)
Definition push_limited_diagnostic (limits : SwarmProviderLimits) (r : Resolution)
    (diagnostic : ProviderDiagnostic) : Resolution :=
  if zlen (rs_diagnostics r) <? max_diagnostics limits
  then r <| rs_diagnostics ::= λ l, l ++ [diagnostic] |> else r.

(** What has been seen: a set of kinds and locators, as a list. *)
Definition seen_set := list (CandidateKind * string).

(** [src/src/p2p/provider.rs:1231-1244], [seed_seen_from_hints]. *)
Definition seed_seen_from_hints (hints : TorrentSwarmHints) : seen_set :=
  (pair CkTracker <$> th_trackers hints) ++ (pair CkPeer ∘ peer_to_string <$> th_peers hints) ++
  (pair CkWebSeed <$> th_web_seeds hints).

Definition is_locator (c : Candidate) : bool :=
  match cd_kind c with CkMagnet | CkTorrentFile => true | _ => false end.

(** [src/src/p2p/provider.rs:1168-1219], [insert_candidate]. The result and what has been seen then;
    whether the candidate was inserted changes nothing for the caller. *)
Definition insert_candidate (limits : SwarmProviderLimits) (st : Resolution * seen_set)
    (candidate : Candidate) : Resolution * seen_set :=
  let '(r, seen) := st in
  let key := (cd_kind candidate, cd_locator candidate) in
  if bool_decide (key ∈ seen) then (r, seen)
  else
    let seen := key :: seen in
    let hints := rs_hints r in
    let push (hints : TorrentSwarmHints) :=
      (r <| rs_hints := hints |> <| rs_candidates ::= λ l, l ++ [candidate] |>, seen) in
    match cd_kind candidate with
    | CkTracker =>
        if max_trackers limits <=? zlen (th_trackers hints) then (r, seen)
        else push (add_tracker hints (cd_locator candidate))
    | CkPeer =>
        if max_peers limits <=? zlen (th_peers hints) then (r, seen)
        else match peer_parse (cd_locator candidate) with
             | Ok peer => push (add_peer hints peer)
             | Err _ => (r, seen)
             end
    | CkWebSeed =>
        if max_web_seeds limits <=? zlen (th_web_seeds hints) then (r, seen)
        else push (add_web_seed hints (cd_locator candidate))
    | CkMagnet | CkTorrentFile =>
        if max_locators limits <=? countb is_locator (rs_candidates r) then (r, seen) else push hints
    end.

Section resolve.
Context {W : Type}.

(** [src/src/p2p/provider.rs:350-378], [TorrentSwarmProviderResolver::resolve (for loop)]. *)
Definition resolve_provider (limits : SwarmProviderLimits) (cache_dir : string) (spec : DownloadSpec)
    (st : Resolution * seen_set) (provider : Provider W) : eff W (Resolution * seen_set) :=
  let '(r, seen) := st in
  let! found := attempt (pv_discover provider (mk_context spec (rs_hints r) cache_dir)) in
  ret match found with
      | Ok report =>
          let r := foldl (push_limited_diagnostic limits) r (rep_diagnostics report) in
          let '(r, seen) := foldl (insert_candidate limits) (r, seen) (rep_candidates report) in
          (r <| rs_reports ::= λ l, l ++ [report] |>, seen)
      | Err err =>
          (push_limited_diagnostic limits r
             (mk_provider_diagnostic (pv_name provider) PsError
                ("provider failed: " +:+ Error_to_string err) None),
           seen)
      end.
Fixpoint resolve_providers (limits : SwarmProviderLimits) (cache_dir : string) (spec : DownloadSpec)
    (st : Resolution * seen_set) (providers : list (Provider W)) : eff W (Resolution * seen_set) :=
  match providers with
  | [] => ret st
  | provider :: providers =>
      let! st := resolve_provider limits cache_dir spec st provider in
      resolve_providers limits cache_dir spec st providers
  end.
(** [src/src/p2p/provider.rs:341-382], [TorrentSwarmProviderResolver::resolve]. *)
Definition resolve (providers : list (Provider W)) (limits : SwarmProviderLimits) (cache_dir : string)
    (spec : DownloadSpec) (initial_hints : TorrentSwarmHints) : eff W Resolution :=
  let! st := resolve_providers limits cache_dir spec
    (resolution_empty initial_hints, seed_seen_from_hints initial_hints) providers in
  ret (fst st).
End resolve.

(** ** What a resolution holds *)

Definition candidate_key (c : Candidate) : CandidateKind * string := (cd_kind c, cd_locator c).
(** The hints with a candidate among them. *)
Definition with_candidate (hints : TorrentSwarmHints) (c : Candidate) : TorrentSwarmHints :=
  match cd_kind c with
  | CkTracker => add_tracker hints (cd_locator c)
  | CkPeer => match peer_parse (cd_locator c) with Ok peer => add_peer hints peer | Err _ => hints end
  | CkWebSeed => add_web_seed hints (cd_locator c)
  | CkMagnet | CkTorrentFile => hints
  end.
(** Why a candidate may be left out: there are as many of its kind as the limits allow, or it is a
    peer that cannot be read. *)
Definition refused (limits : SwarmProviderLimits) (r : Resolution) (key : CandidateKind * string) : Prop :=
  match key.1 with
  | CkTracker => max_trackers limits ≤ zlen (th_trackers (rs_hints r))
  | CkPeer => max_peers limits ≤ zlen (th_peers (rs_hints r)) ∨ is_ok (peer_parse key.2) = false
  | CkWebSeed => max_web_seeds limits ≤ zlen (th_web_seeds (rs_hints r))
  | CkMagnet | CkTorrentFile => max_locators limits ≤ countb is_locator (rs_candidates r)
  end.

(** The sizes of a resolution are below the limits, or what they were. *)
Record within_limits (limits : SwarmProviderLimits) (hints : TorrentSwarmHints) (r : Resolution) : Prop := {
  wl_trackers : zlen (th_trackers (rs_hints r)) ≤ Z.max (zlen (th_trackers hints)) (max_trackers limits);
  wl_peers : zlen (th_peers (rs_hints r)) ≤ Z.max (zlen (th_peers hints)) (max_peers limits);
  wl_web_seeds : zlen (th_web_seeds (rs_hints r)) ≤ Z.max (zlen (th_web_seeds hints)) (max_web_seeds limits);
  wl_locators : countb is_locator (rs_candidates r) ≤ Z.max 0 (max_locators limits);
  wl_diagnostics : zlen (rs_diagnostics r) ≤ Z.max 0 (max_diagnostics limits)
}.

(** What holds throughout a resolution, with the candidates [offered] so far. *)
Record resolving (limits : SwarmProviderLimits) (hints : TorrentSwarmHints) (offered : list Candidate)
    (r : Resolution) (seen : seen_set) : Prop := {
  rv_hints : rs_hints r = foldl with_candidate hints (rs_candidates r);
  rv_limits : within_limits limits hints r;
  rv_nodup : NoDup (candidate_key <$> rs_candidates r);
  rv_new : ∀ c, c ∈ rs_candidates r → candidate_key c ∉ seed_seen_from_hints hints ∧ c ∈ offered;
  rv_taken : ∀ key, key ∈ seed_seen_from_hints hints ++ (candidate_key <$> rs_candidates r) → key ∈ seen;
  rv_seen : ∀ key, key ∈ seen →
    key ∈ seed_seen_from_hints hints ∨ key ∈ candidate_key <$> rs_candidates r ∨ refused limits r key;
  rv_offered : ∀ c, c ∈ offered → candidate_key c ∈ seen
}.

(** A resolution that only grows keeps what it refused. *)
Definition grown (r r' : Resolution) : Prop :=
  zlen (th_trackers (rs_hints r)) ≤ zlen (th_trackers (rs_hints r')) ∧
  zlen (th_peers (rs_hints r)) ≤ zlen (th_peers (rs_hints r')) ∧
  zlen (th_web_seeds (rs_hints r)) ≤ zlen (th_web_seeds (rs_hints r')) ∧
  countb is_locator (rs_candidates r) ≤ countb is_locator (rs_candidates r').
Lemma refused_grown limits r r' key : grown r r' → refused limits r key → refused limits r' key.
Proof.
  intros (Ht & Hp & Hw & Hl). unfold refused. destruct (key.1); try lia. intros [?|?]; [left; lia|by right].
Qed.

Lemma push_text_length l v : zlen l ≤ zlen (push_text l v) ≤ zlen l + 1.
Proof. unfold push_text. destruct (_ && _)%bool; autorewrite with rust; lia. Qed.
Lemma with_candidate_grows hints c :
  zlen (th_trackers hints) ≤ zlen (th_trackers (with_candidate hints c)) ≤ zlen (th_trackers hints) + 1 ∧
  zlen (th_peers hints) ≤ zlen (th_peers (with_candidate hints c)) ≤ zlen (th_peers hints) + 1 ∧
  zlen (th_web_seeds hints) ≤ zlen (th_web_seeds (with_candidate hints c)) ≤ zlen (th_web_seeds hints) + 1.
Proof.
  unfold with_candidate, add_tracker, add_web_seed, add_peer. destruct (cd_kind c); [| | |lia|lia].
  - pose proof (push_text_length (th_trackers hints) (cd_locator c)). cbn. lia.
  - destruct (peer_parse _); [|lia]. destruct (negb _); cbn; autorewrite with rust; lia.
  - pose proof (push_text_length (th_web_seeds hints) (cd_locator c)). cbn. lia.
Qed.

(** A candidate that was seen changes nothing; one that was not is refused or taken. *)
Definition taken (r : Resolution) (c : Candidate) : Resolution :=
  r <| rs_hints := with_candidate (rs_hints r) c |> <| rs_candidates ::= λ l, l ++ [c] |>.
Lemma insert_candidate_cases limits r seen c :
  let key := candidate_key c in
  (key ∈ seen ∧ insert_candidate limits (r, seen) c = (r, seen)) ∨
  (key ∉ seen ∧ refused limits r key ∧ insert_candidate limits (r, seen) c = (r, key :: seen)) ∨
  (key ∉ seen ∧ ¬ refused limits r key ∧ insert_candidate limits (r, seen) c = (taken r c, key :: seen)).
Proof.
  unfold insert_candidate, candidate_key, refused, taken, with_candidate. cbn [fst snd].
  case_bool_decide as Hin; [by left|right].
  destruct (cd_kind c) eqn:Ek.
  - destruct (Z.leb_spec (max_trackers limits) (zlen (th_trackers (rs_hints r)))); [by left|right].
    split_and!; [done|lia|done].
  - destruct (Z.leb_spec (max_peers limits) (zlen (th_peers (rs_hints r)))); [left; by auto|].
    destruct (peer_parse (cd_locator c)); [right|left; by auto].
    split_and!; [done| |done]. intros [?|?]; [lia|done].
  - destruct (Z.leb_spec (max_web_seeds limits) (zlen (th_web_seeds (rs_hints r)))); [by left|right].
    split_and!; [done|lia|done].
  - destruct (Z.leb_spec (max_locators limits) (countb is_locator (rs_candidates r))); [by left|right].
    split_and!; [done|lia|done].
  - destruct (Z.leb_spec (max_locators limits) (countb is_locator (rs_candidates r))); [by left|right].
    split_and!; [done|lia|done].
Qed.

Lemma taken_grown r c : grown r (taken r c).
Proof.
  pose proof (with_candidate_grows (rs_hints r) c) as (? & ? & ?).
  unfold grown, taken. cbn. unfold countb. rewrite filterb_app. autorewrite with rust.
  pose proof (zlen_nonneg (filterb is_locator [c])). lia.
Qed.
Lemma taken_limits limits hints r c :
  ¬ refused limits r (candidate_key c) → within_limits limits hints r → within_limits limits hints (taken r c).
Proof.
  intros Hr [Ht Hp Hw Hl Hd]. unfold refused, candidate_key in Hr. cbn [fst snd] in Hr.
  pose proof (push_text_length (th_trackers (rs_hints r)) (cd_locator c)) as Hpt.
  pose proof (push_text_length (th_web_seeds (rs_hints r)) (cd_locator c)) as Hpw.
  assert (countb is_locator (rs_candidates r ++ [c]) =
    countb is_locator (rs_candidates r) +
      match cd_kind c with CkMagnet | CkTorrentFile => 1 | _ => 0 end) as Hcount.
  { unfold countb. rewrite filterb_app, zlen_app, filterb_cons. unfold is_locator at 2. by destruct (cd_kind c). }
  unfold taken, with_candidate. split; cbn; rewrite ?Hcount; destruct (cd_kind c); cbn; try lia.
  all: destruct (peer_parse _) as [p|]; [|lia]; unfold add_peer; destruct (negb _); cbn;
    autorewrite with rust; lia.
Qed.

Section resolving.
Context (limits : SwarmProviderLimits) (hints : TorrentSwarmHints).

Lemma resolving_insert offered r seen c :
  resolving limits hints offered r seen →
  let '(r', seen') := insert_candidate limits (r, seen) c in
  resolving limits hints (offered ++ [c]) r' seen' ∧ rs_reports r' = rs_reports r.
Proof.
  intros [Hh Hl Hnd Hnew Htk Hs Ho].
  assert (∀ x, x ∈ offered ++ [c] ↔ x ∈ offered ∨ x = c) as Hoc by set_solver.
  destruct (insert_candidate_cases limits r seen c) as [[Hin ->]|[(Hin & Hr & ->)|(Hin & Hr & ->)]].
  - split; [|done]. split; [done..| |done|done|].
    + intros x Hx. destruct (Hnew x Hx). rewrite Hoc. auto.
    + intros x [?| ->]%Hoc; auto.
  - split; [|done]. split; [done..| | | |].
    + intros x Hx. destruct (Hnew x Hx). rewrite Hoc. auto.
    + intros key Hk. right. auto.
    + intros key [->|Hk]%elem_of_cons; auto.
    + intros x [?| ->]%Hoc; [right; auto|left].
  - split; [|done].
    assert (rs_candidates (taken r c) = rs_candidates r ++ [c]) as Ec by done.
    assert (candidate_key c ∉ candidate_key <$> rs_candidates r) as Hkc.
    { intros Hk. apply Hin, Htk, elem_of_app. by right. }
    split.
    + rewrite Ec, foldl_app, <- Hh. done.
    + by apply taken_limits.
    + rewrite Ec, fmap_app. apply NoDup_app. split_and!; [done| |apply NoDup_singleton].
      intros x Hx. cbn. rewrite list_elem_of_singleton. by intros ->.
    + intros x. rewrite Ec, elem_of_app, list_elem_of_singleton, Hoc. intros [Hx| ->].
      * destruct (Hnew x Hx). auto.
      * split; [|by right]. intros Hk. apply Hin, Htk, elem_of_app. by left.
    + intros key. rewrite Ec, fmap_app, app_assoc, elem_of_app; cbn; rewrite list_elem_of_singleton.
      intros [Hk| ->]; [right; auto|left].
    + intros key Hk. rewrite Ec, fmap_app, elem_of_app. apply elem_of_cons in Hk as [->|Hk].
      * right. left. right. by apply list_elem_of_singleton.
      * destruct (Hs key Hk) as [?|[?|?]]; [auto|auto|]. right. right.
        eapply refused_grown; [apply taken_grown|done].
    + intros x [?| ->]%Hoc; [right; auto|left].
Qed.

Lemma resolving_inserts cs offered r seen :
  resolving limits hints offered r seen →
  let '(r', seen') := foldl (insert_candidate limits) (r, seen) cs in
  resolving limits hints (offered ++ cs) r' seen' ∧ rs_reports r' = rs_reports r.
Proof.
  revert offered r seen. induction cs as [|c cs IH]; intros offered r seen Hr; cbn [foldl].
  { by rewrite app_nil_r. }
  pose proof (resolving_insert offered r seen c Hr) as Hi.
  destruct (insert_candidate limits (r, seen) c) as [r1 seen1]. destruct Hi as [Hi E].
  specialize (IH _ _ _ Hi). destruct (foldl _ _ cs) as [r2 seen2]. destruct IH as [IH E2].
  rewrite <- app_assoc in IH. split; [done|congruence].
Qed.

Lemma resolving_diagnostic offered r seen d :
  resolving limits hints offered r seen →
  resolving limits hints offered (push_limited_diagnostic limits r d) seen ∧
  rs_reports (push_limited_diagnostic limits r d) = rs_reports r.
Proof.
  intros [Hh [? ? ? ? Hd] Hnd Hnew Htk Hs Ho]. unfold push_limited_diagnostic.
  destruct (Z.ltb_spec (zlen (rs_diagnostics r)) (max_diagnostics limits)); [|done].
  split; [|done]. split; try done. split; try done. cbn. autorewrite with rust. lia.
Qed.
Lemma resolving_diagnostics ds offered r seen :
  resolving limits hints offered r seen →
  resolving limits hints offered (foldl (push_limited_diagnostic limits) r ds) seen ∧
  rs_reports (foldl (push_limited_diagnostic limits) r ds) = rs_reports r.
Proof.
  revert r. induction ds as [|d ds IH]; intros r Hr; cbn [foldl]; [done|].
  destruct (resolving_diagnostic offered r seen d Hr) as [Hd E].
  destruct (IH _ Hd) as [? E2]. split; [done|congruence].
Qed.

(** The candidates of the reports. *)
Definition offered_by (r : Resolution) : list Candidate := mjoin (rep_candidates <$> rs_reports r).

Lemma resolving_provider {W} cache_dir spec (provider : Provider W) r seen w :
  resolving limits hints (offered_by r) r seen →
  ∃ r' seen' w', resolve_provider limits cache_dir spec (r, seen) provider w = (Ok (r', seen'), w') ∧
    resolving limits hints (offered_by r') r' seen'.
Proof.
  intros Hr. unfold resolve_provider, eff_bind, attempt.
  destruct (pv_discover provider _ w) as [[report|err] w'].
  - destruct (resolving_diagnostics (rep_diagnostics report) _ _ _ Hr) as [Hd Ed].
    pose proof (resolving_inserts (rep_candidates report) _ _ _ Hd) as Hi.
    destruct (foldl (insert_candidate limits) _ _) as [r2 seen2]. destruct Hi as [Hi E].
    eexists _, _, _. split; [reflexivity|].
    assert (offered_by (r2 <| rs_reports ::= λ l, l ++ [report] |>) = offered_by r ++ rep_candidates report) as ->.
    { unfold offered_by. cbn. rewrite E, Ed, fmap_app, join_app. cbn. by rewrite app_nil_r. }
    by destruct Hi as [Hrh [] Hrn Hrw Hrt Hrs Hro]; constructor.
  - destruct (resolving_diagnostic _ _ _ (mk_provider_diagnostic (pv_name provider) PsError
      ("provider failed: " +:+ Error_to_string err) None) Hr) as [Hd Ed].
    eexists _, _, _. split; [reflexivity|]. unfold offered_by at 1. by rewrite Ed.
Qed.

Lemma resolving_all {W} cache_dir spec (providers : list (Provider W)) r seen w :
  resolving limits hints (offered_by r) r seen →
  ∃ r' seen' w', resolve_providers limits cache_dir spec (r, seen) providers w = (Ok (r', seen'), w') ∧
    resolving limits hints (offered_by r') r' seen'.
Proof.
  revert r seen w. induction providers as [|p ps IH]; intros r seen w Hr; cbn [resolve_providers].
  { eexists _, _, _. by split. }
  destruct (resolving_provider cache_dir spec p r seen w Hr) as (r1 & seen1 & w1 & E & Hr1).
  rewrite (eff_bind_ok _ _ _ _ _ E). by apply IH.
Qed.

Lemma resolving_start :
  resolving limits hints [] (resolution_empty hints) (seed_seen_from_hints hints).
Proof.
  split; cbn; try done.
  - split; cbn; unfold countb; cbn; rewrite ?zlen_nil; lia.
  - apply NoDup_nil_2.
  - intros c Hc. by apply elem_of_nil in Hc.
  - intros key. by rewrite app_nil_r.
  - by left.
  - intros c Hc. by apply elem_of_nil in Hc.
Qed.
End resolving.

(** C33. Whatever the providers report and whether they fail, there is a resolution: its hints are
    the initial hints and its candidates, each taken from a report, none twice and none that the
    hints had; no list grows past its limit (or past what it was); and a reported candidate that is
    neither among them nor among the initial hints was refused, because the limit of its kind is
    reached or it is a peer that cannot be read. *)
Theorem resolve_spec {W} (providers : list (Provider W)) limits cache_dir spec hints w :
  ∃ r w', resolve providers limits cache_dir spec hints w = (Ok r, w') ∧
  rs_hints r = foldl with_candidate hints (rs_candidates r) ∧
  within_limits limits hints r ∧
  NoDup (candidate_key <$> rs_candidates r) ∧
  (∀ c, c ∈ rs_candidates r →
    candidate_key c ∉ seed_seen_from_hints hints ∧
    ∃ report, report ∈ rs_reports r ∧ c ∈ rep_candidates report) ∧
  (∀ report c, report ∈ rs_reports r → c ∈ rep_candidates report →
    candidate_key c ∈ seed_seen_from_hints hints ∨ candidate_key c ∈ candidate_key <$> rs_candidates r ∨
    refused limits r (candidate_key c)).
Proof.
  destruct (resolving_all limits hints cache_dir spec providers (resolution_empty hints) _ w
    (resolving_start limits hints)) as (r & seen & w' & E & Hr).
  exists r, w'. unfold resolve. rewrite (eff_bind_ok _ _ _ _ _ E). split; [done|].
  destruct Hr as [Hh Hl Hnd Hnew Htk Hs Ho]. split_and!; [done..| |].
  - intros c Hc. destruct (Hnew c Hc) as [? Hof]. split; [done|].
    unfold offered_by in Hof. apply list_elem_of_join in Hof as (cs & Hcs & Hin).
    apply list_elem_of_fmap in Hin as (report & -> & Hin). eauto.
  - intros report c Hrep Hc. apply Hs, Ho. unfold offered_by. apply list_elem_of_join.
    exists (rep_candidates report). split; [done|]. by apply list_elem_of_fmap_2.
Qed.
