(* ===== verification/Providers.v ===== *)
(** * The program's providers of swarm candidates ([src/src/p2p/provider.rs])

    What a magnet link and the configuration say, lists of trackers, index feeds
    and discovery pages.  What is fetched is kept in files and used while it is
    fresh, or when fetching fails.  The network is a function of the number of the
    request and its URL; the age of a file is looked up likewise, and so are
    parameters, with what reads a response. *)

From S2P Require Import Prelude Text Status Effect Source Files Checksum Config Probe Magnet Discovery Swarm.

(** What the crates reqwest and url do with a response and with a text in a URL. *)
Class WebLib := {
  status_error_text : Response → string;
  response_text : Response → result string string;
  response_bytes : Response → result bytes string;
  utf8_lossy : bytes → string;
  byte_serialize : string → string
}.

(** The files, and the number of looks at the network and at ages. *)
Record net_world := mk_net { nw_fs : fs; nw_looks : nat }.
#[export] Instance net_world_eta : Settable net_world := λ w, mk_net (nw_fs w) (nw_looks w).
Abbreviation net := (eff net_world).

(** [src/src/p2p/provider.rs:1258-1265], [parse_tracker_lines]. *)
Definition parse_tracker_lines (contents : string) : list string :=
  filterb (λ line, negb (is_empty line) && negb (starts_with "#" line))%bool (trim <$> lines contents).

(** [src/src/p2p/provider.rs:836-838], [looks_like_torrent_bytes]. *)
Definition looks_like_torrent_bytes (b : bytes) : bool :=
  (starts_with "d" (string_of_bytes b) && contains "4:info" (string_of_bytes b))%bool.

(** [src/src/p2p/provider.rs:793-796], [FetchedIndexSource]. *)
Inductive FetchedIndexSource := FetchedText (contents : string) | FetchedTorrentFile (data : bytes).
(** [src/src/p2p/provider.rs:798-801], [IndexProviderSource]. *)
Inductive IndexProviderSource := IndexText (contents : string) | IndexTorrentFile (path : string).

(** [src/src/p2p/provider.rs:429-434], [StaticSwarmProvider]. *)
Record StaticSwarmProvider := mk_static {
  sp_trackers : list string;
  sp_tracker_files : list string;
  sp_peers : list string;
  sp_web_seeds : list string
}.
(** [src/src/p2p/provider.rs:498-503], [TrackerListProvider]. Without the client; the time to live in
    seconds. *)
Record TrackerListProvider := mk_tracker_list { tl_urls : list string; tl_cache_ttl : Z }.
(** [src/src/p2p/provider.rs:899-905], [DiscoverySwarmProvider]. Without the client. *)
Record DiscoverySwarmProvider := mk_discovery_provider {
  dp_files : list string;
  dp_urls : list string;
  dp_input_kind : TorrentDiscoveryInputKind
}.

Section providers.
Context `{UrlLib} `{!DiscoveryLib} `{WebLib} `{DigestLib}.

(** The age of a file in nanoseconds, at the n-th look; what a request gets, at the n-th look; whether
    an HTTP client can be built; [Path::canonicalize]. *)
Context (age : nat → string → option Z) (get : nat → string → result Response string)
  (client : result unit string) (canonicalize : string → option string).

Definition look {A} (f : nat → A) : net A := λ w, (Ok (f (nw_looks w)), w <| nw_looks ::= S |>).
Definition read_to_string (path : string) : net (result string io_error) :=
  gets (λ w, fs_read_to_string (nw_fs w) path).
(** A change of the files whose failure is a value. *)
Definition try_files (f : fs → result fs io_error) : net (result unit io_error) := λ w,
  match f (nw_fs w) with
  | Ok s => (Ok (Ok tt), w <| nw_fs := s |>)
  | Err err => (Ok (Err err), w)
  end.

(** [src/src/p2p/provider.rs:1246-1256], [is_fresh_cache]. *)
Definition is_fresh_cache (path : string) (ttl_secs : Z) : net bool :=
  let! exists_ := gets (λ w, fs_exists (nw_fs w) path) in
  if negb exists_ then ret false else
  let! file_age := look (λ n, age n path) in
  ret (is_some_and (λ a, a <=? ttl_secs * 1000000000) file_age).

(** [send().await?.error_for_status()?], with the errors' texts. *)
Definition fetch (url : string) : net (result Response string) :=
  let! response := look (λ n, get n url) in
  ret match response with
      | Err err => Err err
      | Ok response =>
          if ((400 <=? rs_status response) && (rs_status response <? 600))%bool
          then Err (status_error_text response) else Ok response
      end.

(** Writing a cache, with the words for its failure. *)
Definition write_cache (report : Report) (path url words : string) (contents : bytes) : net Report :=
  match path_parent path with
  | Some parent => let! _ := try_files (λ f, fs_create_dir_all f parent) in ret tt
  | None => ret tt
  end ;;;
  let! written := try_files (λ f, fs_write_file f path contents) in
  ret match written with
      | Ok _ => report
      | Err err => report_diagnostic report PsWarning (words +:+ path +:+ ": " +:+ io_error_to_string err) (Some url)
      end.

(** [hasher.update] of each part, [finalize] and [{digest:x}]. *)
Definition sha1_hex (parts : list string) : string :=
  hex_of_bytes (hasher_finalize lib_sha1
    (foldl (λ h p, hasher_update lib_sha1 h (bytes_of_string p)) (hasher_new lib_sha1) parts)).

(** ** The magnet link and the configuration *)

(** [src/src/p2p/provider.rs:389-426], [MagnetHintProvider]. *)
Definition magnet_hint_provider : Provider net_world :=
  let name := "magnet-hints" in
  mk_provider name (λ context,
    let report := report_new name in
    match cx_spec context with
    | SpecMagnet uri =>
        let! magnet := lift (magnet_parse uri) in
        let report := foldl (λ r tracker, report_push r (candidate_tracker name tracker "magnet:tr"))
          report (ml_trackers magnet) in
        let report := foldl (λ r peer, report_push r (candidate_peer name (peer_to_string peer) "magnet:x.pe"))
          report (ml_peers magnet) in
        ret (foldl (λ r web_seed, report_push r (candidate_web_seed name web_seed "magnet:ws"))
          report (ml_web_seeds magnet))
    | _ => ret report
    end).

(** A loop that reads texts into the report. *)
Fixpoint report_each {A} (f : Report → A → net Report) (report : Report) (l : list A) : net Report :=
  match l with
  | [] => ret report
  | x :: l => let! report := f report x in report_each f report l
  end.

(** [src/src/p2p/provider.rs:437-495], [StaticSwarmProvider::discover]. *)
Definition static_swarm_provider (p : StaticSwarmProvider) : Provider net_world :=
  let name := "static" in
  mk_provider name (λ _,
    let report := report_new name in
    let report := foldl (λ r tracker, report_push r (candidate_tracker name tracker "config:tracker"))
      report (sp_trackers p) in
    let! report := report_each (λ r path,
        let! contents := read_to_string path in
        ret match contents with
            | Ok contents =>
                foldl (λ r tracker, report_push r (candidate_tracker name tracker path))
                  r (parse_tracker_lines contents)
            | Err err =>
                report_diagnostic r PsError
                  ("failed to read tracker file " +:+ path +:+ ": " +:+ io_error_to_string err) (Some path)
            end) report (sp_tracker_files p) in
    let report := foldl (λ r peer,
        match peer_parse peer with
        | Ok endpoint => report_push r (candidate_peer name (peer_to_string endpoint) "config:peer")
        | Err err =>
            report_diagnostic r PsError
              ("invalid peer '" +:+ peer +:+ "': " +:+ Error_to_string err) (Some "config:peer")
        end) report (sp_peers p) in
    ret (foldl (λ r web_seed, report_push r (candidate_web_seed name web_seed "config:web-seed"))
      report (sp_web_seeds p))).

(** ** Lists of trackers *)

(** [src/src/p2p/provider.rs:524-531], [TrackerListProvider::cache_path]. *)
Definition tracker_cache_path (cache_dir url : string) : string :=
  path_join (path_join cache_dir "tracker-lists") (sha1_hex [url] +:+ ".txt").

(** [src/src/p2p/provider.rs:582-595], [TrackerListProvider::fetch_source]. *)
Definition fetch_tracker_list (url : string) : net (res string) :=
  let! response := fetch url in
  ret (result_map_err EOther (let? response := response in response_text response)).

(** [src/src/p2p/provider.rs:533-580], [TrackerListProvider::read_source]. *)
Definition read_tracker_source (p : TrackerListProvider) (url cache_dir : string) (report : Report)
    : net (option string * Report) :=
  let cache_path := tracker_cache_path cache_dir url in
  let! fresh := is_fresh_cache cache_path (tl_cache_ttl p) in
  if (fresh : bool) then
    let! contents := read_to_string cache_path in ret (result_ok contents, report)
  else
    let! fetched := fetch_tracker_list url in
    match fetched with
    | Ok contents =>
        let! report := write_cache report cache_path url "failed to write tracker cache "
          (bytes_of_string contents) in
        ret (Some contents, report)
    | Err err =>
        let! cached := read_to_string cache_path in
        ret match cached with
            | Ok contents =>
                (Some contents, report_diagnostic report PsWarning
                   ("using stale tracker cache after fetch failed: " +:+ Error_to_string err) (Some url))
            | Err _ =>
                (None, report_diagnostic report PsError
                   ("failed to fetch tracker list: " +:+ Error_to_string err) (Some url))
            end
    end.

(** [src/src/p2p/provider.rs:599-624], [TrackerListProvider::discover]. *)
Definition tracker_list_provider (p : TrackerListProvider) : Provider net_world :=
  let name := "tracker-list" in
  mk_provider name (λ context,
    report_each (λ report url,
      let! source := read_tracker_source p url (cx_cache_dir context) report in
      let '(contents, report) := source in
      ret match contents with
          | None => report
          | Some contents =>
              foldl (λ r tracker, report_push r (candidate_tracker name tracker url))
                report (parse_tracker_lines contents)
          end) (report_new name) (tl_urls p)).

(** [src/src/p2p/provider.rs:506-522], [TrackerListProvider::new]. *)
Definition tracker_list_new (urls : list string) (cache_ttl : Z) : res TrackerListProvider :=
  let? _ := result_map_err (λ err, EOther ("failed to build tracker provider HTTP client: " +:+ err)) client in
  Ok (mk_tracker_list urls cache_ttl).

(** ** Index feeds *)

(** [src/src/p2p/provider.rs:824-834], [is_torrent_url]. *)
Definition is_torrent_url (url : string) : bool :=
  is_some_and (ends_with ".torrent") (result_ok (url_parse url) ≫= last_segment_lower).

(** [src/src/p2p/provider.rs:803-822], [looks_like_torrent_response]. *)
Definition looks_like_torrent_response (url : string) (content_type : option string) (b : bytes) : bool :=
  let expected_torrent :=
    (is_torrent_url url ||
     is_some_and (λ value, let value := to_ascii_lowercase value in
       contains "application/x-bittorrent" value || contains "application/octet-stream" value)%bool
       content_type)%bool in
  if expected_torrent then looks_like_torrent_bytes b
  else if (is_some_and (λ value, starts_with "text/" (to_ascii_lowercase value)) content_type &&
           looks_like_torrent_bytes b)%bool then true
  else looks_like_torrent_bytes b.

(** [src/src/p2p/provider.rs:1148-1162], [btih_from_spec]. *)
Definition btih_from_spec (spec : DownloadSpec) : option string :=
  match spec with
  | SpecMagnet uri =>
      magnet ← result_ok (magnet_parse uri);
      head (omap (λ topic, match topic with Btih hash => Some hash | _ => None end) (ml_exact_topics magnet))
  | SpecMetadata _ info_hash => info_hash
  | _ => None
  end.

(** [src/src/p2p/provider.rs:1131-1143], [expand_index_url_template (for loop)]. *)
Definition expand_token (expanded : option string) (token : string * option string) : option string :=
  expanded ← expanded;
  let '(name, value) := token in
  let placeholder := "{" +:+ name +:+ "}" in
  if contains placeholder expanded then
    value ← value; Some (replace placeholder (byte_serialize value) expanded)
  else Some expanded.
(** [src/src/p2p/provider.rs:1114-1146], [expand_index_url_template]. *)
Definition expand_index_url_template (template : string) (spec : DownloadSpec) : option string :=
  let expanded := trim template in
  if is_empty expanded then None
  else
    let info_hash := btih_from_spec spec in
    let display_name := file_name_hint spec in
    let locator := match spec with SpecMetadata _ _ => None | _ => Some (spec_locator spec) end in
    let query := opt_or (opt_or display_name info_hash) locator in
    foldl expand_token (Some expanded)
      [("btih", info_hash); ("info_hash", info_hash); ("display_name", display_name);
       ("query", query); ("locator", locator)].

(** [src/src/p2p/provider.rs:1071-1112], [push_discovery_candidates_for_provider]. *)
Definition push_discovery_candidates (provider_name : string) (report : Report)
    (candidates : list DiscoveryCandidate) : Report :=
  foldl (λ report c,
    report_push report
      match dk_kind c with
      | DkMagnet => candidate_locator CkMagnet (dk_locator c) (dk_display_name c) provider_name (dk_source c)
      | DkTorrentFile =>
          candidate_locator CkTorrentFile (dk_locator c) (dk_display_name c) provider_name (dk_source c)
      | DkTracker => candidate_tracker provider_name (dk_locator c) (dk_source c)
      | DkWebSeed => candidate_web_seed provider_name (dk_locator c) (dk_source c)
      end) report candidates.

(** [src/src/p2p/provider.rs:627-631], [IndexFeedProvider]. Without the client. *)
Record IndexFeedProvider := mk_index_feed {
  if_config : SwarmIndexProviderConfig;
  if_provider_name : string
}.

(** [src/src/p2p/provider.rs:634-664], [IndexFeedProvider::new]. *)
Definition index_feed_new (config : SwarmIndexProviderConfig) : res IndexFeedProvider :=
  let name := trim (ip_name config) in
  let url_template := trim (ip_url_template config) in
  if is_empty name then Err (EOther "index provider name cannot be blank")
  else if is_empty url_template then Err (EOther "index provider url_template cannot be blank")
  else if ((ip_cache_ttl_secs config =? 0) || (ip_timeout_secs config =? 0))%bool then
    Err (EOther "index provider cache_ttl_secs and timeout_secs must be greater than 0")
  else
    let? _ := result_map_err (λ err, EOther ("failed to build index provider HTTP client: " +:+ err)) client in
    Ok (mk_index_feed
          (mk_index_provider name url_template (ip_input_kind config) (ip_cache_ttl_secs config)
             (ip_timeout_secs config))
          ("index-feed:" +:+ name)).

(** [src/src/p2p/provider.rs:666-676], [IndexFeedProvider::cache_path]. *)
Definition index_cache_path (p : IndexFeedProvider) (cache_dir url extension : string) : string :=
  let newline := String (Chr.of_code 10) "" in
  path_join (path_join cache_dir "index-feeds")
    (sha1_hex [if_provider_name p; newline; url] +:+ "." +:+ skip_char "." extension).

(** [src/src/p2p/provider.rs:763-790], [IndexFeedProvider::fetch_source]. *)
Definition fetch_index_source (url : string) : net (res FetchedIndexSource) :=
  let! response := fetch url in
  ret (result_map_err EOther
        (let? response := response in
         let content_type :=
           match header "content-type" response with Some (HText value) => Some value | _ => None end in
         let? b := response_bytes response in
         Ok (if looks_like_torrent_response url content_type b then FetchedTorrentFile b
             else FetchedText (utf8_lossy b)))).

(** [src/src/p2p/provider.rs:678-761], [IndexFeedProvider::read_source]. *)
Definition read_index_source (p : IndexFeedProvider) (url cache_dir : string) (report : Report)
    : net (option IndexProviderSource * Report) :=
  let torrent_cache_path := index_cache_path p cache_dir url "torrent" in
  let text_cache_path := index_cache_path p cache_dir url "txt" in
  let cache_ttl := ip_cache_ttl_secs (if_config p) in
  let! torrent_fresh := is_fresh_cache torrent_cache_path cache_ttl in
  if (torrent_fresh : bool) then ret (Some (IndexTorrentFile torrent_cache_path), report)
  else
    let! text_fresh := is_fresh_cache text_cache_path cache_ttl in
    if (text_fresh : bool) then
      let! contents := read_to_string text_cache_path in
      ret (IndexText <$> result_ok contents, report)
    else
      let! fetched := fetch_index_source url in
      match fetched with
      | Ok (FetchedTorrentFile b) =>
          let! report := write_cache report torrent_cache_path url "failed to write index cache " b in
          ret (Some (IndexTorrentFile torrent_cache_path), report)
      | Ok (FetchedText contents) =>
          let! report := write_cache report text_cache_path url "failed to write index cache "
            (bytes_of_string contents) in
          ret (Some (IndexText contents), report)
      | Err err =>
          let stale := report_diagnostic report PsWarning
            ("using stale index cache after fetch failed: " +:+ Error_to_string err) (Some url) in
          let! torrent_exists := gets (λ w, fs_exists (nw_fs w) torrent_cache_path) in
          if (torrent_exists : bool) then ret (Some (IndexTorrentFile torrent_cache_path), stale)
          else
            let! cached := read_to_string text_cache_path in
            ret match cached with
                | Ok contents => (Some (IndexText contents), stale)
                | Err _ =>
                    (None, report_diagnostic report PsError
                       ("failed to fetch index feed: " +:+ Error_to_string err) (Some url))
                end
      end.

(** [src/src/p2p/provider.rs:841-896], [IndexFeedProvider::discover]. *)
Definition index_feed_provider (p : IndexFeedProvider) : Provider net_world :=
  let name := if_provider_name p in
  mk_provider name (λ context,
    let report := report_new name in
    match expand_index_url_template (ip_url_template (if_config p)) (cx_spec context) with
    | None =>
        ret (report_diagnostic report PsWarning
               "index URL template could not be expanded for this torrent spec"
               (Some (ip_url_template (if_config p))))
    | Some url =>
        let! source := read_index_source p url (cx_cache_dir context) report in
        let '(source, report) := source in
        ret match source with
            | None => report
            | Some (IndexTorrentFile path) =>
                report_push report (candidate_locator CkTorrentFile path (file_name_hint (cx_spec context)) name url)
            | Some (IndexText contents) =>
                let options := mk_options (ip_input_kind (if_config p)) (Some url) None in
                match discover_torrent_candidates contents options with
                | Ok candidates => push_discovery_candidates name report candidates
                | Err err =>
                    report_diagnostic report PsError
                      ("failed to parse index feed " +:+ url +:+ ": " +:+ Error_to_string err) (Some url)
                end
            end
    end).

(** ** Discovery pages *)

(** [src/src/p2p/provider.rs:908-930], [DiscoverySwarmProvider::new]. *)
Definition discovery_provider_new (files urls : list string) (input_kind : TorrentDiscoveryInputKind)
    : res DiscoverySwarmProvider :=
  let? _ := result_map_err (λ err, EOther ("failed to build discovery provider HTTP client: " +:+ err)) client in
  Ok (mk_discovery_provider files urls input_kind).

(** [src/src/p2p/provider.rs:1267-1274], [discovery_file_base]. *)
Definition discovery_file_base (path : string) : option string :=
  match canonicalize path with
  | Some canonical => path_parent canonical
  | None => opt_filter (λ parent, negb (is_empty parent)) (path_parent path)
  end.

(** What is discovered in a text, put into the report. *)
Definition report_discovered (report : Report) (contents words source : string) (options : DiscoveryOptions)
    : Report :=
  match discover_torrent_candidates contents options with
  | Ok candidates => push_discovery_candidates "discovery" report candidates
  | Err err =>
      report_diagnostic report PsError (words +:+ source +:+ ": " +:+ Error_to_string err) (Some source)
  end.

(** [src/src/p2p/provider.rs:942-1019], [DiscoverySwarmProvider::discover]. *)
Definition discovery_swarm_provider (p : DiscoverySwarmProvider) : Provider net_world :=
  mk_provider "discovery" (λ _,
    let! report := report_each (λ report path,
        let! contents := read_to_string path in
        ret match contents with
            | Ok contents =>
                report_discovered report contents "failed to parse discovery file " path
                  (mk_options (dp_input_kind p) None (discovery_file_base path))
            | Err err =>
                report_diagnostic report PsError
                  ("failed to read discovery file " +:+ path +:+ ": " +:+ io_error_to_string err) (Some path)
            end) (report_new "discovery") (dp_files p) in
    report_each (λ report url,
        let! response := fetch url in
        ret match response with
            | Ok response =>
                match response_text response with
                | Ok contents =>
                    report_discovered report contents "failed to parse discovery URL " url
                      (mk_options (dp_input_kind p) (Some url) None)
                | Err err =>
                    report_diagnostic report PsError
                      ("failed to read discovery URL " +:+ url +:+ ": " +:+ err) (Some url)
                end
            | Err err =>
                report_diagnostic report PsError
                  ("failed to fetch discovery URL " +:+ url +:+ ": " +:+ err) (Some url)
            end) report (dp_urls p)).

(** ** The resolver of a configuration *)

(** [src/src/p2p/provider.rs:1021-1069], [build_swarm_provider_resolver]. The resolver is the function
    of a specification and hints that it is used as. *)
Definition build_swarm_provider_resolver (config : SwarmProviderConfig) (download_dir : string)
    : res (option (DownloadSpec → TorrentSwarmHints → net Resolution)) :=
  if negb (sw_enabled config) then Ok None
  else
    let none {A} (l : list A) : bool := match l with [] => true | _ => false end in
    let providers := if sw_include_magnet_hints config then [magnet_hint_provider] else [] in
    let providers :=
      if (negb (none (sw_static_trackers config)) || negb (none (sw_static_tracker_files config)) ||
          negb (none (sw_static_peers config)) || negb (none (sw_static_web_seeds config)))%bool
      then providers ++ [static_swarm_provider
             (mk_static (sw_static_trackers config) (sw_static_tracker_files config)
                (sw_static_peers config) (sw_static_web_seeds config))]
      else providers in
    let? providers :=
      if negb (none (sw_tracker_list_urls config)) then
        let? p := tracker_list_new (sw_tracker_list_urls config) (sw_tracker_list_cache_ttl_secs config) in
        Ok (providers ++ [tracker_list_provider p])
      else Ok providers in
    let? providers :=
      foldl (λ ps c, let? ps := ps in let? p := index_feed_new c in Ok (ps ++ [index_feed_provider p]))
        (Ok providers) (sw_index_providers config) in
    let? providers :=
      if (negb (none (sw_discovery_files config)) || negb (none (sw_discovery_urls config)))%bool then
        let? p := discovery_provider_new (sw_discovery_files config) (sw_discovery_urls config)
                    (sw_discovery_input_kind config) in
        Ok (providers ++ [discovery_swarm_provider p])
      else Ok providers in
    Ok (Some (resolve providers (sw_limits config) (resolved_cache_dir config download_dir))).
End providers.

(** ** Paths of caches *)

Lemma length_append a b : String.length (a +:+ b) = (String.length a + String.length b)%nat.
Proof. induction a as [|c a IH]; [done|]. change (String c a +:+ b) with (String c (a +:+ b)). cbn. by rewrite IH. Qed.
Lemma length_srev s : String.length (srev s) = String.length s.
Proof.
  induction s as [|c s IH]; [done|]. change (srev (String c s)) with (srev_app s (String c "")).
  rewrite srev_app_spec, length_append, IH. cbn. lia.
Qed.
Lemma length_skip_char c s : (String.length (skip_char c s) ≤ String.length s)%nat.
Proof. induction s as [|d s IH]; [done|]. cbn. destruct (Ascii.eqb c d); cbn; lia. Qed.
Lemma rsplit_once_inv c s a b : rsplit_once c s = Some (a, b) → s = a +:+ String c b.
Proof.
  revert a b. induction s as [|d s IH]; cbn; intros a b; [done|].
  destruct (rsplit_once c s) as [[a' b']|].
  - intros [= <- <-]. by rewrite (IH _ _ eq_refl).
  - destruct (Ascii.eqb c d) eqn:E; [|done]. intros [= <- <-]. by apply Ascii.eqb_eq in E as ->.
Qed.

(** A path that does not end in a slash is not its own parent. *)
Lemma path_parent_ne a d : Ascii.eqb "/" d = false → path_parent (a +:+ String d "") ≠ Some (a +:+ String d "").
Proof.
  intros Hd. set (p := a +:+ String d "").
  assert (srev (skip_char "/" (srev p)) = p) as Hp.
  { unfold p. rewrite srev_append. change (srev (String d "") +:+ srev a) with (String d (srev a)).
    rewrite skip_char_ne by done. change (String d (srev a)) with (srev (String d "") +:+ srev a).
    by rewrite <- srev_append, srev_srev. }
  unfold path_parent. rewrite Hp.
  assert (is_empty p = false) as -> by (unfold p; by destruct a).
  destruct (rsplit_once "/" p) as [[dir rest]|] eqn:Er.
  - apply rsplit_once_inv in Er. pose proof (length_skip_char "/" (srev dir)) as Hl. rewrite length_srev in Hl.
    intros [= Hq]. apply (f_equal String.length) in Er. rewrite length_append in Er. cbn in Er.
    destruct (is_empty _).
    + unfold p in Hq. destruct a as [|c a]; [injection Hq as <-; done|by destruct a].
    + apply (f_equal String.length) in Hq. rewrite length_srev in Hq. lia.
  - intros [= Hq]. unfold p in Hq. by destruct a.
Qed.
Lemma path_join_end d n c : ∃ a, path_join d (n +:+ String c "") = a +:+ String c "".
Proof.
  unfold path_join. destruct (starts_with "/" _); [by exists n|]. destruct (is_empty d); [by exists n|].
  destruct (ends_with "/" d); [exists (d +:+ n)|exists (d +:+ "/" +:+ n)]; by rewrite !append_assoc.
Qed.
Lemma tracker_cache_parent `{DigestLib} dir url :
  path_parent (tracker_cache_path dir url) ≠ Some (tracker_cache_path dir url).
Proof.
  unfold tracker_cache_path. set (h := sha1_hex [url]).
  assert (h +:+ ".txt" = (h +:+ ".tx") +:+ String "t" "") as -> by by rewrite append_assoc.
  destruct (path_join_end (path_join dir "tracker-lists") (h +:+ ".tx") "t") as [a ->].
  by apply path_parent_ne.
Qed.

(** ** A list that was fetched is kept *)
Section cached.
Context `{WebLib} `{DigestLib}.
Context (age : nat → string → option Z) (get : nat → string → result Response string).
Abbreviation read := (read_tracker_source age get).

Lemma write_cache_ok report path url words contents w :
  fs_names (nw_fs w) !! path ≠ Some NDir → path_parent path ≠ Some path →
  ∃ w', write_cache report path url words contents w = (Ok report, w') ∧
    fs_read (nw_fs w') path = Ok contents ∧ nw_looks w' = nw_looks w.
Proof.
  intros Hd Hp. unfold write_cache.
  assert (∃ w1, match path_parent path with
      | Some parent => let! _ := try_files (λ f, fs_create_dir_all f parent) in ret tt
      | None => ret tt
      end w = (Ok tt, w1) ∧ fs_names (nw_fs w1) !! path ≠ Some NDir ∧ nw_looks w1 = nw_looks w)
    as (w1 & E & Hd1 & Hl).
  { destruct (path_parent path) as [parent|]; [|by exists w].
    assert (parent ≠ path) as Hne by congruence.
    unfold eff_bind, try_files, fs_create_dir_all. destruct (is_empty parent); [eexists; split; [done|by destruct w]|].
    destruct (fs_names (nw_fs w) !! parent) as [[|]|]; [by exists w|eexists; split; [done|by destruct w]|].
    eexists. split; [done|]. cbn. by rewrite lookup_insert_ne. }
  rewrite (eff_bind_ok _ _ _ _ _ E). destruct (fs_write_file_ok _ _ contents Hd1) as (f & Ef & _).
  unfold eff_bind, try_files. rewrite Ef. eexists. split; [done|]. split; [|exact Hl].
  by eapply fs_write_file_read.
Qed.

(** What is in the cache is used while it is fresh, without a look at the network, and with a warning
    when the network fails. *)
Lemma cached_source p url dir report contents w :
  fs_read_to_string (nw_fs w) (tracker_cache_path dir url) = Ok contents →
  (∀ a, age (nw_looks w) (tracker_cache_path dir url) = Some a → a ≤ tl_cache_ttl p * 1000000000 →
     read p url dir report w = (Ok (Some contents, report), w <| nw_looks ::= S |>)) ∧
  (fst (is_fresh_cache age (tracker_cache_path dir url) (tl_cache_ttl p) w) = Ok false →
   ∀ err, get (S (nw_looks w)) url = Err err →
     read p url dir report w = (Ok (Some contents, report_diagnostic report PsWarning
       ("using stale tracker cache after fetch failed: " +:+ Error_to_string (EOther err)) (Some url)),
       w <| nw_looks ::= λ n, S (S n) |>)).
Proof.
  intros Hr. set (path := tracker_cache_path dir url) in *.
  assert (fs_exists (nw_fs w) path = true) as He.
  { unfold fs_read_to_string, fs_read, fs_exists in *. by destruct (fs_names (nw_fs w) !! path). }
  unfold read_tracker_source, is_fresh_cache. fold path. split.
  - intros a Ha Hle. unfold eff_bind, gets, ret, look. cbn. rewrite He. cbn. rewrite Ha. cbn.
    rewrite (proj2 (Z.leb_le _ _) Hle). unfold read_to_string, gets. cbn. by rewrite Hr.
  - intros Hf err Hg. unfold eff_bind, gets, ret, look in *. cbn in *. rewrite He in *. cbn in *.
    injection Hf as ->. unfold fetch_tracker_list, fetch, eff_bind, look, ret, read_to_string, gets. cbn.
    rewrite Hg. cbn. rewrite Hr. destruct w; reflexivity.
Qed.

(** C37. A tracker list that is fetched is kept: whatever happens to other files, the next reads
    give it again from its cache, without a request while it is fresh, and with a warning when it is
    not but the request fails. *)
Theorem tracker_cache_spec p url dir report w response contents :
  fst (is_fresh_cache age (tracker_cache_path dir url) (tl_cache_ttl p) w) = Ok false →
  fs_names (nw_fs w) !! tracker_cache_path dir url ≠ Some NDir →
  get (nw_looks (snd (is_fresh_cache age (tracker_cache_path dir url) (tl_cache_ttl p) w))) url = Ok response →
  rs_status response < 400 → response_text response = Ok contents → utf8_valid contents = true →
  ∃ w', read p url dir report w = (Ok (Some contents, report), w') ∧
    ∀ report2 w2,
      fs_read (nw_fs w2) (tracker_cache_path dir url) = fs_read (nw_fs w') (tracker_cache_path dir url) →
      (∀ a, age (nw_looks w2) (tracker_cache_path dir url) = Some a → a ≤ tl_cache_ttl p * 1000000000 →
         read p url dir report2 w2 = (Ok (Some contents, report2), w2 <| nw_looks ::= S |>)) ∧
      (fst (is_fresh_cache age (tracker_cache_path dir url) (tl_cache_ttl p) w2) = Ok false →
       ∀ err, get (S (nw_looks w2)) url = Err err →
         fst (read p url dir report2 w2) = Ok (Some contents, report_diagnostic report2 PsWarning
           ("using stale tracker cache after fetch failed: " +:+ Error_to_string (EOther err)) (Some url))).
Proof.
  intros Hf Hd Hg Hst Ht Hu. set (path := tracker_cache_path dir url) in *.
  set (w1 := snd (is_fresh_cache age path (tl_cache_ttl p) w)) in *.
  assert (is_fresh_cache age path (tl_cache_ttl p) w = (Ok false, w1)) as E1.
  { unfold w1. by rewrite <- Hf, <- surjective_pairing. }
  assert (nw_fs w1 = nw_fs w) as Ew.
  { unfold w1, is_fresh_cache, eff_bind, gets, look, ret. cbn. by destruct (fs_exists (nw_fs w) path). }
  destruct (write_cache_ok report path url "failed to write tracker cache " (bytes_of_string contents)
    (w1 <| nw_looks ::= S |>)) as (w' & E & Hread & _); [cbn; by rewrite Ew|apply tracker_cache_parent|].
  exists w'. split.
  - unfold read_tracker_source. fold path. rewrite (eff_bind_ok _ _ _ _ _ E1).
    unfold fetch_tracker_list, fetch. unfold eff_bind at 1 2 3, look, ret. cbn -[write_cache]. rewrite Hg.
    rewrite (proj2 (Z.leb_gt _ _) Hst). cbn -[write_cache]. rewrite Ht. cbn -[write_cache].
    by rewrite (eff_bind_ok _ _ _ _ _ E).
  - intros report2 w2 Hw2.
    assert (fs_read_to_string (nw_fs w2) path = Ok contents) as Hc.
    { unfold fs_read_to_string. rewrite Hw2, Hread. cbn. by rewrite string_of_bytes_of_string, Hu. }
    destruct (cached_source p url dir report2 contents w2 Hc) as [Hfresh Hstale]. split; [exact Hfresh|].
    intros Hf2 err Hg2. by rewrite (Hstale Hf2 err Hg2).
Qed.
End cached.

(** ** Example: a list that is fetched once, before the network is gone *)

#[local] Existing Instance example_digests.
#[local] Instance plain_web : WebLib := {
  status_error_text _ := "status";
  response_text _ := Ok "udp://t/announce";
  response_bytes _ := Ok [];
  utf8_lossy b := string_of_bytes b;
  byte_serialize s := s
}.
Definition one_answer (n : nat) (url : string) : result Response string :=
  match n with O => Ok (mk_response 200 url [] None []) | S _ => Err "down" end.
Definition stale (n : nat) (path : string) : option Z := None.
Definition one_list : TrackerListProvider := mk_tracker_list ["http://l"] 1.

Lemma tracker_cache_spec_witness :
  ∃ w', read_tracker_source stale one_answer one_list "http://l" "/c" (report_new "t") (mk_net fs_empty 0)
          = (Ok (Some "udp://t/announce", report_new "t"), w') ∧
    fst (read_tracker_source stale one_answer one_list "http://l" "/c" (report_new "t") w') =
      Ok (Some "udp://t/announce", report_diagnostic (report_new "t") PsWarning
        "using stale tracker cache after fetch failed: Other error: down" (Some "http://l")).
Proof.
  destruct (tracker_cache_spec stale one_answer one_list "http://l" "/c" (report_new "t") (mk_net fs_empty 0)
    (mk_response 200 "http://l" [] None []) "udp://t/announce") as (w' & E & Hnext).
  - by vm_compute.
  - by vm_compute.
  - by vm_compute.
  - cbn. lia.
  - done.
  - by vm_compute.
  - exists w'. split; [exact E|]. destruct (Hnext (report_new "t") w' eq_refl) as [_ Hstale].
    apply (Hstale) with (err := "down").
    + unfold is_fresh_cache, eff_bind, gets, look, ret. cbn. by destruct (fs_exists _ _).
    + done.
Defined.
