(* ===== verification/TorrentJob.v ===== *)
(** * Torrent downloads ([src/src/job/p2p.rs])

    The preparation of a download from a swarm: where its peers are looked for,
    the session of the torrent engine and what it knows of the payload; and what
    the task does with the events the engine sends.  The engine is outside of the
    repository's core and a parameter. *)

From S2P Require Import Prelude Text Ranges Status Effect Source Piece Files Checksum Manifest Planner Payload Torrent Config Task Mapping Repository Store Probe Job Magnet Discovery Swarm Providers.

(** [src/src/p2p/engine.rs:253-263], [TorrentEngineRequest]. Without the channel for the events. *)
Record TorrentEngineRequest := mk_engine_request {
  rq_session_id : Z;
  rq_spec : DownloadSpec;
  rq_download_dir : string;
  rq_requested_file_name : option string;
  rq_requested_file_path : option string;
  rq_rate_limit_kib_per_sec : option Z;
  rq_swarm_hints : TorrentSwarmHints;
  rq_resume : option TorrentResumeSnapshot
}.
#[export] Instance TorrentEngineRequest_eta : Settable TorrentEngineRequest := λ r,
  mk_engine_request (rq_session_id r) (rq_spec r) (rq_download_dir r) (rq_requested_file_name r)
    (rq_requested_file_path r) (rq_rate_limit_kib_per_sec r) (rq_swarm_hints r) (rq_resume r).

(** The start of a session, [TorrentEngine::start_session]. *)
Class TorrentSessions (E : Type) := {
  start_session : TorrentEngineRequest → eff E TorrentEngineSession
}.

(** ** Diagnostics *)

Definition session_diagnostic (severity : TorrentDiagnosticSeverity) (message : string)
    (url : option string) : TorrentDiagnosticEvent :=
  mk_diagnostic DSession severity message url None None.

(** [src/src/job/p2p.rs:145-163], [provider_diagnostic_to_torrent]. *)
Definition provider_diagnostic_to_torrent (d : ProviderDiagnostic) : TorrentDiagnosticEvent :=
  session_diagnostic
    match pd_severity d with PsInfo => SevInfo | PsWarning => SevWarning | PsError => SevError end
    ("swarm provider " +:+ pd_provider d +:+ ": " +:+ pd_message d) (pd_source d).

(** [src/src/job/p2p.rs:331-338], [is_noisy_peer_message]. *)
Definition is_noisy_peer_message (d : TorrentDiagnosticEvent) : bool :=
  let message := to_ascii_lowercase (td_message d) in
  (contains "disconnecting" message || contains "end of file" message ||
   contains "connection reset" message || contains "redirecting" message ||
   contains "404 not found" message)%bool.

(** [src/src/job/p2p.rs:306-329], [is_noisy_torrent_diagnostic]. *)
Definition is_noisy_torrent_diagnostic (d : TorrentDiagnosticEvent) : bool :=
  if (bool_decide (td_scope d = DPortMapping) && negb (bool_decide (td_severity d = SevError)))%bool
  then true
  else if negb (bool_decide (td_scope d = DTracker))
  then (bool_decide (td_scope d = DPeer) && is_noisy_peer_message d)%bool
  else
    let message := to_ascii_lowercase (td_message d) in
    let endpoint := unwrap_or "" (td_endpoint d) in
    (starts_with "127." endpoint || starts_with "[::1]" endpoint || starts_with "::1" endpoint ||
     contains "sending announce" message || contains "skipping tracker announce" message ||
     contains "timed out" message || contains "end of file" message)%bool.

(** [diagnostic.peers.is_some_and(|peers| peers > 0)] *)
Definition found_peers (d : TorrentDiagnosticEvent) : bool := is_some_and (λ peers, 0 <? peers) (td_peers d).

(** [src/src/job/p2p.rs:287-295], [should_retain_torrent_diagnostic]. *)
Definition should_retain_torrent_diagnostic (d : TorrentDiagnosticEvent) : bool :=
  if found_peers d then true
  else if is_noisy_torrent_diagnostic d then false
  else negb (bool_decide (td_severity d = SevInfo)).

(** [src/src/job/p2p.rs:297-304], [should_emit_torrent_diagnostic]. *)
Definition should_emit_torrent_diagnostic (d : TorrentDiagnosticEvent) : bool :=
  (should_retain_torrent_diagnostic d &&
   (match td_severity d with SevWarning | SevError => true | SevInfo => false end ||
    (bool_decide (td_scope d = DTracker) && found_peers d)))%bool.

Section torrent_job.
Context {St E : Type} `{Repository St} `{TorrentEngine E} `{TorrentSessions E} `{UrlLib} `{!DiscoveryLib}
  `{WebLib} `{HttpLib} `{DigestLib}.
Context `{Json DownloadSpec} `{Json SourceSet} `{Json TorrentEngineState} `{Json TorrentMetadata}.

Abbreviation job := (eff (job_world St E)).

(** The configuration; whether the task has a store and a living manager; the clock; what the providers
    see of the network and of the files' ages; what others do while the engine starts a session. *)
Context (config : Config) (persistence manager : bool) (clock : nat → DateTime)
  (age : nat → string → option Z) (get : nat → string → result Response string)
  (client : result unit string) (canonicalize : string → option string) (meanwhile : job unit).

(** The providers work on the files of the task. *)
Definition on_net {A} (m : net A) : job A := λ w,
  let '(r, n) := m (mk_net (pw_fs (jw_payload w)) (jw_readings w)) in
  (r, w <| jw_payload ::= (λ p, mk_world (nw_fs n) (pw_handles p)) |> <| jw_readings := nw_looks n |>).

Definition record_diagnostic (d : TorrentDiagnosticEvent) : job unit :=
  on_job (record_torrent_diagnostic d).

(** [src/src/job/p2p.rs:340-365], [install_torrent_metadata]. *)
Definition install_torrent_metadata (metadata : TorrentMetadata) (requested_file_path : option string)
    : job unit :=
  let! task := the_job id in
  let! manifest := lift (manifest_from_torrent_metadata (t_spec task) (t_sources task) metadata
                           (download_dir config) requested_file_path) in
  let total_size := m_total_size manifest in
  let primary_file_path := fm_path <$> head (m_files manifest) in
  on_job (λ t, match primary_file_path, t_file_path t with
               | Some file_path, None => t <| t_file_path := Some file_path |>
               | _, _ => t
               end) ;;;
  on_job (update_protocol_probe (Some total_size) true) ;;;
  install manifest ;;;
  ret tt.

(** Whether a candidate is a torrent file that the engine can be given in place of [spec]. *)
Definition is_magnet_or_metadata (spec : DownloadSpec) : bool :=
  match spec with SpecMagnet _ | SpecMetadata _ _ => true | _ => false end.
(** [src/src/job/p2p.rs:41-59], [prepare_swarm_download (for loop)]. *)
Definition take_candidate (spec : DownloadSpec) (st : SourceSet * DownloadSpec) (candidate : Candidate)
    : SourceSet * DownloadSpec :=
  let '(source_set, engine_spec) := st in
  (match candidate_source candidate with
   | Some source => source_push_unique source_set source
   | None => source_set
   end,
   if (bool_decide (cd_kind candidate = CkTorrentFile) && is_magnet_or_metadata spec &&
       is_magnet_or_metadata engine_spec)%bool
   then match spec_parse (cd_locator candidate) with
        | Ok (SpecTorrentFile path) => SpecTorrentFile path
        | _ => engine_spec
        end
   else engine_spec).

(** [src/src/job/p2p.rs:35-82], [prepare_swarm_download (swarm hints)]. The hints for the engine, and
    the specification it is given. *)
Definition find_swarm : job (TorrentSwarmHints * DownloadSpec) :=
  let! task := the_job id in
  let source_set := t_sources task in
  let spec := t_spec task in
  let! initial_hints := lift (from_spec_and_sources spec source_set) in
  match build_swarm_provider_resolver age get client canonicalize (swarm (p2p config))
          (download_dir config) with
  | Ok (Some resolve) =>
      let! resolution := on_net (resolve spec initial_hints) in
      let '(source_set, engine_spec) :=
        foldl (take_candidate spec) (source_set, spec) (rs_candidates resolution) in
      for_each (λ d, record_diagnostic (provider_diagnostic_to_torrent d)) (rs_diagnostics resolution) ;;;
      when (negb (bool_decide (rs_candidates resolution = [])))
        (on_job (λ t, t <| t_sources := source_set |>)) ;;;
      ret (rs_hints resolution, engine_spec)
  | Ok None => ret (initial_hints, spec)
  | Err err =>
      record_diagnostic (session_diagnostic SevWarning
        ("swarm provider setup failed: " +:+ Error_to_string err) None) ;;;
      ret (initial_hints, spec)
  end.

(** [src/src/job/p2p.rs:20-143], [prepare_swarm_download]. *)
Definition prepare_swarm_download : job PreparationOutcome :=
  if negb manager then throw (EOther "task is not attached to a manager") else
  let dir := download_dir config in
  let! dir_exists := path_exists dir in
  when (negb dir_exists) (create_dir_all "Failed to create download directory: " dir) ;;;
  let! task := the_job id in
  let requested_file_path := t_file_path task in
  let resume := t_torrent_resume task in
  let! found := find_swarm in
  let '(swarm_hints, engine_spec) := found in
  let request := mk_engine_request (t_id task) engine_spec dir (t_file_name task) requested_file_path
                   (rate_limit_kib_per_sec config) swarm_hints resume in
  meanwhile ;;;
  let! started := attempt (on_engine (start_session request)) in
  let! engine_session :=
    match started with
    | Ok session => ret session
    | Err err =>
        if negb (bool_decide (engine_spec = t_spec task)) then
          record_diagnostic (session_diagnostic SevWarning
            ("provider torrent metadata candidate failed; falling back to original spec: " +:+
               Error_to_string err) (Some (spec_locator engine_spec))) ;;;
          let! file_name := the_job t_file_name in
          on_engine (start_session
            (request <| rq_spec := t_spec task |> <| rq_requested_file_name := file_name |>))
        else throw err
    end in
  match opt_or (ts_metadata engine_session) (resume ≫= tr_metadata) with
  | Some metadata => install_torrent_metadata metadata requested_file_path
  | None =>
      match ts_manifest engine_session with
      | Some manifest =>
          on_job (update_protocol_probe (Some (m_total_size manifest)) true) ;;;
          install manifest ;;; ret tt
      | None => ret tt
      end
  end ;;;
  on_job (set_torrent_session engine_session) ;;;
  persist_task persistence clock ;;;
  ret PoStartedByEngine.

(** The first piece with an index is complete. *)
Definition complete_piece (piece_index : Z) (t : Task) : Task :=
  t <| t_piece_states ::= update_first (λ piece, ps_index piece =? piece_index)
         (λ piece, mk_piece_state (ps_index piece) true) |>.

(** [src/src/job/p2p.rs:182-285], [handle_torrent_engine_event]. *)
Definition handle_torrent_engine_event (event : TorrentEngineEvent) : job unit :=
  let! task := the_job id in
  let persist := persist_task persistence clock in
  let emit := emit_manager_event manager in
  let finish outcome := finish_job persistence manager clock outcome ;;; release_permit in
  match event with
  | TEMetadataDiscovered metadata =>
      on_job (record_torrent_metadata metadata) ;;;
      install_torrent_metadata metadata (t_file_path task) ;;;
      persist
  | TEStateChanged state =>
      on_job (record_torrent_state state) ;;;
      match state with
      | TSCompleted | TSSeeding => finish (Ok tt)
      | TSPaused => set_status Paused ;;; emit (EvPause (t_id task))
      | _ => ret tt
      end
  | TEProgress stats =>
      on_job (record_torrent_transfer stats) ;;;
      on_job (λ t, t <| t_downloaded_size := tx_downloaded stats |> <| t_total_size := tx_total stats |>
                     <| t_total_size_known := true |>) ;;;
      emit (EvProgress (t_id task) (tx_downloaded stats) (tx_total stats))
  | TEPieceFinished piece_index => on_job (complete_piece piece_index) ;;; persist
  | TEResumeData data => on_job (record_torrent_resume_data data) ;;; persist
  | TEDiagnostic diagnostic =>
      when (should_retain_torrent_diagnostic diagnostic) (record_diagnostic diagnostic) ;;;
      when (should_emit_torrent_diagnostic diagnostic) (emit (EvTorrentDiagnostic (t_id task) diagnostic))
  | TEFinished => on_job (record_torrent_state TSCompleted) ;;; finish (Ok tt)
  | TEError message =>
      record_diagnostic (session_diagnostic SevError message None) ;;;
      finish (Err (EOther message))
  end.

(** [src/src/job/p2p.rs:165-180], [spawn_torrent_event_listener]. What it does with the events that
    arrive, one after the other; an error is only logged. *)
Definition torrent_event_loop (events : list TorrentEngineEvent) : job unit :=
  for_each (λ event, attempt (handle_torrent_engine_event event) ;;; ret tt) events.
End torrent_job.
