(* ===== verification/TorrentJobFacts.v ===== *)
(** * Torrent downloads: what the engine's events do

    The status of a task follows the engine's events whatever it was before and
    whatever fails; preparing a torrent leaves the task's permit alone, which is
    what the manager's laws ask of it. *)

From S2P Require Import Prelude Text Ranges Status Effect Source Piece Files Checksum Manifest Planner Payload Torrent Config Task Mapping Repository Memory Store Probe Job JobFacts Magnet Discovery Swarm Providers TorrentJob.

Section torrent_facts.
Context {St E : Type} `{Repository St} `{TorrentEngine E} `{TorrentSessions E} `{UrlLib} `{HttpLib} `{DigestLib}.
Context `{Json DownloadSpec} `{Json SourceSet} `{Json TorrentEngineState} `{Json TorrentMetadata}.
Context (config : Config) (persistence manager : bool) (clock : nat → DateTime).

Abbreviation world := (job_world St E).
Abbreviation handle := (handle_torrent_engine_event (St:=St) (E:=E) config persistence manager clock).
Abbreviation event_loop := (torrent_event_loop (St:=St) (E:=E) config persistence manager clock).

(** ** The status *)

(** What the status of a task becomes with an event of the engine. *)
Definition next_status (status : Status) (event : TorrentEngineEvent) : Status :=
  match event with
  | TEFinished | TEStateChanged TSCompleted | TEStateChanged TSSeeding => Completed
  | TEStateChanged TSPaused => Paused
  | TEError m => Failed (EOther m)
  | _ => status
  end.

Abbreviation keeps_status m := (keeps (same (St:=St) (E:=E) t_status) m).

Lemma status_persist : keeps_status (persist_task persistence clock).
Proof. unfold persist_task. repeat same_step. Qed.
Lemma status_install m : keeps_status (install m).
Proof.
  unfold install. repeat same_step. intros w. unfold same, on_job, modify, install_manifest. cbn.
  repeat case_match; reflexivity.
Qed.
Lemma status_metadata metadata path : keeps_status (install_torrent_metadata config metadata path).
Proof.
  unfold install_torrent_metadata. repeat first [apply status_install | same_step].
  intros w. unfold same, on_job, modify. cbn. by repeat case_match.
Qed.

(** From any state, [m] ends with the status [s], or with what it does to others unsaid. *)
Definition sets_status {A} (m : eff world A) (s : Status → Status) : Prop :=
  ∀ w, t_status (jw_task (snd (m w))) = s (t_status (jw_task w)).
Lemma sets_keeps {A} (m : eff world A) : keeps_status m → sets_status m id.
Proof. intros Hm w. apply Hm. Qed.
Lemma sets_then {A B} (m : eff world A) (k : A → eff world B) s :
  sets_status m s → (∀ a, keeps_status (k a)) → sets_status (eff_bind m k) s.
Proof.
  intros Hm Hk w. specialize (Hm w). unfold eff_bind. destruct (m w) as [[a|e] w1]; [|done].
  cbn in Hm |- *. rewrite <- Hm. apply Hk.
Qed.
Lemma sets_after {A B} (m : eff world A) (k : A → eff world B) s :
  keeps_status m → (∀ w, is_ok (fst (m w)) = true) → (∀ a, sets_status (k a) s) →
  sets_status (eff_bind m k) s.
Proof.
  intros Hm Hok Hk w. specialize (Hm w). specialize (Hok w). unfold eff_bind.
  destruct (m w) as [[a|e] w1]; [|done]. cbn in Hm |- *. rewrite Hk. f_equal. exact Hm.
Qed.
Lemma sets_set s : sets_status (set_status s) (λ _, s).
Proof. by intros w. Qed.

Lemma finish_sets_status outcome :
  sets_status (finish_job persistence manager clock outcome)
    (λ _, match outcome with Ok _ => Completed | Err err => Failed err end).
Proof.
  unfold finish_job, emit_manager_event, persist_task_checksums.
  apply sets_after; [by repeat same_step|done|intros i]. destruct outcome as [[]|err].
  - apply sets_after; [|done|intros _].
    + intros w. unfold same, on_job, modify, mark_all_pieces_completed. cbn. repeat case_match; reflexivity.
    + apply sets_then; [apply sets_set|intros _]. repeat first [apply status_persist | same_step].
  - apply sets_then; [apply sets_set|intros _]. repeat first [apply status_persist | same_step].
Qed.
Lemma finish_release_sets_status outcome :
  sets_status (finish_job persistence manager clock outcome ;;; release_permit)
    (λ _, match outcome with Ok _ => Completed | Err err => Failed err end).
Proof. apply sets_then; [apply finish_sets_status|intros _]. unfold release_permit. same_step. Qed.

Lemma handle_status event : sets_status (handle event) (λ s, next_status s event).
Proof.
  unfold handle_torrent_engine_event. apply sets_after; [by same_step|done|intros task].
  destruct event as [md|state|stats|i|data|d| |m]; cbn [next_status].
  - apply sets_keeps. repeat first [apply status_metadata | apply status_persist | same_step].
  - apply sets_after; [by same_step|done|intros _]. destruct state; cbn.
    all: try (apply sets_keeps; by same_step).
    + apply (finish_release_sets_status (Ok tt)).
    + apply sets_then; [apply sets_set|intros _]. unfold emit_manager_event. repeat same_step.
    + apply (finish_release_sets_status (Ok tt)).
  - apply sets_keeps. unfold emit_manager_event. repeat same_step.
  - apply sets_keeps. repeat first [apply status_persist | same_step].
  - apply sets_keeps. repeat first [apply status_persist | same_step].
  - apply sets_keeps. unfold emit_manager_event, record_diagnostic. repeat same_step.
  - apply sets_after; [by same_step|done|intros _]. apply (finish_release_sets_status (Ok tt)).
  - apply sets_after; [by same_step|done|intros _]. apply (finish_release_sets_status (Err (EOther m))).
Qed.

(** ** The diagnostics and the permit *)

(** The diagnostics stay few, and no permit is given. *)
Definition modest (w w' : world) : Prop :=
  ((length (t_torrent_diagnostics (jw_task w)) ≤ MAX_TORRENT_DIAGNOSTICS)%nat →
   (length (t_torrent_diagnostics (jw_task w')) ≤ MAX_TORRENT_DIAGNOSTICS)%nat) ∧
  (t_permit (jw_task w') = true → t_permit (jw_task w) = true).
#[local] Instance modest_refl : Reflexive modest.
Proof. by intros w. Qed.
#[local] Instance modest_trans : Transitive modest.
Proof. intros ??? [] []. split; auto. Qed.

Definition notes (t : Task) : list TorrentDiagnosticEvent * bool := (t_torrent_diagnostics t, t_permit t).
Lemma notes_modest {A} (m : eff world A) : keeps (same notes) m → keeps modest m.
Proof. intros Hm w. specialize (Hm w). unfold same, notes in Hm. injection Hm as Ed Ep. unfold modest. by rewrite Ed, Ep. Qed.
Lemma notes_install m : keeps (same notes) (install (St:=St) (E:=E) m).
Proof.
  unfold install. repeat same_step. intros w. unfold same, on_job, modify, install_manifest, notes. cbn.
  repeat case_match; reflexivity.
Qed.
Lemma notes_metadata metadata path :
  keeps (same notes) (install_torrent_metadata (St:=St) (E:=E) config metadata path).
Proof.
  unfold install_torrent_metadata. repeat first [apply notes_install | same_step].
  intros w. unfold same, on_job, modify. cbn. by repeat case_match.
Qed.
Lemma notes_finish outcome : keeps (same notes) (finish_job (St:=St) (E:=E) persistence manager clock outcome).
Proof.
  unfold finish_job, set_status, persist_task_checksums, persist_task, emit_manager_event. repeat same_step.
  intros w. unfold same, on_job, modify, mark_all_pieces_completed, notes. cbn. repeat case_match; reflexivity.
Qed.
Lemma modest_release : keeps modest (release_permit (St:=St) (E:=E)).
Proof. intros w. split; [done|]. unfold release_permit, on_job, modify, update. by cbn. Qed.
Lemma modest_diagnostic d : keeps modest (record_diagnostic (St:=St) (E:=E) d).
Proof. intros w. split; [|done]. apply record_torrent_diagnostic_bound. Qed.

Lemma handle_modest event : keeps modest (handle event).
Proof.
  unfold handle_torrent_engine_event, set_status, emit_manager_event, persist_task.
  apply keeps_bind; [apply _|by intros w|intros task].
  destruct event as [md|state|stats|i|data|d| |m]; [|destruct state| | | | | |].
  all: repeat lazymatch goal with
  | |- keeps _ (eff_bind (eff_bind _ _) _) => apply keeps_bind; [apply _|..]
  | |- keeps _ (eff_bind (finish_job _ _ _ _) release_permit) => apply keeps_bind; [apply _|..]
  | |- keeps _ (eff_bind _ _) => apply keeps_bind; [apply _|..]
  | |- keeps _ (when _ _) => apply keeps_when; [apply _|..]
  | |- keeps _ release_permit => apply modest_release
  | |- keeps _ (record_diagnostic _) => apply modest_diagnostic
  | |- keeps _ _ => apply notes_modest; first [apply notes_finish | apply notes_metadata | repeat same_step]
  | |- ∀ _, _ => intros ?
  end.
Qed.

Lemma event_loop_result events w : fst (event_loop events w) = Ok tt.
Proof.
  unfold torrent_event_loop. revert w. induction events as [|e es IH]; intros w; [done|].
  cbn -[handle_torrent_engine_event]. unfold eff_bind at 1, eff_bind at 1, attempt. destruct (handle e w) as [r w1]. apply IH.
Qed.
Lemma event_loop_cons e es w : snd (event_loop (e :: es) w) = snd (event_loop es (snd (handle e w))).
Proof.
  unfold torrent_event_loop. cbn -[handle_torrent_engine_event]. unfold eff_bind at 1, eff_bind at 1, attempt.
  by destruct (handle e w).
Qed.

(** C34. The listener of a torrent's events handles them all, whatever fails. The task's status
    then is what the events alone make of it: an end, a pause or an error sets it whatever it was,
    so that a torrent that ends after the task has been canceled or deleted is Completed. At most
    32 diagnostics are kept, and no permit is given. *)
Theorem torrent_events_spec events w :
  let w' := snd (event_loop events w) in
  fst (event_loop events w) = Ok tt ∧
  t_status (jw_task w') = foldl next_status (t_status (jw_task w)) events ∧
  modest w w'.
Proof.
  cbv zeta. split; [apply event_loop_result|]. revert w. induction events as [|e es IH]; intros w; [by split|].
  rewrite event_loop_cons. destruct (IH (snd (handle e w))) as [Es Hm]. split.
  - rewrite Es. cbn. f_equal. apply handle_status.
  - etransitivity; [apply handle_modest|exact Hm].
Qed.
End torrent_facts.

(** ** Preparing a torrent keeps the permit *)

Section swarm_permit.
Context {St E : Type} `{Repository St} `{TorrentEngine E} `{TorrentSessions E} `{UrlLib} `{!DiscoveryLib}
  `{WebLib} `{HttpLib} `{DigestLib}.
Context `{Json DownloadSpec} `{Json SourceSet} `{Json TorrentEngineState} `{Json TorrentMetadata}.
Context (config : Config) (persistence manager : bool) (clock : nat → DateTime)
  (age : nat → string → option Z) (get : nat → string → result Response string)
  (client : result unit string) (canonicalize : string → option string)
  (meanwhile : eff (job_world St E) unit).

Lemma same_net {X A} (f : Task → X) (m : net A) : keeps (same f) (on_net (St:=St) (E:=E) m).
Proof. intros w. unfold on_net. by destruct (m _). Qed.
Lemma permit_note_metadata metadata path :
  keeps (same t_permit) (install_torrent_metadata (St:=St) (E:=E) config metadata path).
Proof.
  intros w. pose proof (notes_metadata config metadata path w) as Hn. exact (f_equal snd Hn).
Qed.
Lemma permit_note_install m : keeps (same t_permit) (install (St:=St) (E:=E) m).
Proof. intros w. pose proof (notes_install m w) as Hn. exact (f_equal snd Hn). Qed.

Lemma swarm_keeps_permit :
  keeps (same t_permit) meanwhile →
  keeps (same t_permit) (prepare_swarm_download config persistence manager clock age get client
    canonicalize meanwhile).
Proof.
  intros Hmean. unfold prepare_swarm_download, find_swarm, create_dir_all, set_files, record_diagnostic,
    persist_task.
  repeat first [apply Hmean | apply permit_note_metadata | apply permit_note_install | apply same_net | same_step].
Qed.
End swarm_permit.
