(* ===== verification/Program.v ===== *)
(** * The program put together

    The manager over the tasks of the registry, whose torrents are prepared as
    job/p2p.rs does.  What remains a parameter is outside of the code: the clock,
    the origin, the torrent engine, the network that providers ask, and what
    other threads do to a task while it waits for one of these. *)

From S2P Require Import Prelude Text Ranges Status Effect Source Piece Files Checksum Manifest Planner Payload Torrent Config Task Mapping Repository Memory Store Recovery Probe Job JobFacts JobStart Coordinator CoordinatorSteps CoordinatorFacts System SystemFacts Magnet Discovery Swarm Providers TorrentJob TorrentJobFacts.

Section program.
Context {St E : Type} `{Repository St} `{TorrentEngine E} `{TorrentSessions E} `{UrlLib} `{!DiscoveryLib}
  `{WebLib} `{HttpLib} `{DigestLib}.
Context `{Json DownloadSpec} `{Json SourceSet} `{Json TorrentEngineState} `{Json TorrentMetadata}.
Context (config : Config) (session : option HttpSessionState) (clock : nat → DateTime)
  (send : Request → result Response string) (diagnostic_body : Task → Error → DateTime → res bytes)
  (age : nat → string → option Z) (get : nat → string → result Response string)
  (client : result unit string) (canonicalize : string → option string)
  (meanwhile : eff (job_world St E) unit).

(** The tasks of the program. *)
Definition program_tasks : TaskSystem (tasks St E) :=
  system_tasks config session clock send diagnostic_body
    (prepare_swarm_download config true true clock age get client canonicalize meanwhile)
    meanwhile.
#[local] Existing Instance program_tasks.

(** What others do to a task while it waits: none of it gives or takes its permit. *)
Hypothesis meanwhile_quiet : keeps (same t_permit) meanwhile.

(** They keep the laws the manager is proved against. *)
#[export] Instance program_laws : TaskSystemLaws (tasks St E).
Proof. apply the_system_laws; [by apply swarm_keeps_permit|done]. Qed.

(** So the manager of the program never has more tasks with a permit than it is configured for. *)
Lemma program_within_limit (w : tasks St E) g s :
  new_manager config (Ok tt) w = Ok g → sys_permits w = ∅ → 0 ≤ concurrent_tasks config →
  rtc (step config clock) (alone g) s →
  held (mg_tasks (ms_manager s)) ≤ concurrent_tasks config.
Proof.
  intros Hg Hw Hn Hs. unfold new_manager in Hg.
  destruct (result_map_err error_of_config (validate config)) as [u|e]; cbn in Hg; [|done].
  injection Hg as <-. eapply (conserved_held (concurrent_tasks config)), reachable_conserved; [exact Hs|].
  by apply conserved_alone.
Qed.
End program.
