(* ===== verification/Engine.v ===== *)
(** * The libtorrent engine ([src/integrations/libtorrent-engine/src])

    The torrent engine that tasks use, over the native engine: starting, pausing,
    resuming, cancelling and removing sessions, and the loop that polls the native
    engine's alerts and gives each to the session it is of.  The native engine is
    C++ code over libtorrent: its calls are a parameter.  Every part between two
    locks of the engine's state runs as a whole, and the parts of different calls
    and of the polling loop interleave. *)

From stdpp Require Import relations.
From S2P Require Import Prelude Text Status Effect Source Piece Files Manifest Torrent Config Session Job Magnet TorrentJob.

(** ** What is exchanged with the native engine *)

(** [src/integrations/libtorrent-engine/src/ffi.rs:4-13], [NativeEngineConfig]. *)
Record NativeEngineConfig := mk_native_config {
  nc_alert_queue_size : Z;
  nc_enable_dht : bool;
  nc_enable_lsd : bool;
  nc_enable_upnp : bool;
  nc_enable_natpmp : bool;
  nc_has_listen_interfaces : bool;
  nc_listen_interfaces : string
}.
(** [src/integrations/libtorrent-engine/src/ffi.rs:15-20], [NativeTorrentFileEntry]. *)
Record NativeTorrentFileEntry := mk_native_file { nf_path_components : list string; nf_length : Z; nf_offset : Z }.
(** [src/integrations/libtorrent-engine/src/ffi.rs:22-27], [NativeTorrentPieceHash]. *)
Record NativeTorrentPieceHash := mk_native_hash { nh_piece_index : Z; nh_sha1 : string; nh_sha256 : string }.
(** [src/integrations/libtorrent-engine/src/ffi.rs:29-33], [NativeTorrentTracker]. *)
Record NativeTorrentTracker := mk_native_tracker { nt_url : string; nt_tier : Z }.
(** [src/integrations/libtorrent-engine/src/ffi.rs:35-50], [NativeTorrentMetadata]. *)
Record NativeTorrentMetadata := mk_native_metadata {
  nm_name : string;
  nm_has_info_hash_v1 : bool;
  nm_info_hash_v1 : string;
  nm_has_info_hash_v2 : bool;
  nm_info_hash_v2 : string;
  nm_piece_size : Z;
  nm_piece_count : Z;
  nm_total_size : Z;
  nm_private_torrent : bool;
  nm_files : list NativeTorrentFileEntry;
  nm_piece_hashes : list NativeTorrentPieceHash;
  nm_trackers : list NativeTorrentTracker;
  nm_web_seeds : list string
}.
(** [src/integrations/libtorrent-engine/src/ffi.rs:52-57], [NativeStartResult]. *)
Record NativeStartResult := mk_native_start {
  nr_external_id : string;
  nr_has_metadata : bool;
  nr_metadata : NativeTorrentMetadata
}.
(** [src/integrations/libtorrent-engine/src/ffi.rs:59-81], [NativeEngineEvent]. *)
Record NativeEngineEvent := mk_native_event {
  ne_kind : Z;
  ne_external_id : string;
  ne_state : Z;
  ne_message : string;
  ne_piece_index : Z;
  ne_downloaded : Z;
  ne_total : Z;
  ne_download_rate_bps : Z;
  ne_upload_rate_bps : Z;
  ne_connected_peers : Z;
  ne_seeds : Z;
  ne_resume_data : bytes;
  ne_has_metadata : bool;
  ne_metadata : NativeTorrentMetadata;
  ne_diagnostic_scope : Z;
  ne_diagnostic_severity : Z;
  ne_diagnostic_url : string;
  ne_diagnostic_endpoint : string;
  ne_diagnostic_has_peers : bool;
  ne_diagnostic_peers : Z
}.
#[export] Instance NativeEngineEvent_eta : Settable NativeEngineEvent := λ e,
  mk_native_event (ne_kind e) (ne_external_id e) (ne_state e) (ne_message e) (ne_piece_index e) (ne_downloaded e)
    (ne_total e) (ne_download_rate_bps e) (ne_upload_rate_bps e) (ne_connected_peers e) (ne_seeds e)
    (ne_resume_data e) (ne_has_metadata e) (ne_metadata e) (ne_diagnostic_scope e) (ne_diagnostic_severity e)
    (ne_diagnostic_url e) (ne_diagnostic_endpoint e) (ne_diagnostic_has_peers e) (ne_diagnostic_peers e).

(** [src/integrations/libtorrent-engine/src/ffi.rs:130-130], [EVENT_METADATA]. *)
Definition EVENT_METADATA : Z := 1.
(** [src/integrations/libtorrent-engine/src/ffi.rs:131-131], [EVENT_STATE]. *)
Definition EVENT_STATE : Z := 2.
(** [src/integrations/libtorrent-engine/src/ffi.rs:132-132], [EVENT_PROGRESS]. *)
Definition EVENT_PROGRESS : Z := 3.
(** [src/integrations/libtorrent-engine/src/ffi.rs:133-133], [EVENT_PIECE_FINISHED]. *)
Definition EVENT_PIECE_FINISHED : Z := 4.
(** [src/integrations/libtorrent-engine/src/ffi.rs:134-134], [EVENT_RESUME_DATA]. *)
Definition EVENT_RESUME_DATA : Z := 5.
(** [src/integrations/libtorrent-engine/src/ffi.rs:135-135], [EVENT_FINISHED]. *)
Definition EVENT_FINISHED : Z := 6.
(** [src/integrations/libtorrent-engine/src/ffi.rs:136-136], [EVENT_ERROR]. *)
Definition EVENT_ERROR : Z := 7.
(** [src/integrations/libtorrent-engine/src/ffi.rs:137-137], [EVENT_DIAGNOSTIC]. *)
Definition EVENT_DIAGNOSTIC : Z := 8.

(** The native engine: calls that change it and give a result or the text of an exception. *)
Class NativeLib (N : Type) := {
  new_native_engine : NativeEngineConfig → result N string;
  native_add_magnet : string → string → bytes → effx string N NativeStartResult;
  native_add_torrent_file : string → string → bytes → effx string N NativeStartResult;
  native_poll_alerts : effx string N (list NativeEngineEvent);
  native_listen_port : effx string N Z;
  native_connect_peer : string → string → Z → effx string N unit;
  native_add_tracker : string → string → effx string N unit;
  native_add_url_seed : string → string → effx string N unit;
  native_pause_torrent : string → effx string N unit;
  native_resume_torrent : string → effx string N unit;
  native_remove_torrent : string → bool → effx string N unit
}.

(** ** Translation *)

(** [src/integrations/libtorrent-engine/src/native.rs:392-394], [non_empty_string]. *)
Definition non_empty_string (value : string) : option string := if negb (is_empty value) then Some value else None.
(** [src/integrations/libtorrent-engine/src/native.rs:396-406], [diagnostic_scope_from_native]. *)
Definition diagnostic_scope_from_native (scope : Z) : TorrentDiagnosticScope :=
  if scope =? 1 then DTracker
  else if scope =? 2 then DDht
  else if scope =? 3 then DPeer
  else if scope =? 4 then DListen
  else if scope =? 5 then DPortMapping
  else if scope =? 6 then DSession
  else DSession.
(** [src/integrations/libtorrent-engine/src/native.rs:408-415], [diagnostic_severity_from_native]. *)
Definition diagnostic_severity_from_native (severity : Z) : TorrentDiagnosticSeverity :=
  if severity =? 1 then SevInfo
  else if severity =? 2 then SevWarning
  else if severity =? 3 then SevError
  else SevInfo.
(** [src/integrations/libtorrent-engine/src/native.rs:379-390], [diagnostic_from_native]. *)
Definition diagnostic_from_native (e : NativeEngineEvent) : TorrentDiagnosticEvent :=
  {| td_scope := diagnostic_scope_from_native (ne_diagnostic_scope e);
     td_severity := diagnostic_severity_from_native (ne_diagnostic_severity e);
     td_message := ne_message e;
     td_url := non_empty_string (ne_diagnostic_url e);
     td_endpoint := non_empty_string (ne_diagnostic_endpoint e);
     td_peers := if ne_diagnostic_has_peers e then Some (ne_diagnostic_peers e) else None |}.
(** [src/integrations/libtorrent-engine/src/native.rs:417-427], [native_config]. *)
Definition native_config (c : LibtorrentEngineConfig) : NativeEngineConfig :=
  {| nc_alert_queue_size := alert_queue_size c;
     nc_enable_dht := enable_dht c;
     nc_enable_lsd := enable_lsd c;
     nc_enable_upnp := enable_upnp c;
     nc_enable_natpmp := enable_natpmp c;
     nc_has_listen_interfaces := is_some (listen_interfaces c);
     nc_listen_interfaces := unwrap_or "" (listen_interfaces c) |}.
(** [src/integrations/libtorrent-engine/src/native.rs:429-440], [start_external_id]. *)
Definition start_external_id (r : NativeStartResult) (resume : option TorrentResumeSnapshot) : string :=
  if negb (is_empty (nr_external_id r)) then nr_external_id r
  else unwrap_or "libtorrent:pending" ((λ s, th_external_id (tr_handle s)) <$> resume).
(** [src/integrations/libtorrent-engine/src/native.rs:442-491], [metadata_from_native]. *)
Definition metadata_from_native (m : NativeTorrentMetadata) : TorrentMetadata :=
  {| tm_name := nm_name m;
     tm_info_hash_v1 := if nm_has_info_hash_v1 m then Some (nm_info_hash_v1 m) else None;
     tm_info_hash_v2 := if nm_has_info_hash_v2 m then Some (nm_info_hash_v2 m) else None;
     tm_piece_size := nm_piece_size m;
     tm_piece_count := nm_piece_count m;
     tm_total_size := nm_total_size m;
     tm_private := nm_private_torrent m;
     tm_files := (λ f, mk_torrent_file (nf_path_components f) (nf_length f) (nf_offset f)) <$> nm_files m;
     tm_piece_hashes :=
       (λ h, mk_piece_hash (nh_piece_index h) (non_empty_string (nh_sha1 h)) (non_empty_string (nh_sha256 h)))
         <$> nm_piece_hashes m;
     tm_trackers := (λ t, mk_tracker (nt_url t) (nt_tier t)) <$> nm_trackers m;
     tm_web_seeds := nm_web_seeds m |}.
(** [src/integrations/libtorrent-engine/src/native.rs:493-503], [state_from_native]. *)
Definition state_from_native (state : Z) : TorrentEngineState :=
  if state =? 1 then TSResolvingMetadata
  else if state =? 2 then TSCheckingFiles
  else if state =? 3 then TSDownloading
  else if state =? 4 then TSSeeding
  else if state =? 5 then TSPaused
  else if state =? 6 then TSCompleted
  else TSDownloading.
(** [src/integrations/libtorrent-engine/src/native.rs:333-376], [translate_event (match)]. What the session
    of an event is told. *)
Definition event_from_native (e : NativeEngineEvent) : option TorrentEngineEvent :=
  let kind := ne_kind e in
  if kind =? EVENT_METADATA then
    if ne_has_metadata e then Some (TEMetadataDiscovered (metadata_from_native (ne_metadata e)))
    else Some (TEStateChanged TSDownloading)
  else if kind =? EVENT_STATE then Some (TEStateChanged (state_from_native (ne_state e)))
  else if kind =? EVENT_PROGRESS then
    Some (TEProgress (mk_transfer (ne_downloaded e) (ne_total e) (ne_download_rate_bps e) (ne_upload_rate_bps e)
      (ne_connected_peers e) (ne_seeds e)))
  else if kind =? EVENT_PIECE_FINISHED then Some (TEPieceFinished (ne_piece_index e))
  else if kind =? EVENT_RESUME_DATA then Some (TEResumeData (ne_resume_data e))
  else if kind =? EVENT_DIAGNOSTIC then Some (TEDiagnostic (diagnostic_from_native e))
  else if kind =? EVENT_FINISHED then Some TEFinished
  else if kind =? EVENT_ERROR then Some (TEError (ne_message e))
  else None.

(** The sending end of the channel of a session, by a number. *)
Abbreviation channel := Z.
(** [src/integrations/libtorrent-engine/src/native.rs:316-377], [translate_event]. *)
Definition translate_event (senders : gmap string channel) (e : NativeEngineEvent)
    : list (channel * TorrentEngineEvent) :=
  if ((ne_kind e =? EVENT_DIAGNOSTIC) && is_empty (ne_external_id e))%bool then
    (λ s, (s.2, TEDiagnostic (diagnostic_from_native e))) <$> map_to_list senders
  else
    match senders !! ne_external_id e with
    | None => []
    | Some sender => match event_from_native e with Some event => [(sender, event)] | None => [] end
    end.

(** ** The engine *)

(** [src/integrations/libtorrent-engine/src/native.rs:34-38], [EngineState]. With what the channels were
    sent, in order, and the number of polling loops that run. *)
Record EngineState (N : Type) := mk_engine {
  es_driver : N;
  es_senders : gmap string channel;
  es_polling : bool;
  es_sent : list (channel * TorrentEngineEvent);
  es_loops : nat
}.
Arguments mk_engine {N}.
Arguments es_driver {N}.
Arguments es_senders {N}.
Arguments es_polling {N}.
Arguments es_sent {N}.
Arguments es_loops {N}.
#[export] Instance EngineState_eta {N} : Settable (EngineState N) := λ s,
  mk_engine (es_driver s) (es_senders s) (es_polling s) (es_sent s) (es_loops s).

Section engine.
Context {N : Type} `{NativeLib N} `{UrlLib} `{FormLib}.
Abbreviation engine := (eff (EngineState N)).

(** A call of the native engine, while the state is locked. *)
Definition native {A} (words : string) (m : effx string N A) : engine A := λ s,
  let '(r, n) := m (es_driver s) in
  (result_map_err (λ err, EOther (words +:+ ": " +:+ err)) r, s <| es_driver := n |>).

(** [src/integrations/libtorrent-engine/src/native.rs:47-58], [LibtorrentRasterbarEngine::new]. *)
Definition new_engine (config : LibtorrentEngineConfig) : res (EngineState N) :=
  let? driver := result_map_err (λ err, EOther ("failed to create libtorrent session: " +:+ err))
    (new_native_engine (native_config config)) in
  Ok (mk_engine driver ∅ false [] 0).

(** [src/integrations/libtorrent-engine/src/native.rs:64-69], [LibtorrentRasterbarEngine::listen_port]. *)
Definition listen_port : engine Z := native "failed to read libtorrent listen port" native_listen_port.
(** [src/integrations/libtorrent-engine/src/native.rs:71-81], [LibtorrentRasterbarEngine::connect_peer]. *)
Definition connect_peer (handle : TorrentEngineHandle) (host : string) (port : Z) : engine unit :=
  native "failed to connect libtorrent peer" (native_connect_peer (th_external_id handle) host port).
(** [src/integrations/libtorrent-engine/src/native.rs:83-88], [LibtorrentRasterbarEngine::add_tracker]. *)
Definition engine_add_tracker (handle : TorrentEngineHandle) (url : string) : engine unit :=
  native "failed to add libtorrent tracker" (native_add_tracker (th_external_id handle) url).
(** [src/integrations/libtorrent-engine/src/native.rs:90-95], [LibtorrentRasterbarEngine::add_url_seed]. *)
Definition engine_add_url_seed (handle : TorrentEngineHandle) (url : string) : engine unit :=
  native "failed to add libtorrent web seed" (native_add_url_seed (th_external_id handle) url).

(** [src/integrations/libtorrent-engine/src/native.rs:97-114], [LibtorrentRasterbarEngine::ensure_polling].
    A loop is spawned unless one is said to run. *)
Definition ensure_polling : engine unit := modify (λ s,
  if es_polling s then s else s <| es_polling := true |> <| es_loops ::= S |>).

(** [src/integrations/libtorrent-engine/src/native.rs:233-260], [apply_swarm_hints]. *)
Definition apply_swarm_hints (external_id : string) (hints : TorrentSwarmHints) : engine unit :=
  if hints_is_empty hints then ret tt
  else
    for_each (λ tracker, native "failed to add libtorrent tracker" (native_add_tracker external_id tracker))
      (th_trackers hints) ;;;
    for_each (λ web_seed, native "failed to add libtorrent web seed" (native_add_url_seed external_id web_seed))
      (th_web_seeds hints) ;;;
    for_each (λ peer, native "failed to connect libtorrent peer"
                        (native_connect_peer external_id (peer_host peer) (peer_port peer)))
      (th_peers hints).

Definition register (external_id : string) (event_sender : option channel) : engine unit :=
  match event_sender with
  | Some sender => modify (λ s, s <| es_senders ::= <[external_id := sender]> |>)
  | None => ret tt
  end.
Definition unregister (external_id : string) : engine unit :=
  modify (λ s, s <| es_senders ::= base.delete external_id |>).

(** [src/integrations/libtorrent-engine/src/native.rs:140-160], [start_session (adding the torrent)]. *)
Definition add_torrent (request : TorrentEngineRequest) (resume_bytes : bytes) : engine NativeStartResult :=
  match rq_spec request with
  | SpecMagnet uri =>
      let! uri := lift (enhance_magnet_uri (rq_swarm_hints request) uri) in
      native "failed to add torrent" (native_add_magnet uri (rq_download_dir request) resume_bytes)
  | SpecTorrentFile path =>
      native "failed to add torrent" (native_add_torrent_file path (rq_download_dir request) resume_bytes)
  | other => throw (EUnsupportedProtocol (spec_scheme other +:+ " is not a torrent engine spec"))
  end.
(** [src/integrations/libtorrent-engine/src/native.rs:127-194], [start_session]. With the channel of the
    request. *)
Definition libtorrent_start (event_sender : option channel) (request : TorrentEngineRequest)
    : engine TorrentEngineSession :=
  let resume_data := resume ← rq_resume request; tr_resume_data resume in
  let resume_metadata := resume ← rq_resume request; tr_metadata resume in
  let! result := add_torrent request (unwrap_or [] resume_data) in
  let external_id := start_external_id result (rq_resume request) in
  apply_swarm_hints external_id (rq_swarm_hints request) ;;;
  let metadata :=
    if nr_has_metadata result then Some (metadata_from_native (nr_metadata result)) else resume_metadata in
  register external_id event_sender ;;;
  ensure_polling ;;;
  ret {| ts_handle := mk_handle Libtorrent external_id;
         ts_state := if is_some metadata then TSDownloading else TSResolvingMetadata;
         ts_metadata := metadata;
         ts_manifest := None;
         ts_resume_data := resume_data |}.

(** [src/integrations/libtorrent-engine/src/native.rs:196-201], [pause_session]. *)
Definition libtorrent_pause (handle : TorrentEngineHandle) : engine unit :=
  native "failed to pause torrent" (native_pause_torrent (th_external_id handle)).
(** [src/integrations/libtorrent-engine/src/native.rs:203-208], [resume_session]. *)
Definition libtorrent_resume (handle : TorrentEngineHandle) : engine unit :=
  native "failed to resume torrent" (native_resume_torrent (th_external_id handle)).
(** [src/integrations/libtorrent-engine/src/native.rs:210-217], [cancel_session]. *)
Definition libtorrent_cancel (handle : TorrentEngineHandle) : engine unit :=
  native "failed to cancel torrent" (native_remove_torrent (th_external_id handle) false) ;;;
  unregister (th_external_id handle).
(** [src/integrations/libtorrent-engine/src/native.rs:219-230], [remove_session]. *)
Definition libtorrent_remove (handle : TorrentEngineHandle) (delete_payload : bool) : engine unit :=
  native "failed to remove torrent" (native_remove_torrent (th_external_id handle) delete_payload) ;;;
  unregister (th_external_id handle).

(** The engine that tasks use. *)
#[export] Instance libtorrent_engine : TorrentEngine (EngineState N) := {
  pause_session := libtorrent_pause;
  resume_session := libtorrent_resume;
  cancel_session := libtorrent_cancel;
  remove_session := libtorrent_remove
}.
(** The channel of a session has the number of its task. *)
#[export] Instance libtorrent_sessions : TorrentSessions (EngineState N) := {
  start_session request := libtorrent_start (Some (rq_session_id request)) request
}.

(** ** Polling *)

(** [src/integrations/libtorrent-engine/src/native.rs:310-314], [dispatch_all]. *)
Definition dispatch_all (dispatches : list (channel * TorrentEngineEvent)) (s : EngineState N) : EngineState N :=
  s <| es_sent ::= λ l, l ++ dispatches |>.
(** [src/integrations/libtorrent-engine/src/native.rs:264-305], [poll_libtorrent_alerts (loop body)]. One
    round of a loop; it gives whether the loop goes on. *)
Definition poll_once (s : EngineState N) : bool * EngineState N :=
  let '(r, n) := native_poll_alerts (es_driver s) in
  let s := s <| es_driver := n |> in
  match r with
  | Ok native_events =>
      let dispatches := native_events ≫= translate_event (es_senders s) in
      if bool_decide (es_senders s = ∅)
      then (false, dispatch_all dispatches (s <| es_polling := false |>))
      else (true, dispatch_all dispatches s)
  | Err err =>
      let dispatches :=
        (λ e, (e.2, TEError ("failed to poll libtorrent alerts: " +:+ err))) <$> map_to_list (es_senders s) in
      (false, dispatch_all dispatches (s <| es_polling := false |>))
  end.
(** A round of one of the loops that run; it may be its last. *)
Definition poll (s : EngineState N) : EngineState N :=
  let '(goes_on, s) := poll_once s in
  if goes_on then s else s <| es_loops ::= pred |>.
(** [src/integrations/libtorrent-engine/src/native.rs:262-308], [poll_libtorrent_alerts]. What happens
    between its rounds. *)
Fixpoint poll_libtorrent_alerts (between : list (engine unit)) : engine unit := λ s,
  let '(goes_on, s) := poll_once s in
  if goes_on then
    match between with
    | [] => (Ok tt, s)
    | others :: between => poll_libtorrent_alerts between (snd (others s))
    end
  else (Ok tt, s <| es_loops ::= pred |>).
End engine.

(** ** Without the native library ([src/integrations/libtorrent-engine/src/stub.rs]) *)
Module Stub.
(** [src/integrations/libtorrent-engine/src/stub.rs:33-42], [start_session]. *)
Definition start_session (request : TorrentEngineRequest) : eff LibtorrentEngineConfig TorrentEngineSession :=
  throw (EUnsupportedProtocol (
    "libtorrent adapter crate was built without native-libtorrent; enable that feature before starting session "
    +:+ show_u64 (rq_session_id request) +:+ " (" +:+ spec_locator (rq_spec request) +:+ ")")).
(** [src/integrations/libtorrent-engine/src/stub.rs:44-46], [pause_session]. *)
Definition pause_session (handle : TorrentEngineHandle) : eff LibtorrentEngineConfig unit := ret tt.
(** [src/integrations/libtorrent-engine/src/stub.rs:48-53], [resume_session]. *)
Definition resume_session (handle : TorrentEngineHandle) : eff LibtorrentEngineConfig unit :=
  throw (EUnsupportedProtocol ("libtorrent native binding is not enabled for session " +:+ th_external_id handle)).
(** [src/integrations/libtorrent-engine/src/stub.rs:55-57], [cancel_session]. *)
Definition cancel_session (handle : TorrentEngineHandle) : eff LibtorrentEngineConfig unit := ret tt.
(** [src/integrations/libtorrent-engine/src/stub.rs:59-65], [remove_session]. *)
Definition remove_session (handle : TorrentEngineHandle) (delete_payload : bool) : eff LibtorrentEngineConfig unit :=
  ret tt.
(** [src/integrations/libtorrent-engine/src/stub.rs:29-31], [capabilities]. *)
Definition capabilities : TorrentEngineCapabilities := libtorrent_unavailable.
End Stub.
