(* ===== verification/EngineFacts.v ===== *)
(** * The libtorrent engine: what it guarantees

    However starting and ending sessions interleaves with the polling of alerts,
    at most one loop polls, and one does while a session waits for events; an
    alert goes to the session that it is of, and to it alone. *)

From stdpp Require Import relations.
From S2P Require Import Prelude Text Status Effect Source Piece Files Manifest Torrent Config Session Job Magnet TorrentJob Engine.

Section facts.
Context {N : Type} `{NativeLib N} `{UrlLib} `{FormLib}.
Implicit Types (s : EngineState N).

(** ** Interleaving *)

(** The engine, with the number of starts that have registered their session and have not made sure of
    the polling yet. *)
Definition running : Type := EngineState N * nat.

(** A part between two locks; when [fails] is false, no poll of the native engine fails. *)
Inductive engine_step (fails : bool) : running → running → Prop :=
  | step_native s k n : engine_step fails (s, k) (s <| es_driver := n |>, k)
  | step_register s k i ch : engine_step fails (s, k) (snd (register i (Some ch) s), S k)
  | step_ensure s k : engine_step fails (s, S k) (snd (ensure_polling s), k)
  | step_ensure_alone s k : engine_step fails (s, k) (snd (ensure_polling s), k)
  | step_unregister s k i : engine_step fails (s, k) (snd (unregister i s), k)
  | step_poll s k : (0 < es_loops s)%nat →
      (fails = false → is_ok (fst (native_poll_alerts (es_driver s))) = true) →
      engine_step fails (s, k) (poll s, k).

(** [m] is a sequence of parts. *)
Definition in_steps s s' : Prop := ∀ fails k, rtc (engine_step fails) (s, k) (s', k).
#[local] Instance in_steps_refl : Reflexive in_steps.
Proof. intros s fails k. reflexivity. Qed.
#[local] Instance in_steps_trans : Transitive in_steps.
Proof. intros s1 s2 s3 H12 H23 fails k. etransitivity; [apply H12|apply H23]. Qed.

Lemma native_in_steps {A} words (m : effx string N A) : keeps in_steps (native words m).
Proof.
  intros s fails k. unfold native. destruct (m (es_driver s)) as [r n]. apply rtc_once. apply step_native.
Qed.
Lemma hints_in_steps i hints : keeps in_steps (apply_swarm_hints (N:=N) i hints).
Proof.
  unfold apply_swarm_hints. destruct (hints_is_empty hints); [apply (keeps_ret in_steps)|].
  repeat (apply (keeps_bind in_steps); [|intros _]);
    apply (keeps_for_each in_steps); intros x; apply native_in_steps.
Qed.
Lemma add_in_steps request data : keeps in_steps (add_torrent (N:=N) request data).
Proof.
  unfold add_torrent. destruct (rq_spec request); try apply (keeps_throw in_steps); [apply native_in_steps|].
  apply (keeps_bind in_steps); [apply (keeps_lift in_steps)|]. intros uri'. apply native_in_steps.
Qed.
Lemma registered_in_steps i o : keeps in_steps (register (N:=N) i o ;;; ensure_polling).
Proof.
  intros s fails k. destruct o as [ch|].
  - eapply rtc_l; [apply step_register|]. apply rtc_once. apply step_ensure.
  - apply rtc_once. apply step_ensure_alone.
Qed.

(** Starting, ending and steering sessions are sequences of parts. *)
Lemma start_in_steps o request : keeps in_steps (libtorrent_start (N:=N) o request).
Proof.
  unfold libtorrent_start. apply (keeps_bind in_steps); [apply add_in_steps|intros r].
  apply (keeps_bind in_steps); [apply hints_in_steps|intros _]. intros s.
  rewrite eff_bind_assoc. revert s.
  apply (keeps_bind in_steps); [apply registered_in_steps|intros _; apply (keeps_ret in_steps)].
Qed.
Lemma remove_in_steps h b : keeps in_steps (libtorrent_remove (N:=N) h b).
Proof.
  apply (keeps_bind in_steps); [apply native_in_steps|]. intros _ s fails k. apply rtc_once. apply step_unregister.
Qed.

(** The invariant. *)
Definition one_loop (fails : bool) (r : running) : Prop :=
  let '(s, k) := r in
  es_loops s = (if es_polling s then 1 else 0)%nat ∧
  (fails = false → es_senders s ≠ ∅ → es_polling s = true ∨ (0 < k)%nat).

Lemma step_one_loop fails r r' : engine_step fails r r' → one_loop fails r → one_loop fails r'.
Proof.
  intros [s k n|s k i ch|s k|s k|s k i|s k Hl Hok] [HA HB]; cbn -[poll ensure_polling unregister register].
  - done.
  - split; [exact HA|]. intros _ _. right. lia.
  - unfold ensure_polling, modify. cbn [snd].
    destruct (es_polling s) eqn:Hp; cbn; rewrite ?Hp; (split; [lia|by left]).
  - unfold ensure_polling, modify. cbn [snd].
    destruct (es_polling s) eqn:Hp; cbn; rewrite ?Hp; (split; [lia|by left]).
  - split; [exact HA|]. intros Hf Hs. apply (HB Hf). intros He. apply Hs. cbn. by rewrite He, delete_empty.
  - assert (es_polling s = true) as Hp by (destruct (es_polling s); [done|lia]). rewrite Hp in HA.
    unfold poll, poll_once. destruct (native_poll_alerts (es_driver s)) as [[l|err] n]; cbn in Hok |- *.
    + case_bool_decide as He; cbn; [|rewrite HA, Hp; split; [done|by left]]. rewrite HA. split; [done|]. intros _ Hs. by destruct Hs.
    + rewrite HA. split; [done|]. intros Hf. by specialize (Hok Hf).
Qed.
Lemma steps_one_loop fails r r' : rtc (engine_step fails) r r' → one_loop fails r → one_loop fails r'.
Proof. induction 1; eauto using step_one_loop. Qed.

(** ** Alerts *)

(** What a channel was sent. *)
Definition received (ch : channel) (l : list (channel * TorrentEngineEvent)) : list TorrentEngineEvent :=
  omap (λ d, if d.1 =? ch then Some d.2 else None) l.
Lemma received_app ch l k : received ch (l ++ k) = received ch l ++ received ch k.
Proof. unfold received. apply omap_app. Qed.

(** The events that an alert is for a session: its own, and diagnostics of no session. *)
Definition event_for (i : string) (e : NativeEngineEvent) : list TorrentEngineEvent :=
  if ((ne_kind e =? EVENT_DIAGNOSTIC) && is_empty (ne_external_id e))%bool then
    [TEDiagnostic (diagnostic_from_native e)]
  else if String.eqb (ne_external_id e) i then option_list (event_from_native e) else [].

(** No other session has the channel. *)
Definition own_channel (senders : gmap string channel) (i : string) (ch : channel) : Prop :=
  senders !! i = Some ch ∧ ∀ j, senders !! j = Some ch → j = i.

Lemma received_all ev senders i ch : own_channel senders i ch →
  received ch ((λ x, (x.2, ev)) <$> map_to_list senders) = [ev].
Proof.
  intros [Hi Hu]. assert (∀ l : list (string * channel), NoDup l.*1 →
    (∀ x, x ∈ l → x.2 = ch → x.1 = i) → ((i, ch) ∈ l → received ch ((λ x, (x.2, ev)) <$> l) = [ev]) ∧
    ((i, ch) ∉ l → received ch ((λ x, (x.2, ev)) <$> l) = [])) as Hl.
  { induction l as [|[j c] l IH]; intros Hn Hx; [split; [by intros ?%not_elem_of_nil|done]|].
    cbn in Hn. apply NoDup_cons in Hn as [Hj Hn]. destruct IH as [IH1 IH2]; [done| |].
    { intros x Hin. apply Hx. rewrite elem_of_cons. by right. }
    unfold received in *. cbn -[Z.eqb]. destruct (Z.eqb_spec c ch) as [->|Hc].
    - assert (j = i) as -> by (apply (Hx (j, ch)); [rewrite elem_of_cons; by left|done]).
      assert ((i, ch) ∉ l) as Hnot by (intros Hin; apply Hj, list_elem_of_fmap; by exists (i, ch)).
      split; [|intros Hin; destruct Hin; rewrite elem_of_cons; by left]. intros _. by rewrite IH2.
    - split; [intros [[= -> ->]|Hin]%elem_of_cons; [done|by apply IH1]|].
      intros Hin. apply IH2. intros Hin'. apply Hin. rewrite elem_of_cons. by right. }
  apply Hl; [apply NoDup_fst_map_to_list| |by apply elem_of_map_to_list].
  intros [j c] Hx%elem_of_map_to_list Hc. cbn in Hc. subst c. by apply Hu.
Qed.
Lemma received_alert senders i ch e : own_channel senders i ch →
  received ch (translate_event senders e) = event_for i e.
Proof.
  intros Hown. unfold translate_event, event_for. destruct (_ && _)%bool; [by eapply received_all|].
  destruct Hown as [Hi Hu]. destruct (String.eqb_spec (ne_external_id e) i) as [->|Hne].
  - rewrite Hi. destruct (event_from_native e); cbn; [|done]. by rewrite Z.eqb_refl.
  - destruct (senders !! ne_external_id e) as [c|] eqn:Hc; [|done].
    destruct (event_from_native e); cbn -[Z.eqb]; [|done].
    destruct (Z.eqb_spec c ch) as [->|]; [|done]. by destruct (Hne (Hu _ Hc)).
Qed.
Lemma received_alerts senders i ch l : own_channel senders i ch →
  received ch (l ≫= translate_event senders) = l ≫= event_for i.
Proof.
  intros Hown. induction l as [|e l IH]; [done|]. cbn -[received event_for translate_event]. by rewrite received_app, (received_alert _ i), IH.
Qed.

(** C35. Polling.  However starting, steering and ending sessions interleaves with
    it, never more than one loop polls the native engine, and as long as no poll
    fails, one does whenever a session waits for events, unless its start is about
    to see to it.  A round gives every session, in order, exactly the alerts that
    are its own and the diagnostics that are of none; when it fails, every session
    is told so and polling ends. *)
Theorem engine_polls config s0 :
  new_engine config = Ok s0 →
  (∀ fails s k, rtc (engine_step fails) (s0, O) (s, k) →
     (es_loops s ≤ 1)%nat ∧
     (fails = false → es_senders s ≠ ∅ → es_loops s = 1%nat ∨ (0 < k)%nat)) ∧
  (∀ o request s fails k,
     rtc (engine_step fails) (s, k) (snd (libtorrent_start o request s), k)) ∧
  (∀ s i ch, own_channel (es_senders s) i ch →
     let '(r, n) := native_poll_alerts (es_driver s) in
     let '(goes_on, s') := poll_once s in
     goes_on = is_ok r ∧
     received ch (es_sent s') = received ch (es_sent s) ++
       match r with
       | Ok l => l ≫= event_for i
       | Err err => [TEError ("failed to poll libtorrent alerts: " +:+ err)]
       end).
Proof.
  intros Hnew. split_and!.
  - intros fails s k Hs.
    assert (one_loop fails (s0, O)) as HZ.
    { unfold new_engine in Hnew. destruct (new_native_engine _) as [n|]; [|done]. by injection Hnew as <-. }
    destruct (steps_one_loop _ _ _ Hs HZ) as [HA HB]. split; [rewrite HA; destruct (es_polling s); lia|].
    intros Hf Hne. destruct (HB Hf Hne) as [Hp|Hk]; [left; by rewrite HA, Hp|by right].
  - intros o request s fails k. apply start_in_steps.
  - intros s i ch Hown. unfold poll_once. destruct (native_poll_alerts (es_driver s)) as [[l|err] n].
    + rewrite bool_decide_false by (cbn; destruct Hown as [Hi _]; intros He; by rewrite He in Hi).
      split; [done|]. cbn -[received event_for translate_event]. by rewrite received_app, (received_alerts _ i).
    + split; [done|]. cbn -[received event_for translate_event]. by rewrite received_app, (received_all _ _ i).
Qed.

(** Starting a session.  When the torrent cannot be added nothing else happens.
    When a hint cannot be given to the engine, as a peer whose host is a name, the
    start fails, and the torrent stays with the native engine, which is not told to
    remove it, without a session.  Otherwise the session gets its events from then
    on. *)
Theorem start_spec o request s :
  let data := resume ← rq_resume request; tr_resume_data resume in
  let '(r, s') := libtorrent_start o request s in
  match add_torrent request (unwrap_or [] data) s with
  | (Err e, s1) => r = Err e ∧ s' = s1 ∧ es_senders s1 = es_senders s ∧ es_loops s1 = es_loops s
  | (Ok result, s1) =>
      let i := start_external_id result (rq_resume request) in
      match apply_swarm_hints i (rq_swarm_hints request) s1 with
      | (Err e, s2) => r = Err e ∧ s' = s2 ∧ es_senders s2 = es_senders s ∧ es_loops s2 = es_loops s
      | (Ok _, s2) =>
          (∃ session, r = Ok session ∧ ts_handle session = mk_handle Libtorrent i ∧ ts_resume_data session = data) ∧
          es_driver s' = es_driver s2 ∧ es_polling s' = true ∧
          es_senders s' = match o with Some ch => <[i := ch]> (es_senders s) | None => es_senders s end
      end
  end.
Proof.
  intros data.
  assert (∀ A words (m : effx string N A), keeps (λ s s' : EngineState N, es_senders s' = es_senders s ∧ es_loops s' = es_loops s)
    (native words m)) as Hnative.
  { intros A words m s1. unfold native. by destruct (m (es_driver s1)). }
  assert (Reflexive (λ s s' : EngineState N, es_senders s' = es_senders s ∧ es_loops s' = es_loops s)) as Hr by done.
  assert (Transitive (λ s s' : EngineState N, es_senders s' = es_senders s ∧ es_loops s' = es_loops s)) as Ht.
  { intros s1 s2 s3 [E1 L1] [E2 L2]. split; congruence. }
  assert (∀ i hints, keeps (λ s s' : EngineState N, es_senders s' = es_senders s ∧ es_loops s' = es_loops s)
    (apply_swarm_hints i hints)) as Hhints.
  { intros i hints. unfold apply_swarm_hints. destruct (hints_is_empty hints); [by apply keeps_ret|].
    repeat (apply keeps_bind; [done| |intros _]); apply keeps_for_each; try done; intros x; apply Hnative. }
  assert (keeps (λ s s' : EngineState N, es_senders s' = es_senders s ∧ es_loops s' = es_loops s)
    (add_torrent request (unwrap_or [] data))) as Hadd.
  { unfold add_torrent. destruct (rq_spec request); try (by apply keeps_throw); [apply Hnative|].
    apply keeps_bind; [done|by apply keeps_lift|]. intros u. apply Hnative. }
  unfold libtorrent_start. fold data. specialize (Hadd s). unfold eff_bind at 1.
  destruct (add_torrent request (unwrap_or [] data) s) as [[result|e] s1]; cbn [snd] in Hadd; [|done].
  cbv zeta. specialize (Hhints (start_external_id result (rq_resume request)) (rq_swarm_hints request) s1).
  unfold eff_bind at 1.
  destruct (apply_swarm_hints _ _ s1) as [[u|e] s2]; cbn [snd] in Hhints; destruct Hadd as [Es El], Hhints as [Es' El'];
    [|split_and!; congruence].
  destruct o as [ch|]; unfold register, ensure_polling, modify, eff_bind, ret; cbn;
    destruct (es_polling s2) eqn:Hp; cbn; rewrite ?Hp, ?Es', ?Es; split_and!; eauto.
Qed.
End facts.

(** ** Examples: a native engine that knows the paths of its torrents, and no host names *)

#[local] Existing Instances bit_urls bit_forms.
Definition no_metadata : NativeTorrentMetadata :=
  mk_native_metadata "" false "" false "" 0 0 0 false [] [] [] [].
Definition alert (kind : Z) (id : string) : NativeEngineEvent :=
  mk_native_event kind id 4 "m" 0 0 0 0 0 0 0 [] false no_metadata 1 2 "" "" false 0.
#[local] Instance toy_native : NativeLib (list string) := {
  new_native_engine _ := Ok [];
  native_add_magnet uri _ _ := λ n, (Ok (mk_native_start uri false no_metadata), n ++ [uri]);
  native_add_torrent_file path _ _ := λ n, (Ok (mk_native_start path false no_metadata), n ++ [path]);
  native_poll_alerts := λ n, (Ok (alert EVENT_DIAGNOSTIC "" :: (alert EVENT_STATE <$> n)), n);
  native_listen_port := ret 6881;
  native_connect_peer id host port :=
    if all_chars (λ c, Chr.is_digit c || Ascii.eqb c ".") host then ret tt else throw "invalid peer host";
  native_add_tracker _ _ := ret tt;
  native_add_url_seed _ _ := ret tt;
  native_pause_torrent _ := ret tt;
  native_resume_torrent _ := ret tt;
  native_remove_torrent id _ := modify (filterb (λ i, negb (String.eqb i id)))
}.
Definition example_start (id : Z) (path : string) (host : string) : TorrentEngineRequest :=
  mk_engine_request id (SpecTorrentFile path) "d" None None None (mk_hints [] [mk_peer host 1] []) None.
Definition no_sessions : EngineState (list string) := mk_engine [] ∅ false [] 0.
Definition one_session : EngineState (list string) :=
  snd (libtorrent_start (Some 1) (example_start 1 "a" "10.0.0.1") no_sessions).
Definition two_sessions : EngineState (list string) :=
  snd (libtorrent_start (Some 2) (example_start 2 "b" "10.0.0.2") one_session).

Lemma engine_polls_witness :
  es_loops two_sessions = 1%nat ∧
  received 2 (es_sent (snd (poll_once two_sessions))) =
    [TEDiagnostic (diagnostic_from_native (alert EVENT_DIAGNOSTIC "")); TEStateChanged TSSeeding].
Proof.
  pose proof (engine_polls (mk_libtorrent 1 true true true true None) no_sessions eq_refl)
    as (Hloops & Hstart & Hpoll).
  split.
  - destruct (Hloops false two_sessions O) as [_ Hone].
    + etransitivity; [exact (Hstart (Some 1) (example_start 1 "a" "10.0.0.1") no_sessions false O)|].
      exact (Hstart (Some 2) (example_start 2 "b" "10.0.0.2") one_session false O).
    + destruct Hone as [Hone|Hk]; [done|by vm_compute|exact Hone|lia].
  - specialize (Hpoll two_sessions "b" 2). 
    assert (own_channel (es_senders two_sessions) "b" 2) as Hown.
    { split; [by vm_compute|]. intros j Hj.
      assert (es_senders two_sessions = <["b" := 2]> {["a" := 1]}) as E by (by vm_compute).
      rewrite E in Hj. apply lookup_insert_Some in Hj as [[<- _]|[_ Hj]]; [done|].
      by apply lookup_singleton_Some in Hj as [_ ?]. }
    specialize (Hpoll Hown).
    destruct (native_poll_alerts (es_driver two_sessions)) as [r n] eqn:En.
    destruct (poll_once two_sessions) as [b s'] eqn:Ep. destruct Hpoll as [_ Hr].
    replace r with (fst (native_poll_alerts (es_driver two_sessions))) in Hr by (by rewrite En).
    cbn [snd]. rewrite Hr. by vm_compute.
Defined.
(** A peer that is given by its name: the torrent has no session, and the native engine has the torrent. *)
Example session_without_torrent :
  let '(r, s) := libtorrent_start (Some 1) (example_start 1 "a" "localhost") no_sessions in
  is_ok r = false ∧ es_driver s = ["a"] ∧ es_senders s = ∅.
Proof. by vm_compute. Qed.
