(* ===== verification/Sqlite.v ===== *)
(** * The SQLite repository ([src/src/repository/sqlite.rs])

    Five tables and the SQL statements of the program on them.  A table is the
    list of its rows; a statement keeps its [UNIQUE] constraints or fails and
    changes nothing; a transaction that does not commit is rolled back.  Any
    statement can fail for other reasons too, [fails], and the connection counts
    its statements.  Integers are stored as [i64], texts of times as chrono
    writes them; both crates, sqlx and chrono, are parameters, and so is the id
    that SQLite gives to a new row. *)

From S2P Require Import Prelude Text Status Effect Source Piece Files Checksum Manifest Planner Torrent Config Task Mapping Repository Magnet.

(** ** Tables *)

(** [u64 as i64]; [i64 as u64] is [wrap64]. *)
Definition to_i64 (z : Z) : Z := if z <? 9223372036854775808 then z else z - 18446744073709551616.

(** [src/src/repository/sqlite.rs:59-79], [download_tasks]. *)
Record SqlTask := mk_sql_task {
  qt_id : Z;
  qt_url : string;
  qt_spec_json : option string;
  qt_source_set_json : option string;
  qt_resolved_url : option string;
  qt_entity_tag : option string;
  qt_last_modified : option string;
  qt_file_name : string;
  qt_file_path : string;
  qt_status : string;
  qt_downloaded_size : Z;
  qt_total_size : option Z;
  qt_torrent_backend : option string;
  qt_torrent_external_id : option string;
  qt_torrent_state_json : option string;
  qt_torrent_metadata_json : option string;
  qt_torrent_resume_data : option bytes;
  qt_created_at : option string;
  qt_updated_at : option string
}.
(** [src/src/repository/sqlite.rs:88-103], [download_workers]. *)
Record SqlWorker := mk_sql_worker {
  qw_id : Z;
  qw_task_id : Z;
  qw_index : Z;
  qw_source_id : option string;
  qw_piece_start : option Z;
  qw_piece_end : option Z;
  qw_block_start : option Z;
  qw_block_end : option Z;
  qw_start : Z;
  qw_end : Z;
  qw_downloaded : Z;
  qw_status : string;
  qw_updated_at : option string
}.
(** [src/src/repository/sqlite.rs:112-118], [download_pieces]. *)
Record SqlPiece := mk_sql_piece {
  qp_task_id : Z;
  qp_piece_index : Z;
  qp_completed : Z;
  qp_updated_at : option string
}.
(** [src/src/repository/sqlite.rs:126-133], [download_blocks]. *)
Record SqlBlock := mk_sql_block {
  qb_task_id : Z;
  qb_piece_index : Z;
  qb_block_index : Z;
  qb_completed : Z;
  qb_updated_at : option string
}.
(** [src/src/repository/sqlite.rs:141-149], [download_checksums]. *)
Record SqlChecksum := mk_sql_checksum {
  qc_id : Z;
  qc_task_id : Z;
  qc_algorithm : string;
  qc_value : string;
  qc_verified : Z;
  qc_verified_at : option string
}.

Record database := mk_database {
  tbl_tasks : list SqlTask;
  tbl_workers : list SqlWorker;
  tbl_pieces : list SqlPiece;
  tbl_blocks : list SqlBlock;
  tbl_checksums : list SqlChecksum
}.
#[export] Instance database_eta : Settable database := λ d,
  mk_database (tbl_tasks d) (tbl_workers d) (tbl_pieces d) (tbl_blocks d) (tbl_checksums d).

(** [src/src/repository/sqlite.rs:16-18], [SqliteRepository]. The database behind the connection, and
    the number of statements so far. *)
Record sqlite_world := mk_sqlite { sq_db : database; sq_steps : nat }.
#[export] Instance sqlite_world_eta : Settable sqlite_world := λ w, mk_sqlite (sq_db w) (sq_steps w).

(** Chrono: times as texts. *)
Class SqlTime := {
  to_rfc3339 : DateTime → string;
  parse_from_rfc3339 : string → option DateTime;
  naive_parse : string → option DateTime
}.
(** A time that is written is read back. *)
Class SqlTimeLaws `{SqlTime} : Prop :=
  rfc3339_roundtrip d : parse_from_rfc3339 (to_rfc3339 d) = Some d.

(** ** Reading rows *)
Section decode.
Context `{SqlTime}.

(** [src/src/repository/sqlite.rs:778-787], [parse_db_datetime]. *)
Definition parse_db_datetime (value : string) : option DateTime :=
  opt_or (parse_from_rfc3339 value) (naive_parse value).

(** [src/src/repository/sqlite.rs:171-212], [DBDownloadTask of a row]. *)
Definition task_of_row (row : SqlTask) : DBDownloadTask := {|
  dt_id := qt_id row;
  dt_url := qt_url row;
  dt_spec_json := unwrap_or "" (qt_spec_json row);
  dt_source_set_json := unwrap_or "" (qt_source_set_json row);
  dt_resolved_url := unwrap_or "" (qt_resolved_url row);
  dt_entity_tag := unwrap_or "" (qt_entity_tag row);
  dt_last_modified := unwrap_or "" (qt_last_modified row);
  dt_file_name := qt_file_name row;
  dt_file_path := qt_file_path row;
  dt_status := qt_status row;
  dt_downloaded_size := wrap64 (qt_downloaded_size row);
  dt_total_size := wrap64 <$> qt_total_size row;
  dt_torrent_backend := qt_torrent_backend row;
  dt_torrent_external_id := qt_torrent_external_id row;
  dt_torrent_state_json := qt_torrent_state_json row;
  dt_torrent_metadata_json := qt_torrent_metadata_json row;
  dt_torrent_resume_data := qt_torrent_resume_data row;
  dt_created_at := qt_created_at row ≫= parse_db_datetime;
  dt_updated_at := qt_updated_at row ≫= parse_db_datetime
|}.
(** [src/src/repository/sqlite.rs:496-513], [DBDownloadWorker of a row]. *)
Definition worker_of_row (row : SqlWorker) : DBDownloadWorker := {|
  dw_id := qw_id row;
  dw_task_id := qw_task_id row;
  dw_index := wrap32 (qw_index row);
  dw_source_id := qw_source_id row;
  dw_piece_start := wrap32 <$> qw_piece_start row;
  dw_piece_end := wrap32 <$> qw_piece_end row;
  dw_block_start := wrap32 <$> qw_block_start row;
  dw_block_end := wrap32 <$> qw_block_end row;
  dw_start := wrap64 (qw_start row);
  dw_end := wrap64 (qw_end row);
  dw_downloaded := wrap64 (qw_downloaded row);
  dw_status := qw_status row;
  dw_updated_at := qw_updated_at row ≫= parse_db_datetime
|}.
(** [src/src/repository/sqlite.rs:602-610], [DBDownloadPiece of a row]. *)
Definition piece_of_row (row : SqlPiece) : DBDownloadPiece := {|
  dp_task_id := qp_task_id row;
  dp_piece_index := wrap32 (qp_piece_index row);
  dp_completed := negb (qp_completed row =? 0);
  dp_updated_at := qp_updated_at row ≫= parse_db_datetime
|}.
(** [src/src/repository/sqlite.rs:656-665], [DBDownloadBlock of a row]. *)
Definition block_of_row (row : SqlBlock) : DBDownloadBlock := {|
  db_task_id := qb_task_id row;
  db_piece_index := wrap32 (qb_piece_index row);
  db_block_index := wrap32 (qb_block_index row);
  db_completed := negb (qb_completed row =? 0);
  db_updated_at := qb_updated_at row ≫= parse_db_datetime
|}.
(** [src/src/repository/sqlite.rs:711-721], [DBDownloadChecksum of a row]. *)
Definition checksum_of_row (row : SqlChecksum) : DBDownloadChecksum := {|
  dc_id := qc_id row;
  dc_task_id := qc_task_id row;
  dc_algorithm := qc_algorithm row;
  dc_value := qc_value row;
  dc_verified := negb (qc_verified row =? 0);
  dc_verified_at := qc_verified_at row ≫= parse_db_datetime
|}.
End decode.

(** ** Binding rows

    [now] is the text of the current time, for a time that is not given. *)
Section encode.
Context `{SqlTime}.

Definition of_bool (b : bool) : Z := if b then 1 else 0.
(** [COALESCE(?, STRFTIME(.., 'now'))] *)
Definition time_or (now : string) (t : option DateTime) : option string :=
  Some (from_option to_rfc3339 now t).

(** [src/src/repository/sqlite.rs:299-317], [save_task (values)]. *)
Definition row_of_task (now : string) (t : DBDownloadTask) : SqlTask := {|
  qt_id := dt_id t;
  qt_url := dt_url t;
  qt_spec_json := Some (dt_spec_json t);
  qt_source_set_json := Some (dt_source_set_json t);
  qt_resolved_url := Some (dt_resolved_url t);
  qt_entity_tag := Some (dt_entity_tag t);
  qt_last_modified := Some (dt_last_modified t);
  qt_file_name := dt_file_name t;
  qt_file_path := dt_file_path t;
  qt_status := dt_status t;
  qt_downloaded_size := to_i64 (dt_downloaded_size t);
  qt_total_size := to_i64 <$> dt_total_size t;
  qt_torrent_backend := dt_torrent_backend t;
  qt_torrent_external_id := dt_torrent_external_id t;
  qt_torrent_state_json := dt_torrent_state_json t;
  qt_torrent_metadata_json := dt_torrent_metadata_json t;
  qt_torrent_resume_data := dt_torrent_resume_data t;
  qt_created_at := time_or now (dt_created_at t);
  qt_updated_at := time_or now (dt_updated_at t)
|}.
(** [src/src/repository/sqlite.rs:568-579], [save_worker (values)]. *)
Definition row_of_worker (rowid : Z) (now : string) (w : DBDownloadWorker) : SqlWorker := {|
  qw_id := rowid;
  qw_task_id := dw_task_id w;
  qw_index := dw_index w;
  qw_source_id := dw_source_id w;
  qw_piece_start := dw_piece_start w;
  qw_piece_end := dw_piece_end w;
  qw_block_start := dw_block_start w;
  qw_block_end := dw_block_end w;
  qw_start := to_i64 (dw_start w);
  qw_end := to_i64 (dw_end w);
  qw_downloaded := to_i64 (dw_downloaded w);
  qw_status := dw_status w;
  qw_updated_at := time_or now (dw_updated_at w)
|}.
(** [src/src/repository/sqlite.rs:627-630], [save_pieces (values)]. *)
Definition row_of_piece (now : string) (p : DBDownloadPiece) : SqlPiece :=
  mk_sql_piece (dp_task_id p) (dp_piece_index p) (of_bool (dp_completed p)) (time_or now (dp_updated_at p)).
(** [src/src/repository/sqlite.rs:682-686], [save_blocks (values)]. *)
Definition row_of_block (now : string) (b : DBDownloadBlock) : SqlBlock :=
  mk_sql_block (db_task_id b) (db_piece_index b) (db_block_index b) (of_bool (db_completed b))
    (time_or now (db_updated_at b)).
(** [src/src/repository/sqlite.rs:759-763], [save_checksum (values)]. *)
Definition row_of_checksum (rowid : Z) (c : DBDownloadChecksum) : SqlChecksum :=
  mk_sql_checksum rowid (dc_task_id c) (dc_algorithm c) (dc_value c) (of_bool (dc_verified c))
    (to_rfc3339 <$> dc_verified_at c).
End encode.

(** ** Statements *)

(** The error of a broken [UNIQUE] constraint. *)
Definition unique_error (columns : string) : string :=
  "error returned from database: (code: 2067) UNIQUE constraint failed: " +:+ columns.

Section statements.
Context `{SqlTime}.
(** The failure of the n-th statement, if there is one; the text of the time of the n-th statement; the
    id of the row it inserts. *)
Context (fails : nat → option string) (strftime_now : nat → string) (rowid : nat → Z).

Abbreviation sql := (eff sqlite_world).

(** A statement that changes the database; it is given its number. *)
Definition execute (statement : nat → database → result database string) : sql unit := λ w,
  let n := sq_steps w in
  let w := w <| sq_steps ::= S |> in
  match fails n with
  | Some err => (Err (EOther err), w)
  | None =>
      match statement n (sq_db w) with
      | Ok db => (Ok tt, w <| sq_db := db |>)
      | Err err => (Err (EOther err), w)
      end
  end.
(** A statement that only reads. *)
Definition select {A} (f : database → A) : sql A := λ w,
  let n := sq_steps w in
  let w := w <| sq_steps ::= S |> in
  match fails n with
  | Some err => (Err (EOther err), w)
  | None => (Ok (f (sq_db w)), w)
  end.
(** [pool.begin()], the statements, [tx.commit()]. The transaction that is dropped before it is
    committed is rolled back. *)
Definition transaction (body : sql unit) : sql unit := λ w,
  let nothing : sql unit := execute (λ _ db, Ok db) in
  match (nothing ;;; body ;;; nothing) w with
  | (Ok _, w') => (Ok tt, w')
  | (Err err, w') => (Err err, w' <| sq_db := sq_db w |>)
  end.

(** [INSERT]: fails where a row has the key of the new one. *)
Definition insert {A} (table : database → list A) (put : list A → database → database) (same : A → A → bool)
    (columns : string) (row : nat → A) : sql unit :=
  execute (λ n db,
    if existsb (same (row n)) (table db) then Err (unique_error columns)
    else Ok (put (table db ++ [row n]) db)).
(** [INSERT .. ON CONFLICT DO UPDATE]: [merge] is what becomes of a row that is there. *)
Definition upsert_row {A} (table : database → list A) (put : list A → database → database)
    (same : A → A → bool) (merge : A → A → A) (row : nat → A) : sql unit :=
  execute (λ n db,
    if existsb (same (row n)) (table db)
    then Ok (put (update_first (same (row n)) (merge (row n)) (table db)) db)
    else Ok (put (table db ++ [row n]) db)).
(** [DELETE .. WHERE] *)
Definition delete_where {A} (table : database → list A) (put : list A → database → database)
    (p : A → bool) : sql unit :=
  execute (λ _ db, Ok (put (filterb (λ row, negb (p row)) (table db)) db)).

Definition put_tasks l (db : database) := db <| tbl_tasks := l |>.
Definition put_workers l (db : database) := db <| tbl_workers := l |>.
Definition put_pieces l (db : database) := db <| tbl_pieces := l |>.
Definition put_blocks l (db : database) := db <| tbl_blocks := l |>.
Definition put_checksums l (db : database) := db <| tbl_checksums := l |>.

Definition same_worker (a b : SqlWorker) : bool :=
  ((qw_task_id a =? qw_task_id b) && (qw_index a =? qw_index b))%bool.
Definition same_piece (a b : SqlPiece) : bool :=
  ((qp_task_id a =? qp_task_id b) && (qp_piece_index a =? qp_piece_index b))%bool.
Definition same_block (a b : SqlBlock) : bool :=
  ((qb_task_id a =? qb_task_id b) && (qb_piece_index a =? qb_piece_index b) &&
   (qb_block_index a =? qb_block_index b))%bool.
Definition same_checksum (a b : SqlChecksum) : bool :=
  ((qc_task_id a =? qc_task_id b) && String.eqb (qc_algorithm a) (qc_algorithm b))%bool.

(** ** Tasks *)

(** [src/src/repository/sqlite.rs:273-298], [save_task (statement)]. The row of a task that is there
    keeps the time of its creation; no other row has the URL. *)
Definition upsert_task (row : SqlTask) (db : database) : result database string :=
  let others := filterb (λ r, negb (qt_id r =? qt_id row)) (tbl_tasks db) in
  if existsb (λ r, String.eqb (qt_url r) (qt_url row)) others
  then Err (unique_error "download_tasks.url")
  else
    match find_first (λ r, qt_id r =? qt_id row) (tbl_tasks db) with
    | Some old =>
        let row := mk_sql_task (qt_id row) (qt_url row) (qt_spec_json row) (qt_source_set_json row)
          (qt_resolved_url row) (qt_entity_tag row) (qt_last_modified row) (qt_file_name row)
          (qt_file_path row) (qt_status row) (qt_downloaded_size row) (qt_total_size row)
          (qt_torrent_backend row) (qt_torrent_external_id row) (qt_torrent_state_json row)
          (qt_torrent_metadata_json row) (qt_torrent_resume_data row) (qt_created_at old)
          (qt_updated_at row) in
        Ok (put_tasks (update_first (λ r, qt_id r =? qt_id row) (λ _, row) (tbl_tasks db)) db)
    | None => Ok (put_tasks (tbl_tasks db ++ [row]) db)
    end.
(** [src/src/repository/sqlite.rs:272-322], [SqliteRepository::save_task]. *)
Definition sqlite_save_task (task : DBDownloadTask) : sql unit :=
  execute (λ n, upsert_task (row_of_task (strftime_now n) task)).

(** [src/src/repository/sqlite.rs:164-216], [SqliteRepository::load_tasks]. *)
Definition sqlite_load_tasks : sql (list DBDownloadTask) :=
  select (λ db, task_of_row <$> sort_by (λ a b, qt_id a <=? qt_id b) (tbl_tasks db)).
(** [src/src/repository/sqlite.rs:218-270], [SqliteRepository::load_task]. *)
Definition sqlite_load_task (task_id : Z) : sql (option DBDownloadTask) :=
  select (λ db, task_of_row <$> find_first (λ r, qt_id r =? task_id) (tbl_tasks db)).

Definition delete_task_workers (task_id : Z) : sql unit :=
  delete_where tbl_workers put_workers (λ r, qw_task_id r =? task_id).
Definition delete_task_pieces (task_id : Z) : sql unit :=
  delete_where tbl_pieces put_pieces (λ r, qp_task_id r =? task_id).
Definition delete_task_blocks (task_id : Z) : sql unit :=
  delete_where tbl_blocks put_blocks (λ r, qb_task_id r =? task_id).
Definition delete_task_checksums (task_id : Z) : sql unit :=
  delete_where tbl_checksums put_checksums (λ r, qc_task_id r =? task_id).

(** [src/src/repository/sqlite.rs:324-334], [SqliteRepository::delete_task]. *)
Definition sqlite_delete_task (task_id : Z) : sql unit :=
  delete_where tbl_tasks put_tasks (λ r, qt_id r =? task_id) ;;;
  delete_task_blocks task_id.

(** ** Workers, pieces, blocks and checksums *)

(** [src/src/repository/sqlite.rs:487-515], [SqliteRepository::load_workers]. *)
Definition sqlite_load_workers (task_id : Z) : sql (list DBDownloadWorker) :=
  select (λ db, worker_of_row <$>
    sort_by (λ a b, qw_index a <=? qw_index b) (filterb (λ r, qw_task_id r =? task_id) (tbl_workers db))).
(** [src/src/repository/sqlite.rs:517-545], [SqliteRepository::load_worker]. *)
Definition sqlite_load_worker (worker_id : Z) : sql (option DBDownloadWorker) :=
  select (λ db, worker_of_row <$> find_first (λ r, qw_id r =? worker_id) (tbl_workers db)).
(** [src/src/repository/sqlite.rs:547-583], [SqliteRepository::save_worker]. *)
Definition sqlite_save_worker (worker : DBDownloadWorker) : sql unit :=
  upsert_row tbl_workers put_workers same_worker
    (λ new old, mk_sql_worker (qw_id old) (qw_task_id old) (qw_index old) (qw_source_id new)
       (qw_piece_start new) (qw_piece_end new) (qw_block_start new) (qw_block_end new) (qw_start new)
       (qw_end new) (qw_downloaded new) (qw_status new) (qw_updated_at new))
    (λ n, row_of_worker (rowid n) (strftime_now n) worker).
(** [src/src/repository/sqlite.rs:585-591], [SqliteRepository::delete_workers]. *)
Definition sqlite_delete_workers (task_id : Z) : sql unit := delete_task_workers task_id.

(** [src/src/repository/sqlite.rs:593-612], [SqliteRepository::load_pieces]. *)
Definition sqlite_load_pieces (task_id : Z) : sql (list DBDownloadPiece) :=
  select (λ db, piece_of_row <$>
    sort_by (λ a b, qp_piece_index a <=? qp_piece_index b)
      (filterb (λ r, qp_task_id r =? task_id) (tbl_pieces db))).
Definition insert_piece (piece : DBDownloadPiece) : sql unit :=
  insert tbl_pieces put_pieces same_piece "download_pieces.task_id, download_pieces.piece_index"
    (λ n, row_of_piece (strftime_now n) piece).
(** [src/src/repository/sqlite.rs:614-636], [SqliteRepository::save_pieces]. *)
Definition sqlite_save_pieces (task_id : Z) (pieces : list DBDownloadPiece) : sql unit :=
  delete_task_pieces task_id ;;; for_each insert_piece pieces.
(** [src/src/repository/sqlite.rs:638-644], [SqliteRepository::delete_pieces]. *)
Definition sqlite_delete_pieces (task_id : Z) : sql unit := delete_task_pieces task_id.

(** [src/src/repository/sqlite.rs:646-667], [SqliteRepository::load_blocks]. *)
Definition sqlite_load_blocks (task_id : Z) : sql (list DBDownloadBlock) :=
  select (λ db, block_of_row <$>
    sort_by (λ a b, pair_leb (qb_piece_index a, qb_block_index a) (qb_piece_index b, qb_block_index b))
      (filterb (λ r, qb_task_id r =? task_id) (tbl_blocks db))).
Definition insert_block (block : DBDownloadBlock) : sql unit :=
  insert tbl_blocks put_blocks same_block
    "download_blocks.task_id, download_blocks.piece_index, download_blocks.block_index"
    (λ n, row_of_block (strftime_now n) block).
(** [src/src/repository/sqlite.rs:669-692], [SqliteRepository::save_blocks]. *)
Definition sqlite_save_blocks (task_id : Z) (blocks : list DBDownloadBlock) : sql unit :=
  delete_task_blocks task_id ;;; for_each insert_block blocks.
(** [src/src/repository/sqlite.rs:694-700], [SqliteRepository::delete_blocks]. *)
Definition sqlite_delete_blocks (task_id : Z) : sql unit := delete_task_blocks task_id.

(** [src/src/repository/sqlite.rs:703-723], [SqliteRepository::load_checksums]. The statement leaves
    the order open; here it is the table's. *)
Definition sqlite_load_checksums (task_id : Z) : sql (list DBDownloadChecksum) :=
  select (λ db, checksum_of_row <$> filterb (λ r, qc_task_id r =? task_id) (tbl_checksums db)).
(** [src/src/repository/sqlite.rs:725-746], [SqliteRepository::load_checksum]. *)
Definition sqlite_load_checksum (checksum_id : Z) : sql (option DBDownloadChecksum) :=
  select (λ db, checksum_of_row <$> find_first (λ r, qc_id r =? checksum_id) (tbl_checksums db)).
(** [src/src/repository/sqlite.rs:748-767], [SqliteRepository::save_checksum]. *)
Definition sqlite_save_checksum (checksum : DBDownloadChecksum) : sql unit :=
  upsert_row tbl_checksums put_checksums same_checksum
    (λ new old, mk_sql_checksum (qc_id old) (qc_task_id old) (qc_algorithm old) (qc_value new)
       (qc_verified new) (qc_verified_at new))
    (λ n, row_of_checksum (rowid n) checksum).
(** [src/src/repository/sqlite.rs:769-775], [SqliteRepository::delete_checksums]. *)
Definition sqlite_delete_checksums (task_id : Z) : sql unit := delete_task_checksums task_id.

(** ** Bundles *)

Definition insert_worker (worker : DBDownloadWorker) : sql unit :=
  insert tbl_workers put_workers same_worker "download_workers.task_id, download_workers.index"
    (λ n, row_of_worker (rowid n) (strftime_now n) worker).
Definition insert_checksum (checksum : DBDownloadChecksum) : sql unit :=
  insert tbl_checksums put_checksums same_checksum "download_checksums.task_id, download_checksums.algorithm"
    (λ n, row_of_checksum (rowid n) checksum).

(** [src/src/repository/sqlite.rs:336-484], [SqliteRepository::save_bundle]. *)
Definition sqlite_save_bundle (task : DBDownloadTask) (workers : list DBDownloadWorker)
    (pieces : list DBDownloadPiece) (blocks : list DBDownloadBlock) (checksums : list DBDownloadChecksum)
    : sql unit :=
  transaction (
    sqlite_save_task task ;;;
    delete_task_workers (dt_id task) ;;; for_each insert_worker workers ;;;
    delete_task_pieces (dt_id task) ;;; for_each insert_piece pieces ;;;
    delete_task_blocks (dt_id task) ;;; for_each insert_block blocks ;;;
    delete_task_checksums (dt_id task) ;;; for_each insert_checksum checksums).

#[export] Instance sqlite_repository : Repository sqlite_world := {
  load_tasks := sqlite_load_tasks;
  load_task := sqlite_load_task;
  save_task := sqlite_save_task;
  delete_task := sqlite_delete_task;
  save_bundle := sqlite_save_bundle;
  load_workers := sqlite_load_workers;
  load_worker := sqlite_load_worker;
  save_worker := sqlite_save_worker;
  delete_workers := sqlite_delete_workers;
  load_pieces := sqlite_load_pieces;
  save_pieces := sqlite_save_pieces;
  delete_pieces := sqlite_delete_pieces;
  load_blocks := sqlite_load_blocks;
  save_blocks := sqlite_save_blocks;
  delete_blocks := sqlite_delete_blocks;
  load_checksums := sqlite_load_checksums;
  load_checksum := sqlite_load_checksum;
  save_checksum := sqlite_save_checksum;
  delete_checksums := sqlite_delete_checksums
}.
End statements.

(** ** Opening the database

    The schema of a database: its tables and their columns. *)
Abbreviation schema := (gmap string (list string)).
(** The disk, the schema of the database that is open, and the number of statements so far. *)
Record opening := mk_opening { og_fs : fs; og_schema : schema; og_steps : nat }.
#[export] Instance opening_eta : Settable opening := λ o, mk_opening (og_fs o) (og_schema o) (og_steps o).

(** [src/src/repository/sqlite.rs:59-79], [download_tasks (columns)]. *)
Definition task_columns : list string :=
  ["id"; "url"; "spec_json"; "source_set_json"; "resolved_url"; "entity_tag"; "last_modified"; "file_name";
    "file_path"; "status"; "downloaded_size"; "total_size"; "torrent_backend"; "torrent_external_id";
    "torrent_state_json"; "torrent_metadata_json"; "torrent_resume_data"; "created_at"; "updated_at"].
(** [src/src/repository/sqlite.rs:88-103], [download_workers (columns)]. *)
Definition worker_columns : list string :=
  ["id"; "task_id"; "index"; "source_id"; "piece_start"; "piece_end"; "block_start"; "block_end"; "start";
    "end"; "downloaded"; "status"; "updated_at"].
(** [src/src/repository/sqlite.rs:112-118], [download_pieces (columns)]. *)
Definition piece_columns : list string := ["task_id"; "piece_index"; "completed"; "updated_at"].
(** [src/src/repository/sqlite.rs:126-133], [download_blocks (columns)]. *)
Definition block_columns : list string := ["task_id"; "piece_index"; "block_index"; "completed"; "updated_at"].
(** [src/src/repository/sqlite.rs:141-149], [download_checksums (columns)]. *)
Definition checksum_columns : list string := ["id"; "task_id"; "algorithm"; "value"; "verified"; "verified_at"].

Section opening.
(** The failure of the n-th statement; the working directory; connecting to the file of a
    database, which finds the schema that is there. *)
Context (fails : nat → option string) (current_dir : result string io_error)
  (connect : string → fs → result schema string).

(** A statement that changes the schema. *)
Definition alter_schema (f : schema → schema) : eff opening unit := λ o,
  let n := og_steps o in
  let o := o <| og_steps ::= S |> in
  match fails n with
  | Some err => (Err (EOther err), o)
  | None => (Ok tt, o <| og_schema ::= f |>)
  end.
(** [CREATE TABLE IF NOT EXISTS] *)
Definition create_table (table : string) (columns : list string) (s : schema) : schema :=
  match s !! table with Some _ => s | None => <[table := columns]> s end.
(** [ALTER TABLE .. ADD COLUMN] *)
Definition add_column (table column : string) : schema → schema := alter (λ l, l ++ [column]) table.
(** [PRAGMA table_info]; no rows for a table that is not there. *)
Definition table_info (table : string) : eff opening (list string) :=
  alter_schema id ;;; gets (λ o, default [] (og_schema o !! table)).

(** [src/src/repository/sqlite.rs:797-820], [ensure_download_task_columns (for loop)]. *)
Definition ensure_columns (table : string) (existing_columns wanted : list string) : eff opening unit :=
  for_each (λ column,
    if existsb (String.eqb column) existing_columns then ret tt else alter_schema (add_column table column))
    wanted.
(** [src/src/repository/sqlite.rs:789-821], [ensure_download_task_columns]. *)
Definition ensure_download_task_columns : eff opening unit :=
  let! existing_columns := table_info "download_tasks" in
  ensure_columns "download_tasks" existing_columns
    ["spec_json"; "source_set_json"; "resolved_url"; "entity_tag"; "last_modified";
     "torrent_backend"; "torrent_external_id"; "torrent_state_json"; "torrent_metadata_json";
     "torrent_resume_data"].
(** [src/src/repository/sqlite.rs:823-850], [ensure_download_worker_columns]. *)
Definition ensure_download_worker_columns : eff opening unit :=
  let! existing_columns := table_info "download_workers" in
  ensure_columns "download_workers" existing_columns
    ["source_id"; "piece_start"; "piece_end"; "block_start"; "block_end"].

(** [src/src/repository/sqlite.rs:22-27], [SqliteRepository::new (db_abs)]. *)
Definition absolute_path (cwd db_path : string) : string :=
  if starts_with "/" db_path then db_path else path_join cwd db_path.

(** [src/src/repository/sqlite.rs:29-42], [SqliteRepository::new (directory and file)]. *)
Definition make_db_file (db_abs : string) : eff opening unit :=
  let failed what path err :=
    EOther ("Failed to create " +:+ what +:+ " " +:+ str_debug path +:+ ": " +:+ io_error_to_string err) in
  let! f := gets og_fs in
  match path_parent db_abs with
  | Some parent =>
      if fs_exists f parent then ret tt
      else
        match fs_create_dir_all f parent with
        | Ok f => modify (λ o, o <| og_fs := f |>)
        | Err err => throw (failed "directory" parent err)
        end
  | None => ret tt
  end ;;;
  let! f := gets og_fs in
  if fs_exists f db_abs then ret tt
  else
    match fs_write_file f db_abs [] with
    | Ok f => modify (λ o, o <| og_fs := f |>)
    | Err err => throw (failed "DB file" db_abs err)
    end.

(** [src/src/repository/sqlite.rs:21-158], [SqliteRepository::new]. *)
Definition sqlite_new (db_path : string) : eff opening unit :=
  let! cwd := lift (io_err current_dir) in
  let db_abs := absolute_path cwd db_path in
  make_db_file db_abs ;;;
  let! f := gets og_fs in
  match connect ("sqlite://" +:+ db_abs) f with
  | Err err => throw (EOther err)
  | Ok found => modify (λ o, o <| og_schema := found |>)
  end ;;;
  alter_schema (create_table "download_tasks" task_columns) ;;;
  ensure_download_task_columns ;;;
  alter_schema (create_table "download_workers" worker_columns) ;;;
  ensure_download_worker_columns ;;;
  alter_schema (create_table "download_pieces" piece_columns) ;;;
  alter_schema (create_table "download_blocks" block_columns) ;;;
  alter_schema (create_table "download_checksums" checksum_columns).
End opening.

(** *** What opening makes of the schema *)

Definition with_columns (wanted existing : list string) : list string :=
  existing ++ filterb (λ column, negb (existsb (String.eqb column) existing)) wanted.
(** A table that is missing gets all columns, one that is there those of [wanted] it lacks. *)
Definition table_opened (all wanted : list string) (found : option (list string)) : list string :=
  match found with Some columns => with_columns wanted columns | None => all end.
Definition schema_opened (found : schema) : schema :=
  <["download_checksums" := table_opened checksum_columns [] (found !! "download_checksums")]>
  (<["download_blocks" := table_opened block_columns [] (found !! "download_blocks")]>
  (<["download_pieces" := table_opened piece_columns [] (found !! "download_pieces")]>
  (<["download_workers" := table_opened worker_columns
      ["source_id"; "piece_start"; "piece_end"; "block_start"; "block_end"] (found !! "download_workers")]>
  (<["download_tasks" := table_opened task_columns
      ["spec_json"; "source_set_json"; "resolved_url"; "entity_tag"; "last_modified"; "torrent_backend";
       "torrent_external_id"; "torrent_state_json"; "torrent_metadata_json"; "torrent_resume_data"]
      (found !! "download_tasks")]> found)))).

Section opened.
Context (fails : nat → option string).

Lemma alter_schema_ok f o o' : alter_schema fails f o = (Ok tt, o') →
  o' = mk_opening (og_fs o) (f (og_schema o)) (S (og_steps o)).
Proof. unfold alter_schema. by destruct (fails _) as [?|]; [done|intros [= <-]]. Qed.

Lemma ensure_columns_ok table existing wanted o o' : ensure_columns fails table existing wanted o = (Ok tt, o') →
  og_fs o' = og_fs o ∧
  og_schema o' = alter (λ l, l ++ filterb (λ column, negb (existsb (String.eqb column) existing)) wanted) table
    (og_schema o).
Proof.
  unfold ensure_columns. revert o. induction wanted as [|c wanted IH]; intros o;
    cbn [for_each filterb List.filter].
  { intros [= <-]. split; [done|]. symmetry. apply map_eq. intros i. rewrite lookup_alter.
    case_decide as Et; [|done]. rewrite Et. destruct (og_schema o !! i) as [l|]; [cbn; f_equal; apply app_nil_r|done]. }
  destruct (existsb _ existing); cbn [negb]; [apply IH|].
  intros ([] & o1 & ->%alter_schema_ok & [Hf Hs]%IH)%eff_bind_inv. split; [done|]. rewrite Hs. cbn.
  unfold add_column. rewrite alter_alter_eq. apply alter_ext. intros l _. cbn. by rewrite <- app_assoc.
Qed.

Lemma create_table_opened table all s : create_table table all s = <[table := table_opened all [] (s !! table)]> s.
Proof.
  unfold create_table. destruct (s !! table) as [l|] eqn:E; simpl; [|done].
  unfold with_columns. simpl. by rewrite app_nil_r, insert_id.
Qed.

Lemma ensured_table table all wanted (s : schema) :
  filterb (λ column, negb (existsb (String.eqb column) all)) wanted = [] →
  let s1 := create_table table all s in
  alter (λ l, l ++ filterb (λ column, negb (existsb (String.eqb column) (default [] (s1 !! table)))) wanted)
    table s1 = <[table := table_opened all wanted (s !! table)]> s.
Proof.
  intros Hall. cbv zeta. unfold create_table. destruct (s !! table) as [l|] eqn:El.
  - rewrite El. cbn [default from_option table_opened id]. apply map_eq. intros i.
    destruct (decide (table = i)) as [<-|n]; [rewrite lookup_alter_eq, lookup_insert_eq, El; done|].
    rewrite (lookup_alter_ne _ _ _ _ n), lookup_insert_ne by done. done.
  - rewrite lookup_insert_eq. cbn [default from_option table_opened id]. rewrite Hall.
    apply map_eq. intros i. destruct (decide (table = i)) as [<-|].
    + by rewrite lookup_alter_eq, !lookup_insert_eq; simpl; rewrite app_nil_r.
    + by rewrite lookup_alter_ne.
Qed.

Lemma table_info_ok table o o' columns : table_info fails table o = (Ok columns, o') →
  columns = default [] (og_schema o !! table) ∧ og_fs o' = og_fs o ∧ og_schema o' = og_schema o.
Proof. unfold table_info. intros ([] & o1 & ->%alter_schema_ok & [= <- <-])%eff_bind_inv. done. Qed.

(** What opening a database makes of the schema that it finds in the file. *)
Lemma sqlite_new_schema current_dir connect db_path o o' :
  sqlite_new fails current_dir connect db_path o = (Ok tt, o') →
  ∃ cwd f found, current_dir = Ok cwd ∧ connect ("sqlite://" +:+ absolute_path cwd db_path) f = Ok found ∧
    og_schema o' = schema_opened found.
Proof.
  unfold sqlite_new. intros (cwd & o1 & [= Hcwd <-] & Hr)%eff_bind_inv. 
  assert (current_dir = Ok cwd) as -> by (destruct current_dir; simpl in Hcwd; congruence).
  apply eff_bind_inv in Hr as ([] & o2 & _ & Hr). apply eff_bind_inv in Hr as (f & o3 & [= <- <-] & Hr).
  destruct (connect _ (og_fs o2)) as [found|] eqn:Ec; [|done].
  apply eff_bind_inv in Hr as ([] & o3 & [= <-] & Hr).
  apply eff_bind_inv in Hr as ([] & o4 & ->%alter_schema_ok & Hr).
  apply eff_bind_inv in Hr as ([] & o5 & Ht & Hr).
  apply eff_bind_inv in Ht as (c1 & o5' & (-> & Hf1 & Hs1)%table_info_ok & [Hf2 Hs2]%ensure_columns_ok).
  apply eff_bind_inv in Hr as ([] & o6 & ->%alter_schema_ok & Hr).
  apply eff_bind_inv in Hr as ([] & o7 & Ht & Hr).
  apply eff_bind_inv in Ht as (c2 & o7' & (-> & Hf3 & Hs3)%table_info_ok & [Hf4 Hs4]%ensure_columns_ok).
  apply eff_bind_inv in Hr as ([] & o8 & ->%alter_schema_ok & Hr).
  apply eff_bind_inv in Hr as ([] & o9 & ->%alter_schema_ok & ->%alter_schema_ok).
  exists cwd, (og_fs o2), found. split; [done|]. split; [done|]. cbn [og_schema] in *.
  rewrite Hs4, Hs3, Hs2, Hs1, !create_table_opened.
  rewrite <- (create_table_opened "download_tasks"), <- (create_table_opened "download_workers").
  rewrite !ensured_table by done. unfold schema_opened.
  rewrite !lookup_insert_ne by done. done.
Qed.
End opened.

(** ** Integers and times are read back *)

Lemma wrap64_to_i64 z : is_u64 z → wrap64 (to_i64 z) = z.
Proof.
  intros Hz. unfold is_u64, u64_max in Hz. unfold wrap64, to_i64.
  destruct (Z.ltb_spec z 9223372036854775808); [apply Z.mod_small; lia|].
  rewrite <- (Z.mod_add _ 1) by lia. rewrite Z.mod_small; lia.
Qed.
Lemma wrap64_to_i64_opt o : from_option is_u64 True o → wrap64 <$> (to_i64 <$> o) = o.
Proof. destruct o as [z|]; [|done]. intros Hz. cbn. by rewrite wrap64_to_i64. Qed.
Lemma wrap32_opt o : from_option is_u32 True o → wrap32 <$> o = o.
Proof. destruct o as [z|]; [|done]. intros Hz. cbn. by rewrite wrap32_small. Qed.
Lemma of_bool_read b : negb (of_bool b =? 0) = b.
Proof. by destruct b. Qed.

(** The integers of a row are those of its Rust types. *)
Definition task_in_range (t : DBDownloadTask) : Prop :=
  is_u64 (dt_downloaded_size t) ∧ from_option is_u64 True (dt_total_size t).
Definition worker_in_range (w : DBDownloadWorker) : Prop :=
  is_u32 (dw_index w) ∧ from_option is_u32 True (dw_piece_start w) ∧ from_option is_u32 True (dw_piece_end w) ∧
  from_option is_u32 True (dw_block_start w) ∧ from_option is_u32 True (dw_block_end w) ∧
  is_u64 (dw_start w) ∧ is_u64 (dw_end w) ∧ is_u64 (dw_downloaded w).
Definition piece_in_range (p : DBDownloadPiece) : Prop := is_u32 (dp_piece_index p).
Definition block_in_range (b : DBDownloadBlock) : Prop := is_u32 (db_piece_index b) ∧ is_u32 (db_block_index b).

(** What is read of a time: itself, or any where none was given. *)
Definition kept_time (given read : option DateTime) : Prop := ∀ d, given = Some d → read = Some d.

Section read_back.
Context `{SqlTimeLaws}.

Lemma parse_written d : parse_db_datetime (to_rfc3339 d) = Some d.
Proof. unfold parse_db_datetime. by rewrite rfc3339_roundtrip. Qed.
Lemma time_or_kept now t : kept_time t (time_or now t ≫= parse_db_datetime).
Proof. intros d ->. apply parse_written. Qed.

(** What is read of a row that was written, its id and times apart. *)
Lemma piece_read_back now p : piece_in_range p →
  let p' := piece_of_row (row_of_piece now p) in
  dp_task_id p' = dp_task_id p ∧ dp_piece_index p' = dp_piece_index p ∧ dp_completed p' = dp_completed p ∧
  kept_time (dp_updated_at p) (dp_updated_at p').
Proof.
  intros Hp. cbn. rewrite wrap32_small, of_bool_read by exact Hp. split_and!; [done..|]. apply time_or_kept.
Qed.
Lemma block_read_back now b : block_in_range b →
  let b' := block_of_row (row_of_block now b) in
  db_task_id b' = db_task_id b ∧ db_piece_index b' = db_piece_index b ∧ db_block_index b' = db_block_index b ∧
  db_completed b' = db_completed b ∧ kept_time (db_updated_at b) (db_updated_at b').
Proof.
  intros [Hp Hb]. cbn. rewrite !wrap32_small, of_bool_read by done. split_and!; [done..|]. apply time_or_kept.
Qed.
Lemma checksum_read_back rowid c :
  checksum_of_row (row_of_checksum rowid c) = c <| dc_id := rowid |>.
Proof.
  destruct c as [i t a v ver [d|]]; unfold checksum_of_row, row_of_checksum, update;
    cbn -[parse_db_datetime of_bool]; by rewrite of_bool_read, ?parse_written.
Qed.
Lemma worker_read_back rowid now w : worker_in_range w →
  ∃ t, worker_of_row (row_of_worker rowid now w) = w <| dw_id := rowid |> <| dw_updated_at := t |> ∧
    kept_time (dw_updated_at w) t.
Proof.
  intros (Hi & Hps & Hpe & Hbs & Hbe & Hs & He & Hd). exists (time_or now (dw_updated_at w) ≫= parse_db_datetime).
  split; [|apply time_or_kept]. destruct w as [i t x src ps pe bs be s e d st u]. cbn in *.
  unfold worker_of_row, row_of_worker, update. cbn. rewrite wrap32_small, !wrap32_opt, !wrap64_to_i64 by done. done.
Qed.
End read_back.

(** ** What statements do *)

Section statement_facts.
Context `{SqlTime} (fails : nat → option string) (strftime_now : nat → string) (rowid : nat → Z).

(** A table that can be put in the place of another. *)
Definition table_of {A} (table : database → list A) (put : list A → database → database) : Prop :=
  (∀ l db, table (put l db) = l) ∧ (∀ l k db, put l (put k db) = put l db) ∧ ∀ db, put (table db) db = db.
Lemma workers_table : table_of tbl_workers put_workers.
Proof. split_and!; [done|done|by intros []]. Qed.
Lemma pieces_table : table_of tbl_pieces put_pieces.
Proof. split_and!; [done|done|by intros []]. Qed.
Lemma blocks_table : table_of tbl_blocks put_blocks.
Proof. split_and!; [done|done|by intros []]. Qed.
Lemma checksums_table : table_of tbl_checksums put_checksums.
Proof. split_and!; [done|done|by intros []]. Qed.

Lemma execute_ok statement w w' :
  execute fails statement w = (Ok tt, w') → statement (sq_steps w) (sq_db w) = Ok (sq_db w').
Proof.
  unfold execute. destruct (fails _); [done|]. destruct (statement _ _) as [db|]; [|done]. by intros [= <-].
Qed.
Lemma execute_runs statement w db :
  fails (sq_steps w) = None → statement (sq_steps w) (sq_db w) = Ok db →
  execute fails statement w = (Ok tt, mk_sqlite db (S (sq_steps w))).
Proof. intros Hf E. unfold execute. by rewrite Hf; cbn; rewrite E. Qed.
Lemma delete_where_ok {A} (table : database → list A) put p w w' :
  delete_where fails table put p w = (Ok tt, w') →
  sq_db w' = put (filterb (λ r, negb (p r)) (table (sq_db w))) (sq_db w).
Proof. intros E%execute_ok. by injection E as ->. Qed.

(** [sqlite_delete_task] deletes the task's row and its blocks, and no row of another table. *)
Lemma sqlite_keeps_workers id w : (∀ n, fails n = None) →
  ∃ w', sqlite_delete_task fails id w = (Ok tt, w') ∧
    tbl_tasks (sq_db w') = filterb (λ r, negb (qt_id r =? id)) (tbl_tasks (sq_db w)) ∧
    tbl_blocks (sq_db w') = filterb (λ r, negb (qb_task_id r =? id)) (tbl_blocks (sq_db w)) ∧
    tbl_workers (sq_db w') = tbl_workers (sq_db w) ∧ tbl_pieces (sq_db w') = tbl_pieces (sq_db w) ∧
    tbl_checksums (sq_db w') = tbl_checksums (sq_db w).
Proof.
  intros Hno. unfold sqlite_delete_task, delete_task_blocks, delete_where. eexists. split.
  - erewrite eff_bind_ok by (by apply execute_runs). by apply execute_runs.
  - by destruct (sq_db w).
Qed.

Section inserting.
Context {A B : Type} (table : database → list A) (put : list A → database → database) (Hput : table_of table put).
Context (same : A → A → bool) (columns : string) (row : B → nat → A) (R : B → A → Prop) (HR : ∀ b n, R b (row b n)).
Abbreviation insert_all := (for_each (λ b, insert fails table put same columns (row b))).

Lemma insert_all_ok l w w' :
  insert_all l w = (Ok tt, w') →
  ∃ rows, sq_db w' = put (table (sq_db w) ++ rows) (sq_db w) ∧ Forall2 R l rows.
Proof.
  destruct Hput as (Hget & Hputput & Hid). revert w. induction l as [|b l IH]; intros w; cbn [for_each].
  - intros [= <-]. exists []. by rewrite app_nil_r, Hid.
  - intros (u & w1 & E & E2)%eff_bind_inv. destruct u. apply IH in E2 as (rows & E2 & Hrows).
    apply execute_ok in E. destruct (existsb _ _); [done|]. injection E as E.
    exists (row b (sq_steps w) :: rows). split; [|by constructor].
    rewrite E2, <- E, Hget, Hputput, <- app_assoc. done.
Qed.

(** Rows with keys of their own can all be inserted. *)
Context {K : Type} (key : A → K) (bkey : B → K) (Hkey : ∀ b n, key (row b n) = bkey b).
Context (Hsame : ∀ r r', same r r' = true → key r = key r').
Lemma insert_all_runs l w :
  (∀ n, fails n = None) → NoDup (bkey <$> l) → (∀ b r, b ∈ l → r ∈ table (sq_db w) → bkey b ≠ key r) →
  ∃ w', insert_all l w = (Ok tt, w').
Proof.
  destruct Hput as (Hget & Hputput & Hid). intros Hf. revert w. induction l as [|b l IH]; intros w Hnd Hnew; cbn [for_each].
  { by eexists. }
  rewrite fmap_cons in Hnd. apply NoDup_cons in Hnd as [Hb Hnd].
  assert (existsb (same (row b (sq_steps w))) (table (sq_db w)) = false) as Hex.
  { apply not_true_is_false. intros (r & Hr%list_elem_of_In & Hs)%existsb_exists. apply Hsame in Hs.
    rewrite Hkey in Hs. by apply (Hnew b r); [left|..]. }
  assert (insert fails table put same columns (row b) w =
    (Ok tt, mk_sqlite (put (table (sq_db w) ++ [row b (sq_steps w)]) (sq_db w)) (S (sq_steps w)))) as E.
  { apply execute_runs; [done|]. by rewrite Hex. }
  rewrite (eff_bind_ok _ _ _ _ _ E). apply IH; [done|]. intros b' r Hb'. cbn. rewrite Hget, elem_of_app, list_elem_of_singleton.
  intros [Hr| ->]; [apply Hnew; [by right|done]|]. rewrite Hkey. intros Heq. apply Hb. rewrite <- Heq.
  by apply list_elem_of_fmap_2.
Qed.
End inserting.
End statement_facts.

(** ** Bundles are stored as a whole, or not at all *)

#[local] Instance sql_task_eta : Settable DBDownloadTask := λ t,
  mk_db_task (dt_id t) (dt_url t) (dt_spec_json t) (dt_source_set_json t) (dt_resolved_url t)
    (dt_entity_tag t) (dt_last_modified t) (dt_file_name t) (dt_file_path t) (dt_status t)
    (dt_downloaded_size t) (dt_total_size t) (dt_torrent_backend t) (dt_torrent_external_id t)
    (dt_torrent_state_json t) (dt_torrent_metadata_json t) (dt_torrent_resume_data t) (dt_created_at t)
    (dt_updated_at t).

Definition row_has_id (id : Z) (r : SqlTask) : bool := qt_id r =? id.
(** What is read of a task that was stored: the task, with the time of its creation as it was stored
    first. *)
Definition task_kept `{SqlTime} (t : DBDownloadTask) (old : option SqlTask) (row : SqlTask) : Prop :=
  ∃ c u, task_of_row row = t <| dt_created_at := c |> <| dt_updated_at := u |> ∧
    kept_time (dt_updated_at t) u ∧
    match old with
    | Some old => c = qt_created_at old ≫= parse_db_datetime
    | None => kept_time (dt_created_at t) c
    end.

Record bundle_stored `{SqlTime} (t : DBDownloadTask) (ws : list DBDownloadWorker) (ps : list DBDownloadPiece)
    (bs : list DBDownloadBlock) (cs : list DBDownloadChecksum) (db db' : database) : Prop := {
  stored_task : ∃ row, find_first (row_has_id (dt_id t)) (tbl_tasks db') = Some row ∧
    task_kept t (find_first (row_has_id (dt_id t)) (tbl_tasks db)) row;
  stored_other_tasks : filterb (λ r, negb (row_has_id (dt_id t) r)) (tbl_tasks db') =
    filterb (λ r, negb (row_has_id (dt_id t) r)) (tbl_tasks db);
  stored_workers : ∃ rows,
    tbl_workers db' = filterb (λ r, negb (qw_task_id r =? dt_id t)) (tbl_workers db) ++ rows ∧
    Forall2 (λ w r, ∃ i u, worker_of_row r = w <| dw_id := i |> <| dw_updated_at := u |> ∧
      kept_time (dw_updated_at w) u) ws rows;
  stored_pieces : ∃ rows,
    tbl_pieces db' = filterb (λ r, negb (qp_task_id r =? dt_id t)) (tbl_pieces db) ++ rows ∧
    Forall2 (λ p r, ∃ u, piece_of_row r = mk_db_piece (dp_task_id p) (dp_piece_index p) (dp_completed p) u ∧
      kept_time (dp_updated_at p) u) ps rows;
  stored_blocks : ∃ rows,
    tbl_blocks db' = filterb (λ r, negb (qb_task_id r =? dt_id t)) (tbl_blocks db) ++ rows ∧
    Forall2 (λ b r, ∃ u, block_of_row r =
        mk_db_block (db_task_id b) (db_piece_index b) (db_block_index b) (db_completed b) u ∧
      kept_time (db_updated_at b) u) bs rows;
  stored_checksums : ∃ rows,
    tbl_checksums db' = filterb (λ r, negb (qc_task_id r =? dt_id t)) (tbl_checksums db) ++ rows ∧
    Forall2 (λ c r, ∃ i, checksum_of_row r = c <| dc_id := i |>) cs rows
}.

Lemma find_update {A} (p : A → bool) x l :
  p x = true → find_first p (update_first p (λ _, x) l) = (λ _, x) <$> find_first p l.
Proof.
  intros Hx. induction l as [|y l IH]; [done|]. cbn. destruct (p y) eqn:E; cbn; [by rewrite Hx|by rewrite E].
Qed.
Lemma filterb_update {A} (p : A → bool) x l :
  p x = true → filterb (λ y, negb (p y)) (update_first p (λ _, x) l) = filterb (λ y, negb (p y)) l.
Proof.
  intros Hx. induction l as [|y l IH]; [done|]. cbn [update_first].
  destruct (p y) eqn:E; rewrite !filterb_cons, E; cbn; [by rewrite Hx|by f_equal].
Qed.
Lemma find_app_none {A} (p : A → bool) l x : find_first p l = None → p x = true → find_first p (l ++ [x]) = Some x.
Proof.
  intros Hl Hx. induction l as [|y l IH]; cbn in *; [by rewrite Hx|]. destruct (p y); [done|by apply IH].
Qed.

Lemma forall2_given {A B} {P : A → Prop} {Q : A → B → Prop} {l k} :
  Forall P l → Forall2 (λ x y, P x → Q x y) l k → Forall2 Q l k.
Proof. intros HP. induction 1; constructor; inversion_clear HP; auto. Qed.

Section bundles.
Context `{SqlTimeLaws} (fails : nat → option string) (strftime_now : nat → string) (rowid : nat → Z).

Lemma upsert_task_ok now t db db' :
  task_in_range t → upsert_task (row_of_task now t) db = Ok db' →
  (∃ row, find_first (row_has_id (dt_id t)) (tbl_tasks db') = Some row ∧
    task_kept t (find_first (row_has_id (dt_id t)) (tbl_tasks db)) row) ∧
  filterb (λ r, negb (row_has_id (dt_id t) r)) (tbl_tasks db') =
    filterb (λ r, negb (row_has_id (dt_id t) r)) (tbl_tasks db) ∧
  ∃ l, db' = put_tasks l db.
Proof.
  intros [Hd Ht]. unfold upsert_task. destruct (existsb _ _); [done|].
  change (λ r : SqlTask, qt_id r =? qt_id (row_of_task now t)) with (row_has_id (dt_id t)).
  assert (∀ c, row_has_id (dt_id t) (mk_sql_task (dt_id t) (dt_url t) (Some (dt_spec_json t))
    (Some (dt_source_set_json t)) (Some (dt_resolved_url t)) (Some (dt_entity_tag t))
    (Some (dt_last_modified t)) (dt_file_name t) (dt_file_path t) (dt_status t)
    (to_i64 (dt_downloaded_size t)) (to_i64 <$> dt_total_size t) (dt_torrent_backend t)
    (dt_torrent_external_id t) (dt_torrent_state_json t) (dt_torrent_metadata_json t)
    (dt_torrent_resume_data t) c (time_or now (dt_updated_at t))) = true) as Hid.
  { intros c. unfold row_has_id. cbn. apply Z.eqb_refl. }
  destruct (find_first (row_has_id (dt_id t)) (tbl_tasks db)) as [old|] eqn:Ef; intros E; injection E as <-.
  - split_and!; [|apply filterb_update, Hid|by eexists].
    eexists. split; [etransitivity; [apply (find_update (row_has_id (dt_id t))), Hid|]; by rewrite Ef|].
    exists (qt_created_at old ≫= parse_db_datetime), (time_or now (dt_updated_at t) ≫= parse_db_datetime).
    split_and!; [|apply time_or_kept|done].
    unfold task_of_row, update. cbn -[parse_db_datetime]. by rewrite wrap64_to_i64, wrap64_to_i64_opt.
  - split_and!; [| |by eexists].
    + eexists. split; [apply find_app_none; [exact Ef|apply Hid]|].
      exists (time_or now (dt_created_at t) ≫= parse_db_datetime), (time_or now (dt_updated_at t) ≫= parse_db_datetime).
      split_and!; [|apply time_or_kept..].
      unfold task_of_row, row_of_task, update. cbn -[parse_db_datetime]. by rewrite wrap64_to_i64, wrap64_to_i64_opt.
    + cbn [tbl_tasks put_tasks update database_eta]. unfold put_tasks, update. cbn [tbl_tasks].
      rewrite filterb_app, filterb_cons. specialize (Hid (time_or now (dt_created_at t))).
      unfold row_of_task. rewrite Hid. cbn. by rewrite app_nil_r.
Qed.

Lemma upsert_task_runs now t db :
  existsb (λ r, String.eqb (qt_url r) (dt_url t)) (filterb (λ r, negb (row_has_id (dt_id t) r)) (tbl_tasks db)) = false →
  ∃ l, upsert_task (row_of_task now t) db = Ok (put_tasks l db).
Proof.
  intros Hu. unfold upsert_task.
  change (existsb (λ r, String.eqb (qt_url r) (qt_url (row_of_task now t)))
    (filterb (λ r, negb (qt_id r =? qt_id (row_of_task now t))) (tbl_tasks db))) with
    (existsb (λ r, String.eqb (qt_url r) (dt_url t)) (filterb (λ r, negb (row_has_id (dt_id t) r)) (tbl_tasks db))).
  rewrite Hu. destruct (find_first _ _); by eexists.
Qed.

(** A transaction is committed, or changes nothing. *)
Lemma transaction_cases body w r w' :
  transaction fails body w = (r, w') →
  (∃ w1, body (mk_sqlite (sq_db w) (S (sq_steps w))) = (Ok tt, w1) ∧ r = Ok tt ∧ sq_db w' = sq_db w1) ∨
  (is_ok r = false ∧ sq_db w' = sq_db w).
Proof.
  unfold transaction. destruct (eff_bind _ _ w) as [[[]|e] w2] eqn:E; intros [= <- <-]; [left|by right].
  apply eff_bind_inv in E as (u0 & w0 & E0 & E). apply eff_bind_inv in E as ([] & w1 & E1 & E).
  exists w1. assert (w0 = mk_sqlite (sq_db w) (S (sq_steps w))) as ->.
  { unfold execute in E0. destruct (fails _); [done|]. by injection E0 as <- <-. }
  split_and!; [done..|]. apply execute_ok in E. by injection E.
Qed.

(** The rows of one kind, removed and inserted anew. *)
Lemma replaced_rows {A B} (table : database → list A) put p (same : A → A → bool) columns
    (row : B → nat → A) (R : B → A → Prop) l (k : eff sqlite_world unit) w w' :
  table_of table put → (∀ b n, R b (row b n)) →
  (delete_where fails table put p ;;; for_each (λ b, insert fails table put same columns (row b)) l ;;; k) w
    = (Ok tt, w') →
  ∃ rows w1, k w1 = (Ok tt, w') ∧ Forall2 R l rows ∧
    sq_db w1 = put (filterb (λ r, negb (p r)) (table (sq_db w)) ++ rows) (sq_db w).
Proof.
  intros (Hget & Hpp & Hid) HR (u & w0 & E0 & E)%eff_bind_inv. destruct u.
  apply eff_bind_inv in E as ([] & w1 & E1 & E). apply delete_where_ok in E0.
  apply (insert_all_ok fails table put (conj Hget (conj Hpp Hid)) same columns row R HR) in E1 as (rows & E1 & Hrows).
  exists rows, w1. split_and!; [done..|]. by rewrite E1, E0, Hget, Hpp.
Qed.

Lemma bundle_committed t ws ps bs cs w w' :
  task_in_range t → Forall worker_in_range ws → Forall piece_in_range ps → Forall block_in_range bs →
  sqlite_save_bundle fails strftime_now rowid t ws ps bs cs w = (Ok tt, w') →
  bundle_stored t ws ps bs cs (sq_db w) (sq_db w').
Proof.
  intros Ht Hws Hps Hbs E. apply transaction_cases in E as [(w1 & E & _ & ->)|[Hr _]]; [|done].
  apply eff_bind_inv in E as ([] & wa & Ea & E). apply execute_ok in Ea.
  apply (upsert_task_ok _ _ _ _ Ht) in Ea as (Htask & Hothers & lt & Ea). cbn [sq_db] in *.
  apply (replaced_rows _ _ _ _ _ _ (λ w r, worker_in_range w → ∃ i u,
    worker_of_row r = w <| dw_id := i |> <| dw_updated_at := u |> ∧ kept_time (dw_updated_at w) u) _ _ _ _ workers_table)
    in E as (rw & wb & E & Hrw & Eb).
  2: { intros b n Hb. destruct (worker_read_back (rowid n) (strftime_now n) b Hb) as (u & ? & ?). eauto. }
  apply (replaced_rows _ _ _ _ _ _ (λ p r, piece_in_range p → ∃ u,
    piece_of_row r = mk_db_piece (dp_task_id p) (dp_piece_index p) (dp_completed p) u ∧ kept_time (dp_updated_at p) u)
    _ _ _ _ pieces_table) in E as (rp & wc & E & Hrp & Ec).
  2: { intros b n Hb. destruct (piece_read_back (strftime_now n) b Hb) as (E1 & E2 & E3 & Hk).
       eexists. split; [|exact Hk]. revert E1 E2 E3. by destruct (piece_of_row _); cbn; intros -> -> ->. }
  apply (replaced_rows _ _ _ _ _ _ (λ b r, block_in_range b → ∃ u,
    block_of_row r = mk_db_block (db_task_id b) (db_piece_index b) (db_block_index b) (db_completed b) u ∧
    kept_time (db_updated_at b) u) _ _ _ _ blocks_table) in E as (rb & wd & E & Hrb & Ed).
  2: { intros b n Hb. destruct (block_read_back (strftime_now n) b Hb) as (E1 & E2 & E3 & E4 & Hk).
       eexists. split; [|exact Hk]. revert E1 E2 E3 E4. by destruct (block_of_row _); cbn; intros -> -> -> ->. }
  apply eff_bind_inv in E as ([] & we & Ee & E). apply delete_where_ok in Ee.
  apply (insert_all_ok fails _ _ checksums_table _ _ _ (λ c r, ∃ i, checksum_of_row r = c <| dc_id := i |>))
    in E as (rc & E & Hrc).
  2: { intros c n. exists (rowid n). apply checksum_read_back. }
  rewrite Ea in Htask, Hothers. rewrite E, Ee, Ed, Ec, Eb, Ea. split; cbn.
  - exact Htask.
  - exact Hothers.
  - exists rw. split; [done|]. exact (forall2_given Hws Hrw).
  - exists rp. split; [done|]. exact (forall2_given Hps Hrp).
  - exists rb. split; [done|]. exact (forall2_given Hbs Hrb).
  - exists rc. split; [done|exact Hrc].
Qed.

(** When nothing fails, the rows of a task can be put in the place of those it had. *)
Lemma replaced_runs {A B K} (table : database → list A) put (same : A → A → bool) columns
    (row : B → nat → A) (task : A → Z) (key : A → Z * K) (bkey : B → Z * K) id l (k : eff sqlite_world unit) w :
  table_of table put → (∀ n, fails n = None) → (∀ b n, key (row b n) = bkey b) →
  (∀ r r', same r r' = true → key r = key r') → (∀ r, (key r).1 = task r) →
  Forall (λ b, (bkey b).1 = id) l → NoDup (bkey <$> l) →
  ∃ w1, (delete_where fails table put (λ r, task r =? id) ;;;
         for_each (λ b, insert fails table put same columns (row b)) l ;;; k) w = k w1.
Proof.
  intros Htable Hf Hkey Hsame Htask Hl Hnd.
  assert (delete_where fails table put (λ r, task r =? id) w = (Ok tt, mk_sqlite
    (put (filterb (λ r, negb (task r =? id)) (table (sq_db w))) (sq_db w)) (S (sq_steps w)))) as E
    by (by apply execute_runs).
  rewrite (eff_bind_ok _ _ _ _ _ E).
  destruct (insert_all_runs fails table put Htable same columns row key bkey Hkey Hsame l
    (mk_sqlite (put (filterb (λ r, negb (task r =? id)) (table (sq_db w))) (sq_db w)) (S (sq_steps w))))
    as [w1 E1]; [done|done| |by exists w1; rewrite (eff_bind_ok _ _ _ _ _ E1)].
  intros b r Hb Hr Heq. cbn in Hr. destruct Htable as [Hget _]. rewrite Hget in Hr.
  apply elem_of_filterb in Hr as [_ Hr]. rewrite Forall_forall in Hl. specialize (Hl b Hb).
  apply (f_equal fst) in Heq. rewrite Htask, Hl in Heq. rewrite <- Heq, Z.eqb_refl in Hr. done.
Qed.

(** What a bundle needs to be stored: no other task has its URL, and its rows are those of the task,
    with indices of their own. *)
Definition url_free (t : DBDownloadTask) (db : database) : Prop :=
  existsb (λ r, String.eqb (qt_url r) (dt_url t)) (filterb (λ r, negb (row_has_id (dt_id t) r)) (tbl_tasks db)) = false.
Definition own_rows {A K} (key : A → Z * K) (id : Z) (l : list A) : Prop :=
  Forall (λ a, (key a).1 = id) l ∧ NoDup (key <$> l).
Definition block_place (b : DBDownloadBlock) : Z * (Z * Z) := (db_task_id b, (db_piece_index b, db_block_index b)).

(** The rows of a bundle, in the order of the code. *)
Definition put_bundle_rows (id : Z) (ws : list DBDownloadWorker) (ps : list DBDownloadPiece)
    (bs : list DBDownloadBlock) (cs : list DBDownloadChecksum) : eff sqlite_world unit :=
  delete_task_workers fails id ;;; for_each (insert_worker fails strftime_now rowid) ws ;;;
  delete_task_pieces fails id ;;; for_each (insert_piece fails strftime_now) ps ;;;
  delete_task_blocks fails id ;;; for_each (insert_block fails strftime_now) bs ;;;
  delete_task_checksums fails id ;;; for_each (insert_checksum fails rowid) cs.

Lemma checksums_run id cs w :
  (∀ n, fails n = None) → own_rows checksum_key id cs →
  ∃ w', (delete_task_checksums fails id ;;; for_each (insert_checksum fails rowid) cs) w = (Ok tt, w').
Proof.
  intros Hf [Hc Hcn]. destruct (replaced_runs tbl_checksums put_checksums same_checksum
    "download_checksums.task_id, download_checksums.algorithm" (λ c n, row_of_checksum (rowid n) c) qc_task_id
    (λ r, (qc_task_id r, qc_algorithm r)) checksum_key id cs (ret tt) w) as [w' E]; try done.
  - apply checksums_table.
  - intros r r' [H1%Z.eqb_eq H2%String.eqb_eq]%andb_true_iff. by rewrite H1, H2.
  - exists w'. change (Ok tt, w') with (ret (E:=Error) tt w'). rewrite <- E.
    unfold delete_task_checksums, insert_checksum, eff_bind, ret.
    destruct (delete_where _ _ _ _ w) as [[|] wd]; [|done]. by destruct (for_each _ cs wd) as [[[]|] we].
Qed.
Lemma rows_run id ws ps bs cs w :
  (∀ n, fails n = None) → own_rows worker_key id ws → own_rows piece_key id ps → own_rows block_place id bs →
  own_rows checksum_key id cs → ∃ w', put_bundle_rows id ws ps bs cs w = (Ok tt, w').
Proof.
  intros Hf [Hw Hwn] [Hp Hpn] [Hb Hbn] Hc. unfold put_bundle_rows, delete_task_workers, insert_worker.
  edestruct (replaced_runs tbl_workers put_workers same_worker "download_workers.task_id, download_workers.index"
    (λ x n, row_of_worker (rowid n) (strftime_now n) x) qw_task_id (λ r, (qw_task_id r, qw_index r)) worker_key
    id ws) as [wa ->]; try done; [apply workers_table| |].
  { intros r r' [H1%Z.eqb_eq H2%Z.eqb_eq]%andb_true_iff. by rewrite H1, H2. }
  unfold delete_task_pieces, insert_piece.
  edestruct (replaced_runs tbl_pieces put_pieces same_piece "download_pieces.task_id, download_pieces.piece_index"
    (λ x n, row_of_piece (strftime_now n) x) qp_task_id (λ r, (qp_task_id r, qp_piece_index r)) piece_key
    id ps) as [wb ->]; try done; [apply pieces_table| |].
  { intros r r' [H1%Z.eqb_eq H2%Z.eqb_eq]%andb_true_iff. by rewrite H1, H2. }
  unfold delete_task_blocks, insert_block.
  edestruct (replaced_runs tbl_blocks put_blocks same_block
    "download_blocks.task_id, download_blocks.piece_index, download_blocks.block_index"
    (λ x n, row_of_block (strftime_now n) x) qb_task_id (λ r, (qb_task_id r, (qb_piece_index r, qb_block_index r)))
    block_place id bs) as [wc ->]; try done; [apply blocks_table| |by apply checksums_run].
  intros r r' [[H1%Z.eqb_eq H2%Z.eqb_eq]%andb_true_iff H3%Z.eqb_eq]%andb_true_iff. by rewrite H1, H2, H3.
Qed.

Lemma bundle_runs t ws ps bs cs w :
  (∀ n, fails n = None) → url_free t (sq_db w) →
  own_rows worker_key (dt_id t) ws → own_rows piece_key (dt_id t) ps → own_rows block_place (dt_id t) bs →
  own_rows checksum_key (dt_id t) cs →
  is_ok (fst (sqlite_save_bundle fails strftime_now rowid t ws ps bs cs w)) = true.
Proof.
  intros Hf Hurl Hw Hp Hb Hc. unfold sqlite_save_bundle, transaction.
  assert (∀ w, execute fails (λ _ db, Ok db) w = (Ok tt, mk_sqlite (sq_db w) (S (sq_steps w)))) as Hno
    by (intros w1; by apply execute_runs).
  rewrite (eff_bind_ok _ _ _ _ _ (Hno w)).
  destruct (upsert_task_runs (strftime_now (S (sq_steps w))) t (sq_db w) Hurl) as [lt Et].
  assert (sqlite_save_task fails strftime_now t (mk_sqlite (sq_db w) (S (sq_steps w))) =
    (Ok tt, mk_sqlite (put_tasks lt (sq_db w)) (S (S (sq_steps w))))) as E1 by (by apply execute_runs).
  destruct (rows_run (dt_id t) ws ps bs cs (mk_sqlite (put_tasks lt (sq_db w)) (S (S (sq_steps w))))
    Hf Hw Hp Hb Hc) as [w2 E2].
  erewrite eff_bind_ok; [|rewrite (eff_bind_ok _ _ _ _ _ E1); exact E2]. by rewrite Hno.
Qed.

(** C8. A bundle is stored as a whole or not at all: whichever of its statements fails, an error
    leaves the database as it was; without an error the rows of the task are those of the bundle,
    whose integers and times are read back as they were (a task keeps the time of its creation), and
    the rows of other tasks are untouched. And it is stored when no statement fails, its rows have
    indices of their own, and no other task has its URL. *)
Theorem sqlite_bundle_spec t ws ps bs cs w :
  task_in_range t → Forall worker_in_range ws → Forall piece_in_range ps → Forall block_in_range bs →
  (∀ r w', sqlite_save_bundle fails strftime_now rowid t ws ps bs cs w = (r, w') →
     match r with
     | Ok _ => bundle_stored t ws ps bs cs (sq_db w) (sq_db w')
     | Err _ => sq_db w' = sq_db w
     end) ∧
  ((∀ n, fails n = None) → url_free t (sq_db w) →
   own_rows worker_key (dt_id t) ws → own_rows piece_key (dt_id t) ps → own_rows block_place (dt_id t) bs →
   own_rows checksum_key (dt_id t) cs →
   is_ok (fst (sqlite_save_bundle fails strftime_now rowid t ws ps bs cs w)) = true).
Proof.
  intros Ht Hws Hps Hbs. split; [|apply bundle_runs]. intros [[]|e] w' E; [by eapply bundle_committed|].
  apply transaction_cases in E as [(w1 & _ & Hr & _)|[_ ->]]; done.
Qed.
End bundles.

(** ** Example: a bundle that is stored, and one whose fifth statement fails *)

#[local] Instance bit_times : SqlTime := {
  to_rfc3339 d := bits (encode d);
  parse_from_rfc3339 s := decode (of_bits s);
  naive_parse _ := None
}.
#[local] Instance bit_times_laws : SqlTimeLaws.
Proof. intros d. cbn -[encode decode]. by rewrite of_bits_bits, decode_encode. Qed.

Definition example_db_task : DBDownloadTask :=
  mk_db_task 1 "http://h/f" "{}" "{}" "" "" "" "f" "/d/f" "Paused" 4 (Some 10) None None None None None
    (Some 7) (Some 8).
Definition example_db_pieces : list DBDownloadPiece := [mk_db_piece 1 0 true None; mk_db_piece 1 1 false None].
Definition empty_db : sqlite_world := mk_sqlite (mk_database [] [] [] [] []) 0.
Definition fifth_fails (n : nat) : option string := if bool_decide (n = 4%nat) then Some "disk I/O error" else None.

Lemma sqlite_bundle_spec_witness :
  let save f := sqlite_save_bundle f (λ _, "now") Z.of_nat example_db_task [] example_db_pieces [] [] empty_db in
  is_ok (fst (save (λ _, None))) = true ∧ sq_db (snd (save fifth_fails)) = sq_db empty_db.
Proof.
  assert (task_in_range example_db_task) as Ht by (split; cbn; unfold is_u64, u64_max; lia).
  assert (Forall piece_in_range example_db_pieces) as Hp.
  { constructor; [|constructor; [|constructor]]; unfold piece_in_range, is_u32, u32_max; cbn; lia. }
  assert (own_rows piece_key 1 example_db_pieces) as Hown.
  { split; [apply Forall_cons_2; [done|apply Forall_cons_2; [done|apply Forall_nil_2]]|].
    refine (bool_decide_unpack _ _). by vm_compute. }
  cbv zeta. split.
  - destruct (sqlite_bundle_spec (λ _, None) (λ _, "now") Z.of_nat example_db_task [] example_db_pieces [] [] empty_db
      Ht (Forall_nil_2 _) Hp (Forall_nil_2 _)) as [_ Hruns].
    by apply Hruns; try exact Hown; try (split; [apply Forall_nil_2|apply NoDup_nil_2]).
  - destruct (sqlite_save_bundle fifth_fails (λ _, "now") Z.of_nat example_db_task [] example_db_pieces [] [] empty_db)
      as [r w'] eqn:E.
    assert (is_ok r = false) as Hr by (change r with (fst (r, w')); rewrite <- E; by vm_compute).
    destruct (sqlite_bundle_spec fifth_fails (λ _, "now") Z.of_nat example_db_task [] example_db_pieces [] [] empty_db
      Ht (Forall_nil_2 _) Hp (Forall_nil_2 _)) as [Hall _].
    specialize (Hall r w' E). by destruct r.
Defined.
