(* ===== verification/Storage.v ===== *)
(** * The choice of a backend ([src/src/storage/mod.rs], [src/src/config.rs])

    The program holds its repository as a trait object.  Here it is the sum of
    the backends, whose operations are those of the backend it is made of, so
    that what is proved of a store over one backend holds of the store that a
    configuration asks for. *)

From S2P Require Import Prelude Text Status Effect Source Piece Files Checksum Manifest Planner Torrent Config Task Mapping Repository Memory JsonStore Backends Store Sqlite.

(** [Arc<dyn Repository>] *)
Inductive storage :=
  | SMemory (repository : MemoryRepository)
  | SJsonFile (repository : json_world)
  | SSqlite (repository : sqlite_world).

Section storage.
Context `{SqlTime} `{Json JsonRepositoryState}.
Context (serialize_error : string) (parse_error : string → string)
  (fails : nat → option string) (strftime_now : nat → string) (rowid : nat → Z).
#[local] Instance configured_json : Repository json_world := json_repository serialize_error.
#[local] Instance configured_sqlite : Repository sqlite_world := sqlite_repository fails strftime_now rowid.

Definition on_backend {S A} (put : S → storage) (m : eff S A) (s : S) : result A Error * storage :=
  let '(r, s) := m s in (r, put s).

(** A call through the trait object. *)
Definition call {A} (memory : eff MemoryRepository A) (json : eff json_world A) (sqlite : eff sqlite_world A)
    : eff storage A := λ s,
  match s with
  | SMemory r => on_backend SMemory memory r
  | SJsonFile w => on_backend SJsonFile json w
  | SSqlite w => on_backend SSqlite sqlite w
  end.

#[export] Instance storage_repository : Repository storage := {
  load_tasks := call load_tasks load_tasks load_tasks;
  load_task i := call (load_task i) (load_task i) (load_task i);
  save_task t := call (save_task t) (save_task t) (save_task t);
  delete_task i := call (delete_task i) (delete_task i) (delete_task i);
  save_bundle t ws ps bs cs :=
    call (save_bundle t ws ps bs cs) (save_bundle t ws ps bs cs) (save_bundle t ws ps bs cs);
  load_workers i := call (load_workers i) (load_workers i) (load_workers i);
  load_worker i := call (load_worker i) (load_worker i) (load_worker i);
  save_worker w := call (save_worker w) (save_worker w) (save_worker w);
  delete_workers i := call (delete_workers i) (delete_workers i) (delete_workers i);
  load_pieces i := call (load_pieces i) (load_pieces i) (load_pieces i);
  save_pieces i l := call (save_pieces i l) (save_pieces i l) (save_pieces i l);
  delete_pieces i := call (delete_pieces i) (delete_pieces i) (delete_pieces i);
  load_blocks i := call (load_blocks i) (load_blocks i) (load_blocks i);
  save_blocks i l := call (save_blocks i l) (save_blocks i l) (save_blocks i l);
  delete_blocks i := call (delete_blocks i) (delete_blocks i) (delete_blocks i);
  load_checksums i := call (load_checksums i) (load_checksums i) (load_checksums i);
  load_checksum i := call (load_checksum i) (load_checksum i) (load_checksum i);
  save_checksum c := call (save_checksum c) (save_checksum c) (save_checksum c);
  delete_checksums i := call (delete_checksums i) (delete_checksums i) (delete_checksums i)
}.

(** The directory the program runs in, the schema and the rows in the file of a database. *)
Context (current_dir : result string io_error) (connect : string → fs → result schema string)
  (rows : fs → string → database).

(** [src/src/storage/mod.rs:42-50], [Store::new]. *)
Definition store_new (config : Config) : eff fs storage :=
  match storage_backend config with
  | BMemory => ret (SMemory memory_new)
  | BJsonFile path => λ f,
      let '(r, f) := json_new parse_error path f in
      match r with
      | Ok state => (Ok (SJsonFile (mk_json_world path state f)), f)
      | Err err => (Err err, f)
      end
  | BSqlite path => λ f,
      let '(r, o) := sqlite_new fails current_dir connect path (mk_opening f ∅ 0) in
      match r with
      | Ok _ => (Ok (SSqlite (mk_sqlite (rows (og_fs o) path) (og_steps o))), og_fs o)
      | Err err => (Err err, og_fs o)
      end
  end.

(** ** A store over the chosen backend is a store over that backend *)

(** [m'] does on [put s] what [m] does on [s]. *)
Definition lifts {S A} (put : S → storage) (m : eff S A) (m' : eff storage A) : Prop :=
  ∀ s, m' (put s) = on_backend put m s.

Lemma lifts_ret {S A} (put : S → storage) (a : A) : lifts put (ret a) (ret a).
Proof. done. Qed.
Lemma lifts_bind {S A B} (put : S → storage) (m : eff S A) m' (k : A → eff S B) k' :
  lifts put m m' → (∀ a, lifts put (k a) (k' a)) → lifts put (eff_bind m k) (eff_bind m' k').
Proof.
  intros Hm Hk s. specialize (Hm s). unfold eff_bind, on_backend in *. rewrite Hm.
  destruct (m s) as [[a|e] s1]; [apply Hk|done].
Qed.
Lemma lifts_for_each {S A} (put : S → storage) (f : A → eff S unit) f' l :
  (∀ a, lifts put (f a) (f' a)) → lifts put (for_each f l) (for_each f' l).
Proof. intros Hf. induction l as [|a l IH]; [apply lifts_ret|]. by apply lifts_bind. Qed.
Lemma lifts_map_each {S A B} (put : S → storage) (f : A → eff S B) f' l :
  (∀ a, lifts put (f a) (f' a)) → lifts put (map_each f l) (map_each f' l).
Proof.
  intros Hf. induction l as [|a l IH]; [apply lifts_ret|].
  apply lifts_bind; [done|]. intros b. by apply lifts_bind.
Qed.

(** Every operation of the trait object is that of the backend. *)
Record backend_of {S} `{Repository S} (put : S → storage) : Prop := {
  of_load_tasks : lifts put load_tasks load_tasks;
  of_load_task i : lifts put (load_task i) (load_task i);
  of_save_task t : lifts put (save_task t) (save_task t);
  of_delete_task i : lifts put (delete_task i) (delete_task i);
  of_save_bundle t ws ps bs cs : lifts put (save_bundle t ws ps bs cs) (save_bundle t ws ps bs cs);
  of_load_workers i : lifts put (load_workers i) (load_workers i);
  of_save_worker w : lifts put (save_worker w) (save_worker w);
  of_load_pieces i : lifts put (load_pieces i) (load_pieces i);
  of_delete_pieces i : lifts put (delete_pieces i) (delete_pieces i);
  of_load_blocks i : lifts put (load_blocks i) (load_blocks i);
  of_delete_blocks i : lifts put (delete_blocks i) (delete_blocks i);
  of_load_checksums i : lifts put (load_checksums i) (load_checksums i)
}.

Lemma memory_backend : backend_of SMemory.
Proof. by split. Qed.
Lemma json_backend : backend_of SJsonFile.
Proof. by split. Qed.
Lemma sqlite_backend : backend_of SSqlite.
Proof. by split. Qed.

Section store.
Context `{UrlLib} `{Json DownloadSpec} `{Json SourceSet} `{Json TorrentEngineState}
  `{Json TorrentMetadata}.
Context {S : Type} `{Repository S} (put : S → storage) (Hput : backend_of put).

Lemma lifts_store_save_task task : lifts put (store_save_task task) (store_save_task task).
Proof. apply Hput. Qed.
Lemma lifts_store_delete_task id : lifts put (store_delete_task id) (store_delete_task id).
Proof. apply lifts_bind; [apply Hput|]. intros _. apply lifts_bind; [apply Hput|]. intros _. apply Hput. Qed.
Lemma lifts_load_task_bundles : lifts put load_task_bundles load_task_bundles.
Proof.
  apply lifts_bind; [apply Hput|]. intros tasks. apply lifts_map_each. intros t. unfold load_bundle.
  apply lifts_bind; [apply Hput|]. intros ws. apply lifts_bind; [apply Hput|]. intros ps.
  apply lifts_bind; [apply Hput|]. intros bs. apply lifts_bind; [apply Hput|]. intros cs. apply lifts_ret.
Qed.
End store.
End storage.
