(* ===== verification/Startup.v ===== *)
(** * Starting up ([src/src/config.rs], [src/src/runtime.rs], [src/src/p2p/libtorrent.rs])

    Where a configuration comes from, the HTTP client that is built of it, and
    the engine that stands in where no torrent engine is there. *)

From S2P Require Import Prelude Text Float Status Effect Source Piece Files Checksum Manifest Planner Payload Torrent Config Task Session Probe Job Coordinator System Magnet TorrentJob.

(** ** Configuration files *)

(** [src/src/config.rs:311-328], [ConfigLoadError]. The errors of the TOML parser are their texts. *)
Inductive ConfigLoadError :=
  | LoadReadFile (path : string) (source : io_error)
  | LoadParseFile (path source : string)
  | LoadParse (source : string)
  | LoadConfig (err : ConfigError).
(** [src/src/config.rs:310-328], [ConfigLoadError (display)]. *)
Definition ConfigLoadError_display (e : ConfigLoadError) : string :=
  match e with
  | LoadReadFile path source =>
      "Failed to read config file '" +:+ path +:+ "': " +:+ io_error_to_string source
  | LoadParseFile path source => "Failed to parse config file '" +:+ path +:+ "': " +:+ source
  | LoadParse source => "Failed to parse config: " +:+ source
  | LoadConfig err => ConfigError_display err
  end.
(** [src/src/error.rs:108-112], [From::from]. *)
Definition error_of_load (err : ConfigLoadError) : Error := EConfigError (ConfigLoadError_display err).

Section files.
(** [toml::from_str] *)
Context (toml_from_str : string → result ConfigFile string).

(** [src/src/config.rs:533-535], [Config::parse_toml_document]. *)
Definition parse_toml_document (content : string) : result ConfigFile string := toml_from_str content.
(** [src/src/config.rs:367-380], [Config::from_file]. *)
Definition from_file (f : fs) (path : string) : result Config ConfigLoadError :=
  let? content := result_map_err (LoadReadFile path) (fs_read_to_string f path) in
  let? file := result_map_err (LoadParseFile path) (parse_toml_document content) in
  result_map_err LoadConfig (into_config file).
(** [src/src/config.rs:382-384], [Config::from_toml_str]. *)
Definition from_toml_str (content : string) : result Config ConfigLoadError :=
  let? file := result_map_err LoadParse (parse_toml_document content) in
  result_map_err LoadConfig (into_config file).
(** [src/src/config.rs:541-543], [Config::from_str]. *)
Definition Config_from_str (s : string) : result Config ConfigLoadError := from_toml_str s.

(** Whatever a file says, a configuration that is read from it is valid. *)
Lemma from_file_valid f path c : from_file f path = Ok c → config_valid c.
Proof.
  unfold from_file, into_config. intros Hc.
  destruct (fs_read_to_string f path) as [content|]; cbn in Hc; [|done].
  destruct (parse_toml_document content) as [file|]; cbn in Hc; [|done].
  destruct (validate_schema_version (schema_version file)) as [[]|]; cbn in Hc; [|done].
  destruct (validate (file_config file)) as [[]|] eqn:E; cbn in Hc; [|done].
  injection Hc as <-. by apply validate_spec.
Qed.
End files.

(** ** The builder *)

(** [src/src/config.rs:195-199], [ConfigBuilder::new]. *)
Definition ConfigBuilder_new : Config := Config_default.
(** [src/src/config.rs:201-204], [ConfigBuilder::download_dir]. *)
Definition with_download_dir (dir : string) (b : Config) : Config := b <| download_dir := dir |>.
(** [src/src/config.rs:206-209], [ConfigBuilder::shuffle_tasks]. *)
Definition with_shuffle_tasks (enable : bool) (b : Config) : Config := b <| shuffle_tasks := enable |>.
(** [src/src/config.rs:211-214], [ConfigBuilder::concurrent_tasks]. *)
Definition with_concurrent_tasks (n : Z) (b : Config) : Config := b <| concurrent_tasks := n |>.
(** [src/src/config.rs:216-219], [ConfigBuilder::segments_per_task]. *)
Definition with_segments_per_task (n : Z) (b : Config) : Config := b <| segments_per_task := n |>.
(** [src/src/config.rs:221-224], [ConfigBuilder::retry]. *)
Definition with_retry (retry_ : RetryConfig) (b : Config) : Config := b <| retry := retry_ |>.
(** [src/src/config.rs:226-229], [ConfigBuilder::rate_limit_kib_per_sec]. *)
Definition with_rate_limit_kib_per_sec (kib_per_sec : option Z) (b : Config) : Config := b <| rate_limit_kib_per_sec := kib_per_sec |>.
(** [src/src/config.rs:231-234], [ConfigBuilder::connect_timeout_secs]. *)
Definition with_connect_timeout_secs (secs : Z) (b : Config) : Config := b <| connect_timeout_secs := secs |>.
(** [src/src/config.rs:236-239], [ConfigBuilder::storage_backend]. *)
Definition with_storage_backend (backend : Backend) (b : Config) : Config := b <| storage_backend := backend |>.
(** [src/src/config.rs:241-244], [ConfigBuilder::progress_throttle]. *)
Definition with_progress_throttle (cfg : ProgressThrottleConfig) (b : Config) : Config := b <| progress_throttle := cfg |>.
(** [src/src/config.rs:246-249], [ConfigBuilder::file_conflict_strategy]. *)
Definition with_file_conflict_strategy (strategy : FileConflictStrategy) (b : Config) : Config := b <| file_conflict_strategy := strategy |>.
(** [src/src/config.rs:251-254], [ConfigBuilder::log_level]. *)
Definition with_log_level (log_level_ : LogLevel) (b : Config) : Config := b <| log_level := log_level_ |>.
(** [src/src/config.rs:256-259], [ConfigBuilder::completion_hook]. *)
Definition with_completion_hook (command : string) (b : Config) : Config := b <| completion_hook := Some command |>.
(** [src/src/config.rs:261-264], [ConfigBuilder::http]. *)
Definition with_http (http_ : HttpConfig) (b : Config) : Config := b <| http := http_ |>.
(** [src/src/config.rs:266-269], [ConfigBuilder::p2p]. *)
Definition with_p2p (p2p_ : P2pConfig) (b : Config) : Config := b <| p2p := p2p_ |>.
(** [src/src/config.rs:272-275], [ConfigBuilder::build]. *)
Definition builder_build (b : Config) : result Config ConfigError := build b.

(** ** The HTTP client *)

(** What the program sets of [reqwest::ClientBuilder], in order. A proxy may have a list of hosts that
    are reached without it. *)
Inductive ClientSetting :=
  | SetConnectTimeout (secs : Z)
  | SetPoolMaxIdlePerHost (n : Z)
  | SetPoolIdleTimeout (secs : Z)
  | SetGzip (enable : bool)
  | SetNoProxy
  | SetHttpProxy (url : string) (no_proxy : option string)
  | SetHttpsProxy (url : string) (no_proxy : option string)
  | SetCookieProvider (store : bytes)
  | SetAcceptInvalidCerts (accept : bool)
  | SetRootCertificate (pem : bytes)
  | SetRustls
  | SetIdentity (pem : bytes).
Abbreviation ClientBuilder := (list ClientSetting).

(** What reqwest and the cookie store make of texts: whether they are accepted, or the error; the
    cookies that a text holds, as the text that they are written as; and whether the client can be
    built. *)
Class ClientLib := {
  proxy_url_error : string → option string;
  certificate_error : bytes → option string;
  identity_error : bytes → option string;
  no_cookies : bytes;
  load_json : bytes → result bytes string;
  client_error : ClientBuilder → option string
}.

Section client.
Context `{ClientLib}.

Definition accepted (words : string) (error : option string) : res unit :=
  match error with Some err => Err (EOther (words +:+ ": " +:+ err)) | None => Ok tt end.
Definition read_file (words : string) (f : fs) (path : string) : res bytes :=
  result_map_err (λ err, EOther (words +:+ " '" +:+ path +:+ "': " +:+ io_error_to_string err)) (fs_read f path).

(** [src/src/runtime.rs:129-156], [apply_proxy_options]. *)
Definition apply_proxy_options (builder : ClientBuilder) (p : ProxyOptions) : res ClientBuilder :=
  let builder := if negb (use_env_proxy p) then builder ++ [SetNoProxy] else builder in
  let? builder := match http_proxy p with
    | Some url =>
        let? _ := accepted ("Invalid HTTP proxy '" +:+ url +:+ "'") (proxy_url_error url) in
        Ok (builder ++ [SetHttpProxy url (no_proxy p)])
    | None => Ok builder
    end in
  match https_proxy p with
  | Some url =>
      let? _ := accepted ("Invalid HTTPS proxy '" +:+ url +:+ "'") (proxy_url_error url) in
      Ok (builder ++ [SetHttpsProxy url (no_proxy p)])
  | None => Ok builder
  end.

(** [src/src/runtime.rs:225-247], [load_cookie_store]. *)
Definition load_cookie_store (f : fs) (path : option string) : res bytes :=
  match path with
  | None => Ok no_cookies
  | Some path =>
      if negb (fs_exists f path) then Ok no_cookies
      else
        let? text := read_file "Failed to open cookie jar" f path in
        result_map_err (λ err, EOther ("Failed to parse cookie jar '" +:+ path +:+ "': " +:+ err)) (load_json text)
  end.
(** [src/src/runtime.rs:158-179], [apply_cookie_store]. *)
Definition apply_cookie_store (f : fs) (builder : ClientBuilder) (config : Config)
    : res (ClientBuilder * option HttpSessionState) :=
  let client := http_client (http config) in
  if negb (Config.cookie_store client) then Ok (builder, None)
  else
    let? store := load_cookie_store f (Config.cookie_jar_path client) in
    let session_state := (λ path, mk_session_state path (Ok store)) <$> Config.cookie_jar_path client in
    Ok (builder ++ [SetCookieProvider store], session_state).

(** [src/src/runtime.rs:181-223], [apply_tls_options]. *)
Definition apply_tls_options (f : fs) (builder : ClientBuilder) (t : TlsOptions) : res ClientBuilder :=
  let builder := if insecure_skip_verify t then builder ++ [SetAcceptInvalidCerts true] else builder in
  let? builder := match ca_certificate_pem t with
    | Some path =>
        let? pem := read_file "Failed to read CA certificate PEM" f path in
        let? _ := accepted ("Invalid CA certificate PEM '" +:+ path +:+ "'") (certificate_error pem) in
        Ok (builder ++ [SetRootCertificate pem])
    | None => Ok builder
    end in
  match client_identity_pem t with
  | Some path =>
      let builder := builder ++ [SetRustls] in
      let? pem := read_file "Failed to read client identity PEM" f path in
      let? _ := accepted ("Invalid client identity PEM '" +:+ path +:+ "'") (identity_error pem) in
      Ok (builder ++ [SetIdentity pem])
  | None => Ok builder
  end.

(** [src/src/runtime.rs:16-19], [BuiltHttpClient]. *)
Record BuiltHttpClient := mk_built { bc_client : ClientBuilder; bc_session_state : option HttpSessionState }.
(** [src/src/runtime.rs:76-96], [build_http_client]. *)
Definition build_http_client (f : fs) (config : Config) : res BuiltHttpClient :=
  let builder := [SetConnectTimeout (connect_timeout_secs config); SetPoolMaxIdlePerHost 50;
    SetPoolIdleTimeout 60; SetGzip true] in
  let? builder := apply_proxy_options builder (proxy (http_client (http config))) in
  let? built := apply_cookie_store f builder config in
  let '(builder, session_state) := built in
  let? builder := apply_tls_options f builder (tls (http_client (http config))) in
  let? _ := accepted "Failed to build HTTP client" (client_error builder) in
  Ok (mk_built builder session_state).

(** ** What the client is built with *)

Definition proxy_setting (s : ClientSetting) : bool :=
  match s with SetNoProxy | SetHttpProxy _ _ | SetHttpsProxy _ _ => true | _ => false end.
Definition tls_setting (s : ClientSetting) : bool :=
  match s with SetAcceptInvalidCerts _ | SetRootCertificate _ | SetRustls | SetIdentity _ => true | _ => false end.

(** The settings that say how far a server is trusted. *)
Definition proxies_of (p : ProxyOptions) : ClientBuilder :=
  (if use_env_proxy p then [] else [SetNoProxy]) ++
  match http_proxy p with Some url => [SetHttpProxy url (no_proxy p)] | None => [] end ++
  match https_proxy p with Some url => [SetHttpsProxy url (no_proxy p)] | None => [] end.
Lemma proxy_options builder p b : apply_proxy_options builder p = Ok b → b = builder ++ proxies_of p.
Proof.
  unfold apply_proxy_options, proxies_of, accepted. intros Hb.
  destruct (use_env_proxy p); cbn [negb] in Hb; destruct (http_proxy p) as [u|];
    cbn in Hb; [destruct (proxy_url_error u); cbn in Hb; [done|]| |destruct (proxy_url_error u); cbn in Hb; [done|]|];
    (destruct (https_proxy p) as [v|]; [destruct (proxy_url_error v); cbn in Hb; [done|]|]);
    injection Hb as <-; by rewrite <- ?app_assoc, ?app_nil_r.
Qed.

(** The certificates and the identity of the configuration, as they are in the files. *)
Definition tls_of (f : fs) (t : TlsOptions) (l : ClientBuilder) : Prop :=
  ∃ ca identity,
    l = (if insecure_skip_verify t then [SetAcceptInvalidCerts true] else []) ++ ca ++ identity ∧
    match ca_certificate_pem t with
    | Some path => ∃ pem, fs_read f path = Ok pem ∧ certificate_error pem = None ∧ ca = [SetRootCertificate pem]
    | None => ca = []
    end ∧
    match client_identity_pem t with
    | Some path => ∃ pem, fs_read f path = Ok pem ∧ identity_error pem = None ∧ identity = [SetRustls; SetIdentity pem]
    | None => identity = []
    end.

Lemma read_file_ok words f path b : read_file words f path = Ok b → fs_read f path = Ok b.
Proof. unfold read_file. by destruct (fs_read f path); [intros [= ->]|]. Qed.
Lemma accepted_ok words error : accepted words error = Ok tt → error = None.
Proof. by destruct error. Qed.

Lemma tls_options f builder t b : apply_tls_options f builder t = Ok b → ∃ l, b = builder ++ l ∧ tls_of f t l.
Proof.
  unfold apply_tls_options, tls_of. set (start := if insecure_skip_verify t then _ else builder).
  assert (start = builder ++ if insecure_skip_verify t then [SetAcceptInvalidCerts true] else []) as ->.
  { unfold start. destruct (insecure_skip_verify t); by rewrite ?app_nil_r. }
  set (first := if insecure_skip_verify t then _ else _). intros Hb.
  apply result_bind_Ok in Hb as (b1 & Hca & Hid).
  assert (∃ ca, b1 = builder ++ first ++ ca ∧
    match ca_certificate_pem t with
    | Some path => ∃ pem, fs_read f path = Ok pem ∧ certificate_error pem = None ∧ ca = [SetRootCertificate pem]
    | None => ca = []
    end) as (ca & -> & Hca').
  { destruct (ca_certificate_pem t) as [path|].
    - apply result_bind_Ok in Hca as (pem & Hr%read_file_ok & Hca).
      apply result_bind_Ok in Hca as ([] & Ha%accepted_ok & [= <-]).
      exists [SetRootCertificate pem]. rewrite <- app_assoc. eauto.
    - injection Hca as <-. exists []. by rewrite app_nil_r. }
  destruct (client_identity_pem t) as [path|].
  - apply result_bind_Ok in Hid as (pem & Hr%read_file_ok & Hid).
    apply result_bind_Ok in Hid as ([] & Ha%accepted_ok & [= <-]).
    exists (first ++ ca ++ [SetRustls; SetIdentity pem]). rewrite <- !app_assoc. split; [done|].
    exists ca, [SetRustls; SetIdentity pem]. eauto 6.
  - injection Hid as <-. exists (first ++ ca). split; [done|]. exists ca, []. by rewrite app_nil_r.
Qed.

(** The client is built with the proxies, the cookies, the certificates and the identity that the
    configuration names, and with nothing else; it trusts servers without a valid certificate only
    where the configuration says so. *)
Lemma client_settings f config built : build_http_client f config = Ok built →
  ∃ cookies tls_,
    bc_client built =
      [SetConnectTimeout (connect_timeout_secs config); SetPoolMaxIdlePerHost 50; SetPoolIdleTimeout 60;
       SetGzip true] ++ proxies_of (proxy (http_client (http config))) ++ cookies ++ tls_ ∧
    (cookies = [] ↔ Config.cookie_store (http_client (http config)) = false) ∧
    Forall (λ s, ∃ store, s = SetCookieProvider store) cookies ∧
    tls_of f (tls (http_client (http config))) tls_ ∧
    client_error (bc_client built) = None.
Proof.
  unfold build_http_client. intros Hb. apply result_bind_Ok in Hb as (b1 & ->%proxy_options & Hb).
  apply result_bind_Ok in Hb as ([b2 session] & Hc & Hb).
  apply result_bind_Ok in Hb as (b3 & (l & -> & Hl)%tls_options & Hb).
  apply result_bind_Ok in Hb as ([] & He%accepted_ok & [= <-]). cbn [bc_client].
  unfold apply_cookie_store in Hc.
  destruct (Config.cookie_store (http_client (http config))); cbn [negb] in Hc.
  - apply result_bind_Ok in Hc as (store & _ & [= <- <-]).
    exists [SetCookieProvider store], l. split; [cbn [app]; by rewrite <- ?app_assoc|].
    split; [done|]. split; [constructor; [by exists store|constructor]|done].
  - injection Hc as <- <-. exists [], l. split; [cbn [app]; by rewrite <- ?app_assoc|]. by repeat split.
Qed.

(** [Hin] says that something is in a list of other things. *)
Ltac not_in Hin := rewrite list_elem_of_In in Hin; cbn in Hin; intuition discriminate.

Lemma invalid_certificates_accepted f config built : build_http_client f config = Ok built →
  SetAcceptInvalidCerts true ∈ bc_client built ↔ insecure_skip_verify (tls (http_client (http config))) = true.
Proof.
  intros (cookies & l & -> & _ & Hck & (ca & identity & -> & Hca & Hid) & _)%client_settings.
  rewrite !elem_of_app. split.
  - intros Hin. apply not_false_is_true. intros Hf. rewrite Hf in Hin.
    destruct Hin as [Hin|[Hin|[Hin|[Hin|[Hin|Hin]]]]].
    + not_in Hin.
    + unfold proxies_of in Hin. repeat case_match; not_in Hin.
    + rewrite Forall_forall in Hck. by destruct (Hck _ Hin).
    + not_in Hin.
    + destruct (ca_certificate_pem _); [destruct Hca as (? & _ & _ & ->)|subst]; not_in Hin.
    + destruct (client_identity_pem _); [destruct Hid as (? & _ & _ & ->)|subst]; not_in Hin.
  - intros ->. rewrite list_elem_of_singleton. tauto.
Qed.
End client.

(** ** The engine that is not there *)

(** [src/src/p2p/libtorrent.rs:48-50], [LibtorrentEngineUnavailable]. *)
Record LibtorrentEngineUnavailable := mk_unavailable { lu_config : LibtorrentEngineConfig }.
(** [src/src/p2p/libtorrent.rs:58-60], [default_libtorrent_engine]. *)
Definition default_libtorrent_engine (config : LibtorrentEngineConfig) : LibtorrentEngineUnavailable :=
  mk_unavailable config.
(** [src/src/p2p/libtorrent.rs:68-70], [LibtorrentEngineUnavailable::capabilities]. *)
Definition unavailable_capabilities (e : LibtorrentEngineUnavailable) : TorrentEngineCapabilities :=
  libtorrent_unavailable.
(** [src/src/p2p/libtorrent.rs:72-81], [LibtorrentEngineUnavailable::start_session]. *)
Definition unavailable_start_session (request : TorrentEngineRequest)
    : eff LibtorrentEngineUnavailable TorrentEngineSession :=
  throw (EUnsupportedProtocol (spec_scheme (rq_spec request) +:+
    " requires a libtorrent engine adapter; build or inject the paradown libtorrent adapter before starting session "
    +:+ show_u64 (rq_session_id request))).
(** [src/src/p2p/libtorrent.rs:87-92], [LibtorrentEngineUnavailable::resume_session]. *)
Definition unavailable_resume_session (handle : TorrentEngineHandle) : eff LibtorrentEngineUnavailable unit :=
  throw (EUnsupportedProtocol ("libtorrent engine adapter is not configured for session " +:+ th_external_id handle)).
(** [src/src/p2p/libtorrent.rs:62-105], [impl TorrentEngine for LibtorrentEngineUnavailable]. *)
#[export] Instance unavailable_engine : TorrentEngine LibtorrentEngineUnavailable := {
  pause_session _ := ret tt;
  resume_session := unavailable_resume_session;
  cancel_session _ := ret tt;
  remove_session _ _ := ret tt
}.
#[export] Instance unavailable_sessions : TorrentSessions LibtorrentEngineUnavailable :=
  {| start_session := unavailable_start_session |}.
