(* ===== verification/Commands.v ===== *)
(** * The interactive commands ([src/src/cli_app/commands.rs])

    What is typed while the program runs, and what it means. *)

From S2P Require Import Prelude Text Float Status Effect Config.

(** [src/src/cli_app/commands.rs:4-7], [CommandTarget]. *)
Inductive CommandTarget := TargetAll | TargetTasks (ids : list Z).
(** [src/src/cli_app/commands.rs:25-37], [StatusFilter]. *)
Inductive StatusFilter :=
  | FilterAll
  | FilterPending
  | FilterPreparing
  | FilterRunning
  | FilterPaused
  | FilterCompleted
  | FilterFailed
  | FilterCanceled
  | FilterDeleted
  | FilterActive
  | FilterTerminal.
(** [src/src/cli_app/commands.rs:10-22], [Command]. *)
Inductive Command :=
  | CmdHelp
  | CmdStatus (target : CommandTarget)
  | CmdList (filter : StatusFilter)
  | CmdHistory (filter : StatusFilter)
  | CmdShow (task_id : Z)
  | CmdPause (target : CommandTarget)
  | CmdResume (target : CommandTarget)
  | CmdRetry (target : CommandTarget)
  | CmdCancel (target : CommandTarget)
  | CmdDelete (target : CommandTarget)
  | CmdSetRateLimit (limit : option Z).

(** [parse::<u32>] *)
Definition parse_u32 : string → result Z ParseIntError := parse_uint u32_max.

(** [src/src/cli_app/commands.rs:104-109], [parse_target (for loop)]. *)
Fixpoint parse_ids (arguments : list string) : result (list Z) string :=
  match arguments with
  | [] => Ok []
  | argument :: arguments =>
      match parse_u32 argument with
      | Ok id => let? ids := parse_ids arguments in Ok (id :: ids)
      | Err _ => Err ("Expected task ids or 'all', got '" +:+ argument +:+ "'")
      end
  end.
(** [src/src/cli_app/commands.rs:90-116], [parse_target]. *)
Definition parse_target (arguments : list string) (default_all : bool) : result CommandTarget string :=
  match arguments with
  | [] => if default_all then Ok TargetAll else Err "Expected at least one task id or 'all'"
  | _ =>
      if bool_decide (arguments = ["all"]) then Ok TargetAll
      else
        let? ids := parse_ids arguments in
        if (bool_decide (ids = []) && default_all)%bool then Ok TargetAll else Ok (TargetTasks ids)
  end.

(** [src/src/cli_app/commands.rs:118-139], [parse_status_filter]. *)
Definition parse_status_filter (arguments : list string) (default : StatusFilter) : result StatusFilter string :=
  match arguments with
  | [] => Ok default
  | value :: _ =>
      if String.eqb value "all" then Ok FilterAll
      else if String.eqb value "pending" then Ok FilterPending
      else if String.eqb value "preparing" then Ok FilterPreparing
      else if String.eqb value "running" then Ok FilterRunning
      else if String.eqb value "paused" then Ok FilterPaused
      else if String.eqb value "completed" then Ok FilterCompleted
      else if String.eqb value "failed" then Ok FilterFailed
      else if (String.eqb value "canceled" || String.eqb value "cancelled")%bool then Ok FilterCanceled
      else if String.eqb value "deleted" then Ok FilterDeleted
      else if String.eqb value "active" then Ok FilterActive
      else if String.eqb value "terminal" then Ok FilterTerminal
      else Err ("Unknown task filter '" +:+ value +:+
        "'. Expected all, pending, preparing, running, paused, completed, failed, canceled, deleted, active, or terminal.")
  end.

(** [src/src/cli_app/commands.rs:141-148], [parse_task_id]. *)
Definition parse_task_id (arguments : list string) : result Z string :=
  match arguments with
  | [] => Err "Usage: show <id>"
  | value :: _ =>
      result_map_err (λ _, "Expected a numeric task id, got '" +:+ value +:+ "'") (parse_u32 value)
  end.

(** [src/src/cli_app/commands.rs:150-163], [parse_limit_command]. *)
Definition parse_limit_command (arguments : list string) : result Command string :=
  match arguments with
  | [] => Err "Usage: limit <kib|off>"
  | value :: _ =>
      let? limit :=
        if bool_decide (value ∈ ["off"; "none"; "unlimited"; "0"]) then Ok None
        else
          let? n := result_map_err (λ _, "limit expects a positive integer or 'off'") (parse_u64 value) in
          Ok (non_zero n) in
      Ok (CmdSetRateLimit limit)
  end.

(** [src/src/cli_app/commands.rs:39-70], [parse_command]. *)
Definition parse_command (input : string) : result Command string :=
  let normalized := trim input in
  if is_empty normalized then Err "Empty command"
  else
    match split_whitespace (to_ascii_lowercase normalized) with
    | [] => Err "Empty command"
    | command :: arguments =>
        let target (c : CommandTarget → Command) := let? t := parse_target arguments true in Ok (c t) in
        if String.eqb command "help" then Ok CmdHelp
        else if String.eqb command "status" then target CmdStatus
        else if String.eqb command "list" then
          let? filter := parse_status_filter arguments FilterAll in Ok (CmdList filter)
        else if String.eqb command "history" then
          let? filter := parse_status_filter arguments FilterTerminal in Ok (CmdHistory filter)
        else if String.eqb command "show" then let? id := parse_task_id arguments in Ok (CmdShow id)
        else if String.eqb command "pause" then target CmdPause
        else if String.eqb command "resume" then target CmdResume
        else if String.eqb command "retry" then target CmdRetry
        else if String.eqb command "cancel" then target CmdCancel
        else if String.eqb command "delete" then target CmdDelete
        else if String.eqb command "limit" then parse_limit_command arguments
        else Err ("Unknown command: " +:+ input +:+ ". Type 'help' for usage.")
    end.

(** [src/src/cli_app/commands.rs:72-88], [help_lines]. *)
Definition help_lines : list string := [
  "Interactive commands:";
  "  help                         Show available commands";
  "  status [all|id ...]          Print task summary for all tasks or selected task ids";
  "  list [filter]                List tasks by status filter";
  "  history [filter]             List terminal task history";
  "  show <id>                    Show a detailed task snapshot";
  "  pause [all|id ...]           Pause all tasks or selected task ids";
  "  resume [all|id ...]          Resume all tasks or selected task ids";
  "  retry [all|id ...]           Restart failed, canceled, or pending tasks";
  "  cancel [all|id ...]          Cancel all tasks or selected task ids";
  "  delete [all|id ...]          Delete tasks and remove their local files";
  "  limit <kib|off>              Set global rate limit, or disable it"].

Example commands_ex : parse_command " Resume 1 2 " = Ok (CmdResume (TargetTasks [1; 2])) ∧
  parse_command "limit off" = Ok (CmdSetRateLimit None) ∧ parse_command "history" = Ok (CmdHistory FilterTerminal) ∧
  parse_command "wat" = Err "Unknown command: wat. Type 'help' for usage.".
Proof. by vm_compute. Qed.

(** ** Every command can be typed *)

Definition target_words (t : CommandTarget) : list string :=
  match t with TargetAll => ["all"] | TargetTasks ids => show_u64 <$> ids end.
Definition filter_word (f : StatusFilter) : string :=
  match f with
  | FilterAll => "all" | FilterPending => "pending" | FilterPreparing => "preparing"
  | FilterRunning => "running" | FilterPaused => "paused" | FilterCompleted => "completed"
  | FilterFailed => "failed" | FilterCanceled => "canceled" | FilterDeleted => "deleted"
  | FilterActive => "active" | FilterTerminal => "terminal"
  end.
Definition command_words (c : Command) : string * list string :=
  match c with
  | CmdHelp => ("help", [])
  | CmdStatus t => ("status", target_words t)
  | CmdList f => ("list", [filter_word f])
  | CmdHistory f => ("history", [filter_word f])
  | CmdShow i => ("show", [show_u64 i])
  | CmdPause t => ("pause", target_words t)
  | CmdResume t => ("resume", target_words t)
  | CmdRetry t => ("retry", target_words t)
  | CmdCancel t => ("cancel", target_words t)
  | CmdDelete t => ("delete", target_words t)
  | CmdSetRateLimit None => ("limit", ["off"])
  | CmdSetRateLimit (Some n) => ("limit", [show_u64 n])
  end.
Definition show_command (c : Command) : string :=
  let '(word, words) := command_words c in foldl (λ s w, s +:+ " " +:+ w) word words.

(** The commands there are: ids and limits have their widths, a limit is not zero, and tasks are named. *)
Definition target_ok (t : CommandTarget) : Prop :=
  match t with TargetAll => True | TargetTasks ids => ids ≠ [] ∧ Forall is_u32 ids end.
Definition command_ok (c : Command) : Prop :=
  match c with
  | CmdStatus t | CmdPause t | CmdResume t | CmdRetry t | CmdCancel t | CmdDelete t => target_ok t
  | CmdShow i => is_u32 i
  | CmdSetRateLimit (Some n) => 0 < n ≤ u64_max
  | _ => True
  end.

(** *** Words *)

Lemma solid_inv c : solid c = true → ws1 c = false ∧ Chr.code c < 128.
Proof. unfold solid. rewrite andb_true_iff, negb_true_iff, Z.ltb_lt. tauto. Qed.

Lemma ws_fields_solid c s : solid c = true → ws_fields (String c s) = push_head c (ws_fields s).
Proof.
  intros [H1 Hlt]%solid_inv. cbn [ws_fields]. rewrite H1. destruct s as [|d s]; [done|].
  assert (ws2 c d = false) as ->. { unfold ws2. rewrite !andb_false_iff, Z.eqb_neq. lia. }
  destruct s as [|e s]; [done|].
  assert (ws3 c d e = false) as ->; [|done]. unfold ws3. apply not_true_is_false.
  rewrite ?orb_true_iff, ?andb_true_iff, ?orb_true_iff, ?andb_true_iff, ?Z.leb_le, ?Z.eqb_eq. lia.
Qed.
Lemma ws_fields_word w : all_chars solid w = true → ws_fields w = [w].
Proof.
  induction w as [|c w IH]; [done|]. cbn [all_chars]. intros [Hc Hw]%andb_true_iff.
  by rewrite ws_fields_solid, IH.
Qed.
Lemma ws_fields_cons w s : all_chars solid w = true → ws_fields (w +:+ String " " s) = w :: ws_fields s.
Proof.
  induction w as [|c w IH]; [done|]. cbn [all_chars]. intros [Hc Hw]%andb_true_iff.
  change (String c w +:+ String " " s) with (String c (w +:+ String " " s)).
  by rewrite ws_fields_solid, IH.
Qed.

Lemma fold_words word words w :
  foldl (λ s w, s +:+ " " +:+ w) (w +:+ String " " word) words =
  w +:+ String " " (foldl (λ s w, s +:+ " " +:+ w) word words).
Proof.
  revert word. induction words as [|v words IH]; intros word; [done|]. cbn [foldl].
  rewrite append_assoc. apply IH.
Qed.

(** Words without white space are read as they are. *)
Lemma split_words word words :
  Forall (λ w, all_chars solid w = true ∧ w ≠ "") (word :: words) →
  split_whitespace (foldl (λ s w, s +:+ " " +:+ w) word words) = word :: words.
Proof.
  unfold split_whitespace. revert word. induction words as [|v words IH]; intros word Hw;
    apply Forall_cons in Hw as [[Hs Hne] Hw]; cbn [foldl].
  - rewrite ws_fields_word by done. cbn. by destruct word.
  - change (word +:+ " " +:+ v) with (word +:+ String " " v). specialize (IH v Hw).
    rewrite fold_words, ws_fields_cons by done. unfold filterb in *. cbn [List.filter].
    rewrite IH. by destruct word.
Qed.

(** *** Letters and digits *)

Definition plain (c : ascii) : bool := (Chr.is_digit c || ((97 <=? Chr.code c) && (Chr.code c <=? 122)))%bool.
Lemma plain_solid c : plain c = true → solid c = true.
Proof.
  unfold plain. rewrite orb_true_iff, andb_true_iff, !Z.leb_le. intros [?|?]; [by apply digit_solid|].
  unfold solid, ws1. rewrite andb_true_iff, negb_true_iff, orb_false_iff, andb_false_iff, Z.ltb_lt, !Z.leb_gt, Z.eqb_neq.
  lia.
Qed.
Lemma show_word n : all_chars solid (show_u64 n) = true ∧ show_u64 n ≠ "".
Proof.
  split; [|unfold show_u64; by destruct (digits_cons 19 n "") as (d & s & _ & ->)]. eapply all_chars_impl; [apply digit_solid|]. apply show_u64_digits.
Qed.
Lemma words_solid c : let '(word, words) := command_words c in
  Forall (λ w, all_chars solid w = true ∧ w ≠ "") (word :: words).
Proof.
  assert (∀ t, Forall (λ w, all_chars solid w = true ∧ w ≠ "") (target_words t)) as Ht.
  { intros [|ids]; cbn; [by repeat constructor|]. apply Forall_fmap, Forall_true. intros n. apply show_word. }
  assert (∀ n, Forall (λ w, all_chars solid w = true ∧ w ≠ "") [show_u64 n]) as Hn.
  { intros n. constructor; [apply show_word|constructor]. }
  destruct c as [|t|f|f|i|t|t|t|t|t|[n|]]; cbn [command_words]; (constructor; [done|]); auto.
  - by destruct f; repeat constructor.
  - by destruct f; repeat constructor.
Qed.

Lemma solid_of_lower c : solid (Chr.to_lower c) = true → solid c = true.
Proof.
  unfold Chr.to_lower. destruct ((65 <=? Chr.code c) && (Chr.code c <=? 90))%bool eqn:E; [|done]. intros _.
  apply andb_true_iff in E. rewrite !Z.leb_le in E. unfold solid, ws1.
  rewrite andb_true_iff, negb_true_iff, orb_false_iff, andb_false_iff, Z.ltb_lt, !Z.leb_gt, Z.eqb_neq. lia.
Qed.
Lemma lower_append a b : to_ascii_lowercase (a +:+ b) = to_ascii_lowercase a +:+ to_ascii_lowercase b.
Proof.
  induction a as [|c a IH]; [done|]. change (String c a +:+ b) with (String c (a +:+ b)).
  cbn [to_ascii_lowercase]. by rewrite IH.
Qed.
Lemma snoc_inj t d t' d' : t +:+ String d "" = t' +:+ String d' "" → d = d'.
Proof. intros Ht%(f_equal srev). rewrite !srev_append in Ht. by injection Ht. Qed.

(** A command in letters of any case is not trimmed. *)
Lemma trim_any_case s c e t d :
  to_ascii_lowercase s = String c e → String c e = t +:+ String d "" → solid c = true → solid d = true →
  trim s = s.
Proof.
  intros Hs Ht Hc Hd. destruct s as [|c' s]; [done|]. cbn [to_ascii_lowercase] in Hs.
  assert (Chr.to_lower c' = c) as Hc' by congruence. destruct (string_last c' s) as (t' & d' & E).
  eapply trim_solid; [exact E|apply solid_of_lower; by rewrite Hc'|]. apply solid_of_lower.
  assert (Chr.to_lower d' = d) as ->; [|done]. apply (snoc_inj (to_ascii_lowercase t') _ t).
  rewrite <- Ht, <- Hs. change (String (Chr.to_lower c') (to_ascii_lowercase s)) with (to_ascii_lowercase (String c' s)).
  by rewrite E, lower_append.
Qed.

Lemma last_solid w : all_chars solid w = true ∧ w ≠ "" → ∃ t d, w = t +:+ String d "" ∧ solid d = true.
Proof.
  intros [Hw Hne]. destruct w as [|c w]; [done|]. destruct (string_last c w) as (t & d & E).
  exists t, d. split; [done|]. rewrite E, all_chars_append in Hw. apply andb_true_iff in Hw as [_ Hw].
  cbn [all_chars] in Hw. by rewrite andb_true_r in Hw.
Qed.
Lemma words_last word words : Forall (λ w, all_chars solid w = true ∧ w ≠ "") (word :: words) →
  ∃ t d, foldl (λ s w, s +:+ " " +:+ w) word words = t +:+ String d "" ∧ solid d = true.
Proof.
  destruct words as [|v words _] using rev_ind; intros [Hw Hws]%Forall_cons; [by apply last_solid|].
  apply Forall_app in Hws as [_ Hv%Forall_inv]. destruct (last_solid v Hv) as (t & d & -> & Hd).
  rewrite foldl_app. cbn [foldl]. eexists _, d. split; [|done]. by rewrite <- !append_assoc.
Qed.
Lemma words_first word words : all_chars solid word = true ∧ word ≠ "" →
  ∃ c s, foldl (λ s w, s +:+ " " +:+ w) word words = String c s ∧ solid c = true.
Proof.
  revert word. induction words as [|v words IH]; intros word [Hw Hne]; cbn [foldl].
  - destruct word as [|c s]; [done|]. exists c, s. split; [done|]. cbn [all_chars] in Hw. by apply andb_true_iff in Hw as [? _].
  - change (word +:+ " " +:+ v) with (word +:+ String " " v). rewrite fold_words.
    destruct word as [|c s]; [done|]. eexists c, _. split; [done|]. cbn [all_chars] in Hw. by apply andb_true_iff in Hw as [? _].
Qed.

(** The words of a command are what is read of it, in letters of any case. *)
Lemma parse_words c s : to_ascii_lowercase s = show_command c →
  let '(word, words) := command_words c in
  is_empty (trim s) = false ∧ split_whitespace (to_ascii_lowercase (trim s)) = word :: words.
Proof.
  intros Hs. unfold show_command in Hs. pose proof (words_solid c) as Hw.
  destruct (command_words c) as [word words]. pose proof (split_words _ _ Hw) as Hsplit.
  destruct (words_first word words (Forall_inv Hw)) as (a & e & Ea & Ha).
  destruct (words_last word words Hw) as (t & d & Ed & Hd).
  assert (trim s = s) as ->.
  { eapply trim_any_case; [by rewrite Hs, Ea| |exact Ha|exact Hd]. by rewrite <- Ea, Ed. }
  rewrite Hs, Hsplit. split; [|done]. destruct s as [|? ?]; [|done]. rewrite Ea in Hs. done.
Qed.

(** *** Reading the words *)

Lemma parse_ids_show ids : Forall is_u32 ids → parse_ids (show_u64 <$> ids) = Ok ids.
Proof.
  induction 1 as [|i ids Hi _ IH]; [done|].
  change (show_u64 <$> i :: ids) with (show_u64 i :: (show_u64 <$> ids)). cbn [parse_ids]. unfold parse_u32.
  rewrite parse_show by (unfold is_u32, u32_max, u64_max in *; lia). by rewrite IH.
Qed.
Lemma digits_not_word n w c r : w = String c r → Chr.is_digit c = false → show_u64 n ≠ w.
Proof.
  intros -> Hc Hn. pose proof (show_u64_digits n) as Hd. rewrite Hn in Hd. cbn [all_chars] in Hd.
  by rewrite Hc in Hd.
Qed.
Lemma parse_target_words t : target_ok t → parse_target (target_words t) true = Ok t.
Proof.
  destruct t as [|ids]; [done|]. intros [Hne Hids]. unfold parse_target, target_words.
  destruct ids as [|i ids]; [done|]. rewrite bool_decide_false.
  2: { intros [= Hi _]. by apply (digits_not_word i "all" "a" "ll") in Hi. }
  rewrite parse_ids_show by done. cbn [fmap list_fmap result_bind]. by rewrite bool_decide_false.
Qed.
Lemma parse_filter_word f d : parse_status_filter [filter_word f] d = Ok f.
Proof. by destruct f. Qed.

Lemma parse_uint_range max s n : 0 ≤ max → parse_uint max s = Ok n → 0 ≤ n ≤ max.
Proof.
  intros Hmax. assert (∀ s acc, 0 ≤ acc ≤ max → parse_digits max s acc = Ok n → 0 ≤ n ≤ max) as Hd.
  { clear s. induction s as [|c s IH]; intros acc Hacc; cbn [parse_digits]; [congruence|].
    destruct (Chr.is_digit c) eqn:Ec; [|done]. destruct (_ <=? max) eqn:El; [|done].
    apply IH. unfold Chr.is_digit in Ec. rewrite andb_true_iff, !Z.leb_le in Ec. lia. }
  assert (∀ s, parse_digits max s 0 = Ok n → 0 ≤ n ≤ max) as Hd0 by (intros r; apply Hd; lia).
  unfold parse_uint. repeat case_match; solve [done | apply Hd0].
Qed.

Lemma parse_ids_ok l ids : parse_ids l = Ok ids → Forall is_u32 ids.
Proof.
  revert ids. induction l as [|w l IH]; intros ids; cbn [parse_ids]; [intros [= <-]; constructor|].
  destruct (parse_u32 w) as [i|] eqn:Ei; [|done]. intros (k & Hk & [= <-])%result_bind_Ok.
  constructor; [|by apply IH]. by apply (parse_uint_range u32_max w).
Qed.
Lemma parse_target_ok l t : parse_target l true = Ok t → target_ok t.
Proof.
  unfold parse_target. destruct l as [|w l]; [by intros [= <-]|]. destruct (bool_decide _); [by intros [= <-]|].
  intros (ids & Hids & Ht)%result_bind_Ok. case_bool_decide as Hne; cbn [andb] in Ht; injection Ht as <-; [done|].
  split; [done|]. by eapply parse_ids_ok.
Qed.
Lemma parse_limit_ok l c : parse_limit_command l = Ok c → command_ok c.
Proof.
  unfold parse_limit_command. destruct l as [|w l]; [done|]. intros (limit & Hl & [= <-])%result_bind_Ok.
  destruct (bool_decide _); [by injection Hl as <-|].
  apply result_bind_Ok in Hl as (n & Hn & [= <-]). unfold parse_u64 in Hn.
  destruct (parse_uint u64_max w) as [m|] eqn:Em; cbn in Hn; [|done]. injection Hn as ->.
  apply parse_uint_range in Em; [|by unfold u64_max]. unfold non_zero. destruct (n =? 0) eqn:E0; [done|].
  cbn. lia.
Qed.

(** What is read is a command there is. *)
Lemma parse_command_ok s c : parse_command s = Ok c → command_ok c.
Proof.
  unfold parse_command. destruct (is_empty _); [done|].
  destruct (split_whitespace _) as [|word words]; [done|]. cbv zeta.
  repeat match goal with |- (if ?b then _ else _) = _ → _ => destruct b end;
    try (by intros [= <-]); try (intros (t & Ht & [= <-])%result_bind_Ok; cbn [command_ok]; by eapply parse_target_ok);
    try (by intros (f & _ & [= <-])%result_bind_Ok); try done.
  - intros (i & Hi & [= <-])%result_bind_Ok. unfold parse_task_id in Hi. destruct words as [|w words]; [done|].
    unfold parse_u32 in Hi. destruct (parse_uint u32_max w) as [j|] eqn:Ej; cbn in Hi; [|done]. injection Hi as ->.
    by apply (parse_uint_range u32_max w).
  - apply parse_limit_ok.
Qed.

Lemma parse_limit_word n : 0 < n ≤ u64_max → parse_limit_command [show_u64 n] = Ok (CmdSetRateLimit (Some n)).
Proof.
  intros Hn. unfold parse_limit_command. rewrite bool_decide_false.
  - unfold parse_u64. rewrite parse_show by lia. cbn. unfold non_zero.
    by rewrite (proj2 (Z.eqb_neq n 0)) by lia.
  - rewrite !elem_of_cons, elem_of_nil. intros [Hw|[Hw|[Hw|[Hw|[]]]]].
    1-3: by eapply digits_not_word in Hw; [..|done|done].
    assert (parse_u64 (show_u64 n) = Ok 0) as H0 by (by rewrite Hw).
    unfold parse_u64 in H0. rewrite parse_show in H0 by lia. injection H0. lia.
Qed.

Lemma parse_command_show c s : command_ok c → to_ascii_lowercase s = show_command c → parse_command s = Ok c.
Proof.
  intros Hc Hs. pose proof (parse_words c s Hs) as Hw. unfold parse_command.
  destruct c as [|t|f|f|i|t|t|t|t|t|[n|]]; cbn [command_words command_ok] in Hw, Hc;
    destruct Hw as [-> ->]; cbn -[parse_target target_words parse_status_filter parse_task_id parse_limit_command show_u64];
    rewrite ?parse_target_words, ?parse_filter_word, ?parse_limit_word by done; try done.
  unfold parse_task_id, parse_u32. rewrite parse_show; [done|exact Hc|by unfold u32_max, u64_max].
Qed.

(** C24. What is typed.  Every command with ids and limits of their widths can be typed, in letters of
    any case, and is read back; and whatever is typed, what is read is such a command: its ids are of 32
    bits, its limit is of 64 bits and not zero, and it names all tasks or at least one. *)
Theorem commands_typed :
  (∀ c s, command_ok c → to_ascii_lowercase s = show_command c → parse_command s = Ok c) ∧
  (∀ s c, parse_command s = Ok c → command_ok c).
Proof. split; [apply parse_command_show|apply parse_command_ok]. Qed.
