(* ===== verification/Options.v ===== *)
(** * The options of the command line ([src/src/cli_app/mod.rs])

    The options, and the configuration they make of that of the file and the
    environment. *)

From S2P Require Import Prelude Text Float Status Effect Source Files Config Startup.

(** ** Options *)

(** [src/src/cli_app/mod.rs:20-106], [Cli]. *)
Record Cli := mk_cli {
  cli_config : option string;
  cli_workers : option Z;
  cli_max_concurrent : option Z;
  cli_download_dir : option string;
  cli_rate_limit_kib_per_sec : option Z;
  cli_headers : list string;
  cli_cookie : option string;
  cli_user_agent : option string;
  cli_basic_auth : option string;
  cli_bearer_token : option string;
  cli_http_proxy : option string;
  cli_https_proxy : option string;
  cli_no_proxy : option string;
  cli_no_env_proxy : bool;
  cli_cookie_store : bool;
  cli_cookie_jar : option string;
  cli_insecure_tls : bool;
  cli_ca_cert : option string;
  cli_client_identity : option string;
  cli_shuffle_tasks : bool;
  cli_verbose : bool;
  cli_json : bool;
  cli_interactive : bool;
  cli_urls_file : list string;
  cli_completion_hook : option string;
  cli_urls : list string
}.

(** [src/src/cli_app/mod.rs:190-195], [OutputMode]. *)
Inductive OutputMode := ModeDashboard | ModePlainText | ModeJson | ModeLogOnly.
(** [src/src/cli_app/mod.rs:197-207], [select_output_mode]. *)
Definition select_output_mode (is_terminal : bool) (cli : Cli) : OutputMode :=
  if cli_json cli then ModeJson
  else if cli_verbose cli then ModeLogOnly
  else if is_terminal then ModeDashboard
  else ModePlainText.

(** The filters of the crate [log] that are used. *)
Inductive LevelFilter := LfError | LfWarn | LfInfo | LfDebug.
(** [src/src/config.rs:54-61], [LogLevel::as_level_filter]. *)
Definition as_level_filter (l : LogLevel) : LevelFilter :=
  match l with LogError => LfError | LogWarn => LfWarn | LogInfo => LfInfo | LogDebug => LfDebug end.
(** [src/src/cli_app/mod.rs:209-220], [select_log_level]. *)
Definition select_log_level (config : Config) (output_mode : OutputMode) : LevelFilter :=
  match output_mode with
  | ModeLogOnly => as_level_filter (log_level config)
  | ModeDashboard | ModePlainText | ModeJson =>
      match log_level config with LogError => LfError | _ => LfWarn end
  end.

(** [src/src/cli_app/mod.rs:314-335], [parse_single_header]. *)
Definition parse_single_header (value : string) : res HttpHeader :=
  match split_once ":" value with
  | None => Err (EConfigError ("invalid header '" +:+ value +:+ "', expected NAME:VALUE"))
  | Some (name, header_value) =>
      let name := trim name in
      let header_value := trim header_value in
      if (is_empty name || is_empty header_value)%bool then
        Err (EConfigError ("invalid header '" +:+ value +:+ "', expected non-empty NAME and VALUE"))
      else Ok (mk_header name header_value)
  end.
(** [src/src/cli_app/mod.rs:307-312], [parse_cli_headers]. *)
Fixpoint parse_cli_headers (values : list string) : res (list HttpHeader) :=
  match values with
  | [] => Ok []
  | value :: values =>
      let? header := parse_single_header value in
      let? headers := parse_cli_headers values in
      Ok (header :: headers)
  end.
(** [src/src/cli_app/mod.rs:337-353], [parse_basic_auth]. *)
Definition parse_basic_auth (value : string) : res HttpAuth :=
  let '(username, password) :=
    match split_once ":" value with
    | Some (username, password) =>
        (trim username, opt_filter (λ inner, negb (is_empty inner)) (Some (trim password)))
    | None => (trim value, None)
    end in
  if is_empty username then Err (EConfigError "basic auth expects USER[:PASS]")
  else Ok (AuthBasic username password).

(** *** The configuration *)
Section config.
Context (toml_from_str : string → result ConfigFile string) (env : string → option string).

Definition option_set {A} (o : option A) (change : A → Config → Config) : eff Config unit :=
  match o with Some v => modify (change v) | None => ret tt end.
Definition flag_set (b : bool) (change : Config → Config) : eff Config unit := when b (modify change).

(** [src/src/cli_app/mod.rs:229-301], [build_config (options)]. *)
Definition apply_options (cli : Cli) : eff Config unit :=
  option_set (cli_download_dir cli) (λ v c, c <| download_dir := v |>) ;;;
  when (cli_json cli && cli_interactive cli)
    (throw (EConfigError "--json and --interactive cannot be used together")) ;;;
  when (cli_json cli && cli_verbose cli)
    (throw (EConfigError "--json and --verbose cannot be used together")) ;;;
  option_set (cli_workers cli) (λ v c, c <| segments_per_task := v |>) ;;;
  option_set (cli_max_concurrent cli) (λ v c, c <| concurrent_tasks := v |>) ;;;
  flag_set (cli_shuffle_tasks cli) (λ c, c <| shuffle_tasks := true |>) ;;;
  option_set (cli_rate_limit_kib_per_sec cli) (λ v c, c <| rate_limit_kib_per_sec := non_zero v |>) ;;;
  option_set (cli_completion_hook cli) (λ v c, c <| completion_hook := Some v |>) ;;;
  flag_set (cli_no_env_proxy cli) (on_proxy (λ p, p <| use_env_proxy := false |>)) ;;;
  flag_set (cli_cookie_store cli) (on_client (λ k, k <| cookie_store := true |>)) ;;;
  option_set (cli_cookie_jar cli)
    (λ v, on_client (λ k, k <| cookie_store := true |> <| cookie_jar_path := Some v |>)) ;;;
  option_set (cli_http_proxy cli) (λ v, on_proxy (λ p, p <| http_proxy := Some v |>)) ;;;
  option_set (cli_https_proxy cli) (λ v, on_proxy (λ p, p <| https_proxy := Some v |>)) ;;;
  option_set (cli_no_proxy cli) (λ v, on_proxy (λ p, p <| no_proxy := Some v |>)) ;;;
  flag_set (cli_insecure_tls cli) (on_tls (λ t, t <| insecure_skip_verify := true |>)) ;;;
  option_set (cli_ca_cert cli) (λ v, on_tls (λ t, t <| ca_certificate_pem := Some v |>)) ;;;
  option_set (cli_client_identity cli) (λ v, on_tls (λ t, t <| client_identity_pem := Some v |>)) ;;;
  when (negb (bool_decide (cli_headers cli = [])))
    (let! l := lift (parse_cli_headers (cli_headers cli)) in
     modify (on_request (λ r, r <| headers := l |>))) ;;;
  option_set (cli_cookie cli) (λ v, on_request (λ r, r <| cookie := Some v |>)) ;;;
  option_set (cli_user_agent cli) (λ v, on_request (λ r, r <| user_agent := Some v |>)) ;;;
  match cli_basic_auth cli with
  | Some v => let! a := lift (parse_basic_auth v) in modify (on_request (λ r, r <| auth := Some a |>))
  | None => ret tt
  end ;;;
  option_set (cli_bearer_token cli) (λ v, on_request (λ r, r <| auth := Some (AuthBearer v) |>)).

(** [src/src/cli_app/mod.rs:222-305], [build_config]. *)
Definition build_config (f : fs) (cli : Cli) : res Config :=
  let? config := match cli_config cli with
    | Some path => result_map_err error_of_load (from_file toml_from_str f path)
    | None => Ok Config_default
    end in
  let? config := match apply_env_overrides env config with
    | (Ok _, config) => Ok config
    | (Err err, _) => Err (error_of_config err)
    end in
  let? config := match apply_options cli config with
    | (Ok _, config) => Ok config
    | (Err err, _) => Err err
    end in
  let? _ := result_map_err error_of_config (validate config) in
  Ok config.

(** *** Options come first *)

(** What the configuration is, by that of the file and the environment, [c0]. *)
Record options_applied (cli : Cli) (c0 c : Config) : Prop := {
  oa_dir : download_dir c = default (download_dir c0) (cli_download_dir cli);
  oa_workers : segments_per_task c = default (segments_per_task c0) (cli_workers cli);
  oa_concurrent : concurrent_tasks c = default (concurrent_tasks c0) (cli_max_concurrent cli);
  oa_shuffle : shuffle_tasks c = (cli_shuffle_tasks cli || shuffle_tasks c0)%bool;
  oa_rate : rate_limit_kib_per_sec c =
    from_option non_zero (rate_limit_kib_per_sec c0) (cli_rate_limit_kib_per_sec cli);
  oa_hook : completion_hook c = from_option Some (completion_hook c0) (cli_completion_hook cli);
  oa_proxy : let p := proxy (http_client (http c)) in let p0 := proxy (http_client (http c0)) in
    use_env_proxy p = (negb (cli_no_env_proxy cli) && use_env_proxy p0)%bool ∧
    http_proxy p = from_option Some (http_proxy p0) (cli_http_proxy cli) ∧
    https_proxy p = from_option Some (https_proxy p0) (cli_https_proxy cli) ∧
    no_proxy p = from_option Some (no_proxy p0) (cli_no_proxy cli);
  oa_cookies : let k := http_client (http c) in let k0 := http_client (http c0) in
    cookie_store k = (is_some (cli_cookie_jar cli) || cli_cookie_store cli || cookie_store k0)%bool ∧
    cookie_jar_path k = from_option Some (cookie_jar_path k0) (cli_cookie_jar cli);
  oa_tls : let t := tls (http_client (http c)) in let t0 := tls (http_client (http c0)) in
    insecure_skip_verify t = (cli_insecure_tls cli || insecure_skip_verify t0)%bool ∧
    ca_certificate_pem t = from_option Some (ca_certificate_pem t0) (cli_ca_cert cli) ∧
    client_identity_pem t = from_option Some (client_identity_pem t0) (cli_client_identity cli);
  oa_headers : let l := headers (http_request (http c)) in
    if decide (cli_headers cli = []) then l = headers (http_request (http c0))
    else parse_cli_headers (cli_headers cli) = Ok l;
  oa_request : let r := http_request (http c) in let r0 := http_request (http c0) in
    cookie r = from_option Some (cookie r0) (cli_cookie cli) ∧
    user_agent r = from_option Some (user_agent r0) (cli_user_agent cli);
  oa_auth : let a := auth (http_request (http c)) in
    match cli_bearer_token cli, cli_basic_auth cli with
    | Some token, _ => a = Some (AuthBearer token)
    | None, Some v => ∃ b, parse_basic_auth v = Ok b ∧ a = Some b
    | None, None => a = auth (http_request (http c0))
    end;
  oa_others : retry c = retry c0 ∧ connect_timeout_secs c = connect_timeout_secs c0 ∧
    storage_backend c = storage_backend c0 ∧ progress_throttle c = progress_throttle c0 ∧
    file_conflict_strategy c = file_conflict_strategy c0 ∧ log_level c = log_level c0 ∧ p2p c = p2p c0
}.

Lemma option_set_eq {A} (o : option A) change c :
  option_set o change c = (Ok tt, from_option (λ v, change v c) c o).
Proof. by destruct o. Qed.
Lemma flag_set_eq b change c : flag_set b change c = (Ok tt, if b then change c else c).
Proof. by destruct b. Qed.
Lemma on_option {A B} (f : Config → B) (o : option A) (h : A → Config) c :
  f (from_option h c o) = from_option (λ v, f (h v)) (f c) o.
Proof. by destruct o. Qed.
Lemma on_flag {B} (f : Config → B) (b : bool) (c c' : Config) : f (if b then c else c') = if b then f c else f c'.
Proof. by destruct b. Qed.
Lemma same_option {A B} (o : option A) (x : B) : from_option (λ _, x) x o = x.
Proof. by destruct o. Qed.
Lemma same_flag {B} (b : bool) (x : B) : (if b then x else x) = x.
Proof. by destruct b. Qed.

(** The value of the field [f], through all steps that change it or others. *)
Ltac field_of f :=
  repeat match goal with
    | Hc : ?c' = from_option _ ?c ?o |- context [?c'] =>
        progress (rewrite Hc; rewrite ?(on_option f); cbn -[from_option]; rewrite ?same_option)
    | Hc : ?c' = (if ?b then _ else ?c) |- context [?c'] =>
        progress (rewrite Hc; rewrite ?(on_flag f); cbn -[from_option]; rewrite ?same_flag)
    | Hc : ?c' = _ |- context [?c'] => is_var c'; rewrite Hc; cbn -[from_option]
    end.

Lemma when_ok {S} b (m : eff S unit) s s' : when b m s = (Ok tt, s') → (b = true ∧ m s = (Ok tt, s')) ∨ (b = false ∧ s' = s).
Proof. destruct b; cbn; [by left|intros [= <-]; by right]. Qed.

Lemma headers_step l c c' :
  when (negb (bool_decide (l = [])))
    (let! k := lift (parse_cli_headers l) in modify (on_request (λ r, r <| headers := k |>))) c = (Ok tt, c') →
  ∃ k, c' = on_request (λ r, r <| headers := k |>) c ∧
    if decide (l = []) then k = headers (http_request (http c)) else parse_cli_headers l = Ok k.
Proof.
  intros [[Hl Hm]|[Hl ->]]%when_ok; rewrite ?negb_true_iff, ?negb_false_iff in Hl.
  - apply bool_decide_eq_false in Hl.
    apply eff_bind_inv in Hm as (k & c1 & [= Hk <-] & [= <-]). exists k. by destruct (decide _).
  - apply bool_decide_eq_true in Hl.
    exists (headers (http_request (http c))). split; [|by destruct (decide _)]. by destruct c as [? ? ? ? ? ? ? ? ? ? ? ? [? []] ?].
Qed.
Lemma auth_step o c c' :
  match o with
  | Some v => let! a := lift (parse_basic_auth v) in modify (on_request (λ r, r <| auth := Some a |>))
  | None => ret tt
  end c = (Ok tt, c') →
  ∃ a, c' = on_request (λ r, r <| auth := a |>) c ∧
    match o with
    | Some v => ∃ b, parse_basic_auth v = Ok b ∧ a = Some b
    | None => a = auth (http_request (http c))
    end.
Proof.
  destruct o as [v|].
  - intros (b & c1 & [= Hb <-] & [= <-])%eff_bind_inv. exists (Some b). eauto.
  - intros [= <-]. exists (auth (http_request (http c))). split; [|done].
    by destruct c as [? ? ? ? ? ? ? ? ? ? ? ? [? []] ?].
Qed.

(** One step of [apply_options]. *)
Ltac next_option Hc l Hl a Ha :=
  let c' := fresh "c" in let Hs := fresh "Hs" in
  apply eff_bind_inv in Hc as ([] & c' & Hs & Hc);
  first [ rewrite option_set_eq in Hs; apply (f_equal snd) in Hs; cbn [snd] in Hs; symmetry in Hs
        | rewrite flag_set_eq in Hs; apply (f_equal snd) in Hs; cbn [snd] in Hs; symmetry in Hs
        | apply when_ok in Hs as [[_ ?]|[_ ->]]; [done|]
        | apply headers_step in Hs as (l & Hs & Hl)
        | apply auth_step in Hs as (a & Hs & Ha) ].

Lemma apply_options_ok cli c0 c : apply_options cli c0 = (Ok tt, c) → options_applied cli c0 c.
Proof.
  unfold apply_options. intros Hc. do 21 next_option Hc l Hl a Ha.
  rewrite option_set_eq in Hc. apply (f_equal snd) in Hc. cbn [snd] in Hc. symmetry in Hc.
  split.
  - field_of download_dir. done.
  - field_of segments_per_task. done.
  - field_of concurrent_tasks. done.
  - field_of shuffle_tasks. by destruct (cli_shuffle_tasks cli).
  - field_of rate_limit_kib_per_sec. done.
  - field_of completion_hook. done.
  - cbv zeta. split_and!.
    + field_of (λ c, use_env_proxy (proxy (http_client (http c)))). by destruct (cli_no_env_proxy cli).
    + field_of (λ c, http_proxy (proxy (http_client (http c)))). done.
    + field_of (λ c, https_proxy (proxy (http_client (http c)))). done.
    + field_of (λ c, no_proxy (proxy (http_client (http c)))). done.
  - cbv zeta. split.
    + field_of (λ c, cookie_store (http_client (http c))).
      by destruct (cli_cookie_jar cli), (cli_cookie_store cli).
    + field_of (λ c, cookie_jar_path (http_client (http c))). done.
  - cbv zeta. split_and!.
    + field_of (λ c, insecure_skip_verify (tls (http_client (http c)))). by destruct (cli_insecure_tls cli).
    + field_of (λ c, ca_certificate_pem (tls (http_client (http c)))). done.
    + field_of (λ c, client_identity_pem (tls (http_client (http c)))). done.
  - cbv zeta. assert (headers (http_request (http c)) = l) as ->.
    { field_of (λ c, headers (http_request (http c))). done. }
    destruct (decide (cli_headers cli = [])); [|exact Hl]. rewrite Hl.
    clear Hl. field_of (λ c, headers (http_request (http c))). done.
  - cbv zeta. split.
    + field_of (λ c, cookie (http_request (http c))). done.
    + field_of (λ c, user_agent (http_request (http c))). done.
  - cbv zeta. assert (auth (http_request (http c)) = from_option (λ v, Some (AuthBearer v)) a (cli_bearer_token cli)) as ->.
    { field_of (λ c, auth (http_request (http c))). done. }
    destruct (cli_bearer_token cli); [done|]. destruct (cli_basic_auth cli); [exact Ha|]. cbn [from_option]. rewrite Ha.
    clear Ha. field_of (λ c, auth (http_request (http c))). done.
  - split_and!.
    + field_of retry. done.
    + field_of connect_timeout_secs. done.
    + field_of storage_backend. done.
    + field_of progress_throttle. done.
    + field_of file_conflict_strategy. done.
    + field_of log_level. done.
    + field_of p2p. done.
Qed.

Definition start_config (f : fs) (cli : Cli) : res Config :=
  match cli_config cli with
  | Some path => result_map_err error_of_load (from_file toml_from_str f path)
  | None => Ok Config_default
  end.

Lemma build_config_inv f cli c : build_config f cli = Ok c →
  config_valid c ∧ ∃ c1 c0, start_config f cli = Ok c1 ∧ apply_env_overrides env c1 = (Ok tt, c0) ∧
    options_applied cli c0 c.
Proof.
  unfold build_config. intros (c1 & H1 & Hc)%result_bind_Ok. apply result_bind_Ok in Hc as (c2 & H2 & Hc).
  apply result_bind_Ok in Hc as (c3 & H3 & Hc). apply result_bind_Ok in Hc as ([] & Hv & [= <-]).
  split; [apply validate_spec; by destruct (validate c3) as [[]|]|]. exists c1, c2. split; [exact H1|].
  split; [by destruct (apply_env_overrides env c1) as [[[]|] c']; [injection H2 as ->|]|].
  apply apply_options_ok. by destruct (apply_options cli c2) as [[[]|] c']; [injection H3 as ->|].
Qed.

(** C25. The configuration the program runs with. It is valid; and it is that of the file (or the
    defaults), overridden by the environment, overridden by the options of the command line: every
    option that is given is what the configuration says, and nothing else differs. *)
Theorem build_config_spec f cli c : build_config f cli = Ok c →
  config_valid c ∧ ∃ c1 c0, start_config f cli = Ok c1 ∧ apply_env_overrides env c1 = (Ok tt, c0) ∧
    options_applied cli c0 c.
Proof. apply build_config_inv. Qed.
End config.

(** ** Example: eight workers of the environment, two of the command line *)

Definition no_options : Cli :=
  mk_cli None None None None None [] None None None None None None None false false None false None None
    false false false false [] None [].
#[export] Instance Cli_eta : Settable Cli := λ c,
  mk_cli (cli_config c) (cli_workers c) (cli_max_concurrent c) (cli_download_dir c)
    (cli_rate_limit_kib_per_sec c) (cli_headers c) (cli_cookie c) (cli_user_agent c) (cli_basic_auth c)
    (cli_bearer_token c) (cli_http_proxy c) (cli_https_proxy c) (cli_no_proxy c) (cli_no_env_proxy c)
    (cli_cookie_store c) (cli_cookie_jar c) (cli_insecure_tls c) (cli_ca_cert c) (cli_client_identity c)
    (cli_shuffle_tasks c) (cli_verbose c) (cli_json c) (cli_interactive c) (cli_urls_file c)
    (cli_completion_hook c) (cli_urls c).
Definition example_env (key : string) : option string :=
  if String.eqb key "PARADOWN_WORKERS" then Some "8" else None.
Definition example_options : Cli := no_options <| cli_workers := Some 2 |> <| cli_headers := ["A: b"] |>.
Definition no_toml (text : string) : result ConfigFile string := Err "no file".

Lemma build_config_spec_witness :
  ∃ c, build_config no_toml example_env fs_empty example_options = Ok c ∧ config_valid c ∧
    segments_per_task c = 2.
Proof.
  destruct (build_config no_toml example_env fs_empty example_options) as [c|] eqn:E; [|vm_compute in E; done].
  exists c. split; [done|]. destruct (build_config_spec _ _ _ _ _ E) as (Hv & c1 & c0 & _ & _ & Ho).
  split; [exact Hv|]. exact (oa_workers _ _ _ Ho).
Defined.
