(* ===== verification/Cli.v ===== *)
(** * The command line ([src/src/cli_app/mod.rs], [src/src/main.rs])

    The program around the library: what it does with the URLs it is given, the
    commands that are typed while it runs, and the summary and exit code at the
    end.  The manager's tasks are those of any
    [TaskSystem] with snapshots; the terminal is the texts that are printed. *)

From S2P Require Import Prelude Text Float Status Effect Source Piece Files Checksum Manifest Planner Torrent Config Task Speed Mapping Session RateLimiter Coordinator CoordinatorSteps Commands Options.

(** What the command line uses of the tasks besides what the manager does. *)
Class SessionSystem (W : Type) `{TaskSystem W} := {
  sys_snapshot : W → Z → option SessionSnapshot;    (* [Session::snapshot] of a task of the map *)
  sys_add_download : DownloadSpec → eff W Z         (* [Manager::add_download] *)
}.

(** ** Texts of numbers *)

(** [src/src/cli_app/mod.rs:1054-1054], [format_bytes::UNITS]. *)
Definition UNITS : list string := ["B"; "KiB"; "MiB"; "GiB"; "TiB"].
(** [src/src/cli_app/mod.rs:1058-1061], [format_bytes (while loop)]. The units that are left, from the
    one that [value] is in. *)
Fixpoint scale_bytes (value : f64) (units : list string) : f64 * string :=
  match units with
  | [] => (value, "")
  | unit_ :: rest =>
      match rest with
      | [] => (value, unit_)
      | _ => if f64_le (f64_of 1024) value then scale_bytes (f64_div value (f64_of 1024)) rest else (value, unit_)
      end
  end.
(** [src/src/cli_app/mod.rs:1053-1068], [format_bytes]. *)
Definition format_bytes (bytes : Z) : string :=
  let '(value, unit_) := scale_bytes (f64_of bytes) UNITS in
  if String.eqb unit_ "B" then show_u64 bytes +:+ " " +:+ unit_
  else show_f64 1 value +:+ " " +:+ unit_.
(** [src/src/cli_app/mod.rs:1070-1076], [format_total_summary]. *)
Definition format_total_summary (known_total_size : Z) (has_unknown_total : bool) : string :=
  if negb has_unknown_total then format_bytes known_total_size
  else if known_total_size =? 0 then "unknown"
  else format_bytes known_total_size +:+ " + unknown".
(** [src/src/cli_app/mod.rs:713-719], [format_progress]. *)
Definition format_progress (total_size_known : bool) (downloaded_size total_size : Z) : string :=
  if (negb total_size_known || (total_size =? 0))%bool then "-"
  else show_f64 1 (f64_mul (f64_div (f64_of downloaded_size) (f64_of total_size)) (f64_of 100)) +:+ "%".
(** [src/src/cli_app/mod.rs:721-727], [format_snapshot_total]. *)
Definition format_snapshot_total (total_size_known : bool) (total_size : Z) : string :=
  if total_size_known then format_bytes total_size else "unknown".

Example cli_texts : format_bytes 1023 = "1023 B" ∧ format_bytes 1536 = "1.5 KiB" ∧
  format_bytes 1125899906842624 = "1024.0 TiB" ∧ format_progress true 1 3 = "33.3%" ∧
  format_progress true 5 0 = "-" ∧ format_total_summary 0 true = "unknown".
Proof. by vm_compute. Qed.


(** ** What is said of a task *)

(** [src/src/cli_app/mod.rs:680-711], [format_status_line]. *)
Definition format_status_line (snapshot : SessionSnapshot) : string :=
  let progress := format_progress (sn_total_size_known snapshot) (sn_downloaded_size snapshot)
    (sn_total_size snapshot) in
  let piece_label :=
    if 0 <? sn_piece_count snapshot
    then " pieces:" +:+ show_u64 (sn_completed_pieces snapshot) +:+ "/" +:+ show_u64 (sn_piece_count snapshot)
    else "" in
  "#" +:+ show_u64 (sn_id snapshot) +:+ " " +:+ sn_status snapshot +:+ " " +:+ progress +:+ " " +:+
  format_bytes (sn_downloaded_size snapshot) +:+ "/" +:+
  format_snapshot_total (sn_total_size_known snapshot) (sn_total_size snapshot) +:+ piece_label +:+ " " +:+
  sn_trace_id snapshot +:+ " " +:+
  unwrap_or (unwrap_or (sn_locator snapshot) (sn_primary_source_locator snapshot)) (sn_file_name snapshot).

(** [src/src/cli_app/mod.rs:729-751], [matches_status_filter]. *)
Definition matches_status_filter (snapshot : SessionSnapshot) (filter : StatusFilter) : bool :=
  let status := sn_status snapshot in
  match filter with
  | FilterAll => true
  | FilterPending => String.eqb status "Pending"
  | FilterPreparing => String.eqb status "Preparing"
  | FilterRunning => String.eqb status "Running"
  | FilterPaused => String.eqb status "Paused"
  | FilterCompleted => String.eqb status "Completed"
  | FilterFailed => starts_with "Failed" status
  | FilterCanceled => String.eqb status "Canceled"
  | FilterDeleted => String.eqb status "Deleted"
  | FilterActive => bool_decide (status ∈ ["Pending"; "Preparing"; "Running"; "Paused"])
  | FilterTerminal => (bool_decide (status ∈ ["Completed"; "Canceled"; "Deleted"]) || starts_with "Failed" status)%bool
  end.

(** What the filters mean. *)
Definition filter_of_status (filter : StatusFilter) (s : Status) : bool :=
  match filter, s with
  | FilterAll, _ | FilterPending, Pending | FilterPreparing, Preparing | FilterRunning, Running
  | FilterPaused, Paused | FilterCompleted, Completed | FilterFailed, Failed _ | FilterCanceled, Canceled
  | FilterDeleted, Deleted => true
  | FilterActive, s => negb (is_terminal s)
  | FilterTerminal, s => is_terminal s
  | _, _ => false
  end.
(** The filters, which look at the text of a status, tell the statuses apart. *)
Lemma filter_spec speeds now t filter :
  matches_status_filter (session_snapshot speeds now t) filter = filter_of_status filter (t_status t).
Proof.
  unfold matches_status_filter. change (sn_status (session_snapshot speeds now t)) with (status_text (t_status t)).
  by destruct (t_status t), filter; vm_compute.
Qed.

Definition TorrentEngineBackend_debug (b : TorrentEngineBackend) : string := "Libtorrent".
Definition TorrentEngineState_debug (s : TorrentEngineState) : string :=
  match s with
  | TSResolvingMetadata => "ResolvingMetadata"
  | TSCheckingFiles => "CheckingFiles"
  | TSDownloading => "Downloading"
  | TSSeeding => "Seeding"
  | TSPaused => "Paused"
  | TSCompleted => "Completed"
  | TSError m => "Error(" +:+ str_debug m +:+ ")"
  end.
Definition scope_debug (s : TorrentDiagnosticScope) : string :=
  match s with
  | DTracker => "Tracker" | DDht => "Dht" | DPeer => "Peer" | DListen => "Listen"
  | DPortMapping => "PortMapping" | DSession => "Session"
  end.
Definition severity_debug (s : TorrentDiagnosticSeverity) : string :=
  match s with SevInfo => "Info" | SevWarning => "Warning" | SevError => "Error" end.
Definition option_debug (o : option Z) : string :=
  match o with Some n => "Some(" +:+ show_u64 n +:+ ")" | None => "None" end.
Definition bool_text (b : bool) : string := if b then "true" else "false".

(** [src/src/cli_app/mod.rs:600-615], [format_torrent_diagnostic]. *)
Definition format_torrent_diagnostic (d : TorrentDiagnosticEvent) : string :=
  String.concat " " (
    [scope_debug (td_scope d) +:+ "/" +:+ severity_debug (td_severity d) +:+ ": " +:+ td_message d] ++
    match td_url d with Some url => ["url=" +:+ url] | None => [] end ++
    match td_endpoint d with Some endpoint => ["endpoint=" +:+ endpoint] | None => [] end ++
    match td_peers d with Some peers => ["peers=" +:+ show_u64 peers] | None => [] end).

(** [src/src/cli_app/mod.rs:573-596], [show_task_messages (torrent)]. *)
Definition torrent_lines (torrent : TorrentSnapshot) : list string :=
  ["  torrent: " +:+ TorrentEngineBackend_debug (tn_backend torrent) +:+ " state=" +:+
     TorrentEngineState_debug (tn_state torrent) +:+ " id=" +:+ tn_external_id torrent +:+ " metadata=" +:+
     bool_text (tn_metadata_ready torrent);
   "  swarm: peers=" +:+ show_u64 (tn_connected_peers torrent) +:+ " seeds=" +:+ show_u64 (tn_seeds torrent) +:+
     " down=" +:+ format_bytes (tn_download_rate_bps torrent) +:+ "/s up=" +:+
     format_bytes (tn_upload_rate_bps torrent) +:+ "/s"] ++
  match tn_name torrent with
  | Some name =>
      ["  torrent_name: " +:+ name +:+ " files=" +:+ option_debug (tn_file_count torrent) +:+ " pieces=" +:+
         option_debug (tn_piece_count torrent)]
  | None => []
  end ++
  match tn_diagnostics torrent with
  | [] => []
  | diagnostics =>
      "  torrent_diagnostics:" ::
        ((λ d, "    " +:+ format_torrent_diagnostic d) <$> take 8 (rev diagnostics))
  end.

(** [src/src/cli_app/mod.rs:533-598], [show_task_messages]. *)
Definition show_snapshot (snapshot : SessionSnapshot) : list string :=
  ["Session #" +:+ show_u64 (sn_id snapshot) +:+ " (" +:+ sn_trace_id snapshot +:+ ")";
   "  status: " +:+ sn_status snapshot;
   "  progress: " +:+ format_bytes (sn_downloaded_size snapshot) +:+ " / " +:+
     format_snapshot_total (sn_total_size_known snapshot) (sn_total_size snapshot) +:+ " (pieces " +:+
     show_u64 (sn_completed_pieces snapshot) +:+ "/" +:+ show_u64 (sn_piece_count snapshot) +:+ ")";
   "  source: " +:+ unwrap_or (sn_locator snapshot) (sn_primary_source_locator snapshot);
   "  sources: " +:+ show_u64 (sn_source_count snapshot);
   "  file: " +:+ unwrap_or "<uninitialized>" (sn_file_path snapshot);
   "  avg_speed: " +:+ format_bytes (ss_average_speed_bps (sn_stats snapshot)) +:+ " retries: " +:+
     show_u64 (ss_retry_count (sn_stats snapshot)) +:+ " resume_hits: " +:+
     show_u64 (ss_resume_hits (sn_stats snapshot)) +:+ "/" +:+ show_u64 (ss_resume_attempts (sn_stats snapshot))] ++
  match sn_torrent snapshot with Some torrent => torrent_lines torrent | None => [] end.

(** ** Commands *)

(** [src/src/cli_app/mod.rs:754-760], [TaskControl]. *)
Inductive TaskControl := ControlPause | ControlResume | ControlRetry | ControlCancel | ControlDelete.
(** [src/src/cli_app/mod.rs:763-771], [TaskControl::verb_label]. *)
Definition verb_label (c : TaskControl) : string :=
  match c with
  | ControlPause => "pause" | ControlResume => "resume" | ControlRetry => "retry"
  | ControlCancel => "cancel" | ControlDelete => "delete"
  end.
(** [src/src/cli_app/mod.rs:773-781], [TaskControl::past_tense_label]. *)
Definition past_tense_label (c : TaskControl) : string :=
  match c with
  | ControlPause => "Paused" | ControlResume => "Resumed" | ControlRetry => "Retried"
  | ControlCancel => "Canceled" | ControlDelete => "Deleted"
  end.
(** [src/src/cli_app/mod.rs:847-859], [status_hint]. *)
Definition status_hint (control : TaskControl) (snapshot : SessionSnapshot) : string :=
  let in_state := String.eqb (sn_status snapshot) in
  match control with
  | ControlRetry =>
      if in_state "Completed" then
        "completed tasks are not retried automatically; use delete <id> and add the URL again if you want a fresh download"
      else ""
  | ControlPause => if in_state "Paused" then "the task is already paused" else ""
  | ControlResume =>
      if in_state "Running" then "the task is already running"
      else if in_state "Completed" then "completed tasks cannot be resumed"
      else ""
  | ControlCancel => if in_state "Canceled" then "the task is already canceled" else ""
  | ControlDelete => if in_state "Deleted" then "the task has already been deleted" else ""
  end.

(** The manager, the rate limit, and the lines that were printed. *)
Record cli_world (W : Type) := mk_cli_world {
  cw_manager : Manager W;
  cw_limiter : DownloadRateLimiter;
  cw_output : list string
}.
Arguments mk_cli_world {W}.
Arguments cw_manager {W}.
Arguments cw_limiter {W}.
Arguments cw_output {W}.
#[export] Instance cli_world_eta {W} : Settable (cli_world W) := λ w,
  mk_cli_world (cw_manager w) (cw_limiter w) (cw_output w).

Section commands.
Context {W : Type} `{SessionSystem W} (now : Z).

(** A command always answers with lines. *)
Abbreviation cmd := (effx Empty_set (cli_world W)).

Definition of_manager {A} (m : eff (Manager W) A) : eff (cli_world W) A := λ w,
  let '(r, g) := m (cw_manager w) in (r, w <| cw_manager := g |>).
Definition tried {A} (m : eff (Manager W) A) : cmd (result A Error) := attempt (of_manager m).
Definition get_all_sessions : cmd (list Z) := gets (λ w, sys_ids (mg_tasks (cw_manager w))).
(** The snapshots of the sessions of these ids. *)
Definition snapshots_of (ids : list Z) : cmd (list SessionSnapshot) :=
  gets (λ w, omap (sys_snapshot (mg_tasks (cw_manager w))) ids).
(** The session of an id, if there is one, by its snapshot. *)
Definition get_session_by_id (i : Z) : cmd (option SessionSnapshot) :=
  gets (λ w, sys_snapshot (mg_tasks (cw_manager w)) i).
(** [sort_by_key(|task| task.id())] *)
Definition sort_ids : list Z → list Z := sort_by Z.leb.

Definition limit_text (limit : option Z) : string :=
  match limit with Some value => show_u64 value +:+ " KiB/s" | None => "unlimited" end.

(** [src/src/cli_app/mod.rs:670-678], [resolve_target_tasks]. *)
Definition resolve_target_tasks (target : CommandTarget) : cmd (list Z) :=
  match target with
  | TargetAll => get_all_sessions
  | TargetTasks ids => gets (λ w, filterb (has_task (cw_manager w)) ids)
  end.

(** [src/src/cli_app/mod.rs:484-504], [status_messages]. *)
Definition status_messages (target : CommandTarget) : cmd (list string) :=
  let! tasks := resolve_target_tasks target in
  match sort_ids tasks with
  | [] => ret ["No matching tasks"]
  | tasks =>
      let! limit := gets (λ w, current_limit_kib_per_sec (cw_limiter w)) in
      let! snapshots := snapshots_of tasks in
      ret (("Rate limit: " +:+ limit_text limit) :: (format_status_line <$> snapshots))
  end.

(** [src/src/cli_app/mod.rs:506-531], [list_messages]. *)
Definition list_messages (filter : StatusFilter) (terminal_only : bool) : cmd (list string) :=
  let! tasks := get_all_sessions in
  let! snapshots := snapshots_of (sort_ids tasks) in
  let listed snapshot :=
    ((negb terminal_only || matches_status_filter snapshot FilterTerminal) &&
     matches_status_filter snapshot filter)%bool in
  match format_status_line <$> filterb listed snapshots with
  | [] => ret ["No matching tasks"]
  | lines => ret lines
  end.

(** [src/src/cli_app/mod.rs:533-536], [show_task_messages (let else)]. *)
Definition show_task_messages (task_id : Z) : cmd (list string) :=
  let! session := get_session_by_id task_id in
  match session with
  | None => ret ["Session #" +:+ show_u64 task_id +:+ " not found"]
  | Some snapshot => ret (show_snapshot snapshot)
  end.

(** [src/src/cli_app/mod.rs:784-845], [describe_task_error]. *)
Definition describe_task_error (task_id : Z) (control : TaskControl) (err : Error) : cmd string :=
  let! ids := get_all_sessions in
  let available_ids := sort_ids ids in
  match err with
  | ETaskNotFound _ =>
      ret ("Failed to " +:+ verb_label control +:+ " task #" +:+ show_u64 task_id +:+
        match available_ids with
        | [] => ": task does not exist and there are no active tasks"
        | _ => ": task does not exist. Available task ids: " +:+ String.concat ", " (show_u64 <$> available_ids)
        end)
  | _ =>
      let! session := get_session_by_id task_id in
      match session with
      | None => ret ("Failed to " +:+ verb_label control +:+ " session #" +:+ show_u64 task_id +:+ ": " +:+
          Error_to_string err)
      | Some snapshot =>
          let hint := status_hint control snapshot in
          let text := "Failed to " +:+ verb_label control +:+ " task #" +:+ show_u64 task_id +:+
            " (current state: " +:+ sn_status snapshot +:+ "): " +:+ Error_to_string err in
          ret (if is_empty hint then text else text +:+ ". Hint: " +:+ hint)
      end
  end.

(** [src/src/cli_app/mod.rs:652-668], [apply_global_command]. *)
Definition apply_global_command (control : TaskControl) : cmd (list string) :=
  let! r := match control with
    | ControlPause => tried pause_all
    | ControlResume => tried resume_all
    | ControlRetry => ret (Ok tt)
    | ControlCancel => tried cancel_all
    | ControlDelete => tried delete_all
    end in
  match r with
  | Ok _ => ret [past_tense_label control +:+ " all tasks"]
  | Err err => ret ["Failed to " +:+ verb_label control +:+ " all tasks: " +:+ Error_to_string err]
  end.

(** The call of the manager for one task. *)
Definition control_task (control : TaskControl) (task_id : Z) : eff (Manager W) Z :=
  match control with
  | ControlPause => pause_task task_id
  | ControlResume => resume_task task_id
  | ControlRetry => start_task task_id
  | ControlCancel => cancel_task task_id
  | ControlDelete => delete_task task_id
  end.
(** [src/src/cli_app/mod.rs:635-648], [apply_task_command (for loop)]. *)
Definition apply_to_task (control : TaskControl) (task_id : Z) : cmd string :=
  let! r := tried (control_task control task_id) in
  match r with
  | Ok _ => ret (past_tense_label control +:+ " task #" +:+ show_u64 task_id)
  | Err err => describe_task_error task_id control err
  end.
(** [src/src/cli_app/mod.rs:617-650], [apply_task_command]. *)
Definition apply_task_command (target : CommandTarget) (control : TaskControl) : cmd (list string) :=
  match target, control with
  | TargetAll, ControlRetry => let! ids := get_all_sessions in map_each (apply_to_task control) ids
  | TargetAll, _ => apply_global_command control
  | TargetTasks ids, _ => map_each (apply_to_task control) ids
  end.

(** [src/src/cli_app/mod.rs:447-470], [execute_command]. *)
Definition execute_command (command : Command) : cmd (list string) :=
  match command with
  | CmdHelp => ret help_lines
  | CmdStatus target => status_messages target
  | CmdList filter => list_messages filter false
  | CmdHistory filter => list_messages filter true
  | CmdShow task_id => show_task_messages task_id
  | CmdPause target => apply_task_command target ControlPause
  | CmdResume target => apply_task_command target ControlResume
  | CmdRetry target => apply_task_command target ControlRetry
  | CmdCancel target => apply_task_command target ControlCancel
  | CmdDelete target => apply_task_command target ControlDelete
  | CmdSetRateLimit limit =>
      modify (λ w, w <| cw_limiter ::= set_limit_kib_per_sec limit now |>) ;;;
      let! limit := gets (λ w, current_limit_kib_per_sec (cw_limiter w)) in
      ret ["Global rate limit set to " +:+ limit_text limit]
  end.

(** [src/src/cli_app/mod.rs:472-482], [emit_messages]. To the terminal, or to the dashboard. *)
Definition emit_messages (messages : list string) : cmd unit :=
  modify (λ w, w <| cw_output ::= λ o, o ++ messages |>).

(** [src/src/cli_app/mod.rs:420-442], [spawn_command_loop (loop)]. The lines that are read; [None] is an
    error of reading, which ends the loop. *)
Fixpoint command_loop (read_error : string) (inputs : list (option string)) : cmd unit :=
  match inputs with
  | [] => ret tt
  | None :: _ => emit_messages ["Failed to read interactive command: " +:+ read_error]
  | Some line :: inputs =>
      let input := trim line in
      (if negb (is_empty input) then
         let! messages := match parse_command input with
           | Ok command => execute_command command
           | Err err => ret [err]
           end in
         emit_messages messages
       else ret tt) ;;;
      command_loop read_error inputs
  end.
(** [src/src/cli_app/mod.rs:401-445], [spawn_command_loop]. *)
Definition spawn_command_loop (read_error : string) (inputs : list (option string)) : cmd unit :=
  emit_messages help_lines ;;; command_loop read_error inputs.
End commands.

(** ** The end of the program *)

(** [src/src/cli_app/mod.rs:862-875], [CompletionSummary]. *)
Record CompletionSummary := mk_summary {
  cs_snapshots : list SessionSnapshot;
  cs_completed : Z;
  cs_failed : Z;
  cs_canceled : Z;
  cs_deleted : Z;
  cs_total_downloaded : Z;
  cs_known_total_size : Z;
  cs_has_unknown_total : bool;
  cs_average_speed_bps : Z;
  cs_retry_count : Z;
  cs_resume_attempts : Z;
  cs_resume_hits : Z
}.
#[export] Instance summary_eta : Settable CompletionSummary := λ s,
  mk_summary (cs_snapshots s) (cs_completed s) (cs_failed s) (cs_canceled s) (cs_deleted s)
    (cs_total_downloaded s) (cs_known_total_size s) (cs_has_unknown_total s) (cs_average_speed_bps s)
    (cs_retry_count s) (cs_resume_attempts s) (cs_resume_hits s).
Definition empty_summary : CompletionSummary := mk_summary [] 0 0 0 0 0 0 false 0 0 0 0.

(** [src/src/cli_app/mod.rs:907-912], [build_completion_summary (match)]. *)
Definition count_status (status : string) (s : CompletionSummary) : CompletionSummary :=
  if String.eqb status "Completed" then s <| cs_completed ::= (λ n, wrap64 (n + 1)) |>
  else if String.eqb status "Canceled" then s <| cs_canceled ::= (λ n, wrap64 (n + 1)) |>
  else if String.eqb status "Deleted" then s <| cs_deleted ::= (λ n, wrap64 (n + 1)) |>
  else if starts_with "Failed" status then s <| cs_failed ::= (λ n, wrap64 (n + 1)) |>
  else s.
(** [src/src/cli_app/mod.rs:894-914], [build_completion_summary (for loop)]. *)
Definition summarize (s : CompletionSummary) (snapshot : SessionSnapshot) : CompletionSummary :=
  let s := s <| cs_total_downloaded ::= λ n, sat_add n (sn_downloaded_size snapshot) |> in
  let s := if sn_total_size_known snapshot
           then s <| cs_known_total_size ::= λ n, sat_add n (sn_total_size snapshot) |>
           else s <| cs_has_unknown_total := true |> in
  let s := s <| cs_average_speed_bps ::= λ n, sat_add n (ss_average_speed_bps (sn_stats snapshot)) |>
             <| cs_retry_count ::= λ n, sat_add n (ss_retry_count (sn_stats snapshot)) |>
             <| cs_resume_attempts ::= λ n, sat_add n (ss_resume_attempts (sn_stats snapshot)) |>
             <| cs_resume_hits ::= λ n, sat_add n (ss_resume_hits (sn_stats snapshot)) |> in
  count_status (sn_status snapshot) s <| cs_snapshots ::= λ l, l ++ [snapshot] |>.

Section run.
Context {W : Type} `{SessionSystem W}.

(** [src/src/cli_app/mod.rs:877-930], [build_completion_summary]. *)
Definition build_completion_summary (g : Manager W) : CompletionSummary :=
  foldl summarize empty_summary (omap (sys_snapshot (mg_tasks g)) (sort_ids (sys_ids (mg_tasks g)))).
End run.

(** [src/src/cli_app/mod.rs:975-981], [exit_code_from_summary]. *)
Definition exit_code_from_summary (summary : CompletionSummary) : Z :=
  if ((0 <? cs_failed summary) || (0 <? cs_canceled summary))%bool then 2 else 0.

(** [src/src/cli_app/mod.rs:1038-1051], [diagnostic_path_for]. *)
Definition diagnostic_path_for (summary : CompletionSummary) (task_id : Z) : string :=
  let download_dir :=
    unwrap_or "." (snapshot ← find_first (λ s, sn_id s =? task_id) (cs_snapshots summary);
                   path ← sn_file_path snapshot; path_parent path) in
  path_join (path_join (path_join download_dir ".paradown") "diagnostics") ("task-" +:+ show_u64 task_id +:+ ".json").

(** [src/src/cli_app/mod.rs:932-956], [print_completion_summary]. The lines. *)
Definition print_completion_summary (summary : CompletionSummary) : list string :=
  ("Final summary: tasks=" +:+ show_u64 (zlen (cs_snapshots summary)) +:+
   " completed=" +:+ show_u64 (cs_completed summary) +:+ " failed=" +:+ show_u64 (cs_failed summary) +:+
   " canceled=" +:+ show_u64 (cs_canceled summary) +:+ " deleted=" +:+ show_u64 (cs_deleted summary) +:+
   " total=" +:+ format_bytes (cs_total_downloaded summary) +:+ " / " +:+
   format_total_summary (cs_known_total_size summary) (cs_has_unknown_total summary) +:+
   " avg_speed=" +:+ format_bytes (cs_average_speed_bps summary) +:+
   " retries=" +:+ show_u64 (cs_retry_count summary) +:+
   " resume_hits=" +:+ show_u64 (cs_resume_hits summary) +:+ "/" +:+ show_u64 (cs_resume_attempts summary)) ::
  (cs_snapshots summary ≫= λ snapshot,
    ("  " +:+ format_status_line snapshot) ::
    (if starts_with "Failed" (sn_status snapshot)
     then ["    diagnostic: " +:+ diagnostic_path_for summary (sn_id snapshot)] else [])).

(** [src/src/cli_app/mod.rs:1018-1031], [run_completion_hook (environment)]. *)
Definition hook_environment (summary : CompletionSummary) : list (string * string) :=
  [("PARADOWN_TOTAL_TASKS", show_u64 (zlen (cs_snapshots summary)));
   ("PARADOWN_COMPLETED", show_u64 (cs_completed summary));
   ("PARADOWN_FAILED", show_u64 (cs_failed summary));
   ("PARADOWN_CANCELED", show_u64 (cs_canceled summary));
   ("PARADOWN_DELETED", show_u64 (cs_deleted summary));
   ("PARADOWN_TOTAL_DOWNLOADED", show_u64 (cs_total_downloaded summary));
   ("PARADOWN_TOTAL_SIZE", show_u64 (cs_known_total_size summary));
   ("PARADOWN_TOTAL_SIZE_KNOWN", bool_text (negb (cs_has_unknown_total summary)))].
(** [src/src/cli_app/mod.rs:1002-1036], [run_completion_hook]. The command that is run, with its
    environment, on a system other than Windows. *)
Definition run_completion_hook (config : Config) (summary : CompletionSummary)
    : option (list string * list (string * string)) :=
  match completion_hook config with
  | None => None
  | Some command => Some (["sh"; "-c"; command], hook_environment summary)
  end.

(** [src/src/cli_app/mod.rs:983-1000], [collect_urls]. *)
Definition collect_urls (f : fs) (cli : Cli) : res (list string) :=
  let fix files (paths : list string) (urls : list string) : res (list string) :=
    match paths with
    | [] => Ok urls
    | path :: paths =>
        let? content := result_map_err
          (λ err, EConfigError ("failed to read " +:+ path +:+ ": " +:+ io_error_to_string err))
          (fs_read_to_string f path) in
        files paths (urls ++ filterb (λ line, negb (is_empty line) && negb (starts_with "#" line))%bool
          (trim <$> lines content))
    end in
  files (cli_urls_file cli) (cli_urls cli).

(** [src/src/cli_app/mod.rs:355-363], [prepare_urls]. The shuffle of the random numbers is given. *)
Definition prepare_urls (shuffle : list string → list string) (urls : list string) (shuffle_tasks : bool)
    : list string :=
  if shuffle_tasks then shuffle urls else urls.

(** [src/src/main.rs:17-28], [map_error_to_exit_code]. *)
Definition map_error_to_exit_code (err : Error) : Z :=
  match err with
  | EConfigError _ | EInvalidUrl _ | EUrlParseError _ | EParse _ | EHeader _ => 64
  | EUnsupportedProtocol _ => 65
  | ETaskNotFound _ | ECanceled _ => 2
  | _ => 1
  end.

Section program.
Context {W : Type} `{SessionSystem W} `{UrlLib} (config : Config) (shuffle : list string → list string).

(** Adding a task; one with the same id is replaced in the map. *)
Definition add_download_task (spec : DownloadSpec) : eff (Manager W) Z := λ g,
  let '(r, w) := sys_add_download spec (mg_tasks g) in
  (r, g <| mg_tasks := w |> <| mg_orphans ::= λ n, n + (held (mg_tasks g) - held w) |>).

(** [src/src/cli_app/mod.rs:147-152], [run (for loop)]. *)
Definition download_url (url : string) : eff (Manager W) unit :=
  let! spec := lift (spec_parse url) in
  let! task_id := add_download_task spec in
  start_task task_id ;;;
  ret tt.

(** [src/src/cli_app/mod.rs:140-155], [run (downloads)]. The summary of the tasks; [rounds] is what
    happens while it waits. *)
Definition run_downloads (f : fs) (cli : Cli) (rounds : list (eff (Manager W) unit)) : eff (Manager W) CompletionSummary :=
  let! urls := lift (collect_urls f cli) in
  match urls with
  | [] => throw (EConfigError "at least one URL must be provided via --urls or --urls-file")
  | _ =>
      for_each download_url (prepare_urls shuffle urls (shuffle_tasks config)) ;;;
      wait_for_all_tasks rounds ;;;
      gets build_completion_summary
  end.

(** [src/src/cli_app/mod.rs:108-187], [run]. Its exit code or its error, with [src/src/main.rs]; the
    manager is made before. *)
Definition exit_code (r : res CompletionSummary) : Z :=
  match r with
  | Ok summary => exit_code_from_summary summary
  | Err err => map_error_to_exit_code err
  end.
End program.
