(* ===== verification/Render.v ===== *)
(** * What is displayed while the program runs ([src/src/cli_app/render.rs])

    Three reporters look at the manager's tasks from time to time: the dashboard
    of a terminal, lines of text, and lines of JSON.  Each keeps the sizes it has
    seen, to tell the speeds, and the frames that it wrote are texts. *)

From S2P Require Import Prelude Text Float Status Effect Source Torrent Config Task Speed Session RateLimiter Coordinator Cli.

(** [src/src/cli_app/render.rs:11-11], [MAX_MESSAGES]. *)
Definition MAX_MESSAGES : Z := 8.
(** [src/src/cli_app/render.rs:12-12], [BAR_WIDTH]. *)
Definition BAR_WIDTH : Z := 24.

Definition nl : string := String (Chr.of_code 10) "".
Definition escape (s : string) : string := String (Chr.of_code 27) s.
Definition quoted (s : string) : string := String (Chr.of_code 34) s +:+ String (Chr.of_code 34) "".

(** ** Parts of a frame *)

(** [src/src/cli_app/render.rs:517-522], [SpeedSample]. Instants in nanoseconds. *)
Record SpeedSample := mk_sample { sm_downloaded_size : Z; sm_observed_at : Z; sm_smoothed_bps : f64 }.
(** [src/src/cli_app/render.rs:524-527], [RenderState]. *)
Record RenderState := mk_render_state { task_speeds : gmap Z f64; total_speed_bps : f64 }.

(** [src/src/cli_app/render.rs:759-765], [progress_ratio]. *)
Definition progress_ratio (s : SessionSnapshot) : option f64 :=
  if (negb (sn_total_size_known s) || (sn_total_size s =? 0))%bool then None
  else Some (f64_div (f64_of (sn_downloaded_size s)) (f64_of (sn_total_size s))).
(** [src/src/cli_app/render.rs:767-771], [format_progress_percent]. *)
Definition format_progress_percent (s : SessionSnapshot) : string :=
  match progress_ratio s with
  | Some ratio => show_f64 1 (f64_mul ratio (f64_of 100)) +:+ "%"
  | None => "-"
  end.
(** [src/src/cli_app/render.rs:850-865], [format_bytes]. The same as in mod.rs. *)
Definition format_bytes (bytes : Z) : string :=
  let '(value, unit_) := scale_bytes (f64_of bytes) UNITS in
  if String.eqb unit_ "B" then show_u64 bytes +:+ " " +:+ unit_
  else show_f64 1 value +:+ " " +:+ unit_.
(** [src/src/cli_app/render.rs:773-779], [format_snapshot_total]. *)
Definition format_snapshot_total (s : SessionSnapshot) : string :=
  if sn_total_size_known s then format_bytes (sn_total_size s) else "unknown".
(** [src/src/cli_app/render.rs:803-809], [format_total_label]. *)
Definition format_total_label (known_total_size : Z) (has_unknown_total : bool) : string :=
  if has_unknown_total then
    if known_total_size =? 0 then "unknown" else format_bytes known_total_size +:+ " + unknown"
  else format_bytes known_total_size.
(** [src/src/cli_app/render.rs:811-816], [progress_bar]. *)
Definition progress_bar (progress : f64) (width : Z) : string :=
  let bounded := f64_clamp (f64_of 0) (f64_of 1) progress in
  let filled := f64_to_u64 (f64_round (f64_mul bounded (f64_of width))) in
  let empty := sat_sub width filled in
  "[" +:+ String.concat "" (repeat "=" (Z.to_nat filled)) +:+ spaces empty +:+ "]".
(** [src/src/cli_app/render.rs:818-834], [truncate_middle]. *)
Definition truncate_middle (value : string) (max_len : Z) : string :=
  if char_count value <=? max_len then value
  else
    let keep_each_side := Z.to_nat (sat_sub max_len 3 / 2) in
    let prefix := String.concat "" (take keep_each_side (chars value)) in
    let suffix := String.concat "" (rev (take keep_each_side (rev (chars value)))) in
    prefix +:+ "..." +:+ suffix.
(** [src/src/cli_app/render.rs:836-840], [format_rate_limit]. *)
Definition format_rate_limit (rate_limit_kib_per_sec : option Z) : string :=
  match rate_limit_kib_per_sec with Some value => show_u64 value +:+ " KiB/s" | None => "unlimited" end.
(** [src/src/cli_app/render.rs:842-848], [format_speed]. *)
Definition format_speed (speed_bps : f64) : string :=
  if f64_le speed_bps (f64_of 0) then "-" else format_bytes (f64_to_u64 (f64_round speed_bps)) +:+ "/s".

(** [src/src/cli_app/render.rs:781-786], [AggregateTotals]. *)
Record AggregateTotals := mk_totals {
  total_downloaded : Z;
  known_total_size : Z;
  has_unknown_total : bool
}.
(** [src/src/cli_app/render.rs:790-799], [aggregate_totals (for loop)]. *)
Definition add_totals (t : AggregateTotals) (s : SessionSnapshot) : AggregateTotals :=
  mk_totals (sat_add (total_downloaded t) (sn_downloaded_size s))
    (if sn_total_size_known s then sat_add (known_total_size t) (sn_total_size s) else known_total_size t)
    (if sn_total_size_known s then has_unknown_total t else true).
(** [src/src/cli_app/render.rs:788-801], [aggregate_totals]. *)
Definition aggregate_totals : list SessionSnapshot → AggregateTotals := foldl add_totals (mk_totals 0 0 false).

(** [src/src/cli_app/render.rs:867-874], [StatusSummary]. *)
Record StatusSummary := mk_statuses { n_pending : Z; n_preparing : Z; n_running : Z; n_paused : Z; n_terminal : Z }.
#[export] Instance StatusSummary_eta : Settable StatusSummary := λ s,
  mk_statuses (n_pending s) (n_preparing s) (n_running s) (n_paused s) (n_terminal s).
(** [src/src/cli_app/render.rs:878-888], [summarize_statuses (for loop)]. *)
Definition count_one (summary : StatusSummary) (s : SessionSnapshot) : StatusSummary :=
  let status := sn_status s in
  let more n := wrap64 (n + 1) in
  if String.eqb status "Pending" then summary <| n_pending ::= more |>
  else if String.eqb status "Preparing" then summary <| n_preparing ::= more |>
  else if String.eqb status "Running" then summary <| n_running ::= more |>
  else if String.eqb status "Paused" then summary <| n_paused ::= more |>
  else if bool_decide (status ∈ ["Completed"; "Canceled"; "Deleted"]) then summary <| n_terminal ::= more |>
  else if starts_with "Failed" status then summary <| n_terminal ::= more |>
  else summary.
(** [src/src/cli_app/render.rs:876-890], [summarize_statuses]. *)
Definition summarize_statuses : list SessionSnapshot → StatusSummary := foldl count_one (mk_statuses 0 0 0 0 0).

(** The label of a task: its file name or a locator. *)
Definition task_label (s : SessionSnapshot) : string :=
  unwrap_or (unwrap_or (sn_locator s) (sn_primary_source_locator s)) (sn_file_name s).
(** [src/src/cli_app/render.rs:726-757], [render_task_line]. *)
Definition render_task_line (s : SessionSnapshot) (speed_bps : f64) : string :=
  let percent := unwrap_or (f64_of 0) (progress_ratio s) in
  let bar := progress_bar percent BAR_WIDTH in
  let label := truncate_middle (task_label s) 30 in
  let piece_label :=
    if 0 <? sn_piece_count s
    then " " +:+ show_u64 (sn_completed_pieces s) +:+ "/" +:+ show_u64 (sn_piece_count s) +:+ " pieces"
    else "" in
  "#" +:+ pad_left_aligned 3 (show_u64 (sn_id s)) +:+ " " +:+ pad_left_aligned 10 (sn_status s) +:+ " " +:+ bar +:+
  " " +:+ pad_right_aligned 6 (format_progress_percent s) +:+ " " +:+
  pad_right_aligned 10 (format_bytes (sn_downloaded_size s)) +:+ " / " +:+
  pad_left_aligned 12 (format_snapshot_total s) +:+ " " +:+ pad_right_aligned 10 (format_speed speed_bps) +:+
  piece_label +:+ "  " +:+ label.

Definition speed_of (r : RenderState) (s : SessionSnapshot) : f64 := unwrap_or (f64_of 0) (task_speeds r !! sn_id s).

(** [src/src/cli_app/render.rs:540-612], [render_dashboard]. *)
Definition render_dashboard (snapshots : list SessionSnapshot) (render_state : RenderState) (messages : list string)
    (rate_limit_kib_per_sec : option Z) (interactive final_frame : bool) : string :=
  let status_summary := summarize_statuses snapshots in
  let totals := aggregate_totals snapshots in
  escape "[2J" +:+ escape "[H" +:+ "paradown download dashboard" +:+ nl +:+
  "Tasks:" +:+ show_u64 (zlen snapshots) +:+ " running:" +:+ show_u64 (n_running status_summary) +:+
  " preparing:" +:+ show_u64 (n_preparing status_summary) +:+ " paused:" +:+ show_u64 (n_paused status_summary) +:+
  " pending:" +:+ show_u64 (n_pending status_summary) +:+ " finished:" +:+ show_u64 (n_terminal status_summary) +:+
  "  Total:" +:+ format_bytes (total_downloaded totals) +:+ " / " +:+
  format_total_label (known_total_size totals) (has_unknown_total totals) +:+
  "  Speed:" +:+ format_speed (total_speed_bps render_state) +:+ "  Rate:" +:+
  format_rate_limit rate_limit_kib_per_sec +:+ nl +:+
  (if interactive then
     "Commands: help | status [all|id ...] | pause [all|id ...] | resume [all|id ...] | retry [all|id ...] | cancel [all|id ...] | delete [all|id ...] | limit <kib|off>"
   else "Run with --interactive to control tasks while the dashboard is visible.") +:+ nl +:+
  (if final_frame then "State: all tasks are in terminal states." else "State: live refresh every 250ms.") +:+ nl +:+
  "----------------------------------------------------------------------------------------------------" +:+ nl +:+
  match snapshots with
  | [] => "No tasks" +:+ nl
  | _ => String.concat "" ((λ s, render_task_line s (speed_of render_state s) +:+ nl) <$> snapshots)
  end +:+
  nl +:+ "Messages:" +:+ nl +:+
  match messages with
  | [] => "  (no recent messages)" +:+ nl
  | _ => String.concat "" ((λ m, "  " +:+ m +:+ nl) <$> messages)
  end.

(** [src/src/cli_app/render.rs:641-658], [render_plain_progress (for loop)]. *)
Definition plain_task_line (s : SessionSnapshot) (speed_bps : f64) : string :=
  "  #" +:+ show_u64 (sn_id s) +:+ " " +:+ pad_left_aligned 10 (sn_status s) +:+ " " +:+
  pad_right_aligned 6 (format_progress_percent s) +:+ " " +:+
  pad_right_aligned 10 (format_bytes (sn_downloaded_size s)) +:+ " / " +:+
  pad_left_aligned 12 (format_snapshot_total s) +:+ " " +:+ pad_right_aligned 10 (format_speed speed_bps) +:+ " " +:+
  task_label s +:+ nl.
(** [src/src/cli_app/render.rs:614-661], [render_plain_progress]. *)
Definition render_plain_progress (snapshots : list SessionSnapshot) (render_state : RenderState)
    (rate_limit_kib_per_sec : option Z) (final_frame : bool) : string :=
  let status_summary := summarize_statuses snapshots in
  let totals := aggregate_totals snapshots in
  (if final_frame then "final" else "progress") +:+ " tasks=" +:+ show_u64 (zlen snapshots) +:+
  " running=" +:+ show_u64 (n_running status_summary) +:+ " preparing=" +:+ show_u64 (n_preparing status_summary) +:+
  " paused=" +:+ show_u64 (n_paused status_summary) +:+ " pending=" +:+ show_u64 (n_pending status_summary) +:+
  " finished=" +:+ show_u64 (n_terminal status_summary) +:+
  " total=" +:+ format_bytes (total_downloaded totals) +:+ " / " +:+
  format_total_label (known_total_size totals) (has_unknown_total totals) +:+
  " speed=" +:+ format_speed (total_speed_bps render_state) +:+ " rate=" +:+
  format_rate_limit rate_limit_kib_per_sec +:+ nl +:+
  String.concat "" ((λ s, plain_task_line s (speed_of render_state s)) <$> snapshots) +:+ nl.

(** [src/src/cli_app/render.rs:669-674], [JsonTaskProgress]. *)
Record JsonTaskProgress := mk_json_task { jt_snapshot : SessionSnapshot; jt_speed_bps : Z }.
(** [src/src/cli_app/render.rs:676-682], [JsonProgressFrame]. *)
Record JsonProgressFrame := mk_json_frame {
  jf_kind : string;
  jf_rate_limit_kib_per_sec : option Z;
  jf_total_speed_bps : Z;
  jf_tasks : list JsonTaskProgress
}.
(** [src/src/cli_app/render.rs:663-704], [render_json_progress]. With the text that serde_json makes of a
    frame. *)
Definition render_json_progress (frame_to_string : JsonProgressFrame → option string)
    (snapshots : list SessionSnapshot) (render_state : RenderState)
    (rate_limit_kib_per_sec : option Z) (final_frame : bool) : string :=
  let frame := mk_json_frame (if final_frame then "final" else "progress") rate_limit_kib_per_sec
    (f64_to_u64 (f64_round (total_speed_bps render_state)))
    ((λ s, mk_json_task s (f64_to_u64 (f64_round (speed_of render_state s)))) <$> snapshots) in
  unwrap_or ("{" +:+ quoted "kind" +:+ ":" +:+ quoted "error" +:+ "}") (frame_to_string frame) +:+ nl.

(** [src/src/cli_app/render.rs:706-724], [plain_signature]. *)
Definition plain_signature (snapshots : list SessionSnapshot) (rate_limit_kib_per_sec : option Z)
    (final_frame : bool) : string :=
  "rate=" +:+ option_debug rate_limit_kib_per_sec +:+ ";final=" +:+ bool_text final_frame +:+ ";" +:+
  String.concat "" ((λ s,
    show_u64 (sn_id s) +:+ ":" +:+ sn_status s +:+ ":" +:+ show_u64 (sn_downloaded_size s) +:+ ":" +:+
    show_u64 (sn_total_size s) +:+ ":" +:+ bool_text (sn_total_size_known s) +:+ ":" +:+
    show_u64 (sn_completed_pieces s) +:+ ";") <$> snapshots).

Example render_texts :
  format_bytes 512 = "512 B" ∧ format_bytes 2048 = "2.0 KiB" ∧
  progress_bar (f64_lit 1 2) 4 = "[==  ]" ∧ progress_bar (f64_of 7) 4 = "[====]" ∧
  truncate_middle "abcdefghijklmnopqrstuvwxyz" 10 = "abc...xyz" ∧
  format_total_label 20 true = "20 B + unknown" ∧ format_speed (f64_lit 5 2) = "3 B/s".
Proof. by vm_compute. Qed.

(** ** Speeds

    Each reporter has the sizes it saw last, and the speed of a task is what was
    downloaded since. *)

(** What a reporter sees when it renders: the tasks, in the order of their ids, the rate limit, and the
    time. *)
Record view := mk_view { vw_snapshots : list SessionSnapshot; vw_rate_limit : option Z; vw_now : Z }.
(** [src/src/cli_app/render.rs:529-538], [collect_snapshots]. *)
Definition collect_snapshots {W} `{SessionSystem W} (g : Manager W) : list SessionSnapshot :=
  omap (sys_snapshot (mg_tasks g)) (sort_ids (sys_ids (mg_tasks g))).

(** The state of the loop over the snapshots: the samples, the speeds and the ids. *)
Record sampling := mk_sampling { sg_samples : gmap Z SpeedSample; sg_speeds : gmap Z f64; sg_total : f64; sg_active : list Z }.
(** One snapshot, with the speed made of the sample before and the speed since then. *)
Definition sample_one (smooth : f64 → f64 → f64) (now : Z) (a : sampling) (s : SessionSnapshot) : sampling :=
  let speed_bps :=
    unwrap_or (f64_of 0) (
      previous ← sg_samples a !! sn_id s;
      let elapsed := as_secs_f64 (sat_sub now (sm_observed_at previous)) in
      if f64_le elapsed f64_epsilon then None
      else
        let delta := sat_sub (sn_downloaded_size s) (sm_downloaded_size previous) in
        Some (smooth (sm_smoothed_bps previous) (f64_div (f64_of delta) elapsed))) in
  mk_sampling (<[sn_id s := mk_sample (sn_downloaded_size s) now speed_bps]> (sg_samples a))
    (<[sn_id s := speed_bps]> (sg_speeds a)) (f64_add (sg_total a) speed_bps) (sg_active a ++ [sn_id s]).
(** All the snapshots; the samples of other tasks are dropped. *)
Definition sample_all (smooth : f64 → f64 → f64) (samples : gmap Z SpeedSample) (v : view)
    : RenderState * gmap Z SpeedSample :=
  let a := foldl (sample_one smooth (vw_now v)) (mk_sampling samples ∅ (f64_of 0) []) (vw_snapshots v) in
  (mk_render_state (sg_speeds a) (sg_total a),
   filter (λ e, e.1 ∈ sg_active a) (sg_samples a)).

(** An event that was received, or the reason why none was. *)
Inductive RecvError := RecvLagged (skipped : Z) | RecvClosed.
(** What ends a wait of [tokio::select!]: the interval, the channel of events, a message of the command
    loop, or a change of the signal to stop ([None] when its sender is gone). *)
Inductive wakeup := Ticked | Received (event : result Event RecvError) | Messaged (m : string) | Signalled (stop : option bool).
Definition stops (stop : option bool) : bool := unwrap_or true stop.

(** ** The dashboard *)
Module Dashboard.

(** [src/src/cli_app/render.rs:98-104], [DashboardRunner]. With the frames that were written; the tasks
    and the messages come with what happens. *)
Record DashboardRunner := mk_dashboard {
  interactive : bool;
  messages : list string;
  speed_state : gmap Z SpeedSample;
  written : list string
}.
#[export] Instance DashboardRunner_eta : Settable DashboardRunner := λ d,
  mk_dashboard (interactive d) (messages d) (speed_state d) (written d).

(** [src/src/cli_app/render.rs:119-138], [DashboardRunner::new]. *)
Definition new (interactive_ : bool) : DashboardRunner :=
  mk_dashboard interactive_
    (if interactive_ then
       ["Interactive mode enabled. Type commands and press Enter; the dashboard will keep refreshing."]
     else []) ∅ [].

(** [src/src/cli_app/render.rs:201-203], [push_message (while loop)]. *)
Fixpoint pop_to (l : list string) : list string :=
  match l with
  | [] => []
  | _ :: l' => if MAX_MESSAGES <=? zlen l then pop_to l' else l
  end.
(** [src/src/cli_app/render.rs:196-205], [DashboardRunner::push_message]. *)
Definition push_message (message : string) (d : DashboardRunner) : DashboardRunner :=
  if is_empty (trim message) then d else d <| messages ::= λ l, pop_to l ++ [message] |>.

(** The message of an event, if there is one. *)
Definition event_message (event : result Event RecvError) : option string :=
  let task id (words : string) := Some ("Task #" +:+ show_u64 id +:+ " " +:+ words) in
  match event with
  | Ok (EvStart id) => task id "started"
  | Ok (EvPause id) => task id "paused"
  | Ok (EvComplete id) => task id "completed"
  | Ok (EvCancel id) => task id "canceled"
  | Ok (EvDelete id) => task id "deleted"
  | Ok (EvError id err) => task id ("failed: " +:+ Error_to_string err)
  | Ok (EvTorrentDiagnostic id diagnostic) =>
      task id ("torrent " +:+ scope_debug (td_scope diagnostic) +:+ ": " +:+ td_message diagnostic)
  | Ok (EvPending _) | Ok (EvPreparing _) | Ok (EvProgress _ _ _) => None
  | Err (RecvLagged skipped) =>
      Some ("Dashboard skipped " +:+ show_u64 skipped +:+ " events because rendering lagged behind")
  | Err RecvClosed => Some "Event stream closed"
  end.
(** [src/src/cli_app/render.rs:172-194], [DashboardRunner::handle_event]. *)
Definition handle_event (event : result Event RecvError) (d : DashboardRunner) : DashboardRunner :=
  match event_message event with Some m => push_message m d | None => d end.

(** [src/src/cli_app/render.rs:224-272], [DashboardRunner::sample_render_state]. *)
Definition sample_render_state : gmap Z SpeedSample → view → RenderState * gmap Z SpeedSample :=
  sample_all (λ smoothed_bps sample_speed,
    if f64_lt (f64_of 0) smoothed_bps
    then f64_add (f64_mul smoothed_bps (f64_lit 6 10)) (f64_mul sample_speed (f64_lit 4 10))
    else sample_speed).

(** [src/src/cli_app/render.rs:207-222], [DashboardRunner::render]. *)
Definition render (final_frame : bool) (v : view) (d : DashboardRunner) : DashboardRunner :=
  let '(render_state, samples) := sample_render_state (speed_state d) v in
  let frame := render_dashboard (vw_snapshots v) render_state (messages d) (vw_rate_limit v) (interactive d) final_frame in
  d <| speed_state := samples |> <| written ::= λ l, l ++ [frame] |>.

(** [src/src/cli_app/render.rs:148-169], [DashboardRunner::run (loop)]. What happens, each time with what
    there is to see then. *)
Fixpoint loop (happened : list (wakeup * view)) (d : DashboardRunner) : DashboardRunner :=
  match happened with
  | [] => d
  | (Ticked, v) :: happened => loop happened (render false v d)
  | (Received event, v) :: happened => loop happened (render false v (handle_event event d))
  | (Messaged m, v) :: happened => loop happened (render false v (push_message m d))
  | (Signalled stop, v) :: happened =>
      if stops stop then render true v (push_message "All tasks reached terminal states." d)
      else loop happened d
  end.
(** [src/src/cli_app/render.rs:140-170], [DashboardRunner::run]. With [src/src/cli_app/render.rs:892-918],
    [TerminalGuard]: the cursor is hidden meanwhile, when the output is a terminal. *)
Definition run (is_terminal : bool) (first : view) (happened : list (wakeup * view)) (d : DashboardRunner)
    : DashboardRunner :=
  let d := if is_terminal then d <| written ::= λ l, l ++ [escape "[?25l"] |> else d in
  let d := loop happened (render false first d) in
  if is_terminal then d <| written ::= λ l, l ++ [escape "[?25h" +:+ nl] |> else d.
End Dashboard.

(** The events after which lines are written at once. *)
Definition noteworthy (event : result Event RecvError) : bool :=
  match event with
  | Ok (EvStart _) | Ok (EvPause _) | Ok (EvComplete _) | Ok (EvCancel _) | Ok (EvDelete _)
  | Ok (EvError _ _) | Ok (EvTorrentDiagnostic _ _) | Err (RecvLagged _) | Err RecvClosed => true
  | Ok (EvPending _) | Ok (EvPreparing _) | Ok (EvProgress _ _ _) => false
  end.

(** ** Lines of text *)
Module PlainText.

(** [src/src/cli_app/render.rs:106-110], [PlainTextRunner]. With the frames that were written. *)
Record PlainTextRunner := mk_plain {
  speed_state : gmap Z SpeedSample;
  last_signature : option string;
  written : list string
}.
(** [src/src/cli_app/render.rs:276-282], [PlainTextRunner::new]. *)
Definition new : PlainTextRunner := mk_plain ∅ None [].
(** [src/src/cli_app/render.rs:311-324], [PlainTextRunner::handle_event]. *)
Definition handle_event : result Event RecvError → bool := noteworthy.
(** [src/src/cli_app/render.rs:351-393], [PlainTextRunner::sample_render_state]. *)
Definition sample_render_state : gmap Z SpeedSample → view → RenderState * gmap Z SpeedSample :=
  sample_all (λ _ sample_speed, sample_speed).
(** [src/src/cli_app/render.rs:326-349], [PlainTextRunner::render]. *)
Definition render (final_frame : bool) (v : view) (p : PlainTextRunner) : PlainTextRunner :=
  let '(render_state, samples) := sample_render_state (speed_state p) v in
  let frame := render_plain_progress (vw_snapshots v) render_state (vw_rate_limit v) final_frame in
  let signature := plain_signature (vw_snapshots v) (vw_rate_limit v) final_frame in
  if (negb final_frame && bool_decide (last_signature p = Some signature))%bool
  then mk_plain samples (last_signature p) (written p)
  else mk_plain samples (Some signature) (written p ++ [frame]).
(** [src/src/cli_app/render.rs:291-308], [PlainTextRunner::run (loop)]. *)
Fixpoint loop (happened : list (wakeup * view)) (p : PlainTextRunner) : PlainTextRunner :=
  match happened with
  | [] => p
  | (Ticked, v) :: happened => loop happened (render false v p)
  | (Received event, v) :: happened => loop happened (if handle_event event then render false v p else p)
  | (Messaged _, _) :: happened => loop happened p
  | (Signalled stop, v) :: happened => if stops stop then render true v p else loop happened p
  end.
(** [src/src/cli_app/render.rs:284-309], [PlainTextRunner::run]. *)
Definition run (first : view) (happened : list (wakeup * view)) (p : PlainTextRunner) : PlainTextRunner :=
  loop happened (render false first p).
End PlainText.

(** ** Lines of JSON *)
Module Json.
Section json.
Context (frame_to_string : JsonProgressFrame → option string).

(** [src/src/cli_app/render.rs:112-116], [JsonRunner]. With the frames that were written. *)
Record JsonRunner := mk_json {
  speed_state : gmap Z SpeedSample;
  last_signature : option string;
  written : list string
}.
(** [src/src/cli_app/render.rs:397-403], [JsonRunner::new]. *)
Definition new : JsonRunner := mk_json ∅ None [].
(** [src/src/cli_app/render.rs:432-445], [JsonRunner::handle_event]. *)
Definition handle_event : result Event RecvError → bool := noteworthy.
(** [src/src/cli_app/render.rs:472-514], [JsonRunner::sample_render_state]. *)
Definition sample_render_state : gmap Z SpeedSample → view → RenderState * gmap Z SpeedSample :=
  sample_all (λ _ sample_speed, sample_speed).
(** [src/src/cli_app/render.rs:447-470], [JsonRunner::render]. *)
Definition render (final_frame : bool) (v : view) (p : JsonRunner) : JsonRunner :=
  let '(render_state, samples) := sample_render_state (speed_state p) v in
  let signature := plain_signature (vw_snapshots v) (vw_rate_limit v) final_frame in
  if (negb final_frame && bool_decide (last_signature p = Some signature))%bool
  then mk_json samples (last_signature p) (written p)
  else
    let frame := render_json_progress frame_to_string (vw_snapshots v) render_state (vw_rate_limit v) final_frame in
    mk_json samples (Some signature) (written p ++ [frame]).
(** [src/src/cli_app/render.rs:412-429], [JsonRunner::run (loop)]. *)
Fixpoint loop (happened : list (wakeup * view)) (p : JsonRunner) : JsonRunner :=
  match happened with
  | [] => p
  | (Ticked, v) :: happened => loop happened (render false v p)
  | (Received event, v) :: happened => loop happened (if handle_event event then render false v p else p)
  | (Messaged _, _) :: happened => loop happened p
  | (Signalled stop, v) :: happened => if stops stop then render true v p else loop happened p
  end.
(** [src/src/cli_app/render.rs:405-430], [JsonRunner::run]. *)
Definition run (first : view) (happened : list (wakeup * view)) (p : JsonRunner) : JsonRunner :=
  loop happened (render false first p).
End json.
End Json.

(** ** What is shown *)

Lemma count_one_of speeds now t s :
  let more n := wrap64 (n + 1) in
  count_one s (session_snapshot speeds now t) =
    match t_status t with
    | Pending => s <| n_pending ::= more |>
    | Preparing => s <| n_preparing ::= more |>
    | Running => s <| n_running ::= more |>
    | Paused => s <| n_paused ::= more |>
    | _ => s <| n_terminal ::= more |>
    end.
Proof.
  intros more. unfold count_one.
  change (sn_status (session_snapshot speeds now t)) with (Session.status_text (t_status t)).
  destruct (t_status t) as [| | | | | |e|]; reflexivity.
Qed.

Definition tasks_counted (s : StatusSummary) : Z :=
  n_pending s + n_preparing s + n_running s + n_paused s + n_terminal s.
Definition counts_ok (s : StatusSummary) : Prop :=
  0 ≤ n_pending s ∧ 0 ≤ n_preparing s ∧ 0 ≤ n_running s ∧ 0 ≤ n_paused s ∧ 0 ≤ n_terminal s.
(** The counts of the header: every task is counted once. *)
Lemma all_counted speeds now l s : counts_ok s → tasks_counted s + zlen l ≤ u64_max →
  counts_ok (foldl count_one s ((λ t, session_snapshot (speeds t) now t) <$> l)) ∧
  tasks_counted (foldl count_one s ((λ t, session_snapshot (speeds t) now t) <$> l)) = tasks_counted s + zlen l.
Proof.
  revert s. induction l as [|t l IH]; intros s Hok Hl; [by rewrite zlen_nil, Z.add_0_r|].
  rewrite zlen_cons in Hl |- *. rewrite fmap_cons. cbn [foldl]. pose proof (zlen_nonneg l).
  assert (∀ m, 0 ≤ m → m < u64_max → wrap64 (m + 1) = m + 1) as Hw by
    (intros m ? ?; apply wrap64_small; unfold is_u64; lia).
  assert (counts_ok (count_one s (session_snapshot (speeds t) now t)) ∧
    tasks_counted (count_one s (session_snapshot (speeds t) now t)) = tasks_counted s + 1) as [Hok1 Hc].
  { rewrite count_one_of. destruct Hok as (? & ? & ? & ? & ?). unfold counts_ok, tasks_counted in *.
    destruct (t_status t); cbn -[wrap64 u64_max]; rewrite Hw by lia; split_and!; lia. }
  destruct (IH _ Hok1) as [? ->]; [lia|]. split; [done|lia].
Qed.

(** The samples that are kept are those of the tasks that were seen. *)
Lemma sample_fold smooth now l a :
  let a' := foldl (sample_one smooth now) a l in
  sg_active a' = sg_active a ++ (sn_id <$> l) ∧
  (∀ i, i ∈ sn_id <$> l ∨ is_Some (sg_samples a !! i) → is_Some (sg_samples a' !! i)).
Proof.
  revert a. induction l as [|s l IH]; intros a; cbn [foldl].
  - split; [by rewrite app_nil_r|]. intros i [[]%not_elem_of_nil|Hi]; done.
  - destruct (IH (sample_one smooth now a s)) as [Ha Hs]. split.
    + rewrite Ha. cbn. by rewrite <- app_assoc.
    + intros i Hi. apply Hs. cbn in Hi |- *. destruct (decide (sn_id s = i)) as [->|Hne].
      * right. rewrite lookup_insert_eq. by eexists.
      * rewrite lookup_insert_ne by done. rewrite elem_of_cons in Hi. naive_solver.
Qed.
Lemma sample_all_dom smooth samples v :
  dom (snd (sample_all smooth samples v)) = list_to_set (sn_id <$> vw_snapshots v) :> gset Z.
Proof.
  unfold sample_all. cbn [snd].
  destruct (sample_fold smooth (vw_now v) (vw_snapshots v) (mk_sampling samples ∅ (f64_of 0) [])) as [Ha Hs].
  apply leibniz_equiv. intros i. rewrite elem_of_dom, elem_of_list_to_set. split.
  - intros [x (_ & Hi)%map_lookup_filter_Some]. by rewrite Ha in Hi.
  - intros Hi. destruct (Hs i (or_introl Hi)) as [x Hx]. exists x. apply map_lookup_filter_Some.
    split; [exact Hx|]. by rewrite Ha.
Qed.

(** The last eight of a list. *)
Definition last_messages (l : list string) : list string := drop (length l - 8) l.
Lemma pop_to_drop l : Dashboard.pop_to l = drop (length l - 7) l.
Proof.
  induction l as [|x l IH]; [done|]. cbn [Dashboard.pop_to].
  unfold MAX_MESSAGES, zlen. cbn [length]. destruct (Z.leb_spec 8 (Z.of_nat (S (length l)))) as [Hl|Hl].
  - replace (S (length l) - 7)%nat with (S (length l - 7)) by lia. exact IH.
  - by replace (S (length l) - 7)%nat with 0%nat by lia.
Qed.
Lemma push_last l m : Dashboard.pop_to (last_messages l) ++ [m] = last_messages (l ++ [m]).
Proof.
  unfold last_messages. rewrite pop_to_drop, length_drop, drop_drop, length_app. cbn [length].
  replace (length l - 8 + (length l - (length l - 8) - 7))%nat with (length l - 7)%nat by lia.
  replace (length l + 1 - 8)%nat with (length l - 7)%nat by lia. by rewrite drop_app_le by lia.
Qed.

(** What the dashboard is told while it runs. *)
Fixpoint told (happened : list (wakeup * view)) : list string :=
  match happened with
  | [] => []
  | (Ticked, _) :: happened => told happened
  | (Received event, _) :: happened => option_list (Dashboard.event_message event) ++ told happened
  | (Messaged m, _) :: happened => m :: told happened
  | (Signalled stop, _) :: happened =>
      if stops stop then ["All tasks reached terminal states."] else told happened
  end.
Definition not_blank_text (m : string) : bool := negb (is_empty (trim m)).

Lemma push_message_last m l d : Dashboard.messages d = last_messages l →
  Dashboard.messages (Dashboard.push_message m d) = last_messages (l ++ filterb not_blank_text [m]).
Proof.
  intros Hd. unfold Dashboard.push_message, not_blank_text, filterb. cbn [List.filter].
  destruct (is_empty (trim m)); cbn [negb]; [by rewrite app_nil_r|].
  rewrite <- push_last. cbn. by rewrite Hd.
Qed.
Lemma dashboard_messages happened l d : Dashboard.messages d = last_messages l →
  Dashboard.messages (Dashboard.loop happened d) = last_messages (l ++ filterb not_blank_text (told happened)).
Proof.
  assert (∀ b v d, Dashboard.messages (Dashboard.render b v d) = Dashboard.messages d) as Hr.
  { intros b v d1. unfold Dashboard.render. by destruct (Dashboard.sample_render_state _ _). }
  assert (∀ (p : string → bool) a b, filterb p (a ++ b) = filterb p a ++ filterb p b) as Happ
    by (intros; unfold filterb; apply List.filter_app).
  revert l d. induction happened as [|[[|event|m|stop] v] happened IH]; intros l d Hd; cbn [Dashboard.loop told].
  - by rewrite app_nil_r.
  - apply IH. by rewrite Hr.
  - rewrite Happ, app_assoc. apply IH. rewrite Hr. unfold Dashboard.handle_event.
    destruct (Dashboard.event_message event) as [m|]; cbn [option_list]; [by apply push_message_last|].
    cbn. by rewrite app_nil_r.
  - change (m :: told happened) with ([m] ++ told happened). rewrite Happ, app_assoc. apply IH. rewrite Hr.
    by apply push_message_last.
  - destruct (stops stop); [|by apply IH]. rewrite Hr. by apply push_message_last.
Qed.

(** C27. The dashboard.  Whatever happens while it runs, it shows the last eight of the
    messages it was told, blank ones apart, and never more; whatever it has seen
    before, it keeps samples of the tasks alone that there are; and its header
    counts every task once. *)
Theorem dashboard_spec :
  (∀ interactive tty first happened,
     let d := Dashboard.run tty first happened (Dashboard.new interactive) in
     Dashboard.messages d = last_messages (Dashboard.messages (Dashboard.new interactive) ++
       filterb not_blank_text (told happened)) ∧ zlen (Dashboard.messages d) ≤ MAX_MESSAGES) ∧
  (∀ final v d, dom (Dashboard.speed_state (Dashboard.render final v d)) =
     list_to_set (sn_id <$> vw_snapshots v) :> gset Z) ∧
  (∀ speeds now l, zlen l ≤ u64_max →
     tasks_counted (summarize_statuses ((λ t, session_snapshot (speeds t) now t) <$> l)) = zlen l).
Proof.
  split_and!.
  - intros interactive tty first happened d.
    assert (Dashboard.messages d = last_messages (Dashboard.messages (Dashboard.new interactive) ++
       filterb not_blank_text (told happened))) as Hd.
    { assert (∀ d1, Dashboard.messages d1 = Dashboard.messages (Dashboard.new interactive) →
        Dashboard.messages (Dashboard.loop happened (Dashboard.render false first d1)) =
          last_messages (Dashboard.messages (Dashboard.new interactive) ++ filterb not_blank_text (told happened))) as Hl.
      { intros d1 Hd1. apply dashboard_messages. unfold Dashboard.render.
        destruct (Dashboard.sample_render_state _ _). cbn. rewrite Hd1. by destruct interactive. }
      unfold d, Dashboard.run. destruct tty; cbn [Dashboard.messages update]; by apply Hl. }
    split; [exact Hd|]. rewrite Hd. unfold last_messages, zlen, MAX_MESSAGES. rewrite length_drop. lia.
  - intros final v d. unfold Dashboard.render.
    pose proof (sample_all_dom (λ smoothed_bps sample_speed,
      if f64_lt (f64_of 0) smoothed_bps
      then f64_add (f64_mul smoothed_bps (f64_lit 6 10)) (f64_mul sample_speed (f64_lit 4 10))
      else sample_speed) (Dashboard.speed_state d) v) as Hdom.
    unfold Dashboard.sample_render_state. by destruct (sample_all _ _ _).
  - intros speeds now l Hl. unfold summarize_statuses. apply all_counted; [repeat split; done|exact Hl].
Qed.

(** Lines are written only when something that they tell has changed: with the same tasks there are
    those of the start and those of the end. *)
Definition seen (v : view) : string := plain_signature (vw_snapshots v) (vw_rate_limit v) false.
Definition unchanged (first : view) (e : wakeup * view) : Prop :=
  seen e.2 = seen first ∧ match e.1 with Signalled stop => stops stop = false | _ => True end.
Lemma plain_quiet first happened v : Forall (unchanged first) happened →
  length (PlainText.written (PlainText.run first (happened ++ [(Signalled (Some true), v)]) PlainText.new)) = 2%nat.
Proof.
  assert (∀ samples frame v1, seen v1 = seen first → ∃ samples',
    PlainText.render false v1 (PlainText.mk_plain samples (Some (seen first)) [frame]) =
      PlainText.mk_plain samples' (Some (seen first)) [frame]) as Hsame.
  { intros samples frame v1 Hv. unfold PlainText.render. destruct (PlainText.sample_render_state _ _) as [r s].
    fold (seen v1). rewrite Hv. cbn [PlainText.last_signature negb andb PlainText.written].
    rewrite bool_decide_true by done. eauto. }
  assert (∀ samples frame, Forall (unchanged first) happened → 
    length (PlainText.written (PlainText.loop (happened ++ [(Signalled (Some true), v)])
      (PlainText.mk_plain samples (Some (seen first)) [frame]))) = 2%nat) as Hloop.
  { induction happened as [|[w v1] happened IH]; intros samples frame Hall.
    - cbn. unfold PlainText.render. cbn. by destruct (PlainText.sample_render_state samples v).
    - apply Forall_cons in Hall as [[Hv Hw] Hall]. cbn [fst snd] in Hv, Hw. cbn [app PlainText.loop].
      destruct (Hsame samples frame v1 Hv) as (samples' & Hs).
      destruct w as [|event|m|stop]; rewrite ?Hs, ?Hw; [by apply IH| |by apply IH..].
      destruct (PlainText.handle_event event); by apply IH. }
  intros Hall. unfold PlainText.run, PlainText.render at 1. cbn.
  destruct (PlainText.sample_render_state ∅ first) as [r s]. by apply Hloop.
Qed.
