(* ===== verification/CliFacts.v ===== *)
(** * What the command line keeps to

    Whatever lines are typed and whatever URLs are given, the manager is only
    changed by its own calls, so that what is shown of all interleavings of these
    (CoordinatorSteps.v) holds of a run of the program.  A command for several
    tasks is carried out for each of them, and says how that ended; the exit code
    tells how the downloads ended. *)

From stdpp Require Import relations.
From S2P Require Import Prelude Text Float Status Effect Source Piece Files Checksum Manifest Planner Payload Torrent Config Task Speed Mapping Session RateLimiter Repository Memory Store Recovery Probe Job Coordinator CoordinatorSteps CoordinatorFacts System SystemFacts Commands Options Cli.

(** ** Typed lines *)

Section typed.
Context {W : Type} `{SessionSystem W} (config : Config) (clock : nat → Z) (now : Z).
Implicit Types (w : cli_world W) (g : Manager W).
Abbreviation moves := (leads config clock []).

(** The manager is changed by its calls, and what was printed stays. *)
Definition follows w w' : Prop :=
  moves (cw_manager w) (cw_manager w') ∧ ∃ l, cw_output w' = cw_output w ++ l.
#[local] Instance follows_refl : Reflexive follows.
Proof. intros w. split; [reflexivity|]. exists []. by rewrite app_nil_r. Qed.
#[local] Instance follows_trans : Transitive follows.
Proof.
  intros w1 w2 w3 [M1 (l1 & E1)] [M2 (l2 & E2)]. split; [by etransitivity|].
  exists (l1 ++ l2). by rewrite E2, E1, app_assoc.
Qed.

Lemma moves_unlogged {A} (m : eff (Manager W) A) : keeps moves (logged m) → keeps moves m.
Proof. intros Hm g. specialize (Hm g). unfold logged, eff_bind, attempt in Hm. by destruct (m g). Qed.
Lemma moves_control c i : keeps moves (control_task c i).
Proof.
  destruct c; apply moves_unlogged;
    [apply (command_leads config clock (CmPause i))|apply (command_leads config clock (CmResume i))
    |apply (command_leads config clock (CmStart i))|apply (command_leads config clock (CmCancel i))
    |apply (command_leads config clock (CmDelete i))].
Qed.
Lemma follows_tried {A} (m : eff (Manager W) A) : keeps moves m → keeps follows (tried m).
Proof.
  intros Hm w. specialize (Hm (cw_manager w)). unfold tried, attempt, of_manager.
  destruct (m (cw_manager w)) as [r g]. split; [exact Hm|]. exists []. by rewrite app_nil_r.
Qed.
Lemma follows_describe i c e : keeps follows (describe_task_error (W:=W) i c e).
Proof.
  unfold describe_task_error, get_all_sessions, get_session_by_id. intros w. cbn.
  destruct e; cbn; try reflexivity; by destruct (sys_snapshot _ _).
Qed.
Lemma follows_apply c i : keeps follows (apply_to_task (W:=W) c i).
Proof.
  apply (keeps_bind follows); [by apply follows_tried, moves_control|]. intros [u|e].
  - apply (keeps_ret follows).
  - apply follows_describe.
Qed.
Lemma follows_global c : keeps follows (apply_global_command (W:=W) c).
Proof.
  apply (keeps_bind follows).
  - destruct c; [apply follows_tried, (command_leads config clock CmPauseAll)
      |apply follows_tried, (command_leads config clock CmResumeAll)|apply (keeps_ret follows)
      |apply follows_tried, (command_leads config clock CmCancelAll)
      |apply follows_tried, (command_leads config clock CmDeleteAll)].
  - intros [u|e]; apply (keeps_ret follows).
Qed.
Lemma follows_target t c : keeps follows (apply_task_command (W:=W) t c).
Proof.
  assert (∀ ids, keeps follows (map_each (apply_to_task c) ids)) as Hids.
  { intros ids. apply (keeps_map_each follows). intros i. apply follows_apply. }
  destruct t as [|ids]; [|apply Hids].
  destruct c; try apply follows_global. apply (keeps_bind follows); [apply (keeps_gets follows)|exact Hids].
Qed.

(** Commands that only look. *)
Definition only_looks (c : Command) : bool :=
  match c with
  | CmdHelp | CmdStatus _ | CmdList _ | CmdHistory _ | CmdShow _ => true
  | _ => false
  end.
(** The lines that a command that only looks answers with. *)
Definition matching_ids (target : CommandTarget) g : list Z :=
  sort_ids (match target with
            | TargetAll => sys_ids (mg_tasks g)
            | TargetTasks ids => filterb (has_task g) ids
            end).
Definition all_snapshots g : list SessionSnapshot :=
  omap (sys_snapshot (mg_tasks g)) (sort_ids (sys_ids (mg_tasks g))).
Definition or_none (l : list string) : list string := match l with [] => ["No matching tasks"] | _ => l end.
Definition looked (c : Command) w : list string :=
  let g := cw_manager w in
  match c with
  | CmdHelp => help_lines
  | CmdStatus target =>
      match matching_ids target g with
      | [] => ["No matching tasks"]
      | ids => ("Rate limit: " +:+ limit_text (current_limit_kib_per_sec (cw_limiter w))) ::
                 (format_status_line <$> omap (sys_snapshot (mg_tasks g)) ids)
      end
  | CmdList filter => or_none (format_status_line <$> filterb (λ s, matches_status_filter s filter) (all_snapshots g))
  | CmdHistory filter => or_none (format_status_line <$>
      filterb (λ s, (matches_status_filter s FilterTerminal && matches_status_filter s filter)%bool) (all_snapshots g))
  | CmdShow i =>
      match sys_snapshot (mg_tasks g) i with
      | Some s => show_snapshot s
      | None => ["Session #" +:+ show_u64 i +:+ " not found"]
      end
  | _ => []
  end.

Lemma looks_spec c w : only_looks c = true → execute_command now c w = (Ok (looked c w), w).
Proof.
  destruct c as [|t|f|f|i|t|t|t|t|t|l]; try done; intros _; cbn [execute_command looked];
    unfold status_messages, list_messages, show_task_messages, resolve_target_tasks, get_all_sessions,
      get_session_by_id, snapshots_of, matching_ids, all_snapshots, or_none, gets, eff_bind, ret.
  - by destruct t; cbn; destruct (sort_ids _).
  - by destruct (format_status_line <$> _).
  - by destruct (format_status_line <$> _).
  - by destruct (sys_snapshot _ _).
Qed.
Lemma only_looks_same c w : only_looks c = true → snd (execute_command now c w) = w.
Proof. intros Hc. by rewrite looks_spec. Qed.

Lemma follows_command c : keeps follows (execute_command now c).
Proof.
  destruct (only_looks c) eqn:Hc; [intros w; by rewrite only_looks_same|].
  destruct c; try done; cbn [execute_command]; try apply follows_target.
  intros w. split; [reflexivity|]. exists []. by rewrite app_nil_r.
Qed.
Lemma follows_emit l : keeps follows (emit_messages (W:=W) l).
Proof. intros w. split; [reflexivity|by exists l]. Qed.
Lemma follows_loop err inputs : keeps follows (command_loop (W:=W) now err inputs).
Proof.
  induction inputs as [|[line|] inputs IH]; cbn [command_loop]; [apply (keeps_ret follows)| |apply follows_emit].
  apply (keeps_bind follows); [|intros []; exact IH]. destruct (negb _); [|apply (keeps_ret follows)].
  apply (keeps_bind follows); [|intros msgs; apply follows_emit].
  destruct (parse_command _); [apply follows_command|apply (keeps_ret follows)].
Qed.

(** ** Commands for several tasks *)

(** The tasks are dealt with in turn: each call is made whatever became of those before, and the
    line for a task says whether its call succeeded. *)
Inductive answers (c : TaskControl) : Manager W → list Z → list string → Manager W → Prop :=
  | answers_nil g : answers c g [] [] g
  | answers_ok g i r g1 ids ls g2 :
      control_task c i g = (Ok r, g1) → answers c g1 ids ls g2 →
      answers c g (i :: ids) ((past_tense_label c +:+ " task #" +:+ show_u64 i) :: ls) g2
  | answers_err g i e g1 ids line ls g2 :
      control_task c i g = (Err e, g1) →
      (∃ rest, line = "Failed to " +:+ verb_label c +:+ rest) → answers c g1 ids ls g2 →
      answers c g (i :: ids) (line :: ls) g2.

Lemma describe_says i c e w :
  ∃ rest, describe_task_error (W:=W) i c e w = (Ok ("Failed to " +:+ verb_label c +:+ rest), w).
Proof.
  unfold describe_task_error, get_all_sessions, get_session_by_id, eff_bind, gets, ret.
  destruct e; try (eexists; reflexivity); destruct (sys_snapshot _ _); try (eexists; reflexivity);
    destruct (is_empty _); try (eexists; reflexivity); destruct c; eexists; reflexivity.
Qed.

Lemma apply_each c ids w :
  ∃ ls g, map_each (apply_to_task c) ids w = (Ok ls, w <| cw_manager := g |>) ∧
    answers c (cw_manager w) ids ls g.
Proof.
  revert w. induction ids as [|i ids IH]; intros w.
  { exists [], (cw_manager w). split; [by destruct w|constructor]. }
  cbn [map_each]. unfold apply_to_task at 1, tried, of_manager, attempt.
  unfold eff_bind at 1, eff_bind at 1.
  destruct (control_task c i (cw_manager w)) as [[r|e] g1] eqn:E1.
  - destruct (IH (w <| cw_manager := g1 |>)) as (ls & g2 & E2 & Ha).
    eexists (_ :: ls), g2. split; [|by eapply answers_ok].
    cbn. by rewrite (eff_bind_ok _ _ _ _ _ E2).
  - destruct (describe_says i c e (w <| cw_manager := g1 |>)) as (rest & Ed). rewrite Ed.
    destruct (IH (w <| cw_manager := g1 |>)) as (ls & g2 & E2 & Ha).
    eexists (_ :: ls), g2. split; [|by eapply answers_err; [exact E1|by exists rest|exact Ha]].
    by rewrite (eff_bind_ok _ _ _ _ _ E2).
Qed.

(** The command for a call. *)
Definition control_command (c : TaskControl) (target : CommandTarget) : Command :=
  match c with
  | ControlPause => CmdPause target | ControlResume => CmdResume target | ControlRetry => CmdRetry target
  | ControlCancel => CmdCancel target | ControlDelete => CmdDelete target
  end.
(** The manager's own call for all tasks, which retrying has not. *)
Definition control_all (c : TaskControl) : option (eff (Manager W) unit) :=
  match c with
  | ControlPause => Some pause_all | ControlResume => Some resume_all | ControlRetry => None
  | ControlCancel => Some cancel_all | ControlDelete => Some delete_all
  end.

(** What a command does: its lines, and the state after it. *)
Inductive carried_out w : Command → list string → cli_world W → Prop :=
  | out_looks c : only_looks c = true → carried_out w c (looked c w) w
  | out_tasks c ids ls g : answers c (cw_manager w) ids ls g → length ls = length ids →
      carried_out w (control_command c (TargetTasks ids)) ls (w <| cw_manager := g |>)
  | out_retry_all ls g : answers ControlRetry (cw_manager w) (sys_ids (mg_tasks (cw_manager w))) ls g →
      carried_out w (CmdRetry TargetAll) ls (w <| cw_manager := g |>)
  | out_all c m r g : control_all c = Some m → m (cw_manager w) = (r, g) →
      carried_out w (control_command c TargetAll)
        [match r with
         | Ok _ => past_tense_label c +:+ " all tasks"
         | Err e => "Failed to " +:+ verb_label c +:+ " all tasks: " +:+ Error_to_string e
         end] (w <| cw_manager := g |>)
  | out_limit limit : let l := set_limit_kib_per_sec limit now (cw_limiter w) in
      carried_out w (CmdSetRateLimit limit)
        ["Global rate limit set to " +:+ limit_text (current_limit_kib_per_sec l)] (w <| cw_limiter := l |>).

Lemma target_spec c target w :
  ∃ ls w', apply_task_command target c w = (Ok ls, w') ∧ carried_out w (control_command c target) ls w'.
Proof.
  destruct target as [|ids].
  - destruct (control_all c) as [m|] eqn:Hm.
    + destruct (m (cw_manager w)) as [r g] eqn:Em. exists [match r with
         | Ok _ => past_tense_label c +:+ " all tasks"
         | Err e => "Failed to " +:+ verb_label c +:+ " all tasks: " +:+ Error_to_string e
         end], (w <| cw_manager := g |>).
      split; [|by eapply out_all].
      destruct c; try discriminate Hm; injection Hm as <-; unfold apply_task_command, apply_global_command,
        tried, attempt, of_manager, eff_bind; rewrite Em; by destruct r.
    + destruct c; try discriminate Hm.
      destruct (apply_each ControlRetry (sys_ids (mg_tasks (cw_manager w))) w) as (ls & g & E1 & Ha).
      exists ls, (w <| cw_manager := g |>). split; [exact E1|by apply out_retry_all].
  - destruct (apply_each c ids w) as (ls & g & E1 & Ha). exists ls, (w <| cw_manager := g |>).
    split; [by destruct c|]. apply out_tasks; [done|]. clear E1. induction Ha; cbn; congruence.
Qed.
Lemma execute_spec c w :
  ∃ ls w', execute_command now c w = (Ok ls, w') ∧ carried_out w c ls w'.
Proof.
  destruct (only_looks c) eqn:Hc; [exists (looked c w), w; split; [by apply looks_spec|by constructor]|].
  destruct c as [|t|f|f|i|t|t|t|t|t|l]; try discriminate Hc; cbn [execute_command].
  - apply (target_spec ControlPause).
  - apply (target_spec ControlResume).
  - apply (target_spec ControlRetry).
  - apply (target_spec ControlCancel).
  - apply (target_spec ControlDelete).
  - eexists _, _. split; [reflexivity|]. apply (out_limit w l).
Qed.
Lemma empty_no_command line c : parse_command (trim line) = Ok c → is_empty (trim line) = false.
Proof.
  intros Hp. destruct (is_empty (trim line)) eqn:He; [|done]. destruct (trim line); [|done]. by vm_compute in Hp.
Qed.

(** C23. Typing commands.  The lines that are read are dealt with one after the
    other, to their end.  A blank line does nothing; a line that is no command is
    answered with the reason; every other is carried out, once, and then its lines
    are printed ([carried_out]): a command that only looks answers from the state
    and leaves it as it is; a command for some tasks makes the manager's call for
    each of them, in the order they are named in, whatever became of those before,
    and answers for each with one line that says whether its call succeeded; a
    command for all tasks makes the manager's call for all of them, where retrying
    is a call for each; and the rate limit is set.  Nothing else changes the
    manager, so that it only moves by the steps of its own calls, and nothing that
    was printed is lost.  An error of reading ends the loop. *)
Theorem typed_commands_spec w :
  (∀ err inputs, follows w (snd (spawn_command_loop now err inputs w))) ∧
  (∀ err, command_loop now err [] w = (Ok tt, w)) ∧
  (∀ err inputs, command_loop now err (None :: inputs) w =
     (Ok tt, w <| cw_output ::= λ o, o ++ ["Failed to read interactive command: " +:+ err] |>)) ∧
  (∀ err line inputs, is_empty (trim line) = true →
     command_loop now err (Some line :: inputs) w = command_loop now err inputs w) ∧
  (∀ err line inputs c, parse_command (trim line) = Ok c →
     ∃ ls w1, carried_out w c ls w1 ∧
       command_loop now err (Some line :: inputs) w =
         command_loop now err inputs (w1 <| cw_output ::= λ o, o ++ ls |>)) ∧
  (∀ err line inputs words, parse_command (trim line) = Err words → is_empty (trim line) = false →
     command_loop now err (Some line :: inputs) w =
       command_loop now err inputs (w <| cw_output ::= λ o, o ++ [words] |>)).
Proof.
  split_and!.
  - intros err inputs. apply (keeps_bind follows); [apply follows_emit|]. intros _. apply follows_loop.
  - done.
  - done.
  - intros err line inputs He. cbn [command_loop]. by rewrite He.
  - intros err line inputs c Hp. destruct (execute_spec c w) as (ls & w1 & E1 & Hc). exists ls, w1.
    split; [done|]. cbn [command_loop]. rewrite (empty_no_command line c Hp), Hp. cbn [negb].
    unfold eff_bind at 1, eff_bind at 1. by rewrite E1.
  - intros err line inputs words Hp He. cbn [command_loop]. rewrite He. cbn [negb]. by rewrite Hp.
Qed.
End typed.

(** ** A run of the program *)

(** What the run relies on of the tasks. *)
Class SessionSystemLaws (W : Type) `{SessionSystem W} := {
  sys_add_download_permits spec (w : W) : sys_permits (snd (sys_add_download spec w)) ⊆ sys_permits w
}.

Section run.
Context {W : Type} `{TaskSystemLaws W} `{!SessionSystem W} `{!SessionSystemLaws W} `{UrlLib}.
Context (config : Config) (clock : nat → Z) (shuffle : list string → list string).
Implicit Types (g : Manager W).
Abbreviation moves := (leads config clock []).

Lemma moves_add spec : keeps moves (add_download_task (W:=W) spec).
Proof.
  intros g. apply rtc_once.
  assert (snd (add_download_task spec g) = snd (off_map (λ w, snd (sys_add_download spec w)) g)) as ->.
  { unfold add_download_task, off_map, modify. unfold update. cbn. destruct (sys_add_download spec (mg_tasks g)). reflexivity. }
  apply step_add, sys_add_download_permits.
Qed.
Lemma moves_url url : keeps moves (download_url (W:=W) url).
Proof.
  apply (keeps_bind moves); [apply (keeps_lift moves)|intros spec].
  apply (keeps_bind moves); [apply moves_add|intros i].
  apply (keeps_bind moves); [apply leads_transition'|intros _; apply (keeps_ret moves)].
Qed.
Lemma moves_wait rounds : Forall (λ m : eff (Manager W) unit, keeps moves m) rounds → keeps moves (wait_for_all_tasks rounds).
Proof.
  assert (keeps moves (persist_http_session_state (W:=W))) as Hp by (apply leads_tasks; constructor).
  induction 1 as [|m rounds Hm _ IH]; cbn [wait_for_all_tasks];
    (apply (keeps_bind moves); [apply (keeps_gets moves)|intros [|i ids]; [exact Hp|]]);
    (apply (keeps_bind moves); [apply (keeps_gets moves)|intros []; [exact Hp|]]).
  - apply (keeps_ret moves).
  - apply (keeps_bind moves); [by apply leads_logged|intros _; exact IH].
Qed.
Lemma moves_run f cli rounds :
  Forall (λ m, keeps moves m) rounds → keeps moves (run_downloads config shuffle f cli rounds).
Proof.
  intros Hr. apply (keeps_bind moves); [apply (keeps_lift moves)|].
  intros [|url urls]; [apply (keeps_throw moves)|].
  apply (keeps_bind moves); [apply (keeps_for_each moves); intros u; apply moves_url|intros _].
  apply (keeps_bind moves); [by apply moves_wait|intros _; apply (keeps_gets moves)].
Qed.

(** From the start, a run keeps the permits there are. *)
Lemma run_conserved f cli rounds w g :
  new_manager config (Ok tt) w = Ok g → sys_permits w = ∅ → 0 ≤ concurrent_tasks config →
  Forall (λ m, keeps moves m) rounds →
  let g' := snd (run_downloads config shuffle f cli rounds g) in
  held (mg_tasks g') ≤ concurrent_tasks config ∧
  mg_semaphore g' + held (mg_tasks g') + mg_orphans g' = concurrent_tasks config.
Proof.
  intros Hg Hw Hn Hr g'. unfold new_manager in Hg.
  destruct (result_map_err error_of_config (validate config)) as [u|e]; cbn in Hg; [|done].
  injection Hg as <-.
  assert (conserved (concurrent_tasks config) (alone g')) as Hc.
  { eapply reachable_conserved; [apply (moves_run f cli rounds Hr)|by apply conserved_alone]. }
  split; [by apply (conserved_held _ _ Hc)|]. destruct Hc as [Ht _]. unfold total, alone in Ht.
  cbn [ms_manager ms_flights] in Ht. change (zlen []) with 0 in Ht. lia.
Qed.

End run.

(** ** Waiting *)

Section waiting.
Context {W : Type} `{TaskSystem W} (i : Z).
Implicit Types (g : Manager W) (w : W).

(** Task [i] is there and has not ended. *)
Definition is_open w : Prop := i ∈ sys_ids w ∧ sys_terminal w i = false.
Definition keeps_open w w' : Prop := is_open w → is_open w'.
(** What is done for other tasks does not end it, nor does it end by being stored. *)
Record undisturbed : Prop := {
  un_start j : j ≠ i → keeps keeps_open (sys_start j);
  un_resume j : j ≠ i → keeps keeps_open (sys_resume j);
  un_save j : keeps keeps_open (sys_save j);
  un_diagnose j e : keeps keeps_open (sys_diagnose j e);
  un_session : keeps keeps_open sys_persist_session;
  un_permit j b w : keeps_open w (sys_set_permit j b w)
}.

(** It does not wait in the queue either. *)
Definition parked g : Prop := is_open (mg_tasks g) ∧ i ∉ (mg_pending_queue g).*1.
Definition keeps_parked g g' : Prop := parked g → parked g'.
#[local] Instance keeps_parked_refl : Reflexive keeps_parked.
Proof. intros g Hg. exact Hg. Qed.
#[local] Instance keeps_parked_trans : Transitive keeps_parked.
Proof. intros g1 g2 g3 H12 H23 Hg. exact (H23 (H12 Hg)). Qed.

Context (config : Config) (clock : nat → Z) (Hun : undisturbed).

Lemma parked_tasks {A} (m : eff W A) : keeps keeps_open m → keeps keeps_parked (on_tasks m).
Proof.
  intros Hm g [Ho Hq]. specialize (Hm (mg_tasks g) Ho). unfold on_tasks.
  destruct (m (mg_tasks g)) as [r w]. split; [exact Hm|exact Hq].
Qed.
Lemma parked_queue g q : q.*1 ⊆ (mg_pending_queue g).*1 → keeps_parked g (g <| mg_pending_queue := q |>).
Proof. intros Hq [Ho Hi]. split; [exact Ho|]. cbn. auto. Qed.
Lemma parked_permit j : keeps keeps_parked (clear_guard (W:=W) j).
Proof. apply parked_tasks. intros w. apply un_permit, Hun. Qed.
Lemma parked_drop : keeps keeps_parked (drop_permit (W:=W)).
Proof. intros g Hg. exact Hg. Qed.
Lemma parked_store j : keeps keeps_parked (store_permit (W:=W) j).
Proof.
  intros g [Ho Hq]. unfold store_permit, drop_permit, modify. case_match; [|split; [exact Ho|exact Hq]].
  case_bool_decide; [split; [exact Ho|exact Hq]|]. split; [by apply (un_permit Hun)|exact Hq].
Qed.
Lemma parked_acquire j a : j ≠ i → keeps keeps_parked (acquire_task_permit_or_queue (W:=W) j a).
Proof.
  intros Hj g [Ho Hq]. unfold acquire_task_permit_or_queue, enqueue_task_action, eff_bind, gets, modify.
  destruct (0 <? mg_semaphore g); [split; [exact Ho|exact Hq]|]. destruct (existsb _ _); [split; [exact Ho|exact Hq]|].
  split; [exact Ho|]. cbn. rewrite fmap_app, elem_of_app. cbn. rewrite list_elem_of_singleton. naive_solver.
Qed.
Lemma parked_remove j : keeps keeps_parked (remove_from_queue (W:=W) j).
Proof.
  intros g. unfold remove_from_queue, modify. cbn. destruct (position _ _) as [n|]; [|reflexivity].
  apply parked_queue. intros k (e & -> & He)%list_elem_of_fmap. apply list_elem_of_fmap. exists e. split; [done|].
  eapply sublist_subseteq; [apply sublist_delete|exact He].
Qed.

Lemma parked_spawn rec : (∀ j a, j ≠ i → keeps keeps_parked (rec j a)) →
  keeps keeps_parked (spawn_next_with (W:=W) rec).
Proof.
  intros Hrec g Hg. unfold spawn_next_with, eff_bind at 1, pop_front.
  destruct (mg_pending_queue g) as [|[j a] q] eqn:Hq; [done|].
  assert (parked (g <| mg_pending_queue := q |>)) as Hg1.
  { apply parked_queue; [|done]. rewrite Hq. cbn. intros k Hk. rewrite elem_of_cons. by right. }
  assert (j ≠ i) as Hj by (intros ->; destruct Hg as [_ Hn]; apply Hn; rewrite Hq; cbn; rewrite elem_of_cons; by left).
  destruct a; unfold eff_bind, attempt; match goal with |- context [rec j ?b ?g1] =>
    specialize (Hrec j b Hj g1 Hg1); by destruct (rec j b g1) end.
Qed.
Lemma parked_transition_with spawn j a : j ≠ i → keeps keeps_parked spawn →
  keeps keeps_parked (transition_with spawn j a).
Proof.
  intros Hj Hs. apply keeps_bind; [apply _|by apply parked_acquire|]. intros [|]; cbn [negb]; [|apply (keeps_ret keeps_parked)].
  apply keeps_bind; [apply _|apply (keeps_gets keeps_parked)|]. intros [|]; cbn [negb].
  - apply keeps_bind; [apply _|apply keeps_attempt, parked_tasks|intros [u|e]].
    + destruct a; [apply (un_start Hun)|apply (un_resume Hun)|apply (un_start Hun)]; done.
    + apply keeps_bind; [apply _|apply parked_store|intros _; apply (keeps_ret keeps_parked)].
    + apply keeps_bind; [apply _|apply parked_drop|intros _].
      apply keeps_bind; [apply _|apply parked_permit|intros _].
      apply keeps_bind; [apply _|by apply keeps_attempt|intros _; apply (keeps_throw keeps_parked)].
  - apply keeps_bind; [apply _|apply parked_drop|intros _; apply (keeps_throw keeps_parked)].
Qed.
Lemma parked_transition j a : j ≠ i → keeps keeps_parked (transition (W:=W) j a).
Proof.
  intros Hj g. unfold transition. generalize (length (mg_pending_queue g)). intros fuel. revert g.
  change (keeps keeps_parked (run_task_transition (W:=W) fuel j a)). revert j a Hj.
  induction fuel as [|fuel IH]; intros j a Hj; apply parked_transition_with; try done; apply parked_spawn.
  - intros ? ? _. apply (keeps_throw keeps_parked).
  - apply IH.
Qed.

(** Handling an event, of whatever task, neither ends it nor starts it. *)
Lemma parked_event e : keeps keeps_parked (handle_task_event config clock e).
Proof.
  assert (keeps keeps_parked (spawn_next_task (W:=W))) as Hspawn
    by (apply parked_spawn, parked_transition).
  destruct e; cbn [handle_task_event]; unfold handle_terminal_task_event, end_task, diagnose, logged,
    handle_deleted_task_event, forget_task, persist_task, persist_http_session_state, release_task_permit,
    should_persist_progress;
  repeat first
    [ exact Hspawn | apply parked_permit | apply parked_remove | apply parked_tasks; apply Hun
    | apply keeps_bind; [apply _| |intros ?] | apply keeps_attempt | apply keeps_when; [apply _|]
    | apply keeps_ret; apply _ | apply keeps_throw; apply _ | apply keeps_gets; apply _
    | match goal with |- keeps _ (if ?b then _ else _) => destruct b end
    | solve [intros g Hg; repeat case_match; exact Hg] ].
Qed.

(** What happens while the program waits: events are handled, and other tasks go on. *)
Variant happening : eff (Manager W) unit → Prop :=
  | happens_event e : happening (handle_task_event config clock e)
  | happens_elsewhere f : (∀ w, keeps_open w (f w)) → happening (on_tasks (modify f)).
Lemma parked_happening m : happening m → keeps keeps_parked m.
Proof. intros [e|f Hf]; [apply parked_event|apply parked_tasks; intros w; apply Hf]. Qed.

Lemma wait_goes_on rounds g : parked g → Forall happening rounds →
  wait_for_all_tasks rounds g = for_each logged rounds g.
Proof.
  intros Hg Hr. revert g Hg. induction Hr as [|m rounds Hm _ IH]; intros g Hg;
    cbn [wait_for_all_tasks]; unfold eff_bind at 1, all_ids, gets; destruct Hg as [[Hi Ht] Hq];
    (destruct (sys_ids (mg_tasks g)) as [|j ids] eqn:Hids; [by apply not_elem_of_nil in Hi|]);
    unfold eff_bind at 1;
    assert (forallb (sys_terminal (mg_tasks g)) (j :: ids) = false) as ->
      by (apply not_true_iff_false; rewrite forallb_forall; intros Hall;
          specialize (Hall i (proj1 (list_elem_of_In _ _) Hi)); congruence).
  - done.
  - cbn [for_each]. rewrite <- Hids in Hi. pose proof (parked_happening m Hm g) as Hm'.
    unfold logged, attempt. unfold eff_bind at 1, eff_bind at 1. unfold eff_bind at 1, eff_bind at 1.
    destruct (m g) as [r g1]. apply IH, Hm'. by split.
Qed.
End waiting.
