(* ===== verification/CliSystem.v ===== *)
(** * The command line over the program's tasks

    The tasks of System.v have the snapshots and the adding of downloads that the
    command line uses.  What its exit code says of them, what becomes of a URL
    that a task has already, and of a task that nobody goes on with. *)

From S2P Require Import Prelude Text Float Status Effect Source Piece Files Checksum Manifest Planner Payload Torrent Config Task Speed Mapping Session RateLimiter Repository Memory Store Recovery Probe Job JobFacts JobStart Coordinator CoordinatorSteps CoordinatorFacts System SystemFacts Commands Options Cli CliFacts.

(** ** The exit code *)

(** How many of the tasks have one of these statuses. *)
Definition having (filter : StatusFilter) (l : list Task) : Z :=
  countb (λ t, filter_of_status filter (t_status t)) l.
Lemma having_nil filter : having filter [] = 0.
Proof. done. Qed.
Lemma having_cons filter t l :
  having filter (t :: l) = (if filter_of_status filter (t_status t) then 1 else 0) + having filter l.
Proof.
  unfold having, countb, filterb. cbn [List.filter]. destruct (filter_of_status _ _); autorewrite with rust; lia.
Qed.
Lemma having_pos filter l : 0 < having filter l ↔ ∃ t, t ∈ l ∧ filter_of_status filter (t_status t) = true.
Proof.
  induction l as [|t l IH]; [split; [by vm_compute|intros (x & []%not_elem_of_nil & _)]|].
  rewrite having_cons. pose proof (countb_le (λ t, filter_of_status filter (t_status t)) l) as Hle.
  fold (having filter l) in Hle. destruct (filter_of_status filter (t_status t)) eqn:Ht.
  - split; [|lia]. intros _. exists t. rewrite elem_of_cons. auto.
  - rewrite Z.add_0_l, IH. split.
    + intros (x & Hx & Hp). exists x. rewrite elem_of_cons. auto.
    + intros (x & [->|Hx]%elem_of_cons & Hp); [congruence|eauto].
Qed.

(** The counts of the summary do not overflow. *)
Definition fits (s : CompletionSummary) (n : Z) : Prop :=
  0 ≤ cs_completed s ∧ 0 ≤ cs_canceled s ∧ 0 ≤ cs_deleted s ∧ 0 ≤ cs_failed s ∧
  cs_completed s + cs_canceled s + cs_deleted s + cs_failed s + n ≤ u64_max.
Lemma count_status_of st s :
  count_status (Session.status_text st) s =
    match st with
    | Completed => s <| cs_completed ::= (λ n, wrap64 (n + 1)) |>
    | Canceled => s <| cs_canceled ::= (λ n, wrap64 (n + 1)) |>
    | Deleted => s <| cs_deleted ::= (λ n, wrap64 (n + 1)) |>
    | Failed _ => s <| cs_failed ::= (λ n, wrap64 (n + 1)) |>
    | _ => s
    end.
Proof.
  destruct st as [| | | | | |e|]; [reflexivity..| |reflexivity]. unfold count_status.
  assert (∀ a, a = "Completed" ∨ a = "Canceled" ∨ a = "Deleted" →
    String.eqb (Session.status_text (Failed e)) a = false) as Hne by (intros a [->|[->| ->]]; reflexivity).
  by rewrite !Hne by auto.
Qed.
Lemma summarize_one speeds now t s n : 0 ≤ n → fits s (n + 1) →
  let s' := summarize s (session_snapshot (speeds (t_id t)) now t) in
  let one filter := having filter [t] in
  fits s' n ∧ cs_snapshots s' = cs_snapshots s ++ [session_snapshot (speeds (t_id t)) now t] ∧
  cs_completed s' = cs_completed s + one FilterCompleted ∧ cs_canceled s' = cs_canceled s + one FilterCanceled ∧
  cs_deleted s' = cs_deleted s + one FilterDeleted ∧ cs_failed s' = cs_failed s + one FilterFailed.
Proof.
  intros Hn (H1 & H2 & H3 & H4 & Hsum) s' one.
  assert (∀ m, 0 ≤ m → m ≤ u64_max - 1 → wrap64 (m + 1) = m + 1) as Hw by
    (intros m ? ?; apply wrap64_small; unfold is_u64; lia).
  unfold s', summarize, one, fits. change (sn_status (session_snapshot (speeds (t_id t)) now t))
    with (Session.status_text (t_status t)). rewrite count_status_of.
  destruct (sn_total_size_known _), (t_status t) eqn:Ht; cbn -[wrap64 session_snapshot u64_max having];
    rewrite ?Hw by lia; rewrite !having_cons, !having_nil, Ht; cbn -[u64_max having]; split_and!; try reflexivity; lia.
Qed.
Lemma summarize_all speeds now l s : fits s (zlen l) →
  let s' := foldl summarize s ((λ t, session_snapshot (speeds (t_id t)) now t) <$> l) in
  cs_snapshots s' = cs_snapshots s ++ ((λ t, session_snapshot (speeds (t_id t)) now t) <$> l) ∧
  cs_completed s' = cs_completed s + having FilterCompleted l ∧
  cs_canceled s' = cs_canceled s + having FilterCanceled l ∧
  cs_deleted s' = cs_deleted s + having FilterDeleted l ∧ cs_failed s' = cs_failed s + having FilterFailed l.
Proof.
  revert s. induction l as [|t l IH]; intros s Hs s'.
  { unfold s'. cbn -[having]. rewrite app_nil_r, !having_nil. split_and!; [done|lia..]. }
  rewrite zlen_cons in Hs. unfold s'. rewrite fmap_cons. cbn [foldl].
  destruct (summarize_one speeds now t s (zlen l)) as (Hf & Hn & H1 & H2 & H3 & H4);
    [apply zlen_nonneg|done|].
  destruct (IH _ Hf) as (-> & -> & -> & -> & ->).
  rewrite Hn, H1, H2, H3, H4, <- app_assoc, !(having_cons _ t), !having_nil.
  split_and!; [done|lia..].
Qed.

(** ** The program's tasks *)

Section program.
Context {St E : Type} `{Repository St} `{TorrentEngine E} `{UrlLib} `{HttpLib} `{DigestLib}.
Context `{Json DownloadSpec} `{Json SourceSet} `{Json TorrentEngineState} `{Json TorrentMetadata}.
Context (config : Config) (session : option HttpSessionState) (clock : nat → DateTime)
  (send : Request → result Response string) (diagnostic_body : Task → Error → DateTime → res bytes)
  (prepare_swarm_download : eff (job_world St E) PreparationOutcome)
  (meanwhile : eff (job_world St E) unit)
  (speeds : Z → Speeds) (now : Z) (shuffle : list string → list string).
Abbreviation the_tasks := (tasks St E).
Implicit Types (g : Manager the_tasks).

#[local] Instance the_system : TaskSystem the_tasks :=
  system_tasks config session clock send diagnostic_body prepare_swarm_download meanwhile.
(** The snapshots are taken with the speeds that were measured for each task. *)
#[local] Instance the_sessions : SessionSystem the_tasks := {
  sys_snapshot s i :=
    (λ j, session_snapshot (speeds (t_id (js_task j))) now (js_task j)) <$> ts_jobs s !! i;
  sys_add_download := add_download config clock
}.

Lemma add_download_permits : SessionSystemLaws the_tasks.
Proof.
  split. intros spec s. cbn. unfold add_download, add_task, add_task_with_workers.
  destruct (existsb _ _); [done|]. set (w := world_of _ _).
  destruct (Job.init true true clock w) as [[u|e] w1] eqn:E1; cbn; [|done].
  intros i (j & Hj & Hp)%elem_of_marked. apply elem_of_marked.
  apply lookup_insert_Some in Hj as [[_ <-]|[_ Hj]]; [|eauto]. exfalso.
  pose proof (permit_init clock w) as Hi. unfold same in Hi. rewrite E1 in Hi. cbn in Hi, Hp.
  rewrite Hi in Hp. discriminate Hp.
Qed.

Lemma summary_snapshots g : 
  omap (sys_snapshot (mg_tasks g)) (sort_ids (sys_ids (mg_tasks g))) =
    (λ t, session_snapshot (speeds (t_id t)) now t) <$>
      omap (λ i, js_task <$> ts_jobs (mg_tasks g) !! i) (sort_ids (sys_ids (mg_tasks g))).
Proof.
  induction (sort_ids _) as [|i l IH]; [done|]. cbn in IH |- *.
  destruct (ts_jobs (mg_tasks g) !! i); cbn; by rewrite IH.
Qed.

(** The tasks of the map, in the order of their ids. *)
Definition ordered_tasks g : list Task :=
  omap (λ i, js_task <$> ts_jobs (mg_tasks g) !! i) (sort_ids (sys_ids (mg_tasks g))).
Lemma elem_of_ordered g t : t ∈ ordered_tasks g ↔ ∃ i j, ts_jobs (mg_tasks g) !! i = Some j ∧ js_task j = t.
Proof.
  unfold ordered_tasks. rewrite list_elem_of_omap. split.
  - intros (i & _ & Hi). apply fmap_Some in Hi as (j & Hj & ->). eauto.
  - intros (i & j & Hj & <-). exists i. rewrite Hj. split; [|done].
    apply elem_of_sort_by. cbn. apply elem_of_elements, elem_of_dom. eauto.
Qed.
Lemma ordered_length g : zlen (ordered_tasks g) ≤ Z.of_nat (size (ts_jobs (mg_tasks g))).
Proof.
  assert (length (ordered_tasks g) ≤ length (sort_ids (sys_ids (mg_tasks g))))%nat as Hl.
  { unfold ordered_tasks. induction (sort_ids _) as [|i l IH]; cbn; [lia|]. destruct (_ <$> _); cbn; lia. }
  unfold sort_ids in Hl. rewrite sort_by_length in Hl. cbn in Hl.
  change (length (elements (dom (ts_jobs (mg_tasks g))))) with (size (dom (ts_jobs (mg_tasks g)))) in Hl.
  rewrite size_dom in Hl. unfold zlen, ordered_tasks. apply Nat2Z.inj_le. exact Hl.
Qed.

Lemma summary_spec g : Z.of_nat (size (ts_jobs (mg_tasks g))) ≤ u64_max →
  let s := build_completion_summary g in
  cs_completed s = having FilterCompleted (ordered_tasks g) ∧
  cs_canceled s = having FilterCanceled (ordered_tasks g) ∧
  cs_deleted s = having FilterDeleted (ordered_tasks g) ∧
  cs_failed s = having FilterFailed (ordered_tasks g).
Proof.
  intros Hsize s. pose proof (ordered_length g). unfold s, build_completion_summary.
  rewrite summary_snapshots. fold (ordered_tasks g).
  destruct (summarize_all speeds now (ordered_tasks g) empty_summary) as (_ & -> & -> & -> & ->); [|done].
  unfold fits. cbn -[u64_max zlen ordered_tasks]. lia.
Qed.

Lemma run_summary f cli rounds g s g' :
  run_downloads config shuffle f cli rounds g = (Ok s, g') → s = build_completion_summary g'.
Proof.
  unfold run_downloads. intros (urls & g1 & _ & E1)%eff_bind_inv. destruct urls as [|url urls]; [done|].
  apply eff_bind_inv in E1 as (u1 & g2 & _ & E2). apply eff_bind_inv in E2 as (u2 & g3 & _ & E3).
  by injection E3 as <- <-.
Qed.
Lemma error_exit_code e : map_error_to_exit_code e ≠ 0.
Proof. by destruct e. Qed.

(** C20. The exit code.  The program exits with 0 exactly when the run has not failed
    and none of the tasks that the manager has at its end, those that were restored
    among them, is Failed or Canceled; and with 2 when it has not failed and some
    task is. *)
Theorem exit_code_spec f cli rounds g :
  let '(r, g') := run_downloads config shuffle f cli rounds g in
  Z.of_nat (size (ts_jobs (mg_tasks g'))) ≤ u64_max →
  (exit_code r = 0 ↔ (∃ s, r = Ok s) ∧
     ∀ i j, ts_jobs (mg_tasks g') !! i = Some j →
       t_status (js_task j) ≠ Canceled ∧ ∀ e, t_status (js_task j) ≠ Failed e) ∧
  ((∃ s, r = Ok s) → exit_code r = 0 ∨ exit_code r = 2).
Proof.
  destruct (run_downloads config shuffle f cli rounds g) as [[s|e] g'] eqn:E1; intros Hsize; cbn [exit_code].
  2: { split; [|by intros [s ?]]. split; [by intros ?%error_exit_code|by intros [[s ?] _]]. }
  pose proof (run_summary _ _ _ _ _ _ E1) as ->. clear E1.
  destruct (summary_spec g' Hsize) as (_ & Hc & _ & Hf). unfold exit_code_from_summary. rewrite Hc, Hf.
  split; [|intros _; destruct (_ || _)%bool; auto].
  assert (∀ filter, (0 <? having filter (ordered_tasks g')) = false ↔
    ∀ i j, ts_jobs (mg_tasks g') !! i = Some j → filter_of_status filter (t_status (js_task j)) = false) as Hnone.
  { intros filter. rewrite <- not_true_iff_false, Z.ltb_lt, having_pos. split.
    - intros Hn i j Hj. apply not_true_iff_false. intros Ht. apply Hn. exists (js_task j).
      split; [apply elem_of_ordered; eauto|done].
    - intros Hall (t & (i & j & Hj & <-)%elem_of_ordered & Ht). by rewrite (Hall i j Hj) in Ht. }
  assert (∀ st, filter_of_status FilterCanceled st = false ↔ st ≠ Canceled) as Hcs by (by intros []).
  assert (∀ st, filter_of_status FilterFailed st = false ↔ ∀ e, st ≠ Failed e) as Hfs.
  { intros []; cbn; split; try done; [intros Hn; by destruct (Hn e)]. }
  destruct (_ || _)%bool eqn:Hb.
  - split; [done|]. intros [_ Hall]. apply orb_prop in Hb as [Hb|Hb]; apply not_false_iff_true in Hb;
      destruct Hb; apply Hnone; intros i j Hj; [apply Hfs|apply Hcs]; apply (Hall i j Hj).
  - split; [intros _|done]. split; [eauto|]. apply orb_false_elim in Hb as [Hb1 Hb2].
    intros i j Hj. split; [apply Hcs|apply Hfs]; by eapply Hnone.
Qed.

Lemma held_same g : g <| mg_tasks := mg_tasks g |> <| mg_orphans ::= λ n, n + (held (mg_tasks g) - held (mg_tasks g)) |> = g.
Proof. destruct g. unfold update. cbn. f_equal. lia. Qed.

(** C21. Giving a URL again.  When some task of the manager has the download of the
    first URL already, as after a restart when it was interrupted or has failed
    before, the run fails with exit code 1 and nothing is started: neither is that
    task resumed nor are the other URLs downloaded. *)
Theorem known_url_refused f cli rounds url urls rest spec g :
  collect_urls f cli = Ok urls → urls ≠ [] → prepare_urls shuffle urls (shuffle_tasks config) = url :: rest →
  spec_parse url = Ok spec →
  (∃ i j, ts_jobs (mg_tasks g) !! i = Some j ∧ spec_identity j = identity_key spec) →
  let r := run_downloads config shuffle f cli rounds g in
  r = (Err (EOther ("Spec '" +:+ identity_key spec +:+ "' already exists!")), g) ∧ exit_code (fst r) = 1.
Proof.
  intros Hurls Hne Hprep Hspec Htaken%taken_spec r.
  assert (r = (Err (EOther ("Spec '" +:+ identity_key spec +:+ "' already exists!")), g)) as Hr; [|by rewrite Hr].
  unfold r, run_downloads. unfold eff_bind at 1, lift at 1. rewrite Hurls. destruct urls as [|u urls]; [done|].
  rewrite Hprep. apply eff_bind_err. cbn [for_each]. apply eff_bind_err. unfold download_url.
  unfold eff_bind at 1, lift. rewrite Hspec. apply eff_bind_err. unfold add_download_task.
  assert (sys_add_download spec (mg_tasks g) =
    (Err (EOther ("Spec '" +:+ identity_key spec +:+ "' already exists!")), mg_tasks g)) as ->.
  { cbn. unfold add_download, add_task, add_task_with_workers. change (rq_spec (request_builder spec)) with spec.
    by rewrite Htaken. }
  by rewrite held_same.
Qed.

(** ** Waiting for a task that nobody goes on with *)

Lemma open_task i (s : the_tasks) :
  is_open i s ↔ ∃ j, ts_jobs s !! i = Some j ∧ is_terminal (t_status (js_task j)) = false.
Proof.
  unfold is_open. cbn. rewrite elem_of_elements, elem_of_dom. split.
  - intros [[j Hj] Ht]. rewrite Hj in Ht. eauto.
  - intros (j & Hj & Ht). rewrite Hj. split; [eauto|exact Ht].
Qed.
Lemma on_task_other i k m : k ≠ i → keeps (keeps_open i) (on_task (St:=St) (E:=E) k m).
Proof.
  intros Hk s (j & Hj & Ht)%open_task. apply open_task. unfold on_task.
  destruct (ts_jobs s !! k) as [jk|]; [|eauto]. destruct (m (world_of s jk)) as [r w]. cbn.
  rewrite lookup_insert_ne by done. eauto.
Qed.
Lemma on_task_status i k m : keeps (same t_status) m → keeps (keeps_open i) (on_task (St:=St) (E:=E) k m).
Proof.
  intros Hm. destruct (decide (k = i)) as [->|Hk]; [|by apply on_task_other].
  intros s (j & Hj & Ht)%open_task. apply open_task. unfold on_task. rewrite Hj.
  specialize (Hm (world_of s j)). unfold same in Hm. destruct (m (world_of s j)) as [r w]. cbn in Hm |- *.
  rewrite lookup_insert_eq. eexists. split; [done|]. cbn. by rewrite Hm.
Qed.
Lemma tasks_undisturbed i : undisturbed (W:=the_tasks) i.
Proof.
  split.
  - intros j Hj. by apply on_task_other.
  - intros j Hj. by apply on_task_other.
  - intros j. apply on_task_status. repeat same_step.
  - intros j e. apply on_task_status. unfold write_failure_diagnostic, create_dir_all, set_files.
    repeat same_step.
  - intros s Hs. cbn. destruct session as [state|]; [|exact Hs]. unfold on_files.
    destruct (persist_session state (ts_fs s)). exact Hs.
  - intros k b s (j & Hj & Ht)%open_task. apply open_task. cbn. destruct (decide (k = i)) as [->|Hk].
    + rewrite lookup_alter_eq, Hj. eexists. split; [done|exact Ht].
    + rewrite lookup_alter_ne by done. eauto.
Qed.

(** C22. Waiting.  A task that has not ended and is not in the queue, as one that was
    restored after an interruption, keeps the program waiting: it handles
    every event and lets the other tasks go on, without an end, until the channel
    of events is closed, although all that it was asked to download may be there. *)
Theorem unfinished_task_blocks i j rounds g :
  ts_jobs (mg_tasks g) !! i = Some j → is_terminal (t_status (js_task j)) = false →
  i ∉ (mg_pending_queue g).*1 → Forall (happening i config clock) rounds →
  wait_for_all_tasks rounds g = for_each logged rounds g.
Proof.
  intros Hj Ht Hq Hr. apply (wait_goes_on i config clock); [apply tasks_undisturbed| |done].
  split; [|done]. apply open_task. eauto.
Qed.
End program.

(** ** Examples *)

#[local] Existing Instances spec_codec sources_codec state_codec metadata_codec.
#[local] Existing Instances idle_engine example_digests example_http.
#[local] Instance http_urls : UrlLib := {
  Url := string;
  url_parse s := if starts_with "http://" s then Ok s else Err RelativeUrlWithoutBase;
  url_scheme _ := "http";
  url_path_segments s := Some (split "/" s);
  url_query_pairs _ := []
}.
Abbreviation example_state := (tasks MemoryRepository unit).
#[local] Instance cli_tasks : TaskSystem example_state :=
  the_system Config_default None tick failing_send no_body no_swarm (ret tt).
#[local] Instance cli_sessions : SessionSystem example_state :=
  the_sessions Config_default None tick failing_send no_body no_swarm (ret tt) (λ _, Speeds_new) 0.

(** The program is started again after a download was interrupted. *)
Definition restarted : Manager example_state :=
  mk_manager (snd (restore_tasks Config_default tick stopped)) [] ∅ 4 0 0.
Definition again : Cli := no_options <| cli_urls := ["http://h/f"] |>.

Lemma known_url_refused_witness :
  exit_code (fst (run_downloads Config_default id no_files again [] restarted)) = 1.
Proof.
  apply (known_url_refused Config_default None tick failing_send no_body no_swarm (ret tt)
    (λ _, Speeds_new) 0 id no_files again [] "http://h/f" ["http://h/f"] [] (SpecHttp "http://h/f") restarted);
    [done..|].
  eexists 2, _. split; [vm_compute; reflexivity|]. by vm_compute.
Defined.
Lemma unfinished_task_blocks_witness :
  wait_for_all_tasks [handle_task_event Config_default tick (EvComplete 7)] restarted =
    for_each logged [handle_task_event Config_default tick (EvComplete 7)] restarted.
Proof.
  eapply (unfinished_task_blocks Config_default None tick failing_send no_body no_swarm (ret tt) 2);
    [by vm_compute|by vm_compute|by apply not_elem_of_nil|].
  apply Forall_singleton. constructor.
Defined.
(** One task was canceled, the new one still waits in the queue. *)
Definition canceled_before : Manager example_state :=
  mk_manager (example_tasks (running_task <| t_status := Canceled |>)) [] ∅ 0 0 0.
Lemma exit_code_spec_witness :
  exit_code (fst (run_downloads Config_default id no_files (again <| cli_urls := ["http://h/g"] |>) []
    canceled_before)) = 2.
Proof.
  pose proof (exit_code_spec Config_default None tick failing_send no_body no_swarm (ret tt) (λ _, Speeds_new) 0 id
    no_files (again <| cli_urls := ["http://h/g"] |>) [] canceled_before) as Hs.
  destruct (run_downloads _ _ _ _ _ _) as [r g] eqn:E1.
  assert ((size (ts_jobs (mg_tasks g)), t_status ∘ js_task <$> ts_jobs (mg_tasks g) !! 1, is_ok r) =
    (2%nat, Some Canceled, true)) as [= Hsize Hc Hr].
  { change r with (fst (r, g)). change g with (snd (r, g)) at 1 2. rewrite <- E1. by vm_compute. }
  destruct Hs as [Hz Htwo]; [rewrite Hsize; by vm_compute|].
  destruct Htwo as [H0|H2]; [destruct r as [s|]; [by exists s|done]| |exact H2].
  exfalso. apply Hz in H0 as [_ Hall]. apply fmap_Some in Hc as (j & Hj & Hst).
  by destruct (Hall 1 j Hj) as [[] _].
Defined.
