(* ===== verification/NativeCli.v ===== *)
(** * The runner for torrents
    ([src/integrations/libtorrent-engine/src/bin/paradown-libtorrent.rs])

    A program of its own around the library and the libtorrent engine: it adds
    what is known of a swarm to every torrent it is given, fetches torrent files,
    and waits for its tasks, for a limited time if asked to. *)

From S2P Require Import Prelude Text Float Status Effect Source Piece Files Checksum Manifest Planner Torrent Config Task Speed Mapping Session RateLimiter Probe Coordinator Magnet Discovery Swarm Providers Startup Commands Options Cli.

(** ** Options *)

(** [src/integrations/libtorrent-engine/src/bin/paradown-libtorrent.rs:127-133], [DiscoveryInputArg]. *)
Inductive DiscoveryInputArg := ArgAuto | ArgHtml | ArgFeed | ArgText.
(** [src/integrations/libtorrent-engine/src/bin/paradown-libtorrent.rs:740-749], [TorrentDiscoveryInputKind::from]. *)
Definition input_kind_of (a : DiscoveryInputArg) : TorrentDiscoveryInputKind :=
  match a with ArgAuto => InputAuto | ArgHtml => InputHtml | ArgFeed => InputFeed | ArgText => InputText end.

(** [src/integrations/libtorrent-engine/src/bin/paradown-libtorrent.rs:23-125], [Cli]. Times are not zero. *)
Record NativeCli := mk_native_cli {
  nv_config : option string;
  nv_download_dir : option string;
  nv_storage_db : option string;
  nv_rate_limit_kib : option Z;
  nv_timeout_secs : option Z;
  nv_listen_interfaces : option string;
  nv_peers : list string;
  nv_trackers : list string;
  nv_tracker_files : list string;
  nv_web_seeds : list string;
  nv_disable_swarm_providers : bool;
  nv_swarm_provider_cache_dir : option string;
  nv_tracker_list_urls : list string;
  nv_tracker_list_cache_ttl_secs : option Z;
  nv_tracker_list_timeout_secs : option Z;
  nv_index_url_templates : list string;
  nv_index_query : option string;
  nv_index_kind : DiscoveryInputArg;
  nv_index_cache_ttl_secs : option Z;
  nv_index_timeout_secs : option Z;
  nv_swarm_max_trackers : option Z;
  nv_swarm_max_peers : option Z;
  nv_swarm_max_web_seeds : option Z;
  nv_swarm_max_locators : option Z;
  nv_disable_dht : bool;
  nv_disable_lsd : bool;
  nv_disable_upnp : bool;
  nv_disable_natpmp : bool;
  nv_urls : list string;
  nv_discover_files : list string;
  nv_discover_urls : list string;
  nv_discover_kind : DiscoveryInputArg;
  nv_locators : list string
}.

#[export] Instance SwarmProviderLimits_eta : Settable SwarmProviderLimits := λ l,
  mk_limits (max_trackers l) (max_peers l) (max_web_seeds l) (max_locators l) (max_diagnostics l).
Definition on_swarm (f : SwarmProviderConfig → SwarmProviderConfig) (c : Config) : Config :=
  c <| p2p ::= λ p, p <| swarm ::= f |> |>.
Definition on_libtorrent (f : LibtorrentEngineConfig → LibtorrentEngineConfig) (c : Config) : Config :=
  c <| p2p ::= λ p, p <| libtorrent ::= f |> |>.
(** [if let Some(v) = option { .. }] *)
Definition given {A} (o : option A) (f : A → Config → Config) (c : Config) : Config :=
  match o with Some v => f v c | None => c end.

(** The index providers of the templates, the first of them with the number [index]. *)
Fixpoint cli_index_providers (cli : NativeCli) (ttl timeout_secs index : Z) (templates : list string)
    : list SwarmIndexProviderConfig :=
  match templates with
  | [] => []
  | url_template :: templates =>
      mk_index_provider ("cli-index-" +:+ show_u64 (wrap64 (index + 1))) url_template (input_kind_of (nv_index_kind cli))
        (unwrap_or ttl (nv_index_cache_ttl_secs cli)) (unwrap_or timeout_secs (nv_index_timeout_secs cli))
      :: cli_index_providers cli ttl timeout_secs (index + 1) templates
  end.

(** [src/integrations/libtorrent-engine/src/bin/paradown-libtorrent.rs:428-508], [apply_cli_swarm_provider_config]. *)
Definition apply_cli_swarm_provider_config (cli : NativeCli) (c : Config) : Config :=
  let c := if nv_disable_swarm_providers cli then on_swarm (λ s, s <| sw_enabled := false |>) c else c in
  let c := given (nv_swarm_provider_cache_dir cli) (λ v, on_swarm (λ s, s <| sw_cache_dir := Some v |>)) c in
  let c := on_swarm (λ s, s <| sw_static_trackers ::= λ l, l ++ nv_trackers cli |>
                            <| sw_static_tracker_files ::= (λ l, l ++ nv_tracker_files cli) |>
                            <| sw_static_peers ::= (λ l, l ++ nv_peers cli) |>
                            <| sw_static_web_seeds ::= (λ l, l ++ nv_web_seeds cli) |>
                            <| sw_tracker_list_urls ::= (λ l, l ++ nv_tracker_list_urls cli) |>) c in
  let c := given (nv_tracker_list_cache_ttl_secs cli)
             (λ v, on_swarm (λ s, s <| sw_tracker_list_cache_ttl_secs := v |>)) c in
  let c := given (nv_tracker_list_timeout_secs cli)
             (λ v, on_swarm (λ s, s <| sw_tracker_list_timeout_secs := v |>)) c in
  let c := on_swarm (λ s, s <| sw_index_providers ::= λ l, l ++
             cli_index_providers cli (sw_tracker_list_cache_ttl_secs s) (sw_tracker_list_timeout_secs s) 0
               (nv_index_url_templates cli) |>) c in
  let c := on_swarm (λ s, s <| sw_discovery_files ::= λ l, l ++ nv_discover_files cli |>
                            <| sw_discovery_urls ::= (λ l, l ++ nv_discover_urls cli) |>
                            <| sw_discovery_input_kind := input_kind_of (nv_discover_kind cli) |>) c in
  let limit (o : option Z) (f : Z → SwarmProviderLimits → SwarmProviderLimits) :=
    given o (λ v, on_swarm (λ s, s <| sw_limits ::= f v |>)) in
  limit (nv_swarm_max_locators cli) (λ v l, l <| max_locators := v |>)
    (limit (nv_swarm_max_web_seeds cli) (λ v l, l <| max_web_seeds := v |>)
      (limit (nv_swarm_max_peers cli) (λ v l, l <| max_peers := v |>)
        (limit (nv_swarm_max_trackers cli) (λ v l, l <| max_trackers := v |>) c))).

(** [src/integrations/libtorrent-engine/src/bin/paradown-libtorrent.rs:394-422], [build_config (options)]. *)
Definition apply_native_options (cli : NativeCli) (c : Config) : Config :=
  let c := c <| p2p ::= λ p, p <| p2p_enabled := true |> |> in
  let c := given (nv_download_dir cli) (λ v c, c <| download_dir := v |>) c in
  let c := given (nv_storage_db cli) (λ v c, c <| storage_backend := BSqlite v |>) c in
  let c := given (nv_rate_limit_kib cli) (λ v c, c <| rate_limit_kib_per_sec := non_zero v |>) c in
  let c := match nv_listen_interfaces cli with
    | Some v => on_libtorrent (λ l, l <| listen_interfaces := Some v |>) c
    | None =>
        match listen_interfaces (libtorrent (p2p c)) with
        | None => on_libtorrent (λ l, l <| listen_interfaces := Some "0.0.0.0:6881" |>) c
        | Some _ => c
        end
    end in
  let c := if nv_disable_dht cli then on_libtorrent (λ l, l <| enable_dht := false |>) c else c in
  let c := if nv_disable_lsd cli then on_libtorrent (λ l, l <| enable_lsd := false |>) c else c in
  let c := if nv_disable_upnp cli then on_libtorrent (λ l, l <| enable_upnp := false |>) c else c in
  let c := if nv_disable_natpmp cli then on_libtorrent (λ l, l <| enable_natpmp := false |>) c else c in
  apply_cli_swarm_provider_config cli c.

Section config.
Context (toml_from_str : string → result ConfigFile string) (env : string → option string).

(** [src/integrations/libtorrent-engine/src/bin/paradown-libtorrent.rs:388-426], [build_config]. Errors as
    their texts. *)
Definition native_build_config (f : fs) (cli : NativeCli) : result Config string :=
  let? config := match nv_config cli with
    | Some path => result_map_err ConfigLoadError_display (from_file toml_from_str f path)
    | None => Ok Config_default
    end in
  let? config := match apply_env_overrides env config with
    | (Ok _, config) => Ok config
    | (Err err, _) => Err (ConfigError_display err)
    end in
  let config := apply_native_options cli config in
  let? _ := result_map_err ConfigError_display (validate config) in
  Ok config.
End config.

(** ** Locators and hints *)

(** [src/integrations/libtorrent-engine/src/bin/paradown-libtorrent.rs:510-516], [collect_locators]. *)
Definition collect_locators (cli : NativeCli) : list string := nv_urls cli ++ nv_locators cli.

(** [src/integrations/libtorrent-engine/src/bin/paradown-libtorrent.rs:632-645], [read_tracker_files]. *)
Fixpoint read_tracker_files (f : fs) (paths : list string) : result (list string) string :=
  match paths with
  | [] => Ok []
  | path :: paths =>
      let? contents := result_map_err
        (λ err, "failed to read tracker file " +:+ path +:+ ": " +:+ io_error_to_string err)
        (fs_read_to_string f path) in
      let? rest := read_tracker_files f paths in
      Ok (filterb (λ line, negb (is_empty line) && negb (starts_with "#" line))%bool (trim <$> lines contents) ++ rest)
  end.
Fixpoint add_peers (hints : TorrentSwarmHints) (peers : list string) : result TorrentSwarmHints string :=
  match peers with
  | [] => Ok hints
  | peer :: peers =>
      let? endpoint := result_map_err Error_to_string (peer_parse peer) in
      add_peers (add_peer hints endpoint) peers
  end.
(** [src/integrations/libtorrent-engine/src/bin/paradown-libtorrent.rs:615-630], [collect_cli_swarm_hints]. *)
Definition collect_cli_swarm_hints (f : fs) (cli : NativeCli) : result TorrentSwarmHints string :=
  let hints := foldl add_tracker TorrentSwarmHints_default (nv_trackers cli) in
  let? trackers := read_tracker_files f (nv_tracker_files cli) in
  let hints := foldl add_tracker hints trackers in
  let? hints := add_peers hints (nv_peers cli) in
  Ok (foldl add_web_seed hints (nv_web_seeds cli)).

(** [src/integrations/libtorrent-engine/src/bin/paradown-libtorrent.rs:550-561], [apply_provider_bootstrap_candidate]. *)
Definition apply_provider_bootstrap_candidate (locators : list string) (candidate : Candidate) : list string :=
  if (match cd_kind candidate with CkMagnet | CkTorrentFile => true | _ => false end &&
      negb (bool_decide (cd_locator candidate ∈ locators)))%bool
  then locators ++ [cd_locator candidate] else locators.

(** [src/integrations/libtorrent-engine/src/bin/paradown-libtorrent.rs:605-613], [provider_kind_label]. *)
Definition provider_kind_label (k : CandidateKind) : string :=
  match k with
  | CkMagnet => "magnet" | CkTorrentFile => "torrent" | CkTracker => "tracker" | CkPeer => "peer"
  | CkWebSeed => "web-seed"
  end.
(** [src/integrations/libtorrent-engine/src/bin/paradown-libtorrent.rs:563-587], [print_swarm_provider_reports]. *)
Definition print_swarm_provider_reports (reports : list Report) : list string :=
  reports ≫= λ report,
    ("swarm provider " +:+ show_u64 (zlen (rep_candidates report)) +:+ " candidates from " +:+ rep_provider report) ::
    ((λ c, "  " +:+ provider_kind_label (cd_kind c) +:+ " " +:+ cd_locator c +:+
       match cd_display_name c with Some name => " (" +:+ name +:+ ")" | None => "" end) <$> rep_candidates report).
Definition provider_severity_debug (s : ProviderSeverity) : string :=
  match s with PsInfo => "Info" | PsWarning => "Warning" | PsError => "Error" end.
(** [src/integrations/libtorrent-engine/src/bin/paradown-libtorrent.rs:589-603], [print_swarm_provider_diagnostics]. *)
Definition print_swarm_provider_diagnostics (diagnostics : list ProviderDiagnostic) : list string :=
  (λ d, "swarm provider " +:+ pd_provider d +:+ " " +:+ provider_severity_debug (pd_severity d) +:+ ": " +:+
     pd_message d +:+ match pd_source d with Some source => " source=" +:+ source | None => "" end) <$> diagnostics.

(** [src/integrations/libtorrent-engine/src/bin/paradown-libtorrent.rs:647-659], [source_set_with_hints]. *)
Definition source_set_with_hints (spec : DownloadSpec) (hints : TorrentSwarmHints) : SourceSet :=
  let set := sources_for_spec spec None in
  let set := foldl (λ s t, source_push_unique s (source_tracker t)) set (th_trackers hints) in
  let set := foldl (λ s p, source_push_unique s (source_peer (peer_to_string p))) set (th_peers hints) in
  foldl (λ s w, source_push_unique s (source_web_seed w)) set (th_web_seeds hints).

(** ** Torrent files that are fetched *)

(** [value.split(['?', '#']).next()] *)
Fixpoint before_query (s : string) : string :=
  match s with
  | EmptyString => ""
  | String c s => if (Ascii.eqb c "?" || Ascii.eqb c "#")%bool then "" else String c (before_query s)
  end.
(** [src/integrations/libtorrent-engine/src/bin/paradown-libtorrent.rs:289-296], [is_remote_torrent_locator]. *)
Definition is_remote_torrent_locator (locator : string) : bool :=
  let lowered := to_ascii_lowercase locator in
  ((starts_with "http://" lowered || starts_with "https://" lowered) &&
   ends_with ".torrent" (before_query lowered))%bool.
Definition kept_char (c : ascii) : bool :=
  (Chr.is_digit c || ((65 <=? Chr.code c) && (Chr.code c <=? 90)) ||
   ((97 <=? Chr.code c) && (Chr.code c <=? 122)) || Ascii.eqb c "." || Ascii.eqb c "_" || Ascii.eqb c "-")%bool.
(** [src/integrations/libtorrent-engine/src/bin/paradown-libtorrent.rs:308-324], [sanitize_file_name]. *)
Definition sanitize_file_name (value : string) : string :=
  let sanitized := String.concat "" (
    (λ ch, match ch with String c EmptyString => if kept_char c then ch else "_" | _ => "_" end) <$> chars value) in
  if is_empty sanitized then "remote.torrent" else sanitized.
(** [src/integrations/libtorrent-engine/src/bin/paradown-libtorrent.rs:298-306], [remote_torrent_cache_name]. *)
Definition remote_torrent_cache_name (locator : string) (index : Z) : string :=
  let base := unwrap_or "remote.torrent"
    (opt_filter (λ name, negb (blank name)) (last (split "/" (before_query locator)))) in
  pad_zeros 3 (show_u64 index) +:+ "-" +:+ sanitize_file_name base.

(** ** Texts *)

(** [src/integrations/libtorrent-engine/src/bin/paradown-libtorrent.rs:717-738], [format_diagnostic]. *)
Definition format_diagnostic (d : TorrentDiagnosticEvent) : string :=
  scope_debug (td_scope d) +:+ "/" +:+ severity_debug (td_severity d) +:+ ": " +:+ td_message d +:+
  match td_url d with Some url => " url=" +:+ url | None => "" end +:+
  match td_endpoint d with Some endpoint => " endpoint=" +:+ endpoint | None => "" end +:+
  match td_peers d with Some peers => " peers=" +:+ show_u64 peers | None => "" end.
(** [src/integrations/libtorrent-engine/src/bin/paradown-libtorrent.rs:350-364], [print_snapshot_summary (println)]. *)
Definition summary_line (s : SessionSnapshot) : string :=
  "#" +:+ show_u64 (sn_id s) +:+ " " +:+ sn_status s +:+ " " +:+ show_u64 (sn_downloaded_size s) +:+ "/" +:+
  (if sn_total_size_known s then show_u64 (sn_total_size s) else "?") +:+ " " +:+
  unwrap_or (sn_locator s) (sn_file_path s).
(** [src/integrations/libtorrent-engine/src/bin/paradown-libtorrent.rs:366-385], [print_snapshot_summary (torrent)]. *)
Definition summary_errors (s : SessionSnapshot) : list string :=
  match sn_torrent s with
  | None => []
  | Some torrent =>
      let id := "#" +:+ show_u64 (sn_id s) in
      (id +:+ " swarm " +:+ TorrentEngineState_debug (tn_state torrent) +:+ " metadata=" +:+
       bool_text (tn_metadata_ready torrent) +:+ " peers=" +:+ show_u64 (tn_connected_peers torrent) +:+ " seeds=" +:+
       show_u64 (tn_seeds torrent) +:+ " down=" +:+ show_u64 (tn_download_rate_bps torrent) +:+ "/s up=" +:+
       show_u64 (tn_upload_rate_bps torrent) +:+ "/s") ::
      ((λ d, id +:+ " diagnostic " +:+ format_diagnostic d) <$> take 12 (rev (tn_diagnostics torrent)))
  end.
(** [src/integrations/libtorrent-engine/src/bin/paradown-libtorrent.rs:691-715], [spawn_event_reporter]. The
    line of an event. *)
Definition event_line (event : Event) : string :=
  let task id (words : string) := "#" +:+ show_u64 id +:+ " " +:+ words in
  match event with
  | EvPending id => task id "pending"
  | EvPreparing id => task id "preparing"
  | EvStart id => task id "started"
  | EvPause id => task id "paused"
  | EvProgress id downloaded total => task id ("progress " +:+ show_u64 downloaded +:+ "/" +:+ show_u64 total)
  | EvComplete id => task id "completed"
  | EvError id err => task id ("failed: " +:+ Error_to_string err)
  | EvTorrentDiagnostic id diagnostic => task id ("torrent " +:+ format_diagnostic diagnostic)
  | EvCancel id => task id "canceled"
  | EvDelete id => task id "deleted"
  end.

Example native_texts :
  remote_torrent_cache_name "http://h/a%20b/x%20y.torrent?k=/z" 7 = "007-x_20y.torrent" ∧
  remote_torrent_cache_name "http://h/" 1234 = "1234-remote.torrent" ∧
  is_remote_torrent_locator "HTTPS://h/x.Torrent#f" = true ∧ is_remote_torrent_locator "x.torrent" = false.
Proof. by vm_compute. Qed.

(** ** The run *)

(** What the runner uses of the tasks besides what the manager and the command line do. *)
Class TorrentRunner (W : Type) `{SessionSystem W} := {
  sys_add_session : TaskRequest → eff W Z;                          (* [Manager::add_session] *)
  sys_torrent_handle : W → Z → option TorrentEngineHandle;          (* [Session::torrent_handle] *)
  sys_connect_peer : TorrentEngineHandle → TorrentPeerEndpoint → eff W unit;  (* of the engine *)
  sys_files : W → fs;
  sys_set_files : fs → W → W
}.

(** The manager, the number of looks at the network, and the lines that were printed as errors and as
    output. *)
Record runner (W : Type) := mk_runner {
  rn_manager : Manager W;
  rn_looks : nat;
  rn_errors : list string;
  rn_output : list string
}.
Arguments mk_runner {W}.
Arguments rn_manager {W}.
Arguments rn_looks {W}.
Arguments rn_errors {W}.
Arguments rn_output {W}.
#[export] Instance runner_eta {W} : Settable (runner W) := λ r,
  mk_runner (rn_manager r) (rn_looks r) (rn_errors r) (rn_output r).

Section run.
Context {W : Type} `{TorrentRunner W} `{UrlLib} `{!DiscoveryLib} `{WebLib} `{DigestLib}.
Context (config : Config) (age : nat → string → option Z) (get : nat → string → result Response string)
  (client : result unit string) (canonicalize : string → option string).
Abbreviation run := (effx string (runner W)).

Definition eprint (l : list string) : run unit := modify (λ r, r <| rn_errors ::= λ k, k ++ l |>).
Definition print (l : list string) : run unit := modify (λ r, r <| rn_output ::= λ k, k ++ l |>).
(** A call of the manager, with the text of its error. *)
Definition managed {A} (m : eff (Manager W) A) : run A := λ r,
  let '(a, g) := m (rn_manager r) in (result_map_err Error_to_string a, r <| rn_manager := g |>).

(** *** Before the manager is made *)

(** [src/integrations/libtorrent-engine/src/bin/paradown-libtorrent.rs:518-548],
    [collect_provider_bootstrap_inputs]. The locators, the hints, the reports and the lines that are
    printed. *)
Definition collect_provider_bootstrap_inputs (cli : NativeCli) (locators : list string) (hints : TorrentSwarmHints)
    : net (list string * TorrentSwarmHints * list Report * list string) :=
  let bootstrap_config :=
    if (negb (is_some (nv_index_query cli)) && negb (bool_decide (locators = [])))%bool
    then on_swarm (λ s, s <| sw_index_providers := [] |>) config else config in
  let! resolver := lift (build_swarm_provider_resolver age get client canonicalize (swarm (p2p bootstrap_config))
                           (download_dir bootstrap_config)) in
  match resolver with
  | None => ret (locators, hints, [], [])
  | Some resolve =>
      let! resolution := resolve (SpecMetadata (nv_index_query cli) None) hints in
      ret (foldl apply_provider_bootstrap_candidate locators (rs_candidates resolution), rs_hints resolution,
           rs_reports resolution, print_swarm_provider_diagnostics (rs_diagnostics resolution))
  end.

(** [src/integrations/libtorrent-engine/src/bin/paradown-libtorrent.rs:161-171], [run (inputs)]. The
    locators and the hints, and the lines that are printed. *)
Definition collect_inputs (cli : NativeCli)
    : effx string net_world (list string * TorrentSwarmHints * list string) := λ w,
  match collect_cli_swarm_hints (nw_fs w) cli with
  | Err err => (Err err, w)
  | Ok hints =>
      match collect_provider_bootstrap_inputs cli (collect_locators cli) hints w with
      | (Err err, w) => (Err (Error_to_string err), w)
      | (Ok (locators, hints, reports, printed), w) =>
          if bool_decide (locators = []) then
            (Err "provide at least one .torrent path, magnet URI, discovery file, or discovery URL", w)
          else (Ok (locators, hints, printed ++ print_swarm_provider_reports reports), w)
      end
  end.

(** *** Adding the tasks *)

Definition io_step (f : fs → result fs io_error) : run unit := λ r,
  match f (sys_files (mg_tasks (rn_manager r))) with
  | Ok s => (Ok tt, r <| rn_manager ::= λ g, g <| mg_tasks ::= sys_set_files s |> |>)
  | Err err => (Err (io_error_to_string err), r)
  end.
(** [src/integrations/libtorrent-engine/src/bin/paradown-libtorrent.rs:256-287], [prepare_native_locator].
    With whether the client can be built for the timeout. *)
Definition prepare_native_locator (native_client : Z → result unit string) (locator cache_dir : string)
    (index timeout_secs : Z) : run string :=
  if negb (is_remote_torrent_locator locator) then ret locator
  else
    io_step (λ f, fs_create_dir_all f cache_dir) ;;;
    let cache_path := path_join cache_dir (remote_torrent_cache_name locator index) in
    lift (native_client (Z.max timeout_secs 1)) ;;;
    let! response := λ r, (Ok (get (rn_looks r) locator), r <| rn_looks ::= S |>) in
    let! data := lift (
      let? response := response in
      let? response :=
        if ((400 <=? rs_status response) && (rs_status response <? 600))%bool
        then Err (status_error_text response) else Ok response in
      response_bytes response) in
    io_step (λ f, fs_write_file f cache_path data) ;;;
    eprint ["fetched torrent URL " +:+ locator +:+ " -> " +:+ cache_path] ;;;
    ret cache_path.

(** What the loop over the locators has found: the tasks, their torrents, and the peers for them. *)
Record added := mk_added {
  ad_task_ids : list Z;
  ad_handles : list TorrentEngineHandle;
  ad_peers : list TorrentPeerEndpoint
}.
(** Adding a session; one with the same id is replaced in the map. *)
Definition add_session (request : TaskRequest) : eff (Manager W) Z := λ g,
  let '(r, w) := sys_add_session request (mg_tasks g) in
  (r, g <| mg_tasks := w |> <| mg_orphans ::= λ n, n + (held (mg_tasks g) - held w) |>).
(** [peer_hints.push(..)] of the peers that are not there. *)
Definition push_peers (peers l : list TorrentPeerEndpoint) : list TorrentPeerEndpoint :=
  foldl (λ l p, if bool_decide (p ∈ l) then l else l ++ [p]) peers l.
(** [src/integrations/libtorrent-engine/src/bin/paradown-libtorrent.rs:190-215], [run (for loop)]. *)
Definition add_locator (native_client : Z → result unit string) (cli_hints : TorrentSwarmHints) (cache_dir locator : string)
    (index : Z) (a : added) : run added :=
  let! locator := prepare_native_locator native_client locator cache_dir index (connect_timeout_secs config) in
  let! spec := lift (result_map_err Error_to_string (spec_parse locator)) in
  let source_set := source_set_with_hints spec cli_hints in
  let! swarm_hints := lift (result_map_err Error_to_string (from_spec_and_sources spec source_set)) in
  let peers := push_peers (ad_peers a) (th_peers swarm_hints) in
  let! task_id := managed (add_session (request_sources source_set (request_builder spec))) in
  managed (start_task task_id) ;;;
  let! handle := gets (λ r, if has_task (rn_manager r) task_id
                            then sys_torrent_handle (mg_tasks (rn_manager r)) task_id else None) in
  ret (mk_added (ad_task_ids a ++ [task_id])
         (match handle with Some h => ad_handles a ++ [h] | None => ad_handles a end) peers).
Fixpoint add_locators (native_client : Z → result unit string) (cli_hints : TorrentSwarmHints) (cache_dir : string) (locators : list string)
    (index : Z) (a : added) : run added :=
  match locators with
  | [] => ret a
  | locator :: locators =>
      let! a := add_locator native_client cli_hints cache_dir locator index a in
      add_locators native_client cli_hints cache_dir locators (index + 1) a
  end.

(** *** Waiting *)

(** [src/integrations/libtorrent-engine/src/bin/paradown-libtorrent.rs:670-687], [spawn_peer_connector (loop
    body)]. One round of connecting every peer to every torrent; an error is printed once. *)
Definition connect_round (handles : list TorrentEngineHandle) (peers : list TorrentPeerEndpoint)
    (reported_errors : list string) : effx Empty_set (runner W) (list string) :=
  let connect (handle : TorrentEngineHandle) (peer : TorrentPeerEndpoint) (reported : list string)
      : effx Empty_set (runner W) (list string) := λ r,
    let '(res, g) := on_tasks (sys_connect_peer handle peer) (rn_manager r) in
    let r := r <| rn_manager := g |> in
    match res with
    | Ok _ => (Ok reported, r)
    | Err err =>
        let key := th_external_id handle +:+ ":" +:+ peer_to_string peer in
        if bool_decide (key ∈ reported) then (Ok reported, r)
        else (Ok (key :: reported), r <| rn_errors ::= λ k, k ++
               ["#" +:+ th_external_id handle +:+ " peer " +:+ peer_to_string peer +:+ " failed: " +:+
                Error_to_string err] |>)
    end in
  let fix rounds (l : list (TorrentEngineHandle * TorrentPeerEndpoint)) (reported : list string)
      : effx Empty_set (runner W) (list string) :=
    match l with
    | [] => ret reported
    | (handle, peer) :: l => let! reported := connect handle peer reported in rounds l reported
    end in
  rounds (handles ≫= λ handle, (λ peer, (handle, peer)) <$> peers) reported_errors.

(** What happens while it waits; [None] is the end of the time. *)
Abbreviation happening := (option (eff (Manager W) unit)).
(** [wait_for_all_tasks] with a timer. Whether the timer ended it. *)
Fixpoint wait_until (happens : list happening) : eff (Manager W) bool :=
  let! ids := all_ids in
  match ids with
  | [] => persist_http_session_state ;;; ret false
  | _ =>
      let! all_terminal := gets (λ g, forallb (sys_terminal (mg_tasks g)) ids) in
      if all_terminal then persist_http_session_state ;;; ret false
      else
        match happens with
        | [] => ret false
        | None :: _ => ret true
        | Some m :: happens => logged m ;;; wait_until happens
        end
  end.
(** [src/integrations/libtorrent-engine/src/bin/paradown-libtorrent.rs:326-347], [wait_for_completion]. *)
Definition wait_for_completion (timeout_secs : option Z) (happens : list happening) : eff (Manager W) bool :=
  match timeout_secs with
  | None => wait_for_all_tasks (omap (λ m, m) happens) ;;; ret false
  | Some _ => wait_until happens
  end.

(** [src/integrations/libtorrent-engine/src/bin/paradown-libtorrent.rs:239-251], [run (summary)]. The exit
    code, by those of the tasks before. *)
Fixpoint summarize_tasks (timed_out : bool) (task_ids : list Z) (exit_code : Z) : run Z :=
  match task_ids with
  | [] => ret exit_code
  | task_id :: task_ids =>
      let! session := gets (λ r, sys_snapshot (mg_tasks (rn_manager r)) task_id) in
      match session with
      | None => summarize_tasks timed_out task_ids (if negb timed_out then 1 else exit_code)
      | Some snapshot =>
          print [summary_line snapshot] ;;;
          eprint (summary_errors snapshot) ;;;
          summarize_tasks timed_out task_ids
            (if (negb (String.eqb (sn_status snapshot) "Completed") && negb timed_out)%bool then 1 else exit_code)
      end
  end.

(** [src/integrations/libtorrent-engine/src/bin/paradown-libtorrent.rs:185-253], [run (tasks)]. With the
    locators and hints that were collected. *)
Definition run_tasks (native_client : Z → result unit string) (cli : NativeCli) (locators : list string)
    (cli_hints : TorrentSwarmHints) (happens : list happening) : run Z :=
  let cache_dir := path_join (path_join (download_dir config) ".paradown") "torrent-inputs" in
  let! a := add_locators native_client cli_hints cache_dir locators 0 (mk_added [] [] []) in
  if (negb (bool_decide (ad_peers a = [])) && bool_decide (ad_handles a = []))%bool then
    throw "explicit peers were provided, but no torrent handles are available"
  else
    let! timed_out := managed (wait_for_completion (nv_timeout_secs cli) happens) in
    (if (timed_out : bool) then
       eprint (match nv_timeout_secs cli with
               | Some timeout_secs => ["paradown-libtorrent: timed out after " +:+ show_u64 timeout_secs +:+
                                       "s; canceling active tasks"]
               | None => []
               end) ;;;
       managed (logged cancel_all)
     else ret tt) ;;;
    summarize_tasks timed_out (ad_task_ids a) (if timed_out then 124 else 0).
End run.

(** [src/integrations/libtorrent-engine/src/bin/paradown-libtorrent.rs:135-154], [main]. The exit code and the
    line that is printed, from the result of the run. *)
Definition native_main (r : result Z string) : Z * list string :=
  match r with
  | Ok code => (code, [])
  | Err err => (1, ["paradown-libtorrent: " +:+ err])
  end.
