(* ===== verification/NativeFacts.v ===== *)
(** * The runner for torrents: what it guarantees

    Where fetched torrent files are kept, and what its exit code says. *)

From S2P Require Import Prelude Text Float Status Effect Source Piece Files Checksum Manifest Planner Payload Torrent Config Task Speed Mapping Session RateLimiter Repository Memory Store Recovery Probe Job JobFacts JobStart Coordinator CoordinatorSteps CoordinatorFacts System SystemFacts Magnet Discovery Swarm Providers TorrentJob Engine EngineFacts Startup Commands Options Cli CliFacts CliSystem NativeCli.

(** ** Names of caches *)

Definition name_char (c : ascii) : bool := kept_char c.
Lemma kept_not_slash c : kept_char c = true → Ascii.eqb "/" c = false ∧ Ascii.eqb "\" c = false.
Proof. intros Hc. split; apply Ascii.eqb_neq; intros <-; by vm_compute in Hc. Qed.
Lemma digit_kept c : Chr.is_digit c = true → kept_char c = true.
Proof. unfold kept_char. by intros ->. Qed.

Lemma split_once_absent c s : all_chars (λ d, negb (Ascii.eqb c d)) s = true → split_once (String c "") s = None.
Proof.
  induction s as [|d s IH]; [done|]. cbn [all_chars split_once]. intros [Hd Hs]%andb_true_iff.
  unfold starts_with. cbn. apply negb_true_iff in Hd.
  destruct (ascii_dec c d) as [->|]; [by rewrite Ascii.eqb_refl in Hd|]. by rewrite IH.
Qed.
Lemma all_chars_concat p l : Forall (λ s, all_chars p s = true) l → all_chars p (String.concat "" l) = true.
Proof.
  induction 1 as [|s l Hs Hl IH]; [done|]. destruct l as [|t l]; [done|].
  change (String.concat "" (s :: t :: l)) with (s +:+ ("" +:+ String.concat "" (t :: l))).
  rewrite all_chars_append, Hs. exact IH.
Qed.
Lemma sanitized_kept s : all_chars kept_char (sanitize_file_name s) = true ∧ sanitize_file_name s ≠ "".
Proof.
  unfold sanitize_file_name. set (l := _ <$> chars s).
  assert (Forall (λ s, all_chars kept_char s = true) l) as Hl.
  { apply Forall_fmap, Forall_true. intros [|c [|d t]]; try done. cbn. destruct (kept_char c) eqn:Hc; [|done].
    cbn. by rewrite Hc. }
  pose proof (all_chars_concat kept_char l Hl) as Hk. destruct (String.concat "" l); [done|]. cbn. by split.
Qed.
Lemma zeros_digits n : all_chars Chr.is_digit (zeros n) = true.
Proof. by induction n. Qed.
Lemma padded_digits n i : all_chars Chr.is_digit (pad_zeros n (show_u64 i)) = true.
Proof. unfold pad_zeros. by rewrite all_chars_append, zeros_digits, show_u64_digits. Qed.

Lemma parse_zeros n s : parse_digits u64_max (zeros n +:+ s) 0 = parse_digits u64_max s 0.
Proof.
  induction n as [|n IH]; [done|]. change (zeros (S n) +:+ s) with (String (digit 0) (zeros n +:+ s)).
  by rewrite parse_digits_digit by (by unfold u64_max).
Qed.
Lemma parse_padded n i : is_u64 i → parse_digits u64_max (pad_zeros n (show_u64 i)) 0 = Ok i.
Proof.
  intros Hi. unfold pad_zeros. rewrite parse_zeros. unfold is_u64, u64_max in Hi. unfold show_u64.
  rewrite parse_digits_digits; [done|change (Z.of_nat 20) with 20; lia|unfold u64_max; lia].
Qed.
Lemma digits_split a b x y : all_chars Chr.is_digit a = true → all_chars Chr.is_digit b = true →
  a +:+ "-" +:+ x = b +:+ "-" +:+ y → a = b.
Proof.
  revert b. induction a as [|c a IH]; intros [|d b] Ha Hb Heq; [done|..].
  - exfalso. injection Heq as <- _. done.
  - exfalso. injection Heq as -> _. done.
  - injection Heq as <- Heq. cbn [all_chars] in Ha, Hb. apply andb_true_iff in Ha as [_ Ha], Hb as [_ Hb].
    f_equal. by apply IH.
Qed.

Lemma cache_name_kept locator index : all_chars kept_char (remote_torrent_cache_name locator index) = true.
Proof.
  unfold remote_torrent_cache_name. rewrite !all_chars_append.
  rewrite (all_chars_impl _ _ _ digit_kept (padded_digits 3 index)). by destruct (sanitized_kept
    (unwrap_or "remote.torrent" (opt_filter (λ name, negb (blank name)) (last (split "/" (before_query locator)))))) as [-> _].
Qed.
Lemma cache_name_safe locator index : unsafe_component (remote_torrent_cache_name locator index) = false.
Proof.
  pose proof (cache_name_kept locator index) as Hk. unfold unsafe_component, contains.
  assert (∀ c, c = "/"%char ∨ c = "\"%char → split_once (String c "") (remote_torrent_cache_name locator index) = None) as Hc.
  { intros c Hc. apply split_once_absent. eapply all_chars_impl; [|exact Hk]. intros d Hd.
    destruct (kept_not_slash d Hd) as [H1 H2]. destruct Hc as [-> | ->]; [by rewrite H1|by rewrite H2]. }
  rewrite !Hc by auto. clear Hc Hk. unfold remote_torrent_cache_name.
  pose proof (padded_digits 3 index) as Hd. unfold pad_zeros in *.
  destruct (zeros (3 - String.length (show_u64 index)) +:+ show_u64 index) as [|c s]; [done|].
  cbn [all_chars] in Hd. apply andb_true_iff in Hd as [Hc Hs].
  change (String c s +:+ ?t) with (String c (s +:+ t)). cbn [is_empty String.eqb].
  assert (Ascii.eqb c "." = false) as -> by (apply Ascii.eqb_neq; intros ->; done). done.
Qed.
Lemma cache_name_inj l l' i j : is_u64 i → is_u64 j →
  remote_torrent_cache_name l i = remote_torrent_cache_name l' j → i = j.
Proof.
  intros Hi Hj Heq. unfold remote_torrent_cache_name in Heq.
  apply digits_split in Heq; [|apply padded_digits..].
  pose proof (parse_padded 3 i Hi) as Pi. rewrite Heq, parse_padded in Pi by done. congruence.
Qed.

(** ** The exit code *)

Section exit.
Context {W : Type} `{TorrentRunner W} `{UrlLib} `{!DiscoveryLib} `{WebLib} `{DigestLib}.
Context (config : Config) (age : nat → string → option Z) (get : nat → string → result Response string)
  (native_client : Z → result unit string).
Implicit Types (r : runner W).

(** A task that the manager has, and is Completed. *)
Definition is_completed r (i : Z) : Prop :=
  ∃ s, sys_snapshot (mg_tasks (rn_manager r)) i = Some s ∧ sn_status s = "Completed".

Lemma summarize_spec timed_out ids c r code r' :
  summarize_tasks timed_out ids c r = (Ok code, r') →
  rn_manager r' = rn_manager r ∧
  (timed_out = true → code = c) ∧
  (timed_out = false → code = 0 ↔ c = 0 ∧ ∀ i, i ∈ ids → is_completed r i).
Proof.
  revert c r. induction ids as [|i ids IH]; intros c r; cbn [summarize_tasks].
  - intros [= <- <-]. split_and!; [done..|]. intros _. split; [|by intros [? _]].
    intros ->. split; [done|]. by intros i []%not_elem_of_nil.
  - unfold eff_bind at 1, gets. destruct (sys_snapshot (mg_tasks (rn_manager r)) i) as [s|] eqn:Hs.
    + unfold eff_bind at 1, print, modify. unfold eff_bind at 1, eprint, modify.
      intros E1. destruct (IH _ _ E1) as (Hm & Ht & Hf). cbn in Hm. split; [exact Hm|]. split.
      * intros ->. rewrite Ht by done. by rewrite andb_false_r.
      * intros ->. rewrite Hf by done. rewrite andb_true_r. unfold is_completed. cbn.
        destruct (String.eqb_spec (sn_status s) "Completed") as [Hc|Hc]; cbn [negb].
        -- split; intros [Hz Hall]; (split; [exact Hz|]); intros j Hj.
           ++ apply elem_of_cons in Hj as [->|Hj]; [by exists s|by apply Hall].
           ++ apply Hall. rewrite elem_of_cons. by right.
        -- split; [by intros [? _]|]. intros [_ Hall].
           destruct (Hall i) as (s' & Hs' & Hc'); [rewrite elem_of_cons; by left|]. congruence.
    + intros E1. destruct (IH _ _ E1) as (Hm & Ht & Hf). split; [exact Hm|]. split.
      * intros ->. by rewrite Ht.
      * intros ->. rewrite Hf by done. cbn [negb]. split; [by intros [? _]|]. intros [_ Hall].
        destruct (Hall i) as (s' & Hs' & _); [rewrite elem_of_cons; by left|]. congruence.
Qed.

(** How the tasks of a run come about: each locator in its turn, with its torrent
    file fetched if it is remote, is read as a download, added to the manager with
    the hints, and started. *)
Inductive takes_on (hints : TorrentSwarmHints) (dir : string) :
    list string → Z → runner W → list Z → runner W → Prop :=
  | takes_none index r : takes_on hints dir [] index r [] r
  | takes_next locator locators index path spec i started ids r r1 r2 r3 r' :
      prepare_native_locator get native_client locator dir index (connect_timeout_secs config) r = (Ok path, r1) →
      spec_parse path = Ok spec →
      managed (add_session (request_sources (source_set_with_hints spec hints) (request_builder spec))) r1 =
        (Ok i, r2) →
      managed (start_task i) r2 = (Ok started, r3) →
      takes_on hints dir locators (index + 1) r3 ids r' →
      takes_on hints dir (locator :: locators) index r (i :: ids) r'.

Lemma lift_ok {A} (x : result A string) r a r' :
  lift (S:=runner W) x r = (Ok a, r') → x = Ok a ∧ r' = r.
Proof. unfold lift. by intros [= -> ->]. Qed.
Lemma map_err_ok {A} (x : res A) a : result_map_err Error_to_string x = Ok a → x = Ok a.
Proof. by destruct x; [intros [= ->]|]. Qed.

Lemma add_locators_ids hints dir locators index a r a' r' :
  add_locators config get native_client hints dir locators index a r = (Ok a', r') →
  ∃ ids, ad_task_ids a' = ad_task_ids a ++ ids ∧ takes_on hints dir locators index r ids r'.
Proof.
  revert index a r. induction locators as [|l locators IH]; intros index a r; cbn [add_locators].
  - intros [= <- <-]. exists []. rewrite app_nil_r. split; [done|constructor].
  - intros (a1 & r1 & E1 & E2)%eff_bind_inv. destruct (IH _ _ _ E2) as (ids & -> & Hl).
    unfold add_locator in E1. apply eff_bind_inv in E1 as (path & ra & Ea & E1).
    apply eff_bind_inv in E1 as (spec & rb & Eb & E1). apply lift_ok in Eb as [Eb%map_err_ok ->].
    apply eff_bind_inv in E1 as (swarm & rc & Ec & E1). apply lift_ok in Ec as [_ ->].
    apply eff_bind_inv in E1 as (i & rd & Ed & E1). apply eff_bind_inv in E1 as (started & re & Ee & E1).
    apply eff_bind_inv in E1 as (h & rf & Ef & E1). injection Ef as _ <-. injection E1 as <- <-. cbn.
    exists (i :: ids). rewrite <- app_assoc. split; [done|]. by econstructor.
Qed.

Lemma summarize_codes timed_out ids c r code r' :
  summarize_tasks timed_out ids c r = (Ok code, r') → code = c ∨ code = 1.
Proof.
  revert c r. induction ids as [|i ids IH]; intros c r; cbn [summarize_tasks].
  - intros [= <- _]. by left.
  - unfold eff_bind at 1, gets. destruct (sys_snapshot _ i) as [s|].
    + unfold eff_bind at 1, print, modify. unfold eff_bind at 1, eprint, modify.
      intros [E1|E1]%IH; [|by right]. revert E1. case_match; auto.
    + intros [E1|E1]%IH; [|by right]. revert E1. case_match; auto.
Qed.

Lemma run_tasks_spec cli locators hints happens r code r' :
  run_tasks config get native_client cli locators hints happens r = (Ok code, r') →
  ∃ ids r1,
    takes_on hints (path_join (path_join (download_dir config) ".paradown") "torrent-inputs") locators 0 r ids r1 ∧
    (code = 0 ∨ code = 1 ∨ code = 124 ∧ is_some (nv_timeout_secs cli) = true) ∧
    (code = 0 → ∀ i, i ∈ ids → is_completed r' i) ∧
    ((∀ i, i ∈ ids → is_completed r' i) → code ≠ 1).
Proof.
  unfold run_tasks. intros (a & r1 & E1 & E2)%eff_bind_inv.
  destruct (add_locators_ids _ _ _ _ _ _ _ _ E1) as (ids & Hids & Hl). cbn in Hids.
  destruct (_ && _)%bool; [done|]. apply eff_bind_inv in E2 as (timed_out & r2 & E2 & E3).
  apply eff_bind_inv in E3 as (u & r3 & E3 & E4). rewrite Hids in E4.
  destruct (summarize_spec _ _ _ _ _ _ E4) as (Hm & Ht & Hf). exists ids, r1. split; [done|].
  assert (∀ i, is_completed r' i ↔ is_completed r3 i) as Hc by (intros i; unfold is_completed; by rewrite Hm).
  destruct timed_out.
  - rewrite Ht by done. split; [|done]. right. right. split; [done|]. unfold managed, wait_for_completion in E2.
    destruct (nv_timeout_secs cli); [done|]. exfalso. unfold eff_bind in E2.
    destruct (wait_for_all_tasks _ _) as [[]]; discriminate E2.
  - destruct (Hf eq_refl) as [HA HB]. split; [|split].
    + destruct (summarize_codes _ _ _ _ _ _ E4); auto.
    + intros Hz i Hi. apply Hc. by apply HA.
    + intros Hall. rewrite HB; [done|]. split; [done|]. intros i Hi. by apply Hc, Hall.
Qed.

(** C26. The runner.  Every locator it is given is, in their order, read as a
    download, added and started as a task ([takes_on] names their ids); the runner
    exits with 0, 1, or, if it was given a time, with 124.  It exits with 0 only if
    each of these tasks is Completed in the end, and with 1 only if one is not; a
    failure on the way is an exit with 1.  A torrent file that it fetches is
    kept under the directory for them, whatever its URL, and two of a run never in
    the same place. *)
Theorem native_runner_spec cli locators hints happens r code r' :
  run_tasks config get native_client cli locators hints happens r = (Ok code, r') →
  (∃ ids r1,
     takes_on hints (path_join (path_join (download_dir config) ".paradown") "torrent-inputs") locators 0 r ids r1 ∧
     fst (native_main (Ok code)) = code ∧
     (code = 0 ∨ code = 1 ∨ code = 124 ∧ is_some (nv_timeout_secs cli) = true) ∧
     (code = 0 → ∀ i, i ∈ ids → is_completed r' i) ∧
     ((∀ i, i ∈ ids → is_completed r' i) → code ≠ 1)) ∧
  (∀ err, fst (native_main (Err err)) = 1) ∧
  (∀ dir locator index,
     under dir (path_join dir (remote_torrent_cache_name locator index)) [remote_torrent_cache_name locator index]) ∧
  (∀ dir l l' i j, is_u64 i → is_u64 j →
     path_components (path_join dir (remote_torrent_cache_name l i)) =
       path_components (path_join dir (remote_torrent_cache_name l' j)) → i = j).
Proof.
  intros Hrun. 
  assert (∀ dir locator index,
     under dir (path_join dir (remote_torrent_cache_name locator index)) [remote_torrent_cache_name locator index]) as Hunder.
  { intros dir locator index. destruct (safe_component _ (cache_name_safe locator index)) as (Hc & Hr & _).
    apply under_join; [exact Hc|exact Hr|]. apply Forall_cons. split; [apply cache_name_safe|constructor]. }
  split_and!; [|done|exact Hunder|].
  { destruct (run_tasks_spec cli locators hints happens r code r' Hrun) as (ids & r1 & Hids & Hcode).
    by exists ids, r1. }
  intros dir l l' i j Hi Hj Heq. destruct (Hunder dir l i) as (_ & E1 & _), (Hunder dir l' j) as (_ & E2 & _).
  rewrite E1, E2 in Heq. apply app_inv_head in Heq. injection Heq as Heq. by eapply cache_name_inj.
Qed.
End exit.

(** ** The program's tasks, with the libtorrent engine *)

Section tasks.
Context {St N : Type} `{Repository St} `{NativeLib N} `{UrlLib} `{FormLib} `{HttpLib} `{DigestLib}.
Context `{Json DownloadSpec} `{Json SourceSet} `{Json TorrentEngineState} `{Json TorrentMetadata}.
Context (config : Config) (clock : nat → DateTime).
Abbreviation torrent_tasks := (tasks St (EngineState N)).
Context `{SessionSystem torrent_tasks}.

Definition on_native_engine {A} (m : eff (EngineState N) A) : eff torrent_tasks A := λ s,
  let '(r, e) := m (ts_engine s) in (r, s <| ts_engine := e |>).
Definition torrent_runner : TorrentRunner torrent_tasks := {|
  sys_add_session request := add_task config clock request;
  sys_torrent_handle s i := j ← ts_jobs s !! i; ts_handle <$> t_torrent_session (js_task j);
  sys_connect_peer handle peer := on_native_engine (connect_peer handle (peer_host peer) (peer_port peer));
  sys_files := ts_fs;
  sys_set_files f s := s <| ts_fs := f |>
|}.
End tasks.

(** ** Example: a torrent that waits in the queue and is Completed when others have dealt with it *)

#[local] Existing Instances spec_codec sources_codec state_codec metadata_codec.
#[local] Existing Instances example_digests example_http plain_urls plain_discovery bit_forms toy_native.
#[local] Existing Instance plain_web.
Abbreviation native_state := (tasks MemoryRepository (EngineState (list string))).
#[local] Instance native_system : TaskSystem native_state :=
  the_system Config_default None tick failing_send no_body (throw (EOther "no swarm")) (ret tt).
#[local] Instance native_sessions : SessionSystem native_state :=
  the_sessions Config_default None tick failing_send no_body (throw (EOther "no swarm")) (ret tt) (λ _, Speeds_new) 0.
#[local] Instance native_runner : TorrentRunner native_state := torrent_runner Config_default tick.
Definition no_native_options : NativeCli :=
  mk_native_cli None None None None None None [] [] [] [] false None [] None None [] None ArgAuto None None
    None None None None false false false false ["a.torrent"] [] [] ArgAuto [].
Definition native_start : runner native_state :=
  mk_runner (mk_manager (mk_tasks ∅ no_files memory_new no_sessions [] 0) [] ∅ 0 0 0) 0 [] [].
Definition all_completed : eff (Manager native_state) unit :=
  on_tasks (modify (λ s, s <| ts_jobs ::= fmap (λ j, j <| js_task ::= λ t, t <| t_status := Completed |> |>) |>)).

(** Two torrents, of which only the first is Completed in the end, and both of which are. *)
Definition first_completed : eff (Manager native_state) unit :=
  on_tasks (modify (λ s, s <| ts_jobs ::= alter (λ j, j <| js_task ::= λ t, t <| t_status := Completed |> |>) 1 |>)).
Definition two_torrents (happens : eff (Manager native_state) unit) : result Z string * runner native_state :=
  run_tasks Config_default (λ _ _, Err "offline") (λ _, Ok tt) no_native_options ["a.torrent"; "b.torrent"]
    TorrentSwarmHints_default [Some happens] native_start.
Example two_torrents_run : fst (two_torrents all_completed) = Ok 0 ∧ fst (two_torrents first_completed) = Ok 1.
Proof. by vm_compute. Qed.

Lemma native_runner_spec_witness :
  ∃ r' i j, two_torrents all_completed = (Ok 0, r') ∧ is_completed r' i ∧ is_completed r' j.
Proof.
  destruct (two_torrents all_completed) as [r r'] eqn:E1.
  assert (r = Ok 0) as -> by (change r with (fst (r, r')); rewrite <- E1; by vm_compute).
  destruct (native_runner_spec _ _ _ _ _ _ _ _ _ _ E1) as ((ids & r1 & Hids & _ & _ & Hall & _) & _).
  inversion Hids as [|? ? ? ? ? i ? ids1 ? ? ? ? ? _ _ _ _ Hids1]; subst.
  inversion Hids1 as [|? ? ? ? ? j ? ids2 ? ? ? ? ? _ _ _ _ Hids2]; subst.
  exists r', i, j. split; [done|].
  split; (apply Hall; [done|]); rewrite !elem_of_cons; [by left|by right; left].
Defined.
